(* ===== verification/_CoqProject ===== *)
-Q . S2P
Prelude.v
GoString.v
GoTime.v
GoMonad.v
GoCrypto.v
Encrypt.v
Sql.v
Safe.v
RedisStr.v
Mongo.v
Token.v
AdminJwt.v
JwtUtil.v
Platform.v
MarketModel.v
MarketRepo.v
MarketSpec.v
MarketRefine.v
MarketService.v
MarketSafe.v
MarketProps.v
MarketFunc.v
ReservationModel.v
ReservationRepo.v
ReservationSpec.v
ReservationService.v
ReservationSafe.v
ReservationProps.v
ReservationFunc.v
ModerationModel.v
ModerationRepo.v
ModerationService.v
ModerationSafe.v
ModerationProps.v
ModerationCache.v
ModerationGuard.v
AcademicModel.v
AcademicRepo.v
AcademicRefine.v
AcademicService.v
AcademicProps.v
CiImpact.v
CiImpactProps.v
UserModel.v
UserRepo.v
UserService.v
UserSafe.v
SessionProps.v
Middleware.v
GateProps.v
LoginGuard.v
FeedModel.v
CommentRepo.v
CommentService.v
TopicRepo.v
TopicService.v
Mq.v
MqConsumers.v
FeedMoves.v
FeedTree.v
FeedLimits.v
FeedLikes.v
FeedQueue.v
ChatModel.v
ChatService.v
ChatSpec.v
ChatProps.v
FileModel.v
FileService.v
FileProps.v
NotifyModel.v
NotifyService.v
NotifyProps.v
AgentModel.v
AgentService.v
AgentProps.v
