(* ===== verification/Prelude.v ===== *)
(** * E-campus backend: a verification library

    The repository is the Go backend of a campus application: one binary per
    service, each with gin handlers, a service layer and a gorm repository over
    MySQL, with Redis, MongoDB and RabbitMQ next to it.  This library models the
    business core of the marketplace, reservation, moderation, academic, user, topic,
    comment, chat, agent chat, file and notification services, the message queue consumers
    behind topics and comments, the tokens and checks in front of them, and the change
    impact analysis of the build, as executable functions, and proves what makes them
    correct.

    ** How the code is represented

    - [GoMonad] is the effect of a service method: a computation over a store, with
      Go's error values ([internal/platform/bizerr]), a clock, an id generator, the
      failures of external statements (one oracle answer per statement) and a log of
      what is sent out.  [x, err := f()] is [attempt] or one of the idioms [internal],
      [found], [or_nil]; an early return is a [throw].  [wp] is its weakest
      precondition.
    - [Sql] is the interface of the database gorm talks to: typed tables with unique
      indexes, [SELECT]/[UPDATE]/[INSERT]/[DELETE] with conditions as boolean
      functions of a row, and transactions with rollback.  The engine is a parameter
      ([SqlEngine]) with the documented laws; row order, error texts and the counting
      of affected rows are its choice.  [SqlGmap], next to it, is an instance used by examples.
      [RedisStr] has the same for the cache of the moderation service ([RedisEngine]) and
      for the string commands of tokens and logins ([RedisServer]): a server may lose a
      key at any time, and [RedisKeeps] is one that does not.  [Mongo] is the document
      database of topics, comments, files and notifications: collections keyed by [_id], with the driver's operations, where
      [MongoServer] chooses the order of unsorted answers and [MongoRegex] the meaning
      of regular expressions; [ObjectID] is the driver's identifiers and their
      hexadecimal form.
    - A pointer that may be nil is an [option]; int64 arithmetic that may overflow is
      written with [add64], [sub64], [mul64]; instants are nanoseconds since the epoch;
      strings are byte strings.  [GoString], with [GoPath] in it, and [GoTime] are the
      functions of the Go library the code calls.
    - An interface a service calls (profiles, capabilities, filters, gateways, file
      store, resolvers, notifiers) is a field of its [Service] record.

    ** The components

    For a component [X] (marketplace, reservation, moderation, academic, under
    [internal/]): [XModel] has the rows and statuses of [model.go], the unique indexes
    of the migration and the store; [XRepo] one definition per repository method;
    [XService] one per service method, with the request tags and response builders;
    the Module [XSpec] the specification, a step relation with one rule per business
    transition, and the invariant of its states; [XRefine] that every writing repository method is
    atomic, that is, an error leaves the tables alone and a return performs specified
    transitions; [XSafe] that every service method therefore refines the specification
    whatever the arguments, the clock, the failures and the collaborators, and
    [history], the stores reached by any sequence of requests; [XProps] and [XFunc] the
    properties, with a concrete run for the witnesses in the Module [XDemo] of [XProps].

    - Marketplace ([MarketModel] to [MarketFunc]): items, orders, payments,
      refunds, disputes and settlements.  No item is sold twice, a live order holds
      its item, an order is either paid out or refunded, paid once, priced without
      overflow, moves along its life cycle; callbacks are idempotent; due orders
      expire; a settlement pays the net amount.  The Module [MarketFindings] of
      [MarketFunc] replays defects.
    - Reservation ([ReservationModel] to [ReservationFunc]): venues, rules, closures,
      slots and bookings.  Capacity, overlap and daily limits, the booking life cycle,
      single-use check-in, the termination of the slot generator.
    - Moderation ([ModerationModel] to [ModerationGuard]): reports, punishments,
      appeals and their audit trail, and the capability check other services call,
      with its Redis cache: staleness is bounded by the cache's lifetime, and when nothing fails
      a punishment takes effect at once and every later check refuses its user until it
      ends or is lifted.
    - Academic ([AcademicModel] to [AcademicProps]): courses, reviews, materials, and
      the merging of courses.
    - Tokens and sessions ([Token], [AdminJwt], [JwtUtil], under [internal/platform]),
      and the users ([UserModel], [UserRepo], [UserService], [internal/user]): accounts,
      identities, logins, administrators.  [UserSteps] carries a relation on worlds
      through every method of the service; [UserSafe] uses it for what reaches Redis,
      and [SessionProps] concludes that refresh tokens are good once, that a logout is
      final and that only tokens the service signed, with its secret and the claims it
      issues, are accepted, over any requests, failures and losses of keys; [LoginGuard] uses it again for the lock of the logins, which
      bounds guessing.  [UserDemo] in [SessionProps] is a run, [UserFindings] in
      [LoginGuard] replays defects.
    - [Middleware] ([internal/middleware] and the account guard of moderation) and
      [GateProps]: what is known of a request that reaches a handler, from the
      properties of tokens and punishments together.  [Responses] in [Platform]
      ([internal/platform/responses]): an error is never answered as a success.
    - [Encrypt] ([internal/platform/encrypt/aes.go]) over the models [GoAes] and
      [GoBase64] of the Go library, in [GoCrypto], with published test vectors:
      decryption inverts encryption.
    - Change impact analysis ([CiImpact], [CiImpactProps], [internal/ciimpact]): which
      services a set of changed files must test and build.  [Evaluate] is equal to a
      reference selection, does not depend on the order of the changes, misses no
      service that depends on a changed package, and the parser inverts the format of
      git up to the quoting of unusual paths, which it leaves in place.
    - Topics and comments ([internal/topic], [internal/comment], [internal/mq]):
      [FeedModel] has the documents, rows and the world they share, [CommentRepo],
      [CommentService], [TopicRepo] and [TopicService] one definition per method, [Mq]
      and [MqConsumers] the consumers, which apply a message at most once per message
      id, retry it and give it up.  The Module [FeedSteps] of [FeedMoves] lists the
      requests, the deliveries and the rules they may perform, and [FeedMoves] shows that each does nothing else.
      From this, for any interleaving of requests and deliveries: comments form a tree
      of two levels inside one topic ([FeedTree]), a user collects at most 500 topics
      ([FeedLimits]), a delivery of an applied message changes nothing
      ([FeedQueue]), the like counter of a comment follows its likes ([FeedLikes]).
      The Module [FeedPages] of [FeedQueue] says what a page of comments holds, [FeedDemo] is a run,
      [FeedFindings] in [FeedLikes] replays defects.
    - Chat ([internal/chat]): [ChatModel] has the conversations and their members in
      MySQL, the messages in MongoDB and the repository, [ChatService] the service with
      the decoded body of a websocket message.  [ChatSpec] has the business steps and the
      invariant [rooms]: a conversation has two correspondents, its members and messages
      are theirs.  [ChatProps]: every request keeps the rooms, so that only the
      correspondents of a message are ever shown it, and an accepted message reaches its
      receiver; [ChatDemo] and [ChatFindings] in it are a run and defects.
    - Files ([internal/file], [internal/integration/cosutil]): [FileModel] has the
      documents, the object storage ([ObjectStore], [Cosutil]) and the repository,
      [FileService] the service.  [FileProps]: the steps of the store, that every method
      performs the one its result names, that references are counted over any requests,
      and that a referenced content is kept while one module owns the files; [FileDemo]
      and [FileFindings] in it are a run and defects.
    - Notifications ([internal/notification]): [NotifyModel] has the documents with their
      unique index and the repository, [NotifyService] the service.  [NotifyProps]: an
      event is stored and published once however often it is delivered, and marking a
      category as read clears it and nothing else; [NotifyDemo] and [NotifyFindings].
    - Agent chat ([internal/agentchat]): the turns of a user run at the same time, so
      [AgentModel] has programs, trees of commands, with the interleavings of any number
      of them ([trace]); a command is one statement, Redis command, call of the agent or
      event.  [AgentService] has the service as programs.  [AgentProps]: [AgentLogic]
      checks a program against a protocol, whatever runs beside it; from this, in every
      interleaving, the limits on the turns of a user and of a conversation hold while
      the counters in Redis live, every request gives its counters back
      ([AgentGuards]), users only reach their own conversations ([AgentOwners]), and a
      stream is accepted, progresses and ends with what was saved ([AgentStreams]);
      [AgentDemo] and [AgentFindings].
    - [Safe] has the interfaces between the layers: a [System] is a step relation with
      an invariant, and [safe] computations only perform its steps; [does] carries a
      relation on worlds through a method, its sequencing, loops and error handlers.
      [Pagination] in [Platform] is [internal/platform/pagination].

    ** Bounds and fuel

    The slot generator of [AvailableSlots] runs with fuel 1441, one more than the
    minutes of a day: each round advances by at least a minute and stops at the end of
    the day (theorem [AvailableSlots_terminates]).  Text trimming and digit printing
    use the length of their input.  All other recursion is structural.

    ** Not modelled

    - HTTP handlers and routes (binding, metrics, logs), configuration and wiring,
      WebSocket transport (the connections, the push of chat and notifications, the
      session of the agent chat), the WeChat client and remote school systems; follows,
      themes, the sensitive word filter.
    - RabbitMQ: the transport, publisher confirms, the JSON text of messages (a message
      is a record) and the log document of a dead message.  A delivery may come at any
      time, in any order and repeatedly; consumers run one delivery at a time.
    - The server of releases ([platform/server]): its catalog of deliveries and its store
      of releases.
    - Consumers wired without MongoDB, whose nil collection panics.
    - The rounding of [Duration.Hours] beyond 2^11 hours, and the offset in the text of
      a base64 error.
    - gorm's automatic columns, outside the agent chat; the rounding of [DATETIME(3)] columns to milliseconds;
      columns narrower than int64, whose overflow is a failing statement.
    - [ORDER BY] on columns other than instants and ids; the collation of text columns
      except in the academic component (the text keys of chat and of the agent chat
      compare byte by byte).
    - The agent, a service of its own: its answers are a parameter, the stream of a turn
      is the list of what it sends before it ends.  The runtime of protobuf names enums.
    - Concurrency inside one request, outside the agent chat: histories run requests one
      after another.  Where
      the code reads without a lock inside a transaction the read view is an argument
      ([CreateBooking_at], [DecideAppeal_at], [RevokePunishment_at],
      [DeleteConversationForUser_at]), so that an older view can be passed; the race between two requests that fill the capability cache
      is not.
    - A Redis command that fails has no effect. *)
From stdpp Require Export base gmap strings list fin_maps pretty.
From Stdlib Require Export ZArith Lia.

(** ** Small tactics used across the development *)

Declare Scope go_scope.
Delimit Scope go_scope with go.

(** Split every boolean conjunction / negation hypothesis into propositions. *)
Ltac bools :=
  repeat match goal with
  | H : (_ && _) = true |- _ => apply andb_true_iff in H; destruct H
  | H : (_ && _) = false |- _ => apply andb_false_iff in H
  | H : (_ || _) = false |- _ => apply orb_false_iff in H; destruct H
  | H : (_ || _) = true |- _ => apply orb_true_iff in H
  | H : negb _ = true |- _ => apply negb_true_iff in H
  | H : negb _ = false |- _ => apply negb_false_iff in H
  | H : (_ =? _)%Z = true |- _ => apply Z.eqb_eq in H
  | H : (_ =? _)%Z = false |- _ => apply Z.eqb_neq in H
  | H : (_ <? _)%Z = true |- _ => apply Z.ltb_lt in H
  | H : (_ <? _)%Z = false |- _ => apply Z.ltb_ge in H
  | H : (_ <=? _)%Z = true |- _ => apply Z.leb_le in H
  | H : (_ <=? _)%Z = false |- _ => apply Z.leb_gt in H
  | H : bool_decide _ = true |- _ => apply bool_decide_eq_true in H
  | H : bool_decide _ = false |- _ => apply bool_decide_eq_false in H
  end.

(** Case on every [if]/[match] scrutinee of the goal that is a variable-headed
    boolean, remembering the equation. *)
Ltac case_bool :=
  match goal with
  | |- context [if ?b then _ else _] => destruct b eqn:?
  end.

(** ** Machine integers: Go's [int64] *)

(** Two's-complement wrap-around of an integer into the range of [int64]. *)
Definition wrap64 (z : Z) : Z :=
  ((z + 2 ^ 63) mod 2 ^ 64 - 2 ^ 63)%Z.

Definition in_int64 (z : Z) : Prop := (- 2 ^ 63 <= z < 2 ^ 63)%Z.

Lemma wrap64_small z : in_int64 z -> wrap64 z = z.
Proof.
  unfold in_int64, wrap64. intros H.
  rewrite Z.mod_small; [lia | change (2 ^ 64)%Z with (2 * 2 ^ 63)%Z; lia].
Qed.

Lemma wrap64_range z : in_int64 (wrap64 z).
Proof.
  unfold in_int64, wrap64.
  pose proof (Z.mod_pos_bound (z + 2 ^ 63) (2 ^ 64) ltac:(lia)). lia.
Qed.

(** Go's integer division and remainder truncate toward zero. *)
Definition go_div (a b : Z) : Z := Z.quot a b.
Definition go_rem (a b : Z) : Z := Z.rem a b.
Definition mul64 (a b : Z) : Z := wrap64 (a * b).
Definition add64 (a b : Z) : Z := wrap64 (a + b).
Definition sub64 (a b : Z) : Z := wrap64 (a - b).

(** ** Conditional point update of a finite map

    [update_at k p f m] is the effect of an SQL [UPDATE .. WHERE id = k AND p]
    on a table keyed by [id]: the row at [k] becomes [f r] when it exists and
    satisfies [p]; every other row is left alone. *)
Section update_at.
Context {R : Type}.
Implicit Types (m : gmap Z R) (p : R -> bool) (f : R -> R).

Definition update_at (k : Z) p f m : gmap Z R :=
  match m !! k with
  | Some r => if p r then <[k := f r]> m else m
  | None => m
  end.

Lemma lookup_update_at k p f m j :
  update_at k p f m !! j =
  if decide (j = k)
  then (fun r => if p r then f r else r) <$> m !! k
  else m !! j.
Proof.
  unfold update_at. case_decide as Hjk.
  - subst j. destruct (m !! k) as [r|] eqn:Hk; simpl; [|done].
    destruct (p r); [by rewrite lookup_insert_eq | done].
  - destruct (m !! k) as [r|] eqn:Hk; [|done].
    destruct (p r); [by rewrite lookup_insert_ne by congruence | done].
Qed.

Lemma lookup_update_at_ne k p f m j :
  j <> k -> update_at k p f m !! j = m !! j.
Proof. intros H. rewrite lookup_update_at. by case_decide. Qed.

Lemma lookup_update_at_eq k p f m :
  update_at k p f m !! k = (fun r => if p r then f r else r) <$> m !! k.
Proof. rewrite lookup_update_at. by case_decide. Qed.

(** Every row of the updated map comes from the row of the same key. *)
Lemma update_at_inv k p f m j r :
  update_at k p f m !! j = Some r ->
  m !! j = Some r /\ (j <> k \/ p r = false) \/
  j = k /\ exists r0, m !! k = Some r0 /\ p r0 = true /\ r = f r0.
Proof.
  rewrite lookup_update_at. case_decide as Hj; [subst j|naive_solver].
  destruct (m !! k) as [r0|] eqn:Hk; simpl; [|done].
  destruct (p r0) eqn:Hp; intros [= <-]; [right|left]; naive_solver.
Qed.

Lemma update_at_hit k p f m r :
  m !! k = Some r -> p r = true -> update_at k p f m = <[k := f r]> m.
Proof. unfold update_at. by intros -> ->. Qed.

Lemma update_at_miss k p f m :
  (forall r, m !! k = Some r -> p r = false) -> update_at k p f m = m.
Proof.
  unfold update_at. intros H. destruct (m !! k) as [r|]; [|done].
  by rewrite (H r).
Qed.

Lemma update_at_same k p f m :
  (forall r, m !! k = Some r -> p r = true -> f r = r) -> update_at k p f m = m.
Proof.
  unfold update_at. intros H. destruct (m !! k) as [r|] eqn:Hk; [|done].
  destruct (p r) eqn:Hp; [|done]. rewrite H by done. by apply insert_id.
Qed.

Lemma update_at_cases k p f m :
  (exists r, m !! k = Some r /\ p r = true /\ update_at k p f m = <[k := f r]> m) \/
  update_at k p f m = m.
Proof.
  unfold update_at. destruct (m !! k) as [r|]; [|by right].
  destruct (p r) eqn:Hp; [left; eauto|by right].
Qed.
End update_at.

(** ** Reflexive-transitive closures preserve invariants *)
Lemma rtc_invariant {A} (R : relation A) (P : A -> Prop) :
  (forall x y, P x -> R x y -> P y) ->
  forall x y, rtc R x y -> P x -> P y.
Proof. intros Hstep x y H. induction H; eauto. Qed.

(** ** A monotone list search used by the [for .. return] loops *)
Lemma find_some_iff {A} (p : A -> bool) (l : list A) x :
  List.find p l = Some x -> x ∈ l /\ p x = true.
Proof. intros H%List.find_some. by rewrite list_elem_of_In. Qed.

Lemma forallb_false_iff {A} (p : A -> bool) (l : list A) :
  forallb p l = false -> exists x, x ∈ l /\ p x = false.
Proof.
  induction l as [|x l IH]; simpl; [done|]. intros [H|H]%andb_false_iff.
  - exists x. split; [left|done].
  - destruct (IH H) as (y & ? & ?). exists y. split; [by right|done].
Qed.

(** ** Existence of a row, through updates of the table *)
Section rows.
Context {R : Type}.
Implicit Types (m : gmap Z R) (P : R -> Prop).

Definition has_row m (k : Z) P : Prop := exists r, m !! k = Some r /\ P r.

Lemma has_row_insert m i x y k P :
  m !! i = Some x -> has_row m k P -> (k = i -> P x -> P y) -> has_row (<[i := y]> m) k P.
Proof.
  intros Hi (r & Hk & HP) HPy. destruct (decide (k = i)) as [->|Hne].
  - simplify_eq. exists y. rewrite lookup_insert_eq. auto.
  - exists r. by rewrite lookup_insert_ne by congruence.
Qed.

Lemma has_row_fresh m i y k P :
  m !! i = None -> has_row m k P -> has_row (<[i := y]> m) k P.
Proof.
  intros Hi (r & Hk & HP). exists r. rewrite lookup_insert_ne by congruence. auto.
Qed.

Lemma has_row_new m i y P : P y -> has_row (<[i := y]> m) i P.
Proof. exists y. by rewrite lookup_insert_eq. Qed.

Lemma has_row_update_at m i p f k P :
  has_row m k P ->
  (forall r, m !! i = Some r -> k = i -> p r = true -> P r -> P (f r)) ->
  has_row (update_at i p f m) k P.
Proof.
  intros (r & Hk & HP) Hf. unfold has_row. rewrite lookup_update_at.
  case_decide as Hd; [subst k; rewrite Hk; simpl|eauto].
  destruct (p r) eqn:Ep; eauto.
Qed.

Lemma has_row_mono m k P (Q : R -> Prop) :
  has_row m k P -> (forall r, P r -> Q r) -> has_row m k Q.
Proof. intros (r & ? & ?) ?. exists r. auto. Qed.

Lemma has_row_get m k P r : m !! k = Some r -> has_row m k P -> P r.
Proof. intros Hr (r' & Hr' & HP). by simplify_eq. Qed.
End rows.

(** A row found by evaluation, with a property checked by evaluation. *)
Lemma row_at {R} (m : gmap Z R) (k : Z) (p : R -> bool) :
  match m !! k with Some r => p r | None => false end = true ->
  exists r, m !! k = Some r /\ p r = true.
Proof. destruct (m !! k); [eauto|done]. Qed.

(** [row m k p x Hx Hp]: the row [x] of [m] at [k], and [p x], by evaluation. *)
Ltac row m k p x Hx Hp :=
  destruct (row_at m k p ltac:(vm_compute; reflexivity)) as (x & Hx & Hp); bools.

(** Split lookups in updated maps that occur in hypotheses. *)
Ltac split_lookups :=
  repeat match goal with
  | H : <[_ := _]> _ !! _ = Some _ |- _ => apply lookup_insert_Some in H as [[? ?]|[? H]]
  end; simplify_eq/=.

(** ** Sums over the rows of a map *)
Open Scope Z_scope.
Definition total {T} (g : T -> Z) (m : gmap Z T) : Z := map_fold (fun _ d n => g d + n) 0 m.
Lemma total_new {T} (g : T -> Z) m k d : m !! k = None -> total g (<[k := d]> m) = g d + total g m.
Proof. intros Hk. unfold total. rewrite map_fold_insert_L; [done| |done]. intros. lia. Qed.
Lemma total_put {T} (g : T -> Z) m k d d' : m !! k = Some d -> total g (<[k := d']> m) = total g m - g d + g d'.
Proof.
  intros Hk. rewrite <- (insert_delete_eq m k d') at 1. rewrite total_new by apply lookup_delete_eq.
  unfold total at 2. rewrite (map_fold_delete_L _ _ k d); [|intros; lia|done]. unfold total. lia.
Qed.
Lemma total_zero {T} (g : T -> Z) m : (forall k d, m !! k = Some d -> g d = 0) -> total g m = 0.
Proof.
  induction m as [|k d m Hk IH] using map_ind; [done|]. intros Hg. rewrite total_new by done.
  assert (Hd : g d = 0) by (eapply Hg, lookup_insert_eq). rewrite Hd, IH; [done|].
  intros j x Hj. apply (Hg j). rewrite lookup_insert_ne; [done|]. intros ->. congruence.
Qed.

Lemma total_nonneg {T} (g : T -> Z) m : (forall d, 0 <= g d) -> 0 <= total g m.
Proof.
  intros Hg. induction m as [|k d m Hk IH] using map_ind; [done|]. rewrite total_new by done. specialize (Hg d). lia.
Qed.
Lemma total_delete {T} (g : T -> Z) (m : gmap Z T) k d : m !! k = Some d -> total g (delete k m) = total g m - g d.
Proof. intros Hk. unfold total. rewrite (map_fold_delete_L _ _ k d m) by (done || intros; lia). lia. Qed.
Lemma total_fmap {T} (g : T -> Z) (f : T -> T) (m : gmap Z T) : (forall d, g (f d) = g d) -> total g (f <$> m) = total g m.
Proof.
  intros Hf. induction m as [|k d m Hk IH] using map_ind; [by rewrite fmap_empty|].
  rewrite fmap_insert, !total_new by (rewrite ?lookup_fmap, ?Hk; done). by rewrite IH, Hf.
Qed.
Lemma total_pos {T} (g : T -> Z) (m : gmap Z T) : 0 < total g m -> exists k d, m !! k = Some d /\ 0 < g d.
Proof.
  induction m as [|k d m Hk IH] using map_ind; [done|]. rewrite total_new by done. intros Hp.
  destruct (decide (0 < g d)) as [Hd|Hd]; [exists k, d; by rewrite lookup_insert_eq|].
  destruct IH as (j & x & Hj & Hx); [lia|]. exists j, x. rewrite lookup_insert_ne; [done|]. intros ->. congruence.
Qed.
Close Scope Z_scope.
