(* ===== verification/GoString.v ===== *)
(** * Go strings and number parsing

    The functions of Go's [strings] and [strconv] packages the program calls,
    on byte strings ([String.string], one [ascii] per byte of the UTF-8 text):
    [strings.TrimSpace], [strings.HasPrefix], [strings.Contains],
    [strings.ToLower] (on ASCII letters), [strconv.FormatInt] and
    [strconv.ParseInt(_, 10, 64)], with the round trip between the last two. *)
From Stdlib Require Import Ascii.
From S2P Require Import Prelude.

Module GoStr.

Local Open Scope Z_scope.

Definition byte (c : ascii) : Z := Z.of_N (N_of_ascii c).

(** ** [strings.TrimSpace] *)

(** [space_len l] is the byte length of the Unicode white-space rune [l] starts
    with (0 when it starts with none): the ASCII spaces, U+0085, U+00A0,
    U+1680, U+2000..U+200A, U+2028, U+2029, U+202F, U+205F and U+3000. *)
Definition space_len (l : list Z) : nat :=
  match l with
  | a :: l' =>
    if ((9 <=? a) && (a <=? 13)) || (a =? 32) then 1%nat
    else match l' with
    | b :: l'' =>
      if (a =? 194) && ((b =? 133) || (b =? 160)) then 2%nat
      else match l'' with
      | c :: _ =>
        if ((a =? 225) && (b =? 154) && (c =? 128))
           || ((a =? 226) && (b =? 128)
               && (((128 <=? c) && (c <=? 138)) || (c =? 168) || (c =? 169) || (c =? 175)))
           || ((a =? 226) && (b =? 129) && (c =? 159))
           || ((a =? 227) && (b =? 128) && (c =? 128))
        then 3%nat else 0%nat
      | [] => 0%nat
      end
    | [] => 0%nat
    end
  | [] => 0%nat
  end.

(** The same rune read from its last byte backwards. *)
Definition space_len_rev (l : list Z) : nat :=
  match l with
  | a :: l' =>
    if (1 <=? space_len [a])%nat then 1%nat
    else match l' with
    | b :: l'' =>
      if (2 <=? space_len [b; a])%nat then 2%nat
      else match l'' with
      | c :: _ => if (3 <=? space_len [c; b; a])%nat then 3%nat else 0%nat
      | [] => 0%nat
      end
    | [] => 0%nat
    end
  | [] => 0%nat
  end.

(** Drop leading white-space runes; each round removes at least one byte, so
    the length of the text is enough fuel. *)
Fixpoint trim_with (len : list Z -> nat) (fuel : nat) (l : list Z) : list Z :=
  match fuel with
  | O => l
  | S fuel' =>
    match len l with
    | O => l
    | n => trim_with len fuel' (drop n l)
    end
  end.

Definition bytes (s : string) : list Z := byte <$> String.list_ascii_of_string s.
Definition of_bytes (l : list Z) : string :=
  String.string_of_list_ascii ((fun z => ascii_of_N (Z.to_N z)) <$> l).

Definition TrimSpace (s : string) : string :=
  let l := bytes s in
  let l1 := trim_with space_len (length l) l in
  let l2 := trim_with space_len_rev (length l1) (rev l1) in
  of_bytes (rev l2).

Lemma trim_with_fix len fuel l :
  (length l <= fuel)%nat -> len [] = 0%nat ->
  len (trim_with len fuel l) = 0%nat.
Proof.
  intros Hle Hnil. revert l Hle. induction fuel as [|fuel IH]; intros l Hle; simpl.
  - by destruct l; [|simpl in Hle; lia].
  - destruct (len l) as [|n] eqn:E; [done|]. apply IH.
    destruct l as [|x l]; [by rewrite Hnil in E|]. rewrite length_drop. simpl in *; lia.
Qed.

Lemma bytes_of_bytes s : of_bytes (bytes s) = s.
Proof.
  unfold of_bytes, bytes. rewrite <- list_fmap_compose.
  rewrite <- (String.string_of_list_ascii_of_string s) at 2. f_equal.
  induction (String.list_ascii_of_string s) as [|c l IH]; simpl; [done|].
  f_equal; [|done]. unfold byte; simpl.
  by rewrite N2Z.id, ascii_N_embedding.
Qed.

(** A text with no white space at either end is left alone. *)
Lemma TrimSpace_id s :
  space_len (bytes s) = 0%nat -> space_len_rev (rev (bytes s)) = 0%nat ->
  TrimSpace s = s.
Proof.
  intros H1 H2. unfold TrimSpace.
  assert (Ht : trim_with space_len (length (bytes s)) (bytes s) = bytes s).
  { destruct (length (bytes s)); simpl; [done|]. by rewrite H1. }
  rewrite Ht. clear Ht.
  assert (Hu : trim_with space_len_rev (length (bytes s)) (rev (bytes s)) = rev (bytes s)).
  { destruct (length (bytes s)); simpl; [done|]. by rewrite H2. }
  rewrite Hu, rev_involutive. apply bytes_of_bytes.
Qed.

(** ** Prefixes, substrings, case *)

(** [strings.Fields]: the maximal runs of bytes outside white-space runes. *)
Fixpoint fields_with (fuel : nat) (l cur : list Z) : list string :=
  let flush rest := match cur with [] => rest | _ => of_bytes (rev cur) :: rest end in
  match fuel, l with
  | S fuel', a :: l' =>
    match space_len l with
    | O => fields_with fuel' l' (a :: cur)
    | n => flush (fields_with fuel' (drop n l) [])
    end
  | _, _ => flush []
  end.
Definition Fields (s : string) : list string := fields_with (length (bytes s)) (bytes s) [].

(** [strings.Split(s, sep)] with a one-byte separator. *)
Fixpoint Split (sep : ascii) (s : string) : list string :=
  match s with
  | EmptyString => [EmptyString]
  | String c s' =>
    if Ascii.eqb c sep then EmptyString :: Split sep s'
    else match Split sep s' with
         | x :: l => String c x :: l
         | [] => [String c EmptyString]
         end
  end.

Definition HasPrefix (s p : string) : bool := String.prefix p s.

Fixpoint Contains (s sub : string) : bool :=
  String.prefix sub s ||
  match s with
  | EmptyString => false
  | String _ s' => Contains s' sub
  end.

Definition lower_ascii (c : ascii) : ascii :=
  let b := byte c in
  if (65 <=? b) && (b <=? 90) then ascii_of_N (Z.to_N (b + 32)) else c.

Fixpoint ToLower (s : string) : string :=
  match s with
  | EmptyString => EmptyString
  | String c s' => String (lower_ascii c) (ToLower s')
  end.

(** [strings.EqualFold(s, t)] with an ASCII [t]: the runes that fold to an ASCII
    letter are the letters and U+017F, U+212A. *)
Fixpoint fold_bytes (fuel : nat) (l : list Z) : list Z :=
  match fuel, l with
  | S fuel, 197 :: 191 :: l' => 115 :: fold_bytes fuel l'
  | S fuel, 226 :: 132 :: 170 :: l' => 107 :: fold_bytes fuel l'
  | S fuel, b :: l' => (if (65 <=? b) && (b <=? 90) then b + 32 else b) :: fold_bytes fuel l'
  | _, _ => []
  end.
Definition fold (s : string) : list Z := fold_bytes (String.length s) (bytes s).
Definition EqualFold (s t : string) : bool := bool_decide (fold s = fold t).

(** [strings.ToUpper(s)] up to the letters whose upper case is not ASCII: the runes
    that go to an ASCII letter are the letters and U+0131, U+017F. *)
Fixpoint upper_bytes (fuel : nat) (l : list Z) : list Z :=
  match fuel, l with
  | S fuel, 196 :: 177 :: l' => 73 :: upper_bytes fuel l'
  | S fuel, 197 :: 191 :: l' => 83 :: upper_bytes fuel l'
  | S fuel, b :: l' => (if (97 <=? b) && (b <=? 122) then b - 32 else b) :: upper_bytes fuel l'
  | _, _ => []
  end.
Definition ToUpper (s : string) : string := of_bytes (upper_bytes (String.length s) (bytes s)).

(** [strings.ToLower(s)], with the runes U+0130 and U+212A whose lower case is ASCII,
    up to the letters whose lower case is not. *)
Fixpoint lower_bytes (fuel : nat) (l : list Z) : list Z :=
  match fuel, l with
  | S fuel, 196 :: 176 :: l' => 105 :: lower_bytes fuel l'
  | S fuel, 226 :: 132 :: 170 :: l' => 107 :: lower_bytes fuel l'
  | S fuel, b :: l' => (if (65 <=? b) && (b <=? 90) then b + 32 else b) :: lower_bytes fuel l'
  | _, _ => []
  end.
Definition LowerText (s : string) : string := of_bytes (lower_bytes (String.length s) (bytes s)).

(** ** [strconv.FormatInt(_, 10)] *)

Definition digit_char (d : Z) : ascii := ascii_of_N (Z.to_N (48 + d)).

(** Decimal digits of a non-negative number, most significant first, before the
    text [acc]; one digit per unit of fuel. *)
Fixpoint digits_acc (fuel : nat) (n : Z) (acc : string) : string :=
  match fuel with
  | O => acc
  | S fuel' =>
    let acc' := String (digit_char (n mod 10)) acc in
    if n / 10 =? 0 then acc' else digits_acc fuel' (n / 10) acc'
  end.

(** [log2 n + 1] digits always suffice. *)
Definition format_fuel (n : Z) : nat := S (Z.to_nat (Z.log2 n)).

Definition FormatInt (z : Z) : string :=
  if z <? 0 then String "-" (digits_acc (format_fuel (- z)) (- z) "")
  else digits_acc (format_fuel z) z "".

(** ** [strconv.ParseInt(_, 10, 64)] *)

Definition digit_val (c : ascii) : option Z :=
  let b := byte c in
  if (48 <=? b) && (b <=? 57) then Some (b - 48) else None.

Fixpoint parse_digits (acc : Z) (s : string) : option Z :=
  match s with
  | EmptyString => Some acc
  | String c s' =>
    match digit_val c with
    | Some d => parse_digits (acc * 10 + d) s'
    | None => None
    end
  end.

(** [None] is both of the function's errors, [ErrSyntax] and [ErrRange]. *)
Definition parse_signed (neg : bool) (s : string) : option Z :=
  match s with
  | EmptyString => None
  | String _ _ =>
    match parse_digits 0 s with
    | Some n =>
      let v := if neg then - n else n in
      if (- 2 ^ 63 <=? v) && (v <? 2 ^ 63) then Some v else None
    | None => None
    end
  end.

Definition ParseInt (s : string) : option Z :=
  match s with
  | EmptyString => None
  | String c s' =>
    if byte c =? 45 then parse_signed true s'
    else if byte c =? 43 then parse_signed false s'
    else parse_signed false s
  end.

(** [strconv.Atoi] with its error ignored: 0 for a malformed text, the nearest
    [int] for one out of range. *)
Definition clamp64 (v : Z) : Z := Z.max (- 2 ^ 63) (Z.min v (2 ^ 63 - 1)).

Definition atoi_signed (neg : bool) (s : string) : Z :=
  match s with
  | EmptyString => 0
  | String _ _ =>
    match parse_digits 0 s with
    | Some n => clamp64 (if neg then - n else n)
    | None => 0
    end
  end.

Definition Atoi (s : string) : Z :=
  match s with
  | EmptyString => 0
  | String c s' =>
    if byte c =? 45 then atoi_signed true s'
    else if byte c =? 43 then atoi_signed false s'
    else atoi_signed false s
  end.

(** [utf8.RuneCountInString] of a valid UTF-8 text: its bytes that are not
    continuation bytes. *)
Fixpoint RuneCount (s : string) : Z :=
  match s with
  | EmptyString => 0
  | String c s' => (if (128 <=? byte c) && (byte c <? 192) then 0 else 1) + RuneCount s'
  end.

(** [[]rune(s)]: the bytes of each rune, as [string] of the runes writes them.  A byte
    that begins no valid sequence is the rune U+FFFD. *)
Definition continues (b : Z) : bool := (128 <=? b) && (b <=? 191).
Definition rune_len (l : list Z) : nat :=
  match l with
  | [] => 0%nat
  | b :: l =>
    if b <? 128 then 1%nat
    else if (194 <=? b) && (b <=? 223) then
      match l with c :: _ => if continues c then 2%nat else 0%nat | _ => 0%nat end
    else if (224 <=? b) && (b <=? 239) then
      match l with
      | c :: d :: _ =>
        if ((if b =? 224 then 160 else 128) <=? c) && (c <=? (if b =? 237 then 159 else 191)) && continues d then 3%nat else 0%nat
      | _ => 0%nat
      end
    else if (240 <=? b) && (b <=? 244) then
      match l with
      | c :: d :: e :: _ =>
        if ((if b =? 240 then 144 else 128) <=? c) && (c <=? (if b =? 244 then 143 else 191)) &&
           continues d && continues e then 4%nat else 0%nat
      | _ => 0%nat
      end
    else 0%nat
  end.
Fixpoint runes_with (fuel : nat) (l : list Z) : list (list Z) :=
  match fuel, l with
  | S fuel, _ :: l' =>
    match rune_len l with
    | O => [239; 191; 189] :: runes_with fuel l'
    | n => take n l :: runes_with fuel (drop n l)
    end
  | _, _ => []
  end.
Definition Runes (s : string) : list (list Z) := runes_with (String.length s) (bytes s).
Definition of_runes (l : list (list Z)) : string := of_bytes (concat l).

(** [hex.DecodeString]: [Some n] is a successful decoding of [n] bytes. *)
Definition is_hex (c : ascii) : bool :=
  let b := byte c in
  ((48 <=? b) && (b <=? 57)) || ((97 <=? b) && (b <=? 102)) || ((65 <=? b) && (b <=? 70)).

Fixpoint hex_decoded_length (s : string) : option Z :=
  match s with
  | EmptyString => Some 0
  | String a (String b s') =>
    if is_hex a && is_hex b then (fun n => n + 1) <$> hex_decoded_length s' else None
  | String _ EmptyString => None
  end.

(** ** The round trip *)

Lemma byte_digit_char d : 0 <= d < 10 -> byte (digit_char d) = 48 + d.
Proof.
  intros H. unfold byte, digit_char. rewrite N_ascii_embedding; lia.
Qed.

Lemma digit_val_char d : 0 <= d < 10 -> digit_val (digit_char d) = Some d.
Proof.
  intros H. unfold digit_val. rewrite byte_digit_char by done.
  replace ((48 <=? 48 + d) && (48 + d <=? 57)) with true
    by (symmetry; apply andb_true_iff; split; apply Z.leb_le; lia).
  f_equal; lia.
Qed.

Lemma parse_digits_acc fuel n acc a :
  0 <= n < 2 ^ Z.of_nat fuel ->
  exists k, 0 < k /\
    parse_digits a (digits_acc fuel n acc) = parse_digits (a * k + n) acc.
Proof.
  revert n acc a. induction fuel as [|fuel IH]; intros n acc a Hn.
  - simpl in Hn. exists 1. split; [lia|]. simpl. f_equal. lia.
  - simpl digits_acc.
    pose proof (Z.mod_pos_bound n 10 ltac:(lia)) as Hm.
    pose proof (Z.div_mod n 10 ltac:(lia)) as Hd.
    destruct (n / 10 =? 0) eqn:E.
    + apply Z.eqb_eq in E. exists 10. split; [lia|]. simpl.
      rewrite digit_val_char by lia. f_equal. lia.
    + apply Z.eqb_neq in E.
      assert (Hlt : 0 <= n / 10 < 2 ^ Z.of_nat fuel).
      { rewrite Nat2Z.inj_succ, Z.pow_succ_r in Hn by lia.
        split; [apply Z.div_pos; lia|]. apply Z.div_lt_upper_bound; lia. }
      destruct (IH _ (String (digit_char (n mod 10)) acc) a Hlt) as (k & Hk & ->).
      exists (k * 10). split; [lia|]. simpl. rewrite digit_val_char by lia.
      f_equal. lia.
Qed.

Lemma format_fuel_enough n : 0 <= n -> n < 2 ^ Z.of_nat (format_fuel n).
Proof.
  intros H. unfold format_fuel. rewrite Nat2Z.inj_succ, Z2Nat.id by apply Z.log2_nonneg.
  destruct (decide (n = 0)) as [->|]; [done|]. apply Z.log2_spec. lia.
Qed.

Lemma digits_acc_head fuel n acc :
  fuel <> O -> 0 <= n ->
  exists d t, 0 <= d < 10 /\ digits_acc fuel n acc = String (digit_char d) t.
Proof.
  revert n acc. induction fuel as [|fuel IH]; intros n acc Hf Hn; [done|].
  simpl. pose proof (Z.mod_pos_bound n 10 ltac:(lia)).
  destruct (n / 10 =? 0) eqn:E; [eauto|].
  destruct fuel as [|fuel]; [simpl; eauto|].
  apply IH; [done|]. by apply Z.div_pos.
Qed.

Lemma parse_signed_digits neg n v :
  0 <= n -> v = (if neg : bool then - n else n) -> in_int64 v ->
  parse_signed neg (digits_acc (format_fuel n) n "") = Some v.
Proof.
  intros Hn Hv Hr.
  destruct (digits_acc_head (format_fuel n) n "" ltac:(done) Hn) as (d & t & Hd & Heq).
  destruct (parse_digits_acc (format_fuel n) n "" 0
    (conj Hn (format_fuel_enough n Hn))) as (k & Hk & Hp).
  rewrite Heq in *. unfold parse_signed. rewrite Hp. simpl parse_digits.
  rewrite Z.mul_0_l, Z.add_0_l. simpl. rewrite <- Hv. unfold in_int64 in Hr.
  assert ((- 2 ^ 63 <=? v) && (v <? 2 ^ 63) = true) as ->; [|done].
  apply andb_true_iff. split; [apply Z.leb_le | apply Z.ltb_lt]; lia.
Qed.

(** Parsing a formatted [int64] gives it back. *)
Lemma ParseInt_FormatInt z : in_int64 z -> ParseInt (FormatInt z) = Some z.
Proof.
  intros Hz. unfold FormatInt. destruct (z <? 0) eqn:Ez.
  - apply Z.ltb_lt in Ez. unfold ParseInt. change (byte "-" =? 45) with true.
    cbv iota. apply parse_signed_digits; [lia..|done].
  - apply Z.ltb_ge in Ez.
    destruct (digits_acc_head (format_fuel z) z "" ltac:(done) Ez) as (d & t & Hd & Heq).
    pose proof (parse_signed_digits false z z Ez eq_refl Hz) as Hp.
    rewrite Heq in *. unfold ParseInt. rewrite byte_digit_char by done.
    destruct (48 + d =? 45) eqn:E1; [apply Z.eqb_eq in E1; lia|].
    destruct (48 + d =? 43) eqn:E2; [apply Z.eqb_eq in E2; lia|]. done.
Qed.

Lemma FormatInt_inj z1 z2 :
  in_int64 z1 -> in_int64 z2 -> FormatInt z1 = FormatInt z2 -> z1 = z2.
Proof.
  intros H1 H2 H. apply (f_equal ParseInt) in H.
  rewrite !ParseInt_FormatInt in H by done. congruence.
Qed.

Lemma parse_digits_format z : 0 <= z -> parse_digits 0 (digits_acc (format_fuel z) z "") = Some z.
Proof.
  intros Hz. destruct (parse_digits_acc (format_fuel z) z "" 0 (conj Hz (format_fuel_enough z Hz))) as (k & _ & ->).
  by rewrite Z.mul_0_l.
Qed.
(** What [ParseInt] reads from a formatted number is that number. *)
Lemma ParseInt_FormatInt_some c m : 0 <= c -> ParseInt (FormatInt c) = Some m -> m = c.
Proof.
  intros Hc. unfold FormatInt. rewrite (proj2 (Z.ltb_ge _ _) Hc). pose proof (parse_digits_format c Hc) as Hp.
  destruct (digits_acc_head (format_fuel c) c "" ltac:(done) Hc) as (d & t & Hd & Heq). rewrite Heq in *.
  unfold ParseInt. rewrite byte_digit_char by done.
  destruct (48 + d =? 45) eqn:E1; [apply Z.eqb_eq in E1; lia|].
  destruct (48 + d =? 43) eqn:E2; [apply Z.eqb_eq in E2; lia|].
  unfold parse_signed. rewrite Hp. destruct (_ && _); [|done]. by intros [= ->].
Qed.
Lemma parse_signed_range neg s z : parse_signed neg s = Some z -> in_int64 z.
Proof.
  unfold parse_signed, in_int64. destruct s; [done|]. destruct (parse_digits 0 _) as [n|]; [|done].
  destruct (_ && _) eqn:Hr; [|done]. intros [= <-]. apply andb_true_iff in Hr as [H1%Z.leb_le H2%Z.ltb_lt]. lia.
Qed.
(** What it reads is an [int64]. *)
Lemma ParseInt_range s z : ParseInt s = Some z -> in_int64 z.
Proof. unfold ParseInt. destruct s; [done|]. repeat (destruct (_ =? _)); apply parse_signed_range. Qed.
(** Also beyond the range [ParseInt] accepts. *)
Lemma FormatInt_injective z1 z2 : FormatInt z1 = FormatInt z2 -> z1 = z2.
Proof.
  assert (forall z1 z2, z1 < 0 -> 0 <= z2 -> FormatInt z1 <> FormatInt z2) as Hneg.
  { intros x y Hx Hy He. unfold FormatInt in He. rewrite (proj2 (Z.ltb_lt _ _) Hx), (proj2 (Z.ltb_ge _ _) Hy) in He.
    apply (f_equal (parse_digits 0)) in He. by rewrite parse_digits_format in He. }
  intros He. destruct (Z.lt_ge_cases z1 0) as [H1|H1], (Z.lt_ge_cases z2 0) as [H2|H2].
  - unfold FormatInt in He. rewrite (proj2 (Z.ltb_lt _ _) H1), (proj2 (Z.ltb_lt _ _) H2) in He.
    apply (f_equal (fun s => match s with String _ t => parse_digits 0 t | _ => None end)) in He. cbv beta iota in He.
    rewrite !parse_digits_format in He by lia. injection He. lia.
  - by destruct (Hneg z1 z2).
  - by destruct (Hneg z2 z1).
  - unfold FormatInt in He. rewrite (proj2 (Z.ltb_ge _ _) H1), (proj2 (Z.ltb_ge _ _) H2) in He.
    apply (f_equal (parse_digits 0)) in He. rewrite !parse_digits_format in He by lia. congruence.
Qed.

Lemma FormatInt_nonempty z : FormatInt z <> ""%string.
Proof.
  unfold FormatInt. destruct (z <? 0) eqn:E; [done|]. apply Z.ltb_ge in E.
  destruct (digits_acc_head (format_fuel z) z "" ltac:(done) E) as (d & t & _ & ->).
  done.
Qed.

(** Printable ASCII other than the space. *)
Definition graphic (b : Z) : bool := (33 <=? b) && (b <=? 126).

Lemma space_len_graphic a l : graphic a = true -> space_len (a :: l) = 0%nat.
Proof.
  unfold graphic. intros H. bools. simpl.
  replace ((9 <=? a) && (a <=? 13)) with false by (symmetry; apply andb_false_iff; right; apply Z.leb_gt; lia).
  replace (a =? 32) with false by (symmetry; apply Z.eqb_neq; lia). simpl.
  destruct l as [|b l]; [done|].
  replace (a =? 194) with false by (symmetry; apply Z.eqb_neq; lia).
  destruct l as [|c l]; simpl; [done|].
  replace (a =? 225) with false by (symmetry; apply Z.eqb_neq; lia).
  replace (a =? 226) with false by (symmetry; apply Z.eqb_neq; lia).
  by replace (a =? 227) with false by (symmetry; apply Z.eqb_neq; lia).
Qed.

Lemma TrimSpace_graphic s : Forall (fun b => graphic b = true) (bytes s) -> TrimSpace s = s.
Proof.
  intros H. apply TrimSpace_id.
  - destruct H as [|b l Hb _]; [done|]. by apply space_len_graphic.
  - assert (Hr : Forall (fun b => graphic b = true) (rev (bytes s))) by (by apply Forall_rev).
    destruct Hr as [|a l Ha [|b l' Hb [|c l'' Hc _]]]; [done|..];
      unfold space_len_rev; rewrite ?(space_len_graphic a), ?(space_len_graphic b), ?(space_len_graphic c) by done;
      done.
Qed.

Lemma digits_acc_graphic fuel n acc :
  Forall (fun b => graphic b = true) (bytes acc) -> Forall (fun b => graphic b = true) (bytes (digits_acc fuel n acc)).
Proof.
  revert n acc. induction fuel as [|fuel IH]; intros n acc H; simpl; [done|].
  assert (H' : Forall (fun b => graphic b = true) (bytes (String (digit_char (n mod 10)) acc))).
  { pose proof (Z.mod_pos_bound n 10 ltac:(lia)) as Hm. unfold bytes in *. simpl. apply Forall_cons. split; [|done].
    rewrite byte_digit_char by done. unfold graphic. apply andb_true_iff. split; apply Z.leb_le; lia. }
  destruct (_ =? 0); [done|]. by apply IH.
Qed.

Lemma TrimSpace_FormatInt z : TrimSpace (FormatInt z) = FormatInt z.
Proof.
  apply TrimSpace_graphic. unfold FormatInt. destruct (z <? 0).
  - change (Forall (fun b => graphic b = true) (45 :: bytes (digits_acc (format_fuel (- z)) (- z) ""))).
    apply Forall_cons. split; [done|]. by apply digits_acc_graphic, Forall_nil.
  - by apply digits_acc_graphic, Forall_nil.
Qed.

(** ** [strings.Split] *)
(** The separator does not occur. *)
Definition free (c : ascii) (s : string) : bool :=
  forallb (fun x => negb (Ascii.eqb x c)) (String.list_ascii_of_string s).

Lemma list_ascii_app s t :
  String.list_ascii_of_string (s ++ t) = (String.list_ascii_of_string s ++ String.list_ascii_of_string t)%list.
Proof. induction s as [|c s IH]; [done|]. simpl. by rewrite IH. Qed.

Lemma bytes_app s t : bytes (s ++ t) = (bytes s ++ bytes t)%list.
Proof. unfold bytes. by rewrite list_ascii_app, fmap_app. Qed.

Lemma free_app c s t : free c (s ++ t) = free c s && free c t.
Proof. unfold free. by rewrite list_ascii_app, forallb_app. Qed.

Lemma Split_free c s : free c s = true -> Split c s = [s].
Proof.
  induction s as [|a s IH]; [done|]. unfold free. simpl. intros H. bools.
  rewrite H. by rewrite (IH H0).
Qed.

Lemma Split_app c s t : free c s = true -> Split c (s ++ String c t) = s :: Split c t.
Proof.
  induction s as [|a s IH]; simpl.
  - by rewrite Ascii.eqb_refl.
  - unfold free. simpl. intros H. bools. rewrite H. by rewrite (IH H0).
Qed.

Lemma digits_acc_free c fuel n acc : 48 <=? byte c = false \/ byte c <=? 57 = false ->
  free c acc = true -> free c (digits_acc fuel n acc) = true.
Proof.
  intros Hc. revert n acc. induction fuel as [|fuel IH]; intros n acc Ha; simpl; [done|].
  assert (free c (String (digit_char (n mod 10)) acc) = true) as Ha'.
  { unfold free. simpl. apply andb_true_iff. split; [|done]. apply negb_true_iff, Ascii.eqb_neq. intros He.
    pose proof (Z.mod_pos_bound n 10 ltac:(lia)) as Hm. apply (f_equal byte) in He.
    rewrite byte_digit_char in He by done. rewrite !Z.leb_gt in Hc. lia. }
  destruct (_ =? 0); [done|]. by apply IH.
Qed.
Lemma FormatInt_free c z : c <> "-"%char -> 48 <=? byte c = false \/ byte c <=? 57 = false ->
  free c (FormatInt z) = true.
Proof.
  intros Hm Hc. unfold FormatInt. destruct (z <? 0).
  - change (negb (Ascii.eqb "-" c) && free c (digits_acc (format_fuel (- z)) (- z) "") = true).
    apply andb_true_iff. split; [|by apply digits_acc_free]. by apply negb_true_iff, Ascii.eqb_neq.
  - by apply digits_acc_free.
Qed.

End GoStr.

(** ** Go's [path] package and the [strings] functions on paths

    [path.Clean], [path.Dir] and [path.Ext] on slash-separated paths, and the
    splitting, joining and replacing functions of [strings] the code uses. *)

Module GoPath.
Local Open Scope string_scope.

Definition slash : ascii := "/"%char.

(** [strings.Join(l, sep)] *)
Fixpoint join (sep : string) (l : list string) : string :=
  match l with
  | [] => ""
  | [x] => x
  | x :: l' => x ++ sep ++ join sep l'
  end.

(** [strings.ReplaceAll(s, a, b)] for single bytes. *)
Fixpoint replace_byte (a b : ascii) (s : string) : string :=
  match s with
  | EmptyString => ""
  | String c s' => String (if Ascii.eqb c a then b else c) (replace_byte a b s')
  end.

Definition HasPrefix (s p : string) : bool := GoStr.HasPrefix s p.

Fixpoint drop_bytes (n : nat) (s : string) : string :=
  match n, s with
  | S n', String _ s' => drop_bytes n' s'
  | _, _ => s
  end.

(** [strings.TrimPrefix(s, p)] *)
Definition TrimPrefix (s p : string) : string :=
  if HasPrefix s p then drop_bytes (String.length p) s else s.

(** [strings.HasSuffix(s, p)] *)
Definition HasSuffix (s p : string) : bool :=
  (String.length p <=? String.length s)%nat
  && String.eqb (drop_bytes (String.length s - String.length p) s) p.

(** ** [path.Clean] *)

(** One path element against the elements kept so far, last one first: empty
    elements and [.] vanish, [..] takes back an element that is not itself [..],
    stays when there is none, and vanishes at the root. *)
Definition clean_step (rooted : bool) (acc : list string) (x : string) : list string :=
  if String.eqb x "" || String.eqb x "." then acc
  else if String.eqb x ".." then
    match acc with
    | y :: acc' => if String.eqb y ".." then ".." :: acc else acc'
    | [] => if rooted then [] else [".."]
    end
  else x :: acc.

Definition clean_elements (rooted : bool) (l : list string) : list string :=
  rev (fold_left (clean_step rooted) l []).

Definition Clean (p : string) : string :=
  let rooted := HasPrefix p "/" in
  let s := join "/" (clean_elements rooted (GoStr.Split slash p)) in
  if rooted then "/" ++ s else if String.eqb s "" then "." else s.

(** [path.Dir]: what precedes the last slash, cleaned. *)
Definition Dir (p : string) : string :=
  let l := GoStr.Split slash p in
  match removelast l with
  | [] => "."
  | d => Clean (join "/" d ++ "/")
  end.

(** [path.Ext]: from the last dot of the last element on. *)
Definition Ext (p : string) : string :=
  match rev (GoStr.Split "."%char (default "" (last (GoStr.Split slash p)))) with
  | [] | [_] => ""
  | x :: _ => "." ++ x
  end.

(** [filepath.Rel] on Unix; [None] is an error. *)
Fixpoint drop_common (a b : list string) : list string * list string :=
  match a, b with
  | x :: a', y :: b' => if String.eqb x y then drop_common a' b' else (a, b)
  | _, _ => (a, b)
  end.
Definition elements_of (p : string) : list string :=
  let p := Clean p in
  if String.eqb p "." || String.eqb p "/" then [] else
  List.filter (fun x => negb (String.eqb x "")) (GoStr.Split slash p).
Definition Rel (base target : string) : option string :=
  if negb (Bool.eqb (HasPrefix (Clean base) "/") (HasPrefix (Clean target) "/")) then None
  else
    match drop_common (elements_of base) (elements_of target) with
    | ([], []) => Some "."
    | (".." :: _, _) => None
    | (up, down) => Some (join "/" (map (fun _ => "..") up ++ down)%list)
    end.

Example Clean_examples :
  map Clean [""; "."; "/"; "a/b"; "a//b/"; "./a"; "a/../b"; "../a"; "a/../.."; "/../a"; "/.."; "a/./b/.."]
  = ["."; "."; "/"; "a/b"; "a/b"; "a"; "b"; "../a"; ".."; "/a"; "/"; "a"].
Proof. reflexivity. Qed.
Example Dir_examples :
  map Dir [""; "a"; "a/b"; "a/b/"; "/a"; "/"; "a/b/c.go"] = ["."; "."; "a"; "a/b"; "/"; "/"; "a/b"].
Proof. reflexivity. Qed.
Example Ext_examples : map Ext ["a"; "a.md"; "a.b/c"; "a.tar.gz"; "x."; ""] = [""; ".md"; ""; ".gz"; "."; ""].
Proof. reflexivity. Qed.
Example Rel_examples :
  map (fun p => Rel (fst p) (snd p)) [("/a/b", "/a/b/c"); ("/a/b", "/a"); ("/a/b", "/a/c/d"); ("/a", "/a"); ("a", "/a")]
  = [Some "c"; Some ".."; Some "../c/d"; Some "."; None].
Proof. reflexivity. Qed.
End GoPath.
