(* ===== verification/GoTime.v ===== *)
(** * Go times

    An instant is its number of nanoseconds since the Unix epoch.  The program
    shows and cuts days in Asia/Shanghai, a fixed offset of eight hours from UTC
    for every instant the program stores.  The calendar is the proleptic
    Gregorian one of Go's [time] package. *)
From Stdlib Require Import Ascii.
From S2P Require Import Prelude GoString.

Module GoTime.
Local Open Scope Z_scope.

Definition Second : Z := 1000000000.
Definition Millisecond : Z := 1000000.
Definition Minute : Z := 60 * Second.
Definition Hour : Z := 60 * Minute.
Definition Day : Z := 24 * Hour.
Definition Shanghai : Z := 8 * Hour.

(** [time.Time{}]: January 1st of year 1, UTC. *)
Definition zero_time : Z := -62135596800 * Second.
Definition IsZero (t : Z) : bool := t =? zero_time.

(** ** The calendar *)

(** Years count from March, so that the leap day is the last of its year. *)
Definition civil_from_days (n : Z) : Z * Z * Z :=
  let z := n + 719468 in
  let era := z / 146097 in
  let doe := z mod 146097 in
  let yoe := (doe - doe / 1460 + doe / 36524 - doe / 146096) / 365 in
  let doy := doe - (365 * yoe + yoe / 4 - yoe / 100) in
  let mp := (5 * doy + 2) / 153 in
  let d := doy - (153 * mp + 2) / 5 + 1 in
  let m := if mp <? 10 then mp + 3 else mp - 9 in
  (yoe + era * 400 + (if m <=? 2 then 1 else 0), m, d).

Definition days_from_civil (y m d : Z) : Z :=
  let y' := if m <=? 2 then y - 1 else y in
  let era := y' / 400 in
  let yoe := y' mod 400 in
  let doy := (153 * (if 2 <? m then m - 3 else m + 9) + 2) / 5 + d - 1 in
  let doe := yoe * 365 + yoe / 4 - yoe / 100 + doy in
  era * 146097 + doe - 719468.

Definition leap (y : Z) : bool :=
  (y mod 4 =? 0) && (negb (y mod 100 =? 0) || (y mod 400 =? 0)).

Definition days_in (y m : Z) : Z :=
  if m =? 2 then (if leap y then 29 else 28)
  else if (m =? 4) || (m =? 6) || (m =? 9) || (m =? 11) then 30 else 31.

(** Day [doe] of an era falls in one of its 400 years, on a day of that year. *)
Lemma year_of_era doe :
  0 <= doe < 146097 ->
  let yoe := (doe - doe / 1460 + doe / 36524 - doe / 146096) / 365 in
  0 <= yoe < 400 /\ 0 <= doe - (365 * yoe + yoe / 4 - yoe / 100) <= 365.
Proof. intros H yoe. subst yoe. Z.div_mod_to_equations. lia. Qed.

(** The calendar date of a day determines the day. *)
Lemma days_from_civil_from_days n :
  let '(y, m, d) := civil_from_days n in days_from_civil y m d = n.
Proof.
  unfold civil_from_days, days_from_civil.
  pose proof (Z.div_mod (n + 719468) 146097 ltac:(lia)) as Hn.
  pose proof (Z.mod_pos_bound (n + 719468) 146097 ltac:(lia)) as Hb.
  set (era := (n + 719468) / 146097) in *. set (doe := (n + 719468) mod 146097) in *.
  pose proof (year_of_era doe Hb) as [Hy Hd]. cbv zeta in Hy, Hd.
  set (yoe := (doe - doe / 1460 + doe / 36524 - doe / 146096) / 365) in *.
  set (doy := doe - (365 * yoe + yoe / 4 - yoe / 100)) in *.
  set (mp := (5 * doy + 2) / 153).
  assert (Hmp : 0 <= mp <= 11) by (unfold mp; Z.div_mod_to_equations; lia).
  set (m := if mp <? 10 then mp + 3 else mp - 9).
  assert (Hback : (if 2 <? m then m - 3 else m + 9) = mp).
  { unfold m. destruct (mp <? 10) eqn:E1; bools; case_bool; bools; lia. }
  rewrite Hback. replace (if m <=? 2 then _ else _) with (yoe + era * 400)
    by (destruct (m <=? 2); lia).
  rewrite Z.div_add, Z.mod_add, Z.div_small, Z.mod_small by lia. lia.
Qed.

(** ** Days of the local calendar *)

Definition local_day (t : Z) : Z := (t + Shanghai) / Day.

(** [time.Date(t.Year(), t.Month(), t.Day(), 0, 0, 0, 0, t.Location())] *)
Definition dayStart (t : Z) : Z := local_day t * Day - Shanghai.

(** [t.AddDate(0, 0, n)]: a fixed offset has no daylight saving. *)
Definition AddDays (t n : Z) : Z := t + n * Day.

(** [t.Weekday()], Sunday being 0. *)
Definition Weekday (t : Z) : Z := (local_day t + 4) mod 7.

(** [t.Sub(u)], which saturates. *)
Definition Sub (t u : Z) : Z := Z.max (- 2 ^ 63) (Z.min (t - u) (2 ^ 63 - 1)).

Lemma dayStart_spec t : dayStart t <= t < AddDays (dayStart t) 1.
Proof.
  unfold AddDays, dayStart, local_day.
  pose proof (Z.div_mod (t + Shanghai) Day ltac:(by compute)) as Hd.
  pose proof (Z.mod_pos_bound (t + Shanghai) Day ltac:(by compute)) as Hm.
  unfold Shanghai, Day, Hour, Minute, Second in *. lia.
Qed.

(** Two instants fall on the same local day exactly when each lies in the day
    that starts with the other's. *)
Lemma dayStart_unique t d :
  dayStart d = d -> d <= t < AddDays d 1 -> dayStart t = d.
Proof.
  unfold AddDays, dayStart, local_day. intros Hd Ht.
  assert (Hq : (t + Shanghai) / Day = (d + Shanghai) / Day); [|by rewrite Hq].
  symmetry. apply Z.div_unique_pos with (t - d); lia.
Qed.

Lemma dayStart_idem t : dayStart (dayStart t) = dayStart t.
Proof.
  unfold dayStart, local_day.
  replace ((t + Shanghai) / Day * Day - Shanghai + Shanghai) with ((t + Shanghai) / Day * Day) by lia.
  rewrite Z.div_mul by (by compute). done.
Qed.

(** ** Text *)

Definition pad2 (n : Z) : string :=
  String (GoStr.digit_char (n / 10)) (String (GoStr.digit_char (n mod 10)) "").
Definition pad4 (n : Z) : string := (pad2 (n / 100) ++ pad2 (n mod 100))%string.

(** [t.UTC().Format("200601021504")], for years 0 to 9999. *)
Definition FormatMinute (t : Z) : string :=
  let s := t / Second in
  let '(y, m, d) := civil_from_days (s / 86400) in
  let r := s mod 86400 in
  (pad4 y ++ pad2 m ++ pad2 d ++ pad2 (r / 3600) ++ pad2 (r / 60 mod 60))%string.

(** [t.In(Asia/Shanghai).Format(time.RFC3339)], for years 0 to 9999. *)
Definition FormatRFC3339 (t : Z) : string :=
  let s := (t + Shanghai) / Second in
  let '(y, m, d) := civil_from_days (s / 86400) in
  let r := s mod 86400 in
  (pad4 y ++ "-" ++ pad2 m ++ "-" ++ pad2 d ++ "T" ++
   pad2 (r / 3600) ++ ":" ++ pad2 (r / 60 mod 60) ++ ":" ++ pad2 (r mod 60) ++ "+08:00")%string.

Definition digit (c : ascii) : option Z :=
  let b := GoStr.byte c in if (48 <=? b) && (b <=? 57) then Some (b - 48) else None.

Definition two_digits (a b : ascii) : option Z :=
  match digit a, digit b with Some x, Some y => Some (10 * x + y) | _, _ => None end.

(** The fields of [2006-01-02] as Go reads them: four digits, two, two. *)
Definition parse_date (s : string) : option (Z * Z * Z * string) :=
  match s with
  | String y1 (String y2 (String y3 (String y4 (String "-" (String m1 (String m2 (String "-"
      (String d1 (String d2 rest))))))))) =>
    match two_digits y1 y2, two_digits y3 y4, two_digits m1 m2, two_digits d1 d2 with
    | Some a, Some b, Some m, Some d =>
      let y := 100 * a + b in
      if (1 <=? m) && (m <=? 12) && (1 <=? d) && (d <=? days_in y m)
      then Some (y, m, d, rest) else None
    | _, _, _, _ => None
    end
  | _ => None
  end.

(** [time.ParseInLocation("2006-01-02", s, Asia/Shanghai)] *)
Definition ParseDate (s : string) : option Z :=
  match parse_date s with
  | Some (y, m, d, EmptyString) => Some (days_from_civil y m d * Day - Shanghai)
  | _ => None
  end.

(** [getnum]: two digits, or one when the width is not fixed. *)
Definition getnum (fixed : bool) (s : string) : option (Z * string) :=
  match s with
  | String a rest =>
    match digit a with
    | None => None
    | Some x =>
      let one := if fixed then None else Some (x, rest) in
      match rest with
      | String b rest' => match digit b with Some y => Some (10 * x + y, rest') | None => one end
      | EmptyString => one
      end
    end
  | EmptyString => None
  end.

Definition literal (c : ascii) (s : string) : option string :=
  match s with String a rest => if Ascii.eqb a c then Some rest else None | EmptyString => None end.

(** The digits of a fraction of a second; [unit] is what the next one is worth,
    0 beyond the ninth. *)
Fixpoint fraction (unit acc : Z) (s : string) : Z * string :=
  match s with
  | String c rest =>
    match digit c with
    | Some d => fraction (unit / 10) (acc + d * unit) rest
    | None => (acc, s)
    end
  | EmptyString => (acc, s)
  end.

(** A fraction is read when a point or a comma is followed by a digit. *)
Definition opt_fraction (s : string) : Z * string :=
  match s with
  | String p (String c _ as rest) =>
    if (Ascii.eqb p "." || Ascii.eqb p ",") && bool_decide (digit c <> None)
    then fraction 100000000 0 rest else (0, s)
  | _ => (0, s)
  end.

(** The offset from UTC in seconds: [Z] or [+hh:mm]. *)
Definition zone (s : string) : option Z :=
  match s with
  | String "Z" EmptyString => Some 0
  | String sign (String h1 (String h2 (String ":" (String m1 (String m2 EmptyString))))) =>
    match two_digits h1 h2, two_digits m1 m2 with
    | Some h, Some m =>
      if (h <=? 24) && (m <=? 60) then
        if Ascii.eqb sign "+" then Some ((h * 60 + m) * 60)
        else if Ascii.eqb sign "-" then Some (- ((h * 60 + m) * 60)) else None
      else None
    | _, _ => None
    end
  | _ => None
  end.

(** [time.Parse(time.RFC3339, s)]: the layout [2006-01-02T15:04:05Z07:00], in which
    the hour may have one digit and the seconds a fraction. *)
Definition ParseRFC3339 (s : string) : option Z :=
  match parse_date s with
  | Some (y, mo, d, s) =>
    match literal "T" s ≫= getnum false with
    | Some (h, s) =>
      match literal ":" s ≫= getnum true with
      | Some (mi, s) =>
        match literal ":" s ≫= getnum true with
        | Some (se, s) =>
          let (ns, s) := opt_fraction s in
          match zone s with
          | Some off =>
            if (h <? 24) && (mi <? 60) && (se <? 60)
            then Some ((days_from_civil y mo d * 86400 + h * 3600 + mi * 60 + se - off) * Second + ns)
            else None
          | None => None
          end
        | None => None
        end
      | None => None
      end
    | None => None
    end
  | None => None
  end.

(** The clock [15:04:05], whose seconds may have a fraction, as nanoseconds of the day,
    up to the end of the text. *)
Definition clock (s : string) : option Z :=
  '(h, s) ← getnum false s; s ← literal ":" s; '(mi, s) ← getnum true s; s ← literal ":" s;
  '(se, s) ← getnum true s;
  match opt_fraction s with
  | (ns, EmptyString) =>
    if (h <? 24) && (mi <? 60) && (se <? 60) then Some ((h * 3600 + mi * 60 + se) * Second + ns) else None
  | _ => None
  end.

(** [time.Parse], in UTC, with the layouts [2006-01-02] and, for [sep] a [T] or a space,
    [2006-01-02T15:04:05]; a fraction of nines after the seconds of the layout accepts
    the same texts. *)
Definition ParseUTCDate (s : string) : option Z :=
  match parse_date s with
  | Some (y, m, d, EmptyString) => Some (days_from_civil y m d * Day)
  | _ => None
  end.
Definition ParseUTC (sep : ascii) (s : string) : option Z :=
  match parse_date s with
  | Some (y, m, d, s) => s ← literal sep s; t ← clock s; Some (days_from_civil y m d * Day + t)
  | None => None
  end.

(** A parsed date is the start of a local day. *)
Lemma ParseDate_dayStart s t : ParseDate s = Some t -> dayStart t = t.
Proof.
  unfold ParseDate. destruct (parse_date s) as [[[[y m] d] rest]|]; [|done].
  destruct rest; [|done]. intros [= <-]. unfold dayStart, local_day.
  replace (days_from_civil y m d * Day - Shanghai + Shanghai)
    with (days_from_civil y m d * Day) by lia.
  by rewrite Z.div_mul by (by compute).
Qed.

End GoTime.
