(* ===== verification/GoMonad.v ===== *)
(** * Errors and effects of the Go code

    - [error]: the error values the program builds and inspects: business errors
      ([internal/platform/bizerr]), [errors.New] sentinels, [fmt.Errorf] wrappers
      ([EWrapf] for ["text: %w"], [ENote] for ["%w: %v"]) and errors reported by a driver.
    - [M S A]: a computation of a handler or a repository method over a store of
      type [S].  It reads the environment (clock, id generator, failures of
      external statements) through a step counter, and appends what it sends to
      the outside world to a log of events.
    - [wp]: the weakest precondition of a computation, with one rule per
      primitive; [run] and [wp] are interchangeable. *)
From S2P Require Import Prelude GoString.

(** ** Error values *)

Inductive error : Type :=
| EBiz (Code : Z) (Message : string) (Cause : option error)
| ENew (text : string)
| EWrapf (prefix : string) (cause : error)
| ENote (cause : error) (text : string)
| EDriver (text : string).

Module Bizerr.
Definition CodeParamErr : Z := 400.
Definition CodeBizErr : Z := 400.
Definition CodeUnauthorized : Z := 401.
Definition CodeForbidden : Z := 403.
Definition CodeNotFound : Z := 404.
Definition CodeInternalErr : Z := 500.

Definition New (code : Z) (message : string) : error := EBiz code message None.
Definition Wrap (code : Z) (message : string) (cause : error) : error :=
  EBiz code message (Some cause).

Definition Param (m : string) : error := New CodeParamErr m.
Definition Biz (m : string) : error := New CodeBizErr m.
Definition Unauthorized (m : string) : error := New CodeUnauthorized m.
Definition Forbidden (m : string) : error := New CodeForbidden m.
Definition NotFound (m : string) : error := New CodeNotFound m.
Definition Internal (m : string) : error := New CodeInternalErr m.
Definition InternalWrap (m : string) (e : error) : error := Wrap CodeInternalErr m e.

(** The [Error] method (and, for the other kinds, the text Go prints). *)
Fixpoint Error (e : error) : string :=
  match e with
  | EBiz _ msg (Some c) => msg ++ ": " ++ Error c
  | EBiz _ msg None => msg
  | ENew text => text
  | EWrapf prefix c => prefix ++ ": " ++ Error c
  | ENote c text => Error c ++ ": " ++ text
  | EDriver text => text
  end.

Definition Unwrap (e : error) : option error :=
  match e with
  | EBiz _ _ c => c
  | EWrapf _ c | ENote c _ => Some c
  | ENew _ | EDriver _ => None
  end.
End Bizerr.

(** [errors.Is(e, errors.New(text))]: package-level sentinels are told apart by
    their text, which is distinct within a package. *)
Fixpoint errors_Is (e : error) (text : string) : bool :=
  match e with
  | ENew t => String.eqb t text
  | EBiz _ _ (Some c) => errors_Is c text
  | EWrapf _ c | ENote c _ => errors_Is c text
  | EBiz _ _ None | EDriver _ => false
  end.

(** [gorm.ErrRecordNotFound] *)
Definition record_not_found_text : string := "record not found".
Definition ErrRecordNotFound : error := ENew record_not_found_text.

(** ** Results, environment, world *)

Inductive res (A : Type) : Type :=
| Ok (a : A)
| Err (e : error).
Arguments Ok {A} a.
Arguments Err {A} e.

Definition is_ok {A} (r : res A) : bool := match r with Ok _ => true | Err _ => false end.

(** What happens outside the process, by step number: the wall clock
    ([time.Now], in nanoseconds since the epoch), the ids drawn from the
    snowflake generator, and which statements sent to an external system fail. *)
Class Env := {
  env_now : nat -> Z;
  env_id : nat -> Z;
  env_fault : nat -> bool;
}.

(** What the code sends out besides database statements. *)
Inductive Event : Type :=
| EvNotify (user : Z) (event title content resource : string)
| EvGateway (op request : string) (amount : Z)
| EvCall (target : string) (args : list string)
| EvLog (message : string).

Record World (S : Type) := mkWorld {
  w_db : S;
  w_tick : nat;
  w_out : list Event;
}.
Arguments mkWorld {S}.
Arguments w_db {S}.
Arguments w_tick {S}.
Arguments w_out {S}.

Definition bump {S} (w : World S) : World S :=
  mkWorld (w_db w) (Datatypes.S (w_tick w)) (w_out w).
Definition with_db {S} (s : S) (w : World S) : World S :=
  mkWorld s (w_tick w) (w_out w).

Definition M (S A : Type) : Type := World S -> res A * World S.

Section monad.
Context {S : Type}.

Definition ret {A} (a : A) : M S A := fun w => (Ok a, w).
Definition throw {A} (e : error) : M S A := fun w => (Err e, w).
Definition bind {A B} (m : M S A) (k : A -> M S B) : M S B := fun w =>
  match m w with
  | (Ok a, w') => k a w'
  | (Err e, w') => (Err e, w')
  end.

(** [r, err := m]: run [m] and hand its result, error included, to the code
    that follows. *)
Definition attempt {A} (m : M S A) : M S (res A) := fun w =>
  let (r, w') := m w in (Ok r, w').

(** [if err != nil { return f(err) }] *)
Definition map_err {A} (f : error -> error) (m : M S A) : M S A := fun w =>
  match m w with
  | (Err e, w') => (Err (f e), w')
  | r => r
  end.

Definition of_res {A} (r : res A) : M S A :=
  match r with Ok a => ret a | Err e => throw e end.

Definition get_db : M S S := fun w => (Ok (w_db w), w).
Definition put_db (s : S) : M S unit := fun w => (Ok tt, with_db s w).
Definition emit (ev : Event) : M S unit := fun w =>
  (Ok tt, mkWorld (w_db w) (w_tick w) (w_out w ++ [ev])).

Context {E : Env}.

(** [s.now()] and [snowflake.Generate()] *)
Definition now : M S Z := fun w => (Ok (env_now (w_tick w)), bump w).
Definition Generate : M S Z := fun w => (Ok (env_id (w_tick w)), bump w).
(** Does the statement sent next fail? *)
Definition fault : M S bool := fun w => (Ok (env_fault (w_tick w)), bump w).

(** ** Weakest preconditions *)
Definition wp {A} (m : M S A) (Q : res A -> World S -> Prop) (w : World S) : Prop :=
  Q (fst (m w)) (snd (m w)).

Lemma wp_run {A} (m : M S A) Q w : wp m Q w <-> forall r w', m w = (r, w') -> Q r w'.
Proof.
  unfold wp. destruct (m w) as [r w'] eqn:Em; simpl. split; [congruence|]. eauto.
Qed.

Lemma wp_mono {A} (m : M S A) (Q1 Q2 : res A -> World S -> Prop) w :
  wp m Q1 w -> (forall r w', Q1 r w' -> Q2 r w') -> wp m Q2 w.
Proof. unfold wp. eauto. Qed.

Lemma wp_and {A} (m : M S A) (Q1 Q2 : res A -> World S -> Prop) w :
  wp m Q1 w -> wp m Q2 w -> wp m (fun r w' => Q1 r w' /\ Q2 r w') w.
Proof. done. Qed.

Lemma wp_ret {A} (a : A) (Q : res A -> World S -> Prop) w :
  Q (Ok a) w -> wp (ret a) Q w.
Proof. done. Qed.

Lemma wp_throw {A} e (Q : res A -> World S -> Prop) w :
  Q (Err e) w -> wp (throw e) Q w.
Proof. done. Qed.

Lemma wp_bind {A B} (m : M S A) (k : A -> M S B) (Q : res B -> World S -> Prop) w :
  wp m (fun r w' => match r with Ok a => wp (k a) Q w' | Err e => Q (Err e) w' end) w ->
  wp (bind m k) Q w.
Proof. unfold wp, bind. by destruct (m w) as [[a|e] w']. Qed.

Lemma wp_attempt {A} (m : M S A) (Q : res (res A) -> World S -> Prop) w :
  wp m (fun r w' => Q (Ok r) w') w -> wp (attempt m) Q w.
Proof. unfold wp, attempt. by destruct (m w). Qed.

Lemma wp_map_err {A} f (m : M S A) (Q : res A -> World S -> Prop) w :
  wp m (fun r w' => match r with Ok a => Q (Ok a) w' | Err e => Q (Err (f e)) w' end) w ->
  wp (map_err f m) Q w.
Proof. unfold wp, map_err. by destruct (m w) as [[]]. Qed.

Lemma wp_of_res {A} (r : res A) (Q : res A -> World S -> Prop) w :
  Q r w -> wp (of_res r) Q w.
Proof. by destruct r. Qed.

Lemma wp_emit ev (Q : res unit -> World S -> Prop) w :
  Q (Ok tt) (mkWorld (w_db w) (w_tick w) (w_out w ++ [ev])) -> wp (emit ev) Q w.
Proof. done. Qed.

Lemma wp_now (Q : res Z -> World S -> Prop) w :
  Q (Ok (env_now (w_tick w))) (bump w) -> wp now Q w.
Proof. done. Qed.

Lemma wp_Generate (Q : res Z -> World S -> Prop) w :
  Q (Ok (env_id (w_tick w))) (bump w) -> wp Generate Q w.
Proof. done. Qed.

Lemma wp_fault (Q : res bool -> World S -> Prop) w :
  Q (Ok (env_fault (w_tick w))) (bump w) -> wp fault Q w.
Proof. done. Qed.

Lemma wp_get_db (Q : res S -> World S -> Prop) w :
  Q (Ok (w_db w)) w -> wp get_db Q w.
Proof. done. Qed.

Lemma wp_put_db s (Q : res unit -> World S -> Prop) w :
  Q (Ok tt) (with_db s w) -> wp (put_db s) Q w.
Proof. done. Qed.

(** [m] does not change what [f] observes of the world. *)
Definition preserves {X A} (f : World S -> X) (m : M S A) : Prop :=
  forall w, f (snd (m w)) = f w.

Lemma preserves_ret {X A} (f : World S -> X) (a : A) : preserves f (ret a).
Proof. done. Qed.
Lemma preserves_throw {X A} (f : World S -> X) e : @preserves X A f (throw e).
Proof. done. Qed.
Lemma preserves_bind {X A B} (f : World S -> X) (m : M S A) (k : A -> M S B) :
  preserves f m -> (forall a, preserves f (k a)) -> preserves f (bind m k).
Proof.
  intros Hm Hk w. unfold bind. specialize (Hm w).
  destruct (m w) as [[a|e] w']; simpl in *; [|done]. by rewrite Hk.
Qed.
Lemma preserves_attempt {X A} (f : World S -> X) (m : M S A) :
  preserves f m -> preserves f (attempt m).
Proof. intros Hm w. specialize (Hm w). unfold attempt. by destruct (m w). Qed.
Lemma preserves_map_err {X A} (f : World S -> X) g (m : M S A) :
  preserves f m -> preserves f (map_err g m).
Proof. intros Hm w. specialize (Hm w). unfold map_err. by destruct (m w) as [[]]. Qed.
Lemma wp_preserves {X A} (f : World S -> X) (m : M S A) w :
  preserves f m -> wp m (fun _ w' => f w' = f w) w.
Proof. intros Hm. apply Hm. Qed.

(** [for _, x := range l { body x }] with an error return out of the loop. *)
Fixpoint for_each {A} (l : list A) (body : A -> M S unit) : M S unit :=
  match l with
  | [] => ret tt
  | x :: l' => bind (body x) (fun _ => for_each l' body)
  end.

Lemma wp_for_each {A} (l : list A) (body : A -> M S unit) (I : World S -> Prop)
    (Q : res unit -> World S -> Prop) w :
  I w ->
  (forall x w', x ∈ l -> I w' ->
     wp (body x) (fun r w'' => match r with Ok _ => I w'' | Err e => Q (Err e) w'' end) w') ->
  (forall w', I w' -> Q (Ok tt) w') ->
  wp (for_each l body) Q w.
Proof.
  intros Hw Hbody HQ. revert w Hw. induction l as [|x l IH]; intros w Hw; simpl.
  - apply wp_ret. auto.
  - apply wp_bind. eapply wp_mono; [apply Hbody; [left|done]|].
    intros [u|e] w'; simpl; [|done]. intros Hw'. apply IH; [|done].
    intros y w'' Hy. apply Hbody. by right.
Qed.
End monad.

Notation "'let!' x := m 'in' k" := (bind m (fun x => k))
  (at level 10, x pattern, m at level 100, k at level 200) : go_scope.
Notation "m ;; k" := (bind m (fun _ => k))
  (at level 100, k at level 200, right associativity) : go_scope.
Open Scope go_scope.

Lemma wp_if {S A} (b : bool) (m1 m2 : M S A) Q w :
  (b = true -> wp m1 Q w) -> (b = false -> wp m2 Q w) -> wp (if b then m1 else m2) Q w.
Proof. destruct b; auto. Qed.

(** ** Idioms of the services and repositories *)

(** [errors.Is] against a sentinel of a repository. *)
Definition is_sentinel (s e : error) : bool :=
  match s with ENew t => errors_Is e t | _ => false end.

(** [if errors.Is(err, s1) { return e1 } .. ; if err != nil { return InternalWrap }] *)
Fixpoint error_table (l : list (error * error)) (text : string) (e : error) : error :=
  match l with
  | [] => Bizerr.InternalWrap text e
  | (s, e') :: l' => if is_sentinel s e then e' else error_table l' text e
  end.

Section idioms.
Context {S : Type}.

(** [if errors.Is(err, gorm.ErrRecordNotFound) { return nil, nil }] *)
Definition or_nil {A} (m : M S A) : M S (option A) :=
  let! r := attempt m in
  match r with
  | Ok a => ret (Some a)
  | Err e => if errors_Is e record_not_found_text then ret None else throw e
  end.

(** [if err != nil { return bizerr.InternalWrap(text, err) }] *)
Definition internal {A} (text : string) (m : M S A) : M S A := map_err (Bizerr.InternalWrap text) m.

(** [x, err := m; if err != nil || x == nil { return e }] *)
Definition found {A} (e : error) (m : M S (option A)) : M S A :=
  let! r := attempt m in
  match r with Ok (Some a) => ret a | _ => throw e end.

(** A lookup ends with the row, or with nothing to show. *)
Definition nothing {T} (r : res (option T)) : Prop := forall t, r <> Ok (Some t).

Lemma wp_or_nil {T} (m : M S T) (Q : res (option T) -> World S -> Prop) w :
  wp m (fun r w' =>
    match r with Ok t => Q (Ok (Some t)) w' | Err _ => forall r', nothing r' -> Q r' w' end) w ->
  wp (or_nil m) Q w.
Proof.
  intros Hm. unfold or_nil. apply wp_bind, wp_attempt. eapply wp_mono; [exact Hm|].
  intros [t|e] w' HQ; cbv beta iota; [exact HQ|].
  destruct (errors_Is _ _); apply HQ; by intros t [=].
Qed.

Lemma wp_found {T} e (m : M S (option T)) (Q : res T -> World S -> Prop) w :
  wp m (fun r w' =>
    match r with Ok (Some t) => Q (Ok t) w' | _ => Q (Err e) w' end) w ->
  wp (found e m) Q w.
Proof.
  intros Hm. unfold found. apply wp_bind, wp_attempt. eapply wp_mono; [exact Hm|].
  by intros [[t|]|e'] w' HQ.
Qed.
End idioms.

(** One step of symbolic execution through the primitives of the monad. *)
Ltac wp_step :=
  match goal with
  | |- wp (ret _) _ _ => apply wp_ret
  | |- wp (throw _) _ _ => apply wp_throw
  | |- wp (bind _ _) _ _ => apply wp_bind
  | |- wp (attempt _) _ _ => apply wp_attempt
  | |- wp (map_err _ _) _ _ => apply wp_map_err
  | |- wp (emit _) _ _ => apply wp_emit
  | |- wp now _ _ => apply wp_now
  | |- wp Generate _ _ => apply wp_Generate
  | |- wp fault _ _ => apply wp_fault
  | |- wp get_db _ _ => apply wp_get_db
  | |- wp (put_db _) _ _ => apply wp_put_db
  end; cbv beta iota.
