(* ===== verification/GoCrypto.v ===== *)
(** * Go library: hashes, the AES block cipher and base64
    [crypto/sha1], [crypto/aes] (FIPS 197) and [encoding/base64], with published test
    vectors; decryption of a block inverts its encryption, and decoding inverts
    encoding. *)
From S2P Require Import Prelude GoMonad GoString.

(** ** Go library: digests and encodings

    [crypto/sha1] and [crypto/md5] on byte strings (FIPS 180-4 and RFC 1321), and
    [encoding/hex].  Words are integers below 2^32 with their wrap-around. *)

#[local] Open Scope Z_scope.

Module GoHash.

Definition w32 (x : Z) : Z := x mod 2 ^ 32.
Definition rotl (n x : Z) : Z := Z.lor (w32 (Z.shiftl x n)) (Z.shiftr x (32 - n)).
Definition not32 (x : Z) : Z := Z.lxor x (2 ^ 32 - 1).

(** Words from bytes, most or least significant byte first, and back. *)
Fixpoint words (be : bool) (l : list Z) : list Z :=
  match l with
  | a :: b :: c :: d :: l' =>
    (if be then Z.lor (Z.shiftl a 24) (Z.lor (Z.shiftl b 16) (Z.lor (Z.shiftl c 8) d))
     else Z.lor (Z.shiftl d 24) (Z.lor (Z.shiftl c 16) (Z.lor (Z.shiftl b 8) a))) :: words be l'
  | _ => []
  end.
Definition octets (be : bool) (n : nat) (x : Z) : list Z :=
  let l := (fun i => Z.land (Z.shiftr x (8 * Z.of_nat i)) 255) <$> seq 0 n in
  if be then reverse l else l.

(** A one bit, zeros up to 56 modulo 64, and the length in bits. *)
Definition padded (be : bool) (l : list Z) : list Z :=
  let n := length l in
  l ++ [128] ++ replicate (Z.to_nat ((55 - Z.of_nat n) mod 64)) 0 ++ octets be 8 ((8 * Z.of_nat n) mod 2 ^ 64).

Fixpoint chunks (fuel k : nat) (l : list Z) : list (list Z) :=
  match fuel with
  | O => []
  | S fuel => match l with [] => [] | _ => take k l :: chunks fuel k (drop k l) end
  end.

Definition nthw (l : list Z) (i : nat) : Z := default 0 (l !! i).

(** ** SHA-1 *)
Definition sha1_step (w : list Z) (s : Z * Z * Z * Z * Z) (t : nat) : Z * Z * Z * Z * Z :=
  let '(a, b, c, d, e) := s in
  let '(f, k) :=
    if (t <? 20)%nat then (Z.lor (Z.land b c) (Z.land (not32 b) d), 1518500249)
    else if (t <? 40)%nat then (Z.lxor b (Z.lxor c d), 1859775393)
    else if (t <? 60)%nat then (Z.lor (Z.land b c) (Z.lor (Z.land b d) (Z.land c d)), 2400959708)
    else (Z.lxor b (Z.lxor c d), 3395469782) in
  (w32 (rotl 5 a + f + e + k + nthw w t), a, rotl 30 b, c, d).

(** The message schedule: the block's sixteen words, extended to eighty. *)
Definition schedule (ws : list Z) : list Z :=
  fold_left (fun w t =>
    w ++ [rotl 1 (Z.lxor (nthw w (t - 3)) (Z.lxor (nthw w (t - 8)) (Z.lxor (nthw w (t - 14)) (nthw w (t - 16)))))])
    (seq 16 64) ws.

Definition sha1_block (h : Z * Z * Z * Z * Z) (block : list Z) : Z * Z * Z * Z * Z :=
  let '(h0, h1, h2, h3, h4) := h in
  let '(a, b, c, d, e) := fold_left (sha1_step (schedule (words true block))) (seq 0 80) h in
  (w32 (h0 + a), w32 (h1 + b), w32 (h2 + c), w32 (h3 + d), w32 (h4 + e)).

Definition sha1_Sum (s : string) : list Z :=
  let l := padded true (GoStr.bytes s) in
  let '(a, b, c, d, e) :=
    fold_left sha1_block (chunks (length l) 64 l) (1732584193, 4023233417, 2562383102, 271733878, 3285377520) in
  flat_map (octets true 4) [a; b; c; d; e].

(** ** MD5 *)
Definition md5_K : list Z := [
  3614090360; 3905402710; 606105819; 3250441966; 4118548399; 1200080426;
  2821735955; 4249261313; 1770035416; 2336552879; 4294925233; 2304563134;
  1804603682; 4254626195; 2792965006; 1236535329; 4129170786; 3225465664;
  643717713; 3921069994; 3593408605; 38016083; 3634488961; 3889429448;
  568446438; 3275163606; 4107603335; 1163531501; 2850285829; 4243563512;
  1735328473; 2368359562; 4294588738; 2272392833; 1839030562; 4259657740;
  2763975236; 1272893353; 4139469664; 3200236656; 681279174; 3936430074;
  3572445317; 76029189; 3654602809; 3873151461; 530742520; 3299628645;
  4096336452; 1126891415; 2878612391; 4237533241; 1700485571; 2399980690;
  4293915773; 2240044497; 1873313359; 4264355552; 2734768916; 1309151649;
  4149444226; 3174756917; 718787259; 3951481745
].
Definition md5_shift (t : nat) : Z :=
  nthw (if (t <? 16)%nat then [7; 12; 17; 22] else if (t <? 32)%nat then [5; 9; 14; 20]
        else if (t <? 48)%nat then [4; 11; 16; 23] else [6; 10; 15; 21]) (t mod 4)%nat.

Definition md5_step (ws : list Z) (s : Z * Z * Z * Z) (t : nat) : Z * Z * Z * Z :=
  let '(a, b, c, d) := s in
  let '(f, g) :=
    if (t <? 16)%nat then (Z.lor (Z.land b c) (Z.land (not32 b) d), t)
    else if (t <? 32)%nat then (Z.lor (Z.land d b) (Z.land (not32 d) c), ((5 * t + 1) mod 16)%nat)
    else if (t <? 48)%nat then (Z.lxor b (Z.lxor c d), ((3 * t + 5) mod 16)%nat)
    else (Z.lxor c (Z.lor b (not32 d)), ((7 * t) mod 16)%nat) in
  (d, w32 (b + rotl (md5_shift t) (w32 (a + f + nthw md5_K t + nthw ws g))), b, c).

Definition md5_block (h : Z * Z * Z * Z) (block : list Z) : Z * Z * Z * Z :=
  let '(h0, h1, h2, h3) := h in
  let '(a, b, c, d) := fold_left (md5_step (words false block)) (seq 0 64) h in
  (w32 (h0 + a), w32 (h1 + b), w32 (h2 + c), w32 (h3 + d)).

Definition md5_Sum (s : string) : list Z :=
  let l := padded false (GoStr.bytes s) in
  let '(a, b, c, d) :=
    fold_left md5_block (chunks (length l) 64 l) (1732584193, 4023233417, 2562383102, 271733878) in
  flat_map (octets false 4) [a; b; c; d].

(** ** [encoding/hex] *)
Definition hex_digit (d : Z) : Z := if d <? 10 then 48 + d else 87 + d.
Definition EncodeToString (l : list Z) : string :=
  GoStr.of_bytes (flat_map (fun b => [hex_digit (b / 16); hex_digit (b mod 16)]) l).

Lemma sha1_examples :
  EncodeToString (sha1_Sum "abc") = "a9993e364706816aba3e25717850c26c9cd0d89d"%string /\
  EncodeToString (sha1_Sum "") = "da39a3ee5e6b4b0d3255bfef95601890afd80709"%string /\
  EncodeToString (sha1_Sum "abcdbcdecdefdefgefghfghighijhijkijkljklmklmnlmnomnopnopq") =
    "84983e441c3bd26ebaae4aa1f95129e5e54670f1"%string.
Proof. by vm_compute. Qed.
Lemma md5_examples :
  EncodeToString (md5_Sum "abc") = "900150983cd24fb0d6963f7d28e17f72"%string /\
  EncodeToString (md5_Sum "") = "d41d8cd98f00b204e9800998ecf8427e"%string /\
  EncodeToString (md5_Sum "12345678901234567890123456789012345678901234567890123456789012345678901234567890") =
    "57edf4a22be3c955ac49da2e2107b67a"%string.
Proof. by vm_compute. Qed.
End GoHash.

(** ** Go library: the AES block cipher

    [crypto/aes] (FIPS 197) on blocks of sixteen bytes, with keys of 128, 192 and
    256 bits, and the proof that decryption of a block inverts its encryption.  A
    state is the list of its bytes, column by column. *)

#[local] Open Scope Z_scope.

Module GoAes.

Definition byte (b : Z) : Prop := 0 <= b < 256.
Definition block (s : list Z) : Prop := length s = 16%nat /\ Forall byte s.
Notation nthw := GoHash.nthw.

Definition sbox : list Z := [
  99; 124; 119; 123; 242; 107; 111; 197; 48; 1; 103; 43; 254; 215; 171; 118;
  202; 130; 201; 125; 250; 89; 71; 240; 173; 212; 162; 175; 156; 164; 114; 192;
  183; 253; 147; 38; 54; 63; 247; 204; 52; 165; 229; 241; 113; 216; 49; 21;
  4; 199; 35; 195; 24; 150; 5; 154; 7; 18; 128; 226; 235; 39; 178; 117;
  9; 131; 44; 26; 27; 110; 90; 160; 82; 59; 214; 179; 41; 227; 47; 132;
  83; 209; 0; 237; 32; 252; 177; 91; 106; 203; 190; 57; 74; 76; 88; 207;
  208; 239; 170; 251; 67; 77; 51; 133; 69; 249; 2; 127; 80; 60; 159; 168;
  81; 163; 64; 143; 146; 157; 56; 245; 188; 182; 218; 33; 16; 255; 243; 210;
  205; 12; 19; 236; 95; 151; 68; 23; 196; 167; 126; 61; 100; 93; 25; 115;
  96; 129; 79; 220; 34; 42; 144; 136; 70; 238; 184; 20; 222; 94; 11; 219;
  224; 50; 58; 10; 73; 6; 36; 92; 194; 211; 172; 98; 145; 149; 228; 121;
  231; 200; 55; 109; 141; 213; 78; 169; 108; 86; 244; 234; 101; 122; 174; 8;
  186; 120; 37; 46; 28; 166; 180; 198; 232; 221; 116; 31; 75; 189; 139; 138;
  112; 62; 181; 102; 72; 3; 246; 14; 97; 53; 87; 185; 134; 193; 29; 158;
  225; 248; 152; 17; 105; 217; 142; 148; 155; 30; 135; 233; 206; 85; 40; 223;
  140; 161; 137; 13; 191; 230; 66; 104; 65; 153; 45; 15; 176; 84; 187; 22
].
Definition inv_sbox : list Z := [
  82; 9; 106; 213; 48; 54; 165; 56; 191; 64; 163; 158; 129; 243; 215; 251;
  124; 227; 57; 130; 155; 47; 255; 135; 52; 142; 67; 68; 196; 222; 233; 203;
  84; 123; 148; 50; 166; 194; 35; 61; 238; 76; 149; 11; 66; 250; 195; 78;
  8; 46; 161; 102; 40; 217; 36; 178; 118; 91; 162; 73; 109; 139; 209; 37;
  114; 248; 246; 100; 134; 104; 152; 22; 212; 164; 92; 204; 93; 101; 182; 146;
  108; 112; 72; 80; 253; 237; 185; 218; 94; 21; 70; 87; 167; 141; 157; 132;
  144; 216; 171; 0; 140; 188; 211; 10; 247; 228; 88; 5; 184; 179; 69; 6;
  208; 44; 30; 143; 202; 63; 15; 2; 193; 175; 189; 3; 1; 19; 138; 107;
  58; 145; 17; 65; 79; 103; 220; 234; 151; 242; 207; 206; 240; 180; 230; 115;
  150; 172; 116; 34; 231; 173; 53; 133; 226; 249; 55; 232; 28; 117; 223; 110;
  71; 241; 26; 113; 29; 41; 197; 137; 111; 183; 98; 14; 170; 24; 190; 27;
  252; 86; 62; 75; 198; 210; 121; 32; 154; 219; 192; 254; 120; 205; 90; 244;
  31; 221; 168; 51; 136; 7; 199; 49; 177; 18; 16; 89; 39; 128; 236; 95;
  96; 81; 127; 169; 25; 181; 74; 13; 45; 229; 122; 159; 147; 201; 156; 239;
  160; 224; 59; 77; 174; 42; 245; 176; 200; 235; 187; 60; 131; 83; 153; 97;
  23; 43; 4; 126; 186; 119; 214; 38; 225; 105; 20; 99; 85; 33; 12; 125
].
Definition sub (b : Z) : Z := nthw sbox (Z.to_nat b).
Definition inv_sub (b : Z) : Z := nthw inv_sbox (Z.to_nat b).

Definition perm (p : list nat) (s : list Z) : list Z := nthw s <$> p.
Definition shift_rows : list Z -> list Z := perm [0;5;10;15;4;9;14;3;8;13;2;7;12;1;6;11]%nat.
Definition inv_shift_rows : list Z -> list Z := perm [0;13;10;7;4;1;14;11;8;5;2;15;12;9;6;3]%nat.

(** Products in GF(2^8). *)
Definition mul2 (x : Z) : Z := if x <? 128 then 2 * x else Z.lxor (2 * x) 283.
Definition mul3 (x : Z) : Z := Z.lxor (mul2 x) x.
Definition mul9 (x : Z) : Z := Z.lxor (mul2 (mul2 (mul2 x))) x.
Definition mul11 (x : Z) : Z := Z.lxor (mul2 (mul2 (mul2 x))) (mul3 x).
Definition mul13 (x : Z) : Z := Z.lxor (mul2 (mul2 (mul2 x))) (Z.lxor (mul2 (mul2 x)) x).
Definition mul14 (x : Z) : Z := Z.lxor (mul2 (mul2 (mul2 x))) (Z.lxor (mul2 (mul2 x)) (mul2 x)).

Definition column : Type := Z * Z * Z * Z.
Definition mix (v : column) : column :=
  let '(a, b, c, d) := v in
  (Z.lxor (Z.lxor (mul2 a) (mul3 b)) (Z.lxor c d), Z.lxor (Z.lxor a (mul2 b)) (Z.lxor (mul3 c) d),
   Z.lxor (Z.lxor a b) (Z.lxor (mul2 c) (mul3 d)), Z.lxor (Z.lxor (mul3 a) b) (Z.lxor c (mul2 d))).
Definition inv_mix (v : column) : column :=
  let '(a, b, c, d) := v in
  (Z.lxor (Z.lxor (mul14 a) (mul11 b)) (Z.lxor (mul13 c) (mul9 d)),
   Z.lxor (Z.lxor (mul9 a) (mul14 b)) (Z.lxor (mul11 c) (mul13 d)),
   Z.lxor (Z.lxor (mul13 a) (mul9 b)) (Z.lxor (mul14 c) (mul11 d)),
   Z.lxor (Z.lxor (mul11 a) (mul13 b)) (Z.lxor (mul9 c) (mul14 d))).
Fixpoint columns (f : column -> column) (s : list Z) : list Z :=
  match s with
  | a :: b :: c :: d :: s' => let '(a, b, c, d) := f (a, b, c, d) in a :: b :: c :: d :: columns f s'
  | _ => []
  end.
Definition mix_columns : list Z -> list Z := columns mix.
Definition inv_mix_columns : list Z -> list Z := columns inv_mix.

Definition add_round_key (k s : list Z) : list Z := imap (fun i b => Z.lxor b (nthw k i)) s.

(** ** Key expansion *)
Definition rcon (i : nat) : Z := Nat.iter (i - 1) mul2 1.
Definition xor_words (u v : list Z) : list Z := imap (fun i b => Z.lxor b (nthw v i)) u.
Definition next_word (nk : nat) (w : list (list Z)) (i : nat) : list Z :=
  let temp := default [] (w !! (i - 1)%nat) in
  let temp :=
    if (i mod nk =? 0)%nat then
      xor_words (sub <$> perm [1; 2; 3; 0]%nat temp) [rcon (i / nk)]
    else if (6 <? nk)%nat && (i mod nk =? 4)%nat then sub <$> temp
    else temp in
  xor_words (default [] (w !! (i - nk)%nat)) temp.
Definition round_keys (key : list Z) : list (list Z) :=
  let nk := (length key / 4)%nat in
  let w0 := GoHash.chunks (length key) 4 key in
  let w := fold_left (fun w i => w ++ [next_word nk w i]) (seq nk (4 * (nk + 7) - nk)) w0 in
  GoHash.chunks (4 * (nk + 7)) 16 (concat w).

(** ** The cipher *)
Definition enc_round (s k : list Z) : list Z := add_round_key k (mix_columns (shift_rows (sub <$> s))).
Definition dec_round (s k : list Z) : list Z := inv_sub <$> inv_shift_rows (inv_mix_columns (add_round_key k s)).

Definition Encrypt (key src : list Z) : list Z :=
  match round_keys key with
  | [] => src
  | k0 :: ks =>
    let s := fold_left enc_round (removelast ks) (add_round_key k0 src) in
    add_round_key (List.last ks []) (shift_rows (sub <$> s))
  end.
Definition Decrypt (key src : list Z) : list Z :=
  match round_keys key with
  | [] => src
  | k0 :: ks =>
    let s := inv_sub <$> inv_shift_rows (add_round_key (List.last ks []) src) in
    add_round_key k0 (fold_left dec_round (reverse (removelast ks)) s)
  end.

(** FIPS 197, appendix C. *)
Definition count_bytes (n : nat) : list Z := Z.of_nat <$> seq 0 n.
Definition fips_plain : list Z := (fun i => 17 * Z.of_nat i) <$> seq 0 16.
Lemma fips_examples :
  GoHash.EncodeToString (Encrypt (count_bytes 16) fips_plain) = "69c4e0d86a7b0430d8cdb78070b4c55a"%string /\
  GoHash.EncodeToString (Encrypt (count_bytes 24) fips_plain) = "dda97ca4864cdfe06eaf70a0ec0d7191"%string /\
  GoHash.EncodeToString (Encrypt (count_bytes 32) fips_plain) = "8ea2b7ca516745bfeafc49904b496089"%string.
Proof. by vm_compute. Qed.

(** ** Decryption inverts encryption *)

(** A fact of all bytes, by computation. *)
Lemma all_bytes (p : Z -> bool) :
  forallb (fun n => p (Z.of_nat n)) (seq 0 256) = true -> forall b, byte b -> p b = true.
Proof.
  intros Hp b Hb. rewrite forallb_forall in Hp. rewrite <- (Z2Nat.id b) by apply Hb.
  apply Hp, in_seq. unfold byte in Hb. lia.
Qed.

Lemma byte_lxor a b : byte a -> byte b -> byte (Z.lxor a b).
Proof.
  unfold byte. intros Ha Hb. split; [apply Z.lxor_nonneg; lia|].
  destruct (Z.eq_dec (Z.lxor a b) 0) as [->|Hne]; [lia|]. apply Z.log2_lt_cancel. change (Z.log2 256) with 8.
  eapply Z.le_lt_trans; [apply Z.log2_lxor; lia|].
  assert (forall x, 0 <= x < 256 -> Z.log2 x < 8) as Hl.
  { intros x Hx. destruct (Z.eq_dec x 0) as [->|]; [done|]. apply Z.log2_lt_pow2; lia. }
  apply Z.max_lub_lt; auto.
Qed.

Lemma byte_sub b : byte b -> byte (sub b) /\ byte (inv_sub b) /\ inv_sub (sub b) = b.
Proof.
  intros Hb.
  assert ((0 <=? sub b) && (sub b <? 256) && ((0 <=? inv_sub b) && (inv_sub b <? 256))
    && (inv_sub (sub b) =? b) = true) as Hc.
  { apply (all_bytes (fun b => (0 <=? sub b) && (sub b <? 256) && ((0 <=? inv_sub b) && (inv_sub b <? 256))
      && (inv_sub (sub b) =? b))); [by vm_compute|done]. }
  unfold byte. bools. done.
Qed.

Lemma byte_mul2 b : byte b -> byte (mul2 b).
Proof.
  intros Hb. assert ((0 <=? mul2 b) && (mul2 b <? 256) = true) as Hc.
  { apply (all_bytes (fun b => (0 <=? mul2 b) && (mul2 b <? 256))); [by vm_compute|done]. }
  bools. done.
Qed.
Lemma mul2_lxor a b : byte a -> byte b -> mul2 (Z.lxor a b) = Z.lxor (mul2 a) (mul2 b).
Proof.
  intros Ha Hb.
  assert (forallb (fun n => mul2 (Z.lxor a (Z.of_nat n)) =? Z.lxor (mul2 a) (mul2 (Z.of_nat n))) (seq 0 256) = true)
    as Hc.
  { apply (all_bytes (fun a => forallb (fun n => mul2 (Z.lxor a (Z.of_nat n)) =?
      Z.lxor (mul2 a) (mul2 (Z.of_nat n))) (seq 0 256))); [by vm_compute|done]. }
  apply (all_bytes (fun b => mul2 (Z.lxor a b) =? Z.lxor (mul2 a) (mul2 b))) in Hb; [|done]. by bools.
Qed.

(** *** Columns as vectors *)
Definition bytes4 (v : column) : Prop := let '(a, b, c, d) := v in byte a /\ byte b /\ byte c /\ byte d.
Definition add4 (u v : column) : column :=
  let '(a, b, c, d) := u in let '(a', b', c', d') := v in
  (Z.lxor a a', Z.lxor b b', Z.lxor c c', Z.lxor d d').

Ltac xor_solve :=
  apply Z.bits_inj; intros ?n; rewrite !Z.lxor_spec;
  repeat match goal with |- context [Z.testbit ?x ?k] => generalize (Z.testbit x k); intros [] end; reflexivity.

#[local] Hint Resolve byte_lxor byte_mul2 : bytes.

Lemma mul_lxor a b : byte a -> byte b ->
  mul3 (Z.lxor a b) = Z.lxor (mul3 a) (mul3 b) /\ mul9 (Z.lxor a b) = Z.lxor (mul9 a) (mul9 b) /\
  mul11 (Z.lxor a b) = Z.lxor (mul11 a) (mul11 b) /\ mul13 (Z.lxor a b) = Z.lxor (mul13 a) (mul13 b) /\
  mul14 (Z.lxor a b) = Z.lxor (mul14 a) (mul14 b).
Proof.
  intros Ha Hb. unfold mul9, mul11, mul13, mul14, mul3.
  rewrite !mul2_lxor by auto with bytes. repeat split; xor_solve.
Qed.

Lemma byte_muls b : byte b ->
  byte (mul3 b) /\ byte (mul9 b) /\ byte (mul11 b) /\ byte (mul13 b) /\ byte (mul14 b).
Proof. intros Hb. unfold mul9, mul11, mul13, mul14, mul3. auto 20 with bytes. Qed.

Lemma mix_bytes v : bytes4 v -> bytes4 (mix v) /\ bytes4 (inv_mix v).
Proof.
  destruct v as [[[a b] c] d]. intros (Ha & Hb & Hc & Hd).
  destruct (byte_muls a Ha) as (? & ? & ? & ? & ?), (byte_muls b Hb) as (? & ? & ? & ? & ?).
  destruct (byte_muls c Hc) as (? & ? & ? & ? & ?), (byte_muls d Hd) as (? & ? & ? & ? & ?).
  unfold bytes4, mix, inv_mix. auto 20 with bytes.
Qed.

Lemma mix_add u v : bytes4 u -> bytes4 v ->
  mix (add4 u v) = add4 (mix u) (mix v) /\ inv_mix (add4 u v) = add4 (inv_mix u) (inv_mix v).
Proof.
  destruct u as [[[a b] c] d], v as [[[a' b'] c'] d'].
  intros (Ha & Hb & Hc & Hd) (Ha' & Hb' & Hc' & Hd').
  destruct (mul_lxor a a' Ha Ha') as (A3 & A9 & A11 & A13 & A14).
  destruct (mul_lxor b b' Hb Hb') as (B3 & B9 & B11 & B13 & B14).
  destruct (mul_lxor c c' Hc Hc') as (C3 & C9 & C11 & C13 & C14).
  destruct (mul_lxor d d' Hd Hd') as (D3 & D9 & D11 & D13 & D14).
  unfold mix, inv_mix, add4. rewrite !mul2_lxor by done.
  rewrite ?A3, ?A9, ?A11, ?A13, ?A14, ?B3, ?B9, ?B11, ?B13, ?B14, ?C3, ?C9, ?C11, ?C13, ?C14, ?D3, ?D9, ?D11, ?D13, ?D14.
  split; repeat (apply pair_equal_spec; split); xor_solve.
Qed.

(** A matrix of products is determined by its values on single entries. *)
Lemma inv_mix_mix v : bytes4 v -> inv_mix (mix v) = v.
Proof.
  destruct v as [[[a b] c] d]. intros (Ha & Hb & Hc & Hd). assert (byte 0) as H0 by (unfold byte; lia).
  assert (forall f : Z -> column, forallb (fun n => bool_decide (inv_mix (mix (f (Z.of_nat n))) = f (Z.of_nat n)))
    (seq 0 256) = true -> forall x, byte x -> inv_mix (mix (f x)) = f x) as Hbasis.
  { intros f Hf x Hx. apply (all_bytes (fun y => bool_decide (inv_mix (mix (f y)) = f y)) Hf) in Hx. by bools. }
  replace (a, b, c, d) with (add4 (add4 (a, 0, 0, 0) (0, b, 0, 0)) (add4 (0, 0, c, 0) (0, 0, 0, d)))
    by (unfold add4; by rewrite !Z.lxor_0_r, !Z.lxor_0_l).
  assert (bytes4 (a, 0, 0, 0) /\ bytes4 (0, b, 0, 0) /\ bytes4 (0, 0, c, 0) /\ bytes4 (0, 0, 0, d))
    as (B1 & B2 & B3 & B4) by (unfold bytes4; auto 20).
  assert (forall u v, bytes4 u -> bytes4 v -> bytes4 (add4 u v)) as Hadd.
  { intros [[[] ?] ?] [[[] ?] ?]. unfold bytes4, add4. intros (? & ? & ? & ?) (? & ? & ? & ?). auto with bytes. }
  assert (forall u v, bytes4 u -> bytes4 v -> inv_mix (mix (add4 u v)) = add4 (inv_mix (mix u)) (inv_mix (mix v))) as Hlin.
  { intros u v Hu Hv. rewrite (proj1 (mix_add u v Hu Hv)).
    apply mix_add; by apply mix_bytes. }
  rewrite !Hlin by auto.
  rewrite (Hbasis (fun x => (x, 0, 0, 0))), (Hbasis (fun x => (0, x, 0, 0))), (Hbasis (fun x => (0, 0, x, 0))),
    (Hbasis (fun x => (0, 0, 0, x))) by (done || by vm_compute).
  done.
Qed.

(** *** Blocks *)
Ltac all_bytes_of := repeat (apply Forall_cons_2; [done|]); apply Forall_nil_2.

Lemma block_cases s : block s -> exists a0 a1 a2 a3 a4 a5 a6 a7 a8 a9 b0 b1 b2 b3 b4 b5,
  s = [a0; a1; a2; a3; a4; a5; a6; a7; a8; a9; b0; b1; b2; b3; b4; b5].
Proof. intros [Hl _]. do 16 (destruct s as [|? s]; [done|]). destruct s; [|done]. repeat eexists. Qed.

Lemma sub_block s : block s -> block (sub <$> s) /\ block (inv_sub <$> s) /\ inv_sub <$> (sub <$> s) = s.
Proof.
  intros [Hl Hs]. unfold block. rewrite !length_fmap, Hl. repeat split.
  - apply Forall_fmap. eapply Forall_impl; [exact Hs|]. intros b Hb. by apply byte_sub.
  - apply Forall_fmap. eapply Forall_impl; [exact Hs|]. intros b Hb. by apply byte_sub.
  - clear Hl. induction Hs as [|b s Hb _ IH]; [done|]. rewrite !fmap_cons, IH. f_equal. by apply byte_sub.
Qed.

Lemma shift_block s : block s ->
  block (shift_rows s) /\ block (inv_shift_rows s) /\ inv_shift_rows (shift_rows s) = s.
Proof.
  intros Hb. destruct (block_cases s Hb) as (? & ? & ? & ? & ? & ? & ? & ? & ? & ? & ? & ? & ? & ? & ? & ? & ->).
  destruct Hb as [_ Hb]. unfold block, shift_rows, inv_shift_rows, perm, GoHash.nthw. cbn [fmap list_fmap lookup list_lookup default].
  rewrite !Forall_cons in Hb. destruct_and! Hb. repeat split; all_bytes_of.
Qed.

Lemma mix_block s : block s ->
  block (mix_columns s) /\ block (inv_mix_columns s) /\ inv_mix_columns (mix_columns s) = s.
Proof.
  intros Hb. destruct (block_cases s Hb) as (? & ? & ? & ? & ? & ? & ? & ? & ? & ? & ? & ? & ? & ? & ? & ? & ->).
  destruct Hb as [_ Hb]. rewrite !Forall_cons in Hb. destruct_and! Hb.
  assert (forall f a b c d l, columns f (a :: b :: c :: d :: l) =
    (let '(a, b, c, d) := f (a, b, c, d) in [a; b; c; d]) ++ columns f l) as Hcol.
  { intros f a b c d l. cbn [columns]. by destruct (f (a, b, c, d)) as [[[] ?] ?]. }
  unfold mix_columns, inv_mix_columns. rewrite !Hcol. cbn [columns].
  assert (forall a b c d, byte a -> byte b -> byte c -> byte d ->
    exists a' b' c' d', mix (a, b, c, d) = (a', b', c', d') /\ bytes4 (a', b', c', d') /\
      inv_mix (a', b', c', d') = (a, b, c, d)) as Hm.
  { intros a b c d ? ? ? ?. assert (bytes4 (a, b, c, d)) as Hv by done.
    destruct (mix (a, b, c, d)) as [[[a' b'] c'] d'] eqn:Em. exists a', b', c', d'.
    split; [done|]. rewrite <- Em. split; [by apply mix_bytes|by apply inv_mix_mix]. }
  assert (forall a b c d, byte a -> byte b -> byte c -> byte d ->
    exists a' b' c' d', inv_mix (a, b, c, d) = (a', b', c', d') /\ bytes4 (a', b', c', d')) as Hi.
  { intros a b c d ? ? ? ?. assert (bytes4 (a, b, c, d)) as Hv by done. apply mix_bytes in Hv as [_ Hv].
    destruct (inv_mix (a, b, c, d)) as [[[a' b'] c'] d']. by exists a', b', c', d'. }
  repeat match goal with |- context [mix (?a, ?b, ?c, ?d)] =>
    destruct (Hm a b c d) as (? & ? & ? & ? & -> & (? & ? & ? & ?) & ?); [done..|] end.
  repeat match goal with |- context [inv_mix (?a, ?b, ?c, ?d)] =>
    destruct (Hi a b c d) as (? & ? & ? & ? & -> & (? & ? & ? & ?)); [done..|] end.
  cbn [app]. split; [|split]; [split; [done|all_bytes_of]..|].
  rewrite !Hcol. cbn [columns].
  repeat match goal with H : inv_mix _ = (_, _, _, _) |- _ => rewrite H; clear H end. done.
Qed.

Lemma lookup_byte l i : Forall byte l -> byte (nthw l i).
Proof.
  intros Hl. unfold GoHash.nthw. destruct (l !! i) as [b|] eqn:Hi; simpl; [by eapply Forall_lookup_1|unfold byte; lia].
Qed.
Lemma xor_bytes s k : Forall byte s -> Forall byte k -> Forall byte (add_round_key k s).
Proof.
  intros Hs Hk. apply Forall_lookup_2. intros i b. unfold add_round_key. rewrite list_lookup_imap.
  destruct (s !! i) as [a|] eqn:Hi; [|done]. intros [= <-].
  apply byte_lxor; [exact (Forall_lookup_1 _ _ _ _ Hs Hi)|by apply lookup_byte].
Qed.
Lemma key_block k s : Forall byte k -> block s ->
  block (add_round_key k s) /\ add_round_key k (add_round_key k s) = s.
Proof.
  intros Hk [Hl Hs]. split.
  - split; [unfold add_round_key; by rewrite length_imap|by apply xor_bytes].
  - apply list_eq. intros i. unfold add_round_key. rewrite !list_lookup_imap. destruct (s !! i); [|done].
    simpl. f_equal. by rewrite Z.lxor_assoc, Z.lxor_nilpotent, Z.lxor_0_r.
Qed.

Lemma round_inverse k s : Forall byte k -> block s -> block (enc_round s k) /\ dec_round (enc_round s k) k = s.
Proof.
  intros Hk Hs. unfold enc_round, dec_round. destruct (sub_block s Hs) as (H1 & _ & E1).
  destruct (shift_block _ H1) as (H2 & _ & E2), (mix_block _ (proj1 (shift_block _ H1))) as (H3 & _ & E3).
  destruct (key_block k _ Hk H3) as [H4 E4]. split; [done|]. by rewrite E4, E3, E2, E1.
Qed.
Lemma rounds_inverse ks s : Forall (Forall byte) ks -> block s ->
  block (fold_left enc_round ks s) /\ fold_left dec_round (reverse ks) (fold_left enc_round ks s) = s.
Proof.
  intros Hks. revert s. induction Hks as [|k ks Hk _ IH]; intros s Hs; [done|].
  destruct (round_inverse k s Hk Hs) as [H1 E1], (IH _ (proj1 (round_inverse k s Hk Hs))) as [H2 E2].
  simpl. split; [done|]. rewrite reverse_cons, fold_left_app. simpl. by rewrite E2, E1.
Qed.

(** *** Round keys are bytes *)
Lemma chunks_bytes fuel k l : Forall byte l -> Forall (Forall byte) (GoHash.chunks fuel k l).
Proof.
  revert l. induction fuel as [|fuel IH]; intros l Hl; [constructor|]. simpl. destruct l as [|b l]; [constructor|].
  constructor; [by apply Forall_take|by apply IH, Forall_drop].
Qed.
Lemma perm_bytes p l : Forall byte l -> Forall byte (perm p l).
Proof. intros Hl. apply Forall_fmap, Forall_true. intros i. by apply lookup_byte. Qed.
Lemma sub_bytes l : Forall byte l -> Forall byte (sub <$> l).
Proof. intros Hl. apply Forall_fmap. eapply Forall_impl; [exact Hl|]. intros b Hb. by apply byte_sub. Qed.
Lemma rcon_byte i : byte (rcon i).
Proof. unfold rcon. induction (i - 1)%nat as [|n IH]; [done|]. by apply byte_mul2. Qed.
Lemma word_bytes w i : Forall (Forall byte) w -> Forall byte (default [] (w !! i)).
Proof.
  intros Hw. destruct (w !! i) as [u|] eqn:Hi; simpl; [by eapply Forall_lookup_1|constructor].
Qed.
Lemma next_word_bytes nk w i : Forall (Forall byte) w -> Forall byte (next_word nk w i).
Proof.
  intros Hw. unfold next_word. apply xor_bytes; [by apply word_bytes|].
  pose proof (word_bytes w (i - 1)%nat Hw) as Ht. case_bool.
  - apply xor_bytes; [by apply sub_bytes, perm_bytes|]. constructor; [apply rcon_byte|constructor].
  - case_bool; [by apply sub_bytes|done].
Qed.
Lemma round_keys_bytes key : Forall byte key -> Forall (Forall byte) (round_keys key).
Proof.
  intros Hk. unfold round_keys. apply chunks_bytes, Forall_concat.
  generalize (length key / 4)%nat as nk. intros nk. generalize (seq nk (4 * (nk + 7) - nk)) as l. intros l.
  pose proof (chunks_bytes (length key) 4 key Hk) as Hw. revert Hw.
  generalize (GoHash.chunks (length key) 4 key) as w. induction l as [|i l IH]; intros w Hw; [done|].
  apply IH, Forall_app. split; [done|]. constructor; [by apply next_word_bytes|constructor].
Qed.

Lemma last_or_removed (ks : list (list Z)) :
  Forall (Forall byte) ks -> Forall (Forall byte) (removelast ks) /\ Forall byte (List.last ks []).
Proof.
  induction 1 as [|k ks Hk Hks [IH1 IH2]]; [done|]. destruct ks as [|k' ks]; [done|].
  split; [|exact IH2]. by constructor.
Qed.

Lemma Decrypt_Encrypt key src : Forall byte key -> block src ->
  block (Encrypt key src) /\ Decrypt key (Encrypt key src) = src.
Proof.
  intros Hkey Hsrc. unfold Encrypt, Decrypt. pose proof (round_keys_bytes key Hkey) as Hks.
  destruct Hks as [|k0 ks Hk0 Hks]; [done|]. destruct (last_or_removed ks Hks) as [Hmid Hlast].
  destruct (key_block k0 src Hk0 Hsrc) as [H0 E0], (rounds_inverse _ _ Hmid H0) as [H1 E1].
  destruct (sub_block _ H1) as (H2 & _ & E2), (shift_block _ (proj1 (sub_block _ H1))) as (H3 & _ & E3).
  destruct (key_block _ _ Hlast H3) as [H4 E4]. split; [done|]. by rewrite E4, E3, E2, E1, E0.
Qed.
End GoAes.

(** ** Go library: [encoding/base64]

    [StdEncoding]: the alphabet with [+] and [/], padded with [=].  The decoder skips
    line breaks; the text of its error does not say where the input is wrong.
    Decoding inverts encoding. *)

#[local] Open Scope Z_scope.

Module GoBase64.

Definition b64_char (i : Z) : Z :=
  if i <? 26 then 65 + i else if i <? 52 then 71 + i else if i <? 62 then i - 4 else if i =? 62 then 43 else 47.
Definition b64_val (c : Z) : option Z :=
  if (65 <=? c) && (c <=? 90) then Some (c - 65)
  else if (97 <=? c) && (c <=? 122) then Some (c - 71)
  else if (48 <=? c) && (c <=? 57) then Some (c + 4)
  else if c =? 43 then Some 62 else if c =? 47 then Some 63 else None.
Definition pad : Z := 61.

Fixpoint encode (l : list Z) : list Z :=
  match l with
  | a :: b :: c :: l' =>
    b64_char (a / 4) :: b64_char (a mod 4 * 16 + b / 16) :: b64_char (b mod 16 * 4 + c / 64)
    :: b64_char (c mod 64) :: encode l'
  | [a; b] => [b64_char (a / 4); b64_char (a mod 4 * 16 + b / 16); b64_char (b mod 16 * 4); pad]
  | [a] => [b64_char (a / 4); b64_char (a mod 4 * 16); pad; pad]
  | [] => []
  end.

Fixpoint decode (l : list Z) : option (list Z) :=
  match l with
  | [] => Some []
  | p :: q :: r :: s :: l' =>
    match b64_val p, b64_val q with
    | Some x, Some y =>
      if r =? pad then
        match s =? pad, l' with true, [] => Some [x * 4 + y / 16] | _, _ => None end
      else
        match b64_val r with
        | Some z =>
          if s =? pad then match l' with [] => Some [x * 4 + y / 16; y mod 16 * 16 + z / 4] | _ => None end
          else
            match b64_val s, decode l' with
            | Some u, Some rest => Some (x * 4 + y / 16 :: y mod 16 * 16 + z / 4 :: z mod 4 * 64 + u :: rest)
            | _, _ => None
            end
        | None => None
        end
    | _, _ => None
    end
  | _ => None
  end.

Definition newline (b : Z) : bool := (b =? 10) || (b =? 13).

Definition EncodeToString (l : list Z) : string := GoStr.of_bytes (encode l).
Definition DecodeString (s : string) : res (list Z) :=
  match decode (List.filter (fun b => negb (newline b)) (GoStr.bytes s)) with
  | Some l => Ok l
  | None => Err (ENew "illegal base64 data")
  end.

(** ** Decoding inverts encoding *)
Definition byte (b : Z) : Prop := 0 <= b < 256.

Lemma b64_val_char i : 0 <= i < 64 -> b64_val (b64_char i) = Some i /\ 43 <= b64_char i < 123 /\ b64_char i <> pad.
Proof.
  intros Hi. rewrite <- (Z2Nat.id i) by lia. assert (Z.to_nat i < 64)%nat as Hn by lia.
  revert Hn. generalize (Z.to_nat i) as n. intros n Hn. do 64 (destruct n as [|n]; [done|]). lia.
Qed.

Lemma div_small a n m : 0 < n -> 0 <= a < n * m -> 0 <= a / n < m.
Proof. intros Hn Ha. split; [apply Z.div_pos; lia|apply Z.div_lt_upper_bound; lia]. Qed.

Lemma three_ind (P : list Z -> Prop) :
  P [] -> (forall a, P [a]) -> (forall a b, P [a; b]) -> (forall a b c l, P l -> P (a :: b :: c :: l)) ->
  forall l, P l.
Proof.
  intros H0 H1 H2 H3. fix IH 1. intros [|a [|b [|c l]]]; [exact H0|apply H1|apply H2|apply H3, IH].
Qed.

Lemma group a b c : byte a -> byte b -> byte c ->
  (0 <= a / 4 < 64 /\ 0 <= a mod 4 * 16 + b / 16 < 64 /\ 0 <= b mod 16 * 4 + c / 64 < 64 /\ 0 <= c mod 64 < 64) /\
  a / 4 * 4 + (a mod 4 * 16 + b / 16) / 16 = a /\
  (a mod 4 * 16 + b / 16) mod 16 * 16 + (b mod 16 * 4 + c / 64) / 4 = b /\
  (b mod 16 * 4 + c / 64) mod 4 * 64 + c mod 64 = c.
Proof.
  unfold byte. intros Ha Hb Hc.
  assert (0 <= b / 16 < 16) by (apply div_small; lia). assert (0 <= c / 64 < 4) by (apply div_small; lia).
  rewrite !(Z.add_comm (_ * _)), !Z.div_add, !Z.mod_add, (Z.div_small (b / 16)), (Z.mod_small (b / 16)),
    (Z.div_small (c / 64)), (Z.mod_small (c / 64)) by lia.
  pose proof (Z.div_mod a 4). pose proof (Z.mod_pos_bound a 4). pose proof (Z.div_mod b 16).
  pose proof (Z.mod_pos_bound b 16). pose proof (Z.div_mod c 64). pose proof (Z.mod_pos_bound c 64).
  assert (0 <= a / 4 < 64) by (apply div_small; lia). lia.
Qed.

Lemma decode_encode l : Forall byte l ->
  decode (encode l) = Some l /\ Forall (fun c => 43 <= c < 123) (encode l).
Proof.
  induction l as [|a|a b|a b c l IH] using three_ind; intros Hl; [done|..].
  - apply Forall_cons in Hl as [Ha _]. destruct (group a 0 0 Ha) as ((Hx & Hy & _) & E1 & _); [unfold byte; lia..|].
    rewrite Z.div_0_l, Z.add_0_r in Hy, E1 by done.
    destruct (b64_val_char _ Hx) as (Vx & Bx & _), (b64_val_char _ Hy) as (Vy & By & _).
    cbn [encode decode]. rewrite Vx, Vy. simpl (pad =? pad). cbv beta iota. split; [congruence|].
    repeat (apply Forall_cons_2; [unfold pad; lia|]). apply Forall_nil_2.
  - apply Forall_cons in Hl as [Ha Hl]. apply Forall_cons in Hl as [Hb _].
    destruct (group a b 0 Ha Hb) as ((Hx & Hy & Hz & _) & E1 & E2 & _); [unfold byte; lia|].
    rewrite Z.div_0_l, Z.add_0_r in Hz, E2 by done.
    destruct (b64_val_char _ Hx) as (Vx & Bx & _), (b64_val_char _ Hy) as (Vy & By & _),
      (b64_val_char _ Hz) as (Vz & Bz & Nz).
    cbn [encode decode]. rewrite Vx, Vy, Vz. replace (_ =? pad) with false by (symmetry; by apply Z.eqb_neq).
    simpl (pad =? pad). cbv beta iota. split; [congruence|]. repeat (apply Forall_cons_2; [unfold pad; lia|]). apply Forall_nil_2.
  - apply Forall_cons in Hl as [Ha Hl]. apply Forall_cons in Hl as [Hb Hl]. apply Forall_cons in Hl as [Hc Hl].
    destruct (IH Hl) as [IH1 IH2], (group a b c Ha Hb Hc) as ((Hx & Hy & Hz & Hu) & E1 & E2 & E3).
    destruct (b64_val_char _ Hx) as (Vx & Bx & _), (b64_val_char _ Hy) as (Vy & By & _),
      (b64_val_char _ Hz) as (Vz & Bz & Nz), (b64_val_char _ Hu) as (Vu & Bu & Nu).
    cbn [encode decode]. rewrite Vx, Vy, Vz, Vu, IH1.
    rewrite (proj2 (Z.eqb_neq _ _) Nz), (proj2 (Z.eqb_neq _ _) Nu). cbv beta iota.
    split; [congruence|]. repeat (apply Forall_cons_2; [lia|]). done.
Qed.

Lemma bytes_of_list l : Forall byte l -> GoStr.bytes (GoStr.of_bytes l) = l.
Proof.
  unfold GoStr.bytes, GoStr.of_bytes. rewrite String.list_ascii_of_string_of_list_ascii. intros Hl.
  induction Hl as [|b l Hb _ IH]; [done|]. rewrite !fmap_cons, IH. f_equal. unfold GoStr.byte.
  unfold byte in Hb. rewrite Ascii.N_ascii_embedding by lia. lia.
Qed.

Lemma filter_all (p : Z -> bool) l : Forall (fun x => p x = true) l -> List.filter p l = l.
Proof. induction 1 as [|x l Hx _ IH]; [done|]. simpl. by rewrite Hx, IH. Qed.

Lemma DecodeString_EncodeToString l : Forall byte l -> DecodeString (EncodeToString l) = Ok l.
Proof.
  intros Hl. destruct (decode_encode l Hl) as [Hd Hc]. unfold DecodeString, EncodeToString.
  rewrite bytes_of_list by (eapply Forall_impl; [exact Hc|]; unfold byte; lia).
  rewrite filter_all; [by rewrite Hd|]. eapply Forall_impl; [exact Hc|]. intros c Hc'. unfold newline.
  apply negb_true_iff, orb_false_iff. split; apply Z.eqb_neq; simpl in *; lia.
Qed.

Lemma base64_examples :
  EncodeToString (GoStr.bytes "light work.") = "bGlnaHQgd29yay4="%string /\
  EncodeToString (GoStr.bytes "foob") = "Zm9vYg=="%string /\
  DecodeString "Zm9v
YmFy" = Ok (GoStr.bytes "foobar") /\
  DecodeString "Zm9vYg=" = Err (ENew "illegal base64 data").
Proof. by vm_compute. Qed.
End GoBase64.
