(* ===== verification/Encrypt.v ===== *)
(** * Encryption of stored passwords

    [internal/platform/encrypt/aes.go]: AES in ECB mode with PKCS#7 padding and base64
    text, and that decryption inverts encryption for every text and every key of a
    valid length. *)
From S2P Require Import Prelude GoString GoCrypto GoMonad.

Module Encrypt.

Definition BlockSize : nat := 16.

Definition normalizeAESKey (key : list Z) : res (list Z) :=
  if bool_decide (length key = 16 \/ length key = 24 \/ length key = 32) then Ok key
  else Err (ENew "invalid aes key length").

Definition pkcs7Pad (data : list Z) (blockSize : nat) : list Z :=
  let padLen := (blockSize - length data mod blockSize)%nat in
  let padLen := if (padLen =? 0)%nat then blockSize else padLen in
  data ++ replicate padLen (Z.of_nat padLen).

Definition pkcs7Unpad (data : list Z) : res (list Z) :=
  match List.rev data with
  | [] => Err (ENew "invalid padding")
  | l :: _ =>
    if (l <=? 0)%Z || (Z.of_nat (length data) <? l)%Z then Err (ENew "invalid padding")
    else
    let n := (length data - Z.to_nat l)%nat in
    if forallb (fun b => b =? l)%Z (drop n data) then Ok (take n data) else Err (ENew "invalid padding")
  end.

(** [for start := 0; start < len(src); start += blockSize] over whole blocks. *)
Definition ecb (f : list Z -> list Z) (src : list Z) : list Z :=
  concat (f <$> GoHash.chunks (length src) BlockSize src).
Definition encryptECB (key : list Z) : list Z -> list Z := ecb (GoAes.Encrypt key).
Definition decryptECB (key : list Z) : list Z -> list Z := ecb (GoAes.Decrypt key).

Definition AESEncrypt (plainText key : string) : res string :=
  match normalizeAESKey (GoStr.bytes key) with
  | Err e => Err e
  | Ok keyBytes => Ok (GoBase64.EncodeToString (encryptECB keyBytes (pkcs7Pad (GoStr.bytes plainText) BlockSize)))
  end.

Definition AESDecrypt (cipherText key : string) : res string :=
  match normalizeAESKey (GoStr.bytes key) with
  | Err e => Err e
  | Ok keyBytes =>
    match GoBase64.DecodeString cipherText with
    | Err e => Err e
    | Ok raw =>
      if (length raw =? 0)%nat || negb (length raw mod BlockSize =? 0)%nat
      then Err (ENew "invalid aes ciphertext length")
      else match pkcs7Unpad (decryptECB keyBytes raw) with
           | Err e => Err e
           | Ok decrypted => Ok (GoStr.of_bytes decrypted)
           end
    end
  end.

(** ** Padding *)
Lemma pad_length data n : (0 < n)%nat ->
  exists m, (0 < m <= n)%nat /\ pkcs7Pad data n = data ++ replicate m (Z.of_nat m) /\
    (length (pkcs7Pad data n) mod n = 0)%nat.
Proof.
  intros Hn. pose proof (Nat.mod_upper_bound (length data) n ltac:(lia)) as Hm.
  exists (n - length data mod n)%nat. assert (pkcs7Pad data n =
    data ++ replicate (n - length data mod n) (Z.of_nat (n - length data mod n))) as ->.
  { unfold pkcs7Pad. by replace (n - length data mod n =? 0)%nat with false by (symmetry; apply Nat.eqb_neq; lia). }
  split; [lia|]. split; [done|]. rewrite length_app, length_replicate.
  rewrite (Nat.div_mod_eq (length data) n) at 1.
  replace (n * (length data / n) + length data mod n + (n - length data mod n))%nat
    with (n * S (length data / n))%nat by lia.
  rewrite Nat.mul_comm. by apply Nat.Div0.mod_mul.
Qed.

Lemma Unpad_Pad data : Forall GoAes.byte data -> pkcs7Unpad (pkcs7Pad data BlockSize) = Ok data.
Proof.
  intros Hd. destruct (pad_length data BlockSize) as (m & Hm & -> & _); [unfold BlockSize; lia|].
  unfold pkcs7Unpad. rewrite rev_app_distr. destruct m as [|m]; [lia|].
  replace (List.rev (replicate (S m) (Z.of_nat (S m)))) with (Z.of_nat (S m) :: replicate m (Z.of_nat (S m))).
  2: { rewrite rev_alt. symmetry. apply (reverse_replicate (S m)). }
  cbn [app]. rewrite length_app, length_replicate.
  replace (_ || _) with false by (symmetry; apply orb_false_iff; rewrite Z.leb_gt, Z.ltb_ge; lia).
  replace (length data + S m - Z.to_nat (Z.of_nat (S m)))%nat with (length data) by lia.
  rewrite drop_app_length, take_app_length.
  replace (forallb _ _) with true; [done|]. symmetry. apply forallb_forall. intros x Hx%list_elem_of_In.
  apply elem_of_replicate in Hx as [-> _]. apply Z.eqb_refl.
Qed.

(** ** Blocks *)
Lemma chunk_blocks fuel l : (length l <= fuel)%nat -> (length l mod BlockSize = 0)%nat -> Forall GoAes.byte l ->
  Forall GoAes.block (GoHash.chunks fuel BlockSize l) /\ concat (GoHash.chunks fuel BlockSize l) = l.
Proof.
  unfold BlockSize. revert l. induction fuel as [|fuel IH]; intros l Hf Hm Hb.
  - destruct l; [done|simpl in Hf; lia].
  - destruct l as [|b l]; [done|]. cbn [GoHash.chunks].
    assert (16 <= length (b :: l))%nat as Hlen.
    { destruct (le_lt_dec 16 (length (b :: l))); [done|]. rewrite Nat.mod_small in Hm by lia. by simpl in Hm. }
    destruct (IH (drop 16 (b :: l))) as [IH1 IH2].
    + rewrite length_drop. lia.
    + rewrite length_drop. rewrite <- (Nat.Div0.mod_add _ 1 16). by replace (_ - _ + 1 * 16)%nat with (length (b :: l)) by lia.
    + by apply Forall_drop.
    + split.
      * constructor; [|done]. split; [rewrite length_take; lia|by apply Forall_take].
      * cbn [concat]. rewrite IH2. apply take_drop.
Qed.

Lemma chunks_concat fuel (bs : list (list Z)) : Forall GoAes.block bs -> (length (concat bs) <= fuel)%nat ->
  GoHash.chunks fuel BlockSize (concat bs) = bs.
Proof.
  unfold BlockSize. intros Hb. revert fuel. induction Hb as [|b bs [Hl _] Hb IH]; intros fuel Hf; [by destruct fuel|].
  cbn [concat] in *. rewrite length_app, Hl in Hf. destruct fuel as [|fuel]; [lia|].
  destruct b as [|x b]; [done|]. cbn [GoHash.chunks app]. rewrite app_comm_cons.
  rewrite take_app_length', drop_app_length' by done. f_equal. apply IH. lia.
Qed.

Lemma ecb_inverse key l : Forall GoAes.byte key -> Forall GoAes.byte l -> (length l mod BlockSize = 0)%nat ->
  decryptECB key (encryptECB key l) = l /\ length (encryptECB key l) = length l /\
  Forall GoAes.byte (encryptECB key l).
Proof.
  intros Hk Hl Hm. unfold decryptECB, encryptECB, ecb.
  destruct (chunk_blocks (length l) l (le_n _) Hm Hl) as [Hb Hc]. revert Hb Hc.
  generalize (GoHash.chunks (length l) BlockSize l) as bs. intros bs Hb Hc.
  assert (Forall GoAes.block (GoAes.Encrypt key <$> bs)) as He.
  { apply Forall_fmap. eapply Forall_impl; [exact Hb|]. intros b ?. by apply GoAes.Decrypt_Encrypt. }
  rewrite chunks_concat by done. repeat split.
  - rewrite <- Hc, <- list_fmap_compose. f_equal. clear Hc He Hm Hl. induction Hb as [|b bs Hb _ IH]; [done|].
    rewrite fmap_cons, IH. f_equal. by apply GoAes.Decrypt_Encrypt.
  - rewrite <- Hc. clear Hc He Hm Hl. induction Hb as [|b bs Hb _ IH]; [done|].
    rewrite fmap_cons. cbn [concat]. rewrite !length_app, IH. f_equal.
    destruct (GoAes.Decrypt_Encrypt key b Hk Hb) as [[-> _] _]. symmetry. apply Hb.
  - apply Forall_concat. eapply Forall_impl; [exact He|]. by intros b [].
Qed.

Lemma bytes_range s : Forall GoAes.byte (GoStr.bytes s).
Proof.
  unfold GoStr.bytes. apply Forall_fmap, Forall_true. intros c. unfold GoAes.byte, GoStr.byte. simpl.
  pose proof (Ascii.N_ascii_bounded c). lia.
Qed.

(** ** Round trip *)

(** The vector of [aes_test.go]. *)
Definition testAESKey : string := "W0F7PePvolUJHmZtkv1MusWpwhpVJIJI".
Lemma TestAESMatchesJava :
  AESEncrypt "test123" testAESKey = Ok "B9gMpgfaS/4RIi72YJa+tA=="%string /\
  AESDecrypt "B9gMpgfaS/4RIi72YJa+tA==" testAESKey = Ok "test123"%string.
Proof. by vm_compute. Qed.

Definition valid_key (key : string) : Prop :=
  String.length key = 16%nat \/ String.length key = 24%nat \/ String.length key = 32%nat.

Lemma length_bytes s : length (GoStr.bytes s) = String.length s.
Proof. unfold GoStr.bytes. rewrite length_fmap. induction s as [|c s IH]; simpl; congruence. Qed.

(** C32: decryption inverts encryption: under a key of 16, 24 or 32 bytes every
    text encrypts, and its cipher text decrypts to it. *)
Theorem AESDecrypt_AESEncrypt plainText key : valid_key key ->
  exists cipherText, AESEncrypt plainText key = Ok cipherText /\ AESDecrypt cipherText key = Ok plainText.
Proof.
  intros Hk. unfold AESEncrypt, AESDecrypt, normalizeAESKey.
  rewrite bool_decide_true by by rewrite length_bytes.
  destruct (pad_length (GoStr.bytes plainText) BlockSize) as (m & Hm & Hp & Hmod); [unfold BlockSize; lia|].
  assert (Forall GoAes.byte (pkcs7Pad (GoStr.bytes plainText) BlockSize)) as Hbytes.
  { rewrite Hp. apply Forall_app. split; [apply bytes_range|]. apply Forall_replicate.
    unfold GoAes.byte, BlockSize in *. lia. }
  destruct (ecb_inverse (GoStr.bytes key) _ (bytes_range key) Hbytes Hmod) as (He & Hl & Hb).
  eexists. split; [done|]. rewrite GoBase64.DecodeString_EncodeToString by exact Hb.
  rewrite Hl, Hmod, He, Unpad_Pad by apply bytes_range. rewrite Hp, length_app, length_replicate.
  replace (_ + m =? 0)%nat with false by (symmetry; apply Nat.eqb_neq; lia). simpl.
  by rewrite GoStr.bytes_of_bytes.
Qed.

Lemma AESDecrypt_AESEncrypt_witness :
  valid_key testAESKey /\ exists cipherText, AESEncrypt "test123" testAESKey = Ok cipherText /\
    AESDecrypt cipherText testAESKey = Ok "test123"%string.
Proof. assert (valid_key testAESKey) as Hk by by right; right. split; [exact Hk|by apply AESDecrypt_AESEncrypt]. Defined.
End Encrypt.
