(* ===== verification/Sql.v ===== *)
(** * The SQL database the repositories talk to

    The program reaches MySQL through gorm.  Neither is part of the repository,
    so both are a parameter: [SqlEngine] is the interface of a database engine
    with typed tables keyed by the [id] column, with the laws the repositories
    rely on (what a statement does to the rows, unique indexes, the number of
    affected rows), and [view] is the set of rows a table holds, by key.

    What an engine may choose is left open: the order of the rows of a [SELECT]
    without [ORDER BY], the text of its errors, and whether [RowsAffected] counts
    the matched rows or only those an [UPDATE] really changed (the two settings
    of the MySQL driver).

    On top of the interface: the statements as effects of the monad [M]
    ([take], [find], [count], [update], [insert], ...), each of which may also
    fail in transport, [transaction] with its rollback, and the [wp] rules in
    terms of the tables' views. *)
From Stdlib Require Import Sorting.Sorted.
From Stdlib Require Import Ascii.
From S2P Require Import Prelude GoString GoMonad.

(** A row type: its primary key, and the conflicts its unique indexes forbid
    between two rows with different keys. *)
Class Entity (R : Type) := {
  ent_id : R -> Z;
  ent_clash : R -> R -> bool;
}.

(** Which texts a collation takes for the same; [bytewise] is the finest. *)
Class Collation := {
  same_text : string -> string -> bool;
  same_refl : forall a, same_text a a = true;
  same_sym : forall a b, same_text a b = same_text b a;
  same_trans : forall a b c, same_text a b = true -> same_text b c = true -> same_text a c = true;
}.
#[export, refine] Instance bytewise : Collation | 10 := {| same_text := String.eqb |}.
Proof.
  - apply String.eqb_refl.
  - apply String.eqb_sym.
  - intros a b c. by rewrite !String.eqb_eq; intros -> ->.
Defined.

Definition upd_view {R} (p : R -> bool) (f : R -> R) (m : gmap Z R) : gmap Z R :=
  (fun r => if p r then f r else r) <$> m.

Definition matching {R} (p : R -> bool) (m : gmap Z R) : gmap Z R :=
  filter (fun kv : Z * R => p kv.2 = true) m.

Class SqlEngine := {
  table : forall R : Type, Entity R -> Type;
  view : forall {R} {HE : Entity R}, table R HE -> gmap Z R;
  sel : forall {R} {HE : Entity R}, (R -> bool) -> table R HE -> list R;
  upd : forall {R} {HE : Entity R}, (R -> bool) -> (R -> R) -> table R HE -> option (table R HE * Z);
  ins : forall {R} {HE : Entity R}, R -> table R HE -> option (table R HE);
  del : forall {R} {HE : Entity R}, (R -> bool) -> table R HE -> table R HE * Z;
  like : string -> string -> bool; (* [column LIKE pattern] *)
  dup_text : string;
  infra_text : string;

  view_key : forall R (HE : Entity R) (t : table R HE) k r,
    view t !! k = Some r -> ent_id r = k;
  view_unique : forall R (HE : Entity R) (t : table R HE) k1 k2 r1 r2,
    view t !! k1 = Some r1 -> view t !! k2 = Some r2 -> k1 <> k2 -> ent_clash r1 r2 = false;
  sel_spec : forall R (HE : Entity R) p (t : table R HE),
    sel p t ≡ₚ (map_to_list (matching p (view t))).*2;
  upd_spec : forall R (HE : Entity R) p f (t : table R HE),
    (forall r, p r = true -> ent_id (f r) = ent_id r) ->
    match upd p f t with
    | Some (t', n) =>
      view t' = upd_view p f (view t) /\
      exists changed : R -> bool,
        (forall r, changed r = false -> f r = r) /\
        n = Z.of_nat (size (matching (fun r => p r && changed r) (view t)))
    | None => exists k1 k2 r1 r2, k1 <> k2 /\
        upd_view p f (view t) !! k1 = Some r1 /\ upd_view p f (view t) !! k2 = Some r2 /\
        ent_clash r1 r2 = true
    end;
  ins_spec : forall R (HE : Entity R) r (t : table R HE),
    match ins r t with
    | Some t' => view t !! ent_id r = None /\ view t' = <[ent_id r := r]> (view t)
    | None => is_Some (view t !! ent_id r) \/
        exists k r', view t !! k = Some r' /\ (ent_clash r r' = true \/ ent_clash r' r = true)
    end;
  del_spec : forall R (HE : Entity R) p (t : table R HE),
    view (del p t).1 = matching (fun r => negb (p r)) (view t) /\
    (del p t).2 = Z.of_nat (size (matching p (view t)));
}.

Lemma lookup_upd_view {R} p (f : R -> R) m k :
  upd_view p f m !! k = (fun r => if p r then f r else r) <$> m !! k.
Proof. unfold upd_view. by rewrite lookup_fmap. Qed.

Lemma lookup_matching {R} (p : R -> bool) m k r :
  matching p m !! k = Some r <-> m !! k = Some r /\ p r = true.
Proof. unfold matching. by rewrite map_lookup_filter_Some. Qed.

Lemma matching_ext {R} (p q : R -> bool) m :
  (forall r, p r = q r) -> matching p m = matching q m.
Proof.
  intros Hpq. apply map_eq. intros k. apply option_eq. intros r.
  by rewrite !lookup_matching, Hpq.
Qed.

(** ** Counting the rows of a table *)

Definition amount {R} (p : R -> bool) (m : gmap Z R) : Z := Z.of_nat (size (matching p m)).

Definition one_if (b : bool) : Z := if b then 1 else 0.

Lemma amount_nonneg {R} (p : R -> bool) m : (0 <= amount p m)%Z.
Proof. unfold amount. lia. Qed.

Lemma amount_empty {R} (p : R -> bool) : amount p ∅ = 0%Z.
Proof.
  unfold amount. enough (matching p (∅ : gmap Z R) = ∅) as -> by (by rewrite map_size_empty).
  apply map_eq. intros k. apply option_eq. intros r. rewrite lookup_matching, lookup_empty. naive_solver.
Qed.

Lemma amount_insert_fresh {R} (p : R -> bool) m k r :
  m !! k = None -> amount p (<[k := r]> m) = (amount p m + one_if (p r))%Z.
Proof.
  intros Hk. unfold amount, one_if. destruct (p r) eqn:Hp.
  - enough (matching p (<[k := r]> m) = <[k := r]> (matching p m)) as ->.
    { rewrite map_size_insert_None; [lia|]. apply eq_None_not_Some. intros [x Hx].
      apply lookup_matching in Hx as [Hx _]. congruence. }
    apply map_eq. intros j. apply option_eq. intros x. rewrite lookup_matching.
    destruct (decide (j = k)) as [->|Hj].
    + rewrite !lookup_insert_eq. naive_solver.
    + rewrite !lookup_insert_ne by congruence. by rewrite lookup_matching.
  - enough (matching p (<[k := r]> m) = matching p m) as -> by lia.
    apply map_eq. intros j. apply option_eq. intros x. rewrite !lookup_matching.
    destruct (decide (j = k)) as [->|Hj]; [rewrite lookup_insert_eq, Hk|by rewrite lookup_insert_ne by congruence].
    naive_solver congruence.
Qed.

Lemma amount_insert {R} (p : R -> bool) m k r0 r :
  m !! k = Some r0 -> amount p (<[k := r]> m) = (amount p m - one_if (p r0) + one_if (p r))%Z.
Proof.
  intros Hk. rewrite <- insert_delete_eq.
  rewrite amount_insert_fresh by apply lookup_delete_eq.
  rewrite <- (insert_delete_id m k r0 Hk) at 2.
  rewrite amount_insert_fresh by apply lookup_delete_eq. lia.
Qed.

(** A bulk update that does not change whether a row counts. *)
Lemma amount_upd_view {R} (p q : R -> bool) f m :
  (forall k r, m !! k = Some r -> q r = true -> p (f r) = p r) ->
  amount p (upd_view q f m) = amount p m.
Proof.
  intros Hp. unfold amount. f_equal.
  enough (matching p (upd_view q f m) = upd_view q f (matching p m)) as ->
    by (unfold upd_view; by rewrite map_size_fmap).
  apply map_eq. intros k. apply option_eq. intros r.
  rewrite lookup_matching, !lookup_upd_view. split.
  - intros [Hm Hr]. destruct (m !! k) as [x|] eqn:Hx; simplify_eq/=.
    enough (matching p m !! k = Some x) as -> by done. apply lookup_matching. split; [done|].
    destruct (q x) eqn:Hq; [|done]. by rewrite <- (Hp k x).
  - intros Hm. destruct (matching p m !! k) as [x|] eqn:Hx; simplify_eq/=.
    apply lookup_matching in Hx as [Hx Hpx]. rewrite Hx. split; [done|].
    destruct (q x) eqn:Hq; [|done]. by rewrite (Hp k x).
Qed.

Lemma amount_upd_view_le {R} (p q : R -> bool) f m :
  (forall k r, m !! k = Some r -> q r = true -> p (f r) = true -> p r = true) ->
  (amount p (upd_view q f m) <= amount p m)%Z.
Proof.
  intros Hp. unfold amount. apply Nat2Z.inj_le. rewrite <- (map_size_fmap (fun r => if q r then f r else r) (matching p m)).
  apply map_subseteq_size, map_subseteq_spec. intros k r.
  rewrite lookup_matching, lookup_upd_view, lookup_fmap. intros [Hm Hr].
  destruct (m !! k) as [x|] eqn:Hx; simplify_eq/=.
  enough (matching p m !! k = Some x) as -> by done. apply lookup_matching. split; [done|].
  destruct (q x) eqn:Hq; [by eapply Hp|done].
Qed.

Lemma amount_mono {R} (p q : R -> bool) m :
  (forall k r, m !! k = Some r -> p r = true -> q r = true) -> (amount p m <= amount q m)%Z.
Proof.
  intros Hpq. unfold amount. apply Nat2Z.inj_le, map_subseteq_size.
  apply map_subseteq_spec. intros k r. rewrite !lookup_matching. naive_solver.
Qed.

Lemma amount_ext {R} (p q : R -> bool) m :
  (forall k r, m !! k = Some r -> p r = q r) -> amount p m = amount q m.
Proof.
  intros Hpq. apply Z.le_antisymm; apply amount_mono; intros k r Hk; specialize (Hpq k r Hk); congruence.
Qed.

Lemma amount_some {R} (p : R -> bool) m :
  (0 < amount p m)%Z -> exists k r, m !! k = Some r /\ p r = true.
Proof.
  unfold amount. intros Hpos. destruct (decide (matching p m = ∅)) as [He|Hne].
  - rewrite He, map_size_empty in Hpos. lia.
  - apply map_choose in Hne as (k & r & Hk). apply lookup_matching in Hk. eauto.
Qed.

(** An update that can only meet one row changes nothing or that row. *)
Lemma upd_view_single {R} (p : R -> bool) f (m : gmap Z R) :
  (forall k1 k2 r1 r2, m !! k1 = Some r1 -> m !! k2 = Some r2 -> p r1 = true -> p r2 = true -> k1 = k2) ->
  upd_view p f m = m \/ exists k r, m !! k = Some r /\ p r = true /\ upd_view p f m = <[k := f r]> m.
Proof.
  intros H1. destruct (map_choose_or_empty (matching p m)) as [(k & r & Hk)|He].
  - apply lookup_matching in Hk as [Hk Hp]. right. exists k, r. split_and!; [done..|].
    apply map_eq. intros j. rewrite lookup_upd_view. destruct (decide (j = k)) as [->|Hne].
    + by rewrite Hk, lookup_insert_eq, fmap_Some_2 with (x := r), Hp by done.
    + rewrite lookup_insert_ne by done. destruct (m !! j) as [r'|] eqn:Hj; [|done]. simpl.
      destruct (p r') eqn:Hp'; [|done]. by destruct Hne; eauto.
  - left. apply map_eq. intros j. rewrite lookup_upd_view. destruct (m !! j) as [r|] eqn:Hj; [|done]. simpl.
    destruct (p r) eqn:Hp; [|done]. exfalso.
    assert (matching p m !! j = Some r) as Hm by (by apply lookup_matching). by rewrite He in Hm.
Qed.

Lemma upd_view_ext {R} (p q : R -> bool) f m :
  (forall k r, m !! k = Some r -> p r = q r) -> upd_view p f m = upd_view q f m.
Proof.
  intros Hpq. apply map_eq. intros k. rewrite !lookup_upd_view.
  destruct (m !! k) as [r|] eqn:Hk; [|done]. simpl. by rewrite (Hpq _ _ Hk).
Qed.

Lemma amount_found {R} (p : R -> bool) m l :
  l ≡ₚ (map_to_list (matching p m)).*2 -> amount p m = Z.of_nat (length l).
Proof. intros ->. unfold amount. by rewrite length_fmap, length_map_to_list. Qed.

(** Some of the rows a query found. *)
Lemma amount_filter {R} (p : R -> bool) (P : R -> Prop) `{forall r, Decision (P r)} m l :
  l ≡ₚ (map_to_list (matching p m)).*2 -> Z.of_nat (length (base.filter P l)) = amount (fun r => p r && bool_decide (P r)) m.
Proof.
  intros Hl. symmetry. apply amount_found. rewrite Hl. clear Hl l.
  assert (He : matching (fun r => p r && bool_decide (P r)) m = base.filter (fun kr => P kr.2) (matching p m)).
  { apply map_eq. intros k. apply option_eq. intros r.
    rewrite map_lookup_filter_Some, !lookup_matching, andb_true_iff, bool_decide_eq_true. naive_solver. }
  rewrite He, (map_filter_alt (fun kr => P kr.2)). clear He.
  rewrite (map_to_list_to_map (base.filter _ _)).
  - induction (map_to_list (matching p m)) as [|[k r] l IH]; [done|]. simpl. rewrite !filter_cons. simpl. by case_decide; simpl; rewrite IH.
  - apply (sublist_NoDup _ ((map_to_list (matching p m)).*1)); [apply NoDup_fst_map_to_list|]. apply fmap_sublist, sublist_filter.
Qed.

Lemma amount_pos {R} (p : R -> bool) m k r : m !! k = Some r -> p r = true -> (1 <= amount p m)%Z.
Proof.
  intros Hk Hp. pose proof (amount_insert p m k r r Hk). rewrite <- (insert_delete_id m k r Hk).
  rewrite amount_insert_fresh by apply lookup_delete_eq. rewrite Hp.
  pose proof (amount_nonneg p (delete k m)). simpl. lia.
Qed.

Lemma amount_zero {R} (p : R -> bool) m :
  amount p m = 0%Z <-> forall k r, m !! k = Some r -> p r = false.
Proof.
  unfold amount. split.
  - intros H k r Hk. destruct (p r) eqn:Hp; [exfalso|done].
    assert (Hs : size (matching p m) = 0%nat) by lia. apply map_size_empty_inv in Hs.
    assert (Hm : matching p m !! k = Some r) by (by apply lookup_matching).
    by rewrite Hs, lookup_empty in Hm.
  - intros H. enough (matching p m = ∅) as -> by (by rewrite map_size_empty).
    apply map_eq. intros k. apply option_eq. intros r. rewrite lookup_matching, lookup_empty.
    split; [|done]. intros [Hk Hp]. rewrite (H _ _ Hk) in Hp. done.
Qed.

(** [WHERE id = k AND q] *)
Definition byid {R} `{Entity R} (k : Z) (q : R -> bool) (r : R) : bool :=
  (ent_id r =? k)%Z && q r.

Lemma byid_key {R} `{Entity R} k q (r : R) : byid k q r = true <-> ent_id r = k /\ q r = true.
Proof. unfold byid. by rewrite andb_true_iff, Z.eqb_eq. Qed.

Section keyed.
Context {R} `{HE : Entity R}.
Variable m : gmap Z R.
Hypothesis keyed : forall k r, m !! k = Some r -> ent_id r = k.

Lemma upd_view_byid k q f : upd_view (byid k q) f m = update_at k q f m.
Proof.
  apply map_eq. intros j. rewrite lookup_upd_view, lookup_update_at.
  case_decide as Hjk; [subst j|]; destruct (m !! _) as [r|] eqn:E; try done;
    simpl; unfold byid; rewrite (keyed _ _ E).
  - by rewrite Z.eqb_refl.
  - by destruct (j =? k)%Z eqn:Ej; [apply Z.eqb_eq in Ej|].
Qed.

Lemma matching_byid k q :
  matching (byid k q) m =
  match m !! k with Some r => if q r then {[k := r]} else ∅ | None => ∅ end.
Proof.
  apply map_eq. intros j. apply option_eq. intros r.
  rewrite lookup_matching, byid_key. split.
  - intros (Hj & Hk & Hq). rewrite (keyed _ _ Hj) in Hk. subst j.
    by rewrite Hj, Hq, lookup_singleton_eq.
  - destruct (m !! k) as [r0|] eqn:E; [|by rewrite lookup_empty].
    destruct (q r0) eqn:Hq; [|by rewrite lookup_empty].
    rewrite lookup_singleton. case_decide; [|done]. intros [= <-]. subst j. eauto.
Qed.
End keyed.

(** ** The tables of a store *)

(** [Tbl S A R]: the store [S] holds a table of [R]; [A] is the abstract store,
    with the view of each table in place of the table. *)
Class Abstract (S A : Type) := abs : S -> A.

Class Tbl {D : SqlEngine} (S A R : Type) (HE : Entity R) (HA : Abstract S A) := {
  tget : S -> table R HE;
  tset : table R HE -> S -> S;
  aget : A -> gmap Z R;
  aset : gmap Z R -> A -> A;
  tget_tset : forall t s, tget (tset t s) = t;
  abs_get : forall s, aget (abs s) = view (tget s);
  abs_set : forall t s, abs (tset t s) = aset (view t) (abs s);
  aset_get : forall a, aset (aget a) a = a;
}.

Section statements.
Context {E : Env} {D : SqlEngine} {S A : Type} {HA : Abstract S A}.

(** Every statement may fail before it takes effect. *)
Definition stmt : M S unit :=
  let! f := fault in
  if f then throw (EDriver infra_text) else ret tt.

Section one_table.
Context (R : Type) {HE : Entity R} {HT : Tbl S A R HE HA}.

Definition vw (w : World S) : gmap Z R := aget (abs (w_db w)).

Definition find (p : R -> bool) : M S (list R) :=
  stmt;; let! s := get_db in ret (sel p (tget s)).

(** [Where(p).Take(&x)]: some matching row, or [ErrRecordNotFound]. *)
Definition take (p : R -> bool) : M S R :=
  let! rows := find p in
  match rows with [] => throw ErrRecordNotFound | r :: _ => ret r end.

Definition count (p : R -> bool) : M S Z :=
  let! rows := find p in ret (Z.of_nat (length rows)).

(** [Model(&R{}).Where(p).Updates(f)], returning [RowsAffected]. *)
Definition update (p : R -> bool) (f : R -> R) : M S Z :=
  stmt;; let! s := get_db in
  match upd p f (tget s) with
  | Some (t, n) => put_db (tset t s);; ret n
  | None => throw (EDriver dup_text)
  end.

(** [Create(r)] *)
Definition insert (r : R) : M S unit :=
  stmt;; let! s := get_db in
  match ins r (tget s) with
  | Some t => put_db (tset t s)
  | None => throw (EDriver dup_text)
  end.

(** [Clauses(OnConflict{DoNothing: true}).Create(r)]: MySQL's
    [ON DUPLICATE KEY UPDATE id = id]. *)
Definition insert_ignore (r : R) : M S unit :=
  stmt;; let! s := get_db in
  match ins r (tget s) with
  | Some t => put_db (tset t s)
  | None => ret tt
  end.

(** The same with several rows, one [INSERT]. *)
Definition ins_all (l : list R) (t : table R HE) : table R HE :=
  foldl (fun t r => match ins r t with Some t' => t' | None => t end) t l.

Definition insert_ignore_all (l : list R) : M S unit :=
  stmt;; let! s := get_db in put_db (tset (ins_all l (tget s)) s).

(** A plain [SELECT] inside a transaction reads the transaction's read view
    [rv], which may be older than the rows that locking reads and writes see. *)
Definition find_in (rv : S) (p : R -> bool) : M S (list R) :=
  stmt;; ret (sel p (tget rv)).

Definition take_in (rv : S) (p : R -> bool) : M S R :=
  let! rows := find_in rv p in
  match rows with [] => throw ErrRecordNotFound | r :: _ => ret r end.

Definition count_in (rv : S) (p : R -> bool) : M S Z :=
  let! rows := find_in rv p in ret (Z.of_nat (length rows)).

(** [Clauses(OnConflict{UpdateAll: true}).Create(r)]: MySQL's [ON DUPLICATE KEY UPDATE]
    of all columns but the key and the creation time, [over r x] for a row [x].  The row
    of the same key is overwritten, or without one the row that holds the same unique
    value; the table has at most one unique index besides its key. *)
Definition insert_over (over : R -> R -> R) (r : R) : M S unit :=
  stmt;; let! s := get_db in
  match ins r (tget s) with
  | Some t => put_db (tset t s)
  | None =>
    let same x := (ent_id x =? ent_id r)%Z in
    let holder := if existsb same (sel same (tget s)) then same
                  else fun x => ent_clash r x || ent_clash x r in
    match upd holder (over r) (tget s) with
    | Some (t, _) => put_db (tset t s)
    | None => throw (EDriver dup_text)
    end
  end.

(** [Save(r)] with a key: an [UPDATE] of all columns of the row with [r]'s key and, when
    no row is affected, an [INSERT] that overwrites. *)
Definition save (over : R -> R -> R) (r : R) : M S unit :=
  let! n := update (byid (ent_id r) (fun _ => true)) (fun _ => r) in
  if (n =? 0)%Z then insert_over over r else ret tt.

Definition delete (p : R -> bool) : M S Z :=
  stmt;; let! s := get_db in
  let (t, n) := del p (tget s) in
  put_db (tset t s);; ret n.
End one_table.

(** [db.Transaction(func(tx) error {..})]: an error of the body or of the
    commit undoes the body's statements. *)
Definition transaction {B} (body : M S B) : M S B := fun w =>
  match body w with
  | (Ok b, w') =>
    if env_fault (w_tick w')
    then (Err (EDriver infra_text), with_db (w_db w) (bump w'))
    else (Ok b, bump w')
  | (Err e, w') => (Err e, with_db (w_db w) w')
  end.
End statements.
Arguments vw {D S A HA} R {HE HT}.

(** [ORDER BY key LIMIT n OFFSET k]: sort the engine's rows (rows with equal keys
    stay in the engine's order), then cut. *)
Section order.
Context {R : Type} (key : R -> Z).

Fixpoint insert_by (r : R) (l : list R) : list R :=
  match l with
  | [] => [r]
  | x :: l' => if (key r <=? key x)%Z then r :: l else x :: insert_by r l'
  end.

Definition order_by (l : list R) : list R := foldr insert_by [] l.

Lemma insert_by_perm r l : insert_by r l ≡ₚ r :: l.
Proof.
  induction l as [|x l IH]; simpl; [done|].
  destruct (_ <=? _)%Z; [done|]. rewrite IH. by constructor.
Qed.

Lemma order_by_perm l : order_by l ≡ₚ l.
Proof. induction l as [|x l IH]; simpl; [done|]. by rewrite insert_by_perm, IH. Qed.

Lemma insert_by_sorted r l :
  Sorted (fun a b => key a <= key b)%Z l -> Sorted (fun a b => key a <= key b)%Z (insert_by r l).
Proof.
  induction l as [|x l IH]; simpl; intros Hs; [by repeat constructor|].
  destruct (key r <=? key x)%Z eqn:E; bools; [constructor; [done|by constructor]|].
  apply Sorted_inv in Hs as [Hs Hhd]. constructor; [by apply IH|].
  destruct l as [|y l]; simpl; [constructor; lia|].
  inversion Hhd; subst. destruct (key r <=? key y)%Z; constructor; lia.
Qed.

Lemma order_by_sorted l : Sorted (fun a b => key a <= key b)%Z (order_by l).
Proof. induction l; simpl; [constructor|]. by apply insert_by_sorted. Qed.
End order.

Definition page {R} (offset limit : Z) (l : list R) : list R :=
  firstn (Z.to_nat limit) (skipn (Z.to_nat offset) l).

Lemma elem_of_page {R} (x : R) offset limit l : x ∈ page offset limit l -> x ∈ l.
Proof.
  unfold page. intros Hx. rewrite <- (take_drop (Z.to_nat offset) l). apply elem_of_app. right.
  rewrite <- (take_drop (Z.to_nat limit) (drop _ l)). apply elem_of_app. by left.
Qed.

(** ** Rules for the statements *)
Section rules.
Context {E : Env} {D : SqlEngine} {S A : Type} {HA : Abstract S A}.

Lemma wp_stmt (Q : res unit -> World S -> Prop) w :
  (env_fault (w_tick w) = true -> Q (Err (EDriver infra_text)) (bump w)) ->
  Q (Ok tt) (bump w) -> wp stmt Q w.
Proof. unfold wp, stmt, bind, fault. simpl. destruct (env_fault (w_tick w)); auto. Qed.

(** The world after a statement that leaves the database alone. *)
Definition same_db (w w' : World S) : Prop :=
  w_db w' = w_db w /\ w_out w' = w_out w.

(** The world after a statement that leaves the abstract store [a]. *)
Definition now_db (a : A) (w w' : World S) : Prop :=
  abs (w_db w') = a /\ w_out w' = w_out w /\ w_tick w' = Datatypes.S (w_tick w).

Context (R : Type) {HE : Entity R} {HT : Tbl S A R HE HA}.

Lemma vw_key w k (r : R) : vw R w !! k = Some r -> ent_id r = k.
Proof. unfold vw. rewrite abs_get. apply view_key. Qed.

Lemma vw_unique w k1 k2 (r1 r2 : R) :
  vw R w !! k1 = Some r1 -> vw R w !! k2 = Some r2 -> k1 <> k2 -> ent_clash r1 r2 = false.
Proof. unfold vw. rewrite abs_get. apply view_unique. Qed.

(** A statement fails in transport, or takes its effect. *)
Lemma wp_find p (Q : res (list R) -> World S -> Prop) w :
  (env_fault (w_tick w) = true -> Q (Err (EDriver infra_text)) (bump w)) ->
  (forall l, l ≡ₚ (map_to_list (matching p (vw R w))).*2 -> Q (Ok l) (bump w)) ->
  wp (find R p) Q w.
Proof.
  intros Hf Hok. unfold find. wp_step. apply wp_stmt; [done|]. repeat wp_step.
  apply Hok. unfold vw. rewrite abs_get. apply sel_spec.
Qed.

Lemma wp_take p (Q : res R -> World S -> Prop) w :
  (env_fault (w_tick w) = true -> Q (Err (EDriver infra_text)) (bump w)) ->
  ((forall k r, vw R w !! k = Some r -> p r = false) -> Q (Err ErrRecordNotFound) (bump w)) ->
  (forall r, vw R w !! ent_id r = Some r -> p r = true -> Q (Ok r) (bump w)) ->
  wp (take R p) Q w.
Proof.
  intros Hf Hnf Hok. unfold take. wp_step. apply wp_find; [done|].
  intros l Hl. destruct l as [|r l]; wp_step.
  - apply Hnf. intros k r Hk. destruct (p r) eqn:Hp; [|done].
    assert (Hin : (k, r) ∈ map_to_list (matching p (vw R w)))
      by (by apply elem_of_map_to_list, lookup_matching).
    apply (list_elem_of_fmap_2 snd) in Hin. simpl in Hin.
    rewrite <- Hl in Hin. by apply not_elem_of_nil in Hin.
  - assert (Hin : r ∈ (map_to_list (matching p (vw R w))).*2) by (rewrite <- Hl; left).
    apply list_elem_of_fmap in Hin as ([k r'] & -> & Hin). simpl.
    apply elem_of_map_to_list, lookup_matching in Hin as [Hk Hp].
    apply Hok; [|done]. by rewrite (vw_key _ _ _ Hk).
Qed.

Lemma wp_take_byid k q (Q : res R -> World S -> Prop) w :
  (env_fault (w_tick w) = true -> Q (Err (EDriver infra_text)) (bump w)) ->
  ((forall r, vw R w !! k = Some r -> q r = false) -> Q (Err ErrRecordNotFound) (bump w)) ->
  (forall r, vw R w !! k = Some r -> q r = true -> Q (Ok r) (bump w)) ->
  wp (take R (byid k q)) Q w.
Proof.
  intros Hf Hnf Hok. apply wp_take; [done| |].
  - intros H. apply Hnf. intros r Hk. specialize (H _ _ Hk).
    unfold byid in H. by rewrite (vw_key _ _ _ Hk), Z.eqb_refl in H.
  - intros r Hk [<- Hq]%byid_key. by apply Hok.
Qed.

(** [count p] is the number of matching rows. *)
Lemma wp_count p (Q : res Z -> World S -> Prop) w :
  (env_fault (w_tick w) = true -> Q (Err (EDriver infra_text)) (bump w)) ->
  Q (Ok (Z.of_nat (size (matching p (vw R w))))) (bump w) ->
  wp (count R p) Q w.
Proof.
  intros Hf Hok. unfold count. wp_step. apply wp_find; [done|]. intros l Hl. wp_step.
  by rewrite Hl, length_fmap, length_map_to_list.
Qed.

(** The rule of [UPDATE]: besides the transport failure, a unique index may
    refuse the new rows; otherwise every matching row is rewritten and the
    reported count lies between the changed and the matching rows. *)
Lemma wp_update p f (Q : res Z -> World S -> Prop) w :
  (forall r, p r = true -> ent_id (f r) = ent_id r) ->
  (env_fault (w_tick w) = true -> Q (Err (EDriver infra_text)) (bump w)) ->
  ((exists k1 k2 r1 r2, k1 <> k2 /\ upd_view p f (vw R w) !! k1 = Some r1 /\
      upd_view p f (vw R w) !! k2 = Some r2 /\ ent_clash r1 r2 = true) ->
    Q (Err (EDriver dup_text)) (bump w)) ->
  (forall n changed w', now_db (aset (upd_view p f (vw R w)) (abs (w_db w))) w w' ->
     (forall r, changed r = false -> f r = r) ->
     n = Z.of_nat (size (matching (fun r => p r && changed r) (vw R w))) ->
     Q (Ok n) w') ->
  wp (update R p f) Q w.
Proof.
  intros Hid Hf Hdup Hok. unfold update. wp_step. apply wp_stmt; [done|]. wp_step.
  wp_step. pose proof (upd_spec R HE p f (tget (w_db (bump w))) Hid) as Hs.
  rewrite <- abs_get in Hs. simpl in Hs.
  simpl. destruct (upd p f (tget (w_db w))) as [[t n]|] eqn:Eu; simpl.
  - destruct Hs as (Hv & changed & Hc & Hn). repeat wp_step.
    eapply Hok; [|exact Hc|exact Hn]. unfold now_db, vw. simpl.
    by rewrite abs_set, Hv.
  - wp_step. apply Hdup. exact Hs.
Qed.

Lemma wp_update_byid k q f (Q : res Z -> World S -> Prop) w :
  (forall r, ent_id r = k -> ent_id (f r) = ent_id r) ->
  (env_fault (w_tick w) = true -> Q (Err (EDriver infra_text)) (bump w)) ->
  ((exists r k' r', vw R w !! k = Some r /\ q r = true /\ k' <> k /\
      vw R w !! k' = Some r' /\ (ent_clash (f r) r' = true \/ ent_clash r' (f r) = true)) ->
    Q (Err (EDriver dup_text)) (bump w)) ->
  (forall n w', now_db (aset (update_at k q f (vw R w)) (abs (w_db w))) w w' ->
     (n = 0 \/ n = 1 /\ exists r, vw R w !! k = Some r /\ q r = true)%Z ->
     (forall r, vw R w !! k = Some r -> q r = true -> n = 1%Z \/ f r = r) ->
     Q (Ok n) w') ->
  wp (update R (byid k q) f) Q w.
Proof.
  intros Hid Hf Hdup Hok.
  pose proof (upd_view_byid (vw R w) (vw_key w) k q f) as Hview.
  apply wp_update; [intros r [? _]%byid_key; auto|done| |].
  - rewrite Hview. intros (k1 & k2 & r1 & r2 & Hne & H1 & H2 & Hc). apply Hdup.
    apply update_at_inv in H1 as [[H1 Hn1]|(-> & r0 & H1 & Hq1 & ->)];
      apply update_at_inv in H2 as [[H2 Hn2]|(-> & r0' & H2 & Hq2 & ->)]; try done.
    + by rewrite (vw_unique _ _ _ _ _ H1 H2 Hne) in Hc.
    + exists r0', k1, r1. eauto 10.
    + exists r0, k2, r2. eauto 10.
  - rewrite Hview. intros n changed w' Hw' Hc ->.
    assert (Hm : matching (fun r => byid k q r && changed r) (vw R w) =
                 matching (byid k (fun r => q r && changed r)) (vw R w)).
    { apply map_eq. intros j. apply option_eq. intros r. rewrite !lookup_matching.
      unfold byid. by rewrite andb_assoc. }
    rewrite Hm, (matching_byid (vw R w) (vw_key w)).
    apply Hok; [done| |].
    + destruct (vw R w !! k) as [r|] eqn:Hk; [|left; by rewrite map_size_empty].
      destruct (q r && changed r) eqn:Hq; [|left; by rewrite map_size_empty].
      right. rewrite map_size_singleton. apply andb_true_iff in Hq as [Hq _]. eauto.
    + intros r Hk Hq. rewrite Hk, Hq. simpl.
      destruct (changed r) eqn:Ec; [left; by rewrite map_size_singleton|right; auto].
Qed.

(** The rule of [INSERT]. *)
Definition insert_conflict (r : R) (w : World S) : Prop :=
  is_Some (vw R w !! ent_id r) \/
  exists k r', vw R w !! k = Some r' /\ (ent_clash r r' = true \/ ent_clash r' r = true).

Lemma ins_no_clash r w (t : table R HE) :
  view t = <[ent_id r := r]> (aget (abs (w_db w))) -> vw R w !! ent_id r = None ->
  forall k r', vw R w !! k = Some r' -> ent_clash r r' = false /\ ent_clash r' r = false.
Proof.
  intros Hv Hnone k r' Hk.
  assert (Hne : k <> ent_id r) by (intros ->; by rewrite Hnone in Hk).
  assert (H1 : view t !! ent_id r = Some r) by (rewrite Hv; apply lookup_insert_eq).
  assert (H2 : view t !! k = Some r') by (by rewrite Hv, lookup_insert_ne).
  split; [apply (view_unique R HE t _ _ _ _ H1 H2) | apply (view_unique R HE t _ _ _ _ H2 H1)];
    congruence.
Qed.

Lemma wp_insert r (Q : res unit -> World S -> Prop) w :
  (env_fault (w_tick w) = true -> Q (Err (EDriver infra_text)) (bump w)) ->
  (insert_conflict r w -> Q (Err (EDriver dup_text)) (bump w)) ->
  (forall w', now_db (aset (<[ent_id r := r]> (vw R w)) (abs (w_db w))) w w' ->
     vw R w !! ent_id r = None ->
     (forall k r', vw R w !! k = Some r' -> ent_clash r r' = false /\ ent_clash r' r = false) ->
     Q (Ok tt) w') ->
  wp (insert R r) Q w.
Proof.
  intros Hf Hdup Hok. unfold insert. wp_step. apply wp_stmt; [done|]. wp_step. wp_step.
  simpl. pose proof (ins_spec R HE r (tget (w_db w))) as Hs. rewrite <- abs_get in Hs.
  destruct (ins r (tget (w_db w))) as [t|] eqn:Ei; simpl.
  - destruct Hs as [Hnone Hv]. wp_step. apply Hok.
    + unfold now_db, vw. simpl. by rewrite abs_set, Hv.
    + exact Hnone.
    + eauto using ins_no_clash.
  - wp_step. apply Hdup. exact Hs.
Qed.

(** The rows an overwriting insert may overwrite. *)
Definition holds (r : R) (w : World S) (p : R -> bool) : Prop :=
  (forall x, p x = true -> ent_id x = ent_id r) \/
  vw R w !! ent_id r = None /\ forall x, p x = true -> ent_clash r x = true \/ ent_clash x r = true.
Lemma wp_insert_over over r (Q : res unit -> World S -> Prop) w :
  (forall x, ent_id (over r x) = ent_id x) ->
  (env_fault (w_tick w) = true -> Q (Err (EDriver infra_text)) (bump w)) ->
  Q (Err (EDriver dup_text)) (bump w) ->
  (forall w', now_db (aset (<[ent_id r := r]> (vw R w)) (abs (w_db w))) w w' -> vw R w !! ent_id r = None -> Q (Ok tt) w') ->
  (forall p w', now_db (aset (upd_view p (over r) (vw R w)) (abs (w_db w))) w w' -> holds r w p -> Q (Ok tt) w') ->
  wp (insert_over R over r) Q w.
Proof.
  intros Hid Hf Hdup Hnew Hold. unfold insert_over. wp_step. apply wp_stmt; [done|]. wp_step. wp_step. cbv zeta.
  simpl. pose proof (ins_spec R HE r (tget (w_db w))) as Hs. rewrite <- abs_get in Hs.
  destruct (ins r (tget (w_db w))) as [t|] eqn:Ei.
  { destruct Hs as [Hnone Hv]. wp_step. apply Hnew; [|exact Hnone]. unfold now_db, vw. simpl. by rewrite abs_set, Hv. }
  set (same := fun x => (ent_id x =? ent_id r)%Z).
  match goal with |- context [upd ?h _ _] => set (holder := h) end.
  assert (Hh : holds r w holder).
  { unfold holds, holder. destruct (existsb _ _) eqn:Hex.
    - left. intros x Hx. by apply Z.eqb_eq.
    - right. split; [|intros x Hx; by apply orb_true_iff].
      destruct (vw R w !! ent_id r) as [x|] eqn:Hx; [exfalso|done].
      assert (same x = true) as Hsx by (apply Z.eqb_eq; exact (vw_key w _ _ Hx)).
      assert (existsb same (sel same (tget (w_db w))) = true); [|congruence].
      apply existsb_exists. exists x. split; [|done]. apply list_elem_of_In. rewrite (sel_spec R HE).
      apply list_elem_of_fmap. exists (ent_id r, x). split; [done|]. apply elem_of_map_to_list, lookup_matching.
      split; [|done]. rewrite <- abs_get. exact Hx. }
  pose proof (upd_spec R HE holder (over r) (tget (w_db w)) (fun x _ => Hid x)) as Hu. rewrite <- abs_get in Hu.
  destruct (upd holder _ _) as [[t n]|]; [|wp_step; exact Hdup].
  destruct Hu as [Hv _]. wp_step. apply (Hold holder); [|done]. unfold now_db, vw. simpl. by rewrite abs_set, Hv.
Qed.

Lemma wp_insert_ignore r (Q : res unit -> World S -> Prop) w :
  (env_fault (w_tick w) = true -> Q (Err (EDriver infra_text)) (bump w)) ->
  (insert_conflict r w -> Q (Ok tt) (bump w)) ->
  (forall w', now_db (aset (<[ent_id r := r]> (vw R w)) (abs (w_db w))) w w' ->
     vw R w !! ent_id r = None ->
     (forall k r', vw R w !! k = Some r' -> ent_clash r r' = false /\ ent_clash r' r = false) ->
     Q (Ok tt) w') ->
  wp (insert_ignore R r) Q w.
Proof.
  intros Hf Hdup Hok. unfold insert_ignore. wp_step. apply wp_stmt; [done|]. wp_step.
  wp_step. simpl. pose proof (ins_spec R HE r (tget (w_db w))) as Hs.
  rewrite <- abs_get in Hs.
  destruct (ins r (tget (w_db w))) as [t|] eqn:Ei; simpl.
  - destruct Hs as [Hnone Hv]. wp_step. apply Hok.
    + unfold now_db, vw. simpl. by rewrite abs_set, Hv.
    + exact Hnone.
    + eauto using ins_no_clash.
  - wp_step. apply Hdup. exact Hs.
Qed.

Lemma wp_delete p (Q : res Z -> World S -> Prop) w :
  (env_fault (w_tick w) = true -> Q (Err (EDriver infra_text)) (bump w)) ->
  (forall w', now_db (aset (matching (fun r => negb (p r)) (vw R w)) (abs (w_db w))) w w' ->
     Q (Ok (Z.of_nat (size (matching p (vw R w))))) w') ->
  wp (delete R p) Q w.
Proof.
  intros Hf Hok. unfold delete. wp_step. apply wp_stmt; [done|]. wp_step. wp_step. simpl.
  pose proof (del_spec R HE p (tget (w_db w))) as [Hv Hn]. rewrite <- abs_get in Hv, Hn.
  destruct (del p (tget (w_db w))) as [t n]; simpl in *. repeat wp_step.
  rewrite Hn. apply Hok. unfold now_db, vw. simpl. by rewrite abs_set, Hv.
Qed.
End rules.

Section transaction_rule.
Context {E : Env} {D : SqlEngine} {S : Type}.

Lemma wp_transaction {B} (body : M S B) (Q : res B -> World S -> Prop) w :
  wp body (fun r w' =>
    match r with
    | Ok b =>
      (env_fault (w_tick w') = true -> Q (Err (EDriver infra_text)) (with_db (w_db w) (bump w'))) /\
      Q (Ok b) (bump w')
    | Err e => Q (Err e) (with_db (w_db w) w')
    end) w ->
  wp (transaction body) Q w.
Proof.
  unfold wp, transaction. destruct (body w) as [[b|e] w']; simpl; [|done].
  intros [Hf Hok]. destruct (env_fault (w_tick w')); auto.
Qed.
End transaction_rule.

(** ** Statements that do not fail, on rows that are known *)
Section known.
Context {E : Env} {D : SqlEngine} {S A : Type} {HA : Abstract S A}.
Context (R : Type) {HE : Entity R} {HT : Tbl S A R HE HA}.
Hypothesis NF : forall n, env_fault n = false.

Lemma wp_take_known k q r (Q : res R -> World S -> Prop) w :
  vw R w !! k = Some r -> q r = true -> Q (Ok r) (bump w) -> wp (take R (byid k q)) Q w.
Proof.
  intros Hk Hq HQ. apply wp_take_byid; [by rewrite NF| |].
  - intros Hno. specialize (Hno _ Hk). congruence.
  - intros r' Hr' _. by simplify_eq.
Qed.

Lemma wp_take_missing k q (Q : res R -> World S -> Prop) w :
  (forall r, vw R w !! k = Some r -> q r = false) -> Q (Err ErrRecordNotFound) (bump w) ->
  wp (take R (byid k q)) Q w.
Proof.
  intros Hno HQ. apply wp_take_byid; [by rewrite NF|done|].
  intros r Hk Hq. specialize (Hno _ Hk). congruence.
Qed.

(** A row whose indexed columns the update leaves alone. *)
Lemma wp_update_row k q f r (Q : res Z -> World S -> Prop) w :
  (forall x, ent_id x = k -> ent_id (f x) = ent_id x) ->
  (forall x y, ent_clash (f x) y = ent_clash x y /\ ent_clash y (f x) = ent_clash y x) ->
  vw R w !! k = Some r -> q r = true -> f r <> r ->
  (forall w', now_db (aset (<[k := f r]> (vw R w)) (abs (w_db w))) w w' -> Q (Ok 1%Z) w') ->
  wp (update R (byid k q) f) Q w.
Proof.
  intros Hid Hc Hk Hq Hf HQ. apply wp_update_byid; [done|by rewrite NF| |].
  - intros (r1 & k' & r' & H1 & _ & Hne & H2 & Hcl).
    rewrite (proj1 (Hc _ _)), (proj2 (Hc _ _)) in Hcl.
    pose proof (vw_unique R w _ _ _ _ H1 H2 ltac:(congruence)) as U1.
    pose proof (vw_unique R w _ _ _ _ H2 H1 ltac:(congruence)) as U2.
    destruct Hcl; congruence.
  - intros n w' Hw _ Hn. destruct (Hn _ Hk Hq) as [->|]; [|done].
    apply HQ. by rewrite <- (update_at_hit k q f _ r Hk Hq).
Qed.

(** A table without unique indexes takes every update. *)
Hypothesis no_index : forall r r' : R, ent_clash r r' = false.

Lemma wp_update_free k q f (Q : res Z -> World S -> Prop) w :
  (forall r, ent_id r = k -> ent_id (f r) = ent_id r) ->
  (forall n w', now_db (aset (update_at k q f (vw R w)) (abs (w_db w))) w w' -> Q (Ok n) w') ->
  wp (update R (byid k q) f) Q w.
Proof.
  intros Hid HQ. apply wp_update_byid; [done|by rewrite NF| |].
  - intros (r & k' & r' & _ & _ & _ & _ & [Hc|Hc]); by rewrite no_index in Hc.
  - intros n w' Hw _ _. exact (HQ n w' Hw).
Qed.

Lemma wp_update_known k q f r (Q : res Z -> World S -> Prop) w :
  (forall r, ent_id r = k -> ent_id (f r) = ent_id r) ->
  vw R w !! k = Some r -> q r = true -> f r <> r ->
  (forall w', now_db (aset (<[k := f r]> (vw R w)) (abs (w_db w))) w w' -> Q (Ok 1%Z) w') ->
  wp (update R (byid k q) f) Q w.
Proof.
  intros Hid Hk Hq Hf HQ. apply wp_update_byid; [done|by rewrite NF| |].
  - intros (r1 & k' & r' & _ & _ & _ & _ & [Hc|Hc]); by rewrite no_index in Hc.
  - intros n w' Hw _ Hn. destruct (Hn _ Hk Hq) as [->|]; [|done].
    apply HQ. by rewrite <- (update_at_hit k q f _ r Hk Hq).
Qed.
End known.

Lemma wp_commit {E : Env} {D : SqlEngine} {S B} (body : M S B) (Q : res B -> World S -> Prop) w :
  (forall n, env_fault n = false) ->
  wp body (fun r w' =>
    match r with Ok b => Q (Ok b) (bump w') | Err e => Q (Err e) (with_db (w_db w) w') end) w ->
  wp (transaction body) Q w.
Proof.
  intros NF Hb. apply wp_transaction. eapply wp_mono; [exact Hb|].
  intros [b|e] w'; [|done]. intros HQ. by rewrite NF.
Qed.

(** ** Rules for plain reads, and for statements over many rows *)
Section read_view.
Context {E : Env} {D : SqlEngine} {S A : Type} {HA : Abstract S A}.
Context (R : Type) {HE : Entity R} {HT : Tbl S A R HE HA}.

Lemma wp_find_in rv p (Q : res (list R) -> World S -> Prop) w :
  (env_fault (w_tick w) = true -> Q (Err (EDriver infra_text)) (bump w)) ->
  (forall l, l ≡ₚ (map_to_list (matching p (aget (abs rv)))).*2 -> Q (Ok l) (bump w)) ->
  wp (find_in R rv p) Q w.
Proof.
  intros Hf Hok. unfold find_in. wp_step. apply wp_stmt; [done|]. repeat wp_step.
  apply Hok. rewrite abs_get. apply sel_spec.
Qed.

Lemma wp_take_in_byid rv k q (Q : res R -> World S -> Prop) w :
  (env_fault (w_tick w) = true -> Q (Err (EDriver infra_text)) (bump w)) ->
  ((forall r, aget (abs rv) !! k = Some r -> q r = false) -> Q (Err ErrRecordNotFound) (bump w)) ->
  (forall r, aget (abs rv) !! k = Some r -> q r = true -> Q (Ok r) (bump w)) ->
  wp (take_in R rv (byid k q)) Q w.
Proof.
  intros Hf Hnf Hok. unfold take_in. wp_step. apply wp_find_in; [done|].
  assert (Hkey : forall j r, aget (abs rv) !! j = Some r -> ent_id r = j)
    by (rewrite abs_get; apply view_key).
  intros l Hl. rewrite (matching_byid _ Hkey) in Hl. cbv beta iota.
  destruct (aget (abs rv) !! k) as [r|] eqn:Hk.
  2: { rewrite map_to_list_empty in Hl. apply Permutation_nil_r in Hl as ->. by apply wp_throw, Hnf. }
  destruct (q r) eqn:Hq.
  - rewrite map_to_list_singleton in Hl. apply Permutation_singleton_r in Hl as ->. by apply wp_ret, Hok.
  - rewrite map_to_list_empty in Hl. apply Permutation_nil_r in Hl as ->.
    apply wp_throw, Hnf. intros r' [= <-]. done.
Qed.

Lemma existsb_byid rv k q p :
  existsb p (sel (byid k q) (tget rv)) =
  match aget (abs rv) !! k with Some r => q r && p r | None => false end.
Proof.
  pose proof (sel_spec R HE (byid k q) (tget rv)) as Hs.
  generalize dependent (sel (byid k q) (tget rv)). intros l Hs. rewrite <- abs_get in Hs.
  rewrite (matching_byid _) in Hs by (rewrite abs_get; apply view_key).
  destruct (aget (abs rv) !! k) as [r|]; simpl in Hs; [destruct (q r)|].
  - rewrite map_to_list_singleton in Hs. apply Permutation_singleton_r in Hs as ->. apply orb_false_r.
  - rewrite map_to_list_empty in Hs. by apply Permutation_nil_r in Hs as ->.
  - rewrite map_to_list_empty in Hs. by apply Permutation_nil_r in Hs as ->.
Qed.

Lemma wp_count_in rv p (Q : res Z -> World S -> Prop) w :
  (env_fault (w_tick w) = true -> Q (Err (EDriver infra_text)) (bump w)) ->
  Q (Ok (amount p (aget (abs rv)))) (bump w) ->
  wp (count_in R rv p) Q w.
Proof.
  intros Hf Hok. unfold count_in. wp_step. apply wp_find_in; [done|]. intros l Hl. wp_step.
  unfold amount in Hok. by rewrite Hl, length_fmap, length_map_to_list.
Qed.

(** An update of many rows of a table without conflicts among the new rows. *)
Lemma wp_update_rows p f (Q : res Z -> World S -> Prop) w :
  (forall r, p r = true -> ent_id (f r) = ent_id r) ->
  (forall r r', ent_clash (f r) r' = ent_clash r r' /\ ent_clash r' (f r) = ent_clash r' r) ->
  (env_fault (w_tick w) = true -> Q (Err (EDriver infra_text)) (bump w)) ->
  (forall n w', now_db (aset (upd_view p f (vw R w)) (abs (w_db w))) w w' ->
     (n <= amount p (vw R w))%Z ->
     ((forall r, p r = true -> f r <> r) -> n = amount p (vw R w)) -> Q (Ok n) w') ->
  wp (update R p f) Q w.
Proof.
  intros Hid Hc Hf Hok. apply wp_update; [done|done| |].
  - intros (k1 & k2 & r1 & r2 & Hne & H1 & H2 & Hcl). exfalso.
    rewrite lookup_upd_view in H1, H2.
    destruct (vw R w !! k1) as [x1|] eqn:X1; [|done]. destruct (vw R w !! k2) as [x2|] eqn:X2; [|done].
    simplify_eq/=. pose proof (vw_unique R w _ _ _ _ X1 X2 Hne) as Hu.
    destruct (p x1), (p x2); rewrite ?(proj1 (Hc _ _)), ?(proj2 (Hc _ _)) in Hcl; congruence.
  - intros n changed w' Hw Hch ->. apply Hok; [done| |].
    + unfold amount. apply Nat2Z.inj_le, map_subseteq_size, map_subseteq_spec.
      intros k r. rewrite !lookup_matching. intros [? [? _]%andb_true_iff]. done.
    + intros Hall. apply amount_ext. intros k r _. destruct (p r) eqn:Hp; [|done].
      destruct (changed r) eqn:Hcr; [done|]. by destruct (Hall r Hp (Hch r Hcr)).
Qed.

(** [INSERT .. ON DUPLICATE KEY UPDATE id = id] of many rows. *)
Inductive insert_some : list R -> gmap Z R -> gmap Z R -> Prop :=
| insert_done m : insert_some [] m m
| insert_new r l m m' : m !! ent_id r = None -> insert_some l (<[ent_id r := r]> m) m' ->
  insert_some (r :: l) m m'
| insert_skip r l m m' : insert_some l m m' -> insert_some (r :: l) m m'.

Lemma ins_all_spec l (t : table R HE) : insert_some l (view t) (view (ins_all R l t)).
Proof.
  unfold ins_all. revert t. induction l as [|r l IH]; intros t; simpl; [constructor|].
  pose proof (ins_spec R HE r t) as Hs. destruct (ins r t) as [t'|]; [|by constructor].
  destruct Hs as [Hn Hv]. apply insert_new; [done|]. rewrite <- Hv. apply IH.
Qed.

Lemma wp_insert_ignore_all l (Q : res unit -> World S -> Prop) w :
  (env_fault (w_tick w) = true -> Q (Err (EDriver infra_text)) (bump w)) ->
  (forall m' w', insert_some l (vw R w) m' -> now_db (aset m' (abs (w_db w))) w w' -> Q (Ok tt) w') ->
  wp (insert_ignore_all R l) Q w.
Proof.
  intros Hf Hok. unfold insert_ignore_all. wp_step. apply wp_stmt; [done|]. repeat wp_step.
  pose proof (ins_all_spec l (tget (w_db (bump w)))) as Hs. rewrite <- abs_get in Hs.
  eapply Hok; [exact Hs|]. unfold now_db. simpl. by rewrite abs_set.
Qed.
End read_view.

(** One step of symbolic execution through the statements. *)
Ltac sql_step :=
  match goal with
  | |- wp (transaction _) _ _ => apply wp_transaction
  | |- wp (if _ then _ else _) _ _ => apply wp_if; intros ?
  | |- wp (take _ (byid _ _)) _ _ => apply wp_take_byid
  | |- wp (take _ _) _ _ => apply wp_take
  | |- wp (take_in _ _ (byid _ _)) _ _ => apply wp_take_in_byid
  | |- wp (count_in _ _ _) _ _ => apply wp_count_in
  | |- wp (find _ _) _ _ => apply wp_find
  | |- wp (update _ (byid _ _) _) _ _ => apply wp_update_byid; [done| | |]
  | |- wp (insert _ _) _ _ => apply wp_insert
  | |- wp (insert_ignore _ _) _ _ => apply wp_insert_ignore
  | |- wp (count _ _) _ _ => apply wp_count
  | |- _ => wp_step
  end; intros; cbv beta iota.

(** ** A database engine in memory

    An instance of the [SqlEngine] interface by finite maps, used to run the
    model on concrete inputs and to show that the interface's laws can hold
    together.  A table is a finite map that is keyed by the rows' [id] column and
    satisfies its unique indexes; a statement that would break an index fails. *)

Section gmap_engine.
Context {R : Type} {HE : Entity R}.

Definition pair_ok (kr1 kr2 : Z * R) : bool :=
  (kr1.1 =? kr2.1)%Z || negb (ent_clash kr1.2 kr2.2).

Definition table_okb (m : gmap Z R) : bool :=
  let l := map_to_list m in
  forallb (fun kr => (ent_id kr.2 =? kr.1)%Z && forallb (pair_ok kr) l) l.

Lemma table_okb_spec m :
  table_okb m = true <->
  (forall k r, m !! k = Some r -> ent_id r = k) /\
  (forall k1 k2 r1 r2, m !! k1 = Some r1 -> m !! k2 = Some r2 -> k1 <> k2 ->
     ent_clash r1 r2 = false).
Proof.
  unfold table_okb. rewrite forallb_forall. split.
  - intros H. split.
    + intros k r Hk. apply elem_of_map_to_list, list_elem_of_In, H in Hk. by bools.
    + intros k1 k2 r1 r2 H1 H2 Hne.
      apply elem_of_map_to_list, list_elem_of_In, H in H1. bools.
      apply elem_of_map_to_list, list_elem_of_In in H2.
      rewrite forallb_forall in H1. apply H1 in H2. unfold pair_ok in H2. simpl in H2.
      by destruct (k1 =? k2)%Z eqn:E; simpl in H2; bools.
  - intros [Hk Hu] [k r] Hin%list_elem_of_In%elem_of_map_to_list. simpl.
    rewrite (Hk _ _ Hin), Z.eqb_refl. simpl. apply forallb_forall.
    intros [k' r'] Hin'%list_elem_of_In%elem_of_map_to_list. unfold pair_ok. simpl.
    destruct (k =? k')%Z eqn:E; [done|]. bools. simpl. by rewrite (Hu _ _ _ _ Hin Hin').
Qed.

Definition gtable : Type := { m : gmap Z R | table_okb m = true }.

Definition gmake (m : gmap Z R) : option gtable :=
  match Bool.bool_dec (table_okb m) true with
  | left e => Some (exist _ m e)
  | right _ => None
  end.

Lemma gmake_spec m :
  match gmake m with
  | Some t => proj1_sig t = m
  | None => table_okb m = false
  end.
Proof.
  unfold gmake. destruct (Bool.bool_dec (table_okb m) true) as [e|e]; [done|].
  by apply not_true_iff_false.
Qed.

Definition gsel (p : R -> bool) (t : gtable) : list R :=
  (map_to_list (matching p (proj1_sig t))).*2.

Definition gupd (p : R -> bool) (f : R -> R) (t : gtable) : option (gtable * Z) :=
  match gmake (upd_view p f (proj1_sig t)) with
  | Some t' => Some (t', Z.of_nat (size (matching p (proj1_sig t))))
  | None => None
  end.

Definition gins (r : R) (t : gtable) : option gtable :=
  match proj1_sig t !! ent_id r with
  | Some _ => None
  | None => gmake (<[ent_id r := r]> (proj1_sig t))
  end.

Lemma matching_ok p m : table_okb m = true -> table_okb (matching p m) = true.
Proof.
  rewrite !table_okb_spec. intros [Hk Hu]. split.
  - intros k r [H _]%lookup_matching. eauto.
  - intros k1 k2 r1 r2 [H1 _]%lookup_matching [H2 _]%lookup_matching. eauto.
Qed.

Definition gdel (p : R -> bool) (t : gtable) : gtable * Z :=
  (exist _ (matching (fun r => negb (p r)) (proj1_sig t)) (matching_ok _ _ (proj2_sig t)),
   Z.of_nat (size (matching p (proj1_sig t)))).

Lemma gupd_spec p f (t : gtable) :
  (forall r, p r = true -> ent_id (f r) = ent_id r) ->
  match gupd p f t with
  | Some (t', n) =>
    proj1_sig t' = upd_view p f (proj1_sig t) /\
    exists changed : R -> bool,
      (forall r, changed r = false -> f r = r) /\
      n = Z.of_nat (size (matching (fun r => p r && changed r) (proj1_sig t)))
  | None => exists k1 k2 r1 r2, k1 <> k2 /\
      upd_view p f (proj1_sig t) !! k1 = Some r1 /\
      upd_view p f (proj1_sig t) !! k2 = Some r2 /\ ent_clash r1 r2 = true
  end.
Proof.
  intros Hid. unfold gupd. pose proof (gmake_spec (upd_view p f (proj1_sig t))) as Hm.
  destruct t as [m Hok]; simpl in *. destruct (gmake _) as [t'|].
  - split; [done|]. exists (fun _ => true). split; [done|].
    f_equal. f_equal. apply map_eq. intros k. apply option_eq. intros r.
    by rewrite !lookup_matching, andb_true_r.
  - unfold table_okb in Hm. apply forallb_false_iff in Hm as ([k1 r1] & Hin & Hf).
    apply elem_of_map_to_list in Hin. simpl in Hf.
    assert (Hk1 : ent_id r1 = k1).
    { rewrite lookup_upd_view in Hin. destruct (m !! k1) as [r|] eqn:E; [|done].
      simplify_eq/=. apply table_okb_spec in Hok as [Hk _].
      destruct (p r) eqn:Hp; rewrite ?Hid; eauto. }
    rewrite Hk1, Z.eqb_refl in Hf. simpl in Hf.
    apply forallb_false_iff in Hf as ([k2 r2] & Hin2 & Hp).
    unfold pair_ok in Hp. simpl in Hp. bools.
    apply elem_of_map_to_list in Hin2. eauto 10.
Qed.

Lemma gins_spec r (t : gtable) :
  match gins r t with
  | Some t' => proj1_sig t !! ent_id r = None /\
      proj1_sig t' = <[ent_id r := r]> (proj1_sig t)
  | None => is_Some (proj1_sig t !! ent_id r) \/
      exists k r', proj1_sig t !! k = Some r' /\ (ent_clash r r' = true \/ ent_clash r' r = true)
  end.
Proof.
  unfold gins. destruct t as [m Hok]; simpl.
  destruct (m !! ent_id r) as [r0|] eqn:Hr; [left; eauto|].
  pose proof (gmake_spec (<[ent_id r := r]> m)) as Hm. destruct (gmake _) as [t'|]; [done|].
  right. destruct (forallb (fun kr => negb (ent_clash r kr.2) && negb (ent_clash kr.2 r))
    (map_to_list m)) eqn:Ef.
  - exfalso. rewrite forallb_forall in Ef. apply not_true_iff_false in Hm. apply Hm.
    apply table_okb_spec in Hok as [Hk Hu]. apply table_okb_spec.
    assert (Hc : forall k r', m !! k = Some r' ->
      ent_clash r r' = false /\ ent_clash r' r = false).
    { intros k r' H. apply elem_of_map_to_list, list_elem_of_In, Ef in H.
      simpl in H. by bools. }
    split.
    + intros k r'. rewrite lookup_insert. case_decide; naive_solver.
    + intros k1 k2 r1 r2. rewrite !lookup_insert.
      repeat case_decide; intros; simplify_eq; naive_solver.
  - apply forallb_false_iff in Ef as ([k r'] & Hin%elem_of_map_to_list & H). simpl in H.
    exists k, r'. split; [done|]. apply andb_false_iff in H as [H|H]; bools; auto.
Qed.
End gmap_engine.
Arguments gtable R HE : clear implicits.

(** [LIKE] with the wildcard [%]. *)
Fixpoint glike (fuel : nat) (column pattern : string) : bool :=
  match fuel with
  | O => match column, pattern with EmptyString, EmptyString => true | _, _ => false end
  | S fuel' =>
    match pattern, column with
    | String "%" p', EmptyString => glike fuel' column p'
    | String "%" p', String _ c' => glike fuel' column p' || glike fuel' c' pattern
    | String a p', String b c' => Ascii.eqb a b && glike fuel' c' p'
    | EmptyString, EmptyString => true
    | _, _ => false
    end
  end.

#[export] Instance gmap_sql : SqlEngine.
Proof.
  refine {|
    table := gtable;
    view R HE t := proj1_sig t;
    sel R HE := gsel;
    upd R HE := gupd;
    ins R HE := gins;
    del R HE := gdel;
    like column pattern := glike (String.length column + String.length pattern) column pattern;
    dup_text := "Error 1062 (23000): Duplicate entry '1' for key 'uk'";
    infra_text := "invalid connection";
  |}.
  - intros R HE [m Hm] k r. exact (proj1 (proj1 (@table_okb_spec R HE m) Hm) k r).
  - intros R HE [m Hm]. exact (proj2 (proj1 (@table_okb_spec R HE m) Hm)).
  - done.
  - intros R HE p f t Hid. exact (gupd_spec p f t Hid).
  - intros R HE r t. exact (gins_spec r t).
  - done.
Defined.

(** The empty table, and a table built from rows (for concrete runs). *)
Definition gempty {R} (HE : Entity R) : table R HE :=
  exist (fun m => table_okb m = true) ∅ eq_refl.

Definition grows {R} {HE : Entity R} (l : list R) : table R HE :=
  match gmake (list_to_map ((fun r => (ent_id r, r)) <$> l)) with
  | Some t => t
  | None => gempty HE
  end.
