(* ===== verification/Safe.v ===== *)
(** * Safe computations

    What the service layers share.  [reads] and [quiet] are computations that
    leave the store alone.  A [System] is a component's transition relation with
    an invariant it preserves; [safe m] says that [m], started in a state with the
    invariant, only performs transitions, whatever fails in the middle of it.  The
    rules carry [safe] through the code of a service method. *)
From S2P Require Import Prelude GoMonad Sql.

Module Safe.

(** ** Computations that leave the store alone *)
Section quiet.
Context {S : Type}.

(** No write and no event. *)
Definition reads {A} (m : M S A) : Prop :=
  forall w, w_db (m w).2 = w_db w /\ w_out (m w).2 = w_out w.

(** No write. *)
Definition quiet {A} (m : M S A) : Prop := forall w, w_db (m w).2 = w_db w.

Lemma wp_reads {A} (m : M S A) (Q : res A -> World S -> Prop) w :
  reads m -> (forall r w', w_db w' = w_db w -> w_out w' = w_out w -> Q r w') -> wp m Q w.
Proof. intros Hm HQ. unfold wp. destruct (Hm w). by apply HQ. Qed.

Lemma reads_ret {A} (a : A) : reads (ret a : M S A).
Proof. done. Qed.
Lemma reads_throw {A} e : reads (throw e : M S A).
Proof. done. Qed.
Lemma reads_get_db : reads (get_db : M S S).
Proof. done. Qed.
Lemma reads_bind {A B} (m : M S A) (k : A -> M S B) :
  reads m -> (forall a, reads (k a)) -> reads (bind m k).
Proof.
  intros Hm Hk w. unfold bind. destruct (Hm w) as [H1 H2].
  destruct (m w) as [[a|e] w']; simpl in *; [|done].
  destruct (Hk a w') as [H3 H4]. split; congruence.
Qed.
Lemma reads_attempt {A} (m : M S A) : reads m -> reads (attempt m).
Proof. intros Hm w. specialize (Hm w). unfold attempt. by destruct (m w). Qed.
Lemma reads_map_err {A} f (m : M S A) : reads m -> reads (map_err f m).
Proof. intros Hm w. specialize (Hm w). unfold map_err. by destruct (m w) as [[]]. Qed.
Lemma reads_or_nil {A} (m : M S A) : reads m -> reads (or_nil m).
Proof.
  intros Hm. apply reads_bind; [by apply reads_attempt|]. intros [a|e]; [done|].
  by destruct (errors_Is _ _).
Qed.
Lemma reads_quiet {A} (m : M S A) : reads m -> quiet m.
Proof. intros H w. by destruct (H w). Qed.

Lemma quiet_bind {A B} (m : M S A) (k : A -> M S B) :
  quiet m -> (forall a, quiet (k a)) -> quiet (bind m k).
Proof.
  intros Hm Hk w. unfold bind. specialize (Hm w).
  destruct (m w) as [[a|e] w']; simpl in *; [|done]. by rewrite Hk.
Qed.
Lemma quiet_attempt {A} (m : M S A) : quiet m -> quiet (attempt m).
Proof. intros Hm w. specialize (Hm w). unfold attempt. by destruct (m w). Qed.
Lemma quiet_map_err {A} f (m : M S A) : quiet m -> quiet (map_err f m).
Proof. intros Hm w. specialize (Hm w). unfold map_err. by destruct (m w) as [[]]. Qed.
Lemma quiet_ret {A} (a : A) : quiet (ret a : M S A).
Proof. done. Qed.
Lemma quiet_throw {A} e : quiet (throw e : M S A).
Proof. done. Qed.
Lemma quiet_of_res {A} (r : res A) : quiet (of_res r : M S A).
Proof. by destruct r. Qed.
Lemma quiet_emit e : quiet (emit e : M S unit).
Proof. done. Qed.

Lemma wp_quiet_db {A} (m : M S A) (Q : res A -> World S -> Prop) w :
  quiet m -> (forall r w', w_db w' = w_db w -> Q r w') -> wp m Q w.
Proof. intros Hm HQ. unfold wp. by apply HQ. Qed.

Context {E : Env}.
Lemma quiet_now : quiet (now : M S Z).
Proof. done. Qed.
Lemma quiet_Generate : quiet (Generate : M S Z).
Proof. done. Qed.
End quiet.

Section reads_tables.
Context {E : Env} {D : SqlEngine} {S A : Type} {HA : Abstract S A}.
Context (R : Type) {HE : Entity R} {HT : Tbl S A R HE HA}.

Lemma reads_stmt : reads (stmt : M S unit).
Proof. intros w. unfold stmt, bind, fault. simpl. by destruct (env_fault _). Qed.
Lemma reads_find p : reads (find R p).
Proof. apply reads_bind; [apply reads_stmt|]. intros _. apply reads_bind; [done|]. done. Qed.
Lemma reads_take p : reads (take R p).
Proof. apply reads_bind; [apply reads_find|]. by intros []. Qed.
Lemma reads_count p : reads (count R p).
Proof. apply reads_bind; [apply reads_find|]. done. Qed.
End reads_tables.

(** ** Parts of the store no statement assigns, such as the database handle *)
Section kept.
Context {E : Env} {D : SqlEngine} {S A X : Type} {HA : Abstract S A} (h : S -> X).

Definition kept (w : World S) : X := h (w_db w).

Lemma keeps_reads {B} (m : M S B) : reads m -> preserves kept m.
Proof. intros Hm w. unfold kept. by destruct (Hm w) as [-> _]. Qed.
Lemma keeps_update R {HE : Entity R} {HT : Tbl S A R HE HA} p f :
  (forall t s, h (tset t s) = h s) -> preserves kept (update R p f).
Proof.
  intros Ht. apply preserves_bind; [apply keeps_reads, reads_stmt|]. intros _.
  intros w. unfold bind, get_db, kept. destruct (upd _ _ _) as [[t n]|]; [|done]. apply Ht.
Qed.
Lemma keeps_transaction {B} (m : M S B) : preserves kept m -> preserves kept (transaction m).
Proof.
  intros Hm w. specialize (Hm w). unfold transaction, kept in *.
  destruct (m w) as [[a|e] w']; simpl in *; [|done]. by destruct (env_fault _).
Qed.
End kept.

#[export] Hint Resolve reads_ret reads_throw reads_get_db reads_stmt reads_find reads_take
  reads_count : store_reads.
#[export] Hint Resolve reads_quiet quiet_ret quiet_throw quiet_of_res quiet_emit quiet_now
  quiet_Generate : store_safe.

(** ** Components as transition systems *)
Class System (A : Type) := {
  sys_step : A -> A -> Prop;
  sys_inv : A -> Prop;
  sys_inv_step : forall s s', sys_inv s -> sys_step s s' -> sys_inv s';
}.

Section safe.
Context {E : Env} {D : SqlEngine} {S A : Type} {HA : Abstract S A} {Sys : System A}.
Implicit Types (w : World S).

Definition st w : A := abs (w_db w).

(** The store went from [s0] to [s], which has the invariant. *)
Definition goes (s0 s : A) : Prop := rtc sys_step s0 s /\ sys_inv s.

Lemma goes_refl s : sys_inv s -> goes s s.
Proof. done. Qed.

Lemma goes_rtc s0 s s' : goes s0 s -> rtc sys_step s s' -> goes s0 s'.
Proof.
  intros [Hr HI] Hs. split; [by etrans|]. clear Hr. induction Hs; [done|].
  by eauto using sys_inv_step.
Qed.

Lemma goes_db s0 w w' : w_db w' = w_db w -> goes s0 (st w) -> goes s0 (st w').
Proof. unfold st. by intros ->. Qed.

Lemma wp_quiet {X} s0 (m : M S X) (Q : res X -> World S -> Prop) w :
  goes s0 (st w) -> quiet m ->
  (forall r w', w_db w' = w_db w -> goes s0 (st w') -> Q r w') -> wp m Q w.
Proof.
  intros Hg Hm HQ. unfold wp. specialize (Hm w). apply HQ; [done|]. by eapply goes_db.
Qed.

(** The contract of a writing repository method: an error leaves the store as it
    was, a return performs transitions. *)
Definition atomic {X} (w : World S) (r : res X) (w' : World S) : Prop :=
  match r with
  | Err _ => st w' = st w
  | Ok _ => rtc sys_step (st w) (st w')
  end.

Lemma atomic_none {X} w (r : res X) w' : st w' = st w -> atomic w r w'.
Proof. intros Heq. destruct r; simpl; rewrite Heq; [apply rtc_refl|done]. Qed.

Lemma atomic_one {X} w (x : X) w' s' : sys_step (st w) s' -> st w' = s' -> atomic w (Ok x) w'.
Proof. intros Hs <-. simpl. by apply rtc_once. Qed.

Lemma wp_atomic {X} s0 (m : M S X) (Q : res X -> World S -> Prop) w :
  goes s0 (st w) -> wp m (atomic w) w -> (forall r w', goes s0 (st w') -> Q r w') -> wp m Q w.
Proof.
  intros Hg Hm HQ. eapply wp_mono; [exact Hm|]. intros r w' Ha. apply HQ.
  eapply goes_rtc; [done|]. destruct r; simpl in Ha; [done|]. rewrite Ha. apply rtc_refl.
Qed.

Definition safe {X} (m : M S X) : Prop :=
  forall s0 w, goes s0 (st w) -> wp m (fun _ w' => goes s0 (st w')) w.

Lemma safe_quiet {X} (m : M S X) : quiet m -> safe m.
Proof. intros Hm s0 w Hg. by eapply wp_quiet. Qed.
Lemma safe_atomic {X} (m : M S X) : (forall w, sys_inv (st w) -> wp m (atomic w) w) -> safe m.
Proof. intros Hm s0 w Hg. eapply wp_atomic; [done|apply Hm, Hg|done]. Qed.
(** A write outside the abstract state, a cache for one. *)
Lemma safe_hidden {X} (m : M S X) : (forall w, st (m w).2 = st w) -> safe m.
Proof. intros Hm s0 w Hg. unfold wp. by rewrite Hm. Qed.
Lemma safe_bind {X Y} (m : M S X) (k : X -> M S Y) :
  safe m -> (forall a, safe (k a)) -> safe (bind m k).
Proof.
  intros Hm Hk s0 w Hg. apply wp_bind. eapply wp_mono; [by apply Hm|].
  intros [a|e] w' Hg'; [by apply Hk|done].
Qed.
Lemma safe_attempt {X} (m : M S X) : safe m -> safe (attempt m).
Proof. intros Hm s0 w Hg. apply wp_attempt. by apply Hm. Qed.
Lemma safe_map_err {X} f (m : M S X) : safe m -> safe (map_err f m).
Proof.
  intros Hm s0 w Hg. apply wp_map_err. eapply wp_mono; [by apply Hm|]. by intros [].
Qed.
Lemma safe_for_each {X} (l : list X) (body : X -> M S unit) :
  (forall x, safe (body x)) -> safe (for_each l body).
Proof.
  intros Hb s0 w Hg. apply (wp_for_each l body (fun w' => goes s0 (st w'))); [done| |done].
  intros x w' _ Hg'. eapply wp_mono; [by apply Hb|]. by intros [].
Qed.
End safe.

#[export] Hint Resolve safe_quiet : store_safe.
End Safe.

(** ** Computations that follow a relation

    [does ρ m]: whatever its result, [m] only moves the world along [ρ], a relation
    that is reflexive, transitive and allows every idle step ([WorldRel]).  A
    component says what idling is ([Idle]): at least, that time passes and the store
    stays.  The rules follow the constructs of the code, [does_auto] applies them,
    and the hint database [steps] knows the operations. *)

Class Idle (S : Type) := {
  idle : World S -> World S -> Prop;
  idle_same : forall w w', w_db w' = w_db w -> (w_tick w <= w_tick w')%nat -> idle w w';
}.

Section relations.
Context {S : Type} {ID : Idle S}.
Implicit Types (w : World S).

Record WorldRel (ρ : World S -> World S -> Prop) : Prop := {
  wr_refl : forall w, ρ w w;
  wr_trans : forall w1 w2 w3, ρ w1 w2 -> ρ w2 w3 -> ρ w1 w3;
  wr_later : forall w w', idle w w' -> ρ w w';
}.
Definition does (ρ : World S -> World S -> Prop) {A} (m : M S A) : Prop := forall w, ρ w (m w).2.
(** The collaborators only idle. *)
Definition untouched {A} (m : M S A) : Prop := does idle m.

Section rules.
Context (ρ : World S -> World S -> Prop) (WR : WorldRel ρ).

Lemma does_untouched {A} (m : M S A) : untouched m -> does ρ m.
Proof. intros Hm w. apply (wr_later _ WR), Hm. Qed.
Lemma does_quiet {A} (m : M S A) :
  (forall w, w_db (m w).2 = w_db w /\ (w_tick w <= w_tick (m w).2)%nat) -> does ρ m.
Proof. intros Hm w. apply (wr_later _ WR), idle_same; apply Hm. Qed.

Lemma does_ret {A} (a : A) : does ρ (ret a).
Proof. intros w. apply (wr_refl _ WR). Qed.
Lemma does_throw {A} e : does ρ (throw e : M S A).
Proof. intros w. apply (wr_refl _ WR). Qed.
Lemma does_of_res {A} (r : res A) : does ρ (of_res r : M S A).
Proof. destruct r; [apply does_ret|apply does_throw]. Qed.
Lemma does_bind {A B} (m : M S A) (k : A -> M S B) :
  does ρ m -> (forall a, does ρ (k a)) -> does ρ (bind m k).
Proof.
  intros Hm Hk w. unfold bind. specialize (Hm w). destruct (m w) as [[a|e] w1]; simpl in *; [|done].
  eapply (wr_trans _ WR); [exact Hm|apply Hk].
Qed.
Lemma does_attempt {A} (m : M S A) : does ρ m -> does ρ (attempt m).
Proof. intros Hm w. specialize (Hm w). unfold attempt. by destruct (m w). Qed.
Lemma does_map_err {A} f (m : M S A) : does ρ m -> does ρ (map_err f m).
Proof. intros Hm w. specialize (Hm w). unfold map_err. by destruct (m w) as [[]]. Qed.
Lemma does_internal {A} t (m : M S A) : does ρ m -> does ρ (internal t m).
Proof. apply does_map_err. Qed.
Lemma does_or_nil {A} (m : M S A) : does ρ m -> does ρ (or_nil m).
Proof.
  intros Hm. apply does_bind; [by apply does_attempt|]. intros [a|e]; [apply does_ret|].
  destruct (errors_Is _ _); [apply does_ret|apply does_throw].
Qed.
Lemma does_for_each {A} (l : list A) (body : A -> M S unit) : (forall x, does ρ (body x)) -> does ρ (for_each l body).
Proof. intros Hb. induction l as [|x l IH]; simpl; [apply does_ret|]. by apply does_bind. Qed.
Lemma does_emit ev : does ρ (emit ev : M S unit).
Proof. by apply does_quiet. Qed.
Lemma does_get_db : does ρ (get_db : M S S).
Proof. intros w. apply (wr_refl _ WR). Qed.

Context {E : Env}.
Lemma does_now : does ρ (now : M S Z).
Proof. apply does_quiet. intros w; simpl; auto. Qed.
Lemma does_Generate : does ρ (Generate : M S Z).
Proof. apply does_quiet. intros w; simpl; auto. Qed.
Lemma does_fault : does ρ (fault : M S bool).
Proof. apply does_quiet. intros w; simpl; auto. Qed.

Context {D : SqlEngine}.
Lemma does_stmt : does ρ (stmt : M S unit).
Proof. apply does_bind; [apply does_fault|]. intros []; [apply does_throw|apply does_ret]. Qed.

Context {A : Type} {HA : Abstract S A} (T : Type) {HE : Entity T} {HT : Tbl S A T HE HA}.
Lemma does_find p : does ρ (find T p).
Proof. apply does_bind; [apply does_stmt|]. intros _. apply does_bind; [apply does_get_db|]. intros s. apply does_ret. Qed.
Lemma does_count p : does ρ (count T p).
Proof. apply does_bind; [apply does_find|]. intros s. apply does_ret. Qed.
Lemma does_take p : does ρ (take T p).
Proof. apply does_bind; [apply does_find|]. intros []; [apply does_throw|apply does_ret]. Qed.
End rules.
End relations.

Create HintDb steps.
#[export] Hint Resolve does_ret does_throw does_of_res does_emit does_now does_Generate does_fault does_get_db
  does_stmt does_find does_count does_take : steps.

(** One rule per construct of the code. *)
Ltac does_auto :=
  repeat (match goal with
  | |- does _ _ => solve [eauto 3 with steps nocore]
  | |- does _ (bind _ _) => apply does_bind; [solve [eauto 1 with steps nocore]| |intros ?]
  | |- does _ (attempt _) => apply does_attempt
  | |- does _ (map_err _ _) => apply does_map_err
  | |- does _ (internal _ _) => apply does_internal
  | |- does _ (for_each _ _) => apply does_for_each; [solve [eauto 1 with steps nocore]|intros ?]
  | |- does _ (or_nil _) => apply does_or_nil; [solve [eauto 1 with steps nocore]|]
  | |- does _ (let (_, _) := ?x in _) => destruct x
  | |- does _ (if ?b then _ else _) => destruct b eqn:?
  | |- does _ (match ?x with _ => _ end) => destruct x eqn:?
  end; cbv beta iota zeta).
