(* ===== verification/RedisStr.v ===== *)
(** * Redis: the cache of typed values, and the commands on strings

    First the cache of the moderation service, then the commands on strings: the part
    of go-redis the user service and the token helpers use, [GET], [SET] with an
    expiry, [DEL], [EXISTS], [INCR], [DECR] and [EXPIRE], as an interface
    [RedisServer] with the documented behaviour of the commands.  A server may evict
    a key at any time, so the laws bound what it still knows from above;
    [RedisKeeps] is a server that forgets nothing before its time.  [gmap_server]
    is an instance of both. *)
From S2P Require Import Prelude GoString GoTime GoMonad.

(** ** Redis and JSON

    The two external formats the capability cache uses, as parameters with the
    documented behaviour the code relies on: [GET]/[SET] with an expiry/[DEL] of the
    go-redis client, where the server may evict a key at any time, and
    [encoding/json] on [map[string]bool].  [gmap_redis] and [list_json] are
    instances. *)

Class JsonMap := {
  jbytes : Type;
  Marshal : gmap string bool -> jbytes;
  Unmarshal : jbytes -> option (gmap string bool);
  Unmarshal_Marshal : forall m, Unmarshal (Marshal m) = Some m;
}.

Class RedisEngine (V : Type) := {
  rstore : Type;
  (** The values a server may still return, with their expiry. *)
  rview : rstore -> gmap string (V * Z);
  rget : Z -> string -> rstore -> option V;
  rset : Z -> string -> V -> Z -> rstore -> rstore;
  rdel : string -> rstore -> rstore;
  rget_spec : forall t k s v, rget t k s = Some v -> exists e, rview s !! k = Some (v, e) /\ (t < e)%Z;
  rset_spec : forall t k v ttl s j x,
    rview (rset t k v ttl s) !! j = Some x -> j = k /\ x = (v, (t + ttl)%Z) \/ j <> k /\ rview s !! j = Some x;
  rdel_spec : forall k s j x, rview (rdel k s) !! j = Some x -> j <> k /\ rview s !! j = Some x;
}.
Arguments rstore {V} RedisEngine.

(** A server that evicts nothing before its time. *)
#[export, refine] Instance gmap_redis V : RedisEngine V := {|
  rstore := gmap string (V * Z);
  rview s := s;
  rget t k s := match s !! k with Some (v, e) => if (t <? e)%Z then Some v else None | None => None end;
  rset t k v ttl s := <[k := (v, (t + ttl)%Z)]> s;
  rdel k s := base.delete k s;
|}.
Proof.
  - intros t k s v. destruct (s !! k) as [[v' e]|]; [|done]. case_bool; [|done]. intros [= ->].
    bools. eauto.
  - intros t k v ttl s j x. destruct (decide (j = k)) as [->|Hne].
    + rewrite lookup_insert_eq. intros [= <-]. auto.
    + rewrite lookup_insert_ne by done. auto.
  - intros k s j x. destruct (decide (j = k)) as [->|Hne].
    + by rewrite lookup_delete_eq.
    + rewrite lookup_delete_ne by done. auto.
Defined.

#[export, refine] Instance list_json : JsonMap := {|
  jbytes := list (string * bool);
  Marshal m := map_to_list m;
  Unmarshal l := Some (list_to_map l);
|}.
Proof. intros m. by rewrite list_to_map_to_list. Defined.

(** Commands: each takes a step, and may fail without effect. *)
Section commands.
Context {E : Env} {S V : Type} {R : RedisEngine V}.
Variable get : S -> rstore R.
Variable set : rstore R -> S -> S.

Definition redis_fault : error := EDriver "redis: connection refused".

(** The client sends whole milliseconds, at least one. *)
Definition redis_ttl (d : Z) : Z :=
  if (d <? GoTime.Millisecond)%Z then GoTime.Millisecond else (d / GoTime.Millisecond * GoTime.Millisecond)%Z.

Definition redis_Get (k : string) : M S (option V) :=
  let! t := now in
  let! f := fault in
  if f then throw redis_fault else let! s := get_db in ret (rget t k (get s)).
Definition redis_Set (k : string) (v : V) (ttl : Z) : M S unit :=
  let! t := now in
  let! f := fault in
  if f then throw redis_fault else let! s := get_db in put_db (set (rset t k v (redis_ttl ttl) (get s)) s).
Definition redis_Del (k : string) : M S unit :=
  let! f := fault in
  if f then throw redis_fault else let! s := get_db in put_db (set (rdel k (get s)) s).
End commands.

(** A value and its expiry; [None] never expires. *)
Notation entry := (string * option Z)%type.
Definition live (t : Z) (x : entry) : bool :=
  match x.2 with Some e => (t <? e)%Z | None => true end.

Class RedisServer := {
  rsrv : Type;
  (** The values the server may still return. *)
  kv : rsrv -> gmap string entry;
  srv_get : Z -> string -> rsrv -> option string;
  srv_set : Z -> string -> string -> option Z -> rsrv -> rsrv;
  srv_del : Z -> string -> rsrv -> rsrv;
  srv_incr : Z -> string -> rsrv -> option (Z * rsrv);
  srv_decr : Z -> string -> rsrv -> option (Z * rsrv);
  srv_expire : Z -> string -> Z -> rsrv -> rsrv;

  srv_get_spec : forall t k s v,
    srv_get t k s = Some v -> exists e, kv s !! k = Some (v, e) /\ live t (v, e) = true;
  srv_set_spec : forall t k v ttl s j x,
    kv (srv_set t k v ttl s) !! j = Some x ->
    j = k /\ x = (v, Z.add t <$> ttl) \/ j <> k /\ kv s !! j = Some x;
  srv_del_spec : forall t k s j x, kv (srv_del t k s) !! j = Some x -> j <> k /\ kv s !! j = Some x;
  srv_incr_spec : forall t k s n s' j x,
    srv_incr t k s = Some (n, s') -> kv s' !! j = Some x ->
    j <> k /\ kv s !! j = Some x \/
    j = k /\ x.1 = GoStr.FormatInt n /\
      (n = 1%Z /\ x.2 = None \/
       exists v m, kv s !! k = Some (v, x.2) /\ GoStr.ParseInt v = Some m /\ n = (m + 1)%Z);
  srv_decr_spec : forall t k s n s' j x,
    srv_decr t k s = Some (n, s') -> kv s' !! j = Some x ->
    j <> k /\ kv s !! j = Some x \/
    j = k /\ x.1 = GoStr.FormatInt n /\
      (n = (-1)%Z /\ x.2 = None \/
       exists v m, kv s !! k = Some (v, x.2) /\ GoStr.ParseInt v = Some m /\ n = (m - 1)%Z);
  srv_expire_spec : forall t k ttl s j x,
    kv (srv_expire t k ttl s) !! j = Some x ->
    j <> k /\ kv s !! j = Some x \/
    j = k /\ exists e, kv s !! k = Some (x.1, e) /\ (x.2 = Some (t + ttl)%Z \/ x.2 = e);
}.

(** Everything but [k] that is live at [t] is still there. *)
Definition retains (t : Z) (k : string) (m m' : gmap string entry) : Prop :=
  forall j x, j <> k -> m !! j = Some x -> live t x = true -> m' !! j = Some x.

Class RedisKeeps (R : RedisServer) : Prop := {
  keep_get : forall t k s v e, kv s !! k = Some (v, e) -> live t (v, e) = true -> srv_get t k s = Some v;
  keep_set : forall t k v ttl s,
    kv (srv_set t k v ttl s) !! k = Some (v, Z.add t <$> ttl) /\ retains t k (kv s) (kv (srv_set t k v ttl s));
  keep_del : forall t k s, retains t k (kv s) (kv (srv_del t k s));
  keep_incr : forall t k s n s',
    srv_incr t k s = Some (n, s') ->
    retains t k (kv s) (kv s') /\
    match srv_get t k s with
    | None => n = 1%Z /\ kv s' !! k = Some ("1", None)
    | Some v => exists m e, GoStr.ParseInt v = Some m /\ n = (m + 1)%Z /\
        kv s !! k = Some (v, e) /\ kv s' !! k = Some (GoStr.FormatInt n, e)
    end;
  keep_decr : forall t k s n s',
    srv_decr t k s = Some (n, s') ->
    retains t k (kv s) (kv s') /\
    match srv_get t k s with
    | None => n = (-1)%Z /\ kv s' !! k = Some ("-1", None)
    | Some v => exists m e, GoStr.ParseInt v = Some m /\ n = (m - 1)%Z /\
        kv s !! k = Some (v, e) /\ kv s' !! k = Some (GoStr.FormatInt n, e)
    end;
  keep_expire : forall t k ttl s,
    retains t k (kv s) (kv (srv_expire t k ttl s)) /\
    (forall v e, kv s !! k = Some (v, e) -> live t (v, e) = true ->
       kv (srv_expire t k ttl s) !! k = Some (v, Some (t + ttl)%Z));
}.

(** ** A server in memory *)
Section gmap_server.
Definition gget (t : Z) (k : string) (s : gmap string entry) : option string :=
  match s !! k with Some x => if live t x then Some x.1 else None | None => None end.
(** [INCR] and [DECR]: a missing key counts as zero. *)
Definition gadd (d t : Z) (k : string) (s : gmap string entry) : option (Z * gmap string entry) :=
  match s !! k with
  | Some x =>
    if live t x then
      match GoStr.ParseInt x.1 with
      | Some m =>
        let n := (m + d)%Z in
        if (- 2 ^ 63 <=? n)%Z && (n <? 2 ^ 63)%Z then Some (n, <[k := (GoStr.FormatInt n, x.2)]> s) else None
      | None => None
      end
    else Some (d, <[k := (GoStr.FormatInt d, None)]> s)
  | None => Some (d, <[k := (GoStr.FormatInt d, None)]> s)
  end.
Definition gexpire (t : Z) (k : string) (ttl : Z) (s : gmap string entry) : gmap string entry :=
  match s !! k with
  | Some x => if live t x then <[k := (x.1, Some (t + ttl)%Z)]> s else s
  | None => s
  end.
End gmap_server.

Lemma lookup_set_cases (k j : string) (x y : entry) (m : gmap string entry) :
  <[k := y]> m !! j = Some x -> j = k /\ x = y \/ j <> k /\ m !! j = Some x.
Proof.
  destruct (decide (j = k)) as [->|Hne].
  - rewrite lookup_insert_eq. intros [= <-]. auto.
  - rewrite lookup_insert_ne by done. auto.
Qed.
Lemma retains_set t k y m : retains t k m (<[k := y]> m).
Proof. intros j x Hj Hx _. by rewrite lookup_insert_ne. Qed.

Lemma gexpire_spec t k ttl (s : gmap string entry) j x :
  gexpire t k ttl s !! j = Some x ->
  j <> k /\ s !! j = Some x \/
  j = k /\ exists e, s !! k = Some (x.1, e) /\ (x.2 = Some (t + ttl)%Z \/ x.2 = e).
Proof.
  unfold gexpire. intros Hx. destruct (decide (j = k)) as [->|Hne].
  - right. split; [done|]. destruct (s !! k) as [[v e]|] eqn:Hk; cbv beta iota in Hx; [|congruence].
    destruct (live t (v, e)); [rewrite lookup_insert_eq in Hx|]; simplify_eq/=; eauto.
  - left. split; [done|]. destruct (s !! k) as [[v e]|]; cbv beta iota in Hx; [|done].
    destruct (live t (v, e)); [|done]. by rewrite lookup_insert_ne in Hx.
Qed.

Lemma gadd_spec d t k (s : gmap string entry) n s' j x :
  gadd d t k s = Some (n, s') -> s' !! j = Some x ->
  j <> k /\ s !! j = Some x \/
  j = k /\ x.1 = GoStr.FormatInt n /\
    (n = d /\ x.2 = None \/
     exists v m, s !! k = Some (v, x.2) /\ GoStr.ParseInt v = Some m /\ n = (m + d)%Z).
Proof.
  unfold gadd. destruct (s !! k) as [[v e]|] eqn:Hk.
  - destruct (live t (v, e)).
    + cbn [fst snd]. destruct (GoStr.ParseInt v) as [m|] eqn:Hm; [|done]. case_bool; [|done].
      intros [= <- <-] [[-> ->]|[]]%lookup_set_cases; [right|by left]. split; [done|]. split; [done|].
      right. exists v, m. auto.
    + intros [= <- <-] [[-> ->]|[]]%lookup_set_cases; [right|by left]. auto.
  - intros [= <- <-] [[-> ->]|[]]%lookup_set_cases; [right|by left]. auto.
Qed.

Lemma gadd_keeps d t k (s : gmap string entry) n s' :
  gadd d t k s = Some (n, s') ->
  retains t k s s' /\
  match gget t k s with
  | None => n = d /\ s' !! k = Some (GoStr.FormatInt d, None)
  | Some v => exists m e, GoStr.ParseInt v = Some m /\ n = (m + d)%Z /\
      s !! k = Some (v, e) /\ s' !! k = Some (GoStr.FormatInt n, e)
  end.
Proof.
  unfold gadd, gget. destruct (s !! k) as [[v e]|] eqn:Hk.
  - destruct (live t (v, e)).
    + cbn [fst snd]. destruct (GoStr.ParseInt v) as [m|] eqn:Hm; [|done]. case_bool; [|done]. intros [= <- <-].
      split; [apply retains_set|]. exists m, e. by rewrite lookup_insert_eq.
    + intros [= <- <-]. split; [apply retains_set|]. by rewrite lookup_insert_eq.
  - intros [= <- <-]. split; [apply retains_set|]. by rewrite lookup_insert_eq.
Qed.

#[export, refine] Instance gmap_server : RedisServer := {|
  rsrv := gmap string entry;
  kv s := s;
  srv_get := gget;
  srv_set t k v ttl s := <[k := (v, Z.add t <$> ttl)]> s;
  srv_del _ k s := base.delete k s;
  srv_incr := gadd 1;
  srv_decr := gadd (-1);
  srv_expire := gexpire;
|}.
Proof.
  - intros t k s v. unfold gget. destruct (s !! k) as [[v' e]|]; [|done].
    destruct (live t (v', e)) eqn:Hl; [|done]. intros [= <-]. eauto.
  - intros t k v ttl s j x Hx. by apply lookup_set_cases.
  - intros t k s j x. destruct (decide (j = k)) as [->|Hne].
    + by rewrite lookup_delete_eq.
    + rewrite lookup_delete_ne by done. auto.
  - intros t k s n s' j x. apply (gadd_spec 1).
  - intros t k s n s' j x. apply (gadd_spec (-1)).
  - intros t k ttl s j x. apply gexpire_spec.
Defined.

#[export] Instance gmap_server_keeps : RedisKeeps gmap_server.
Proof.
  split; simpl.
  - intros t k s v e Hk Hl. unfold gget. by rewrite Hk, Hl.
  - intros t k v ttl s. rewrite lookup_insert_eq. split; [done|]. apply retains_set.
  - intros t k s j x Hj Hx _. by rewrite lookup_delete_ne.
  - intros t k s n s'. apply (gadd_keeps 1).
  - intros t k s n s'. apply (gadd_keeps (-1)).
  - intros t k ttl s. unfold gexpire. split.
    + destruct (s !! k) as [x|]; [destruct (live t x)|]; try apply retains_set; by intros j y.
    + intros v e -> Hl. rewrite Hl. by rewrite lookup_insert_eq.
Qed.

(** ** Commands *)

(** A store that reaches a server. *)
Class HasRedis {R : RedisServer} (S : Type) := {
  redis_of : S -> rsrv;
  set_redis_of : rsrv -> S -> S;
  redis_of_set : forall r s, redis_of (set_redis_of r s) = r;
}.

(** Each command takes a step, and may fail without effect. *)
Section commands.
Context {E : Env} {R : RedisServer} {S : Type} {HR : HasRedis S}.

Definition server_fault : error := EDriver "redis: connection refused".
Definition command {A} (f : Z -> rsrv -> res (A * rsrv)) : M S A :=
  let! t := now in
  let! down := fault in
  if down then throw server_fault
  else
    let! s := get_db in
    match f t (redis_of s) with
    | Ok (a, r) => put_db (set_redis_of r s);; ret a
    | Err e => throw e
    end.

(** The client sends whole milliseconds, at least one; no expiry when [d <= 0]. *)
Definition server_ttl (d : Z) : option Z :=
  if (d <=? 0)%Z then None
  else if (d <? GoTime.Millisecond)%Z then Some GoTime.Millisecond
  else Some (d / GoTime.Millisecond * GoTime.Millisecond)%Z.

(** [GET]; [None] is [redis.Nil]. *)
Definition Get (k : string) : M S (option string) := command (fun t r => Ok (srv_get t k r, r)).
Definition Exists (k : string) : M S Z :=
  command (fun t r => Ok (match srv_get t k r with Some _ => 1%Z | None => 0%Z end, r)).
Definition Set_ (k v : string) (ttl : Z) : M S unit :=
  command (fun t r => Ok (tt, srv_set t k v (server_ttl ttl) r)).
Definition Del (k : string) : M S unit := command (fun t r => Ok (tt, srv_del t k r)).
Definition Incr (k : string) : M S Z :=
  command (fun t r =>
    match srv_incr t k r with
    | Some x => Ok x
    | None => Err (EDriver "ERR value is not an integer or out of range")
    end).
Definition Decr (k : string) : M S Z :=
  command (fun t r =>
    match srv_decr t k r with
    | Some x => Ok x
    | None => Err (EDriver "ERR value is not an integer or out of range")
    end).
(** The client sends whole seconds, at least one. *)
Definition Expire (k : string) (ttl : Z) : M S unit :=
  command (fun t r => Ok (tt, srv_expire t k (Z.max 1 (ttl / GoTime.Second) * GoTime.Second)%Z r)).
End commands.
