(* ===== verification/Mongo.v ===== *)
(** * The document database

    The program reaches MongoDB through the driver.  Neither is part of the
    repository, so the server is a parameter: [MongoServer] is an engine with typed
    collections keyed by [_id], and the interface of [Sql] states what such an engine
    does to the documents.  A collection without unique indexes besides [_id] is
    [no_index].

    On top of it: the operations of the driver as effects of the monad [M]
    ([FindOne], [Find], [CountDocuments], [InsertOne], [UpdateOne] and its upsert,
    [UpdateMany], [DeleteOne], [DeleteMany]), each of which may fail in transport.
    [UpdateOne] picks any matching document, [MatchedCount] and [ModifiedCount] tell
    a document that was found from one that was changed, and [$inc] fails beyond
    [int64] ([inc]). *)
From Stdlib Require Import Ascii Floats.SpecFloat.
From S2P Require Import Prelude GoTime GoMonad Sql GoString.

(** ** ObjectID: the keys of MongoDB documents

    [primitive.ObjectID] of the driver, twelve bytes, as the number below [2 ^ 96]
    that has these bytes, most significant first: the order of the numbers is the
    order in which the server sorts the keys, and the first four bytes are the
    seconds of [Timestamp].  [Hex] and [ObjectIDFromHex] are the printer and the
    parser, with their round trip; the parser also takes upper-case digits. *)

Module ObjectID.
Open Scope Z_scope.

Definition bound : Z := 2 ^ 96.
Definition valid (oid : Z) : Prop := 0 <= oid < bound.
Definition NilObjectID : Z := 0.
Definition IsZero (oid : Z) : bool := oid =? NilObjectID.

(** [encoding/hex] *)
Definition hex_char (d : Z) : ascii := ascii_of_N (Z.to_N (if d <? 10 then 48 + d else 87 + d)).
Definition hex_val (c : ascii) : option Z :=
  let b := GoStr.byte c in
  if (48 <=? b) && (b <=? 57) then Some (b - 48)
  else if (97 <=? b) && (b <=? 102) then Some (b - 87)
  else if (65 <=? b) && (b <=? 70) then Some (b - 55)
  else None.

(** The [n] low hexadecimal digits of [z]. *)
Fixpoint hex_digits (n : nat) (z : Z) (acc : string) : string :=
  match n with
  | O => acc
  | S n => hex_digits n (z / 16) (String (hex_char (z mod 16)) acc)
  end.
Fixpoint parse_hex (acc : Z) (s : string) : option Z :=
  match s with
  | EmptyString => Some acc
  | String c s => match hex_val c with Some d => parse_hex (16 * acc + d) s | None => None end
  end.

Definition Hex (oid : Z) : string := hex_digits 24 oid "".
Definition ObjectIDFromHex (s : string) : option Z :=
  if (String.length s =? 24)%nat then parse_hex 0 s else None.

(** [oid.Timestamp()], in nanoseconds, and [NewObjectIDFromTimestamp]. *)
Definition Timestamp (oid : Z) : Z := oid / 2 ^ 64 * GoTime.Second.
Definition NewObjectIDFromTimestamp (t : Z) : Z := (t / GoTime.Second) mod 2 ^ 32 * 2 ^ 64.

(** ** Printing and parsing *)
Lemma hex_val_char d : 0 <= d < 16 -> hex_val (hex_char d) = Some d.
Proof.
  intros Hd. assert (d ∈ seqZ 0 16) as Hin by (apply elem_of_seqZ; lia).
  revert d Hd Hin. cut (Forall (fun d => hex_val (hex_char d) = Some d) (seqZ 0 16)).
  { intros HF d _ Hin. by eapply Forall_forall in HF. }
  by repeat constructor.
Qed.

Lemma hex_char_graphic d : 0 <= d < 16 -> GoStr.graphic (GoStr.byte (hex_char d)) = true.
Proof.
  intros Hd. assert (d ∈ seqZ 0 16) as Hin by (apply elem_of_seqZ; lia).
  revert d Hd Hin. cut (Forall (fun d => GoStr.graphic (GoStr.byte (hex_char d)) = true) (seqZ 0 16)).
  { intros HF d _ Hin. by eapply Forall_forall in HF. }
  by repeat constructor.
Qed.

Lemma length_hex_digits n z acc : String.length (hex_digits n z acc) = (n + String.length acc)%nat.
Proof. revert z acc. induction n as [|n IH]; intros z acc; [done|]. simpl. rewrite IH. simpl. lia. Qed.

Lemma parse_hex_digits n z a acc :
  0 <= z -> parse_hex a (hex_digits n z acc) = parse_hex (a * 16 ^ Z.of_nat n + z mod 16 ^ Z.of_nat n) acc.
Proof.
  revert z a acc. induction n as [|n IH]; intros z a acc Hz.
  - simpl. f_equal. rewrite Z.mod_1_r. lia.
  - cbn [hex_digits]. rewrite IH by (apply Z.div_pos; lia). cbn [parse_hex].
    rewrite hex_val_char by (apply Z.mod_pos_bound; lia). f_equal.
    rewrite Nat2Z.inj_succ, Z.pow_succ_r by lia.
    rewrite (Z.rem_mul_r z 16) by (try apply Z.pow_pos_nonneg; lia). ring.
Qed.

Lemma ObjectIDFromHex_Hex oid : valid oid -> ObjectIDFromHex (Hex oid) = Some oid.
Proof.
  unfold valid, bound. intros Hv. unfold ObjectIDFromHex, Hex. rewrite length_hex_digits. simpl Nat.eqb.
  rewrite parse_hex_digits by lia. simpl parse_hex. f_equal.
  rewrite Z.mod_small; [done|]. change (16 ^ Z.of_nat 24) with (2 ^ 96). lia.
Qed.

Lemma Hex_inj a b : valid a -> valid b -> Hex a = Hex b -> a = b.
Proof. intros Ha Hb He. apply ObjectIDFromHex_Hex in Ha, Hb. rewrite He in Ha. congruence. Qed.

Lemma hex_val_range c d : hex_val c = Some d -> 0 <= d < 16.
Proof. unfold hex_val. intros H. repeat case_match; bools; simplify_eq; lia. Qed.

Lemma parse_hex_range s a z :
  0 <= a -> parse_hex a s = Some z -> 0 <= z < (a + 1) * 16 ^ Z.of_nat (String.length s).
Proof.
  revert a. induction s as [|c s IH]; intros a Ha; cbn [parse_hex String.length]; [intros [= <-]; simpl; lia|].
  destruct (hex_val c) as [d|] eqn:Hc; [|done]. apply hex_val_range in Hc. intros Hs.
  apply IH in Hs; [|lia]. rewrite Nat2Z.inj_succ, Z.pow_succ_r by lia.
  assert (0 < 16 ^ Z.of_nat (String.length s)) by (apply Z.pow_pos_nonneg; lia). nia.
Qed.

Lemma ObjectIDFromHex_valid s oid : ObjectIDFromHex s = Some oid -> valid oid.
Proof.
  unfold ObjectIDFromHex. destruct (_ =? _)%nat eqn:Hl; [|done]. apply Nat.eqb_eq in Hl. intros Hs.
  apply parse_hex_range in Hs; [|lia]. rewrite Hl in Hs. unfold valid, bound.
  change (16 ^ Z.of_nat 24) with (2 ^ 96) in Hs. lia.
Qed.

Lemma hex_digits_graphic n z acc :
  Forall (fun b => GoStr.graphic b = true) (GoStr.bytes acc) ->
  Forall (fun b => GoStr.graphic b = true) (GoStr.bytes (hex_digits n z acc)).
Proof.
  revert z acc. induction n as [|n IH]; intros z acc Ha; simpl; [done|]. apply IH.
  unfold GoStr.bytes in *. simpl. constructor; [|done]. apply hex_char_graphic, Z.mod_pos_bound. lia.
Qed.

Lemma TrimSpace_Hex oid : GoStr.TrimSpace (Hex oid) = Hex oid.
Proof. apply GoStr.TrimSpace_graphic, hex_digits_graphic. constructor. Qed.

Lemma Hex_nonempty oid : Hex oid <> ""%string.
Proof. intros He. assert (Hl := length_hex_digits 24 oid ""). unfold Hex in He. by rewrite He in Hl. Qed.

Lemma Hex_not_short oid s : (String.length s < 24)%nat -> Hex oid <> s.
Proof. intros Hs <-. unfold Hex in Hs. rewrite length_hex_digits in Hs. simpl in Hs. lia. Qed.
End ObjectID.

(** ** Values of type [any], as [encoding/json] decodes them *)
Inductive json :=
| JNull
| JBool (b : bool)
| JNum (f : spec_float)
| JStr (s : string)
| JArr (l : list json)
| JObj (fields : list (string * json)).

(** The identifiers that the driver and the server draw for new documents. *)
Class ObjectIDs := { new_oid : nat -> Z; new_oid_valid : forall n, ObjectID.valid (new_oid n) }.

Definition NewObjectID {O : ObjectIDs} {S} : M S Z := fun w => (Ok (new_oid (w_tick w)), bump w).

Class MongoServer := mongo_engine : SqlEngine.

(** A store with a collection of [R]. *)
Class Coll {G : MongoServer} (S A R : Type) (HE : Entity R) (HA : Abstract S A) :=
  coll_tbl : @Tbl mongo_engine S A R HE HA.
Class NoIndex (R : Type) (HE : Entity R) := { no_index : forall r r' : R, ent_clash r r' = false }.

Definition no_documents_text : string := "mongo: no documents in result".
Definition ErrNoDocuments : error := ENew no_documents_text.
(** The server refuses an update it cannot apply. *)
Definition ErrUpdate : error := EDriver "Failed to apply $inc operations to current value".

(** [$inc] on an [int64] field, which is created when it is missing. *)
Definition inc_int (delta n : Z) : option Z :=
  let v := (n + delta)%Z in
  if ((- 2 ^ 63 <=? v) && (v <? 2 ^ 63))%Z then Some v else None.
Definition inc (delta : Z) (n : option Z) : option (option Z) := Some <$> inc_int delta (default 0%Z n).

Lemma inc_int_some delta n v : inc_int delta n = Some v -> v = (n + delta)%Z.
Proof. unfold inc_int. case_match; naive_solver. Qed.
Lemma inc_some delta n v : inc delta n = Some v -> v = Some (default 0 n + delta)%Z.
Proof. unfold inc. intros (x & Hx & ->)%fmap_Some. by rewrite (inc_int_some _ _ _ Hx). Qed.

(** [$addToSet] and [$pull] on an array of strings. *)
Definition addToSet (x : string) (l : list string) : list string :=
  if bool_decide (x ∈ l) then l else (l ++ [x])%list.
Definition pull (x : string) (l : list string) : list string :=
  base.filter (fun y => y <> x) l.

(** [UpdateResult] *)
Record UpdateResult := mkUpdateResult { MatchedCount : Z; ModifiedCount : Z; UpsertedCount : Z }.

(** [if errors.Is(err, mongo.ErrNoDocuments) { return nil, nil }], other errors wrapped. *)
Definition doc_or_nil {S A} (text : string) (m : M S A) : M S (option A) :=
  let! r := attempt m in
  match r with
  | Ok a => ret (Some a)
  | Err e => if errors_Is e no_documents_text then ret None else throw (EWrapf text e)
  end.

Section operations.
Context {E : Env} {O : ObjectIDs} {G : MongoServer} {S A : Type} {HA : Abstract S A}.
Context (R : Type) {HE : Entity R} {HC : Coll S A R HE HA}.

Definition cget : S -> @table mongo_engine R HE := @tget mongo_engine S A R HE HA coll_tbl.
Definition cset : @table mongo_engine R HE -> S -> S := @tset mongo_engine S A R HE HA coll_tbl.
(** The documents of the collection, by [_id]. *)
Definition cv (w : World S) : gmap Z R := @vw mongo_engine S A HA R HE coll_tbl w.

Definition Find (p : R -> bool) : M S (list R) := @find E mongo_engine S A HA R HE coll_tbl p.
Definition CountDocuments (p : R -> bool) : M S Z := @count E mongo_engine S A HA R HE coll_tbl p.
Definition FindOne (p : R -> bool) : M S R :=
  let! l := Find p in match l with [] => throw ErrNoDocuments | r :: _ => ret r end.

(** [FindOne] with a sort. *)
Definition FindFirst (p : R -> bool) (sort : list R -> list R) : M S R :=
  let! l := Find p in match sort l with [] => throw ErrNoDocuments | r :: _ => ret r end.

(** [Find] with sort, skip and limit; the server refuses a negative skip. *)
Definition FindPage (p : R -> bool) (sort : list R -> list R) (skip limit : Z) : M S (list R) :=
  if (skip <? 0)%Z then throw (EDriver "BadValue: Skip value must be non-negative")
  else let! l := Find p in ret (page skip limit (sort l)).

Definition InsertOne (r : R) : M S unit := @insert E mongo_engine S A HA R HE coll_tbl r.
Definition DeleteMany (p : R -> bool) : M S Z := @delete E mongo_engine S A HA R HE coll_tbl p.

Definition mongo_stmt : M S unit := @stmt E mongo_engine S.

(** Put [r'] in the place of the document [r]. *)
Definition replace (r r' : R) : M S unit :=
  let! s := get_db in
  match @upd mongo_engine R HE (byid (ent_id r) (fun _ => true)) (fun _ => r') (cget s) with
  | Some (t, _) => put_db (cset t s)
  | None => throw (EDriver (@dup_text mongo_engine))
  end.

(** Put a new document in the collection. *)
Definition insert_doc (r : R) : M S unit :=
  let! s := get_db in
  match @ins mongo_engine R HE r (cget s) with
  | Some t => put_db (cset t s)
  | None => throw (EDriver (@dup_text mongo_engine))
  end.

Context `{EqDecision R}.

Definition changed_one (r r' : R) : UpdateResult :=
  mkUpdateResult 1 (if decide (r' = r) then 0 else 1) 0.

(** [UpdateOne] without upsert; [f] is [None] where an operator of the update cannot be applied. *)
Definition UpdateOne (p : R -> bool) (f : R -> option R) : M S UpdateResult :=
  mongo_stmt;; let! s := get_db in
  match @sel mongo_engine R HE p (cget s) with
  | [] => ret (mkUpdateResult 0 0 0)
  | r :: _ =>
    match f r with
    | Some r' => replace r r';; ret (changed_one r r')
    | None => throw ErrUpdate
    end
  end.
Definition UpdateByID (id : Z) (f : R -> option R) : M S UpdateResult := UpdateOne (byid id (fun _ => true)) f.

(** With upsert, a new document when none matches. *)
Definition Upsert (p : R -> bool) (f : R -> option R) (new : Z -> R) : M S UpdateResult :=
  mongo_stmt;; let! s := get_db in
  match @sel mongo_engine R HE p (cget s) with
  | [] => let! id := NewObjectID in insert_doc (new id);; ret (mkUpdateResult 0 0 1)
  | r :: _ =>
    match f r with
    | Some r' => replace r r';; ret (changed_one r r')
    | None => throw ErrUpdate
    end
  end.

Definition UpdateMany (p : R -> bool) (f : R -> R) : M S UpdateResult :=
  mongo_stmt;; let! s := get_db in
  let rows := @sel mongo_engine R HE p (cget s) in
  match @upd mongo_engine R HE p f (cget s) with
  | Some (t, _) =>
    put_db (cset t s);;
    ret (mkUpdateResult (Z.of_nat (length rows)) (Z.of_nat (length (base.filter (fun r => f r <> r) rows))) 0)
  | None => throw (EDriver (@dup_text mongo_engine))
  end.

(** [FindOneAndUpdate] with a sort. *)
Definition FindOneAndUpdate (p : R -> bool) (sort : list R -> list R) (f : R -> R) : M S R :=
  mongo_stmt;; let! s := get_db in
  match sort (@sel mongo_engine R HE p (cget s)) with
  | [] => throw ErrNoDocuments
  | r :: _ => replace r (f r);; ret r
  end.

Definition DeleteOne (p : R -> bool) : M S Z :=
  mongo_stmt;; let! s := get_db in
  match @sel mongo_engine R HE p (cget s) with
  | [] => ret 0%Z
  | r :: _ =>
    let (t, _) := @del mongo_engine R HE (byid (ent_id r) (fun _ => true)) (cget s) in
    put_db (cset t s);; ret 1%Z
  end.
End operations.

(** ** Rules *)
Section rules.
Context {E : Env} {O : ObjectIDs} {G : MongoServer} {S A : Type} {HA : Abstract S A}.
Context (R : Type) {HE : Entity R} {HC : Coll S A R HE HA}.

Definition mongo_down : error := EDriver (@infra_text mongo_engine).
Definition duplicate_key : error := EDriver (@dup_text mongo_engine).

(** The world after an operation that leaves the documents [m] in the collection. *)
Definition docs_are (m : gmap Z R) (w w' : World S) : Prop :=
  abs (w_db w') = @aset mongo_engine S A R HE HA coll_tbl m (abs (w_db w)) /\
  w_out w' = w_out w /\ w_tick w' = Datatypes.S (w_tick w).

Lemma cv_key w k r : cv R w !! k = Some r -> ent_id r = k.
Proof. apply vw_key. Qed.
Lemma cv_self w k r : cv R w !! k = Some r -> cv R w !! ent_id r = Some r.
Proof. intros Hk. by rewrite (cv_key w k r Hk). Qed.

Lemma wp_NewObjectID (Q : res Z -> World S -> Prop) w :
  ObjectID.valid (new_oid (w_tick w)) -> Q (Ok (new_oid (w_tick w))) (bump w) -> wp NewObjectID Q w.
Proof. done. Qed.

Lemma wp_mongo_stmt (Q : res unit -> World S -> Prop) w :
  (env_fault (w_tick w) = true -> Q (Err mongo_down) (bump w)) -> Q (Ok tt) (bump w) -> wp mongo_stmt Q w.
Proof. apply wp_stmt. Qed.

Lemma wp_Find p (Q : res (list R) -> World S -> Prop) w :
  (env_fault (w_tick w) = true -> Q (Err mongo_down) (bump w)) ->
  (forall l, l ≡ₚ (map_to_list (matching p (cv R w))).*2 -> Q (Ok l) (bump w)) -> wp (Find R p) Q w.
Proof. apply wp_find. Qed.

Lemma wp_CountDocuments p (Q : res Z -> World S -> Prop) w :
  (env_fault (w_tick w) = true -> Q (Err mongo_down) (bump w)) ->
  Q (Ok (amount p (cv R w))) (bump w) -> wp (CountDocuments R p) Q w.
Proof. apply wp_count. Qed.

(** The documents a query may return. *)
Lemma found_some p w l r :
  l ≡ₚ (map_to_list (matching p (cv R w))).*2 -> r ∈ l -> cv R w !! ent_id r = Some r /\ p r = true.
Proof.
  intros Hl Hr. rewrite Hl in Hr. apply list_elem_of_fmap in Hr as ([k r'] & -> & Hin). simpl.
  apply elem_of_map_to_list, lookup_matching in Hin as [Hk Hp]. split; [by eapply cv_self|done].
Qed.
Lemma found_none p w k r :
  [] ≡ₚ (map_to_list (matching p (cv R w))).*2 -> cv R w !! k = Some r -> p r = false.
Proof.
  intros Hl Hk. destruct (p r) eqn:Hp; [|done].
  assert (Hin : (k, r) ∈ map_to_list (matching p (cv R w))) by (by apply elem_of_map_to_list, lookup_matching).
  apply (list_elem_of_fmap_2 snd) in Hin. simpl in Hin. rewrite <- Hl in Hin. by apply not_elem_of_nil in Hin.
Qed.

Lemma wp_FindOne p (Q : res R -> World S -> Prop) w :
  (env_fault (w_tick w) = true -> Q (Err mongo_down) (bump w)) ->
  ((forall k r, cv R w !! k = Some r -> p r = false) -> Q (Err ErrNoDocuments) (bump w)) ->
  (forall r, cv R w !! ent_id r = Some r -> p r = true -> Q (Ok r) (bump w)) ->
  wp (FindOne R p) Q w.
Proof.
  intros Hf Hnf Hok. unfold FindOne. wp_step. apply wp_Find; [done|]. intros [|r l] Hl; wp_step.
  - apply Hnf. intros k r. by apply found_none.
  - destruct (found_some _ _ _ r Hl) as [Hk Hp]; [left|]. by apply Hok.
Qed.

Lemma wp_FindOne_byid k q (Q : res R -> World S -> Prop) w :
  (env_fault (w_tick w) = true -> Q (Err mongo_down) (bump w)) ->
  ((forall r, cv R w !! k = Some r -> q r = false) -> Q (Err ErrNoDocuments) (bump w)) ->
  (forall r, cv R w !! k = Some r -> q r = true -> Q (Ok r) (bump w)) ->
  wp (FindOne R (byid k q)) Q w.
Proof.
  intros Hf Hnf Hok. apply wp_FindOne; [done| |].
  - intros H. apply Hnf. intros r Hk. specialize (H _ _ Hk). unfold byid in H.
    by rewrite (cv_key _ _ _ Hk), Z.eqb_refl in H.
  - intros r Hk [<- Hq]%byid_key. by apply Hok.
Qed.

Context {NI : NoIndex R HE}.

Lemma wp_InsertOne r (Q : res unit -> World S -> Prop) w :
  (env_fault (w_tick w) = true -> Q (Err mongo_down) (bump w)) ->
  (is_Some (cv R w !! ent_id r) -> Q (Err duplicate_key) (bump w)) ->
  (forall w', docs_are (<[ent_id r := r]> (cv R w)) w w' -> cv R w !! ent_id r = None -> Q (Ok tt) w') ->
  wp (InsertOne R r) Q w.
Proof.
  intros Hf Hd Hok. apply wp_insert; [done| |].
  - intros [Hs|(k & r' & _ & [Hc|Hc])]; [by apply Hd| |]; by rewrite no_index in Hc.
  - intros w' Hw Hn _. by apply Hok.
Qed.

Lemma wp_DeleteMany p (Q : res Z -> World S -> Prop) w :
  (env_fault (w_tick w) = true -> Q (Err mongo_down) (bump w)) ->
  (forall w', docs_are (matching (fun r => negb (p r)) (cv R w)) w w' ->
     Q (Ok (amount p (cv R w))) w') ->
  wp (DeleteMany R p) Q w.
Proof. apply wp_delete. Qed.

(** Replacing a document by one with the same key. *)
Lemma wp_replace r r' (Q : res unit -> World S -> Prop) w :
  ent_id r' = ent_id r -> cv R w !! ent_id r = Some r ->
  (forall s, abs s = @aset mongo_engine S A R HE HA coll_tbl (<[ent_id r := r']> (cv R w)) (abs (w_db w)) ->
     Q (Ok tt) (with_db s w)) ->
  wp (replace R r r') Q w.
Proof.
  intros Hid Hk HQ. unfold replace. wp_step. wp_step.
  pose proof (@upd_spec mongo_engine R HE (byid (ent_id r) (fun _ => true)) (fun _ => r') (cget R (w_db w))) as Hs.
  assert (Hkey : forall x, byid (ent_id r) (fun _ => true) x = true -> ent_id r' = ent_id x).
  { intros x [Hx _]%byid_key. congruence. }
  specialize (Hs Hkey). unfold cget in *. rewrite <- abs_get in Hs. change (aget (abs (w_db w))) with (cv R w) in Hs.
  rewrite (upd_view_byid (cv R w) (cv_key w)), (update_at_hit _ _ _ _ r Hk eq_refl) in Hs. cbv beta iota.
  destruct (@upd mongo_engine R HE _ _ _) as [[t n]|].
  - destruct Hs as [Hv _]. wp_step. apply HQ. unfold cset. by rewrite abs_set, Hv.
  - destruct Hs as (k1 & k2 & r1 & r2 & _ & _ & _ & Hc). by rewrite no_index in Hc.
Qed.

Context `{EqDecision R}.

Lemma wp_UpdateOne p f (Q : res UpdateResult -> World S -> Prop) w :
  (forall r r', f r = Some r' -> ent_id r' = ent_id r) ->
  (env_fault (w_tick w) = true -> Q (Err mongo_down) (bump w)) ->
  ((forall k r, cv R w !! k = Some r -> p r = false) -> Q (Ok (mkUpdateResult 0 0 0)) (bump w)) ->
  (forall r, cv R w !! ent_id r = Some r -> p r = true -> f r = None -> Q (Err ErrUpdate) (bump w)) ->
  (forall r r' w', cv R w !! ent_id r = Some r -> p r = true -> f r = Some r' ->
     docs_are (<[ent_id r := r']> (cv R w)) w w' -> Q (Ok (changed_one R r r')) w') ->
  wp (UpdateOne R p f) Q w.
Proof.
  intros Hid Hf Hno Hbad Hok. unfold UpdateOne. wp_step. apply wp_mongo_stmt; [done|]. wp_step. wp_step.
  pose proof (@sel_spec mongo_engine R HE p (cget R (w_db (bump w)))) as Hs.
  unfold cget in *. rewrite <- abs_get in Hs. change (aget (abs (w_db (bump w)))) with (cv R w) in Hs. cbv beta iota.
  destruct (@sel mongo_engine R HE p _) as [|r l]; [wp_step; apply Hno; intros k r; by apply found_none|].
  destruct (found_some _ _ _ r Hs) as [Hk Hp]; [left|].
  destruct (f r) as [r'|] eqn:Hfr; [|wp_step; by apply (Hbad r)].
  wp_step. apply wp_replace; [eauto|done|]. intros s Hab. cbv beta iota. wp_step.
  by eapply Hok.
Qed.

Lemma wp_UpdateOne_byid k q f (Q : res UpdateResult -> World S -> Prop) w :
  (forall r r', f r = Some r' -> ent_id r' = ent_id r) ->
  (env_fault (w_tick w) = true -> Q (Err mongo_down) (bump w)) ->
  ((forall r, cv R w !! k = Some r -> q r = false) -> Q (Ok (mkUpdateResult 0 0 0)) (bump w)) ->
  (forall r, cv R w !! k = Some r -> q r = true -> f r = None -> Q (Err ErrUpdate) (bump w)) ->
  (forall r r' w', cv R w !! k = Some r -> q r = true -> f r = Some r' ->
     docs_are (<[k := r']> (cv R w)) w w' -> Q (Ok (changed_one R r r')) w') ->
  wp (UpdateOne R (byid k q) f) Q w.
Proof.
  intros Hid Hf Hno Hbad Hok. apply wp_UpdateOne; [done|done| | |].
  - intros Hn. apply Hno. intros r Hk. specialize (Hn _ _ Hk). unfold byid in Hn.
    by rewrite (cv_key _ _ _ Hk), Z.eqb_refl in Hn.
  - intros r Hk [<- Hq]%byid_key. by apply (Hbad r).
  - intros r r' w' Hk [<- Hq]%byid_key. by apply Hok.
Qed.

Lemma wp_Upsert p f new (Q : res UpdateResult -> World S -> Prop) w :
  (forall r r', f r = Some r' -> ent_id r' = ent_id r) ->
  (env_fault (w_tick w) = true -> Q (Err mongo_down) (bump w)) ->
  ((forall k r, cv R w !! k = Some r -> p r = false) ->
     (forall id w', is_Some (cv R w !! ent_id (new id)) -> w_db w' = w_db w -> w_out w' = w_out w -> Q (Err duplicate_key) w') /\
     forall id w', ObjectID.valid id -> cv R w !! ent_id (new id) = None ->
       abs (w_db w') = @aset mongo_engine S A R HE HA coll_tbl (<[ent_id (new id) := new id]> (cv R w)) (abs (w_db w)) ->
       w_out w' = w_out w -> Q (Ok (mkUpdateResult 0 0 1)) w') ->
  (forall r, cv R w !! ent_id r = Some r -> p r = true -> f r = None -> Q (Err ErrUpdate) (bump w)) ->
  (forall r r' w', cv R w !! ent_id r = Some r -> p r = true -> f r = Some r' ->
     docs_are (<[ent_id r := r']> (cv R w)) w w' -> Q (Ok (changed_one R r r')) w') ->
  wp (Upsert R p f new) Q w.
Proof.
  intros Hid Hf Hno Hbad Hok. unfold Upsert. wp_step. apply wp_mongo_stmt; [done|]. wp_step. wp_step.
  pose proof (@sel_spec mongo_engine R HE p (cget R (w_db (bump w)))) as Hs.
  unfold cget in *. rewrite <- abs_get in Hs. change (aget (abs (w_db (bump w)))) with (cv R w) in Hs. cbv beta iota.
  destruct (@sel mongo_engine R HE p _) as [|r l].
  - destruct Hno as [Hdup Hnew]; [intros k r; by apply found_none|].
    wp_step. set (id := new_oid (w_tick (bump w))). unfold wp at 1, NewObjectID. cbn [fst snd]. cbv beta iota. fold id.
    unfold insert_doc. do 3 wp_step. unfold cget.
    pose proof (@ins_spec mongo_engine R HE (new id) (@tget mongo_engine S A R HE HA coll_tbl (w_db w))) as Hi.
    rewrite <- abs_get in Hi. change (aget (abs (w_db w))) with (cv R w) in Hi. simpl w_db.
    destruct (@ins mongo_engine R HE _ _) as [t|]; wp_step; cbv beta iota.
    + wp_step. destruct Hi as [Hn Hv]. eapply (Hnew id); [apply new_oid_valid|done| |done].
      simpl. unfold cset. by rewrite abs_set, Hv.
    + destruct Hi as [Hs'|(k & r' & _ & [Hc|Hc])]; [by eapply Hdup| |]; by rewrite no_index in Hc.
  - destruct (found_some _ _ _ r Hs) as [Hk Hp]; [left|].
    destruct (f r) as [r'|] eqn:Hfr; [|wp_step; by apply (Hbad r)].
    wp_step. apply wp_replace; [eauto|done|]. intros s Hab. cbv beta iota. wp_step. by eapply Hok.
Qed.

Lemma wp_UpdateMany p f (Q : res UpdateResult -> World S -> Prop) w :
  (forall r, p r = true -> ent_id (f r) = ent_id r) ->
  (env_fault (w_tick w) = true -> Q (Err mongo_down) (bump w)) ->
  (forall u w', docs_are (upd_view p f (cv R w)) w w' -> Q (Ok u) w') ->
  wp (UpdateMany R p f) Q w.
Proof.
  intros Hid Hf Hok. unfold UpdateMany. wp_step. apply wp_mongo_stmt; [done|]. wp_step. wp_step. cbv beta iota zeta.
  pose proof (@upd_spec mongo_engine R HE p f (cget R (w_db (bump w))) Hid) as Hs.
  unfold cget in *. rewrite <- abs_get in Hs. change (aget (abs (w_db (bump w)))) with (cv R w) in Hs.
  destruct (@upd mongo_engine R HE p f _) as [[t n]|].
  - destruct Hs as [Hv _]. wp_step. wp_step. cbv beta iota. wp_step. apply Hok. unfold docs_are, cset. simpl.
    by rewrite abs_set, Hv.
  - destruct Hs as (k1 & k2 & r1 & r2 & _ & _ & _ & Hc). by rewrite no_index in Hc.
Qed.

Lemma wp_DeleteOne_byid k (Q : res Z -> World S -> Prop) w :
  (env_fault (w_tick w) = true -> Q (Err mongo_down) (bump w)) ->
  (cv R w !! k = None -> Q (Ok 0%Z) (bump w)) ->
  (forall r w', cv R w !! k = Some r -> docs_are (base.delete k (cv R w)) w w' -> Q (Ok 1%Z) w') ->
  wp (DeleteOne R (byid k (fun _ => true))) Q w.
Proof.
  intros Hf Hno Hok. unfold DeleteOne. wp_step. apply wp_mongo_stmt; [done|]. wp_step. wp_step.
  pose proof (@sel_spec mongo_engine R HE (byid k (fun _ => true)) (cget R (w_db (bump w)))) as Hs.
  unfold cget in *. rewrite <- abs_get in Hs. change (aget (abs (w_db (bump w)))) with (cv R w) in Hs. cbv beta iota.
  destruct (@sel mongo_engine R HE _ _) as [|r l].
  - wp_step. apply Hno. destruct (cv R w !! k) as [r|] eqn:Hk; [|done].
    pose proof (found_none _ _ _ _ Hs Hk) as Hp. unfold byid in Hp. by rewrite (cv_key _ _ _ Hk), Z.eqb_refl in Hp.
  - destruct (found_some _ _ _ r Hs) as [Hk [<- _]%byid_key]; [left|].
    pose proof (@del_spec mongo_engine R HE (byid (ent_id r) (fun _ => true)) (@tget mongo_engine S A R HE HA coll_tbl (w_db (bump w)))) as [Hv _].
    rewrite <- abs_get in Hv. change (aget (abs (w_db (bump w)))) with (cv R w) in Hv.
    destruct (@del mongo_engine R HE _ _) as [t n]. simpl in Hv. wp_step. wp_step. cbv beta iota. wp_step.
    apply (Hok r); [done|]. unfold docs_are, cset. simpl. rewrite abs_set, Hv. split; [|done]. f_equal.
    apply map_eq. intros j. apply option_eq. intros x. rewrite lookup_matching, lookup_delete_Some. unfold byid.
    rewrite andb_true_r, negb_true_iff, Z.eqb_neq. split; intros [H1 H2]; split; try done; pose proof (cv_key w j x); naive_solver.
Qed.
End rules.

(** ** Collections with unique indexes

    An update that leaves the indexed fields alone never fails on an index. *)
Section indexed.
Context {E : Env} {G : MongoServer} {S A : Type} {HA : Abstract S A}.
Context (R : Type) {HE : Entity R} {HC : Coll S A R HE HA}.

(** The same key and the same conflicts. *)
Definition same_index (r r' : R) : Prop :=
  ent_id r' = ent_id r /\ forall x, ent_clash r' x = ent_clash r x /\ ent_clash x r' = ent_clash x r.

Lemma upd_same_index p (f : R -> R) (t : @table mongo_engine R HE) :
  (forall r, p r = true -> @view mongo_engine R HE t !! ent_id r = Some r -> same_index r (f r)) ->
  (forall r, p r = true -> ent_id (f r) = ent_id r) ->
  exists t' n, @upd mongo_engine R HE p f t = Some (t', n) /\ @view mongo_engine R HE t' = upd_view p f (@view mongo_engine R HE t).
Proof.
  intros Hf Hid. pose proof (@upd_spec mongo_engine R HE p f t Hid) as Hs.
  destruct (@upd mongo_engine R HE p f t) as [[t' n]|]; [destruct Hs as [Hv _]; eauto|exfalso].
  destruct Hs as (k1 & k2 & r1 & r2 & Hne & H1 & H2 & Hc). rewrite lookup_upd_view in H1, H2.
  apply fmap_Some in H1 as (x1 & H1 & ->), H2 as (x2 & H2 & ->).
  pose proof (@view_unique mongo_engine R HE t _ _ _ _ H1 H2 Hne) as Hu.
  pose proof (@view_key mongo_engine R HE t _ _ H1) as K1. pose proof (@view_key mongo_engine R HE t _ _ H2) as K2. subst k1 k2.
  destruct (p x1) eqn:P1, (p x2) eqn:P2; try congruence.
  - rewrite (proj1 (proj2 (Hf _ P1 H1) _)), (proj2 (proj2 (Hf _ P2 H2) _)) in Hc. congruence.
  - rewrite (proj1 (proj2 (Hf _ P1 H1) _)) in Hc. congruence.
  - rewrite (proj2 (proj2 (Hf _ P2 H2) _)) in Hc. congruence.
Qed.

Lemma wp_replace_indexed r r' (Q : res unit -> World S -> Prop) w :
  same_index r r' -> cv R w !! ent_id r = Some r ->
  (forall s, abs s = @aset mongo_engine S A R HE HA coll_tbl (<[ent_id r := r']> (cv R w)) (abs (w_db w)) ->
     Q (Ok tt) (with_db s w)) ->
  wp (replace R r r') Q w.
Proof.
  intros Hi Hk HQ. unfold replace. wp_step. wp_step.
  assert (Hself : forall x, byid (ent_id r) (fun _ => true) x = true -> cv R w !! ent_id x = Some x -> x = r).
  { intros x [Hx _]%byid_key Hx'. rewrite Hx in Hx'. congruence. }
  destruct (upd_same_index (byid (ent_id r) (fun _ => true)) (fun _ => r') (cget R (w_db w))) as (t & n & Hu & Hv).
  - unfold cget. rewrite <- abs_get. intros x Hx Hxk. by rewrite (Hself x Hx Hxk).
  - intros x [Hx _]%byid_key. rewrite Hx. apply Hi.
  - rewrite Hu. wp_step. apply HQ. unfold cset, cget in *. rewrite abs_set, Hv, <- abs_get.
    change (aget (abs (w_db w))) with (cv R w). f_equal.
    rewrite (upd_view_byid (cv R w) (vw_key R w)). by rewrite (update_at_hit _ _ _ _ r Hk eq_refl).
Qed.

Lemma wp_FindOneAndUpdate p sort f (Q : res R -> World S -> Prop) w :
  (forall l, sort l ≡ₚ l) -> (forall r, same_index r (f r)) ->
  (env_fault (w_tick w) = true -> Q (Err (mongo_down (G := G))) (bump w)) ->
  Q (Err ErrNoDocuments) (bump w) ->
  (forall r w', cv R w !! ent_id r = Some r -> p r = true -> docs_are R (<[ent_id r := f r]> (cv R w)) w w' -> Q (Ok r) w') ->
  wp (FindOneAndUpdate R p sort f) Q w.
Proof.
  intros Hsort Hf Hdown Hno Hok. unfold FindOneAndUpdate. wp_step. apply wp_mongo_stmt; [done|]. wp_step. wp_step.
  pose proof (@sel_spec mongo_engine R HE p (cget R (w_db (bump w)))) as Hs.
  unfold cget in *. rewrite <- abs_get in Hs. change (aget (abs (w_db (bump w)))) with (cv R w) in Hs. cbv beta iota.
  rewrite <- Hsort in Hs. destruct (sort _) as [|r l]; [by wp_step|].
  destruct (found_some R _ _ _ r Hs) as [Hk Hp]; [left|].
  wp_step. apply wp_replace_indexed; [done|done|]. intros s Hab. cbv beta iota. wp_step. by eapply Hok.
Qed.

Context `{EqDecision R}.
Lemma wp_UpdateOne_indexed p f (Q : res UpdateResult -> World S -> Prop) w :
  (forall r, same_index r (f r)) ->
  (env_fault (w_tick w) = true -> Q (Err (mongo_down (G := G))) (bump w)) ->
  ((forall k r, cv R w !! k = Some r -> p r = false) -> Q (Ok (mkUpdateResult 0 0 0)) (bump w)) ->
  (forall r w', cv R w !! ent_id r = Some r -> p r = true ->
     docs_are R (<[ent_id r := f r]> (cv R w)) w w' -> Q (Ok (changed_one R r (f r))) w') ->
  wp (UpdateOne R p (fun r => Some (f r))) Q w.
Proof.
  intros Hf Hdown Hno Hok. unfold UpdateOne. wp_step. apply wp_mongo_stmt; [done|]. wp_step. wp_step.
  pose proof (@sel_spec mongo_engine R HE p (cget R (w_db (bump w)))) as Hs.
  unfold cget in *. rewrite <- abs_get in Hs. change (aget (abs (w_db (bump w)))) with (cv R w) in Hs. cbv beta iota.
  destruct (@sel mongo_engine R HE p _) as [|r l]; [wp_step; apply Hno; intros k r; by apply found_none|].
  destruct (found_some R _ _ _ r Hs) as [Hk Hp]; [left|].
  wp_step. apply wp_replace_indexed; [done|done|]. intros s Hab. cbv beta iota. wp_step. by eapply Hok.
Qed.

Lemma wp_UpdateMany_indexed p f (Q : res UpdateResult -> World S -> Prop) w :
  (forall r, same_index r (f r)) ->
  (env_fault (w_tick w) = true -> Q (Err (mongo_down (G := G))) (bump w)) ->
  (forall u w', ModifiedCount u = amount (fun r => p r && bool_decide (f r <> r)) (cv R w) ->
     docs_are R (upd_view p f (cv R w)) w w' -> Q (Ok u) w') ->
  wp (UpdateMany R p f) Q w.
Proof.
  intros Hf Hdown Hok. unfold UpdateMany. wp_step. apply wp_mongo_stmt; [done|]. wp_step. wp_step. cbv beta iota zeta.
  pose proof (@sel_spec mongo_engine R HE p (cget R (w_db (bump w)))) as Hs.
  destruct (upd_same_index p f (cget R (w_db (bump w)))) as (t & n & -> & Hv); [intros; apply Hf..|].
  wp_step. wp_step. cbv beta iota. wp_step. unfold docs_are, cset, cget in *. simpl in *.
  rewrite <- abs_get in Hs. change (aget (abs (w_db w))) with (cv R w) in Hs. apply Hok.
  - simpl. unfold cget in *. simpl in *. by rewrite (amount_filter p (fun r => f r <> r) (cv R w) _ Hs).
  - simpl. by rewrite abs_set, Hv, <- abs_get.
Qed.
End indexed.
