(* ===== verification/Token.v ===== *)
(** * Tokens and sessions

    What the two token helpers share: the keys of [internal/platform/rediskey/keys.go]
    (module [RedisKey]), and the JWT library, a parameter, [Jwt].  SHA-1 is a parameter
    too, with the real function as an instance, so that it can be taken free of
    collisions. *)
From Stdlib Require Import Ascii.
From S2P Require Import Prelude GoString GoTime GoMonad GoCrypto RedisStr.

Class Sha1 := { sha1_Sum : string -> list Z }.
#[export] Instance go_sha1 : Sha1 | 10 := {| sha1_Sum := GoHash.sha1_Sum |}.
Definition sha1Hex {H : Sha1} (s : string) : string := GoHash.EncodeToString (sha1_Sum s).

(** HS256 tokens of [golang-jwt]: signing claims with a secret, and at a given time
    parsing a token back into claims, which are the token's own. *)
Class Jwt (C : Type) := {
  SignedString : string -> C -> res string;
  ParseWithClaims : string -> Z -> string -> res C;
  Parse_claims : forall k t k' t' token c c',
    ParseWithClaims k t token = Ok c -> ParseWithClaims k' t' token = Ok c' -> c = c';
}.

(** [jwt.NewNumericDate(t)] keeps whole seconds. *)
Definition NumericDate (t : Z) : Z := (t / GoTime.Second * GoTime.Second)%Z.
Definition minutes (n : Z) : Z := mul64 n GoTime.Minute.

Module RedisKey.
Definition Token (sha1 : string) : string := "campus:token:" ++ sha1.
Definition RefreshToken (sha1 : string) : string := "campus:refresh_token:" ++ sha1.
Definition AdminToken (sha1 : string) : string := "admin:token:" ++ sha1.
Definition AdminRefreshToken (sha1 : string) : string := "admin:refresh_token:" ++ sha1.
Definition AdminSession (adminID : Z) : string := "admin:session:" ++ GoStr.FormatInt adminID.
Definition AdminLoginLock (username : string) : string := "admin:login:lock:" ++ username.
Definition AdminLoginFail (username : string) : string := "admin:login:fail:count:" ++ username.
Definition TokenStatusOK : string := "OK".
Definition TokenStatusUsed : string := "USED".
End RedisKey.
