(* ===== verification/AdminJwt.v ===== *)
(** * Tokens of administrators

    [internal/platform/adminjwt/helper.go]: token pairs bound to a session, their
    verification, the use of a refresh token and the logout.  The helper works on any
    store that reaches a Redis server; a client handle is a boolean, false for nil. *)
From Stdlib Require Import Ascii.
From S2P Require Import Prelude GoString GoTime GoMonad GoCrypto RedisStr Token.

Module AdminJwt.

Definition tokenSubjectAccess : string := "access".
Definition tokenSubjectRefresh : string := "refresh".

Definition token_empty : string := "authorization not found".
Definition token_not_existed : string := "token not existed or expired".
Definition token_invalid : string := "token invalid".
Definition token_used : string := "token already used".
Definition session_invalid : string := "admin session invalid".
Definition user_invalid : string := "token user invalid".
Definition ErrTokenEmpty : error := ENew token_empty.
Definition ErrTokenNotExisted : error := ENew token_not_existed.
Definition ErrTokenInvalid : error := ENew token_invalid.
Definition ErrTokenUsed : error := ENew token_used.
Definition ErrSessionInvalid : error := ENew session_invalid.
Definition ErrUserInvalid : error := ENew user_invalid.
Definition ErrUserNotExisted : error := ENew "user not existed".

Record Claims := mkClaims {
  acl_AdminID : Z;
  acl_UserID : Z;
  acl_Username : string;
  acl_Power : Z;
  acl_SessionID : string;
  acl_Issuer : string;
  acl_Subject : string;
  acl_ExpiresAt : Z;
  acl_IssuedAt : Z;
  acl_ID : string;
}.
Record TokenUser := mkTokenUser {
  atu_AdminID : Z;
  atu_UserID : Z;
  atu_Username : string;
  atu_Power : Z;
  atu_SessionID : string;
}.

(** [config.AdminJWTConfig] *)
Record Config := mkConfig {
  acfg_Secret : string;
  acfg_TokenMinutes : Z;
  acfg_RefreshTokenMinutes : Z;
  acfg_Issue : string;
}.
Record Helper := mkHelper { cfg : Config; rds : bool }.

Definition accessTokenTTL (h : Helper) : Z :=
  if (acfg_TokenMinutes (cfg h) <=? 0)%Z then (60 * GoTime.Minute)%Z else minutes (acfg_TokenMinutes (cfg h)).
Definition refreshTokenTTL (h : Helper) : Z :=
  if (acfg_RefreshTokenMinutes (cfg h) <=? 0)%Z then (48 * GoTime.Hour)%Z
  else minutes (acfg_RefreshTokenMinutes (cfg h)).
Definition redisClient (h : Helper) (client : bool) : bool := client || rds h.
Definition blank (s : string) : bool := String.eqb (GoStr.TrimSpace s) "".

Section helper.
Context {E : Env} {H : Sha1} {J : Jwt Claims} {R : RedisServer} {S : Type} {HR : HasRedis S}.
Implicit Types (h : Helper).

(** The claims [GenerateTokenPair] signs. *)
Definition access_claims h (u : TokenUser) (sessionID : string) (now id : Z) : Claims :=
  mkClaims (atu_AdminID u) (atu_UserID u) (atu_Username u) (atu_Power u) sessionID (acfg_Issue (cfg h))
    tokenSubjectAccess (NumericDate (now + accessTokenTTL h)) (NumericDate now) (GoStr.FormatInt id).
Definition refresh_claims h (c : Claims) (now id : Z) : Claims :=
  {| c with acl_Subject := tokenSubjectRefresh; acl_ExpiresAt := NumericDate (now + refreshTokenTTL h);
            acl_ID := GoStr.FormatInt id |}.

Definition GenerateTokenPair h (u : option TokenUser) : M S (string * string) :=
  match u with
  | None => throw ErrUserNotExisted
  | Some u =>
    if (atu_AdminID u <=? 0)%Z || (atu_UserID u <=? 0)%Z || blank (atu_Username u) then throw ErrUserInvalid
    else
    let sessionID := GoStr.TrimSpace (atu_SessionID u) in
    let! sessionID := if String.eqb sessionID "" then let! id := Generate in ret (GoStr.FormatInt id)
                      else ret sessionID in
    let! t := now in
    let! id := Generate in
    let claims := access_claims h u sessionID t id in
    let! token := map_err (EWrapf "sign token") (of_res (SignedString (acfg_Secret (cfg h)) claims)) in
    let! id := Generate in
    let! refreshToken := map_err (EWrapf "sign refresh token")
      (of_res (SignedString (acfg_Secret (cfg h)) (refresh_claims h claims t id))) in
    (if rds h then
       map_err (EWrapf "save admin token status")
         (Set_ (RedisKey.AdminToken (sha1Hex token)) RedisKey.TokenStatusOK (accessTokenTTL h));;
       map_err (EWrapf "save admin refresh token status")
         (Set_ (RedisKey.AdminRefreshToken (sha1Hex refreshToken)) RedisKey.TokenStatusOK (refreshTokenTTL h));;
       map_err (EWrapf "save admin session")
         (Set_ (RedisKey.AdminSession (atu_AdminID u)) sessionID (refreshTokenTTL h))
     else ret tt);;
    ret (token, refreshToken)
  end.

Definition Parse h (token : string) : M S Claims :=
  let! t := now in
  match ParseWithClaims (acfg_Secret (cfg h)) t token with
  | Err e => throw (ENote ErrTokenInvalid (Bizerr.Error e))
  | Ok claims =>
    if (acl_AdminID claims <=? 0)%Z || (acl_UserID claims <=? 0)%Z || blank (acl_Username claims)
       || blank (acl_SessionID claims) then throw ErrTokenInvalid
    else if negb (String.eqb (GoStr.TrimSpace (acl_Issuer claims)) (GoStr.TrimSpace (acfg_Issue (cfg h))))
    then throw ErrTokenInvalid
    else ret claims
  end.

(** The stored status of a token. *)
Definition check_status (key : string) (checkUsed : bool) : M S unit :=
  let! r := attempt (Get key) in
  match r with
  | Ok None => throw ErrTokenNotExisted
  | Err e => throw (ENote ErrTokenNotExisted (Bizerr.Error e))
  | Ok (Some status) =>
    if checkUsed && String.eqb status RedisKey.TokenStatusUsed then throw ErrTokenUsed else ret tt
  end.
Definition check_session (claims : Claims) : M S unit :=
  let! r := attempt (Get (RedisKey.AdminSession (acl_AdminID claims))) in
  match r with
  | Ok None => throw ErrSessionInvalid
  | Err e => throw (ENote ErrSessionInvalid (Bizerr.Error e))
  | Ok (Some sessionID) =>
    if String.eqb sessionID (acl_SessionID claims) then ret tt else throw ErrSessionInvalid
  end.

Definition parseAndVerify h (token : string) (keyBuilder : string -> string) (subject : string)
    (checkUsed client : bool) : M S Claims :=
  if String.eqb token "" then throw ErrTokenEmpty
  else if negb (length (GoStr.Split "."%char token) =? 3)%nat then throw ErrTokenInvalid
  else
  (if redisClient h client then check_status (keyBuilder (sha1Hex token)) checkUsed else ret tt);;
  let! claims := Parse h token in
  if negb (String.eqb (acl_Subject claims) subject) then throw ErrTokenInvalid
  else
  (if redisClient h client then check_session claims else ret tt);;
  ret claims.

Definition ParseAndVerifyAccess h (token : string) (client : bool) : M S Claims :=
  parseAndVerify h token RedisKey.AdminToken tokenSubjectAccess false client.
Definition ParseAndVerifyRefresh h (token : string) (client : bool) : M S Claims :=
  parseAndVerify h token RedisKey.AdminRefreshToken tokenSubjectRefresh true client.

Definition ConsumeRefreshToken h (token : string) (client : bool) : M S unit :=
  if String.eqb token "" then throw ErrTokenEmpty
  else if negb (redisClient h client) then ret tt
  else
  let key := RedisKey.AdminRefreshToken (sha1Hex token) in
  let! r := map_err (EWrapf "get refresh token status") (Get key) in
  match r with
  | None => throw ErrTokenNotExisted
  | Some status =>
    if String.eqb status RedisKey.TokenStatusUsed then throw ErrTokenUsed
    else map_err (EWrapf "mark admin refresh token used") (Set_ key RedisKey.TokenStatusUsed (refreshTokenTTL h))
  end.

Definition Logout h (adminID : Z) (client : bool) : M S unit :=
  if (adminID <=? 0)%Z then throw ErrUserInvalid
  else if negb (redisClient h client) then ret tt
  else map_err (EWrapf "delete admin session") (Del (RedisKey.AdminSession adminID)).
End helper.
End AdminJwt.
