(* ===== verification/JwtUtil.v ===== *)
(** * Tokens of users

    [internal/platform/jwtutil/helper.go]; as [AdminJwt], without sessions. *)
From Stdlib Require Import Ascii.
From S2P Require Import Prelude GoString GoTime GoMonad GoCrypto RedisStr Token.

Module JwtUtil.

Definition token_empty : string := "authorization not found".
Definition token_not_existed : string := "token not existed or expired".
Definition token_invalid : string := "token invalid".
Definition ErrTokenEmpty : error := ENew token_empty.
Definition ErrTokenNotExisted : error := ENew token_not_existed.
Definition ErrTokenInvalid : error := ENew token_invalid.
Definition ErrTokenUserInvalid : error := ENew "token user invalid".
Definition ErrUserNotExisted : error := ENew "user not existed".

Record Claims := mkClaims {
  ucl_UserID : Z;
  ucl_OpenID : string;
  ucl_Power : Z;
  ucl_AccountType : string;
  ucl_RootUserID : Z;
  ucl_Issuer : string;
  ucl_ExpiresAt : Z;
  ucl_IssuedAt : Z;
  ucl_ID : string;
}.
Record TokenUser := mkTokenUser {
  utu_ID : Z;
  utu_OpenID : string;
  utu_Power : Z;
  utu_AccountType : string;
  utu_RootUserID : Z;
}.

(** [config.JWTConfig] *)
Record Config := mkConfig {
  ucfg_Secret : string;
  ucfg_TokenMinutes : Z;
  ucfg_RefreshTokenMinutes : Z;
  ucfg_Issue : string;
}.
Record Helper := mkHelper { cfg : Config; rds : bool }.

Section helper.
Context {E : Env} {H : Sha1} {J : Jwt Claims} {R : RedisServer} {S : Type} {HR : HasRedis S}.
Implicit Types (h : Helper).

(** The claims [GenerateTokenPair] signs. *)
Definition access_claims h (u : TokenUser) (now id : Z) : Claims :=
  mkClaims (utu_ID u) (utu_OpenID u) (utu_Power u) (utu_AccountType u) (utu_RootUserID u) (ucfg_Issue (cfg h))
    (NumericDate (now + minutes (ucfg_TokenMinutes (cfg h)))) (NumericDate now) (GoStr.FormatInt id).
Definition refresh_claims h (c : Claims) (now id : Z) : Claims :=
  {| c with ucl_ExpiresAt := NumericDate (now + minutes (ucfg_RefreshTokenMinutes (cfg h)));
            ucl_ID := GoStr.FormatInt id |}.

Definition GenerateTokenPair h (u : option TokenUser) : M S (string * string) :=
  match u with
  | None => throw ErrUserNotExisted
  | Some u =>
    if (utu_ID u <=? 0)%Z || (utu_RootUserID u <=? 0)%Z then throw ErrTokenUserInvalid
    else
    let! t := now in
    let! id := Generate in
    let claims := access_claims h u t id in
    let! token := map_err (EWrapf "sign token") (of_res (SignedString (ucfg_Secret (cfg h)) claims)) in
    let! id := Generate in
    let! refreshToken := map_err (EWrapf "sign refresh token")
      (of_res (SignedString (ucfg_Secret (cfg h)) (refresh_claims h claims t id))) in
    (if rds h then
       map_err (EWrapf "save token status")
         (Set_ (RedisKey.Token (sha1Hex token)) RedisKey.TokenStatusOK (minutes (ucfg_TokenMinutes (cfg h))));;
       map_err (EWrapf "save refresh token status")
         (Set_ (RedisKey.RefreshToken (sha1Hex refreshToken)) RedisKey.TokenStatusOK
            (minutes (ucfg_RefreshTokenMinutes (cfg h))))
     else ret tt);;
    ret (token, refreshToken)
  end.

Definition Parse h (token : string) : M S Claims :=
  let! t := now in
  match ParseWithClaims (ucfg_Secret (cfg h)) t token with
  | Err e => throw (ENote ErrTokenInvalid (Bizerr.Error e))
  | Ok claims => ret claims
  end.

Definition ParseAndVerify h (token : string) (client : bool) : M S Claims :=
  if String.eqb token "" then throw ErrTokenEmpty
  else if negb (length (GoStr.Split "."%char token) =? 3)%nat then throw ErrTokenInvalid
  else
  (if client || rds h then
     let! r := attempt (Get (RedisKey.Token (sha1Hex token))) in
     match r with
     | Ok (Some _) => ret tt
     | Ok None => throw (ENote ErrTokenNotExisted "redis: nil")
     | Err e => throw (ENote ErrTokenNotExisted (Bizerr.Error e))
     end
   else ret tt);;
  Parse h token.
End helper.
End JwtUtil.
