(* ===== verification/Platform.v ===== *)
(** * Platform: pages and responses
    [internal/platform/pagination] and [internal/platform/responses]. *)
From S2P Require Import Prelude GoMonad GoString.

(** ** Pages

    [internal/platform/pagination]: page numbers from query parameters and the
    result envelope of the list endpoints. *)

Module Pagination.
Local Open Scope Z_scope.

Record PageResult (T : Type) := mkPageResult {
  pg_Data : list T;
  pg_Current : Z;
  pg_Total : Z;
  pg_Size : Z;
}.
Arguments mkPageResult {T}.
Arguments pg_Data {T}.
Arguments pg_Current {T}.
Arguments pg_Total {T}.
Arguments pg_Size {T}.

Definition NewPageResult {T} (data : list T) (total page size : Z) : PageResult T :=
  let page := if page <=? 0 then 1 else page in
  let size := if size <=? 0 then 15 else size in
  mkPageResult data page total size.

(** [PageSize]: the query parameters, absent or as given. *)
Definition DefaultQuery (q : option string) (d : string) : string :=
  match q with Some v => v | None => d end.

Definition PageSize (page_q size_q : option string) : Z * Z :=
  let page := GoStr.Atoi (DefaultQuery page_q "1") in
  let size := GoStr.Atoi (DefaultQuery size_q "15") in
  let page := if page <=? 0 then 1 else page in
  let size := if size <=? 0 then 15 else size in
  (page, size).

Lemma Atoi_range s : in_int64 (GoStr.Atoi s).
Proof.
  assert (Hs : forall neg t, in_int64 (GoStr.atoi_signed neg t)).
  { intros neg t. unfold GoStr.atoi_signed, in_int64. destruct t; [lia|].
    destruct (GoStr.parse_digits _ _); unfold GoStr.clamp64; lia. }
  unfold GoStr.Atoi. destruct s; [unfold in_int64; lia|]. by repeat case_bool.
Qed.

End Pagination.

(** ** Platform: HTTP responses

    [internal/platform/responses]: the response envelope, its normal forms and the
    mapping of errors to responses.  [write] ends in [ctx.JSON]; the model returns
    the envelope it is given.  The data of a response is left out of the envelope:
    only successes carry any. *)

Module Responses.

Definition StatusContinue : Z := 100.
Definition StatusOK : Z := 200.
Definition StatusMultipleChoices : Z := 300.
Definition HTTPStatusOK : Z := 200.
Definition HTTPStatusBadRequest : Z := 400.
Definition HTTPStatusUnauthorized : Z := 401.
Definition HTTPStatusForbidden : Z := 403.
Definition HTTPStatusNotFound : Z := 404.
Definition HTTPStatusInternalErr : Z := 500.
Definition CodeSuccess : Z := 200.
Definition CodeFail : Z := 400.

Record Response := mkResponse {
  Success_ : bool;
  Code : Z;
  HTTPStatus : Z;
  Msg : string;
  RequestID : string;
}.

Definition normalizeHTTPStatus (code : Z) : Z :=
  if (StatusContinue <=? code)%Z && (code <=? 999)%Z then code else HTTPStatusInternalErr.
Definition normalizeCode (httpStatus : Z) : Z :=
  if (StatusOK <=? httpStatus)%Z && (httpStatus <? StatusMultipleChoices)%Z then CodeSuccess else CodeFail.

Definition New (success : bool) (httpStatus : Z) (message : string) : Response :=
  let normalizedHTTPStatus := normalizeHTTPStatus httpStatus in
  let normalizedCode := normalizeCode normalizedHTTPStatus in
  mkResponse (normalizedCode =? CodeSuccess)%Z normalizedCode normalizedHTTPStatus message "".

Definition withMessage (r : Response) (message : string) : Response :=
  mkResponse (Success_ r) (Code r) (HTTPStatus r) message (RequestID r).

(** What [write] sends; [requestID] is the one found in the context. *)
Definition build (r : Response) (requestID message : string) : Response :=
  let httpStatus := if (HTTPStatus r =? 0)%Z then Code r else HTTPStatus r in
  let httpStatus := normalizeHTTPStatus httpStatus in
  let code := normalizeCode httpStatus in
  mkResponse (code =? CodeSuccess)%Z code httpStatus message requestID.
Definition Resp (r : Response) (requestID : string) : Response := build r requestID (Msg r).

(** ** presets.go *)
Definition Success : Response := New true HTTPStatusOK "成功".
Definition ParamErr : Response := New false HTTPStatusBadRequest "invalid parameters".
Definition BizErr : Response := New false HTTPStatusBadRequest "business error".
Definition Unauthorized : Response := New false HTTPStatusUnauthorized "unauthorized".
Definition Forbidden : Response := New false HTTPStatusForbidden "forbidden".
Definition NotFound : Response := New false HTTPStatusNotFound "not found".
Definition InternalErr : Response := New false HTTPStatusInternalErr "internal error".

(** ** error.go *)

(** [errors.As(err, &be)] *)
Fixpoint errors_As (e : error) : option (Z * string) :=
  match e with
  | EBiz code message _ => Some (code, message)
  | EWrapf _ cause | ENote cause _ => errors_As cause
  | ENew _ | EDriver _ => None
  end.

Definition defaultResponseForStatus (code : Z) : Response :=
  let status := normalizeHTTPStatus code in
  if (status =? HTTPStatusUnauthorized)%Z then Unauthorized
  else if (status =? HTTPStatusForbidden)%Z then Forbidden
  else if (status =? HTTPStatusNotFound)%Z then NotFound
  else if (status =? HTTPStatusInternalErr)%Z then InternalErr
  else BizErr.

Definition FromError (err : option error) : Response :=
  match err with
  | None => Success
  | Some err =>
    match errors_As err with
    | Some (code, message) =>
      let resp := defaultResponseForStatus code in
      if negb (String.eqb (GoStr.TrimSpace message) "") then withMessage resp message else resp
    | None => InternalErr
    end
  end.
Definition Fail (err : error) (requestID : string) : Response := Resp (FromError (Some err)) requestID.

(** ** What is sent *)

(** An envelope the clients can rely on: it is a success exactly when its code is 200
    and its status in the two hundreds. *)
Definition well_formed (r : Response) : Prop :=
  (StatusContinue <= HTTPStatus r <= 999)%Z /\
  Code r = (if Success_ r then CodeSuccess else CodeFail) /\
  (Success_ r = true <-> (StatusOK <= HTTPStatus r < StatusMultipleChoices)%Z).

Lemma normalizeHTTPStatus_range code : (StatusContinue <= normalizeHTTPStatus code <= 999)%Z.
Proof. unfold normalizeHTTPStatus, StatusContinue, HTTPStatusInternalErr. destruct (_ && _) eqn:Hc; bools; lia. Qed.
Lemma normalizeCode_cases s :
  normalizeCode s = CodeSuccess /\ (StatusOK <= s < StatusMultipleChoices)%Z \/
  normalizeCode s = CodeFail /\ ~ (StatusOK <= s < StatusMultipleChoices)%Z.
Proof. unfold normalizeCode. destruct (_ && _) eqn:Hc; bools; [left|right]; (split; [done|]); lia. Qed.

Lemma envelope s message requestID :
  well_formed (mkResponse (normalizeCode (normalizeHTTPStatus s) =? CodeSuccess)%Z
    (normalizeCode (normalizeHTTPStatus s)) (normalizeHTTPStatus s) message requestID).
Proof.
  split; [apply normalizeHTTPStatus_range|]. cbn [Success_ Code HTTPStatus].
  destruct (normalizeCode_cases (normalizeHTTPStatus s)) as [[-> Hr]|[-> Hr]]; (split; [done|]); by split.
Qed.
Lemma New_well_formed success s message : well_formed (New success s message).
Proof. apply envelope. Qed.
Lemma build_well_formed r requestID message : well_formed (build r requestID message).
Proof. apply envelope. Qed.

(** The status of the response to an error. *)
Definition error_status (e : error) : Z :=
  match errors_As e with
  | Some (code, _) =>
    if (code =? 401)%Z || (code =? 403)%Z || (code =? 404)%Z then code
    else if (StatusContinue <=? code)%Z && (code <=? 999)%Z && negb (code =? 500)%Z then HTTPStatusBadRequest
    else HTTPStatusInternalErr
  | None => HTTPStatusInternalErr
  end.
(** Its text. *)
Definition error_text (e : error) : option string :=
  match errors_As e with
  | Some (_, message) => if String.eqb (GoStr.TrimSpace message) "" then None else Some message
  | None => None
  end.

Lemma defaultResponse_status code : HTTPStatus (defaultResponseForStatus code) =
  if (code =? 401)%Z || (code =? 403)%Z || (code =? 404)%Z then code
  else if (StatusContinue <=? code)%Z && (code <=? 999)%Z && negb (code =? 500)%Z then HTTPStatusBadRequest
  else HTTPStatusInternalErr.
Proof.
  unfold defaultResponseForStatus, normalizeHTTPStatus.
  destruct (Z.eqb_spec code 401) as [->|H1]; [done|]. destruct (Z.eqb_spec code 403) as [->|H2]; [done|].
  destruct (Z.eqb_spec code 404) as [->|H3]; [done|]. cbn [orb]. destruct ((_ <=? code)%Z && _) eqn:Hr; cbn [andb].
  - unfold HTTPStatusUnauthorized, HTTPStatusForbidden, HTTPStatusNotFound, HTTPStatusInternalErr.
    rewrite (proj2 (Z.eqb_neq _ _) H1), (proj2 (Z.eqb_neq _ _) H2), (proj2 (Z.eqb_neq _ _) H3).
    by destruct (code =? 500)%Z.
  - done.
Qed.

(** The text of the response to an error that has none of its own, by its status. *)
Definition status_text (status : Z) : string :=
  if (status =? 401)%Z then "unauthorized" else if (status =? 403)%Z then "forbidden"
  else if (status =? 404)%Z then "not found" else if (status =? 500)%Z then "internal error"
  else "business error".
Lemma FromError_answer e :
  HTTPStatus (FromError (Some e)) = error_status e /\
  Msg (FromError (Some e)) = default (status_text (error_status e)) (error_text e).
Proof.
  unfold FromError, error_status, error_text. destruct (errors_As e) as [[code message]|]; [|done].
  assert (HTTPStatus (defaultResponseForStatus code) = error_status (EBiz code message None)) as Hs
    by apply defaultResponse_status.
  split; [destruct (String.eqb _ _); exact Hs|].
  destruct (String.eqb _ _); cbn [negb default Msg withMessage]; [|done]. fold (error_status (EBiz code message None)).
  rewrite <- (defaultResponse_status code). unfold defaultResponseForStatus.
  by repeat (case_match; [done|]).
Qed.

(** C33: an error never reaches a client as a success: the envelope is well formed, says
    failure with code 400 and carries the status of the error.  Its text is the message of
    the outermost business error in the chain of the error or, without one, a fixed text
    for the status: never the text of a wrapped cause or of a driver. *)
Theorem Fail_is_failure e requestID :
  let r := Fail e requestID in
  well_formed r /\ Success_ r = false /\ Code r = CodeFail /\ HTTPStatus r = error_status e /\
  Msg r = default (status_text (error_status e)) (error_text e) /\ RequestID r = requestID.
Proof.
  cbv zeta. destruct (FromError_answer e) as [Hs Ht].
  assert (error_status e <> 0%Z /\ (400 <= error_status e <= 500)%Z) as [Hne Hr].
  { unfold error_status. destruct (errors_As e) as [[code message]|]; [|done].
    destruct ((code =? 401)%Z || _ || _) eqn:Hc; [bools; lia|]. by destruct (_ && _). }
  unfold Fail, Resp, build. rewrite Hs, (proj2 (Z.eqb_neq _ _) Hne).
  split; [apply envelope|]. cbn [Success_ Code HTTPStatus Msg RequestID].
  assert (normalizeHTTPStatus (error_status e) = error_status e) as ->.
  { unfold normalizeHTTPStatus, StatusContinue. destruct (_ && _) eqn:Hc; [done|]. bools; lia. }
  destruct (normalizeCode_cases (error_status e)) as [[_ Hb]|[-> _]]; [unfold StatusOK, StatusMultipleChoices in Hb; lia|].
  done.
Qed.
End Responses.
