(* ===== verification/MarketModel.v ===== *)
(** * Marketplace: data model

    The rows of the marketplace tables ([internal/marketplace/model.go]), the
    status constants as enumerations with the text the columns hold, the unique
    indexes, and the store of the marketplace service with its abstract view. *)
From S2P Require Import Prelude GoTime GoMonad Sql GoString.

Module Market.

(** ** Status columns *)

Inductive CategoryStatus := StatusActive | StatusDisabled.
Inductive ItemStatus :=
  ItemDraft | ItemPublished | ItemReserved | ItemSold | ItemWithdrawn | ItemHidden.
Inductive OrderStatus :=
  OrderPendingPayment | OrderPaid | OrderDelivered | OrderCompleted
| OrderCancelled | OrderRefunded | OrderDisputed.
Inductive RecordStatus := RecordPending | RecordSucceeded | RecordRejected | RecordFailed.
Inductive DisputeStatus := DisputePending | DisputeResolved | DisputeRejected.

#[export] Instance CategoryStatus_eq : EqDecision CategoryStatus.
Proof. solve_decision. Defined.
#[export] Instance ItemStatus_eq : EqDecision ItemStatus.
Proof. solve_decision. Defined.
#[export] Instance OrderStatus_eq : EqDecision OrderStatus.
Proof. solve_decision. Defined.
#[export] Instance RecordStatus_eq : EqDecision RecordStatus.
Proof. solve_decision. Defined.
#[export] Instance DisputeStatus_eq : EqDecision DisputeStatus.
Proof. solve_decision. Defined.

Definition item_status_text (s : ItemStatus) : string :=
  match s with
  | ItemDraft => "draft" | ItemPublished => "published" | ItemReserved => "reserved"
  | ItemSold => "sold" | ItemWithdrawn => "withdrawn" | ItemHidden => "hidden"
  end.

Definition order_status_text (s : OrderStatus) : string :=
  match s with
  | OrderPendingPayment => "pendingPayment" | OrderPaid => "paid"
  | OrderDelivered => "delivered" | OrderCompleted => "completed"
  | OrderCancelled => "cancelled" | OrderRefunded => "refunded"
  | OrderDisputed => "disputed"
  end.

Definition record_status_text (s : RecordStatus) : string :=
  match s with
  | RecordPending => "pending" | RecordSucceeded => "succeeded"
  | RecordRejected => "rejected" | RecordFailed => "failed"
  end.

Definition dispute_status_text (s : DisputeStatus) : string :=
  match s with
  | DisputePending => "pending" | DisputeResolved => "resolved" | DisputeRejected => "rejected"
  end.

Definition DefaultCommissionRateBps : Z := 500.

(** ** Rows *)

Record Category := mkCategory {
  cat_ID : Z;
  cat_Name : string;
  cat_CommissionRateBps : Z;
  cat_Status : CategoryStatus;
  cat_CreatedAt : Z;
  cat_UpdatedAt : Z;
}.

Record Item := mkItem {
  item_ID : Z;
  item_SellerRootUserID : Z;
  item_SellerUserID : Z;
  item_CategoryID : Z;
  item_Title : string;
  item_Description : string;
  item_Condition : string;
  item_PriceCents : Z;
  item_Images : list string;
  item_DeliveryLocation : string;
  item_Status : ItemStatus;
  item_ReservedOrderID : option Z;
  item_CreatedAt : Z;
  item_UpdatedAt : Z;
}.

Record Order := mkOrder {
  ord_ID : Z;
  ord_ItemID : Z;
  ord_BuyerRootUserID : Z;
  ord_BuyerUserID : Z;
  ord_SellerRootUserID : Z;
  ord_Status : OrderStatus;
  ord_PriceCents : Z;
  ord_CommissionRateBps : Z;
  ord_PlatformFeeCents : Z;
  ord_SellerNetCents : Z;
  ord_ExpiresAt : Z;
  ord_PaidAt : option Z;
  ord_DeliveredAt : option Z;
  ord_CompletedAt : option Z;
  ord_CancelledAt : option Z;
  ord_RefundedAt : option Z;
  ord_DisputedAt : option Z;
  ord_CreatedAt : Z;
  ord_UpdatedAt : Z;
}.

Record Payment := mkPayment {
  pay_ID : Z;
  pay_OrderID : Z;
  pay_Gateway : string;
  pay_RequestID : string;
  pay_GatewayTransactionID : option string;
  pay_AmountCents : Z;
  pay_Status : RecordStatus;
  pay_CreatedAt : Z;
  pay_UpdatedAt : Z;
}.

Record Refund := mkRefund {
  rf_ID : Z;
  rf_OrderID : Z;
  rf_RequestedByRootUserID : Z;
  rf_RequestID : string;
  rf_GatewayRefundID : option string;
  rf_AmountCents : Z;
  rf_Reason : string;
  rf_Status : RecordStatus;
  rf_ReviewedBy : option Z;
  rf_ReviewedAt : option Z;
  rf_CreatedAt : Z;
  rf_UpdatedAt : Z;
}.

Record Dispute := mkDispute {
  dp_ID : Z;
  dp_OrderID : Z;
  dp_RaisedByRootUserID : Z;
  dp_PreviousOrderStatus : OrderStatus;
  dp_Reason : string;
  dp_Status : DisputeStatus;
  dp_Resolution : string;
  dp_ResolvedBy : option Z;
  dp_ResolvedAt : option Z;
  dp_CreatedAt : Z;
  dp_UpdatedAt : Z;
}.

Record Settlement := mkSettlement {
  st_ID : Z;
  st_OrderID : Z;
  st_RequestID : string;
  st_GatewaySettlementID : option string;
  st_AmountCents : Z;
  st_Status : RecordStatus;
  st_CreatedAt : Z;
  st_UpdatedAt : Z;
}.

(** Zero values, for an association whose row is missing. *)
Definition zero_Category : Category :=
  mkCategory 0 "" 0 StatusDisabled GoTime.zero_time GoTime.zero_time.
Definition zero_Item : Item :=
  mkItem 0 0 0 0 "" "" "" 0 [] "" ItemDraft None GoTime.zero_time GoTime.zero_time.

(** ** Unique indexes *)

(** Two values of a nullable unique column collide only when both are set. *)
Definition opt_clash (a b : option string) : bool :=
  match a, b with Some x, Some y => String.eqb x y | _, _ => false end.

#[export] Instance Category_entity : Entity Category := {
  ent_id := cat_ID;
  ent_clash a b := String.eqb (cat_Name a) (cat_Name b);
}.
#[export] Instance Item_entity : Entity Item := {
  ent_id := item_ID;
  ent_clash _ _ := false;
}.
#[export] Instance Order_entity : Entity Order := {
  ent_id := ord_ID;
  ent_clash _ _ := false;
}.
#[export] Instance Payment_entity : Entity Payment := {
  ent_id := pay_ID;
  ent_clash a b := String.eqb (pay_RequestID a) (pay_RequestID b)
    || opt_clash (pay_GatewayTransactionID a) (pay_GatewayTransactionID b);
}.
#[export] Instance Refund_entity : Entity Refund := {
  ent_id := rf_ID;
  ent_clash a b := (rf_OrderID a =? rf_OrderID b)%Z
    || String.eqb (rf_RequestID a) (rf_RequestID b)
    || opt_clash (rf_GatewayRefundID a) (rf_GatewayRefundID b);
}.
#[export] Instance Dispute_entity : Entity Dispute := {
  ent_id := dp_ID;
  ent_clash a b := (dp_OrderID a =? dp_OrderID b)%Z;
}.
#[export] Instance Settlement_entity : Entity Settlement := {
  ent_id := st_ID;
  ent_clash a b := (st_OrderID a =? st_OrderID b)%Z
    || String.eqb (st_RequestID a) (st_RequestID b)
    || opt_clash (st_GatewaySettlementID a) (st_GatewaySettlementID b);
}.

(** ** The store *)

Record DB {D : SqlEngine} := mkDB {
  db_nil : bool;
  t_categories : table Category _;
  t_items : table Item _;
  t_orders : table Order _;
  t_payments : table Payment _;
  t_refunds : table Refund _;
  t_disputes : table Dispute _;
  t_settlements : table Settlement _;
}.
Arguments DB : clear implicits.
Arguments DB {D}.

(** The same with each table replaced by its rows. *)
Record State := mkState {
  categories : gmap Z Category;
  items : gmap Z Item;
  orders : gmap Z Order;
  payments : gmap Z Payment;
  refunds : gmap Z Refund;
  disputes : gmap Z Dispute;
  settlements : gmap Z Settlement;
}.

Definition set_categories v s := {| s with categories := v |}.
Definition set_items v s := {| s with items := v |}.
Definition set_orders v s := {| s with orders := v |}.
Definition set_payments v s := {| s with payments := v |}.
Definition set_refunds v s := {| s with refunds := v |}.
Definition set_disputes v s := {| s with disputes := v |}.
Definition set_settlements v s := {| s with settlements := v |}.

Section tables.
Context {D : SqlEngine}.

Definition db_state (s : DB) : State :=
  mkState (view (t_categories s)) (view (t_items s)) (view (t_orders s))
    (view (t_payments s)) (view (t_refunds s)) (view (t_disputes s))
    (view (t_settlements s)).
#[export] Instance DB_abs : Abstract DB State := db_state.

#[export] Instance tbl_categories : Tbl DB State Category _ _.
Proof.
  refine {| tget := t_categories; tset t s := {| s with t_categories := t |};
    aget := categories; aset := set_categories |}; by intros; try destruct a.
Defined.
#[export] Instance tbl_items : Tbl DB State Item _ _.
Proof.
  refine {| tget := t_items; tset t s := {| s with t_items := t |};
    aget := items; aset := set_items |}; by intros; try destruct a.
Defined.
#[export] Instance tbl_orders : Tbl DB State Order _ _.
Proof.
  refine {| tget := t_orders; tset t s := {| s with t_orders := t |};
    aget := orders; aset := set_orders |}; by intros; try destruct a.
Defined.
#[export] Instance tbl_payments : Tbl DB State Payment _ _.
Proof.
  refine {| tget := t_payments; tset t s := {| s with t_payments := t |};
    aget := payments; aset := set_payments |}; by intros; try destruct a.
Defined.
#[export] Instance tbl_refunds : Tbl DB State Refund _ _.
Proof.
  refine {| tget := t_refunds; tset t s := {| s with t_refunds := t |};
    aget := refunds; aset := set_refunds |}; by intros; try destruct a.
Defined.
#[export] Instance tbl_disputes : Tbl DB State Dispute _ _.
Proof.
  refine {| tget := t_disputes; tset t s := {| s with t_disputes := t |};
    aget := disputes; aset := set_disputes |}; by intros; try destruct a.
Defined.
#[export] Instance tbl_settlements : Tbl DB State Settlement _ _.
Proof.
  refine {| tget := t_settlements; tset t s := {| s with t_settlements := t |};
    aget := settlements; aset := set_settlements |}; by intros; try destruct a.
Defined.
End tables.
#[global] Opaque db_state DB_abs.

End Market.

(** ** Marketplace: requests and responses

    [model_req.go] with the validation its [binding] tags ask for, and
    [model_resp.go]: the records sent to clients and their conversions. *)

Module MarketResp.
Import Market.
Local Open Scope Z_scope.

(** ** Requests *)

Record CategoryReq := { creq_Name : string; creq_CommissionRateBps : option Z }.
Record ItemReq := {
  ireq_CategoryID : string;
  ireq_Title : string;
  ireq_Description : string;
  ireq_Condition : string;
  ireq_PriceCents : Z;
  ireq_Images : list string;
  ireq_DeliveryLocation : string;
  ireq_Status : string;
}.
Record CreateOrderReq := { coreq_ItemID : string }.
Record PaymentReq := { preq_RequestID : string }.
Record TestPaymentCallbackReq := {
  cbreq_RequestID : string;
  cbreq_GatewayTransactionID : string;
  cbreq_AmountCents : Z;
}.
Record RefundReq := { rreq_RequestID : string; rreq_Reason : string }.
Record DisputeReq := { dreq_Reason : string }.
Record RefundDecisionReq := { rdreq_Approved : bool }.
Record DisputeDecisionReq := { ddreq_Action : string; ddreq_Resolution : string }.

(** [binding:"required,max=n"] on a text: not empty, at most [n] runes. *)
Definition required (s : string) : bool := negb (String.eqb s "").
Definition required_max (n : Z) (s : string) : bool := required s && (GoStr.RuneCount s <=? n).

Definition valid_CategoryReq (r : CategoryReq) : bool :=
  required_max 64 (creq_Name r)
  && match creq_CommissionRateBps r with
     | Some v => (0 <=? v) && (v <=? 10000)
     | None => true
     end.
Definition valid_ItemReq (r : ItemReq) : bool :=
  required (ireq_CategoryID r) && required_max 128 (ireq_Title r)
  && required_max 5000 (ireq_Description r) && required_max 32 (ireq_Condition r)
  && (1 <=? ireq_PriceCents r)
  && (1 <=? Z.of_nat (length (ireq_Images r))) && (Z.of_nat (length (ireq_Images r)) <=? 9)
  && forallb required (ireq_Images r)
  && required_max 255 (ireq_DeliveryLocation r)
  && (String.eqb (ireq_Status r) "" || String.eqb (ireq_Status r) "draft"
      || String.eqb (ireq_Status r) "published").
Definition valid_CreateOrderReq (r : CreateOrderReq) : bool := required (coreq_ItemID r).
Definition valid_PaymentReq (r : PaymentReq) : bool := required_max 64 (preq_RequestID r).
Definition valid_TestPaymentCallbackReq (r : TestPaymentCallbackReq) : bool :=
  required_max 64 (cbreq_RequestID r) && required_max 128 (cbreq_GatewayTransactionID r)
  && (1 <=? cbreq_AmountCents r).
Definition valid_RefundReq (r : RefundReq) : bool :=
  required_max 64 (rreq_RequestID r) && required_max 255 (rreq_Reason r).
Definition valid_DisputeReq (r : DisputeReq) : bool := required_max 255 (dreq_Reason r).
Definition valid_DisputeDecisionReq (r : DisputeDecisionReq) : bool :=
  (String.eqb (ddreq_Action r) "resume" || String.eqb (ddreq_Action r) "refund")
  && required_max 255 (ddreq_Resolution r).

(** ** Responses *)

Record CategoryResponse := {
  catr_ID : string; catr_Name : string; catr_CommissionRateBps : Z }.
Record ItemResponse := {
  ir_ID : string; ir_SellerRootUserID : string; ir_CategoryID : string;
  ir_CategoryName : string; ir_Title : string; ir_Description : string;
  ir_Condition : string; ir_PriceCents : Z; ir_Images : list string;
  ir_DeliveryLocation : string; ir_Status : string; ir_CreatedAt : string;
  ir_UpdatedAt : string }.
Record OrderResponse := {
  or_ID : string; or_ItemID : string; or_BuyerRootUserID : string;
  or_SellerRootUserID : string; or_Status : string; or_PriceCents : Z;
  or_CommissionRateBps : Z; or_PlatformFeeCents : Z; or_SellerNetCents : Z;
  or_ExpiresAt : string; or_PaidAt : string; or_DeliveredAt : string;
  or_CompletedAt : string; or_CreatedAt : string; or_Item : ItemResponse }.
Record PaymentResponse := {
  pr_OrderID : string; pr_RequestID : string; pr_Gateway : string;
  pr_GatewayTransactionID : string; pr_AmountCents : Z; pr_Status : string }.
Record RefundResponse := {
  rr_ID : string; rr_OrderID : string; rr_RequestID : string; rr_AmountCents : Z;
  rr_Reason : string; rr_Status : string; rr_GatewayRefundID : string; rr_CreatedAt : string }.
Record DisputeResponse := {
  dr_ID : string; dr_OrderID : string; dr_Reason : string; dr_Status : string;
  dr_Resolution : string; dr_CreatedAt : string }.
Record SettlementResponse := {
  sr_ID : string; sr_OrderID : string; sr_RequestID : string; sr_AmountCents : Z;
  sr_Status : string; sr_GatewaySettlementID : string; sr_CreatedAt : string }.

Definition marketplaceID (value : Z) : string := GoStr.FormatInt value.
Definition marketplaceTime (value : Z) : string :=
  if GoTime.IsZero value then "" else GoTime.FormatRFC3339 value.
Definition optionalMarketplaceTime (value : option Z) : string :=
  match value with None => "" | Some t => marketplaceTime t end.
Definition stringValue (value : option string) : string :=
  match value with None => "" | Some v => v end.

Definition categoryResponse (value : Category) : CategoryResponse :=
  {| catr_ID := marketplaceID (cat_ID value); catr_Name := cat_Name value;
     catr_CommissionRateBps := cat_CommissionRateBps value |}.

(** A nil image list and an empty one are the same list here. *)
Definition itemResponse (value : Item * Category) : ItemResponse :=
  let (i, c) := value in
  {| ir_ID := marketplaceID (item_ID i);
     ir_SellerRootUserID := marketplaceID (item_SellerRootUserID i);
     ir_CategoryID := marketplaceID (item_CategoryID i);
     ir_CategoryName := cat_Name c; ir_Title := item_Title i;
     ir_Description := item_Description i; ir_Condition := item_Condition i;
     ir_PriceCents := item_PriceCents i; ir_Images := item_Images i;
     ir_DeliveryLocation := item_DeliveryLocation i;
     ir_Status := item_status_text (item_Status i);
     ir_CreatedAt := marketplaceTime (item_CreatedAt i);
     ir_UpdatedAt := marketplaceTime (item_UpdatedAt i) |}.

Definition orderResponse (value : Order * (Item * Category)) : OrderResponse :=
  let (o, ic) := value in
  {| or_ID := marketplaceID (ord_ID o); or_ItemID := marketplaceID (ord_ItemID o);
     or_BuyerRootUserID := marketplaceID (ord_BuyerRootUserID o);
     or_SellerRootUserID := marketplaceID (ord_SellerRootUserID o);
     or_Status := order_status_text (ord_Status o); or_PriceCents := ord_PriceCents o;
     or_CommissionRateBps := ord_CommissionRateBps o;
     or_PlatformFeeCents := ord_PlatformFeeCents o;
     or_SellerNetCents := ord_SellerNetCents o;
     or_ExpiresAt := marketplaceTime (ord_ExpiresAt o);
     or_PaidAt := optionalMarketplaceTime (ord_PaidAt o);
     or_DeliveredAt := optionalMarketplaceTime (ord_DeliveredAt o);
     or_CompletedAt := optionalMarketplaceTime (ord_CompletedAt o);
     or_CreatedAt := marketplaceTime (ord_CreatedAt o); or_Item := itemResponse ic |}.

Definition paymentResponse (value : Payment) : PaymentResponse :=
  {| pr_OrderID := marketplaceID (pay_OrderID value); pr_RequestID := pay_RequestID value;
     pr_Gateway := pay_Gateway value;
     pr_GatewayTransactionID := stringValue (pay_GatewayTransactionID value);
     pr_AmountCents := pay_AmountCents value;
     pr_Status := record_status_text (pay_Status value) |}.

Definition refundResponse (value : Refund) : RefundResponse :=
  {| rr_ID := marketplaceID (rf_ID value); rr_OrderID := marketplaceID (rf_OrderID value);
     rr_RequestID := rf_RequestID value; rr_AmountCents := rf_AmountCents value;
     rr_Reason := rf_Reason value; rr_Status := record_status_text (rf_Status value);
     rr_GatewayRefundID := stringValue (rf_GatewayRefundID value);
     rr_CreatedAt := marketplaceTime (rf_CreatedAt value) |}.

Definition disputeResponse (value : Dispute) : DisputeResponse :=
  {| dr_ID := marketplaceID (dp_ID value); dr_OrderID := marketplaceID (dp_OrderID value);
     dr_Reason := dp_Reason value; dr_Status := dispute_status_text (dp_Status value);
     dr_Resolution := dp_Resolution value;
     dr_CreatedAt := marketplaceTime (dp_CreatedAt value) |}.

Definition settlementResponse (value : Settlement) : SettlementResponse :=
  {| sr_ID := marketplaceID (st_ID value); sr_OrderID := marketplaceID (st_OrderID value);
     sr_RequestID := st_RequestID value; sr_AmountCents := st_AmountCents value;
     sr_Status := record_status_text (st_Status value);
     sr_GatewaySettlementID := stringValue (st_GatewaySettlementID value);
     sr_CreatedAt := marketplaceTime (st_CreatedAt value) |}.

End MarketResp.
