(* ===== verification/MarketRepo.v ===== *)
(** * Marketplace: the repository

    One definition per method of [internal/marketplace/repository*.go], statement
    by statement: guards in the order of the code, the [WHERE] clauses as
    predicates, the [Updates] maps as row updates, and the same mapping of
    statement errors to the repository's sentinels. *)
From S2P Require Import Prelude GoString GoMonad Sql MarketModel.

Module MarketRepo.
Import Market.

Definition errItemUnavailable : error := ENew "item unavailable".
Definition errOwnItem : error := ENew "cannot buy own item".
Definition errOrderState : error := ENew "invalid order state".
Definition errRefundExists : error := ENew "refund exists".
Definition errDisputeExists : error := ENew "dispute exists".

(** [isUniqueError]: recognise a unique-index violation by its text. *)
Definition isUniqueError (e : error) : bool :=
  let value := GoStr.ToLower (Bizerr.Error e) in
  GoStr.Contains value "unique" || GoStr.Contains value "duplicate".

(** [commissionFee]: all operations on [int64]. *)
Definition commissionFee (priceCents rateBps : Z) : Z :=
  let rate := rateBps in
  add64 (mul64 (go_div priceCents 10000) rate)
        (go_div (mul64 (go_rem priceCents 10000) rate) 10000).

Definition always {R} (_ : R) : bool := true.

(** ** Row updates (the [Updates] maps) *)
Definition order_set_status (st : OrderStatus) (now : Z) (o : Order) : Order :=
  {| o with ord_Status := st; ord_UpdatedAt := now |}.
Definition order_cancel (now : Z) (o : Order) : Order :=
  {| o with ord_Status := OrderCancelled; ord_CancelledAt := Some now; ord_UpdatedAt := now |}.
Definition order_pay (now : Z) (o : Order) : Order :=
  {| o with ord_Status := OrderPaid; ord_PaidAt := Some now; ord_UpdatedAt := now |}.
Definition order_deliver (now : Z) (o : Order) : Order :=
  {| o with ord_Status := OrderDelivered; ord_DeliveredAt := Some now; ord_UpdatedAt := now |}.
Definition order_complete (now : Z) (o : Order) : Order :=
  {| o with ord_Status := OrderCompleted; ord_CompletedAt := Some now; ord_UpdatedAt := now |}.
Definition order_refund (now : Z) (o : Order) : Order :=
  {| o with ord_Status := OrderRefunded; ord_RefundedAt := Some now; ord_UpdatedAt := now |}.
Definition order_dispute (now : Z) (o : Order) : Order :=
  {| o with ord_Status := OrderDisputed; ord_DisputedAt := Some now; ord_UpdatedAt := now |}.
Definition item_set_status (st : ItemStatus) (now : Z) (i : Item) : Item :=
  {| i with item_Status := st; item_UpdatedAt := now |}.
Definition item_release (st : ItemStatus) (now : Z) (i : Item) : Item :=
  {| i with item_Status := st; item_ReservedOrderID := None; item_UpdatedAt := now |}.
Definition item_reserve (oid now : Z) (i : Item) : Item :=
  {| i with item_Status := ItemReserved; item_ReservedOrderID := Some oid; item_UpdatedAt := now |}.

(** The columns [UpdateItem] selects. *)
Definition item_edit (item i : Item) : Item :=
  {| i with
     item_CategoryID := item_CategoryID item; item_Title := item_Title item;
     item_Description := item_Description item; item_Condition := item_Condition item;
     item_PriceCents := item_PriceCents item; item_Images := item_Images item;
     item_DeliveryLocation := item_DeliveryLocation item; item_Status := item_Status item;
     item_UpdatedAt := item_UpdatedAt item |}.

(** What [CreateOrder] fills in from the item and its category. *)
Definition order_priced (item : Item) (category : Category) (order : Order) : Order :=
  let fee := commissionFee (item_PriceCents item) (cat_CommissionRateBps category) in
  {| order with
     ord_SellerRootUserID := item_SellerRootUserID item;
     ord_PriceCents := item_PriceCents item;
     ord_CommissionRateBps := cat_CommissionRateBps category;
     ord_PlatformFeeCents := fee;
     ord_SellerNetCents := sub64 (item_PriceCents item) fee |}.

(** The refund row a dispute decided in the buyer's favour creates. *)
Definition dispute_refund_row (refund : Refund) (dispute : Dispute) (order : Order)
    (gatewayRefundID : string) (adminID now : Z) : Refund :=
  {| refund with
     rf_OrderID := ord_ID order; rf_RequestedByRootUserID := dp_RaisedByRootUserID dispute;
     rf_AmountCents := ord_PriceCents order; rf_GatewayRefundID := Some gatewayRefundID;
     rf_Status := RecordSucceeded; rf_ReviewedBy := Some adminID; rf_ReviewedAt := Some now |}.

Definition refund_of (order : Order) (refund : Refund) : Refund :=
  {| refund with rf_AmountCents := ord_PriceCents order |}.
Definition dispute_of (order : Order) (dispute : Dispute) : Dispute :=
  {| dispute with dp_PreviousOrderStatus := ord_Status order |}.

Definition is_status (st : OrderStatus) (o : Order) : bool := bool_decide (ord_Status o = st).
Definition reserved_by (oid : Z) (i : Item) : bool :=
  bool_decide (item_ReservedOrderID i = Some oid).
Definition status_in (l : list ItemStatus) (i : Item) : bool := bool_decide (item_Status i ∈ l).
Definition pending_refund_of (oid : Z) (r : Refund) : bool :=
  (rf_OrderID r =? oid)%Z && bool_decide (rf_Status r = RecordPending).

Section repo.
Context {E : Env} {D : SqlEngine}.
Notation M := (M DB).

Definition gormDB : M unit :=
  let! s := get_db in
  if db_nil s then throw (ENew "marketplace database not initialized") else ret tt.

(** [Preload("Category")] and [Preload("Item.Category")]: the associated rows,
    or zero values. *)
Definition preload_category (it : Item) : M (Item * Category) :=
  let! cats := find Category (byid (item_CategoryID it) always) in
  ret (it, match cats with c :: _ => c | [] => zero_Category end).

Definition preload_item (o : Order) : M (Order * (Item * Category)) :=
  let! its := find Item (byid (ord_ItemID o) always) in
  match its with
  | [] => ret (o, (zero_Item, zero_Category))
  | it :: _ => let! ic := preload_category it in ret (o, ic)
  end.

Definition take_preloaded (id : Z) : M (Order * (Item * Category)) :=
  let! o := take Order (byid id always) in preload_item o.

(** ** repository.go *)

(** [ORDER BY name] follows the column's collation, which is the engine's: the
    order of the rows is left to it. *)
Definition ListCategories (includeDisabled : bool) : M (list Category) :=
  gormDB;;
  find Category (fun c => includeDisabled || bool_decide (cat_Status c = StatusActive)).

Definition FindCategory (id : Z) : M (option Category) :=
  gormDB;; or_nil (take Category (byid id always)).

(** What the overwriting insert of [Save] leaves of a row: the key and the creation time. *)
Definition category_over (item old : Category) : Category :=
  {| item with cat_ID := cat_ID old; cat_CreatedAt := cat_CreatedAt old |}.
Definition category_touched (t : Z) (item : Category) : Category := {| item with cat_UpdatedAt := t |}.

(** [Save] writes the time of the statement into [UpdatedAt]. *)
Definition SaveCategory (item : Category) : M unit :=
  gormDB;; let! t := now in save Category category_over (category_touched t item).

Definition CreateItem (item : Item) : M unit := gormDB;; insert Item item.

Definition FindItem (id : Z) : M (option (Item * Category)) :=
  gormDB;; or_nil (let! it := take Item (byid id always) in preload_category it).

(** [Order("created_at DESC").Offset((page-1)*size).Limit(size)] *)
Definition newest_page {R} (created : R -> Z) (pageNo size : Z) (rows : list R) : list R :=
  page (mul64 (sub64 pageNo 1) size) size (order_by (fun r => - created r)%Z rows).

(** [Preload] on a list: one [WHERE id IN (..)] query per association. *)
Definition row_or {R} `{Entity R} (zero : R) (id : Z) (rows : list R) : R :=
  match List.find (fun r => (ent_id r =? id)%Z) rows with Some r => r | None => zero end.

Definition find_ids (R : Type) {HE : Entity R} {HT : Tbl DB State R HE _} (ids : list Z) : M (list R) :=
  match ids with
  | [] => ret []
  | _ => find R (fun r => bool_decide (ent_id r ∈ ids))
  end.

Definition preload_categories (its : list Item) : M (list (Item * Category)) :=
  let! cats := find_ids Category (item_CategoryID <$> its) in
  ret ((fun it => (it, row_or zero_Category (item_CategoryID it) cats)) <$> its).

Definition SearchItems (rootUserID : Z) (mine : bool) (keyword : string) (categoryID pageNo size : Z)
    : M (list (Item * Category) * Z) :=
  gormDB;;
  let kw := GoStr.TrimSpace keyword in
  let pat := ("%" ++ kw ++ "%")%string in
  let base := fun i =>
    (if mine then (item_SellerRootUserID i =? rootUserID)%Z
     else bool_decide (item_Status i = ItemPublished))
    && (if (0 <? categoryID)%Z then (item_CategoryID i =? categoryID)%Z else true)
    && (if negb (String.eqb kw "") then like (item_Title i) pat || like (item_Description i) pat
        else true) in
  let! total := count Item base in
  let! rows := find Item base in
  let! l := preload_categories (newest_page item_CreatedAt pageNo size rows) in
  ret (l, total).

Definition UpdateItem (item : Item) (ownerRootUserID : Z) : M bool :=
  gormDB;;
  let! n := update Item
    (byid (item_ID item) (fun i => (item_SellerRootUserID i =? ownerRootUserID)%Z
      && status_in [ItemDraft; ItemPublished] i))
    (item_edit item) in
  ret (n =? 1)%Z.

Definition WithdrawItem (id ownerRootUserID now : Z) : M bool :=
  gormDB;;
  let! n := update Item
    (byid id (fun i => (item_SellerRootUserID i =? ownerRootUserID)%Z
      && status_in [ItemDraft; ItemPublished; ItemHidden] i))
    (item_set_status ItemWithdrawn now) in
  ret (n =? 1)%Z.

(** The nested [if err := Take(&order); err == nil { .. }]: an error of the
    [SELECT], of any kind, skips the block. *)
Definition HideItem (id now : Z) : M (option Order) :=
  gormDB;;
  transaction (
    let! item := take Item (byid id always) in
    let! cancelled :=
      match item_ReservedOrderID item with
      | Some oid =>
        if bool_decide (item_Status item = ItemReserved) then
          let! r := attempt (take Order (byid oid (is_status OrderPendingPayment))) in
          match r with
          | Ok order =>
            update Order (byid (ord_ID order) (is_status OrderPendingPayment)) (order_cancel now);;
            ret (Some order)
          | Err _ => ret None
          end
        else ret None
      | None => ret None
      end in
    update Item (byid id always) (item_release ItemHidden now);;
    ret cancelled).

(** ** repository_order.go *)

Definition CreateOrder (order : Order) : M Order :=
  gormDB;;
  transaction (
    let! item := map_err (fun _ => errItemUnavailable) (take Item (byid (ord_ItemID order) always)) in
    if negb (bool_decide (item_Status item = ItemPublished))
       || bool_decide (item_ReservedOrderID item <> None)
    then throw errItemUnavailable
    else if (item_SellerRootUserID item =? ord_BuyerRootUserID order)%Z then throw errOwnItem
    else
      let! category := map_err (fun _ => errItemUnavailable)
        (take Category (byid (item_CategoryID item)
           (fun c => bool_decide (cat_Status c = StatusActive)))) in
      let! n := update Item
        (byid (item_ID item) (fun i => bool_decide (item_Status i = ItemPublished)
           && bool_decide (item_ReservedOrderID i = None)))
        (item_reserve (ord_ID order) (ord_UpdatedAt order)) in
      if negb (n =? 1)%Z then throw errItemUnavailable
      else
        insert Order (order_priced item category order);;
        ret (order_priced item category order)).

Definition FindOrder (id : Z) : M (option (Order * (Item * Category))) :=
  gormDB;; or_nil (take_preloaded id).

Definition preload_items (l : list Order) : M (list (Order * (Item * Category))) :=
  let! its := find_ids Item (ord_ItemID <$> l) in
  let! ics := preload_categories its in
  ret ((fun o =>
    (o, match List.find (fun ic : Item * Category => (item_ID ic.1 =? ord_ItemID o)%Z) ics with
        | Some ic => ic
        | None => (zero_Item, zero_Category)
        end)) <$> l).

Definition ListOrders (rootUserID : Z) (admin : bool) (pageNo size : Z)
    : M (list (Order * (Item * Category)) * Z) :=
  gormDB;;
  let base := fun o => admin || (ord_BuyerRootUserID o =? rootUserID)%Z
    || (ord_SellerRootUserID o =? rootUserID)%Z in
  let! total := count Order base in
  let! rows := find Order base in
  let! l := preload_items (newest_page ord_CreatedAt pageNo size rows) in
  ret (l, total).

Definition CreateOrFindPayment (payment : Payment) : M (Payment * bool) :=
  gormDB;;
  transaction (
    let! order := map_err (fun _ => errOrderState) (take Order (byid (pay_OrderID payment) always)) in
    if negb (is_status OrderPendingPayment order)
       || negb (pay_CreatedAt payment <? ord_ExpiresAt order)%Z
    then throw errOrderState
    else
      let! r := attempt (take Payment
        (fun p => String.eqb (pay_RequestID p) (pay_RequestID payment))) in
      match r with
      | Ok existing =>
        if negb (pay_OrderID existing =? pay_OrderID payment)%Z
           || negb (pay_AmountCents existing =? pay_AmountCents payment)%Z
        then throw errOrderState
        else ret (existing, false)
      | Err e =>
        if negb (errors_Is e record_not_found_text) then throw e
        else insert Payment payment;; ret (payment, true)
      end).

Definition AttachPaymentTransaction (paymentID : Z) (transactionID : string) (now : Z) : M unit :=
  gormDB;;
  let! n := update Payment
    (byid paymentID (fun p => bool_decide (pay_GatewayTransactionID p = None)
       || bool_decide (pay_GatewayTransactionID p = Some transactionID)))
    (fun p => {| p with pay_GatewayTransactionID := Some transactionID; pay_UpdatedAt := now |}) in
  if negb (n =? 1)%Z then throw errOrderState else ret tt.

Definition pay_succeed (transactionID : string) (now : Z) (p : Payment) : Payment :=
  {| p with pay_GatewayTransactionID := Some transactionID; pay_Status := RecordSucceeded;
     pay_UpdatedAt := now |}.

Definition ApplyPaymentCallback (requestID transactionID : string) (amountCents now : Z)
    : M ((Order * (Item * Category)) * bool) :=
  gormDB;;
  transaction (
    let! payment := map_err (fun _ => errOrderState)
      (take Payment (fun p => String.eqb (pay_RequestID p) requestID)) in
    if negb (pay_AmountCents payment =? amountCents)%Z
       || (bool_decide (pay_GatewayTransactionID payment <> None)
           && bool_decide (pay_GatewayTransactionID payment <> Some transactionID))
    then throw errOrderState
    else if bool_decide (pay_Status payment = RecordSucceeded) then
      let! o := take_preloaded (pay_OrderID payment) in ret (o, false)
    else
      let! order := map_err (fun _ => errOrderState)
        (take Order (byid (pay_OrderID payment) always)) in
      if negb (is_status OrderPendingPayment order) || negb (now <? ord_ExpiresAt order)%Z
      then throw errOrderState
      else
        map_err (fun e => if isUniqueError e then errOrderState else e)
          (update Payment
             (byid (pay_ID payment) (fun p => bool_decide (pay_Status p = RecordPending)))
             (pay_succeed transactionID now));;
        let! n := update Order (byid (ord_ID order) (is_status OrderPendingPayment)) (order_pay now) in
        if negb (n =? 1)%Z then throw errOrderState
        else let! o := take_preloaded (ord_ID order) in ret (o, true)).

Definition transitionOrder (id : Z) (transition : Order -> M unit)
    : M (Order * (Item * Category)) :=
  gormDB;;
  transaction (
    let! order := map_err (fun _ => errOrderState) (take Order (byid id always)) in
    transition order;;
    take_preloaded id).

Definition CancelOrder (id buyerRootUserID now : Z) : M (Order * (Item * Category)) :=
  transitionOrder id (fun order =>
    if negb (ord_BuyerRootUserID order =? buyerRootUserID)%Z
       || negb (is_status OrderPendingPayment order)
    then throw errOrderState
    else
      update Order (byid id (is_status OrderPendingPayment)) (order_cancel now);;
      update Item (byid (ord_ItemID order) (reserved_by (ord_ID order)))
        (item_release ItemPublished now);;
      ret tt).

Definition MarkDelivered (id sellerRootUserID now : Z) : M (Order * (Item * Category)) :=
  transitionOrder id (fun order =>
    if negb (ord_SellerRootUserID order =? sellerRootUserID)%Z
       || negb (is_status OrderPaid order)
    then throw errOrderState
    else update Order (byid id (is_status OrderPaid)) (order_deliver now);; ret tt).

Definition completeOrderTx (order : Order) (settlement : Settlement) (now : Z) : M unit :=
  let! pendingRefunds := count Refund (pending_refund_of (ord_ID order)) in
  if (0 <? pendingRefunds)%Z then throw errOrderState
  else
    let! n := update Order (byid (ord_ID order) (is_status OrderDelivered)) (order_complete now) in
    if negb (n =? 1)%Z then throw errOrderState
    else
      update Item (byid (ord_ItemID order) (reserved_by (ord_ID order)))
        (item_set_status ItemSold now);;
      insert_ignore Settlement settlement.

Definition settle_for (order : Order) (settlement : Settlement) : Settlement :=
  {| settlement with st_OrderID := ord_ID order; st_AmountCents := ord_SellerNetCents order |}.

Definition ConfirmReceived (id buyerRootUserID : Z) (settlement : Settlement) (now : Z)
    : M (Order * (Item * Category)) :=
  transitionOrder id (fun order =>
    if negb (ord_BuyerRootUserID order =? buyerRootUserID)%Z
       || negb (is_status OrderDelivered order)
    then throw errOrderState
    else completeOrderTx order (settle_for order settlement) now).

(** ** repository_resolution.go *)

Definition CreateRefund (refund : Refund) : M Refund :=
  gormDB;;
  transaction (
    let! order := map_err (fun _ => errOrderState) (take Order (byid (rf_OrderID refund) always)) in
    if negb (ord_BuyerRootUserID order =? rf_RequestedByRootUserID refund)%Z
       || (negb (is_status OrderPaid order) && negb (is_status OrderDelivered order))
    then throw errOrderState
    else
      map_err (fun e => if isUniqueError e then errRefundExists else e)
        (insert Refund (refund_of order refund));;
      ret (refund_of order refund)).

Definition FindRefund (id : Z) : M (option Refund) :=
  gormDB;; or_nil (take Refund (byid id always)).

Definition refund_decide (status : RecordStatus) (adminID now : Z) (gateway : option string)
    (r : Refund) : Refund :=
  {| r with rf_Status := status; rf_ReviewedBy := Some adminID; rf_ReviewedAt := Some now;
     rf_UpdatedAt := now;
     rf_GatewayRefundID := match gateway with Some g => Some g | None => rf_GatewayRefundID r end |}.

Definition refundable (o : Order) : bool :=
  bool_decide (ord_Status o ∈ [OrderPaid; OrderDelivered; OrderDisputed]).

Definition DecideRefund (id adminID : Z) (approved : bool) (gatewayRefundID : string) (now : Z)
    : M (Order * (Item * Category)) :=
  gormDB;;
  transaction (
    let! refund := map_err (fun _ => errOrderState) (take Refund (byid id always)) in
    if negb (bool_decide (rf_Status refund = RecordPending)) then throw errOrderState
    else
      let! order := map_err (fun _ => errOrderState) (take Order (byid (rf_OrderID refund) always)) in
      (if approved then
         update Order (byid (ord_ID order) refundable) (order_refund now);;
         update Item (byid (ord_ItemID order) always) (item_release ItemWithdrawn now);;
         ret tt
       else ret tt);;
      let updates :=
        if approved then refund_decide RecordSucceeded adminID now (Some gatewayRefundID)
        else refund_decide RecordRejected adminID now None in
      update Refund (byid (rf_ID refund) (fun r => bool_decide (rf_Status r = RecordPending))) updates;;
      take_preloaded (ord_ID order)).

Definition CreateDispute (dispute : Dispute) (now : Z) : M Dispute :=
  gormDB;;
  transaction (
    let! order := map_err (fun _ => errOrderState) (take Order (byid (dp_OrderID dispute) always)) in
    if (negb (ord_BuyerRootUserID order =? dp_RaisedByRootUserID dispute)%Z
        && negb (ord_SellerRootUserID order =? dp_RaisedByRootUserID dispute)%Z)
       || (negb (is_status OrderPaid order) && negb (is_status OrderDelivered order))
    then throw errOrderState
    else
      let! pendingRefunds := count Refund (pending_refund_of (ord_ID order)) in
      if (0 <? pendingRefunds)%Z then throw errOrderState
      else
        map_err (fun e => if isUniqueError e then errDisputeExists else e)
          (insert Dispute (dispute_of order dispute));;
        update Order (byid (ord_ID order) (is_status (ord_Status order))) (order_dispute now);;
        ret (dispute_of order dispute)).

Definition FindDispute (id : Z) : M (option Dispute) :=
  gormDB;; or_nil (take Dispute (byid id always)).

Definition dispute_resolve (status : DisputeStatus) (resolution : string) (adminID now : Z)
    (d : Dispute) : Dispute :=
  {| d with dp_Status := status; dp_Resolution := resolution; dp_ResolvedBy := Some adminID;
     dp_ResolvedAt := Some now; dp_UpdatedAt := now |}.

Definition ResolveDispute (id adminID : Z) (action resolution gatewayRefundID : string)
    (refund : Refund) (now : Z) : M (Order * (Item * Category)) :=
  gormDB;;
  transaction (
    let! dispute := map_err (fun _ => errOrderState)
      (take Dispute (byid id (fun d => bool_decide (dp_Status d = DisputePending)))) in
    let! order := map_err (fun _ => errOrderState)
      (take Order (byid (dp_OrderID dispute) (is_status OrderDisputed))) in
    let isRefund := String.eqb action "refund" in
    let nextStatus := if isRefund then OrderRefunded else dp_PreviousOrderStatus dispute in
    (if isRefund then
       insert_ignore Refund (dispute_refund_row refund dispute order gatewayRefundID adminID now);;
       update Item (byid (ord_ItemID order) always) (item_release ItemWithdrawn now);;
       ret tt
     else ret tt);;
    update Order (byid (ord_ID order) (is_status OrderDisputed))
      (if bool_decide (nextStatus = OrderRefunded) then order_refund now
       else order_set_status nextStatus now);;
    update Dispute (byid (dp_ID dispute) (fun d => bool_decide (dp_Status d = DisputePending)))
      (dispute_resolve (if isRefund then DisputeResolved else DisputeRejected) resolution adminID now);;
    take_preloaded (ord_ID order)).

(** [listRecords[T]] for refunds, disputes and settlements. *)
Definition listRecords (R : Type) {HE : Entity R} {HT : Tbl DB State R HE _} (created : R -> Z)
    (pageNo size : Z) : M (list R * Z) :=
  gormDB;;
  let! total := count R always in
  let! rows := find R always in
  ret (newest_page created pageNo size rows, total).

Definition ListRefunds : Z -> Z -> M (list Refund * Z) := listRecords Refund rf_CreatedAt.
Definition ListDisputes : Z -> Z -> M (list Dispute * Z) := listRecords Dispute dp_CreatedAt.
Definition ListSettlements : Z -> Z -> M (list Settlement * Z) :=
  listRecords Settlement st_CreatedAt.

(** ** repository_jobs.go *)

Definition ListExpiredOrderIDs (now limit : Z) : M (list Z) :=
  gormDB;;
  let! rows := find Order (fun o => is_status OrderPendingPayment o && (ord_ExpiresAt o <=? now)%Z) in
  ret (ord_ID <$> page 0 limit (order_by ord_ID rows)).

(** The transaction's result: [None] is the early [return nil]. *)
Definition ExpireOrder (id now : Z) : M (option (Order * (Item * Category))) :=
  gormDB;;
  transaction (
    let! r := attempt (take Order (byid id always)) in
    match r with
    | Err e => if errors_Is e record_not_found_text then ret None else throw e
    | Ok order =>
      if negb (is_status OrderPendingPayment order) || (now <? ord_ExpiresAt order)%Z
      then ret None
      else
        let! n := update Order (byid id (is_status OrderPendingPayment)) (order_cancel now) in
        if negb (n =? 1)%Z then ret None
        else
          update Item (byid (ord_ItemID order) (reserved_by (ord_ID order)))
            (item_release ItemPublished now);;
          let! o := take_preloaded id in ret (Some o)
    end).

Definition delivered_by (cutoff : Z) (o : Order) : bool :=
  match ord_DeliveredAt o with Some t => (t <=? cutoff)%Z | None => false end.

(** The [NOT EXISTS] subquery reads the refunds in the same statement. *)
Definition ListAutoCompleteOrderIDs (cutoff limit : Z) : M (list Z) :=
  gormDB;;
  let! s := get_db in
  let! rows := find Order (fun o => is_status OrderDelivered o && delivered_by cutoff o
    && bool_decide (sel (pending_refund_of (ord_ID o)) (t_refunds s) = [])) in
  ret (ord_ID <$> page 0 limit (order_by ord_ID rows)).

Definition AutoCompleteOrder (id cutoff : Z) (settlement : Settlement) (now : Z)
    : M (option (Order * (Item * Category))) :=
  gormDB;;
  transaction (
    let! r := attempt (take Order (byid id always)) in
    match r with
    | Err e => if errors_Is e record_not_found_text then ret None else throw e
    | Ok order =>
      if negb (is_status OrderDelivered order) || negb (delivered_by cutoff order)
      then ret None
      else
        completeOrderTx order (settle_for order settlement) now;;
        let! o := take_preloaded id in ret (Some o)
    end).

Definition FindSettlement (id : Z) : M (option Settlement) :=
  gormDB;; or_nil (take Settlement (byid id always)).

Definition UpdateSettlement (id : Z) (status : RecordStatus) (gatewayID : string) (now : Z) : M bool :=
  gormDB;;
  let! n := update Settlement
    (byid id (fun s => bool_decide (st_Status s ∈ [RecordPending; RecordFailed])))
    (fun s => {| s with st_Status := status; st_UpdatedAt := now;
       st_GatewaySettlementID :=
         if String.eqb gatewayID "" then st_GatewaySettlementID s else Some gatewayID |}) in
  ret (n =? 1)%Z.

Definition ListRetrySettlementIDs (limit : Z) : M (list Z) :=
  gormDB;;
  let! rows := find Settlement (fun s => bool_decide (st_Status s ∈ [RecordPending; RecordFailed])) in
  ret (st_ID <$> page 0 limit (order_by st_CreatedAt rows)).

End repo.
End MarketRepo.
