(* ===== verification/MarketSpec.v ===== *)
(** * Marketplace: the abstract specification

    What the repository promises, on the tables' contents: [mstep] has one rule
    per business transition, with its guard and its whole effect.  The invariants
    of the marketplace are proved of [mstep]; [MarketRefine] shows that every
    repository method performs at most one [mstep], whatever statements fail. *)
From S2P Require Import Prelude GoMonad Sql MarketModel MarketRepo GoString.

Module MarketSpec.
Import Market MarketRepo.

Definition no_pending_refund (oid : Z) (s : State) : Prop :=
  forall k r, refunds s !! k = Some r -> rf_OrderID r = oid -> rf_Status r <> RecordPending.

(** The row an [INSERT .. ON DUPLICATE KEY UPDATE id = id] leaves behind. *)
Definition inserted_or_kept {R} `{Entity R} (r : R) (m m' : gmap Z R) : Prop :=
  m !! ent_id r = None /\ m' = <[ent_id r := r]> m \/
  m' = m /\ (is_Some (m !! ent_id r) \/
    exists k r', m !! k = Some r' /\ (ent_clash r r' = true \/ ent_clash r' r = true)).

(** What [CreateOrder] computes from the item and its category. *)
Definition priced_from (it : Item) (c : Category) (o : Order) : Prop :=
  ord_SellerRootUserID o = item_SellerRootUserID it /\
  ord_PriceCents o = item_PriceCents it /\
  ord_CommissionRateBps o = cat_CommissionRateBps c /\
  ord_PlatformFeeCents o = commissionFee (item_PriceCents it) (cat_CommissionRateBps c) /\
  ord_SellerNetCents o = sub64 (item_PriceCents it) (ord_PlatformFeeCents o).

Definition good_rate (c : Category) : Prop := (0 <= cat_CommissionRateBps c <= 10000)%Z.
Definition good_price (i : Item) : Prop := (0 < item_PriceCents i < 2 ^ 63)%Z.

Inductive mstep (s : State) : State -> Prop :=
| m_save_category c :
  good_rate c -> mstep s (set_categories (<[cat_ID c := c]> (categories s)) s)
| m_create_item it :
  items s !! item_ID it = None -> item_Status it ∈ [ItemDraft; ItemPublished] ->
  item_ReservedOrderID it = None -> good_price it ->
  mstep s (set_items (<[item_ID it := it]> (items s)) s)
| m_update_item id it it' :
  items s !! id = Some it -> item_Status it ∈ [ItemDraft; ItemPublished] ->
  item_ID it' = item_ID it -> item_SellerRootUserID it' = item_SellerRootUserID it ->
  item_ReservedOrderID it' = item_ReservedOrderID it -> good_price it' ->
  mstep s (set_items (<[id := it']> (items s)) s)
| m_withdraw_item id it now :
  items s !! id = Some it -> item_Status it ∈ [ItemDraft; ItemPublished; ItemHidden] ->
  mstep s (set_items (<[id := item_set_status ItemWithdrawn now it]> (items s)) s)
| m_hide_item id it now :
  items s !! id = Some it ->
  mstep s (set_items (<[id := item_release ItemHidden now it]> (items s)) s)
| m_hide_cancel id it oid o now :
  items s !! id = Some it -> item_Status it = ItemReserved -> item_ReservedOrderID it = Some oid ->
  orders s !! oid = Some o -> ord_Status o = OrderPendingPayment ->
  mstep s (set_items (<[id := item_release ItemHidden now it]> (items s))
    (set_orders (<[oid := order_cancel now o]> (orders s)) s))
| m_create_order o it c :
  orders s !! ord_ID o = None ->
  items s !! ord_ItemID o = Some it -> item_Status it = ItemPublished ->
  item_ReservedOrderID it = None -> item_SellerRootUserID it <> ord_BuyerRootUserID o ->
  categories s !! item_CategoryID it = Some c -> cat_Status c = StatusActive ->
  priced_from it c o -> ord_Status o = OrderPendingPayment ->
  mstep s (set_orders (<[ord_ID o := o]> (orders s))
    (set_items (<[ord_ItemID o := item_reserve (ord_ID o) (ord_UpdatedAt o) it]> (items s)) s))
| m_create_payment p o :
  payments s !! pay_ID p = None -> orders s !! pay_OrderID p = Some o ->
  ord_Status o = OrderPendingPayment -> pay_AmountCents p = ord_PriceCents o ->
  pay_Status p = RecordPending ->
  mstep s (set_payments (<[pay_ID p := p]> (payments s)) s)
| m_attach_payment k p tx now :
  payments s !! k = Some p ->
  mstep s (set_payments (<[k := {| p with pay_GatewayTransactionID := Some tx;
                                  pay_UpdatedAt := now |}]> (payments s)) s)
| m_pay k p o tx now :
  payments s !! k = Some p -> pay_Status p = RecordPending ->
  orders s !! pay_OrderID p = Some o -> ord_Status o = OrderPendingPayment ->
  (now < ord_ExpiresAt o)%Z ->
  mstep s (set_orders (<[pay_OrderID p := order_pay now o]> (orders s))
    (set_payments (<[k := pay_succeed tx now p]> (payments s)) s))
| m_cancel oid o now :
  orders s !! oid = Some o -> ord_Status o = OrderPendingPayment ->
  mstep s (set_items (update_at (ord_ItemID o) (reserved_by oid) (item_release ItemPublished now) (items s))
    (set_orders (<[oid := order_cancel now o]> (orders s)) s))
| m_deliver oid o now :
  orders s !! oid = Some o -> ord_Status o = OrderPaid ->
  mstep s (set_orders (<[oid := order_deliver now o]> (orders s)) s)
| m_complete oid o st sts now :
  orders s !! oid = Some o -> ord_Status o = OrderDelivered -> no_pending_refund oid s ->
  inserted_or_kept (settle_for o st) (settlements s) sts ->
  mstep s (set_settlements sts
    (set_items (update_at (ord_ItemID o) (reserved_by oid) (item_set_status ItemSold now) (items s))
      (set_orders (<[oid := order_complete now o]> (orders s)) s)))
| m_request_refund rf o :
  refunds s !! rf_ID rf = None -> orders s !! rf_OrderID rf = Some o ->
  ord_Status o ∈ [OrderPaid; OrderDelivered] ->
  ord_BuyerRootUserID o = rf_RequestedByRootUserID rf ->
  rf_AmountCents rf = ord_PriceCents o -> rf_Status rf = RecordPending ->
  mstep s (set_refunds (<[rf_ID rf := rf]> (refunds s)) s)
| m_reject_refund k r admin now :
  refunds s !! k = Some r -> rf_Status r = RecordPending ->
  mstep s (set_refunds (<[k := refund_decide RecordRejected admin now None r]> (refunds s)) s)
| m_approve_refund k r o admin gw now :
  refunds s !! k = Some r -> rf_Status r = RecordPending ->
  orders s !! rf_OrderID r = Some o -> ord_Status o ∈ [OrderPaid; OrderDelivered] ->
  mstep s (set_refunds (<[k := refund_decide RecordSucceeded admin now (Some gw) r]> (refunds s))
    (set_items (update_at (ord_ItemID o) always (item_release ItemWithdrawn now) (items s))
      (set_orders (<[rf_OrderID r := order_refund now o]> (orders s)) s)))
| m_dispute d o now :
  disputes s !! dp_ID d = None -> orders s !! dp_OrderID d = Some o ->
  ord_Status o ∈ [OrderPaid; OrderDelivered] ->
  (ord_BuyerRootUserID o = dp_RaisedByRootUserID d \/ ord_SellerRootUserID o = dp_RaisedByRootUserID d) ->
  no_pending_refund (dp_OrderID d) s -> dp_PreviousOrderStatus d = ord_Status o ->
  dp_Status d = DisputePending ->
  mstep s (set_orders (<[dp_OrderID d := order_dispute now o]> (orders s))
    (set_disputes (<[dp_ID d := d]> (disputes s)) s))
| m_resume k d o res admin now :
  disputes s !! k = Some d -> dp_Status d = DisputePending ->
  orders s !! dp_OrderID d = Some o -> ord_Status o = OrderDisputed ->
  mstep s (set_disputes (<[k := dispute_resolve DisputeRejected res admin now d]> (disputes s))
    (set_orders (<[dp_OrderID d := order_set_status (dp_PreviousOrderStatus d) now o]> (orders s)) s))
| m_dispute_refund k d o rf rfs gw res admin now :
  disputes s !! k = Some d -> dp_Status d = DisputePending ->
  orders s !! dp_OrderID d = Some o -> ord_Status o = OrderDisputed ->
  inserted_or_kept (dispute_refund_row rf d o gw admin now) (refunds s) rfs ->
  mstep s (set_disputes (<[k := dispute_resolve DisputeResolved res admin now d]> (disputes s))
    (set_orders (<[dp_OrderID d := order_refund now o]> (orders s))
      (set_items (update_at (ord_ItemID o) always (item_release ItemWithdrawn now) (items s))
        (set_refunds rfs s))))
| m_settlement k st st' :
  settlements s !! k = Some st -> st_Status st ∈ [RecordPending; RecordFailed] ->
  st_ID st' = st_ID st -> st_OrderID st' = st_OrderID st -> st_RequestID st' = st_RequestID st ->
  st_AmountCents st' = st_AmountCents st ->
  mstep s (set_settlements (<[k := st']> (settlements s)) s).

(** The empty marketplace. *)
Definition empty_state : State := mkState ∅ ∅ ∅ ∅ ∅ ∅ ∅.

(** What every store satisfies by the engine's laws: rows sit under their own
    [id], and the unique indexes hold. *)
Definition keyed {R} `{Entity R} (m : gmap Z R) : Prop :=
  (forall k r, m !! k = Some r -> ent_id r = k) /\
  (forall k1 k2 r1 r2, m !! k1 = Some r1 -> m !! k2 = Some r2 -> k1 <> k2 -> ent_clash r1 r2 = false).

Record wf (s : State) : Prop := {
  wf_categories : keyed (categories s);
  wf_items : keyed (items s);
  wf_orders : keyed (orders s);
  wf_payments : keyed (payments s);
  wf_refunds : keyed (refunds s);
  wf_disputes : keyed (disputes s);
  wf_settlements : keyed (settlements s);
}.

Definition reachable (s : State) : Prop :=
  rtc (fun s s' => wf s /\ mstep s s' /\ wf s') empty_state s.

End MarketSpec.

(** ** Marketplace: the invariants

    [Inv] collects what holds of the marketplace in every reachable state, and
    [market_Inv_step] shows that every transition of the specification preserves it. *)

Module MarketInv.
Import Market MarketRepo MarketSpec.

(** An order that still binds its item: neither cancelled nor refunded. *)
Definition live (o : Order) : Prop := ord_Status o ∉ [OrderCancelled; OrderRefunded].
Definition unpaid (o : Order) : Prop := ord_Status o ∈ [OrderPendingPayment; OrderCancelled].
Definition open_paid (o : Order) : Prop := ord_Status o ∈ [OrderPaid; OrderDelivered].

Definition holds_item (oid : Z) (it : Item) : Prop :=
  item_Status it ∉ [ItemDraft; ItemPublished] /\
  (item_Status it = ItemReserved -> item_ReservedOrderID it = Some oid).

Definition fair_price (o : Order) : Prop :=
  (0 < ord_PriceCents o < 2 ^ 63)%Z /\ (0 <= ord_CommissionRateBps o <= 10000)%Z /\
  ord_PlatformFeeCents o = (ord_PriceCents o * ord_CommissionRateBps o / 10000)%Z /\
  (0 <= ord_PlatformFeeCents o <= ord_PriceCents o)%Z /\
  (ord_PlatformFeeCents o + ord_SellerNetCents o = ord_PriceCents o)%Z.

Record Inv (s : State) : Prop := {
  inv_item : forall oid o, orders s !! oid = Some o -> live o ->
    has_row (items s) (ord_ItemID o) (holds_item oid);
  inv_excl : forall i j o1 o2, orders s !! i = Some o1 -> orders s !! j = Some o2 ->
    live o1 -> live o2 -> ord_ItemID o1 = ord_ItemID o2 -> i = j;
  inv_pending : forall k r, refunds s !! k = Some r -> rf_Status r = RecordPending ->
    has_row (orders s) (rf_OrderID r) open_paid;
  inv_refunded : forall k r, refunds s !! k = Some r -> rf_Status r = RecordSucceeded ->
    has_row (orders s) (rf_OrderID r) (fun o => ord_Status o = OrderRefunded);
  inv_dispute : forall k d, disputes s !! k = Some d ->
    dp_PreviousOrderStatus d ∈ [OrderPaid; OrderDelivered] /\
    (dp_Status d = DisputePending ->
     has_row (orders s) (dp_OrderID d) (fun o => ord_Status o = OrderDisputed));
  inv_settled : forall k st, settlements s !! k = Some st ->
    has_row (orders s) (st_OrderID st) (fun o =>
      ord_Status o = OrderCompleted /\ st_AmountCents st = ord_SellerNetCents o);
  inv_payment : forall k p, payments s !! k = Some p ->
    pay_Status p ∈ [RecordPending; RecordSucceeded] /\
    has_row (orders s) (pay_OrderID p) (fun o =>
      pay_AmountCents p = ord_PriceCents o /\ (pay_Status p = RecordSucceeded -> ~ unpaid o));
  inv_paid : forall oid o, orders s !! oid = Some o -> ~ unpaid o ->
    exists k, has_row (payments s) k (fun p => pay_OrderID p = oid /\ pay_Status p = RecordSucceeded);
  inv_one_payment : forall k1 k2 p1 p2, payments s !! k1 = Some p1 -> payments s !! k2 = Some p2 ->
    pay_Status p1 = RecordSucceeded -> pay_Status p2 = RecordSucceeded ->
    pay_OrderID p1 = pay_OrderID p2 -> k1 = k2;
  inv_money : forall oid o, orders s !! oid = Some o -> fair_price o;
  inv_goods : forall k it, items s !! k = Some it -> good_price it;
  inv_rates : forall k c, categories s !! k = Some c -> good_rate c;
}.

Lemma market_Inv_empty : Inv empty_state.
Proof. split; intros; try (by rewrite lookup_empty in *); done. Qed.

(** ** Commission arithmetic *)

(** On the prices and rates the marketplace admits, the [int64] computation is
    the exact floor of [price * rate / 10000]. *)
Lemma commissionFee_exact price rate :
  (0 < price < 2 ^ 63)%Z -> (0 <= rate <= 10000)%Z ->
  commissionFee price rate = (price * rate / 10000)%Z /\
  (0 <= commissionFee price rate <= price)%Z.
Proof.
  intros Hp Hr. unfold commissionFee, add64, mul64, go_div, go_rem.
  rewrite Z.quot_div_nonneg, Z.rem_mod_nonneg by lia.
  pose proof (Z.div_mod price 10000 ltac:(lia)) as Hdm.
  pose proof (Z.mod_pos_bound price 10000 ltac:(lia)) as Hm.
  set (q := (price / 10000)%Z) in *. set (r := (price mod 10000)%Z) in *.
  assert (Hq : (0 <= q)%Z) by (apply Z.div_pos; lia).
  assert (Hqr : (0 <= q * rate <= q * 10000)%Z) by nia.
  assert (Hrr : (0 <= r * rate < 10000 * 10000)%Z) by nia.
  rewrite (wrap64_small (q * rate)) by (unfold in_int64; lia).
  rewrite (wrap64_small (r * rate)) by (unfold in_int64; lia).
  rewrite Z.quot_div_nonneg by lia.
  assert (Hd : (0 <= r * rate / 10000 <= r)%Z).
  { split; [apply Z.div_pos; lia|]. apply Z.div_le_upper_bound; nia. }
  rewrite wrap64_small by (unfold in_int64; lia).
  assert (Heq : (price * rate / 10000 = q * rate + r * rate / 10000)%Z).
  { rewrite Hdm. replace ((10000 * q + r) * rate)%Z with (q * rate * 10000 + r * rate)%Z by lia.
    rewrite Z.div_add_l by lia. done. }
  rewrite Heq. split; [done|]. lia.
Qed.

Lemma priced_fair it c o :
  good_price it -> good_rate c -> priced_from it c o -> fair_price o.
Proof.
  unfold good_price, good_rate, priced_from, fair_price.
  intros Hp Hr (_ & HP & HR & HF & HN). rewrite HN, HF, HP, HR.
  destruct (commissionFee_exact _ _ Hp Hr) as [He Hb].
  unfold sub64. rewrite wrap64_small by (unfold in_int64; lia).
  rewrite <- He. repeat split; lia.
Qed.

(** ** Preservation *)

Lemma in2 {A} (x a b : A) : x ∈ [a; b] <-> x = a \/ x = b.
Proof. rewrite !elem_of_cons, elem_of_nil. naive_solver. Qed.

Lemma in3 {A} (x a b c : A) : x ∈ [a; b; c] <-> x = a \/ x = b \/ x = c.
Proof. rewrite !elem_of_cons, elem_of_nil. naive_solver. Qed.

Ltac statuses :=
  unfold live, unpaid, open_paid, holds_item in *; rewrite ?in2, ?in3 in *; simpl in *.
Ltac by_status := statuses; intuition congruence.

Section step.
Variables s s' : State.
Hypothesis I : Inv s.
Hypothesis W : wf s.

Lemma ord_key oid o : orders s !! oid = Some o -> ord_ID o = oid.
Proof. destruct W as [_ _ [H _] _ _ _ _]. apply H. Qed.

Lemma step_goods : mstep s s' -> forall k it, items s' !! k = Some it -> good_price it.
Proof.
  intros Hs. pose proof (inv_goods _ I) as G.
  destruct Hs; simpl; intros j i Hj; eauto;
    try (apply update_at_inv in Hj as [[Hj _]|(-> & i0 & Hj & _ & ->)]);
    split_lookups; eauto.
  all: unfold good_price in *; simpl; eauto.
Qed.

Lemma step_rates : mstep s s' -> forall k c, categories s' !! k = Some c -> good_rate c.
Proof.
  intros Hs. pose proof (inv_rates _ I) as G.
  destruct Hs; simpl; intros j x Hj; split_lookups; eauto.
Qed.

Lemma step_money : mstep s s' -> forall oid o, orders s' !! oid = Some o -> fair_price o.
Proof.
  intros Hs. pose proof (inv_money _ I) as G.
  destruct Hs; simpl; intros j x Hj; split_lookups; eauto;
    try (match goal with H : orders s !! _ = Some ?o |- _ => apply G in H; exact H end).
  eapply priced_fair; [by eapply (inv_goods _ I)|by eapply (inv_rates _ I)|done].
Qed.

Lemma refund_unique k1 k2 r1 r2 :
  refunds s !! k1 = Some r1 -> refunds s !! k2 = Some r2 ->
  rf_OrderID r1 = rf_OrderID r2 -> k1 = k2.
Proof.
  intros H1 H2 Ho. destruct (decide (k1 = k2)) as [|Hne]; [done|].
  destruct W as [_ _ _ _ [_ Hu] _ _]. pose proof (Hu _ _ _ _ H1 H2 Hne) as Hc.
  simpl in Hc. rewrite Ho, Z.eqb_refl in Hc. done.
Qed.

Lemma dispute_unique k1 k2 d1 d2 :
  disputes s !! k1 = Some d1 -> disputes s !! k2 = Some d2 ->
  dp_OrderID d1 = dp_OrderID d2 -> k1 = k2.
Proof.
  intros H1 H2 Ho. destruct (decide (k1 = k2)) as [|Hne]; [done|].
  destruct W as [_ _ _ _ _ [_ Hu] _]. pose proof (Hu _ _ _ _ H1 H2 Hne) as Hc.
  simpl in Hc. rewrite Ho, Z.eqb_refl in Hc. done.
Qed.

(** Rows of a table after [INSERT .. DO NOTHING]. *)
Lemma inserted_or_kept_inv {R} `{Entity R} (r : R) (m m' : gmap Z R) j x :
  inserted_or_kept r m m' -> m' !! j = Some x -> x = r \/ m !! j = Some x.
Proof. intros [[_ ->]|[-> _]] Hx; split_lookups; auto. Qed.

(** Follow one row of the order table through a transition: either the
    transition leaves it, or it is the order the transition acts on. *)
Ltac follow_order :=
  match goal with
  | H : orders s !! ?oid = Some ?o |- has_row (<[?oid := _]> (orders s)) _ _ =>
    apply (has_row_insert _ _ _ _ _ _ H); [solve [eauto]|intros Hkey Hpo]
  | H : orders s !! ?oid = None |- has_row (<[?oid := _]> (orders s)) _ _ =>
    apply (has_row_fresh _ _ _ _ _ H); eauto
  end.

(** The status a disputed order returns to is one of a paid, open order. *)
Ltac by_prev :=
  try match goal with H : disputes s !! _ = Some _ |- _ =>
    pose proof (proj1 (inv_dispute _ I _ _ H)) end;
  by_status.

Lemma step_pending : mstep s s' -> forall k r, refunds s' !! k = Some r ->
  rf_Status r = RecordPending -> has_row (orders s') (rf_OrderID r) open_paid.
Proof.
  intros Hs. pose proof (inv_pending _ I) as G.
  destruct Hs; simpl; intros j x Hj Hp;
    try match goal with H : inserted_or_kept _ (refunds s) _ |- _ =>
      destruct (inserted_or_kept_inv _ _ _ _ _ H Hj) as [->|?]; [done|] end;
    split_lookups; eauto; try follow_order; try by_status.
  - (* complete *) exfalso. eapply H1; eauto.
  - (* request *) exists o. split; [done|]. statuses. intuition.
  - (* approve *) exfalso. eauto using refund_unique.
  - (* dispute *) exfalso. eapply H3; eauto.
Qed.

Lemma step_refunded : mstep s s' -> forall k r, refunds s' !! k = Some r ->
  rf_Status r = RecordSucceeded ->
  has_row (orders s') (rf_OrderID r) (fun o => ord_Status o = OrderRefunded).
Proof.
  intros Hs. pose proof (inv_refunded _ I) as G.
  destruct Hs; simpl; intros j x Hj Hp;
    try match goal with H : inserted_or_kept _ (refunds s) _ |- _ =>
      destruct (inserted_or_kept_inv _ _ _ _ _ H Hj) as [->|?] end;
    split_lookups; eauto; try follow_order; try by_status.
  - (* approve *) by apply has_row_new.
  - (* dispute refund *) simpl. rewrite (ord_key _ _ H1). by apply has_row_new.
Qed.

Lemma step_dispute : mstep s s' -> forall k d, disputes s' !! k = Some d ->
  dp_PreviousOrderStatus d ∈ [OrderPaid; OrderDelivered] /\
  (dp_Status d = DisputePending ->
   has_row (orders s') (dp_OrderID d) (fun o => ord_Status o = OrderDisputed)).
Proof.
  intros Hs. pose proof (inv_dispute _ I) as G.
  destruct Hs; simpl; intros j x Hj;
    split_lookups; eauto; try (destruct (G _ _ Hj) as [Gp Gd]; split; [done|]; intros Hp; follow_order);
    try by_status.
  - (* dispute *) split; [by rewrite H4|]. intros _. by apply has_row_new.
  - (* resume: the resolved dispute *) split; [by eapply G|done].
  - (* resume: another dispute of the order *) exfalso.
    eauto using dispute_unique.
  - split; [by eapply G|done].
  - exfalso. eauto using dispute_unique.
Qed.

Lemma step_settled : mstep s s' -> forall k st, settlements s' !! k = Some st ->
  has_row (orders s') (st_OrderID st) (fun o =>
    ord_Status o = OrderCompleted /\ st_AmountCents st = ord_SellerNetCents o).
Proof.
  intros Hs. pose proof (inv_settled _ I) as G.
  destruct Hs; simpl; intros j x Hj;
    try match goal with H : inserted_or_kept _ (settlements s) _ |- _ =>
      destruct (inserted_or_kept_inv _ _ _ _ _ H Hj) as [->|?] end;
    split_lookups; eauto; try follow_order; try by_status.
  - (* complete *) simpl. rewrite (ord_key _ _ H). by apply has_row_new.
  - (* settlement update *) rewrite H2, H4. eauto.
Qed.

Lemma step_payment : mstep s s' -> forall k p, payments s' !! k = Some p ->
  pay_Status p ∈ [RecordPending; RecordSucceeded] /\
  has_row (orders s') (pay_OrderID p) (fun o =>
    pay_AmountCents p = ord_PriceCents o /\ (pay_Status p = RecordSucceeded -> ~ unpaid o)).
Proof.
  intros Hs. pose proof (inv_payment _ I) as G.
  destruct Hs; simpl; intros j x Hj; split_lookups; eauto;
    try (destruct (G _ _ Hj) as [Gs Gp]; split; [done|]; follow_order; by_prev).
  - (* create *) split; [rewrite H3; by left|]. exists o. split; [done|]. split; [done|]. congruence.
  - (* pay: the paid payment *)
    split; [by right; left|]. apply has_row_new. simpl.
    destruct (G _ _ H) as [_ Gp]. apply (has_row_get _ _ _ _ H1) in Gp as [Gp _].
    split; [done|]. intros _. by_status.
Qed.

Lemma payments_keep (P : Payment -> Prop) k :
  mstep s s' -> has_row (payments s) k P ->
  (forall p p', P p -> pay_OrderID p' = pay_OrderID p ->
     (pay_Status p' = pay_Status p \/ pay_Status p' = RecordSucceeded) -> P p') ->
  has_row (payments s') k P.
Proof.
  intros Hs HP Hm. destruct Hs; simpl; eauto.
  - by apply has_row_fresh.
  - apply (has_row_insert _ _ _ _ _ _ H); [done|]. intros _ Hp. by eapply Hm; [| |left].
  - apply (has_row_insert _ _ _ _ _ _ H); [done|]. intros _ Hp. by eapply Hm; [| |right].
Qed.

Lemma step_paid : mstep s s' -> forall oid o, orders s' !! oid = Some o -> ~ unpaid o ->
  exists k, has_row (payments s') k (fun p => pay_OrderID p = oid /\ pay_Status p = RecordSucceeded).
Proof.
  intros Hs oid o Ho Hu.
  assert (Hold : (exists o0, orders s !! oid = Some o0 /\ ~ unpaid o0) \/
    exists k p tx now, payments s' !! k = Some (pay_succeed tx now p) /\ pay_OrderID p = oid).
  { destruct Hs; simpl in *; split_lookups; eauto;
      try (exfalso; by_status); try (left; eexists; split; [eassumption|]; by_prev).
    right. exists k, p, tx, now. by rewrite lookup_insert_eq. }
  destruct Hold as [(o0 & Ho0 & Hu0)|(k & p & tx & now & Hk & <-)].
  - destruct (inv_paid _ I _ _ Ho0 Hu0) as [k Hk]. exists k.
    eapply payments_keep; [done..|]. naive_solver congruence.
  - exists k. by eexists.
Qed.

Lemma step_one_payment : mstep s s' -> forall k1 k2 p1 p2,
  payments s' !! k1 = Some p1 -> payments s' !! k2 = Some p2 ->
  pay_Status p1 = RecordSucceeded -> pay_Status p2 = RecordSucceeded ->
  pay_OrderID p1 = pay_OrderID p2 -> k1 = k2.
Proof.
  intros Hs. pose proof (inv_one_payment _ I) as G. pose proof (inv_payment _ I) as GP.
  destruct Hs; simpl; intros k1 k2 p1 p2 Hk1 Hk2 Hp1 Hp2 Hoid; eauto;
    split_lookups; eauto using eq_sym; exfalso; try congruence;
    match goal with Hk : payments s !! _ = Some ?x, Hx : pay_Status ?x = RecordSucceeded |- _ =>
      destruct (GP _ _ Hk) as [_ Gp] end;
    first [rewrite <- Hoid in Gp | rewrite Hoid in Gp];
    apply (has_row_get _ _ _ _ H1) in Gp as [_ Gp]; by_status.
Qed.

(** An order of the new state that is live comes from a live order of the old
    state for the same item, or has just been created. *)
Lemma live_origin oid o :
  mstep s s' -> orders s' !! oid = Some o -> live o ->
  (exists o0, orders s !! oid = Some o0 /\ live o0 /\ ord_ItemID o0 = ord_ItemID o) \/
  (exists it, orders s !! oid = None /\ items s !! ord_ItemID o = Some it /\
     item_Status it = ItemPublished /\ oid = ord_ID o /\
     items s' = <[ord_ItemID o := item_reserve (ord_ID o) (ord_UpdatedAt o) it]> (items s)).
Proof.
  intros Hs Ho Hl. destruct Hs; simpl in *; split_lookups; eauto 10;
    try (exfalso; by_status);
    left; (eexists; split; [eassumption|]; split; [by_prev|done]).
Qed.

Lemma published_free oid o it :
  orders s !! oid = Some o -> live o -> items s !! ord_ItemID o = Some it ->
  item_Status it ∉ [ItemDraft; ItemPublished].
Proof.
  intros Ho Hl Hi. pose proof (inv_item _ I _ _ Ho Hl) as Hh.
  by apply (has_row_get _ _ _ _ Hi) in Hh as [? _].
Qed.

Lemma step_excl : mstep s s' -> forall i j o1 o2,
  orders s' !! i = Some o1 -> orders s' !! j = Some o2 -> live o1 -> live o2 ->
  ord_ItemID o1 = ord_ItemID o2 -> i = j.
Proof.
  intros Hs i j o1 o2 H1 H2 L1 L2 He.
  destruct (live_origin _ _ Hs H1 L1) as [(x1 & X1 & Lx1 & E1)|(t1 & N1 & T1 & P1 & K1 & U1)];
    destruct (live_origin _ _ Hs H2 L2) as [(x2 & X2 & Lx2 & E2)|(t2 & N2 & T2 & P2 & K2 & U2)].
  - eapply (inv_excl _ I); eauto. congruence.
  - exfalso. assert (Ht : items s !! ord_ItemID x1 = Some t2) by congruence.
    apply (published_free _ _ _ X1 Lx1 Ht). rewrite P2. right; left.
  - exfalso. assert (Ht : items s !! ord_ItemID x2 = Some t1) by congruence.
    apply (published_free _ _ _ X2 Lx2 Ht). rewrite P1. right; left.
  - assert (Hin : forall t, ord_ItemID o1 = ord_ItemID o2 -> items s' !! ord_ItemID o1 = Some t ->
      Some (ord_ID o1) = Some (ord_ID o2)).
    { intros t Heq Ht. rewrite U1, lookup_insert_eq in Ht.
      assert (Ht2 : items s' !! ord_ItemID o2 = Some (item_reserve (ord_ID o2) (ord_UpdatedAt o2) t2))
        by (by rewrite U2, lookup_insert_eq).
      rewrite <- Heq, U1, lookup_insert_eq in Ht2. unfold item_reserve in *. congruence. }
    rewrite K1, K2. injection (Hin _ He (eq_trans (f_equal (fun m => m !! ord_ItemID o1) U1)
      (lookup_insert_eq _ _ _))). done.
Qed.

Lemma step_item : mstep s s' -> forall oid o, orders s' !! oid = Some o -> live o ->
  has_row (items s') (ord_ItemID o) (holds_item oid).
Proof.
  intros Hs oid o Ho Hl.
  destruct (live_origin _ _ Hs Ho Hl) as [(o0 & Ho0 & Hl0 & <-)|(it & _ & _ & _ & -> & ->)];
    [|apply has_row_new; by_status].
  pose proof (inv_item _ I _ _ Ho0 Hl0) as Hh. pose proof (fun it => published_free _ _ it Ho0 Hl0) as Hf.
  destruct Hs; simpl in *; eauto;
    try (by apply has_row_fresh);
    try (by match goal with H : items s !! ?i = Some _ |- has_row (<[?i := _]> _) _ _ =>
      apply (has_row_insert _ _ _ _ _ _ H); [done|]; by_status end);
    try (apply has_row_update_at; [done|]; intros ? _ _ _ _; split; by_status).
  - (* cancel *)
    apply has_row_update_at; [done|]. intros r _ Heq _ _. exfalso.
    assert (oid = oid0) as -> by (eapply (inv_excl _ I); eauto; by_status).
    split_lookups. by_status.
Qed.

Theorem market_Inv_step : mstep s s' -> Inv s'.
Proof.
  intros Hs. split; eauto using step_item, step_excl, step_pending, step_refunded, step_dispute,
    step_settled, step_payment, step_paid, step_one_payment, step_money, step_goods, step_rates.
Qed.
End step.

(** Every reachable marketplace satisfies the invariants. *)
Theorem Inv_reachable s : reachable s -> Inv s.
Proof.
  intros Hr. apply (rtc_invariant _ Inv) in Hr; [done| |apply market_Inv_empty].
  intros x y Hx (Hw & Hs & _). by apply (market_Inv_step x y).
Qed.
End MarketInv.
