(* ===== verification/MarketRefine.v ===== *)
(** * Marketplace: the repository implements the specification

    For every repository method that writes: an error leaves the database as it
    was (the transaction rolls back, whichever statement failed), and a normal
    return performs at most one transition of [mstep]. *)
From S2P Require Import Prelude GoString GoMonad Sql Safe MarketModel MarketRepo MarketSpec.
From S2P Require Import MarketSpec.

Module MarketRefine.
Import Safe.
Import Market MarketRepo MarketSpec MarketInv.

Section base.
Context {E : Env} {D : SqlEngine}.
Implicit Types (w : World DB).

(** An error changes nothing; a return performs at most one transition. *)
Definition atomic {A} w (r : res A) w' : Prop :=
  match r with
  | Err _ => st w' = st w
  | Ok _ => st w' = st w \/ mstep (st w) (st w')
  end.

Lemma view_keyed {R} {HE : Entity R} (t : table R HE) : keyed (view t).
Proof. split; [apply view_key|apply view_unique]. Qed.

Lemma market_st_wf w : wf (st w).
Proof. split; apply view_keyed. Qed.

(** ** Symbolic execution of repository code *)

Lemma market_wp_gormDB (Q : res unit -> World DB -> Prop) w :
  Q (Ok tt) w ->
  (db_nil (w_db w) = true -> Q (Err (ENew "marketplace database not initialized")) w) ->
  wp gormDB Q w.
Proof. unfold wp, gormDB, bind, get_db. simpl. destruct (db_nil (w_db w)); auto. Qed.

(** Reads leave the database alone. *)
Lemma reads_preload_category it : reads (preload_category it).
Proof. apply reads_bind; [apply reads_find|]. done. Qed.
Lemma reads_preload_item o : reads (preload_item o).
Proof.
  apply reads_bind; [apply reads_find|]. intros []; [done|].
  apply reads_bind; [apply reads_preload_category|]. done.
Qed.
Lemma reads_take_preloaded id : reads (take_preloaded id).
Proof. apply reads_bind; [apply reads_take|]. apply reads_preload_item. Qed.
Lemma market_reads_gormDB : reads gormDB.
Proof. apply reads_bind; [done|]. intros s. by destruct (db_nil s). Qed.

(** The preloads of a found order do not fail by themselves. *)
Lemma wp_preload_category it (Q : res (Item * Category) -> World DB -> Prop) w :
  (env_fault (w_tick w) = true -> Q (Err (EDriver infra_text)) (bump w)) ->
  (forall ic, ic.1 = it -> Q (Ok ic) (bump w)) ->
  wp (preload_category it) Q w.
Proof.
  intros Hf Hok. apply wp_bind, wp_find; cbv beta iota; [done|].
  intros l _. apply wp_ret, Hok. done.
Qed.

Lemma wp_take_preloaded id o (Q : res (Order * (Item * Category)) -> World DB -> Prop) w :
  (forall n, env_fault n = false) -> vw Order w !! id = Some o ->
  (forall ic w', w_db w' = w_db w -> w_out w' = w_out w -> Q (Ok (o, ic)) w') ->
  wp (take_preloaded id) Q w.
Proof.
  intros NF Ho Hok. apply wp_bind, wp_take_byid; cbv beta iota.
  - by rewrite NF.
  - intros Hno. by specialize (Hno _ Ho).
  - intros o' Ho' _. simplify_eq. unfold preload_item.
    apply wp_bind, wp_find; cbv beta iota; [by rewrite NF|].
    intros [|it l] _; [by apply wp_ret, Hok|].
    apply wp_bind, wp_preload_category; cbv beta iota; [by rewrite NF|].
    intros ic _. by apply wp_ret, Hok.
Qed.
End base.

(** Bring the database of the current world to its abstract contents. *)
Ltac db_simpl :=
  unfold now_db, vw in *; simpl in *;
  repeat match goal with
  | H : _ /\ _ |- _ => destruct H
  | H : w_db ?w' = _, H2 : context [w_db ?w'] |- _ => rewrite H in H2
  | H : w_db ?w' = _ |- context [w_db ?w'] => rewrite H
  | H : abs (w_db ?w') = _ |- context [abs (w_db ?w')] => rewrite H
  | H : abs (w_db ?w') = _, H2 : context [abs (w_db ?w')] |- _ =>
    lazymatch H2 with H => fail | _ => rewrite H in H2 end
  end; simpl in *.

(** Close the branches that end with an error or without a change. *)
Ltac unchanged := unfold atomic, st; simpl; solve [done | by left | db_simpl; auto].

Ltac exec_step :=
  match goal with
  | |- wp gormDB _ _ => apply market_wp_gormDB; [|try unchanged]
  | |- wp (transaction _) _ _ => apply wp_transaction
  | |- wp (if _ then _ else _) _ _ => apply wp_if; intros ?
  | |- wp (take_preloaded _) _ _ => apply wp_reads; [apply reads_take_preloaded|intros [?|?] ? ? ?]
  | |- wp (take _ (byid _ _)) _ _ => apply wp_take_byid
  | |- wp (take _ _) _ _ => apply wp_take
  | |- wp (update _ (byid _ _) _) _ _ => apply wp_update_byid; [done| | |]
  | |- wp (insert _ _) _ _ => apply wp_insert
  | |- wp (insert_ignore _ _) _ _ => apply wp_insert_ignore
  | |- wp (count _ _) _ _ => apply wp_count
  | |- _ => wp_step
  end; intros; cbv beta iota.

Ltac exec := repeat (exec_step; try unchanged).


(** Facts about the rows a statement found. *)
Ltac row_facts :=
  unfold is_status, reserved_by, status_in in *; bools;
  repeat match goal with
  | H : vw Order _ !! _ = Some ?o |- _ =>
    lazymatch goal with K : ord_ID o = _ |- _ => fail | _ => pose proof (vw_key _ _ _ _ H : ord_ID o = _) end
  | H : vw Item _ !! _ = Some ?o |- _ =>
    lazymatch goal with K : item_ID o = _ |- _ => fail | _ => pose proof (vw_key _ _ _ _ H : item_ID o = _) end
  | H : vw Refund _ !! _ = Some ?o |- _ =>
    lazymatch goal with K : rf_ID o = _ |- _ => fail | _ => pose proof (vw_key _ _ _ _ H : rf_ID o = _) end
  | H : vw Dispute _ !! _ = Some ?o |- _ =>
    lazymatch goal with K : dp_ID o = _ |- _ => fail | _ => pose proof (vw_key _ _ _ _ H : dp_ID o = _) end
  end.

Lemma mstep_eq s s1 s2 : mstep s s1 -> s1 = s2 -> mstep s s2.
Proof. by intros ? <-. Qed.

(** The end of a transaction that committed: name the transition, then compare
    the abstract states. *)
Ltac hit :=
  repeat match goal with
  | H : ?m !! ?k = Some ?r |- context [update_at ?k ?p ?f ?m] =>
    rewrite (update_at_hit k p f m r H) by
      (unfold always; simpl; rewrite ?andb_true_iff, ?bool_decide_eq_true; auto)
  end.
Ltac keys :=
  repeat match goal with
  | H : item_ID ?r = ?k |- _ => progress (rewrite H in * )
  | H : ord_ID ?r = ?k |- _ => progress (rewrite H in * )
  | H : ~ (_ <> _) |- _ => apply dec_stable in H
  end.

Ltac commit tac :=
  split; [done|right]; row_facts; unfold st in *; db_simpl; subst; keys; hit;
  eapply mstep_eq; [tac | reflexivity].

Lemma set_categories_get s : set_categories (categories s) s = s.
Proof. by destruct s. Qed.
Lemma set_items_get s : set_items (items s) s = s.
Proof. by destruct s. Qed.
Lemma set_settlements_get s : set_settlements (settlements s) s = s.
Proof. by destruct s. Qed.
Lemma set_payments_get s : set_payments (payments s) s = s.
Proof. by destruct s. Qed.

(** [RowsAffected != 1] cannot happen when the guarded row was just read and the
    update changes it. *)
Ltac row_guard := simpl; rewrite ?bool_decide_eq_true; auto.
Ltac changed Heq :=
  first [ apply (f_equal ord_Status) in Heq | apply (f_equal item_Status) in Heq
        | apply (f_equal rf_Status) in Heq ];
  simpl in Heq; congruence.
Ltac affected :=
  exfalso; row_facts; db_simpl;
  match goal with
  | Hn : forall x, ?m !! ?k = Some x -> _ -> ?n = 1%Z \/ _, Hk : ?m !! ?k = Some ?r |- _ =>
    let Heq := fresh in
    destruct (Hn r Hk) as [Heq|Heq]; [row_guard | congruence | changed Heq]
  end.

(** A single conditional update of one row: split on whether a row matched. *)
Ltac one_update :=
  unfold atomic, st; db_simpl;
  match goal with
  | |- context [update_at ?k ?p ?f ?m] =>
    destruct (update_at_cases k p f m) as [(? & ? & ? & ->)| ->];
    [right|left; by rewrite ?set_items_get, ?set_categories_get, ?set_settlements_get, ?set_payments_get]
  end; row_facts.

(** An update outside a transaction that reports no affected row. *)
Ltac no_change :=
  unfold atomic, st; db_simpl; bools; rewrite update_at_same;
  [by rewrite ?set_items_get, ?set_categories_get, ?set_settlements_get, ?set_payments_get
  |intros ? Hk Hp;
   match goal with
   | Hn : forall x, _ -> _ -> ?n = 1%Z \/ _ |- _ =>
     destruct (Hn _ Hk Hp); [congruence|done]
   end].

Section guards.
Context {E : Env} {D : SqlEngine}.
Implicit Types (w : World DB).

(** ** Guards over several rows *)

Lemma not_neither a b o :
  negb (is_status a o) && negb (is_status b o) = false -> ord_Status o ∈ [a; b].
Proof. unfold is_status. rewrite in2. intros [?|?]%andb_false_iff; bools; auto. Qed.

Lemma not_either (a b : Z) x :
  negb (a =? x)%Z && negb (b =? x)%Z = false -> a = x \/ b = x.
Proof. intros [?|?]%andb_false_iff; bools; auto. Qed.

Lemma no_rows {R} (p : R -> bool) (m : gmap Z R) :
  (0 <? Z.of_nat (size (matching p m)))%Z = false -> forall k r, m !! k = Some r -> p r = false.
Proof.
  intros H k r Hk. destruct (p r) eqn:Hp; [exfalso|done]. bools.
  assert (Hs : size (matching p m) = 0%nat) by lia.
  apply map_size_empty_inv in Hs.
  assert (Hm : matching p m !! k = Some r) by (by apply lookup_matching).
  by rewrite Hs, lookup_empty in Hm.
Qed.

Lemma no_pending oid w :
  (0 <? Z.of_nat (size (matching (pending_refund_of oid) (vw Refund w))))%Z = false ->
  no_pending_refund oid (st w).
Proof.
  intros H k r Hk Ho Hs. pose proof (no_rows _ _ H _ _ Hk) as Hp.
  unfold pending_refund_of in Hp. rewrite Ho, Z.eqb_refl in Hp. simpl in Hp. by bools.
Qed.

End guards.

(** Collect these guards from the branch conditions. *)
Ltac guards :=
  repeat match goal with
  | H : _ || _ = false |- _ => apply orb_false_iff in H as [? H]
  | H : negb (is_status _ _) && negb (is_status _ _) = false |- _ => apply not_neither in H
  | H : negb (_ =? _)%Z && negb (_ =? _)%Z = false |- _ => apply not_either in H
  | H : (0 <? Z.of_nat (size (matching (pending_refund_of _) (vw Refund _))))%Z = false |- _ =>
    apply no_pending in H
  end.

Section refine.
Context {E : Env} {D : SqlEngine}.
Implicit Types (w : World DB).

Lemma CancelOrder_atomic id buyer now w :
  wp (CancelOrder id buyer now) (atomic w) w.
Proof.
  unfold CancelOrder, transitionOrder. exec. commit ltac:(eapply m_cancel; eauto).
Qed.

Lemma MarkDelivered_atomic id seller now w :
  wp (MarkDelivered id seller now) (atomic w) w.
Proof.
  unfold MarkDelivered, transitionOrder. exec. commit ltac:(eapply m_deliver; eauto).
Qed.


Lemma ExpireOrder_atomic id now w :
  wp (ExpireOrder id now) (atomic w) w.
Proof.
  unfold ExpireOrder. exec; [affected|]. commit ltac:(eapply m_cancel; eauto).
Qed.

Lemma UpdateItem_atomic it owner w :
  good_price it -> wp (UpdateItem it owner) (atomic w) w.
Proof.
  intros Hp. unfold UpdateItem. exec. one_update. by eapply m_update_item.
Qed.

Lemma WithdrawItem_atomic id owner now w :
  wp (WithdrawItem id owner now) (atomic w) w.
Proof. unfold WithdrawItem. exec. one_update. by eapply m_withdraw_item. Qed.

Lemma HideItem_atomic id now w :
  wp (HideItem id now) (atomic w) w.
Proof.
  unfold HideItem. exec.
  all: try (destruct (item_ReservedOrderID r) eqn:?; exec).
  all: commit ltac:(first [by eapply m_hide_cancel | by eapply m_hide_item]).
Qed.

Lemma CreateItem_atomic it w :
  item_Status it ∈ [ItemDraft; ItemPublished] -> item_ReservedOrderID it = None ->
  good_price it -> wp (CreateItem it) (atomic w) w.
Proof.
  intros ???. unfold CreateItem. exec. unfold atomic, st. right. db_simpl.
  by apply m_create_item.
Qed.

Lemma CreateOrder_atomic o w :
  ord_Status o = OrderPendingPayment -> wp (CreateOrder o) (atomic w) w.
Proof.
  intros Ho. unfold CreateOrder. exec.
  commit ltac:(by eapply (m_create_order _ (order_priced r r0 o))).
Qed.

Lemma CreateOrFindPayment_atomic p w :
  pay_Status p = RecordPending ->
  has_row (orders (st w)) (pay_OrderID p) (fun o => pay_AmountCents p = ord_PriceCents o) ->
  wp (CreateOrFindPayment p) (atomic w) w.
Proof.
  intros Hp (o & Ho & Ha). unfold CreateOrFindPayment. exec.
  commit ltac:(simplify_eq; by eapply (m_create_payment _ p o)).
Qed.

Lemma AttachPaymentTransaction_atomic k tx now w :
  wp (AttachPaymentTransaction k tx now) (atomic w) w.
Proof.
  unfold AttachPaymentTransaction. exec; [no_change|]. one_update. by apply m_attach_payment.
Qed.

Lemma pending_payment s k p :
  Inv s -> payments s !! k = Some p -> pay_Status p <> RecordSucceeded ->
  pay_Status p = RecordPending.
Proof.
  intros I Hk Hn. destruct (inv_payment _ I _ _ Hk) as [Hs _].
  apply in2 in Hs as [|]; done.
Qed.

Lemma ApplyPaymentCallback_atomic req tx amount now w :
  Inv (st w) -> wp (ApplyPaymentCallback req tx amount now) (atomic w) w.
Proof.
  intros I. unfold ApplyPaymentCallback. exec.
  pose proof (pending_payment _ _ _ I H) as Hp.
  commit ltac:(eapply m_pay; eauto).
Qed.

Lemma atomic_from {A} w1 w2 (r : res A) w' :
  st w2 = st w1 -> atomic w2 r w' -> atomic w1 r w'.
Proof. unfold atomic. by intros ->. Qed.

(** Overwriting the row that holds a category's key or name. *)
Lemma overwrite_category c w p f w' :
  good_rate c -> (forall x, good_rate (f x) /\ cat_ID (f x) = cat_ID x) -> holds Category c w p ->
  now_db (aset (upd_view p f (vw Category w)) (abs (w_db w))) w w' ->
  atomic w (Ok tt) w'.
Proof.
  intros Hc Hf Hp Hw. pose proof (vw_unique Category w) as Hu.
  destruct (upd_view_single p f (vw Category w)) as [He|(k & r & Hk & _ & He)].
  - intros k1 k2 r1 r2 H1 H2 P1 P2. destruct (decide (k1 = k2)) as [|Hne]; [done|exfalso].
    destruct Hp as [Hp|[_ Hp]].
    + apply Hne. rewrite <- (vw_key Category w _ _ H1), <- (vw_key Category w _ _ H2).
      etrans; [by apply Hp|symmetry; by apply Hp].
    + specialize (Hu _ _ _ _ H1 H2 Hne). apply Hp in P1, P2. simpl in *.
      rewrite !String.eqb_eq in P1, P2. apply String.eqb_neq in Hu. destruct P1, P2; congruence.
  - left. rewrite He in Hw. unfold st. db_simpl. apply set_categories_get.
  - right. rewrite He in Hw. pose proof (vw_key Category w _ _ Hk) as Hid. simpl in Hid. destruct (Hf r) as [Hg Hfid].
    unfold st. db_simpl. replace k with (cat_ID (f r)) by congruence. by apply m_save_category.
Qed.

Lemma insert_over_atomic c w :
  good_rate c -> wp (insert_over Category category_over c) (atomic w) w.
Proof.
  intros Hc. apply (wp_insert_over Category); [done|done|done|..].
  - intros w' Hw _. right. unfold st. db_simpl. by apply m_save_category.
  - intros p w' Hw Hp. apply (overwrite_category c w p (category_over c)); [done|by split|done|done].
Qed.

Lemma SaveCategory_atomic c w :
  good_rate c -> wp (SaveCategory c) (atomic w) w.
Proof.
  intros Hc. unfold SaveCategory, save. exec.
  - assert (Hw : st w' = st w).
    { unfold st. db_simpl. bools. rewrite update_at_same; [apply set_categories_get|].
      intros r Hk Hp. destruct (H1 r Hk Hp); [congruence|done]. }
    eapply wp_mono; [by apply insert_over_atomic|].
    intros r w2. by apply atomic_from.
  - one_update. by apply (m_save_category _ (category_touched _ c)).
Qed.

Lemma CreateRefund_atomic r w :
  rf_Status r = RecordPending -> wp (CreateRefund r) (atomic w) w.
Proof.
  intros Hr. unfold CreateRefund. exec. guards.
  commit ltac:(by eapply (m_request_refund _ (refund_of r0 r) r0)).
Qed.

Lemma pending_open s k r o :
  Inv s -> refunds s !! k = Some r -> rf_Status r = RecordPending ->
  orders s !! rf_OrderID r = Some o -> ord_Status o ∈ [OrderPaid; OrderDelivered].
Proof.
  intros I Hk Hr Ho. exact (has_row_get _ _ _ _ Ho (inv_pending _ I _ _ Hk Hr)).
Qed.

Lemma open_refundable o : ord_Status o ∈ [OrderPaid; OrderDelivered] -> refundable o = true.
Proof.
  unfold refundable. intros [H|H]%in2; apply bool_decide_eq_true; rewrite H; set_solver.
Qed.

Lemma DecideRefund_atomic id admin ok gw now w :
  Inv (st w) -> wp (DecideRefund id admin ok gw now) (atomic w) w.
Proof.
  intros I. unfold DecideRefund. destruct ok; exec.
  - assert (Hr : rf_Status r = RecordPending) by (by bools).
    pose proof (pending_open _ _ _ _ I H Hr H2) as Ho.
    pose proof (open_refundable _ Ho).
    commit ltac:(by eapply m_approve_refund).
  - commit ltac:(by eapply m_reject_refund).
Qed.

Lemma CreateDispute_atomic d now w :
  dp_Status d = DisputePending -> wp (CreateDispute d now) (atomic w) w.
Proof.
  intros Hd. unfold CreateDispute. exec. guards.
  commit ltac:(by eapply (m_dispute _ (dispute_of r d) r)).
Qed.

(** The two outcomes of [INSERT .. ON DUPLICATE KEY UPDATE]. *)
Lemma kept {R} {HE : Entity R} {HT : Tbl DB State R HE _} (r : R) w :
  insert_conflict R r w -> inserted_or_kept r (vw R w) (vw R w).
Proof. right. done. Qed.
Lemma inserted {R} {HE : Entity R} {HT : Tbl DB State R HE _} (r : R) w :
  vw R w !! ent_id r = None -> inserted_or_kept r (vw R w) (<[ent_id r := r]> (vw R w)).
Proof. left. done. Qed.

Lemma set_refunds_get s : set_refunds (refunds s) s = s.
Proof. by destruct s. Qed.

Lemma ResolveDispute_atomic id admin act res gw rf now w :
  Inv (st w) -> wp (ResolveDispute id admin act res gw rf now) (atomic w) w.
Proof.
  intros I. unfold ResolveDispute. destruct (String.eqb act "refund"); exec.
  - pose proof (kept _ _ H3).
    commit ltac:(eapply m_dispute_refund; eauto).
  - pose proof (inserted _ _ H4).
    commit ltac:(eapply m_dispute_refund; eauto).
  - destruct (inv_dispute _ I _ _ H) as [Hprev _].
    rewrite bool_decide_eq_false_2 by (intros Heq; rewrite Heq in Hprev; set_solver).
    exec. commit ltac:(by eapply m_resume).
Qed.

(** Both ways of completing an order share [completeOrderTx]. *)
Lemma wp_completeOrderTx id r sm now w :
  vw Order w !! id = Some r -> is_status OrderDelivered r = true ->
  wp (completeOrderTx r (settle_for r sm) now) (fun res w' =>
    match res with Ok _ => mstep (st w) (st w') | Err _ => True end) w.
Proof.
  intros Hr Hs. unfold completeOrderTx. exec; try done; guards.
  all: match goal with
    | H : insert_conflict _ _ _ |- _ => pose proof (kept _ _ H)
    | H : vw Settlement _ !! _ = None |- _ => pose proof (inserted _ _ H)
    end; row_facts; unfold st in *; db_simpl; subst; keys; hit;
    (eapply mstep_eq; [eapply m_complete; eauto|reflexivity]).
Qed.

Ltac complete_order :=
  eapply wp_mono; [eapply wp_completeOrderTx; [eassumption|by bools]|];
  intros [[]|?] ? Hm; cbv beta iota; [exec|unchanged];
  (split; [done|right]); unfold st in *; db_simpl; exact Hm.

Lemma ConfirmReceived_atomic id buyer sm now w :
  wp (ConfirmReceived id buyer sm now) (atomic w) w.
Proof. unfold ConfirmReceived, transitionOrder. exec. complete_order. Qed.

Lemma AutoCompleteOrder_atomic id cutoff sm now w :
  wp (AutoCompleteOrder id cutoff sm now) (atomic w) w.
Proof. unfold AutoCompleteOrder. exec. complete_order. Qed.

Lemma UpdateSettlement_atomic id status gw now w :
  wp (UpdateSettlement id status gw now) (atomic w) w.
Proof. unfold UpdateSettlement. exec. one_update. by eapply m_settlement. Qed.
End refine.
End MarketRefine.
