(* ===== verification/MarketService.v ===== *)
(** * Marketplace: the service

    [internal/marketplace/gateway.go], [service.go], [service_order.go],
    [service_admin.go] and [service_jobs.go], one definition per method.  The
    collaborators behind Go interfaces (seller verifier, capability checker,
    notifier, word filter, payment gateway) are fields of [Service]; what is sent
    to the notifier and the gateway is also recorded in the world's event log. *)
From S2P Require Import Prelude GoString GoTime GoMonad Sql Platform.
From S2P Require Import MarketModel MarketRepo.

Module MarketService.
Import Market MarketResp Pagination.

(** ** errors.go *)
Definition ErrCategoryNotFound : error := Bizerr.NotFound "商品类目不存在".
Definition ErrItemNotFound : error := Bizerr.NotFound "商品不存在".
Definition ErrItemUnavailable : error := Bizerr.Biz "商品当前不可购买".
Definition ErrOwnItem : error := Bizerr.Biz "不能购买自己的商品".
Definition ErrOrderNotFound : error := Bizerr.NotFound "订单不存在".
Definition ErrOrderState : error := Bizerr.Biz "订单当前状态不允许此操作".
Definition ErrPaymentDisabled : error := Bizerr.Biz "当前环境未启用支付网关".
Definition ErrPaymentInvalid : error := Bizerr.Biz "支付回调不合法".
Definition ErrRefundExists : error := Bizerr.Biz "该订单已提交退款".
Definition ErrDisputeExists : error := Bizerr.Biz "该订单已提交纠纷".
Definition ErrSettlementState : error := Bizerr.Biz "结算记录当前不可处理".

(** ** Pure helpers of service.go *)

Definition parseMarketplaceID (raw : string) : res Z :=
  match GoStr.ParseInt (GoStr.TrimSpace raw) with
  | Some value => if (value <=? 0)%Z then Err (Bizerr.Param "ID格式错误") else Ok value
  | None => Err (Bizerr.Param "ID格式错误")
  end.

Definition normalizeMarketplacePage (page size : Z) : Z * Z :=
  let page := if (page <=? 0)%Z then 1%Z else page in
  let size := if (size <=? 0)%Z then 15%Z else size in
  let size := if (100 <? size)%Z then 100%Z else size in
  (page, size).

Definition image_ok (image : string) : bool :=
  bool_decide (GoStr.hex_decoded_length (GoStr.TrimSpace image) = Some 16%Z).

Definition validateImages (images : list string) : res unit :=
  if (Z.of_nat (length images) =? 0)%Z || (9 <? Z.of_nat (length images))%Z
  then Err (Bizerr.Param "商品图片数量必须为1到9张")
  else if forallb image_ok images then Ok tt
  else Err (Bizerr.Param "商品图片引用不合法").

(** The two statuses [ItemReq] admits; [None] is any other text. *)
Definition request_status (status : string) : option ItemStatus :=
  if String.eqb status "" then Some ItemDraft
  else if String.eqb status "draft" then Some ItemDraft
  else if String.eqb status "published" then Some ItemPublished
  else None.

Definition blank (s : string) : bool := String.eqb (GoStr.TrimSpace s) "".

Definition orderPaymentWindow : Z := 15 * GoTime.Minute.
Definition autoCompleteDelay : Z := 48 * GoTime.Hour.

Section service.
Context {E : Env} {D : SqlEngine}.
Notation M := (M DB).

(** ** gateway.go *)

Record Gateway := mkGateway {
  gw_Name : string;
  gw_CreatePayment : string -> Z -> M string;
  gw_Refund : string -> Z -> M string;
  gw_Settle : string -> Z -> M string;
}.

Definition testGateway : Gateway := {|
  gw_Name := "test";
  gw_CreatePayment requestID _ := ret ("test-pay-" ++ requestID)%string;
  gw_Refund requestID _ := ret ("test-refund-" ++ requestID)%string;
  gw_Settle requestID _ := ret ("test-settlement-" ++ requestID)%string;
|}.

Definition disabledGateway : Gateway := {|
  gw_Name := "disabled";
  gw_CreatePayment _ _ := throw ErrPaymentDisabled;
  gw_Refund _ _ := throw ErrPaymentDisabled;
  gw_Settle _ _ := throw ErrPaymentDisabled;
|}.

Definition NewGateway (profile : string) : Gateway :=
  let profile := GoStr.ToLower (GoStr.TrimSpace profile) in
  let profile := if String.eqb profile "" then "dev"%string else profile in
  if String.eqb profile "dev" || String.eqb profile "test" then testGateway
  else disabledGateway.

(** ** service.go *)

Record Service := mkService {
  verifier : option (Z -> M unit);
  capabilities : option (Z -> Z -> string -> M unit);
  notifier : option (Z -> string -> string -> string -> string -> M unit);
  filter : option (string -> M string);
  gateway : Gateway;
}.

Definition NewService (g : option Gateway) : Service :=
  mkService None None None None (match g with Some g => g | None => disabledGateway end).

Context (s : Service).

Definition notify (rootUserID : Z) (eventType title content resourceID : string) : M unit :=
  match notifier s with
  | Some f =>
    emit (EvNotify rootUserID eventType title content resourceID);;
    let! _ := attempt (f rootUserID eventType title content resourceID) in ret tt
  | None => ret tt
  end.

Definition gateway_CreatePayment (requestID : string) (amount : Z) : M string :=
  emit (EvGateway "createPayment" requestID amount);; gw_CreatePayment (gateway s) requestID amount.
Definition gateway_Refund (requestID : string) (amount : Z) : M string :=
  emit (EvGateway "refund" requestID amount);; gw_Refund (gateway s) requestID amount.
Definition gateway_Settle (requestID : string) (amount : Z) : M string :=
  emit (EvGateway "settle" requestID amount);; gw_Settle (gateway s) requestID amount.

Definition checkCapability (userID rootUserID : Z) (capability : string) : M unit :=
  match capabilities s with
  | Some check => check userID rootUserID capability
  | None => ret tt
  end.

Definition checkNewListing (userID rootUserID : Z) : M unit :=
  match verifier s with
  | None => throw (Bizerr.Internal "卖家认证能力未配置")
  | Some verify =>
    verify rootUserID;;
    checkCapability userID rootUserID "content";;
    checkCapability userID rootUserID "trade"
  end.

Definition checkTrade (userID rootUserID : Z) : M unit := checkCapability userID rootUserID "trade".

Definition filterText (value : string) : M string :=
  match filter s with Some f => f value | None => ret value end.

Definition ListCategories (includeDisabled : bool) : M (list CategoryResponse) :=
  let! items := internal "查询商品类目失败" (MarketRepo.ListCategories includeDisabled) in
  ret (categoryResponse <$> items).

Definition SaveCategory (categoryID : string) (req : CategoryReq) : M CategoryResponse :=
  let name := GoStr.TrimSpace (creq_Name req) in
  if String.eqb name "" then throw (Bizerr.Param "类目名称不能为空")
  else
    let rate := match creq_CommissionRateBps req with
                | Some r => r | None => DefaultCommissionRateBps end in
    let! t := now in
    let! newID := Generate in
    let item := mkCategory newID name rate StatusActive t t in
    let! item :=
      (if negb (String.eqb (GoStr.TrimSpace categoryID) "") then
        let! id := of_res (parseMarketplaceID categoryID) in
        let! existing := internal "查询商品类目失败" (MarketRepo.FindCategory id) in
        match existing with
        | None => throw ErrCategoryNotFound
        | Some ex =>
          ret {| item with
            cat_ID := cat_ID ex; cat_Status := cat_Status ex; cat_CreatedAt := cat_CreatedAt ex;
            cat_CommissionRateBps :=
              match creq_CommissionRateBps req with
              | None => cat_CommissionRateBps ex | Some _ => rate end |}
        end
      else ret item) in
    internal "保存商品类目失败" (MarketRepo.SaveCategory item);;
    ret (categoryResponse item).

(** [itemFromRequest]: the row is returned with the fields the callers fill in
    still zero. *)
Definition itemFromRequest (req : ItemReq) : M Item :=
  let! categoryID := of_res (parseMarketplaceID (ireq_CategoryID req)) in
  let! category := found ErrCategoryNotFound (MarketRepo.FindCategory categoryID) in
  if negb (bool_decide (cat_Status category = StatusActive)) then throw ErrCategoryNotFound
  else if (ireq_PriceCents req <=? 0)%Z then throw (Bizerr.Param "商品价格必须大于0")
  else
    of_res (validateImages (ireq_Images req));;
    let! title := filterText (ireq_Title req) in
    let! description := filterText (ireq_Description req) in
    let! location := filterText (ireq_DeliveryLocation req) in
    let condition := GoStr.TrimSpace (ireq_Condition req) in
    match request_status (GoStr.TrimSpace (ireq_Status req)) with
    | Some status =>
      if blank title || blank description || String.eqb condition "" || blank location
      then throw (Bizerr.Param "商品参数错误")
      else ret (mkItem 0 0 0 categoryID (GoStr.TrimSpace title) (GoStr.TrimSpace description)
        condition (ireq_PriceCents req) (ireq_Images req) (GoStr.TrimSpace location) status None
        GoTime.zero_time GoTime.zero_time)
    | None => throw (Bizerr.Param "商品参数错误")
    end.

Definition CreateItem (userID rootUserID : Z) (req : ItemReq) : M ItemResponse :=
  checkNewListing userID rootUserID;;
  let! item := itemFromRequest req in
  let! t := now in
  let! id := Generate in
  let item := {| item with item_ID := id; item_SellerRootUserID := rootUserID;
                 item_SellerUserID := userID; item_CreatedAt := t; item_UpdatedAt := t |} in
  internal "创建商品失败" (MarketRepo.CreateItem item);;
  let! category := attempt (MarketRepo.FindCategory (item_CategoryID item)) in
  ret (itemResponse (item, match category with Ok (Some c) => c | _ => zero_Category end)).

Definition UpdateItem (userID rootUserID : Z) (itemID : string) (req : ItemReq) : M ItemResponse :=
  checkNewListing userID rootUserID;;
  let! id := of_res (parseMarketplaceID itemID) in
  let! current := found ErrItemNotFound (MarketRepo.FindItem id) in
  if negb (item_SellerRootUserID (current.1) =? rootUserID)%Z then throw ErrItemNotFound
  else
    let! item := itemFromRequest req in
    let! t := now in
    let item := {| item with item_ID := id; item_UpdatedAt := t;
      item_Status := if String.eqb (GoStr.TrimSpace (ireq_Status req)) ""
                     then item_Status (current.1) else item_Status item |} in
    let! ok := internal "更新商品失败" (MarketRepo.UpdateItem item rootUserID) in
    if negb ok then throw ErrItemNotFound
    else
      let! updated := found ErrItemNotFound (MarketRepo.FindItem id) in
      ret (itemResponse updated).

Definition WithdrawItem (rootUserID : Z) (itemID : string) : M unit :=
  let! id := of_res (parseMarketplaceID itemID) in
  let! t := now in
  let! ok := internal "下架商品失败" (MarketRepo.WithdrawItem id rootUserID t) in
  if negb ok then throw ErrItemNotFound else ret tt.

Definition visible_to (rootUserID : Z) (item : Item) : bool :=
  (item_SellerRootUserID item =? rootUserID)%Z
  || bool_decide (item_Status item ∈ [ItemPublished; ItemReserved; ItemSold]).

Definition ItemDetail (rootUserID : Z) (itemID : string) : M ItemResponse :=
  let! id := of_res (parseMarketplaceID itemID) in
  let! item := internal "查询商品失败" (MarketRepo.FindItem id) in
  match item with
  | Some it => if visible_to rootUserID (it.1) then ret (itemResponse it) else throw ErrItemNotFound
  | None => throw ErrItemNotFound
  end.

Definition SearchItems (rootUserID : Z) (mine : bool) (keyword categoryID : string)
    (page size : Z) : M (PageResult ItemResponse) :=
  let! category :=
    (if negb (String.eqb (GoStr.TrimSpace categoryID) "")
     then of_res (parseMarketplaceID categoryID) else ret 0%Z) in
  let (page, size) := normalizeMarketplacePage page size in
  let! r := internal "搜索商品失败"
    (MarketRepo.SearchItems rootUserID mine keyword category page size) in
  ret (NewPageResult (itemResponse <$> (r.1)) (r.2) page size).

(** ** service_order.go *)

Definition CreateOrder (userID rootUserID : Z) (req : CreateOrderReq) : M OrderResponse :=
  checkTrade userID rootUserID;;
  let! itemID := of_res (parseMarketplaceID (coreq_ItemID req)) in
  let! t := now in
  let! id := Generate in
  let order := mkOrder id itemID rootUserID userID 0 OrderPendingPayment 0 0 0 0
    (t + orderPaymentWindow) None None None None None None t t in
  map_err (error_table [(MarketRepo.errOwnItem, ErrOwnItem);
                        (MarketRepo.errItemUnavailable, ErrItemUnavailable)] "创建订单失败")
    (MarketRepo.CreateOrder order);;
  let! stored := internal "查询订单失败" (MarketRepo.FindOrder id) in
  match stored with
  | None => throw (Bizerr.Internal "查询订单失败")
  | Some o =>
    notify (ord_SellerRootUserID (o.1)) "marketplace.order.created" "商品已被预订"
      (item_Title (o.2.1)) (marketplaceID (ord_ID (o.1)));;
    ret (orderResponse o)
  end.

Definition ListOrders (rootUserID : Z) (admin : bool) (page size : Z)
    : M (PageResult OrderResponse) :=
  let (page, size) := normalizeMarketplacePage page size in
  let! r := internal "查询订单失败" (MarketRepo.ListOrders rootUserID admin page size) in
  ret (NewPageResult (orderResponse <$> (r.1)) (r.2) page size).

Definition StartPayment (rootUserID : Z) (orderID : string) (req : PaymentReq) : M PaymentResponse :=
  if String.eqb (gw_Name (gateway s)) "disabled" then throw ErrPaymentDisabled
  else
    let! id := of_res (parseMarketplaceID orderID) in
    let! order := found ErrOrderNotFound (MarketRepo.FindOrder id) in
    if negb (ord_BuyerRootUserID (order.1) =? rootUserID)%Z then throw ErrOrderNotFound
    else
      let requestID := GoStr.TrimSpace (preq_RequestID req) in
      if String.eqb requestID "" then throw (Bizerr.Param "支付请求号不能为空")
      else
        let! t := now in
        let! payID := Generate in
        let payment := mkPayment payID id (gw_Name (gateway s)) requestID None
          (ord_PriceCents (order.1)) RecordPending t t in
        let! r := map_err (error_table [(MarketRepo.errOrderState, ErrOrderState)] "创建支付记录失败")
          (MarketRepo.CreateOrFindPayment payment) in
        let payment := r.1 in
        match pay_GatewayTransactionID payment with
        | Some _ => ret (paymentResponse payment)
        | None =>
          let! transactionID :=
            gateway_CreatePayment (pay_RequestID payment) (pay_AmountCents payment) in
          let! t := now in
          internal "保存支付流水号失败"
            (MarketRepo.AttachPaymentTransaction (pay_ID payment) transactionID t);;
          ret (paymentResponse {| payment with pay_GatewayTransactionID := Some transactionID |})
        end.

Definition TestPaymentCallback (req : TestPaymentCallbackReq) : M unit :=
  if negb (String.eqb (gw_Name (gateway s)) "test") then throw ErrPaymentDisabled
  else
    let! t := now in
    let! r := map_err (error_table [(MarketRepo.errOrderState, ErrPaymentInvalid)] "处理支付回调失败")
      (MarketRepo.ApplyPaymentCallback (GoStr.TrimSpace (cbreq_RequestID req))
         (GoStr.TrimSpace (cbreq_GatewayTransactionID req)) (cbreq_AmountCents req) t) in
    let '((order, ic), changed) := r in
    if changed : bool then
      notify (ord_BuyerRootUserID order) "marketplace.payment.succeeded" "支付成功"
        (item_Title (ic.1)) (marketplaceID (ord_ID order));;
      notify (ord_SellerRootUserID order) "marketplace.payment.succeeded" "买家已付款"
        (item_Title (ic.1)) (marketplaceID (ord_ID order))
    else ret tt.

Definition CancelOrder (rootUserID : Z) (orderID : string) : M unit :=
  let! id := of_res (parseMarketplaceID orderID) in
  let! t := now in
  let! o := map_err (error_table [(MarketRepo.errOrderState, ErrOrderState)] "取消订单失败")
    (MarketRepo.CancelOrder id rootUserID t) in
  notify (ord_SellerRootUserID (o.1)) "marketplace.order.cancelled" "订单已取消"
    (item_Title (o.2.1)) (marketplaceID (ord_ID (o.1))).

Definition MarkDelivered (rootUserID : Z) (orderID : string) : M unit :=
  let! id := of_res (parseMarketplaceID orderID) in
  let! t := now in
  let! o := map_err (error_table [(MarketRepo.errOrderState, ErrOrderState)] "确认交付失败")
    (MarketRepo.MarkDelivered id rootUserID t) in
  notify (ord_BuyerRootUserID (o.1)) "marketplace.order.delivered" "卖家已确认交付"
    (item_Title (o.2.1)) (marketplaceID (ord_ID (o.1))).

Definition newSettlement (orderID amountCents t : Z) : M Settlement :=
  let! id := Generate in
  ret (mkSettlement id orderID ("settlement:" ++ marketplaceID orderID)%string None amountCents
    RecordPending t t).

(** ** service_jobs.go *)

Definition processSettlement (id : Z) : M unit :=
  let! settlement := found MarketRepo.errOrderState (MarketRepo.FindSettlement id) in
  if bool_decide (st_Status settlement = RecordSucceeded) then ret tt
  else
    let! r := attempt (gateway_Settle (st_RequestID settlement) (st_AmountCents settlement)) in
    match r with
    | Err e =>
      let! t := now in
      let! _ := attempt (MarketRepo.UpdateSettlement id RecordFailed "" t) in
      throw e
    | Ok gatewayID =>
      let! t := now in
      let! ok := internal "更新结算状态失败"
        (MarketRepo.UpdateSettlement id RecordSucceeded gatewayID t) in
      if negb ok then
        let! current := attempt (MarketRepo.FindSettlement id) in
        match current with
        | Ok (Some c) =>
          if bool_decide (st_Status c = RecordSucceeded) then ret tt else throw MarketRepo.errOrderState
        | _ => throw MarketRepo.errOrderState
        end
      else ret tt
    end.

Definition expire_one (t id : Z) : M unit :=
  let! r := internal "释放超时订单失败" (MarketRepo.ExpireOrder id t) in
  match r with
  | Some (order, ic) =>
    notify (ord_BuyerRootUserID order) "marketplace.order.expired" "订单已超时取消"
      (item_Title (ic.1)) (marketplaceID (ord_ID order));;
    notify (ord_SellerRootUserID order) "marketplace.order.expired" "商品预订已释放"
      (item_Title (ic.1)) (marketplaceID (ord_ID order))
  | None => ret tt
  end.

Definition complete_one (t cutoff id : Z) : M unit :=
  let! settlement := newSettlement id 0 t in
  let! r := internal "自动完成订单失败" (MarketRepo.AutoCompleteOrder id cutoff settlement t) in
  match r with
  | Some (order, ic) =>
    let! p := attempt (processSettlement (st_ID settlement)) in
    (match p with
     | Err _ => emit (EvLog "marketplace settlement failed")
     | Ok _ => ret tt
     end);;
    notify (ord_BuyerRootUserID order) "marketplace.order.completed" "订单已自动完成"
      (item_Title (ic.1)) (marketplaceID (ord_ID order));;
    notify (ord_SellerRootUserID order) "marketplace.order.completed" "订单已自动完成"
      (item_Title (ic.1)) (marketplaceID (ord_ID order))
  | None => ret tt
  end.

Definition RunDueJobs : M unit :=
  let! t := now in
  let! expiredIDs := internal "查询超时订单失败" (MarketRepo.ListExpiredOrderIDs t 100) in
  for_each expiredIDs (expire_one t);;
  let cutoff := (t - autoCompleteDelay)%Z in
  let! completeIDs := internal "查询待完成订单失败" (MarketRepo.ListAutoCompleteOrderIDs cutoff 100) in
  for_each completeIDs (complete_one t cutoff).

Definition RetryPendingSettlements : M unit :=
  let! r := attempt (MarketRepo.ListRetrySettlementIDs 100) in
  match r with
  | Err _ => emit (EvLog "list marketplace settlements failed")
  | Ok ids =>
    for_each ids (fun id =>
      let! p := attempt (processSettlement id) in
      match p with
      | Err _ => emit (EvLog "retry marketplace settlement failed")
      | Ok _ => ret tt
      end)
  end.

(** ** service_order.go, continued *)

Definition ConfirmReceived (rootUserID : Z) (orderID : string) : M unit :=
  let! id := of_res (parseMarketplaceID orderID) in
  let! t := now in
  let! settlement := newSettlement id 0 t in
  let! o := map_err (error_table [(MarketRepo.errOrderState, ErrOrderState)] "确认收货失败")
    (MarketRepo.ConfirmReceived id rootUserID settlement t) in
  let! _ := attempt (processSettlement (st_ID settlement)) in
  notify (ord_SellerRootUserID (o.1)) "marketplace.order.completed" "订单已完成"
    (item_Title (o.2.1)) (marketplaceID (ord_ID (o.1))).

Definition RequestRefund (rootUserID : Z) (orderID : string) (req : RefundReq) : M RefundResponse :=
  let! id := of_res (parseMarketplaceID orderID) in
  let! t := now in
  let! refundID := Generate in
  let refund := mkRefund refundID id rootUserID (GoStr.TrimSpace (rreq_RequestID req)) None 0
    (GoStr.TrimSpace (rreq_Reason req)) RecordPending None None t t in
  if String.eqb (rf_RequestID refund) "" || String.eqb (rf_Reason refund) ""
  then throw (Bizerr.Param "退款参数错误")
  else
    let! refund := map_err (error_table [(MarketRepo.errRefundExists, ErrRefundExists);
        (MarketRepo.errOrderState, ErrOrderState)] "提交退款失败")
      (MarketRepo.CreateRefund refund) in
    ret (refundResponse refund).

Definition CreateDispute (rootUserID : Z) (orderID : string) (req : DisputeReq) : M DisputeResponse :=
  let! id := of_res (parseMarketplaceID orderID) in
  let! t := now in
  let! disputeID := Generate in
  let dispute := mkDispute disputeID id rootUserID OrderPendingPayment
    (GoStr.TrimSpace (dreq_Reason req)) DisputePending "" None None t t in
  if String.eqb (dp_Reason dispute) "" then throw (Bizerr.Param "纠纷原因不能为空")
  else
    let! dispute := map_err (error_table [(MarketRepo.errDisputeExists, ErrDisputeExists);
        (MarketRepo.errOrderState, ErrOrderState)] "提交纠纷失败")
      (MarketRepo.CreateDispute dispute t) in
    ret (disputeResponse dispute).

(** ** service_admin.go *)

Definition list_page {R T} (conv : R -> T) (text : string) (repo : Z -> Z -> M (list R * Z))
    (page size : Z) : M (PageResult T) :=
  let (page, size) := normalizeMarketplacePage page size in
  let! r := internal text (repo page size) in
  ret (NewPageResult (conv <$> (r.1)) (r.2) page size).

Definition ListRefunds : Z -> Z -> M (PageResult RefundResponse) :=
  list_page refundResponse "查询退款失败" MarketRepo.ListRefunds.
Definition ListDisputes : Z -> Z -> M (PageResult DisputeResponse) :=
  list_page disputeResponse "查询纠纷失败" MarketRepo.ListDisputes.
Definition ListSettlements : Z -> Z -> M (PageResult SettlementResponse) :=
  list_page settlementResponse "查询结算失败" MarketRepo.ListSettlements.

Definition DecideRefund (refundID : string) (adminID : Z) (req : RefundDecisionReq) : M unit :=
  let! id := of_res (parseMarketplaceID refundID) in
  let! refund := found ErrOrderState (MarketRepo.FindRefund id) in
  let approved := rdreq_Approved req in
  if bool_decide (rf_Status refund = RecordSucceeded) && approved then ret tt
  else
    let! gatewayID :=
      (if approved then gateway_Refund (rf_RequestID refund) (rf_AmountCents refund)
       else ret ""%string) in
    let! t := now in
    let! o := map_err (error_table [(MarketRepo.errOrderState, ErrOrderState)] "处理退款失败")
      (MarketRepo.DecideRefund id adminID approved gatewayID t) in
    let (event, title) :=
      if approved then ("marketplace.refund.succeeded", "退款已完成")%string
      else ("marketplace.refund.rejected", "退款申请已驳回")%string in
    notify (ord_BuyerRootUserID (o.1)) event title (item_Title (o.2.1)) (marketplaceID (ord_ID (o.1))).

Definition ResolveDispute (disputeID : string) (adminID : Z) (req : DisputeDecisionReq) : M unit :=
  let! id := of_res (parseMarketplaceID disputeID) in
  let! dispute := found ErrOrderState (MarketRepo.FindDispute id) in
  if negb (bool_decide (dp_Status dispute = DisputePending)) then throw ErrOrderState
  else
    let! order := found ErrOrderNotFound (MarketRepo.FindOrder (dp_OrderID dispute)) in
    let! t := now in
    let! refundID := Generate in
    let refund := mkRefund refundID 0 0 ("dispute-refund:" ++ marketplaceID id)%string None 0
      (GoStr.TrimSpace (ddreq_Resolution req)) RecordPending None None t t in
    let! gatewayID :=
      (if String.eqb (ddreq_Action req) "refund"
       then gateway_Refund (rf_RequestID refund) (ord_PriceCents (order.1))
       else ret ""%string) in
    let! o := map_err (error_table [(MarketRepo.errOrderState, ErrOrderState)] "处理纠纷失败")
      (MarketRepo.ResolveDispute id adminID (ddreq_Action req)
         (GoStr.TrimSpace (ddreq_Resolution req)) gatewayID refund t) in
    notify (ord_BuyerRootUserID (o.1)) "marketplace.dispute.resolved" "纠纷已处理"
      (ddreq_Resolution req) (marketplaceID (ord_ID (o.1)));;
    notify (ord_SellerRootUserID (o.1)) "marketplace.dispute.resolved" "纠纷已处理"
      (ddreq_Resolution req) (marketplaceID (ord_ID (o.1))).

Definition RetrySettlement (settlementID : string) : M unit :=
  let! id := of_res (parseMarketplaceID settlementID) in
  map_err (fun e => if is_sentinel MarketRepo.errOrderState e then ErrSettlementState else e)
    (processSettlement id).

Definition ReportTarget (targetID : string) : M (Z * ItemResponse) :=
  let! id := of_res (parseMarketplaceID targetID) in
  let! item := found ErrItemNotFound (MarketRepo.FindItem id) in
  ret (item_SellerRootUserID (item.1), itemResponse item).

Definition HideForModeration (targetID : string) : M unit :=
  let! id := of_res (parseMarketplaceID targetID) in
  let! t := now in
  let! order := internal "隐藏商品失败" (MarketRepo.HideItem id t) in
  match order with
  | Some o =>
    notify (ord_BuyerRootUserID o) "marketplace.order.cancelled" "订单因商品下架取消"
      "商品已由管理员下架" (marketplaceID (ord_ID o))
  | None => ret tt
  end.

End service.
Arguments Service {D}.
Arguments Gateway {D}.
End MarketService.
