(* ===== verification/MarketSafe.v ===== *)
(** * Marketplace: every request is a sequence of specified transitions

    A service method reads, calls collaborators and calls writing repository
    methods, in the middle of which anything may fail.  [goes s0 (st w)] says the
    store went from [s0] to its present contents by transitions of [mstep];
    the rules below carry it through the code of a method, and [request] collects
    the methods, so that the invariants hold after any history of requests. *)
From S2P Require Import Prelude GoString GoTime GoMonad Sql Safe Platform.
From S2P Require Import MarketModel MarketRepo MarketSpec MarketRefine.
From S2P Require Import MarketService.

Module MarketSafe.
Import Safe.
Import Market MarketRepo MarketSpec MarketInv MarketRefine MarketResp MarketService.

Definition step (s s' : State) : Prop := wf s /\ mstep s s' /\ wf s'.

Lemma step_inv s s' : Inv s -> step s s' -> Inv s'.
Proof. intros HI (W & Hs & _). by eapply market_Inv_step. Qed.

#[export] Instance market_system : System State := {|
  sys_step := step; sys_inv := Inv; sys_inv_step := step_inv |}.

Section safe.
Context {E : Env} {D : SqlEngine}.
Implicit Types (w : World DB).

(** The collaborators of a service do not write the marketplace's tables. *)
Record honest (s : Service) : Prop := {
  honest_verifier : forall f u, verifier s = Some f -> quiet (f u);
  honest_capabilities : forall f u r c, capabilities s = Some f -> quiet (f u r c);
  honest_notifier : forall f u a b c d, notifier s = Some f -> quiet (f u a b c d);
  honest_filter : forall f t, filter s = Some f -> quiet (f t);
  honest_pay : forall r a, quiet (gw_CreatePayment (gateway s) r a);
  honest_refund : forall r a, quiet (gw_Refund (gateway s) r a);
  honest_settle : forall r a, quiet (gw_Settle (gateway s) r a);
}.

Lemma goes_step s0 w w' : goes s0 (st w) -> st w' = st w \/ mstep (st w) (st w') -> goes s0 (st w').
Proof.
  intros [Hr HI] [->|Hs]; [done|]. split.
  - eapply rtc_r; [done|]. split; [apply market_st_wf|]. split; [done|apply market_st_wf].
  - eapply market_Inv_step; [done|apply market_st_wf|done].
Qed.

(** A writing repository method, in a state that has the invariants. *)
Lemma market_wp_atomic {A} s0 (m : M DB A) (Q : res A -> World DB -> Prop) w :
  goes s0 (st w) -> wp m (atomic w) w ->
  (forall r w', goes s0 (st w') -> Q r w') -> wp m Q w.
Proof.
  intros Hg Hm HQ. eapply wp_mono; [exact Hm|]. intros r w' Ha. apply HQ.
  eapply goes_step; [done|]. destruct r; simpl in Ha; auto.
Qed.

Lemma market_safe_atomic {A} (m : M DB A) : (forall w, Inv (st w) -> wp m (atomic w) w) -> safe m.
Proof. intros Hm s0 w Hg. eapply market_wp_atomic; [done| |done]. apply Hm, Hg. Qed.

(** ** Reads of the repository *)
Lemma reads_find_ids R {HE : Entity R} {HT : Tbl DB State R HE _} ids :
  reads (MarketRepo.find_ids R ids).
Proof. destruct ids; [done|]. apply reads_find. Qed.
Lemma reads_preload_categories l : reads (MarketRepo.preload_categories l).
Proof. apply reads_bind; [apply reads_find_ids|done]. Qed.
Lemma reads_preload_items l : reads (MarketRepo.preload_items l).
Proof.
  apply reads_bind; [apply reads_find_ids|]. intros a.
  apply reads_bind; [apply reads_preload_categories|done].
Qed.
End safe.

#[export] Hint Resolve reads_preload_category reads_preload_item reads_take_preloaded market_reads_gormDB
  reads_or_nil reads_find_ids reads_preload_categories reads_preload_items : market_reads.

(** Prove that a reading method reads. *)
Ltac reading :=
  cbv beta zeta;
  match goal with
  | |- reads (bind _ _) => apply reads_bind; [reading|intros; reading]
  | |- reads (or_nil _) => apply reads_or_nil; reading
  | |- reads (attempt _) => apply reads_attempt; reading
  | |- reads (map_err _ _) => apply reads_map_err; reading
  | |- reads (if ?b then _ else _) => destruct b; reading
  | |- reads (match ?x with _ => _ end) => destruct x; reading
  | |- _ => eauto with store_reads market_reads
  end.

Section reads_repo.
Context {E : Env} {D : SqlEngine}.
Import MarketRepo.

Lemma reads_ListCategories b : reads (ListCategories b).
Proof. unfold ListCategories. reading. Qed.
Lemma reads_FindCategory id : reads (FindCategory id).
Proof. unfold FindCategory. reading. Qed.
Lemma reads_FindItem id : reads (FindItem id).
Proof. unfold FindItem. reading. Qed.
Lemma reads_SearchItems a b c d e f : reads (SearchItems a b c d e f).
Proof. unfold SearchItems. reading. Qed.
Lemma reads_FindOrder id : reads (FindOrder id).
Proof. unfold FindOrder. reading. Qed.
Lemma reads_ListOrders a b c d : reads (ListOrders a b c d).
Proof. unfold ListOrders. reading. Qed.
Lemma reads_FindRefund id : reads (FindRefund id).
Proof. unfold FindRefund. reading. Qed.
Lemma reads_FindDispute id : reads (FindDispute id).
Proof. unfold FindDispute. reading. Qed.
Lemma reads_FindSettlement id : reads (FindSettlement id).
Proof. unfold FindSettlement. reading. Qed.
Lemma reads_listRecords R {HE : Entity R} {HT : Tbl DB State R HE _} f a b :
  reads (listRecords R f a b).
Proof. unfold listRecords. reading. Qed.
Lemma reads_ListExpiredOrderIDs a b : reads (ListExpiredOrderIDs a b).
Proof. unfold ListExpiredOrderIDs. reading. Qed.
Lemma reads_ListAutoCompleteOrderIDs a b : reads (ListAutoCompleteOrderIDs a b).
Proof. unfold ListAutoCompleteOrderIDs. reading. Qed.
Lemma reads_ListRetrySettlementIDs a : reads (ListRetrySettlementIDs a).
Proof. unfold ListRetrySettlementIDs. reading. Qed.
End reads_repo.


#[export] Hint Resolve
  reads_ListCategories reads_FindCategory reads_FindItem reads_SearchItems reads_FindOrder
  reads_ListOrders reads_FindRefund reads_FindDispute reads_FindSettlement reads_listRecords
  reads_ListExpiredOrderIDs reads_ListAutoCompleteOrderIDs reads_ListRetrySettlementIDs
  : market_safe.

(** Split a method into its statements; what is left are the repository calls
    with an obligation on their arguments. *)
Ltac safely :=
  cbv beta zeta; unfold internal, found;
  match goal with
  | |- safe (bind _ _) => apply safe_bind; [safely|intros; safely]
  | |- safe (attempt _) => apply safe_attempt; safely
  | |- safe (map_err _ _) => apply safe_map_err; safely
  | |- safe (for_each _ _) => apply safe_for_each; intros; safely
  | |- safe (if ?b then _ else _) => destruct b; safely
  | |- safe (match ?x with _ => _ end) => destruct x; safely
  | |- _ => try solve [eauto with store_safe market_safe]
  end.

Section methods.
Context {E : Env} {D : SqlEngine}.
Variable s : @Service D.
Hypothesis H : honest s.

Lemma market_quiet_notify u a b c d : quiet (notify s u a b c d).
Proof.
  unfold notify. destruct (notifier s) as [f|] eqn:Ef; [|done].
  apply quiet_bind; [done|]. intros _. apply quiet_bind; [|done].
  apply quiet_attempt. by eapply honest_notifier.
Qed.
Lemma quiet_pay r a : quiet (gateway_CreatePayment s r a).
Proof. apply quiet_bind; [done|]. intros _. by apply honest_pay. Qed.
Lemma quiet_refund r a : quiet (gateway_Refund s r a).
Proof. apply quiet_bind; [done|]. intros _. by apply honest_refund. Qed.
Lemma quiet_settle r a : quiet (gateway_Settle s r a).
Proof. apply quiet_bind; [done|]. intros _. by apply honest_settle. Qed.
Lemma quiet_checkCapability u r c : quiet (checkCapability s u r c).
Proof.
  unfold checkCapability. destruct (capabilities s) eqn:Ec; [|done].
  by eapply honest_capabilities.
Qed.
Lemma quiet_checkNewListing u r : quiet (checkNewListing s u r).
Proof.
  unfold checkNewListing. destruct (verifier s) eqn:Ev; [|done].
  apply quiet_bind; [by eapply honest_verifier|]. intros _.
  apply quiet_bind; [|intros _]; apply quiet_checkCapability.
Qed.
Lemma quiet_filterText t : quiet (filterText s t).
Proof. unfold filterText. destruct (filter s) eqn:Ef; [|done]. by eapply honest_filter. Qed.

#[local] Hint Resolve market_quiet_notify quiet_pay quiet_refund
  quiet_settle quiet_checkCapability quiet_checkNewListing quiet_filterText : market_safe.
#[local] Hint Extern 2 (safe _) => apply market_safe_atomic; intros; solve
  [ apply WithdrawItem_atomic | apply HideItem_atomic
  | apply AttachPaymentTransaction_atomic | by apply ApplyPaymentCallback_atomic
  | apply CancelOrder_atomic | apply MarkDelivered_atomic | apply ConfirmReceived_atomic
  | apply ExpireOrder_atomic | apply AutoCompleteOrder_atomic | apply UpdateSettlement_atomic
  | by apply CreateOrder_atomic | by apply CreateRefund_atomic | by apply CreateDispute_atomic
  | by apply DecideRefund_atomic | by apply ResolveDispute_atomic ] : market_safe.

Lemma safe_WithdrawItem a b : safe (WithdrawItem a b).
Proof. unfold WithdrawItem. safely. Qed.
Lemma safe_CreateOrder a b c : safe (CreateOrder s a b c).
Proof. unfold CreateOrder, checkTrade. safely. Qed.
Lemma safe_TestPaymentCallback a : safe (TestPaymentCallback s a).
Proof. unfold TestPaymentCallback. safely. Qed.
Lemma safe_CancelOrder a b : safe (CancelOrder s a b).
Proof. unfold CancelOrder. safely. Qed.
Lemma safe_MarkDelivered a b : safe (MarkDelivered s a b).
Proof. unfold MarkDelivered. safely. Qed.
Lemma safe_processSettlement a : safe (processSettlement s a).
Proof. unfold processSettlement. safely. Qed.
#[local] Hint Resolve safe_processSettlement : market_safe.
Lemma safe_newSettlement a b c : safe (newSettlement (D := D) a b c).
Proof. unfold newSettlement. safely. Qed.
#[local] Hint Resolve safe_newSettlement : market_safe.
Lemma safe_ConfirmReceived a b : safe (ConfirmReceived s a b).
Proof. unfold ConfirmReceived. safely. Qed.
Lemma safe_RequestRefund a b c : safe (RequestRefund a b c).
Proof. unfold RequestRefund. safely. Qed.
Lemma safe_CreateDispute a b c : safe (CreateDispute a b c).
Proof. unfold CreateDispute. safely. Qed.
Lemma safe_DecideRefund a b c : safe (DecideRefund s a b c).
Proof. unfold DecideRefund. safely. Qed.
Lemma safe_ResolveDispute a b c : safe (ResolveDispute s a b c).
Proof. unfold ResolveDispute. safely. Qed.
Lemma safe_RetrySettlement a : safe (RetrySettlement s a).
Proof. unfold RetrySettlement. safely. Qed.
Lemma safe_HideForModeration a : safe (HideForModeration s a).
Proof. unfold HideForModeration. safely. Qed.
Lemma safe_complete_one a b c : safe (complete_one s a b c).
Proof. unfold complete_one. safely. Qed.
#[local] Hint Resolve safe_complete_one : market_safe.
Lemma market_safe_RunDueJobs : safe (RunDueJobs s).
Proof. unfold RunDueJobs, expire_one. safely. Qed.
Lemma safe_RetryPendingSettlements : safe (RetryPendingSettlements s).
Proof. unfold RetryPendingSettlements. safely. Qed.
End methods.

(** ** Methods whose arguments carry an obligation *)
Section lookups.
Context {E : Env} {D : SqlEngine}.

Lemma wp_FindCategory id (Q : res (option Category) -> World DB -> Prop) w :
  (forall c w', w_db w' = w_db w -> categories (st w) !! id = Some c -> Q (Ok (Some c)) w') ->
  (forall r w', w_db w' = w_db w -> nothing r -> Q r w') ->
  wp (FindCategory id) Q w.
Proof.
  intros Hok Hno. unfold FindCategory. apply wp_bind, market_wp_gormDB; cbv beta iota;
    [|intros _; by apply Hno].
  apply wp_or_nil, wp_take_byid; cbv beta iota; [intros; by apply Hno..|].
  intros c Hc _. apply Hok; [done|exact Hc].
Qed.

Lemma wp_FindOrder id (Q : res (option (Order * (Item * Category))) -> World DB -> Prop) w :
  (forall o ic w', w_db w' = w_db w -> orders (st w) !! id = Some o -> Q (Ok (Some (o, ic))) w') ->
  (forall r w', w_db w' = w_db w -> nothing r -> Q r w') ->
  wp (FindOrder id) Q w.
Proof.
  intros Hok Hno. unfold FindOrder. apply wp_bind, market_wp_gormDB; cbv beta iota; [|intros _; by apply Hno].
  apply wp_or_nil. unfold take_preloaded.
  apply wp_bind, wp_take_byid; cbv beta iota; [intros; by apply Hno..|].
  intros o Ho _. unfold preload_item.
  apply wp_bind, wp_find; cbv beta iota; [intros; by apply Hno|].
  intros [|it l] _; [apply wp_ret, Hok; [done|exact Ho]|].
  apply wp_bind, wp_reads; [apply reads_preload_category|].
  intros [ic|e] w' Hw' _; cbv beta iota; [apply wp_ret, Hok; [done|exact Ho]|intros; by apply Hno].
Qed.
End lookups.

Section obligations.
Context {E : Env} {D : SqlEngine}.
Variable s : @Service D.
Hypothesis H : honest s.

Lemma request_status_listed t status :
  request_status t = Some status -> status ∈ [ItemDraft; ItemPublished].
Proof.
  unfold request_status. intros Hs. apply in2.
  repeat destruct (String.eqb _ _); simplify_eq; auto.
Qed.

(** What the request validation guarantees of the listing it builds. *)
Lemma wp_itemFromRequest req (Q : res Item -> World DB -> Prop) w :
  in_int64 (ireq_PriceCents req) ->
  (forall it w', w_db w' = w_db w -> good_price it ->
     item_Status it ∈ [ItemDraft; ItemPublished] -> item_ReservedOrderID it = None ->
     Q (Ok it) w') ->
  (forall e w', w_db w' = w_db w -> Q (Err e) w') ->
  wp (itemFromRequest s req) Q w.
Proof.
  intros Hp Hok Hno. unfold itemFromRequest. apply wp_bind, wp_of_res.
  destruct (parseMarketplaceID _); cbv beta iota; [|by apply Hno].
  apply wp_bind, wp_found, wp_FindCategory.
  2: { intros r w' Hw Hn. destruct r as [[t|]|]; [by destruct (Hn t)|by apply Hno..]. }
  intros c w1 Hw1 _. apply wp_if; intros _; [by apply Hno|].
  apply wp_if; intros Hpos; [by apply Hno|].
  apply wp_bind, wp_of_res. destruct (validateImages _); cbv beta iota; [|by apply Hno].
  do 3 (apply wp_bind, wp_quiet_db; [by apply quiet_filterText|]; intros [?|?] ? ?;
    cbv beta iota; [|apply Hno; congruence]).
  destruct (request_status _) as [status|] eqn:Es; [|apply wp_throw, Hno; congruence].
  apply wp_if; intros _; [apply wp_throw, Hno; congruence|].
  apply wp_ret, Hok; simpl; [congruence| |by eapply request_status_listed|done].
  unfold good_price, in_int64 in *. simpl. bools. lia.
Qed.

Lemma safe_CreateItem u r req :
  in_int64 (ireq_PriceCents req) -> safe (CreateItem s u r req).
Proof.
  intros Hp s0 w Hg. unfold CreateItem.
  apply wp_bind. eapply wp_quiet; [done|by apply quiet_checkNewListing|].
  intros [[]|e] w1 _ Hg1; cbv beta iota; [|done].
  apply wp_bind, wp_itemFromRequest; [done| |intros; by eapply goes_db].
  intros it w2 Hw2 Hprice Hst Hres.
  eapply goes_db in Hg1; [|exact Hw2].
  repeat wp_step. unfold internal. repeat wp_step.
  eapply market_wp_atomic; [exact Hg1|by apply CreateItem_atomic|].
  intros [[]|e] w3 Hg3; cbv beta iota; [|done].
  repeat wp_step. eapply wp_quiet; [exact Hg3|apply reads_quiet, reads_FindCategory|].
  intros r3 w4 _ Hg4. by repeat wp_step.
Qed.

Lemma safe_UpdateItem u r id req :
  in_int64 (ireq_PriceCents req) -> safe (UpdateItem s u r id req).
Proof.
  intros Hp s0 w Hg. unfold UpdateItem.
  apply wp_bind. eapply wp_quiet; [done|by apply quiet_checkNewListing|].
  intros [[]|e] w1 _ Hg1; cbv beta iota; [|done].
  apply wp_bind, wp_of_res. destruct (parseMarketplaceID _) as [k|]; cbv beta iota; [|done].
  apply wp_bind, wp_found. eapply wp_quiet; [exact Hg1|apply reads_quiet, reads_FindItem|].
  intros [[cur|]|e] w2 _ Hg2; cbv beta iota; try done.
  apply wp_if; intros _; [done|].
  apply wp_bind, wp_itemFromRequest; [done| |intros; by eapply goes_db].
  intros it w3 Hw3 Hprice Hst Hres. eapply goes_db in Hg2; [|exact Hw3].
  repeat wp_step. unfold internal. repeat wp_step.
  eapply market_wp_atomic; [exact Hg2|by apply UpdateItem_atomic|].
  intros [ok|e] w4 Hg4; cbv beta iota; [|done]. apply wp_if; intros _; [done|].
  apply wp_bind, wp_found. eapply wp_quiet; [exact Hg4|apply reads_quiet, reads_FindItem|].
  by intros [[]|] w5 _ Hg5.
Qed.

Lemma safe_SaveCategory id req : valid_CategoryReq req = true -> safe (SaveCategory id req).
Proof.
  intros Hv s0 w Hg. unfold SaveCategory. apply wp_if; intros _; [done|].
  assert (Hrate : match creq_CommissionRateBps req with
    | Some v => 0 <= v <= 10000 | None => True end%Z).
  { unfold valid_CategoryReq in Hv. destruct (creq_CommissionRateBps req); [|done].
    bools. lia. }
  assert (Hsave : forall c w', good_rate c -> goes s0 (st w') ->
    wp (internal "保存商品类目失败" (MarketRepo.SaveCategory c);; ret (categoryResponse c))
       (fun _ w' => goes s0 (st w')) w').
  { intros c w' Hc Hg'. unfold internal. repeat wp_step.
    eapply market_wp_atomic; [exact Hg'|by apply SaveCategory_atomic|]. by intros [[]|] w2 Hg2. }
  repeat wp_step. apply wp_if; intros _.
  2: { apply wp_ret, Hsave; [|done]. unfold good_rate. simpl.
       by destruct (creq_CommissionRateBps req). }
  apply wp_bind, wp_of_res. destruct (parseMarketplaceID _) as [k|]; cbv beta iota; [|done].
  unfold internal at 1. repeat wp_step. apply wp_FindCategory.
  2: { intros r w' Hw Hn. destruct r as [[t|]|]; [by destruct (Hn t)|by repeat wp_step; eapply goes_db|].
       by eapply goes_db. }
  intros c w1 Hw1 Hc. cbv beta iota. apply wp_ret, Hsave; [|by eapply goes_db].
  unfold good_rate. simpl. destruct (creq_CommissionRateBps req); [done|].
  by apply (inv_rates _ (proj2 Hg) _ _ Hc).
Qed.

Lemma safe_StartPayment root id req : safe (StartPayment s root id req).
Proof.
  intros s0 w Hg. unfold StartPayment. apply wp_if; intros _; [done|].
  apply wp_bind, wp_of_res. destruct (parseMarketplaceID _) as [k|]; cbv beta iota; [|done].
  apply wp_bind, wp_found, wp_FindOrder.
  2: { intros r w' Hw Hn. destruct r as [[t|]|]; [by destruct (Hn t)|by eapply goes_db..]. }
  intros o ic w1 Hw1 Ho. eapply goes_db in Hg; [|exact Hw1].
  apply wp_if; intros _; [done|]. apply wp_if; intros _; [done|].
  repeat wp_step.
  eapply market_wp_atomic; [exact Hg|apply CreateOrFindPayment_atomic; [done|]|].
  { exists o. split; [|done]. unfold st in *. simpl. by rewrite Hw1. }
  intros [[p b]|e] w2 Hg2; cbv beta iota; [|done]. simpl.
  destruct (pay_GatewayTransactionID p); [done|].
  apply wp_bind. eapply wp_quiet; [exact Hg2|by apply quiet_pay|].
  intros [tx|e] w3 _ Hg3; cbv beta iota; [|done]. unfold internal. repeat wp_step.
  eapply market_wp_atomic; [exact Hg3|apply AttachPaymentTransaction_atomic|].
  by intros [[]|] w4 Hg4.
Qed.
End obligations.

(** ** Histories of requests *)

Inductive request :=
| RSaveCategory (categoryID : string) (req : CategoryReq)
| RCreateItem (userID root : Z) (req : ItemReq)
| RUpdateItem (userID root : Z) (itemID : string) (req : ItemReq)
| RWithdrawItem (root : Z) (itemID : string)
| RHideForModeration (targetID : string)
| RCreateOrder (userID root : Z) (req : CreateOrderReq)
| RStartPayment (root : Z) (orderID : string) (req : PaymentReq)
| RTestPaymentCallback (req : TestPaymentCallbackReq)
| RCancelOrder (root : Z) (orderID : string)
| RMarkDelivered (root : Z) (orderID : string)
| RConfirmReceived (root : Z) (orderID : string)
| RRequestRefund (root : Z) (orderID : string) (req : RefundReq)
| RCreateDispute (root : Z) (orderID : string) (req : DisputeReq)
| RDecideRefund (refundID : string) (admin : Z) (req : RefundDecisionReq)
| RResolveDispute (disputeID : string) (admin : Z) (req : DisputeDecisionReq)
| RRetrySettlement (settlementID : string)
| RRunDueJobs
| RRetryPendingSettlements.

(** What request binding lets through: the tags of [model_req.go], and JSON
    numbers that fit the fields' types. *)
Definition admitted (q : request) : Prop :=
  match q with
  | RSaveCategory _ req => valid_CategoryReq req = true
  | RCreateItem _ _ req | RUpdateItem _ _ _ req => in_int64 (ireq_PriceCents req)
  | _ => True
  end.

Section histories.
Context {D : SqlEngine}.

Definition unit_of {A} (m : M DB A) : M DB unit := m;; ret tt.

Definition serve {E : Env} (s : Service) (q : request) : M DB unit :=
  match q with
  | RSaveCategory c req => unit_of (SaveCategory c req)
  | RCreateItem u r req => unit_of (CreateItem s u r req)
  | RUpdateItem u r i req => unit_of (UpdateItem s u r i req)
  | RWithdrawItem r i => WithdrawItem r i
  | RHideForModeration t => HideForModeration s t
  | RCreateOrder u r req => unit_of (CreateOrder s u r req)
  | RStartPayment r o req => unit_of (StartPayment s r o req)
  | RTestPaymentCallback req => TestPaymentCallback s req
  | RCancelOrder r o => CancelOrder s r o
  | RMarkDelivered r o => MarkDelivered s r o
  | RConfirmReceived r o => ConfirmReceived s r o
  | RRequestRefund r o req => unit_of (RequestRefund r o req)
  | RCreateDispute r o req => unit_of (CreateDispute r o req)
  | RDecideRefund i a req => DecideRefund s i a req
  | RResolveDispute i a req => ResolveDispute s i a req
  | RRetrySettlement i => RetrySettlement s i
  | RRunDueJobs => RunDueJobs s
  | RRetryPendingSettlements => RetryPendingSettlements s
  end.

Lemma market_safe_unit_of {E : Env} {A} (m : M DB A) : safe m -> safe (unit_of m).
Proof. intros Hm. apply safe_bind; [done|]. intros _. by apply safe_quiet. Qed.

Lemma market_safe_serve {E : Env} s q : honest s -> admitted q -> safe (serve s q).
Proof.
  intros Hs Hq. destruct q; simpl in *; try apply market_safe_unit_of;
    eauto using safe_SaveCategory, safe_CreateItem, safe_UpdateItem, safe_WithdrawItem,
      safe_HideForModeration, safe_CreateOrder, safe_StartPayment, safe_TestPaymentCallback,
      safe_CancelOrder, safe_MarkDelivered, safe_ConfirmReceived, safe_RequestRefund,
      safe_CreateDispute, safe_DecideRefund, safe_ResolveDispute, safe_RetrySettlement,
      market_safe_RunDueJobs, safe_RetryPendingSettlements.
Qed.

(** One request, under any clock, ids and failures, with any collaborators. *)
Definition served (w w' : World DB) : Prop :=
  exists (E : Env) (s : Service) q, honest s /\ admitted q /\ w' = (serve s q w).2.

Definition history (w : World DB) : Prop :=
  exists w0, st w0 = empty_state /\ rtc served w0 w.

Lemma market_served_steps w w' : Inv (st w) -> served w w' -> rtc step (st w) (st w') /\ Inv (st w').
Proof.
  intros HI (E & s & q & Hs & Hq & ->).
  apply (market_safe_serve s q Hs Hq (st w) w). by apply goes_refl.
Qed.

Lemma history_steps w : history w -> rtc step empty_state (st w) /\ Inv (st w).
Proof.
  intros (w0 & H0 & Hr). rewrite <- H0.
  assert (HI : Inv (st w0)) by (rewrite H0; apply market_Inv_empty). clear H0.
  induction Hr as [w|w w1 w2 Hs _ IH]; [done|].
  destruct (market_served_steps _ _ HI Hs) as [Hs1 HI1]. destruct (IH HI1). split; [by etrans|done].
Qed.

(** A run of concrete requests, for examples. *)
Definition run {E : Env} (s : Service) (qs : list request) (w : World DB) : World DB :=
  fold_left (fun w q => (serve s q w).2) qs w.

Lemma market_run_history {E : Env} s qs w0 :
  honest s -> Forall admitted qs -> st w0 = empty_state -> history (run s qs w0).
Proof.
  intros Hs Hq H0. exists w0. split; [exact H0|]. clear H0. revert w0.
  induction Hq as [|q qs Hq _ IH]; intros w0; simpl; [apply rtc_refl|].
  eapply rtc_l; [|apply IH]. exists E, s, q. eauto.
Qed.
End histories.
End MarketSafe.
