(* ===== verification/MarketProps.v ===== *)
(** * Marketplace: what the service guarantees

    The properties of the marketplace, over histories of requests ([history]),
    single requests ([served]) and single repository calls, each with a concrete
    instance from [MarketDemo]. *)
From S2P Require Import Prelude GoTime GoMonad Sql Safe Platform MarketModel MarketRepo MarketSpec.
From S2P Require Import MarketRefine MarketService MarketSafe GoString.

(** ** Marketplace: a concrete run

    A fixed environment and service on the [SqlGmap] engine, and one shop's day:
    the states the examples of [MarketProps] evaluate. *)

Module MarketDemo.
Import Safe.
Import Market MarketResp MarketService MarketSafe.

(** The clock advances one second per step; ids are drawn from 1000 on. *)
#[export] Instance demo_env : Env := {
  env_now t := (1700000000 * GoTime.Second + Z.of_nat t * GoTime.Second)%Z;
  env_id t := (1000 + Z.of_nat t)%Z;
  env_fault _ := false;
}.

Definition demo_service : Service := {|
  verifier := Some (fun _ => ret tt);
  capabilities := None;
  notifier := Some (fun _ _ _ _ _ => ret tt);
  filter := None;
  gateway := testGateway;
|}.

Lemma market_demo_honest : honest demo_service.
Proof. split; intros; simplify_eq/=; done. Qed.

Definition empty_db : DB := mkDB _ false (gempty _) (gempty _) (gempty _) (gempty _) (gempty _) (gempty _) (gempty _).
Definition w0 : World DB := mkWorld empty_db 0 [].

Definition listing : ItemReq := {|
  ireq_CategoryID := "1001"; ireq_Title := "lamp"; ireq_Description := "desk lamp";
  ireq_Condition := "good"; ireq_PriceCents := 12345;
  ireq_Images := ["00112233445566778899aabbccddeeff"%string];
  ireq_DeliveryLocation := "gate 1"; ireq_Status := "published" |}.

(** Seller 7 lists a lamp; buyer 8 orders it. *)
Definition to_order : list request := [
  RSaveCategory "" {| creq_Name := "home"; creq_CommissionRateBps := None |};
  RCreateItem 7 7 listing;
  RCreateOrder 8 8 {| coreq_ItemID := "1007" |}
].
(** He pays, she delivers, he confirms. *)
Definition to_paying : list request := to_order ++ [
  RStartPayment 8 "1011" {| preq_RequestID := "pay-1" |} ].
Definition to_paid : list request := to_paying ++ [
  RTestPaymentCallback {| cbreq_RequestID := "pay-1";
    cbreq_GatewayTransactionID := "test-pay-pay-1"; cbreq_AmountCents := 12345 |}
].
Definition to_delivered : list request := to_paid ++ [RMarkDelivered 7 "1011"].
Definition to_completed : list request := to_delivered ++ [RConfirmReceived 8 "1011"].

(** Or he asks for a refund, which the administrator grants or rejects. *)
Definition to_refund_request : list request := to_paid ++ [
  RRequestRefund 8 "1011" {| rreq_RequestID := "rf-1"; rreq_Reason := "broken" |} ].

(** Every listed run is a history. *)
Ltac admitted_all :=
  repeat (apply Forall_cons; split;
    [first [exact I | reflexivity | by unfold admitted, in_int64] |]); apply Forall_nil; exact I.

Lemma demo_history qs : Forall admitted qs -> history (run demo_service qs w0).
Proof. intros Hq. by apply market_run_history; [apply market_demo_honest|..]. Qed.
Lemma to_order_history : history (run demo_service to_order w0).
Proof. apply demo_history. admitted_all. Qed.
Lemma to_paid_history : history (run demo_service to_paid w0).
Proof. apply demo_history. admitted_all. Qed.
Lemma to_paying_history : history (run demo_service to_paying w0).
Proof. apply demo_history. admitted_all. Qed.
Lemma to_delivered_history : history (run demo_service to_delivered w0).
Proof. apply demo_history. admitted_all. Qed.
Lemma to_completed_history : history (run demo_service to_completed w0).
Proof. apply demo_history. admitted_all. Qed.
Lemma to_refund_request_history : history (run demo_service to_refund_request w0).
Proof. apply demo_history. admitted_all. Qed.
End MarketDemo.

Module MarketProps.
Import Safe.
Import Market MarketRepo MarketSpec MarketInv MarketRefine MarketResp MarketSafe MarketDemo.

(** ** The order life cycle *)

(** The transitions of the integration document. *)
Inductive order_edge : OrderStatus -> OrderStatus -> Prop :=
| edge_pay : order_edge OrderPendingPayment OrderPaid
| edge_cancel : order_edge OrderPendingPayment OrderCancelled
| edge_deliver : order_edge OrderPaid OrderDelivered
| edge_complete : order_edge OrderDelivered OrderCompleted
| edge_refund s : s ∈ [OrderPaid; OrderDelivered; OrderDisputed] -> order_edge s OrderRefunded
| edge_dispute s : s ∈ [OrderPaid; OrderDelivered] -> order_edge s OrderDisputed
| edge_resume s : s ∈ [OrderPaid; OrderDelivered] -> order_edge OrderDisputed s.

Definition terminal (o : Order) : Prop :=
  ord_Status o ∈ [OrderCompleted; OrderCancelled; OrderRefunded].

(** What buyer and seller agreed on. *)
Definition terms (o : Order) :=
  (ord_ID o, ord_ItemID o, (ord_BuyerRootUserID o, ord_BuyerUserID o, ord_SellerRootUserID o),
   (ord_PriceCents o, ord_CommissionRateBps o, ord_PlatformFeeCents o, ord_SellerNetCents o),
   ord_ExpiresAt o, ord_CreatedAt o).

Lemma mstep_order s s' k o :
  Inv s -> mstep s s' -> orders s !! k = Some o ->
  orders s' !! k = Some o \/
  exists o', orders s' !! k = Some o' /\ terms o' = terms o /\
    order_edge (ord_Status o) (ord_Status o').
Proof.
  intros I Hs Ho.
  destruct Hs; simpl; auto;
    try (left; rewrite lookup_insert_ne; [done|]; congruence);
    match goal with |- <[?i := ?x]> _ !! _ = _ \/ _ =>
      destruct (decide (k = i)) as [->|Hne];
        [right; exists x; rewrite lookup_insert_eq; simplify_eq; split; [done|]; split; [done|]
        |left; by rewrite lookup_insert_ne by congruence]
    end; simpl;
    repeat match goal with H : ord_Status _ = _ |- _ => rewrite H end;
    try (by constructor); try (constructor; set_solver).
  constructor. apply (inv_dispute _ I _ _ H).
Qed.

Lemma edge_not_terminal a b : order_edge a b -> a ∉ [OrderCompleted; OrderCancelled; OrderRefunded].
Proof. destruct 1; set_solver. Qed.

Lemma steps_order s s' k o :
  rtc step s s' -> Inv s -> orders s !! k = Some o ->
  exists o', orders s' !! k = Some o' /\ terms o' = terms o /\
    rtc order_edge (ord_Status o) (ord_Status o') /\ (terminal o -> o' = o).
Proof.
  intros Hr. revert o. induction Hr as [s|s s1 s2 (W & Hs & _) _ IH]; intros o I Ho.
  - exists o. split; [done|]. split; [done|]. split; [apply rtc_refl|done].
  - destruct (mstep_order _ _ _ _ I Hs Ho) as [H1|(o1 & H1 & Ht & He)].
    + apply IH; [by eapply market_Inv_step|done].
    + destruct (IH o1) as (o2 & H2 & Ht2 & Hr2 & Hterm); [by eapply market_Inv_step|done|].
      exists o2. split; [done|]. split; [congruence|]. split; [by eapply rtc_l|].
      intros Hterm'. by destruct (edge_not_terminal _ _ He).
Qed.

Section props.
Context {D : SqlEngine}.
Implicit Types (w : World DB).

Lemma history_inv w : history w -> Inv (st w).
Proof. apply history_steps. Qed.

Lemma serveds_steps w w' : Inv (st w) -> rtc served w w' -> rtc step (st w) (st w') /\ Inv (st w').
Proof.
  intros HI Hr. induction Hr as [w|w w1 w2 Hs _ IH]; [done|].
  destruct (market_served_steps _ _ HI Hs) as [Hs1 HI1]. destruct (IH HI1). split; [by etrans|done].
Qed.

(** C2: an item is never sold twice: after any history of requests, two orders
    for the same item that are neither cancelled nor refunded are one order. *)
Theorem no_double_sale w i j o1 o2 :
  history w -> orders (st w) !! i = Some o1 -> orders (st w) !! j = Some o2 ->
  live o1 -> live o2 -> ord_ItemID o1 = ord_ItemID o2 -> i = j.
Proof. intros Hw. apply (inv_excl _ (history_inv _ Hw)). Qed.

(** C3: while an order is live its item cannot be bought: it exists, is neither
    draft nor published, and when it is reserved it is reserved for that order. *)
Theorem live_order_holds_item w k o :
  history w -> orders (st w) !! k = Some o -> live o ->
  exists it, items (st w) !! ord_ItemID o = Some it /\ holds_item k it.
Proof. intros Hw. apply (inv_item _ (history_inv _ Hw)). Qed.

(** C4: the money of an order goes one way: a payout exists only for a completed
    order and has its net amount, a successful refund only for a refunded order,
    and no order has both. *)
Theorem payout_or_refund w k sm :
  history w -> settlements (st w) !! k = Some sm ->
  (exists o, orders (st w) !! st_OrderID sm = Some o /\ ord_Status o = OrderCompleted /\
     st_AmountCents sm = ord_SellerNetCents o) /\
  (forall j r, refunds (st w) !! j = Some r -> rf_Status r = RecordSucceeded ->
     rf_OrderID r <> st_OrderID sm /\
     has_row (orders (st w)) (rf_OrderID r) (fun o => ord_Status o = OrderRefunded)).
Proof.
  intros Hw Hk. pose proof (history_inv _ Hw) as I.
  pose proof (inv_settled _ I _ _ Hk) as Hs. split; [exact Hs|]. intros j r Hj Hr.
  pose proof (inv_refunded _ I _ _ Hj Hr) as Ho. split; [|done]. intros Heq.
  rewrite Heq in Ho. destruct Hs as (o & Hoo & Hst & _).
  apply (has_row_get _ _ _ _ Hoo) in Ho. congruence.
Qed.

(** C5: an order past payment has been paid exactly once, in full: one successful
    payment row names it, and its amount is the order's price. *)
Theorem paid_exactly_once w k o :
  history w -> orders (st w) !! k = Some o -> ~ unpaid o ->
  exists j p, payments (st w) !! j = Some p /\ pay_Status p = RecordSucceeded /\
    pay_OrderID p = k /\ pay_AmountCents p = ord_PriceCents o /\
    forall j' p', payments (st w) !! j' = Some p' -> pay_Status p' = RecordSucceeded ->
      pay_OrderID p' = k -> j' = j.
Proof.
  intros Hw Ho Hu. pose proof (history_inv _ Hw) as I.
  destruct (inv_paid _ I _ _ Ho Hu) as (j & p & Hj & Hp & Hs).
  destruct (inv_payment _ I _ _ Hj) as [_ Hrow]. rewrite Hp in Hrow.
  apply (has_row_get _ _ _ _ Ho) in Hrow as [Ha _].
  exists j, p. do 4 (split; [done|]). intros j' p' Hj' Hs' Hp'.
  eapply (inv_one_payment _ I); eauto. congruence.
Qed.

(** C6: the price of every order splits exactly: the platform's fee is the floor
    of price times rate over 10000, fee and seller's net add up to the price, and
    neither is negative. *)
Theorem price_split w k o :
  history w -> orders (st w) !! k = Some o ->
  ord_PlatformFeeCents o = (ord_PriceCents o * ord_CommissionRateBps o / 10000)%Z /\
  (ord_PlatformFeeCents o + ord_SellerNetCents o = ord_PriceCents o)%Z /\
  (0 <= ord_PlatformFeeCents o)%Z /\ (0 <= ord_SellerNetCents o)%Z.
Proof.
  intros Hw Ho. destruct (inv_money _ (history_inv _ Hw) _ _ Ho) as (_ & _ & Hf & Hb & Hs).
  repeat split; [done|done|lia..].
Qed.

(** C7: one request moves each existing order along the documented state machine
    and never changes its parties, price, fee, deadline or item. *)
Theorem order_lifecycle w w' k o :
  history w -> served w w' -> orders (st w) !! k = Some o ->
  exists o', orders (st w') !! k = Some o' /\ terms o' = terms o /\
    rtc order_edge (ord_Status o) (ord_Status o').
Proof.
  intros Hw Hs Ho. destruct (market_served_steps _ _ (history_inv _ Hw) Hs) as [Hr _].
  destruct (steps_order _ _ _ _ Hr (history_inv _ Hw) Ho) as (o' & ? & ? & ? & _). eauto.
Qed.

(** A completed, cancelled or refunded order is final: no later request, job
    or failure changes any field of its row. *)
Theorem terminal_order_frozen w w' k o :
  history w -> rtc served w w' -> orders (st w) !! k = Some o -> terminal o ->
  orders (st w') !! k = Some o.
Proof.
  intros Hw Hs Ho Ht. destruct (serveds_steps _ _ (history_inv _ Hw) Hs) as [Hr _].
  destruct (steps_order _ _ _ _ Hr (history_inv _ Hw) Ho) as (o' & H1 & _ & _ & Heq).
  by rewrite <- (Heq Ht).
Qed.

(** C8: every request refines the specification: whatever its arguments, the
    clock, the failures and the collaborators, its effect on the store is a
    sequence of transitions of [mstep] between well-formed states. *)
Theorem request_refines {E : Env} s q w :
  honest s -> admitted q -> history w -> rtc step (st w) (st (serve s q w).2).
Proof.
  intros Hs Hq Hw. apply (market_safe_serve s q Hs Hq (st w) w). apply goes_refl, history_inv, Hw.
Qed.
End props.

(** ** The same, on the run of [MarketDemo] *)

Definition at_order : World DB := run demo_service to_order w0.
Definition at_paying : World DB := run demo_service to_paying w0.
Definition at_paid : World DB := run demo_service to_paid w0.
Definition at_delivered : World DB := run demo_service to_delivered w0.
Definition at_completed : World DB := run demo_service to_completed w0.

Lemma no_double_sale_witness :
  exists o, orders (st at_order) !! 1011%Z = Some o /\ live o /\
    forall j o2, orders (st at_order) !! j = Some o2 -> live o2 ->
      ord_ItemID o = ord_ItemID o2 -> 1011%Z = j.
Proof.
  row (orders (st at_order)) 1011%Z (fun o => bool_decide (live o)) o Ho Hl.
  exists o. split; [exact Ho|]. split; [exact Hl|]. intros j o2 Hj Hl2 He.
  exact (no_double_sale at_order _ _ _ _ to_order_history Ho Hj Hl Hl2 He).
Defined.

Lemma live_order_holds_item_witness :
  exists o it, orders (st at_order) !! 1011%Z = Some o /\
    items (st at_order) !! ord_ItemID o = Some it /\ holds_item 1011 it.
Proof.
  row (orders (st at_order)) 1011%Z (fun o => bool_decide (live o)) o Ho Hl.
  destruct (live_order_holds_item at_order _ _ to_order_history Ho Hl) as (it & Hi & Hh).
  exists o, it. auto.
Defined.

Lemma payout_or_refund_witness :
  exists sm o, settlements (st at_completed) !! 1048%Z = Some sm /\
    orders (st at_completed) !! st_OrderID sm = Some o /\ st_AmountCents sm = ord_SellerNetCents o.
Proof.
  row (settlements (st at_completed)) 1048%Z (fun _ : Settlement => true) sm Hs Ht.
  destruct (payout_or_refund at_completed _ _ to_completed_history Hs) as [(o & Ho & _ & Ha) _].
  exists sm, o. auto.
Defined.

Lemma paid_exactly_once_witness :
  exists j p, payments (st at_paid) !! j = Some p /\ pay_Status p = RecordSucceeded /\
    pay_OrderID p = 1011%Z.
Proof.
  row (orders (st at_paid)) 1011%Z (fun o => bool_decide (~ unpaid o)) o Ho Hu.
  destruct (paid_exactly_once at_paid _ _ to_paid_history Ho Hu) as (j & p & ? & ? & ? & _).
  exists j, p. auto.
Defined.

Lemma price_split_witness :
  exists o, orders (st at_order) !! 1011%Z = Some o /\
    (ord_PlatformFeeCents o + ord_SellerNetCents o = 12345)%Z.
Proof.
  row (orders (st at_order)) 1011%Z (fun o => (ord_PriceCents o =? 12345)%Z) o Ho Hp.
  destruct (price_split at_order _ _ to_order_history Ho) as (_ & Hs & _).
  exists o. split; [exact Ho|]. by rewrite Hs.
Defined.

(** The next request of a run. *)
Lemma market_run_served qs q :
  admitted q -> served (run demo_service qs w0) (run demo_service (qs ++ [q]) w0).
Proof.
  intros Hq. exists demo_env, demo_service, q. split; [apply market_demo_honest|]. split; [done|].
  unfold run. by rewrite fold_left_app.
Qed.

Lemma order_lifecycle_witness :
  exists o o', orders (st at_delivered) !! 1011%Z = Some o /\
    orders (st at_completed) !! 1011%Z = Some o' /\ terms o' = terms o /\
    rtc order_edge (ord_Status o) (ord_Status o').
Proof.
  row (orders (st at_delivered)) 1011%Z (fun _ : Order => true) o Ho Ht.
  destruct (order_lifecycle at_delivered at_completed _ _ to_delivered_history
    (market_run_served to_delivered (RConfirmReceived 8 "1011") I) Ho) as (o' & ? & ? & ?).
  exists o, o'. auto.
Defined.

Lemma terminal_order_frozen_witness :
  exists o, orders (st at_completed) !! 1011%Z = Some o /\
    orders (st (run demo_service (to_completed ++ [RRunDueJobs]) w0)) !! 1011%Z = Some o.
Proof.
  row (orders (st at_completed)) 1011%Z (fun o => bool_decide (terminal o)) o Ho Ht.
  exists o. split; [exact Ho|].
  exact (terminal_order_frozen at_completed _ _ _ to_completed_history
    (rtc_once _ _ (market_run_served to_completed RRunDueJobs I)) Ho Ht).
Defined.

Lemma request_refines_witness :
  rtc step (st at_completed) (st (serve demo_service (RCancelOrder 8 "1011") at_completed).2).
Proof.
  apply (request_refines demo_service (RCancelOrder 8 "1011") at_completed);
    [apply market_demo_honest|exact I|apply to_completed_history].
Defined.
End MarketProps.
