(* ===== verification/MarketFunc.v ===== *)
(** * Marketplace: functional behaviour

    What single operations return and do when no statement fails: exact results
    on every branch, idempotence of callbacks and retries, and the progress of the
    scheduled jobs. *)
From S2P Require Import Prelude GoTime GoMonad Sql Safe Platform MarketModel MarketRepo MarketSpec.
From S2P Require Import MarketRefine MarketService MarketSafe MarketProps GoString.

Module MarketFunc.
Import Safe.
Import Market MarketRepo MarketSpec MarketInv MarketRefine MarketResp MarketSafe MarketDemo.

(** No statement fails and the database handle is set. *)
Definition up {E : Env} {D : SqlEngine} (w : World DB) : Prop :=
  (forall n, env_fault n = false) /\ db_nil (w_db w) = false.

Section func.
Context {E : Env} {D : SqlEngine}.
Implicit Types (w : World DB).

Lemma market_wp_gormDB_up (Q : res unit -> World DB -> Prop) w :
  db_nil (w_db w) = false -> Q (Ok tt) w -> wp gormDB Q w.
Proof. intros Hdb HQ. apply market_wp_gormDB; [done|by rewrite Hdb]. Qed.

(** The order with the given id that satisfies a guard. *)
Definition order_if (id : Z) (guard : Order -> bool) (s : State) : option Order :=
  o ← orders s !! id; if guard o then Some o else None.

(** The store after order [o] is cancelled at [t]: the order, and its item when it
    is still reserved for it. *)
Definition cancelled (id : Z) (o : Order) (t : Z) (s : State) : State :=
  set_items (update_at (ord_ItemID o) (reserved_by id) (item_release ItemPublished t) (items s))
    (set_orders (<[id := order_cancel t o]> (orders s)) s).

(** The end of both cancelling transactions: read the order back. *)
Lemma wp_read_back id o s (Q : res (Order * (Item * Category)) -> World DB -> Prop) w :
  (forall n, env_fault n = false) -> st w = s -> orders s !! id = Some o ->
  (forall ic w', st w' = s -> w_out w' = w_out w -> db_nil (w_db w') = db_nil (w_db w) -> Q (Ok (o, ic)) w') ->
  wp (take_preloaded id) Q w.
Proof.
  intros NF Hs Ho HQ. eapply (wp_take_preloaded id o); [done| |].
  - change (orders (st w) !! id = Some o). by rewrite Hs.
  - intros ic w' Hw Hout. apply HQ; [|done|by rewrite Hw]. unfold st in *. by rewrite Hw.
Qed.

(** Cancelling an order, with no failure: the buyer's pending order becomes
    cancelled and its reserved item is on sale again; any other call changes
    nothing and reports the order state. *)
Theorem CancelOrder_spec id buyer t w :
  up w ->
  wp (CancelOrder id buyer t) (fun r w' =>
    match order_if id (fun o => (ord_BuyerRootUserID o =? buyer)%Z && is_status OrderPendingPayment o)
            (st w) with
    | Some o => (exists ic, r = Ok (order_cancel t o, ic)) /\ st w' = cancelled id o t (st w)
    | None => r = Err errOrderState /\ st w' = st w
    end) w.
Proof.
  intros [NF Hdb]. unfold CancelOrder, transitionOrder.
  apply wp_bind, market_wp_gormDB_up; [done|]. apply wp_commit; [done|]. apply wp_bind, wp_map_err.
  unfold order_if. destruct (orders (st w) !! id) as [o|] eqn:Ho; simpl.
  2: { apply wp_take_missing; [done| |done]. intros r Hr. change (orders (st w) !! id = Some r) in Hr. congruence. }
  apply (wp_take_known _ NF _ _ o); [exact Ho|done|]. cbv beta iota.
  rewrite <- negb_andb. destruct (_ && _) eqn:Hg; simpl negb; cbv beta iota; [|done].
  bools. pose proof (vw_key Order w id o Ho : ord_ID o = id) as Hkey.
  apply wp_bind, wp_bind. eapply (wp_update_free Order NF); [done..|]. intros n w1 H1. cbv beta iota.
  apply wp_bind. eapply (wp_update_free Item NF); [done..|]. intros n2 w2 H2. cbv beta iota.
  apply wp_ret. cbv beta iota.
  eapply (wp_read_back id (order_cancel t o) (cancelled id o t (st w))); [done| | |].
  - unfold cancelled, st in *. db_simpl. rewrite (update_at_hit id _ _ _ o Ho) by done. by rewrite Hkey.
  - apply lookup_insert_eq.
  - intros ic w3 Hw3 _ _. by split; [exists ic|].
Qed.

Definition expired (t : Z) (o : Order) : bool :=
  is_status OrderPendingPayment o && negb (t <? ord_ExpiresAt o)%Z.

Lemma orders_no_index (r r' : Order) : ent_clash r r' = false.
Proof. done. Qed.

Lemma ExpireOrder_spec id t w :
  up w ->
  wp (ExpireOrder id t) (fun r w' =>
    match order_if id (expired t) (st w) with
    | Some o => (exists ic, r = Ok (Some (order_cancel t o, ic))) /\ st w' = cancelled id o t (st w)
    | None => r = Ok None /\ st w' = st w
    end) w.
Proof.
  intros [NF Hdb]. unfold ExpireOrder.
  apply wp_bind, market_wp_gormDB_up; [done|]. apply wp_commit; [done|]. apply wp_bind, wp_attempt.
  unfold order_if. destruct (orders (st w) !! id) as [o|] eqn:Ho; simpl.
  2: { apply wp_take_missing; [done| |done]. intros r Hr.
       change (orders (st w) !! id = Some r) in Hr. congruence. }
  apply (wp_take_known _ NF _ _ o); [exact Ho|done|]. cbv beta iota.
  unfold expired.
  destruct (is_status OrderPendingPayment o) eqn:Hp; simpl; [|done].
  destruct (t <? ord_ExpiresAt o)%Z eqn:Ht; simpl; [done|].
  pose proof (vw_key Order w id o Ho : ord_ID o = id) as Hkey.
  apply wp_bind. eapply (wp_update_known Order NF orders_no_index _ _ _ o); [done|exact Ho|exact Hp| |].
  { intros Heq. apply (f_equal ord_Status) in Heq. unfold is_status in Hp. bools. simpl in Heq. congruence. }
  intros w1 H1. cbv beta iota. simpl negb. cbv iota.
  apply wp_bind. eapply (wp_update_free Item NF); [done..|]. intros n2 w2 H2. cbv beta iota.
  apply wp_bind. eapply (wp_read_back id (order_cancel t o) (cancelled id o t (st w))); [done| | |].
  - unfold cancelled, st in *. db_simpl. by rewrite Hkey.
  - apply lookup_insert_eq.
  - intros ic w3 Hw3 _ _. by split; [exists ic|].
Qed.

(** ** The database handle is never reassigned *)
Notation handle := (Safe.kept db_nil).

Lemma keeps_ExpireOrder id t : preserves handle (ExpireOrder id t).
Proof.
  apply preserves_bind; [apply keeps_reads, market_reads_gormDB|]. intros _. apply keeps_transaction.
  apply preserves_bind; [apply keeps_reads, reads_attempt, reads_take|].
  intros [o|e]; [|by destruct (errors_Is _ _)].
  destruct (_ || _); [done|]. apply preserves_bind; [by apply keeps_update|]. intros n.
  destruct (negb _); [done|]. apply preserves_bind; [by apply keeps_update|]. intros n2.
  apply preserves_bind; [apply keeps_reads, reads_take_preloaded|done].
Qed.

(** ** The expiry job *)
Lemma cancelled_not_expired t o : expired t (order_cancel t o) = false.
Proof. done. Qed.

(** What one round does to the orders. *)
Definition expire_row (t : Z) (o : Order) : Order := if expired t o then order_cancel t o else o.

Lemma expire_row_idem t o : expire_row t (expire_row t o) = expire_row t o.
Proof. unfold expire_row. destruct (expired t o) eqn:He; [done|by rewrite He]. Qed.

Lemma wp_notify s u a b c d (Q : res unit -> World DB -> Prop) w :
  honest s -> (forall w', w_db w' = w_db w -> Q (Ok tt) w') ->
  wp (MarketService.notify s u a b c d) Q w.
Proof.
  intros Hs HQ. unfold MarketService.notify.
  destruct (MarketService.notifier s) as [f|] eqn:Ef; [|by apply HQ].
  apply wp_bind, wp_emit. cbv beta iota. apply wp_bind, wp_attempt, wp_quiet_db.
  - by eapply honest_notifier.
  - intros r w' Hw'. by apply wp_ret, HQ.
Qed.

Lemma wp_expire_one s t id w :
  honest s -> up w -> Inv (st w) ->
  wp (MarketService.expire_one s t id) (fun r w' => r = Ok tt /\ up w' /\ Inv (st w') /\
    forall k, orders (st w') !! k =
      if decide (k = id) then expire_row t <$> orders (st w) !! id else orders (st w) !! k) w.
Proof.
  intros Hs [NF Hdb] HI. unfold MarketService.expire_one, internal.
  apply wp_bind, wp_map_err. eapply wp_mono.
  { apply wp_and; [apply (ExpireOrder_spec id t w); by split|].
    apply wp_and; [apply (ExpireOrder_atomic id t w)|].
    apply (wp_preserves handle), keeps_ExpireOrder. }
  intros r w1 (Hspec & Hat & Hk). cbv beta in Hk. unfold Safe.kept in Hk. rewrite Hdb in Hk.
  assert (HI1 : Inv (st w1)).
  { apply (goes_step (st w) w w1); [by apply goes_refl|]. destruct r; simpl in Hat; auto. }
  assert (Hrows : forall k, orders (st w1) !! k =
    if decide (k = id) then expire_row t <$> orders (st w) !! id else orders (st w) !! k).
  { intros k. unfold order_if in Hspec. destruct (orders (st w) !! id) as [o|] eqn:Ho; simpl in *.
    - unfold expire_row. destruct (expired t o); simpl in *; destruct Hspec as [_ ->]; simpl;
        case_decide; subst; rewrite ?lookup_insert_eq, ?lookup_insert_ne by congruence; done.
    - destruct Hspec as [_ ->]. case_decide; by subst. }
  assert (Hend : forall w2, w_db w2 = w_db w1 -> up w2 /\ Inv (st w2) /\
    forall k, orders (st w2) !! k =
      if decide (k = id) then expire_row t <$> orders (st w) !! id else orders (st w) !! k).
  { intros w2 Hw2. unfold up, st in *. rewrite Hw2. auto. }
  unfold order_if in Hspec. destruct (_ ≫= _).
  - destruct Hspec as [(ic & ->) _]. cbv beta iota. apply wp_bind, wp_notify; [done|].
    intros w2 Hw2. cbv beta iota. apply wp_notify; [done|].
    intros w3 Hw3. split; [done|]. apply Hend. congruence.
  - destruct Hspec as [-> _]. cbv beta iota. apply wp_ret. split; [done|]. by apply Hend.
Qed.

Lemma wp_expire_all s t l w :
  honest s -> up w -> Inv (st w) ->
  wp (for_each l (MarketService.expire_one s t)) (fun r w' => r = Ok tt /\ Inv (st w') /\
    forall k, orders (st w') !! k =
      if decide (k ∈ l) then expire_row t <$> orders (st w) !! k else orders (st w) !! k) w.
Proof.
  intros Hs. revert w. induction l as [|x l IH]; intros w Hup HI; cbn [for_each].
  - apply wp_ret. split; [done|]. split; [done|]. intros k. case_decide; [set_solver|done].
  - apply wp_bind. eapply wp_mono; [by apply wp_expire_one|].
    intros r w1 (-> & Hup1 & HI1 & Hrows1). cbv beta iota.
    eapply wp_mono; [by apply IH|]. intros r w2 (-> & HI2 & Hrows2).
    split; [done|]. split; [done|]. intros k. rewrite Hrows2, Hrows1.
    destruct (decide (k = x)) as [->|Hne].
    + destruct (decide (x = x)), (decide (x ∈ x :: l)) as [|Hx]; try done; [|destruct Hx; left].
      destruct (decide (x ∈ l)), (orders (st w) !! x); simpl; try done. by rewrite expire_row_idem.
    + destruct (decide (k ∈ l)), (decide (k ∈ x :: l)); try done; exfalso; set_solver.
Qed.

(** The second half of the jobs, as a whole. *)
Lemma safe_second_phase s t :
  honest s ->
  safe (let! completeIDs := map_err (Bizerr.InternalWrap "查询待完成订单失败")
          (ListAutoCompleteOrderIDs (t - MarketService.autoCompleteDelay) 100)
     in for_each completeIDs
          (MarketService.complete_one s t (t - MarketService.autoCompleteDelay))).
Proof.
  intros Hs. apply safe_bind.
  - apply safe_map_err, safe_quiet, reads_quiet, reads_ListAutoCompleteOrderIDs.
  - intros ids. apply safe_for_each. intros x. by apply safe_complete_one.
Qed.

(** With at most [limit] matching rows a page shows them all. *)
Lemma page_all {R} (l : list R) (n : Z) : (Z.of_nat (length l) <= n)%Z -> page 0 n l = l.
Proof. intros Hl. unfold page. simpl. apply take_ge. lia. Qed.

(** C9: with no failure and at most a hundred orders due, one run of the jobs
    cancels every order whose payment window has closed. *)
Theorem due_orders_expire s w k o :
  honest s -> up w -> Inv (st w) ->
  (Z.of_nat (size (matching (expired (env_now (w_tick w))) (orders (st w)))) <= 100)%Z ->
  orders (st w) !! k = Some o -> expired (env_now (w_tick w)) o = true ->
  orders (st (MarketService.RunDueJobs s w).2) !! k = Some (order_cancel (env_now (w_tick w)) o).
Proof.
  intros Hs Hup HI Hsize Ho He. set (t := env_now (w_tick w)) in *.
  change (wp (MarketService.RunDueJobs s)
    (fun _ w' => orders (st w') !! k = Some (order_cancel t o)) w).
  unfold MarketService.RunDueJobs, internal. apply wp_bind, wp_now. cbv beta iota.
  fold t. apply wp_bind, wp_map_err. unfold ListExpiredOrderIDs.
  apply wp_bind, market_wp_gormDB_up; [apply Hup|]. apply wp_bind, wp_find; [by rewrite (proj1 Hup)|].
  intros rows Hrows. apply wp_ret. cbv beta iota.
  assert (Hm : matching (fun o => is_status OrderPendingPayment o && (ord_ExpiresAt o <=? t)%Z)
    (vw Order (bump w)) = matching (expired t) (orders (st w))).
  { apply matching_ext. intros r. unfold expired. by rewrite Z.leb_antisym. }
  rewrite Hm in Hrows. clear Hm.
  rewrite page_all by (by rewrite order_by_perm, Hrows, length_fmap, length_map_to_list).
  apply wp_bind. eapply wp_mono; [by apply wp_expire_all|].
  intros r w1 (-> & HI1 & Hrows1). cbv beta iota.
  assert (Ho1 : orders (st w1) !! k = Some (order_cancel t o)).
  { pose proof (vw_key Order w k o Ho : ord_ID o = k) as Hkey.
    rewrite Hrows1. assert (Hk : k ∈ ord_ID <$> order_by ord_ID rows).
    - rewrite order_by_perm, Hrows, <- Hkey.
      apply list_elem_of_fmap_2. apply list_elem_of_fmap. exists (k, o). split; [done|].
      by apply elem_of_map_to_list, lookup_matching.
    - destruct (decide _); [|done]. change (orders (st (bump (bump w))) !! k) with (orders (st w) !! k).
      rewrite Ho. simpl. unfold expire_row. by rewrite He. }
  eapply wp_mono; [apply (safe_second_phase s t Hs (st w1) w1); by apply goes_refl|].
  intros r w2 [Hsteps _].
  destruct (MarketProps.steps_order _ _ _ _ Hsteps HI1 Ho1) as (o2 & Ho2 & _ & _ & Hfin).
  rewrite Hfin in Ho2; [done|]. unfold MarketProps.terminal. simpl. set_solver.
Qed.

(** ** Payment callbacks *)

Lemma keeps_ApplyPaymentCallback req tx amount t : preserves handle (ApplyPaymentCallback req tx amount t).
Proof.
  apply preserves_bind; [apply keeps_reads, market_reads_gormDB|]. intros _. apply keeps_transaction.
  apply preserves_bind; [apply keeps_reads, reads_map_err, reads_take|]. intros p.
  destruct (_ || _); [done|]. destruct (bool_decide _).
  { apply preserves_bind; [apply keeps_reads, reads_take_preloaded|done]. }
  apply preserves_bind; [apply keeps_reads, reads_map_err, reads_take|]. intros o.
  destruct (_ || _); [done|]. apply preserves_bind.
  { by apply preserves_map_err, keeps_update. }
  intros _. apply preserves_bind; [by apply keeps_update|]. intros n. destruct (negb _); [done|].
  apply preserves_bind; [apply keeps_reads, reads_take_preloaded|done].
Qed.

(** The callback's payment, settled with the callback's transaction. *)
Definition settled_payment (req tx : string) (amount : Z) (s : State) : Prop :=
  exists k, has_row (payments s) k (fun p =>
    pay_RequestID p = req /\ pay_AmountCents p = amount /\ pay_Status p = RecordSucceeded /\
    (pay_GatewayTransactionID p = None \/ pay_GatewayTransactionID p = Some tx)).

Lemma callback_guard tx amount p :
  negb (pay_AmountCents p =? amount)%Z
  || bool_decide (pay_GatewayTransactionID p <> None) && bool_decide (pay_GatewayTransactionID p <> Some tx)
  = false ->
  pay_AmountCents p = amount /\
  (pay_GatewayTransactionID p = None \/ pay_GatewayTransactionID p = Some tx).
Proof.
  intros [Ha Ht]%orb_false_iff. bools. split; [done|].
  destruct Ht as [Ht|Ht]; bools; apply dec_stable in Ht; auto.
Qed.

Lemma callback_settles req tx amount t w :
  Inv (st w) ->
  wp (ApplyPaymentCallback req tx amount t) (fun r w' =>
    match r with Ok _ => settled_payment req tx amount (st w') | Err _ => True end) w.
Proof.
  intros I. unfold ApplyPaymentCallback. exec. all: try done. all: split; [done|].
  all: match goal with H : _ || _ && _ = false |- _ => apply callback_guard in H as [Ha Htx] end.
  - exists (ent_id r). exists r. split; [unfold st; db_simpl; exact H|]. apply String.eqb_eq in H0. bools. auto.
  - exists (pay_ID r). exists (pay_succeed tx t r). split; [|apply String.eqb_eq in H0; simpl; auto].
    pose proof (pending_payment _ _ _ I H) as Hp. row_facts. unfold st in *. db_simpl.
    rewrite lookup_update_at_eq, H. simpl. by rewrite bool_decide_eq_true_2 by auto.
Qed.

Lemma payment_by_request s k1 k2 p1 p2 :
  wf s -> payments s !! k1 = Some p1 -> payments s !! k2 = Some p2 ->
  pay_RequestID p1 = pay_RequestID p2 -> k1 = k2.
Proof.
  intros W H1 H2 He. destruct (decide (k1 = k2)) as [|Hne]; [done|].
  destruct (wf_payments _ W) as [_ Hu]. specialize (Hu _ _ _ _ H1 H2 Hne). simpl in Hu.
  by rewrite He, String.eqb_refl in Hu.
Qed.

(** A payment callback can be delivered again: once one delivery has been
    accepted, a later delivery of the same callback succeeds, reports that it
    changed nothing, and changes nothing. *)
Theorem callback_idempotent req tx amount t t' w r w1 :
  up w -> Inv (st w) -> ApplyPaymentCallback req tx amount t w = (Ok r, w1) ->
  exists o w2, ApplyPaymentCallback req tx amount t' w1 = (Ok (o, false), w2) /\ st w2 = st w1.
Proof.
  intros [NF Hdb] I Hrun.
  pose proof (callback_settles req tx amount t w I) as Hs.
  pose proof (ApplyPaymentCallback_atomic req tx amount t w I) as Ha.
  pose proof (keeps_ApplyPaymentCallback req tx amount t w) as Hk.
  unfold wp, Safe.kept in *. rewrite Hrun in *. simpl in *. rewrite Hdb in Hk.
  assert (I1 : Inv (st w1)) by (apply (goes_step (st w) w w1); [by apply goes_refl|done]).
  destruct Hs as (k & p & Hp & Hreq & Hamt & Hst & Htx).
  destruct (inv_payment _ I1 _ _ Hp) as [_ (o & Ho & _)].
  enough (wp (ApplyPaymentCallback req tx amount t') (fun r' w2 =>
    exists o, r' = Ok (o, false) /\ st w2 = st w1) w1) as Hw.
  { pose proof (proj1 (wp_run _ _ _) Hw) as Hr. destruct (ApplyPaymentCallback req tx amount t' w1) as [r' w2].
    destruct (Hr r' w2 eq_refl) as (o' & -> & Hw2). eauto. }
  unfold ApplyPaymentCallback. apply wp_bind, market_wp_gormDB_up; [done|]. apply wp_commit; [done|].
  apply wp_bind, wp_map_err, wp_take; cbv beta iota; [by rewrite NF| |].
  { intros Hno. specialize (Hno k p Hp). by rewrite Hreq, String.eqb_refl in Hno. }
  intros p' Hp' Hreq'. apply String.eqb_eq in Hreq'.
  assert (Hkk : k = ent_id p') by (eapply payment_by_request; [apply (market_st_wf w1)|exact Hp|exact Hp'|congruence]).
  rewrite <- Hkk in Hp'. assert (p' = p) as ->.
  { enough (Some p' = Some p) by congruence. rewrite <- Hp. symmetry. exact Hp'. }
  rewrite Hamt, Z.eqb_refl. simpl. destruct (_ && _) eqn:Hg.
  { bools. destruct Htx; simplify_eq; congruence. }
  rewrite bool_decide_eq_true_2 by done. apply wp_bind.
  eapply (wp_read_back _ o (st w1)); [done|done|done|].
  intros ic w2 Hw2 _ _. apply wp_ret. by exists (o, ic).
Qed.

(** ** Payouts *)
Lemma silent_reads {A} (m : M DB A) : reads m -> preserves w_out m.
Proof. intros Hm w. by destruct (Hm w). Qed.
Lemma silent_update R {HE : Entity R} {HT : Tbl DB State R HE _} p f : preserves w_out (update R p f).
Proof.
  apply preserves_bind; [apply silent_reads, reads_stmt|]. intros _ w.
  unfold bind, get_db. by destruct (upd _ _ _) as [[t n]|].
Qed.
Lemma silent_UpdateSettlement id status gw t : preserves w_out (UpdateSettlement id status gw t).
Proof.
  apply preserves_bind; [apply silent_reads, market_reads_gormDB|]. intros _.
  apply preserves_bind; [apply silent_update|done].
Qed.

Lemma wp_FindSettlement id (Q : res (option Settlement) -> World DB -> Prop) w :
  (forall sm w', w_db w' = w_db w -> w_out w' = w_out w -> settlements (st w) !! id = Some sm ->
     Q (Ok (Some sm)) w') ->
  (forall r w', w_out w' = w_out w -> nothing r -> Q r w') ->
  wp (FindSettlement id) Q w.
Proof.
  intros Hok Hno. unfold FindSettlement.
  apply wp_bind, market_wp_gormDB; cbv beta iota; [|intros _; by apply Hno].
  apply wp_or_nil, wp_take_byid; cbv beta iota; [intros; by apply Hno..|].
  intros sm Hsm _. by apply Hok.
Qed.

(** One run of the settlement step asks the gateway for money at most once,
    only for a record not yet paid out, and then for exactly the net amount of a
    completed order, under the record's request id; this holds for any failures. *)
Theorem settlement_pays_net s id w :
  (forall r a, reads (MarketService.gw_Settle (MarketService.gateway s) r a)) -> Inv (st w) ->
  wp (MarketService.processSettlement s id) (fun _ w' =>
    w_out w' = w_out w \/
    exists sm o, settlements (st w) !! id = Some sm /\ st_Status sm <> RecordSucceeded /\
      orders (st w) !! st_OrderID sm = Some o /\ ord_Status o = OrderCompleted /\
      w_out w' = w_out w ++ [EvGateway "settle" (st_RequestID sm) (ord_SellerNetCents o)]) w.
Proof.
  intros Hg I. unfold MarketService.processSettlement. apply wp_bind, wp_found, wp_FindSettlement.
  2: { intros r w' Hw Hn. destruct r as [[t|]|]; [by destruct (Hn t)|by left..]. }
  intros sm w1 Hdb1 Hout1 Hsm. apply wp_if; intros Hst; [by left|]. bools.
  destruct (inv_settled _ I _ _ Hsm) as (o & Ho & Hcomp & Hamt).
  set (ev := EvGateway "settle" (st_RequestID sm) (ord_SellerNetCents o)).
  assert (Hpaid : forall w', w_out w' = w_out w ++ [ev] -> w_out w' = w_out w \/
    exists sm o, settlements (st w) !! id = Some sm /\ st_Status sm <> RecordSucceeded /\
      orders (st w) !! st_OrderID sm = Some o /\ ord_Status o = OrderCompleted /\
      w_out w' = w_out w ++ [EvGateway "settle" (st_RequestID sm) (ord_SellerNetCents o)]).
  { intros w' Hw'. right. exists sm, o. auto. }
  apply wp_bind, wp_attempt. unfold MarketService.gateway_Settle. apply wp_bind, wp_emit. cbv beta iota.
  rewrite Hamt. apply wp_reads; [apply Hg|]. intros [gid|e] w2 _ Hout2; cbv beta iota;
    simpl in Hout2; rewrite Hout1 in Hout2; fold ev in Hout2; apply wp_bind, wp_now; cbv beta iota.
  - unfold internal. apply wp_bind, wp_map_err.
    eapply wp_mono; [apply (wp_preserves w_out), silent_UpdateSettlement|].
    intros [ok|e] w3 Hout3; cbv beta iota; [|apply Hpaid; simpl in *; congruence].
    apply wp_if; intros _; [|apply Hpaid; simpl in *; congruence].
    apply wp_bind, wp_attempt. apply wp_reads; [apply reads_FindSettlement|].
    intros r w4 _ Hout4. cbv beta iota.
    assert (Hend : w_out w4 = w_out w ++ [ev]) by (simpl in *; congruence).
    destruct r as [[c|]|]; try (by apply Hpaid). by destruct (bool_decide _); apply Hpaid.
  - apply wp_bind, wp_attempt. eapply wp_mono; [apply (wp_preserves w_out), silent_UpdateSettlement|].
    intros r w3 Hout3. apply wp_throw, Hpaid. simpl in *. congruence.
Qed.
End func.

(** ** On the run of [MarketDemo] *)
Import MarketProps.

Lemma at_order_up : up at_order.
Proof. split; [done|vm_compute; reflexivity]. Qed.
Lemma at_paying_up : up at_paying.
Proof. split; [done|vm_compute; reflexivity]. Qed.

Lemma CancelOrder_spec_witness :
  exists o ic, orders (st at_order) !! 1011%Z = Some o /\
    (CancelOrder 1011 8 5 at_order).1 = Ok (order_cancel 5 o, ic) /\
    st (CancelOrder 1011 8 5 at_order).2 = cancelled 1011 o 5 (st at_order).
Proof.
  pose proof (CancelOrder_spec 1011 8 5 at_order at_order_up) as Hs.
  destruct (row_at (orders (st at_order)) 1011%Z
    (fun o => (ord_BuyerRootUserID o =? 8)%Z && is_status OrderPendingPayment o))
    as (o & Ho & Hg); [vm_compute; reflexivity|].
  unfold wp, order_if in Hs. rewrite Ho in Hs. cbn [mbind option_bind] in Hs. rewrite Hg in Hs.
  destruct Hs as [[ic Hr] Hw]. exists o, ic. auto.
Defined.

Lemma callback_idempotent_witness :
  exists r w1 o w2,
    ApplyPaymentCallback "pay-1" "test-pay-pay-1" 12345 (env_now 40) at_paying = (Ok r, w1) /\
    ApplyPaymentCallback "pay-1" "test-pay-pay-1" 12345 (env_now 50) w1 = (Ok (o, false), w2) /\
    st w2 = st w1.
Proof.
  destruct (ApplyPaymentCallback "pay-1" "test-pay-pay-1" 12345 (env_now 40) at_paying)
    as [[r|e] w1] eqn:Hrun.
  - destruct (callback_idempotent _ _ _ _ (env_now 50) at_paying r w1
      at_paying_up (history_inv _ to_paying_history) Hrun) as (o & w2 & H1 & H2).
    exists r, w1, o, w2. auto.
  - exfalso. apply (f_equal (fun x => is_ok (fst x))) in Hrun. vm_compute in Hrun. discriminate.
Defined.

(** A day later. *)
Definition tomorrow : Env := {|
  env_now t := (1700086400 * GoTime.Second + Z.of_nat t * GoTime.Second)%Z;
  env_id t := (9000 + Z.of_nat t)%Z;
  env_fault _ := false;
|}.

Lemma at_order_up_tomorrow : up (E := tomorrow) at_order.
Proof. split; [done|vm_compute; reflexivity]. Qed.

Lemma due_orders_expire_witness :
  exists o, orders (st at_order) !! 1011%Z = Some o /\
    orders (st (MarketService.RunDueJobs (E := tomorrow) demo_service at_order).2) !! 1011%Z =
      Some (order_cancel (env_now (Env := tomorrow) (w_tick at_order)) o).
Proof.
  destruct (row_at (orders (st at_order)) 1011%Z
    (expired (env_now (Env := tomorrow) (w_tick at_order))))
    as (o & Ho & Hg); [vm_compute; reflexivity|].
  exists o. split; [exact Ho|].
  apply (due_orders_expire (E := tomorrow) demo_service at_order 1011 o market_demo_honest
    at_order_up_tomorrow (history_inv _ to_order_history)); [|exact Ho|exact Hg].
  vm_compute. discriminate.
Defined.

(** The delivered order confirmed in the repository, its settlement still open. *)
Definition at_unsettled : World DB :=
  (ConfirmReceived 1011 8 (mkSettlement 5000 1011 "settlement:1011" None 0 RecordPending 0 0) 5 at_delivered).2.

Lemma at_unsettled_inv : Inv (st at_unsettled).
Proof.
  pose proof (ConfirmReceived_atomic 1011 8
    (mkSettlement 5000 1011 "settlement:1011" None 0 RecordPending 0 0) 5 at_delivered) as Ha.
  apply (goes_step (st at_delivered) at_delivered at_unsettled).
  - apply goes_refl, history_inv, to_delivered_history.
  - unfold wp, atomic in Ha. unfold at_unsettled. destruct (_ : res _); auto.
Qed.

Lemma settlement_pays_net_witness :
  exists sm o, settlements (st at_unsettled) !! 5000%Z = Some sm /\
    orders (st at_unsettled) !! st_OrderID sm = Some o /\
    w_out (MarketService.processSettlement demo_service 5000 at_unsettled).2 =
      w_out at_unsettled ++ [EvGateway "settle" (st_RequestID sm) (ord_SellerNetCents o)].
Proof.
  destruct (settlement_pays_net demo_service 5000 at_unsettled (fun _ _ => reads_ret _) at_unsettled_inv)
    as [He|(sm & o & Hs & _ & Ho & _ & Hout)].
  - exfalso. apply (f_equal length) in He. vm_compute in He. discriminate.
  - exists sm, o. auto.
Defined.
End MarketFunc.

(** ** Marketplace: behaviours worth knowing

    Concrete runs in which the code does what its callers or its documentation do
    not expect. *)

Module MarketFindings.
Import Safe.
Import Market MarketRepo MarketRefine MarketResp MarketSafe MarketDemo MarketProps.

Definition status_of (k : Z) (w : World DB) : option OrderStatus :=
  ord_Status <$> orders (st w) !! k.
Definition item_status_of (k : Z) (w : World DB) : option (ItemStatus * option Z) :=
  (fun i => (item_Status i, item_ReservedOrderID i)) <$> items (st w) !! k.
Definition refund_status_of (k : Z) (w : World DB) : option RecordStatus :=
  rf_Status <$> refunds (st w) !! k.

(** Approving a refund that was already rejected asks the gateway to move the
    money and only then finds the refund closed. *)
Definition at_rejected : World DB :=
  run demo_service (to_refund_request ++ [RDecideRefund "1041" 1 {| rdreq_Approved := false |}]) w0.

Theorem approve_after_reject :
  let '(r, w) := MarketService.DecideRefund demo_service "1041" 1 {| rdreq_Approved := true |} at_rejected in
  r = Err MarketService.ErrOrderState /\
  w_out w = w_out at_rejected ++ [EvGateway "refund" "rf-1" 12345] /\
  refund_status_of 1041 w = Some RecordRejected /\ status_of 1011 w = Some OrderPaid.
Proof. vm_compute. auto. Qed.

(** [HideItem] takes any failure of its inner [SELECT] for "no pending order": the
    item is hidden and unbound while the order stays payable. *)
Definition select_fails : Env := {|
  env_now := env_now; env_id := env_id; env_fault n := (n =? 21)%nat |}.

Theorem hide_swallows_failure :
  let '(r, w) := HideItem (E := select_fails) 1007 5 at_order in
  r = Ok None /\ item_status_of 1007 w = Some (ItemHidden, None) /\
  status_of 1011 w = Some OrderPendingPayment.
Proof. vm_compute. auto. Qed.

(** A dispute decided for the buyer after a rejected refund request: the unique
    index on the order keeps the old row, so the order is refunded while its only
    refund record stays rejected. *)
Definition at_disputed : World DB :=
  run demo_service (to_refund_request ++ [
    RDecideRefund "1041" 1 {| rdreq_Approved := false |};
    RCreateDispute 8 "1011" {| dreq_Reason := "broken" |}]) w0.

Theorem dispute_refund_keeps_rejected_row :
  exists k, let w := (MarketRepo.ResolveDispute k 1 "refund" "ok" "gw"
    (mkRefund 7000 0 0 "dispute-refund" None 0 "ok" RecordPending None None 0 0) 5 at_disputed).2 in
  status_of 1011 w = Some OrderRefunded /\ refund_status_of 1041 w = Some RecordRejected /\
  refund_status_of 7000 w = None.
Proof.
  exists (match map_to_list (disputes (st at_disputed)) with (k, _) :: _ => k | [] => 0%Z end).
  vm_compute. auto.
Qed.

(** [SaveCategory] of a new category whose name exists overwrites that category,
    its commission rate included, and answers with an id no row has. *)
Theorem same_name_overwrites :
  let save rate w := MarketService.SaveCategory "" {| creq_Name := "home"; creq_CommissionRateBps := Some rate |} w in
  let w1 := (save 500%Z w0).2 in
  let '(r, w2) := save 900%Z w1 in
  exists k c c', map_to_list (categories (st w1)) = [(k, c)] /\ map_to_list (categories (st w2)) = [(k, c')] /\
    (cat_CommissionRateBps c, cat_CommissionRateBps c') = (500%Z, 900%Z) /\
    exists a, r = Ok a /\ catr_ID a <> marketplaceID k.
Proof.
  vm_compute. eexists _, _, _. do 3 (split; [reflexivity|]). by eexists.
Qed.

(** [UpdateItem] writes back the status the service read earlier: an item that was
    reserved then and has been released since ends up reserved for no order. *)
Theorem stale_status_reserves_for_nobody :
  let released := (CancelOrder 1011 8 5 at_order).2 in
  let stale := default zero_Item (items (st at_order) !! 1007%Z) in
  item_status_of 1007 released = Some (ItemPublished, None) /\
  item_status_of 1007 (UpdateItem stale 7 released).2 = Some (ItemReserved, None).
Proof. vm_compute. auto. Qed.

End MarketFindings.
