(* ===== verification/ReservationModel.v ===== *)
(** * Reservation: data model

    The rows of [internal/reservation/model.go], the unique indexes of migration
    000004, and the store of the reservation service with its abstract view. *)
From S2P Require Import Prelude GoString GoTime GoMonad Sql.

Module Reservation.

Inductive Activity := StatusActive | StatusDisabled.
Inductive SlotStatus := SlotOpen | SlotClosed.
Inductive BookingStatus :=
  BookingReserved | BookingCancelled | BookingClosureCancelled | BookingCheckedIn | BookingNoShow.

#[export] Instance Activity_eq : EqDecision Activity.
Proof. solve_decision. Defined.
#[export] Instance SlotStatus_eq : EqDecision SlotStatus.
Proof. solve_decision. Defined.
#[export] Instance BookingStatus_eq : EqDecision BookingStatus.
Proof. solve_decision. Defined.

Definition slot_status_text (s : SlotStatus) : string :=
  match s with SlotOpen => "open" | SlotClosed => "closed" end.
Definition booking_status_text (s : BookingStatus) : string :=
  match s with
  | BookingReserved => "reserved" | BookingCancelled => "cancelled"
  | BookingClosureCancelled => "closureCancelled" | BookingCheckedIn => "checkedIn"
  | BookingNoShow => "noShow"
  end.

Record Venue := mkVenue {
  ven_ID : Z;
  ven_Name : string;
  ven_Description : string;
  ven_Status : Activity;
  ven_AdvanceDays : Z;
  ven_SlotMinutes : Z;
  ven_DailyLimit : Z;
  ven_CancelBeforeMinutes : Z;
  ven_CreatedAt : Z;
  ven_UpdatedAt : Z;
}.

Record Resource := mkResource {
  rsc_ID : Z;
  rsc_VenueID : Z;
  rsc_Name : string;
  rsc_Capacity : Z;
  rsc_Status : Activity;
  rsc_CreatedAt : Z;
  rsc_UpdatedAt : Z;
}.

Record WeeklyRule := mkWeeklyRule {
  rule_ID : Z;
  rule_ResourceID : Z;
  rule_Weekday : Z;
  rule_StartMinute : Z;
  rule_EndMinute : Z;
  rule_Status : Activity;
  rule_CreatedAt : Z;
  rule_UpdatedAt : Z;
}.

Record Closure := mkClosure {
  clo_ID : Z;
  clo_VenueID : option Z;
  clo_ResourceID : option Z;
  clo_StartAt : Z;
  clo_EndAt : Z;
  clo_Reason : string;
  clo_CreatedBy : Z;
  clo_CreatedAt : Z;
}.

Record Slot := mkSlot {
  slot_ID : Z;
  slot_ResourceID : Z;
  slot_StartAt : Z;
  slot_EndAt : Z;
  slot_Capacity : Z;
  slot_ReservedCount : Z;
  slot_Status : SlotStatus;
  slot_CreatedAt : Z;
  slot_UpdatedAt : Z;
}.

Record UserDayLock := mkUserDayLock {
  lock_ID : Z;
  lock_RootUserID : Z;
  lock_ReservationDate : Z;
}.

Record Booking := mkBooking {
  bk_ID : Z;
  bk_RootUserID : Z;
  bk_UserID : Z;
  bk_SlotID : Z;
  bk_Status : BookingStatus;
  bk_CheckinCode : string;
  bk_CheckedAt : option Z;
  bk_CancelledAt : option Z;
  bk_CreatedAt : Z;
  bk_UpdatedAt : Z;
}.

(** The zero value of a slot, for an association whose row is missing. *)
Definition zero_Slot : Slot := mkSlot 0 0 GoTime.zero_time GoTime.zero_time 0 0 SlotClosed
  GoTime.zero_time GoTime.zero_time.

(** ** Unique indexes *)
#[export] Instance Venue_entity : Entity Venue := { ent_id := ven_ID; ent_clash _ _ := false }.
#[export] Instance Resource_entity : Entity Resource := { ent_id := rsc_ID; ent_clash _ _ := false }.
#[export] Instance WeeklyRule_entity : Entity WeeklyRule := { ent_id := rule_ID; ent_clash _ _ := false }.
#[export] Instance Closure_entity : Entity Closure := { ent_id := clo_ID; ent_clash _ _ := false }.
#[export] Instance Slot_entity : Entity Slot := {
  ent_id := slot_ID;
  ent_clash a b := (slot_ResourceID a =? slot_ResourceID b)%Z
    && (slot_StartAt a =? slot_StartAt b)%Z && (slot_EndAt a =? slot_EndAt b)%Z;
}.
#[export] Instance UserDayLock_entity : Entity UserDayLock := {
  ent_id := lock_ID;
  ent_clash a b := (lock_RootUserID a =? lock_RootUserID b)%Z
    && (lock_ReservationDate a =? lock_ReservationDate b)%Z;
}.
#[export] Instance Booking_entity : Entity Booking := {
  ent_id := bk_ID;
  ent_clash a b := String.eqb (bk_CheckinCode a) (bk_CheckinCode b);
}.

(** ** The store *)
Record DB {D : SqlEngine} := mkDB {
  db_nil : bool;
  t_venues : table Venue _;
  t_resources : table Resource _;
  t_rules : table WeeklyRule _;
  t_closures : table Closure _;
  t_slots : table Slot _;
  t_locks : table UserDayLock _;
  t_bookings : table Booking _;
}.
Arguments DB : clear implicits.
Arguments DB {D}.

Record State := mkState {
  venues : gmap Z Venue;
  resources : gmap Z Resource;
  rules : gmap Z WeeklyRule;
  closures : gmap Z Closure;
  slots : gmap Z Slot;
  locks : gmap Z UserDayLock;
  bookings : gmap Z Booking;
}.

Definition set_venues v s := {| s with venues := v |}.
Definition set_resources v s := {| s with resources := v |}.
Definition set_rules v s := {| s with rules := v |}.
Definition set_closures v s := {| s with closures := v |}.
Definition set_slots v s := {| s with slots := v |}.
Definition set_locks v s := {| s with locks := v |}.
Definition set_bookings v s := {| s with bookings := v |}.

Section tables.
Context {D : SqlEngine}.

Definition db_state (s : DB) : State :=
  mkState (view (t_venues s)) (view (t_resources s)) (view (t_rules s)) (view (t_closures s))
    (view (t_slots s)) (view (t_locks s)) (view (t_bookings s)).
#[export] Instance DB_abs : Abstract DB State := db_state.

#[export] Instance tbl_venues : Tbl DB State Venue _ _.
Proof.
  refine {| tget := t_venues; tset t s := {| s with t_venues := t |};
    aget := venues; aset := set_venues |}; by intros; try destruct a.
Defined.
#[export] Instance tbl_resources : Tbl DB State Resource _ _.
Proof.
  refine {| tget := t_resources; tset t s := {| s with t_resources := t |};
    aget := resources; aset := set_resources |}; by intros; try destruct a.
Defined.
#[export] Instance tbl_rules : Tbl DB State WeeklyRule _ _.
Proof.
  refine {| tget := t_rules; tset t s := {| s with t_rules := t |};
    aget := rules; aset := set_rules |}; by intros; try destruct a.
Defined.
#[export] Instance tbl_closures : Tbl DB State Closure _ _.
Proof.
  refine {| tget := t_closures; tset t s := {| s with t_closures := t |};
    aget := closures; aset := set_closures |}; by intros; try destruct a.
Defined.
#[export] Instance tbl_slots : Tbl DB State Slot _ _.
Proof.
  refine {| tget := t_slots; tset t s := {| s with t_slots := t |};
    aget := slots; aset := set_slots |}; by intros; try destruct a.
Defined.
#[export] Instance tbl_locks : Tbl DB State UserDayLock _ _.
Proof.
  refine {| tget := t_locks; tset t s := {| s with t_locks := t |};
    aget := locks; aset := set_locks |}; by intros; try destruct a.
Defined.
#[export] Instance tbl_bookings : Tbl DB State Booking _ _.
Proof.
  refine {| tget := t_bookings; tset t s := {| s with t_bookings := t |};
    aget := bookings; aset := set_bookings |}; by intros; try destruct a.
Defined.
End tables.
#[global] Opaque db_state DB_abs.

End Reservation.
