(* ===== verification/ReservationRepo.v ===== *)
(** * Reservation: the repository

    One definition per method of [internal/reservation/repository.go].

    [CreateBooking] mixes locking reads with plain ones, and the plain reads of a
    MySQL transaction come from a read view fixed by its first [SELECT].
    [CreateBooking_at rv] takes that view as an argument; [CreateBooking] is the
    transaction that runs alone, whose view is the current store. *)
From S2P Require Import Prelude GoString GoTime GoMonad Sql ReservationModel.

Module ReservationRepo.
Import Reservation.

Definition errSlotUnavailable : error := ENew "slot unavailable".
Definition errBookingConflict : error := ENew "booking conflict".
Definition errDailyLimit : error := ENew "daily limit reached".
Definition errCancelDeadline : error := ENew "cancel deadline passed".

Definition always {R} (_ : R) : bool := true.

(** ** Row updates *)
Definition slot_count (d : Z) (s : Slot) : Slot :=
  {| s with slot_ReservedCount := (slot_ReservedCount s + d)%Z |}.
Definition slot_close (now : Z) (s : Slot) : Slot :=
  {| s with slot_Status := SlotClosed; slot_ReservedCount := 0%Z; slot_UpdatedAt := now |}.
Definition booking_cancel (st : BookingStatus) (now : Z) (b : Booking) : Booking :=
  {| b with bk_Status := st; bk_CancelledAt := Some now; bk_UpdatedAt := now |}.
Definition booking_checkin (now : Z) (b : Booking) : Booking :=
  {| b with bk_Status := BookingCheckedIn; bk_CheckedAt := Some now; bk_UpdatedAt := now |}.
Definition booking_noshow (now : Z) (b : Booking) : Booking :=
  {| b with bk_Status := BookingNoShow; bk_UpdatedAt := now |}.

Definition has_status (st : BookingStatus) (b : Booking) : bool := bool_decide (bk_Status b = st).
Definition valid_booking (b : Booking) : bool :=
  bool_decide (bk_Status b ∈ [BookingReserved; BookingCheckedIn]).
Definition overlaps (s e : Z) (sl : Slot) : bool := (slot_StartAt sl <? e)%Z && (s <? slot_EndAt sl)%Z.
Definition starts_in (s e : Z) (sl : Slot) : bool := (s <=? slot_StartAt sl)%Z && (slot_StartAt sl <? e)%Z.
Definition is_active (a : Activity) : bool := bool_decide (a = StatusActive).

(** The condition of [HasClosure]: the closure is for the resource, or for its whole
    venue, and overlaps the interval. *)
Definition closure_hits (venueID resourceID s e : Z) (c : Closure) : bool :=
  (bool_decide (clo_ResourceID c = Some resourceID)
   || (bool_decide (clo_ResourceID c = None) && bool_decide (clo_VenueID c = Some venueID)))
  && (clo_StartAt c <? e)%Z && (s <? clo_EndAt c)%Z.

Section repo.
Context {E : Env} {D : SqlEngine}.
Notation M := (M DB).

Definition gormDB : M unit :=
  let! s := get_db in
  if db_nil s then throw (ENew "reservation database not initialized") else ret tt.

(** [ORDER BY name] is left to the engine's collation. *)
Definition ListVenues : M (list Venue) := gormDB;; find Venue (fun v => is_active (ven_Status v)).
Definition FindVenue (id : Z) : M (option Venue) := gormDB;; or_nil (take Venue (byid id always)).
Definition FindResource (id : Z) : M (option Resource) :=
  gormDB;; or_nil (take Resource (byid id always)).
Definition ListResources (venueID : Z) : M (list Resource) :=
  gormDB;; find Resource (fun r => (rsc_VenueID r =? venueID)%Z && is_active (rsc_Status r)).
Definition ListRules (resourceID weekday : Z) : M (list WeeklyRule) :=
  gormDB;;
  let! rows := find WeeklyRule (fun r => (rule_ResourceID r =? resourceID)%Z
    && (rule_Weekday r =? weekday)%Z && is_active (rule_Status r)) in
  ret (order_by rule_StartMinute rows).

Definition EnsureSlots (l : list Slot) : M unit :=
  gormDB;;
  match l with [] => ret tt | _ => insert_ignore_all Slot l end.

Definition ListSlots (resourceID s e : Z) : M (list Slot) :=
  gormDB;;
  let! rows := find Slot (fun sl => (slot_ResourceID sl =? resourceID)%Z && starts_in s e sl) in
  ret (order_by slot_StartAt rows).

Definition HasClosure (venueID resourceID s e : Z) : M bool :=
  gormDB;;
  let! n := count Closure (closure_hits venueID resourceID s e) in
  ret (0 <? n)%Z.

Definition CreateVenue (item : Venue) : M unit := gormDB;; insert Venue item.
Definition CreateResource (item : Resource) : M unit := gormDB;; insert Resource item.
Definition CreateRule (item : WeeklyRule) : M unit := gormDB;; insert WeeklyRule item.

(** [JOIN reservation_slots s ON s.id = reservations.slot_id] *)
Definition joined (rv : DB) (p : Slot -> bool) (b : Booking) : bool :=
  existsb p (sel (byid (bk_SlotID b) always) (t_slots rv)).

Definition CreateBooking_at (rv : DB) (booking : Booking) (now : Z) : M (Slot * Venue) :=
  gormDB;;
  transaction (
    let! candidate := map_err (fun _ => errSlotUnavailable)
      (take_in Slot rv (byid (bk_SlotID booking) always)) in
    let date := GoTime.dayStart (slot_StartAt candidate) in
    insert_ignore UserDayLock (mkUserDayLock (bk_ID booking) (bk_RootUserID booking) date);;
    let! _ := take UserDayLock (fun l => (lock_RootUserID l =? bk_RootUserID booking)%Z
                                && (lock_ReservationDate l =? date)%Z) in
    let! locked := map_err (fun _ => errSlotUnavailable)
      (take Slot (byid (bk_SlotID booking) always)) in
    if negb (bool_decide (slot_Status locked = SlotOpen))
       || (slot_Capacity locked <=? slot_ReservedCount locked)%Z
       || negb (now <? slot_StartAt locked)%Z
    then throw errSlotUnavailable
    else
      let! resource := map_err (fun _ => errSlotUnavailable)
        (take_in Resource rv (byid (slot_ResourceID locked) (fun r => is_active (rsc_Status r)))) in
      let! venue := map_err (fun _ => errSlotUnavailable)
        (take_in Venue rv (byid (rsc_VenueID resource) (fun v => is_active (ven_Status v)))) in
      let latest := GoTime.AddDays (GoTime.dayStart now) (ven_AdvanceDays venue + 1) in
      if negb (slot_StartAt locked <? latest)%Z then throw errSlotUnavailable
      else
        let mine := fun b => (bk_RootUserID b =? bk_RootUserID booking)%Z && valid_booking b in
        let! daily := count_in Booking rv (fun b =>
          mine b && joined rv (starts_in date (GoTime.AddDays date 1)) b) in
        if (ven_DailyLimit venue <=? daily)%Z then throw errDailyLimit
        else
          let! overlap := count_in Booking rv (fun b =>
            mine b && joined rv (overlaps (slot_StartAt locked) (slot_EndAt locked)) b) in
          if (0 <? overlap)%Z then throw errBookingConflict
          else
            let! n := update Slot
              (byid (slot_ID locked) (fun s => slot_ReservedCount s <? slot_Capacity s)%Z)
              (slot_count 1) in
            if negb (n =? 1)%Z then throw errSlotUnavailable
            else insert Booking booking;; ret (locked, venue)).

Definition CreateBooking (booking : Booking) (now : Z) : M (Slot * Venue) :=
  let! rv := get_db in CreateBooking_at rv booking now.

Definition preload_slots (l : list Booking) : M (list (Booking * Slot)) :=
  let ids := bk_SlotID <$> l in
  let! rows := (match ids with
                | [] => ret []
                | _ => find Slot (fun s => bool_decide (slot_ID s ∈ ids))
                end) in
  ret ((fun b => (b, match List.find (fun s => (slot_ID s =? bk_SlotID b)%Z) rows with
                     | Some s => s | None => zero_Slot end)) <$> l).

Definition ListBookings (rootUserID pageNo size : Z) : M (list (Booking * Slot) * Z) :=
  gormDB;;
  let base := fun b => (bk_RootUserID b =? rootUserID)%Z in
  let! total := count Booking base in
  let! rows := find Booking base in
  let! l := preload_slots (page (mul64 (sub64 pageNo 1) size) size
                             (order_by (fun b => - bk_CreatedAt b)%Z rows)) in
  ret (l, total).

(** The error of the first [SELECT], of any kind, ends the transaction normally. *)
Definition CancelBooking (id rootUserID now : Z) : M bool :=
  gormDB;;
  transaction (
    let! r := attempt (take Booking (byid id (fun b => (bk_RootUserID b =? rootUserID)%Z))) in
    match r with
    | Err _ => ret false
    | Ok item =>
      if negb (has_status BookingReserved item) then ret false
      else
        let! slot := take Slot (byid (bk_SlotID item) always) in
        let! resource := take Resource (byid (slot_ResourceID slot) always) in
        let! venue := take Venue (byid (rsc_VenueID resource) always) in
        if negb (now <? slot_StartAt slot + mul64 (- ven_CancelBeforeMinutes venue) GoTime.Minute)%Z
        then throw errCancelDeadline
        else
          let! n := update Booking (byid id (has_status BookingReserved))
            (booking_cancel BookingCancelled now) in
          if negb (n =? 1)%Z then ret false
          else
            let! m := update Slot (byid (slot_ID slot) (fun s => 0 <? slot_ReservedCount s)%Z)
              (slot_count (-1)) in
            if negb (m =? 1)%Z then throw errSlotUnavailable else ret true
    end).

Definition Checkin (code : string) (now : Z) : M bool :=
  gormDB;;
  let! n := update Booking
    (fun b => String.eqb (bk_CheckinCode b) code && has_status BookingReserved b)
    (booking_checkin now) in
  ret (0 <? n)%Z.

(** [SKIP LOCKED] passes over rows another transaction holds; here none does. *)
Definition MarkNoShows (now : Z) : M (list Booking) :=
  gormDB;;
  transaction (
    let! s := get_db in
    let! items := find Booking (fun b =>
      has_status BookingReserved b && joined s (fun sl => slot_EndAt sl <=? now)%Z b) in
    match items with
    | [] => ret items
    | _ =>
      let ids := bk_ID <$> items in
      let! n := update Booking (fun b => bool_decide (bk_ID b ∈ ids) && has_status BookingReserved b)
        (booking_noshow now) in
      if negb (n =? Z.of_nat (length items))%Z
      then throw (ENew ("mark no-shows: expected " ++ GoStr.FormatInt (Z.of_nat (length items))
                   ++ " updates, got " ++ GoStr.FormatInt n)%string)
      else ret items
    end).

Definition closure_slots (s : DB) (item : Closure) (sl : Slot) : bool :=
  overlaps (clo_StartAt item) (clo_EndAt item) sl
  && match clo_ResourceID item, clo_VenueID item with
     | Some r, _ => (slot_ResourceID sl =? r)%Z
     | None, Some v =>
       existsb (fun _ => true) (sel (byid (slot_ResourceID sl) (fun r => (rsc_VenueID r =? v)%Z)) (t_resources s))
     | None, None => true
     end.

(** [Distinct().Pluck]: the distinct values, in the engine's order. *)
Definition CreateClosure (item : Closure) (now : Z) : M (list Z) :=
  gormDB;;
  transaction (
    insert Closure item;;
    let! s := get_db in
    let! sls := find Slot (closure_slots s item) in
    match sls with
    | [] => ret []
    | _ =>
      let ids := slot_ID <$> sls in
      let hit := fun b => bool_decide (bk_SlotID b ∈ ids) && has_status BookingReserved b in
      let! bs := find Booking hit in
      let roots := remove_dups (bk_RootUserID <$> bs) in
      update Booking hit (booking_cancel BookingClosureCancelled now);;
      update Slot (fun sl => bool_decide (slot_ID sl ∈ ids)) (slot_close now);;
      ret roots
    end).

End repo.
End ReservationRepo.
