(* ===== verification/ReservationSpec.v ===== *)
(** * Reservation: specification and invariants

    [rstep serial] has one rule per reservation transition.  Booking a slot is
    guarded by the slot's own row, which the code locks; the rules about one user's
    bookings (no overlap, daily limit) are read from the transaction's read view,
    so they hold of the current store only when transactions do not overlap
    ([serial = true]).  [Inv] holds in every reachable state in either case;
    [Fair] needs [serial = true]. *)
From S2P Require Import Prelude GoString GoTime GoMonad Sql ReservationModel ReservationRepo.

Module ReservationSpec.
Import Reservation ReservationRepo.

(** A booking that occupies a place of its slot. *)
Definition occupies (sid : Z) (b : Booking) : bool :=
  (bk_SlotID b =? sid)%Z && bool_decide (bk_Status b ∈ [BookingReserved; BookingCheckedIn; BookingNoShow]).

Definition on_slot (sl : gmap Z Slot) (p : Slot -> bool) (b : Booking) : bool :=
  match sl !! bk_SlotID b with Some x => p x | None => false end.

Definition valid_of (root : Z) (b : Booking) : bool := (bk_RootUserID b =? root)%Z && valid_booking b.

(** The number of valid bookings of a user whose slot starts on the day that begins
    at the instant [d]. *)
Definition on_day (d : Z) (sl : Slot) : bool := bool_decide (GoTime.dayStart (slot_StartAt sl) = d).
Definition daily (s : State) (root d : Z) : Z :=
  amount (fun b => valid_of root b && on_slot (slots s) (on_day d) b) (bookings s).

(** The repository's interval of a day holds the slots of that day. *)
Lemma starts_in_day d sl : GoTime.dayStart d = d -> starts_in d (GoTime.AddDays d 1) sl = on_day d sl.
Proof.
  intros Hd. unfold starts_in, on_day. pose proof (GoTime.dayStart_spec (slot_StartAt sl)) as Hs.
  case_bool_decide as Hx; [subst d|].
  - apply andb_true_iff. split; [apply Z.leb_le|apply Z.ltb_lt]; lia.
  - apply andb_false_iff. destruct (d <=? _)%Z eqn:H1; [right|by left]. bools. apply Z.ltb_ge.
    destruct (Z.le_gt_cases (GoTime.AddDays d 1) (slot_StartAt sl)) as [|H2]; [done|].
    destruct Hx. by apply GoTime.dayStart_unique.
Qed.

Lemma daily_interval s root d : GoTime.dayStart d = d ->
  daily s root d =
    amount (fun b => valid_of root b && on_slot (slots s) (starts_in d (GoTime.AddDays d 1)) b) (bookings s).
Proof.
  intros Hd. apply amount_ext. intros k b _. f_equal. unfold on_slot.
  destruct (slots s !! bk_SlotID b); [|done]. by rewrite starts_in_day.
Qed.

Definition no_overlap (s : State) (root : Z) (sl : Slot) : Prop :=
  forall k b, bookings s !! k = Some b -> valid_of root b = true ->
    on_slot (slots s) (overlaps (slot_StartAt sl) (slot_EndAt sl)) b = false.

(** What the service guarantees of the rows an administrator creates; [slot_minutes]
    is an [INT] column. *)
Definition good_venue (v : Venue) : Prop :=
  (0 < ven_AdvanceDays v /\ 0 < ven_SlotMinutes v < 2 ^ 31 /\ 0 < ven_DailyLimit v /\ 0 < ven_CancelBeforeMinutes v)%Z.
Definition good_resource (r : Resource) : Prop := (0 < rsc_Capacity r)%Z.
Definition good_rule (r : WeeklyRule) : Prop :=
  (0 <= rule_StartMinute r /\ rule_StartMinute r < rule_EndMinute r /\ rule_EndMinute r <= 1440)%Z.
Definition fresh_slot (sl : Slot) : Prop :=
  slot_ReservedCount sl = 0%Z /\ (0 < slot_Capacity sl /\ slot_StartAt sl < slot_EndAt sl)%Z.

Inductive rstep (serial : bool) (s : State) : State -> Prop :=
| r_venue v : venues s !! ven_ID v = None -> good_venue v -> rstep serial s (set_venues (<[ven_ID v := v]> (venues s)) s)
| r_resource r : resources s !! rsc_ID r = None -> good_resource r ->
  rstep serial s (set_resources (<[rsc_ID r := r]> (resources s)) s)
| r_rule r : rules s !! rule_ID r = None -> good_rule r -> rstep serial s (set_rules (<[rule_ID r := r]> (rules s)) s)
| r_slot sl : slots s !! slot_ID sl = None -> fresh_slot sl ->
  rstep serial s (set_slots (<[slot_ID sl := sl]> (slots s)) s)
| r_book b sl ven lks now :
  bookings s !! bk_ID b = None -> bk_Status b = BookingReserved ->
  slots s !! bk_SlotID b = Some sl -> slot_Status sl = SlotOpen ->
  (slot_ReservedCount sl < slot_Capacity sl)%Z -> (now < slot_StartAt sl)%Z ->
  (serial = true -> (exists k, venues s !! k = Some ven) /\ no_overlap s (bk_RootUserID b) sl /\
    (daily s (bk_RootUserID b) (GoTime.dayStart (slot_StartAt sl)) < ven_DailyLimit ven)%Z) ->
  rstep serial s (set_bookings (<[bk_ID b := b]> (bookings s))
    (set_slots (<[bk_SlotID b := slot_count 1 sl]> (slots s)) (set_locks lks s)))
| r_cancel k b sl now :
  bookings s !! k = Some b -> bk_Status b = BookingReserved -> slots s !! bk_SlotID b = Some sl ->
  rstep serial s (set_slots (<[bk_SlotID b := slot_count (-1) sl]> (slots s))
    (set_bookings (<[k := booking_cancel BookingCancelled now b]> (bookings s)) s))
| r_checkin p now :
  (forall b, p b = true -> bk_Status b = BookingReserved) ->
  rstep serial s (set_bookings (upd_view p (booking_checkin now) (bookings s)) s)
| r_noshow p now :
  (forall b, p b = true -> bk_Status b = BookingReserved) ->
  (forall k b, bookings s !! k = Some b -> p b = true ->
     on_slot (slots s) (fun sl => slot_EndAt sl <=? now)%Z b = true) ->
  rstep serial s (set_bookings (upd_view p (booking_noshow now) (bookings s)) s)
| r_closure c (hit : Z -> bool) now :
  closures s !! clo_ID c = None ->
  rstep serial s (set_slots (upd_view (fun sl => hit (slot_ID sl)) (slot_close now) (slots s))
    (set_bookings (upd_view (fun b => hit (bk_SlotID b) && has_status BookingReserved b)
        (booking_cancel BookingClosureCancelled now) (bookings s))
      (set_closures (<[clo_ID c := c]> (closures s)) s))).

Definition empty_state : State := mkState ∅ ∅ ∅ ∅ ∅ ∅ ∅.

(** Rows sit under their own key, by the engine's laws. *)
Record wf (s : State) : Prop := {
  wf_slots : forall k r, slots s !! k = Some r -> slot_ID r = k;
  wf_bookings : forall k r, bookings s !! k = Some r -> bk_ID r = k;
}.

Record Inv (s : State) : Prop := {
  ri_slot : forall k b, bookings s !! k = Some b -> is_Some (slots s !! bk_SlotID b);
  ri_count : forall k sl, slots s !! k = Some sl -> slot_Status sl = SlotOpen ->
    slot_ReservedCount sl = amount (occupies k) (bookings s);
  ri_bounds : forall k sl, slots s !! k = Some sl ->
    (0 <= slot_ReservedCount sl <= slot_Capacity sl)%Z;
  ri_closed : forall k b sl, bookings s !! k = Some b -> bk_Status b = BookingReserved ->
    slots s !! bk_SlotID b = Some sl -> slot_Status sl = SlotOpen;
  ri_times : forall k sl, slots s !! k = Some sl -> (slot_StartAt sl < slot_EndAt sl)%Z;
  ri_venue : forall k v, venues s !! k = Some v -> good_venue v;
  ri_resource : forall k r, resources s !! k = Some r -> good_resource r;
  ri_rule : forall k r, rules s !! k = Some r -> good_rule r;
}.

Record Fair (s : State) : Prop := {
  fair_overlap : forall k1 k2 b1 b2 sl1, bookings s !! k1 = Some b1 -> bookings s !! k2 = Some b2 ->
    k1 <> k2 -> bk_RootUserID b1 = bk_RootUserID b2 -> valid_booking b1 = true -> valid_booking b2 = true ->
    slots s !! bk_SlotID b1 = Some sl1 ->
    on_slot (slots s) (overlaps (slot_StartAt sl1) (slot_EndAt sl1)) b2 = false;
  fair_daily : forall root d L, GoTime.dayStart d = d -> (0 <= L)%Z ->
    (forall k v, venues s !! k = Some v -> (ven_DailyLimit v <= L)%Z) -> (daily s root d <= L)%Z;
}.

Lemma reservation_Inv_empty : Inv empty_state.
Proof. split; simpl; intros; by match goal with H : ∅ !! _ = Some _ |- _ => rewrite lookup_empty in H end. Qed.
Lemma Fair_empty : Fair empty_state.
Proof.
  split; simpl; intros; [by match goal with H : ∅ !! _ = Some _ |- _ => rewrite lookup_empty in H end|].
  unfold daily. simpl. by rewrite amount_empty.
Qed.

(** ** Preservation *)

Lemma occupies_status sid b st :
  bk_Status b = st -> occupies sid b =
    (bk_SlotID b =? sid)%Z && bool_decide (st ∈ [BookingReserved; BookingCheckedIn; BookingNoShow]).
Proof. by intros <-. Qed.

Section step.
Variable serial : bool.
Variables s s' : State.
Hypothesis I : Inv s.
Hypothesis W : wf s.
Hypothesis Hs : rstep serial s s'.

(** The rows of the slot table after a transition, with the row they come from. *)
Lemma slot_origin k sl' :
  slots s' !! k = Some sl' ->
  (exists sl, slots s !! k = Some sl /\ slot_StartAt sl' = slot_StartAt sl /\
     slot_EndAt sl' = slot_EndAt sl /\ slot_Capacity sl' = slot_Capacity sl /\
     (slot_Status sl' = SlotOpen -> slot_Status sl = SlotOpen)) \/
  (slots s !! k = None /\ fresh_slot sl').
Proof.
  destruct Hs; simpl; intros Hk; split_lookups; eauto 10; try (left; eexists; naive_solver).
  rewrite lookup_upd_view in Hk. destruct (slots s !! k) as [sl|] eqn:Hsl; simplify_eq/=.
  left. exists sl. destruct (hit _); simpl; naive_solver.
Qed.

Lemma insert_kept {R} (m : gmap Z R) i x k : is_Some (m !! k) -> is_Some (<[i := x]> m !! k).
Proof. rewrite lookup_insert_is_Some. destruct (decide (i = k)); naive_solver. Qed.

Lemma slot_kept k : is_Some (slots s !! k) -> is_Some (slots s' !! k).
Proof.
  intros Hk. destruct Hs; simpl; eauto using insert_kept.
  rewrite lookup_upd_view. destruct Hk as [sl ->]. by eexists.
Qed.

(** The same for bookings. *)
Lemma booking_origin k b' :
  bookings s' !! k = Some b' ->
  (exists b, bookings s !! k = Some b /\ bk_ID b' = bk_ID b /\ bk_SlotID b' = bk_SlotID b /\
     bk_RootUserID b' = bk_RootUserID b /\
     (bk_Status b' = BookingReserved -> bk_Status b = BookingReserved) /\
     (valid_booking b' = true -> valid_booking b = true)) \/
  (bookings s !! k = None /\ bk_Status b' = BookingReserved /\ k = bk_ID b' /\
   exists sl, slots s !! bk_SlotID b' = Some sl /\ slot_Status sl = SlotOpen /\
     (serial = true -> no_overlap s (bk_RootUserID b') sl)).
Proof.
  destruct Hs; simpl; intros Hk; eauto 10;
    try (rewrite lookup_upd_view in Hk; destruct (bookings s !! k) as [b|] eqn:Hb; simplify_eq/=;
         left; exists b; split; [done|]; case_bool; [|naive_solver];
         match goal with
         | H : forall b, ?p b = true -> _, E : ?p _ = true |- _ => apply H in E
         | E : _ && has_status _ _ = true |- _ => unfold has_status in E; bools
         end;
         simpl; repeat split; auto; try done; unfold valid_booking; simpl;
         match goal with E : bk_Status b = _ |- _ => rewrite E end; done).
  - split_lookups; [right|left; eauto 10]. split; [done|]. split; [done|]. split; [done|].
    exists sl. split; [done|]. split; [done|]. intros ->. by destruct (H5 eq_refl) as (_ & ? & _).
  - split_lookups; left; [exists b|eauto 10]. split; [done|]. simpl. repeat split; auto; done.
Qed.

Lemma step_slot k b : bookings s' !! k = Some b -> is_Some (slots s' !! bk_SlotID b).
Proof.
  intros Hb. destruct (booking_origin _ _ Hb) as [(b0 & Hb0 & _ & -> & _)|(_ & _ & _ & sl & Hsl & _)];
    apply slot_kept; [by eapply ri_slot|by eexists].
Qed.

Lemma reserved_occupies k b : bookings s !! k = Some b -> bk_Status b = BookingReserved ->
  (1 <= amount (occupies (bk_SlotID b)) (bookings s))%Z.
Proof.
  intros Hb Hst. eapply amount_pos; [done|]. by rewrite (occupies_status _ _ _ Hst), Z.eqb_refl.
Qed.

(** A reserved booking has a place of its slot to give back. *)
Lemma reserved_slot_taken k b sl : bookings s !! k = Some b -> bk_Status b = BookingReserved ->
  slots s !! bk_SlotID b = Some sl -> (1 <= slot_ReservedCount sl)%Z.
Proof.
  intros Hb Hst Hsl. rewrite (ri_count _ I _ _ Hsl (ri_closed _ I _ _ _ Hb Hst Hsl)).
  by eapply reserved_occupies.
Qed.

Lemma step_bounds k sl : slots s' !! k = Some sl -> (0 <= slot_ReservedCount sl <= slot_Capacity sl)%Z.
Proof.
  pose proof (ri_bounds _ I) as B.
  destruct Hs; simpl; intros Hk; split_lookups; eauto; simpl.
  - unfold fresh_slot in *. lia.
  - apply B in H1. lia.
  - pose proof (reserved_slot_taken _ _ _ H H0 H1). apply B in H1. lia.
  - rewrite lookup_upd_view in Hk. destruct (slots s !! k) as [x|] eqn:Hx; simplify_eq/=.
    apply B in Hx. destruct (hit _); simpl; lia.
Qed.

Lemma no_booking_on_missing k : slots s !! k = None -> amount (occupies k) (bookings s) = 0%Z.
Proof.
  intros Hk. apply amount_zero. intros j b Hb. unfold occupies.
  destruct (bk_SlotID b =? k)%Z eqn:He; [|done]. bools. subst k.
  destruct (ri_slot _ I _ _ Hb) as [? ?]. congruence.
Qed.

Lemma occupies_other sid b : bk_SlotID b <> sid -> occupies sid b = false.
Proof. unfold occupies. intros Hne. by rewrite (proj2 (Z.eqb_neq _ _) Hne). Qed.

Lemma step_count k sl : slots s' !! k = Some sl -> slot_Status sl = SlotOpen ->
  slot_ReservedCount sl = amount (occupies k) (bookings s').
Proof.
  pose proof (ri_count _ I) as C.
  destruct Hs; simpl; intros Hk Hopen; split_lookups; eauto.
  - rewrite no_booking_on_missing by done. by destruct H0.
  - rewrite amount_insert_fresh by done. rewrite (occupies_status _ _ _ H0), Z.eqb_refl.
    simpl. by rewrite (C _ _ H1).
  - rewrite amount_insert_fresh, (occupies_other k) by congruence. simpl. rewrite (C k sl) by done. lia.
  - rewrite (amount_insert _ _ _ _ _ H).
    rewrite (occupies_status _ _ _ H0), Z.eqb_refl. simpl. unfold occupies at 2. simpl.
    rewrite andb_false_r. simpl. rewrite (C _ _ H1) by done. lia.
  - rewrite (amount_insert _ _ _ _ _ H), !(occupies_other k) by (simpl; congruence).
    simpl. rewrite (C k sl) by done. lia.
  - rewrite amount_upd_view; [by apply C|]. intros j b _ Hp. unfold occupies. simpl.
    by rewrite (H _ Hp).
  - rewrite amount_upd_view; [by apply C|]. intros j b _ Hp. unfold occupies. simpl.
    by rewrite (H _ Hp).
  - rewrite lookup_upd_view in Hk. destruct (slots s !! k) as [x|] eqn:Hx; simplify_eq/=.
    rewrite (wf_slots _ W _ _ Hx) in *. destruct (hit k) eqn:Hhit; [done|].
    rewrite amount_upd_view; [by apply C|]. intros j b _ Hp. bools.
    destruct (decide (bk_SlotID b = k)) as [Heq|Hne]; [congruence|].
    by rewrite !occupies_other.
Qed.

Lemma step_closed k b sl : bookings s' !! k = Some b -> bk_Status b = BookingReserved ->
  slots s' !! bk_SlotID b = Some sl -> slot_Status sl = SlotOpen.
Proof.
  pose proof (ri_closed _ I) as C.
  destruct Hs; simpl; intros Hb Hst Hsl; split_lookups; eauto.
  - exfalso. destruct (ri_slot _ I _ _ Hb) as [? ?]. congruence.
  - rewrite lookup_upd_view in Hb. destruct (bookings s !! k) as [x|] eqn:Hx; simplify_eq/=.
    destruct (p x); simplify_eq/=; eauto.
  - rewrite lookup_upd_view in Hb. destruct (bookings s !! k) as [x|] eqn:Hx; simplify_eq/=.
    destruct (p x); simplify_eq/=; eauto.
  - rewrite lookup_upd_view in Hb. rewrite lookup_upd_view in Hsl. destruct (bookings s !! k) as [x|] eqn:Hx; simplify_eq/=.
    destruct (hit (bk_SlotID x) && _) eqn:Hh; simplify_eq/=.
    destruct (slots s !! bk_SlotID x) as [y|] eqn:Hy; simplify_eq/=.
    rewrite (wf_slots _ W _ _ Hy) in *. unfold has_status in Hh. rewrite Hst in Hh.
    destruct (hit (bk_SlotID x)); [done|]. eauto.
Qed.

Lemma step_times k sl : slots s' !! k = Some sl -> (slot_StartAt sl < slot_EndAt sl)%Z.
Proof.
  intros Hk. destruct (slot_origin _ _ Hk) as [(sl0 & H0 & -> & -> & _)|(_ & _ & _ & ?)]; [|done].
  by eapply ri_times.
Qed.

Lemma step_venue k v : venues s' !! k = Some v -> good_venue v.
Proof. pose proof (ri_venue _ I). destruct Hs; simpl; intros Hk; split_lookups; eauto. Qed.
Lemma step_resource k r : resources s' !! k = Some r -> good_resource r.
Proof. pose proof (ri_resource _ I). destruct Hs; simpl; intros Hk; split_lookups; eauto. Qed.
Lemma step_rule k r : rules s' !! k = Some r -> good_rule r.
Proof. pose proof (ri_rule _ I). destruct Hs; simpl; intros Hk; split_lookups; eauto. Qed.

Lemma reservation_Inv_step : Inv s'.
Proof.
  split; eauto using step_slot, step_count, step_bounds, step_closed, step_times, step_venue,
    step_resource, step_rule.
Qed.
(** A slot's times never change, so neither does what a booking's slot satisfies. *)
Lemma on_slot_stable (p : Slot -> bool) b :
  (forall x y, slot_StartAt x = slot_StartAt y -> slot_EndAt x = slot_EndAt y -> p x = p y) ->
  is_Some (slots s !! bk_SlotID b) -> on_slot (slots s') p b = on_slot (slots s) p b.
Proof.
  intros Hp Hb. destruct (slot_kept _ Hb) as [x Hx]. destruct Hb as [y Hy].
  unfold on_slot. rewrite Hx, Hy.
  destruct (slot_origin _ _ Hx) as [(y' & Hy' & H1 & H2 & _)|[Hno _]]; [|congruence].
  simplify_eq. by apply Hp.
Qed.

Lemma new_unique k1 k2 b1 b2 :
  bookings s' !! k1 = Some b1 -> bookings s' !! k2 = Some b2 ->
  bookings s !! k1 = None -> bookings s !! k2 = None -> k1 = k2.
Proof.
  destruct Hs; simpl; intros K1 K2 N1 N2; split_lookups; try congruence;
    rewrite lookup_upd_view, N1 in K1; done.
Qed.
End step.

Lemma overlaps_sym x y :
  overlaps (slot_StartAt x) (slot_EndAt x) y = overlaps (slot_StartAt y) (slot_EndAt y) x.
Proof. unfold overlaps. by rewrite andb_comm. Qed.

Lemma overlaps_times a e x y :
  slot_StartAt x = slot_StartAt y -> slot_EndAt x = slot_EndAt y -> overlaps a e x = overlaps a e y.
Proof. unfold overlaps. by intros -> ->. Qed.

Lemma on_day_times d x y :
  slot_StartAt x = slot_StartAt y -> slot_EndAt x = slot_EndAt y -> on_day d x = on_day d y.
Proof. unfold on_day. by intros -> _. Qed.

Section fair.
Variables s s' : State.
Hypothesis I : Inv s.
Hypothesis W : wf s.
Hypothesis F : Fair s.
Hypothesis Hs : rstep true s s'.

Lemma stable_overlaps a e b : is_Some (slots s !! bk_SlotID b) ->
  on_slot (slots s') (overlaps a e) b = on_slot (slots s) (overlaps a e) b.
Proof. intros Hb. eapply on_slot_stable; [exact Hs|apply overlaps_times|done]. Qed.

Lemma stable_day d b : is_Some (slots s !! bk_SlotID b) ->
  on_slot (slots s') (on_day d) b = on_slot (slots s) (on_day d) b.
Proof. intros Hb. eapply on_slot_stable; [exact Hs|apply on_day_times|done]. Qed.

Lemma on_slot_id sl p b b' : bk_SlotID b = bk_SlotID b' -> on_slot sl p b = on_slot sl p b'.
Proof. unfold on_slot. by intros ->. Qed.

Lemma step_overlap k1 k2 b1 b2 sl1 :
  bookings s' !! k1 = Some b1 -> bookings s' !! k2 = Some b2 -> k1 <> k2 ->
  bk_RootUserID b1 = bk_RootUserID b2 -> valid_booking b1 = true -> valid_booking b2 = true ->
  slots s' !! bk_SlotID b1 = Some sl1 ->
  on_slot (slots s') (overlaps (slot_StartAt sl1) (slot_EndAt sl1)) b2 = false.
Proof.
  intros H1 H2 Hne Hroot V1 V2 Hsl1.
  destruct (booking_origin _ _ _ Hs _ _ H1) as [(x1 & X1 & _ & S1 & R1 & _ & VX1)|(N1 & T1 & _ & y1 & Y1 & _ & O1)];
  destruct (booking_origin _ _ _ Hs _ _ H2) as [(x2 & X2 & _ & S2 & R2 & _ & VX2)|(N2 & T2 & _ & y2 & Y2 & _ & O2)].
  all: assert (E2 : is_Some (slots s !! bk_SlotID b2))
    by (first [rewrite S2; by eapply (ri_slot _ I)|by eexists]).
  all: assert (E1 : is_Some (slots s !! bk_SlotID b1))
    by (first [rewrite S1; by eapply (ri_slot _ I)|by eexists]).
  all: destruct E1 as [z1 Z1]; destruct (slot_origin _ _ _ Hs _ _ Hsl1) as [(z & Z & Zs & Ze & _)|[Zn _]];
    [|congruence]; simplify_eq; rewrite Zs, Ze, stable_overlaps by done.
  - rewrite (on_slot_id _ _ b2 x2 S2). rewrite S1 in Z1.
    eapply (fair_overlap _ F k1 k2 x1 x2); eauto. congruence.
  - specialize (O2 eq_refl k1 x1 X1). unfold valid_of in O2.
    rewrite <- R1, Hroot, Z.eqb_refl, VX1 in O2 by done.
    unfold on_slot in *. rewrite <- S1, Z1 in O2. rewrite Y2, overlaps_sym. by apply O2.
  - specialize (O1 eq_refl k2 x2 X2). unfold valid_of in O1.
    rewrite <- R2, <- Hroot, Z.eqb_refl, VX2 in O1 by done. specialize (O1 eq_refl).
    rewrite (on_slot_id _ _ b2 x2 S2). congruence.
  - destruct Hne. eapply new_unique; eauto.
Qed.

Lemma daily_slots root d :
  amount (fun b => valid_of root b && on_slot (slots s') (on_day d) b) (bookings s)
  = daily s root d.
Proof.
  apply amount_ext. intros k b Hb. by rewrite stable_day by (by eapply (ri_slot _ I)).
Qed.

Lemma step_daily root d L :
  GoTime.dayStart d = d -> (0 <= L)%Z ->
  (forall k v, venues s' !! k = Some v -> (ven_DailyLimit v <= L)%Z) -> (daily s' root d <= L)%Z.
Proof.
  intros Hd HL Hven.
  assert (Hven0 : forall k v, venues s !! k = Some v -> (ven_DailyLimit v <= L)%Z).
  { intros k v Hk. apply (Hven k). destruct Hs; simpl; try done.
    by rewrite lookup_insert_ne by congruence. }
  pose proof (fair_daily _ F root d L Hd HL Hven0) as HF. pose proof (daily_slots root d) as Hds.
  unfold daily at 1. destruct Hs; simpl in *; rewrite ?Hds; try done.
  - rewrite amount_insert_fresh, Hds by done.
    destruct (valid_of root b && _) eqn:Hp; simpl; [|lia].
    apply andb_true_iff in Hp as [Hv Hon]. unfold on_slot in Hon. rewrite lookup_insert_eq in Hon.
    unfold on_day, valid_of in Hon, Hv. simpl in Hon. bools. subst root.
    destruct (H5 eq_refl) as ([k Hk] & _ & Hlt). rewrite Hon in Hlt.
    specialize (Hven0 _ _ Hk). lia.
  - rewrite (amount_insert _ _ _ _ _ H), Hds. simpl.
    replace (valid_of root (booking_cancel BookingCancelled now b)) with false
      by (unfold valid_of, valid_booking; simpl; by rewrite andb_false_r).
    simpl. destruct (_ && _); simpl; lia.
  - etrans; [apply amount_upd_view_le|by rewrite Hds]. intros k b Hk Hp. simpl.
    unfold valid_of, valid_booking. simpl. rewrite (H _ Hp). done.
  - etrans; [apply amount_upd_view_le|by rewrite Hds]. intros k b Hk Hp.
    unfold valid_of, valid_booking. simpl. by rewrite andb_false_r.
  - etrans; [apply amount_upd_view_le|by rewrite Hds]. intros k b Hk Hp.
    unfold valid_of, valid_booking. simpl. by rewrite andb_false_r.
Qed.

Lemma Fair_step : Fair s'.
Proof. split; eauto using step_overlap, step_daily. Qed.
End fair.

Lemma upd_view_wf {R} (idf : R -> Z) p f (m : gmap Z R) :
  (forall r, idf (f r) = idf r) -> (forall k r, m !! k = Some r -> idf r = k) ->
  forall k r, upd_view p f m !! k = Some r -> idf r = k.
Proof.
  intros Hf Hm k r. rewrite lookup_upd_view. destruct (m !! k) as [x|] eqn:Hx; [|done].
  simpl. intros [= <-]. destruct (p x); rewrite ?Hf; by apply Hm.
Qed.

Lemma reservation_wf_step serial s s' : wf s -> rstep serial s s' -> wf s'.
Proof.
  intros [Ws Wb] Hs. split; destruct Hs; simpl; try done; intros j x Hj; split_lookups; eauto;
    try (eapply upd_view_wf; [| |exact Hj]; done); try (simpl; eauto).
Qed.

(** The invariant of the component under serial or overlapping transactions. *)
Definition sound (serial : bool) (s : State) : Prop := wf s /\ Inv s /\ (serial = true -> Fair s).

Lemma reservation_sound_step serial s s' : sound serial s -> rstep serial s s' -> sound serial s'.
Proof.
  intros (W & I & F) Hs. split; [by eapply reservation_wf_step|]. split; [by eapply reservation_Inv_step|].
  intros ->. eapply Fair_step; [done|apply F; done|done].
Qed.

Lemma reservation_sound_empty serial : sound serial empty_state.
Proof.
  split; [by split; intros k r; simpl; rewrite lookup_empty|].
  split; [apply reservation_Inv_empty|]. intros _. apply Fair_empty.
Qed.
End ReservationSpec.
