(* ===== verification/ReservationService.v ===== *)
(** * Reservation: the service

    [internal/reservation/service.go] with the requests and responses of
    [model_req.go] and [model_resp.go], one definition per method.  The slot loop
    of [AvailableSlots] has the shape of the Go [for] statement; it takes fuel, and
    [None] means that the fuel ran out before the loop did. *)
From S2P Require Import Prelude GoString GoTime GoMonad Sql Platform.
From S2P Require Import ReservationModel ReservationRepo.

Module ReservationService.
Import Reservation Pagination.

Definition ErrVenueNotFound : error := Bizerr.NotFound "场馆不存在".
Definition ErrResourceNotFound : error := Bizerr.NotFound "场地资源不存在".
Definition ErrSlotUnavailable : error := Bizerr.Biz "时段不可预约".
Definition ErrBookingConflict : error := Bizerr.Biz "预约时间冲突".
Definition ErrDailyLimit : error := Bizerr.Biz "已达到每日预约上限".
Definition ErrBookingNotFound : error := Bizerr.NotFound "预约不存在".
Definition ErrCancelDeadline : error := Bizerr.Biz "已超过最晚取消时间".
Definition ErrCheckinInvalid : error := Bizerr.Biz "核销码无效或已使用".

(** ** Requests *)
Record VenueReq := {
  vreq_Name : string; vreq_Description : string; vreq_AdvanceDays : Z; vreq_SlotMinutes : Z;
  vreq_DailyLimit : Z; vreq_CancelBeforeMinutes : Z }.
Record ResourceReq := { sreq_Name : string; sreq_Capacity : Z }.
Record RuleReq := { ureq_Weekday : Z; ureq_StartMinute : Z; ureq_EndMinute : Z }.
Record ClosureReq := {
  lreq_VenueID : string; lreq_ResourceID : string; lreq_StartAt : string; lreq_EndAt : string;
  lreq_Reason : string }.
Record CreateBookingReq := { breq_SlotID : string }.
Record CheckinReq := { kreq_Code : string }.

Definition required (s : string) : bool := negb (String.eqb s "").
Definition max_runes (n : Z) (s : string) : bool := (GoStr.RuneCount s <=? n)%Z.
Definition between (a b v : Z) : bool := (a <=? v)%Z && (v <=? b)%Z.

Definition valid_VenueReq (r : VenueReq) : bool :=
  required (vreq_Name r) && max_runes 128 (vreq_Name r) && max_runes 2000 (vreq_Description r).
Definition valid_ResourceReq (r : ResourceReq) : bool :=
  required (sreq_Name r) && max_runes 128 (sreq_Name r) && (1 <=? sreq_Capacity r)%Z.
Definition valid_RuleReq (r : RuleReq) : bool :=
  between 1 7 (ureq_Weekday r) && between 0 1439 (ureq_StartMinute r) && between 1 1440 (ureq_EndMinute r).
Definition valid_ClosureReq (r : ClosureReq) : bool :=
  required (lreq_StartAt r) && required (lreq_EndAt r) && required (lreq_Reason r)
  && max_runes 255 (lreq_Reason r).
Definition valid_CreateBookingReq (r : CreateBookingReq) : bool := required (breq_SlotID r).
Definition valid_CheckinReq (r : CheckinReq) : bool := required (kreq_Code r).

(** ** Responses *)
Record VenueResponse := {
  vr_ID : string; vr_Name : string; vr_Description : string; vr_AdvanceDays : Z; vr_SlotMinutes : Z;
  vr_DailyLimit : Z; vr_CancelBeforeMinutes : Z }.
Record ResourceResponse := { sr_ID : string; sr_VenueID : string; sr_Name : string; sr_Capacity : Z }.
Record SlotResponse := {
  lr_ID : string; lr_StartAt : string; lr_EndAt : string; lr_Capacity : Z; lr_Available : Z;
  lr_Status : string }.
Record BookingResponse := {
  br_ID : string; br_Status : string; br_CheckinCode : string; br_Slot : SlotResponse;
  br_CreatedAt : string }.

Definition id (v : Z) : string := GoStr.FormatInt v.
Definition format (t : Z) : string := if GoTime.IsZero t then "" else GoTime.FormatRFC3339 t.

Definition venueResponse (v : Venue) : VenueResponse := {|
  vr_ID := id (ven_ID v); vr_Name := ven_Name v; vr_Description := ven_Description v;
  vr_AdvanceDays := ven_AdvanceDays v; vr_SlotMinutes := ven_SlotMinutes v;
  vr_DailyLimit := ven_DailyLimit v; vr_CancelBeforeMinutes := ven_CancelBeforeMinutes v |}.
Definition resourceResponse (r : Resource) : ResourceResponse := {|
  sr_ID := id (rsc_ID r); sr_VenueID := id (rsc_VenueID r); sr_Name := rsc_Name r;
  sr_Capacity := rsc_Capacity r |}.
Definition slotResponse (s : Slot) : SlotResponse :=
  let available := sub64 (slot_Capacity s) (slot_ReservedCount s) in
  let available := if (available <? 0)%Z then 0%Z else available in
  {| lr_ID := id (slot_ID s); lr_StartAt := format (slot_StartAt s); lr_EndAt := format (slot_EndAt s);
     lr_Capacity := slot_Capacity s; lr_Available := available;
     lr_Status := slot_status_text (slot_Status s) |}.
Definition bookingResponse (b : Booking * Slot) : BookingResponse := {|
  br_ID := id (bk_ID b.1); br_Status := booking_status_text (bk_Status b.1);
  br_CheckinCode := bk_CheckinCode b.1; br_Slot := slotResponse b.2;
  br_CreatedAt := format (bk_CreatedAt b.1) |}.

(** ** Helpers *)
Definition parseID (raw : string) : res Z :=
  match GoStr.ParseInt (GoStr.TrimSpace raw) with
  | Some v => if (v <=? 0)%Z then Err (Bizerr.Param "ID格式错误") else Ok v
  | None => Err (Bizerr.Param "ID格式错误")
  end.

Definition normalize (p z : Z) : Z * Z :=
  let p := if (p <=? 0)%Z then 1%Z else p in
  let z := if (z <=? 0)%Z then 15%Z else z in
  let z := if (100 <? z)%Z then 100%Z else z in
  (p, z).

Definition blank (s : string) : bool := String.eqb (GoStr.TrimSpace s) "".

Section service.
Context {E : Env} {D : SqlEngine}.
Notation M := (M DB).

Record Service := mkService {
  capabilities : option (Z -> Z -> string -> M unit);
  notifier : option (Z -> string -> string -> string -> string -> M unit);
}.

Definition NewService : Service := mkService None None.
Definition SetCapabilityChecker v (s : Service) : Service := mkService (Some v) (notifier s).
Definition SetNotifier v (s : Service) : Service := mkService (capabilities s) (Some v).

Context (s : Service).

Definition notify (root : Z) (event title content resource : string) : M unit :=
  match notifier s with
  | Some f =>
    emit (EvNotify root event title content resource);;
    let! _ := attempt (f root event title content resource) in ret tt
  | None => ret tt
  end.

Definition ListVenues : M (list VenueResponse) :=
  let! l := internal "查询场馆失败" ReservationRepo.ListVenues in ret (venueResponse <$> l).

Definition ListResources (venueID : string) : M (list ResourceResponse) :=
  let! id := of_res (parseID venueID) in
  let! l := internal "查询场地资源失败" (ReservationRepo.ListResources id) in
  ret (resourceResponse <$> l).

(** [for minute := m; minute+step <= rule.EndMinute; minute += step] *)
Fixpoint slot_loop (fuel : nat) (rid date nw : Z) (resource : Resource) (venue : Venue)
    (rule : WeeklyRule) (minute : Z) (slots : list Slot) : M (option (list Slot)) :=
  match fuel with
  | O => ret None
  | S fuel' =>
    if (add64 minute (ven_SlotMinutes venue) <=? rule_EndMinute rule)%Z then
      let start := (date + mul64 minute GoTime.Minute)%Z in
      let stop := (start + mul64 (ven_SlotMinutes venue) GoTime.Minute)%Z in
      let! closed := ReservationRepo.HasClosure (ven_ID venue) (rsc_ID resource) start stop in
      let! slotID := Generate in
      let slot := mkSlot slotID rid start stop (rsc_Capacity resource) 0
        (if closed then SlotClosed else SlotOpen) nw nw in
      slot_loop fuel' rid date nw resource venue rule (add64 minute (ven_SlotMinutes venue)) (slots ++ [slot])
    else ret (Some slots)
  end.

(** [for _, rule := range rules] *)
Fixpoint rule_loop (fuel : nat) (rid date nw : Z) (resource : Resource) (venue : Venue)
    (rules : list WeeklyRule) (slots : list Slot) : M (option (list Slot)) :=
  match rules with
  | [] => ret (Some slots)
  | rule :: rules' =>
    let! r := slot_loop fuel rid date nw resource venue rule (rule_StartMinute rule) slots in
    match r with
    | Some slots' => rule_loop fuel rid date nw resource venue rules' slots'
    | None => ret None
    end
  end.

Definition AvailableSlots (fuel : nat) (resourceID dateRaw : string) : M (option (list SlotResponse)) :=
  let! rid := of_res (parseID resourceID) in
  match GoTime.ParseDate (GoStr.TrimSpace dateRaw) with
  | None => throw (Bizerr.Param "日期格式错误")
  | Some date =>
    let! resource := found ErrResourceNotFound (ReservationRepo.FindResource rid) in
    if negb (bool_decide (rsc_Status resource = StatusActive)) then throw ErrResourceNotFound
    else
      let! venue := found ErrVenueNotFound (ReservationRepo.FindVenue (rsc_VenueID resource)) in
      if negb (bool_decide (ven_Status venue = StatusActive)) then throw ErrVenueNotFound
      else
        let! t := now in
        let today := GoTime.dayStart t in
        if (date <? today)%Z || (GoTime.AddDays today (ven_AdvanceDays venue) <? date)%Z
        then ret (Some [])
        else
          let weekday := GoTime.Weekday date in
          let weekday := if (weekday =? 0)%Z then 7%Z else weekday in
          let! rules := ReservationRepo.ListRules rid weekday in
          let! nw := now in
          let! slots := rule_loop fuel rid date nw resource venue rules [] in
          match slots with
          | None => ret None
          | Some slots =>
            internal "生成预约时段失败" (ReservationRepo.EnsureSlots slots);;
            let! l := ReservationRepo.ListSlots rid date (GoTime.AddDays date 1) in
            ret (Some (slotResponse <$> l))
          end
  end.

(** The service's [CreateBooking] over the repository's, which is a parameter so
    that it can also be run on an old read view. *)
Definition CreateBooking_with (repo : Booking -> Z -> M (Slot * Venue)) (userID rootUserID : Z)
    (req : CreateBookingReq) : M BookingResponse :=
  (match capabilities s with
   | Some check => check userID rootUserID "reservation"
   | None => ret tt
   end);;
  let! slotID := of_res (parseID (breq_SlotID req)) in
  let! nw := now in
  let! bookingID := Generate in
  let! code := Generate in
  let item := mkBooking bookingID rootUserID userID slotID BookingReserved (GoStr.FormatInt code)
    None None nw nw in
  let! r := map_err (error_table [(ReservationRepo.errSlotUnavailable, ErrSlotUnavailable);
                                  (ReservationRepo.errBookingConflict, ErrBookingConflict);
                                  (ReservationRepo.errDailyLimit, ErrDailyLimit)] "创建预约失败")
              (repo item nw) in
  ret (bookingResponse (item, r.1)).

Definition CreateBooking : Z -> Z -> CreateBookingReq -> M BookingResponse :=
  CreateBooking_with ReservationRepo.CreateBooking.

Definition ListBookings (rootUserID page size : Z) : M (PageResult BookingResponse) :=
  let (page, size) := normalize page size in
  let! r := ReservationRepo.ListBookings rootUserID page size in
  ret (NewPageResult (bookingResponse <$> r.1) r.2 page size).

Definition CancelBooking (rootUserID : Z) (bookingID : string) : M unit :=
  let! id := of_res (parseID bookingID) in
  let! t := now in
  let! ok := map_err (error_table [(ReservationRepo.errCancelDeadline, ErrCancelDeadline)] "取消预约失败")
    (ReservationRepo.CancelBooking id rootUserID t) in
  if negb ok then throw ErrBookingNotFound else ret tt.

Definition or_default (d v : Z) : Z := if (v <=? 0)%Z then d else v.

Definition CreateVenue (req : VenueReq) : M VenueResponse :=
  let! t := now in
  let! newID := Generate in
  let item := mkVenue newID (GoStr.TrimSpace (vreq_Name req)) (GoStr.TrimSpace (vreq_Description req))
    StatusActive (or_default 7 (vreq_AdvanceDays req)) (or_default 60 (vreq_SlotMinutes req))
    (or_default 2 (vreq_DailyLimit req)) (or_default 120 (vreq_CancelBeforeMinutes req)) t t in
  internal "创建场馆失败" (ReservationRepo.CreateVenue item);;
  ret (venueResponse item).

Definition CreateResource (venueID : string) (req : ResourceReq) : M ResourceResponse :=
  let! id := of_res (parseID venueID) in
  let! t := now in
  let! newID := Generate in
  let item := mkResource newID id (GoStr.TrimSpace (sreq_Name req)) (or_default 1 (sreq_Capacity req))
    StatusActive t t in
  internal "创建场地资源失败" (ReservationRepo.CreateResource item);;
  ret (resourceResponse item).

Definition CreateRule (resourceID : string) (req : RuleReq) : M unit :=
  let! id := of_res (parseID resourceID) in
  if (ureq_StartMinute req <? 0)%Z || (1440 <? ureq_EndMinute req)%Z
     || (ureq_EndMinute req <=? ureq_StartMinute req)%Z
  then throw (Bizerr.Param "开放时间不合法")
  else
    let! t := now in
    let! newID := Generate in
    ReservationRepo.CreateRule (mkWeeklyRule newID id (ureq_Weekday req) (ureq_StartMinute req)
      (ureq_EndMinute req) StatusActive t t).

Definition optional_id (raw : string) : M (option Z) :=
  if blank raw then ret None else let! v := of_res (parseID raw) in ret (Some v).

Definition CreateClosure (adminID : Z) (req : ClosureReq) : M unit :=
  let! venueID := optional_id (lreq_VenueID req) in
  let! resourceID := optional_id (lreq_ResourceID req) in
  if bool_decide (venueID = None) && bool_decide (resourceID = None)
  then throw (Bizerr.Param "场馆或资源不能为空")
  else
    match GoTime.ParseRFC3339 (lreq_StartAt req) with
    | None => throw (Bizerr.Param "闭馆开始时间格式错误")
    | Some start =>
      match GoTime.ParseRFC3339 (lreq_EndAt req) with
      | None => throw (Bizerr.Param "闭馆结束时间格式错误")
      | Some stop =>
        if negb (start <? stop)%Z then throw (Bizerr.Param "闭馆结束时间格式错误")
        else
          let! t := now in
          let! newID := Generate in
          let! roots := internal "创建闭馆失败" (ReservationRepo.CreateClosure
            (mkClosure newID venueID resourceID start stop (lreq_Reason req) adminID t) t) in
          for_each roots (fun root =>
            notify root "reservation.closure" "预约因闭馆取消" (lreq_Reason req) "")
      end
    end.

Definition Checkin (code : string) : M unit :=
  let! t := now in
  let! ok := ReservationRepo.Checkin (GoStr.TrimSpace code) t in
  if negb ok then throw ErrCheckinInvalid else ret tt.

Definition RunDueJobs : M unit :=
  let! t := now in
  let! items := ReservationRepo.MarkNoShows t in
  for_each items (fun item =>
    notify (bk_RootUserID item) "reservation.noShow" "预约已标记为爽约" "预约已结束但未完成核销"
      (id (bk_ID item)));;
  match items with [] => ret tt | _ => emit (EvLog "reservation no-shows marked") end.
End service.
Arguments Service {D}.
End ReservationService.
