(* ===== verification/ReservationSafe.v ===== *)
(** * Reservation: every request is a sequence of specified transitions

    The service methods over the system of [ReservationSpec], and histories of
    requests.  Under [serial = true] every transaction sees the current store; under
    [serial = false] a booking may read any old view of it, as overlapping
    transactions do. *)
From S2P Require Import Prelude GoString GoTime GoMonad Sql Safe Platform ReservationModel ReservationRepo.
From S2P Require Import ReservationSpec ReservationService.

(** ** Reservation: the repository implements the specification

    Every writing method either leaves the store as it was and reports an error,
    or performs transitions of [rstep].  [CreateBooking_at] does so for every read
    view, however old ([rstep false]); with the current store as its view it also
    respects the rules about one user's bookings ([rstep true]). *)

Module ReservationRefine.
Import Safe.
Import Reservation ReservationRepo ReservationSpec.

Section base.
Context {E : Env} {D : SqlEngine}.
Implicit Types (w : World DB).

(** An error changes nothing; a return performs transitions. *)
Definition atomic (serial : bool) {A} w (r : res A) w' : Prop :=
  match r with
  | Err _ => st w' = st w
  | Ok _ => rtc (rstep serial) (st w) (st w')
  end.

Lemma reservation_st_wf w : wf (st w).
Proof.
  split; intros k r.
  - exact (vw_key Slot w k r).
  - exact (vw_key Booking w k r).
Qed.

Lemma reservation_atomic_none serial {A} w (r : res A) w' : st w' = st w -> atomic serial w r w'.
Proof. intros Heq. destruct r; simpl; rewrite Heq; [apply rtc_refl|done]. Qed.

Lemma reservation_atomic_one serial {A} w (a : A) w' s' :
  rstep serial (st w) s' -> st w' = s' -> atomic serial w (Ok a) w'.
Proof. intros Hs <-. simpl. by apply rtc_once. Qed.

Lemma reservation_wp_gormDB (Q : res unit -> World DB -> Prop) w :
  (db_nil (w_db w) = false -> Q (Ok tt) w) ->
  (db_nil (w_db w) = true -> Q (Err (ENew "reservation database not initialized")) w) ->
  wp gormDB Q w.
Proof. unfold wp, gormDB, bind, get_db. simpl. destruct (db_nil (w_db w)); auto. Qed.

(** The slot a booking joins with, in a read view. *)
Lemma joined_on_slot rv p b : joined rv p b = on_slot (slots (abs rv)) p b.
Proof.
  unfold joined, on_slot. change (t_slots rv) with (tget (R := Slot) rv). rewrite existsb_byid.
  change (aget (abs rv)) with (slots (abs rv)). by destruct (slots (abs rv) !! bk_SlotID b).
Qed.

Lemma set_slots_get s : set_slots (slots s) s = s.
Proof. by destruct s. Qed.
Lemma set_bookings_get s : set_bookings (bookings s) s = s.
Proof. by destruct s. Qed.
Lemma set_locks_get s : set_locks (locks s) s = s.
Proof. by destruct s. Qed.

End base.

Ltac db_simpl :=
  unfold now_db, vw in *; simpl in *;
  repeat match goal with
  | H : _ /\ _ |- _ => destruct H
  | H : abs (w_db ?w') = _ |- context [abs (w_db ?w')] => rewrite H
  | H : abs (w_db ?w') = _, H2 : context [abs (w_db ?w')] |- _ =>
    lazymatch H2 with H => fail | _ => rewrite H in H2 end
  end; simpl in *.

Ltac unchanged :=
  solve [ apply reservation_atomic_none; unfold st; simpl; done
        | intros _; apply reservation_atomic_none; unfold st; simpl; done ].
Ltac exec := repeat (first [apply reservation_wp_gormDB; intros ? | sql_step]; try unchanged).

Section refine.
Context {E : Env} {D : SqlEngine}.
Implicit Types (w : World DB).

Lemma CreateVenue_atomic b v w : good_venue v -> wp (CreateVenue v) (atomic b w) w.
Proof.
  intros Hv. unfold CreateVenue. exec. eapply reservation_atomic_one; [eapply (r_venue _ _ v)|unfold st; db_simpl]; done.
Qed.
Lemma CreateResource_atomic b v w : good_resource v -> wp (CreateResource v) (atomic b w) w.
Proof.
  intros Hv. unfold CreateResource. exec. eapply reservation_atomic_one; [eapply (r_resource _ _ v)|unfold st; db_simpl]; done.
Qed.
Lemma CreateRule_atomic b v w : good_rule v -> wp (CreateRule v) (atomic b w) w.
Proof.
  intros Hv. unfold CreateRule. exec. eapply reservation_atomic_one; [eapply (r_rule _ _ v)|unfold st; db_simpl]; done.
Qed.

Lemma insert_some_slots b l m m' s :
  insert_some Slot l m m' -> slots s = m ->
  Forall fresh_slot l ->
  rtc (rstep b) s (set_slots m' s).
Proof.
  intros Hi. revert s. induction Hi as [m|r l m m' Hn _ IH|r l m m' _ IH]; intros s Hs Hl.
  - subst m. rewrite set_slots_get. apply rtc_refl.
  - apply Forall_cons in Hl as [Hc Hl]. subst m.
    eapply rtc_l; [by apply (r_slot b s r)|]. by apply (IH (set_slots _ s)).
  - apply Forall_cons in Hl as [_ Hl]. by apply IH.
Qed.

Lemma EnsureSlots_atomic b l w :
  Forall fresh_slot l ->
  wp (EnsureSlots l) (atomic b w) w.
Proof.
  intros Hl. unfold EnsureSlots. exec. destruct l as [|x l]; [wp_step; by apply reservation_atomic_none|].
  apply wp_insert_ignore_all; [intros; unchanged|]. intros m' w' Hi Hw. simpl.
  unfold st. db_simpl. by eapply insert_some_slots.
Qed.

(** What the two counts of [CreateBooking] establish when the read view is the
    current store. *)
Lemma counts_fair rv b sl ven s :
  abs rv = s ->
  (ven_DailyLimit ven <=? amount (fun b0 => (bk_RootUserID b0 =? bk_RootUserID b)%Z && valid_booking b0
      && joined rv (starts_in (GoTime.dayStart (slot_StartAt sl))
           (GoTime.AddDays (GoTime.dayStart (slot_StartAt sl)) 1)) b0) (bookings (abs rv)))%Z = false ->
  (0 <? amount (fun b0 => (bk_RootUserID b0 =? bk_RootUserID b)%Z && valid_booking b0
      && joined rv (overlaps (slot_StartAt sl) (slot_EndAt sl)) b0) (bookings (abs rv)))%Z = false ->
  no_overlap s (bk_RootUserID b) sl /\
  (daily s (bk_RootUserID b) (GoTime.dayStart (slot_StartAt sl)) < ven_DailyLimit ven)%Z.
Proof.
  intros <- Hd Ho. bools. split.
  - assert (Hz : amount (fun b0 => (bk_RootUserID b0 =? bk_RootUserID b)%Z && valid_booking b0
      && joined rv (overlaps (slot_StartAt sl) (slot_EndAt sl)) b0) (bookings (abs rv)) = 0%Z)
      by (match goal with |- amount ?p ?m = _ => pose proof (amount_nonneg p m) end; lia).
    intros k x Hk Hv. pose proof (proj1 (amount_zero _ _) Hz k x Hk) as Hx. cbv beta in Hx.
    unfold valid_of in Hv. rewrite Hv, joined_on_slot in Hx. done.
  - eapply Z.le_lt_trans; [|exact Hd]. apply Z.eq_le_incl.
    rewrite daily_interval by apply GoTime.dayStart_idem. apply amount_ext.
    intros k x _. by rewrite joined_on_slot.
Qed.

(** Taking the day lock changes the lock table only. *)
Lemma wp_day_lock l (Q : res unit -> World DB -> Prop) w :
  (env_fault (w_tick w) = true -> Q (Err (EDriver infra_text)) (bump w)) ->
  (forall lks w', st w' = set_locks lks (st w) -> Q (Ok tt) w') ->
  wp (insert_ignore UserDayLock l) Q w.
Proof.
  intros Hf Hok. apply wp_insert_ignore; [done| |].
  - intros _. apply (Hok (locks (st w))). by rewrite set_locks_get.
  - intros w' (Hw & _) _ _. eapply Hok. exact Hw.
Qed.

(** The transaction books a place under any read view; under the current one it
    is fair as well. *)
Lemma CreateBooking_at_atomic serial rv b now w :
  bk_Status b = BookingReserved -> (serial = true -> abs rv = st w) ->
  wp (CreateBooking_at rv b now) (atomic serial w) w.
Proof.
  intros Hb Hrv. unfold CreateBooking_at.
  repeat (first [apply reservation_wp_gormDB; intros ? | apply wp_day_lock; intros; cbv beta iota | sql_step];
          try unchanged).
  split; [intros _; by apply reservation_atomic_none|].
  match goal with H : st _ = set_locks ?l _ |- _ => rename H into Hlk; rename l into lks end.
  assert (Hsl : slots (st w) !! bk_SlotID b = Some r1).
  { change (slots (st w')  !! bk_SlotID b = Some r1) in H5. by rewrite Hlk in H5. }
  assert (Hf : serial = true -> (exists k, venues (st w) !! k = Some r3) /\
      no_overlap (st w) (bk_RootUserID b) r1 /\
      (daily (st w) (bk_RootUserID b) (GoTime.dayStart (slot_StartAt r1)) < ven_DailyLimit r3)%Z).
  { intros Hserial. specialize (Hrv Hserial).
    assert (r = r1) as ->.
    { change (slots (abs rv) !! bk_SlotID b = Some r) in H0. rewrite Hrv in H0. congruence. }
    split; [exists (rsc_VenueID r2); rewrite <- Hrv; exact H10|by eapply counts_fair]. }
  pose proof (vw_key Slot _ _ _ H5 : slot_ID r1 = _) as Hkey. clear H13 H14 H8 H10 H0 Hrv.
  eapply (reservation_atomic_one _ _ _ _ _ (r_book serial (st w) b r1 r3 lks now _ Hb Hsl _ _ _ Hf)).
  Unshelve. all: bools; unfold st in *; db_simpl; rewrite ?Hlk, ?Hkey in *; simpl in *; try done.
  by rewrite (update_at_hit _ _ _ _ r1) by (done || by apply Z.ltb_lt).
Qed.

Lemma CreateBooking_atomic b now w :
  bk_Status b = BookingReserved -> wp (CreateBooking b now) (atomic true w) w.
Proof. intros Hb. unfold CreateBooking. wp_step. wp_step. by apply CreateBooking_at_atomic. Qed.

Lemma CancelBooking_atomic serial id root now w :
  wp (CancelBooking id root now) (atomic serial w) w.
Proof.
  unfold CancelBooking. exec. all: try (split; [intros _|]; unchanged).
  all: assert (bk_Status r = BookingReserved) as Hst by (unfold has_status in *; by bools).
  - exfalso. destruct (H12 r H0) as [->|Heq]; [by unfold has_status; bools|done|].
    apply (f_equal bk_Status) in Heq. simpl in Heq. congruence.
  - split; [intros _; by apply reservation_atomic_none|]. destruct H15 as [->|(-> & x & Hx & Hpos)]; [done|].
    change (vw Slot (bump w)) with (slots (st w)) in H3.
    pose proof (vw_key Slot w _ _ H3 : slot_ID r0 = _) as Hk.
    eapply reservation_atomic_one; [eapply (r_cancel serial _ id r r0 now); [exact H0|done|exact H3]|].
    unfold st in *. db_simpl. rewrite Hk, H3 in *. simplify_eq.
    rewrite (update_at_hit _ _ _ _ x), (update_at_hit id _ _ _ r); try done.
    unfold has_status. by bools.
Qed.

Lemma Checkin_atomic serial code now w : wp (Checkin code now) (atomic serial w) w.
Proof.
  unfold Checkin. exec. apply wp_update_rows; [done|done|intros; unchanged|].
  intros n w' Hw _ _. wp_step. eapply reservation_atomic_one; [eapply (r_checkin serial)|unfold st; db_simpl; done].
  intros b Hp. unfold has_status in Hp. by bools.
Qed.

(** A row named by a list of found rows is one of them. *)
Lemma found_id {R} {HE : Entity R} p (m : gmap Z R) l k r :
  (forall k r, m !! k = Some r -> ent_id r = k) ->
  l ≡ₚ (map_to_list (matching p m)).*2 -> m !! k = Some r -> ent_id r ∈ ent_id <$> l -> p r = true.
Proof.
  intros Hkey Hl Hk Hin. apply list_elem_of_fmap in Hin as (x & Hid & Hx). rewrite Hl in Hx.
  apply list_elem_of_fmap in Hx as ([j y] & -> & Hy). apply elem_of_map_to_list, lookup_matching in Hy as [Hj Hp].
  simpl in *. rewrite (Hkey _ _ Hk), (Hkey _ _ Hj) in Hid. by simplify_eq.
Qed.

Lemma MarkNoShows_atomic serial now w : wp (MarkNoShows now) (atomic serial w) w.
Proof.
  unfold MarkNoShows. exec. destruct l as [|x l]; [wp_step; split; [intros _|]; unchanged|].
  generalize dependent (x :: l). intros l0 Hl. exec.
  apply wp_update_rows; [done|done|intros; unchanged|]. intros n w' Hw _ _.
  exec. split; [intros _; unchanged|].
  eapply reservation_atomic_one; [eapply (r_noshow serial)|unfold st; db_simpl; done].
  - intros b Hp. unfold has_status in Hp. by bools.
  - intros k b Hk Hp. cbv beta in Hp. apply andb_true_iff in Hp as [Hin _]. apply bool_decide_eq_true in Hin.
    assert (Hb : vw Booking w !! k = Some b) by exact Hk.
    pose proof (found_id _ _ _ _ _ (vw_key Booking w) Hl Hb Hin) as Hfound. cbv beta in Hfound.
    apply andb_true_iff in Hfound as [_ Hj]. by rewrite joined_on_slot in Hj.
Qed.

Lemma upd_view_none {R} p (f : R -> R) m : (forall r, p r = false) -> upd_view p f m = m.
Proof.
  intros Hp. apply map_eq. intros k. rewrite lookup_upd_view. destruct (m !! k); simpl; [|done].
  by rewrite Hp.
Qed.

Lemma CreateClosure_atomic serial c now w : wp (CreateClosure c now) (atomic serial w) w.
Proof.
  unfold CreateClosure. exec. destruct l as [|x l].
  - wp_step. split; [intros _; unchanged|].
    eapply reservation_atomic_one; [by apply (r_closure serial _ c (fun _ => false) now)|].
    unfold st. db_simpl. rewrite !upd_view_none by done. by destruct (abs (w_db w)).
  - generalize dependent (x :: l). intros l0 Hl. exec.
    apply wp_update_rows; [done|done|intros; unchanged|]. intros n w1 Hw1 _ _. wp_step.
    apply wp_update_rows; [done|done|intros; unchanged|]. intros n2 w2 Hw2 _ _. wp_step.
    split; [intros _; unchanged|].
    eapply reservation_atomic_one; [by apply (r_closure serial _ c (fun k => bool_decide (k ∈ slot_ID <$> l0)) now)|].
    unfold st. db_simpl. done.
Qed.
End refine.
End ReservationRefine.

Module ReservationSafe.
Import Safe.
Import Reservation ReservationRepo ReservationSpec ReservationRefine ReservationService.

Definition reservation_system (serial : bool) : System State := {|
  sys_step := rstep serial; sys_inv := sound serial; sys_inv_step := reservation_sound_step serial |}.

(** ** The slot loop *)

Section loops.
Context {E : Env} {D : SqlEngine}.
Implicit Types (w : World DB).

Lemma reservation_reads_gormDB : reads (gormDB : M DB unit).
Proof. apply reads_bind; [done|]. intros s. by destruct (db_nil s). Qed.

(** Is some closure in force? *)
Definition closed_in (m : gmap Z Closure) (venue resource a b : Z) : bool :=
  (0 <? amount (closure_hits venue resource a b) m)%Z.

Lemma wp_HasClosure venue resource a b (Q : res bool -> World DB -> Prop) w :
  (forall e w', w_db w' = w_db w -> Q (Err e) w') ->
  (forall w', w_db w' = w_db w -> Q (Ok (closed_in (closures (st w)) venue resource a b)) w') ->
  wp (HasClosure venue resource a b) Q w.
Proof.
  intros Hno Hok. unfold HasClosure. apply wp_bind, reservation_wp_gormDB; intros _; cbv beta iota; [|by apply Hno].
  apply wp_bind, wp_count; cbv beta iota; [intros _; by apply Hno|]. by apply wp_ret, Hok.
Qed.

(** [l] cuts the minutes [minute .. rule_EndMinute rule] into slots of the venue's
    length, from the first minute on, as long as a whole slot fits; a slot is closed
    when a closure overlaps it. *)
Inductive tiled (m : gmap Z Closure) (date rid : Z) (resource : Resource) (venue : Venue)
    (rule : WeeklyRule) : Z -> list Slot -> Prop :=
| tiled_done minute : (rule_EndMinute rule < minute + ven_SlotMinutes venue)%Z ->
  tiled m date rid resource venue rule minute []
| tiled_slot minute sl l :
  (minute + ven_SlotMinutes venue <= rule_EndMinute rule)%Z ->
  slot_ResourceID sl = rid -> slot_Capacity sl = rsc_Capacity resource -> slot_ReservedCount sl = 0%Z ->
  slot_StartAt sl = (date + minute * GoTime.Minute)%Z ->
  slot_EndAt sl = (slot_StartAt sl + ven_SlotMinutes venue * GoTime.Minute)%Z ->
  slot_Status sl = (if closed_in m (ven_ID venue) (rsc_ID resource) (slot_StartAt sl) (slot_EndAt sl)
                    then SlotClosed else SlotOpen) ->
  tiled m date rid resource venue rule (minute + ven_SlotMinutes venue) l ->
  tiled m date rid resource venue rule minute (sl :: l).

Lemma tiled_fresh m date rid resource venue rule minute l :
  good_resource resource -> good_venue venue -> tiled m date rid resource venue rule minute l ->
  Forall fresh_slot l.
Proof.
  intros Hr (_ & Hv & _). induction 1; constructor; [|done].
  unfold fresh_slot, good_resource, GoTime.Minute, GoTime.Second in *. lia.
Qed.

Lemma mul64_minutes m : (0 <= m <= 1440)%Z -> mul64 m GoTime.Minute = (m * GoTime.Minute)%Z.
Proof.
  intros Hm. apply wrap64_small. unfold in_int64, GoTime.Minute, GoTime.Second. lia.
Qed.
Lemma add64_minutes m k : (0 <= m <= 1440)%Z -> (0 < k < 2 ^ 31)%Z -> add64 m k = (m + k)%Z.
Proof. intros Hm Hk. apply wrap64_small. unfold in_int64. lia. Qed.

(** The loop ends within the minutes that are left, and tiles them. *)
Lemma wp_slot_loop rid date nw resource venue rule
    (Q : res (option (list Slot)) -> World DB -> Prop) fuel :
  good_venue venue -> (rule_EndMinute rule <= 1440)%Z ->
  forall minute slots w, (0 <= minute)%Z -> (Z.to_nat (1440 - minute) < fuel)%nat -> (minute <= 1440)%Z ->
  (forall new w', w_db w' = w_db w ->
     tiled (closures (st w)) date rid resource venue rule minute new -> Q (Ok (Some (slots ++ new))) w') ->
  (forall e w', w_db w' = w_db w -> Q (Err e) w') ->
  wp (slot_loop fuel rid date nw resource venue rule minute slots) Q w.
Proof.
  intros Hv He. assert (Hstep : (0 < ven_SlotMinutes venue < 2 ^ 31)%Z) by apply Hv.
  induction fuel as [|fuel IH]; intros minute slots w H0 Hfuel Hm Hok Hno; [lia|].
  simpl. rewrite add64_minutes by lia. apply wp_if; intros Hle.
  2: { apply wp_ret. rewrite <- (app_nil_r slots) at 1. apply Hok; [done|]. apply tiled_done. bools. lia. }
  bools. rewrite !mul64_minutes by lia. apply wp_bind, wp_HasClosure; cbv beta iota; [done|].
  intros w1 Hw1. apply wp_bind, wp_Generate. cbv beta iota. apply IH; [lia..| |].
  - intros new w2 Hw2 Ht. rewrite <- app_assoc. apply Hok; [by rewrite Hw2|].
    replace (closures (st (bump w1))) with (closures (st w)) in Ht by (unfold st; simpl; by rewrite Hw1).
    by apply tiled_slot.
  - intros e w2 Hw2. apply Hno. by rewrite Hw2.
Qed.

(** The slots of the rules of a day, in the rules' order. *)
Inductive day_slots (m : gmap Z Closure) (date rid : Z) (resource : Resource) (venue : Venue) :
    list WeeklyRule -> list Slot -> Prop :=
| day_done : day_slots m date rid resource venue [] []
| day_rule rule rules new l :
  tiled m date rid resource venue rule (rule_StartMinute rule) new ->
  day_slots m date rid resource venue rules l ->
  day_slots m date rid resource venue (rule :: rules) (new ++ l).

Lemma day_fresh m date rid resource venue rules l :
  good_resource resource -> good_venue venue -> day_slots m date rid resource venue rules l ->
  Forall fresh_slot l.
Proof. intros Hr Hv. induction 1; [constructor|]. apply Forall_app. eauto using tiled_fresh. Qed.

Lemma wp_rule_loop rid date nw resource venue (Q : res (option (list Slot)) -> World DB -> Prop) fuel :
  good_venue venue -> (1440 < fuel)%nat ->
  forall rs slots w, Forall good_rule rs ->
  (forall new w', w_db w' = w_db w ->
     day_slots (closures (st w)) date rid resource venue rs new -> Q (Ok (Some (slots ++ new))) w') ->
  (forall e w', w_db w' = w_db w -> Q (Err e) w') ->
  wp (rule_loop fuel rid date nw resource venue rs slots) Q w.
Proof.
  intros Hv Hfuel. induction rs as [|rule rs IH]; intros slots w Hr Hok Hno; simpl.
  - apply wp_ret. rewrite <- (app_nil_r slots) at 1. apply Hok; [done|constructor].
  - apply Forall_cons in Hr as [(R0 & R1 & R2) Hr]. apply wp_bind, wp_slot_loop; [done|lia..| |done].
    intros new w1 Hw1 Ht. cbv beta iota. apply IH; [done| |].
    + intros l w2 Hw2 Hd. rewrite <- app_assoc. apply Hok; [by rewrite Hw2|].
      constructor; [done|]. unfold st in Hd. by rewrite Hw1 in Hd.
    + intros e w2 Hw2. apply Hno. by rewrite Hw2.
Qed.
End loops.

(** ** Lookups *)
Section lookups.
Context {E : Env} {D : SqlEngine}.
Implicit Types (w : World DB).

Lemma wp_FindResource id (Q : res (option Resource) -> World DB -> Prop) w :
  (forall r w', w_db w' = w_db w -> resources (st w) !! id = Some r -> Q (Ok (Some r)) w') ->
  (forall r w', w_db w' = w_db w -> nothing r -> Q r w') ->
  wp (FindResource id) Q w.
Proof.
  intros Hok Hno. unfold FindResource. apply wp_bind, reservation_wp_gormDB; intros _; cbv beta iota; [|by apply Hno].
  apply wp_or_nil, wp_take_byid; cbv beta iota; [intros; by apply Hno..|].
  intros r Hr _. apply Hok; [done|exact Hr].
Qed.

Lemma wp_FindVenue id (Q : res (option Venue) -> World DB -> Prop) w :
  (forall r w', w_db w' = w_db w -> venues (st w) !! id = Some r -> Q (Ok (Some r)) w') ->
  (forall r w', w_db w' = w_db w -> nothing r -> Q r w') ->
  wp (FindVenue id) Q w.
Proof.
  intros Hok Hno. unfold FindVenue. apply wp_bind, reservation_wp_gormDB; intros _; cbv beta iota; [|by apply Hno].
  apply wp_or_nil, wp_take_byid; cbv beta iota; [intros; by apply Hno..|].
  intros r Hr _. apply Hok; [done|exact Hr].
Qed.

(** The rules of a weekday, in the order of their start. *)
Definition rule_of (rid weekday : Z) (r : WeeklyRule) : bool :=
  (rule_ResourceID r =? rid)%Z && (rule_Weekday r =? weekday)%Z && is_active (rule_Status r).

Lemma wp_ListRules rid weekday (Q : res (list WeeklyRule) -> World DB -> Prop) w :
  (forall l w', w_db w' = w_db w ->
     l ≡ₚ (map_to_list (matching (rule_of rid weekday) (rules (st w)))).*2 -> Q (Ok l) w') ->
  (forall e w', w_db w' = w_db w -> Q (Err e) w') ->
  wp (ListRules rid weekday) Q w.
Proof.
  intros Hok Hno. unfold ListRules. apply wp_bind, reservation_wp_gormDB; intros _; cbv beta iota; [|by apply Hno].
  apply wp_bind, wp_find; cbv beta iota; [intros _; by apply Hno|].
  intros l Hl. apply wp_ret, Hok; [done|]. by rewrite order_by_perm.
Qed.

Lemma rows_good {R} (P : R -> Prop) p (m : gmap Z R) l :
  (forall k r, m !! k = Some r -> P r) -> l ≡ₚ (map_to_list (matching p m)).*2 -> Forall P l.
Proof.
  intros Hm ->. apply Forall_forall. intros r Hr. apply list_elem_of_fmap in Hr as ([k x] & -> & Hx).
  apply elem_of_map_to_list, lookup_matching in Hx as [Hx _]. by eapply Hm.
Qed.
End lookups.

(** ** Methods *)

Ltac safely :=
  cbv beta zeta; unfold internal, found;
  match goal with
  | |- safe (bind _ _) => apply safe_bind; [safely|intros; safely]
  | |- safe (attempt _) => apply safe_attempt; safely
  | |- safe (map_err _ _) => apply safe_map_err; safely
  | |- safe (for_each _ _) => apply safe_for_each; intros; safely
  | |- safe (if ?b then _ else _) => destruct b; safely
  | |- safe (match ?x with _ => _ end) => destruct x; safely
  | |- _ => try solve [eauto with store_safe reservation_safe]
  end.

(** The collaborators of a service do not write the reservation tables. *)
Record honest {D : SqlEngine} (s : Service) : Prop := {
  honest_capabilities : forall f u r c, capabilities s = Some f -> quiet (f u r c);
  honest_notifier : forall f u a b c d, notifier s = Some f -> quiet (f u a b c d);
}.

Section methods.
Context {E : Env} {D : SqlEngine} (serial : bool).
#[local] Instance sys : System State := reservation_system serial.
Variable s : @Service D.
Hypothesis H : honest s.

(** A writing repository method, in a state that has the invariant. *)
Lemma reservation_wp_atomic {X} s0 (m : M DB X) (Q : res X -> World DB -> Prop) w :
  goes s0 (st w) -> wp m (atomic serial w) w ->
  (forall r w', goes s0 (st w') -> Q r w') -> wp m Q w.
Proof.
  intros Hg Hm HQ. eapply wp_mono; [exact Hm|]. intros r w' Ha. apply HQ.
  eapply goes_rtc; [done|]. destruct r; simpl in Ha; [done|]. rewrite Ha. apply rtc_refl.
Qed.

Lemma reservation_safe_atomic {X} (m : M DB X) : (forall w, wp m (atomic serial w) w) -> safe m.
Proof. intros Hm s0 w Hg. by eapply reservation_wp_atomic. Qed.

Lemma reservation_quiet_notify u a b c d : quiet (notify s u a b c d).
Proof.
  unfold notify. destruct (notifier s) as [f|] eqn:Ef; [|done].
  apply quiet_bind; [done|]. intros _. apply quiet_bind; [|done].
  apply quiet_attempt. by eapply honest_notifier.
Qed.
Lemma quiet_optional_id raw : quiet (optional_id raw : M DB (option Z)).
Proof.
  unfold optional_id. destruct (blank raw); [done|]. apply quiet_bind; [apply quiet_of_res|done].
Qed.

#[local] Hint Resolve reservation_quiet_notify quiet_optional_id : reservation_safe.
#[local] Hint Extern 2 (safe _) => apply reservation_safe_atomic; intros; solve
  [ apply CancelBooking_atomic | apply Checkin_atomic | apply MarkNoShows_atomic
  | apply CreateClosure_atomic ] : reservation_safe.

Lemma safe_CancelBooking a b : safe (CancelBooking a b).
Proof. unfold CancelBooking. safely. Qed.
Lemma safe_Checkin a : safe (Checkin a).
Proof. unfold Checkin. safely. Qed.
Lemma reservation_safe_RunDueJobs : safe (RunDueJobs s).
Proof. unfold RunDueJobs. safely. Qed.
Lemma safe_CreateClosure a b : safe (CreateClosure s a b).
Proof. unfold CreateClosure. safely. Qed.

Lemma or_default_pos d v : (0 < d)%Z -> (0 < or_default d v)%Z.
Proof. unfold or_default. intros. case_bool; bools; lia. Qed.

Lemma safe_CreateVenue req : (vreq_SlotMinutes req < 2 ^ 31)%Z -> safe (CreateVenue req).
Proof.
  intros Hr s0 w Hg. unfold CreateVenue, internal. repeat wp_step.
  eapply reservation_wp_atomic; [exact Hg| |by intros [[]|]].
  apply CreateVenue_atomic. unfold good_venue. simpl.
  pose proof (or_default_pos 7 (vreq_AdvanceDays req)). pose proof (or_default_pos 60 (vreq_SlotMinutes req)).
  pose proof (or_default_pos 2 (vreq_DailyLimit req)). pose proof (or_default_pos 120 (vreq_CancelBeforeMinutes req)).
  assert (or_default 60 (vreq_SlotMinutes req) < 2 ^ 31)%Z by (unfold or_default; case_bool; lia). lia.
Qed.

Lemma safe_CreateResource a req : safe (CreateResource a req).
Proof.
  intros s0 w Hg. unfold CreateResource, internal. apply wp_bind, wp_of_res.
  destruct (parseID a); cbv beta iota; [|done]. repeat wp_step.
  eapply reservation_wp_atomic; [exact Hg| |by intros [[]|]].
  apply CreateResource_atomic. unfold good_resource. simpl. by apply or_default_pos.
Qed.

Lemma safe_CreateRule a req : safe (CreateRule a req).
Proof.
  intros s0 w Hg. unfold CreateRule. apply wp_bind, wp_of_res.
  destruct (parseID a); cbv beta iota; [|done]. apply wp_if; intros Hb; [done|]. repeat wp_step.
  eapply reservation_wp_atomic; [exact Hg| |done].
  apply CreateRule_atomic. unfold good_rule. simpl. bools. lia.
Qed.

Lemma safe_CreateBooking_with (repo : Booking -> Z -> M DB (Slot * Venue)) u r req :
  (forall b nw w, bk_Status b = BookingReserved -> wp (repo b nw) (atomic serial w) w) ->
  safe (CreateBooking_with s repo u r req).
Proof.
  intros Hrepo s0 w Hg. unfold CreateBooking_with. apply wp_bind. eapply wp_quiet; [exact Hg| |].
  { destruct (capabilities s) eqn:Ec; [by eapply honest_capabilities|done]. }
  intros [[]|e] w1 _ Hg1; cbv beta iota; [|done]. apply wp_bind, wp_of_res.
  destruct (parseID _); cbv beta iota; [|done]. repeat wp_step.
  eapply reservation_wp_atomic; [exact Hg1|by apply Hrepo|by intros []].
Qed.

(** With fuel for a day's minutes, [AvailableSlots] is safe and does not run out. *)
Lemma wp_AvailableSlots fuel a b s0 w : (1440 < fuel)%nat -> goes s0 (st w) ->
  wp (AvailableSlots fuel a b) (fun r w' => r <> Ok None /\ goes s0 (st w')) w.
Proof.
  intros Hfuel Hg. unfold AvailableSlots, internal. apply wp_bind, wp_of_res.
  destruct (parseID a) as [rid|]; cbv beta iota; [|done].
  destruct (GoTime.ParseDate _) as [date|]; [|done].
  apply wp_bind, wp_found, wp_FindResource.
  2: { intros r w1 Hw1 Hn. eapply goes_db in Hg; [|exact Hw1]. by destruct r as [[t|]|]; [destruct (Hn t)|..]. }
  intros resource w1 Hw1 Hr. cbv beta iota. pose proof (goes_db _ _ _ Hw1 Hg) as Hg1.
  apply wp_if; intros _; [done|]. apply wp_bind, wp_found, wp_FindVenue.
  2: { intros r w2 Hw2 Hn. eapply goes_db in Hg1; [|exact Hw2]. by destruct r as [[t|]|]; [destruct (Hn t)|..]. }
  intros venue w2 Hw2 Hv. cbv beta iota. pose proof (goes_db _ _ _ Hw2 Hg1) as Hg2.
  apply wp_if; intros _; [done|]. apply wp_bind, wp_now. cbv beta iota. apply wp_if; intros _; [done|].
  assert (HI : Inv (st w2)) by apply Hg2.
  apply wp_bind, wp_ListRules; cbv beta iota;
    [|intros e w3 Hw3; split; [done|]; by eapply (goes_db _ w2)].
  intros rs w3 Hw3 Hrs. pose proof (goes_db _ w2 w3 Hw3 Hg2) as Hg3.
  apply wp_bind, wp_now; cbv beta iota. apply wp_bind, wp_rule_loop; [|done| | |]; cbv beta iota.
  - eapply ri_venue; [apply Hg1|exact Hv].
  - eapply rows_good; [by apply (ri_rule _ HI)|exact Hrs].
  - intros new w4 Hw4 Hd. simpl. pose proof (goes_db _ w3 w4 Hw4 Hg3) as Hg4. repeat wp_step.
    eapply reservation_wp_atomic; [exact Hg4| |].
    + apply EnsureSlots_atomic. eapply day_fresh; [| |exact Hd].
      * eapply ri_resource; [apply Hg|exact Hr].
      * eapply ri_venue; [apply Hg1|exact Hv].
    + intros [[]|e] w5 Hg5; cbv beta iota; [|done]. apply wp_bind.
      eapply wp_quiet; [exact Hg5| |].
      * apply reads_quiet, reads_bind; [apply reservation_reads_gormDB|]. intros _.
        apply reads_bind; [apply reads_find|]. intros l. apply reads_ret.
      * by intros [l|e] w6 _ Hg6.
  - intros e w4 Hw4. split; [done|]. by eapply (goes_db _ w3).
Qed.
End methods.

(** ** Histories of requests *)

(** A booking names the read view its transaction started from; [None] is the
    current store. *)
Inductive request {D : SqlEngine} :=
| RCreateVenue (req : VenueReq)
| RCreateResource (venueID : string) (req : ResourceReq)
| RCreateRule (resourceID : string) (req : RuleReq)
| RAvailableSlots (resourceID date : string)
| RCreateBooking (rv : option DB) (userID root : Z) (req : CreateBookingReq)
| RCancelBooking (root : Z) (bookingID : string)
| RCreateClosure (adminID : Z) (req : ClosureReq)
| RCheckin (code : string)
| RRunDueJobs.

(** The length of a slot fits its column; serial bookings read the current store. *)
Definition admitted {D : SqlEngine} (serial : bool) (q : request) : Prop :=
  match q with
  | RCreateVenue req => (vreq_SlotMinutes req < 2 ^ 31)%Z
  | RCreateBooking rv _ _ _ => serial = true -> rv = None
  | _ => True
  end.

(** Enough for the minutes of a day. *)
Definition slot_fuel : nat := Z.to_nat 1441.

Section histories.
Context {D : SqlEngine} (serial : bool).
#[local] Instance system : System State := reservation_system serial.

Definition unit_of {A} (m : M DB A) : M DB unit := m;; ret tt.

Definition serve {E : Env} (s : Service) (q : request) : M DB unit :=
  match q with
  | RCreateVenue req => unit_of (CreateVenue req)
  | RCreateResource v req => unit_of (CreateResource v req)
  | RCreateRule r req => CreateRule r req
  | RAvailableSlots r d => unit_of (AvailableSlots slot_fuel r d)
  | RCreateBooking None u r req => unit_of (CreateBooking s u r req)
  | RCreateBooking (Some rv) u r req => unit_of (CreateBooking_with s (CreateBooking_at rv) u r req)
  | RCancelBooking r b => CancelBooking r b
  | RCreateClosure a req => CreateClosure s a req
  | RCheckin c => Checkin c
  | RRunDueJobs => RunDueJobs s
  end.

Lemma reservation_safe_unit_of {E : Env} {A} (m : M DB A) : safe m -> safe (unit_of m).
Proof. intros Hm. apply safe_bind; [done|]. intros _. by apply safe_quiet. Qed.

Lemma safe_AvailableSlots {E : Env} a b : safe (AvailableSlots slot_fuel a b).
Proof.
  intros s0 w Hg. eapply wp_mono; [apply (wp_AvailableSlots serial slot_fuel a b s0 w)|].
  - unfold slot_fuel. lia.
  - exact Hg.
  - intros r w' Hw'. apply Hw'.
Qed.

Lemma safe_booking {E : Env} s rv u r req : honest s -> (serial = true -> rv = None) ->
  safe (serve s (RCreateBooking rv u r req)).
Proof.
  intros Hs Hrv. destruct rv as [rv|]; simpl; apply reservation_safe_unit_of, safe_CreateBooking_with; try done;
    intros b nw w Hb.
  - apply CreateBooking_at_atomic; [done|]. intros Ht. by specialize (Hrv Ht).
  - unfold ReservationRepo.CreateBooking. wp_step. wp_step. by apply CreateBooking_at_atomic.
Qed.

Lemma reservation_safe_serve {E : Env} s q : honest s -> admitted serial q -> safe (serve s q).
Proof.
  intros Hs Hq. destruct q; try (by apply safe_booking); simpl in *; try apply reservation_safe_unit_of;
    eauto using safe_CreateVenue, safe_CreateResource, safe_CreateRule, safe_AvailableSlots,
      safe_CancelBooking, safe_CreateClosure, safe_Checkin, reservation_safe_RunDueJobs.
Qed.

(** One request, under any clock, ids and failures, with any collaborators. *)
Definition served (w w' : World DB) : Prop :=
  exists (E : Env) (s : Service) q, honest s /\ admitted serial q /\ w' = (serve s q w).2.

Definition history (w : World DB) : Prop :=
  exists w0, st w0 = empty_state /\ rtc served w0 w.

Lemma reservation_served_steps w w' : sound serial (st w) -> served w w' ->
  rtc (rstep serial) (st w) (st w') /\ sound serial (st w').
Proof.
  intros HI (E & s & q & Hs & Hq & ->). apply (reservation_safe_serve s q Hs Hq (st w) w). by apply goes_refl.
Qed.

Lemma many_served_steps w w' : sound serial (st w) -> rtc served w w' ->
  rtc (rstep serial) (st w) (st w') /\ sound serial (st w').
Proof.
  intros HI Hr. induction Hr as [w|w w1 w2 Hs _ IH]; [done|].
  destruct (reservation_served_steps _ _ HI Hs) as [Hs1 HI1]. destruct (IH HI1). split; [by etrans|done].
Qed.

Lemma history_sound w : history w -> sound serial (st w).
Proof.
  intros (w0 & H0 & Hr). apply (many_served_steps w0); [|done]. rewrite H0. apply reservation_sound_empty.
Qed.

(** A run of concrete requests, for examples. *)
Definition run {E : Env} (s : Service) (qs : list request) (w : World DB) : World DB :=
  fold_left (fun w q => (serve s q w).2) qs w.

Lemma reservation_run_served {E : Env} s qs w0 :
  honest s -> Forall (admitted serial) qs -> rtc served w0 (run s qs w0).
Proof.
  intros Hs Hq. revert w0. induction Hq as [|q qs Hq _ IH]; intros w0; simpl; [apply rtc_refl|].
  eapply rtc_l; [|apply IH]. exists E, s, q. eauto.
Qed.

Lemma reservation_run_history {E : Env} s qs w0 :
  honest s -> Forall (admitted serial) qs -> st w0 = empty_state -> history (run s qs w0).
Proof. intros Hs Hq H0. exists w0. split; [done|]. by apply reservation_run_served. Qed.
End histories.
End ReservationSafe.
