(* ===== verification/ReservationProps.v ===== *)
(** * Reservation: properties of every history

    What holds of the store after any sequence of requests, with any failures in
    the middle: capacity under overlapping transactions, one user's bookings under
    serial ones, the life of a booking, and the slot generator. *)
From S2P Require Import Prelude GoTime GoMonad Sql Safe ReservationModel ReservationRepo ReservationSpec.
From S2P Require Import ReservationSafe ReservationService GoString.

(** ** Reservation: a concrete run

    A fixed environment and service on the [SqlGmap] engine: a venue with one court,
    its slots for a day, and bookings of it. *)

Module ReservationDemo.
Import Safe.
Import Reservation ReservationService ReservationSafe.

(** The clock advances one second per step from 2023-11-15 06:13:20 in Shanghai; ids
    are drawn from 1000 on. *)
#[export] Instance demo_env : Env := {
  env_now t := (1700000000 * GoTime.Second + Z.of_nat t * GoTime.Second)%Z;
  env_id t := (1000 + Z.of_nat t)%Z;
  env_fault _ := false;
}.

(** The same, two days later. *)
Definition later_env : Env := {|
  env_now t := (env_now (Env := demo_env) t + 2 * GoTime.Day)%Z;
  env_id t := (1000 + Z.of_nat t)%Z;
  env_fault _ := false;
|}.

Definition demo_service : Service :=
  mkService None (Some (fun _ _ _ _ _ => ret tt)).

Lemma reservation_demo_honest : honest demo_service.
Proof. split; intros; simplify_eq/=; done. Qed.

Definition empty_db : DB :=
  mkDB _ false (gempty _) (gempty _) (gempty _) (gempty _) (gempty _) (gempty _) (gempty _).
Definition w0 : World DB := mkWorld empty_db 0 [].

(** A sports hall with one court of two places, open on Thursdays from 9 to 11. *)
Definition to_slots : list request := [
  RCreateVenue {| vreq_Name := "hall"; vreq_Description := ""; vreq_AdvanceDays := 7;
    vreq_SlotMinutes := 60; vreq_DailyLimit := 2; vreq_CancelBeforeMinutes := 120 |};
  RCreateResource "1001" {| sreq_Name := "court"; sreq_Capacity := 2 |};
  RCreateRule "1004" {| ureq_Weekday := 4; ureq_StartMinute := 540; ureq_EndMinute := 660 |};
  RAvailableSlots "1004" "2023-11-16"
].

(** User 7 books both hours. *)
Definition to_booked : list request := to_slots ++ [
  RCreateBooking None 7 7 {| breq_SlotID := "1015" |};
  RCreateBooking None 7 7 {| breq_SlotID := "1017" |}
].

Definition at_slots : World DB := run demo_service to_slots w0.
Definition at_booked : World DB := run demo_service to_booked w0.

Lemma empty_start : st w0 = ReservationSpec.empty_state.
Proof. vm_compute. reflexivity. Qed.

Lemma to_booked_admitted serial : Forall (admitted serial) to_booked.
Proof. by repeat (apply Forall_cons; split; [first [done|simpl; lia]|]). Qed.

Lemma at_slots_history serial : history serial at_slots.
Proof.
  apply reservation_run_history; [apply reservation_demo_honest| |apply empty_start].
  pose proof (to_booked_admitted serial) as Hq. unfold to_booked in Hq.
  apply Forall_app in Hq as [Hq _]. exact Hq.
Qed.
Lemma at_booked_history serial : history serial at_booked.
Proof. apply reservation_run_history; [apply reservation_demo_honest|apply to_booked_admitted|apply empty_start]. Qed.
End ReservationDemo.

Module ReservationProps.
Import Safe.
Import Reservation ReservationRepo ReservationSpec ReservationRefine ReservationService ReservationSafe.

(** ** The life of a booking *)

(** The document's state machine: a reserved booking ends one of four ways. *)
Definition ended (b : Booking) : Prop :=
  bk_Status b ∈ [BookingCancelled; BookingClosureCancelled; BookingCheckedIn; BookingNoShow].

(** What a booking keeps for its whole life. *)
Definition terms (b : Booking) :=
  (bk_ID b, bk_RootUserID b, bk_UserID b, bk_SlotID b, bk_CheckinCode b, bk_CreatedAt b).

Definition same_or_ended (b b' : Booking) : Prop :=
  terms b' = terms b /\ (b' = b \/ (bk_Status b = BookingReserved /\ ended b')).

Lemma same_or_ended_trans b1 b2 b3 :
  same_or_ended b1 b2 -> same_or_ended b2 b3 -> same_or_ended b1 b3.
Proof.
  intros [T1 [->|[R1 E1]]] [T2 H2]; [done|]. split; [by rewrite T2|].
  destruct H2 as [->|[R2 E2]]; [auto|].
  exfalso. unfold ended in E1. rewrite R2 in E1. set_solver.
Qed.

Lemma upd_view_life (p : Booking -> bool) f (m : gmap Z Booking) k b :
  (forall x, p x = true -> bk_Status x = BookingReserved) ->
  (forall x, terms (f x) = terms x /\ ended (f x)) -> m !! k = Some b ->
  exists b', upd_view p f m !! k = Some b' /\ same_or_ended b b'.
Proof.
  intros Hp Hf Hb. rewrite lookup_upd_view, Hb. simpl. eexists. split; [done|].
  destruct (p b) eqn:E; [|by split; auto]. destruct (Hf b). split; [done|]. right. auto.
Qed.

Lemma rstep_life serial s s' k b :
  rstep serial s s' -> bookings s !! k = Some b ->
  exists b', bookings s' !! k = Some b' /\ same_or_ended b b'.
Proof.
  intros Hs Hb.
  assert (Hrefl : forall m, m = bookings s -> exists b', m !! k = Some b' /\ same_or_ended b b').
  { intros m ->. exists b. split; [done|]. split; auto. }
  destruct Hs; simpl; try (by apply Hrefl).
  - exists b. rewrite lookup_insert_ne by congruence. split; [done|]. by split; auto.
  - destruct (decide (k0 = k)) as [->|Hne].
    + rewrite lookup_insert_eq. eexists. split; [done|]. simplify_eq. split; [done|]. right.
      split; [done|]. unfold ended. simpl. set_solver.
    + rewrite lookup_insert_ne by done. eauto.
  - apply upd_view_life; [done| |done]. intros x. split; [done|]. unfold ended. simpl. set_solver.
  - apply upd_view_life; [done| |done]. intros x. split; [done|]. unfold ended. simpl. set_solver.
  - apply upd_view_life; [| |done].
    + intros x Hx. unfold has_status in Hx. by bools.
    + intros x. split; [done|]. unfold ended. simpl. set_solver.
Qed.

Lemma rsteps_life serial s s' k b :
  rtc (rstep serial) s s' -> bookings s !! k = Some b ->
  exists b', bookings s' !! k = Some b' /\ same_or_ended b b'.
Proof.
  intros Hr. revert b. induction Hr as [s|s s1 s2 Hs _ IH]; intros b Hb.
  - exists b. split; [done|]. by split; auto.
  - destruct (rstep_life _ _ _ _ _ Hs Hb) as (b1 & Hb1 & L1).
    destruct (IH _ Hb1) as (b2 & Hb2 & L2). eauto using same_or_ended_trans.
Qed.

(** ** Theorems *)
Section props.
Context {D : SqlEngine}.
Implicit Types (w : World DB).

(** C29: no slot is overbooked, even when transactions overlap: in every history,
    stale read views included, a slot's count lies between 0 and its capacity and,
    while the slot is open, equals the number of bookings that occupy it. *)
Theorem capacity_respected w k sl :
  history false w -> slots (st w) !! k = Some sl ->
  (0 <= slot_ReservedCount sl <= slot_Capacity sl)%Z /\
  (slot_Status sl = SlotOpen -> slot_ReservedCount sl = amount (occupies k) (bookings (st w))).
Proof.
  intros Hh Hk. destruct (history_sound false w Hh) as (_ & I & _).
  split; [by eapply ri_bounds|]. by eapply ri_count.
Qed.

(** C30: a user never holds two valid bookings whose slots overlap, when booking
    transactions run one after another. *)
Theorem no_overlapping_bookings w k1 k2 b1 b2 sl1 sl2 :
  history true w -> bookings (st w) !! k1 = Some b1 -> bookings (st w) !! k2 = Some b2 -> k1 <> k2 ->
  bk_RootUserID b1 = bk_RootUserID b2 -> valid_booking b1 = true -> valid_booking b2 = true ->
  slots (st w) !! bk_SlotID b1 = Some sl1 -> slots (st w) !! bk_SlotID b2 = Some sl2 ->
  (slot_EndAt sl1 <= slot_StartAt sl2 \/ slot_EndAt sl2 <= slot_StartAt sl1)%Z.
Proof.
  intros Hh H1 H2 Hne Hr V1 V2 S1 S2. destruct (history_sound true w Hh) as (_ & _ & F).
  pose proof (fair_overlap _ (F eq_refl) _ _ _ _ _ H1 H2 Hne Hr V1 V2 S1) as Ho.
  unfold on_slot in Ho. rewrite S2 in Ho. unfold overlaps in Ho. apply andb_false_iff in Ho. bools. lia.
Qed.

(** The valid bookings of a user on one day never exceed the daily limit the
    venues set, when booking transactions run one after another. *)
Theorem daily_limit_respected w root d L :
  history true w -> GoTime.dayStart d = d -> (0 <= L)%Z ->
  (forall k v, venues (st w) !! k = Some v -> (ven_DailyLimit v <= L)%Z) ->
  (daily (st w) root d <= L)%Z.
Proof. intros Hh. destruct (history_sound true w Hh) as (_ & _ & F). by apply (fair_daily _ (F eq_refl)). Qed.

(** A booking keeps its owner, slot and code for life; once it is cancelled,
    closed, checked in or a no-show it never changes again. *)
Theorem booking_lifecycle serial w w' k b :
  history serial w -> rtc (served serial) w w' -> bookings (st w) !! k = Some b ->
  exists b', bookings (st w') !! k = Some b' /\ terms b' = terms b /\
    (bk_Status b = BookingReserved \/ b' = b) /\ (bk_Status b' = BookingReserved \/ ended b').
Proof.
  intros Hh Hr Hb. destruct (many_served_steps serial w w' (history_sound serial w Hh) Hr) as [Hs _].
  destruct (rsteps_life _ _ _ _ _ Hs Hb) as (b' & Hb' & T & Hl). exists b'.
  split; [done|]. split; [done|]. split; [by destruct Hl as [->|[-> _]]; auto|].
  unfold ended. destruct (bk_Status b'); set_solver.
Qed.

(** A reserved booking can always be given back: its slot exists, is open and
    counts it. *)
Theorem reserved_booking_counted serial w k b :
  history serial w -> bookings (st w) !! k = Some b -> bk_Status b = BookingReserved ->
  exists sl, slots (st w) !! bk_SlotID b = Some sl /\ slot_Status sl = SlotOpen /\
    (1 <= slot_ReservedCount sl)%Z.
Proof.
  intros Hh Hb Hst. destruct (history_sound serial w Hh) as (_ & I & _).
  destruct (ri_slot _ I _ _ Hb) as [sl Hsl]. exists sl. split; [done|].
  split; [by eapply ri_closed|]. by eapply reserved_slot_taken.
Qed.

(** C31: [AvailableSlots] ends: with fuel for the minutes of a day its loop runs to
    the end, whatever rules and venues the store holds. *)
Theorem AvailableSlots_terminates {E : Env} serial fuel resourceID date w :
  history serial w -> (1440 < fuel)%nat ->
  (AvailableSlots fuel resourceID date w).1 <> Ok None.
Proof.
  intros Hh Hf. apply (wp_AvailableSlots serial fuel resourceID date (st w) w Hf).
  apply goes_refl, history_sound, Hh.
Qed.
End props.

(** ** The theorems on a concrete history *)
Import ReservationDemo.

(** Find a row by evaluation. *)
Ltac find_row m k p x Hx Hp :=
  destruct (row_at m k p) as (x & Hx & Hp); [vm_compute; reflexivity|]; bools.

Lemma capacity_respected_witness :
  exists sl, slots (st at_booked) !! 1015%Z = Some sl /\ slot_Status sl = SlotOpen /\
    slot_Capacity sl = 2%Z /\ amount (occupies 1015) (bookings (st at_booked)) = 1%Z /\
    (0 <= slot_ReservedCount sl <= slot_Capacity sl)%Z /\
    (slot_Status sl = SlotOpen -> slot_ReservedCount sl = amount (occupies 1015) (bookings (st at_booked))).
Proof.
  find_row (slots (st at_booked)) 1015%Z
    (fun sl => bool_decide (slot_Status sl = SlotOpen) && (slot_Capacity sl =? 2)%Z) sl Hsl Hp.
  exists sl. split; [exact Hsl|]. split; [done|]. split; [done|]. split; [vm_compute; reflexivity|].
  exact (capacity_respected at_booked 1015 sl (at_booked_history false) Hsl).
Defined.

Definition held_by (root slot : Z) (b : Booking) : bool :=
  valid_booking b && (bk_RootUserID b =? root)%Z && (bk_SlotID b =? slot)%Z.

Lemma no_overlapping_bookings_witness :
  exists b1 b2 sl1 sl2, bookings (st at_booked) !! 1021%Z = Some b1 /\
    bookings (st at_booked) !! 1035%Z = Some b2 /\
    slots (st at_booked) !! bk_SlotID b1 = Some sl1 /\ slots (st at_booked) !! bk_SlotID b2 = Some sl2 /\
    (slot_EndAt sl1 <= slot_StartAt sl2 \/ slot_EndAt sl2 <= slot_StartAt sl1)%Z.
Proof.
  find_row (bookings (st at_booked)) 1021%Z (held_by 7 1015) b1 Hb1 Hp1.
  find_row (bookings (st at_booked)) 1035%Z (held_by 7 1017) b2 Hb2 Hp2.
  find_row (slots (st at_booked)) 1015%Z (fun _ : Slot => true) sl1 Hs1 Ht1.
  find_row (slots (st at_booked)) 1017%Z (fun _ : Slot => true) sl2 Hs2 Ht2.
  unfold held_by in Hp1, Hp2. bools.
  rewrite <- H3 in Hs1. rewrite <- H0 in Hs2.
  exists b1, b2, sl1, sl2. split; [exact Hb1|]. split; [exact Hb2|]. split; [exact Hs1|].
  split; [exact Hs2|].
  apply (no_overlapping_bookings at_booked 1021 1035 b1 b2 sl1 sl2 (at_booked_history true) Hb1 Hb2);
    congruence || done.
Defined.

Lemma daily_limit_respected_witness :
  daily (st at_booked) 7 (1700064000 * GoTime.Second)%Z = 2%Z /\
  (daily (st at_booked) 7 (1700064000 * GoTime.Second) <= 2)%Z.
Proof.
  split; [vm_compute; reflexivity|].
  apply (daily_limit_respected at_booked 7 _ 2 (at_booked_history true)); [reflexivity|lia|].
  apply map_Forall_lookup.
  apply (bool_decide_eq_true (map_Forall (fun _ v => ven_DailyLimit v <= 2)%Z (venues (st at_booked)))).
  vm_compute. reflexivity.
Defined.

(** One booking given back by its owner. *)
Definition at_cancelled : World DB := run demo_service [RCancelBooking 7 "1021"] at_booked.

Lemma at_cancelled_served serial : rtc (served serial) at_booked at_cancelled.
Proof. apply reservation_run_served; [apply reservation_demo_honest|]. by apply Forall_cons. Qed.

Lemma booking_lifecycle_witness :
  exists b b', bookings (st at_booked) !! 1021%Z = Some b /\ bookings (st at_cancelled) !! 1021%Z = Some b' /\
    bk_Status b = BookingReserved /\ bk_Status b' = BookingCancelled /\ terms b' = terms b.
Proof.
  find_row (bookings (st at_booked)) 1021%Z (has_status BookingReserved) b Hb Hp.
  find_row (bookings (st at_cancelled)) 1021%Z (has_status BookingCancelled) b' Hb' Hp'.
  unfold has_status in *. bools.
  destruct (booking_lifecycle true at_booked at_cancelled 1021 b (at_booked_history true)
    (at_cancelled_served true) Hb) as (b2 & Hb2 & T & _).
  rewrite Hb' in Hb2. injection Hb2 as <-. exists b, b'.
  split; [exact Hb|]. split; [exact Hb'|]. split; [exact Hp|]. split; [exact Hp'|exact T].
Defined.

Lemma reserved_booking_counted_witness :
  exists b sl, bookings (st at_booked) !! 1021%Z = Some b /\
    slots (st at_booked) !! bk_SlotID b = Some sl /\ slot_Status sl = SlotOpen /\
    (1 <= slot_ReservedCount sl)%Z.
Proof.
  find_row (bookings (st at_booked)) 1021%Z (has_status BookingReserved) b Hb Hp.
  unfold has_status in *. bools. exists b.
  destruct (reserved_booking_counted true at_booked 1021 b (at_booked_history true) Hb Hp) as (sl & Hsl).
  exists sl. split; [exact Hb|exact Hsl].
Defined.

Lemma AvailableSlots_terminates_witness :
  (AvailableSlots slot_fuel "1004" "2023-11-17" at_booked).1 <> Ok None.
Proof.
  apply (AvailableSlots_terminates true slot_fuel "1004" "2023-11-17" at_booked (at_booked_history true)).
  unfold slot_fuel. lia.
Defined.
End ReservationProps.
