(* ===== verification/ReservationFunc.v ===== *)
(** * Reservation: functional behaviour

    What single operations return and do when no statement fails, on every branch:
    booking against its decision procedure, cancelling, check-in, no-shows and
    closures. *)
From S2P Require Import Prelude GoString GoTime GoMonad Sql Safe.
From S2P Require Import ReservationModel ReservationRepo ReservationSpec ReservationSafe.
From S2P Require Import ReservationService ReservationSafe ReservationProps.

Module ReservationFunc.
Import Safe.
Import Reservation ReservationRepo ReservationSpec ReservationRefine ReservationSafe.

(** No statement fails and the database handle is set. *)
Definition up {E : Env} {D : SqlEngine} (w : World DB) : Prop :=
  (forall n, env_fault n = false) /\ db_nil (w_db w) = false.

(** ** Booking *)

(** The decision of [CreateBooking] on the current store, in the order in which the
    code reports the reasons. *)
Definition verdict (s : State) (b : Booking) (now : Z) : error + (Slot * Venue) :=
  match slots s !! bk_SlotID b with
  | None => inl errSlotUnavailable
  | Some sl =>
    if negb (bool_decide (slot_Status sl = SlotOpen)) || (slot_Capacity sl <=? slot_ReservedCount sl)%Z
       || negb (now <? slot_StartAt sl)%Z
    then inl errSlotUnavailable
    else
      match resources s !! slot_ResourceID sl with
      | None => inl errSlotUnavailable
      | Some r =>
        if negb (is_active (rsc_Status r)) then inl errSlotUnavailable
        else
          match venues s !! rsc_VenueID r with
          | None => inl errSlotUnavailable
          | Some v =>
            if negb (is_active (ven_Status v)) then inl errSlotUnavailable
            else if negb (slot_StartAt sl <? GoTime.AddDays (GoTime.dayStart now) (ven_AdvanceDays v + 1))%Z
            then inl errSlotUnavailable
            else if (ven_DailyLimit v <=? daily s (bk_RootUserID b) (GoTime.dayStart (slot_StartAt sl)))%Z
            then inl errDailyLimit
            else if (0 <? amount (fun x => valid_of (bk_RootUserID b) x
                      && on_slot (slots s) (overlaps (slot_StartAt sl) (slot_EndAt sl)) x) (bookings s))%Z
            then inl errBookingConflict
            else inr (sl, v)
          end
      end
  end.

(** The ids and codes of a new booking come from the id generator: no row has them. *)
Record fresh_booking (b : Booking) (s : State) : Prop := {
  fresh_id : bookings s !! bk_ID b = None;
  fresh_lock : locks s !! bk_ID b = None;
  fresh_code : forall k x, bookings s !! k = Some x -> bk_CheckinCode x <> bk_CheckinCode b;
}.

Section func.
Context {E : Env} {D : SqlEngine}.
Implicit Types (w : World DB).

Lemma reservation_wp_gormDB_up (Q : res unit -> World DB -> Prop) w :
  db_nil (w_db w) = false -> Q (Ok tt) w -> wp gormDB Q w.
Proof. intros Hdb HQ. apply reservation_wp_gormDB; [done|by rewrite Hdb]. Qed.

Definition day_lock_of (root d : Z) (l : UserDayLock) : bool :=
  (lock_RootUserID l =? root)%Z && (lock_ReservationDate l =? d)%Z.

(** The day lock is there once it has been inserted, by this transaction or before. *)
Lemma wp_take_day_lock id root d {X} (k : UserDayLock -> M DB X) (Q : res X -> World DB -> Prop) w :
  (forall n, env_fault n = false) -> locks (st w) !! id = None ->
  (forall lks l w', st w' = set_locks lks (st w) -> wp (k l) Q w') ->
  wp (insert_ignore UserDayLock (mkUserDayLock id root d);;
      let! l := take UserDayLock (day_lock_of root d) in k l) Q w.
Proof.
  intros NF Hid Hk. apply wp_bind, wp_insert_ignore; [by rewrite NF| |].
  - intros [[x Hx]|(j & x & Hx & Hc)].
    { change (locks (st w) !! id = Some x) in Hx. congruence. }
    apply wp_bind, wp_take; cbv beta iota; [by rewrite NF| |].
    + intros Hno. specialize (Hno _ _ Hx). unfold day_lock_of in Hno.
      simpl in Hc. rewrite (Z.eqb_sym root), (Z.eqb_sym d) in Hc. by destruct Hc; congruence.
    + intros l _ _. apply (Hk (locks (st w))). by rewrite set_locks_get.
  - intros w1 (Hw1 & _) _ _. apply wp_bind, wp_take; cbv beta iota; [by rewrite NF| |].
    + intros Hno. specialize (Hno id (mkUserDayLock id root d)). unfold day_lock_of in Hno. simpl in Hno.
      rewrite !Z.eqb_refl in Hno. unfold vw in Hno. rewrite Hw1 in Hno. simpl in Hno.
      rewrite lookup_insert_eq in Hno. by specialize (Hno eq_refl).
    + intros l _ _. eapply Hk. unfold st. simpl. exact Hw1.
Qed.

Lemma take_in_view (R : Type) {HE : Entity R} {HT : Tbl DB State R HE _} k (q : R -> bool)
    (Q : res R -> World DB -> Prop) (rv : DB) w :
  (forall n, env_fault n = false) ->
  match aget (abs rv) !! k with
  | Some r => Q (if q r : bool then Ok r else Err ErrRecordNotFound) (bump w)
  | None => Q (Err ErrRecordNotFound) (bump w)
  end ->
  wp (take_in R rv (byid k q)) Q w.
Proof.
  intros NF HQ. apply wp_take_in_byid; [by rewrite NF| |].
  - intros Hno. destruct (aget (abs rv) !! k) as [r|]; [|done]. by rewrite (Hno r eq_refl) in HQ.
  - intros r Hr Hq. by rewrite Hr, Hq in HQ.
Qed.

Lemma count_slots (rv : DB) w root (p : Slot -> bool) (Q : res Z -> World DB -> Prop) :
  (forall n, env_fault n = false) ->
  Q (Ok (amount (fun x => valid_of root x && on_slot (slots (abs rv)) p x) (bookings (abs rv)))) (bump w) ->
  wp (count_in Booking rv (fun x => (bk_RootUserID x =? root)%Z && valid_booking x && joined rv p x)) Q w.
Proof.
  intros NF HQ. apply wp_count_in; [by rewrite NF|].
  replace (amount _ _) with (amount (fun x => valid_of root x && on_slot (slots (abs rv)) p x)
    (bookings (abs rv))); [done|].
  apply amount_ext. intros k x _. by rewrite joined_on_slot.
Qed.

(** Booking, with no failure and on the current store: the outcome is the one
    [verdict] gives, errors included; a granted booking is stored and takes exactly
    one place of its slot, a refused one changes nothing. *)
Theorem CreateBooking_spec b now w :
  up w -> fresh_booking b (st w) ->
  wp (CreateBooking b now) (fun r w' =>
    match verdict (st w) b now with
    | inl e => r = Err e /\ st w' = st w
    | inr (sl, v) => r = Ok (sl, v) /\
        bookings (st w') = <[bk_ID b := b]> (bookings (st w)) /\
        slots (st w') = <[bk_SlotID b := slot_count 1 sl]> (slots (st w)) /\
        venues (st w') = venues (st w) /\ resources (st w') = resources (st w)
    end) w.
Proof.
  intros [NF Hdb] [Fid Flock Fcode]. unfold CreateBooking. apply wp_bind, wp_get_db. cbv beta iota.
  unfold CreateBooking_at. apply wp_bind, reservation_wp_gormDB_up; [done|]. cbv beta iota. apply wp_commit; [done|].
  apply wp_bind, wp_map_err, take_in_view; [done|]. unfold verdict.
  change (aget (abs (w_db w))) with (slots (st w)).
  destruct (slots (st w) !! bk_SlotID b) as [sl|] eqn:Hsl; cbv beta iota; [|done].
  change (always sl) with true. cbv iota.
  apply (wp_take_day_lock (bk_ID b) (bk_RootUserID b) (GoTime.dayStart (slot_StartAt sl))); [done|done|].
  intros lks l w1 Hw1. assert (Hsl1 : vw Slot w1 !! bk_SlotID b = Some sl)
    by (change (slots (st w1) !! bk_SlotID b = Some sl); by rewrite Hw1).
  apply wp_bind, wp_map_err, (wp_take_known _ NF _ _ sl); [done|done|]. cbv beta iota.
  destruct (negb _ || _ || _) eqn:Hg; [done|].
  apply wp_bind, wp_map_err, take_in_view; [done|].
  change (aget (abs (w_db w))) with (resources (st w)).
  destruct (resources (st w) !! _) as [r|]; cbv beta iota; [|done].
  destruct (is_active (rsc_Status r)); cbn [negb]; cbv beta iota; [|done].
  apply wp_bind, wp_map_err, take_in_view; [done|].
  change (aget (abs (w_db w))) with (venues (st w)).
  destruct (venues (st w) !! _) as [v|]; cbv beta iota; [|done].
  destruct (is_active (ven_Status v)); cbn [negb]; cbv beta iota; [|done].
  destruct (negb (slot_StartAt sl <? GoTime.AddDays _ _)%Z); [done|].
  apply wp_bind, count_slots; [done|]. cbv beta iota. fold (st w).
  rewrite <- daily_interval by apply GoTime.dayStart_idem.
  destruct (ven_DailyLimit v <=? _)%Z; [done|].
  apply wp_bind, count_slots; [done|]. cbv beta iota. fold (st w).
  destruct (0 <? _)%Z; [done|].
  bools. pose proof (vw_key Slot _ _ _ Hsl1 : slot_ID sl = _) as Hkey.
  apply wp_bind. eapply (wp_update_row Slot NF _ _ _ sl); [done|done|by rewrite Hkey|by apply Z.ltb_lt| |].
  { intros Heq. apply (f_equal slot_ReservedCount) in Heq. simpl in Heq. lia. }
  intros w2 (Hw2 & _). cbv beta iota. cbn [negb Z.eqb Pos.eqb]. cbv iota.
  assert (Hst : st w2 = set_slots (<[bk_SlotID b := slot_count 1 sl]> (slots (st w))) (set_locks lks (st w))).
  { rewrite Hkey in Hw2. unfold st, vw in *. simpl in *. rewrite Hw1 in Hw2. exact Hw2. }
  apply wp_bind, wp_insert; [by rewrite NF| |].
  - assert (Hbk : vw Booking w2 = bookings (st w)) by (unfold vw; fold (st w2); by rewrite Hst).
    intros [[x Hx]|(k & x & Hx & Hc)]; rewrite Hbk in Hx; [simpl in Hx; congruence|].
    exfalso. apply (Fcode _ _ Hx). simpl in Hc.
    destruct Hc as [Hc|Hc]; apply String.eqb_eq in Hc; congruence.
  - intros w3 (Hw3 & _) _ _. cbv beta iota. apply wp_ret. cbv beta iota.
    assert (Hst3 : st (bump w3) = set_bookings (<[bk_ID b := b]> (bookings (st w2))) (st w2)) by exact Hw3.
    rewrite Hst3, Hst. done.
Qed.

(** ** Cancelling *)

(** Who may cancel what, and when: [None] is "no such reserved booking of yours". *)
Definition cancel_verdict (s : State) (id root now : Z) : option (error + Booking * Slot) :=
  match bookings s !! id with
  | None => None
  | Some b =>
    if negb (bk_RootUserID b =? root)%Z || negb (has_status BookingReserved b) then None
    else
      match slots s !! bk_SlotID b with
      | None => Some (inl ErrRecordNotFound)
      | Some sl =>
        match resources s !! slot_ResourceID sl with
        | None => Some (inl ErrRecordNotFound)
        | Some r =>
          match venues s !! rsc_VenueID r with
          | None => Some (inl ErrRecordNotFound)
          | Some v =>
            if (now <? slot_StartAt sl + mul64 (- ven_CancelBeforeMinutes v) GoTime.Minute)%Z
            then Some (inr (b, sl)) else Some (inl errCancelDeadline)
          end
        end
      end
  end.

(** Cancelling, with no failure: the owner's reserved booking before the
    deadline is cancelled and gives back exactly one place of its slot; every other
    call changes nothing and reports why.  The repository's "slot unavailable" error
    cannot happen in a state any history reaches. *)
Theorem CancelBooking_spec serial id root now w :
  up w -> sound serial (st w) ->
  wp (CancelBooking id root now) (fun r w' =>
    match cancel_verdict (st w) id root now with
    | None => r = Ok false /\ st w' = st w
    | Some (inl e) => r = Err e /\ st w' = st w
    | Some (inr (b, sl)) => r = Ok true /\
        st w' = set_slots (<[bk_SlotID b := slot_count (-1) sl]> (slots (st w)))
          (set_bookings (<[id := booking_cancel BookingCancelled now b]> (bookings (st w))) (st w))
    end) w.
Proof.
  intros [NF Hdb] (_ & I & _). unfold CancelBooking, cancel_verdict.
  apply wp_bind, reservation_wp_gormDB_up; [done|]. apply wp_commit; [done|]. apply wp_bind, wp_attempt.
  destruct (bookings (st w) !! id) as [b|] eqn:Hb.
  2: { apply (wp_take_missing _ NF); [|done]. intros r Hr. change (bookings (st w) !! id = Some r) in Hr. congruence. }
  destruct (bk_RootUserID b =? root)%Z eqn:Hroot; cbn [negb orb]; cbv iota.
  2: { apply (wp_take_missing _ NF); [|done]. intros r Hr.
       change (bookings (st w) !! id = Some r) in Hr. congruence. }
  apply (wp_take_known _ NF _ _ b); [exact Hb|done|]. cbv beta iota.
  destruct (has_status BookingReserved b) eqn:Hst; cbn [negb]; cbv iota; [|done].
  assert (Hres : bk_Status b = BookingReserved) by (unfold has_status in Hst; by bools).
  destruct (ri_slot _ I _ _ Hb) as [sl Hsl]. rewrite Hsl.
  pose proof (reserved_slot_taken _ I _ _ _ Hb Hres Hsl) as Htaken.
  apply wp_bind, (wp_take_known _ NF _ _ sl); [exact Hsl|done|]. cbv beta iota.
  destruct (resources (st w) !! slot_ResourceID sl) as [r|] eqn:Hr.
  2: { apply wp_bind, (wp_take_missing _ NF); [|done]. intros x Hx.
       change (resources (st w) !! slot_ResourceID sl = Some x) in Hx. congruence. }
  apply wp_bind, (wp_take_known _ NF _ _ r); [exact Hr|done|]. cbv beta iota.
  destruct (venues (st w) !! rsc_VenueID r) as [v|] eqn:Hv.
  2: { apply wp_bind, (wp_take_missing _ NF); [|done]. intros x Hx.
       change (venues (st w) !! rsc_VenueID r = Some x) in Hx. congruence. }
  apply wp_bind, (wp_take_known _ NF _ _ v); [exact Hv|done|]. cbv beta iota.
  destruct (now <? _)%Z; cbn [negb]; cbv iota; [|done].
  pose proof (vw_key Slot w _ _ Hsl : slot_ID sl = _) as Hkey.
  apply wp_bind. eapply (wp_update_row Booking NF _ _ _ b); [done|done|exact Hb|done| |].
  { intros Heq. apply (f_equal bk_Status) in Heq. simpl in Heq. congruence. }
  intros w1 (Hw1 & _). cbv beta iota. cbn [negb Z.eqb Pos.eqb]. cbv iota.
  assert (Hst1 : st w1 = set_bookings (<[id := booking_cancel BookingCancelled now b]> (bookings (st w))) (st w))
    by exact Hw1.
  apply wp_bind. eapply (wp_update_row Slot NF _ _ _ sl); [done|done| |by apply Z.ltb_lt; lia| |].
  { rewrite Hkey. change (slots (st w1) !! bk_SlotID b = Some sl). by rewrite Hst1. }
  { intros Heq. apply (f_equal slot_ReservedCount) in Heq. simpl in Heq. lia. }
  intros w2 (Hw2 & _). cbv beta iota. cbn [negb Z.eqb Pos.eqb]. cbv iota.
  apply wp_ret. split; [done|].
  assert (Hst2 : st (bump w2) = set_slots (<[slot_ID sl := slot_count (-1) sl]> (slots (st w1))) (st w1))
    by exact Hw2.
  by rewrite Hst2, Hst1, Hkey.
Qed.

(** ** Check-in *)
Definition checkin_row (code : string) (b : Booking) : bool :=
  String.eqb (bk_CheckinCode b) code && has_status BookingReserved b.

Lemma booking_keys_kept (f : Booking -> Booking) :
  (forall b, bk_CheckinCode (f b) = bk_CheckinCode b) ->
  forall b b', ent_clash (f b) b' = ent_clash b b' /\ ent_clash b' (f b) = ent_clash b' b.
Proof. intros Hf b b'. simpl. by rewrite !Hf. Qed.

Lemma Checkin_spec code now w :
  up w ->
  wp (Checkin code now) (fun r w' =>
    r = Ok (0 <? amount (checkin_row code) (bookings (st w)))%Z /\
    st w' = set_bookings (upd_view (checkin_row code) (booking_checkin now) (bookings (st w))) (st w)) w.
Proof.
  intros [NF Hdb]. unfold Checkin. apply wp_bind, reservation_wp_gormDB_up; [done|]. cbv beta iota.
  change (fun b : Booking => String.eqb (bk_CheckinCode b) code && has_status BookingReserved b)
    with (checkin_row code).
  apply wp_bind, wp_update_rows; [done|done|by rewrite NF|]. intros n w1 Hw Hle Hn. cbv beta iota.
  apply wp_ret. rewrite Hn; [split; [done|exact (proj1 Hw)]|].
  intros b Hb Heq. apply (f_equal bk_Status) in Heq. unfold checkin_row, has_status in Hb. bools.
  simpl in Heq. congruence.
Qed.

(** A check-in code works once: it succeeds when some reserved booking carries
    it, that booking becomes checked in, and a second attempt with the same code
    fails and changes nothing. *)
Theorem checkin_single_use code t1 t2 w :
  up w ->
  let w1 := (Checkin code t1 w).2 in
  ((Checkin code t1 w).1 = Ok true <->
     exists k b, bookings (st w) !! k = Some b /\ bk_CheckinCode b = code /\ bk_Status b = BookingReserved) /\
  (forall k b, bookings (st w) !! k = Some b -> bk_CheckinCode b = code -> bk_Status b = BookingReserved ->
     bookings (st w1) !! k = Some (booking_checkin t1 b)) /\
  (Checkin code t2 w1).1 = Ok false /\ st (Checkin code t2 w1).2 = st w1.
Proof.
  intros Hup w1. destruct (Checkin_spec code t1 w Hup) as [Hr Hw]. fold w1 in Hw.
  assert (Hup1 : up w1).
  { split; [apply Hup|]. rewrite <- (proj2 Hup).
    refine (_ : Safe.kept db_nil w1 = Safe.kept db_nil w). unfold w1. revert w Hup w1 Hr Hw. intros w _ _ _ _.
    apply preserves_bind; [apply keeps_reads, reservation_reads_gormDB|]. intros _.
    apply preserves_bind; [by apply keeps_update|done]. }
  destruct (Checkin_spec code t2 w1 Hup1) as [Hr2 Hw2].
  assert (Hrow : forall b, checkin_row code b = true <-> bk_CheckinCode b = code /\ bk_Status b = BookingReserved).
  { intros b. unfold checkin_row, has_status. by rewrite andb_true_iff, String.eqb_eq, bool_decide_eq_true. }
  assert (Hnone : forall k b, bookings (st w1) !! k = Some b -> checkin_row code b = false).
  { intros k b. rewrite Hw. simpl. rewrite lookup_upd_view. destruct (bookings (st w) !! k) as [x|]; [|done].
    simpl. intros [= <-]. destruct (checkin_row code x) eqn:Ex; [|done].
    unfold checkin_row, has_status. simpl. apply andb_false_r. }
  split; [|split; [|split]].
  - rewrite Hr. split.
    + intros [= Hpos]. apply Z.ltb_lt in Hpos.
      destruct (amount_some (checkin_row code) (bookings (st w))) as (k & b & Hb & Hp); [lia|].
      exists k, b. by apply Hrow in Hp.
    + intros (k & b & Hb & Hp). f_equal. apply Z.ltb_lt.
      pose proof (amount_pos (checkin_row code) _ _ _ Hb (proj2 (Hrow b) Hp)). lia.
  - intros k b Hb Hc Hs. rewrite Hw. simpl. rewrite lookup_upd_view, Hb. simpl.
    by rewrite (proj2 (Hrow b) (conj Hc Hs)).
  - rewrite Hr2. f_equal. apply Z.ltb_ge. by rewrite (proj2 (amount_zero _ _) Hnone).
  - rewrite Hw2. rewrite (upd_view_ext _ (fun _ => false)) by done.
    rewrite upd_view_none by done. by rewrite set_bookings_get.
Qed.

(** ** No-shows *)
Definition overdue (s : State) (now : Z) (b : Booking) : bool :=
  has_status BookingReserved b && on_slot (slots s) (fun sl => slot_EndAt sl <=? now)%Z b.

(** The no-show job, with no failure, marks exactly the reserved bookings whose
    slot has ended, and returns them. *)
Theorem MarkNoShows_spec now w :
  up w ->
  wp (MarkNoShows now) (fun r w' =>
    exists l, r = Ok l /\ l ≡ₚ (map_to_list (matching (overdue (st w) now) (bookings (st w)))).*2 /\
    st w' = set_bookings (upd_view (overdue (st w) now) (booking_noshow now) (bookings (st w))) (st w)) w.
Proof.
  intros [NF Hdb]. unfold MarkNoShows. apply wp_bind, reservation_wp_gormDB_up; [done|]. cbv beta iota.
  apply wp_commit; [done|]. apply wp_bind, wp_get_db. cbv beta iota.
  apply wp_bind, wp_find; [by rewrite NF|]. intros l Hl0. cbv beta iota.
  assert (Hl : l ≡ₚ (map_to_list (matching (overdue (st w) now) (bookings (st w)))).*2).
  { rewrite Hl0. f_equiv. f_equiv. apply map_eq. intros k. apply option_eq. intros b.
    rewrite !lookup_matching. unfold overdue. by rewrite joined_on_slot. }
  clear Hl0. destruct l as [|x l].
  { apply wp_ret. exists []. split; [done|]. split; [done|].
    rewrite (upd_view_ext _ (fun _ => false)).
    - rewrite upd_view_none by done. by rewrite set_bookings_get.
    - apply amount_zero. by rewrite (amount_found _ _ _ Hl). }
  generalize dependent (x :: l). intros l0 Hl.
  assert (Hsame : forall k b, bookings (st w) !! k = Some b ->
    bool_decide (bk_ID b ∈ bk_ID <$> l0) && has_status BookingReserved b = overdue (st w) now b).
  { intros k b Hb. destruct (overdue (st w) now b) eqn:Ho.
    - pose proof Ho as Hs. unfold overdue in Hs. apply andb_true_iff in Hs as [Hs _]. rewrite Hs, andb_true_r.
      apply bool_decide_eq_true, list_elem_of_fmap. exists b. split; [done|]. rewrite Hl.
      apply list_elem_of_fmap. exists (k, b). split; [done|]. apply elem_of_map_to_list, lookup_matching.
      by split.
    - destruct (bool_decide _) eqn:Hin; [|done]. apply bool_decide_eq_true in Hin.
      pose proof (found_id _ _ _ _ _ (vw_key Booking w) Hl Hb Hin). congruence. }
  apply wp_bind, wp_update_rows; [done|done|by rewrite NF|]. intros n w1 Hw _ Hn. cbv beta iota.
  change (vw Booking (bump w)) with (bookings (st w)) in Hn.
  rewrite Hn, (amount_ext _ _ _ Hsame), (amount_found _ _ _ Hl).
  - rewrite Z.eqb_refl. cbn [negb]. cbv iota. apply wp_ret. exists l0. split; [done|]. split; [done|].
    rewrite <- (upd_view_ext _ _ _ _ Hsame). exact (proj1 Hw).
  - intros b Hb Heq. apply (f_equal bk_Status) in Heq. unfold has_status in Hb. bools.
    simpl in Heq. congruence.
Qed.

(** ** Closures *)

(** The slots a closure takes out: those it overlaps, of its resource, or of the
    resources of its venue. *)
Definition closure_covers (s : State) (c : Closure) (sl : Slot) : bool :=
  overlaps (clo_StartAt c) (clo_EndAt c) sl
  && match clo_ResourceID c, clo_VenueID c with
     | Some r, _ => (slot_ResourceID sl =? r)%Z
     | None, Some v =>
       match resources s !! slot_ResourceID sl with Some r => (rsc_VenueID r =? v)%Z | None => false end
     | None, None => true
     end.

Lemma closure_slots_covers db c sl : closure_slots db c sl = closure_covers (abs db) c sl.
Proof.
  unfold closure_slots, closure_covers. f_equal. destruct (clo_ResourceID c), (clo_VenueID c); try done.
  change (t_resources db) with (tget (R := Resource) db). rewrite existsb_byid. change (aget (abs db)) with (resources (abs db)).
  destruct (resources (abs db) !! _); [|done]. apply andb_true_r.
Qed.

(** The reserved bookings on those slots. *)
Definition closure_hit (s : State) (c : Closure) (b : Booking) : bool :=
  on_slot (slots s) (closure_covers s c) b && has_status BookingReserved b.

Definition closed_by (s : State) (c : Closure) (now : Z) : State :=
  set_slots (upd_view (closure_covers s c) (slot_close now) (slots s))
    (set_bookings (upd_view (closure_hit s c) (booking_cancel BookingClosureCancelled now) (bookings s))
      (set_closures (<[clo_ID c := c]> (closures s)) s)).

Lemma slot_ids_covered (s : State) c l :
  wf s -> l ≡ₚ (map_to_list (matching (closure_covers s c) (slots s))).*2 ->
  forall k sl, slots s !! k = Some sl -> bool_decide (k ∈ slot_ID <$> l) = closure_covers s c sl.
Proof.
  intros W Hl k sl Hk. pose proof (wf_slots _ W _ _ Hk) as Hid. subst k.
  destruct (closure_covers s c sl) eqn:Hc.
  - apply bool_decide_eq_true, list_elem_of_fmap. exists sl. split; [done|]. rewrite Hl.
    apply list_elem_of_fmap. exists (slot_ID sl, sl). split; [done|].
    by apply elem_of_map_to_list, lookup_matching.
  - apply bool_decide_eq_false. intros Hin.
    pose proof (found_id (R := Slot) _ _ _ _ _ (wf_slots _ W) Hl Hk Hin). congruence.
Qed.

(** A closure, with no failure: the slots it covers are closed and emptied, the
    reserved bookings on them are cancelled for the closure, every other row stays
    as it was, and the users to notify are exactly the owners of those bookings, each
    once. *)
Theorem CreateClosure_spec serial c now w :
  up w -> sound serial (st w) -> closures (st w) !! clo_ID c = None ->
  wp (CreateClosure c now) (fun r w' =>
    exists roots, r = Ok roots /\ NoDup roots /\
    (forall root, root ∈ roots <->
       exists k b, bookings (st w) !! k = Some b /\ closure_hit (st w) c b = true /\ bk_RootUserID b = root) /\
    st w' = closed_by (st w) c now) w.
Proof.
  intros [NF Hdb] (W & I & _) Hfresh. unfold CreateClosure.
  apply wp_bind, reservation_wp_gormDB_up; [done|]. cbv beta iota. apply wp_commit; [done|].
  apply wp_bind, wp_insert; [by rewrite NF| |]; cbv beta iota.
  { intros [[x Hx]|(k & x & _ & [Hc|Hc])]; [|done|done].
    change (closures (st w) !! clo_ID c = Some x) in Hx. congruence. }
  intros w1 (Hw1 & _) _ _. apply wp_bind, wp_get_db. cbv beta iota.
  assert (Hst1 : st w1 = set_closures (<[clo_ID c := c]> (closures (st w))) (st w)) by exact Hw1.
  apply wp_bind, wp_find; [by rewrite NF|]. intros l Hl0. cbv beta iota.
  assert (Hl : l ≡ₚ (map_to_list (matching (closure_covers (st w) c) (slots (st w)))).*2).
  { rewrite Hl0. f_equiv. f_equiv. change (vw Slot w1) with (slots (st w1)). rewrite Hst1.
    apply map_eq. intros k. apply option_eq. intros x. rewrite !lookup_matching, closure_slots_covers.
    change (abs (w_db w1)) with (st w1). by rewrite Hst1. }
  pose proof (slot_ids_covered (st w) c l W Hl) as Hids. clear Hl0.
  assert (Hslots : forall k sl, slots (st w) !! k = Some sl ->
    bool_decide (slot_ID sl ∈ slot_ID <$> l) = closure_covers (st w) c sl).
  { intros k sl Hk. rewrite (wf_slots _ W _ _ Hk). by apply Hids. }
  assert (Hhits : forall k b, bookings (st w) !! k = Some b ->
    bool_decide (bk_SlotID b ∈ slot_ID <$> l) && has_status BookingReserved b = closure_hit (st w) c b).
  { intros k b Hk. destruct (ri_slot _ I _ _ Hk) as [sl Hsl]. unfold closure_hit, on_slot.
    by rewrite Hsl, (Hids _ _ Hsl). }
  clear Hids. destruct l as [|x l].
  { apply wp_ret. exists []. split; [done|]. split; [constructor|].
    assert (Hnone : forall k b, bookings (st w) !! k = Some b -> closure_hit (st w) c b = false)
      by (intros k b Hk; by rewrite <- (Hhits _ _ Hk)).
    split.
    - intros root. split; [by intros ?%not_elem_of_nil|]. intros (k & b & Hk & Hh & _).
      by rewrite (Hnone _ _ Hk) in Hh.
    - unfold closed_by. rewrite (upd_view_ext (closure_hit _ _) (fun _ => false)) by done.
      rewrite (upd_view_ext (closure_covers _ _) (fun _ => false)) by (intros k sl Hk; by rewrite <- (Hslots _ _ Hk)).
      rewrite !upd_view_none by done. change (st (bump (bump w1))) with (st w1). rewrite Hst1.
      by destruct (st w). }
  generalize dependent (x :: l). intros l0 Hl Hslots Hhits.
  apply wp_bind, wp_find; [by rewrite NF|]. intros bs Hbs. cbv beta iota.
  change (vw Booking (bump w1)) with (bookings (st w1)) in Hbs. rewrite Hst1 in Hbs. simpl in Hbs.
  apply wp_bind, wp_update_rows; [done|done|by rewrite NF|]. intros n1 w2 (Hw2 & _) _ _. cbv beta iota.
  apply wp_bind, wp_update_rows; [done|done|by rewrite NF|]. intros n2 w3 (Hw3 & _) _ _. cbv beta iota.
  apply wp_ret. exists (remove_dups (bk_RootUserID <$> bs)). split; [done|].
  split; [apply NoDup_remove_dups|]. split.
  - intros root. rewrite elem_of_remove_dups, list_elem_of_fmap. split.
    + intros (b & -> & Hb). rewrite Hbs in Hb. apply list_elem_of_fmap in Hb as ([k y] & -> & Hy).
      apply elem_of_map_to_list, lookup_matching in Hy as [Hy Hp]. simpl.
      exists k, y. split; [done|]. by rewrite <- (Hhits _ _ Hy).
    + intros (k & b & Hk & Hh & <-). exists b. split; [done|]. rewrite Hbs.
      apply list_elem_of_fmap. exists (k, b). split; [done|].
      apply elem_of_map_to_list, lookup_matching. split; [done|]. by rewrite (Hhits _ _ Hk).
  - unfold st in *. simpl in *. unfold vw in *. rewrite Hw3. simpl. rewrite Hw2. simpl. rewrite Hw1. simpl.
    unfold closed_by. by rewrite <- (upd_view_ext _ _ _ _ Hhits), <- (upd_view_ext _ _ _ _ Hslots).
Qed.
End func.

(** ** The theorems on a concrete history *)
Import ReservationDemo.

Lemma at_slots_up : up at_slots.
Proof. split; [done|vm_compute; reflexivity]. Qed.
Lemma at_booked_up : up at_booked.
Proof. split; [done|vm_compute; reflexivity]. Qed.

Definition new_booking : Booking :=
  mkBooking 9001 7 7 1015 BookingReserved "9002" None None 0 0.

Lemma new_booking_fresh : fresh_booking new_booking (st at_slots).
Proof.
  split; [vm_compute; reflexivity..|]. intros k x Hx.
  assert (bookings (st at_slots) = ∅) as He by (vm_compute; reflexivity).
  rewrite He, lookup_empty in Hx. discriminate Hx.
Qed.

(** What a decision says, without the rows. *)
Definition granted {A} (v : error + A) : bool := match v with inr _ => true | inl _ => false end.

(** A minute after the slots were generated. *)
Definition booking_time : Z := (1700000080 * GoTime.Second)%Z.

Lemma CreateBooking_spec_witness :
  exists sl v, verdict (st at_slots) new_booking booking_time = inr (sl, v) /\
    (CreateBooking new_booking booking_time at_slots).1 = Ok (sl, v) /\
    slots (st (CreateBooking new_booking booking_time at_slots).2) = <[1015%Z := slot_count 1 sl]> (slots (st at_slots)).
Proof.
  pose proof (CreateBooking_spec new_booking booking_time at_slots at_slots_up new_booking_fresh) as Hs.
  unfold wp in Hs. assert (Hg : granted (verdict (st at_slots) new_booking booking_time) = true) by (vm_compute; reflexivity).
  destruct (verdict (st at_slots) new_booking booking_time) as [e|[sl v]]; [discriminate|].
  exists sl, v. destruct Hs as (Hr & _ & Hsl & _). split; [reflexivity|]. split; [exact Hr|exact Hsl].
Defined.

Definition cancel_granted (v : option (error + Booking * Slot)) : bool :=
  match v with Some r => granted r | None => false end.

Lemma CancelBooking_spec_witness :
  exists b sl, cancel_verdict (st at_booked) 1021 7 5 = Some (inr (b, sl)) /\
    (CancelBooking 1021 7 5 at_booked).1 = Ok true.
Proof.
  pose proof (CancelBooking_spec true 1021 7 5 at_booked at_booked_up
    (history_sound true at_booked (at_booked_history true))) as Hs.
  unfold wp in Hs.
  assert (Hg : cancel_granted (cancel_verdict (st at_booked) 1021 7 5) = true) by (vm_compute; reflexivity).
  destruct (cancel_verdict (st at_booked) 1021 7 5) as [[e|[b sl]]|]; [discriminate| |discriminate].
  exists b, sl. destruct Hs as (Hr & _). split; [reflexivity|exact Hr].
Defined.

Lemma checkin_single_use_witness :
  (Checkin "1022" 5 at_booked).1 = Ok true /\
  (Checkin "1022" 6 (Checkin "1022" 5 at_booked).2).1 = Ok false.
Proof.
  destruct (checkin_single_use "1022" 5 6 at_booked at_booked_up) as (H1 & _ & H2 & _).
  split; [|exact H2]. apply H1.
  destruct (row_at (bookings (st at_booked)) 1021%Z (checkin_row "1022")) as (b & Hb & Hp);
    [vm_compute; reflexivity|].
  unfold checkin_row, has_status in Hp. apply andb_true_iff in Hp as [Hc Hp].
  exists 1021%Z, b. split; [exact Hb|]. split; [by apply String.eqb_eq|].
  by apply bool_decide_eq_true in Hp.
Defined.

(** An instant after the demo's slots have ended. *)
Definition next_day : Z := (1700200000 * GoTime.Second)%Z.

Lemma MarkNoShows_spec_witness :
  amount (overdue (st at_booked) next_day) (bookings (st at_booked)) = 2%Z /\
  exists l, (MarkNoShows next_day at_booked).1 = Ok l /\ length l = 2%nat.
Proof.
  assert (Ha : amount (overdue (st at_booked) next_day) (bookings (st at_booked)) = 2%Z)
    by (vm_compute; reflexivity).
  split; [exact Ha|].
  destruct (MarkNoShows_spec next_day at_booked at_booked_up) as (l & Hr & Hl & _).
  exists l. split; [exact Hr|]. rewrite (amount_found _ _ _ Hl) in Ha. lia.
Defined.

(** The court closed for the whole day. *)
Definition court_closed : Closure :=
  mkClosure 9003 None (Some 1004%Z) (1700064000 * GoTime.Second) (1700150400 * GoTime.Second) "rain" 1 0.

Lemma CreateClosure_spec_witness :
  exists roots, (CreateClosure court_closed 5 at_booked).1 = Ok roots /\ 7%Z ∈ roots.
Proof.
  assert (Hf : closures (st at_booked) !! clo_ID court_closed = None) by (vm_compute; reflexivity).
  destruct (CreateClosure_spec true court_closed 5 at_booked at_booked_up
    (history_sound true at_booked (at_booked_history true)) Hf) as (roots & Hr & _ & Hin & _).
  exists roots. split; [exact Hr|]. apply Hin.
  destruct (row_at (bookings (st at_booked)) 1021%Z
    (fun b => closure_hit (st at_booked) court_closed b && (bk_RootUserID b =? 7)%Z))
    as (b & Hb & Hp); [vm_compute; reflexivity|].
  apply andb_true_iff in Hp as [Hh Hroot]. exists 1021%Z, b. split; [exact Hb|].
  split; [exact Hh|by apply Z.eqb_eq].
Defined.

(** ** What the read view of an overlapping transaction does *)

(** Two bookings of one user run at the same time: the second took its read view,
    with its first [SELECT], before the first one committed, and waits for the day
    lock.  Its counts still see no booking, so the user books the same hour twice. *)
Definition at_double : World DB :=
  run demo_service
    [ RCreateBooking None 7 7 {| ReservationService.breq_SlotID := "1015" |};
      RCreateBooking (Some (w_db at_slots)) 7 7 {| ReservationService.breq_SlotID := "1015" |} ] at_slots.

Definition overlap_of (s : State) (root sid : Z) : Z :=
  amount (fun b => valid_of root b && (bk_SlotID b =? sid)%Z) (bookings s).

Lemma stale_view_double_books :
  history false at_double /\ overlap_of (st at_double) 7 1015 = 2%Z.
Proof.
  split; [|vm_compute; reflexivity]. destruct (at_slots_history false) as (w & Hw & Hr).
  exists w. split; [exact Hw|]. etrans; [exact Hr|]. apply reservation_run_served; [apply reservation_demo_honest|].
  by repeat (apply Forall_cons; split; [done|]).
Qed.
End ReservationFunc.
