(* ===== verification/ModerationModel.v ===== *)
(** * Moderation: data model

    The rows of [internal/moderation/model.go], the unique indexes of migration
    000002, and the store of the moderation service: its tables and the Redis
    database with the capability cache. *)
From S2P Require Import Prelude GoString GoTime GoMonad Sql RedisStr.

Module Moderation.

Inductive ReportStatus := ReportPending | ReportReviewing | ReportRejected | ReportActioned | ReportWithdrawn.
Inductive AppealStatus := AppealPending | AppealApproved | AppealRejected.
Inductive PunishmentStatus := PunishmentActive | PunishmentRevoked.

#[export] Instance ReportStatus_eq : EqDecision ReportStatus.
Proof. solve_decision. Defined.
#[export] Instance AppealStatus_eq : EqDecision AppealStatus.
Proof. solve_decision. Defined.
#[export] Instance PunishmentStatus_eq : EqDecision PunishmentStatus.
Proof. solve_decision. Defined.

Definition report_status_text (s : ReportStatus) : string :=
  match s with
  | ReportPending => "pending" | ReportReviewing => "reviewing" | ReportRejected => "rejected"
  | ReportActioned => "actioned" | ReportWithdrawn => "withdrawn"
  end.
Definition appeal_status_text (s : AppealStatus) : string :=
  match s with AppealPending => "pending" | AppealApproved => "approved" | AppealRejected => "rejected" end.
Definition punishment_status_text (s : PunishmentStatus) : string :=
  match s with PunishmentActive => "active" | PunishmentRevoked => "revoked" end.

Definition CapabilityContent : string := "content".
Definition CapabilityTrade : string := "trade".
Definition CapabilityReservation : string := "reservation".
Definition CapabilityAccount : string := "account".

Definition targetTypes : list string :=
  ["user"; "topic"; "comment"; "chatMessage"; "courseReview"; "material"; "marketplaceItem"].
Definition capabilities : list string :=
  [CapabilityContent; CapabilityTrade; CapabilityReservation; CapabilityAccount].

Record Report := mkReport {
  rpt_ID : Z;
  rpt_ReporterRootUserID : Z;
  rpt_ReporterUserID : Z;
  rpt_TargetType : string;
  rpt_TargetID : string;
  rpt_TargetRootUserID : Z;
  rpt_Reason : string;
  rpt_Description : string;
  rpt_Status : ReportStatus;
  rpt_AssigneeAdminID : option Z;
  rpt_CreatedAt : Z;
  rpt_UpdatedAt : Z;
  rpt_WithdrawnAt : option Z;
}.

Record ReportSnapshot := mkReportSnapshot {
  snp_ID : Z;
  snp_ReportID : Z;
  snp_Payload : string;
  snp_CreatedAt : Z;
}.

Record Punishment := mkPunishment {
  pun_ID : Z;
  pun_RootUserID : Z;
  pun_ReportID : option Z;
  pun_Capability : string;
  pun_Reason : string;
  pun_Status : PunishmentStatus;
  pun_StartsAt : Z;
  pun_EndsAt : option Z;
  pun_CreatedBy : Z;
  pun_CreatedAt : Z;
  pun_RevokedBy : option Z;
  pun_RevokedAt : option Z;
  pun_RevokeReason : string;
}.

Record Appeal := mkAppeal {
  apl_ID : Z;
  apl_PunishmentID : Z;
  apl_RootUserID : Z;
  apl_Reason : string;
  apl_Status : AppealStatus;
  apl_Resolution : string;
  apl_ReviewedBy : option Z;
  apl_CreatedAt : Z;
  apl_UpdatedAt : Z;
}.

(** [Detail] has one key and a text. *)
Record AuditLog := mkAuditLog {
  aud_ID : Z;
  aud_ReportID : option Z;
  aud_PunishmentID : option Z;
  aud_AppealID : option Z;
  aud_AdminID : Z;
  aud_Action : string;
  aud_Detail : string * string;
  aud_CreatedAt : Z;
}.

(** ** Unique indexes *)
#[export] Instance Report_entity : Entity Report := { ent_id := rpt_ID; ent_clash _ _ := false }.
#[export] Instance ReportSnapshot_entity : Entity ReportSnapshot := {
  ent_id := snp_ID; ent_clash a b := (snp_ReportID a =? snp_ReportID b)%Z }.
#[export] Instance Punishment_entity : Entity Punishment := { ent_id := pun_ID; ent_clash _ _ := false }.
#[export] Instance Appeal_entity : Entity Appeal := {
  ent_id := apl_ID; ent_clash a b := (apl_PunishmentID a =? apl_PunishmentID b)%Z }.
#[export] Instance AuditLog_entity : Entity AuditLog := { ent_id := aud_ID; ent_clash _ _ := false }.

(** ** The store *)
Section store.
Context {D : SqlEngine} {J : JsonMap} {R : RedisEngine jbytes}.

Record DB := mkDB {
  db_nil : bool;
  t_reports : table Report _;
  t_snapshots : table ReportSnapshot _;
  t_punishments : table Punishment _;
  t_appeals : table Appeal _;
  t_audits : table AuditLog _;
  t_redis : rstore R;
}.
End store.
Arguments DB {D J} R.

Record State := mkState {
  reports : gmap Z Report;
  snapshots : gmap Z ReportSnapshot;
  punishments : gmap Z Punishment;
  appeals : gmap Z Appeal;
  audits : gmap Z AuditLog;
}.

Definition set_reports v s := {| s with reports := v |}.
Definition set_snapshots v s := {| s with snapshots := v |}.
Definition set_punishments v s := {| s with punishments := v |}.
Definition set_appeals v s := {| s with appeals := v |}.
Definition set_audits v s := {| s with audits := v |}.

Section tables.
Context {D : SqlEngine} {J : JsonMap} {R : RedisEngine jbytes}.
Notation DB := (DB R).

Definition db_state (s : DB) : State :=
  mkState (view (t_reports s)) (view (t_snapshots s)) (view (t_punishments s)) (view (t_appeals s))
    (view (t_audits s)).
#[export] Instance DB_abs : Abstract DB State := db_state.

#[export] Instance tbl_reports : Tbl DB State Report _ _.
Proof.
  refine {| tget := t_reports; tset t s := {| s with t_reports := t |};
    aget := reports; aset := set_reports |}; by intros; try destruct a.
Defined.
#[export] Instance tbl_snapshots : Tbl DB State ReportSnapshot _ _.
Proof.
  refine {| tget := t_snapshots; tset t s := {| s with t_snapshots := t |};
    aget := snapshots; aset := set_snapshots |}; by intros; try destruct a.
Defined.
#[export] Instance tbl_punishments : Tbl DB State Punishment _ _.
Proof.
  refine {| tget := t_punishments; tset t s := {| s with t_punishments := t |};
    aget := punishments; aset := set_punishments |}; by intros; try destruct a.
Defined.
#[export] Instance tbl_appeals : Tbl DB State Appeal _ _.
Proof.
  refine {| tget := t_appeals; tset t s := {| s with t_appeals := t |};
    aget := appeals; aset := set_appeals |}; by intros; try destruct a.
Defined.
#[export] Instance tbl_audits : Tbl DB State AuditLog _ _.
Proof.
  refine {| tget := t_audits; tset t s := {| s with t_audits := t |};
    aget := audits; aset := set_audits |}; by intros; try destruct a.
Defined.

Definition set_redis (r : rstore R) (s : DB) : DB := {| s with t_redis := r |}.
End tables.
#[global] Opaque db_state DB_abs.

End Moderation.
