(* ===== verification/ModerationRepo.v ===== *)
(** * Moderation: the repository

    One definition per method of [internal/moderation/repository.go].  The reads of
    [DecideAppeal] and [RevokePunishment] take no lock: they come from the read view
    of the transaction, an argument of the [_at] variants; [DecideAppeal] and
    [RevokePunishment] are the transactions that run alone. *)
From S2P Require Import Prelude GoString GoTime GoMonad Sql RedisStr ModerationModel.

Module ModerationRepo.
Import Moderation.

Definition always {R} (_ : R) : bool := true.

(** ** Row updates *)
Definition report_withdraw (now : Z) (r : Report) : Report :=
  {| r with rpt_Status := ReportWithdrawn; rpt_WithdrawnAt := Some now; rpt_UpdatedAt := now |}.
Definition report_claim (admin now : Z) (r : Report) : Report :=
  {| r with rpt_Status := ReportReviewing; rpt_AssigneeAdminID := Some admin; rpt_UpdatedAt := now |}.
Definition report_complete (st : ReportStatus) (now : Z) (r : Report) : Report :=
  {| r with rpt_Status := st; rpt_UpdatedAt := now |}.
Definition appeal_decide (st : AppealStatus) (resolution : string) (admin now : Z) (a : Appeal) : Appeal :=
  {| a with apl_Status := st; apl_Resolution := resolution; apl_ReviewedBy := Some admin;
            apl_UpdatedAt := now |}.
Definition punishment_revoke (admin now : Z) (reason : string) (p : Punishment) : Punishment :=
  {| p with pun_Status := PunishmentRevoked; pun_RevokedBy := Some admin; pun_RevokedAt := Some now;
            pun_RevokeReason := reason |}.

Definition report_is (st : ReportStatus) (r : Report) : bool := bool_decide (rpt_Status r = st).
Definition appeal_is (st : AppealStatus) (a : Appeal) : bool := bool_decide (apl_Status a = st).
Definition punishment_is (st : PunishmentStatus) (p : Punishment) : bool := bool_decide (pun_Status p = st).

(** The [WHERE] of [ActivePunishments]. *)
Definition in_force (now : Z) (p : Punishment) : bool :=
  punishment_is PunishmentActive p && (pun_StartsAt p <=? now)%Z
  && match pun_EndsAt p with None => true | Some e => (now <? e)%Z end.

Section repo.
Context {E : Env} {D : SqlEngine} {J : JsonMap} {RE : RedisEngine jbytes}.
Notation DB := (DB RE).
Notation M := (M DB).

Definition gormDB : M unit :=
  let! s := get_db in
  if db_nil s then throw (ENew "moderation database not initialized") else ret tt.

Definition CreateReport (report : Report) (snapshot : ReportSnapshot) : M unit :=
  gormDB;;
  transaction (
    map_err (EWrapf "create report") (insert Report report);;
    map_err (EWrapf "create report snapshot") (insert ReportSnapshot snapshot)).

(** The query is the condition the service passes, [always] for [nil]. *)
Definition ListReports (query : Report -> bool) (pageNo size : Z) : M (list Report * Z) :=
  gormDB;;
  let! total := map_err (EWrapf "count reports") (count Report query) in
  let! rows := map_err (EWrapf "list reports") (find Report query) in
  ret (page (mul64 (sub64 pageNo 1) size) size (order_by (fun r => - rpt_CreatedAt r)%Z rows), total).

Definition FindReport (id : Z) : M (option Report) :=
  gormDB;;
  let! r := attempt (take Report (byid id always)) in
  match r with
  | Ok report => ret (Some report)
  | Err e => if errors_Is e record_not_found_text then ret None else throw (EWrapf "find report" e)
  end.

Definition WithdrawReport (id rootUserID now : Z) : M bool :=
  gormDB;;
  let! n := update Report
    (byid id (fun r => (rpt_ReporterRootUserID r =? rootUserID)%Z && report_is ReportPending r))
    (report_withdraw now) in
  ret (0 <? n)%Z.

Definition ClaimReport (id adminID now : Z) : M bool :=
  gormDB;;
  let! n := map_err (EWrapf "claim report")
    (update Report (byid id (report_is ReportPending)) (report_claim adminID now)) in
  ret (0 <? n)%Z.

Definition assigned_to (adminID : Z) (r : Report) : bool :=
  bool_decide (rpt_AssigneeAdminID r = Some adminID).

Definition CompleteReview (reportID adminID : Z) (status : ReportStatus) (punishment : option Punishment)
    (audit : AuditLog) (now : Z) : M bool :=
  gormDB;;
  transaction (
    let! n := update Report
      (byid reportID (fun r => report_is ReportReviewing r && assigned_to adminID r))
      (report_complete status now) in
    if (n =? 0)%Z then ret false
    else
      (match punishment with
       | Some p => map_err (EWrapf "create punishment") (insert Punishment p)
       | None => ret tt
       end);;
      map_err (EWrapf "create audit log") (insert AuditLog audit);;
      ret true).

Definition ListPunishments (rootUserID pageNo size : Z) : M (list Punishment * Z) :=
  gormDB;;
  let base := fun p => (pun_RootUserID p =? rootUserID)%Z in
  let! total := count Punishment base in
  let! rows := find Punishment base in
  ret (page (mul64 (sub64 pageNo 1) size) size (order_by (fun p => - pun_CreatedAt p)%Z rows), total).

Definition ActivePunishments (rootUserID now : Z) : M (list Punishment) :=
  gormDB;;
  find Punishment (fun p => (pun_RootUserID p =? rootUserID)%Z && in_force now p).

Definition FindPunishment (id : Z) : M (option Punishment) :=
  gormDB;; or_nil (take Punishment (byid id always)).

Definition CreateAppeal (appeal : Appeal) : M unit :=
  gormDB;; map_err (EWrapf "create appeal") (insert Appeal appeal).

Definition ListAppeals (rootUserID : option Z) (pageNo size : Z) : M (list Appeal * Z) :=
  gormDB;;
  let base := fun a => match rootUserID with Some r => (apl_RootUserID a =? r)%Z | None => true end in
  let! total := count Appeal base in
  let! rows := find Appeal base in
  ret (page (mul64 (sub64 pageNo 1) size) size (order_by (fun a => - apl_CreatedAt a)%Z rows), total).

(** The root user is returned when a pending appeal was found. *)
Definition DecideAppeal_at (rv : DB) (appealID adminID : Z) (approved : bool) (resolution : string) (now : Z)
    (audit : AuditLog) : M (option Z) :=
  gormDB;;
  transaction (
    let! r := attempt (take_in Appeal rv (byid appealID (appeal_is AppealPending))) in
    match r with
    | Err e => if errors_Is e record_not_found_text then ret None else throw e
    | Ok appeal =>
      update Appeal (byid appealID (appeal_is AppealPending))
        (appeal_decide (if approved then AppealApproved else AppealRejected) resolution adminID now);;
      (if approved
       then let! _ := update Punishment (byid (apl_PunishmentID appeal) (punishment_is PunishmentActive))
              (punishment_revoke adminID now resolution) in ret tt
       else ret tt);;
      insert AuditLog {| audit with aud_AppealID := Some (apl_ID appeal);
                         aud_PunishmentID := Some (apl_PunishmentID appeal) |};;
      ret (Some (apl_RootUserID appeal))
    end).

Definition DecideAppeal (appealID adminID : Z) (approved : bool) (resolution : string) (now : Z)
    (audit : AuditLog) : M (option Z) :=
  let! rv := get_db in DecideAppeal_at rv appealID adminID approved resolution now audit.

Definition RevokePunishment_at (rv : DB) (id adminID : Z) (reason : string) (now : Z) (audit : AuditLog) : M (option Z) :=
  gormDB;;
  transaction (
    let! r := attempt (take_in Punishment rv (byid id (punishment_is PunishmentActive))) in
    match r with
    | Err e => if errors_Is e record_not_found_text then ret None else throw e
    | Ok item =>
      update Punishment (byid id (punishment_is PunishmentActive)) (punishment_revoke adminID now reason);;
      insert AuditLog {| audit with aud_PunishmentID := Some (pun_ID item) |};;
      ret (Some (pun_RootUserID item))
    end).

Definition RevokePunishment (id adminID : Z) (reason : string) (now : Z) (audit : AuditLog) : M (option Z) :=
  let! rv := get_db in RevokePunishment_at rv id adminID reason now audit.
End repo.
End ModerationRepo.
