(* ===== verification/ModerationService.v ===== *)
(** * Moderation: the service

    [internal/moderation/service.go] with the requests and responses of
    [model_req.go] and [model_resp.go], one definition per method.  The target
    resolver and the notifier are fields of [Service]; a resolved target carries the
    outcome of [json.Marshal] on its payload. *)
From S2P Require Import Prelude GoString GoTime GoMonad Sql RedisStr Platform.
From S2P Require Import ModerationModel ModerationRepo.

Module ModerationService.
Import Moderation Pagination.

Definition capabilityCacheTTL : Z := 5 * GoTime.Minute.

Definition ErrReportNotFound : error := Bizerr.NotFound "举报不存在或状态已变化".
Definition ErrReportTargetInvalid : error := Bizerr.NotFound "举报对象不存在或无权举报".
Definition ErrAppealAlreadyExists : error := Bizerr.Biz "该处罚已提交申诉".
Definition ErrPunishmentNotFound : error := Bizerr.NotFound "处罚不存在".
Definition ErrCapabilityDenied : error := Bizerr.Forbidden "当前账号能力已被限制".

(** ** Requests *)
Record CreateReportReq := {
  creq_TargetType : string; creq_TargetID : string; creq_Reason : string; creq_Description : string }.
Record CreateAppealReq := { areq_Reason : string }.
Record AdminDecisionReq := {
  dreq_Action : string; dreq_Reason : string; dreq_Capability : string; dreq_DurationMinutes : option Z }.
Record RevokePunishmentReq := { rreq_Reason : string }.
Record AppealDecisionReq := { qreq_Approved : bool; qreq_Resolution : string }.

Definition required_max (n : Z) (s : string) : bool :=
  negb (String.eqb s "") && (GoStr.RuneCount s <=? n)%Z.
Definition valid_CreateReportReq (r : CreateReportReq) : bool :=
  negb (String.eqb (creq_TargetType r) "") && negb (String.eqb (creq_TargetID r) "")
  && required_max 64 (creq_Reason r) && (GoStr.RuneCount (creq_Description r) <=? 2000)%Z.
Definition valid_CreateAppealReq (r : CreateAppealReq) : bool := required_max 2000 (areq_Reason r).
Definition valid_AdminDecisionReq (r : AdminDecisionReq) : bool :=
  bool_decide (dreq_Action r ∈ ["reject"; "hide"; "warn"; "punish"]%string)
  && required_max 255 (dreq_Reason r).
Definition valid_RevokePunishmentReq (r : RevokePunishmentReq) : bool := required_max 255 (rreq_Reason r).
Definition valid_AppealDecisionReq (r : AppealDecisionReq) : bool := required_max 255 (qreq_Resolution r).

(** ** Responses *)
Record ReportResponse := {
  rr_ID : string; rr_TargetType : string; rr_TargetID : string; rr_Reason : string;
  rr_Description : string; rr_Status : string; rr_CreatedAt : string; rr_UpdatedAt : string }.
Record PunishmentResponse := {
  pr_ID : string; pr_Capability : string; pr_Reason : string; pr_Status : string; pr_StartsAt : string;
  pr_EndsAt : option string; pr_RevokeReason : string }.
Record AppealResponse := {
  ar_ID : string; ar_PunishmentID : string; ar_Reason : string; ar_Status : string;
  ar_Resolution : string; ar_CreatedAt : string; ar_UpdatedAt : string }.

Definition id (value : Z) : string := GoStr.FormatInt value.
Definition formatDateTime (t : Z) : string := if GoTime.IsZero t then "" else GoTime.FormatRFC3339 t.

(** The loop bodies of the three page builders, and the builders. *)
Definition report_item (r : Report) : ReportResponse := {|
  rr_ID := id (rpt_ID r); rr_TargetType := rpt_TargetType r; rr_TargetID := rpt_TargetID r;
  rr_Reason := rpt_Reason r; rr_Description := rpt_Description r;
  rr_Status := report_status_text (rpt_Status r);
  rr_CreatedAt := formatDateTime (rpt_CreatedAt r); rr_UpdatedAt := formatDateTime (rpt_UpdatedAt r) |}.
Definition punishment_item (p : Punishment) : PunishmentResponse := {|
  pr_ID := id (pun_ID p); pr_Capability := pun_Capability p; pr_Reason := pun_Reason p;
  pr_Status := punishment_status_text (pun_Status p); pr_StartsAt := formatDateTime (pun_StartsAt p);
  pr_EndsAt := formatDateTime <$> pun_EndsAt p; pr_RevokeReason := pun_RevokeReason p |}.
Definition appeal_item (a : Appeal) : AppealResponse := {|
  ar_ID := id (apl_ID a); ar_PunishmentID := id (apl_PunishmentID a); ar_Reason := apl_Reason a;
  ar_Status := appeal_status_text (apl_Status a); ar_Resolution := apl_Resolution a;
  ar_CreatedAt := formatDateTime (apl_CreatedAt a); ar_UpdatedAt := formatDateTime (apl_UpdatedAt a) |}.

Definition reportPage (l : list Report) (total page size : Z) : PageResult ReportResponse :=
  NewPageResult (report_item <$> l) total page size.
Definition punishmentPage (l : list Punishment) (total page size : Z) : PageResult PunishmentResponse :=
  NewPageResult (punishment_item <$> l) total page size.
Definition appealPage (l : list Appeal) (total page size : Z) : PageResult AppealResponse :=
  NewPageResult (appeal_item <$> l) total page size.

(** ** Helpers *)
Definition parseID (raw : string) : res Z :=
  match GoStr.ParseInt (GoStr.TrimSpace raw) with
  | Some v => if (v <=? 0)%Z then Err (Bizerr.Param "ID格式错误") else Ok v
  | None => Err (Bizerr.Param "ID格式错误")
  end.

Definition normalize (page size : Z) : Z * Z :=
  let page := if (page <=? 0)%Z then 1%Z else page in
  let size := if (size <=? 0)%Z then 15%Z else size in
  let size := if (100 <? size)%Z then 100%Z else size in
  (page, size).

Definition cache_key (rootUserID : Z) : string :=
  "campus:moderation:capabilities:" ++ GoStr.FormatInt rootUserID.

(** The loop of [activeCapabilities]: the capabilities taken away, and for how long
    the answer holds. *)
Definition capability_step (now : Z) (acc : gmap string bool * Z) (item : Punishment) : gmap string bool * Z :=
  (<[pun_Capability item := true]> acc.1,
   match pun_EndsAt item with
   | Some e => if (GoTime.Sub e now <? acc.2)%Z then GoTime.Sub e now else acc.2
   | None => acc.2
   end).
Definition capability_loop (now : Z) (l : list Punishment) : gmap string bool * Z :=
  fold_left (capability_step now) l (∅, capabilityCacheTTL).

(** [active[capability]]: a missing key is [false]. *)
Definition has (m : gmap string bool) (capability : string) : bool := default false (m !! capability).

Section service.
Context {E : Env} {D : SqlEngine} {J : JsonMap} {RE : RedisEngine jbytes}.
Notation DB := (DB RE).
Notation M := (M DB).

Record TargetSnapshot := mkTargetSnapshot { snap_OwnerRootUserID : Z; snap_Payload : res string }.

Record TargetResolver := {
  ResolveTarget : Z -> Z -> string -> string -> M (option TargetSnapshot);
  HideTarget : string -> string -> M unit;
}.

(** [redis] is whether a client was given. *)
Record Service := mkService {
  redis : bool;
  targets : option TargetResolver;
  notifier : option (Z -> string -> string -> string -> string -> string -> M unit);
}.

Definition NewService (rds : bool) : Service := mkService rds None None.
Definition SetTargetResolver r (s : Service) : Service := mkService (redis s) (Some r) (notifier s).
Definition SetNotifier n (s : Service) : Service := mkService (redis s) (targets s) (Some n).

Context (s : Service).

Definition notify (rootUserID : Z) (eventType title content resourceType : string) (resourceID : Z) : M unit :=
  match notifier s with
  | Some f =>
    emit (EvNotify rootUserID eventType title content (id resourceID));;
    let! _ := attempt (f rootUserID eventType title content resourceType (id resourceID)) in ret tt
  | None => ret tt
  end.

Definition invalidate (rootUserID : Z) : M unit :=
  if redis s
  then let! _ := attempt (redis_Del t_redis set_redis (cache_key rootUserID)) in ret tt
  else ret tt.

Definition CreateReport (rootUserID userID : Z) (req : CreateReportReq) : M ReportResponse :=
  let targetType := GoStr.TrimSpace (creq_TargetType req) in
  let targetID := GoStr.TrimSpace (creq_TargetID req) in
  let reason := GoStr.TrimSpace (creq_Reason req) in
  if (rootUserID <=? 0)%Z || (userID <=? 0)%Z || String.eqb targetID "" || String.eqb reason ""
  then throw (Bizerr.Param "举报参数错误")
  else
    match targets s with
    | None => throw ErrReportTargetInvalid
    | Some resolver =>
      if negb (bool_decide (targetType ∈ targetTypes)) then throw ErrReportTargetInvalid
      else
        let! r := attempt (ResolveTarget resolver rootUserID userID targetType targetID) in
        match r with
        | Err _ => emit (EvLog "resolve report target failed");; throw ErrReportTargetInvalid
        | Ok None => throw ErrReportTargetInvalid
        | Ok (Some snapshot) =>
          if (snap_OwnerRootUserID snapshot <=? 0)%Z then throw ErrReportTargetInvalid
          else
            let! payload := internal "保存举报快照失败" (of_res (snap_Payload snapshot)) in
            let! t := now in
            let! reportID := Generate in
            let report := mkReport reportID rootUserID userID targetType targetID
              (snap_OwnerRootUserID snapshot) reason (GoStr.TrimSpace (creq_Description req))
              ReportPending None t t None in
            let! snapshotID := Generate in
            let reportSnapshot := mkReportSnapshot snapshotID reportID payload t in
            internal "提交举报失败" (ModerationRepo.CreateReport report reportSnapshot);;
            ret (report_item report)
        end
    end.

Definition ListMyReports (rootUserID page size : Z) : M (PageResult ReportResponse) :=
  let (page, size) := normalize page size in
  let! r := internal "查询举报失败"
    (ModerationRepo.ListReports (fun r => (rpt_ReporterRootUserID r =? rootUserID)%Z) page size) in
  ret (reportPage r.1 r.2 page size).

Definition WithdrawReport (rootUserID : Z) (reportID : string) : M unit :=
  let! idValue := of_res (parseID reportID) in
  let! t := now in
  let! ok := internal "撤回举报失败" (ModerationRepo.WithdrawReport idValue rootUserID t) in
  if negb ok then throw ErrReportNotFound else ret tt.

Definition ListMyPunishments (rootUserID page size : Z) : M (PageResult PunishmentResponse) :=
  let (page, size) := normalize page size in
  let! r := internal "查询处罚失败" (ModerationRepo.ListPunishments rootUserID page size) in
  ret (punishmentPage r.1 r.2 page size).

(** [strings.Contains(strings.ToLower(err.Error()), "unique")] *)
Definition says_unique (e : error) : bool := GoStr.Contains (GoStr.ToLower (Bizerr.Error e)) "unique".

Definition CreateAppeal (rootUserID : Z) (punishmentID : string) (req : CreateAppealReq) : M AppealResponse :=
  let! idValue := of_res (parseID punishmentID) in
  let! item := internal "查询处罚失败" (ModerationRepo.FindPunishment idValue) in
  match item with
  | None => throw ErrPunishmentNotFound
  | Some p =>
    if negb (pun_RootUserID p =? rootUserID)%Z then throw ErrPunishmentNotFound
    else
      let! t := now in
      let! appealID := Generate in
      let appeal := mkAppeal appealID idValue rootUserID (GoStr.TrimSpace (areq_Reason req))
        AppealPending "" None t t in
      if String.eqb (apl_Reason appeal) "" then throw (Bizerr.Param "申诉理由不能为空")
      else
        map_err (fun e => if says_unique e then ErrAppealAlreadyExists
                          else Bizerr.InternalWrap "提交申诉失败" e)
          (ModerationRepo.CreateAppeal appeal);;
        ret (appeal_item appeal)
  end.

Definition ListMyAppeals (rootUserID page size : Z) : M (PageResult AppealResponse) :=
  let (page, size) := normalize page size in
  let! r := internal "查询申诉失败" (ModerationRepo.ListAppeals (Some rootUserID) page size) in
  ret (appealPage r.1 r.2 page size).

Definition ListReportsAdmin (status : string) (page size : Z) : M (PageResult ReportResponse) :=
  let (page, size) := normalize page size in
  let query := fun r => if String.eqb (GoStr.TrimSpace status) "" then true
                        else String.eqb (report_status_text (rpt_Status r)) status in
  let! r := internal "查询举报失败" (ModerationRepo.ListReports query page size) in
  ret (reportPage r.1 r.2 page size).

Definition ClaimReport (reportID : string) (adminID : Z) : M unit :=
  let! idValue := of_res (parseID reportID) in
  let! t := now in
  let! ok := internal "领取举报失败" (ModerationRepo.ClaimReport idValue adminID t) in
  if negb ok then throw ErrReportNotFound else ret tt.

(** The punishment an action calls for, with its error returns. *)
Definition punishment_for (report : Report) (adminID : Z) (req : AdminDecisionReq) (t : Z) : M (option Punishment) :=
  if negb (String.eqb (dreq_Action req) "punish") then ret None
  else if negb (bool_decide (dreq_Capability req ∈ capabilities)) then throw (Bizerr.Param "处罚能力不合法")
  else
    let! endsAt :=
      match dreq_DurationMinutes req with
      | None => ret None
      | Some d =>
        if (d <=? 0)%Z then throw (Bizerr.Param "处罚时长不合法")
        else ret (Some (t + mul64 d GoTime.Minute)%Z)
      end in
    let! punishmentID := Generate in
    ret (Some (mkPunishment punishmentID (rpt_TargetRootUserID report) (Some (rpt_ID report))
      (dreq_Capability req) (GoStr.TrimSpace (dreq_Reason req)) PunishmentActive t endsAt adminID t
      None None "")).

(** [if s.targets == nil || s.targets.HideTarget(..) != nil] *)
Definition hide_target (report : Report) : M unit :=
  match targets s with
  | None => throw (Bizerr.Biz "下架举报对象失败")
  | Some resolver =>
    map_err (fun _ => Bizerr.Biz "下架举报对象失败")
      (HideTarget resolver (rpt_TargetType report) (rpt_TargetID report))
  end.

Definition DecideReport (reportID : string) (adminID : Z) (req : AdminDecisionReq) : M unit :=
  let! idValue := of_res (parseID reportID) in
  let! found := internal "查询举报失败" (ModerationRepo.FindReport idValue) in
  match found with
  | None => throw ErrReportNotFound
  | Some report =>
    if negb (bool_decide (rpt_Status report = ReportReviewing))
       || negb (bool_decide (rpt_AssigneeAdminID report = Some adminID))
    then throw ErrReportNotFound
    else
      (if String.eqb (dreq_Action req) "hide" then hide_target report else ret tt);;
      let! t := now in
      let status := if String.eqb (dreq_Action req) "reject" then ReportRejected else ReportActioned in
      let! punishment := punishment_for report adminID req t in
      let! auditID := Generate in
      let audit := mkAuditLog auditID (Some (rpt_ID report)) (pun_ID <$> punishment) None adminID
        (dreq_Action req) ("reason"%string, dreq_Reason req) t in
      let! ok := internal "处理举报失败"
        (ModerationRepo.CompleteReview (rpt_ID report) adminID status punishment audit t) in
      if negb ok then throw ErrReportNotFound
      else
        (match punishment with Some p => invalidate (pun_RootUserID p) | None => ret tt end);;
        notify (rpt_TargetRootUserID report) ("report." ++ dreq_Action req) "举报处理结果" (dreq_Reason req)
          "report" idValue
  end.

(** The service's part of [RevokePunishment] and [DecideAppeal] over the
    repository's, which is a parameter so that it can also be run on an old read
    view. *)
Definition RevokePunishment_with (repo : Z -> Z -> string -> Z -> AuditLog -> M (option Z))
    (punishmentID : string) (adminID : Z) (reason : string) : M unit :=
  let! idValue := of_res (parseID punishmentID) in
  let! auditID := Generate in
  let! t0 := now in
  let audit := mkAuditLog auditID None None None adminID "revoke" ("reason"%string, reason) t0 in
  let! t := now in
  let! r := internal "撤销处罚失败" (repo idValue adminID reason t audit) in
  match r with
  | None => throw ErrPunishmentNotFound
  | Some rootUserID =>
    invalidate rootUserID;;
    notify rootUserID "punishment.revoked" "处罚已撤销" reason "punishment" idValue
  end.

Definition RevokePunishment : string -> Z -> string -> M unit :=
  RevokePunishment_with ModerationRepo.RevokePunishment.

Definition ListAppealsAdmin (page size : Z) : M (PageResult AppealResponse) :=
  let (page, size) := normalize page size in
  let! r := internal "查询申诉失败" (ModerationRepo.ListAppeals None page size) in
  ret (appealPage r.1 r.2 page size).

Definition DecideAppeal_with (repo : Z -> Z -> bool -> string -> Z -> AuditLog -> M (option Z))
    (appealID : string) (adminID : Z) (req : AppealDecisionReq) : M unit :=
  let! idValue := of_res (parseID appealID) in
  let action := if qreq_Approved req then "appeal.approve"%string else "appeal.reject"%string in
  let! auditID := Generate in
  let! t0 := now in
  let audit := mkAuditLog auditID None None None adminID action
    ("resolution"%string, qreq_Resolution req) t0 in
  let! t := now in
  let! r := internal "处理申诉失败" (repo idValue adminID (qreq_Approved req) (qreq_Resolution req) t audit) in
  match r with
  | None => throw (Bizerr.NotFound "申诉不存在或已处理")
  | Some rootUserID =>
    (if qreq_Approved req then invalidate rootUserID else ret tt);;
    notify rootUserID action "申诉处理结果" (qreq_Resolution req) "appeal" idValue
  end.

Definition DecideAppeal : string -> Z -> AppealDecisionReq -> M unit :=
  DecideAppeal_with ModerationRepo.DecideAppeal.

(** ** Capabilities *)

(** [if raw, err := Get(key).Bytes(); err == nil && json.Unmarshal(raw, &cached) == nil] *)
Definition cached_capabilities (rootUserID : Z) : M (option (gmap string bool)) :=
  if redis s
  then
    let! r := attempt (redis_Get t_redis (cache_key rootUserID)) in
    match r with
    | Ok (Some raw) => ret (Unmarshal raw)
    | _ => ret None
    end
  else ret None.

Definition activeCapabilities (rootUserID : Z) : M (gmap string bool) :=
  let! cached := cached_capabilities rootUserID in
  match cached with
  | Some m => ret m
  | None =>
    let! t := now in
    let! l := ModerationRepo.ActivePunishments rootUserID t in
    let (active, ttl) := capability_loop t l in
    let ttl := if (ttl <=? 0)%Z then GoTime.Second else ttl in
    (if redis s
     then let! _ := attempt (redis_Set t_redis set_redis (cache_key rootUserID) (Marshal active) ttl) in ret tt
     else ret tt);;
    ret active
  end.

Definition Check (rootUserID : Z) (capability : string) : M unit :=
  if (rootUserID <=? 0)%Z then throw (Bizerr.Param "主账号参数错误")
  else
    let! active := internal "查询账号处罚失败" (activeCapabilities rootUserID) in
    if has active CapabilityAccount || has active capability then throw ErrCapabilityDenied else ret tt.

Definition AccountBlocked (rootUserID : Z) : M bool :=
  let! active := activeCapabilities rootUserID in ret (has active CapabilityAccount).
End service.
Arguments Service {D J} RE.
Arguments TargetResolver {D J} RE.
End ModerationService.
