(* ===== verification/ModerationSafe.v ===== *)
(** * Moderation: every request is a sequence of specified transitions

    The service methods over the system of [ModerationSpec], and histories of
    requests.  The capability cache is outside the abstract state: no transition
    of the tables depends on it. *)
From S2P Require Import Prelude GoString GoTime GoMonad Sql Safe RedisStr Platform ModerationModel ModerationRepo.
From S2P Require Import ModerationService.

(** ** Moderation: specification and invariants

    [dstep] has one rule per transition of reports, punishments and appeals, each
    with the audit row it writes.  [Inv] ties the four tables together: who decided
    what, and that every decision left its audit row. *)

Module ModerationSpec.
Import Moderation ModerationRepo.

Definition decided (st : ReportStatus) : Prop := st = ReportRejected \/ st = ReportActioned.

(** A punishment [p] that a review of report [r] may create. *)
Definition punishes (r : Report) (admin : Z) (p : Punishment) : Prop :=
  pun_ReportID p = Some (rpt_ID r) /\ pun_RootUserID p = rpt_TargetRootUserID r /\
  pun_Status p = PunishmentActive /\ pun_CreatedBy p = admin /\ pun_Capability p ∈ capabilities /\
  pun_RevokedBy p = None.

Definition add_punishment (p : option Punishment) (m : gmap Z Punishment) : gmap Z Punishment :=
  match p with Some p => <[pun_ID p := p]> m | None => m end.

Inductive dstep (s : State) : State -> Prop :=
| d_report r sn :
  reports s !! rpt_ID r = None -> rpt_Status r = ReportPending -> rpt_AssigneeAdminID r = None ->
  snp_ReportID sn = rpt_ID r -> snapshots s !! snp_ID sn = None ->
  dstep s (set_snapshots (<[snp_ID sn := sn]> (snapshots s))
    (set_reports (<[rpt_ID r := r]> (reports s)) s))
| d_withdraw k r now :
  reports s !! k = Some r -> rpt_Status r = ReportPending ->
  dstep s (set_reports (<[k := report_withdraw now r]> (reports s)) s)
| d_claim k r admin now :
  reports s !! k = Some r -> rpt_Status r = ReportPending ->
  dstep s (set_reports (<[k := report_claim admin now r]> (reports s)) s)
| d_complete k r admin st p au now :
  reports s !! k = Some r -> rpt_Status r = ReportReviewing -> rpt_AssigneeAdminID r = Some admin ->
  decided st ->
  (forall x, p = Some x -> st = ReportActioned /\ punishes r admin x /\ punishments s !! pun_ID x = None) ->
  audits s !! aud_ID au = None -> aud_ReportID au = Some k -> aud_AdminID au = admin ->
  aud_PunishmentID au = pun_ID <$> p ->
  dstep s (set_audits (<[aud_ID au := au]> (audits s))
    (set_punishments (add_punishment p (punishments s))
      (set_reports (<[k := report_complete st now r]> (reports s)) s)))
| d_appeal a p :
  appeals s !! apl_ID a = None -> apl_Status a = AppealPending ->
  punishments s !! apl_PunishmentID a = Some p -> pun_RootUserID p = apl_RootUserID a ->
  dstep s (set_appeals (<[apl_ID a := a]> (appeals s)) s)
| d_appeal_decided k a admin (approved : bool) res au now :
  appeals s !! k = Some a -> apl_Status a = AppealPending ->
  audits s !! aud_ID au = None -> aud_AppealID au = Some k -> aud_AdminID au = admin ->
  aud_PunishmentID au = Some (apl_PunishmentID a) ->
  dstep s (set_audits (<[aud_ID au := au]> (audits s))
    (set_punishments
      (if approved
       then update_at (apl_PunishmentID a) (punishment_is PunishmentActive)
              (punishment_revoke admin now res) (punishments s)
       else punishments s)
      (set_appeals (<[k := appeal_decide (if approved then AppealApproved else AppealRejected) res admin now a]>
        (appeals s)) s)))
| d_revoke k p admin reason au now :
  punishments s !! k = Some p -> pun_Status p = PunishmentActive ->
  audits s !! aud_ID au = None -> aud_PunishmentID au = Some k -> aud_AdminID au = admin ->
  dstep s (set_audits (<[aud_ID au := au]> (audits s))
    (set_punishments (<[k := punishment_revoke admin now reason p]> (punishments s)) s)).

Definition empty_state : State := mkState ∅ ∅ ∅ ∅ ∅.

Record wf (s : State) : Prop := {
  wf_reports : forall k r, reports s !! k = Some r -> rpt_ID r = k;
  wf_punishments : forall k r, punishments s !! k = Some r -> pun_ID r = k;
  wf_appeals : forall k r, appeals s !! k = Some r -> apl_ID r = k;
}.

(** An audit row of [admin] with a given subject. *)
Definition audited (s : State) (subject : AuditLog -> Prop) (admin : Z) : Prop :=
  exists j au, audits s !! j = Some au /\ subject au /\ aud_AdminID au = admin.

Record Inv (s : State) : Prop := {
  di_assignee : forall k r, reports s !! k = Some r ->
    (rpt_Status r = ReportPending \/ rpt_Status r = ReportWithdrawn -> rpt_AssigneeAdminID r = None) /\
    (rpt_Status r = ReportReviewing \/ decided (rpt_Status r) -> is_Some (rpt_AssigneeAdminID r));
  di_decided : forall k r admin, reports s !! k = Some r -> decided (rpt_Status r) ->
    rpt_AssigneeAdminID r = Some admin -> audited s (fun au => aud_ReportID au = Some k) admin;
  di_report : forall k p j, punishments s !! k = Some p -> pun_ReportID p = Some j ->
    exists r, reports s !! j = Some r /\ rpt_Status r = ReportActioned /\
      rpt_TargetRootUserID r = pun_RootUserID p /\ rpt_AssigneeAdminID r = Some (pun_CreatedBy p);
  di_once : forall k1 k2 p1 p2 j, punishments s !! k1 = Some p1 -> punishments s !! k2 = Some p2 ->
    pun_ReportID p1 = Some j -> pun_ReportID p2 = Some j -> k1 = k2;
  di_revoked : forall k p, punishments s !! k = Some p -> pun_Status p = PunishmentRevoked ->
    exists admin, pun_RevokedBy p = Some admin /\ audited s (fun au => aud_PunishmentID au = Some k) admin;
  di_appeal : forall k a, appeals s !! k = Some a ->
    exists p, punishments s !! apl_PunishmentID a = Some p /\ pun_RootUserID p = apl_RootUserID a /\
      (apl_Status a = AppealApproved -> pun_Status p = PunishmentRevoked);
  di_appeal_decided : forall k a, appeals s !! k = Some a -> apl_Status a <> AppealPending ->
    exists admin, apl_ReviewedBy a = Some admin /\ audited s (fun au => aud_AppealID au = Some k) admin;
}.

Lemma moderation_Inv_empty : Inv empty_state.
Proof. split; simpl; intros; by match goal with H : ∅ !! _ = Some _ |- _ => rewrite lookup_empty in H end. Qed.

Section step.
Variables s s' : State.
Hypothesis I : Inv s.
Hypothesis W : wf s.
Hypothesis Hs : dstep s s'.

(** Audit rows are only added. *)
Lemma audit_kept j au : audits s !! j = Some au -> audits s' !! j = Some au.
Proof. destruct Hs; simpl; intros Hj; try done; rewrite lookup_insert_ne by congruence; done. Qed.

Lemma audited_kept subject admin : audited s subject admin -> audited s' subject admin.
Proof. intros (j & au & Hj & Hau). exists j, au. split; [by apply audit_kept|done]. Qed.

(** Where the rows of the three tables come from. *)
Lemma report_origin k r' :
  reports s' !! k = Some r' ->
  reports s !! k = Some r' \/
  (reports s !! k = None /\ rpt_Status r' = ReportPending /\ rpt_AssigneeAdminID r' = None) \/
  exists r, reports s !! k = Some r /\ rpt_TargetRootUserID r' = rpt_TargetRootUserID r /\
    ((rpt_Status r = ReportPending /\
        (rpt_Status r' = ReportWithdrawn /\ rpt_AssigneeAdminID r' = rpt_AssigneeAdminID r \/
         rpt_Status r' = ReportReviewing /\ is_Some (rpt_AssigneeAdminID r'))) \/
     (rpt_Status r = ReportReviewing /\ decided (rpt_Status r') /\
        rpt_AssigneeAdminID r' = rpt_AssigneeAdminID r /\
        forall admin, rpt_AssigneeAdminID r = Some admin -> audited s' (fun au => aud_ReportID au = Some k) admin)).
Proof.
  destruct Hs; simpl; intros Hk; split_lookups; auto; right; right; exists r; (split; [done|]); simpl;
    (split; [done|]); eauto 10.
  right. split; [done|]. split; [done|]. split; [done|]. intros a Ha. exists (aud_ID au), au. simpl.
  rewrite lookup_insert_eq. split; [done|]. split; [done|]. congruence.
Qed.

Lemma punishment_origin k p' :
  punishments s' !! k = Some p' ->
  punishments s !! k = Some p' \/
  (punishments s !! k = None /\ pun_Status p' = PunishmentActive /\ exists j r, pun_ReportID p' = Some j /\
     reports s !! j = Some r /\ rpt_Status r = ReportReviewing /\
     exists r', reports s' !! j = Some r' /\ rpt_Status r' = ReportActioned /\
       rpt_TargetRootUserID r' = pun_RootUserID p' /\ rpt_AssigneeAdminID r' = Some (pun_CreatedBy p')) \/
  exists p, punishments s !! k = Some p /\ pun_RootUserID p' = pun_RootUserID p /\
    pun_ReportID p' = pun_ReportID p /\ pun_CreatedBy p' = pun_CreatedBy p /\
    pun_Status p' = PunishmentRevoked /\
    exists admin, pun_RevokedBy p' = Some admin /\ audited s' (fun au => aud_PunishmentID au = Some k) admin.
Proof.
  destruct Hs; simpl; intros Hk; auto.
  - destruct p as [x|]; simpl in Hk; [|auto]. destruct (H3 x eq_refl) as (-> & (Pr & Pt & Pa & Pc & _) & Hfresh).
    split_lookups; [|auto]. right. left. split; [done|]. split; [done|].
    pose proof (wf_reports _ W _ _ H) as Hid. rewrite Hid in Pr. exists k0, r.
    split; [done|]. split; [done|]. split; [done|]. exists (report_complete ReportActioned now r).
    simpl. rewrite lookup_insert_eq. repeat split; congruence.
  - destruct approved; [|auto].
    apply update_at_inv in Hk as [[Hk Hn]|(-> & p0 & Hk & _ & ->)]; [auto|].
    right. right. exists p0. simpl. repeat (split; [done|]). eexists. split; [done|].
    exists (aud_ID au), au. simpl. rewrite lookup_insert_eq. repeat split; congruence.
  - split_lookups; [|auto]. right. right. exists p. simpl. repeat (split; [done|]). eexists.
    split; [done|]. exists (aud_ID au), au. simpl. rewrite lookup_insert_eq. repeat split; congruence.
Qed.

Lemma punishment_kept k p : punishments s !! k = Some p ->
  exists p', punishments s' !! k = Some p' /\ pun_RootUserID p' = pun_RootUserID p /\
    (pun_Status p = PunishmentRevoked -> pun_Status p' = PunishmentRevoked).
Proof.
  intros Hk. destruct Hs; simpl; eauto.
  - destruct p0 as [x|]; simpl; [|eauto]. destruct (H3 x eq_refl) as (_ & _ & Hf).
    rewrite lookup_insert_ne by congruence. eauto.
  - destruct approved; [|eauto]. rewrite lookup_update_at. case_decide; [subst|eauto].
    rewrite Hk. simpl. eexists. split; [done|]. by destruct (punishment_is _ p).
  - destruct (decide (k0 = k)) as [->|Hne].
    + rewrite lookup_insert_eq. eexists. split; [done|]. by simplify_eq.
    + rewrite lookup_insert_ne by done. eauto.
Qed.

Lemma appeal_origin k a' :
  appeals s' !! k = Some a' ->
  appeals s !! k = Some a' \/
  (appeals s !! k = None /\ apl_Status a' = AppealPending /\
   exists p, punishments s !! apl_PunishmentID a' = Some p /\ pun_RootUserID p = apl_RootUserID a') \/
  exists a, appeals s !! k = Some a /\ apl_PunishmentID a' = apl_PunishmentID a /\
    apl_RootUserID a' = apl_RootUserID a /\
    (exists admin, apl_ReviewedBy a' = Some admin /\ audited s' (fun au => aud_AppealID au = Some k) admin) /\
    (apl_Status a' = AppealApproved -> forall p, punishments s' !! apl_PunishmentID a' = Some p ->
       pun_Status p = PunishmentRevoked).
Proof.
  destruct Hs; simpl; intros Hk; auto; split_lookups; auto.
  - right. left. eauto.
  - right. right. exists a. simpl. split; [done|]. split; [done|]. split; [done|]. split.
    + eexists. split; [done|]. exists (aud_ID au), au. simpl. rewrite lookup_insert_eq. auto.
    + destruct approved; [|done]. intros _ p Hp. rewrite lookup_update_at_eq in Hp.
      destruct (punishments s !! _) as [x|]; simplify_eq/=. unfold punishment_is. case_bool; [done|].
      bools. by destruct (pun_Status x).
Qed.

Lemma step_assignee k r : reports s' !! k = Some r ->
  (rpt_Status r = ReportPending \/ rpt_Status r = ReportWithdrawn -> rpt_AssigneeAdminID r = None) /\
  (rpt_Status r = ReportReviewing \/ decided (rpt_Status r) -> is_Some (rpt_AssigneeAdminID r)).
Proof.
  unfold decided. intros Hk. destruct (report_origin _ _ Hk) as [H0|[(_ & -> & ->)|(r0 & H0 & _ & Hc)]].
  - exact (di_assignee _ I _ _ H0).
  - split; [done|]. intros [?|[?|?]]; done.
  - destruct (di_assignee _ I _ _ H0) as [A1 A2]. unfold decided in *.
    destruct Hc as [(P & [[-> ->]|[-> HA]])|(Rv & Hd & -> & _)].
    + split; [intros _; apply A1; auto|]. intros [?|[?|?]]; done.
    + split; [intros [?|?]; done|done].
    + split; [intros [Hx|Hx]; rewrite Hx in Hd; destruct Hd; done|]. auto.
Qed.

Lemma step_decided k r admin : reports s' !! k = Some r -> decided (rpt_Status r) ->
  rpt_AssigneeAdminID r = Some admin -> audited s' (fun au => aud_ReportID au = Some k) admin.
Proof.
  intros Hk Hd Ha. destruct (report_origin _ _ Hk) as [H0|[(_ & Hp & _)|(r0 & H0 & _ & Hc)]].
  - apply audited_kept. by eapply (di_decided _ I).
  - destruct Hd; congruence.
  - destruct Hc as [(P & [[Hw _]|[Hw _]])|(_ & _ & Hs0 & Hau)];
      [destruct Hd; congruence..|]. apply Hau. congruence.
Qed.

Lemma report_kept_actioned k r : reports s !! k = Some r -> rpt_Status r = ReportActioned ->
  reports s' !! k = Some r.
Proof.
  destruct Hs; simpl; intros Hk Hst; auto; rewrite lookup_insert_ne; try done; congruence.
Qed.

Lemma step_report k p j : punishments s' !! k = Some p -> pun_ReportID p = Some j ->
  exists r, reports s' !! j = Some r /\ rpt_Status r = ReportActioned /\
    rpt_TargetRootUserID r = pun_RootUserID p /\ rpt_AssigneeAdminID r = Some (pun_CreatedBy p).
Proof.
  intros Hk Hj. destruct (punishment_origin _ _ Hk) as
    [H0|[(_ & _ & j' & r & Hj' & _ & _ & Hr')|(p0 & H0 & Er & Ej & Ec & _)]].
  - destruct (di_report _ I _ _ _ H0 Hj) as (r & Hr & Hst & ?). exists r.
    split; [by apply report_kept_actioned|done].
  - by simplify_eq.
  - rewrite Ej in Hj. destruct (di_report _ I _ _ _ H0 Hj) as (r & Hr & Hst & ?). exists r.
    rewrite Er, Ec. split; [by apply report_kept_actioned|done].
Qed.

(** A report under review has no punishment yet. *)
Lemma reviewing_unpunished k p j r : punishments s !! k = Some p -> pun_ReportID p = Some j ->
  reports s !! j = Some r -> rpt_Status r <> ReportReviewing.
Proof. intros Hk Hj Hr. destruct (di_report _ I _ _ _ Hk Hj) as (r' & Hr' & Hst & _). congruence. Qed.

Lemma new_punishment_unique k1 k2 p1 p2 :
  punishments s' !! k1 = Some p1 -> punishments s' !! k2 = Some p2 ->
  punishments s !! k1 = None -> punishments s !! k2 = None -> k1 = k2.
Proof.
  destruct Hs; simpl; intros K1 K2 N1 N2; try congruence.
  - destruct p as [x|]; simpl in *; split_lookups; congruence.
  - destruct approved; [|congruence]. rewrite lookup_update_at in K1. case_decide; [|congruence].
    subst. by rewrite N1 in K1.
  - split_lookups; congruence.
Qed.

Lemma step_once k1 k2 p1 p2 j : punishments s' !! k1 = Some p1 -> punishments s' !! k2 = Some p2 ->
  pun_ReportID p1 = Some j -> pun_ReportID p2 = Some j -> k1 = k2.
Proof.
  intros K1 K2 J1 J2.
  destruct (punishment_origin _ _ K1) as [O1|[(N1 & _ & i1 & r1 & E1 & R1 & S1 & _)|(q1 & O1 & _ & E1 & _)]];
  destruct (punishment_origin _ _ K2) as [O2|[(N2 & _ & i2 & r2 & E2 & R2 & S2 & _)|(q2 & O2 & _ & E2 & _)]];
    try (rewrite E1 in J1); try (rewrite E2 in J2); simplify_eq;
    try (by eapply (di_once _ I)); try (by eapply new_punishment_unique);
    exfalso; try (by apply (reviewing_unpunished _ _ _ _ O1 J1 R2 S2));
    by apply (reviewing_unpunished _ _ _ _ O2 J2 R1 S1).
Qed.

Lemma step_revoked k p : punishments s' !! k = Some p -> pun_Status p = PunishmentRevoked ->
  exists admin, pun_RevokedBy p = Some admin /\ audited s' (fun au => aud_PunishmentID au = Some k) admin.
Proof.
  intros Hk Hst. destruct (punishment_origin _ _ Hk) as [H0|[(_ & Ha & _)|(p0 & _ & _ & _ & _ & _ & Hr)]].
  - destruct (di_revoked _ I _ _ H0 Hst) as (admin & ? & ?). eauto using audited_kept.
  - congruence.
  - exact Hr.
Qed.

Lemma step_appeal k a : appeals s' !! k = Some a ->
  exists p, punishments s' !! apl_PunishmentID a = Some p /\ pun_RootUserID p = apl_RootUserID a /\
    (apl_Status a = AppealApproved -> pun_Status p = PunishmentRevoked).
Proof.
  intros Hk. destruct (appeal_origin _ _ Hk) as [H0|[(_ & Hp & p & Hpu & Hr)|(a0 & H0 & Ep & Er & _ & Hap)]].
  - destruct (di_appeal _ I _ _ H0) as (p & Hpu & Hr & Hap).
    destruct (punishment_kept _ _ Hpu) as (p' & Hp' & Er & Hrv). exists p'. rewrite Er. auto.
  - destruct (punishment_kept _ _ Hpu) as (p' & Hp' & Er & Hrv). exists p'. rewrite Er.
    split; [done|]. split; [done|]. congruence.
  - destruct (di_appeal _ I _ _ H0) as (p & Hpu & Hr & _).
    destruct (punishment_kept _ _ Hpu) as (p' & Hp' & Er' & _). exists p'. rewrite Ep, Er, Er' in *.
    eauto.
Qed.

Lemma step_appeal_decided k a : appeals s' !! k = Some a -> apl_Status a <> AppealPending ->
  exists admin, apl_ReviewedBy a = Some admin /\ audited s' (fun au => aud_AppealID au = Some k) admin.
Proof.
  intros Hk Hst. destruct (appeal_origin _ _ Hk) as [H0|[(_ & Hp & _)|(a0 & _ & _ & _ & Hr & _)]];
    [|done|done].
  destruct (di_appeal_decided _ I _ _ H0 Hst) as (admin & ? & ?). eauto using audited_kept.
Qed.

Lemma moderation_wf_step : wf s'.
Proof.
  destruct W as [W1 W2 W3]. split; destruct Hs; simpl; intros j x Hj; eauto;
    try (split_lookups; eauto; simpl; by eauto).
  - destruct p as [y|]; simpl in Hj; [|eauto]. split_lookups; eauto.
  - destruct approved; [|eauto]. apply update_at_inv in Hj as [[Hj _]|(-> & y & Hj & _ & ->)]; eauto.
    simpl. eauto.
Qed.

Lemma moderation_Inv_step : Inv s'.
Proof.
  split; eauto using step_assignee, step_decided, step_report, step_once, step_revoked, step_appeal,
    step_appeal_decided.
Qed.
End step.

Definition sound (s : State) : Prop := wf s /\ Inv s.

Lemma moderation_sound_step s s' : sound s -> dstep s s' -> sound s'.
Proof. intros [W I] Hs. split; [by eapply moderation_wf_step|by eapply moderation_Inv_step]. Qed.

Lemma moderation_sound_empty : sound empty_state.
Proof. split; [by split; intros k r; simpl; rewrite lookup_empty|apply moderation_Inv_empty]. Qed.
End ModerationSpec.

(** ** Moderation: the repository implements the specification

    Every writing method either reports an error and leaves the tables as they
    were, or performs a transition of [dstep] together with its audit row. *)

Module ModerationRefine.
Import Safe.
Import Moderation ModerationRepo ModerationSpec.

#[export] Instance moderation_system : System State := {|
  sys_step := dstep; sys_inv := sound; sys_inv_step := moderation_sound_step |}.

Section base.
Context {E : Env} {D : SqlEngine} {J : JsonMap} {RE : RedisEngine jbytes}.
Notation DB := (DB RE).
Implicit Types (w : World DB).

Lemma moderation_wp_gormDB (Q : res unit -> World DB -> Prop) w :
  (db_nil (w_db w) = false -> Q (Ok tt) w) ->
  (db_nil (w_db w) = true -> Q (Err (ENew "moderation database not initialized")) w) ->
  wp gormDB Q w.
Proof. unfold wp, gormDB, bind, get_db. simpl. destruct (db_nil (w_db w)); auto. Qed.

Lemma moderation_reads_gormDB : reads (gormDB : M DB unit).
Proof. apply reads_bind; [done|]. intros s. by destruct (db_nil s). Qed.
End base.

Ltac db_simpl :=
  unfold now_db, vw in *; simpl in *;
  repeat match goal with
  | H : _ /\ _ |- _ => destruct H
  | H : abs (w_db ?w') = _ |- context [abs (w_db ?w')] => rewrite H
  | H : abs (w_db ?w') = _, H2 : context [abs (w_db ?w')] |- _ =>
    lazymatch H2 with H => fail | _ => rewrite H in H2 end
  end; simpl in *.

Ltac unchanged :=
  solve [ apply atomic_none; unfold st; simpl; done
        | intros _; apply atomic_none; unfold st; simpl; done
        | split; [intros _|]; apply atomic_none; unfold st; simpl; done ].
Ltac exec := repeat (first [apply moderation_wp_gormDB; intros ? | sql_step]; try unchanged).

Section refine.
Context {E : Env} {D : SqlEngine} {J : JsonMap} {RE : RedisEngine jbytes}.
Notation DB := (DB RE).
Implicit Types (w : World DB).

Lemma set_reports_get (s : State) : set_reports (reports s) s = s.
Proof. by destruct s. Qed.
Lemma set_punishments_get (s : State) : set_punishments (punishments s) s = s.
Proof. by destruct s. Qed.
Lemma set_appeals_get (s : State) : set_appeals (appeals s) s = s.
Proof. by destruct s. Qed.

Lemma CreateReport_atomic r sn w :
  rpt_Status r = ReportPending -> rpt_AssigneeAdminID r = None -> snp_ReportID sn = rpt_ID r ->
  wp (CreateReport r sn) (atomic w) w.
Proof.
  intros Hp Ha Hr. unfold CreateReport. exec. split; [intros _; unchanged|].
  eapply atomic_one; [apply (d_report (st w) r sn)|]; unfold st in *; db_simpl; done.
Qed.

Lemma WithdrawReport_atomic id root now w : wp (WithdrawReport id root now) (atomic w) w.
Proof.
  unfold WithdrawReport. exec.
  match goal with H : now_db (aset (update_at ?k ?p ?f ?m) _) _ _ |- _ =>
    destruct (update_at_cases k p f m) as [(r & Hr & Hp & Heq)|Heq]; rewrite Heq in H end.
  - unfold report_is in Hp. bools. eapply atomic_one; [by apply (d_withdraw (st w) id r now)|].
    unfold st. db_simpl. done.
  - apply atomic_none. unfold st. db_simpl. apply set_reports_get.
Qed.

Lemma ClaimReport_atomic id admin now w : wp (ClaimReport id admin now) (atomic w) w.
Proof.
  unfold ClaimReport. exec.
  match goal with H : now_db (aset (update_at ?k ?p ?f ?m) _) _ _ |- _ =>
    destruct (update_at_cases k p f m) as [(r & Hr & Hp & Heq)|Heq]; rewrite Heq in H end.
  - unfold report_is in Hp. bools. eapply atomic_one; [by apply (d_claim (st w) id r admin now)|].
    unfold st. db_simpl. done.
  - apply atomic_none. unfold st. db_simpl. apply set_reports_get.
Qed.

(** What the service passes: a final status, the audit row of this review, and a
    punishment of the reported user only when the report is actioned. *)
Definition review_args (s : State) (id admin : Z) (st : ReportStatus) (p : option Punishment)
    (au : AuditLog) : Prop :=
  decided st /\ aud_ReportID au = Some id /\ aud_AdminID au = admin /\ aud_PunishmentID au = pun_ID <$> p /\
  forall x, p = Some x -> st = ReportActioned /\
    forall r, reports s !! id = Some r -> punishes r admin x.

Lemma CompleteReview_atomic id admin stt p au now w :
  review_args (st w) id admin stt p au -> wp (CompleteReview id admin stt p au now) (atomic w) w.
Proof.
  intros (Hd & A1 & A2 & A3 & Hpun). unfold CompleteReview. exec.
  - assert (Hsame : st w' = st w); [|split; [intros _|]; apply atomic_none; [done|exact Hsame]].
    unfold st. db_simpl. rewrite update_at_miss; [apply set_reports_get|].
    intros r Hr. destruct (_ && _) eqn:Hg; [|done].
    destruct (H2 r Hr Hg) as [->|Heq]; [done|]. apply (f_equal rpt_Status) in Heq.
    unfold report_is in Hg. bools. simpl in Heq. destruct Hd; congruence.
  - destruct H1 as [->|(-> & r & Hr & Hg)]; [done|].
    pose proof (update_at_hit id
      (fun r => report_is ReportReviewing r && assigned_to admin r) (report_complete stt now) _ _ Hr Hg) as Hhit. rewrite Hhit in H0.
    assert (Hst1 : st w' = set_reports (<[id := report_complete stt now r]> (reports (st w))) (st w))
      by exact (proj1 H0).
    unfold report_is, assigned_to in Hg. bools. destruct p as [x|].
    + destruct (Hpun x eq_refl) as [Hs Hx]. exec. split; [intros _; unchanged|].
      eapply atomic_one; [apply (d_complete (st w) id r admin stt (Some x) au now)|]; try done.
      * intros y [= <-]. split; [done|]. split; [by apply Hx|].
        match goal with HN : vw Punishment w' !! _ = None |- _ =>
          change (punishments (st w') !! pun_ID x = None) in HN; by rewrite Hst1 in HN end.
      * match goal with HN : vw AuditLog ?w2 !! _ = None, HW : now_db _ w' ?w2 |- _ =>
          unfold vw in HN; rewrite (proj1 HW) in HN; fold (st w') in HN; by rewrite Hst1 in HN end.
      * clear Hst1. unfold st. db_simpl. done.
    + exec. split; [intros _; unchanged|].
      eapply atomic_one; [apply (d_complete (st w) id r admin stt None au now)|]; try done.
      * match goal with HN : vw AuditLog w' !! _ = None |- _ =>
          change (audits (st w') !! aud_ID au = None) in HN; by rewrite Hst1 in HN end.
      * clear Hst1. unfold st. db_simpl. by destruct (abs (w_db w)).
Qed.

Lemma CreateAppeal_atomic a p w :
  apl_Status a = AppealPending -> punishments (st w) !! apl_PunishmentID a = Some p ->
  pun_RootUserID p = apl_RootUserID a -> wp (CreateAppeal a) (atomic w) w.
Proof.
  intros Ha Hp Hr. unfold CreateAppeal. exec.
  eapply atomic_one; [eapply (d_appeal (st w) a p); done|]. unfold st. db_simpl. done.
Qed.

Lemma DecideAppeal_atomic id admin approved res now au w :
  aud_AdminID au = admin -> wp (DecideAppeal id admin approved res now au) (atomic w) w.
Proof.
  intros Hau. unfold DecideAppeal. wp_step. wp_step. unfold DecideAppeal_at. exec.
  all: pose proof (vw_key Appeal w _ _ H0 : apl_ID r = id) as Hid.
  all: assert (H0' : vw Appeal (bump w) !! id = Some r) by exact H0.
  all: rewrite (update_at_hit id _ _ _ _ H0' H1) in H2; clear H3 H4.
  all: assert (HA : audits (st w') = audits (st w)) by (unfold st; rewrite (proj1 H2); done).
  all: unfold appeal_is in H1; bools; subst approved; split; [intros _; unchanged|].
  - assert (HA' : audits (st w'0) = audits (st w')) by (unfold st; rewrite (proj1 H6); done).
    assert (HN : audits (st w'0) !! aud_ID au = None) by assumption. rewrite HA', HA in HN.
    eapply atomic_one.
    + apply (d_appeal_decided (st w) id r admin true res
        {| au with aud_AppealID := Some (apl_ID r); aud_PunishmentID := Some (apl_PunishmentID r) |} now);
        simpl; try done; by rewrite Hid.
    + clear HA HA' HN. unfold st in *. db_simpl. done.
  - assert (HN : audits (st w') !! aud_ID au = None) by assumption. rewrite HA in HN.
    eapply atomic_one.
    + apply (d_appeal_decided (st w) id r admin false res
        {| au with aud_AppealID := Some (apl_ID r); aud_PunishmentID := Some (apl_PunishmentID r) |} now);
        simpl; try done; by rewrite Hid.
    + clear HA HN. unfold st in *. db_simpl. by destruct (abs (w_db w)).
Qed.

Lemma RevokePunishment_atomic id admin reason now au w :
  aud_AdminID au = admin -> wp (RevokePunishment id admin reason now au) (atomic w) w.
Proof.
  intros Hau. unfold RevokePunishment. wp_step. wp_step. unfold RevokePunishment_at. exec.
  pose proof (vw_key Punishment w _ _ H0 : pun_ID r = id) as Hid.
  assert (H0' : vw Punishment (bump w) !! id = Some r) by exact H0.
  rewrite (update_at_hit id _ _ _ _ H0' H1) in H2; clear H3 H4.
  assert (HA : audits (st w') = audits (st w)) by (unfold st; rewrite (proj1 H2); done).
  unfold punishment_is in H1. bools. split; [intros _; unchanged|].
  assert (HN : audits (st w') !! aud_ID au = None) by assumption. rewrite HA in HN.
  eapply atomic_one.
  - apply (d_revoke (st w) id r admin reason {| au with aud_PunishmentID := Some (pun_ID r) |} now);
      simpl; try done; by rewrite Hid.
  - clear HA HN. unfold st in *. db_simpl. done.
Qed.
End refine.
End ModerationRefine.

Module ModerationSafe.
Import Safe.
Import Moderation ModerationRepo ModerationSpec ModerationRefine ModerationService.

#[global] Arguments TargetResolver {D J} RE.

Section reads.
Context {E : Env} {D : SqlEngine} {J : JsonMap} {RE : RedisEngine jbytes}.
Notation DB := (DB RE).
Implicit Types (w : World DB).

Lemma wp_FindReport id (Q : res (option Report) -> World DB -> Prop) w :
  (forall r w', w_db w' = w_db w -> reports (st w) !! id = Some r -> Q (Ok (Some r)) w') ->
  (forall r w', w_db w' = w_db w -> nothing r -> Q r w') ->
  wp (FindReport id) Q w.
Proof.
  intros Hok Hno. unfold FindReport. apply wp_bind, moderation_wp_gormDB; intros _; cbv beta iota; [|by apply Hno].
  apply wp_bind, wp_attempt, wp_take_byid; cbv beta iota.
  - intros _. destruct (errors_Is _ _); by apply Hno.
  - intros _. by apply Hno.
  - intros r Hr _. by apply Hok.
Qed.

Lemma wp_FindPunishment id (Q : res (option Punishment) -> World DB -> Prop) w :
  (forall p w', w_db w' = w_db w -> punishments (st w) !! id = Some p -> Q (Ok (Some p)) w') ->
  (forall r w', w_db w' = w_db w -> nothing r -> Q r w') ->
  wp (FindPunishment id) Q w.
Proof.
  intros Hok Hno. unfold FindPunishment.
  apply wp_bind, moderation_wp_gormDB; intros _; cbv beta iota; [|by apply Hno].
  apply wp_or_nil, wp_take_byid; cbv beta iota; [intros; by apply Hno..|].
  intros p Hp _. by apply Hok.
Qed.

Lemma reads_ActivePunishments root t : reads (ActivePunishments root t : M DB (list Punishment)).
Proof. apply reads_bind; [apply moderation_reads_gormDB|]. intros _. apply reads_find. Qed.
End reads.

(** The collaborators of a service do not write its store, and time passes. *)
Definition forward {S A} (m : M S A) : Prop := forall w, (w_tick w <= w_tick (m w).2)%nat.

Record honest {D : SqlEngine} {J : JsonMap} {RE : RedisEngine jbytes} (s : Service RE) : Prop := {
  honest_resolve : forall r a b c d, targets s = Some r ->
    quiet (ResolveTarget r a b c d) /\ forward (ResolveTarget r a b c d);
  honest_hide : forall r a b, targets s = Some r -> quiet (HideTarget r a b) /\ forward (HideTarget r a b);
  honest_notifier : forall f u a b c d e, notifier s = Some f ->
    quiet (f u a b c d e) /\ forward (f u a b c d e);
}.

Ltac safely :=
  cbv beta zeta; unfold internal, found;
  match goal with
  | |- safe (bind _ _) => apply safe_bind; [safely|intros; safely]
  | |- safe (attempt _) => apply safe_attempt; safely
  | |- safe (map_err _ _) => apply safe_map_err; safely
  | |- safe (if ?b then _ else _) => destruct b; safely
  | |- safe (match ?x with _ => _ end) => destruct x; safely
  | |- _ => try solve [eauto with store_safe moderation_safe]
  end.

Section methods.
Context {E : Env} {D : SqlEngine} {J : JsonMap} {RE : RedisEngine jbytes}.
Notation DB := (DB RE).
Implicit Types (w : World DB).
Variable s : Service RE.
Hypothesis H : honest s.

Lemma moderation_quiet_notify u a b c d e : quiet (notify s u a b c d e).
Proof.
  unfold notify. destruct (notifier s) as [f|] eqn:Ef; [|done].
  apply quiet_bind; [done|]. intros _. apply quiet_bind; [|done].
  apply quiet_attempt. by eapply honest_notifier.
Qed.

Lemma quiet_hide_target r : quiet (hide_target s r).
Proof.
  unfold hide_target. destruct (targets s) eqn:Et; [|done].
  apply quiet_map_err. by eapply honest_hide.
Qed.

(** Writes to the cache are invisible in the abstract state. *)
Lemma hidden_cache (r : rstore RE) w : st (with_db (set_redis r (w_db w)) w) = st w.
Proof. done. Qed.

Lemma safe_invalidate u : safe (invalidate s u).
Proof.
  apply safe_hidden. intros w. unfold invalidate. destruct (redis s); [|done].
  unfold bind, attempt, redis_Del, bind, fault, get_db, put_db. simpl. by destruct (env_fault _).
Qed.

Lemma safe_redis_Set k v t : safe (redis_Set t_redis set_redis k v t : M DB unit).
Proof.
  apply safe_hidden. intros w. unfold redis_Set, bind, now, fault, get_db, put_db. simpl.
  by destruct (env_fault _).
Qed.

Lemma quiet_cached u : quiet (cached_capabilities s u).
Proof.
  unfold cached_capabilities. destruct (redis s); [|done]. apply quiet_bind.
  - apply quiet_attempt. intros w. unfold redis_Get, bind, now, fault, get_db. simpl.
    by destruct (env_fault _).
  - by intros [[raw|]|].
Qed.

Lemma quiet_resolve r a b c d : targets s = Some r -> quiet (ResolveTarget r a b c d).
Proof. intros Hr. by eapply honest_resolve. Qed.

#[local] Hint Resolve moderation_quiet_notify quiet_hide_target quiet_cached quiet_resolve
  safe_invalidate safe_redis_Set : moderation_safe store_safe.
#[local] Hint Extern 1 (quiet (ActivePunishments _ _)) => apply reads_quiet, reads_ActivePunishments : store_safe.
#[local] Hint Extern 2 (safe _) => apply safe_atomic; intros; solve
  [ apply WithdrawReport_atomic | apply ClaimReport_atomic | by apply CreateReport_atomic
  | by apply RevokePunishment_atomic | by apply DecideAppeal_atomic ] : moderation_safe.

Lemma safe_CreateReport a b req : safe (CreateReport s a b req).
Proof.
  unfold CreateReport. destruct (_ || _); [safely|]. destruct (targets s) as [r|] eqn:Hr; safely.
Qed.
Lemma safe_WithdrawReport a b : safe (WithdrawReport a b : M DB unit).
Proof. unfold WithdrawReport. safely. Qed.
Lemma safe_ClaimReport a b : safe (ClaimReport a b : M DB unit).
Proof. unfold ClaimReport. safely. Qed.
Lemma safe_RevokePunishment a b c : safe (RevokePunishment s a b c).
Proof. unfold RevokePunishment, RevokePunishment_with. safely. Qed.
Lemma safe_DecideAppeal a b c : safe (DecideAppeal s a b c).
Proof. unfold DecideAppeal, DecideAppeal_with. safely. Qed.
Lemma safe_activeCapabilities a : safe (activeCapabilities s a).
Proof. unfold activeCapabilities. safely. Qed.
Lemma safe_Check a b : safe (Check s a b).
Proof. unfold Check. pose proof safe_activeCapabilities. safely. Qed.

Lemma safe_CreateAppeal a b req : safe (CreateAppeal a b req : M DB AppealResponse).
Proof.
  intros s0 w Hg. unfold CreateAppeal, internal. apply wp_bind, wp_of_res.
  destruct (parseID b) as [id|]; cbv beta iota; [|done]. apply wp_bind, wp_map_err, wp_FindPunishment.
  2: { intros r w1 Hw1 Hn. pose proof (goes_db _ _ _ Hw1 Hg).
       destruct r as [[p|]|]; cbv beta iota; [by destruct (Hn p)|done|done]. }
  intros p w1 Hw1 Hp. cbv beta iota. pose proof (goes_db _ _ _ Hw1 Hg) as Hg1.
  apply wp_if; intros Hroot; [done|]. repeat wp_step. apply wp_if; intros _; [done|]. repeat wp_step.
  eapply wp_atomic; [exact Hg1| |by intros [[]|]].
  bools. eapply CreateAppeal_atomic; [done| |done]. simpl. unfold st in *. simpl. by rewrite Hw1.
Qed.

(** What [punishment_for] returns. *)
Definition fits (r : Report) (admin : Z) (req : AdminDecisionReq) (t : Z) (p : option Punishment) : Prop :=
  match p with
  | None => dreq_Action req <> "punish"%string
  | Some x => dreq_Action req = "punish"%string /\ punishes r admin x /\ pun_StartsAt x = t /\
      pun_Capability x = dreq_Capability req /\
      pun_EndsAt x = (fun d => t + mul64 d GoTime.Minute)%Z <$> dreq_DurationMinutes req
  end.

Lemma wp_punishment_for r admin req t (Q : res (option Punishment) -> World DB -> Prop) w :
  (forall e, Q (Err e) w) ->
  (forall p w', w' = w \/ w' = bump w -> fits r admin req t p -> Q (Ok p) w') ->
  wp (punishment_for r admin req t) Q w.
Proof.
  intros Herr Hok. unfold punishment_for. apply wp_if; intros Ha.
  { apply negb_true_iff, String.eqb_neq in Ha. apply wp_ret, Hok; auto. }
  apply negb_false_iff, String.eqb_eq in Ha. apply wp_if; intros Hc; [apply Herr|]. bools.
  assert (Hp : forall e, e = (fun d => t + mul64 d GoTime.Minute)%Z <$> dreq_DurationMinutes req ->
    Q (Ok (Some (mkPunishment (env_id (w_tick w)) (rpt_TargetRootUserID r) (Some (rpt_ID r))
      (dreq_Capability req) (GoStr.TrimSpace (dreq_Reason req)) PunishmentActive t e admin t None None "")))
      (bump w)) by (intros e He; apply Hok; [by right|]; by repeat split).
  apply wp_bind. destruct (dreq_DurationMinutes req) as [d|].
  - apply wp_if; intros _; [apply Herr|]. by repeat wp_step; apply Hp.
  - by repeat wp_step; apply Hp.
Qed.

Lemma review_args_fits r admin req t p id s0 :
  reports s0 !! rpt_ID r = Some r -> fits r admin req t p ->
  review_args s0 (rpt_ID r) admin (if String.eqb (dreq_Action req) "reject" then ReportRejected else ReportActioned)
    p (mkAuditLog id (Some (rpt_ID r)) (pun_ID <$> p) None admin (dreq_Action req)
        ("reason"%string, dreq_Reason req) t).
Proof.
  intros Hr Hp. unfold review_args, decided. split; [destruct (String.eqb _ _); auto|].
  do 3 (split; [done|]). intros x ->. simpl in Hp. destruct Hp as (-> & Hx & _). split; [done|].
  intros r' Hr'. assert (r' = r) as -> by congruence. exact Hx.
Qed.

(** What follows the transaction of [DecideReport]. *)
Lemma safe_after_review p r req id (ok : bool) : safe (
  if negb ok then throw ErrReportNotFound
  else
    (match p with Some p => invalidate s (pun_RootUserID p) | None => ret tt end);;
    notify s (rpt_TargetRootUserID r) ("report." ++ dreq_Action req) "举报处理结果" (dreq_Reason req)
      "report" id).
Proof. safely. Qed.

Lemma safe_DecideReport a b req : safe (DecideReport s a b req).
Proof.
  intros s0 w Hg. unfold DecideReport, internal. apply wp_bind, wp_of_res.
  destruct (parseID a) as [id|]; cbv beta iota; [|done]. apply wp_bind, wp_map_err, wp_FindReport.
  2: { intros r w1 Hw1 Hn. pose proof (goes_db _ _ _ Hw1 Hg).
       destruct r as [[p|]|]; cbv beta iota; [by destruct (Hn p)|done|done]. }
  intros r w1 Hw1 Hr. cbv beta iota. pose proof (goes_db _ _ _ Hw1 Hg) as Hg1.
  apply wp_if; intros Hst; [done|]. bools. apply wp_bind. eapply wp_quiet; [exact Hg1| |].
  { destruct (String.eqb _ _); [apply quiet_hide_target|done]. }
  intros [[]|e] w2 Hw2 Hg2; cbv beta iota; [|done]. apply wp_bind, wp_now. cbv beta iota.
  assert (Hid : rpt_ID r = id) by (eapply wf_reports; [apply Hg|done]).
  assert (Hrow : reports (st w2) !! rpt_ID r = Some r)
    by (rewrite Hid; unfold st in *; by rewrite Hw2, Hw1).
  apply wp_bind, wp_punishment_for; cbv beta iota; [done|]. intros p w3 Hw3 Hp.
  assert (Hg3 : goes s0 (st w3) /\ reports (st w3) !! rpt_ID r = Some r)
    by (destruct Hw3 as [->| ->]; done). destruct Hg3 as [Hg3 Hrow3].
  apply wp_bind, wp_Generate; cbv beta iota; apply wp_bind, wp_map_err; cbv beta zeta.
  eapply wp_atomic; [exact Hg3|by apply CompleteReview_atomic, review_args_fits|].
  intros [ok|e] w4 Hg4; cbv beta iota; [|done]. by apply safe_after_review.
Qed.
End methods.

(** ** Histories of requests *)
Inductive request :=
| RCreateReport (root user : Z) (req : CreateReportReq)
| RWithdrawReport (root : Z) (reportID : string)
| RClaimReport (reportID : string) (admin : Z)
| RDecideReport (reportID : string) (admin : Z) (req : AdminDecisionReq)
| RRevokePunishment (punishmentID : string) (admin : Z) (reason : string)
| RCreateAppeal (root : Z) (punishmentID : string) (req : CreateAppealReq)
| RDecideAppeal (appealID : string) (admin : Z) (req : AppealDecisionReq)
| RCheck (root : Z) (capability : string)
| RAccountBlocked (root : Z).

Section histories.
Context {D : SqlEngine} {J : JsonMap} {RE : RedisEngine jbytes}.
Notation DB := (DB RE).

Definition unit_of {A} (m : M DB A) : M DB unit := m;; ret tt.

Definition serve {E : Env} (s : Service RE) (q : request) : M DB unit :=
  match q with
  | RCreateReport root user req => unit_of (CreateReport s root user req)
  | RWithdrawReport root id => WithdrawReport root id
  | RClaimReport id admin => ClaimReport id admin
  | RDecideReport id admin req => DecideReport s id admin req
  | RRevokePunishment id admin reason => RevokePunishment s id admin reason
  | RCreateAppeal root id req => unit_of (CreateAppeal root id req)
  | RDecideAppeal id admin req => DecideAppeal s id admin req
  | RCheck root capability => Check s root capability
  | RAccountBlocked root => unit_of (AccountBlocked s root)
  end.

Lemma moderation_safe_serve {E : Env} s q : honest s -> safe (serve s q).
Proof.
  intros Hs. destruct q; simpl; unfold unit_of, AccountBlocked;
    try (apply safe_bind; [|intros; by apply safe_quiet]);
    eauto using safe_CreateReport, safe_WithdrawReport, safe_ClaimReport, safe_DecideReport,
      safe_RevokePunishment, safe_CreateAppeal, safe_DecideAppeal, safe_Check, safe_activeCapabilities.
  apply safe_bind; [by apply safe_activeCapabilities|]. intros; by apply safe_quiet.
Qed.

(** One request, under a given clock, id generator and failures. *)
Definition served {E : Env} (w w' : World DB) : Prop :=
  exists (s : Service RE) q, honest s /\ w' = (serve s q w).2.

(** Requests one after another, each under any environment. *)
Definition history (w : World DB) : Prop :=
  exists w0, st w0 = empty_state /\ rtc (fun a b => exists E : Env, served a b) w0 w.

Lemma moderation_many_served w w' :
  sound (st w) -> rtc (fun a b => exists E : Env, served a b) w w' -> rtc dstep (st w) (st w') /\ sound (st w').
Proof.
  intros HI Hr. induction Hr as [w|w w1 w2 (E & s & q & Hs & ->) _ IH]; [done|].
  destruct (moderation_safe_serve s q Hs (st w) w) as [Hs1 HI1]; [by apply goes_refl|].
  destruct (IH HI1). split; [by etrans|done].
Qed.

Lemma moderation_history_sound w : history w -> sound (st w).
Proof.
  intros (w0 & H0 & Hr). apply (moderation_many_served w0); [|done]. rewrite H0. apply moderation_sound_empty.
Qed.

(** A run of concrete requests, for examples. *)
Definition run {E : Env} (s : Service RE) (qs : list request) (w : World DB) : World DB :=
  fold_left (fun w q => (serve s q w).2) qs w.

Lemma moderation_run_served {E : Env} s qs w0 : honest s -> rtc served w0 (run s qs w0).
Proof.
  intros Hs. revert w0. induction qs as [|q qs IH]; intros w0; simpl; [apply rtc_refl|].
  eapply rtc_l; [|apply IH]. by exists s, q.
Qed.

Lemma moderation_run_history {E : Env} s qs w0 :
  honest s -> st w0 = empty_state -> history (run s qs w0).
Proof.
  intros Hs H0. exists w0. split; [done|]. eapply (rtc_congruence (fun x => x));
    [|by apply moderation_run_served]. intros x y Hxy. by exists E.
Qed.
End histories.
End ModerationSafe.
