(* ===== verification/ModerationProps.v ===== *)
(** * Moderation: what the service guarantees

    The properties of reports, punishments and appeals over histories of requests,
    each with a concrete instance from [ModerationDemo]. *)
From S2P Require Import Prelude GoTime GoMonad Sql Safe RedisStr ModerationModel ModerationRepo.
From S2P Require Import ModerationSafe ModerationService GoString.

(** ** Moderation: a concrete run

    A fixed environment and service on the [SqlGmap] engine with a Redis that keeps
    its keys: a report of a topic, its review with a punishment, and an appeal. *)

Module ModerationDemo.
Import Safe.
Import Moderation ModerationService ModerationSafe.

Notation cache := (gmap_redis jbytes).

(** The clock advances one second per step from 2023-11-14 22:13:20 UTC; ids are
    drawn from 1000 on. *)
#[export] Instance demo_env : Env := {
  env_now t := (1700000000 * GoTime.Second + Z.of_nat t * GoTime.Second)%Z;
  env_id t := (1000 + Z.of_nat t)%Z;
  env_fault _ := false;
}.

(** Every target belongs to user 9. *)
Definition demo_resolver : TargetResolver cache := {|
  ResolveTarget _ _ _ id := ret (Some (mkTargetSnapshot 9 (Ok id)));
  HideTarget _ _ := ret tt;
|}.
Definition demo_service : Service cache :=
  mkService true (Some demo_resolver) (Some (fun _ _ _ _ _ _ => ret tt)).

Lemma moderation_demo_honest : honest demo_service.
Proof. split; intros; simplify_eq/=; (split; [done|intros w; simpl; lia]). Qed.

Definition empty_db : DB cache :=
  {| db_nil := false; t_reports := gempty _; t_snapshots := gempty _; t_punishments := gempty _;
     t_appeals := gempty _; t_audits := gempty _; t_redis := (∅ : rstore cache) |}.
Definition w0 : World (DB cache) := mkWorld empty_db 0 [].

Definition to_claimed : list request := [
  RCreateReport 7 7 {| creq_TargetType := "topic"; creq_TargetID := "55"; creq_Reason := "spam";
    creq_Description := "" |};
  RClaimReport "1001" 3
].
Definition punish_req : AdminDecisionReq := {|
  dreq_Action := "punish"; dreq_Reason := "spam"; dreq_Capability := "content";
  dreq_DurationMinutes := Some 60%Z |}.
Definition to_punished : list request := to_claimed ++ [RDecideReport "1001" 3 punish_req].
(** User 9 appeals and wins. *)
Definition to_appealed : list request := to_punished ++ [
  RCreateAppeal 9 "1010" {| areq_Reason := "not me" |};
  RDecideAppeal "1019" 4 {| qreq_Approved := true; qreq_Resolution := "fine" |}
].

Definition at_claimed : World (DB cache) := run demo_service to_claimed w0.
Definition at_punished : World (DB cache) := run demo_service to_punished w0.
Definition at_appealed : World (DB cache) := run demo_service to_appealed w0.

Lemma moderation_empty_start : st w0 = ModerationSpec.empty_state.
Proof. vm_compute. reflexivity. Qed.

Lemma moderation_demo_history qs : history (run demo_service qs w0).
Proof. apply moderation_run_history; [apply moderation_demo_honest|apply moderation_empty_start]. Qed.

(** The requests that follow in a longer run. *)
Lemma moderation_demo_later qs qs' :
  rtc (fun a b => exists E : Env, served a b) (run demo_service qs w0) (run demo_service (qs ++ qs') w0).
Proof.
  unfold run. rewrite fold_left_app. eapply (rtc_congruence (fun x => x));
    [|apply moderation_run_served, moderation_demo_honest]. intros x y Hxy. by exists demo_env.
Qed.
End ModerationDemo.

Module ModerationProps.
Import Safe.
Import Moderation ModerationSpec ModerationRefine ModerationSafe.

(** ** The life of a report *)
Inductive report_edge : ReportStatus -> ReportStatus -> Prop :=
| edge_withdraw : report_edge ReportPending ReportWithdrawn
| edge_claim : report_edge ReportPending ReportReviewing
| edge_reject : report_edge ReportReviewing ReportRejected
| edge_action : report_edge ReportReviewing ReportActioned.

Definition closed (r : Report) : Prop :=
  rpt_Status r ∈ [ReportWithdrawn; ReportRejected; ReportActioned].

(** Who reported whom for what. *)
Definition complaint (r : Report) :=
  (rpt_ID r, rpt_ReporterRootUserID r, rpt_ReporterUserID r, rpt_TargetType r, rpt_TargetID r,
   (rpt_TargetRootUserID r, rpt_Reason r, rpt_Description r, rpt_CreatedAt r)).

Lemma dstep_report s s' k r :
  dstep s s' -> reports s !! k = Some r ->
  reports s' !! k = Some r \/
  exists r', reports s' !! k = Some r' /\ complaint r' = complaint r /\
    report_edge (rpt_Status r) (rpt_Status r').
Proof.
  intros Hs Hr. destruct Hs; simpl; auto; try (left; rewrite lookup_insert_ne; [done|]; congruence);
    match goal with |- <[?i := ?x]> _ !! _ = _ \/ _ =>
      destruct (decide (k = i)) as [->|Hne];
        [right; exists x; rewrite lookup_insert_eq; simplify_eq; split; [done|]; split; [done|]
        |left; by rewrite lookup_insert_ne by congruence]
    end; simpl; repeat match goal with H : rpt_Status _ = _ |- _ => rewrite H end; try constructor.
  destruct H2 as [-> | ->]; constructor.
Qed.

Lemma dsteps_report s s' k r :
  rtc dstep s s' -> reports s !! k = Some r ->
  exists r', reports s' !! k = Some r' /\ complaint r' = complaint r /\
    rtc report_edge (rpt_Status r) (rpt_Status r') /\ (closed r -> r' = r).
Proof.
  intros Hr. revert r. induction Hr as [s|s s1 s2 Hs _ IH]; intros r Hk.
  - exists r. split; [done|]. split; [done|]. split; [apply rtc_refl|done].
  - destruct (dstep_report _ _ _ _ Hs Hk) as [H1|(r1 & H1 & Hc & He)]; [by apply IH|].
    destruct (IH r1 H1) as (r2 & H2 & Hc2 & He2 & _). exists r2. split; [done|].
    split; [congruence|]. split; [by eapply rtc_l|]. unfold closed. intros Hcl.
    destruct He; set_solver.
Qed.

Section props.
Context {D : SqlEngine} {J : JsonMap} {RE : RedisEngine jbytes}.
Notation DB := (DB RE).
Implicit Types (w : World DB).

Notation served_any := (fun a b : World DB => exists E : Env, served a b).

(** C34: a report keeps its reporter, target and text, and its status only moves
    from pending to withdrawn or reviewing and from reviewing to rejected or
    actioned; a closed report never changes again. *)
Theorem report_lifecycle w w' k r :
  history w -> rtc served_any w w' -> reports (st w) !! k = Some r ->
  exists r', reports (st w') !! k = Some r' /\ complaint r' = complaint r /\
    rtc report_edge (rpt_Status r) (rpt_Status r') /\ (closed r -> r' = r).
Proof.
  intros Hw Hr Hk. destruct (moderation_many_served _ _ (moderation_history_sound _ Hw) Hr) as [Hs _].
  by apply dsteps_report with (st w).
Qed.

(** Every decision is on record under the name of the administrator who took
    it: a rejected or actioned report was decided by its assignee, a revoked
    punishment by its revoker, a decided appeal by its reviewer, and for each there
    is an audit row with that subject and that administrator. *)
Theorem decisions_audited w :
  history w ->
  (forall k r, reports (st w) !! k = Some r -> decided (rpt_Status r) ->
     exists admin, rpt_AssigneeAdminID r = Some admin /\
       audited (st w) (fun au => aud_ReportID au = Some k) admin) /\
  (forall k p, punishments (st w) !! k = Some p -> pun_Status p = PunishmentRevoked ->
     exists admin, pun_RevokedBy p = Some admin /\
       audited (st w) (fun au => aud_PunishmentID au = Some k) admin) /\
  (forall k a, appeals (st w) !! k = Some a -> apl_Status a <> AppealPending ->
     exists admin, apl_ReviewedBy a = Some admin /\
       audited (st w) (fun au => aud_AppealID au = Some k) admin).
Proof.
  intros Hw. destruct (moderation_history_sound _ Hw) as [_ I]. split; [|split].
  - intros k r Hk Hd. destruct (di_assignee _ I _ _ Hk) as [_ [admin Ha]]; [auto|].
    exists admin. split; [done|]. by eapply di_decided.
  - intros k p Hk Hs. by eapply di_revoked.
  - intros k a Hk Hs. by eapply di_appeal_decided.
Qed.

(** A report yields at most one punishment, of the user it was about, set by
    the administrator who claimed the report. *)
Theorem punishment_of_report w k p j :
  history w -> punishments (st w) !! k = Some p -> pun_ReportID p = Some j ->
  (exists r, reports (st w) !! j = Some r /\ rpt_Status r = ReportActioned /\
     rpt_TargetRootUserID r = pun_RootUserID p /\ rpt_AssigneeAdminID r = Some (pun_CreatedBy p)) /\
  (forall k' p', punishments (st w) !! k' = Some p' -> pun_ReportID p' = Some j -> k' = k).
Proof.
  intros Hw Hk Hj. destruct (moderation_history_sound _ Hw) as [_ I].
  split; [by eapply di_report|]. intros k' p' Hk' Hj'. by eapply (di_once _ I).
Qed.

(** C35: an appeal is made by the punished user, once per punishment, and an
    approved appeal has lifted the punishment. *)
Theorem appeal_outcome w k a :
  history w -> appeals (st w) !! k = Some a ->
  (exists p, punishments (st w) !! apl_PunishmentID a = Some p /\ pun_RootUserID p = apl_RootUserID a /\
     (apl_Status a = AppealApproved -> pun_Status p = PunishmentRevoked)) /\
  (forall k' a', appeals (st w) !! k' = Some a' -> apl_PunishmentID a' = apl_PunishmentID a -> k' = k).
Proof.
  intros Hw Hk. destruct (moderation_history_sound _ Hw) as [_ I]. split; [by eapply di_appeal|].
  intros k' a' Hk' Hp. destruct (decide (k' = k)) as [->|Hne]; [done|].
  pose proof (vw_unique Appeal w _ _ _ _ Hk' Hk Hne) as Hc. simpl in Hc. rewrite Hp in Hc. bools. done.
Qed.

(** Every moderation request refines the specification: whatever its
    arguments, the clock, the failures and the collaborators, its effect on the
    tables is a sequence of transitions of [dstep], each with its audit row. *)
Theorem moderation_refines {E : Env} s q w :
  honest s -> history w -> rtc dstep (st w) (st (serve s q w).2).
Proof.
  intros Hs Hw. apply (moderation_safe_serve s q Hs (st w) w), goes_refl, moderation_history_sound, Hw.
Qed.
End props.

(** ** The same, on the run of [ModerationDemo] *)
Import ModerationDemo.

Lemma report_lifecycle_witness :
  exists r r', reports (st at_claimed) !! 1001%Z = Some r /\ rpt_Status r = ReportReviewing /\
    reports (st at_punished) !! 1001%Z = Some r' /\ complaint r' = complaint r.
Proof.
  row (reports (st at_claimed)) 1001%Z (fun r => bool_decide (rpt_Status r = ReportReviewing)) r Hr Hp.
  destruct (report_lifecycle at_claimed at_punished _ _ (moderation_demo_history to_claimed)
    (moderation_demo_later to_claimed [RDecideReport "1001" 3 punish_req]) Hr) as (r' & ? & ? & _).
  exists r, r'. auto.
Defined.

Lemma decisions_audited_witness :
  exists p admin, punishments (st at_appealed) !! 1010%Z = Some p /\ pun_RevokedBy p = Some admin /\
    audited (st at_appealed) (fun au => aud_PunishmentID au = Some 1010%Z) admin.
Proof.
  row (punishments (st at_appealed)) 1010%Z (fun p => bool_decide (pun_Status p = PunishmentRevoked)) p Hp Hs. destruct (decisions_audited at_appealed (moderation_demo_history to_appealed)) as (_ & Hr & _).
  destruct (Hr _ _ Hp Hs) as (admin & ? & ?). exists p, admin. auto.
Defined.

Lemma punishment_of_report_witness :
  exists p r, punishments (st at_punished) !! 1010%Z = Some p /\ reports (st at_punished) !! 1001%Z = Some r /\
    rpt_TargetRootUserID r = pun_RootUserID p.
Proof.
  row (punishments (st at_punished)) 1010%Z (fun p => bool_decide (pun_ReportID p = Some 1001%Z)) p Hp Hs. destruct (punishment_of_report at_punished _ _ _ (moderation_demo_history to_punished) Hp Hs)
    as [(r & Hr & _ & Ht & _) _]. exists p, r. auto.
Defined.

Lemma appeal_outcome_witness :
  exists a p, appeals (st at_appealed) !! 1019%Z = Some a /\
    punishments (st at_appealed) !! apl_PunishmentID a = Some p /\ pun_Status p = PunishmentRevoked.
Proof.
  row (appeals (st at_appealed)) 1019%Z (fun a => bool_decide (apl_Status a = AppealApproved)) a Ha Hs. destruct (appeal_outcome at_appealed _ _ (moderation_demo_history to_appealed) Ha)
    as [(p & Hp & _ & Hrev) _]. exists a, p. auto.
Defined.

Lemma moderation_refines_witness :
  rtc dstep (st at_claimed) (st (serve demo_service (RDecideReport "1001" 3 punish_req) at_claimed).2).
Proof.
  exact (moderation_refines demo_service (RDecideReport "1001" 3 punish_req) at_claimed
    moderation_demo_honest (moderation_demo_history to_claimed)).
Defined.
End ModerationProps.
