(* ===== verification/ModerationCache.v ===== *)
(** * Moderation: the capability cache

    What the Redis cache may answer.  [calm P] computations let time pass, leave the
    cache alone and add no active punishment but those of [P]; [cached t] says what
    every cached answer knows.  Requests keep [cached], so an answer is never older
    than its time to live, whatever fails; and when nothing fails, a new punishment
    is seen at once. *)
From S2P Require Import Prelude GoString GoTime GoMonad Sql RedisStr Safe.
From S2P Require Import ModerationModel ModerationRepo ModerationSafe.
From S2P Require Import ModerationService ModerationSafe.

Module ModerationCache.
Import Safe.
Import Moderation ModerationRepo ModerationSpec ModerationRefine ModerationService ModerationSafe.

Definition active (x : Punishment) : Prop := pun_Status x = PunishmentActive.

Section calm.
Context {E : Env} {D : SqlEngine} {J : JsonMap} {RE : RedisEngine jbytes}.
Notation DB := (DB RE).
Implicit Types (w : World DB).

(** The store besides its tables. *)
Definition outside (d : DB) : rstore RE * bool := (t_redis d, db_nil d).

Definition calmly (P : Punishment -> Prop) w w' : Prop :=
  (w_tick w <= w_tick w')%nat /\ outside (w_db w') = outside (w_db w) /\
  forall k x, punishments (st w') !! k = Some x -> active x -> punishments (st w) !! k = Some x \/ P x.

Definition calm P {A} (m : M DB A) : Prop := forall w, calmly P w (m w).2.

Lemma calmly_refl P w : calmly P w w.
Proof. repeat split; auto. Qed.
Lemma calmly_trans P w1 w2 w3 : calmly P w1 w2 -> calmly P w2 w3 -> calmly P w1 w3.
Proof.
  intros (T1 & R1 & A1) (T2 & R2 & A2). split; [lia|]. split; [congruence|]. intros k x Hk Hx.
  destruct (A2 _ _ Hk Hx) as [Hk2|]; auto.
Qed.
(** The same tables at a later time. *)
Lemma calmly_db P w w' : (w_tick w <= w_tick w')%nat -> w_db w' = w_db w -> calmly P w w'.
Proof. intros Ht Hd. unfold calmly, st. rewrite Hd. auto. Qed.

Lemma calm_ret P {A} (a : A) : calm P (ret a).
Proof. intros w. apply calmly_refl. Qed.
Lemma calm_throw P {A} e : calm P (throw e : M DB A).
Proof. intros w. apply calmly_refl. Qed.
Lemma calm_of_res P {A} (r : res A) : calm P (of_res r).
Proof. destruct r; [apply calm_ret|apply calm_throw]. Qed.
Lemma calm_get_db P : calm P get_db.
Proof. intros w. apply calmly_refl. Qed.
Lemma calm_emit P ev : calm P (emit ev).
Proof. intros w. by apply calmly_db. Qed.
Lemma calm_now P : calm P now.
Proof. intros w. apply calmly_db; simpl; [lia|done]. Qed.
Lemma calm_Generate P : calm P Generate.
Proof. intros w. apply calmly_db; simpl; [lia|done]. Qed.
Lemma calm_bind P {A B} (m : M DB A) (k : A -> M DB B) :
  calm P m -> (forall a, calm P (k a)) -> calm P (bind m k).
Proof.
  intros Hm Hk w. unfold bind. specialize (Hm w). destruct (m w) as [[a|e] w']; simpl in *; [|done].
  eapply calmly_trans; [exact Hm|apply Hk].
Qed.
Lemma calm_attempt P {A} (m : M DB A) : calm P m -> calm P (attempt m).
Proof. intros Hm w. specialize (Hm w). unfold attempt. by destruct (m w). Qed.
Lemma calm_map_err P {A} f (m : M DB A) : calm P m -> calm P (map_err f m).
Proof. intros Hm w. specialize (Hm w). unfold map_err. by destruct (m w) as [[]]. Qed.
Lemma calm_transaction P {A} (m : M DB A) : calm P m -> calm P (transaction m).
Proof.
  intros Hm w. specialize (Hm w). unfold transaction. destruct (m w) as [[a|e] w']; simpl in *.
  - destruct (env_fault _); simpl.
    + apply calmly_db; [destruct Hm; simpl; lia|done].
    + eapply calmly_trans; [exact Hm|]. apply calmly_db; simpl; [lia|done].
  - apply calmly_db; [apply Hm|done].
Qed.
Lemma calm_outside P {A} (m : M DB A) : quiet m -> forward m -> calm P m.
Proof. intros Hq Hf w. by apply calmly_db. Qed.

Lemma calm_stmt P : calm P stmt.
Proof.
  apply calm_bind; [intros w; apply calmly_db; simpl; [lia|done]|].
  intros []; [apply calm_throw|apply calm_ret].
Qed.
Lemma calm_gormDB P : calm P gormDB.
Proof. apply calm_bind; [apply calm_get_db|]. intros d. destruct (db_nil d); [apply calm_throw|apply calm_ret]. Qed.

Section tables.
Context (R : Type) {HE : Entity R} {HT : Tbl DB State R HE _}.

Lemma calm_find P p : calm P (find R p).
Proof. apply calm_bind; [apply calm_stmt|]. intros _. apply calm_bind; [apply calm_get_db|intros; apply calm_ret]. Qed.
Lemma calm_take P p : calm P (take R p).
Proof. apply calm_bind; [apply calm_find|]. intros []; [apply calm_throw|apply calm_ret]. Qed.
Lemma calm_take_in P rv p : calm P (take_in R rv p).
Proof.
  apply calm_bind; [|intros []; [apply calm_throw|apply calm_ret]].
  apply calm_bind; [apply calm_stmt|intros; apply calm_ret].
Qed.

(** A write to another table, and the writes of [Punishment]. *)
Hypothesis outside_kept : forall t d, outside (tset t d) = outside d.

Lemma calm_update P p f :
  (forall r, p r = true -> ent_id (f r) = ent_id r) ->
  (forall s k x, punishments (aset (upd_view p f (aget s)) s) !! k = Some x -> active x ->
     punishments s !! k = Some x \/ P x) ->
  calm P (update R p f).
Proof.
  intros Hid Hp. apply calm_bind; [apply calm_stmt|]. intros _ w. unfold bind, get_db. simpl.
  pose proof (upd_spec R HE p f (tget (w_db w)) Hid) as Hs.
  destruct (upd p f (tget (w_db w))) as [[t n]|]; [|by apply calmly_db]. destruct Hs as [Hv _].
  split; [done|]. split; [apply outside_kept|]. simpl. unfold st. simpl. intros k x.
  rewrite abs_set, Hv, <- abs_get. apply Hp.
Qed.
Lemma calm_insert P r :
  (forall s k x, punishments (aset (<[ent_id r := r]> (aget s)) s) !! k = Some x -> active x ->
     punishments s !! k = Some x \/ P x) ->
  calm P (insert R r).
Proof.
  intros Hp. apply calm_bind; [apply calm_stmt|]. intros _ w. unfold bind, get_db. simpl.
  pose proof (ins_spec R HE r (tget (w_db w))) as Hs.
  destruct (ins r (tget (w_db w))) as [t|]; [|by apply calmly_db]. destruct Hs as [_ Hv].
  split; [done|]. split; [apply outside_kept|]. simpl. unfold st. simpl. intros k x.
  rewrite abs_set, Hv, <- abs_get. apply Hp.
Qed.
End tables.

Lemma calm_or_nil P {A} (m : M DB A) : calm P m -> calm P (or_nil m).
Proof.
  intros Hm. apply calm_bind; [by apply calm_attempt|]. intros [a|e]; [apply calm_ret|].
  destruct (errors_Is _ _); [apply calm_ret|apply calm_throw].
Qed.
End calm.

#[export] Hint Resolve calm_ret calm_throw calm_of_res calm_get_db calm_emit calm_now calm_Generate
  calm_stmt calm_gormDB calm_find calm_take calm_take_in : calm.

(** Every statement but the creation of a punishment is calm. *)
Ltac soothe :=
  cbv beta zeta; unfold internal;
  lazymatch goal with
  | |- calm _ (bind _ _) => apply calm_bind; [soothe|intros; soothe]
  | |- calm _ (attempt _) => apply calm_attempt; soothe
  | |- calm _ (map_err _ _) => apply calm_map_err; soothe
  | |- calm _ (transaction _) => apply calm_transaction; soothe
  | |- calm _ (or_nil _) => apply calm_or_nil; soothe
  | |- calm _ (if ?b then _ else _) => destruct b; soothe
  | |- calm _ (match ?x with _ => _ end) => destruct x; soothe
  | |- calm _ (update Punishment _ _) => idtac
  | |- calm _ (insert Punishment _) => idtac
  | |- calm _ (update _ _ _) => apply calm_update; [done|done|intros; by left]
  | |- calm _ (insert _ _) => apply calm_insert; [done|intros; by left]
  | |- _ => try solve [eauto with calm]
  end.

Section repository.
Context {E : Env} {D : SqlEngine} {J : JsonMap} {RE : RedisEngine jbytes}.
Notation DB := (DB RE).
Implicit Types (w : World DB) (P : Punishment -> Prop).

Lemma calm_CreateReport P r sn : calm P (ModerationRepo.CreateReport r sn : M DB unit).
Proof. unfold ModerationRepo.CreateReport. soothe. Qed.
Lemma calm_WithdrawReport P a b c : calm P (ModerationRepo.WithdrawReport a b c : M DB bool).
Proof. unfold ModerationRepo.WithdrawReport. soothe. Qed.
Lemma calm_ClaimReport P a b c : calm P (ModerationRepo.ClaimReport a b c : M DB bool).
Proof. unfold ModerationRepo.ClaimReport. soothe. Qed.
Lemma calm_FindReport P a : calm P (ModerationRepo.FindReport a : M DB (option Report)).
Proof. unfold ModerationRepo.FindReport. soothe. Qed.
Lemma calm_FindPunishment P a : calm P (ModerationRepo.FindPunishment a : M DB (option Punishment)).
Proof. unfold ModerationRepo.FindPunishment. soothe. Qed.
Lemma calm_CreateAppeal P a : calm P (ModerationRepo.CreateAppeal a : M DB unit).
Proof. unfold ModerationRepo.CreateAppeal. soothe. Qed.
Lemma calm_ActivePunishments P a b : calm P (ModerationRepo.ActivePunishments a b : M DB (list Punishment)).
Proof. unfold ModerationRepo.ActivePunishments. soothe. Qed.

(** Revoking takes a row out of force. *)
Lemma calm_revoke P k a b c :
  calm P (update Punishment (byid k (punishment_is PunishmentActive)) (punishment_revoke a b c) : M DB Z).
Proof.
  apply calm_update; [done|done|]. intros s j x. simpl. rewrite lookup_upd_view.
  destruct (punishments s !! j) as [y|]; [|done]. simpl. case_bool; intros [= <-]; [done|]. by left.
Qed.
Lemma calm_DecideAppeal P a b c d e f : calm P (ModerationRepo.DecideAppeal a b c d e f : M DB (option Z)).
Proof. unfold ModerationRepo.DecideAppeal, ModerationRepo.DecideAppeal_at. soothe. apply calm_revoke. Qed.
Lemma calm_RevokePunishment P a b c d e : calm P (ModerationRepo.RevokePunishment a b c d e : M DB (option Z)).
Proof. unfold ModerationRepo.RevokePunishment, ModerationRepo.RevokePunishment_at. soothe. apply calm_revoke. Qed.

(** Completing a review adds the punishment it is given. *)
Lemma calm_CompleteReview a b c p au t : calm (fun x => p = Some x) (ModerationRepo.CompleteReview a b c p au t : M DB bool).
Proof.
  unfold ModerationRepo.CompleteReview. soothe. apply calm_insert; [done|]. intros s k x. simpl.
  rewrite lookup_insert_Some. intros [[_ ->]|[_ Hk]] _; auto.
Qed.
End repository.

#[export] Hint Resolve calm_CreateReport calm_WithdrawReport calm_ClaimReport calm_FindReport
  calm_FindPunishment calm_CreateAppeal calm_ActivePunishments calm_DecideAppeal
  calm_RevokePunishment : calm.

(** ** The answers of the cache *)

(** What [capability_loop] computes. *)
Lemma capability_steps t l m ttl :
  ((fold_left (capability_step t) l (m, ttl)).2 <= ttl)%Z /\
  forall c, (fold_left (capability_step t) l (m, ttl)).1 !! c = Some true <->
    m !! c = Some true \/ exists p, p ∈ l /\ pun_Capability p = c.
Proof.
  revert m ttl. induction l as [|p l IH]; intros m ttl; simpl.
  { split; [lia|]. intros c. split; [by left|]. intros [?|(x & Hx & _)]; [done|]. by apply not_elem_of_nil in Hx. }
  destruct (IH (<[pun_Capability p := true]> m)
    (match pun_EndsAt p with Some e => if (GoTime.Sub e t <? ttl)%Z then GoTime.Sub e t else ttl | None => ttl end))
    as [H1 H2]. split.
  - etrans; [exact H1|]. destruct (pun_EndsAt p); [|done]. case_bool; bools; lia.
  - intros c. rewrite H2. setoid_rewrite elem_of_cons.
    destruct (decide (pun_Capability p = c)) as [<-|Hne].
    + rewrite lookup_insert_eq. split; [intros _|by left]. right. exists p. auto.
    + rewrite lookup_insert_ne by done. naive_solver.
Qed.

Lemma capability_loop_spec t l :
  ((capability_loop t l).2 <= capabilityCacheTTL)%Z /\
  forall c, has (capability_loop t l).1 c = true <-> exists p, p ∈ l /\ pun_Capability p = c.
Proof.
  destruct (capability_steps t l ∅ capabilityCacheTTL) as [H1 H2]. split; [exact H1|].
  intros c. unfold has, capability_loop. specialize (H2 c). rewrite lookup_empty in H2.
  destruct (_ !! c) as [[]|]; simpl; naive_solver.
Qed.

Lemma redis_ttl_bound d n :
  (d <= n * GoTime.Millisecond)%Z -> (1 <= n)%Z -> (redis_ttl d <= n * GoTime.Millisecond)%Z.
Proof.
  intros Hd Hn. unfold redis_ttl. case_bool; bools; [unfold GoTime.Millisecond in *; lia|].
  pose proof (Z.mul_div_le d GoTime.Millisecond ltac:(by compute)). lia.
Qed.

Section answers.
Context {E : Env} {D : SqlEngine} {J : JsonMap} {RE : RedisEngine jbytes}.
Notation DB := (DB RE).
Implicit Types (w : World DB).

Definition clock w : Z := env_now (w_tick w).
Hypothesis clock_monotone : forall n m, (n <= m)%nat -> (env_now n <= env_now m)%Z.

(** No punishment starts after [t].  Each cached answer was stored at some [t0], not
    after [t], expires at most the time to live later, and names the capability of
    every active punishment that had started before [t0] and ends later. *)
Definition begun (t : Z) w : Prop :=
  forall k p, punishments (st w) !! k = Some p -> active p -> (pun_StartsAt p <= t)%Z.
Definition answers (t : Z) w : Prop :=
  forall root raw e, in_int64 root -> rview (t_redis (w_db w)) !! cache_key root = Some (raw, e) ->
  exists t0 m, (t0 <= t)%Z /\ (e <= t0 + capabilityCacheTTL)%Z /\ Unmarshal raw = Some m /\
    forall k p, punishments (st w) !! k = Some p -> active p -> pun_RootUserID p = root ->
      (pun_StartsAt p < t0)%Z -> (forall e', pun_EndsAt p = Some e' -> (t0 < e')%Z) ->
      has m (pun_Capability p) = true.
Definition coherent (t : Z) w : Prop := begun t w /\ answers t w.

Lemma coherent_mono t t' w : (t <= t')%Z -> coherent t w -> coherent t' w.
Proof.
  intros Ht [Hb Hc]. split; [intros k p Hk Hp; specialize (Hb _ _ Hk Hp); lia|].
  intros root raw e Hi Hr. destruct (Hc root raw e Hi Hr) as (t0 & m & ? & ?).
  exists t0, m. split; [lia|done].
Qed.

Lemma coherent_same t w w' : w_db w' = w_db w -> coherent t w -> coherent t w'.
Proof. unfold coherent, begun, answers, st. by intros ->. Qed.

(** Nothing new, unless it starts between [t] and [t']. *)
Lemma coherent_calm P t t' w w' :
  coherent t w -> calmly P w w' -> (t <= t')%Z -> (forall x, P x -> (t <= pun_StartsAt x <= t')%Z) ->
  coherent t' w'.
Proof.
  intros [Hb Hc] (_ & Hr & Ha) Ht HP. split.
  - intros k p Hk Hp. destruct (Ha _ _ Hk Hp) as [Hk0|HPp]; [specialize (Hb _ _ Hk0 Hp)|specialize (HP _ HPp)]; lia.
  - injection Hr as Hr _. intros root raw e Hi Hv. rewrite Hr in Hv.
    destruct (Hc root raw e Hi Hv) as (t0 & m & Ht0 & He & Hm & Hp). exists t0, m.
    split; [lia|]. do 2 (split; [done|]). intros k p Hk Hact Hroot Hs Hends.
    destruct (Ha _ _ Hk Hact) as [Hk0|HPp]; [by eapply Hp|]. specialize (HP _ HPp). lia.
Qed.

(** [m] keeps the store coherent as time passes. *)
Definition kept w w' : Prop := (w_tick w <= w_tick w')%nat /\ coherent (clock w') w'.
Definition keeps {A} (m : M DB A) : Prop := forall w, coherent (clock w) w -> kept w (m w).2.

Lemma coherent_later w w' : (w_tick w <= w_tick w')%nat -> coherent (clock w) w -> coherent (clock w') w.
Proof. intros Ht. apply coherent_mono. by apply clock_monotone. Qed.

Lemma keeps_calm {A} (m : M DB A) : calm (fun _ => False) m -> keeps m.
Proof.
  intros Hm w Hc. specialize (Hm w). split; [apply Hm|].
  eapply coherent_calm; [exact Hc|exact Hm|apply clock_monotone, Hm|done].
Qed.
Lemma keeps_bind {A B} (m : M DB A) (k : A -> M DB B) :
  keeps m -> (forall a, keeps (k a)) -> keeps (bind m k).
Proof.
  intros Hm Hk w Hc. unfold bind. destruct (Hm w Hc) as [T1 C1].
  destruct (m w) as [[a|e] w']; simpl in *; [|done]. destruct (Hk a w' C1). split; [lia|done].
Qed.
Lemma keeps_attempt {A} (m : M DB A) : keeps m -> keeps (attempt m).
Proof. intros Hm w Hc. specialize (Hm w Hc). unfold attempt. by destruct (m w). Qed.
Lemma keeps_map_err {A} f (m : M DB A) : keeps m -> keeps (map_err f m).
Proof. intros Hm w Hc. specialize (Hm w Hc). unfold map_err. by destruct (m w) as [[]]. Qed.

Lemma keeps_invalidate s root : keeps (invalidate s root).
Proof.
  intros w Hc. unfold invalidate. destruct (redis s); [|done].
  unfold bind, attempt, redis_Del, bind, fault, get_db, put_db. simpl.
  assert (Hl : coherent (clock (bump w)) w) by (apply coherent_later; simpl; [lia|done]).
  destruct (env_fault _); simpl; (split; [simpl; lia|]); [exact Hl|]. destruct Hl as [Hb Ha].
  split; [exact Hb|]. intros r raw e Hi Hv. apply rdel_spec in Hv as [_ Hv]. by apply (Ha r raw e).
Qed.

(** Storing the answer [m] found at [t0]. *)
Lemma keeps_redis_Set root t0 m ttl w :
  in_int64 root -> (t0 <= clock w)%Z -> (ttl <= capabilityCacheTTL)%Z -> begun t0 w ->
  (forall k p, punishments (st w) !! k = Some p -> pun_RootUserID p = root -> in_force t0 p = true ->
     has m (pun_Capability p) = true) ->
  coherent (clock w) w ->
  kept w (redis_Set t_redis set_redis (cache_key root) (Marshal m) ttl w).2.
Proof.
  intros Hroot Ht0 Httl Hb Hm Hc. unfold redis_Set, bind, now, fault, get_db, put_db. simpl.
  assert (Hl : coherent (clock (bump (bump w))) w) by (apply coherent_later; simpl; [lia|done]).
  destruct (env_fault _); simpl; (split; [simpl; lia|]); [exact Hl|]. destruct Hl as [Hb' Ha].
  split; [exact Hb'|]. intros r raw e Hi Hv. simpl in Hv.
  apply rset_spec in Hv as [[Hkey [= -> ->]]|[_ Hv]]; [|by apply (Ha r raw e)].
  exists (clock w), m. split; [apply clock_monotone; simpl; lia|]. split.
  { pose proof (redis_ttl_bound ttl 300000 Httl ltac:(lia)) as Hr.
    change (300000 * GoTime.Millisecond)%Z with capabilityCacheTTL in Hr. unfold clock. lia. }
  split; [apply Unmarshal_Marshal|]. intros k p Hk Hact Hr Hs Hends.
  assert (r = root) as -> by (apply (inj (String.append _)) in Hkey; by apply GoStr.FormatInt_inj).
  apply (Hm k p Hk Hr). unfold in_force, punishment_is. specialize (Hb k p Hk Hact).
  rewrite bool_decide_eq_true_2 by done. apply andb_true_iff. split; [by apply Z.leb_le|].
  destruct (pun_EndsAt p) as [e'|]; [|done]. specialize (Hends e' eq_refl). apply Z.ltb_lt. lia.
Qed.

(** ** The service *)
Variable s : Service RE.
Hypothesis H : honest s.

Lemma calm_notify P a b c d e f : calm P (notify s a b c d e f).
Proof.
  unfold notify. destruct (notifier s) as [g|] eqn:Eg; [|apply calm_ret].
  apply calm_bind; [apply calm_emit|]. intros _. apply calm_bind; [|intros; apply calm_ret].
  apply calm_attempt, calm_outside; by eapply honest_notifier.
Qed.
Lemma calm_hide_target P r : calm P (hide_target s r).
Proof.
  unfold hide_target. destruct (targets s) eqn:Et; [|apply calm_throw].
  apply calm_map_err, calm_outside; by eapply honest_hide.
Qed.
Lemma calm_resolve P r a b c d : targets s = Some r -> calm P (ResolveTarget r a b c d).
Proof. intros Hr. apply calm_outside; by eapply honest_resolve. Qed.
Lemma calm_redis_Get P k : calm P (redis_Get t_redis k : M DB (option jbytes)).
Proof.
  apply calm_bind; [apply calm_now|]. intros t. apply calm_bind; [intros w; apply calmly_db; simpl; [lia|done]|].
  intros []; [apply calm_throw|]. apply calm_bind; [apply calm_get_db|intros; apply calm_ret].
Qed.
Lemma calm_cached P root : calm P (cached_capabilities s root).
Proof.
  unfold cached_capabilities. destruct (redis s); [|apply calm_ret]. apply calm_bind.
  - apply calm_attempt, calm_redis_Get.
  - intros [[raw|]|]; apply calm_ret.
Qed.

(** A cached answer is one that has not expired; a failure of Redis is a miss. *)
Lemma wp_cached root (Q : res (option (gmap string bool)) -> World DB -> Prop) w :
  (forall w', calmly (fun _ => False) w w' -> w_db w' = w_db w -> Q (Ok None) w') ->
  (forall raw e m w', calmly (fun _ => False) w w' -> w_db w' = w_db w -> redis s = true ->
     rget (clock w) (cache_key root) (t_redis (w_db w)) = Some raw ->
     rview (t_redis (w_db w)) !! cache_key root = Some (raw, e) ->
     (clock w < e)%Z -> Unmarshal raw = Some m -> Q (Ok (Some m)) w') ->
  wp (cached_capabilities s root) Q w.
Proof.
  intros Hno Hhit. pose proof (calm_cached (fun _ => False) root w) as Hc.
  pose proof (quiet_cached s root w) as Hq. revert Hc Hq. unfold wp, cached_capabilities.
  destruct (redis s) eqn:Hred; simpl; [|intros; by apply Hno].
  unfold bind, attempt, redis_Get, bind, now, fault, get_db, ret. simpl.
  destruct (env_fault _); simpl; [intros; by apply Hno|].
  destruct (rget _ _ _) as [raw|] eqn:Eg; simpl; [|intros; by apply Hno].
  pose proof Eg as (e & Hv & He)%rget_spec.
  destruct (Unmarshal raw) as [m|] eqn:Hm; [|intros; by apply Hno]. intros Hc Hq. by eapply Hhit.
Qed.

Lemma wp_ActivePunishments root t (Q : res (list Punishment) -> World DB -> Prop) w :
  (forall r w', calmly (fun _ => False) w w' -> w_db w' = w_db w ->
     (forall l, r = Ok l -> l ≡ₚ (map_to_list (matching
        (fun p => (pun_RootUserID p =? root)%Z && in_force t p) (punishments (st w)))).*2) -> Q r w') ->
  wp (ActivePunishments root t) Q w.
Proof.
  intros HQ. pose proof (calm_ActivePunishments (fun _ => False) root t w) as Hc.
  destruct (reads_ActivePunishments root t w) as [Hd _].
  unfold wp. apply HQ; [done|done|]. intros l Hl. revert Hl.
  change (wp (ActivePunishments root t) (fun r w' => r = Ok l -> l ≡ₚ (map_to_list (matching
    (fun p => (pun_RootUserID p =? root)%Z && in_force t p) (punishments (st w)))).*2) w).
  unfold ActivePunishments. apply wp_bind, moderation_wp_gormDB; intros _; cbv beta iota; [|done].
  apply wp_find; [done|]. by intros l' Hl' [= ->].
Qed.

Lemma in_rows (f : Punishment -> bool) (m : gmap Z Punishment) k p :
  m !! k = Some p -> f p = true -> p ∈ (map_to_list (matching f m)).*2.
Proof.
  intros Hk Hf. apply list_elem_of_fmap. exists (k, p). split; [done|].
  apply elem_of_map_to_list. by apply lookup_matching.
Qed.

(** [m] names the punishments of [root] that have been in force for longer than the
    time to live, up to the end of the call. *)
Definition noticed root w w' (m : gmap string bool) : Prop :=
  forall k p, punishments (st w) !! k = Some p -> active p -> pun_RootUserID p = root ->
    (pun_StartsAt p + capabilityCacheTTL <= clock w)%Z ->
    (forall e, pun_EndsAt p = Some e -> (clock w' < e)%Z) -> has m (pun_Capability p) = true.

Lemma noticed_hit root raw e m w w' :
  in_int64 root -> coherent (clock w) w -> (w_tick w <= w_tick w')%nat ->
  rview (t_redis (w_db w)) !! cache_key root = Some (raw, e) -> (clock w < e)%Z -> Unmarshal raw = Some m ->
  noticed root w w' m.
Proof.
  intros Hi [_ Ha] Ht Hv He Hm k p Hk Hact Hr Hs Hends.
  destruct (Ha root raw e Hi Hv) as (t0 & m' & Ht0 & He' & Hm' & Hp). assert (m' = m) as -> by congruence.
  apply (Hp k p Hk Hact Hr); [lia|]. intros e1 He1. specialize (Hends e1 He1).
  pose proof (clock_monotone _ _ Ht). unfold clock in *. lia.
Qed.

Lemma in_force_at t p :
  active p -> (pun_StartsAt p <= t)%Z -> (forall e, pun_EndsAt p = Some e -> (t < e)%Z) -> in_force t p = true.
Proof.
  intros Hact Hs He. unfold in_force, punishment_is. rewrite bool_decide_eq_true_2 by done.
  apply andb_true_iff. split; [by apply Z.leb_le|]. destruct (pun_EndsAt p); [|done]. by apply Z.ltb_lt, He.
Qed.

Lemma kept_later w w' w'' : (w_tick w <= w_tick w')%nat -> kept w' w'' -> kept w w''.
Proof. intros Ht [Ht' Hc]. split; [lia|done]. Qed.

Lemma wp_activeCapabilities root w :
  in_int64 root -> coherent (clock w) w ->
  wp (activeCapabilities s root)
    (fun r w' => kept w w' /\ forall m, r = Ok m -> noticed root w w' m) w.
Proof.
  intros Hi Hc. unfold activeCapabilities. apply wp_bind, wp_cached.
  2: { intros raw e m w1 (Ht & _) Hw1 _ _ Hv He Hm. cbv beta iota. apply wp_ret. split.
       - split; [done|]. eapply coherent_mono; [by apply clock_monotone|]. by eapply coherent_same.
       - intros m' [= <-]. by eapply noticed_hit. }
  intros w1 (Ht1 & _) Hw1.
  assert (Hc1 : coherent (clock w1) w1)
    by (eapply coherent_mono; [by apply clock_monotone|]; by eapply coherent_same).
  cbv beta iota. apply wp_bind, wp_now. cbv beta iota. fold (clock w1).
  assert (Hst1 : st (bump w1) = st w) by (unfold st; simpl; by rewrite Hw1).
  apply wp_bind, wp_ActivePunishments. intros r2 w2 (Ht2 & _) Hw2 Hl. simpl in Ht2.
  assert (Hst2 : st w2 = st w) by (unfold st in *; by rewrite Hw2).
  assert (Hc2 : coherent (clock w2) w2)
    by (eapply coherent_mono; [apply (clock_monotone (w_tick w1)); lia|];
        eapply coherent_same; [exact Hw2|exact Hc1]).
  destruct r2 as [l|e]; cbv beta iota; [|split; [split; [lia|done]|done]].
  specialize (Hl l eq_refl). rewrite Hst1 in Hl.
  pose proof (capability_loop_spec (clock w1) l) as [Httl Hcap].
  destruct (capability_loop (clock w1) l) as [m ttl]. simpl in Httl, Hcap.
  assert (Hforce : forall k p, punishments (st w) !! k = Some p -> pun_RootUserID p = root ->
    in_force (clock w1) p = true -> has m (pun_Capability p) = true).
  { intros k p Hk Hp Hf. apply Hcap. exists p. split; [|done]. rewrite Hl. eapply in_rows; [exact Hk|].
    apply andb_true_iff. split; [by apply Z.eqb_eq|done]. }
  set (ttl' := if (ttl <=? 0)%Z then GoTime.Second else ttl).
  assert (Httl' : (ttl' <= capabilityCacheTTL)%Z)
    by (unfold ttl'; case_bool; [unfold capabilityCacheTTL, GoTime.Minute, GoTime.Second|]; lia).
  assert (Hset : wp (if redis s then let! _ := attempt (redis_Set t_redis set_redis (cache_key root) (Marshal m) ttl')
                     in ret tt else ret tt) (fun _ w3 => kept w2 w3) w2).
  { destruct (redis s); [|by split]. apply wp_bind, wp_attempt.
    apply (keeps_redis_Set root (clock w1) m ttl' w2); try done.
    - apply clock_monotone. lia.
    - intros k p. rewrite Hst2. rewrite <- Hst1. apply Hc1.
    - intros k p. rewrite Hst2. apply Hforce. }
  apply wp_bind. eapply wp_mono; [exact Hset|]. intros r3 w3 Hk3.
  assert (Hk : kept w w3) by (eapply kept_later; [|exact Hk3]; lia).
  destruct r3 as [[]|e]; cbv beta iota; [|by split]. apply wp_ret. split; [done|].
  intros m' [= <-] k p Hkp Hact Hroot Hs Hends. apply (Hforce k p Hkp Hroot), in_force_at; [done| |].
  - pose proof (clock_monotone _ _ Ht1). unfold clock, capabilityCacheTTL, GoTime.Minute, GoTime.Second in *. lia.
  - intros e He. specialize (Hends e He). destruct Hk3 as [Ht3 _].
    pose proof (clock_monotone (w_tick w1) (w_tick w3) ltac:(lia)). unfold clock in *. lia.
Qed.

Lemma keeps_Check root c : in_int64 root -> keeps (Check s root c).
Proof.
  intros Hi w Hc. unfold Check. destruct (root <=? 0)%Z; [by split|].
  change (wp (let! act := internal "查询账号处罚失败" (activeCapabilities s root) in
    if has act CapabilityAccount || has act c then throw ErrCapabilityDenied else ret tt)
    (fun _ w' => kept w w') w).
  apply wp_bind, wp_map_err. eapply wp_mono; [by apply wp_activeCapabilities|].
  intros [m|e] w' [Hk _]; [|done]. by destruct (_ || _).
Qed.
Lemma keeps_AccountBlocked root : in_int64 root -> keeps (AccountBlocked s root).
Proof.
  intros Hi w Hc. unfold AccountBlocked.
  change (wp (let! act := activeCapabilities s root in ret (has act CapabilityAccount))
    (fun _ w' => kept w w') w).
  apply wp_bind. eapply wp_mono; [by apply wp_activeCapabilities|]. by intros [m|e] w' [Hk _].
Qed.

(** The transaction of a review whose punishment starts at the time it was read. *)
Lemma keeps_review t a b c p au w :
  coherent t w -> (t <= clock w)%Z -> (forall x, p = Some x -> pun_StartsAt x = t) ->
  kept w (CompleteReview a b c p au t w).2.
Proof.
  intros Hc Ht Hp. pose proof (calm_CompleteReview a b c p au t w) as Hm. split; [apply Hm|].
  pose proof (clock_monotone _ _ (proj1 Hm)). unfold clock in *.
  eapply coherent_calm; [exact Hc|exact Hm|lia|]. intros x Hx. rewrite (Hp x Hx). lia.
Qed.

Lemma keeps_then {A B} (m : M DB A) (k : A -> M DB B) w :
  kept w (m w).2 -> (forall a, keeps (k a)) -> kept w (bind m k w).2.
Proof.
  intros [Ht Hc] Hk. unfold bind. destruct (m w) as [[a|e] w']; simpl in *; [|by split].
  eapply kept_later; [exact Ht|by apply Hk].
Qed.

Ltac keeping :=
  cbv beta zeta; unfold internal;
  lazymatch goal with
  | |- keeps (invalidate _ _) => apply keeps_invalidate
  | |- keeps (bind _ _) => apply keeps_bind; [keeping|intros; keeping]
  | |- keeps (attempt _) => apply keeps_attempt; keeping
  | |- keeps (map_err _ _) => apply keeps_map_err; keeping
  | |- keeps (if ?b then _ else _) => destruct b; keeping
  | |- keeps (match ?x with _ => _ end) => destruct x; keeping
  | |- keeps _ => apply keeps_calm; first [apply calm_notify | apply calm_hide_target | solve [eauto with calm]]
  end.

Lemma keeps_decision report id admin req : keeps (
  let! t := now in
  let! p := punishment_for report admin req t in
  let! auditID := Generate in
  let! ok := internal "处理举报失败" (CompleteReview (rpt_ID report) admin
    (if String.eqb (dreq_Action req) "reject" then ReportRejected else ReportActioned) p
    (mkAuditLog auditID (Some (rpt_ID report)) (pun_ID <$> p) None admin (dreq_Action req)
       ("reason"%string, dreq_Reason req) t) t) in
  if negb ok then throw ErrReportNotFound
  else
    (match p with Some p => invalidate s (pun_RootUserID p) | None => ret tt end);;
    notify s (rpt_TargetRootUserID report) ("report." ++ dreq_Action req) "举报处理结果" (dreq_Reason req)
      "report" id).
Proof.
  intros w Hc. match goal with |- kept w (?m w).2 => change (wp m (fun _ w' => kept w w') w) end.
  apply wp_bind, wp_now. cbv beta iota. fold (clock w).
  assert (Hlate : forall w1, w1 = bump w \/ w1 = bump (bump w) ->
    (w_tick w <= w_tick w1)%nat /\ coherent (clock w) w1 /\ (clock w <= clock w1)%Z).
  { intros w1 [-> | ->]; (split; [simpl; lia|]); (split; [by eapply coherent_same|]);
      apply clock_monotone; simpl; lia. }
  apply wp_bind, wp_punishment_for; cbv beta iota.
  - intros e. destruct (Hlate (bump w)) as (Ht & H2 & H3); [by left|]. split; [done|]. by eapply coherent_mono.
  - intros p w1 Hw1 Hp. destruct (Hlate w1) as (Ht & H2 & H3); [destruct Hw1; subst; auto|].
    apply wp_bind, wp_Generate. cbv beta iota.
    apply (kept_later w (bump w1)); [simpl; lia|]. unfold wp, internal.
    apply keeps_then; [|intros; keeping].
    unfold map_err. pose proof (keeps_review (clock w) (rpt_ID report) admin
      (if String.eqb (dreq_Action req) "reject" then ReportRejected else ReportActioned) p
      (mkAuditLog (env_id (w_tick w1)) (Some (rpt_ID report)) (pun_ID <$> p) None admin (dreq_Action req)
        ("reason"%string, dreq_Reason req) (clock w)) (bump w1)) as Hr.
    destruct (CompleteReview _ _ _ _ _ _ _) as [[ok|e] w2]; simpl in *; apply Hr;
      try (by eapply coherent_same); try (etrans; [exact H3|apply clock_monotone; simpl; lia]);
      intros x ->; apply Hp.
Qed.

Lemma keeps_DecideReport a b req : keeps (DecideReport s a b req).
Proof.
  unfold DecideReport. apply keeps_bind; [keeping|]. intros id. apply keeps_bind; [keeping|].
  intros [r|]; [|keeping]. destruct (_ || _); [keeping|]. apply keeps_bind; [keeping|].
  intros _. apply keeps_decision.
Qed.
Lemma keeps_CreateReport a b req : keeps (CreateReport s a b req).
Proof.
  unfold CreateReport. destruct (_ || _); [keeping|].
  destruct (targets s) as [r|] eqn:Hr; [|keeping]. destruct (negb _); [keeping|].
  apply keeps_bind; [apply keeps_calm, calm_attempt, calm_resolve, Hr|]. intros; keeping.
Qed.
Lemma keeps_RevokePunishment a b c : keeps (RevokePunishment s a b c).
Proof. unfold RevokePunishment, RevokePunishment_with. keeping. Qed.
Lemma keeps_DecideAppeal a b c : keeps (DecideAppeal s a b c).
Proof. unfold DecideAppeal, DecideAppeal_with. keeping. Qed.
Lemma keeps_WithdrawReport a b : keeps (WithdrawReport a b : M DB unit).
Proof. unfold WithdrawReport. keeping. Qed.
Lemma keeps_ClaimReport a b : keeps (ClaimReport a b : M DB unit).
Proof. unfold ClaimReport. keeping. Qed.
Lemma keeps_CreateAppeal a b c : keeps (CreateAppeal a b c : M DB AppealResponse).
Proof. unfold CreateAppeal. keeping. Qed.
End answers.
End ModerationCache.
