(* ===== verification/ModerationGuard.v ===== *)
(** * Moderation: what the capability check answers

    The three properties of [Check]: a punishment older than the time to live of
    the cache is never overlooked, whatever failed before; without a cached answer
    the check is exact; and when nothing fails a punishment set by a review takes effect
    at once and stays in effect until it ends or is lifted. *)
From S2P Require Import Prelude GoString GoTime GoMonad Sql RedisStr Safe.
From S2P Require Import ModerationModel ModerationRepo ModerationSafe.
From S2P Require Import ModerationService ModerationSafe ModerationCache ModerationProps.

Module ModerationGuard.
Import Safe.
Import Moderation ModerationRepo ModerationSpec ModerationRefine ModerationService ModerationSafe ModerationCache.

(** The time a process reads never goes back. *)
Definition monotone (E : Env) : Prop := forall n m, (n <= m)%nat -> (env_now n <= env_now m)%Z.

(** [p] takes [capability] away. *)
Definition denies (capability : string) (p : Punishment) : Prop :=
  pun_Capability p = CapabilityAccount \/ pun_Capability p = capability.

Definition admitted (q : request) : Prop :=
  match q with
  | RCheck root _ | RAccountBlocked root => in_int64 root
  | _ => True
  end.

Lemma has_denies m capability p :
  has m (pun_Capability p) = true -> denies capability p ->
  has m CapabilityAccount || has m capability = true.
Proof. intros Hp [Hc|Hc]; rewrite Hc in Hp; rewrite Hp; [done|apply orb_true_r]. Qed.

Section histories.
Context {E : Env} {D : SqlEngine} {J : JsonMap} {RE : RedisEngine jbytes}.
Notation DB := (DB RE).
Implicit Types (w : World DB).

(** Requests one after another under one clock, with pauses, from empty tables and
    cache. *)
Definition timed_step w w' : Prop :=
  (w_tick w <= w_tick w')%nat /\ w_db w' = w_db w \/ exists s q, honest s /\ admitted q /\ w' = (serve s q w).2.
Definition timed_history w : Prop :=
  exists w0, st w0 = empty_state /\ rview (t_redis (w_db w0)) = ∅ /\ rtc timed_step w0 w.

Lemma keeps_serve s q : monotone E -> honest s -> admitted q -> keeps (serve s q).
Proof.
  intros Hm Hs Hq. destruct q; simpl in *; unfold unit_of;
    try (apply keeps_bind; [|intros; apply (keeps_calm Hm), calm_ret]);
    eauto using keeps_CreateReport, keeps_WithdrawReport, keeps_ClaimReport, keeps_DecideReport,
      keeps_RevokePunishment, keeps_CreateAppeal, keeps_DecideAppeal, keeps_Check, keeps_AccountBlocked.
Qed.

Lemma timed_coherent w : monotone E -> timed_history w -> coherent (clock w) w.
Proof.
  intros Hm (w0 & H0 & HR & Hr).
  assert (Hc0 : coherent (clock w0) w0).
  { split; [intros k p Hk; rewrite H0 in Hk; simpl in Hk; by rewrite lookup_empty in Hk|].
    intros root raw e _ Hv. by rewrite HR, lookup_empty in Hv. }
  clear H0 HR. induction Hr as [w|w w1 w2 Hstep _ IH]; [done|]. apply IH.
  destruct Hstep as [[Ht Hd]|(s & q & Hs & Hq & ->)]; [|by apply (keeps_serve s q Hm Hs Hq w Hc0)].
  eapply coherent_calm; [exact Hc0|by apply (calmly_db (fun _ => False))|by apply Hm|done].
Qed.

Lemma timed_steps s qs w0 : honest s -> Forall admitted qs -> rtc timed_step w0 (run s qs w0).
Proof.
  intros Hs Hq. revert w0. induction Hq as [|q qs Hq _ IH]; intros w0; simpl; [apply rtc_refl|].
  eapply rtc_l; [|apply IH]. right. exists s, q. auto.
Qed.
Lemma timed_run s qs w0 : honest s -> Forall admitted qs -> st w0 = empty_state ->
  rview (t_redis (w_db w0)) = ∅ -> timed_history (run s qs w0).
Proof.
  intros Hs Hq H0 HR. exists w0. split; [done|]. split; [done|]. by apply timed_steps.
Qed.

(** C36: a punishment is never overlooked for longer than the cache keeps an
    answer, whatever statements, cache commands or invalidations failed: once it
    has been in force for [capabilityCacheTTL], and until it ends or is lifted, the
    check never lets its user through, on a clock that never runs backwards. *)
Theorem punishment_noticed s w root capability k p :
  monotone E -> honest s -> timed_history w -> in_int64 root ->
  punishments (st w) !! k = Some p -> active p -> pun_RootUserID p = root -> denies capability p ->
  (pun_StartsAt p + capabilityCacheTTL <= clock w)%Z ->
  (forall e, pun_EndsAt p = Some e -> (clock (Check s root capability w).2 < e)%Z) ->
  (Check s root capability w).1 <> Ok tt.
Proof.
  intros Hm Hs Hw Hi Hk Hact Hroot Hd Hstart.
  change (wp (Check s root capability) (fun r w' =>
    (forall e, pun_EndsAt p = Some e -> (clock w' < e)%Z) -> r <> Ok tt) w).
  unfold Check. apply wp_if; intros _; [done|]. apply wp_bind, wp_map_err.
  eapply wp_mono; [apply (wp_activeCapabilities Hm); [done|by apply timed_coherent]|].
  intros [m|e] w' [_ Hn]; cbv beta iota; [|done].
  destruct (_ || _) eqn:Hb; [done|]. apply wp_ret. intros He _.
  assert (Hp : has m (pun_Capability p) = true) by by apply (Hn m eq_refl k p).
  rewrite (has_denies m capability p Hp Hd) in Hb. done.
Qed.

(** ** Without failures *)
Definition up w : Prop := (forall n, env_fault n = false) /\ db_nil (w_db w) = false.

(** No answer for [root] is cached. *)
Definition uncached s root w : Prop :=
  redis s = true -> rview (t_redis (w_db w)) !! cache_key root = None.

Definition barred (s : State) (root : Z) (capability : string) (t : Z) : Prop :=
  exists k p, punishments s !! k = Some p /\ pun_RootUserID p = root /\ in_force t p = true /\
    denies capability p.

Lemma wp_gormDB_on (Q : res unit -> World DB -> Prop) w :
  db_nil (w_db w) = false -> Q (Ok tt) w -> wp gormDB Q w.
Proof. intros Hdb HQ. apply moderation_wp_gormDB; [done|by rewrite Hdb]. Qed.

Lemma barred_rows s root capability t l :
  l ≡ₚ (map_to_list (matching (fun p => (pun_RootUserID p =? root)%Z && in_force t p) (punishments s))).*2 ->
  has (capability_loop t l).1 CapabilityAccount || has (capability_loop t l).1 capability = true <->
  barred s root capability t.
Proof.
  intros Hl. destruct (capability_loop_spec t l) as [_ Hc].
  rewrite orb_true_iff, !Hc. unfold barred, denies. split.
  - intros Hx. assert (exists p, p ∈ l /\ denies capability p) as (p & Hp & Hd)
      by (unfold denies; destruct Hx as [(p & ? & ?)|(p & ? & ?)]; exists p; auto).
    rewrite Hl in Hp. apply list_elem_of_fmap in Hp as ([k x] & -> & Hx').
    apply elem_of_map_to_list, lookup_matching in Hx' as [Hk Hf]. bools. exists k, x. auto.
  - intros (k & p & Hk & Hr & Hf & Hd). assert (p ∈ l) as Hp
      by (rewrite Hl; eapply in_rows; [exact Hk|]; apply andb_true_iff; split; [by apply Z.eqb_eq|done]).
    destruct Hd; [left|right]; exists p; auto.
Qed.

(** Storing the answer takes time and cannot fail the check. *)
Lemma wp_store_answer s root m ttl w :
  wp (if redis s
      then let! _ := attempt (redis_Set t_redis set_redis (cache_key root) (Marshal m) ttl) in ret tt
      else ret tt) (fun r w' => r = Ok tt /\ (w_tick w <= w_tick w')%nat) w.
Proof.
  destruct (redis s); [|by split]. apply wp_bind, wp_attempt. unfold redis_Set.
  do 2 wp_step. repeat wp_step. destruct (env_fault _); repeat wp_step; (split; [done|simpl; lia]).
Qed.

Lemma wp_Check_exact s root capability w :
  monotone E -> up w -> uncached s root w -> (0 < root)%Z ->
  wp (Check s root capability) (fun r w' =>
    exists t, (clock w <= t <= clock w')%Z /\
      ((r = Err ErrCapabilityDenied /\ barred (st w) root capability t) \/
       (r = Ok tt /\ ~ barred (st w) root capability t))) w.
Proof.
  intros Hm [NF Hdb] Hun Hroot. unfold Check.
  replace (root <=? 0)%Z with false by (symmetry; apply Z.leb_gt; lia).
  apply wp_bind, wp_map_err. unfold activeCapabilities. apply wp_bind, (wp_cached s).
  2: { intros raw e m w1 _ _ Hred _ Hv. by rewrite (Hun Hred) in Hv. }
  intros w1 (Ht1 & _) Hw1. assert (Hst1 : st w1 = st w) by (unfold st; by rewrite Hw1).
  cbv beta iota. apply wp_bind, wp_now. cbv beta iota. fold (clock w1).
  apply wp_bind. unfold ActivePunishments. apply wp_bind, wp_gormDB_on; [simpl; by rewrite Hw1|].
  apply wp_find; [by rewrite NF|]. intros l Hl. cbv beta iota.
  change (vw Punishment (bump w1)) with (punishments (st w1)) in Hl. rewrite Hst1 in Hl.
  pose proof (barred_rows (st w) root capability (clock w1) l Hl) as Hbar.
  destruct (capability_loop (clock w1) l) as [m ttl]. simpl in Hbar.
  apply wp_bind. eapply wp_mono; [apply wp_store_answer|].
  intros r w3 [-> Ht3]. cbv beta iota. apply wp_ret. cbv beta iota. simpl in Ht3.
  assert (Ht : (clock w <= clock w1 <= clock w3)%Z) by (split; apply Hm; lia).
  apply wp_if; intros Hb; rewrite Hb in Hbar; exists (clock w1); (split; [exact Ht|]).
  - left. split; [done|by apply Hbar].
  - right. split; [done|]. by intros Hx%Hbar.
Qed.
(** ** A review that punishes *)

Lemma parseID_id z : in_int64 z -> (0 < z)%Z -> parseID (id z) = Ok z.
Proof.
  intros Hi Hz. unfold parseID, id. rewrite GoStr.TrimSpace_FormatInt, GoStr.ParseInt_FormatInt by done.
  by replace (z <=? 0)%Z with false by (symmetry; apply Z.leb_gt; lia).
Qed.

Lemma wp_FindReport_known k r (Q : res (option Report) -> World DB -> Prop) w :
  up w -> reports (st w) !! k = Some r -> (forall w', w_db w' = w_db w -> (w_tick w <= w_tick w')%nat ->
    Q (Ok (Some r)) w') -> wp (FindReport k) Q w.
Proof.
  intros [NF Hdb] Hr HQ. unfold FindReport. apply wp_bind, wp_gormDB_on; [done|].
  apply wp_bind, wp_attempt, (wp_take_known _ NF _ _ r); [exact Hr|done|]. apply wp_ret, HQ; simpl; [done|lia].
Qed.

(** Completing a review of a report the administrator has claimed, with fresh ids. *)
Lemma wp_CompleteReview_known k r admin stt x au t (Q : res bool -> World DB -> Prop) w :
  up w -> reports (st w) !! k = Some r -> rpt_Status r = ReportReviewing -> rpt_AssigneeAdminID r = Some admin ->
  stt <> ReportReviewing -> punishments (st w) !! pun_ID x = None -> audits (st w) !! aud_ID au = None ->
  (forall w', calmly (fun y => Some x = Some y) w w' -> punishments (st w') !! pun_ID x = Some x -> Q (Ok true) w') ->
  wp (CompleteReview k admin stt (Some x) au t) Q w.
Proof.
  intros [NF Hdb] Hr Hst Ha Hne Hx Hau HQ.
  pose proof (calm_CompleteReview k admin stt (Some x) au t w) as Hcalm.
  enough (Hp : wp (CompleteReview k admin stt (Some x) au t)
    (fun r w' => r = Ok true /\ punishments (st w') !! pun_ID x = Some x) w).
  { revert Hp Hcalm. unfold wp. destruct (CompleteReview _ _ _ _ _ _ w) as [res w']. simpl.
    intros [-> Hp] Hc. by apply HQ. }
  clear HQ Hcalm. unfold CompleteReview. apply wp_bind, wp_gormDB_on; [done|]. apply wp_commit; [done|].
  apply wp_bind. eapply (wp_update_known Report NF) with (r := r).
  - done.
  - done.
  - exact Hr.
  - unfold report_is, assigned_to. by rewrite Hst, Ha, !bool_decide_eq_true_2.
  - intros Heq. apply (f_equal rpt_Status) in Heq. simpl in Heq. congruence.
  - intros w1 [H1 _]. cbv beta iota. cbn [Z.eqb]. cbv iota.
    assert (Hst1 : punishments (st w1) = punishments (st w) /\ audits (st w1) = audits (st w))
      by (unfold st in *; by rewrite H1). destruct Hst1 as [Hp1 Ha1].
    apply wp_bind, wp_map_err, wp_insert; [by rewrite NF| |].
    + intros [[y Hy]|(j & y & _ & [Hc|Hc])]; [|done|done].
      change (punishments (st w1) !! pun_ID x = Some y) in Hy. congruence.
    + intros w2 [H2 _] _ _. cbv beta iota.
      assert (Hst2 : punishments (st w2) = <[pun_ID x := x]> (punishments (st w1)) /\ audits (st w2) = audits (st w1))
        by (unfold st in *; by rewrite H2). destruct Hst2 as [Hp2 Ha2].
      apply wp_bind, wp_map_err, wp_insert; [by rewrite NF| |].
      * intros [[y Hy]|(j & y & _ & [Hc|Hc])]; [|done|done].
        change (audits (st w2) !! aud_ID au = Some y) in Hy. congruence.
      * intros w3 [H3 _] _ _. cbv beta iota. apply wp_ret. split; [done|].
        assert (Hp3 : punishments (st (bump w3)) = punishments (st w2)) by (unfold st in *; simpl; by rewrite H3).
        rewrite Hp3, Hp2. apply lookup_insert_eq.
Qed.

Lemma wp_notify_any s a b c d e f (Q : res unit -> World DB -> Prop) w :
  honest s -> (forall w', w_db w' = w_db w -> (w_tick w <= w_tick w')%nat -> Q (Ok tt) w') ->
  wp (notify s a b c d e f) Q w.
Proof.
  intros Hs HQ. pose proof (moderation_quiet_notify s Hs a b c d e f w) as Hq.
  pose proof (calm_notify s Hs (fun _ => False) a b c d e f w) as [Ht _]. revert Hq Ht. unfold wp, notify.
  destruct (notifier s) as [g|]; [|intros; by apply HQ].
  unfold bind, emit, attempt, ret. destruct (g _ _ _ _ _ _ _) as [r w']. simpl. intros. by apply HQ.
Qed.

Lemma wp_invalidate_up s root (Q : res unit -> World DB -> Prop) w :
  up w -> (forall w', st w' = st w -> db_nil (w_db w') = db_nil (w_db w) -> (w_tick w <= w_tick w')%nat ->
    uncached s root w' -> Q (Ok tt) w') ->
  wp (invalidate s root) Q w.
Proof.
  intros [NF Hdb] HQ. unfold invalidate. destruct (redis s) eqn:Hred.
  - apply wp_bind, wp_attempt. unfold redis_Del. apply wp_bind, wp_fault. rewrite NF. cbv beta iota.
    repeat wp_step. apply HQ; [done|done|simpl; lia|]. intros _. simpl.
    destruct (_ !! _) as [v|] eqn:Hv; [|done]. by apply rdel_spec in Hv as [Hne _].
  - apply wp_ret, HQ; [done|done|lia|]. intros Hx. congruence.
Qed.

Lemma wp_punishment_for_ok r admin req t (Q : res (option Punishment) -> World DB -> Prop) w :
  dreq_Action req = "punish"%string -> dreq_Capability req ∈ capabilities ->
  (forall d, dreq_DurationMinutes req = Some d -> (0 < d)%Z) ->
  (forall p, fits r admin req t (Some p) -> pun_ID p = env_id (w_tick w) -> Q (Ok (Some p)) (bump w)) ->
  wp (punishment_for r admin req t) Q w.
Proof.
  intros Ha Hc Hd HQ. unfold punishment_for. rewrite Ha. change (negb (String.eqb "punish" "punish")) with false.
  rewrite bool_decide_eq_true_2 by done. cbn [negb]. cbv iota.
  assert (Hp : forall e, e = (fun d => t + mul64 d GoTime.Minute)%Z <$> dreq_DurationMinutes req ->
    Q (Ok (Some (mkPunishment (env_id (w_tick w)) (rpt_TargetRootUserID r) (Some (rpt_ID r))
      (dreq_Capability req) (GoStr.TrimSpace (dreq_Reason req)) PunishmentActive t e admin t None None "")))
      (bump w)) by (intros e He; apply HQ; by repeat split).
  apply wp_bind. destruct (dreq_DurationMinutes req) as [d|].
  - specialize (Hd d eq_refl). replace (d <=? 0)%Z with false by (symmetry; apply Z.leb_gt; lia).
    repeat wp_step. by apply Hp.
  - repeat wp_step. by apply Hp.
Qed.

(** No row has an id the generator has yet to draw. *)
Definition fresh_ids w : Prop :=
  forall n, (w_tick w <= n)%nat -> punishments (st w) !! env_id n = None /\ audits (st w) !! env_id n = None.

(** A claimed report, and a decision to punish that the service accepts. *)
Record punishing (k admin : Z) (r : Report) (req : AdminDecisionReq) w : Prop := {
  pg_key : in_int64 k /\ (0 < k)%Z;
  pg_row : reports (st w) !! k = Some r;
  pg_status : rpt_Status r = ReportReviewing;
  pg_admin : rpt_AssigneeAdminID r = Some admin;
  pg_action : dreq_Action req = "punish"%string;
  pg_capability : dreq_Capability req ∈ capabilities;
  pg_duration : forall d, dreq_DurationMinutes req = Some d -> (0 < d)%Z;
}.

Lemma wp_DecideReport_punish s k admin r req (Q : res unit -> World DB -> Prop) w :
  monotone E -> honest s -> up w -> fresh_ids w -> punishing k admin r req w ->
  (forall p t w', fits r admin req t (Some p) -> punishments (st w') !! pun_ID p = Some p ->
     (clock w <= t <= clock w')%Z -> up w' -> uncached s (rpt_TargetRootUserID r) w' -> Q (Ok tt) w') ->
  wp (DecideReport s (id k) admin req) Q w.
Proof.
  intros Hm Hs Hup Hfr [[Hi Hk] Hr Hst Had Hact Hcap Hdur] HQ. unfold DecideReport, internal.
  rewrite parseID_id by done. apply wp_bind, wp_ret. cbv beta iota.
  apply wp_bind, wp_map_err, (wp_FindReport_known k r); [done|done|]. intros w1 Hw1 Ht1. cbv beta iota.
  rewrite Hst, Had, !bool_decide_eq_true_2 by done. cbn [negb orb]. cbv iota.
  rewrite Hact. change (String.eqb "punish" "hide") with false. change (String.eqb "punish" "reject") with false.
  cbv iota. apply wp_bind, wp_ret. cbv beta iota. apply wp_bind, wp_now. cbv beta iota. fold (clock w1).
  apply wp_bind, wp_punishment_for_ok; [done..|]. intros p Hp Hid. cbv beta iota.
  apply wp_bind, wp_Generate. cbv beta iota.
  assert (Hst2 : st (bump (bump (bump w1))) = st w) by (unfold st; simpl; by rewrite Hw1).
  assert (Hkey : rpt_ID r = k) by exact (vw_key Report w k r Hr).
  apply wp_bind, wp_map_err. rewrite Hkey. apply (wp_CompleteReview_known k r); try done.
  - split; [apply Hup|]. simpl. rewrite Hw1. apply Hup.
  - rewrite Hst2. exact Hr.
  - rewrite Hst2, Hid. apply (Hfr (w_tick (bump w1))). simpl. lia.
  - rewrite Hst2. apply (Hfr (w_tick (bump (bump w1)))). simpl. lia.
  - intros w4 (Ht4 & Ho4 & _) Hp4. cbv beta iota. cbn [negb]. cbv iota.
    simpl in Ht4, Ho4. injection Ho4 as _ Hd4. rewrite Hw1 in Hd4.
    assert (Hup4 : up w4) by (split; [apply Hup|rewrite Hd4; apply Hup]).
    apply wp_bind, wp_invalidate_up; [done|]. intros w5 Hs5 Hd5 Ht5 Hun. cbv beta iota.
    apply wp_notify_any; [done|]. intros w6 Hw6 Ht6.
    apply (HQ p (clock w1)); [done| | | |].
    + unfold st in *. by rewrite Hw6, Hs5.
    + split; apply Hm; lia.
    + split; [apply Hup|]. rewrite Hw6, Hd5. apply Hup4.
    + destruct Hp as (_ & (_ & Hroot & _) & _). unfold uncached in *. rewrite Hw6, <- Hroot. exact Hun.
Qed.

(** With no failure and no cached answer, the check is exact: at some instant
    during the call it refuses if and only if a punishment of the user is in force
    that takes away the account or the capability asked for. *)
Theorem Check_spec s root capability w :
  monotone E -> up w -> uncached s root w -> (0 < root)%Z ->
  wp (Check s root capability) (fun r w' =>
    exists t, (clock w <= t <= clock w')%Z /\
      ((r = Err ErrCapabilityDenied /\ barred (st w) root capability t) \/
       (r = Ok tt /\ ~ barred (st w) root capability t))) w.
Proof. apply wp_Check_exact. Qed.

(** ** A punishment stays noticed

    Besides the checks, requests only let entries of the cache vanish. *)
Definition shrunk w w' : Prop :=
  (w_tick w <= w_tick w')%nat /\ db_nil (w_db w') = db_nil (w_db w) /\
  forall j x, rview (t_redis (w_db w')) !! j = Some x -> rview (t_redis (w_db w)) !! j = Some x.
Definition shrinks {A} (m : M DB A) : Prop := forall w, shrunk w (m w).2.

Lemma shrunk_refl w : shrunk w w.
Proof. done. Qed.
Lemma shrunk_trans w1 w2 w3 : shrunk w1 w2 -> shrunk w2 w3 -> shrunk w1 w3.
Proof. intros (T1 & N1 & V1) (T2 & N2 & V2). split; [lia|]. split; [congruence|]. auto. Qed.
Lemma shrinks_calm P {A} (m : M DB A) : calm P m -> shrinks m.
Proof. intros Hm w. destruct (Hm w) as (T & Ho & _). injection Ho as Hr Hn. split; [done|]. by rewrite Hr. Qed.
Lemma shrinks_bind {A B} (m : M DB A) (k : A -> M DB B) : shrinks m -> (forall a, shrinks (k a)) -> shrinks (bind m k).
Proof.
  intros Hm Hk w. unfold bind. specialize (Hm w). destruct (m w) as [[a|e] w']; simpl in *; [|done].
  eapply shrunk_trans; [exact Hm|apply Hk].
Qed.
Lemma shrinks_attempt {A} (m : M DB A) : shrinks m -> shrinks (attempt m).
Proof. intros Hm w. specialize (Hm w). unfold attempt. by destruct (m w). Qed.
Lemma shrinks_map_err {A} f (m : M DB A) : shrinks m -> shrinks (map_err f m).
Proof. intros Hm w. specialize (Hm w). unfold map_err. by destruct (m w) as [[]]. Qed.
Lemma shrinks_invalidate s root : shrinks (invalidate s root).
Proof.
  intros w. unfold invalidate. destruct (redis s); [|done].
  unfold bind, attempt, redis_Del, bind, fault, get_db, put_db. simpl.
  destruct (env_fault _); simpl; (split; [simpl; lia|]); (split; [done|]); [done|].
  by intros j x [_ Hv]%rdel_spec.
Qed.

Ltac shrinking :=
  cbv beta zeta; unfold internal;
  lazymatch goal with
  | |- shrinks (invalidate _ _) => apply shrinks_invalidate
  | |- shrinks (CompleteReview _ _ _ _ _ _) => eapply shrinks_calm, calm_CompleteReview
  | |- shrinks (bind _ _) => apply shrinks_bind; [shrinking|intros; shrinking]
  | |- shrinks (attempt _) => apply shrinks_attempt; shrinking
  | |- shrinks (map_err _ _) => apply shrinks_map_err; shrinking
  | |- shrinks (if ?b then _ else _) => destruct b; shrinking
  | |- shrinks (match ?x with _ => _ end) => destruct x eqn:?; shrinking
  | |- shrinks _ => apply (shrinks_calm (fun _ => False));
      first [by apply calm_notify|by apply calm_hide_target|by eapply calm_resolve|solve [eauto with calm]]
  end.

Definition checks (q : request) : bool := match q with RCheck _ _ | RAccountBlocked _ => true | _ => false end.
Lemma shrinks_serve s q : honest s -> checks q = false -> shrinks (serve s q).
Proof.
  intros Hs Hq. destruct q; try done; cbn [serve]; unfold unit_of, CreateReport, WithdrawReport, ClaimReport,
    DecideReport, punishment_for, RevokePunishment, RevokePunishment_with, CreateAppeal, DecideAppeal,
    DecideAppeal_with; shrinking.
Qed.

(** The row of a punishment stays; it may be lifted, and is never put back. *)
Lemma dsteps_row s0 s1 k p : sound s0 -> rtc dstep s0 s1 -> active p -> is_Some (punishments s0 !! k) ->
  is_Some (punishments s1 !! k) /\ (punishments s1 !! k = Some p -> punishments s0 !! k = Some p).
Proof.
  intros Hs Hr Hp. revert Hs. induction Hr as [s0|s0 s1 s2 Hstep _ IH]; intros Hs [q Hq]; [by eauto|].
  destruct Hs as [W I]. destruct (punishment_kept s0 s1 Hstep k q Hq) as (q' & Hq' & _).
  destruct IH as [Hk Hb]; [by eapply moderation_sound_step|by eauto|]. split; [done|]. intros H2. specialize (Hb H2).
  destruct (punishment_origin s0 s1 W Hstep k p Hb) as [H0|[(H0 & _)|(p0 & _ & _ & _ & _ & Hrev & _)]];
    [done|congruence|]. unfold active in Hp. congruence.
Qed.

Section aware.
Context (Hm : monotone E) (k : Z) (p : Punishment) (Hp : active p).
Notation root := (pun_RootUserID p).

(** While the row of [p] is unchanged, every cached answer for its user was found at
    some time when [p] had started, and names its capability unless [p] had ended. *)
Definition names (t : Z) (m : gmap string bool) : Prop :=
  (forall e, pun_EndsAt p = Some e -> (t < e)%Z) -> has m (pun_Capability p) = true.
Definition aware w : Prop :=
  punishments (st w) !! k = Some p -> forall raw e, rview (t_redis (w_db w)) !! cache_key root = Some (raw, e) ->
    exists t m, (t <= clock w)%Z /\ Unmarshal raw = Some m /\ names t m.
Definition under_way w : Prop := sound (st w) /\ is_Some (punishments (st w) !! k) /\ (pun_StartsAt p <= clock w)%Z.

Lemma aware_shrunk w w' : shrunk w w' ->
  (punishments (st w') !! k = Some p -> punishments (st w) !! k = Some p) -> aware w -> aware w'.
Proof.
  intros (T & _ & V) Hback Ha Hk raw e Hv. destruct (Ha (Hback Hk) raw e (V _ _ Hv)) as (t & m & Ht & ?).
  exists t, m. split; [|done]. etrans; [exact Ht|]. by apply Hm.
Qed.

Lemma wp_stored key m ttl w (Q : res unit -> World DB -> Prop) :
  (forall r w', (w_tick w <= w_tick w')%nat -> st w' = st w -> db_nil (w_db w') = db_nil (w_db w) ->
     (forall j x, rview (t_redis (w_db w')) !! j = Some x ->
        j = key /\ x.1 = Marshal m \/ rview (t_redis (w_db w)) !! j = Some x) -> Q r w') ->
  wp (redis_Set t_redis set_redis key (Marshal m) ttl) Q w.
Proof.
  intros HQ. unfold redis_Set. repeat wp_step. destruct (env_fault _); repeat wp_step; apply HQ; try done; try (simpl; lia).
  - by right.
  - simpl. intros j x [[-> ->]|[_ Hv]]%rset_spec; auto.
Qed.

Lemma wp_active_aware s r w : under_way w ->
  wp (activeCapabilities s r) (fun res w' =>
    ((w_tick w <= w_tick w')%nat /\ st w' = st w /\ db_nil (w_db w') = db_nil (w_db w)) /\ (aware w -> aware w') /\
    ((redis s = true -> aware w) -> r = root -> punishments (st w) !! k = Some p ->
     forall m, res = Ok m -> names (clock w') m)) w.
Proof.
  intros (_ & _ & Hstart). unfold activeCapabilities. apply wp_bind, (wp_cached s).
  2: { intros raw e m w1 (T & _) Hdb Hred _ Hv _ Hun. cbv beta iota. apply wp_ret.
       split; [split; [done|]; split; [unfold st|]; by rewrite Hdb|].
       split; [apply aware_shrunk; [split; [done|]; by rewrite Hdb|unfold st; by rewrite Hdb]|].
       intros Ha -> Hk m' [= <-] Hend. destruct (Ha Hred Hk raw e Hv) as (t & m' & Ht & Hun' & Hn).
       assert (m' = m) as -> by congruence. apply Hn. intros e' He'. specialize (Hend e' He').
       pose proof (Hm _ _ T). unfold clock in *. lia. }
  intros w1 (T1 & _) Hw1. cbv beta iota. apply wp_bind, wp_now. cbv beta iota. fold (clock w1).
  assert (Hst1 : st (bump w1) = st w) by (unfold st; simpl; by rewrite Hw1).
  apply wp_bind, wp_ActivePunishments. intros res w2 (T2 & _) Hw2 Hl. simpl in T2. rewrite Hst1 in Hl.
  assert (Hsh : shrunk w w2) by (split; [lia|]; rewrite Hw2; simpl; by rewrite Hw1).
  assert (Hst2 : st w2 = st w) by (unfold st in *; by rewrite Hw2).
  destruct res as [l|e]; cbv beta iota.
  2: { split; [split; [apply Hsh|]; split; [done|apply Hsh]|]. split; [apply aware_shrunk; [done|by rewrite Hst2]|]. done. }
  specialize (Hl l eq_refl). pose proof (capability_loop_spec (clock w1) l) as [_ Hcap].
  destruct (capability_loop (clock w1) l) as [m ttl]. simpl in Hcap.
  assert (Hc1 : (clock w <= clock w1)%Z) by by apply Hm.
  assert (Hn : r = root -> punishments (st w) !! k = Some p -> names (clock w1) m).
  { intros -> Hk Hend. apply Hcap. exists p. split; [|done]. rewrite Hl. eapply in_rows; [exact Hk|].
    apply andb_true_iff. split; [by apply Z.eqb_eq|]. apply in_force_at; [done|lia|done]. }
  assert (Hlate : forall t m', (clock w1 <= t)%Z -> names (clock w1) m' -> names t m').
  { intros t m' Ht Hm' Hend. apply Hm'. intros e He. specialize (Hend e He). lia. }
  apply wp_bind. eapply (wp_mono _ (fun res w3 => (w_tick w2 <= w_tick w3)%nat /\ st w3 = st w2 /\ db_nil (w_db w3) = db_nil (w_db w2) /\ res = Ok tt /\
    forall j x, rview (t_redis (w_db w3)) !! j = Some x ->
      j = cache_key r /\ x.1 = Marshal m \/ rview (t_redis (w_db w2)) !! j = Some x)).
  { destruct (redis s); [|apply wp_ret; by auto 10]. apply wp_bind, wp_attempt, wp_stored. intros ? w3 T3 S3 N3 V3.
    by apply wp_ret. }
  intros res w3 (T3 & S3 & N3 & -> & V3). cbv beta iota. apply wp_ret.
  assert (Hc3 : (clock w1 <= clock w3)%Z) by (apply Hm; lia).
  split; [destruct Hsh as (? & ? & _); split; [lia|]; split; congruence|]. split; [|intros _ Hr Hk m' [= <-]; apply (Hlate _ _ Hc3), Hn; done].
  intros Ha Hk raw e Hv. rewrite S3, Hst2 in Hk. destruct (V3 _ _ Hv) as [[Hkey Hraw]|Hv'].
  - apply (inj (String.append _)), GoStr.FormatInt_injective in Hkey. simpl in Hraw. subst raw.
    exists (clock w1), m. split; [done|]. split; [apply Unmarshal_Marshal|]. by apply Hn.
  - destruct (Ha Hk raw e) as (t & m' & Ht & ?); [by apply Hsh|]. exists t, m'. split; [|done]. lia.
Qed.

Lemma wp_conj {A} (m : M DB A) (Q1 Q2 : res A -> World DB -> Prop) w :
  wp m Q1 w -> wp m Q2 w -> wp m (fun r w' => Q1 r w' /\ Q2 r w') w.
Proof. unfold wp. by destruct (m w). Qed.
Lemma wp_active_ok s r w : (forall n, env_fault n = false) -> db_nil (w_db w) = false ->
  wp (activeCapabilities s r) (fun res _ => exists m, res = Ok m) w.
Proof.
  intros NF Hdb. unfold activeCapabilities. apply wp_bind, (wp_cached s).
  2: { intros raw e m w1 _ _ _ _ _ _ _. cbv beta iota. apply wp_ret. by eexists. }
  intros w1 _ Hw1. cbv beta iota. apply wp_bind, wp_now. cbv beta iota. apply wp_bind. unfold ActivePunishments.
  apply wp_bind, wp_gormDB_on; [simpl; by rewrite Hw1|]. apply wp_find; [by rewrite NF|]. intros l _. cbv beta iota.
  destruct (capability_loop _ _) as [m ttl]. apply wp_bind. eapply wp_mono; [apply wp_store_answer|].
  intros res w3 [-> _]. apply wp_ret. by eexists.
Qed.

Lemma wp_Check_aware s capability w : under_way w -> (redis s = true -> aware w) ->
  punishments (st w) !! k = Some p -> denies capability p -> (forall n, env_fault n = false) -> db_nil (w_db w) = false ->
  (0 < root)%Z ->
  wp (Check s root capability) (fun res w' =>
    (forall e, pun_EndsAt p = Some e -> (clock w' < e)%Z) -> res = Err ErrCapabilityDenied) w.
Proof.
  intros Hu Ha Hk Hd NF Hdb Hroot. unfold Check. replace (root <=? 0)%Z with false by (symmetry; apply Z.leb_gt; lia).
  apply wp_bind, wp_map_err. eapply wp_mono; [apply wp_conj; [by apply wp_active_ok|by apply wp_active_aware]|].
  intros res w' ([m ->] & _ & _ & Hn). cbv beta iota. specialize (Hn Ha eq_refl Hk m eq_refl).
  destruct (_ || _) eqn:Hb; [done|]. intros Hend. exfalso. specialize (Hn Hend).
  by rewrite (has_denies m capability p Hn Hd) in Hb.
Qed.
(** One more step of the services. *)
Lemma serve_check s q w : checks q = true -> under_way w ->
  let w' := (serve s q w).2 in
  ((w_tick w <= w_tick w')%nat /\ st w' = st w /\ db_nil (w_db w') = db_nil (w_db w)) /\ (aware w -> aware w').
Proof.
  intros Hq Hu. cbv zeta. match goal with |- ?P => change (wp (serve s q) (fun _ w' =>
    ((w_tick w <= w_tick w')%nat /\ st w' = st w /\ db_nil (w_db w') = db_nil (w_db w)) /\ (aware w -> aware w')) w) end.
  destruct q; try done; cbn [serve].
  - unfold Check. apply wp_if; intros _; [done|]. apply wp_bind, wp_map_err.
    eapply wp_mono; [by apply wp_active_aware|]. intros [m|e] w' (? & ? & _); cbv beta iota; [|done].
    by destruct (_ || _).
  - unfold unit_of, AccountBlocked. apply wp_bind, wp_bind. eapply wp_mono; [by apply wp_active_aware|].
    intros [m|e] w' (? & ? & _); cbv beta iota; [|done]. by repeat wp_step.
Qed.
Lemma aware_step w w' : timed_step w w' -> under_way w ->
  under_way w' /\ db_nil (w_db w') = db_nil (w_db w) /\ (aware w -> aware w') /\
  (punishments (st w') !! k = Some p -> punishments (st w) !! k = Some p).
Proof.
  intros Hstep Hu. pose proof Hu as (Hs & Hk & Hstart). destruct Hstep as [[T Hdb]|(s & q & Hh & _ & ->)].
  - assert (st w' = st w) as Hst by (unfold st; by rewrite Hdb).
    split; [|rewrite Hst; split; [by rewrite Hdb|]; split; [|done]].
    + split; [by rewrite Hst|]. split; [by rewrite Hst|]. etrans; [exact Hstart|]. by apply Hm.
    + apply aware_shrunk; [split; [done|]; by rewrite Hdb|by rewrite Hst].
  - destruct (moderation_safe_serve s q Hh (st w) w) as [Hd Hs']; [by apply goes_refl|].
    destruct (dsteps_row _ _ k p Hs Hd Hp Hk) as [Hk' Hback].
    destruct (checks q) eqn:Hq.
    + destruct (serve_check s q w Hq Hu) as ((T & Hst & Hn) & Ha).
      split; [split; [done|]; split; [done|]; etrans; [exact Hstart|]; by apply Hm|]. by split.
    + pose proof (shrinks_serve s q Hh Hq w) as Hsh.
      split; [split; [done|]; split; [done|]; etrans; [exact Hstart|]; apply Hm, Hsh|].
      split; [apply Hsh|]. split; [by apply aware_shrunk|done].
Qed.
Lemma aware_steps w w' : rtc timed_step w w' -> under_way w ->
  under_way w' /\ db_nil (w_db w') = db_nil (w_db w) /\ (aware w -> aware w').
Proof.
  induction 1 as [w|w w1 w2 Hstep _ IH]; intros Hu; [done|].
  destruct (aware_step _ _ Hstep Hu) as (Hu1 & N1 & A1 & _), IH as (Hu2 & N2 & A2); [done|].
  split; [done|]. split; [congruence|]. auto.
Qed.
End aware.

Lemma timed_sound w : timed_history w -> sound (st w).
Proof.
  intros (w0 & H0 & _ & Hr). assert (sound (st w0)) as Hs by (rewrite H0; apply moderation_sound_empty).
  clear H0. induction Hr as [w|w w1 w2 Hstep _ IH]; [done|]. apply IH. destruct Hstep as [[_ Hd]|(s & q & Hh & _ & ->)].
  - unfold st in *. by rewrite Hd.
  - by destruct (moderation_safe_serve s q Hh (st w) w) as [_ ?]; [apply goes_refl|].
Qed.

(** C37: a punishment takes effect at once when nothing fails, and stays in effect: after
    the review that set it, and whatever requests are served after that, one after
    another, the check refuses its user until the punishment ends or is lifted,
    whatever answers were cached before and are cached on the way.  The clock never runs
    backwards, generated ids are new, the duration does not overflow, and a checking
    service with a cache presumes that the reviewing one has it too. *)
Theorem punishment_takes_effect s k admin r req w :
  monotone E -> honest s -> up w -> timed_history w -> fresh_ids w -> punishing k admin r req w ->
  (0 < rpt_TargetRootUserID r)%Z ->
  (forall d, dreq_DurationMinutes req = Some d -> (d * GoTime.Minute < 2 ^ 63)%Z) ->
  let w1 := (DecideReport s (id k) admin req w).2 in
  (DecideReport s (id k) admin req w).1 = Ok tt /\
  exists j p, punishments (st w1) !! j = Some p /\ pun_RootUserID p = rpt_TargetRootUserID r /\
    pun_Capability p = dreq_Capability req /\ (clock w <= pun_StartsAt p <= clock w1)%Z /\
    pun_EndsAt p = (fun d => pun_StartsAt p + d * GoTime.Minute)%Z <$> dreq_DurationMinutes req /\
    forall s' capability w2, rtc timed_step w1 w2 -> punishments (st w2) !! j = Some p ->
      (redis s' = true -> redis s = true) -> denies capability p ->
      let answer := Check s' (rpt_TargetRootUserID r) capability w2 in
      (forall e, pun_EndsAt p = Some e -> (clock answer.2 < e)%Z) -> answer.1 = Err ErrCapabilityDenied.
Proof.
  intros Hm Hs Hup Hh Hfr Hpg Hroot Hov. cbv zeta.
  destruct (moderation_safe_serve s (RDecideReport (id k) admin req) Hs (st w) w) as [_ Hs1];
    [by apply goes_refl, timed_sound|]. cbn [serve] in Hs1.
  pose proof (wp_DecideReport_punish s k admin r req (fun res w1 => res = Ok tt /\ exists p t,
    fits r admin req t (Some p) /\ punishments (st w1) !! pun_ID p = Some p /\ (clock w <= t <= clock w1)%Z /\
    up w1 /\ uncached s (rpt_TargetRootUserID r) w1) w Hm Hs Hup Hfr Hpg) as Hdec.
  unfold wp in Hdec. destruct (DecideReport s (id k) admin req w) as [res w1]. cbn [fst snd] in *.
  destruct Hdec as (-> & p & t & (_ & (_ & Hpr & Hact & _) & Hps & Hpc & Hpe) & Hp & Ht & Hup1 & Hun).
  { intros. split; [done|]. eauto 10. }
  split; [done|]. exists (pun_ID p), p. split; [done|]. split; [done|]. split; [done|]. split; [lia|]. split.
  { rewrite Hpe. destruct (dreq_DurationMinutes req) as [d|] eqn:Hd; [|done]. simpl. f_equal.
    specialize (Hov d eq_refl). pose proof (pg_duration _ _ _ _ _ Hpg d Hd). unfold mul64. rewrite wrap64_small; [lia|].
    unfold in_int64. unfold GoTime.Minute, GoTime.Second in *. lia. }
  intros s' capability w2 Hr Hk Hred Hden Hend.
  destruct (aware_steps Hm (pun_ID p) p Hact w1 w2 Hr) as (Hu2 & Hn2 & Ha2).
  { split; [done|]. split; [by eauto|]. lia. }
  destruct Hup1 as [NF Hdb]. rewrite <- Hpr in *. revert Hend.
  apply (wp_Check_aware Hm (pun_ID p) p Hact s' capability w2); try done; [|congruence].
  intros Hc. apply Ha2. intros _ raw e Hv. exfalso. specialize (Hun (Hred Hc)). congruence.
Qed.
End histories.

(** ** On the run of [ModerationDemo] *)
Import ModerationDemo.

Lemma demo_monotone : monotone demo_env.
Proof. intros n m Hnm. simpl. unfold GoTime.Second. lia. Qed.

(** The same run, with a minute between steps. *)
Definition slow_env : Env := {|
  env_now t := (1700000000 * GoTime.Second + Z.of_nat t * GoTime.Minute)%Z;
  env_id t := (1000 + Z.of_nat t)%Z;
  env_fault _ := false;
|}.
Lemma slow_monotone : monotone slow_env.
Proof. intros n m Hnm. simpl. unfold GoTime.Minute, GoTime.Second. lia. Qed.

Definition at_slow : World (DB cache) := run (E := slow_env) demo_service to_punished w0.

Lemma at_slow_history : timed_history (E := slow_env) at_slow.
Proof.
  apply (timed_run (E := slow_env)); [apply moderation_demo_honest| |apply moderation_empty_start|reflexivity].
  by repeat (apply Forall_cons; split; [done|]).
Qed.

Lemma punishment_noticed_witness :
  (Check (E := slow_env) demo_service 9 "content" at_slow).1 <> Ok tt.
Proof.
  row (punishments (st at_slow)) 1010%Z
    (fun p => bool_decide (pun_Status p = PunishmentActive) && (pun_RootUserID p =? 9)%Z
      && bool_decide (pun_Capability p = "content"%string)
      && bool_decide (pun_EndsAt p = Some (1700004140 * GoTime.Second)%Z)
      && (pun_StartsAt p =? 1700000540 * GoTime.Second)%Z) p Hp Hf.
  refine (punishment_noticed (E := slow_env) demo_service at_slow 9 "content" 1010 p slow_monotone
    moderation_demo_honest at_slow_history _ Hp _ _ _ _ _).
  - unfold in_int64. lia.
  - assumption.
  - assumption.
  - right. assumption.
  - rewrite H0. vm_compute. discriminate.
  - intros e He. rewrite H1 in He. injection He as <-. vm_compute. reflexivity.
Defined.

Lemma at_punished_up : up at_punished.
Proof. split; [reflexivity|vm_compute; reflexivity]. Qed.
Lemma at_punished_uncached root : uncached demo_service root at_punished.
Proof.
  intros _. assert (Hr : t_redis (w_db at_punished) = (∅ : rstore cache)) by (vm_compute; reflexivity).
  rewrite Hr. simpl. by rewrite lookup_empty.
Qed.

Lemma Check_spec_witness :
  exists t, (clock at_punished <= t)%Z /\
    (((Check demo_service 9 "content" at_punished).1 = Err ErrCapabilityDenied /\
      barred (st at_punished) 9 "content" t) \/
     ((Check demo_service 9 "content" at_punished).1 = Ok tt /\ ~ barred (st at_punished) 9 "content" t)).
Proof.
  assert (Hr : (0 < 9)%Z) by lia.
  destruct (Check_spec demo_service 9 "content" at_punished demo_monotone at_punished_up
    (at_punished_uncached 9) Hr) as (t & [Ht _] & Hc).
  exists t. split; [exact Ht|exact Hc].
Defined.

Lemma at_claimed_up : up at_claimed.
Proof. split; [reflexivity|vm_compute; reflexivity]. Qed.
Lemma at_claimed_fresh : fresh_ids at_claimed.
Proof.
  intros n _.
  assert (Hp : punishments (st at_claimed) = ∅) by (vm_compute; reflexivity).
  assert (Ha : audits (st at_claimed) = ∅) by (vm_compute; reflexivity).
  rewrite Hp, Ha. by rewrite !lookup_empty.
Qed.

(** The punished user is checked twice before the last check. *)
Definition meanwhile : list request := [RCheck 9 "content"; RCheck 9 "content"].
Definition at_decided : World (DB cache) := (DecideReport demo_service "1001" 3 punish_req at_claimed).2.
Definition at_checked : World (DB cache) := run demo_service meanwhile at_decided.

Lemma at_claimed_history : timed_history at_claimed.
Proof.
  apply timed_run; [apply moderation_demo_honest| |apply moderation_empty_start|reflexivity].
  by repeat (apply Forall_cons; split; [done|]).
Qed.
Lemma punishment_takes_effect_witness :
  (Check demo_service 9 "content" at_checked).1 = Err ErrCapabilityDenied.
Proof.
  row (reports (st at_claimed)) 1001%Z (fun r => bool_decide (rpt_Status r = ReportReviewing)
    && bool_decide (rpt_AssigneeAdminID r = Some 3%Z) && (rpt_TargetRootUserID r =? 9)%Z) r Hr Hf.
  assert (Hpg : punishing 1001 3 r punish_req at_claimed).
  { split; [unfold in_int64; lia|exact Hr|assumption|assumption|reflexivity| |].
    - apply (bool_decide_unpack _). vm_compute. exact I.
    - intros d Hd. injection Hd as <-. lia. }
  assert (Hroot : (0 < rpt_TargetRootUserID r)%Z) by lia.
  assert (Hd : forall d, dreq_DurationMinutes punish_req = Some d -> (d * GoTime.Minute < 2 ^ 63)%Z)
    by (intros d Hd; injection Hd as <-; vm_compute; reflexivity).
  destruct (punishment_takes_effect demo_service 1001 3 r punish_req at_claimed demo_monotone
    moderation_demo_honest at_claimed_up at_claimed_history at_claimed_fresh Hpg Hroot Hd)
    as (_ & j & p & Hj & Hpr & Hpc & Hps & Hpe & Hw).
  replace (rpt_TargetRootUserID r) with 9%Z in Hw by congruence. apply Hw.
  - apply timed_steps; [apply moderation_demo_honest|]. by repeat (apply Forall_cons; split; [done|]).
  - revert Hj. change (punishments (st at_checked)) with (punishments (st (run demo_service meanwhile at_decided))).
    assert (Hsame : punishments (st (run demo_service meanwhile at_decided)) = punishments (st at_decided)) by (vm_compute; reflexivity).
    rewrite Hsame. exact (fun H => H).
  - done.
  - right. rewrite Hpc. reflexivity.
  - intros e He. rewrite He in Hpe. injection Hpe as ->.
    assert (Ht : (clock at_claimed + 60 * GoTime.Minute > clock (Check demo_service 9 "content" at_checked).2)%Z)
      by (vm_compute; reflexivity).
    destruct Hps as [Hps _]. unfold GoTime.Minute, GoTime.Second in *. lia.
Defined.
End ModerationGuard.
