(* ===== verification/AcademicModel.v ===== *)
(** * Academic: data model

    The rows of [internal/academic/model.go], the unique indexes of migration 000003
    and the store of the academic service.  MySQL compares and indexes the text
    columns by their collation, a parameter.  Averages are the [DECIMAL] values MySQL
    computes, in units of a ten-thousandth. *)
From S2P Require Import Prelude GoString GoTime GoMonad Sql.

(** [golang.org/x/text/unicode/norm] and the tables of [unicode]: compatibility
    composition, and the lower case of a text. *)
Class UnicodeText := {
  NFKC : string -> string;
  unicode_lower : string -> string;
}.
#[export] Instance ascii_text : UnicodeText | 10 := {| NFKC s := s; unicode_lower := GoStr.ToLower |}.

Module Academic.

Inductive Status := StatusNormal | StatusHidden | StatusDeleted | StatusMerged.
#[export] Instance Status_eq : EqDecision Status.
Proof. solve_decision. Defined.
Definition status_text (s : Status) : string :=
  match s with
  | StatusNormal => "normal" | StatusHidden => "hidden" | StatusDeleted => "deleted" | StatusMerged => "merged"
  end.

Record Course := mkCourse {
  crs_ID : Z;
  crs_School : string;
  crs_Name : string;
  crs_NormalizedName : string;
  crs_Teacher : string;
  crs_NormalizedTeacher : string;
  crs_Description : string;
  crs_Status : Status;
  crs_MergeTargetID : option Z;
  crs_CreatedByRootUserID : Z;
  crs_CreatedAt : Z;
  crs_UpdatedAt : Z;
}.

Record Review := mkReview {
  rvw_ID : Z;
  rvw_CourseID : Z;
  rvw_RootUserID : Z;
  rvw_Semester : string;
  rvw_Content : string;
  rvw_OverallRating : Z;
  rvw_DifficultyRating : Z;
  rvw_WorkloadRating : Z;
  rvw_GainRating : Z;
  rvw_Status : Status;
  rvw_CreatedAt : Z;
  rvw_UpdatedAt : Z;
}.

Record Material := mkMaterial {
  mat_ID : Z;
  mat_CourseID : Z;
  mat_RootUserID : Z;
  mat_Semester : string;
  mat_Title : string;
  mat_Description : string;
  mat_OriginalName : string;
  mat_MIMEType : string;
  mat_SizeBytes : Z;
  mat_FileMD5 : string;
  mat_Status : Status;
  mat_CreatedAt : Z;
  mat_UpdatedAt : Z;
}.

(** The four averages are in ten-thousandths. *)
Record RatingStats := mkRatingStats {
  rs_Count : Z; rs_Overall : Z; rs_Difficulty : Z; rs_Workload : Z; rs_Gain : Z }.

(** ** Unique indexes *)
Definition same_course {C : Collation} (a b : Course) : bool :=
  same_text (crs_School a) (crs_School b) && same_text (crs_NormalizedName a) (crs_NormalizedName b)
  && same_text (crs_NormalizedTeacher a) (crs_NormalizedTeacher b).
Definition same_owner (a b : Review) : bool :=
  (rvw_CourseID a =? rvw_CourseID b)%Z && (rvw_RootUserID a =? rvw_RootUserID b)%Z.
#[export] Instance Course_entity {C : Collation} : Entity Course := {
  ent_id := crs_ID; ent_clash := same_course }.
#[export] Instance Review_entity : Entity Review := { ent_id := rvw_ID; ent_clash := same_owner }.
#[export] Instance Material_entity : Entity Material := { ent_id := mat_ID; ent_clash _ _ := false }.

(** ** The store *)
Section store.
Context {C : Collation} {D : SqlEngine}.

Record DB := mkDB {
  db_nil : bool;
  t_courses : table Course _;
  t_reviews : table Review _;
  t_materials : table Material _;
}.
End store.
Arguments DB C D : clear implicits.

Record State := mkState {
  courses : gmap Z Course;
  reviews : gmap Z Review;
  materials : gmap Z Material;
}.
Definition set_courses v s := {| s with courses := v |}.
Definition set_reviews v s := {| s with reviews := v |}.
Definition set_materials v s := {| s with materials := v |}.

Section tables.
Context {C : Collation} {D : SqlEngine}.
Notation DB := (DB C D).

Definition db_state (s : DB) : State :=
  mkState (view (t_courses s)) (view (t_reviews s)) (view (t_materials s)).
#[export] Instance DB_abs : Abstract DB State := db_state.

#[export] Instance tbl_courses : Tbl DB State Course _ _.
Proof.
  refine {| tget := t_courses; tset t s := {| s with t_courses := t |};
    aget := courses; aset := set_courses |}; by intros; try destruct a.
Defined.
#[export] Instance tbl_reviews : Tbl DB State Review _ _.
Proof.
  refine {| tget := t_reviews; tset t s := {| s with t_reviews := t |};
    aget := reviews; aset := set_reviews |}; by intros; try destruct a.
Defined.
#[export] Instance tbl_materials : Tbl DB State Material _ _.
Proof.
  refine {| tget := t_materials; tset t s := {| s with t_materials := t |};
    aget := materials; aset := set_materials |}; by intros; try destruct a.
Defined.
End tables.
#[global] Opaque db_state DB_abs.
End Academic.
