(* ===== verification/AcademicRepo.v ===== *)
(** * Academic: the repository

    One definition per method of [internal/academic/repository.go]; the transactions
    run alone.  A list query is its condition; the text comparisons of the [WHERE]
    clauses go through the collation. *)
From S2P Require Import Prelude GoString GoTime GoMonad Sql AcademicModel.

Module AcademicRepo.
Import Academic.

Definition always {R} (_ : R) : bool := true.

(** ** Row updates *)
Definition review_edit (review : Review) (r : Review) : Review :=
  {| r with rvw_Semester := rvw_Semester review; rvw_Content := rvw_Content review;
            rvw_OverallRating := rvw_OverallRating review; rvw_DifficultyRating := rvw_DifficultyRating review;
            rvw_WorkloadRating := rvw_WorkloadRating review; rvw_GainRating := rvw_GainRating review;
            rvw_Status := StatusNormal; rvw_UpdatedAt := rvw_UpdatedAt review |}.
Definition review_status (status : Status) (now : Z) (r : Review) : Review :=
  {| r with rvw_Status := status; rvw_UpdatedAt := now |}.
Definition review_move (targetID now : Z) (r : Review) : Review :=
  {| r with rvw_CourseID := targetID; rvw_UpdatedAt := now |}.
Definition review_take (review : Review) (now : Z) (r : Review) : Review :=
  {| r with rvw_Semester := rvw_Semester review; rvw_Content := rvw_Content review;
            rvw_OverallRating := rvw_OverallRating review; rvw_DifficultyRating := rvw_DifficultyRating review;
            rvw_WorkloadRating := rvw_WorkloadRating review; rvw_GainRating := rvw_GainRating review;
            rvw_Status := rvw_Status review; rvw_UpdatedAt := now |}.
Definition material_status (status : Status) (now : Z) (m : Material) : Material :=
  {| m with mat_Status := status; mat_UpdatedAt := now |}.
Definition material_move (targetID now : Z) (m : Material) : Material :=
  {| m with mat_CourseID := targetID; mat_UpdatedAt := now |}.
Definition course_status (status : Status) (now : Z) (c : Course) : Course :=
  {| c with crs_Status := status; crs_UpdatedAt := now |}.
Definition course_merge (targetID now : Z) (c : Course) : Course :=
  {| c with crs_Status := StatusMerged; crs_MergeTargetID := Some targetID; crs_UpdatedAt := now |}.

Definition course_is (st : Status) (c : Course) : bool := bool_decide (crs_Status c = st).
Definition review_is (st : Status) (r : Review) : bool := bool_decide (rvw_Status r = st).
Definition material_is (st : Status) (m : Material) : bool := bool_decide (mat_Status m = st).
Definition review_of (courseID : Z) (r : Review) : bool := (rvw_CourseID r =? courseID)%Z.
Definition owned_review (courseID rootUserID : Z) (r : Review) : bool :=
  review_of courseID r && (rvw_RootUserID r =? rootUserID)%Z.

(** [COALESCE(AVG(x), 0)]: rounded to four decimals, half away from zero. *)
Definition avg4 (l : list Z) : Z :=
  let n := Z.of_nat (length l) in
  if (n =? 0)%Z then 0%Z
  else
    let x := (foldr Z.add 0 l * 10000)%Z in
    ((if (0 <=? x)%Z then 1 else -1) * ((2 * Z.abs x + n) / (2 * n)))%Z.
Definition stats_of (rows : list Review) : RatingStats :=
  mkRatingStats (Z.of_nat (length rows)) (avg4 (rvw_OverallRating <$> rows))
    (avg4 (rvw_DifficultyRating <$> rows)) (avg4 (rvw_WorkloadRating <$> rows))
    (avg4 (rvw_GainRating <$> rows)).

Section repo.
Context {E : Env} {C : Collation} {D : SqlEngine}.
Notation DB := (DB C D).
Notation M := (M DB).

Definition gormDB : M unit :=
  let! s := get_db in
  if db_nil s then throw (ENew "academic database not initialized") else ret tt.

(** [Count], then [Order(key DESC).Offset((page - 1) * size).Limit(size).Find]. *)
Definition list_page (R : Type) {HE : Entity R} {HT : Tbl DB State R HE _} (base : R -> bool) (key : R -> Z)
    (pageNo size : Z) : M (list R * Z) :=
  gormDB;;
  let! total := count R base in
  let! rows := find R base in
  ret (page (mul64 (sub64 pageNo 1) size) size (order_by (fun r => - key r)%Z rows), total).

(** [result.RowsAffected > 0, result.Error] *)
Definition set_row (R : Type) {HE : Entity R} {HT : Tbl DB State R HE _} (q : R -> bool) (f : R -> R) : M bool :=
  gormDB;; let! n := update R q f in ret (0 <? n)%Z.

Definition CreateCourse (course : Course) : M unit :=
  gormDB;; map_err (EWrapf "create course") (insert Course course).

Definition FindCourseByIdentity (school normalizedName normalizedTeacher : string) : M (option Course) :=
  gormDB;;
  or_nil (take Course (fun c => same_text (crs_School c) school
    && same_text (crs_NormalizedName c) normalizedName && same_text (crs_NormalizedTeacher c) normalizedTeacher)).

Definition FindCourse (id : Z) : M (option Course) := gormDB;; or_nil (take Course (byid id always)).

Definition SearchCourses (school keyword : string) (pageNo size : Z) : M (list Course * Z) :=
  let pat := ("%" ++ keyword ++ "%")%string in
  list_page Course (fun c => same_text (crs_School c) school && course_is StatusNormal c
    && (if negb (String.eqb keyword "") then like (crs_Name c) pat || like (crs_Teacher c) pat else true))
    crs_UpdatedAt pageNo size.

Definition ListReviews (courseID pageNo size : Z) : M (list Review * Z) :=
  list_page Review (fun r => review_of courseID r && review_is StatusNormal r) rvw_UpdatedAt pageNo size.

Definition RatingStats (courseID : Z) : M RatingStats :=
  gormDB;;
  let! rows := find Review (fun r => review_of courseID r && review_is StatusNormal r) in
  ret (stats_of rows).

(** The review is returned as the call leaves it. *)
Definition SaveReview (review : Review) : M Review :=
  gormDB;;
  transaction (
    let! r := attempt (take Review (owned_review (rvw_CourseID review) (rvw_RootUserID review))) in
    match r with
    | Err e => if errors_Is e record_not_found_text then insert Review review;; ret review else throw e
    | Ok existing =>
      let review := {| review with rvw_ID := rvw_ID existing; rvw_CreatedAt := rvw_CreatedAt existing |} in
      update Review (byid (rvw_ID existing) always) (review_edit review);;
      ret review
    end).

Definition DeleteReview (courseID rootUserID now : Z) : M bool :=
  set_row Review (fun r => owned_review courseID rootUserID r && negb (review_is StatusDeleted r))
    (review_status StatusDeleted now).

Definition CreateMaterial (material : Material) : M unit := gormDB;; insert Material material.

Definition ListMaterials (query : Material -> bool) (pageNo size : Z) : M (list Material * Z) :=
  list_page Material query mat_CreatedAt pageNo size.

Definition FindMaterial (id : Z) : M (option Material) := gormDB;; or_nil (take Material (byid id always)).

Definition UpdateMaterialStatus (id : Z) (owner : option Z) (status : Status) (now : Z) : M bool :=
  set_row Material
    (byid id (fun m => match owner with Some o => (mat_RootUserID m =? o)%Z | None => true end))
    (material_status status now).

Definition UpdateCourseStatus (id : Z) (status : Status) (now : Z) : M bool :=
  set_row Course (byid id always) (course_status status now).

Definition UpdateReviewStatus (id : Z) (status : Status) (now : Z) : M bool :=
  set_row Review (byid id always) (review_status status now).

Definition FindReview (id : Z) : M (option Review) := gormDB;; or_nil (take Review (byid id always)).

(** The body of the loop of [MergeCourses]. *)
Definition merge_review (targetID now : Z) (review : Review) : M unit :=
  let! r := attempt (take Review (owned_review targetID (rvw_RootUserID review))) in
  match r with
  | Err e =>
    if errors_Is e record_not_found_text
    then let! _ := update Review (byid (rvw_ID review) always) (review_move targetID now) in ret tt
    else throw e
  | Ok existing =>
    (if (rvw_UpdatedAt existing <? rvw_UpdatedAt review)%Z
     then let! _ := update Review (byid (rvw_ID existing) always) (review_take review now) in ret tt
     else ret tt);;
    let! _ := update Review (byid (rvw_ID review) always) (review_status StatusMerged now) in ret tt
  end.

Definition MergeCourses (sourceID targetID now : Z) : M unit :=
  gormDB;;
  transaction (
    take Course (byid sourceID (course_is StatusNormal));;
    take Course (byid targetID (course_is StatusNormal));;
    let! reviews := find Review (review_of sourceID) in
    for_each reviews (merge_review targetID now);;
    update Material (fun m => (mat_CourseID m =? sourceID)%Z) (material_move targetID now);;
    let! _ := update Course (byid sourceID always) (course_merge targetID now) in ret tt).
End repo.
End AcademicRepo.
