(* ===== verification/AcademicRefine.v ===== *)
(** * Academic: the repository implements the specification

    Every writing method either reports an error and leaves the tables as they were,
    or performs transitions of [astep].  The loop of [MergeCourses] computes
    [merge_reviews], whatever order the engine returns the reviews in. *)
From S2P Require Import Prelude GoString GoTime GoMonad Sql Safe AcademicModel AcademicRepo.

(** ** Academic: specification and invariants

    [astep] has one rule per transition of courses, reviews and materials.  A merge of
    two courses is one transition: [merge_row] says what becomes of each review.
    [Inv] is what every reachable state satisfies: references lead somewhere, ratings
    are in range, and merges form no cycle. *)

Module AcademicSpec.
Import Academic AcademicRepo.

Definition rating (v : Z) : Prop := (1 <= v <= 5)%Z.
Definition rated (r : Review) : Prop :=
  rating (rvw_OverallRating r) /\ rating (rvw_DifficultyRating r)
  /\ rating (rvw_WorkloadRating r) /\ rating (rvw_GainRating r).

(** ** Merging the reviews of a course into another's *)

(** The user's review of a course. *)
Definition find_review (m : gmap Z Review) (course user : Z) : option Review :=
  List.find (owned_review course user) (map_to_list m).*2.

(** A review of the source course moves to the target, unless its author has one
    there: then the newer text stays on the target and the source's row is closed. *)
Definition merge_row (src tgt now : Z) (m : gmap Z Review) (r : Review) : Review :=
  if review_of src r then
    match find_review m tgt (rvw_RootUserID r) with
    | None => review_move tgt now r
    | Some _ => review_status StatusMerged now r
    end
  else if review_of tgt r then
    match find_review m src (rvw_RootUserID r) with
    | Some x => if (rvw_UpdatedAt r <? rvw_UpdatedAt x)%Z then review_take x now r else r
    | None => r
    end
  else r.
Definition merge_reviews (src tgt now : Z) (m : gmap Z Review) : gmap Z Review :=
  merge_row src tgt now m <$> m.
Definition merge_materials (src tgt now : Z) (m : gmap Z Material) : gmap Z Material :=
  upd_view (fun x => (mat_CourseID x =? src)%Z) (material_move tgt now) m.

(** ** Transitions *)
Inductive astep (s : State) : State -> Prop :=
| a_course c :
  courses s !! crs_ID c = None -> crs_Status c = StatusNormal -> crs_MergeTargetID c = None ->
  astep s (set_courses (<[crs_ID c := c]> (courses s)) s)
| a_course_status k c st now :
  courses s !! k = Some c -> st = StatusNormal \/ st = StatusHidden ->
  astep s (set_courses (<[k := course_status st now c]> (courses s)) s)
| a_review r :
  reviews s !! rvw_ID r = None -> rvw_Status r = StatusNormal -> rated r ->
  is_Some (courses s !! rvw_CourseID r) ->
  astep s (set_reviews (<[rvw_ID r := r]> (reviews s)) s)
| a_review_edit k r review :
  reviews s !! k = Some r -> rated review ->
  rvw_CourseID review = rvw_CourseID r -> rvw_RootUserID review = rvw_RootUserID r ->
  astep s (set_reviews (<[k := review_edit review r]> (reviews s)) s)
| a_review_delete course user now :
  astep s (set_reviews (upd_view (fun r => owned_review course user r && negb (review_is StatusDeleted r))
    (review_status StatusDeleted now) (reviews s)) s)
| a_review_status k r st now :
  reviews s !! k = Some r -> st = StatusNormal \/ st = StatusHidden ->
  astep s (set_reviews (<[k := review_status st now r]> (reviews s)) s)
| a_material m :
  materials s !! mat_ID m = None -> mat_Status m = StatusNormal -> is_Some (courses s !! mat_CourseID m) ->
  astep s (set_materials (<[mat_ID m := m]> (materials s)) s)
| a_material_status k m st now :
  materials s !! k = Some m -> st <> StatusMerged ->
  astep s (set_materials (<[k := material_status st now m]> (materials s)) s)
| a_merge src tgt c d now :
  courses s !! src = Some c -> courses s !! tgt = Some d -> src <> tgt ->
  crs_Status c = StatusNormal -> crs_Status d = StatusNormal ->
  astep s (set_courses (<[src := course_merge tgt now c]> (courses s))
    (set_materials (merge_materials src tgt now (materials s))
      (set_reviews (merge_reviews src tgt now (reviews s)) s))).

Definition empty_state : State := mkState ∅ ∅ ∅.

(** ** The invariant *)
Definition merge_edge (s : State) (k t : Z) : Prop :=
  exists c, courses s !! k = Some c /\ crs_Status c = StatusMerged /\ crs_MergeTargetID c = Some t.

Record wf (s : State) : Prop := {
  wf_courses : forall k c, courses s !! k = Some c -> crs_ID c = k;
  wf_reviews : forall k r, reviews s !! k = Some r -> rvw_ID r = k;
  wf_materials : forall k m, materials s !! k = Some m -> mat_ID m = k;
}.

Record Inv (s : State) : Prop := {
  ai_rated : forall k r, reviews s !! k = Some r -> rated r;
  ai_review : forall k r, reviews s !! k = Some r -> is_Some (courses s !! rvw_CourseID r);
  ai_material : forall k m, materials s !! k = Some m -> is_Some (courses s !! mat_CourseID m);
  ai_target : forall k c t, courses s !! k = Some c -> crs_MergeTargetID c = Some t ->
    t <> k /\ is_Some (courses s !! t);
  ai_merged : forall k c, courses s !! k = Some c -> crs_Status c = StatusMerged -> is_Some (crs_MergeTargetID c);
  ai_live : forall k c, courses s !! k = Some c -> crs_Status c <> StatusDeleted;
  ai_rank : exists rank : Z -> Z, forall k t, merge_edge s k t -> (rank k < rank t)%Z;
}.
Definition sound (s : State) : Prop := wf s /\ Inv s.

Lemma academic_sound_empty : sound empty_state.
Proof.
  split; split; simpl; try (intros; by match goal with H : ∅ !! _ = Some _ |- _ => rewrite lookup_empty in H end).
  exists (fun _ => 0%Z). intros k t (c & Hc & _). simpl in Hc. by rewrite lookup_empty in Hc.
Qed.

(** Ranks forbid cycles. *)
Lemma rank_acyclic s (rank : Z -> Z) : (forall k t, merge_edge s k t -> (rank k < rank t)%Z) ->
  forall k t, tc (merge_edge s) k t -> (rank k < rank t)%Z.
Proof. intros H k t Ht. induction Ht as [k t He|k u t He _ IH]; [by apply H|]. specialize (H _ _ He). lia. Qed.

Lemma find_review_some m course user r : find_review m course user = Some r ->
  (exists k, m !! k = Some r) /\ rvw_CourseID r = course /\ rvw_RootUserID r = user.
Proof.
  unfold find_review. intros H. apply find_some in H as [Hin Ho]. split.
  - apply list_elem_of_In, list_elem_of_fmap in Hin as ([k x] & -> & Hin). exists k.
    by apply elem_of_map_to_list in Hin.
  - unfold owned_review, review_of in Ho. bools. done.
Qed.

Section step.
Variables s s' : State.
Hypothesis W : wf s.
Hypothesis I : Inv s.
Hypothesis Hs : astep s s'.

(** Courses are never removed. *)
Lemma course_kept k : is_Some (courses s !! k) -> is_Some (courses s' !! k).
Proof.
  destruct Hs; simpl; try done; intros Hk;
    match goal with |- is_Some (<[?i := _]> _ !! _) => destruct (decide (i = k)) as [->|] end;
    rewrite ?lookup_insert_eq, ?lookup_insert_ne by done; done.
Qed.

Lemma merge_row_keeps src tgt now m r :
  rvw_ID (merge_row src tgt now m r) = rvw_ID r /\ rvw_RootUserID (merge_row src tgt now m r) = rvw_RootUserID r
  /\ (rvw_CourseID (merge_row src tgt now m r) = rvw_CourseID r \/ rvw_CourseID (merge_row src tgt now m r) = tgt).
Proof. unfold merge_row. repeat case_match; simpl; auto. Qed.

Lemma academic_review_step k r : reviews s' !! k = Some r ->
  rvw_ID r = k /\ rated r /\ is_Some (courses s' !! rvw_CourseID r).
Proof.
  intros Hk. assert (Hold : reviews s !! k = Some r -> rvw_ID r = k /\ rated r /\ is_Some (courses s' !! rvw_CourseID r)).
  { intros H. split; [by eapply wf_reviews|]. split; [by eapply ai_rated|]. by eapply course_kept, ai_review. }
  pose proof course_kept as Hc. destruct Hs; simpl in *; auto; split_lookups; auto.
  - split; [by eapply wf_reviews|]. split; [done|]. by eapply ai_review.
  - rewrite lookup_upd_view in Hk. destruct (reviews s !! k) as [x|] eqn:Hx; simplify_eq/=.
    pose proof (wf_reviews _ W _ _ Hx). pose proof (ai_rated _ I _ _ Hx). pose proof (ai_review _ I _ _ Hx).
    by destruct (_ && _).
  - split; [by eapply wf_reviews|]. split; [by apply (ai_rated _ I _ _ H)|by eapply ai_review].
  - unfold merge_reviews in Hk. rewrite lookup_fmap in Hk.
    destruct (reviews s !! k) as [x|] eqn:Hx; simplify_eq/=.
    destruct (merge_row_keeps src tgt now (reviews s) x) as (Hid & _ & Hcrs). rewrite Hid.
    split; [by eapply wf_reviews|]. split.
    + pose proof (ai_rated _ I _ _ Hx) as Hr. unfold merge_row. repeat case_match; try exact Hr.
      match goal with H : find_review _ _ _ = Some ?y |- _ =>
        apply find_review_some in H as [[k' H] _]; exact (ai_rated _ I _ _ H) end.
    + apply Hc. destruct Hcrs as [->| ->]; [by eapply ai_review|done].
Qed.

Lemma academic_material_step k m : materials s' !! k = Some m ->
  mat_ID m = k /\ is_Some (courses s' !! mat_CourseID m).
Proof.
  intros Hk. assert (Hold : materials s !! k = Some m -> mat_ID m = k /\ is_Some (courses s' !! mat_CourseID m)).
  { intros H. split; [by eapply wf_materials|]. by eapply course_kept, ai_material. }
  pose proof course_kept as Hc. destruct Hs; simpl in *; auto; split_lookups; auto.
  - split; [by eapply wf_materials|]. by eapply ai_material.
  - unfold merge_materials in Hk. rewrite lookup_upd_view in Hk.
    destruct (materials s !! k) as [x|] eqn:Hx; simplify_eq/=. pose proof (wf_materials _ W _ _ Hx).
    destruct (_ =? _)%Z; simpl; (split; [done|]); apply Hc; [done|by eapply ai_material].
Qed.

(** Where the rows of the course table come from. *)
Lemma course_origin k c' : courses s' !! k = Some c' ->
  crs_ID c' = k /\
  ((courses s !! k = Some c') \/
   (courses s !! k = None /\ crs_Status c' = StatusNormal /\ crs_MergeTargetID c' = None) \/
   exists c, courses s !! k = Some c /\
     ((crs_MergeTargetID c' = crs_MergeTargetID c /\ (crs_Status c' = StatusNormal \/ crs_Status c' = StatusHidden))
      \/ exists t d, crs_Status c' = StatusMerged /\ crs_MergeTargetID c' = Some t /\ t <> k /\
           courses s !! t = Some d /\ crs_Status d = StatusNormal /\ forall j, j <> k -> courses s' !! j = courses s !! j)).
Proof.
  intros Hk. assert (Hold : courses s !! k = Some c' -> crs_ID c' = k) by (by apply wf_courses).
  destruct Hs; simpl in *; auto; split_lookups; auto; (split; [first [done|simpl; by eapply wf_courses]|]).
  - right. left. done.
  - right. right. exists c. split; [done|]. left. auto.
  - right. right. exists c. split; [done|]. right. exists tgt, d. repeat (split; [done|]). intros j Hj. by rewrite lookup_insert_ne.
Qed.

Lemma step_target k c t : courses s' !! k = Some c -> crs_MergeTargetID c = Some t ->
  t <> k /\ is_Some (courses s' !! t).
Proof.
  intros Hk Ht. destruct (course_origin _ _ Hk) as (_ & [H0|[(_ & _ & Hn)|(c0 & H0 & [[He _]|(t' & d & _ & He & Hne & Hd & _)])]]).
  - destruct (ai_target _ I _ _ _ H0 Ht). eauto using course_kept.
  - congruence.
  - rewrite He in Ht. destruct (ai_target _ I _ _ _ H0 Ht). eauto using course_kept.
  - rewrite He in Ht. simplify_eq. eauto using course_kept.
Qed.

Lemma step_merged k c : courses s' !! k = Some c -> crs_Status c = StatusMerged -> is_Some (crs_MergeTargetID c).
Proof.
  intros Hk Hm. destruct (course_origin _ _ Hk) as (_ & [H0|[(_ & Hn & _)|(c0 & H0 & [[_ [He|He]]|(t' & d & _ & He & _)])]]);
    try congruence; [by eapply ai_merged|by rewrite He].
Qed.

Lemma step_live k c : courses s' !! k = Some c -> crs_Status c <> StatusDeleted.
Proof.
  intros Hk. destruct (course_origin _ _ Hk) as (_ & [H0|[(_ & Hn & _)|(c0 & H0 & [[_ [He|He]]|(t' & d & He & _)])]]);
    try congruence. by eapply ai_live.
Qed.

(** The rank of a new target is raised above its source's. *)
Lemma step_rank : exists rank : Z -> Z, forall k t, merge_edge s' k t -> (rank k < rank t)%Z.
Proof.
  destruct (ai_rank _ I) as [rank Hr].
  assert (Hcase : (forall k t, merge_edge s' k t -> merge_edge s k t) \/
    exists src tgt d, courses s !! tgt = Some d /\ crs_Status d = StatusNormal /\ src <> tgt /\
      forall k t, merge_edge s' k t -> k = src /\ t = tgt \/ k <> tgt /\ merge_edge s k t).
  { destruct Hs; try (by left); try (left; intros k' t' (c' & Hc' & Hst & Htg); simpl in *; split_lookups;
      first [congruence | by exists c' | destruct H0; congruence]).
    right. exists src, tgt, d. repeat (split; [done|]). intros k' t' (c' & Hc' & Hst & Htg). simpl in *.
    split_lookups; [left; by simplify_eq/=|]. right. split; [intros ->; congruence|by exists c']. }
  destruct Hcase as [Hsub|(src & tgt & d & Hd & Hn & Hne & He)]; [exists rank; eauto|].
  exists (fun k => if decide (k = tgt) then (Z.max (rank tgt) (rank src + 1))%Z else rank k).
  intros k t Hk. destruct (He _ _ Hk) as [[-> ->]|[Hkt Hold]].
  - rewrite decide_False by done. rewrite decide_True by done. lia.
  - specialize (Hr _ _ Hold). rewrite (decide_False (P := k = tgt)) by done. case_decide; subst; lia.
Qed.

Lemma academic_sound : sound s'.
Proof.
  split; split; try (intros k x Hk; by apply academic_review_step in Hk as (? & ? & ?));
    try (intros k x Hk; by apply academic_material_step in Hk as (? & ?));
    eauto using step_target, step_merged, step_live, step_rank.
  intros k c Hk. by apply course_origin in Hk as [? _].
Qed.
End step.

Lemma academic_sound_step s s' : sound s -> astep s s' -> sound s'.
Proof. intros [W I] Hs. by eapply academic_sound. Qed.
End AcademicSpec.

Module AcademicRefine.
Import Safe.
Import Academic AcademicRepo AcademicSpec.

#[export] Instance academic_system : System State := {|
  sys_step := astep; sys_inv := sound; sys_inv_step := academic_sound_step |}.

Section base.
Context {E : Env} {C : Collation} {D : SqlEngine}.
Notation DB := (DB C D).
Implicit Types (w : World DB).

Lemma academic_wp_gormDB (Q : res unit -> World DB -> Prop) w :
  (db_nil (w_db w) = false -> Q (Ok tt) w) ->
  (db_nil (w_db w) = true -> Q (Err (ENew "academic database not initialized")) w) ->
  wp gormDB Q w.
Proof. unfold wp, gormDB, bind, get_db. simpl. destruct (db_nil (w_db w)); auto. Qed.

Lemma academic_reads_gormDB : reads (gormDB : M DB unit).
Proof. apply reads_bind; [done|]. intros s. by destruct (db_nil s). Qed.

Lemma set_courses_get (s : State) : set_courses (courses s) s = s.
Proof. by destruct s. Qed.
Lemma set_reviews_get (s : State) : set_reviews (reviews s) s = s.
Proof. by destruct s. Qed.
Lemma set_materials_get (s : State) : set_materials (materials s) s = s.
Proof. by destruct s. Qed.
End base.

Ltac db_simpl :=
  unfold now_db, vw in *; simpl in *;
  repeat match goal with
  | H : _ /\ _ |- _ => destruct H
  | H : abs (w_db ?w') = _ |- context [abs (w_db ?w')] => rewrite H
  | H : abs (w_db ?w') = _, H2 : context [abs (w_db ?w')] |- _ =>
    lazymatch H2 with H => fail | _ => rewrite H in H2 end
  end; simpl in *.

Ltac unchanged :=
  solve [ apply atomic_none; unfold st; simpl; done
        | intros _; apply atomic_none; unfold st; simpl; done
        | split; [intros _|]; apply atomic_none; unfold st; simpl; done ].
Ltac exec := repeat (first [apply academic_wp_gormDB; intros ? | sql_step]; try unchanged).

(** An update of a row by its key either hits the row or changes nothing. *)
Ltac hit_or_miss get_lemma :=
  match goal with H : now_db (aset (update_at ?k ?p ?f ?m) _) _ _ |- _ =>
    let r := fresh "r" in let Hr := fresh "Hr" in let Hp := fresh "Hp" in let Heq := fresh "Heq" in
    destruct (update_at_cases k p f m) as [(r & Hr & Hp & Heq)|Heq]; rewrite Heq in H;
    [|apply atomic_none; unfold st; db_simpl; apply get_lemma] end.

Section refine.
Context {E : Env} {C : Collation} {D : SqlEngine}.
Notation DB := (DB C D).
Implicit Types (w : World DB).

Lemma CreateCourse_atomic c w : crs_Status c = StatusNormal -> crs_MergeTargetID c = None ->
  wp (CreateCourse c) (atomic w) w.
Proof.
  intros Hs Ht. unfold CreateCourse. exec. eapply atomic_one; [by apply (a_course (st w) c)|].
  unfold st. db_simpl. done.
Qed.

Lemma CreateMaterial_atomic m w : mat_Status m = StatusNormal -> is_Some (courses (st w) !! mat_CourseID m) ->
  wp (CreateMaterial m) (atomic w) w.
Proof.
  intros Hs Ht. unfold CreateMaterial. exec. eapply atomic_one; [by apply (a_material (st w) m)|].
  unfold st. db_simpl. done.
Qed.

Lemma UpdateCourseStatus_atomic id stt now w : stt = StatusNormal \/ stt = StatusHidden ->
  wp (UpdateCourseStatus id stt now) (atomic w) w.
Proof.
  intros Hs. unfold UpdateCourseStatus, set_row. exec. hit_or_miss set_courses_get.
  eapply atomic_one; [by apply (a_course_status (st w) id r stt now)|]. unfold st. db_simpl. done.
Qed.

Lemma UpdateReviewStatus_atomic id stt now w : stt = StatusNormal \/ stt = StatusHidden ->
  wp (UpdateReviewStatus id stt now) (atomic w) w.
Proof.
  intros Hs. unfold UpdateReviewStatus, set_row. exec. hit_or_miss set_reviews_get.
  eapply atomic_one; [by apply (a_review_status (st w) id r stt now)|]. unfold st. db_simpl. done.
Qed.

Lemma UpdateMaterialStatus_atomic id owner stt now w : stt <> StatusMerged ->
  wp (UpdateMaterialStatus id owner stt now) (atomic w) w.
Proof.
  intros Hs. unfold UpdateMaterialStatus, set_row. exec. hit_or_miss set_materials_get.
  eapply atomic_one; [by apply (a_material_status (st w) id r stt now)|]. unfold st. db_simpl. done.
Qed.

Lemma DeleteReview_atomic course user now w : wp (DeleteReview course user now) (atomic w) w.
Proof.
  unfold DeleteReview, set_row. apply wp_bind, academic_wp_gormDB; intros _; cbv beta iota; [|unchanged].
  apply wp_bind, wp_update_rows; [done|done|intros _; unchanged|].
  intros n w' Hw _ _. cbv beta iota. apply wp_ret.
  eapply atomic_one; [apply (a_review_delete (st w) course user now)|]. unfold st. db_simpl. done.
Qed.

Lemma SaveReview_atomic r w : sound (st w) -> rvw_Status r = StatusNormal -> rated r ->
  is_Some (courses (st w) !! rvw_CourseID r) -> wp (SaveReview r) (atomic w) w.
Proof.
  intros [W I] Hs Hr Hc. unfold SaveReview. apply wp_bind, academic_wp_gormDB; intros _; cbv beta iota; [|unchanged].
  apply wp_transaction, wp_bind, wp_attempt, wp_take; cbv beta iota.
  - intros _. apply wp_throw. unchanged.
  - intros Hno. change (errors_Is ErrRecordNotFound record_not_found_text) with true; cbv iota. exec. split; [intros _; unchanged|].
    eapply atomic_one; [by apply (a_review (st w) r)|]. unfold st. db_simpl. done.
  - intros x Hx Ho. cbv zeta. unfold owned_review, review_of in Ho. bools. exec. split; [intros _; unchanged|].
    match goal with H : now_db (aset (update_at ?k ?p ?f ?m) _) _ _ |- _ =>
      rewrite (update_at_hit k p f m x Hx eq_refl) in H end.
    eapply atomic_one; [eapply (a_review_edit (st w) (rvw_ID x) x); [done|done|done|done]|].
    unfold st. db_simpl. done.
Qed.
End refine.

(** ** The loop of [MergeCourses] *)
Section merge_loop.
Context {E : Env} {C : Collation} {D : SqlEngine}.
Notation DB := (DB C D).
Implicit Types (w : World DB).
Variables (src tgt now : Z) (m0 : gmap Z Review).
Hypothesis Hne : src <> tgt.
Hypothesis unique : forall k1 k2 r1 r2, m0 !! k1 = Some r1 -> m0 !! k2 = Some r2 -> k1 <> k2 ->
  same_owner r1 r2 = false.

(** The table when the reviews [l] of the source are still to be merged. *)
Definition todo (l : list Review) (r : Review) : bool :=
  existsb (fun x => (rvw_RootUserID x =? rvw_RootUserID r)%Z) l.
Definition partial (l : list Review) : gmap Z Review :=
  (fun r => if todo l r then r else merge_row src tgt now m0 r) <$> m0.

Lemma find_review_eq k r course user : m0 !! k = Some r -> owned_review course user r = true ->
  find_review m0 course user = Some r.
Proof.
  intros Hk Ho. unfold find_review. destruct (List.find _ _) as [x|] eqn:Hf.
  - apply find_some in Hf as [Hin Hx]. apply list_elem_of_In, list_elem_of_fmap in Hin as ([j y] & -> & Hin).
    apply elem_of_map_to_list in Hin. simpl in *. destruct (decide (k = j)) as [->|Hkj]; [by simplify_eq|].
    pose proof (unique _ _ _ _ Hk Hin Hkj) as Hu. unfold same_owner, owned_review, review_of in *. bools.
    destruct Hu; bools; congruence.
  - assert (Hin : In r (map_to_list m0).*2).
    { apply list_elem_of_In, list_elem_of_fmap. exists (k, r). split; [done|]. by apply elem_of_map_to_list. }
    apply (find_none _ _ Hf) in Hin. congruence.
Qed.

Lemma find_review_none course user : find_review m0 course user = None ->
  forall k r, m0 !! k = Some r -> owned_review course user r = false.
Proof.
  intros Hf k r Hk. destruct (owned_review course user r) eqn:Ho; [|done].
  by rewrite (find_review_eq _ _ _ _ Hk Ho) in Hf.
Qed.

Lemma partial_start l : l ≡ₚ (map_to_list (matching (review_of src) m0)).*2 -> partial l = m0.
Proof.
  intros Hl. unfold partial. apply map_eq. intros k. rewrite lookup_fmap. destruct (m0 !! k) as [r|] eqn:Hk; [|done].
  simpl. f_equal. destruct (todo l r) eqn:Ht; [done|].
  assert (Hno : forall x, find_review m0 src (rvw_RootUserID r) = Some x -> False).
  { intros x Hx. apply find_review_some in Hx as ([j Hj] & Hc & Hu).
    assert (Hin : In x l).
    { apply list_elem_of_In. rewrite Hl. apply list_elem_of_fmap. exists (j, x). split; [done|].
      apply elem_of_map_to_list, lookup_matching. split; [done|]. by apply Z.eqb_eq. }
    assert (todo l r = true); [|congruence]. apply existsb_exists. exists x. split; [done|]. by apply Z.eqb_eq. }
  unfold merge_row. destruct (review_of src r) eqn:Hs.
  - exfalso. apply (Hno r), (find_review_eq k); [done|]. unfold owned_review. by rewrite Hs, Z.eqb_refl.
  - destruct (review_of tgt r); [|done]. destruct (find_review m0 src _) as [x|] eqn:Hx; [|done]. by destruct (Hno x).
Qed.

Lemma partial_end : partial [] = merge_reviews src tgt now m0.
Proof. done. Qed.

(** The rows of the target and of the source the body looks at are still as they were. *)
Lemma partial_open x l k r : partial (x :: l) !! k = Some r -> rvw_RootUserID r = rvw_RootUserID x ->
  m0 !! k = Some r.
Proof.
  unfold partial. rewrite lookup_fmap. intros Hk Hu. destruct (m0 !! k) as [r0|] eqn:Hk0; simplify_eq/=.
  destruct (_ =? _)%Z eqn:Ht; simpl in *; [done|]. destruct (todo l r0); [done|].
  destruct (merge_row_keeps src tgt now m0 r0) as (_ & Hr & _). bools. congruence.
Qed.

Lemma partial_old x l k r : m0 !! k = Some r -> rvw_RootUserID r = rvw_RootUserID x ->
  partial (x :: l) !! k = Some r.
Proof. unfold partial. rewrite lookup_fmap. intros -> Hu. simpl. by rewrite (proj2 (Z.eqb_eq _ _) (eq_sym Hu)). Qed.

(** Merging [x] out of the list only changes the rows of its author. *)
Lemma partial_step x l (m' : gmap Z Review) : todo l x = false ->
  (forall k r, m0 !! k = Some r -> rvw_RootUserID r = rvw_RootUserID x ->
     m' !! k = Some (merge_row src tgt now m0 r)) ->
  (forall k r, partial (x :: l) !! k = Some r -> rvw_RootUserID r <> rvw_RootUserID x -> m' !! k = Some r) ->
  (forall k, partial (x :: l) !! k = None -> m' !! k = None) ->
  m' = partial l.
Proof.
  intros Hx Hin Hout Hnone. apply map_eq. intros k.
  assert (Hp : forall y, partial y !! k = (fun r => if todo y r then r else merge_row src tgt now m0 r) <$> m0 !! k)
    by (intros y; unfold partial; by rewrite lookup_fmap).
  rewrite Hp. destruct (m0 !! k) as [r|] eqn:Hk; simpl; [|apply Hnone; by rewrite Hp].
  destruct (decide (rvw_RootUserID r = rvw_RootUserID x)) as [Hu|Hu].
  - rewrite (Hin _ _ Hk Hu). f_equal. unfold todo in *. by rewrite Hu, Hx.
  - apply Hout; [|destruct (todo l r); [done|]; by rewrite (proj1 (proj2 (merge_row_keeps src tgt now m0 r)))].
    rewrite Hp. simpl. by rewrite (proj2 (Z.eqb_neq _ _) (not_eq_sym Hu)).
Qed.
(** Two reviews of a user for the same course are the same. *)
Lemma same_review k1 k2 r1 r2 : m0 !! k1 = Some r1 -> m0 !! k2 = Some r2 ->
  rvw_CourseID r1 = rvw_CourseID r2 -> rvw_RootUserID r1 = rvw_RootUserID r2 -> k1 = k2.
Proof.
  intros H1 H2 Hc Hu. destruct (decide (k1 = k2)) as [|Hk]; [done|].
  pose proof (unique _ _ _ _ H1 H2 Hk) as Hs. unfold same_owner in Hs. rewrite Hc, Hu, !Z.eqb_refl in Hs. done.
Qed.

Section body.
Variables (x : Review) (l : list Review).
Hypothesis Hx : m0 !! rvw_ID x = Some x.
Hypothesis Hsrc : rvw_CourseID x = src.
Hypothesis Hlast : todo l x = false.

Lemma src_row k r : m0 !! k = Some r -> rvw_RootUserID r = rvw_RootUserID x -> k <> rvw_ID x ->
  review_of src r = false.
Proof.
  intros Hk Hu Hkx. apply Z.eqb_neq. intros Hc. destruct Hkx.
  eapply same_review; [exact Hk|exact Hx|congruence|done].
Qed.

(** The author has no review of the target. *)
Lemma partial_moved :
  (forall k r, partial (x :: l) !! k = Some r -> owned_review tgt (rvw_RootUserID x) r = false) ->
  <[rvw_ID x := review_move tgt now x]> (partial (x :: l)) = partial l.
Proof.
  intros Hno.
  assert (Hno' : forall k r, m0 !! k = Some r -> rvw_RootUserID r = rvw_RootUserID x -> review_of tgt r = false).
  { intros k r Hk Hu. specialize (Hno k r (partial_old x l k r Hk Hu)). unfold owned_review in Hno.
    by rewrite Hu, Z.eqb_refl, andb_true_r in Hno. }
  assert (Hf : find_review m0 tgt (rvw_RootUserID x) = None).
  { destruct (find_review m0 tgt (rvw_RootUserID x)) as [y|] eqn:Hf; [|done].
    apply find_review_some in Hf as ([k Hk] & Hc & Hu). specialize (Hno' _ _ Hk Hu).
    apply Z.eqb_neq in Hno'. congruence. }
  apply (partial_step x l); [done|..].
  - intros k r Hk Hu. destruct (decide (k = rvw_ID x)) as [->|Hkx].
    + rewrite Hx in Hk. injection Hk as <-. rewrite lookup_insert_eq. unfold merge_row, review_of.
      by rewrite Hsrc, Z.eqb_refl, Hf.
    + rewrite lookup_insert_ne by done. rewrite (partial_old x l k r Hk Hu). unfold merge_row.
      by rewrite (src_row _ _ Hk Hu Hkx), (Hno' _ _ Hk Hu).
  - intros k r Hk Hu. rewrite lookup_insert_ne; [done|]. intros <-. rewrite (partial_old x l _ x Hx eq_refl) in Hk.
    congruence.
  - intros k Hk. rewrite lookup_insert_ne; [done|]. intros <-. by rewrite (partial_old x l _ x Hx eq_refl) in Hk.
Qed.

(** The author has one, [e]. *)
Lemma partial_closed e : m0 !! rvw_ID e = Some e -> owned_review tgt (rvw_RootUserID x) e = true ->
  <[rvw_ID x := review_status StatusMerged now x]>
    (if (rvw_UpdatedAt e <? rvw_UpdatedAt x)%Z
     then <[rvw_ID e := review_take x now e]> (partial (x :: l)) else partial (x :: l)) = partial l.
Proof.
  intros He Ho. unfold owned_review, review_of in Ho. bools.
  assert (Hex : rvw_ID e <> rvw_ID x) by (intros Hid; rewrite Hid, Hx in He; congruence).
  assert (Hfe : find_review m0 tgt (rvw_RootUserID x) = Some e)
    by (apply (find_review_eq _ _ _ _ He); unfold owned_review, review_of; by rewrite H, H0, !Z.eqb_refl).
  assert (Hfx : find_review m0 src (rvw_RootUserID x) = Some x)
    by (apply (find_review_eq _ _ _ _ Hx); unfold owned_review, review_of; by rewrite Hsrc, !Z.eqb_refl).
  apply (partial_step x l); [done|..].
  - intros k r Hk Hu. destruct (decide (k = rvw_ID x)) as [->|Hkx].
    { rewrite Hx in Hk. injection Hk as <-. rewrite lookup_insert_eq. unfold merge_row, review_of.
      by rewrite Hsrc, Z.eqb_refl, Hfe. }
    rewrite lookup_insert_ne by done. unfold merge_row. rewrite (src_row _ _ Hk Hu Hkx), Hu, Hfx.
    destruct (decide (k = rvw_ID e)) as [->|Hke].
    + rewrite He in Hk. injection Hk as <-. unfold review_of. rewrite H, Z.eqb_refl.
      destruct (_ <? _)%Z; [by rewrite lookup_insert_eq|]. by apply partial_old.
    + assert (Hrt : review_of tgt r = false).
      { apply Z.eqb_neq. intros Hc. destruct Hke. eapply same_review; [exact Hk|exact He|congruence..]. }
      rewrite Hrt. destruct (_ <? _)%Z; [rewrite lookup_insert_ne by done|]; by apply partial_old.
  - intros k r Hk Hu.
    assert (Hke : k <> rvw_ID e) by (intros ->; rewrite (partial_old x l _ e He) in Hk by done; congruence).
    assert (Hkx : k <> rvw_ID x) by (intros ->; rewrite (partial_old x l _ x Hx eq_refl) in Hk; congruence).
    rewrite lookup_insert_ne by done. destruct (_ <? _)%Z; [by rewrite lookup_insert_ne|done].
  - intros k Hk.
    assert (Hke : k <> rvw_ID e) by (intros ->; by rewrite (partial_old x l _ e He) in Hk).
    assert (Hkx : k <> rvw_ID x) by (intros ->; by rewrite (partial_old x l _ x Hx eq_refl) in Hk).
    rewrite lookup_insert_ne by done. destruct (_ <? _)%Z; [by rewrite lookup_insert_ne|done].
Qed.
End body.

(** Some statement fails. *)
Definition faulty : Prop := exists n, env_fault n = true.

(** An update that keeps course and author meets no conflict. *)
Lemma wp_update_kept k f (Q : res Z -> World DB -> Prop) w :
  (forall r, rvw_ID (f r) = rvw_ID r /\ rvw_CourseID (f r) = rvw_CourseID r /\ rvw_RootUserID (f r) = rvw_RootUserID r) ->
  (faulty -> Q (Err (EDriver infra_text)) (bump w)) ->
  (forall n w', st w' = set_reviews (update_at k always f (reviews (st w))) (st w) -> Q (Ok n) w') ->
  wp (update Review (byid k always) f) Q w.
Proof.
  intros Hf Herr Hok. apply wp_update_rows.
  - intros r _. apply Hf.
  - intros r r'. destruct (Hf r) as (_ & Hc & Hu). simpl. unfold same_owner. by rewrite Hc, Hu.
  - intros Hfault. apply Herr. by eexists.
  - intros n w' [Hw _] _ _. apply (Hok n). unfold st. rewrite Hw.
    by rewrite (upd_view_byid (vw Review w) (vw_key Review w)).
Qed.

(** One round of the loop, and the loop. *)
Lemma wp_merge_review x l (Q : res unit -> World DB -> Prop) w :
  m0 !! rvw_ID x = Some x -> rvw_CourseID x = src -> todo l x = false ->
  reviews (st w) = partial (x :: l) ->
  (forall e w', faulty -> Q (Err e) w') ->
  (forall w', st w' = set_reviews (partial l) (st w) -> Q (Ok tt) w') ->
  wp (merge_review tgt now x) Q w.
Proof.
  intros Hx Hsrc Hlast Hv Herr Hok. unfold merge_review. apply wp_bind, wp_attempt, wp_take; cbv beta iota.
  - intros Hf. apply wp_throw, Herr. by eexists.
  - intros Hno. change (errors_Is ErrRecordNotFound record_not_found_text) with true. cbv iota.
    pose proof (partial_old x l _ x Hx eq_refl) as Hxp.
    apply wp_bind, wp_update_byid; [done|intros Hf; apply Herr; by eexists| |].
    + intros (r & k' & r' & Hr & _ & _ & Hr' & Hcl). exfalso.
      assert (r = x) as -> by (rewrite <- Hv in Hxp; change (reviews (st w) !! rvw_ID x = Some r) in Hr; congruence).
      specialize (Hno k' r' Hr'). unfold owned_review, review_of in Hno. simpl in Hcl. unfold same_owner in Hcl.
      simpl in Hcl. rewrite (Z.eqb_sym (rvw_CourseID r')), (Z.eqb_sym (rvw_RootUserID r')) in Hno.
      rewrite (Z.eqb_sym (rvw_CourseID r')), (Z.eqb_sym (rvw_RootUserID r')) in Hcl. destruct Hcl; congruence.
    + intros n w' [Hw _] _ _. cbv beta iota. apply wp_ret, Hok. unfold st. rewrite Hw.
      change (set_reviews (update_at (rvw_ID x) always (review_move tgt now) (reviews (st w))) (st w)
              = set_reviews (partial l) (st w)). f_equal.
      rewrite Hv, (update_at_hit _ _ _ _ x) by done.
      apply partial_moved; try done. intros k r Hk. rewrite <- Hv in Hk. by eapply Hno.
  - intros e He Ho. change (reviews (st w) !! rvw_ID e = Some e) in He. rewrite Hv in He.
    assert (Hu : rvw_RootUserID e = rvw_RootUserID x) by (unfold owned_review in Ho; by bools).
    pose proof (partial_open _ _ _ _ He Hu) as He0.
    pose proof (partial_closed x l Hx Hsrc Hlast e He0 Ho) as Hclosed.
    assert (Hnew : rvw_ID e <> rvw_ID x).
    { intros Hid. rewrite Hid, Hx in He0. unfold owned_review, review_of in Ho. bools. congruence. }
    assert (Hsecond : forall w1, st w1 = set_reviews (if (rvw_UpdatedAt e <? rvw_UpdatedAt x)%Z
        then <[rvw_ID e := review_take x now e]> (partial (x :: l)) else partial (x :: l)) (st w) ->
      wp (let! _ := update Review (byid (rvw_ID x) always) (review_status StatusMerged now) in ret tt) Q w1).
    { intros w1 Hw1. apply wp_bind, wp_update_kept; [done|intros Hf; by apply Herr|].
      intros n w' Hw. cbv beta iota. apply wp_ret, Hok. rewrite Hw, Hw1, <- Hclosed.
      match goal with |- set_reviews (update_at ?k ?p ?f (reviews (set_reviews ?X ?S))) (set_reviews _ _) = _ =>
        change (set_reviews (update_at k p f X) S = set_reviews (<[k := f x]> X) S) end.
      rewrite (update_at_hit _ _ _ _ x); [done| |done].
      destruct (_ <? _)%Z; [rewrite lookup_insert_ne by done|]; by apply partial_old. }
    apply wp_bind. destruct (rvw_UpdatedAt e <? rvw_UpdatedAt x)%Z.
    + apply wp_bind, wp_update_kept; [done|intros Hf; by apply Herr|].
      intros n w1 Hw. cbv beta iota. apply wp_ret. cbv beta iota. apply Hsecond. rewrite Hw.
      change (st (bump w)) with (st w). rewrite Hv. f_equal. by apply update_at_hit.
    + apply wp_ret. cbv beta iota. apply Hsecond. rewrite <- Hv. simpl. by rewrite set_reviews_get.
Qed.

Lemma wp_merge_loop l (Q : res unit -> World DB -> Prop) w :
  NoDup l -> (forall x, x ∈ l -> m0 !! rvw_ID x = Some x /\ rvw_CourseID x = src) ->
  reviews (st w) = partial l ->
  (forall e w', faulty -> Q (Err e) w') ->
  (forall w', st w' = set_reviews (merge_reviews src tgt now m0) (st w) -> Q (Ok tt) w') ->
  wp (for_each l (merge_review tgt now)) Q w.
Proof.
  intros Hnd Hl Hv Herr Hok. revert w Hv Hok. induction l as [|x l IH]; intros w Hv Hok; simpl.
  { apply wp_ret, Hok. rewrite <- partial_end, <- Hv. by rewrite set_reviews_get. }
  apply NoDup_cons in Hnd as [Hxl Hnd]. destruct (Hl x) as [Hx Hs]; [by left|].
  assert (Hlast : todo l x = false).
  { destruct (todo l x) eqn:Ht; [|done]. apply existsb_exists in Ht as (y & Hy & Hu). bools.
    apply list_elem_of_In in Hy. destruct (Hl y) as [Hy0 Hys]; [by right|]. destruct Hxl.
    pose proof (same_review _ _ _ _ Hx Hy0) as Hk. rewrite Hk, Hy0 in Hx by congruence. congruence. }
  apply wp_bind, (wp_merge_review x l); [done..|].
  intros w' Hw'. cbv beta iota. apply IH; [done| | |].
  - intros y Hy. apply Hl. by right.
  - by rewrite Hw'.
  - intros w2 Hw2. apply Hok. rewrite Hw2, Hw'. done.
Qed.
End merge_loop.

Section merge.
Context {E : Env} {C : Collation} {D : SqlEngine}.
Notation DB := (DB C D).
Implicit Types (w : World DB).

(** What a merge leaves behind. *)
Definition merged (s : State) (src tgt now : Z) (c : Course) : State :=
  set_courses (<[src := course_merge tgt now c]> (courses s))
    (set_materials (merge_materials src tgt now (materials s))
      (set_reviews (merge_reviews src tgt now (reviews s)) s)).

(** Whether both courses are open. *)
Definition both_open (s : State) (src tgt : Z) : Prop :=
  exists c d, courses s !! src = Some c /\ courses s !! tgt = Some d /\
    crs_Status c = StatusNormal /\ crs_Status d = StatusNormal.

(** The transaction either fails, without effect, because a course is not open or a
    statement fails, or leaves the merged state. *)
Lemma MergeCourses_exact src tgt now (Q : res unit -> World DB -> Prop) w :
  sound (st w) -> src <> tgt ->
  (forall e w', st w' = st w -> faulty \/ db_nil (w_db w) = true \/ ~ both_open (st w) src tgt -> Q (Err e) w') ->
  (forall c d w', courses (st w) !! src = Some c -> courses (st w) !! tgt = Some d ->
     crs_Status c = StatusNormal -> crs_Status d = StatusNormal -> st w' = merged (st w) src tgt now c -> Q (Ok tt) w') ->
  wp (MergeCourses src tgt now) Q w.
Proof.
  intros [W I] Hne Herr Hok.
  assert (Hf : forall e w' n, st w' = st w -> env_fault n = true -> Q (Err e) w')
    by (intros e w' n Hw Hn; apply Herr; [done|left; by exists n]).
  unfold MergeCourses. apply wp_bind, academic_wp_gormDB; intros Hnil; cbv beta iota; [|by apply Herr; auto].
  assert (Hclosed : forall k, (forall r, courses (st w) !! k = Some r -> course_is StatusNormal r = false) ->
    k = src \/ k = tgt -> ~ both_open (st w) src tgt).
  { intros k Hk Hst (c & d & Hc & Hd & Hcs & Hds). unfold course_is in Hk.
    destruct Hst as [-> | ->]; [specialize (Hk _ Hc)|specialize (Hk _ Hd)]; by bools. }
  apply wp_transaction. apply wp_bind, wp_take_byid; cbv beta iota;
    [by intros; eapply Hf|intros Hno; apply Herr; [done|]; right; right; eapply Hclosed; eauto|].
  intros c Hc Hcs. apply wp_bind, wp_take_byid; cbv beta iota;
    [by intros; eapply Hf|intros Hno; apply Herr; [done|]; right; right; eapply Hclosed; eauto|].
  intros d Hd Hds. unfold course_is in Hcs, Hds. bools. apply wp_bind, wp_find; cbv beta iota; [by intros; eapply Hf|].
  intros l Hl. change (vw Review (bump (bump w))) with (reviews (st w)) in Hl.
  assert (Hin : forall x, x ∈ l -> reviews (st w) !! rvw_ID x = Some x /\ rvw_CourseID x = src).
  { intros x Hx. rewrite Hl in Hx. apply list_elem_of_fmap in Hx as ([k y] & -> & Hx).
    apply elem_of_map_to_list, lookup_matching in Hx as [Hk Hs]. simpl. apply Z.eqb_eq in Hs.
    by rewrite (wf_reviews _ W _ _ Hk). }
  assert (Hnd : NoDup l).
  { rewrite Hl. apply NoDup_fmap_2_strong; [|apply NoDup_map_to_list].
    intros [k1 y1] [k2 y2] H1 H2 Heq. simpl in Heq. subst y2.
    apply elem_of_map_to_list, lookup_matching in H1 as [H1 _].
    apply elem_of_map_to_list, lookup_matching in H2 as [H2 _].
    by rewrite <- (wf_reviews _ W _ _ H1), <- (wf_reviews _ W _ _ H2). }
  assert (Hun : forall k1 k2 r1 r2, reviews (st w) !! k1 = Some r1 -> reviews (st w) !! k2 = Some r2 -> k1 <> k2 ->
    same_owner r1 r2 = false) by exact (vw_unique Review w).
  apply wp_bind, (wp_merge_loop src tgt now (reviews (st w)) Hne Hun); [done|done| | |].
  { symmetry. by apply partial_start. }
  { intros e w' [n Hn]. by eapply Hf. }
  intros w1 Hw1. cbv beta iota. apply wp_bind, wp_update_rows; [done|done|by intros; eapply Hf|].
  intros n1 w2 [Hw2 _] _ _. cbv beta iota. apply wp_bind, wp_update_rows; [done|done|by intros; eapply Hf|].
  intros n2 w3 [Hw3 _] _ _. cbv beta iota. apply wp_ret. cbv beta iota. split; [intros Hn; by eapply Hf|].
  apply (Hok c d); [done|done|done|done|]. unfold st in *. simpl. rewrite Hw3.
  rewrite (upd_view_byid _ (vw_key Course w2)).
  change (vw Course w2) with (courses (abs (w_db w2))). rewrite Hw2.
  change (vw Material w1) with (materials (abs (w_db w1))). rewrite Hw1. unfold merged. simpl.
  rewrite (update_at_hit src always _ _ c Hc eq_refl). done.
Qed.

Lemma MergeCourses_atomic src tgt now w : sound (st w) -> src <> tgt -> wp (MergeCourses src tgt now) (atomic w) w.
Proof.
  intros Hs Hne. apply MergeCourses_exact; [done|done|intros e w' Hw _; by apply atomic_none|].
  intros c d w' Hc Hd Hcs Hds Hw. eapply atomic_one; [by apply (a_merge (st w) src tgt c d now)|]. exact Hw.
Qed.
End merge.
End AcademicRefine.
