(* ===== verification/AcademicService.v ===== *)
(** * Academic: the service

    [internal/academic/service.go] with the requests and responses of [model_req.go]
    and [model_resp.go], one definition per method.  The collaborators behind Go
    interfaces are fields of [Service]; calling a method of a nil one is [panic]. *)
From S2P Require Import Prelude GoString GoTime GoMonad Sql Platform.
From S2P Require Import AcademicModel AcademicRepo.

Module AcademicService.
Import Academic Pagination.

Definition ErrCourseNotFound : error := Bizerr.NotFound "课程不存在".
Definition ErrCourseDuplicated : error := Bizerr.Biz "课程已存在".
Definition ErrReviewNotFound : error := Bizerr.NotFound "评价不存在".
Definition ErrMaterialNotFound : error := Bizerr.NotFound "资料不存在".

(** ** Requests *)
Record CreateCourseReq := { creq_Name : string; creq_Teacher : string; creq_Description : string }.
Record ReviewReq := {
  rreq_Semester : string; rreq_Content : string; rreq_OverallRating : Z; rreq_DifficultyRating : Z;
  rreq_WorkloadRating : Z; rreq_GainRating : Z }.

(** ** Responses *)
Record CourseResponse := {
  cr_ID : string; cr_School : string; cr_Name : string; cr_Teacher : string; cr_Description : string;
  cr_Status : string; cr_Stats : RatingStats; cr_CreatedAt : string; cr_UpdatedAt : string }.
Record ReviewResponse := {
  rr_ID : string; rr_CourseID : string; rr_Semester : string; rr_Content : string; rr_OverallRating : Z;
  rr_DifficultyRating : Z; rr_WorkloadRating : Z; rr_GainRating : Z; rr_UpdatedAt : string }.
Record MaterialResponse := {
  mr_ID : string; mr_CourseID : string; mr_Semester : string; mr_Title : string; mr_Description : string;
  mr_OriginalName : string; mr_MIMEType : string; mr_SizeBytes : Z; mr_MD5 : string; mr_Status : string;
  mr_CreatedAt : string }.

Definition formatTime (value : Z) : string := if GoTime.IsZero value then "" else GoTime.FormatRFC3339 value.

Definition courseResponse (item : Course) (stats : RatingStats) : CourseResponse := {|
  cr_ID := GoStr.FormatInt (crs_ID item); cr_School := crs_School item; cr_Name := crs_Name item;
  cr_Teacher := crs_Teacher item; cr_Description := crs_Description item;
  cr_Status := status_text (crs_Status item); cr_Stats := stats;
  cr_CreatedAt := formatTime (crs_CreatedAt item); cr_UpdatedAt := formatTime (crs_UpdatedAt item) |}.
Definition reviewResponse (item : Review) : ReviewResponse := {|
  rr_ID := GoStr.FormatInt (rvw_ID item); rr_CourseID := GoStr.FormatInt (rvw_CourseID item);
  rr_Semester := rvw_Semester item; rr_Content := rvw_Content item;
  rr_OverallRating := rvw_OverallRating item; rr_DifficultyRating := rvw_DifficultyRating item;
  rr_WorkloadRating := rvw_WorkloadRating item; rr_GainRating := rvw_GainRating item;
  rr_UpdatedAt := formatTime (rvw_UpdatedAt item) |}.
Definition materialResponse (item : Material) : MaterialResponse := {|
  mr_ID := GoStr.FormatInt (mat_ID item); mr_CourseID := GoStr.FormatInt (mat_CourseID item);
  mr_Semester := mat_Semester item; mr_Title := mat_Title item; mr_Description := mat_Description item;
  mr_OriginalName := mat_OriginalName item; mr_MIMEType := mat_MIMEType item;
  mr_SizeBytes := mat_SizeBytes item; mr_MD5 := mat_FileMD5 item;
  mr_Status := status_text (mat_Status item); mr_CreatedAt := formatTime (mat_CreatedAt item) |}.
Definition materialPage (list : list Material) (total page size : Z) : PageResult MaterialResponse :=
  NewPageResult (materialResponse <$> list) total page size.

(** ** Helpers *)
Definition parseID (raw : string) : res Z :=
  match GoStr.ParseInt (GoStr.TrimSpace raw) with
  | Some value => if (value <=? 0)%Z then Err (Bizerr.Param "ID格式错误") else Ok value
  | None => Err (Bizerr.Param "ID格式错误")
  end.

Definition normalizePage (page size : Z) : Z * Z :=
  let page := if (page <=? 0)%Z then 1%Z else page in
  let size := if (size <=? 0)%Z then 15%Z else size in
  let size := if (100 <? size)%Z then 100%Z else size in
  (page, size).

Definition between (value : Z) : bool := (1 <=? value)%Z && (value <=? 5)%Z.
Definition validRatings (req : ReviewReq) : bool :=
  between (rreq_OverallRating req) && between (rreq_DifficultyRating req)
  && between (rreq_WorkloadRating req) && between (rreq_GainRating req).

Definition normalizeName {U : UnicodeText} (value : string) : string :=
  unicode_lower (GoPath.join " " (GoStr.Fields (NFKC value))).

(** The texts by which [CreateCourse] recognises a violated unique index. *)
Definition says_duplicate (e : error) : bool :=
  let text := GoStr.ToLower (Bizerr.Error e) in
  GoStr.Contains text "unique" || GoStr.Contains text "duplicate".

(** A call through a nil interface. *)
Definition nil_dereference : error :=
  ENew "runtime error: invalid memory address or nil pointer dereference".

(** What the file store is given, and what it reports. *)
Record FileUpload := mkFileUpload { fu_Filename : string; fu_Content : string }.
Record OriginalUpload := mkOriginalUpload {
  ou_MD5 : string; ou_OriginalName : string; ou_MIME : string; ou_Size : Z }.

Section service.
Context {E : Env} {C : Collation} {D : SqlEngine} {U : UnicodeText}.
Notation DB := (DB C D).
Notation M := (M DB).

Record FileStore := mkFileStore {
  UploadAcademicDocument : FileUpload -> string -> M OriginalUpload;
  ReleaseReference : string -> M unit;
  OriginalURL : string -> string;
}.

Record Service := mkService {
  profiles : option (Z -> M string);
  capabilities : option (Z -> Z -> string -> M unit);
  filter : option (string -> M string);
  files : option FileStore;
}.

Definition NewService : Service := mkService None None None None.
Definition SetProfileResolver v (s : Service) : Service := mkService (Some v) (capabilities s) (filter s) (files s).
Definition SetCapabilityChecker v (s : Service) : Service := mkService (profiles s) (Some v) (filter s) (files s).
Definition SetSensitiveFilter v (s : Service) : Service := mkService (profiles s) (capabilities s) (Some v) (files s).
Definition SetFileStore v (s : Service) : Service := mkService (profiles s) (capabilities s) (filter s) (Some v).

Context (s : Service).

Definition filterText (value : string) : M string :=
  match filter s with
  | None => ret (GoStr.TrimSpace value)
  | Some f =>
    let! filtered := internal "敏感词过滤失败" (f value) in ret (GoStr.TrimSpace filtered)
  end.

Definition checkContent (userID rootUserID : Z) : M unit :=
  match capabilities s with Some check => check userID rootUserID "content" | None => ret tt end.

(** [if s.profiles == nil { .. }; school, err := s.profiles.RootSchool(..)] *)
Definition root_school (rootUserID : Z) : M string :=
  match profiles s with
  | None => throw (Bizerr.Internal "用户资料能力未配置")
  | Some f => f rootUserID
  end.

(** [course, err := FindCourse(..); if err != nil || course == nil || status != normal] *)
Definition open_course (idValue : Z) : M Course :=
  let! course := found ErrCourseNotFound (AcademicRepo.FindCourse idValue) in
  if negb (bool_decide (crs_Status course = StatusNormal)) then throw ErrCourseNotFound else ret course.

Definition CreateCourse (userID rootUserID : Z) (req : CreateCourseReq) : M CourseResponse :=
  checkContent userID rootUserID;;
  let! school := root_school rootUserID in
  if String.eqb (GoStr.TrimSpace school) "" then throw (Bizerr.Biz "主账号未设置学校")
  else
    let! name := filterText (creq_Name req) in
    let! teacher := filterText (creq_Teacher req) in
    let! description := filterText (creq_Description req) in
    let! t := now in
    let! id := Generate in
    let course := mkCourse id (GoStr.TrimSpace school) (GoStr.TrimSpace name) (normalizeName name)
      (GoStr.TrimSpace teacher) (normalizeName teacher) description StatusNormal None rootUserID t t in
    if String.eqb (crs_NormalizedName course) "" then throw (Bizerr.Param "课程名不能为空")
    else
      let! existing := internal "查询课程失败"
        (AcademicRepo.FindCourseByIdentity (crs_School course) (crs_NormalizedName course)
          (crs_NormalizedTeacher course)) in
      match existing with
      | Some _ => throw ErrCourseDuplicated
      | None =>
        map_err (fun e => if says_duplicate e then ErrCourseDuplicated else Bizerr.InternalWrap "创建课程失败" e)
          (AcademicRepo.CreateCourse course);;
        ret (courseResponse course (mkRatingStats 0 0 0 0 0))
      end.

Definition SearchCourses (rootUserID : Z) (keyword : string) (page size : Z) : M (PageResult CourseResponse) :=
  let! school := root_school rootUserID in
  let (page, size) := normalizePage page size in
  let! r := internal "搜索课程失败"
    (AcademicRepo.SearchCourses (GoStr.TrimSpace school) (GoStr.TrimSpace keyword) page size) in
  ret (NewPageResult ((fun c => courseResponse c (mkRatingStats 0 0 0 0 0)) <$> r.1) r.2 page size).

Definition CourseDetail (courseID : string) : M CourseResponse :=
  let! idValue := of_res (parseID courseID) in
  let! found_course := internal "查询课程失败" (AcademicRepo.FindCourse idValue) in
  match found_course with
  | None => throw ErrCourseNotFound
  | Some course =>
    if bool_decide (crs_Status course = StatusHidden) then throw ErrCourseNotFound
    else
      let! course :=
        match crs_Status course, crs_MergeTargetID course with
        | StatusMerged, Some target => found ErrCourseNotFound (AcademicRepo.FindCourse target)
        | _, _ => ret course
        end in
      let! stats := internal "查询评分统计失败" (AcademicRepo.RatingStats (crs_ID course)) in
      ret (courseResponse course stats)
  end.

Definition ListReviews (courseID : string) (page size : Z) : M (PageResult ReviewResponse) :=
  let! idValue := of_res (parseID courseID) in
  let (page, size) := normalizePage page size in
  let! r := internal "查询评价失败" (AcademicRepo.ListReviews idValue page size) in
  ret (NewPageResult (reviewResponse <$> r.1) r.2 page size).

Definition SaveReview (userID rootUserID : Z) (courseID : string) (req : ReviewReq) : M ReviewResponse :=
  checkContent userID rootUserID;;
  let! idValue := of_res (parseID courseID) in
  let! _ := open_course idValue in
  if negb (validRatings req) then throw (Bizerr.Param "评分必须为1到5的整数")
  else
    let! content := filterText (rreq_Content req) in
    let! t := now in
    let! id := Generate in
    let review := mkReview id idValue rootUserID (GoStr.TrimSpace (rreq_Semester req)) content
      (rreq_OverallRating req) (rreq_DifficultyRating req) (rreq_WorkloadRating req) (rreq_GainRating req)
      StatusNormal t t in
    if String.eqb (rvw_Semester review) "" then throw (Bizerr.Param "学期不能为空")
    else
      let! review := internal "保存评价失败" (AcademicRepo.SaveReview review) in
      ret (reviewResponse review).

Definition DeleteReview (rootUserID : Z) (courseID : string) : M unit :=
  let! idValue := of_res (parseID courseID) in
  let! t := now in
  let! ok := internal "删除评价失败" (AcademicRepo.DeleteReview idValue rootUserID t) in
  if negb ok then throw ErrReviewNotFound else ret tt.

Definition UploadMaterial (userID rootUserID : Z) (courseID semester title description : string)
    (upload : FileUpload) : M MaterialResponse :=
  checkContent userID rootUserID;;
  match files s with
  | None => throw (Bizerr.Internal "文件能力未配置")
  | Some store =>
    let! idValue := of_res (parseID courseID) in
    let! _ := open_course idValue in
    let semester := GoStr.TrimSpace semester in
    let title := GoStr.TrimSpace title in
    let description := GoStr.TrimSpace description in
    if String.eqb semester "" || String.eqb title "" then throw (Bizerr.Param "学期和标题不能为空")
    else
      let! title := filterText title in
      let! description := filterText description in
      let! up := UploadAcademicDocument store upload (GoStr.FormatInt rootUserID) in
      let! t := now in
      let! id := Generate in
      let item := mkMaterial id idValue rootUserID semester title description (ou_OriginalName up) (ou_MIME up)
        (ou_Size up) (ou_MD5 up) StatusNormal t t in
      let! r := attempt (AcademicRepo.CreateMaterial item) in
      match r with
      | Err e =>
        let! _ := attempt (ReleaseReference store (ou_MD5 up)) in
        throw (Bizerr.InternalWrap "保存资料失败" e)
      | Ok _ => ret (materialResponse item)
      end
  end.

Definition ListMaterials (courseID : string) (page size : Z) : M (PageResult MaterialResponse) :=
  let! idValue := of_res (parseID courseID) in
  let (page, size) := normalizePage page size in
  let! r := AcademicRepo.ListMaterials
    (fun m => (mat_CourseID m =? idValue)%Z && AcademicRepo.material_is StatusNormal m) page size in
  ret (materialPage r.1 r.2 page size).

Definition ListMyMaterials (rootUserID page size : Z) : M (PageResult MaterialResponse) :=
  let (page, size) := normalizePage page size in
  let! r := AcademicRepo.ListMaterials
    (fun m => (mat_RootUserID m =? rootUserID)%Z && negb (AcademicRepo.material_is StatusDeleted m)) page size in
  ret (materialPage r.1 r.2 page size).

Definition MaterialDownloadURL (rootUserID : Z) (materialID : string) : M string :=
  let! idValue := of_res (parseID materialID) in
  let! item := AcademicRepo.FindMaterial idValue in
  match item with
  | None => throw ErrMaterialNotFound
  | Some m =>
    if negb (bool_decide (mat_Status m = StatusNormal)) && negb (mat_RootUserID m =? rootUserID)%Z
    then throw ErrMaterialNotFound
    else match files s with None => throw nil_dereference | Some store => ret (OriginalURL store (mat_FileMD5 m)) end
  end.

Definition DeleteMaterial (rootUserID : Z) (materialID : string) : M unit :=
  let! idValue := of_res (parseID materialID) in
  let! item := found ErrMaterialNotFound (AcademicRepo.FindMaterial idValue) in
  if negb (mat_RootUserID item =? rootUserID)%Z then throw ErrMaterialNotFound
  else
    let! t := now in
    let! ok := map_err (fun _ => ErrMaterialNotFound)
      (AcademicRepo.UpdateMaterialStatus idValue (Some rootUserID) StatusDeleted t) in
    if negb ok then throw ErrMaterialNotFound
    else
      match files s with
      | None => throw nil_dereference
      | Some store =>
        let! r := attempt (ReleaseReference store (mat_FileMD5 item)) in
        match r with Err _ => emit (EvLog "release material file failed") | Ok _ => ret tt end
      end.

Definition MergeCourses (sourceID targetID : string) : M unit :=
  let! source := of_res (parseID sourceID) in
  let! target := of_res (parseID targetID) in
  if (source =? target)%Z then throw (Bizerr.Param "不能合并同一课程")
  else
    let! t := now in internal "合并课程失败" (AcademicRepo.MergeCourses source target t).

(** [ok, err := update(..); if err != nil || !ok { return e }] *)
Definition set_hidden (e : error) (update : Z -> Status -> Z -> M bool) (raw : string) (hidden : bool) : M unit :=
  let! idValue := of_res (parseID raw) in
  let! t := now in
  let! ok := map_err (fun _ => e) (update idValue (if hidden then StatusHidden else StatusNormal) t) in
  if negb ok then throw e else ret tt.

Definition updateCourseStatus : string -> bool -> M unit := set_hidden ErrCourseNotFound AcademicRepo.UpdateCourseStatus.
Definition HideCourse (idValue : string) (hidden : bool) : M unit := updateCourseStatus idValue hidden.
Definition HideReview : string -> bool -> M unit := set_hidden ErrReviewNotFound AcademicRepo.UpdateReviewStatus.
Definition HideMaterial : string -> bool -> M unit :=
  set_hidden ErrMaterialNotFound (fun id => AcademicRepo.UpdateMaterialStatus id None).

(** The owner and the row; [None] is [0, nil, nil]. *)
Definition ReportTarget (targetType targetID : string) : M (option (Z * (Review + Material))) :=
  let! idValue := of_res (parseID targetID) in
  if String.eqb targetType "courseReview" then
    let! item := AcademicRepo.FindReview idValue in
    ret ((fun r => (rvw_RootUserID r, inl r)) <$> item)
  else if String.eqb targetType "material" then
    let! item := AcademicRepo.FindMaterial idValue in
    ret ((fun m => (mat_RootUserID m, inr m)) <$> item)
  else throw ErrCourseNotFound.

Definition HideReportTarget (targetType targetID : string) : M unit :=
  if String.eqb targetType "courseReview" then HideReview targetID true
  else if String.eqb targetType "material" then HideMaterial targetID true
  else throw ErrCourseNotFound.
End service.
Arguments Service C D : clear implicits.
Arguments FileStore C D : clear implicits.
End AcademicService.
