(* ===== verification/AcademicProps.v ===== *)
(** * Academic: what the service guarantees

    The integrity of courses, reviews and materials over histories of requests, and
    the exact effect of saving a review, merging two courses and averaging ratings,
    each with a concrete instance from [AcademicDemo]. *)
From S2P Require Import Prelude GoString GoTime GoMonad Sql Safe Platform AcademicModel AcademicRepo.
From S2P Require Import AcademicRefine AcademicService.

(** ** Academic: every request is a sequence of specified transitions

    The service methods over the system of [AcademicSpec], and histories of requests. *)

Module AcademicSafe.
Import Safe.
Import Academic AcademicRepo AcademicSpec AcademicRefine AcademicService.

(** The collaborators of a service do not write its store. *)
Record honest {C : Collation} {D : SqlEngine} (s : Service C D) : Prop := {
  honest_profiles : forall f a, profiles s = Some f -> quiet (f a);
  honest_capabilities : forall f a b c, capabilities s = Some f -> quiet (f a b c);
  honest_filter : forall f a, filter s = Some f -> quiet (f a);
  honest_upload : forall f a b, files s = Some f -> quiet (UploadAcademicDocument f a b);
  honest_release : forall f a, files s = Some f -> quiet (ReleaseReference f a);
}.

Ltac safely :=
  cbv beta zeta; unfold internal;
  match goal with
  | |- safe (bind _ _) => apply safe_bind; [safely|intros; safely]
  | |- safe (attempt _) => apply safe_attempt; safely
  | |- safe (map_err _ _) => apply safe_map_err; safely
  | |- safe (if ?b then _ else _) => destruct b; safely
  | |- safe (match ?x with _ => _ end) => destruct x eqn:?; safely
  | |- _ => try solve [eauto with store_safe academic_safe]
  end.

Section methods.
Context {E : Env} {C : Collation} {D : SqlEngine} {U : UnicodeText}.
Notation DB := (DB C D).
Implicit Types (w : World DB).
Variable s : Service C D.
Hypothesis H : honest s.

Lemma academic_quiet_filterText v : quiet (filterText s v).
Proof.
  unfold filterText. destruct (filter s) eqn:Ef; [|done]. apply quiet_bind; [|done].
  apply quiet_map_err. by eapply honest_filter.
Qed.
Lemma quiet_checkContent a b : quiet (checkContent s a b).
Proof. unfold checkContent. destruct (capabilities s) eqn:Ec; [by eapply honest_capabilities|done]. Qed.
Lemma quiet_root_school a : quiet (root_school s a).
Proof. unfold root_school. destruct (profiles s) eqn:Ep; [by eapply honest_profiles|done]. Qed.
Lemma quiet_upload f a b : files s = Some f -> quiet (UploadAcademicDocument f a b).
Proof. by apply honest_upload. Qed.
Lemma quiet_release f a : files s = Some f -> quiet (ReleaseReference f a).
Proof. by apply honest_release. Qed.
Lemma quiet_find_row (R : Type) {HE : Entity R} {HT : Tbl DB State R HE _} p :
  quiet (gormDB;; or_nil (take R p) : M DB (option R)).
Proof. apply reads_quiet, reads_bind; [apply academic_reads_gormDB|]. intros _. apply reads_or_nil, reads_take. Qed.
Lemma quiet_found {A} e (m : M DB (option A)) : quiet m -> quiet (found e m).
Proof. intros Hm. apply quiet_bind; [by apply quiet_attempt|]. by intros [[x|]|]. Qed.

Lemma wp_FindCourse id (Q : res (option Course) -> World DB -> Prop) w :
  (forall c w', w_db w' = w_db w -> courses (st w) !! id = Some c -> Q (Ok (Some c)) w') ->
  (forall r w', w_db w' = w_db w -> nothing r -> Q r w') ->
  wp (FindCourse id) Q w.
Proof.
  intros Hok Hno. unfold FindCourse. apply wp_bind, academic_wp_gormDB; intros _; cbv beta iota; [|by apply Hno].
  apply wp_or_nil, wp_take_byid; cbv beta iota; [intros; by apply Hno..|]. intros c Hc _. by apply Hok.
Qed.

Lemma wp_open_course id (Q : res Course -> World DB -> Prop) w :
  (forall c w', w_db w' = w_db w -> courses (st w) !! id = Some c -> crs_Status c = StatusNormal -> Q (Ok c) w') ->
  (forall w', w_db w' = w_db w -> Q (Err ErrCourseNotFound) w') ->
  wp (open_course id) Q w.
Proof.
  intros Hok Hno. unfold open_course. apply wp_bind, wp_found, wp_FindCourse.
  - intros c w' Hw Hc. cbv beta iota. apply wp_if; intros Hs; [by apply wp_throw, Hno|].
    bools. by apply wp_ret, Hok.
  - intros r w' Hw Hn. destruct r as [[c|]|]; cbv beta iota; [by destruct (Hn c)|by apply Hno..].
Qed.

#[local] Hint Resolve academic_quiet_filterText quiet_checkContent quiet_root_school quiet_upload quiet_release : store_safe.
#[local] Hint Extern 1 (quiet (FindCourseByIdentity _ _ _)) => apply quiet_find_row : store_safe.
#[local] Hint Extern 1 (quiet (FindMaterial _)) => apply quiet_find_row : store_safe.
#[local] Hint Extern 1 (quiet (found _ _)) => apply quiet_found : store_safe.
#[local] Hint Extern 2 (safe _) => apply safe_atomic; intros; solve
  [ by apply CreateCourse_atomic | apply DeleteReview_atomic | by apply UpdateMaterialStatus_atomic ] : academic_safe.

Lemma safe_CreateCourse a b req : safe (CreateCourse s a b req).
Proof. unfold CreateCourse. safely. Qed.
Lemma safe_DeleteReview a b : safe (DeleteReview a b : M DB unit).
Proof. unfold DeleteReview. safely. Qed.
Lemma safe_DeleteMaterial a b : safe (DeleteMaterial s a b).
Proof. unfold DeleteMaterial. safely. Qed.

Lemma safe_set_hidden e f a b :
  (forall id st now w, st = StatusNormal \/ st = StatusHidden -> wp (f id st now) (atomic w) w) ->
  safe (set_hidden e f a b : M DB unit).
Proof.
  intros Hf. unfold set_hidden. apply safe_bind; [safely|]. intros id. apply safe_bind; [safely|]. intros t.
  apply safe_bind; [|intros; safely]. apply safe_map_err, safe_atomic. intros w _. apply Hf. destruct b; auto.
Qed.
Lemma safe_HideCourse a b : safe (HideCourse a b : M DB unit).
Proof. apply safe_set_hidden. intros. by apply UpdateCourseStatus_atomic. Qed.
Lemma safe_HideReview a b : safe (HideReview a b : M DB unit).
Proof. apply safe_set_hidden. intros. by apply UpdateReviewStatus_atomic. Qed.
Lemma safe_HideMaterial a b : safe (HideMaterial a b : M DB unit).
Proof. apply safe_set_hidden. intros id st0 t w Hst. apply UpdateMaterialStatus_atomic. destruct Hst; congruence. Qed.
Lemma safe_HideReportTarget a b : safe (HideReportTarget a b : M DB unit).
Proof. unfold HideReportTarget. pose proof safe_HideReview. pose proof safe_HideMaterial. safely. Qed.

Lemma safe_MergeCourses a b : safe (MergeCourses a b : M DB unit).
Proof.
  unfold MergeCourses. apply safe_bind; [safely|]. intros src. apply safe_bind; [safely|]. intros tgt.
  destruct (src =? tgt)%Z eqn:Hne; [safely|]. bools. apply safe_bind; [safely|]. intros t.
  apply safe_map_err, safe_atomic. intros w Hw. by apply MergeCourses_atomic.
Qed.

Lemma safe_SaveReview a b id req : safe (SaveReview s a b id req).
Proof.
  intros s0 w Hg. unfold SaveReview. apply wp_bind. eapply wp_quiet; [exact Hg|apply quiet_checkContent|].
  intros [[]|e] w1 _ Hg1; cbv beta iota; [|done]. apply wp_bind, wp_of_res.
  destruct (parseID id) as [k|]; cbv beta iota; [|done].
  apply wp_bind, wp_open_course; [|intros w2 Hw2; by eapply goes_db].
  intros c w2 Hw2 Hc _. cbv beta iota. pose proof (goes_db _ _ _ Hw2 Hg1) as Hg2.
  apply wp_if; intros Hr; [done|]. apply wp_bind. eapply wp_quiet; [exact Hg2|apply academic_quiet_filterText|].
  intros [content|e] w3 Hw3 Hg3; cbv beta iota; [|done]. repeat wp_step. cbv zeta.
  apply wp_if; intros _; [done|]. apply wp_bind. unfold internal. apply wp_map_err.
  eapply wp_atomic; [exact Hg3| |by intros [] w4 Hg4].
  apply negb_false_iff in Hr. unfold validRatings, between in Hr. bools.
  apply SaveReview_atomic; [apply Hg3|done| |].
  - unfold rated, rating. simpl. lia.
  - simpl. unfold st in *. simpl. by rewrite Hw3, Hw2, Hc.
Qed.

Lemma safe_UploadMaterial a b id semester title description up :
  safe (UploadMaterial s a b id semester title description up).
Proof.
  intros s0 w Hg. unfold UploadMaterial. apply wp_bind. eapply wp_quiet; [exact Hg|apply quiet_checkContent|].
  intros [[]|e] w1 _ Hg1; cbv beta iota; [|done]. destruct (files s) as [store|] eqn:Hst; [|done].
  apply wp_bind, wp_of_res. destruct (parseID id) as [k|]; cbv beta iota; [|done].
  apply wp_bind, wp_open_course; [|intros w2 Hw2; by eapply goes_db].
  intros c w2 Hw2 Hc _. cbv beta iota zeta. pose proof (goes_db _ _ _ Hw2 Hg1) as Hg2.
  apply wp_if; intros _; [done|]. apply wp_bind. eapply wp_quiet; [exact Hg2|apply academic_quiet_filterText|].
  intros [t|e] w3 Hw3 Hg3; cbv beta iota; [|done]. apply wp_bind. eapply wp_quiet; [exact Hg3|apply academic_quiet_filterText|].
  intros [d|e] w4 Hw4 Hg4; cbv beta iota; [|done]. apply wp_bind.
  eapply wp_quiet; [exact Hg4|by eapply honest_upload|].
  intros [u|e] w5 Hw5 Hg5; cbv beta iota; [|done]. repeat wp_step.
  eapply (wp_atomic s0 (AcademicRepo.CreateMaterial _)); [exact Hg5| |].
  - apply CreateMaterial_atomic; [done|]. simpl. unfold st in *. simpl. by rewrite Hw5, Hw4, Hw3, Hw2, Hc.
  - intros [[]|e] w6 Hg6; cbv beta iota; [done|]. repeat wp_step.
    eapply wp_quiet; [exact Hg6|by eapply honest_release|done].
Qed.
End methods.

(** ** Histories of requests *)
Inductive request :=
| RCreateCourse (user root : Z) (req : CreateCourseReq)
| RSaveReview (user root : Z) (courseID : string) (req : ReviewReq)
| RDeleteReview (root : Z) (courseID : string)
| RUploadMaterial (user root : Z) (courseID semester title description : string) (upload : FileUpload)
| RDeleteMaterial (root : Z) (materialID : string)
| RMergeCourses (sourceID targetID : string)
| RHideCourse (courseID : string) (hidden : bool)
| RHideReview (reviewID : string) (hidden : bool)
| RHideMaterial (materialID : string) (hidden : bool)
| RHideReportTarget (targetType targetID : string).

Section histories.
Context {C : Collation} {D : SqlEngine} {U : UnicodeText}.
Notation DB := (DB C D).

Definition unit_of {A} (m : M DB A) : M DB unit := m;; ret tt.

Definition serve {E : Env} (s : Service C D) (q : request) : M DB unit :=
  match q with
  | RCreateCourse user root req => unit_of (CreateCourse s user root req)
  | RSaveReview user root id req => unit_of (SaveReview s user root id req)
  | RDeleteReview root id => DeleteReview root id
  | RUploadMaterial user root id semester title description up =>
    unit_of (UploadMaterial s user root id semester title description up)
  | RDeleteMaterial root id => DeleteMaterial s root id
  | RMergeCourses a b => MergeCourses a b
  | RHideCourse id hidden => HideCourse id hidden
  | RHideReview id hidden => HideReview id hidden
  | RHideMaterial id hidden => HideMaterial id hidden
  | RHideReportTarget t id => HideReportTarget t id
  end.

Lemma academic_safe_serve {E : Env} s q : honest s -> safe (serve s q).
Proof.
  intros Hs. destruct q; simpl; unfold unit_of; try (apply safe_bind; [|intros; by apply safe_quiet]);
    auto using safe_CreateCourse, safe_SaveReview, safe_DeleteReview, safe_UploadMaterial, safe_DeleteMaterial,
      safe_MergeCourses, safe_HideCourse, safe_HideReview, safe_HideMaterial, safe_HideReportTarget.
Qed.

(** One request, under a given clock, id generator and failures. *)
Definition served {E : Env} (w w' : World DB) : Prop :=
  exists (s : Service C D) q, honest s /\ w' = (serve s q w).2.

(** Requests one after another, each under any environment. *)
Definition history (w : World DB) : Prop :=
  exists w0, st w0 = empty_state /\ rtc (fun a b => exists E : Env, served a b) w0 w.

Lemma academic_many_served w w' :
  sound (st w) -> rtc (fun a b => exists E : Env, served a b) w w' -> rtc astep (st w) (st w') /\ sound (st w').
Proof.
  intros HI Hr. induction Hr as [w|w w1 w2 (E & s & q & Hs & ->) _ IH]; [done|].
  destruct (academic_safe_serve s q Hs (st w) w) as [Hs1 HI1]; [by apply goes_refl|].
  destruct (IH HI1). split; [by etrans|done].
Qed.

Lemma academic_history_sound w : history w -> sound (st w).
Proof.
  intros (w0 & H0 & Hr). apply (academic_many_served w0); [|done]. rewrite H0. apply academic_sound_empty.
Qed.

(** A run of concrete requests, for examples. *)
Definition run {E : Env} (s : Service C D) (qs : list request) (w : World DB) : World DB :=
  fold_left (fun w q => (serve s q w).2) qs w.

Lemma academic_run_served {E : Env} s qs w0 : honest s -> rtc served w0 (run s qs w0).
Proof.
  intros Hs. revert w0. induction qs as [|q qs IH]; intros w0; simpl; [apply rtc_refl|].
  eapply rtc_l; [|apply IH]. by exists s, q.
Qed.

Lemma academic_run_history {E : Env} s qs w0 : honest s -> st w0 = empty_state -> history (run s qs w0).
Proof.
  intros Hs H0. exists w0. split; [done|]. eapply (rtc_congruence (fun x => x));
    [|by apply academic_run_served]. intros x y Hxy. by exists E.
Qed.
End histories.
End AcademicSafe.

(** ** Academic: a concrete run

    A fixed environment and service on the [SqlGmap] engine: two courses, reviews of
    both, a material, and the merge of the first course into the second. *)

Module AcademicDemo.
Import Safe.
Import Academic AcademicService AcademicSafe.

(** The clock advances one second per step from 2023-11-14 22:13:20 UTC; ids are
    drawn from 1000 on. *)
#[export] Instance demo_env : Env := {
  env_now t := (1700000000 * GoTime.Second + Z.of_nat t * GoTime.Second)%Z;
  env_id t := (1000 + Z.of_nat t)%Z;
  env_fault _ := false;
}.

(** Everybody is from one school; the store accepts every file and logs releases. *)
Definition demo_files : FileStore bytewise _ := {|
  UploadAcademicDocument up _ := ret (mkOriginalUpload (fu_Content up) (fu_Filename up) "application/pdf" 3);
  ReleaseReference md5 := emit (EvCall "release" [md5]);
  OriginalURL md5 := md5;
|}.
Definition demo_service : Service bytewise _ :=
  mkService (Some (fun _ => ret "SZTU")) None None (Some demo_files).

Lemma academic_demo_honest : honest demo_service.
Proof. split; intros; simplify_eq/=; done. Qed.

Definition empty_db : DB bytewise _ :=
  {| db_nil := false; t_courses := gempty _; t_reviews := gempty _; t_materials := gempty _ |}.
Definition w0 : World (DB bytewise _) := mkWorld empty_db 0 [].

Definition review_req (content : string) (overall : Z) : ReviewReq := {|
  rreq_Semester := "2026-1"; rreq_Content := content; rreq_OverallRating := overall;
  rreq_DifficultyRating := 3; rreq_WorkloadRating := 3; rreq_GainRating := 3 |}.
Definition course_req (name : string) : CreateCourseReq := {|
  creq_Name := name; creq_Teacher := "Alice"; creq_Description := "" |}.

Definition two_courses : list request :=
  [RCreateCourse 7 7 (course_req "  Data   Structures "); RCreateCourse 8 8 (course_req "DS")].
(** User 8 reviews the second course, then users 7 and 8 the first. *)
Definition to_reviewed : list request := two_courses ++ [
  RSaveReview 8 8 "1005" (review_req "old" 2);
  RSaveReview 7 7 "1001" (review_req "mine" 5);
  RSaveReview 8 8 "1001" (review_req "newer" 4);
  RUploadMaterial 7 7 "1001" "2026-1" "Notes" "" (mkFileUpload "notes.pdf" "d41d")
].
Definition to_merged : list request := to_reviewed ++ [RMergeCourses "1001" "1005"].

Definition at_courses : World (DB bytewise _) := run demo_service two_courses w0.
Definition at_reviewed : World (DB bytewise _) := run demo_service to_reviewed w0.
Definition at_merged : World (DB bytewise _) := run demo_service to_merged w0.

Lemma academic_empty_start : st w0 = AcademicSpec.empty_state.
Proof. vm_compute. reflexivity. Qed.

Lemma academic_demo_history qs : history (run demo_service qs w0).
Proof. apply academic_run_history; [apply academic_demo_honest|apply academic_empty_start]. Qed.
End AcademicDemo.

Module AcademicProps.
Import Safe.
Import Academic AcademicRepo AcademicSpec AcademicRefine AcademicSafe.

(** What an author wrote. *)
Definition body (r : Review) :=
  (rvw_Semester r, rvw_Content r, rvw_OverallRating r, rvw_DifficultyRating r, rvw_WorkloadRating r,
   (rvw_GainRating r, rvw_Status r)).
(** The user's review of a course. *)
Definition review_at (s : State) (course user : Z) (r : Review) : Prop :=
  reviews s !! rvw_ID r = Some r /\ rvw_CourseID r = course /\ rvw_RootUserID r = user.

(** A mean of values between [a] and [b] lies between them. *)
Lemma sum_bounds (a b : Z) l : Forall (fun v => a <= v <= b)%Z l ->
  (a * Z.of_nat (length l) <= foldr Z.add 0 l <= b * Z.of_nat (length l))%Z.
Proof. induction 1; simpl; lia. Qed.

Lemma avg4_bounds a b l : l <> [] -> (0 <= a)%Z -> Forall (fun v => a <= v <= b)%Z l ->
  (a * 10000 <= avg4 l <= b * 10000)%Z.
Proof.
  intros Hl Ha Hf. pose proof (sum_bounds a b l Hf) as [H1 H2]. unfold avg4.
  assert (Hn : (0 < Z.of_nat (length l))%Z) by (destruct l; [done|simpl; lia]).
  set (n := Z.of_nat (length l)) in *. set (t := foldr Z.add 0%Z l) in *.
  rewrite (proj2 (Z.eqb_neq n 0%Z)) by lia.
  assert (Ht : (0 <= t)%Z) by nia. rewrite (proj2 (Z.leb_le 0%Z (t * 10000)%Z)) by lia.
  rewrite Z.abs_eq by lia. rewrite Z.mul_1_l. split.
  - apply Z.div_le_lower_bound; nia.
  - apply Z.lt_succ_r, Z.div_lt_upper_bound; nia.
Qed.

Section props.
Context {C : Collation} {D : SqlEngine} {U : UnicodeText}.
Notation DB := (DB C D).
Implicit Types (w : World DB).

(** The database answers, and no statement fails. *)
Definition up {E : Env} w : Prop := (forall n, env_fault n = false) /\ db_nil (w_db w) = false.

(** C40: whatever the requests, ratings are from 1 to 5, every review and material
    belongs to a course that exists, a user has at most one review of a course, a
    merged course names another course that exists, and following merges never comes
    back to where it started. *)
Theorem academic_integrity w :
  history w ->
  (forall k r, reviews (st w) !! k = Some r -> rated r /\ is_Some (courses (st w) !! rvw_CourseID r)) /\
  (forall k m, materials (st w) !! k = Some m -> is_Some (courses (st w) !! mat_CourseID m)) /\
  (forall k1 k2 r1 r2, reviews (st w) !! k1 = Some r1 -> reviews (st w) !! k2 = Some r2 ->
     rvw_CourseID r1 = rvw_CourseID r2 -> rvw_RootUserID r1 = rvw_RootUserID r2 -> k1 = k2) /\
  (forall k c, courses (st w) !! k = Some c -> crs_Status c = StatusMerged ->
     exists t, crs_MergeTargetID c = Some t /\ t <> k /\ is_Some (courses (st w) !! t)) /\
  (forall k, ~ tc (merge_edge (st w)) k k).
Proof.
  intros Hw. destruct (academic_history_sound _ Hw) as [_ I]. split; [|split; [|split; [|split]]].
  - intros k r Hk. split; [by eapply ai_rated|by eapply ai_review].
  - intros k m. by apply ai_material.
  - intros k1 k2 r1 r2 H1 H2. eapply same_review; [exact (vw_unique Review w)|done|done].
  - intros k c Hc Hm. destruct (ai_merged _ I _ _ Hc Hm) as [t Ht]. exists t. split; [done|]. by eapply ai_target.
  - intros k Hk. destruct (ai_rank _ I) as [rank Hr]. apply (rank_acyclic _ rank Hr) in Hk. lia.
Qed.

(** Every academic request refines the specification: whatever its arguments,
    the clock, the failures and the collaborators, its effect on the tables is a
    sequence of transitions of [astep]. *)
Theorem academic_refines {E : Env} s q w :
  honest s -> history w -> rtc astep (st w) (st (serve s q w).2).
Proof.
  intros Hs Hw. apply (academic_safe_serve s q Hs (st w) w), goes_refl, academic_history_sound, Hw.
Qed.

(** ** Merging *)
Section merged_rows.
Variables (s : State) (src tgt now : Z).
Hypothesis S : sound s.
Hypothesis Hne : src <> tgt.
Hypothesis unique : forall k1 k2 r1 r2, reviews s !! k1 = Some r1 -> reviews s !! k2 = Some r2 -> k1 <> k2 ->
  same_owner r1 r2 = false.

Lemma review_found course user r : review_at s course user r -> find_review (reviews s) course user = Some r.
Proof.
  intros (Hk & <- & <-). eapply find_review_eq; [done|done|]. unfold owned_review, review_of. by rewrite !Z.eqb_refl.
Qed.

Lemma merged_lookup k r : reviews s !! k = Some r ->
  merge_reviews src tgt now (reviews s) !! k = Some (merge_row src tgt now (reviews s) r).
Proof. unfold merge_reviews. by rewrite lookup_fmap; intros ->. Qed.

(** The author's text on the target after the merge. *)
Lemma merged_author user x : review_at s src user x ->
  exists y, merge_reviews src tgt now (reviews s) !! rvw_ID y = Some y /\
    rvw_CourseID y = tgt /\ rvw_RootUserID y = user /\
    ((exists e, review_at s tgt user e /\ (rvw_UpdatedAt x <= rvw_UpdatedAt e)%Z /\ y = e) \/
     ((forall e, review_at s tgt user e -> (rvw_UpdatedAt e < rvw_UpdatedAt x)%Z) /\ body y = body x)).
Proof.
  intros Hx. pose proof (review_found _ _ _ Hx) as Hfx. destruct Hx as (Hx & Hxc & Hxu).
  destruct (find_review (reviews s) tgt user) as [e|] eqn:Hfe.
  - pose proof (find_review_some _ _ _ _ Hfe) as ([k Hk] & Hec & Heu).
    pose proof (wf_reviews _ (proj1 S) _ _ Hk) as He. subst k.
    assert (Hrow : merge_row src tgt now (reviews s) e
      = if (rvw_UpdatedAt e <? rvw_UpdatedAt x)%Z then review_take x now e else e).
    { unfold merge_row, review_of. rewrite Hec, Heu, Hfx, Z.eqb_refl.
      by rewrite (proj2 (Z.eqb_neq tgt src)) by congruence. }
    pose proof (merged_lookup _ _ Hk) as Hm. rewrite Hrow in Hm.
    destruct (rvw_UpdatedAt e <? rvw_UpdatedAt x)%Z eqn:Hlt; bools.
    + exists (review_take x now e). split; [exact Hm|]. split; [done|]. split; [done|]. right. split; [|done].
      intros e' He'. apply review_found in He'. congruence.
    + exists e. split; [done|]. split; [done|]. split; [done|]. left. by exists e.
  - assert (Hrow : merge_row src tgt now (reviews s) x = review_move tgt now x)
      by (unfold merge_row, review_of; by rewrite Hxc, Z.eqb_refl, Hxu, Hfe).
    pose proof (merged_lookup _ _ Hx) as Hm. rewrite Hrow in Hm.
    exists (review_move tgt now x). split; [exact Hm|].
    split; [done|]. split; [done|]. right. split; [|done]. intros e He. apply review_found in He. congruence.
Qed.

Lemma merged_source k y : merge_reviews src tgt now (reviews s) !! k = Some y -> rvw_CourseID y = src ->
  rvw_Status y = StatusMerged.
Proof.
  unfold merge_reviews. rewrite lookup_fmap. intros Hk Hc. destruct (reviews s !! k) as [r|] eqn:Hr; [|done].
  cbn [fmap option_fmap option_map] in Hk. injection Hk as Hk. unfold merge_row in Hk.
  destruct (review_of src r) eqn:Hs.
  - destruct (find_review _ _ _); subst y; [done|]. simpl in Hc. congruence.
  - exfalso. unfold review_of in *. repeat case_match; subst y; simpl in *; bools; congruence.
Qed.

Lemma merged_others k r : reviews s !! k = Some r -> rvw_CourseID r <> src ->
  rvw_CourseID r <> tgt \/ (forall x, ~ review_at s src (rvw_RootUserID r) x) ->
  merge_reviews src tgt now (reviews s) !! k = Some r.
Proof.
  intros Hk Hs Ho. rewrite (merged_lookup _ _ Hk). f_equal. unfold merge_row, review_of.
  rewrite (proj2 (Z.eqb_neq _ _) Hs). destruct (_ =? tgt)%Z eqn:Ht; [|done]. bools.
  destruct Ho as [?|Hno]; [congruence|]. destruct (find_review _ src _) as [x|] eqn:Hf; [|done].
  apply find_review_some in Hf as ([j Hj] & Hc & Hu). destruct (Hno x).
  split; [|done]. by rewrite (wf_reviews _ (proj1 S) _ _ Hj).
Qed.
End merged_rows.

(** Merging a course into another, in any reachable state: an error changes
    nothing and means that a course was not open or a statement failed.  Otherwise
    the source is closed and names its target, its materials are the target's, none of
    its reviews is left open, and each of its authors has one review on the target:
    the one that was there if it is as recent, else the text given to the source;
    everything else is untouched. *)
Theorem MergeCourses_spec {E : Env} src tgt now w :
  history w -> src <> tgt ->
  wp (MergeCourses src tgt now) (fun r w' =>
    match r with
    | Err _ => st w' = st w /\ (faulty \/ db_nil (w_db w) = true \/ ~ both_open (st w) src tgt)
    | Ok _ =>
      (exists c, courses (st w) !! src = Some c /\
         courses (st w') = <[src := course_merge tgt now c]> (courses (st w))) /\
      (forall k m, materials (st w) !! k = Some m ->
         materials (st w') !! k = Some (if (mat_CourseID m =? src)%Z then material_move tgt now m else m)) /\
      (forall k y, reviews (st w') !! k = Some y -> rvw_CourseID y = src -> rvw_Status y = StatusMerged) /\
      (forall user x, review_at (st w) src user x -> exists y, review_at (st w') tgt user y /\
         ((exists e, review_at (st w) tgt user e /\ (rvw_UpdatedAt x <= rvw_UpdatedAt e)%Z /\ y = e) \/
          ((forall e, review_at (st w) tgt user e -> (rvw_UpdatedAt e < rvw_UpdatedAt x)%Z) /\ body y = body x))) /\
      (forall k r, reviews (st w) !! k = Some r -> rvw_CourseID r <> src ->
         rvw_CourseID r <> tgt \/ (forall x, ~ review_at (st w) src (rvw_RootUserID r) x) ->
         reviews (st w') !! k = Some r)
    end) w.
Proof.
  intros Hw Hne. pose proof (academic_history_sound _ Hw) as HS. pose proof (vw_unique Review w) as Hu.
  apply MergeCourses_exact; [done|done|done|].
  intros c d w' Hc _ _ _ Hm. rewrite Hm. unfold merged. simpl. split; [by exists c|]. split; [|split; [|split]].
  - intros k m Hk. unfold merge_materials. rewrite lookup_upd_view, Hk. done.
  - by apply merged_source.
  - intros user x Hx. destruct (merged_author _ src tgt now HS Hne Hu user x Hx) as (y & Hy & Hyc & Hyu & Hcase).
    exists y. split; [|exact Hcase]. by split.
  - by apply merged_others.
Qed.

(** ** Saving *)

(** Saving a review, with no failure: afterwards the table holds exactly the
    returned row for that user and course, with the text given; an earlier row keeps
    its id and creation time and is replaced, no other row changes. *)
Theorem SaveReview_spec {E : Env} r w :
  up w -> history w -> rvw_Status r = StatusNormal -> reviews (st w) !! rvw_ID r = None ->
  wp (SaveReview r) (fun res w' => exists r', res = Ok r' /\
    st w' = set_reviews (<[rvw_ID r' := r']> (reviews (st w))) (st w) /\
    body r' = body r /\ rvw_UpdatedAt r' = rvw_UpdatedAt r /\
    review_at (st w') (rvw_CourseID r) (rvw_RootUserID r) r' /\
    forall x, review_at (st w) (rvw_CourseID r) (rvw_RootUserID r) x ->
      rvw_ID r' = rvw_ID x /\ rvw_CreatedAt r' = rvw_CreatedAt x) w.
Proof.
  intros [NF Hdb] Hw Hst Hfresh. destruct (academic_history_sound _ Hw) as [W I]. unfold SaveReview.
  apply wp_bind, academic_wp_gormDB; intros Hnil; cbv beta iota; [|congruence].
  apply wp_commit; [done|]. apply wp_bind, wp_attempt, wp_take; cbv beta iota; [by rewrite NF| |].
  - intros Hno. change (errors_Is ErrRecordNotFound record_not_found_text) with true. cbv iota.
    apply wp_bind, wp_insert; [by rewrite NF| |]; cbv beta iota.
    + intros [[x Hx]|(k & x & Hx & Hcl)]; [change (reviews (st w) !! rvw_ID r = Some x) in Hx; congruence|].
      specialize (Hno k x Hx). simpl in Hcl. unfold owned_review, review_of, same_owner in *.
      rewrite (Z.eqb_sym (rvw_CourseID r)), (Z.eqb_sym (rvw_RootUserID r)) in Hcl. destruct Hcl; congruence.
    + intros w' [Hw' _] _ _. apply wp_ret. cbv beta iota. exists r. split; [done|]. split; [exact Hw'|].
      split; [done|]. split; [done|]. split.
      * split; [|done]. unfold st. simpl. rewrite Hw'. simpl. apply lookup_insert_eq.
      * intros x (Hx & Hc & Hu). specialize (Hno _ _ Hx). unfold owned_review, review_of in Hno.
        rewrite Hc, Hu, !Z.eqb_refl in Hno. done.
  - intros x Hx Ho. cbv zeta. unfold owned_review, review_of in Ho. bools.
    apply wp_bind, wp_update_kept; [done|intros [n Hn]; by rewrite NF in Hn|].
    intros n w' Hw'. cbv beta iota. apply wp_ret. cbv beta iota.
    set (r' := {| rvw_ID := rvw_ID x; rvw_CourseID := rvw_CourseID r |}).
    assert (Hr' : review_edit r' x = r').
    { unfold review_edit, r'. destruct x, r. simpl in *. by subst. }
    assert (Hst' : st w' = set_reviews (<[rvw_ID r' := r']> (reviews (st w))) (st w)).
    { rewrite Hw'. change (st (bump w)) with (st w). f_equal. rewrite <- Hr' at 2. by apply update_at_hit. }
    exists r'. split; [done|]. split; [exact Hst'|]. split; [done|]. split; [done|]. split.
    + split; [|done]. change (st (bump w')) with (st w'). rewrite Hst'. simpl. apply lookup_insert_eq.
    + intros y (Hy & Hc & Hu).
      assert (rvw_ID y = rvw_ID x) as Hid.
      { eapply same_review; [exact (vw_unique Review w)|exact Hy|exact Hx|congruence|congruence]. }
      change (reviews (st w) !! rvw_ID x = Some x) in Hx. rewrite Hid, Hx in Hy. by injection Hy as ->.
Qed.

(** The averages of a course are on the scale of the ratings: with no open review
    they are 0, else each lies between 1 and 5. *)
Theorem RatingStats_bounds {E : Env} course w :
  history w ->
  wp (AcademicRepo.RatingStats course) (fun r w' => st w' = st w /\ (up w -> is_ok r = true) /\
    forall stats, r = Ok stats ->
      rs_Count stats = amount (fun x => review_of course x && review_is StatusNormal x) (reviews (st w)) /\
      if (rs_Count stats =? 0)%Z then stats = mkRatingStats 0 0 0 0 0
      else Forall (fun v => 10000 <= v <= 50000)%Z
             [rs_Overall stats; rs_Difficulty stats; rs_Workload stats; rs_Gain stats]) w.
Proof.
  intros Hw. destruct (academic_history_sound _ Hw) as [_ I]. unfold AcademicRepo.RatingStats.
  apply wp_bind, academic_wp_gormDB; intros Hnil; cbv beta iota.
  2: { split; [done|]. split; [|done]. intros [_ Hup]. congruence. }
  apply wp_bind, wp_find; cbv beta iota.
  { intros Hf. split; [done|]. split; [|done]. intros [NF _]. by rewrite NF in Hf. }
  intros l Hl. apply wp_ret. split; [done|]. split; [done|]. intros stats [= <-].
  change (vw Review w) with (reviews (st w)) in Hl. split; [symmetry; by apply amount_found|].
  assert (Hr : Forall rated l).
  { apply Forall_forall. intros x Hx. rewrite Hl in Hx.
    apply list_elem_of_fmap in Hx as ([k y] & -> & Hx). apply elem_of_map_to_list, lookup_matching in Hx as [Hk _].
    by eapply ai_rated. }
  destruct l as [|x l]; [done|]. simpl.
  assert (Hb : forall f, (forall y, rated y -> rating (f y)) -> (10000 <= avg4 (f <$> x :: l) <= 50000)%Z).
  { intros f Hf. apply (avg4_bounds 1 5); [done|done|]. rewrite Forall_fmap. eapply Forall_impl; [exact Hr|].
    intros y Hy. by apply Hf. }
  repeat constructor; apply Hb; by intros y (? & ? & ? & ?).
Qed.
End props.

(** ** The same, on the run of [AcademicDemo] *)
Import AcademicDemo.

Lemma academic_demo_up qs : db_nil (w_db (run demo_service qs w0)) = false -> up (run demo_service qs w0).
Proof. by split. Qed.

Lemma academic_integrity_witness :
  exists c t, courses (st at_merged) !! 1001%Z = Some c /\ crs_MergeTargetID c = Some t /\
    is_Some (courses (st at_merged) !! t).
Proof.
  destruct (academic_integrity at_merged (academic_demo_history to_merged)) as (_ & _ & _ & Hm & _).
  row (courses (st at_merged)) 1001%Z (fun c => bool_decide (crs_Status c = StatusMerged)) c Hc Hs.
  destruct (Hm _ _ Hc Hs) as (t & Ht & _ & Hsome). exists c, t. auto.
Defined.

Lemma academic_refines_witness :
  rtc astep (st at_reviewed) (st (serve demo_service (RMergeCourses "1001" "1005") at_reviewed).2).
Proof.
  exact (academic_refines demo_service (RMergeCourses "1001" "1005") at_reviewed
    academic_demo_honest (academic_demo_history to_reviewed)).
Defined.

Lemma MergeCourses_spec_witness :
  exists x y, review_at (st at_reviewed) 1001 8 x /\
    review_at (st (MergeCourses 1001 1005 9 at_reviewed).2) 1005 8 y.
Proof.
  assert (Hne : 1001%Z <> 1005%Z) by done.
  pose proof (MergeCourses_spec 1001 1005 9 at_reviewed (academic_demo_history to_reviewed) Hne) as Hs.
  unfold wp in Hs.
  assert (Hok : is_ok (MergeCourses 1001 1005 9 at_reviewed).1 = true) by (vm_compute; reflexivity).
  destruct (MergeCourses 1001 1005 9 at_reviewed).1 as [[]|]; [|discriminate].
  destruct Hs as (_ & _ & _ & Hauthor & _).
  destruct (row_at (reviews (st at_reviewed)) 1022%Z
    (fun x => (rvw_ID x =? 1022)%Z && (rvw_CourseID x =? 1001)%Z && (rvw_RootUserID x =? 8)%Z)) as (x & Hx & Hp);
    [vm_compute; reflexivity|].
  apply andb_true_iff in Hp as [Hp Hu]. apply andb_true_iff in Hp as [Hi Hc].
  apply Z.eqb_eq in Hi, Hu, Hc.
  assert (Hat : review_at (st at_reviewed) 1001 8 x) by (split; [rewrite Hi; exact Hx|split; [exact Hc|exact Hu]]).
  destruct (Hauthor 8%Z x Hat) as (y & Hy & _). exists x, y. split; [exact Hat|exact Hy].
Defined.

Definition another_review : Review := mkReview 2000 1005 9 "2026-1" "fine" 4 4 4 4 StatusNormal 5 5.
Lemma SaveReview_spec_witness :
  exists r', (SaveReview another_review at_reviewed).1 = Ok r' /\
    review_at (st (SaveReview another_review at_reviewed).2) 1005 9 r'.
Proof.
  assert (Hdb : db_nil (w_db at_reviewed) = false) by (vm_compute; reflexivity).
  assert (Hf : reviews (st at_reviewed) !! rvw_ID another_review = None) by (vm_compute; reflexivity).
  destruct (SaveReview_spec another_review at_reviewed (academic_demo_up to_reviewed Hdb)
    (academic_demo_history to_reviewed) eq_refl Hf) as (r' & Hr & _ & _ & _ & Hat & _).
  exists r'. split; [exact Hr|exact Hat].
Defined.

Lemma RatingStats_bounds_witness :
  exists stats, (AcademicRepo.RatingStats 1005 at_merged).1 = Ok stats /\
    (10000 <= rs_Overall stats <= 50000)%Z.
Proof.
  destruct (RatingStats_bounds 1005 at_merged (academic_demo_history to_merged)) as (_ & _ & Hs).
  assert (Hok : exists stats, (AcademicRepo.RatingStats 1005 at_merged).1 = Ok stats /\ rs_Count stats = 2%Z)
    by (eexists; split; vm_compute; reflexivity).
  destruct Hok as (stats & Hr & Hc). destruct (Hs stats Hr) as [_ Hb]. rewrite Hc in Hb. simpl in Hb.
  inversion Hb as [|v l Hv _]. exists stats. split; [exact Hr|exact Hv].
Defined.
End AcademicProps.

(** ** Academic: replays of defects

    Concrete requests on the run of [AcademicDemo] that show what the code does and
    should not. *)

Module AcademicFindings.
Import Safe.
Import Academic AcademicService AcademicSafe AcademicDemo.

Definition detail_status (id : string) (w : World (DB bytewise _)) : option string :=
  match (CourseDetail id w).1 with Ok r => Some (cr_Status r) | Err _ => None end.

(** After a second merge the detail of the first source shows the course in the middle,
    which is itself merged away, and not the one that holds the reviews. *)
Lemma detail_stops_halfway :
  detail_status "1001" (run demo_service
    [RCreateCourse 9 9 (course_req "Algorithms"); RMergeCourses "1005" "1043"] at_merged) = Some "merged"%string.
Proof. vm_compute. reflexivity. Qed.

(** Unhiding a merged course opens it again. *)
Lemma unhide_reopens_merged :
  detail_status "1001" (run demo_service [RHideCourse "1001" false] at_merged) = Some "normal"%string
  /\ (exists c, courses (st (run demo_service [RHideCourse "1001" false] at_merged)) !! 1001%Z = Some c
        /\ crs_Status c = StatusNormal /\ crs_MergeTargetID c = Some 1005%Z).
Proof. split; [vm_compute; reflexivity|]. eexists. split; [vm_compute; reflexivity|]. split; reflexivity. Qed.

(** Deleting a material twice releases its file twice. *)
Lemma delete_twice_releases_twice :
  List.filter (fun e => match e with EvCall _ _ => true | _ => false end)
    (w_out (run demo_service [RDeleteMaterial 7 "1028"; RDeleteMaterial 7 "1028"] at_reviewed))
  = [EvCall "release" ["d41d"%string]; EvCall "release" ["d41d"%string]].
Proof. vm_compute. reflexivity. Qed.

(** An author shows a review again that an administrator has hidden. *)
Definition review_status_at (k : Z) (w : World (DB bytewise _)) : option Status :=
  rvw_Status <$> reviews (st w) !! k.
Lemma author_unhides_review :
  review_status_at 1016 (run demo_service [RHideReview "1016" true] at_reviewed) = Some StatusHidden
  /\ review_status_at 1016 (run demo_service
       [RHideReview "1016" true; RSaveReview 7 7 "1001" (review_req "again" 5)] at_reviewed) = Some StatusNormal.
Proof. split; vm_compute; reflexivity. Qed.

(** Unhiding a deleted material lists it again, after its file was released. *)
Lemma unhide_revives_deleted :
  (mat_Status <$> materials (st (run demo_service
    [RDeleteMaterial 7 "1028"; RHideMaterial "1028" false] at_reviewed)) !! 1028%Z) = Some StatusNormal.
Proof. vm_compute. reflexivity. Qed.
End AcademicFindings.
