(* ===== verification/CiImpact.v ===== *)
(** * Change impact analysis

    [internal/ciimpact]: [types.go], [manifest.go], [diff.go], [evaluate.go] and the
    pure part of [graph.go].  The [go list] command is a parameter; an error is its
    format with its arguments. *)
From stdpp Require Import sorting.
From Stdlib Require Import Ascii.
From S2P Require Import Prelude GoString.

Module CiImpact.
Local Open Scope string_scope.
Import GoPath.

(** ** types.go *)
Record Service := mkService {
  svc_Service : string; svc_Entrypoint : string; svc_Image : string; svc_ConfigDir : string; svc_Port : Z }.
Definition Manifest : Type := list Service.
Record Result := mkResult {
  res_ChangedFiles : list string;
  res_TestMatrix : list Service;
  res_BuildMatrix : list Service;
  res_HasTests : bool;
  res_HasBuilds : bool;
  res_RequiresProtoCheck : bool;
  res_FallbackReason : string;
}.
Record Change := mkChange { ch_Status : string; ch_OldPath : string; ch_Path : string }.
Record Graph := mkGraph {
  gr_Packages : gmap string string;
  gr_Runtime : gmap string (gset string);
  gr_Tests : gmap string (gset string);
}.

Inductive ci_error :=
| InvalidLine (line : string)
| InvalidRename (line : string)
| TooLong
| EmptyManifest
| IncompleteEntry (name : string)
| DuplicateService (name : string)
| MissingService (name : string)
| IncompleteGraph (name : string)
| GoList (context : string) (e : string)
| NoMainModule (name : string).

(** ** Paths *)
Definition backslash : ascii := Ascii.ascii_of_nat 92.
Definition cleanPath (value : string) : string :=
  Clean (TrimPrefix (GoStr.TrimSpace (replace_byte backslash slash value)) "./").

Definition fullBuildFiles : list string :=
  ["go.mod"; "go.sum"; "go.work"; "go.work.sum"; ".dockerignore"; "build/Dockerfile.go-service";
   "scripts/ci/services.json"].

Definition ignorable (file : string) : bool :=
  String.eqb file ".github/workflows/deploy.yml" || HasPrefix file "docs/"
  || HasPrefix file ".github/ISSUE_TEMPLATE/"
  || (HasPrefix file "configs/ecampus-crm/" || HasPrefix file "cmd/ecampus-crm/"
      || HasPrefix file "internal/app/ecampuscrm/")
  || (HasPrefix file "cmd/ecampus/" || HasPrefix file "deployments/ecampus/"
      || HasPrefix file "deployments/ecampus-crm/")
  || String.eqb (Dir file) "internal/app/ecampus"
  || (let ext := GoStr.ToLower (Ext file) in
      String.eqb ext ".md" || String.eqb ext ".mdx" || String.eqb file "LICENSE").

Definition ciContractFile (file : string) : bool :=
  HasPrefix file "internal/ciimpact/" || HasPrefix file "cmd/ecampus-impact/"
  || HasPrefix file "cmd/ecampus-service-check/" || HasPrefix file "scripts/ci/run-service-checks".

Definition changeIsIgnorable (c : Change) : bool :=
  ignorable (cleanPath (ch_Path c))
  && (String.eqb (ch_OldPath c) "" || ignorable (cleanPath (ch_OldPath c))).

(** ** diff.go *)

(** [bufio.ScanLines]: the text between newlines, a final empty one and a trailing
    carriage return dropped. *)
Definition newline : ascii := Ascii.ascii_of_nat 10.
Definition tab : ascii := Ascii.ascii_of_nat 9.
Definition drop_cr (s : string) : string :=
  let cr := String (Ascii.ascii_of_nat 13) "" in
  if HasSuffix s cr then String.substring 0 (String.length s - 1) s else s.
Definition lines (s : string) : list string :=
  let l := GoStr.Split newline s in
  match last l with Some "" => removelast l | _ => l end.

(** The scanner's buffer holds 64 KiB. *)
Definition too_long (line : string) : bool := (65536 <=? Z.of_nat (String.length line))%Z.

(** One round of the loop: [inl] is an error return, [None] a skipped line. *)
Definition parse_line (text : string) : ci_error + option Change :=
  let line := GoStr.TrimSpace (drop_cr text) in
  if String.eqb line "" then inr None
  else
    match GoStr.Split tab line with
    | [] | [_] => inl (InvalidLine line)
    | status :: p1 :: rest =>
      if HasPrefix status "R" || HasPrefix status "C" then
        match rest with
        | [p2] => inr (Some (mkChange status (cleanPath p1) (cleanPath p2)))
        | _ => inl (InvalidRename line)
        end
      else inr (Some (mkChange status "" (cleanPath p1)))
    end.

Fixpoint scan_lines (l : list string) (changes : list Change) : ci_error + list Change :=
  match l with
  | [] => inr changes
  | text :: l' =>
    if too_long text then inl TooLong
    else
      match parse_line text with
      | inl e => inl e
      | inr None => scan_lines l' changes
      | inr (Some c) => scan_lines l' (changes ++ [c])
      end
  end.

Definition ParseNameStatus (reader : string) : ci_error + list Change := scan_lines (lines reader) [].

(** ** manifest.go *)
Definition incomplete (s : Service) : bool :=
  String.eqb (GoStr.TrimSpace (svc_Service s)) "" || String.eqb (svc_Entrypoint s) ""
  || String.eqb (svc_Image s) "" || String.eqb (svc_ConfigDir s) "" || (svc_Port s <=? 0)%Z.

Fixpoint validate_services (seen : gset string) (l : list Service) : option ci_error :=
  match l with
  | [] => None
  | s :: l' =>
    let name := GoStr.TrimSpace (svc_Service s) in
    if incomplete s then Some (IncompleteEntry name)
    else if bool_decide (name ∈ seen) then Some (DuplicateService name)
    else validate_services ({[name]} ∪ seen) l'
  end.

Definition ValidateManifest (m : Manifest) : option ci_error :=
  match m with [] => Some EmptyManifest | _ => validate_services ∅ m end.

Definition FindService (m : Manifest) (name : string) : ci_error + Service :=
  match List.find (fun s => String.eqb (svc_Service s) name) m with
  | Some s => inr s
  | None => inl (MissingService name)
  end.

(** ** evaluate.go *)
Definition string_le (a b : string) : Prop := String.leb a b = true.
#[export] Instance string_le_dec a b : Decision (string_le a b).
Proof. unfold string_le. apply _. Defined.
Definition sort_strings (s : gset string) : list string := merge_sort string_le (elements s).

Definition path_set (acc : gset string) (c : Change) : gset string :=
  let acc := if String.eqb (ch_OldPath c) "" then acc else {[cleanPath (ch_OldPath c)]} ∪ acc in
  if String.eqb (ch_Path c) "" then acc else {[cleanPath (ch_Path c)]} ∪ acc.
Definition changedPaths (changes : list Change) : list string :=
  sort_strings (fold_left path_set changes ∅).

Definition is_proto (file : string) : bool := HasPrefix (cleanPath file) "proto/agent/".

Definition FullResult (m : Manifest) (changed : list string) (reason : string) : Result :=
  mkResult changed m m (0 <? Z.of_nat (length m))%Z (0 <? Z.of_nat (length m))%Z
    (existsb is_proto changed) reason.

(** The first loop: the reason of a full build, if a change calls for one. *)
Definition status_reason (c : Change) : option string :=
  if changeIsIgnorable c then None
  else if HasPrefix (ch_Status c) "D" then Some ("deleted file cannot be mapped safely: " ++ ch_Path c)
  else if HasPrefix (ch_Status c) "R" || HasPrefix (ch_Status c) "C"
  then Some ("renamed or copied file cannot be mapped safely: " ++ ch_Path c)
  else if negb (String.eqb (ch_Status c) "A") && negb (String.eqb (ch_Status c) "M")
          && negb (String.eqb (ch_Status c) "T")
  then Some ("unsupported git change status: " ++ ch_Status c)
  else None.

Fixpoint first_reason (l : list Change) : option string :=
  match l with
  | [] => None
  | c :: l' => match status_reason c with Some r => Some r | None => first_reason l' end
  end.

(** [_, ok := m[service][importPath]]: a missing service is an empty set. *)
Definition reaches (m : gmap string (gset string)) (service importPath : string) : bool :=
  bool_decide (importPath ∈ default ∅ (m !! service)).

(** What the second loop accumulates: the services to test and to build, and
    whether the protocol is to be checked. *)
Record Selection := mkSelection { sel_tests : gset string; sel_builds : gset string; sel_proto : bool }.

(** The loop over the services, and whether one matched. *)
Definition service_step (g : Graph) (file importPath : string) (acc : Selection * bool) (s : Service)
    : Selection * bool :=
  let (sel, matched) := acc in
  if reaches (gr_Runtime g) (svc_Service s) importPath then
    (mkSelection ({[svc_Service s]} ∪ sel_tests sel)
       (if HasSuffix file "_test.go" then sel_builds sel else {[svc_Service s]} ∪ sel_builds sel)
       (sel_proto sel), true)
  else if reaches (gr_Tests g) (svc_Service s) importPath then
    (mkSelection ({[svc_Service s]} ∪ sel_tests sel) (sel_builds sel) (sel_proto sel), true)
  else (sel, matched).

(** One change: [inl] is the reason of a full build. *)
Definition change_step (m : Manifest) (g : Graph) (sel : Selection) (c : Change) : string + Selection :=
  let file := cleanPath (ch_Path c) in
  if ignorable file then inr sel
  else if bool_decide (file ∈ fullBuildFiles) || HasPrefix file "configs/ecampus/" || ciContractFile file
  then inl ""
  else if HasPrefix file "proto/agent/" then
    inr (mkSelection ({["agentchat"]} ∪ sel_tests sel) ({["agentchat"]} ∪ sel_builds sel) true)
  else
    match gr_Packages g !! Dir file with
    | None => inl ("file cannot be mapped to a Go package: " ++ file)
    | Some importPath =>
      let (sel', matched) := fold_left (service_step g file importPath) m (sel, false) in
      if matched then inr sel'
      else inl ("package is outside every service dependency closure: " ++ importPath)
    end.

Fixpoint change_loop (m : Manifest) (g : Graph) (sel : Selection) (l : list Change) : string + Selection :=
  match l with
  | [] => inr sel
  | c :: l' => match change_step m g sel c with inl r => inl r | inr sel' => change_loop m g sel' l' end
  end.

Definition selectedServices (m : Manifest) (selected : gset string) : list Service :=
  List.filter (fun s => bool_decide (svc_Service s ∈ selected)) m.

Definition Evaluate (m : Manifest) (changes : list Change) (g : Graph) : Result :=
  let changed := changedPaths changes in
  match first_reason changes with
  | Some reason => FullResult m changed reason
  | None =>
    match change_loop m g (mkSelection ∅ ∅ false) changes with
    | inl reason => FullResult m changed reason
    | inr sel =>
      let tests := selectedServices m (sel_tests sel) in
      let builds := selectedServices m (sel_builds sel) in
      mkResult changed tests builds (0 <? Z.of_nat (length tests))%Z (0 <? Z.of_nat (length builds))%Z
        (sel_proto sel) ""
    end
  end.

Definition ValidateGraph (m : Manifest) (g : Graph) : option ci_error :=
  let bad := fun s => (Z.of_nat (size (default ∅ (gr_Runtime g !! svc_Service s) : gset string)) =? 0)%Z
                  || (Z.of_nat (size (default ∅ (gr_Tests g !! svc_Service s) : gset string)) =? 0)%Z in
  (fun s => IncompleteGraph (svc_Service s)) <$> List.find bad m.

(** ** graph.go *)
Record listedPackage := mkPackage { lp_ImportPath : string; lp_Dir : string; lp_Module : option bool }.

Definition isMainModule (p : listedPackage) : bool := default false (lp_Module p).

Definition localImports (l : list listedPackage) : gset string :=
  fold_left (fun acc p =>
    if isMainModule p && negb (String.eqb (lp_ImportPath p) "") && negb (HasSuffix (lp_ImportPath p) ".test")
    then {[lp_ImportPath p]} ∪ acc else acc) l ∅.

Section go_list.
(** [goList]: the packages the [go list] command prints for its arguments, or the
    text of its error. *)
Context (goList : list string -> string + list listedPackage).
Variable repoRoot : string.

Definition package_step (acc : gmap string string) (p : listedPackage) : gmap string string :=
  if negb (isMainModule p) || String.eqb (lp_Dir p) "" || String.eqb (lp_ImportPath p) "" then acc
  else
    match Rel repoRoot (lp_Dir p) with
    | None => acc
    | Some dir => if HasPrefix dir ".." then acc else <[cleanPath dir := lp_ImportPath p]> acc
    end.

Fixpoint closure_loop (l : list Service) (runtime tests : gmap string (gset string))
    : ci_error + (gmap string (gset string) * gmap string (gset string)) :=
  match l with
  | [] => inr (runtime, tests)
  | s :: l' =>
    match goList ["-deps"; "-json"; svc_Entrypoint s] with
    | inl e => inl (GoList ("resolve runtime dependencies for " ++ svc_Service s) e)
    | inr runtimePackages =>
      let imports := localImports runtimePackages in
      if (Z.of_nat (size imports) =? 0)%Z then inl (NoMainModule (svc_Service s))
      else
        match goList (["-deps"; "-test"; "-json"] ++ sort_strings imports)%list with
        | inl e => inl (GoList ("resolve test dependencies for " ++ svc_Service s) e)
        | inr testPackages =>
          closure_loop l' (<[svc_Service s := imports]> runtime)
            (<[svc_Service s := localImports testPackages]> tests)
        end
    end
  end.

Definition BuildGraph (m : Manifest) : ci_error + Graph :=
  match goList ["-json"; "./..."] with
  | inl e => inl (GoList "go list packages" e)
  | inr all =>
    match closure_loop m ∅ ∅ with
    | inl e => inl e
    | inr (runtime, tests) => inr (mkGraph (fold_left package_step all ∅) runtime tests)
    end
  end.

Definition RuntimePackages (s : Service) : string + list string :=
  match goList ["-deps"; "-json"; svc_Entrypoint s] with
  | inl e => inl e
  | inr l => inr (sort_strings (localImports l))
  end.
End go_list.
End CiImpact.
