(* ===== verification/CiImpactProps.v ===== *)
(** * What the change impact analysis computes

    A reference definition of the selection, one change and one service at a time,
    and the theorems that [Evaluate] computes it: which changes force a full build,
    which services a change reaches, and what the matrices are.  Then the round trip
    of [ParseNameStatus] with the format [git diff --name-status] prints, with the
    quoting of git: the parser leaves it in place. *)
From stdpp Require Import sorting.
From Stdlib Require Import Ascii Btauto.
From S2P Require Import Prelude GoString CiImpact.

Module CiImpactProps.
Local Open Scope string_scope.
Import GoPath CiImpact.

(** ** The reference definition

    It shares with the code only the normal form of a path, the directory and extension
    of a file, and what the graph reaches: the files and statuses are classified anew. *)
Definition ignored_files : list string := [".github/workflows/deploy.yml"; "LICENSE"].
Definition ignored_prefixes : list string :=
  ["docs/"; ".github/ISSUE_TEMPLATE/"; "configs/ecampus-crm/"; "cmd/ecampus-crm/"; "internal/app/ecampuscrm/";
   "cmd/ecampus/"; "deployments/ecampus/"; "deployments/ecampus-crm/"].
Definition ignored_extensions : list string := [".md"; ".mdx"].
Definition build_files : list string :=
  ["go.mod"; "go.sum"; "go.work"; "go.work.sum"; ".dockerignore"; "build/Dockerfile.go-service";
   "scripts/ci/services.json"].
Definition contract_prefixes : list string :=
  ["configs/ecampus/"; "internal/ciimpact/"; "cmd/ecampus-impact/"; "cmd/ecampus-service-check/";
   "scripts/ci/run-service-checks"].

Definition one_of (s : string) (l : list string) : bool := existsb (String.eqb s) l.
Definition irrelevant (file : string) : bool :=
  one_of file ignored_files || existsb (HasPrefix file) ignored_prefixes
  || String.eqb (Dir file) "internal/app/ecampus" || one_of (GoStr.ToLower (Ext file)) ignored_extensions.
Definition contract_file (file : string) : bool :=
  one_of file build_files || existsb (HasPrefix file) contract_prefixes.

(** The paths a change is about; a change that is not an addition or a modification of
    the content or the type cannot be narrowed, unless all its paths are irrelevant. *)
Definition touched (c : Change) : list string :=
  ch_Path c :: (if String.eqb (ch_OldPath c) "" then [] else [ch_OldPath c]).
Definition narrow_statuses : list string := ["A"; "M"; "T"].
Definition blocked (c : Change) : bool :=
  negb (forallb (fun p => irrelevant (cleanPath p)) (touched c)) && negb (one_of (ch_Status c) narrow_statuses).

Section reference.
Variables (m : Manifest) (g : Graph).

(** A Go package is among what the service runs, or among what its tests use. *)
Definition uses (p : string) (s : string) : bool :=
  reaches (gr_Runtime g) s p || reaches (gr_Tests g) s p.

Definition proto_file (file : string) : bool := HasPrefix file "proto/agent/".

(** The change cannot be narrowed to some services. *)
Definition forces_all (c : Change) : bool :=
  let file := cleanPath (ch_Path c) in
  negb (irrelevant file)
  && (contract_file file
      || negb (proto_file file)
         && match gr_Packages g !! Dir file with
            | None => true
            | Some p => negb (existsb (fun s => uses p (svc_Service s)) m)
            end).

(** The change asks for the tests, or for the build, of the service. *)
Definition wants_tests (s : string) (c : Change) : bool :=
  let file := cleanPath (ch_Path c) in
  negb (irrelevant file)
  && if proto_file file then String.eqb s "agentchat"
     else match gr_Packages g !! Dir file with Some p => uses p s | None => false end.
Definition wants_build (s : string) (c : Change) : bool :=
  let file := cleanPath (ch_Path c) in
  negb (irrelevant file)
  && if proto_file file then String.eqb s "agentchat"
     else match gr_Packages g !! Dir file with
          | Some p => reaches (gr_Runtime g) s p && negb (HasSuffix file "_test.go")
          | None => false
          end.
Definition wants_proto (c : Change) : bool :=
  let file := cleanPath (ch_Path c) in negb (irrelevant file) && proto_file file.

Definition full (cs : list Change) : bool :=
  existsb blocked cs || existsb forces_all cs.

(** Why, for the first change in the way: what it lacks, or nothing for a contract file. *)
Definition blocked_text (c : Change) : string :=
  if existsb (HasPrefix (ch_Status c)) ["D"] then "deleted file cannot be mapped safely: " ++ ch_Path c
  else if existsb (HasPrefix (ch_Status c)) ["R"; "C"] then "renamed or copied file cannot be mapped safely: " ++ ch_Path c
  else "unsupported git change status: " ++ ch_Status c.
Definition forced_text (c : Change) : string :=
  let file := cleanPath (ch_Path c) in
  if contract_file file then ""
  else match gr_Packages g !! Dir file with
       | None => "file cannot be mapped to a Go package: " ++ file
       | Some p => "package is outside every service dependency closure: " ++ p
       end.
Definition full_text (cs : list Change) : string :=
  match List.find blocked cs, List.find forces_all cs with
  | Some c, _ => blocked_text c
  | None, Some c => forced_text c
  | None, None => ""
  end.

Definition selected (wants : string -> Change -> bool) (cs : list Change) : list Service :=
  List.filter (fun s => existsb (wants (svc_Service s)) cs) m.
End reference.

(** ** The classification of files and statuses *)
Lemma one_of_decide x l : bool_decide (x ∈ l) = one_of x l.
Proof.
  unfold one_of. apply Bool.eq_iff_eq_true. rewrite bool_decide_eq_true, existsb_exists. split.
  - intros H. exists x. split; [by apply list_elem_of_In|apply String.eqb_refl].
  - intros (y & Hy & ->%String.eqb_eq). by apply list_elem_of_In.
Qed.
Lemma ignorable_irrelevant file : ignorable file = irrelevant file.
Proof.
  unfold ignorable, irrelevant, one_of, ignored_files, ignored_prefixes, ignored_extensions.
  cbv zeta. cbn [existsb]. btauto.
Qed.
Lemma contract_files file :
  bool_decide (file ∈ fullBuildFiles) || HasPrefix file "configs/ecampus/" || ciContractFile file = contract_file file.
Proof.
  rewrite one_of_decide. unfold contract_file, one_of, fullBuildFiles, build_files, ciContractFile, contract_prefixes.
  cbn [existsb]. btauto.
Qed.
Lemma changeIsIgnorable_touched c :
  changeIsIgnorable c = forallb (fun p => irrelevant (cleanPath p)) (touched c).
Proof.
  unfold changeIsIgnorable, touched. rewrite !ignorable_irrelevant.
  destruct (String.eqb (ch_OldPath c) ""); cbn [forallb orb]; by rewrite ?andb_true_r.
Qed.
Lemma status_reason_text c : status_reason c = if blocked c then Some (blocked_text c) else None.
Proof.
  unfold status_reason, blocked, blocked_text. rewrite changeIsIgnorable_touched.
  destruct (forallb _ _); [done|]. cbn [negb andb]. unfold one_of, narrow_statuses. cbn [existsb].
  destruct (String.eqb_spec (ch_Status c) "A") as [->|_]; [done|].
  destruct (String.eqb_spec (ch_Status c) "M") as [->|_]; [done|].
  destruct (String.eqb_spec (ch_Status c) "T") as [->|_]; [done|]. cbn [negb andb orb]. rewrite !orb_false_r.
  by repeat case_match.
Qed.
Lemma first_reason_text cs : first_reason cs = blocked_text <$> List.find blocked cs.
Proof.
  induction cs as [|c cs IH]; [done|]. cbn [first_reason List.find]. rewrite status_reason_text.
  by destruct (blocked c).
Qed.
Lemma find_existsb {A} (p : A -> bool) l : existsb p l = bool_decide (is_Some (List.find p l)).
Proof.
  induction l as [|x l IH]; [done|]. cbn [existsb List.find]. destruct (p x); [|exact IH].
  by rewrite bool_decide_eq_true_2.
Qed.

(** ** The loop over the services *)


Lemma in_add (x y : string) (X : gset string) :
  bool_decide (x ∈ {[y]} ∪ X) = String.eqb x y || bool_decide (x ∈ X).
Proof.
  apply Bool.eq_iff_eq_true. rewrite orb_true_iff, !bool_decide_eq_true, String.eqb_eq. set_solver.
Qed.

Section service_loop.
Variables (g : Graph) (file p : string).

Definition builds_here (s : string) : bool :=
  reaches (gr_Runtime g) s p && negb (HasSuffix file "_test.go").

(** What one more service adds. *)
Lemma service_step_exact sel b s :
  service_step g file p (sel, b) s
  = (mkSelection (if uses g p (svc_Service s) then {[svc_Service s]} ∪ sel_tests sel else sel_tests sel)
       (if builds_here (svc_Service s) then {[svc_Service s]} ∪ sel_builds sel else sel_builds sel)
       (sel_proto sel), b || uses g p (svc_Service s)).
Proof.
  unfold service_step, uses, builds_here.
  destruct sel as [t bu pr], (reaches (gr_Runtime g) _ p), (reaches (gr_Tests g) _ p); simpl;
    rewrite ?orb_true_r, ?orb_false_r; try done; by destruct (HasSuffix file "_test.go").
Qed.

Lemma service_loop_matched l sel b :
  snd (fold_left (service_step g file p) l (sel, b)) = b || existsb (fun s => uses g p (svc_Service s)) l.
Proof.
  revert sel b. induction l as [|s l IH]; intros sel b; cbn [fold_left existsb]; [by rewrite orb_false_r|].
  rewrite service_step_exact, IH. by rewrite orb_assoc.
Qed.

Lemma service_loop_proto l sel b : sel_proto (fst (fold_left (service_step g file p) l (sel, b))) = sel_proto sel.
Proof.
  revert sel b. induction l as [|s l IH]; intros sel b; cbn [fold_left]; [done|].
  rewrite service_step_exact. by rewrite IH.
Qed.

(** A name is in the sets after the loop iff it was before or is wanted by a service
    of the list that bears it. *)
Lemma service_loop_sets l sel b x :
  bool_decide (x ∈ sel_tests (fst (fold_left (service_step g file p) l (sel, b))))
  = bool_decide (x ∈ sel_tests sel) || existsb (fun s => String.eqb x (svc_Service s) && uses g p x) l
  /\ bool_decide (x ∈ sel_builds (fst (fold_left (service_step g file p) l (sel, b))))
  = bool_decide (x ∈ sel_builds sel) || existsb (fun s => String.eqb x (svc_Service s) && builds_here x) l.
Proof.
  revert sel b. induction l as [|s l IH]; intros sel b; [by rewrite !orb_false_r|].
  assert (Hadd : forall (q : string -> bool) (X : gset string),
    bool_decide (x ∈ if q (svc_Service s) then {[svc_Service s]} ∪ X else X)
    = bool_decide (x ∈ X) || (String.eqb x (svc_Service s) && q x)).
  { intros q X. destruct (String.eqb_spec x (svc_Service s)) as [<-|Hne].
    - destruct (q x); rewrite ?in_add, ?String.eqb_refl; simpl; by rewrite ?orb_true_r, ?orb_false_r.
    - destruct (q (svc_Service s)); rewrite ?in_add; [rewrite (proj2 (String.eqb_neq _ _) Hne)|];
        simpl; by rewrite orb_false_r. }
  cbn [fold_left existsb]. rewrite service_step_exact.
  match goal with |- context [fold_left _ l (?sel1, ?b1)] => destruct (IH sel1 b1) as [-> ->] end.
  cbn [sel_tests sel_builds]. by rewrite !Hadd, !orb_assoc.
Qed.
End service_loop.

(** ** The loop over the changes *)
Section change_loop.
Variables (m : Manifest) (g : Graph).

Lemma existsb_self (f : string -> bool) s : s ∈ m ->
  existsb (fun s' => String.eqb (svc_Service s) (svc_Service s') && f (svc_Service s)) m = f (svc_Service s).
Proof.
  intros Hs. apply Bool.eq_iff_eq_true. rewrite existsb_exists. split.
  - intros [s' [_ H]]. by bools.
  - intros H. exists s. split; [by apply list_elem_of_In|]. by rewrite String.eqb_refl, H.
Qed.

(** One change either forces a full build, or adds what it wants. *)
Definition extends (sel sel' : Selection) (cs : list Change) : Prop :=
  (forall s, s ∈ m ->
    let x := svc_Service s in
    bool_decide (x ∈ sel_tests sel') = bool_decide (x ∈ sel_tests sel) || existsb (wants_tests g x) cs
    /\ bool_decide (x ∈ sel_builds sel') = bool_decide (x ∈ sel_builds sel) || existsb (wants_build g x) cs)
  /\ sel_proto sel' = sel_proto sel || existsb wants_proto cs.

Lemma change_step_exact sel c :
  if forces_all m g c then change_step m g sel c = inl (forced_text g c)
  else exists sel', change_step m g sel c = inr sel' /\ extends sel sel' [c].
Proof.
  unfold forces_all, change_step, forced_text, proto_file, extends. cbn [existsb].
  unfold wants_tests, wants_build, wants_proto, proto_file.
  set (file := cleanPath (ch_Path c)). rewrite <- !ignorable_irrelevant, <- !contract_files.
  destruct (ignorable file); cbn [negb andb].
  { exists sel. split; [done|]. split; [intros s _|]; by rewrite !orb_false_r. }
  destruct (bool_decide (file ∈ fullBuildFiles) || HasPrefix file "configs/ecampus/" || ciContractFile file).
  { done. }
  cbn [negb andb orb]. destruct (HasPrefix file "proto/agent/"); cbn [negb andb orb].
  { eexists. split; [done|]. split; cbn [sel_tests sel_builds sel_proto]; [|by rewrite orb_true_r].
    intros s _. rewrite !in_add, !orb_false_r. split; apply orb_comm. }
  destruct (gr_Packages g !! Dir file) as [p|]; [|done].
  destruct (fold_left _ m _) as [sel' matched] eqn:Hf.
  pose proof (service_loop_matched g file p m sel false) as Hm.
  pose proof (service_loop_proto g file p m sel false) as Hpr.
  pose proof (fun x => service_loop_sets g file p m sel false x) as Hs.
  rewrite Hf in Hm, Hpr, Hs. simpl in Hm, Hpr, Hs. subst matched.
  destruct (existsb _ m); cbn [negb orb]; [|done].
  exists sel'. split; [done|]. rewrite Hpr, !orb_false_r. split; [|done].
  intros s Hin. destruct (Hs (svc_Service s)) as [-> ->]. by rewrite !orb_false_r, !existsb_self by done.
Qed.

Lemma change_loop_exact cs sel :
  match List.find (forces_all m g) cs with
  | Some c => change_loop m g sel cs = inl (forced_text g c)
  | None => exists sel', change_loop m g sel cs = inr sel' /\ extends sel sel' cs
  end.
Proof.
  revert sel. induction cs as [|c cs IH]; intros sel.
  { cbn [List.find change_loop]. exists sel. split; [done|]. split; [intros s _|]; cbn [existsb]; by rewrite !orb_false_r. }
  cbn [List.find change_loop]. pose proof (change_step_exact sel c) as Hc. destruct (forces_all m g c).
  { by rewrite Hc. }
  destruct Hc as [sel1 [-> H1]]. specialize (IH sel1). destruct (List.find (forces_all m g) cs); [done|].
  destruct IH as [sel' [-> [H2 P2]]], H1 as [H1 P1]. exists sel'. split; [done|].
  cbn [existsb] in H1, P1. rewrite orb_false_r in P1.
  split; [|cbn [existsb]; by rewrite P2, P1, orb_assoc].
  intros s Hs. destruct (H1 s Hs) as [T1 B1], (H2 s Hs) as [T2 B2]. rewrite orb_false_r in T1, B1.
  cbn [existsb]. by rewrite T2, B2, T1, B1, !orb_assoc.
Qed.

Lemma selectedServices_exact (X : gset string) (wants : string -> Change -> bool) cs :
  (forall s, s ∈ m -> bool_decide (svc_Service s ∈ X) = existsb (wants (svc_Service s)) cs) ->
  selectedServices m X = selected m wants cs.
Proof.
  intros H. unfold selectedServices, selected. apply List.filter_ext_in.
  intros s Hs. apply H. by apply list_elem_of_In.
Qed.

End change_loop.

(** ** Theorems *)

(** The result up to the text of the reason for a full build. *)
Definition outcome (m : Manifest) (g : Graph) (cs : list Change) : Result :=
  let changed := changedPaths cs in
  let tests := if full m g cs then m else selected m (wants_tests g) cs in
  let builds := if full m g cs then m else selected m (wants_build g) cs in
  mkResult changed tests builds (0 <? Z.of_nat (length tests))%Z (0 <? Z.of_nat (length builds))%Z
    (if full m g cs then existsb is_proto changed else existsb wants_proto cs) "".
Definition without_reason (r : Result) : Result :=
  mkResult (res_ChangedFiles r) (res_TestMatrix r) (res_BuildMatrix r) (res_HasTests r) (res_HasBuilds r)
    (res_RequiresProtoCheck r) "".

Lemma Evaluate_outcome m g cs :
  without_reason (Evaluate m cs g) = outcome m g cs
  /\ res_FallbackReason (Evaluate m cs g) = full_text m g cs.
Proof.
  unfold outcome, full, full_text, Evaluate. rewrite first_reason_text, (find_existsb blocked), (find_existsb (forces_all m g)).
  destruct (List.find blocked cs) as [c|]; [done|]. cbn [fmap option_fmap option_map].
  pose proof (change_loop_exact m g cs (mkSelection ∅ ∅ false)) as H.
  destruct (List.find (forces_all m g) cs) as [c|]; [by rewrite H|].
  rewrite bool_decide_eq_false_2 by (by intros [? ?]). cbn [orb].
  destruct H as [sel' [-> [Hs Hp]]]. cbn [sel_proto orb] in Hp. split; [|done].
  rewrite (selectedServices_exact m (sel_tests sel') (wants_tests g) cs),
    (selectedServices_exact m (sel_builds sel') (wants_build g) cs).
  - cbn. by rewrite Hp.
  - intros s Hin. by destruct (Hs s Hin) as [_ ->].
  - intros s Hin. by destruct (Hs s Hin) as [-> _].
Qed.

(** *** Order of the changes *)
Lemma existsb_permutation {A} (f : A -> bool) l l' : Permutation l l' -> existsb f l = existsb f l'.
Proof.
  intros H. apply Bool.eq_iff_eq_true. rewrite !existsb_exists.
  split; intros (x & Hx & Hf); exists x; (split; [|done]); [|symmetry in H]; by apply (Permutation_in _ H).
Qed.

Lemma path_set_comm X c c' : path_set (path_set X c) c' = path_set (path_set X c') c.
Proof. unfold path_set. repeat case_match; set_solver. Qed.

Lemma path_set_permutation l l' X :
  Permutation l l' -> fold_left path_set l X = fold_left path_set l' X.
Proof.
  intros H. revert X. induction H as [|c l l' H IH|c c' l|l1 l2 l3 H1 IH1 H2 IH2]; intros X; simpl.
  - done.
  - apply IH.
  - by rewrite path_set_comm.
  - by rewrite IH1.
Qed.

Lemma elem_of_path_set l X p :
  p ∈ fold_left path_set l X <->
  p ∈ X \/ exists c, c ∈ l /\ (ch_OldPath c <> "" /\ p = cleanPath (ch_OldPath c)
                                \/ ch_Path c <> "" /\ p = cleanPath (ch_Path c)).
Proof.
  revert X. induction l as [|c l IH]; intros X; cbn [fold_left]; [set_solver|].
  rewrite IH. setoid_rewrite elem_of_cons. unfold path_set.
  destruct (String.eqb_spec (ch_OldPath c) ""), (String.eqb_spec (ch_Path c) ""); set_solver.
Qed.

#[export] Instance string_le_total : Total string_le.
Proof.
  intros a b. unfold string_le, String.leb. rewrite (String.compare_antisym b a).
  destruct (String.compare a b); cbn; by auto.
Qed.

(** [changedPaths] lists every path of the changes once, in order. *)
Lemma changedPaths_spec cs :
  Sorted string_le (changedPaths cs) /\ NoDup (changedPaths cs)
  /\ forall p, p ∈ changedPaths cs <->
       exists c, c ∈ cs /\ (ch_OldPath c <> "" /\ p = cleanPath (ch_OldPath c)
                             \/ ch_Path c <> "" /\ p = cleanPath (ch_Path c)).
Proof.
  unfold changedPaths, sort_strings. split; [|split].
  - apply Sorted_merge_sort, _.
  - rewrite merge_sort_Permutation. apply NoDup_elements.
  - intros p. rewrite merge_sort_Permutation, elem_of_elements, elem_of_path_set. set_solver.
Qed.

Lemma outcome_permutation m g cs cs' : Permutation cs cs' -> outcome m g cs = outcome m g cs'.
Proof.
  intros H. unfold outcome, full, selected, changedPaths.
  rewrite (path_set_permutation cs cs' ∅ H).
  rewrite (existsb_permutation _ _ _ H), (existsb_permutation (forces_all m g) _ _ H),
    (existsb_permutation wants_proto _ _ H).
  rewrite (List.filter_ext _ _ (fun s => existsb_permutation (wants_tests g (svc_Service s)) _ _ H) m).
  by rewrite (List.filter_ext _ _ (fun s => existsb_permutation (wants_build g (svc_Service s)) _ _ H) m).
Qed.

(** *** The graph [BuildGraph] makes of the listings *)
Lemma validate_services_names seen m : validate_services seen m = None ->
  NoDup (svc_Service <$> m) /\ forall s, s ∈ m -> GoStr.TrimSpace (svc_Service s) ∉ seen.
Proof.
  revert seen. induction m as [|s m IH]; intros seen H; cbn [validate_services] in H.
  { split; [constructor|]. by intros s ?%not_elem_of_nil. }
  destruct (incomplete s); [done|]. case_bool_decide as Hin; [done|].
  destruct (IH _ H) as [Hnd Hs]; clear IH. split.
  - apply NoDup_cons. split; [|done]. intros Hs'. apply list_elem_of_fmap in Hs' as [s' [He Hs']].
    apply Hs in Hs'. rewrite He in Hs'. apply Hs'. apply elem_of_union. left. by apply elem_of_singleton.
  - intros s' [->|Hs']%elem_of_cons; [done|]. specialize (Hs s' Hs'). intros Hin'. apply Hs, elem_of_union. by right.
Qed.

Lemma ValidateManifest_names m : ValidateManifest m = None -> NoDup (svc_Service <$> m).
Proof.
  unfold ValidateManifest. destruct m; [done|]. intros H. exact (proj1 (validate_services_names _ _ H)).
Qed.

Lemma elem_of_localImports l p :
  p ∈ localImports l <-> exists pk, pk ∈ l /\ lp_ImportPath pk = p /\ isMainModule pk = true
    /\ p <> "" /\ HasSuffix p ".test" = false.
Proof.
  unfold localImports.
  match goal with |- context [fold_left ?f l ∅] => set (step := f) end.
  assert (H : forall X, p ∈ fold_left step l X <-> p ∈ X \/ exists pk, pk ∈ l /\ lp_ImportPath pk = p
    /\ isMainModule pk = true /\ p <> "" /\ HasSuffix p ".test" = false).
  { induction l as [|pk l IH]; intros X; cbn [fold_left]; [set_solver|].
    rewrite IH. setoid_rewrite elem_of_cons. unfold step.
    destruct (isMainModule pk) eqn:Hm, (String.eqb_spec (lp_ImportPath pk) ""),
      (HasSuffix (lp_ImportPath pk) ".test") eqn:Ht; cbn [negb andb]; rewrite ?elem_of_union, ?elem_of_singleton;
      naive_solver congruence. }
  rewrite H. set_solver.
Qed.

Section build_graph.
Context (goList : list string -> string + list listedPackage) (repoRoot : string).

(** The closures [go list] answers for a service. *)
Definition closures (s : Service) (runtime tests : gset string) : Prop :=
  exists rp tp, goList ["-deps"; "-json"; svc_Entrypoint s] = inr rp /\ runtime = localImports rp
    /\ runtime <> ∅ /\ goList (["-deps"; "-test"; "-json"] ++ sort_strings runtime)%list = inr tp
    /\ tests = localImports tp.

Lemma closure_loop_exact m runtime tests r t :
  NoDup (svc_Service <$> m) -> closure_loop goList m runtime tests = inr (r, t) ->
  (forall s, s ∈ m -> exists R T, r !! svc_Service s = Some R /\ t !! svc_Service s = Some T /\ closures s R T)
  /\ forall x, x ∉ svc_Service <$> m -> r !! x = runtime !! x /\ t !! x = tests !! x.
Proof.
  revert runtime tests. induction m as [|s m IH]; intros runtime tests Hnd H; cbn [closure_loop] in H.
  { simplify_eq. split; [by intros s ?%not_elem_of_nil|done]. }
  destruct (goList _) as [e|rp] eqn:Hr in H; [done|]. case_match eqn:Hsize; [done|].
  destruct (goList _) as [e|tp] eqn:Ht in H; [done|].
  rewrite fmap_cons, NoDup_cons in Hnd. destruct Hnd as [Hs Hnd].
  destruct (IH _ _ Hnd H) as [Hin Hout]. split.
  - intros s' [->|Hs']%elem_of_cons; [|by apply Hin].
    destruct (Hout _ Hs) as [-> ->]. rewrite !lookup_insert_eq. do 2 eexists. split; [done|]. split; [done|].
    exists rp, tp. repeat split; try done. intros He. rewrite He, size_empty in Hsize. done.
  - intros x Hx. rewrite fmap_cons, not_elem_of_cons in Hx. destruct Hx as [Hne Hx].
    destruct (Hout x Hx) as [-> ->]. by rewrite !lookup_insert_ne by done.
Qed.

(** The key of a listed package in the package table, when it gets one. *)
Definition package_key (pk : listedPackage) : option string :=
  if negb (isMainModule pk) || String.eqb (lp_Dir pk) "" || String.eqb (lp_ImportPath pk) "" then None
  else
    match Rel repoRoot (lp_Dir pk) with
    | None => None
    | Some dir => if HasPrefix dir ".." then None else Some (cleanPath dir)
    end.

Lemma package_step_key acc pk :
  package_step repoRoot acc pk
  = match package_key pk with Some k => <[k := lp_ImportPath pk]> acc | None => acc end.
Proof. unfold package_step, package_key. by repeat case_match. Qed.

Lemma package_loop l acc k i :
  (forall pk, pk ∈ l -> package_key pk = Some k -> lp_ImportPath pk = i) ->
  acc !! k = Some i \/ (exists pk, pk ∈ l /\ package_key pk = Some k) ->
  fold_left (package_step repoRoot) l acc !! k = Some i.
Proof.
  revert acc. induction l as [|pk l IH]; intros acc Hall Hin; cbn [fold_left].
  { destruct Hin as [|[pk [[]%not_elem_of_nil _]]]; done. }
  apply IH; [intros pk' ?; apply Hall; by right|]. rewrite package_step_key.
  destruct Hin as [Hacc|[pk' [[->|Hpk']%elem_of_cons Hk]]].
  - left. destruct (package_key pk) as [k'|] eqn:Hk; [|done].
    destruct (decide (k' = k)) as [->|]; [|by rewrite lookup_insert_ne].
    rewrite lookup_insert_eq. f_equal. apply Hall; [by left|done].
  - left. rewrite Hk, lookup_insert_eq. f_equal. apply Hall; [by left|done].
  - right. by exists pk'.
Qed.
End build_graph.

Lemma reaches_some M s p X : M !! s = Some X -> p ∈ X -> reaches M s p = true.
Proof. unfold reaches. intros -> Hp. by apply bool_decide_eq_true. Qed.

Lemma elem_of_selected m wants cs s c :
  s ∈ m -> c ∈ cs -> wants (svc_Service s) c = true -> s ∈ selected m wants cs.
Proof.
  intros Hs Hc Hw. apply list_elem_of_In, List.filter_In. split; [by apply list_elem_of_In|].
  apply existsb_exists. exists c. split; [by apply list_elem_of_In|done].
Qed.

(** A change wanted by a service is answered, in a narrowed run and in a full one. *)
Lemma Evaluate_wanted m g cs s c : s ∈ m -> c ∈ cs ->
  (wants_tests g (svc_Service s) c = true -> s ∈ res_TestMatrix (Evaluate m cs g))
  /\ (wants_build g (svc_Service s) c = true -> s ∈ res_BuildMatrix (Evaluate m cs g)).
Proof.
  intros Hs Hc. destruct (Evaluate_outcome m g cs) as [H _]. unfold outcome in H.
  injection H as _ Ht Hb _ _ _. rewrite Ht, Hb.
  destruct (full m g cs); [done|]. split; intros Hw; by eapply elem_of_selected.
Qed.

(** ** [ParseNameStatus] reads back what git prints *)

(** A path as git prints it ([core.quotePath] at its default): one with a control
    character, a double quote, a backslash or a byte beyond ASCII is put in double
    quotes, with C escapes. *)
Definition quote : ascii := Ascii.ascii_of_nat 34.
Definition escaped (c : ascii) : bool :=
  let b := GoStr.byte c in (b <? 32)%Z || (127 <=? b)%Z || (b =? 34)%Z || (b =? 92)%Z.
Definition letter_escape (b : Z) : option string :=
  if (b =? 7)%Z then Some "a" else if (b =? 8)%Z then Some "b" else if (b =? 9)%Z then Some "t"
  else if (b =? 10)%Z then Some "n" else if (b =? 11)%Z then Some "v" else if (b =? 12)%Z then Some "f"
  else if (b =? 13)%Z then Some "r" else if (b =? 34)%Z then Some (String quote "")
  else if (b =? 92)%Z then Some (String backslash "") else None.
Definition octal (b : Z) : string :=
  String (GoStr.digit_char (b / 64)) (String (GoStr.digit_char (b / 8 mod 8)) (String (GoStr.digit_char (b mod 8)) "")).
Definition escape (c : ascii) : string :=
  if escaped c then String backslash (default (octal (GoStr.byte c)) (letter_escape (GoStr.byte c)))
  else String c "".
Fixpoint escapes (s : string) : string :=
  match s with "" => "" | String c s' => escape c ++ escapes s' end.
Definition quoted (p : string) : bool := existsb escaped (String.list_ascii_of_string p).
Definition git_path (p : string) : string :=
  if quoted p then String quote (escapes p ++ String quote "") else p.

(** One change as [git diff --name-status] prints it. *)
Definition tabbed (a b : string) : string := a ++ String tab b.
Definition moved (c : Change) : bool := HasPrefix (ch_Status c) "R" || HasPrefix (ch_Status c) "C".
Definition print_change (c : Change) : string :=
  tabbed (ch_Status c) (if moved c then tabbed (git_path (ch_OldPath c)) (git_path (ch_Path c)) else git_path (ch_Path c)).
Fixpoint print_changes (cs : list Change) : string :=
  match cs with [] => "" | c :: cs' => print_change c ++ String newline (print_changes cs') end.

(** A field starts and ends with a visible character and holds no tab or newline. *)
Definition field (s : string) : bool :=
  match GoStr.bytes s, rev (GoStr.bytes s) with
  | a :: _, b :: _ => GoStr.graphic a && GoStr.graphic b
  | _, _ => false
  end && GoStr.free tab s && GoStr.free newline s.
Definition printable (c : Change) : bool :=
  field (ch_Status c) && field (git_path (ch_Path c))
  && (if moved c then field (git_path (ch_OldPath c)) else String.eqb (ch_OldPath c) "")
  && (Z.of_nat (String.length (print_change c)) <? 65536)%Z.
(** The change the parser makes of it; a change whose paths it reads as they are. *)
Definition as_read (c : Change) : Change :=
  mkChange (ch_Status c) (if moved c then cleanPath (git_path (ch_OldPath c)) else "") (cleanPath (git_path (ch_Path c))).
Definition plain_path (p : string) : bool := negb (quoted p) && String.eqb (cleanPath p) p.
Definition plain (c : Change) : bool :=
  plain_path (ch_Path c) && (if moved c then plain_path (ch_OldPath c) else String.eqb (ch_OldPath c) "").

(** A text between two visible characters, seen from its ends. *)
Definition framed (s : string) : Prop :=
  exists a l b l', GoStr.bytes s = a :: l /\ rev (GoStr.bytes s) = b :: l'
    /\ GoStr.graphic a = true /\ GoStr.graphic b = true.

Lemma framed_app s x t : framed s -> framed t -> framed (s ++ x ++ t).
Proof.
  intros (a & l & _ & _ & Ha & _ & Ga & _) (_ & _ & b & l' & _ & Hb & _ & Gb).
  unfold framed. rewrite !GoStr.bytes_app, Ha, !rev_app_distr, Hb. simpl. by eauto 10.
Qed.

Lemma space_len_rev_graphic b l : GoStr.graphic b = true -> GoStr.space_len_rev (b :: l) = 0%nat.
Proof.
  intros Hb. unfold GoStr.space_len_rev. rewrite GoStr.space_len_graphic by done. simpl.
  unfold GoStr.graphic in Hb. bools. destruct l as [|b1 [|b2 l]]; [done|..].
  - simpl. assert (E : ((b =? 133) || (b =? 160))%Z = false) by (apply orb_false_iff; split; apply Z.eqb_neq; lia).
    rewrite E, andb_false_r. by repeat case_match.
  - simpl. assert (E : ((b =? 133) || (b =? 160))%Z = false) by (apply orb_false_iff; split; apply Z.eqb_neq; lia).
    rewrite E, andb_false_r.
    replace (b =? 128)%Z with false by (symmetry; apply Z.eqb_neq; lia).
    replace (128 <=? b)%Z with false by (symmetry; apply Z.leb_gt; lia).
    replace (b =? 159)%Z with false by (symmetry; apply Z.eqb_neq; lia).
    replace (b =? 168)%Z with false by (symmetry; apply Z.eqb_neq; lia).
    replace (b =? 169)%Z with false by (symmetry; apply Z.eqb_neq; lia).
    replace (b =? 175)%Z with false by (symmetry; apply Z.eqb_neq; lia).
    rewrite ?andb_false_r. cbn [orb]. by repeat case_match.
Qed.

Lemma TrimSpace_framed s : framed s -> GoStr.TrimSpace s = s.
Proof.
  intros (a & l & b & l' & Ha & Hb & Ga & Gb). apply GoStr.TrimSpace_id.
  - rewrite Ha. by apply GoStr.space_len_graphic.
  - rewrite Hb. by apply space_len_rev_graphic.
Qed.

Lemma drop_bytes_suffix n s : exists x, s = x ++ drop_bytes n s.
Proof.
  revert s. induction n as [|n IH]; intros [|c s]; try (by exists ""); simpl.
  destruct (IH s) as [x Hx]. exists (String c x). exact (f_equal (String c) Hx).
Qed.

Lemma drop_cr_framed s : framed s -> drop_cr s = s.
Proof.
  intros (_ & _ & b & l' & _ & Hb & _ & Gb). unfold drop_cr.
  destruct (HasSuffix s _) eqn:H; [|done]. exfalso. unfold HasSuffix in H. bools.
  apply String.eqb_eq in H0. destruct (drop_bytes_suffix (String.length s - 1) s) as [x Hx].
  simpl in H0. rewrite H0 in Hx. rewrite Hx, GoStr.bytes_app, rev_app_distr in Hb. simpl in Hb.
  injection Hb as <- _. done.
Qed.

Lemma field_spec s : field s = true -> framed s /\ GoStr.free tab s = true /\ GoStr.free newline s = true.
Proof.
  unfold field. intros H. bools. split; [|done].
  destruct (GoStr.bytes s) as [|a l] eqn:Ha; [done|].
  destruct (rev _) as [|b l'] eqn:Hb; [done|]. bools. exists a, l, b, l'. by rewrite Ha.
Qed.

Lemma framed_nonempty s : framed s -> String.eqb s "" = false.
Proof. intros (a & l & _ & _ & Ha & _). destruct s; [done|reflexivity]. Qed.

Lemma tabbed_framed a b : framed a -> framed b -> framed (tabbed a b).
Proof. intros. change (tabbed a b) with (a ++ String tab "" ++ b). by apply framed_app. Qed.

Lemma free_newline_tabbed a b :
  GoStr.free newline a = true -> GoStr.free newline b = true -> GoStr.free newline (tabbed a b) = true.
Proof.
  intros Ha Hb. unfold tabbed. rewrite GoStr.free_app, Ha. cbn [andb].
  change (String tab b) with (String tab "" ++ b). by rewrite GoStr.free_app, Hb.
Qed.

Lemma parse_print_change c : printable c = true ->
  framed (print_change c) /\ GoStr.free newline (print_change c) = true
  /\ too_long (print_change c) = false /\ parse_line (print_change c) = inr (Some (as_read c)).
Proof.
  unfold printable. intros H. apply andb_true_iff in H as [H Hlen].
  apply andb_true_iff in H as [H Hold]. apply andb_true_iff in H as [Hst Hpa].
  apply field_spec in Hst as (Fs & Ts & Ns). apply field_spec in Hpa as (Fp & Tp & Np).
  assert (Hlong : too_long (print_change c) = false) by (apply Z.leb_gt; by apply Z.ltb_lt in Hlen).
  assert (Hmain : framed (print_change c) /\ GoStr.free newline (print_change c) = true
    /\ GoStr.Split tab (print_change c)
       = if moved c then [ch_Status c; git_path (ch_OldPath c); git_path (ch_Path c)]
         else [ch_Status c; git_path (ch_Path c)]).
  { unfold print_change. destruct (moved c).
    - apply field_spec in Hold as (Fo & To & No).
      split; [by repeat apply tabbed_framed|]. split; [by repeat apply free_newline_tabbed|].
      unfold tabbed. by rewrite !GoStr.Split_app, GoStr.Split_free by done.
    - split; [by apply tabbed_framed|]. split; [by apply free_newline_tabbed|].
      unfold tabbed. by rewrite GoStr.Split_app, GoStr.Split_free by done. }
  destruct Hmain as (Hfr & Hnl & Hsplit). do 3 (split; [done|]).
  unfold parse_line, as_read. rewrite drop_cr_framed, TrimSpace_framed, framed_nonempty, Hsplit by done.
  fold (moved c). unfold moved in *. by destruct (_ || _) eqn:Hm; rewrite Hm.
Qed.

Lemma as_read_plain c : plain c = true -> as_read c = c.
Proof.
  unfold plain, plain_path, as_read, git_path. intros H. apply andb_true_iff in H as [Hp Ho].
  apply andb_true_iff in Hp as [Hq Hc]. apply negb_true_iff in Hq. apply String.eqb_eq in Hc. rewrite Hq, Hc.
  destruct (moved c).
  - apply andb_true_iff in Ho as [Hqo Hco]. apply negb_true_iff in Hqo. apply String.eqb_eq in Hco.
    rewrite Hqo, Hco. by destruct c.
  - apply String.eqb_eq in Ho. destruct c; simpl in *. by subst.
Qed.

Lemma lines_print cs : forallb printable cs = true -> lines (print_changes cs) = map print_change cs.
Proof.
  intros H. unfold lines. assert (E : GoStr.Split newline (print_changes cs) = (map print_change cs ++ [""])%list).
  { induction cs as [|c cs IH]; [done|]. simpl in H. apply andb_true_iff in H as [Hc H].
    destruct (parse_print_change c Hc) as (_ & Hnl & _). simpl. rewrite GoStr.Split_app by done. by rewrite IH. }
  by rewrite E, last_snoc, removelast_last.
Qed.

Lemma scan_print cs acc : forallb printable cs = true ->
  scan_lines (map print_change cs) acc = inr (acc ++ map as_read cs)%list.
Proof.
  revert acc. induction cs as [|c cs IH]; intros acc H; [by rewrite app_nil_r|].
  simpl in H. apply andb_true_iff in H as [Hc H].
  destruct (parse_print_change c Hc) as (_ & _ & Hlong & Hp). cbn [map scan_lines].
  rewrite Hlong, Hp, IH by done. by rewrite <- (assoc_L (++)%list).
Qed.

(** ** Theorems *)

(** The normal forms of the paths a change names. *)
Definition named (c : Change) : list string :=
  cleanPath <$> List.filter (fun p => negb (String.eqb p "")) [ch_OldPath c; ch_Path c].

(** C38: the selection is exactly the reference one: a full build when some change has
    a status other than A, M or T and a relevant path, is of a contract file, or lies in
    no package some service uses; otherwise each service is tested (built) iff some
    change asks for it.  The protocol is checked when the full build, or a relevant
    change, concerns proto/agent; the reason given is that of the first change in the way
    (none without a full build or for a contract file); and the paths of all changes are
    listed in their normal form, sorted and once each. *)
Theorem Evaluate_exact (m : Manifest) (g : Graph) (cs : list Change) :
  let r := Evaluate m cs g in
  res_TestMatrix r = (if full m g cs then m else selected m (wants_tests g) cs) /\
  res_BuildMatrix r = (if full m g cs then m else selected m (wants_build g) cs) /\
  (res_HasTests r = true <-> res_TestMatrix r <> []) /\ (res_HasBuilds r = true <-> res_BuildMatrix r <> []) /\
  res_RequiresProtoCheck r = (if full m g cs then existsb (fun p => proto_file (cleanPath p)) (res_ChangedFiles r)
                              else existsb wants_proto cs) /\
  res_FallbackReason r = full_text m g cs /\ (full m g cs = false -> res_FallbackReason r = "") /\
  Sorted string_le (res_ChangedFiles r) /\ NoDup (res_ChangedFiles r) /\
  forall p, p ∈ res_ChangedFiles r <-> exists c, c ∈ cs /\ p ∈ named c.
Proof.
  cbv zeta. destruct (Evaluate_outcome m g cs) as [H Hr]. injection H as -> -> -> -> -> ->.
  destruct (changedPaths_spec cs) as (Hs & Hn & Hp). split; [done|]. split; [done|].
  assert (Hlen : forall l : list Service, (0 <? Z.of_nat (length l))%Z = true <-> l <> []).
  { intros [|x l]; [done|]. split; [done|]. intros _. by apply Z.ltb_lt. }
  split; [apply Hlen|]. split; [apply Hlen|]. split; [done|]. split; [exact Hr|].
  split; [rewrite Hr; unfold full, full_text; rewrite (find_existsb blocked), (find_existsb (forces_all m g));
         by destruct (List.find blocked cs), (List.find (forces_all m g) cs)|].
  split; [done|]. split; [done|]. intros p. rewrite Hp. unfold named. split; intros (c & Hc & Hx); exists c; (split; [done|]).
  - cbn [List.filter]. destruct (String.eqb_spec (ch_OldPath c) ""), (String.eqb_spec (ch_Path c) ""); simpl;
      set_solver.
  - revert Hx. cbn [List.filter]. destruct (String.eqb_spec (ch_OldPath c) ""), (String.eqb_spec (ch_Path c) ""); simpl;
      set_solver.
Qed.

(** The order of the changes is irrelevant: a permutation of the list gives the
    same files, matrices, flags and protocol check (only the text of the reason may
    name another change). *)
Theorem Evaluate_order (m : Manifest) (g : Graph) (cs cs' : list Change) (H : Permutation cs cs') :
  without_reason (Evaluate m cs g) = without_reason (Evaluate m cs' g).
Proof.
  rewrite (proj1 (Evaluate_outcome m g cs)), (proj1 (Evaluate_outcome m g cs')).
  by apply outcome_permutation.
Qed.

(** C39: what git prints is read line by line: for any list of changes whose fields have
    no blank ends and whose lines fit the scanner's buffer, the parser returns the
    changes in order, with each path in the normal form of what git printed.  A path
    that git prints as it is (printable ASCII, no quote and no backslash) and that is
    in normal form is therefore read back exactly; one that git quotes keeps its quotes
    and escapes, since the parser does not undo them. *)
Theorem ParseNameStatus_print (cs : list Change) (H : forallb printable cs = true) :
  ParseNameStatus (print_changes cs) = inr (map as_read cs) /\
  (forallb plain cs = true -> map as_read cs = cs).
Proof.
  split; [unfold ParseNameStatus; by rewrite lines_print, scan_print by done|].
  clear H. induction cs as [|c cs IH]; [done|]. cbn [forallb map]. intros [Hc Hcs]%andb_true_iff.
  by rewrite as_read_plain, IH.
Qed.

(** A Go file with a Chinese name: its path is read with quotes and octal escapes, whose
    backslashes become slashes, so that no package is found and everything is built. *)
Lemma quoted_path_misread :
  let c := mkChange "M" "" ("internal/topic/" ++ "页.go") in
  forallb printable [c] = true /\
  ParseNameStatus (print_changes [c])
  = inr [mkChange "M" "" (String quote ("internal/topic/351/241/265.go" ++ String quote ""))].
Proof. split; vm_compute; reflexivity. Qed.

(** From the listings to the selection: let [g] be the graph built for a valid
    manifest, and let [pk] be a main-module package the listing of a service's
    dependencies names, alone in its directory.  Then a change of a file of that
    directory that is neither ignorable nor under [proto/agent] has the service
    tested, and built unless it is a test file. *)
Theorem dependency_change_selected (goList : list string -> string + list listedPackage)
    (repoRoot : string) (m : Manifest) (g : Graph) (cs : list Change) (c : Change) (s : Service)
    (all deps : list listedPackage) (pk : listedPackage) (k : string)
    (Hvalid : ValidateManifest m = None) (Hbuild : BuildGraph goList repoRoot m = inr g)
    (Hs : s ∈ m) (Hc : c ∈ cs)
    (Hall : goList ["-json"; "./..."] = inr all)
    (Hdeps : goList ["-deps"; "-json"; svc_Entrypoint s] = inr deps)
    (Hin : pk ∈ all) (Hdep : pk ∈ deps) (Hkey : package_key repoRoot pk = Some k)
    (Halone : forall pk', pk' ∈ all -> package_key repoRoot pk' = Some k -> lp_ImportPath pk' = lp_ImportPath pk)
    (Hnotest : HasSuffix (lp_ImportPath pk) ".test" = false)
    (Hdir : Dir (cleanPath (ch_Path c)) = k)
    (Hkeep : ignorable (cleanPath (ch_Path c)) = false) (Hgo : proto_file (cleanPath (ch_Path c)) = false) :
  s ∈ res_TestMatrix (Evaluate m cs g)
  /\ (HasSuffix (cleanPath (ch_Path c)) "_test.go" = false -> s ∈ res_BuildMatrix (Evaluate m cs g)).
Proof.
  unfold BuildGraph in Hbuild. rewrite Hall in Hbuild.
  destruct (closure_loop _ m ∅ ∅) as [e|[r t]] eqn:Hloop; [done|]. injection Hbuild as <-.
  destruct (closure_loop_exact goList m ∅ ∅ r t (ValidateManifest_names m Hvalid) Hloop) as [Hcl _].
  destruct (Hcl s Hs) as (R & T & HR & _ & rp & _ & Hrp & HRrp & _). rewrite Hdeps in Hrp. simplify_eq.
  assert (Hmain : isMainModule pk = true /\ lp_ImportPath pk <> "").
  { unfold package_key in Hkey. destruct (isMainModule pk), (String.eqb_spec (lp_ImportPath pk) "");
      rewrite ?orb_true_r in Hkey; done. }
  pose proof (package_loop repoRoot all ∅ _ (lp_ImportPath pk) Halone (or_intror (ex_intro _ pk (conj Hin Hkey)))) as Hpk.
  assert (Hreach : reaches r (svc_Service s) (lp_ImportPath pk) = true).
  { eapply reaches_some; [done|]. apply elem_of_localImports. exists pk. by destruct Hmain. }
  set (g := mkGraph _ r t). destruct (Evaluate_wanted m g cs s c Hs Hc) as [Ht Hb]. split.
  - apply Ht. unfold wants_tests. rewrite <- ignorable_irrelevant, Hkeep, Hgo. cbn [negb andb gr_Packages g]. rewrite Hpk.
    unfold uses. cbn [gr_Runtime g]. by rewrite Hreach.
  - intros Hnt. apply Hb. unfold wants_build. rewrite <- ignorable_irrelevant, Hkeep, Hgo. cbn [negb andb gr_Packages g].
    rewrite Hpk. cbn [gr_Runtime g]. by rewrite Hreach, Hnt.
Qed.

(** ** Concrete inputs: two services, the second running on the first's package *)
Definition svc (n : string) : Service := mkService n ("./cmd/" ++ n) n "configs/ecampus" 8080.
Definition services : Manifest := [svc "topic"; svc "user"].
Definition pkg (name : string) : listedPackage :=
  mkPackage ("module/internal/" ++ name) ("/repo/internal/" ++ name) (Some true).
Definition listing (args : list string) : string + list listedPackage :=
  match args with
  | ["-json"; "./..."] => inr [pkg "topic"; pkg "user"; pkg "testutil"]
  | ["-deps"; "-json"; "./cmd/topic"] => inr [pkg "topic"]
  | ["-deps"; "-json"; "./cmd/user"] => inr [pkg "topic"; pkg "user"]
  | "-deps" :: "-test" :: _ => inr [pkg "topic"; pkg "user"; pkg "testutil"]
  | _ => inl "unknown"
  end.
Definition built : Graph :=
  mkGraph {[ "internal/topic" := "module/internal/topic"; "internal/user" := "module/internal/user";
             "internal/testutil" := "module/internal/testutil" ]}
    {[ "topic" := {["module/internal/topic"]};
       "user" := {["module/internal/user"; "module/internal/topic"]} ]}
    {[ "topic" := localImports [pkg "topic"; pkg "user"; pkg "testutil"];
       "user" := localImports [pkg "topic"; pkg "user"; pkg "testutil"] ]}.
Definition edit (p : string) : Change := mkChange "M" "" p.
Definition rename (o p : string) : Change := mkChange "R100" o p.

Lemma dependency_change_selected_witness :
  let r := Evaluate services [edit "docs/ci.md"; edit "internal/topic/service.go"] built in
  svc "user" ∈ res_TestMatrix r /\ svc "user" ∈ res_BuildMatrix r.
Proof.
  destruct (dependency_change_selected listing "/repo" services built
    [edit "docs/ci.md"; edit "internal/topic/service.go"] (edit "internal/topic/service.go") (svc "user")
    [pkg "topic"; pkg "user"; pkg "testutil"] [pkg "topic"; pkg "user"] (pkg "topic") "internal/topic")
    as [H1 H2]; try (vm_compute; reflexivity).
  - by right; left.
  - by right; left.
  - by left.
  - by left.
  - intros pk' Hin. rewrite !elem_of_cons in Hin.
    destruct Hin as [->|[->|[->|[]%not_elem_of_nil]]]; vm_compute; by intros ?.
  - split; [exact H1|]. apply H2. by vm_compute.
Defined.

Lemma Evaluate_order_witness :
  without_reason (Evaluate services [edit "internal/topic/a.go"; edit "unknown/file.go"] built)
  = without_reason (Evaluate services [edit "unknown/file.go"; edit "internal/topic/a.go"] built).
Proof. apply Evaluate_order. apply perm_swap. Defined.

Lemma ParseNameStatus_print_witness :
  let cs := [edit "internal/topic/service.go"; rename "old name.go" "new.go"] in
  forallb printable cs = true /\ ParseNameStatus (print_changes cs) = inr cs.
Proof.
  intros cs. assert (Hp : forallb printable cs = true) by (vm_compute; reflexivity).
  assert (Hq : forallb plain cs = true) by (vm_compute; reflexivity).
  destruct (ParseNameStatus_print cs Hp) as [H1 H2]. split; [exact Hp|]. rewrite H1, (H2 Hq). reflexivity.
Defined.
End CiImpactProps.
