(* ===== verification/UserModel.v ===== *)
(** * User: data model

    The rows of [internal/user/model.go] and the store of the user service: its two
    tables and the Redis server.  The schema of [campus_user] is not part of the
    repository, so its table has no unique index here; [admin] has the two its
    struct tags declare, on texts compared by the collation. *)
From S2P Require Import Prelude GoString GoTime GoMonad Sql RedisStr.

(** An [AUTO_INCREMENT] key: the engine's next unused number. *)
Class AutoIncrement (D : SqlEngine) := {
  next_id : forall R (HE : Entity R), table R HE -> Z;
  next_id_pos : forall R (HE : Entity R) (t : table R HE), (0 < next_id R HE t)%Z;
  next_id_free : forall R (HE : Entity R) (t : table R HE), view t !! next_id R HE t = None;
}.
Arguments next_id {D _ R HE} t.

Module Users.

Record User := mkUser {
  usr_ID : Z;
  usr_OpenID : string;
  usr_Nickname : string;
  usr_Avatar : string;
  usr_Power : Z;
  usr_AccountType : string;
  usr_StuNum : string;
  usr_StuName : string;
  usr_StuPwd : string;
  usr_StuCla : string;
  usr_StuIsCheck : bool;
  usr_ProvisionalExpiresAt : option Z;
  usr_School : string;
  usr_Tag : string;
  usr_Gender : string;
  usr_RootUserID : Z;
  usr_LastSwitchID : option Z;
  usr_Signature : string;
  usr_CreatedAt : Z;
  usr_CreatedBy : Z;
  usr_UpdatedAt : Z;
  usr_UpdatedBy : Z;
  usr_DeletedAt : option Z;
}.

Record Admin := mkAdmin {
  adm_ID : Z;
  adm_UserID : Z;
  adm_Username : string;
  adm_Password : string;
  adm_Power : Z;
}.

Definition zero_User : User :=
  mkUser 0 "" "" "" 0 "" "" "" "" "" false None "" "" "" 0 None "" GoTime.zero_time 0 GoTime.zero_time 0 None.

(** ** Unique indexes *)
Definition same_admin {C : Collation} (a b : Admin) : bool :=
  (adm_UserID a =? adm_UserID b)%Z || same_text (adm_Username a) (adm_Username b).
#[export] Instance User_entity : Entity User := { ent_id := usr_ID; ent_clash _ _ := false }.
#[export] Instance Admin_entity {C : Collation} : Entity Admin := { ent_id := adm_ID; ent_clash := same_admin }.

(** ** The store *)
Section store.
Context {C : Collation} {D : SqlEngine} {R : RedisServer}.

Record DB := mkDB {
  db_nil : bool;
  t_users : table User _;
  t_admins : table Admin _;
  t_redis : rsrv;
}.
End store.
Arguments DB C D R : clear implicits.

Record State := mkState {
  users : gmap Z User;
  admins : gmap Z Admin;
}.
Definition set_users v s := {| s with users := v |}.
Definition set_admins v s := {| s with admins := v |}.

Section tables.
Context {C : Collation} {D : SqlEngine} {R : RedisServer}.
Notation DB := (DB C D R).

Definition db_state (s : DB) : State := mkState (view (t_users s)) (view (t_admins s)).
#[export] Instance DB_abs : Abstract DB State := db_state.

#[export] Instance tbl_users : Tbl DB State User _ _.
Proof.
  refine {| tget := t_users; tset t s := {| s with t_users := t |};
    aget := users; aset := set_users |}; by intros; try destruct a.
Defined.
#[export] Instance tbl_admins : Tbl DB State Admin _ _.
Proof.
  refine {| tget := t_admins; tset t s := {| s with t_admins := t |};
    aget := admins; aset := set_admins |}; by intros; try destruct a.
Defined.
#[export] Instance DB_redis : HasRedis DB.
Proof. refine {| redis_of := t_redis; set_redis_of r s := {| s with t_redis := r |} |}. done. Defined.
End tables.
#[global] Opaque db_state DB_abs.
End Users.
