(* ===== verification/UserRepo.v ===== *)
(** * User: the repository

    One definition per method of [repository.go], [repository_user.go] and
    [repository_admin.go] of [internal/user].  A [map[string]any] of updates is a
    list of [Column]s.  gorm fills in what the struct tags ask for: the default of
    an empty column on [Create], the time of the last update, and the condition
    that the row is not (softly) deleted. *)
From S2P Require Import Prelude GoString GoTime GoMonad Sql RedisStr UserModel.

Module UserRepo.
Import Users.

(** ** Column updates *)
Inductive Column :=
| col_nickname (v : string) | col_avatar (v : string) | col_gender (v : string) | col_signature (v : string)
| col_power (v : Z) | col_stu_num (v : string) | col_stu_name (v : string) | col_stu_pwd (v : string)
| col_stu_cla (v : string) | col_stu_is_check (v : bool) | col_school (v : string)
| col_provisional_expires_at (v : Z) | col_account_type (v : string) | col_root_user_id (v : Z)
| col_last_switch_id (v : Z) | col_updated_at (v : Z) | col_updated_by (v : Z).

Definition set_column (c : Column) (u : User) : User :=
  match c with
  | col_nickname v => {| u with usr_Nickname := v |}
  | col_avatar v => {| u with usr_Avatar := v |}
  | col_gender v => {| u with usr_Gender := v |}
  | col_signature v => {| u with usr_Signature := v |}
  | col_power v => {| u with usr_Power := v |}
  | col_stu_num v => {| u with usr_StuNum := v |}
  | col_stu_name v => {| u with usr_StuName := v |}
  | col_stu_pwd v => {| u with usr_StuPwd := v |}
  | col_stu_cla v => {| u with usr_StuCla := v |}
  | col_stu_is_check v => {| u with usr_StuIsCheck := v |}
  | col_school v => {| u with usr_School := v |}
  | col_provisional_expires_at v => {| u with usr_ProvisionalExpiresAt := Some v |}
  | col_account_type v => {| u with usr_AccountType := v |}
  | col_root_user_id v => {| u with usr_RootUserID := v |}
  | col_last_switch_id v => {| u with usr_LastSwitchID := Some v |}
  | col_updated_at v => {| u with usr_UpdatedAt := v |}
  | col_updated_by v => {| u with usr_UpdatedBy := v |}
  end.
Definition set_columns (updates : list Column) (u : User) : User := foldr set_column u updates.
Definition sets_time (c : Column) : bool := match c with col_updated_at _ => true | _ => false end.

(** [if v != "" { updates[c] = v }] *)
Definition when (b : bool) (c : Column) : list Column := if b then [c] else [].
Definition nonempty (s : string) : bool := negb (String.eqb s "").

Record UserEditReq := mkUserEditReq { uer_Nickname : string; uer_Avatar : string; uer_Gender : string;
  uer_Signature : string }.
Record AdminEditUserReq := mkAdminEditUserReq {
  aer_Nickname : string; aer_Avatar : string; aer_Power : option Z; aer_StuNum : string; aer_StuName : string;
  aer_StuCla : string; aer_StuIsCheck : option bool }.
Record AdminListUsersFilter := mkAdminListUsersFilter { alf_ID : Z; alf_StuNum : string; alf_Nickname : string }.

(** ** request_helpers.go *)
Fixpoint firstNonBlank (values : list string) : string :=
  match values with
  | [] => ""
  | value :: values =>
    let trimmed := GoStr.TrimSpace value in
    if nonempty trimmed then trimmed else firstNonBlank values
  end.
Definition normalizeUserEditReq (req : UserEditReq) : UserEditReq :=
  let clean s := if String.eqb (firstNonBlank [s]) "" then "" else s in
  mkUserEditReq (clean (uer_Nickname req)) (clean (uer_Avatar req)) (clean (uer_Gender req))
    (clean (uer_Signature req)).

Definition buildUserProfileUpdates (userID : Z) (req : UserEditReq) (now : Z) : list Column :=
  let req := normalizeUserEditReq req in
  let updates :=
    when (nonempty (uer_Nickname req)) (col_nickname (uer_Nickname req))
    ++ when (nonempty (uer_Avatar req)) (col_avatar (uer_Avatar req))
    ++ when (nonempty (uer_Gender req)) (col_gender (uer_Gender req))
    ++ when (nonempty (uer_Signature req)) (col_signature (uer_Signature req)) in
  match updates with
  | [] => updates
  | _ => updates ++ when (0 <? userID)%Z (col_updated_by userID) ++ [col_updated_at now]
  end.

(** ** model_admin.go *)
Definition SearchKeyword (f : AdminListUsersFilter) : string := GoStr.TrimSpace (alf_Nickname f).
Definition SearchUserID (f : AdminListUsersFilter) : Z :=
  let keyword := SearchKeyword f in
  if String.eqb keyword "" then 0%Z
  else match GoStr.ParseInt keyword with
       | Some id => if (id <=? 0)%Z then 0%Z else id
       | None => 0%Z
       end.

Section repo.
Context {E : Env} {C : Collation} {D : SqlEngine} {AI : AutoIncrement D} {R : RedisServer}.
Notation DB := (DB C D R).
Notation M := (M DB).

Definition gormDB : M unit :=
  let! s := get_db in
  if db_nil s then throw (ENew "gorm db not initialized") else ret tt.

(** [gorm.DeletedAt] hides the rows that carry it. *)
Definition kept_user (q : User -> bool) (u : User) : bool := bool_decide (usr_DeletedAt u = None) && q u.

(** [First]: the matching row with the least key. *)
Definition first (A : Type) {HE : Entity A} {HT : Tbl DB State A HE _} (q : A -> bool) : M A :=
  let! rows := find A q in
  match order_by ent_id rows with [] => throw ErrRecordNotFound | r :: _ => ret r end.
(** [First(&row)] where a missing row is no error. *)
Definition first_or_nil (A : Type) {HE : Entity A} {HT : Tbl DB State A HE _} (text : string) (q : A -> bool)
    : M (option A) :=
  gormDB;; map_err (EWrapf text) (or_nil (first A q)).

(** [Model(&User{}).Where(q).Updates(updates)], with the number of rows affected. *)
Definition Updates (q : User -> bool) (updates : list Column) : M Z :=
  let! updates :=
    if existsb sets_time updates then ret updates else let! t := now in ret (updates ++ [col_updated_at t]) in
  update User (kept_user q) (set_columns updates).

Definition updateUserFields (userID : Z) (updates : list Column) : M unit :=
  if (userID <=? 0)%Z || (length updates =? 0)%nat then ret tt
  else
    gormDB;;
    map_err (EWrapf ("update user " ++ GoStr.FormatInt userID))
      (Updates (fun u => usr_ID u =? userID)%Z updates);; ret tt.

(** *** repository_user.go *)
Definition FindUserByID (id : Z) : M (option User) :=
  if (id <=? 0)%Z then ret None
  else first_or_nil User ("query user by id " ++ GoStr.FormatInt id) (kept_user (fun u => usr_ID u =? id)%Z).
Definition FindUserByOpenID (openID : string) : M (option User) :=
  first_or_nil User ("query user by open_id " ++ openID) (kept_user (fun u => same_text (usr_OpenID u) openID)).
Definition FindUserByRootAndAccountType (rootUserID : Z) (accountType : string) : M (option User) :=
  first_or_nil User "query user by root_user_id/account_type"
    (kept_user (fun u => (usr_RootUserID u =? rootUserID)%Z && same_text (usr_AccountType u) accountType)).
Definition FindUsersByRootUserID (rootUserID : Z) : M (list User) :=
  gormDB;;
  let! rows := map_err (EWrapf ("list users by root_user_id " ++ GoStr.FormatInt rootUserID))
    (find User (kept_user (fun u => (usr_RootUserID u =? rootUserID)%Z || (usr_ID u =? rootUserID)%Z))) in
  ret (order_by usr_ID rows).

(** The defaults of the struct tags, and the key when the caller set none. *)
Definition or_default (s d : string) : string := if String.eqb s "" then d else s.
Definition or_time (t now : Z) : Z := if GoTime.IsZero t then now else t.
Definition filled_user (now id : Z) (u : User) : User :=
  {| u with usr_ID := if (usr_ID u =? 0)%Z then id else usr_ID u;
            usr_AccountType := or_default (usr_AccountType u) "base";
            usr_Tag := or_default (usr_Tag u) "student";
            usr_Gender := or_default (usr_Gender u) "保密";
            usr_CreatedAt := or_time (usr_CreatedAt u) now;
            usr_UpdatedAt := or_time (usr_UpdatedAt u) now |}.
(** The user is returned as the call leaves it. *)
Definition CreateUser (user : User) : M User :=
  gormDB;;
  let! t := now in
  let! s := get_db in
  let user := filled_user t (next_id (t_users s)) user in
  map_err (EWrapf "create user") (insert User user);;
  ret user.

Definition CountUsersByOpenID (openID : string) : M Z :=
  gormDB;;
  map_err (EWrapf ("count users by open_id " ++ openID))
    (count User (kept_user (fun u => same_text (usr_OpenID u) openID))).
Definition InitializeRootIdentity (userID : Z) : M unit :=
  updateUserFields userID [col_root_user_id userID; col_last_switch_id userID; col_account_type "base"].
Definition UpdateUserLastSwitch (userID targetUserID : Z) : M unit :=
  if (userID =? 0)%Z || (targetUserID =? 0)%Z then ret tt
  else updateUserFields userID [col_last_switch_id targetUserID].
Definition UpdateProvisionalExpiresAt (userID expiresAt : Z) : M unit :=
  let! t := now in
  updateUserFields userID [col_provisional_expires_at expiresAt; col_updated_at t].
Definition UpdateUserProfile (userID : Z) (req : UserEditReq) : M unit :=
  let! t := now in
  updateUserFields userID (buildUserProfileUpdates userID req t).
Definition UpdateAnonymousNickname (userID updatedBy : Z) (nickname : string) : M unit :=
  let! t := now in
  updateUserFields userID
    ([col_nickname nickname; col_updated_at t] ++ when (0 <? updatedBy)%Z (col_updated_by updatedBy)).

(** *** repository_admin.go *)
Definition FindAdminByUsername (username : string) : M (option Admin) :=
  first_or_nil Admin ("query admin by username " ++ username) (fun a => same_text (adm_Username a) username).
Definition FindAdminByID (id : Z) : M (option Admin) :=
  if (id <=? 0)%Z then ret None
  else first_or_nil Admin ("query admin by id " ++ GoStr.FormatInt id) (fun a => adm_ID a =? id)%Z.
Definition FindLegacyAdminUser (stuNum encryptedPassword : string) (minPower : Z) : M (option User) :=
  first_or_nil User ("query legacy admin user by stu_num " ++ stuNum)
    (kept_user (fun u => same_text (usr_StuNum u) stuNum && same_text (usr_StuPwd u) encryptedPassword
      && (minPower <=? usr_Power u)%Z)).

Definition filled_admin (id : Z) (a : Admin) : Admin :=
  {| a with adm_ID := if (adm_ID a =? 0)%Z then id else adm_ID a;
            adm_Power := if (adm_Power a =? 0)%Z then 2%Z else adm_Power a |}.
Definition CreateAdmin (admin : Admin) : M Admin :=
  gormDB;;
  let! s := get_db in
  let admin := filled_admin (next_id (t_admins s)) admin in
  map_err (EWrapf "create admin") (insert Admin admin);;
  ret admin.

Definition list_filter (filter : AdminListUsersFilter) (u : User) : bool :=
  let keyword := SearchKeyword filter in
  let pat := ("%" ++ keyword ++ "%")%string in
  (if (0 <? alf_ID filter)%Z then (usr_ID u =? alf_ID filter)%Z else true)
  && (if nonempty (GoStr.TrimSpace (alf_StuNum filter)) then same_text (usr_StuNum u) (alf_StuNum filter) else true)
  && (if nonempty keyword then
        like (usr_Nickname u) pat || same_text (usr_StuNum u) keyword
        || (if (0 <? SearchUserID filter)%Z then (usr_ID u =? SearchUserID filter)%Z else false)
      else true).
Definition ListUsers (pageNo size : Z) (filter : AdminListUsersFilter) : M (list User * Z) :=
  gormDB;;
  let! total := map_err (EWrapf "count users") (count User (kept_user (list_filter filter))) in
  let! rows := map_err (EWrapf "list users") (find User (kept_user (list_filter filter))) in
  ret (page (mul64 (sub64 pageNo 1) size) size (order_by usr_ID rows), total).

Definition UpdateAdminPasswordHash (adminID : Z) (hashedPassword : string) : M unit :=
  gormDB;;
  map_err (EWrapf ("update admin password hash " ++ GoStr.FormatInt adminID))
    (update Admin (fun a => adm_ID a =? adminID)%Z (fun a => {| a with adm_Password := hashedPassword |}));;
  ret tt.

Definition option_column {A} (v : option A) (c : A -> Column) : list Column :=
  match v with Some v => [c v] | None => [] end.
Definition UpdateAdminUser (userID operatorID : Z) (req : AdminEditUserReq) : M unit :=
  let updates :=
    when (nonempty (aer_Nickname req)) (col_nickname (aer_Nickname req))
    ++ when (nonempty (aer_Avatar req)) (col_avatar (aer_Avatar req))
    ++ option_column (aer_Power req) col_power
    ++ when (nonempty (aer_StuNum req)) (col_stu_num (aer_StuNum req))
    ++ when (nonempty (aer_StuName req)) (col_stu_name (aer_StuName req))
    ++ when (nonempty (aer_StuCla req)) (col_stu_cla (aer_StuCla req))
    ++ option_column (aer_StuIsCheck req) col_stu_is_check in
  if (length updates =? 0)%nat then ret tt
  else updateUserFields userID (updates ++ when (0 <? operatorID)%Z (col_updated_by operatorID)).

Definition MarkPreAuthenticated (userID : Z) (nickname : string) : M bool :=
  gormDB;;
  let! n := map_err (EWrapf ("pre-authenticate user " ++ GoStr.FormatInt userID))
    (Updates (fun u => (usr_ID u =? userID)%Z && same_text (usr_Nickname u) nickname) [col_stu_is_check true]) in
  ret (0 <? n)%Z.

Definition ClearAuthenticationByRootUserID (rootUserID : Z) : M bool :=
  if (rootUserID <=? 0)%Z then ret false
  else
    gormDB;;
    let! n := map_err (EWrapf ("clear authentication by root_user_id " ++ GoStr.FormatInt rootUserID))
      (Updates (fun u => (usr_RootUserID u =? rootUserID)%Z || (usr_ID u =? rootUserID)%Z)
         [col_stu_is_check false; col_stu_name ""; col_stu_cla ""; col_stu_num ""; col_stu_pwd ""; col_school ""]) in
    ret (0 <? n)%Z.
End repo.
End UserRepo.
