(* ===== verification/UserService.v ===== *)
(** * User: the service

    [service.go], [service_user.go], [service_identity.go], [service_provisional.go],
    [service_admin.go], [service_admin_user.go] and [random_name.go] of
    [internal/user], one definition per method.  bcrypt and the seeded random number
    generator are parameters; the WeChat client and the event producer are fields of
    [Service].  A [*User] a method changes in place is returned as it leaves it. *)
From Stdlib Require Import Ascii.
From S2P Require Import Prelude GoString GoTime GoCrypto GoMonad Encrypt Sql RedisStr Token AdminJwt JwtUtil.
From S2P Require Import UserModel UserRepo.

(** [golang.org/x/crypto/bcrypt]; the salt is drawn from a seed. *)
Class Bcrypt := {
  bcrypt_Generate : Z -> string -> res string;
  bcrypt_Compare : string -> string -> bool;
}.
(** [rand.New(rand.NewSource(seed)).Intn(n)] of [math/rand]. *)
Class MathRand := {
  Intn : Z -> Z -> Z;
  Intn_range : forall seed n, (0 < n)%Z -> (0 <= Intn seed n < n)%Z;
}.

Module UserService.
Import Users UserRepo.

(** ** Messages and constants *)
Definition accountTypeBase : string := "base".
Definition accountTypeAnonymous : string := "anonymous".
Definition anonymousNicknameUpdateHourLimit : Z := 72.
Definition defaultAdminSecondaryPassword : string := "pyhtip-nyxqen-6rigvE".
Definition defaultAdminPreAuthPassword : string := "zjb&bjz".
Definition errMsgInvalidParam : string := "invalid param".
Definition errMsgUserNotLogin : string := "user not logged in".
Definition preAuthSuccessMessage : string := "预认证成功".

Definition ErrUserNotFound : error := Bizerr.NotFound "用户不存在".
Definition ErrRTKNotExisted : error := Bizerr.NotFound "refresh_token 不存在, 或已过期".
Definition ErrRTKUsed : error := Bizerr.Biz "refresh_token 已使用".
Definition ErrIdentityDenied : error := Bizerr.Forbidden "身份切换无权限".
Definition ErrAuthenticationClearFailed : error := Bizerr.Biz "清除认证失败".

Record AdminLoginReq := mkAdminLoginReq { alr_Username : string; alr_Password : string;
  alr_SecondaryPassword : string }.
Record Identity := mkIdentity { idt_UserID : Z; idt_AccountType : string; idt_Nickname : string;
  idt_Avatar : string; idt_Tag : string }.
Record IdentityListResp := mkIdentityListResp { ilr_RootUserID : Z; ilr_Identities : list Identity;
  ilr_HasAnonymous : bool }.
Record UserProfile := mkUserProfile { upr_Avatar : string; upr_Nickname : string; upr_Gender : string;
  upr_StuCla : string; upr_Signature : string }.
Record TopicUserUpdateMsg := mkTopicUserUpdateMsg { tum_UserID : string; tum_NickName : string;
  tum_Avatar : string; tum_Gender : string; tum_Signature : string; tum_AccountType : Z }.
Record AdminPreAuthItem := mkAdminPreAuthItem { pai_UserID : Z; pai_NickName : string }.
Record AdminPreAuthResult := mkAdminPreAuthResult { par_UserID : Z; par_Success : bool; par_Message : string }.
Record AdminBatchPreAuthResp := mkAdminBatchPreAuthResp { pbr_Total : Z; pbr_SuccessCount : Z;
  pbr_FailureCount : Z; pbr_Results : list AdminPreAuthResult }.
Record PageResult (T : Type) := mkPageResult { pgr_Records : list T; pgr_Total : Z; pgr_Current : Z;
  pgr_Size : Z; pgr_Pages : Z }.
Arguments mkPageResult {T}.

(** [page_result.go]; Go's division truncates. *)
Definition NewPageResult {T} (records : list T) (total page size : Z) : PageResult T :=
  let pages := if (0 <? size)%Z then Z.quot (sub64 (add64 total size) 1) size else 0%Z in
  mkPageResult records total page size pages.

(** The part of [config.Config] the service reads. *)
Record Config := mkConfig {
  cfg_JWT : JwtUtil.Config;
  cfg_AdminJWT : AdminJwt.Config;
  cfg_SecondaryPassword : string;
  cfg_PreAuthPassword : string;
  cfg_DefaultAvatar : string;
  cfg_DefaultAnonymousAvatar : string;
  cfg_PageSize : Z;
  cfg_BaseCDN : string;
  cfg_EncryptionKey : string;
}.

(** ** Users *)
Definition rootUserID (user : option User) : Z :=
  match user with
  | None => 0%Z
  | Some user => if (0 <? usr_RootUserID user)%Z then usr_RootUserID user else usr_ID user
  end.

Definition ensureUserDefaults (user : User) : User :=
  let user := if (usr_RootUserID user =? 0)%Z then {| user with usr_RootUserID := usr_ID user |} else user in
  let user :=
    if String.eqb (usr_AccountType user) "" then
      {| user with usr_AccountType :=
           if (usr_RootUserID user =? usr_ID user)%Z then accountTypeBase else accountTypeAnonymous |}
    else user in
  if bool_decide (usr_LastSwitchID user = None) && (usr_RootUserID user =? usr_ID user)%Z
  then {| user with usr_LastSwitchID := Some (usr_ID user) |} else user.
Definition normalizedUser (user : option User) : option User := ensureUserDefaults <$> user.
Definition sanitizeUser (user : option User) : option User :=
  (fun u => {| u with usr_StuPwd := "" |}) <$> normalizedUser user.
Definition sanitizeUsers (users : list User) : list User :=
  (fun u => {| (ensureUserDefaults u) with usr_StuPwd := "" |}) <$> users.

Definition mapAccountType (accountType : string) : Z :=
  if String.eqb (GoStr.TrimSpace accountType) accountTypeAnonymous then 3%Z else 1%Z.
Definition buildIdentity (u : User) : Identity :=
  mkIdentity (usr_ID u) (usr_AccountType u) (usr_Nickname u) (usr_Avatar u) (usr_Tag u).
Definition buildTokenUserWithPower (identity rootUser : option User) (power : Z) : option JwtUtil.TokenUser :=
  match normalizedUser identity, normalizedUser rootUser with
  | Some identity, Some rootUser =>
    Some (JwtUtil.mkTokenUser (usr_ID identity) (usr_OpenID rootUser) power (usr_AccountType identity) (usr_ID rootUser))
  | _, _ => None
  end.
Definition buildTokenUser (identity rootUser : option User) : option JwtUtil.TokenUser :=
  buildTokenUserWithPower identity rootUser 0.
Definition buildAdminUserJWTUser (user : option User) : option JwtUtil.TokenUser := buildTokenUser user user.
Definition buildAdminAuthTokenUser (admin : Admin) : option AdminJwt.TokenUser :=
  if (adm_ID admin <=? 0)%Z || (adm_UserID admin <=? 0)%Z then None
  else Some (AdminJwt.mkTokenUser (adm_ID admin) (adm_UserID admin) (adm_Username admin) (adm_Power admin) "").
Definition buildUserUpdateMsg (userID : Z) (accountType nickname avatar gender signature : string)
    : TopicUserUpdateMsg :=
  mkTopicUserUpdateMsg (GoStr.FormatInt userID) nickname avatar gender signature (mapAccountType accountType).

Definition has_suffix_slash (s : string) : bool :=
  match List.rev (GoStr.bytes s) with 47%Z :: _ => true | _ => false end.
Definition avatarURL (baseCDN avatar : string) : string :=
  let avatar := GoStr.TrimSpace avatar in
  if String.eqb avatar "" then ""
  else if GoStr.HasPrefix avatar "http://" || GoStr.HasPrefix avatar "https://" then avatar
  else
  let baseCDN := GoStr.TrimSpace baseCDN in
  if String.eqb baseCDN "" then avatar
  else ((if has_suffix_slash baseCDN then baseCDN else baseCDN ++ "/") ++ avatar)%string.

(** ** random_name.go *)
Definition humorousPrefix : list string := [
  "奶茶"; "懒觉"; "快递"; "表情包"; "碎碎念"; "游戏"; "零食"; "笑话"; "拖延"; "美梦";
  "彩虹屁"; "拍照"; "八卦"; "发呆"; "逛街"; "momo" ].

Definition humorousSuffix : list string := [
  "收割机"; "守护者"; "探险家"; "大户"; "专员"; "躺赢侠"; "大胃王"; "制造机"; "艺术家"; "编织者";
  "专家"; "做作精"; "广播站"; "专业户"; "战斗机"; "阿白" ].

Definition anonymousPrefix : list string := [
  "蓬莱"; "昆仑"; "忘川"; "长安"; "广寒"; "潇湘"; "云梦"; "归墟"; "青丘"; "北冥";
  "扶桑"; "琅琊"; "西洲"; "幽州"; "兰亭"; "长亭"; "断桥"; "寒山"; "紫禁"; "云顶";
  "岛屿"; "天台"; "街角"; "深海"; "阁楼"; "荒原"; "极地"; "花房"; "书店"; "长廊";
  "隧道"; "梦境"; "彼岸"; "便利店"; "美术馆"; "海岸线"; "无人区"; "半岛"; "银河"; "极夜";
  "温室"; "后海"; "茶馆"; "月球"; "废墟"; "钟楼"; "灯塔"; "迷宫"; "雪原"; "森林" ].

Definition anonymousSuffix : list string := [
  "问道"; "抚琴"; "折扇"; "听雨"; "煮酒"; "仗剑"; "飞升"; "入魔"; "渡劫"; "观星";
  "画眉"; "题诗"; "醉卧"; "寻梅"; "拜月"; "御剑"; "归隐"; "焚香"; "弄影"; "听风";
  "发呆"; "私奔"; "邂逅"; "沉溺"; "逃离"; "虚度"; "放空"; "治愈"; "流浪"; "定格";
  "独白"; "微醺"; "失联"; "路过"; "拾荒"; "做梦"; "热恋"; "兜风"; "漫游"; "潜水";
  "失眠"; "呼吸"; "坠落"; "拥抱"; "告别"; "回信"; "看海"; "散步"; "幻想"; "涂鸦" ].

(** ** service_provisional.go: [Asia/Shanghai] is eight hours ahead of UTC. *)
Definition local_date (t : Z) : Z * Z * Z := GoTime.civil_from_days (GoTime.local_day t).
Definition isInProvisionalWindow (t : Z) : bool :=
  let '(_, month, _) := local_date t in (6 <=? month)%Z && (month <? 10)%Z.
Definition provisionalExpiresAt (t : Z) : Z :=
  let '(year, _, _) := local_date t in (GoTime.days_from_civil year 10 1 * GoTime.Day - GoTime.Shanghai)%Z.
Definition provisionalGrantExpiresAt (user : option User) (now : Z) : option Z :=
  match user with
  | None => None
  | Some user =>
    if usr_StuIsCheck user then None
    else if negb (isInProvisionalWindow now) then None
    else
    let expiresAt := provisionalExpiresAt now in
    match usr_ProvisionalExpiresAt user with
    | Some e => if negb (e <? expiresAt)%Z then None else Some expiresAt
    | None => Some expiresAt
    end
  end.

(** ** service_admin.go, without effects *)
Definition resolveAdminPower (power : Z) : Z := if (power <=? 0)%Z then 2%Z else power.
Definition md5Hex (s : string) : string := GoHash.EncodeToString (GoHash.md5_Sum s).
Definition configured (cfg : option Config) (field : Config -> string) (dflt : string) : string :=
  match cfg with
  | None => dflt
  | Some cfg =>
    let pwd := GoStr.TrimSpace (field cfg) in
    if String.eqb pwd "" || String.eqb pwd "replace-me" then dflt else pwd
  end.
Definition adminSecondaryPassword (cfg : option Config) : string :=
  configured cfg cfg_SecondaryPassword defaultAdminSecondaryPassword.
Definition adminPreAuthPassword (cfg : option Config) : string :=
  configured cfg cfg_PreAuthPassword defaultAdminPreAuthPassword.
(** Matched, and whether the stored hash should be replaced. *)
Definition verifyAdminPassword {BC : Bcrypt} (storedHash raw : string) : bool * bool :=
  if GoStr.HasPrefix storedHash "$2" then (bcrypt_Compare storedHash raw, false)
  else (String.eqb storedHash (md5Hex raw), true).

Definition mapAdminAuthError (err : error) : error :=
  if errors_Is err AdminJwt.token_not_existed then Bizerr.NotFound "admin refresh_token 不存在, 或已过期"
  else if errors_Is err AdminJwt.token_used then Bizerr.Biz "admin refresh_token 已使用"
  else if errors_Is err AdminJwt.session_invalid then Bizerr.Unauthorized "admin session 无效"
  else if errors_Is err AdminJwt.token_empty || errors_Is err AdminJwt.token_invalid
          || errors_Is err AdminJwt.user_invalid then Bizerr.Unauthorized "admin token 无效"
  else Bizerr.InternalWrap "admin auth failed" err.

Definition legacyPreAuthError (cfg : option Config) (userID : Z) (nickname pwd : string) : res unit :=
  if (userID <=? 0)%Z || String.eqb (GoStr.TrimSpace nickname) "" then Err (Bizerr.Param errMsgInvalidParam)
  else if negb (String.eqb (GoStr.TrimSpace pwd) (adminPreAuthPassword cfg)) then Err (Bizerr.Biz "预认证密码错误")
  else Ok tt.

Section service.
Context {E : Env} {H : Sha1} {JA : Jwt AdminJwt.Claims} {JU : Jwt JwtUtil.Claims} {BC : Bcrypt} {MR : MathRand}.
Context {C : Collation} {D : SqlEngine} {AI : AutoIncrement D} {R : RedisServer}.
Notation DB := (DB C D R).
Notation M := (M DB).

Record Producer := mkProducer {
  SendTopicUserUpdate : TopicUserUpdateMsg -> M unit;
  SendCommentUserUpdate : TopicUserUpdateMsg -> M unit;
}.
(** The Redis handle is a boolean, false for nil; [NewService] hands it to both
    token helpers. *)
Record Service := mkService {
  redis : bool;
  cfg : option Config;
  wxClient : option (string -> M string);
  producer : option Producer;
}.
Implicit Types (s : Service).

Definition jwtHelper s : option JwtUtil.Helper := (fun c => JwtUtil.mkHelper (cfg_JWT c) (redis s)) <$> cfg s.
Definition adminJWT s : option AdminJwt.Helper := (fun c => AdminJwt.mkHelper (cfg_AdminJWT c) (redis s)) <$> cfg s.

Definition warn (message : string) : M unit := emit (EvLog message).
(** [if x == nil { return e }] *)
Definition must {A} (e : error) (x : option A) : M A := match x with Some x => ret x | None => throw e end.

Definition pickRandom (items : list string) : M string :=
  if (length items =? 0)%nat then ret ""
  else
    let! seed := now in
    ret (default "" (items !! Z.to_nat (Intn seed (Z.of_nat (length items))))).
Definition randomHumorousID : M string :=
  let! a := pickRandom humorousPrefix in let! b := pickRandom humorousSuffix in ret (a ++ b)%string.
Definition randomAnonymousID : M string :=
  let! a := pickRandom anonymousPrefix in let! b := pickRandom anonymousSuffix in ret (a ++ b ++ "のe")%string.

(** *** service.go and service_user.go *)
Definition GetByID (id : Z) : M (option User) :=
  let! user := FindUserByID id in ret (normalizedUser user).
Definition GetByOpenID (openID : string) : M (option User) :=
  let! user := FindUserByOpenID openID in ret (normalizedUser user).

Definition GetUserProfile (targetUserID : Z) : M UserProfile :=
  let! user := GetByID targetUserID in
  let! user := must ErrUserNotFound user in
  ret (mkUserProfile (usr_Avatar user) (usr_Nickname user) (usr_Gender user) (usr_StuCla user) (usr_Signature user)).

Definition sanitizeUserByID (userID : Z) : M (option User) :=
  let! user := GetByID userID in ret (sanitizeUser user).
Definition defaultPageSize s : Z :=
  match cfg s with Some c => if (0 <? cfg_PageSize c)%Z then cfg_PageSize c else 15%Z | None => 15%Z end.

Definition publishUserUpdate s (msg : TopicUserUpdateMsg) (scope : string) : M unit :=
  match producer s with
  | None => ret tt
  | Some p =>
    let! r := attempt (SendTopicUserUpdate p msg) in
    (if is_ok r then ret tt else warn ("send topic user update mq failed: " ++ scope));;
    let! r := attempt (SendCommentUserUpdate p msg) in
    (if is_ok r then ret tt else warn ("send comment user update mq failed: " ++ scope))
  end.

Definition Edit s (userID : Z) (req : UserEditReq) : M (option User) :=
  let req := normalizeUserEditReq req in
  if String.eqb (uer_Nickname req) "" && String.eqb (uer_Avatar req) "" && String.eqb (uer_Gender req) ""
     && String.eqb (uer_Signature req) "" then sanitizeUserByID userID
  else
    UpdateUserProfile userID req;;
    let! user := GetByID userID in
    let! user := must ErrUserNotFound user in
    publishUserUpdate s (buildUserUpdateMsg userID (usr_AccountType user) (uer_Nickname req) (uer_Avatar req)
      (uer_Gender req) (uer_Signature req)) "edit_profile";;
    ret (sanitizeUser (Some user)).

Definition getRootUser (user : option User) : M (option User) :=
  match normalizedUser user with
  | None => ret None
  | Some user =>
    if (usr_RootUserID user =? usr_ID user)%Z then ret (Some user)
    else
      let! rootUser := GetByID (usr_RootUserID user) in
      ret (match rootUser with None => Some user | Some _ => rootUser end)
  end.

Definition persistLastSwitch (rootUserID targetUserID : Z) : M unit := UpdateUserLastSwitch rootUserID targetUserID.

(** Returns the identity also when the last switch could not be stored: the caller
    looks at the error first. *)
Definition resolveActiveIdentity (rootUser : option User) : M (option User) :=
  match normalizedUser rootUser with
  | None => ret None
  | Some rootUser =>
    let stay := persistLastSwitch (usr_ID rootUser) (usr_ID rootUser);; ret (Some rootUser) in
    match usr_LastSwitchID rootUser with
    | None => stay
    | Some last =>
      if (last =? usr_ID rootUser)%Z then stay
      else
        let! target := GetByID last in
        match target with
        | None => stay
        | Some target =>
          if negb (rootUserID (Some target) =? usr_ID rootUser)%Z then stay else ret (Some target)
        end
    end
  end.

Definition getIdentityByType (rootUserID : Z) (accountType : string) : M (option User) :=
  let! user := FindUserByRootAndAccountType rootUserID accountType in ret (normalizedUser user).

Definition pickDefaultAvatar s : M string :=
  match cfg s with
  | None => ret ""
  | Some cfg =>
    let clean := List.filter nonempty (GoStr.TrimSpace <$> GoStr.Split ","%char (cfg_DefaultAvatar cfg)) in
    match clean with
    | [] => ret ""
    | _ => let! avatar := pickRandom clean in ret (avatarURL (cfg_BaseCDN cfg) avatar)
    end
  end.

(** *** service_provisional.go: the user as the grant leaves it. *)
Definition maybeGrantProvisionalCert (user : option User) : M (option User) :=
  let! t := now in
  match user, provisionalGrantExpiresAt user t with
  | Some user, Some expiresAt =>
    UpdateProvisionalExpiresAt (usr_ID user) expiresAt;;
    ret (Some {| user with usr_ProvisionalExpiresAt := Some expiresAt |})
  | _, _ => ret user
  end.

(** The account [WechatLogin] creates on the first login. *)
Definition new_user (openID nickname avatar : string) : User :=
  {| zero_User with usr_OpenID := openID; usr_Nickname := nickname; usr_Avatar := avatar;
                    usr_AccountType := accountTypeBase; usr_Tag := "student"; usr_Gender := "保密" |}.
Definition first_login s (openID : string) : M User :=
  let! nickname := randomHumorousID in
  let! avatar := pickDefaultAvatar s in
  let! user := CreateUser (new_user openID nickname avatar) in
  InitializeRootIdentity (usr_ID user);;
  ret {| user with usr_RootUserID := usr_ID user; usr_LastSwitchID := Some (usr_ID user) |}.

Definition WechatLogin s (code : string) : M (string * string * option User * option User * bool) :=
  match wxClient s, jwtHelper s with
  | Some wx, Some helper =>
    let! openID := map_err (EWrapf "wx jscode2session") (wx code) in
    let! known := GetByOpenID openID in
    let isNew := match known with None => true | Some _ => false end in
    let! user := match known with None => first_login s openID | Some user => ret user end in
    let! rootUser := getRootUser (Some user) in
    let! rootUser := map_err (EWrapf "grant provisional cert") (maybeGrantProvisionalCert rootUser) in
    let! activeIdentity := resolveActiveIdentity rootUser in
    let! tokens := map_err (EWrapf "generate token pair")
      (JwtUtil.GenerateTokenPair helper (buildTokenUser activeIdentity rootUser)) in
    ret (tokens.1, tokens.2, sanitizeUser rootUser, sanitizeUser activeIdentity, isNew)
  | _, _ => throw (ENew "user service dependencies not initialized")
  end.

Definition refresh_ttl s : Z :=
  match cfg s with
  | Some c =>
    if (0 <? JwtUtil.ucfg_RefreshTokenMinutes (cfg_JWT c))%Z then minutes (JwtUtil.ucfg_RefreshTokenMinutes (cfg_JWT c))
    else (48 * GoTime.Hour)%Z
  | None => (48 * GoTime.Hour)%Z
  end.

Definition RefreshToken s (refreshToken : string) : M (string * string * option User) :=
  let! helper := must (ENew "jwt helper not initialized") (jwtHelper s) in
  if negb (redis s) then throw (ENew "refresh token store not initialized")
  else
  let refreshKey := RedisKey.RefreshToken (sha1Hex refreshToken) in
  let! status := map_err (EWrapf "get refresh token status") (Get refreshKey) in
  let! status := must ErrRTKNotExisted status in
  if String.eqb status RedisKey.TokenStatusUsed then throw ErrRTKUsed
  else
  map_err (EWrapf "mark refresh token used") (Set_ refreshKey RedisKey.TokenStatusUsed (refresh_ttl s));;
  let! claims := map_err (EWrapf "parse refresh token") (JwtUtil.Parse helper refreshToken) in
  let! user := GetByID (JwtUtil.ucl_UserID claims) in
  let! user := must ErrUserNotFound user in
  let! rootUser := getRootUser (Some user) in
  let! tokens := JwtUtil.GenerateTokenPair helper (buildTokenUser (Some user) rootUser) in
  ret (tokens.1, tokens.2, sanitizeUser (Some user)).

(** *** service_identity.go *)
Definition requireRootIdentity (rootUserID : Z) : M User :=
  let! rootUser := GetByID rootUserID in must ErrUserNotFound rootUser.
Definition requireAnonymousIdentity (rootUserID : Z) : M User :=
  let! anonymous := getIdentityByType rootUserID accountTypeAnonymous in
  must (Bizerr.Biz "匿名身份不存在") anonymous.

Definition newAnonymousUser (rootUser : User) (avatar : string) : M User :=
  let! nickname := randomAnonymousID in
  ret {| zero_User with
    usr_Avatar := avatar; usr_CreatedBy := usr_ID rootUser; usr_UpdatedBy := usr_ID rootUser;
    usr_Nickname := nickname;
    usr_OpenID := (usr_OpenID rootUser ++ ":anon:" ++ GoStr.FormatInt (usr_ID rootUser))%string;
    usr_AccountType := accountTypeAnonymous; usr_RootUserID := usr_ID rootUser;
    usr_StuIsCheck := usr_StuIsCheck rootUser; usr_ProvisionalExpiresAt := usr_ProvisionalExpiresAt rootUser;
    usr_Tag := usr_Tag rootUser; usr_Gender := usr_Gender rootUser |}.
Definition defaultAnonymousAvatar s : string :=
  match cfg s with Some c => avatarURL (cfg_BaseCDN c) (cfg_DefaultAnonymousAvatar c) | None => "" end.

(** [identityMu] is held from the lookup on. *)
Definition CreateAnonymousIdentity s (rootUserID : Z) : M Identity :=
  let! rootUser := requireRootIdentity rootUserID in
  let! anonymous := getIdentityByType (usr_ID rootUser) accountTypeAnonymous in
  match anonymous with
  | Some _ => throw (Bizerr.Biz "匿名身份已存在，无法重复创建")
  | None =>
    let! anonymous := newAnonymousUser rootUser (defaultAnonymousAvatar s) in
    let! anonymous := CreateUser anonymous in
    UpdateUserLastSwitch (usr_ID anonymous) (usr_ID anonymous);;
    ret (buildIdentity anonymous)
  end.

(** [int(d.Hours())]; exact below 2^11 hours, the rounding of [float64] beyond is
    left out. *)
Definition whole_hours (d : Z) : Z := Z.quot d GoTime.Hour.
Definition UpdateAnonymousNickname (rootUserID : Z) (nickname : string) : M unit :=
  let nickname := GoStr.TrimSpace nickname in
  if String.eqb nickname "" then throw (Bizerr.Param errMsgInvalidParam)
  else
  let! rootUser := requireRootIdentity rootUserID in
  let! anonymous := requireAnonymousIdentity (usr_ID rootUser) in
  (if negb (GoTime.IsZero (usr_UpdatedAt anonymous)) then
     let! t := now in
     let hoursSinceUpdate := whole_hours (GoTime.Sub t (usr_UpdatedAt anonymous)) in
     if (hoursSinceUpdate <? anonymousNicknameUpdateHourLimit)%Z
     then throw (Bizerr.Biz ("昵称修改还需等待 " ++
            GoStr.FormatInt (anonymousNicknameUpdateHourLimit - hoursSinceUpdate) ++ " 小时"))
     else ret tt
   else ret tt);;
  UserRepo.UpdateAnonymousNickname (usr_ID anonymous) (usr_ID rootUser) nickname.

Definition ListIdentities (rootUserID : Z) : M IdentityListResp :=
  let! rootUser := requireRootIdentity rootUserID in
  let! users := FindUsersByRootUserID (usr_ID rootUser) in
  let normalized := ensureUserDefaults <$> users in
  ret (mkIdentityListResp (usr_ID rootUser) (buildIdentity <$> normalized)
    (existsb (fun u => String.eqb (usr_AccountType u) accountTypeAnonymous) normalized)).

Definition targetIdentityByAccountType (rootUser : User) (accountType : string) : M User :=
  let accountType := GoStr.TrimSpace accountType in
  if String.eqb accountType "" then throw (Bizerr.Param errMsgInvalidParam)
  else if String.eqb accountType accountTypeBase then ret rootUser
  else if String.eqb accountType accountTypeAnonymous then
    let! targetUser := getIdentityByType (usr_ID rootUser) accountType in
    must (Bizerr.Biz "目标身份不存在，请先创建") targetUser
  else throw (Bizerr.Biz "accountType 非法").

Definition switchToIdentity s (rootUser targetUser : User) : M (string * string * option User * Z) :=
  let! helper := must (Bizerr.Internal "jwt helper not initialized") (jwtHelper s) in
  if negb (rootUserID (Some targetUser) =? usr_ID rootUser)%Z then throw ErrIdentityDenied
  else
  persistLastSwitch (usr_ID rootUser) (usr_ID targetUser);;
  let! tokens := internal "生成身份切换令牌失败"
    (JwtUtil.GenerateTokenPair helper (buildTokenUser (Some targetUser) (Some rootUser))) in
  ret (tokens.1, tokens.2, sanitizeUser (Some targetUser), usr_ID rootUser).

Definition SwitchIdentity s (rootID targetUserID : Z) : M (string * string * option User * Z) :=
  let! rootUser := requireRootIdentity rootID in
  let! targetUser := GetByID targetUserID in
  let! targetUser := must ErrUserNotFound targetUser in
  switchToIdentity s rootUser targetUser.
Definition SwitchIdentityByAccountType s (rootUserID : Z) (accountType : string)
    : M (string * string * option User * Z) :=
  let! rootUser := requireRootIdentity rootUserID in
  let! targetUser := targetIdentityByAccountType rootUser accountType in
  switchToIdentity s rootUser targetUser.

Definition RandomNickname (accountType : string) : M string :=
  let accountType := GoStr.TrimSpace accountType in
  if String.eqb accountType accountTypeBase then randomHumorousID
  else if String.eqb accountType accountTypeAnonymous then randomAnonymousID
  else throw (Bizerr.Param "accountType 非法").

(** *** service_admin.go *)
Definition hashAdminPassword (raw : string) : M string :=
  let! salt := Generate in of_res (bcrypt_Generate salt raw).

(** The count includes the failure at hand. *)
Definition handleLoginFail s (failCountKey lockKey : string) : M Z :=
  if negb (redis s) then throw (Bizerr.Internal "redis client not initialized")
  else
  let! count := internal "增加管理员登录失败次数失败" (Incr failCountKey) in
  (if (count =? 1)%Z then internal "设置管理员登录失败次数过期时间失败" (Expire failCountKey (24 * GoTime.Hour))
   else ret tt);;
  (if (10 <=? count)%Z then internal "锁定管理员帐号失败" (Set_ lockKey "locked" (24 * GoTime.Hour)) else ret tt);;
  ret (Z.max 0 (10 - count)).
(** A wrong credential: count it and say how many attempts remain. *)
Definition refused {A} s (failCountKey lockKey text : string) : M A :=
  let! remaining := handleLoginFail s failCountKey lockKey in
  throw (Bizerr.Biz (text ++ "，今日还有 " ++ GoStr.FormatInt remaining ++ " 次机会")).
Definition wrong_secondary : string := "二级密码错误".
Definition wrong_password : string := "账号或密码错误".

Definition loadLegacyAdmin s (stuNum rawPwd : string) : M (option User) :=
  match cfg s with
  | None => ret None
  | Some c =>
    let! encPwd := internal "加密旧管理员密码失败" (of_res (Encrypt.AESEncrypt rawPwd (cfg_EncryptionKey c))) in
    internal "查询旧管理员帐号失败" (FindLegacyAdminUser stuNum encPwd 8)
  end.

Definition migrateLegacyAdmin (user : User) (username rawPwd : string) : M Admin :=
  let! hashedPassword := internal "加密管理员密码失败" (hashAdminPassword rawPwd) in
  internal "迁移旧管理员帐号失败"
    (CreateAdmin (mkAdmin 0 (usr_ID user) username hashedPassword (resolveAdminPower (usr_Power user)))).

(** The stored hash is replaced when possible; a failure is only logged. *)
Definition tryUpgradeAdminPasswordHash (admin : Admin) (rawPassword : string) : M unit :=
  if (adm_ID admin <=? 0)%Z then ret tt
  else
  let! r := attempt (hashAdminPassword rawPassword) in
  match r with
  | Err _ => warn "hash admin password failed"
  | Ok hashedPassword =>
    let! r := attempt (UpdateAdminPasswordHash (adm_ID admin) hashedPassword) in
    if is_ok r then ret tt else warn "upgrade admin password hash failed"
  end.

(** The handler never passes a nil request. *)
Definition AdminLogin s (req : AdminLoginReq) : M (string * string * option User) :=
  let! helper := must (Bizerr.Internal "admin jwt helper not initialized") (adminJWT s) in
  if negb (redis s) then throw (Bizerr.Internal "redis client not initialized")
  else
  let lockKey := RedisKey.AdminLoginLock (alr_Username req) in
  let failCountKey := RedisKey.AdminLoginFail (alr_Username req) in
  let! locked := internal "检查管理员账号锁定状态失败" (Exists lockKey) in
  if (0 <? locked)%Z then throw (Bizerr.Biz "账号已锁定，请明天后再试")
  else if negb (String.eqb (alr_SecondaryPassword req) (adminSecondaryPassword (cfg s)))
  then refused s failCountKey lockKey wrong_secondary
  else
  let! admin := internal "查询管理员失败" (FindAdminByUsername (alr_Username req)) in
  let! admin :=
    match admin with
    | Some admin => ret admin
    | None =>
      let! legacyUser := loadLegacyAdmin s (alr_Username req) (alr_Password req) in
      match legacyUser with
      | None => refused s failCountKey lockKey wrong_password
      | Some legacyUser => migrateLegacyAdmin legacyUser (alr_Username req) (alr_Password req)
      end
    end in
  let (matched, needsUpgrade) := verifyAdminPassword (adm_Password admin) (alr_Password req) in
  if negb matched then refused s failCountKey lockKey wrong_password
  else
  (if needsUpgrade then tryUpgradeAdminPasswordHash admin (alr_Password req) else ret tt);;
  let! user := GetByID (adm_UserID admin) in
  let! user := must (Bizerr.Biz "管理员关联用户不存在或已失效") user in
  internal "清理管理员登录失败计数失败" (Del failCountKey);;
  let! tokens := internal "生成管理员登录令牌失败"
    (AdminJwt.GenerateTokenPair helper (buildAdminAuthTokenUser admin)) in
  ret (tokens.1, tokens.2, sanitizeUser (Some user)).

Definition AdminRefreshToken s (refreshToken : string) : M (string * string) :=
  let! helper := must (Bizerr.Internal "admin jwt helper not initialized") (adminJWT s) in
  if negb (redis s) then throw (Bizerr.Internal "redis client not initialized")
  else
  let! claims := map_err mapAdminAuthError (AdminJwt.ParseAndVerifyRefresh helper refreshToken (redis s)) in
  map_err mapAdminAuthError (AdminJwt.ConsumeRefreshToken helper refreshToken (redis s));;
  let! admin := internal "查询管理员失败" (FindAdminByID (AdminJwt.acl_AdminID claims)) in
  let! admin :=
    match admin with
    | Some admin =>
      if negb (adm_UserID admin =? AdminJwt.acl_UserID claims)%Z then throw (Bizerr.Forbidden "管理员权限不足") else ret admin
    | None => throw (Bizerr.Forbidden "管理员权限不足")
    end in
  let! user := GetByID (adm_UserID admin) in
  let! _ := must ErrUserNotFound user in
  let! tokenUser := must (Bizerr.Internal "admin token user invalid") (buildAdminAuthTokenUser admin) in
  let tokenUser :=
    AdminJwt.mkTokenUser (AdminJwt.atu_AdminID tokenUser) (AdminJwt.atu_UserID tokenUser)
      (AdminJwt.atu_Username tokenUser) (AdminJwt.atu_Power tokenUser) (AdminJwt.acl_SessionID claims) in
  internal "生成管理员刷新令牌失败" (AdminJwt.GenerateTokenPair helper (Some tokenUser)).

Definition AdminLogout s (claims : option AdminJwt.Claims) : M unit :=
  let! claims := must (Bizerr.Unauthorized errMsgUserNotLogin) claims in
  if (AdminJwt.acl_AdminID claims <=? 0)%Z then throw (Bizerr.Unauthorized errMsgUserNotLogin)
  else
  let! helper := must (Bizerr.Internal "admin jwt helper not initialized") (adminJWT s) in
  map_err mapAdminAuthError (AdminJwt.Logout helper (AdminJwt.acl_AdminID claims) (redis s)).

Definition AdminUserToken s (claims : option AdminJwt.Claims) : M (string * string) :=
  let! claims := must (Bizerr.Unauthorized errMsgUserNotLogin) claims in
  if (AdminJwt.acl_AdminID claims <=? 0)%Z || (AdminJwt.acl_UserID claims <=? 0)%Z
  then throw (Bizerr.Unauthorized errMsgUserNotLogin)
  else
  let! helper := must (Bizerr.Internal "jwt helper not initialized") (jwtHelper s) in
  let! user := GetByID (AdminJwt.acl_UserID claims) in
  let! user := must ErrUserNotFound user in
  internal "generate admin user token failed"
    (JwtUtil.GenerateTokenPair helper (buildAdminUserJWTUser (Some user))).

(** *** service_admin_user.go *)
Definition CreateUser (user : option User) : M unit :=
  let! user := must (Bizerr.Param errMsgInvalidParam) user in
  (if nonempty (usr_OpenID user) then
     let! count := CountUsersByOpenID (usr_OpenID user) in
     if (0 <? count)%Z then throw (Bizerr.Biz ("openId:" ++ usr_OpenID user ++ "已存在")) else ret tt
   else ret tt);;
  let! _ := UserRepo.CreateUser user in ret tt.

Definition has_change (req : AdminEditUserReq) : bool :=
  nonempty (aer_Nickname req) || nonempty (aer_Avatar req) || negb (bool_decide (aer_Power req = None))
  || nonempty (aer_StuNum req) || nonempty (aer_StuName req) || nonempty (aer_StuCla req)
  || negb (bool_decide (aer_StuIsCheck req = None)).
Definition EditAdminUser s (userID operatorID : Z) (req : AdminEditUserReq) : M unit :=
  let! user := GetByID userID in
  let! user := must (Bizerr.Biz "不存在") user in
  if negb (has_change req) then throw (Bizerr.Biz "更新失败")
  else
  UpdateAdminUser userID operatorID req;;
  publishUserUpdate s (buildUserUpdateMsg userID (usr_AccountType user) (aer_Nickname req) (aer_Avatar req) "" "")
    "edit_admin_user".

Definition ListUsers s (page size : Z) (filter : AdminListUsersFilter) : M (PageResult User) :=
  let page := if (page <=? 0)%Z then 1%Z else page in
  let size := if (size <=? 0)%Z then defaultPageSize s else size in
  let! r := UserRepo.ListUsers page size filter in
  ret (NewPageResult (sanitizeUsers r.1) r.2 page size).

Definition ClearAuthentication (userID : Z) : M unit :=
  let! user := GetByID userID in
  let! user := must ErrUserNotFound user in
  let! cleared := ClearAuthenticationByRootUserID (rootUserID (Some user)) in
  if cleared then ret tt else throw ErrAuthenticationClearFailed.

Definition pre_auth_item (item : AdminPreAuthItem) : M AdminPreAuthResult :=
  let userID := pai_UserID item in
  let nickname := GoStr.TrimSpace (pai_NickName item) in
  if (userID <=? 0)%Z || String.eqb nickname "" then ret (mkAdminPreAuthResult userID false errMsgInvalidParam)
  else
    let! updated := internal "预认证失败" (MarkPreAuthenticated userID nickname) in
    ret (if updated then mkAdminPreAuthResult userID true preAuthSuccessMessage
         else mkAdminPreAuthResult userID false ("userId=" ++ GoStr.FormatInt userID ++ " 预认证更新失败")).
Fixpoint pre_auth_loop (items : list AdminPreAuthItem) (resp : AdminBatchPreAuthResp) : M AdminBatchPreAuthResp :=
  match items with
  | [] => ret resp
  | item :: items =>
    let! result := pre_auth_item item in
    pre_auth_loop items
      (mkAdminBatchPreAuthResp (pbr_Total resp)
        (pbr_SuccessCount resp + (if par_Success result then 1 else 0))
        (pbr_FailureCount resp + (if par_Success result then 0 else 1))
        (pbr_Results resp ++ [result]))
  end.
Definition PreAuthenticationBatch s (password : string) (items : list AdminPreAuthItem) : M AdminBatchPreAuthResp :=
  if negb (String.eqb (GoStr.TrimSpace password) (adminPreAuthPassword (cfg s)))
  then throw (Bizerr.Biz "预认证密码错误")
  else if (length items =? 0)%nat then throw (Bizerr.Param errMsgInvalidParam)
  else pre_auth_loop items (mkAdminBatchPreAuthResp (Z.of_nat (length items)) 0 0 []).

Definition PreAuthentication s (userID : Z) (nickname pwd : string) : M unit :=
  of_res (legacyPreAuthError (cfg s) userID nickname pwd);;
  let! resp := PreAuthenticationBatch s pwd [mkAdminPreAuthItem userID nickname] in
  match pbr_Results resp with
  | result :: _ =>
    if negb (pbr_SuccessCount resp =? 1)%Z || negb (par_Success result) then
      throw (Bizerr.Biz (if String.eqb (GoStr.TrimSpace (par_Message result)) "" then "预认证更新失败"
                         else par_Message result))
    else ret tt
  | [] => throw (Bizerr.Biz "预认证更新失败")
  end.
End service.
Arguments Service C D R : clear implicits.
Arguments Producer C D R : clear implicits.
End UserService.
