(* ===== verification/UserSafe.v ===== *)
(** * User: what reaches Redis

    Every value a request of the user service stores under a Redis key is one of a
    few kinds ([put]): the status of a token it just signed, a token used up, a new
    session, or the counters of the login lock; any other value was there before.
    [wrote P] is the relation of [UserSteps] for it, and [serve_wrote] the statement for
    a request, given the invariant [issued] of the keys, which every request keeps. *)
From S2P Require Import Prelude GoString GoTime GoMonad Sql Safe RedisStr Token AdminJwt JwtUtil UserModel.
From S2P Require Import UserRepo UserService.

(** ** User: what a request may do

    For the relations of [Does] an idle step is one that leaves the Redis server
    alone ([later]).  [TokenRel] adds the four ways in which the methods change
    what Redis holds.  [serve_does] carries [ρ] through every request of the user
    service; [UserSafe] and [LoginGuard] use it with two different relations. *)

Module UserSteps.
Import Safe Users UserRepo UserService.

(** ** Requests *)
Inductive request :=
| RWechatLogin (code : string)
| RRefreshToken (token : string)
| REdit (userID : Z) (req : UserEditReq)
| RCreateAnonymousIdentity (rootUserID : Z)
| RUpdateAnonymousNickname (rootUserID : Z) (nickname : string)
| RSwitchIdentity (rootUserID targetUserID : Z)
| RSwitchIdentityByAccountType (rootUserID : Z) (accountType : string)
| RAdminLogin (req : AdminLoginReq)
| RAdminRefreshToken (token : string)
| RAdminLogout (claims : option AdminJwt.Claims)
| RAdminUserToken (claims : option AdminJwt.Claims)
| RCreateUser (user : option User)
| REditAdminUser (userID operatorID : Z) (req : AdminEditUserReq)
| RClearAuthentication (userID : Z)
| RPreAuthentication (userID : Z) (nickname pwd : string)
| RPreAuthenticationBatch (password : string) (items : list AdminPreAuthItem)
| RAdminAccess (token : string)
| RAccess (token : string).

Section relations.
Context {H : Sha1} {JA : Jwt AdminJwt.Claims} {JU : Jwt JwtUtil.Claims} {BC : Bcrypt} {MR : MathRand}.
Context {C : Collation} {D : SqlEngine} {AI : AutoIncrement D} {R : RedisServer}.
Notation DB := (DB C D R).
Implicit Types (w : World DB).

Context {E : Env}.

(** Time passes, and the server holds what it held. *)
Definition later w w' : Prop := (w_tick w <= w_tick w')%nat /\ kv (t_redis (w_db w')) = kv (t_redis (w_db w)).

#[export, refine] Instance users_idle : Idle DB := {| idle := later |}.
Proof. intros w w' Hdb Ht. split; [done|]. by rewrite Hdb. Defined.

(** The helpers of a service whose configuration satisfies [K]. *)
Definition keyed_user (K : Config -> Prop) (h : JwtUtil.Helper) : Prop := exists cf, K cf /\ JwtUtil.cfg h = cfg_JWT cf.
Definition keyed_admin (K : Config -> Prop) (h : AdminJwt.Helper) : Prop :=
  exists cf, K cf /\ AdminJwt.cfg h = cfg_AdminJWT cf.
Definition configured (K : Config -> Prop) (s : Service C D R) : Prop := forall cf, cfg s = Some cf -> K cf.

Record TokenRel (K : Config -> Prop) (ρ : World DB -> World DB -> Prop) : Prop := {
  tr_user_pair : forall h u, keyed_user K h -> does ρ (JwtUtil.GenerateTokenPair h u);
  tr_login_pair : forall h a, keyed_admin K h -> does ρ (AdminJwt.GenerateTokenPair h (buildAdminAuthTokenUser a));
  tr_used : forall d ttl, does ρ (Set_ (RedisKey.RefreshToken d) RedisKey.TokenStatusUsed ttl);
  tr_logout : forall id, does ρ (Del (RedisKey.AdminSession id));
}.
(** The commands on the counters of the login lock of a user name. *)
Record LoginRel (ρ : World DB -> World DB -> Prop) (u : string) : Prop := {
  lr_incr : does ρ (Incr (RedisKey.AdminLoginFail u));
  lr_expire : forall ttl, does ρ (Expire (RedisKey.AdminLoginFail u) ttl);
  lr_lock : forall v ttl, does ρ (Set_ (RedisKey.AdminLoginLock u) v ttl);
  lr_clear : does ρ (Del (RedisKey.AdminLoginFail u));
}.

(** The collaborators keep away from the keys of this service. *)
Record honest (s : Service C D R) : Prop := {
  honest_wx : forall wx, wxClient s = Some wx -> forall code, untouched (wx code);
  honest_producer : forall p, producer s = Some p ->
    forall msg, untouched (SendTopicUserUpdate p msg) /\ untouched (SendCommentUserUpdate p msg);
}.

(** A table of the store other than the server. *)
Definition off_redis T {HE : Entity T} {HT : Tbl DB State T HE _} : Prop :=
  forall t s, t_redis (tset t s) = t_redis s.
Lemma users_off : off_redis User. Proof. done. Qed.
Lemma admins_off : off_redis Admin. Proof. done. Qed.

Section rules.
Context (ρ : World DB -> World DB -> Prop) (WR : WorldRel ρ).

Lemma does_must {A} e (x : option A) : does ρ (must e x : M DB A).
Proof. unfold must. does_auto. Qed.
Lemma does_bind_must {A B} e (x : option A) (k : A -> M DB B) :
  (forall y, x = Some y -> does ρ (k y)) -> does ρ (let! y := must e x in k y).
Proof. intros Hk. destruct x as [y|]; [by apply (Hk y)|apply does_throw, WR]. Qed.
Lemma does_gormDB : does ρ gormDB.
Proof. unfold gormDB. does_auto. Qed.

Lemma does_update T {HE : Entity T} {HT : Tbl DB State T HE _} p f :
  off_redis T -> does ρ (update T p f).
Proof.
  intros Hoff. apply does_bind; [done|by apply does_stmt|]. intros _ w. unfold bind, get_db.
  destruct (upd _ _ _) as [[t n]|]; [|apply (wr_refl _ WR)]. apply (wr_later _ WR); split; [done|]. simpl. by rewrite Hoff.
Qed.
Lemma does_insert T {HE : Entity T} {HT : Tbl DB State T HE _} r : off_redis T -> does ρ (insert T r).
Proof.
  intros Hoff. apply does_bind; [done|by apply does_stmt|]. intros _ w. unfold bind, get_db.
  destruct (ins _ _) as [t|]; [|apply (wr_refl _ WR)]. apply (wr_later _ WR); split; [done|]. simpl. by rewrite Hoff.
Qed.
Lemma does_first T {HE : Entity T} {HT : Tbl DB State T HE _} q : does ρ (first T q).
Proof. unfold first. does_auto. Qed.
Lemma does_first_or_nil T {HE : Entity T} {HT : Tbl DB State T HE _} t q : does ρ (first_or_nil T t q).
Proof.
  apply does_bind; [done|apply does_gormDB|]. intros _. apply does_map_err, does_or_nil, does_first. done.
Qed.

Lemma does_command {A} (f : Z -> rsrv -> res (A * rsrv)) :
  (forall t r a r', f t r = Ok (a, r') -> kv r' = kv r) -> does ρ (command f : M DB A).
Proof.
  intros Hf w. apply (wr_later _ WR). unfold command, bind, now, fault, get_db. simpl.
  destruct (env_fault _); [split; simpl; [lia|done]|].
  destruct (f _ _) as [[a r']|e] eqn:Hr; split; simpl; try lia; [|done]. by eapply Hf.
Qed.
Lemma does_Get k : does ρ (Get k : M DB _).
Proof. apply does_command. by intros t r a r' [= _ <-]. Qed.
Lemma does_Exists k : does ρ (Exists k : M DB _).
Proof. apply does_command. by intros t r a r' [= _ <-]. Qed.
End rules.
End relations.

#[export] Hint Resolve does_gormDB does_first does_first_or_nil does_Get does_Exists does_update
  does_insert users_off admins_off : steps.

(** [does_auto], which also remembers what a pointer that is not nil points to. *)
Ltac user_auto :=
  repeat (match goal with
  | |- does _ (bind (must _ _) _) => apply does_bind_must; [solve [eauto 1 with steps nocore]|intros ? ?]
  | |- does _ (must _ _) => apply does_must; solve [eauto 1 with steps nocore]
  | |- does _ (bind _ _) => apply does_bind; [solve [eauto 1 with steps nocore]| |intros ?]
  | |- does _ (attempt _) => apply does_attempt
  | |- does _ (map_err _ _) => apply does_map_err
  | |- does _ (internal _ _) => apply does_internal
  | |- does _ (if ?b then _ else _) => destruct b eqn:?
  | |- does _ (match ?x with _ => _ end) => destruct x eqn:?
  | |- does _ _ => progress does_auto
  end; cbv beta iota zeta).

Section methods.
Context {H : Sha1} {JA : Jwt AdminJwt.Claims} {JU : Jwt JwtUtil.Claims} {BC : Bcrypt} {MR : MathRand}.
Context {C : Collation} {D : SqlEngine} {AI : AutoIncrement D} {R : RedisServer}.
Notation DB := (DB C D R).
Implicit Types (w : World DB).

(** ** The service *)
Context {E : Env}.
Definition unit_of {A} (m : M DB A) : M DB unit := m;; ret tt.

Definition serve (s : Service C D R) (q : request) : M DB unit :=
  match q with
  | RWechatLogin code => unit_of (WechatLogin s code)
  | RRefreshToken token => unit_of (RefreshToken s token)
  | REdit id req => unit_of (Edit s id req)
  | RCreateAnonymousIdentity root => unit_of (CreateAnonymousIdentity s root)
  | RUpdateAnonymousNickname root nickname => UpdateAnonymousNickname root nickname
  | RSwitchIdentity root target => unit_of (SwitchIdentity s root target)
  | RSwitchIdentityByAccountType root t => unit_of (SwitchIdentityByAccountType s root t)
  | RAdminLogin req => unit_of (AdminLogin s req)
  | RAdminRefreshToken token => unit_of (AdminRefreshToken s token)
  | RAdminLogout claims => AdminLogout s claims
  | RAdminUserToken claims => unit_of (AdminUserToken s claims)
  | RCreateUser user => CreateUser user
  | REditAdminUser id operator req => EditAdminUser s id operator req
  | RClearAuthentication id => ClearAuthentication id
  | RPreAuthentication id nickname pwd => PreAuthentication s id nickname pwd
  | RPreAuthenticationBatch pwd items => unit_of (PreAuthenticationBatch s pwd items)
  | RAdminAccess token =>
    let! h := must AdminJwt.ErrTokenInvalid (adminJWT s) in
    unit_of (AdminJwt.ParseAndVerifyAccess h token (redis s))
  | RAccess token =>
    let! h := must JwtUtil.ErrTokenInvalid (jwtHelper s) in unit_of (JwtUtil.ParseAndVerify h token (redis s))
  end.

Context (ρ : World DB -> World DB -> Prop) (WR : WorldRel ρ).


Lemma does_Updates q l : does ρ (Updates q l).
Proof. unfold Updates. user_auto. Qed.
Hint Resolve does_Updates : steps.
Lemma does_updateUserFields id l : does ρ (updateUserFields id l).
Proof. unfold updateUserFields. user_auto. Qed.
Hint Resolve does_updateUserFields : steps.
Lemma does_GetByID id : does ρ (GetByID id).
Proof. unfold GetByID, FindUserByID. user_auto. Qed.
Lemma does_getIdentityByType id t : does ρ (getIdentityByType id t).
Proof. unfold getIdentityByType, FindUserByRootAndAccountType. user_auto. Qed.
Lemma does_CreateUser u : does ρ (UserRepo.CreateUser u).
Proof. unfold UserRepo.CreateUser. user_auto. Qed.
Lemma does_pickRandom l : does ρ (pickRandom l).
Proof. unfold pickRandom. user_auto. Qed.
Hint Resolve does_GetByID does_getIdentityByType does_CreateUser does_pickRandom : steps.
Lemma does_randomHumorousID : does ρ randomHumorousID.
Proof. unfold randomHumorousID. user_auto. Qed.
Lemma does_randomAnonymousID : does ρ randomAnonymousID.
Proof. unfold randomAnonymousID. user_auto. Qed.
Lemma does_requireRootIdentity id : does ρ (requireRootIdentity id).
Proof. unfold requireRootIdentity. user_auto. Qed.
Lemma does_getRootUser u : does ρ (getRootUser u).
Proof. unfold getRootUser. user_auto. Qed.
Lemma does_UpdateUserLastSwitch a b : does ρ (UpdateUserLastSwitch a b).
Proof. unfold UpdateUserLastSwitch. user_auto. Qed.
Hint Resolve does_randomHumorousID does_randomAnonymousID does_requireRootIdentity does_getRootUser
  does_UpdateUserLastSwitch : steps.
Lemma does_resolveActiveIdentity u : does ρ (resolveActiveIdentity u).
Proof. unfold resolveActiveIdentity, persistLastSwitch. user_auto. Qed.
Lemma does_maybeGrantProvisionalCert u : does ρ (maybeGrantProvisionalCert u).
Proof. unfold maybeGrantProvisionalCert, UpdateProvisionalExpiresAt. user_auto. Qed.
Lemma does_first_login s o : does ρ (first_login s o).
Proof. unfold first_login, pickDefaultAvatar, InitializeRootIdentity. user_auto. Qed.
Lemma does_GetByOpenID o : does ρ (GetByOpenID o).
Proof. unfold GetByOpenID, FindUserByOpenID. user_auto. Qed.
Lemma does_publish s msg scope : honest s -> does ρ (publishUserUpdate s msg scope).
Proof.
  intros Hs. unfold publishUserUpdate, warn. destruct (producer s) as [p|] eqn:Hp; [|by apply does_ret].
  destruct (honest_producer s Hs p Hp msg). user_auto; by apply does_untouched.
Qed.
Lemma does_Parse h tok : does ρ (JwtUtil.Parse h tok).
Proof. unfold JwtUtil.Parse. user_auto. Qed.
Lemma does_admin_Parse h tok : does ρ (AdminJwt.Parse h tok).
Proof. unfold AdminJwt.Parse. user_auto. Qed.
Hint Resolve does_admin_Parse : steps.
Lemma does_parseAndVerify h tok kb sub u c : does ρ (AdminJwt.parseAndVerify h tok kb sub u c).
Proof. unfold AdminJwt.parseAndVerify, AdminJwt.check_status, AdminJwt.check_session. user_auto. Qed.
#[local] Hint Resolve does_resolveActiveIdentity does_maybeGrantProvisionalCert does_first_login does_GetByOpenID
  does_publish does_Parse does_parseAndVerify : steps.

(** ** The methods that issue, use up or drop tokens *)
Context (K : Config -> Prop) (TR : TokenRel K ρ).
Lemma does_user_pair h u : keyed_user K h -> does ρ (JwtUtil.GenerateTokenPair h u).
Proof. apply TR. Qed.
Lemma does_login_pair h a : keyed_admin K h -> does ρ (AdminJwt.GenerateTokenPair h (buildAdminAuthTokenUser a)).
Proof. apply TR. Qed.
Lemma does_used d ttl : does ρ (Set_ (RedisKey.RefreshToken d) RedisKey.TokenStatusUsed ttl).
Proof. apply TR. Qed.
Lemma does_drop id : does ρ (Del (RedisKey.AdminSession id)).
Proof. apply TR. Qed.
#[local] Hint Resolve does_user_pair does_login_pair does_used does_drop : steps.
Variable s : Service C D R.
Hypothesis Hs : honest s.
Hypothesis HK : configured K s.
Lemma keyed_jwtHelper h : jwtHelper s = Some h -> keyed_user K h.
Proof. unfold jwtHelper. intros (cf & Hc & ->)%fmap_Some. exists cf. split; [by apply HK|done]. Qed.
Lemma keyed_adminJWT h : adminJWT s = Some h -> keyed_admin K h.
Proof. unfold adminJWT. intros (cf & Hc & ->)%fmap_Some. exists cf. split; [by apply HK|done]. Qed.
#[local] Hint Resolve Hs keyed_jwtHelper keyed_adminJWT : steps.

Lemma does_WechatLogin code : does ρ (WechatLogin s code).
Proof.
  unfold WechatLogin. destruct (wxClient s) as [wx|] eqn:Hwx; [|by apply does_throw].
  user_auto. eapply does_untouched, honest_wx; eauto.
Qed.
Lemma does_RefreshToken tok : does ρ (RefreshToken s tok).
Proof. unfold RefreshToken. user_auto. Qed.
Lemma does_switchToIdentity a b : does ρ (switchToIdentity s a b).
Proof. unfold switchToIdentity, persistLastSwitch. user_auto. Qed.
Hint Resolve does_switchToIdentity : steps.
Lemma does_SwitchIdentity a b : does ρ (SwitchIdentity s a b).
Proof. unfold SwitchIdentity. user_auto. Qed.
Lemma does_SwitchIdentityByAccountType a b : does ρ (SwitchIdentityByAccountType s a b).
Proof. unfold SwitchIdentityByAccountType, targetIdentityByAccountType. user_auto. Qed.
Lemma does_CreateAnonymousIdentity a : does ρ (CreateAnonymousIdentity s a).
Proof. unfold CreateAnonymousIdentity, newAnonymousUser. user_auto. Qed.
Lemma does_UpdateAnonymousNickname a b : does ρ (UpdateAnonymousNickname a b).
Proof. unfold UpdateAnonymousNickname, requireAnonymousIdentity, UserRepo.UpdateAnonymousNickname. user_auto. Qed.
Lemma does_Edit id req : does ρ (Edit s id req).
Proof. unfold Edit, sanitizeUserByID, UpdateUserProfile. user_auto. Qed.

Lemma does_refused {A} u text : LoginRel ρ u ->
  does ρ (refused s (RedisKey.AdminLoginFail u) (RedisKey.AdminLoginLock u) text : M DB A).
Proof. intros []. unfold refused, handleLoginFail. user_auto. Qed.
Lemma does_hashAdminPassword p : does ρ (hashAdminPassword p).
Proof. unfold hashAdminPassword. user_auto. Qed.
Hint Resolve does_hashAdminPassword : steps.
Lemma does_upgrade a p : does ρ (tryUpgradeAdminPasswordHash a p).
Proof. unfold tryUpgradeAdminPasswordHash, UpdateAdminPasswordHash, warn. user_auto. Qed.
Lemma does_legacy u p : does ρ (loadLegacyAdmin s u p).
Proof. unfold loadLegacyAdmin, FindLegacyAdminUser. user_auto. Qed.
Lemma does_migrate l u p : does ρ (migrateLegacyAdmin l u p).
Proof. unfold migrateLegacyAdmin, CreateAdmin. user_auto. Qed.
Hint Resolve does_refused does_upgrade does_legacy does_migrate : steps.
Lemma does_AdminLogin req : LoginRel ρ (alr_Username req) -> does ρ (AdminLogin s req).
Proof. intros HL. unfold AdminLogin, FindAdminByUsername. user_auto. apply HL. Qed.

Lemma does_AdminLogout c : does ρ (AdminLogout s c).
Proof. unfold AdminLogout, AdminJwt.Logout. user_auto. Qed.
Lemma does_AdminUserToken c : does ρ (AdminUserToken s c).
Proof. unfold AdminUserToken. user_auto. Qed.
Lemma does_service_CreateUser u : does ρ (CreateUser u).
Proof. unfold CreateUser, CountUsersByOpenID. user_auto. Qed.
Lemma does_EditAdminUser a b req : does ρ (EditAdminUser s a b req).
Proof. unfold EditAdminUser, UpdateAdminUser. user_auto. Qed.
Lemma does_ClearAuthentication id : does ρ (ClearAuthentication id).
Proof. unfold ClearAuthentication, ClearAuthenticationByRootUserID. user_auto. Qed.
Lemma does_pre_auth_loop l r : does ρ (pre_auth_loop l r).
Proof.
  revert r. induction l as [|x l IH]; intros r; simpl; [by apply does_ret|]. apply does_bind; [done| |intros y; apply IH].
  unfold pre_auth_item, MarkPreAuthenticated. user_auto.
Qed.
Hint Resolve does_pre_auth_loop : steps.
Lemma does_PreAuthenticationBatch p l : does ρ (PreAuthenticationBatch s p l).
Proof. unfold PreAuthenticationBatch. user_auto. Qed.
Hint Resolve does_PreAuthenticationBatch : steps.
Lemma does_PreAuthentication a b p : does ρ (PreAuthentication s a b p).
Proof. unfold PreAuthentication. user_auto. Qed.
Lemma does_ParseAndVerify h tok c : does ρ (JwtUtil.ParseAndVerify h tok c).
Proof. unfold JwtUtil.ParseAndVerify. user_auto. Qed.
Lemma does_ConsumeRefreshToken h tok c :
  (forall d ttl, does ρ (Set_ (RedisKey.AdminRefreshToken d) RedisKey.TokenStatusUsed ttl)) ->
  does ρ (AdminJwt.ConsumeRefreshToken h tok c).
Proof. intros Hset. unfold AdminJwt.ConsumeRefreshToken. user_auto. Qed.
Lemma does_unit_of {A} (m : M DB A) : does ρ m -> does ρ (unit_of m).
Proof. intros Hm. unfold unit_of. apply does_bind; [done..|]. intros _. by apply does_ret. Qed.

(** What [ρ] has to allow beyond [TokenRel], for each request. *)
Definition allows (q : request) : Prop :=
  match q with
  | RAdminLogin req => LoginRel ρ (alr_Username req)
  | RAdminRefreshToken token => does ρ (AdminRefreshToken s token)
  | _ => True
  end.
Lemma serve_does q : allows q -> does ρ (serve s q).
Proof.
  intros Hq. destruct q; cbn [serve allows] in *; try apply does_unit_of.
  - apply does_WechatLogin.
  - apply does_RefreshToken.
  - apply does_Edit.
  - apply does_CreateAnonymousIdentity.
  - apply does_UpdateAnonymousNickname.
  - apply does_SwitchIdentity.
  - apply does_SwitchIdentityByAccountType.
  - by apply does_AdminLogin.
  - exact Hq.
  - apply does_AdminLogout.
  - apply does_AdminUserToken.
  - apply does_service_CreateUser.
  - apply does_EditAdminUser.
  - apply does_ClearAuthentication.
  - apply does_PreAuthentication.
  - apply does_PreAuthenticationBatch.
  - apply does_bind; [done|by apply does_must|]. intros h. by apply does_unit_of, does_parseAndVerify.
  - apply does_bind; [done|by apply does_must|]. intros h. by apply does_unit_of, does_ParseAndVerify.
Qed.
End methods.

#[export] Hint Resolve does_must does_Updates does_updateUserFields does_GetByID does_getIdentityByType
  does_CreateUser does_pickRandom does_randomHumorousID does_randomAnonymousID does_requireRootIdentity
  does_getRootUser does_UpdateUserLastSwitch does_resolveActiveIdentity does_maybeGrantProvisionalCert
  does_first_login does_GetByOpenID does_publish does_Parse does_parseAndVerify does_hashAdminPassword
  does_upgrade does_legacy does_migrate : steps.
End UserSteps.

Module UserSafe.
Import Safe Users UserRepo UserService UserSteps.

Section safe.
Context {H : Sha1} {JA : Jwt AdminJwt.Claims} {JU : Jwt JwtUtil.Claims} {BC : Bcrypt} {MR : MathRand}.
Context {C : Collation} {D : SqlEngine} {AI : AutoIncrement D} {R : RedisServer}.
Notation DB := (DB C D R).
Implicit Types (w : World DB).

(** What the server may still know of a key, without its expiry. *)
Definition val w (k : string) : option string := fst <$> kv (t_redis (w_db w)) !! k.

Section env.
Context {E : Env}.

(** ** What the service signs

    The secret and the claims of a token a service configured within [K] signs, with
    the step its id was drawn at: those [GenerateTokenPair] builds for a valid user,
    one step after it read the clock (two steps, for a refresh token). *)
Context (K : Config -> Prop).
Definition admin_access (n : nat) (key : string) (c : AdminJwt.Claims) : Prop :=
  exists cf u sessionID m, K cf /\ key = AdminJwt.acfg_Secret (cfg_AdminJWT cf) /\
    (0 < AdminJwt.atu_AdminID u)%Z /\ (0 < AdminJwt.atu_UserID u)%Z /\ AdminJwt.blank (AdminJwt.atu_Username u) = false /\
    n = S m /\ c = AdminJwt.access_claims (AdminJwt.mkHelper (cfg_AdminJWT cf) true) u sessionID (env_now m) (env_id n).
Definition admin_refresh (n : nat) (key : string) (c : AdminJwt.Claims) : Prop :=
  exists cf a m, K cf /\ admin_access (S m) key a /\ key = AdminJwt.acfg_Secret (cfg_AdminJWT cf) /\ n = S (S m) /\
    c = AdminJwt.refresh_claims (AdminJwt.mkHelper (cfg_AdminJWT cf) true) a (env_now m) (env_id n).
Definition user_access (n : nat) (key : string) (c : JwtUtil.Claims) : Prop :=
  exists cf u m, K cf /\ key = JwtUtil.ucfg_Secret (cfg_JWT cf) /\
    (0 < JwtUtil.utu_ID u)%Z /\ (0 < JwtUtil.utu_RootUserID u)%Z /\
    n = S m /\ c = JwtUtil.access_claims (JwtUtil.mkHelper (cfg_JWT cf) true) u (env_now m) (env_id n).
Definition user_refresh (n : nat) (key : string) (c : JwtUtil.Claims) : Prop :=
  exists cf a m, K cf /\ user_access (S m) key a /\ key = JwtUtil.ucfg_Secret (cfg_JWT cf) /\ n = S (S m) /\
    c = JwtUtil.refresh_claims (JwtUtil.mkHelper (cfg_JWT cf) true) a (env_now m) (env_id n).
(** The digest of such a token, signed before step [t]. *)
Definition signed {T} {J : Jwt T} (G : nat -> string -> T -> Prop) (t : nat) (d : string) : Prop :=
  exists n key c tok, (n < t)%nat /\ G n key c /\ SignedString key c = Ok tok /\ d = sha1Hex tok.

(** Such claims carry the id drawn for them. *)
Definition carries {T} (G : nat -> string -> T -> Prop) (ID : T -> string) : Prop :=
  forall n key c, G n key c -> ID c = GoStr.FormatInt (env_id n).
Lemma admin_access_id : carries admin_access AdminJwt.acl_ID.
Proof. by intros n key c (cf & u & sid & m & _ & _ & _ & _ & _ & _ & ->). Qed.
Lemma admin_refresh_id : carries admin_refresh AdminJwt.acl_ID.
Proof. by intros n key c (cf & a & m & _ & _ & _ & _ & ->). Qed.
Lemma user_refresh_id : carries user_refresh JwtUtil.ucl_ID.
Proof. by intros n key c (cf & a & m & _ & _ & _ & _ & ->). Qed.

(** The values the service stores, with the step of the id they carry. *)
Inductive put : nat -> string -> string -> Prop :=
| put_admin_token n k c tok :
    admin_access n k c -> SignedString k c = Ok tok ->
    put n (RedisKey.AdminToken (sha1Hex tok)) RedisKey.TokenStatusOK
| put_admin_refresh n k c tok :
    admin_refresh n k c -> SignedString k c = Ok tok ->
    put n (RedisKey.AdminRefreshToken (sha1Hex tok)) RedisKey.TokenStatusOK
| put_admin_used n d : put n (RedisKey.AdminRefreshToken d) RedisKey.TokenStatusUsed
| put_session n id : put n (RedisKey.AdminSession id) (GoStr.FormatInt (env_id n))
| put_token n k c tok :
    user_access n k c -> SignedString k c = Ok tok ->
    put n (RedisKey.Token (sha1Hex tok)) RedisKey.TokenStatusOK
| put_refresh n k c tok :
    user_refresh n k c -> SignedString k c = Ok tok ->
    put n (RedisKey.RefreshToken (sha1Hex tok)) RedisKey.TokenStatusOK
| put_used n d : put n (RedisKey.RefreshToken d) RedisKey.TokenStatusUsed
| put_lock n u v : put n (RedisKey.AdminLoginLock u) v
| put_fail n u v : put n (RedisKey.AdminLoginFail u) v.

Implicit Types (P : nat -> string -> string -> Prop).

Definition wrote P w w' : Prop :=
  (w_tick w <= w_tick w')%nat /\
  forall j v, val w' j = Some v -> val w j = Some v \/
    exists n, (w_tick w <= n < w_tick w')%nat /\ P n j v.

Lemma wrote_refl P w : wrote P w w.
Proof. split; [done|]. auto. Qed.
Lemma wrote_trans P w1 w2 w3 : wrote P w1 w2 -> wrote P w2 w3 -> wrote P w1 w3.
Proof.
  intros [T1 H1] [T2 H2]. split; [lia|]. intros j v [Hv|(n & Hn & Hp)]%H2.
  - apply H1 in Hv as [Hv|(n & Hn & Hp)]; [auto|]. right. exists n. split; [lia|done].
  - right. exists n. split; [lia|done].
Qed.
Lemma wrote_mono P Q w w' : (forall n j v, P n j v -> Q n j v) -> wrote P w w' -> wrote Q w w'.
Proof. intros HPQ [T Hw]. split; [done|]. intros j v [|(n & Hn & Hp)]%Hw; eauto 6. Qed.
Lemma wrote_same P w w' : (w_tick w <= w_tick w')%nat ->
  kv (t_redis (w_db w')) = kv (t_redis (w_db w)) -> wrote P w w'.
Proof. intros Ht Hk. split; [done|]. unfold val. rewrite Hk. auto. Qed.

Lemma wrote_rel P : WorldRel (wrote P).
Proof. split; [apply wrote_refl|apply wrote_trans|]. intros w w' [Ht Hk]. by apply wrote_same. Qed.
#[local] Hint Resolve wrote_rel : steps.

(** ** Redis commands *)
Lemma writes_command P {A} (f : Z -> rsrv -> res (A * rsrv)) :
  (forall t r a r' j v, f t r = Ok (a, r') -> fst <$> kv r' !! j = Some v ->
     fst <$> kv r !! j = Some v \/ forall n, P n j v) ->
  does (wrote P) (command f : M DB A).
Proof.
  intros Hf w. unfold command, bind, now, fault, get_db. simpl.
  destruct (env_fault _); [apply wrote_same; simpl; [lia|done]|].
  destruct (f _ _) as [[a r']|e] eqn:Hr; [|apply wrote_same; simpl; [lia|done]].
  split; [simpl; lia|]. unfold val. simpl. intros j v Hv.
  destruct (Hf _ _ _ _ _ _ Hr Hv) as [|Hp]; [auto|]. right. exists (w_tick w). split; [lia|apply Hp].
Qed.

Lemma writes_Set P k v ttl : (forall n, P n k v) -> does (wrote P) (Set_ k v ttl : M DB _).
Proof.
  intros HP. apply writes_command. intros t r a r' j x [= _ <-] Hx.
  destruct (kv _ !! j) as [y|] eqn:Hj; [|done]. apply srv_set_spec in Hj as [[-> ->]|[_ Hj]].
  - simpl in Hx. simplify_eq. auto.
  - rewrite Hj. auto.
Qed.
Lemma writes_Del P k : does (wrote P) (Del k : M DB _).
Proof.
  apply writes_command. intros t r a r' j x [= _ <-] Hx.
  destruct (kv _ !! j) as [y|] eqn:Hj; [|done]. apply srv_del_spec in Hj as [_ Hj]. rewrite Hj. auto.
Qed.
Lemma writes_Incr P k : (forall n v, P n k v) -> does (wrote P) (Incr k : M DB _).
Proof.
  intros HP. apply writes_command. intros t r a r' j x Hr Hx. destruct (srv_incr t k r) as [[a' r1]|] eqn:Hi; [|done].
  simplify_eq. destruct (kv _ !! j) as [y|] eqn:Hj; [|done].
  eapply srv_incr_spec in Hj as [[_ Hj]|[-> _]]; [|auto|exact Hi]. rewrite Hj. auto.
Qed.
Lemma writes_Expire P k ttl : does (wrote P) (Expire k ttl : M DB _).
Proof.
  apply writes_command. intros t r a r' j x [= _ <-] Hx.
  destruct (kv _ !! j) as [y|] eqn:Hj; [|done]. apply srv_expire_spec in Hj as [[_ Hj]|[-> (e & Hj & _)]]; rewrite Hj; auto.
Qed.

Lemma wp_wrote P w0 w {A} (m : M DB A) (Q : res A -> World DB -> Prop) :
  wrote P w0 w -> does (wrote P) m -> (forall r w', wrote P w0 w' -> Q r w') -> wp m Q w.
Proof. intros Hw Hm HQ. unfold wp. apply HQ. eapply wrote_trans; [exact Hw|apply Hm]. Qed.

(** A value with an id drawn since [w0]. *)
Lemma wp_Set_since P w0 w k v ttl (Q : res unit -> World DB -> Prop) :
  wrote P w0 w -> (exists n, (w_tick w0 <= n < w_tick w)%nat /\ P n k v) ->
  (forall r w', wrote P w0 w' -> (w_tick w <= w_tick w')%nat -> Q r w') -> wp (Set_ k v ttl) Q w.
Proof.
  intros Hw (n & Hn & Hp) HQ. unfold wp.
  assert (does (wrote (fun _ j x => j = k /\ x = v)) (Set_ k v ttl : M DB unit)) as Hs by by apply writes_Set.
  destruct Hw as [T1 H1], (Hs w) as [T2 H2]. apply HQ; [|done]. split; [lia|]. intros j x [Hx|(m & Hm & -> & ->)]%H2.
  - apply H1 in Hx as [Hx|(m & Hm & Hx)]; [auto|]. right. exists m. split; [lia|done].
  - right. exists n. split; [lia|done].
Qed.

Lemma wrote_bump P w0 w : wrote P w0 w -> wrote P w0 (bump w).
Proof. intros Hw. eapply wrote_trans; [exact Hw|]. apply wrote_same; simpl; [lia|done]. Qed.

(** ** Token pairs *)

(** [GenerateTokenPair] may store the session it is given. *)
Definition put_given (u : AdminJwt.TokenUser) (n : nat) (j v : string) : Prop :=
  put n j v \/ v = GoStr.TrimSpace (AdminJwt.atu_SessionID u) /\ v <> ""%string /\
    j = RedisKey.AdminSession (AdminJwt.atu_AdminID u).

Lemma admin_pair_wrote h u w0 w (Q : res (string * string) -> World DB -> Prop) :
  keyed_admin K h ->
  wrote (put_given u) w0 w -> (forall r w', wrote (put_given u) w0 w' -> Q r w') ->
  wp (AdminJwt.GenerateTokenPair h (Some u)) Q w.
Proof.
  intros (cf & HK & Hcf) Hw HQ. unfold AdminJwt.GenerateTokenPair. apply wp_if; intros Hu; [by apply wp_throw, HQ|].
  apply wp_bind.
  assert (wp (if String.eqb (GoStr.TrimSpace (AdminJwt.atu_SessionID u)) "" then let! id := Generate in ret (GoStr.FormatInt id)
    else ret (GoStr.TrimSpace (AdminJwt.atu_SessionID u)))
    (fun r w' => wrote (put_given u) w0 w' /\ exists sid n, r = Ok sid /\ (w_tick w0 <= n <= w_tick w')%nat /\
        put_given u n (RedisKey.AdminSession (AdminJwt.atu_AdminID u)) sid) w) as Hsid.
  { pose proof (proj1 Hw). apply wp_if; intros Hb; repeat wp_step.
    - split; [by apply wrote_bump|]. eexists _, (w_tick w). split; [done|]. split; [simpl; lia|]. left. constructor.
    - split; [done|]. eexists _, (w_tick w). split; [done|]. split; [lia|]. right. by apply String.eqb_neq in Hb. }
  eapply wp_mono; [exact Hsid|]. intros r w1 (Hw1 & sid & n & -> & Hn & Hput). cbv beta iota. clear Hsid.
  do 2 (apply wp_bind; wp_step). apply wp_bind, wp_map_err, wp_of_res.
  match goal with |- context [SignedString ?k ?c] => destruct (SignedString k c) as [token|e] eqn:Htok end;
    [|by apply HQ, wrote_bump, wrote_bump].
  cbv beta iota. apply wp_bind. wp_step. apply wp_bind, wp_map_err, wp_of_res.
  match goal with |- context [SignedString ?k ?c] => destruct (SignedString k c) as [refreshToken|e] eqn:Href end;
    [|by apply HQ, wrote_bump, wrote_bump, wrote_bump].
  cbv beta iota. set (w3 := bump (bump (bump w1))) in *.
  assert (wrote (put_given u) w0 w3) as Hw3 by by do 3 apply wrote_bump.
  assert (w_tick w3 = 3 + w_tick w1)%nat as Ht by done. clearbody w3.
  destruct h as [cfg_h rds_h]. cbn [AdminJwt.cfg AdminJwt.rds] in *. subst cfg_h. bools.
  assert (admin_access (S (w_tick w1)) (AdminJwt.acfg_Secret (cfg_AdminJWT cf))
    (AdminJwt.access_claims (AdminJwt.mkHelper (cfg_AdminJWT cf) rds_h) u sid (env_now (w_tick w1)) (env_id (S (w_tick w1)))))
    as Hacc by by exists cf, u, sid, (w_tick w1).
  apply wp_bind. destruct rds_h; [|by repeat wp_step; apply HQ].
  apply wp_bind, wp_map_err. eapply wp_Set_since; [exact Hw3| |].
  { exists (S (w_tick w1)). split; [lia|]. left. by eapply put_admin_token. }
  intros [[]|e] w4 Hw4 Ht4; cbv beta iota; [|by apply HQ].
  apply wp_bind, wp_map_err. eapply wp_Set_since; [exact Hw4| |].
  { exists (S (S (w_tick w1))). split; [lia|]. left. eapply put_admin_refresh; [|exact Href]. by eexists cf, _, (w_tick w1). }
  intros [[]|e] w5 Hw5 Ht5; cbv beta iota; [|by apply HQ].
  apply wp_map_err. eapply wp_Set_since; [exact Hw5|exists n; split; [lia|exact Hput]|].
  intros [[]|e] w6 Hw6 _; cbv beta iota; [|by apply HQ]. by apply wp_ret, HQ.
Qed.

Lemma user_pair_wrote h u : keyed_user K h -> does (wrote put) (JwtUtil.GenerateTokenPair h u).
Proof.
  intros (cf & HK & Hcf) w0. change (wp (JwtUtil.GenerateTokenPair h u) (fun _ w' => wrote put w0 w') w0).
  pose proof (wrote_refl put w0) as H0. destruct u as [u|]; [|done]. unfold JwtUtil.GenerateTokenPair.
  apply wp_if; intros Hu; [done|]. do 2 (apply wp_bind; wp_step). apply wp_bind, wp_map_err, wp_of_res.
  match goal with |- context [SignedString ?k ?c] => destruct (SignedString k c) as [token|e] eqn:Htok end;
    [|by apply wrote_bump, wrote_bump].
  cbv beta iota. apply wp_bind. wp_step. apply wp_bind, wp_map_err, wp_of_res.
  match goal with |- context [SignedString ?k ?c] => destruct (SignedString k c) as [refreshToken|e] eqn:Href end;
    [|by apply wrote_bump, wrote_bump, wrote_bump].
  cbv beta iota. set (w3 := bump (bump (bump w0))) in *.
  assert (wrote put w0 w3) as Hw3 by by do 3 apply wrote_bump.
  assert (w_tick w3 = 3 + w_tick w0)%nat as Ht by done. clearbody w3.
  destruct h as [cfg_h rds_h]. cbn [JwtUtil.cfg JwtUtil.rds] in *. subst cfg_h. bools.
  assert (user_access (S (w_tick w0)) (JwtUtil.ucfg_Secret (cfg_JWT cf))
    (JwtUtil.access_claims (JwtUtil.mkHelper (cfg_JWT cf) rds_h) u (env_now (w_tick w0)) (env_id (S (w_tick w0)))))
    as Hacc by by exists cf, u, (w_tick w0).
  apply wp_bind. destruct rds_h; [|done].
  apply wp_bind, wp_map_err. eapply wp_Set_since; [exact Hw3| |].
  { exists (S (w_tick w0)). split; [lia|]. by eapply put_token. }
  intros [[]|e] w4 Hw4 Ht4; cbv beta iota; [|done].
  apply wp_map_err. eapply wp_Set_since; [exact Hw4| |].
  { exists (S (S (w_tick w0))). split; [lia|]. eapply put_refresh; [|exact Href]. by eexists cf, _, (w_tick w0). }
  by intros [[]|e] w5 Hw5 Ht5.
Qed.

(** A login always opens a fresh session. *)
Lemma login_pair_wrote h a : keyed_admin K h -> does (wrote put) (AdminJwt.GenerateTokenPair h (buildAdminAuthTokenUser a)).
Proof.
  intros Hh. unfold buildAdminAuthTokenUser. destruct (_ || _); [apply does_throw, wrote_rel|]. intros w.
  set (u := AdminJwt.mkTokenUser _ _ _ _ _).
  change (wp (AdminJwt.GenerateTokenPair h (Some u)) (fun _ w' => wrote put w w') w).
  eapply admin_pair_wrote; [exact Hh|apply wrote_refl|]. intros _ w' Hw. eapply wrote_mono; [|exact Hw].
  intros n j v [|(-> & Hne & _)]; [done|]. by exfalso.
Qed.

Lemma put_tokens : TokenRel K (wrote put).
Proof.
  split.
  - apply user_pair_wrote.
  - apply login_pair_wrote.
  - intros d ttl. apply writes_Set. intros n. constructor.
  - intros id. apply writes_Del.
Qed.
Lemma put_login u : LoginRel (wrote put) u.
Proof.
  split.
  - apply writes_Incr. intros n v. constructor.
  - intros ttl. apply writes_Expire.
  - intros v ttl. apply writes_Set. intros n. constructor.
  - apply writes_Del.
Qed.

(** ** Accepted tokens *)
Definition still w w' : Prop := w_db w' = w_db w /\ (w_tick w <= w_tick w')%nat.
Lemma still_refl w : still w w.
Proof. done. Qed.
Lemma still_trans w1 w2 w3 : still w1 w2 -> still w2 w3 -> still w1 w3.
Proof. intros [H1 T1] [H2 T2]. split; [congruence|lia]. Qed.
Lemma still_val w w' k : still w w' -> val w' k = val w k.
Proof. intros [H1 _]. unfold val. by rewrite H1. Qed.
Lemma still_wrote P w w' : still w w' -> wrote P w w'.
Proof. intros [H1 T]. apply wrote_same; [done|by rewrite H1]. Qed.

Lemma wp_Get k w (Q : res (option string) -> World DB -> Prop) :
  (forall r w', still w w' -> (forall v, r = Ok (Some v) -> val w k = Some v) -> Q r w') ->
  wp (Get k) Q w.
Proof.
  intros HQ. unfold Get, command. repeat wp_step. destruct (env_fault _); repeat wp_step.
  - apply HQ; [split; simpl; [done|lia]|done].
  - apply HQ; [split; simpl; [by destruct (w_db w)|lia]|]. intros v [= Hv].
    apply srv_get_spec in Hv as (e & Hk & _). unfold val. change (redis_of (w_db (bump (bump w)))) with (t_redis (w_db w)) in Hk.
    by rewrite Hk.
Qed.

(** What an accepted token of an administrator tells; [key] is the secret it is
    checked against. *)
Definition accepted (key : string) (kb : string -> string) (tok sub : string) (checkUsed : bool) w (c : AdminJwt.Claims) : Prop :=
  (exists v, val w (kb (sha1Hex tok)) = Some v /\ (checkUsed = true -> v <> RedisKey.TokenStatusUsed)) /\
  val w (RedisKey.AdminSession (AdminJwt.acl_AdminID c)) = Some (AdminJwt.acl_SessionID c) /\
  AdminJwt.acl_Subject c = sub /\ (0 < AdminJwt.acl_AdminID c)%Z /\
  exists n, (w_tick w <= n)%nat /\ ParseWithClaims key (env_now n) tok = Ok c.

Lemma wp_admin_Parse h tok w (Q : res AdminJwt.Claims -> World DB -> Prop) :
  (forall r w', still w w' -> (forall c, r = Ok c -> (0 < AdminJwt.acl_AdminID c)%Z /\
     exists n, (w_tick w <= n)%nat /\ ParseWithClaims (AdminJwt.acfg_Secret (AdminJwt.cfg h)) (env_now n) tok = Ok c) -> Q r w') ->
  wp (AdminJwt.Parse h tok) Q w.
Proof.
  intros HQ. unfold AdminJwt.Parse. repeat wp_step. assert (still w (bump w)) as Hw by (split; simpl; [done|lia]).
  destruct (ParseWithClaims _ _ _) as [c|e] eqn:Hp; [|by apply wp_throw, HQ].
  apply wp_if; intros Hb; [by apply wp_throw, HQ|]. apply wp_if; intros _; [by apply wp_throw, HQ|].
  apply wp_ret, HQ; [done|]. intros c' [= <-]. bools. eauto.
Qed.

Lemma wp_parseAndVerify h tok kb sub u client w (Q : res AdminJwt.Claims -> World DB -> Prop) :
  AdminJwt.redisClient h client = true ->
  (forall r w', still w w' -> (forall c, r = Ok c -> accepted (AdminJwt.acfg_Secret (AdminJwt.cfg h)) kb tok sub u w c) -> Q r w') ->
  wp (AdminJwt.parseAndVerify h tok kb sub u client) Q w.
Proof.
  intros Hcl HQ. unfold AdminJwt.parseAndVerify. rewrite Hcl.
  apply wp_if; intros _; [by apply wp_throw, HQ|]. apply wp_if; intros _; [by apply wp_throw, HQ|].
  apply wp_bind. unfold AdminJwt.check_status. apply wp_bind, wp_attempt, wp_Get. intros r w1 H1 Hv.
  cbv beta iota. destruct r as [[v|]|e]; try (by apply wp_throw, HQ). apply wp_if; intros Hu; [by apply wp_throw, HQ|].
  apply wp_ret, wp_bind, wp_admin_Parse. intros r w2 H2 Hc. pose proof (still_trans _ _ _ H1 H2) as H02.
  cbv beta iota. destruct r as [c|e]; [|by apply HQ]. destruct (Hc c eq_refl) as (Hid & n & Hn & Hp).
  apply wp_if; intros Hsub; [by apply wp_throw, HQ|]. apply wp_bind. unfold AdminJwt.check_session.
  apply wp_bind, wp_attempt, wp_Get. intros r w3 H3 Hsid. pose proof (still_trans _ _ _ H02 H3) as H03.
  cbv beta iota. destruct r as [[sid|]|e]; try (by apply wp_throw, HQ). apply wp_if; intros Heq; [|by apply wp_throw, HQ].
  apply wp_ret, wp_ret, HQ; [done|]. intros c' [= <-].
  apply negb_false_iff, String.eqb_eq in Hsub. apply String.eqb_eq in Heq. subst sid.
  split; [exists v; split; [by apply Hv|]; intros -> ->; simpl in Hu; done|].
  split; [by rewrite <- (still_val _ _ _ H02), (Hsid _ eq_refl)|]. split; [done|]. split; [done|].
  exists n. split; [|done]. destruct H1. lia.
Qed.

(** ** The invariant of the keys *)
Definition refresh_ok (t : nat) {T} {J : Jwt T} (G : nat -> string -> T -> Prop) (d v : string) : Prop :=
  v = RedisKey.TokenStatusUsed \/ v = RedisKey.TokenStatusOK /\ signed G t d.

Record issued w : Prop := {
  issued_session : forall id v, val w (RedisKey.AdminSession id) = Some v ->
    exists n, (n < w_tick w)%nat /\ v = GoStr.FormatInt (env_id n);
  issued_admin : forall d v, val w (RedisKey.AdminRefreshToken d) = Some v ->
    refresh_ok (w_tick w) admin_refresh d v;
  issued_user : forall d v, val w (RedisKey.RefreshToken d) = Some v ->
    refresh_ok (w_tick w) user_refresh d v;
  issued_access : forall d v, val w (RedisKey.AdminToken d) = Some v -> signed admin_access (w_tick w) d;
  issued_token : forall d v, val w (RedisKey.Token d) = Some v -> signed user_access (w_tick w) d;
}.

Lemma refresh_ok_mono t t' {T} {J : Jwt T} G d v : (t <= t')%nat -> refresh_ok t G d v -> refresh_ok t' G d v.
Proof. intros Ht [|(-> & n & k & c & tok & ? & ?)]; [by left|]. right. split; [done|]. exists n, k, c, tok. split; [lia|done]. Qed.

Lemma put_session_inv n id v : put n (RedisKey.AdminSession id) v -> v = GoStr.FormatInt (env_id n).
Proof. inversion 1; by simplify_eq/=. Qed.
Lemma put_admin_refresh_inv n d v : put n (RedisKey.AdminRefreshToken d) v -> refresh_ok (S n) admin_refresh d v.
Proof.
  inversion 1; simplify_eq/=; [|by left]. right. split; [done|].
  match goal with Hs : SignedString ?k ?c = Ok ?tok |- _ => exists n, k, c, tok end. split; [lia|done].
Qed.
Lemma put_refresh_inv n d v : put n (RedisKey.RefreshToken d) v -> refresh_ok (S n) user_refresh d v.
Proof.
  inversion 1; simplify_eq/=; [|by left]. right. split; [done|].
  match goal with Hs : SignedString ?k ?c = Ok ?tok |- _ => exists n, k, c, tok end. split; [lia|done].
Qed.

Lemma put_admin_token_inv n d v : put n (RedisKey.AdminToken d) v -> signed admin_access (S n) d.
Proof.
  inversion 1; simplify_eq/=.
  match goal with Hs : SignedString ?k ?c = Ok ?tok |- _ => exists n, k, c, tok end. split; [lia|done].
Qed.
Lemma put_token_inv n d v : put n (RedisKey.Token d) v -> signed user_access (S n) d.
Proof.
  inversion 1; simplify_eq/=.
  match goal with Hs : SignedString ?k ?c = Ok ?tok |- _ => exists n, k, c, tok end. split; [lia|done].
Qed.
Lemma signed_mono t t' {T} {J : Jwt T} G d : (t <= t')%nat -> signed G t d -> signed G t' d.
Proof. intros Ht (n & k & c & tok & ? & ?). exists n, k, c, tok. split; [lia|done]. Qed.

Lemma issued_wrote w w' : issued w -> wrote put w w' -> issued w'.
Proof.
  intros [I1 I2 I3 I4 I5] [T Hw]. split.
  - intros id v [Hv|(n & Hn & ->%put_session_inv)]%Hw; [|exists n; split; [lia|done]].
    destruct (I1 _ _ Hv) as (n & ? & ?). exists n. split; [lia|done].
  - intros d v [Hv|(n & Hn & Hp%put_admin_refresh_inv)]%Hw;
      [eapply (refresh_ok_mono (w_tick w)); [lia|eauto]|eapply (refresh_ok_mono (S n)); [lia|eauto]].
  - intros d v [Hv|(n & Hn & Hp%put_refresh_inv)]%Hw;
      [eapply (refresh_ok_mono (w_tick w)); [lia|eauto]|eapply (refresh_ok_mono (S n)); [lia|eauto]].
  - intros d v [Hv|(n & Hn & Hp%put_admin_token_inv)]%Hw; eapply signed_mono; [|by eauto| |exact Hp]; lia.
  - intros d v [Hv|(n & Hn & Hp%put_token_inv)]%Hw; eapply signed_mono; [|by eauto| |exact Hp]; lia.
Qed.

(** ** Renewing a session *)
Lemma wp_first T {HE : Entity T} {HT : Tbl DB State T HE _} q w (Q : res T -> World DB -> Prop) :
  (forall r w', still w w' -> (forall x, r = Ok x -> q x = true /\ exists k, aget (abs (w_db w)) !! k = Some x) -> Q r w') ->
  wp (first T q) Q w.
Proof.
  intros HQ. unfold first. apply wp_bind. unfold find, stmt. repeat wp_step.
  assert (still w (bump w)) as Hw by (split; simpl; [done|lia]).
  destruct (env_fault _); repeat wp_step; [by apply HQ|].
  destruct (order_by ent_id _) as [|x l] eqn:Ho; [by apply wp_throw, HQ|]. apply wp_ret, HQ; [done|].
  intros y [= <-]. assert (x ∈ sel q (tget (w_db w))) as Hx.
  { rewrite <- (order_by_perm ent_id). simpl in Ho. rewrite Ho. left. }
  rewrite (sel_spec T HE) in Hx. apply list_elem_of_fmap in Hx as ([k y] & -> & Hx).
  apply elem_of_map_to_list, lookup_matching in Hx as [Hk Hq]. split; [done|]. exists k. by rewrite abs_get.
Qed.

Lemma wp_FindAdminByID id w (Q : res (option Admin) -> World DB -> Prop) :
  (forall r w', still w w' -> (forall a, r = Ok (Some a) -> adm_ID a = id) -> Q r w') ->
  wp (FindAdminByID id) Q w.
Proof.
  intros HQ. unfold FindAdminByID. apply wp_if; intros _; [by apply wp_ret, HQ|].
  unfold first_or_nil, gormDB. repeat wp_step. apply wp_if; intros _; [by apply wp_throw, HQ|].
  apply wp_ret, wp_map_err. unfold or_nil. apply wp_bind, wp_attempt, wp_first. intros r w' Hw Hr.
  cbv beta iota. destruct r as [a|e].
  - apply wp_ret, HQ; [done|]. intros a' [= <-]. destruct (Hr a eq_refl) as [Hq _]. by bools.
  - apply wp_if; intros _; [by apply wp_ret, HQ|by apply wp_throw, HQ].
Qed.

Lemma AdminRefreshToken_wrote s tok w : configured K s -> issued w -> wrote put w (AdminRefreshToken s tok w).2.
Proof.
  intros HK HI. change (wp (AdminRefreshToken s tok) (fun _ w' => wrote put w w') w).
  pose proof (wrote_refl put w) as H0. unfold AdminRefreshToken. apply wp_bind.
  destruct (adminJWT s) as [h|] eqn:Hh; [|done]. apply wp_ret. apply wp_if; intros Hred; [done|].
  apply negb_false_iff in Hred. apply wp_bind, wp_map_err. unfold AdminJwt.ParseAndVerifyRefresh.
  apply wp_parseAndVerify; [by rewrite Hred|]. intros r w1 H1 Hr. pose proof (still_wrote put _ _ H1) as W1.
  cbv beta iota. destruct r as [c|e]; [|done]. destruct (Hr c eq_refl) as (_ & Hsid & _).
  destruct (issued_session _ HI _ _ Hsid) as (n0 & Hn0 & En0).
  apply wp_bind, wp_map_err. eapply wp_wrote; [exact W1| |].
  { apply does_ConsumeRefreshToken; [apply wrote_rel|]. intros d ttl. apply writes_Set. intros n. constructor. }
  intros [[]|e] w2 W2; cbv beta iota; [|done]. apply wp_bind. unfold internal. apply wp_map_err, wp_FindAdminByID.
  intros r w3 H3 Ha. assert (wrote put w w3) as W3 by (eapply wrote_trans; [exact W2|by apply still_wrote]).
  cbv beta iota. destruct r as [[a|]|e]; [|by repeat wp_step|done]. pose proof (Ha a eq_refl) as Hid. apply wp_bind.
  apply wp_if; intros _; [done|]. apply wp_ret, wp_bind. eapply wp_wrote; [exact W3|auto with steps|].
  intros [u|e] w4 W4; cbv beta iota; [|done]. apply wp_bind. destruct u; [|done]. apply wp_ret, wp_bind.
  unfold buildAdminAuthTokenUser. destruct (_ || _); [done|]. apply wp_ret. simpl.
  set (u' := AdminJwt.mkTokenUser _ _ _ _ _). apply wp_map_err.
  eapply wp_mono; [apply (admin_pair_wrote h u' w4 w4 (fun _ w' => wrote (put_given u') w4 w')); [by eapply keyed_adminJWT|apply wrote_refl|done]|].
  intros r w5 [T5 W5]. assert (wrote put w w5) as W; [|by destruct r].
  destruct W4 as [T4 W4]. split; [lia|]. intros j v [Hv|(n & Hn & [Hp|(-> & _ & ->)])]%W5.
  - apply W4 in Hv as [|(n & ? & ?)]; [by left|]. right. exists n. split; [lia|done].
  - right. exists n. split; [lia|done].
  - left. simpl. rewrite En0, GoStr.TrimSpace_FormatInt, Hid, Hsid. by rewrite En0.
Qed.

(** ** Requests and histories *)
Lemma serve_wrote s q w : honest s -> configured K s -> issued w -> wrote put w (serve s q w).2.
Proof.
  intros Hs HK HI. destruct q as [| | | | | | | | token | | | | | | | | |].
  9: { cbn [serve]. pose proof (AdminRefreshToken_wrote s token w HK HI) as Hw. revert Hw. unfold unit_of, bind, ret.
       by destruct (AdminRefreshToken s token w) as [[] ?]. }
  all: apply (serve_does _ (wrote_rel put) K put_tokens s Hs HK); cbn [allows]; try apply put_login; done.
Qed.

(** One request of some honest service configured within [K], or anything that leaves
    the server alone; such steps one after another. *)
Definition served_under w w' : Prop :=
  later w w' \/ exists s q, honest s /\ configured K s /\ w' = (serve s q w).2.
Definition session_history_under w : Prop := exists w0, kv (t_redis (w_db w0)) = ∅ /\ rtc served_under w0 w.

Lemma issued_empty w : kv (t_redis (w_db w)) = ∅ -> issued w.
Proof. intros Hk. split; unfold val; rewrite Hk; intros ? ?; by rewrite lookup_empty. Qed.

Lemma serveds_wrote w w' : issued w -> rtc served_under w w' -> wrote put w w' /\ issued w'.
Proof.
  intros HI Hr. induction Hr as [w|w w1 w2 Hstep _ IH]; [split; [apply wrote_refl|done]|].
  assert (wrote put w w1) as Hw.
  { destruct Hstep as [Hl|(s & q & Hs & HK & ->)]; [by apply wrote_rel|by apply serve_wrote]. }
  pose proof (issued_wrote _ _ HI Hw) as HI1.
  destruct (IH HI1) as [Hw2 HI2]. split; [by eapply wrote_trans|done].
Qed.
Lemma session_history_issued w : session_history_under w -> issued w.
Proof. intros (w0 & H0 & Hr). by apply (serveds_wrote w0); [apply issued_empty|]. Qed.

(** Two ids of the generator never print alike. *)
Definition ids_apart : Prop := forall n m, GoStr.FormatInt (env_id n) = GoStr.FormatInt (env_id m) -> n = m.
(** Tokens signed with different ids have different digests. *)
Definition tokens_apart {T} {J : Jwt T} (ID : T -> string) : Prop :=
  forall k k' c c' tok tok' n n', SignedString k c = Ok tok -> SignedString k' c' = Ok tok' ->
    ID c = GoStr.FormatInt (env_id n) -> ID c' = GoStr.FormatInt (env_id n') ->
    sha1Hex tok = sha1Hex tok' -> n = n'.

(** A run of concrete requests, for examples. *)
Definition run (s : Service C D R) (qs : list request) (w : World DB) : World DB :=
  fold_left (fun w q => (serve s q w).2) qs w.
Lemma user_run_under s qs w0 : honest s -> configured K s -> rtc served_under w0 (run s qs w0).
Proof.
  intros Hs HK. revert w0. induction qs as [|q qs IH]; intros w0; simpl; [apply rtc_refl|].
  eapply rtc_l; [|apply IH]. right. by exists s, q.
Qed.
End env.

(** Whatever the configurations of the services. *)
Section any.
Context {E : Env}.
Definition any_config (cf : Config) : Prop := True.
Definition served : World DB -> World DB -> Prop := served_under any_config.
Definition session_history : World DB -> Prop := session_history_under any_config.
Lemma user_run_served s qs w0 : honest s -> rtc served w0 (run s qs w0).
Proof. intros Hs. by apply user_run_under. Qed.
End any.
End safe.

#[export] Hint Resolve wrote_rel : steps.
End UserSafe.
