(* ===== verification/SessionProps.v ===== *)
(** * User: tokens and sessions

    What the token helpers and the user service promise together, over any sequence
    of requests of the service, with any failures and evictions of the Redis server:
    a refresh token is good once, and a closed session of an administrator stays
    closed. *)
From Stdlib Require Import Ascii.
From S2P Require Import Prelude GoTime GoMonad GoCrypto Sql Safe RedisStr Token AdminJwt JwtUtil GoString.
From S2P Require Import UserModel UserRepo UserService UserSafe.

(** ** User: a concrete run

    Instances of the parameters: tokens that spell out their claims, a digest that
    keeps the token, toy password hashes, and the engines in memory, with a service
    whose only administrator logs in, refreshes and logs out. *)

Module UserDemo.
Import Users UserRepo UserService UserSteps UserSafe.

(** ** A digest without collisions *)
#[export] Instance demo_sha1 : Sha1 := {| sha1_Sum := GoStr.bytes |}.

Definition hex_val (d : Z) : Z := if (d <? 58)%Z then (d - 48)%Z else (d - 87)%Z.
Fixpoint unhex_bytes (l : list Z) : list Z :=
  match l with a :: b :: l' => (hex_val a * 16 + hex_val b)%Z :: unhex_bytes l' | _ => [] end.
Definition unhex (s : string) : string := GoStr.of_bytes (unhex_bytes (GoStr.bytes s)).

Lemma unhex_bytes_hex l : Forall GoBase64.byte l ->
  unhex_bytes (flat_map (fun b => [GoHash.hex_digit (b / 16); GoHash.hex_digit (b mod 16)]) l) = l.
Proof.
  assert (forall d, (0 <= d < 16)%Z -> hex_val (GoHash.hex_digit d) = d) as Hd.
  { intros d Hd. unfold hex_val, GoHash.hex_digit. repeat case_bool; bools; lia. }
  induction 1 as [|b l Hb _ IH]; [done|]. simpl. unfold GoBase64.byte in Hb.
  pose proof (Z.mod_pos_bound b 16 ltac:(lia)). pose proof (Z.div_mod b 16 ltac:(lia)).
  assert (0 <= b / 16 < 16)%Z by (apply GoBase64.div_small; lia). rewrite IH, !Hd by done. f_equal. lia.
Qed.
Lemma unhex_Encode s : unhex (GoHash.EncodeToString (GoStr.bytes s)) = s.
Proof.
  unfold unhex, GoHash.EncodeToString. assert (Forall GoBase64.byte (GoStr.bytes s)) as Hs.
  { unfold GoStr.bytes. apply Forall_fmap, Forall_true. intros c. unfold GoBase64.byte, GoStr.byte. simpl.
    pose proof (N_ascii_bounded c). lia. }
  rewrite GoBase64.bytes_of_list, unhex_bytes_hex by done || (revert Hs; generalize (GoStr.bytes s) as l; intros l;
    induction 1 as [|b l Hb _ IH]; [constructor|]; simpl; unfold GoBase64.byte in *; unfold GoHash.hex_digit;
    pose proof (Z.mod_pos_bound b 16 ltac:(lia)); assert (0 <= b / 16 < 16)%Z by (apply GoBase64.div_small; lia);
    constructor; [repeat case_bool; lia|constructor; [repeat case_bool; lia|exact IH]]).
  apply GoStr.bytes_of_bytes.
Qed.
Lemma demo_sha1_inj a b : sha1Hex a = sha1Hex b -> a = b.
Proof. intros Hab. rewrite <- (unhex_Encode a), <- (unhex_Encode b). f_equal. exact Hab. Qed.

(** ** Tokens that spell out their claims *)
Definition text (s : string) : string := GoHash.EncodeToString (GoStr.bytes s).
Definition number (z : Z) : string := text (GoStr.FormatInt z).
Definition fields (l : list string) : string := String.concat "-" l.
Definition demo_token (ID : string) (l : list string) (key : string) : string :=
  ID ++ String "." (fields l ++ String "." (text key)).

Definition unnumber (s : string) : Z := default 0%Z (GoStr.ParseInt (unhex s)).
Definition admin_claims_of (token : string) : option (AdminJwt.Claims * string) :=
  match GoStr.Split "."%char token with
  | [ID; payload; key] =>
    match GoStr.Split "-"%char payload with
    | [a; u; n; p; s; i; b; e; t] =>
      Some (AdminJwt.mkClaims (unnumber a) (unnumber u) (unhex n) (unnumber p) (unhex s) (unhex i) (unhex b)
              (unnumber e) (unnumber t) ID, unhex key)
    | _ => None
    end
  | _ => None
  end.
Definition user_claims_of (token : string) : option (JwtUtil.Claims * string) :=
  match GoStr.Split "."%char token with
  | [ID; payload; key] =>
    match GoStr.Split "-"%char payload with
    | [u; o; p; a; r; i; e; t] =>
      Some (JwtUtil.mkClaims (unnumber u) (unhex o) (unnumber p) (unhex a) (unnumber r) (unhex i)
              (unnumber e) (unnumber t) ID, unhex key)
    | _ => None
    end
  | _ => None
  end.
Definition checked {T} (exp : T -> Z) (x : option (T * string)) (key : string) (t : Z) : res T :=
  match x with
  | Some (c, k) =>
    if negb (String.eqb k key) then Err (ENew "signature is invalid")
    else if (exp c <=? t)%Z then Err (ENew "token is expired") else Ok c
  | None => Err (ENew "token is malformed")
  end.
Lemma checked_claims {T} (exp : T -> Z) x k t c : checked exp x k t = Ok c -> fst <$> x = Some c.
Proof. destruct x as [[c' k']|]; [|done]. simpl. repeat (case_bool; [done|]). by intros [= ->]. Qed.

#[export, refine] Instance demo_admin_jwt : Jwt AdminJwt.Claims := {|
  SignedString key c := Ok (demo_token (AdminJwt.acl_ID c)
    [number (AdminJwt.acl_AdminID c); number (AdminJwt.acl_UserID c); text (AdminJwt.acl_Username c);
     number (AdminJwt.acl_Power c); text (AdminJwt.acl_SessionID c); text (AdminJwt.acl_Issuer c);
     text (AdminJwt.acl_Subject c); number (AdminJwt.acl_ExpiresAt c); number (AdminJwt.acl_IssuedAt c)] key);
  ParseWithClaims key t token := checked AdminJwt.acl_ExpiresAt (admin_claims_of token) key t;
|}.
Proof. intros k t k' t' token c c' Hc%checked_claims Hc'%checked_claims. rewrite Hc in Hc'. by injection Hc'. Defined.
#[export, refine] Instance demo_user_jwt : Jwt JwtUtil.Claims := {|
  SignedString key c := Ok (demo_token (JwtUtil.ucl_ID c)
    [number (JwtUtil.ucl_UserID c); text (JwtUtil.ucl_OpenID c); number (JwtUtil.ucl_Power c);
     text (JwtUtil.ucl_AccountType c); number (JwtUtil.ucl_RootUserID c); text (JwtUtil.ucl_Issuer c);
     number (JwtUtil.ucl_ExpiresAt c); number (JwtUtil.ucl_IssuedAt c)] key);
  ParseWithClaims key t token := checked JwtUtil.ucl_ExpiresAt (user_claims_of token) key t;
|}.
Proof. intros k t k' t' token c c' Hc%checked_claims Hc'%checked_claims. rewrite Hc in Hc'. by injection Hc'. Defined.

Lemma demo_token_ID ID ID' l l' k k' : GoStr.free "."%char ID = true -> GoStr.free "."%char ID' = true ->
  demo_token ID l k = demo_token ID' l' k' -> ID = ID'.
Proof.
  unfold demo_token. intros H1 H2 He. apply (f_equal (GoStr.Split "."%char)) in He.
  rewrite (GoStr.Split_app _ ID), (GoStr.Split_app _ ID') in He by done. by injection He.
Qed.

(** ** The other parameters *)
#[export] Instance demo_bcrypt : Bcrypt := {|
  bcrypt_Generate _ password := Ok ("$2" ++ password)%string;
  bcrypt_Compare hash password := String.eqb hash ("$2" ++ password);
|}.
#[export, refine] Instance demo_rand : MathRand := {| Intn seed n := (seed mod n)%Z |}.
Proof. intros seed n Hn. by apply Z.mod_pos_bound. Defined.

Definition top_id {R} (m : gmap Z R) : Z := foldr Z.max 0%Z (map_to_list m).*1.
Lemma top_id_bound {R} (m : gmap Z R) k r : m !! k = Some r -> (k <= top_id m)%Z.
Proof.
  intros Hk%elem_of_map_to_list. unfold top_id. induction (map_to_list m) as [|[k' r'] l IH].
  - by apply not_elem_of_nil in Hk.
  - rewrite fmap_cons. cbn [foldr fst]. apply elem_of_cons in Hk as [[= -> ->]|Hk]; [lia|]. apply IH in Hk. lia.
Qed.
Lemma top_id_nonneg {R} (m : gmap Z R) : (0 <= top_id m)%Z.
Proof. unfold top_id. induction ((map_to_list m).*1) as [|k l IH]; cbn [foldr]; lia. Qed.
#[export, refine] Instance demo_auto : AutoIncrement gmap_sql := {| next_id R HE t := (1 + top_id (view t))%Z |}.
Proof.
  - intros R HE t. pose proof (top_id_nonneg (view t)). lia.
  - intros R HE t. destruct (view t !! _) as [r|] eqn:Hk; [|done]. apply top_id_bound in Hk. lia.
Defined.

(** The clock advances one second per step from 2023-11-14 22:13:20 UTC; ids are
    drawn from 1000 on. *)
#[export] Instance demo_env : Env := {
  env_now t := (1700000000 * GoTime.Second + Z.of_nat t * GoTime.Second)%Z;
  env_id t := (1000 + Z.of_nat t)%Z;
  env_fault _ := false;
}.

Definition demo_config : Config :=
  mkConfig (JwtUtil.mkConfig "user-secret" 60 2880 "campus") (AdminJwt.mkConfig "admin-secret" 30 120 "campus-admin")
    "second" "pre" "" "" 15 "" "W0F7PePvolUJHmZtkv1MusWpwhpVJIJI".
Definition demo_service : Service bytewise gmap_sql gmap_server :=
  mkService true (Some demo_config) (Some (fun code => ret ("openid-" ++ code)%string)) None.

Lemma user_demo_honest : honest demo_service.
Proof. split; intros; simplify_eq/=. by intros w. Qed.

(** User 7 is administrator 1, with an MD5 password. *)
Definition admin_user : User :=
  {| zero_User with usr_ID := 7%Z; usr_OpenID := "openid-root"; usr_RootUserID := 7%Z; usr_AccountType := "base" |}.
Definition admin_row : Admin := mkAdmin 1 7 "root" (md5Hex "hunter2") 8.
Definition start_db : DB bytewise gmap_sql gmap_server :=
  {| db_nil := false; t_users := grows [admin_user]; t_admins := grows [admin_row]; t_redis := (∅ : rsrv) |}.
Definition w0 : World (DB bytewise gmap_sql gmap_server) := mkWorld start_db 0 [].

Lemma user_demo_history qs : session_history (run demo_service qs w0).
Proof. exists w0. split; [done|]. by apply user_run_served, user_demo_honest. Qed.

Lemma user_demo_under qs : session_history_under (eq demo_config) (run demo_service qs w0).
Proof. exists w0. split; [done|]. apply user_run_under; [apply user_demo_honest|]. by intros cf [= ->]. Qed.

Lemma demo_ids_apart : ids_apart.
Proof.
  intros n m Hnm%GoStr.FormatInt_injective. simpl in Hnm. lia.
Qed.
Lemma demo_apart n : GoStr.free "."%char (GoStr.FormatInt (env_id n)) = true.
Proof. apply GoStr.FormatInt_free; [done|by left]. Qed.
Lemma demo_admin_apart : tokens_apart AdminJwt.acl_ID.
Proof.
  intros k k' c c' tok tok' n n' [= <-] [= <-] H1 H2 He%demo_sha1_inj. apply demo_ids_apart.
  rewrite <- H1, <- H2. eapply demo_token_ID; [| |exact He]; [rewrite H1|rewrite H2]; apply demo_apart.
Qed.
Lemma demo_user_apart : tokens_apart JwtUtil.ucl_ID.
Proof.
  intros k k' c c' tok tok' n n' [= <-] [= <-] H1 H2 He%demo_sha1_inj. apply demo_ids_apart.
  rewrite <- H1, <- H2. eapply demo_token_ID; [| |exact He]; [rewrite H1|rewrite H2]; apply demo_apart.
Qed.

(** ** A login, a refresh and a logout *)
Definition login_req : AdminLoginReq := mkAdminLoginReq "root" "hunter2" "second".
Definition pair_of {X} (r : res (string * string * X)) : string * string :=
  match r with Ok x => x.1 | Err _ => ("", "") end.
Definition login_pair : string * string := Eval vm_compute in pair_of (AdminLogin demo_service login_req w0).1.
Definition login_token : string := login_pair.1.
Definition login_refresh : string := login_pair.2.
Definition at_login : World (DB bytewise gmap_sql gmap_server) := run demo_service [RAdminLogin login_req] w0.
Definition at_refreshed : World (DB bytewise gmap_sql gmap_server) :=
  (AdminRefreshToken demo_service login_refresh at_login).2.

Definition demo_helper : AdminJwt.Helper := AdminJwt.mkHelper (cfg_AdminJWT demo_config) true.
(** The claims of a token of an administrator. *)
Definition no_claims : AdminJwt.Claims := AdminJwt.mkClaims 0 0 "" 0 "" "" "" 0 0 "".
Definition claims_of (token : string) : AdminJwt.Claims :=
  match admin_claims_of token with Some (c, _) => c | None => no_claims end.
Definition login_claims : AdminJwt.Claims := Eval vm_compute in claims_of login_token.
Definition at_logout : World (DB bytewise gmap_sql gmap_server) :=
  (AdminLogout demo_service (Some login_claims) at_login).2.
(** The administrator logs in again. *)
Definition again_token : string := Eval vm_compute in (pair_of (AdminLogin demo_service login_req at_logout).1).1.
Definition again_claims : AdminJwt.Claims := Eval vm_compute in claims_of again_token.
Definition at_again : World (DB bytewise gmap_sql gmap_server) := run demo_service [RAdminLogin login_req] at_logout.

(** A user logs in with WeChat and refreshes. *)
Definition user_refresh : string :=
  Eval vm_compute in
    match (WechatLogin demo_service "abc" w0).1 with Ok (_, r, _, _, _) => r | Err _ => "" end.
Definition at_user_login : World (DB bytewise gmap_sql gmap_server) := run demo_service [RWechatLogin "abc"] w0.
Definition at_user_refreshed : World (DB bytewise gmap_sql gmap_server) :=
  (RefreshToken demo_service user_refresh at_user_login).2.

Lemma ran_ok {S A} (m : M S A) w : is_ok (m w).1 = true -> exists a, m w = (Ok a, (m w).2).
Proof. destruct (m w) as [[a|e] w']; [|done]. eauto. Qed.
End UserDemo.

Module SessionProps.
Import Safe Users UserRepo UserService UserSteps UserSafe.

Section lemmas.
Context {H : Sha1} {JA : Jwt AdminJwt.Claims} {JU : Jwt JwtUtil.Claims} {BC : Bcrypt} {MR : MathRand}.
Context {C : Collation} {D : SqlEngine} {AI : AutoIncrement D} {R : RedisServer} {E : Env}.
Notation DB := (DB C D R).
Implicit Types (w : World DB) (s : Service C D R).
Context (K : Config -> Prop).
Notation put := (UserSafe.put K).
Notation issued := (UserSafe.issued K).

(** ** Used refresh tokens *)
Definition unused (key : string) w : Prop := val w key = Some RedisKey.TokenStatusOK.

Lemma wp_Set_done k v ttl w (Q : res unit -> World DB -> Prop) :
  (forall w', (w_tick w <= w_tick w')%nat -> (forall x, val w' k = Some x -> x = v) -> Q (Ok tt) w') ->
  (forall e w', Q (Err e) w') -> wp (Set_ k v ttl) Q w.
Proof.
  intros H1 H2. unfold Set_, command. repeat wp_step. destruct (env_fault _); repeat wp_step; [apply H2|].
  apply H1; [simpl; lia|]. unfold val. simpl. intros x Hx.
  destruct (kv _ !! k) as [y|] eqn:Hk; [|done]. apply srv_set_spec in Hk as [[_ ->]|[]]; [|done]. by simplify_eq/=.
Qed.

(** The writes of a request, session renewals included. *)
Definition put_any (n : nat) (j v : string) : Prop := put n j v \/ exists id, j = RedisKey.AdminSession id.

Lemma writes_admin_pair h u : keyed_admin K h -> does (wrote put_any) (AdminJwt.GenerateTokenPair h u).
Proof.
  intros Hh. destruct u as [u|]; [|apply does_throw, wrote_rel]. intros w.
  change (wp (AdminJwt.GenerateTokenPair h (Some u)) (fun _ w' => wrote put_any w w') w).
  eapply admin_pair_wrote; [exact Hh|apply wrote_refl|]. intros _ w' Hw. eapply wrote_mono; [|exact Hw].
  intros n j v [|(_ & _ & ->)]; [by left|right; eauto].
Qed.
Lemma writes_user_pair h u : keyed_user K h -> does (wrote put_any) (JwtUtil.GenerateTokenPair h u).
Proof. intros Hh w. eapply wrote_mono; [|by apply (user_pair_wrote K)]. intros n j v. by left. Qed.
#[local] Hint Resolve writes_admin_pair writes_user_pair : steps.

(** The token was marked as used on the way, and was one the service signed. *)
Definition used_up {T} {J : Jwt T} (G : nat -> string -> T -> Prop) (key d : string) w w' : Prop :=
  signed G (w_tick w) d /\ exists w1, (w_tick w <= w_tick w1)%nat /\ ~ unused key w1 /\ wrote put_any w1 w'.

Lemma admin_refresh_uses s tok w : configured K s -> issued w ->
  wp (AdminRefreshToken s tok) (fun r w' => is_ok r = true ->
    used_up (admin_refresh K) (RedisKey.AdminRefreshToken (sha1Hex tok)) (sha1Hex tok) w w') w.
Proof.
  intros HK HI. unfold AdminRefreshToken. apply wp_bind. destruct (adminJWT s) as [h|] eqn:Hh; [|done]. apply wp_ret.
  apply (keyed_adminJWT K s HK) in Hh.
  apply wp_if; intros Hred; [done|]. apply negb_false_iff in Hred. apply wp_bind, wp_map_err.
  unfold AdminJwt.ParseAndVerifyRefresh. apply wp_parseAndVerify; [by rewrite Hred|]. intros r w1 H1 Hr.
  cbv beta iota. destruct r as [c|e]; [|done]. destruct (Hr c eq_refl) as ((v & Hv & Hnu) & _).
  assert (signed (admin_refresh K) (w_tick w) (sha1Hex tok)) as Hsig.
  { destruct (issued_admin _ _ HI _ _ Hv) as [->|[_ ?]]; [by exfalso; apply Hnu|done]. }
  apply wp_bind, wp_map_err. unfold AdminJwt.ConsumeRefreshToken. apply wp_if; intros _; [done|].
  apply wp_if; intros Hcl; [by rewrite Hred in Hcl|]. apply wp_bind, wp_map_err, wp_Get. intros r w2 H2 _. cbv beta iota.
  destruct r as [[v'|]|e]; [|done..]. apply wp_if; intros _; [done|]. apply wp_map_err, wp_Set_done; [|done].
  intros w3 T3 Hx. cbv beta iota. eapply (wp_wrote put_any w3); [apply wrote_refl| |].
  - unfold FindAdminByID. does_auto.
  - intros r w4 W4 _. split; [done|]. exists w3. destruct H1, H2. split; [lia|]. split; [|done].
    intros Hu. by apply Hx in Hu.
Qed.

Lemma user_refresh_uses s tok w : configured K s -> issued w ->
  wp (RefreshToken s tok) (fun r w' => is_ok r = true ->
    used_up (user_refresh K) (RedisKey.RefreshToken (sha1Hex tok)) (sha1Hex tok) w w') w.
Proof.
  intros HK HI. unfold RefreshToken. apply wp_bind. destruct (jwtHelper s) as [h|] eqn:Hh; [|done]. apply wp_ret.
  apply (keyed_jwtHelper K s HK) in Hh.
  apply wp_if; intros Hred; [done|]. apply wp_bind, wp_map_err, wp_Get. intros r w1 H1 Hv. cbv beta iota.
  destruct r as [[v|]|e]; [|done..]. apply wp_bind, wp_ret. apply wp_if; intros Hnu; [done|].
  assert (signed (user_refresh K) (w_tick w) (sha1Hex tok)) as Hsig.
  { destruct (issued_user _ _ HI _ _ (Hv v eq_refl)) as [->|[_ ?]]; [done|done]. }
  apply wp_bind, wp_map_err, wp_Set_done; [|done]. intros w3 T3 Hx. cbv beta iota.
  eapply (wp_wrote put_any w3); [apply wrote_refl|does_auto|].
  intros r w4 W4 _. split; [done|]. exists w3. destruct H1. split; [lia|]. split; [|done].
  intros Hu. by apply Hx in Hu.
Qed.

(** [key] only holds tokens that were signed when they were stored. *)
Definition holds_signed {T} {J : Jwt T} (G : nat -> string -> T -> Prop) (key : string -> string) : Prop :=
  forall n d, put_any n (key d) RedisKey.TokenStatusOK ->
    exists k c tok, G n k c /\ SignedString k c = Ok tok /\ d = sha1Hex tok.
Lemma admin_refresh_signed : holds_signed (admin_refresh K) RedisKey.AdminRefreshToken.
Proof. intros n d [Hp|(id & Hid)]; [|done]. inversion Hp; simplify_eq/=. eauto 6. Qed.
Lemma user_refresh_signed : holds_signed (user_refresh K) RedisKey.RefreshToken.
Proof. intros n d [Hp|(id & Hid)]; [|done]. inversion Hp; simplify_eq/=. eauto 6. Qed.

(** Nothing marks a used token as unused again. *)
Lemma spent {T} {J : Jwt T} G (ID : T -> string) key tok w w' :
  holds_signed G key -> carries G ID -> tokens_apart ID ->
  signed G (w_tick w) (sha1Hex tok) -> ~ unused (key (sha1Hex tok)) w ->
  wrote put_any w w' -> ~ unused (key (sha1Hex tok)) w'.
Proof.
  intros Hkey Hid Hap (n0 & k & c & tok0 & Hn0 & Hg & Hs & Hd) Hun [T1 Hw] Hu.
  apply Hw in Hu as [|(n & Hn & Hp)]; [done|].
  destruct (Hkey _ _ Hp) as (k' & c' & tok' & Hg' & Hs' & Hd').
  assert (n0 = n); [|lia]. eapply Hap; [exact Hs|exact Hs'|by eapply Hid..|congruence].
Qed.

Lemma used_up_spent {T} {J : Jwt T} G (ID : T -> string) key tok w w1 w2 :
  holds_signed G key -> carries G ID -> tokens_apart ID -> used_up G (key (sha1Hex tok)) (sha1Hex tok) w w1 ->
  wrote put w1 w2 -> ~ unused (key (sha1Hex tok)) w2.
Proof.
  intros Hkey Hid Hap (Hsig & w0 & T0 & Hun & W1) W2. eapply spent; [done..| |exact Hun|].
  - by eapply signed_mono.
  - eapply wrote_trans; [exact W1|]. eapply wrote_mono; [|exact W2]. intros n j v. by left.
Qed.

Lemma admin_refresh_refused s tok w : issued w -> ~ unused (RedisKey.AdminRefreshToken (sha1Hex tok)) w ->
  is_ok (AdminRefreshToken s tok w).1 = false.
Proof.
  intros HI Hun. change (wp (AdminRefreshToken s tok) (fun r _ => is_ok r = false) w). unfold AdminRefreshToken.
  apply wp_bind. destruct (adminJWT s) as [h|]; [|done]. apply wp_ret. apply wp_if; intros Hred; [done|].
  apply negb_false_iff in Hred. apply wp_bind, wp_map_err. unfold AdminJwt.ParseAndVerifyRefresh.
  apply wp_parseAndVerify; [by rewrite Hred|]. intros r w1 H1 Hr. cbv beta iota. destruct r as [c|e]; [|done].
  destruct (Hr c eq_refl) as ((v & Hv & Hnu) & _). exfalso.
  destruct (issued_admin _ _ HI _ _ Hv) as [->|[-> _]]; [by apply Hnu|done].
Qed.
Lemma user_refresh_refused s tok w : issued w -> ~ unused (RedisKey.RefreshToken (sha1Hex tok)) w ->
  is_ok (RefreshToken s tok w).1 = false.
Proof.
  intros HI Hun. change (wp (RefreshToken s tok) (fun r _ => is_ok r = false) w). unfold RefreshToken.
  apply wp_bind. destruct (jwtHelper s) as [h|]; [|done]. apply wp_ret. apply wp_if; intros Hred; [done|].
  apply wp_bind, wp_map_err, wp_Get. intros r w1 H1 Hv. cbv beta iota. destruct r as [[v|]|e]; [|done..].
  apply wp_bind, wp_ret. apply wp_if; intros Hnu; [done|]. exfalso.
  destruct (issued_user _ _ HI _ _ (Hv v eq_refl)) as [->|[-> _]]; [done|]. apply Hun. by apply Hv.
Qed.

(** ** Sessions *)

(** The helper accepts the token, as an access or as a refresh token. *)
Definition accepts (h : AdminJwt.Helper) (tok : string) w (c : AdminJwt.Claims) : Prop :=
  (AdminJwt.ParseAndVerifyAccess h tok true w).1 = Ok c \/ (AdminJwt.ParseAndVerifyRefresh h tok true w).1 = Ok c.

Lemma accepts_session h tok w c : accepts h tok w c ->
  val w (RedisKey.AdminSession (AdminJwt.acl_AdminID c)) = Some (AdminJwt.acl_SessionID c) /\
  exists k t, ParseWithClaims k t tok = Ok c.
Proof.
  intros [Ha|Ha]; revert Ha.
  - change (wp (AdminJwt.ParseAndVerifyAccess h tok true) (fun r _ => r = Ok c ->
      val w (RedisKey.AdminSession (AdminJwt.acl_AdminID c)) = Some (AdminJwt.acl_SessionID c) /\
      exists k t, ParseWithClaims k t tok = Ok c) w).
    apply wp_parseAndVerify; [done|]. intros r w' _ Hr ->. destruct (Hr c eq_refl) as (_ & ? & _ & _ & n & _ & ?). eauto.
  - change (wp (AdminJwt.ParseAndVerifyRefresh h tok true) (fun r _ => r = Ok c ->
      val w (RedisKey.AdminSession (AdminJwt.acl_AdminID c)) = Some (AdminJwt.acl_SessionID c) /\
      exists k t, ParseWithClaims k t tok = Ok c) w).
    apply wp_parseAndVerify; [done|]. intros r w' _ Hr ->. destruct (Hr c eq_refl) as (_ & ? & _ & _ & n & _ & ?). eauto.
Qed.

Lemma access_accepted h tok w c : (AdminJwt.ParseAndVerifyAccess h tok true w).1 = Ok c ->
  accepted (AdminJwt.acfg_Secret (AdminJwt.cfg h)) RedisKey.AdminToken tok AdminJwt.tokenSubjectAccess false w c.
Proof.
  change (wp (AdminJwt.ParseAndVerifyAccess h tok true) (fun r _ => r = Ok c ->
    accepted (AdminJwt.acfg_Secret (AdminJwt.cfg h)) RedisKey.AdminToken tok AdminJwt.tokenSubjectAccess false w c) w).
  apply wp_parseAndVerify; [done|]. intros r w' _ Hr ->. by apply Hr.
Qed.
(** A session id the server dropped never comes back. *)
Lemma session_gone id n0 w w' : ids_apart -> (n0 < w_tick w)%nat ->
  val w (RedisKey.AdminSession id) <> Some (GoStr.FormatInt (env_id n0)) -> wrote put w w' ->
  val w' (RedisKey.AdminSession id) <> Some (GoStr.FormatInt (env_id n0)).
Proof.
  intros Hap Hn0 Hne [T Hw] Hv. apply Hw in Hv as [|(n & Hn & He%put_session_inv)]; [done|].
  apply Hap in He. lia.
Qed.

Lemma logout_drops s c w w' : redis s = true -> AdminLogout s (Some c) w = (Ok tt, w') ->
  val w' (RedisKey.AdminSession (AdminJwt.acl_AdminID c)) = None.
Proof.
  intros Hred Hrun. assert (wp (AdminLogout s (Some c)) (fun r w' => r = Ok tt ->
    val w' (RedisKey.AdminSession (AdminJwt.acl_AdminID c)) = None) w) as Hwp.
  2: { unfold wp in Hwp. rewrite Hrun in Hwp. by apply Hwp. }
  unfold AdminLogout. apply wp_bind, wp_ret. apply wp_if; intros Hid; [done|]. apply wp_bind.
  destruct (adminJWT s) as [h|]; [|done]. apply wp_ret, wp_map_err. unfold AdminJwt.Logout.
  apply wp_if; intros _; [done|]. apply wp_if; intros Hcl; [by rewrite Hred in Hcl|]. apply wp_map_err.
  unfold Del, command. repeat wp_step. destruct (env_fault _); repeat wp_step; [done|]. intros _. unfold val. simpl.
  destruct (kv _ !! _) as [y|] eqn:Hk; [|done]. by apply srv_del_spec in Hk as [].
Qed.
End lemmas.

Section props.
Context {H : Sha1} {JA : Jwt AdminJwt.Claims} {JU : Jwt JwtUtil.Claims} {BC : Bcrypt} {MR : MathRand}.
Context {C : Collation} {D : SqlEngine} {AI : AutoIncrement D} {R : RedisServer} {E : Env}.
Notation DB := (DB C D R).
Implicit Types (w : World DB) (s : Service C D R).

Lemma any_configured s : configured any_config s.
Proof. done. Qed.

(** ** What the service promises *)

(** C11: a refresh token of an administrator is good once: after a refresh with it
    succeeded, every later refresh with it fails, whatever requests lie between,
    whatever fails and whatever the server forgets. *)
Theorem admin_refresh_once s s' tok w p w1 w2 :
  tokens_apart AdminJwt.acl_ID -> session_history w -> AdminRefreshToken s tok w = (Ok p, w1) ->
  rtc served w1 w2 -> is_ok (AdminRefreshToken s' tok w2).1 = false.
Proof.
  intros Hap HI%session_history_issued Hrun Hr.
  pose proof (admin_refresh_uses any_config s tok w (any_configured s) HI) as Hu. unfold wp in Hu.
  pose proof (AdminRefreshToken_wrote any_config s tok w (any_configured s) HI) as W1. rewrite Hrun in Hu, W1.
  destruct (serveds_wrote any_config w1 w2 (issued_wrote _ _ _ HI W1) Hr) as [W2 HI2]. eapply admin_refresh_refused; [exact HI2|].
  eapply (used_up_spent any_config (admin_refresh any_config) AdminJwt.acl_ID RedisKey.AdminRefreshToken);
    [apply admin_refresh_signed|apply admin_refresh_id|done|by apply Hu|done].
Qed.

(** So is a refresh token of a user. *)
Theorem user_refresh_once s s' tok w p w1 w2 :
  tokens_apart JwtUtil.ucl_ID -> session_history w -> RefreshToken s tok w = (Ok p, w1) ->
  rtc served w1 w2 -> is_ok (RefreshToken s' tok w2).1 = false.
Proof.
  intros Hap HI%session_history_issued Hrun Hr.
  pose proof (user_refresh_uses any_config s tok w (any_configured s) HI) as Hu. unfold wp in Hu.
  pose proof (does_RefreshToken _ (wrote_rel _) any_config (put_tokens _) s (any_configured s) tok w) as W1. rewrite Hrun in Hu, W1.
  destruct (serveds_wrote any_config w1 w2 (issued_wrote _ _ _ HI W1) Hr) as [W2 HI2]. eapply user_refresh_refused; [exact HI2|].
  eapply (used_up_spent any_config (user_refresh any_config) JwtUtil.ucl_ID RedisKey.RefreshToken);
    [apply user_refresh_signed|apply user_refresh_id|done|by apply Hu|done].
Qed.

(** C1: a logout ends the session for good: a token accepted before the logout of its
    administrator, and any other token of that session, is refused ever after. *)
Theorem logout_ends_session s h h' tok tok' w c c0 w1 w2 w3 c' :
  ids_apart -> session_history w -> accepts h tok w c -> rtc served w w1 ->
  redis s = true -> AdminJwt.acl_AdminID c0 = AdminJwt.acl_AdminID c -> AdminLogout s (Some c0) w1 = (Ok tt, w2) ->
  rtc served w2 w3 -> accepts h' tok' w3 c' ->
  tok' <> tok /\ (AdminJwt.acl_AdminID c' = AdminJwt.acl_AdminID c -> AdminJwt.acl_SessionID c' <> AdminJwt.acl_SessionID c).
Proof.
  intros Hap HI%session_history_issued Ha R1 Hred Hc0 Hout R2 Ha'.
  destruct (accepts_session _ _ _ _ Ha) as (Hsid & k & t & Hp), (accepts_session _ _ _ _ Ha') as (Hsid' & k' & t' & Hp').
  destruct (issued_session _ _ HI _ _ Hsid) as (n0 & Hn0 & En0).
  destruct (serveds_wrote _ _ _ HI R1) as [W1 HI1].
  pose proof (does_AdminLogout _ (wrote_rel _) any_config (put_tokens _) s (Some c0) w1) as W2. pose proof (logout_drops s c0 w1 w2 Hred Hout) as Hnone.
  rewrite Hout in W2. rewrite Hc0 in Hnone. destruct (serveds_wrote _ _ _ (issued_wrote _ _ _ HI1 W2) R2) as [W3 _].
  assert (AdminJwt.acl_AdminID c' = AdminJwt.acl_AdminID c -> AdminJwt.acl_SessionID c' <> AdminJwt.acl_SessionID c) as Hses.
  { intros Hid Heq. rewrite Hid, Heq, En0 in Hsid'. revert Hsid'.
    eapply session_gone; [done| |by rewrite Hnone|exact W3]. destruct W1, W2. simpl in *. lia. }
  split; [|done]. intros ->. pose proof (Parse_claims _ _ _ _ _ _ _ Hp Hp') as Hcc. subst c'. by apply Hses.
Qed.

(** C12: no forged token gets in: a token the helper accepts passes the check against
    the helper's secret and names the open session of its administrator, which the
    service opened; and it has the digest of a token that a service of the given
    configuration signed earlier with its configured secret, over the claims of an access
    token for a valid administrator. *)
Theorem accepted_was_issued cf h tok w c :
  session_history_under (eq cf) w -> (AdminJwt.ParseAndVerifyAccess h tok true w).1 = Ok c ->
  signed (admin_access (eq cf)) (w_tick w) (sha1Hex tok) /\
  (exists n, (w_tick w <= n)%nat /\ ParseWithClaims (AdminJwt.acfg_Secret (AdminJwt.cfg h)) (env_now n) tok = Ok c) /\
  AdminJwt.acl_Subject c = AdminJwt.tokenSubjectAccess /\
  val w (RedisKey.AdminSession (AdminJwt.acl_AdminID c)) = Some (AdminJwt.acl_SessionID c) /\
  exists n, (n < w_tick w)%nat /\ AdminJwt.acl_SessionID c = GoStr.FormatInt (env_id n).
Proof.
  intros HI%session_history_issued Ha. destruct (access_accepted _ _ _ _ Ha) as ((v & Hv & _) & Hs & Hsub & _ & Hp).
  split; [by eapply issued_access|]. split; [done|]. split; [done|]. split; [done|]. by eapply issued_session.
Qed.
End props.

(** ** Witnesses *)
Import UserDemo.

Lemma admin_refresh_once_witness :
  tokens_apart AdminJwt.acl_ID /\ session_history at_login /\
  is_ok (AdminRefreshToken demo_service login_refresh at_login).1 = true /\
  is_ok (AdminRefreshToken demo_service login_refresh at_refreshed).1 = false.
Proof.
  split; [apply demo_admin_apart|]. split; [apply user_demo_history|]. split; [by vm_compute|].
  destruct (ran_ok (AdminRefreshToken demo_service login_refresh) at_login) as [p Hp]; [by vm_compute|].
  exact (admin_refresh_once demo_service demo_service login_refresh at_login p at_refreshed at_refreshed
    demo_admin_apart (user_demo_history _) Hp (rtc_refl _ _)).
Defined.

Lemma user_refresh_once_witness :
  tokens_apart JwtUtil.ucl_ID /\ session_history at_user_login /\
  is_ok (RefreshToken demo_service user_refresh at_user_login).1 = true /\
  is_ok (RefreshToken demo_service user_refresh at_user_refreshed).1 = false.
Proof.
  split; [apply demo_user_apart|]. split; [apply user_demo_history|]. split; [by vm_compute|].
  destruct (ran_ok (RefreshToken demo_service user_refresh) at_user_login) as [p Hp]; [by vm_compute|].
  exact (user_refresh_once demo_service demo_service user_refresh at_user_login p at_user_refreshed at_user_refreshed
    demo_user_apart (user_demo_history _) Hp (rtc_refl _ _)).
Defined.

Lemma login_accepted : accepts demo_helper login_token at_login login_claims.
Proof. left. by vm_compute. Qed.
Lemma again_accepted : accepts demo_helper again_token at_again again_claims.
Proof. left. by vm_compute. Qed.

Lemma logout_ends_session_witness :
  (AdminJwt.ParseAndVerifyAccess demo_helper login_token true at_login).1 = Ok login_claims /\
  again_token <> login_token /\ AdminJwt.acl_SessionID again_claims <> AdminJwt.acl_SessionID login_claims.
Proof.
  split; [by vm_compute|].
  destruct (ran_ok (AdminLogout demo_service (Some login_claims)) at_login) as [[] Hp]; [by vm_compute|].
  destruct (logout_ends_session demo_service demo_helper demo_helper login_token again_token at_login login_claims
    login_claims at_login at_logout at_again again_claims demo_ids_apart (user_demo_history _) login_accepted
    (rtc_refl _ _) eq_refl eq_refl Hp (user_run_served _ _ _ user_demo_honest) again_accepted) as [H1 H2].
  split; [exact H1|exact (H2 eq_refl)].
Defined.

Lemma accepted_was_issued_witness :
  AdminJwt.acl_Subject login_claims = AdminJwt.tokenSubjectAccess /\
  signed (admin_access (eq demo_config)) (w_tick at_login) (sha1Hex login_token).
Proof.
  destruct (accepted_was_issued demo_config demo_helper login_token at_login login_claims (user_demo_under _))
    as (H1 & _ & H2 & _); [by vm_compute|].
  exact (conj H2 H1).
Defined.
End SessionProps.
