(* ===== verification/Middleware.v ===== *)
(** * Middleware: who reaches a handler

    [internal/middleware] ([jwt.go], [admin_jwt.go], [admin.go], [auth_permission.go])
    and [AccountGuard] of [internal/moderation/handler.go], with the chains that
    [internal/app] puts in front of the routes.  A gin handler is a computation on the
    request and the values set on its context that either calls [Next] or aborts with
    a response.  The user and the moderation services keep separate stores; [on_users]
    and [on_moderation] run a computation on one half.  [RequestLog], which only logs,
    is left out.  No code of the repository sets a request id. *)
From Stdlib Require Import Ascii.
From S2P Require Import Prelude GoString GoTime GoMonad Sql RedisStr Token AdminJwt JwtUtil Platform.
From S2P Require Import UserModel UserRepo ModerationModel ModerationRepo ModerationService.

Module Middleware.
Import Users UserRepo.

(** ** Requests, contexts and chains *)
Definition MethodGet : string := "GET".
Definition MethodOptions : string := "OPTIONS".

(** The parts of an [http.Request] the middleware reads; [FullPath] is the matched
    route, and empty without one. *)
Record Request := mkRequest {
  Method : string;
  FullPath : string;
  URLPath : string;
  Authorization : string;
}.
(** The values set on a [gin.Context]. *)
Record Context := mkContext {
  ctx_claims : option JwtUtil.Claims;
  ctx_admin_claims : option AdminJwt.Claims;
}.
Definition fresh_context : Context := mkContext None None.

Inductive Outcome :=
| Next (c : Context)
| Abort (r : Responses.Response).

Section chains.
Context {S : Type}.
Definition HandlerFunc : Type := Request -> Context -> M S Outcome.
Fixpoint chain (handlers : list HandlerFunc) : HandlerFunc := fun req c =>
  match handlers with
  | [] => ret (Next c)
  | handler :: handlers =>
    let! o := handler req c in
    match o with
    | Next c => chain handlers req c
    | Abort r => ret (Abort r)
    end
  end.
End chains.
Arguments HandlerFunc S : clear implicits.

(** A computation on one half of a store. *)
Section halves.
Context {S1 S2 : Type}.
Definition on_users {A} (m : M S1 A) : M (S1 * S2) A := fun w =>
  let (r, w1) := m (mkWorld (w_db w).1 (w_tick w) (w_out w)) in
  (r, mkWorld (w_db w1, (w_db w).2) (w_tick w1) (w_out w1)).
Definition on_moderation {A} (m : M S2 A) : M (S1 * S2) A := fun w =>
  let (r, w2) := m (mkWorld (w_db w).2 (w_tick w) (w_out w)) in
  (r, mkWorld ((w_db w).1, w_db w2) (w_tick w2) (w_out w2)).
End halves.

(** ** The bearer token *)
Fixpoint drop_bytes (n : nat) (s : string) : string :=
  match n, s with S n, String _ s => drop_bytes n s | _, _ => s end.
Definition bearer (header : string) : string :=
  let token := GoStr.TrimSpace header in
  if (7 <=? String.length token)%nat && GoStr.EqualFold (String.substring 0 7 token) "Bearer "
  then GoStr.TrimSpace (drop_bytes 7 token) else token.

(** ** Users *)
Definition authNotFoundResp : Responses.Response := Responses.New false 401 "authorization 找不到".
Definition tokenNotFoundResp : Responses.Response := Responses.New false 401 "token 不存在,或已过期".
Definition tokenInvalidResp : Responses.Response := Responses.New false 401 "token invalid".
Definition authPermissionResp : Responses.Response := Responses.New false 403 "当前接口需要认证用户权限".
Definition authInternalResp : Responses.Response := Responses.New false 500 "系统错误".
Definition adminForbiddenResp : Responses.Response := Responses.New false 403 "权限不足".
Definition adminAuthNotFoundResp : Responses.Response := Responses.New false 401 "authorization not found".
Definition adminTokenNotFoundResp : Responses.Response :=
  Responses.New false 401 "admin token not existed or expired".
Definition adminTokenInvalidResp : Responses.Response := Responses.New false 401 "admin token invalid".
Definition adminSessionInvalidResp : Responses.Response := Responses.New false 401 "admin session invalid".

Section users.
Context {E : Env} {H : Sha1} {JA : Jwt AdminJwt.Claims} {JU : Jwt JwtUtil.Claims}.
Context {C : Collation} {D : SqlEngine} {AI : AutoIncrement D} {R : RedisServer}.
Notation DB := (Users.DB C D R).
Notation M := (GoMonad.M DB).
Notation HandlerFunc := (Middleware.HandlerFunc DB).

Definition claims_error (err : error) : Responses.Response :=
  if errors_Is err JwtUtil.token_empty then authNotFoundResp
  else if errors_Is err JwtUtil.token_not_existed then tokenNotFoundResp
  else tokenInvalidResp.
Definition JWTAuth (helper : JwtUtil.Helper) (rds : bool) : HandlerFunc := fun req c =>
  if String.eqb (Method req) MethodOptions then ret (Next c)
  else
    let token := bearer (Authorization req) in
    if String.eqb token "" then ret (Abort (Responses.Resp authNotFoundResp ""))
    else
      let! r := attempt (JwtUtil.ParseAndVerify helper token rds) in
      match r with
      | Err err => ret (Abort (Responses.Resp (claims_error err) ""))
      | Ok claims => ret (Next (mkContext (Some claims) (ctx_admin_claims c)))
      end.

Definition GetUserID (c : Context) : Z :=
  match ctx_claims c with Some claims => JwtUtil.ucl_UserID claims | None => 0 end.

(** *** auth_permission.go *)
Definition authPermissionExcludes : list string :=
  ["/api/user/authentication"; "/api/user/login"; "/api/user/refresh"; "/api/user/pre_authentication";
   "/api/notification/:id/read"; "/api/notification/read"; "/api/moderation/reports/:id";
   "/api/moderation/punishments/:id/appeals"].
Definition certificationSubjectID (claims : option JwtUtil.Claims) : Z :=
  match claims with
  | None => 0
  | Some claims =>
    if GoStr.EqualFold (GoStr.TrimSpace (JwtUtil.ucl_AccountType claims)) "anonymous"
    then JwtUtil.ucl_RootUserID claims else JwtUtil.ucl_UserID claims
  end.
Definition hasCertifiedAccess (current : User) (now : Z) : bool :=
  usr_StuIsCheck current ||
  match usr_ProvisionalExpiresAt current with Some t => (now <? t)%Z | None => false end.
Definition requiresCertifiedUser (req : Request) : bool :=
  if String.eqb (Method req) MethodGet || String.eqb (Method req) MethodOptions then false
  else
    let path := if String.eqb (FullPath req) "" then URLPath req else FullPath req in
    negb (bool_decide (path ∈ authPermissionExcludes)).

Definition CertifiedUserCheck : HandlerFunc := fun req c =>
  if negb (requiresCertifiedUser req) then ret (Next c)
  else
    let subjectID := certificationSubjectID (ctx_claims c) in
    if (subjectID <=? 0)%Z then ret (Abort (Responses.Resp authPermissionResp ""))
    else
      let! s := get_db in
      if db_nil s then ret (Abort (Responses.Resp authInternalResp ""))
      else
        let! r := attempt (take User (kept_user (fun u => usr_ID u =? subjectID)%Z)) in
        match r with
        | Err err =>
          if errors_Is err record_not_found_text then ret (Abort (Responses.Resp authPermissionResp ""))
          else ret (Abort (Responses.Resp authInternalResp ""))
        | Ok current =>
          let! t := now in
          if negb (hasCertifiedAccess current t) then ret (Abort (Responses.Resp authPermissionResp ""))
          else ret (Next c)
        end.

(** ** Administrators *)
Definition admin_claims_error (err : error) : Responses.Response :=
  if errors_Is err AdminJwt.token_empty then adminAuthNotFoundResp
  else if errors_Is err AdminJwt.token_not_existed then adminTokenNotFoundResp
  else if errors_Is err AdminJwt.session_invalid then adminSessionInvalidResp
  else adminTokenInvalidResp.
Definition AdminJWTAuth (helper : option AdminJwt.Helper) (rds : bool) : HandlerFunc := fun req c =>
  if String.eqb (Method req) MethodOptions then ret (Next c)
  else
    match helper with
    | None => ret (Abort (Responses.Resp adminTokenInvalidResp ""))
    | Some helper =>
      let token := bearer (Authorization req) in
      if String.eqb token "" then ret (Abort (Responses.Resp adminAuthNotFoundResp ""))
      else
        let! r := attempt (AdminJwt.ParseAndVerifyAccess helper token rds) in
        match r with
        | Err err => ret (Abort (Responses.Resp (admin_claims_error err) ""))
        | Ok claims => ret (Next (mkContext (ctx_claims c) (Some claims)))
        end
    end.

Definition AdminPermissionCheck : HandlerFunc := fun req c =>
  match ctx_admin_claims c with
  | None => ret (Abort (Responses.Resp adminForbiddenResp ""))
  | Some claims =>
    let! s := get_db in
    if db_nil s then ret (Abort (Responses.Resp adminForbiddenResp ""))
    else
      let! r := attempt (take Admin (fun a => (adm_ID a =? AdminJwt.acl_AdminID claims)%Z
        && (adm_UserID a =? AdminJwt.acl_UserID claims)%Z)) in
      match r with
      | Err err => ret (Abort (Responses.Resp adminForbiddenResp ""))
      | Ok admin =>
        if negb (adm_Power admin =? AdminJwt.acl_Power claims)%Z
        then ret (Abort (Responses.Resp adminForbiddenResp ""))
        else ret (Next c)
      end
  end.

(** [internal/app/ecampuscrm/routes.go]: in front of every route of [/admin]. *)
Definition admin_routes (helper : option AdminJwt.Helper) (rds : bool) : HandlerFunc :=
  chain [AdminJWTAuth helper rds; AdminPermissionCheck].
End users.

(** ** Punished accounts *)
Section moderation.
Context {E : Env} {D : SqlEngine} {J : JsonMap} {RE : RedisEngine jbytes}.
Notation HandlerFunc := (Middleware.HandlerFunc (Moderation.DB RE)).

Definition accountGuardAllowed (path : string) : bool :=
  String.eqb path "/api/user/logout" || GoStr.HasPrefix path "/api/moderation/punishments"
  || GoStr.HasPrefix path "/api/moderation/appeals".
Definition currentRootUserID (c : Context) : Z :=
  match ctx_claims c with
  | None => 0
  | Some claims =>
    if (0 <? JwtUtil.ucl_RootUserID claims)%Z then JwtUtil.ucl_RootUserID claims else JwtUtil.ucl_UserID claims
  end.
Definition AccountGuard (svc : ModerationService.Service RE) : HandlerFunc := fun req c =>
  if String.eqb (Method req) MethodOptions || accountGuardAllowed (FullPath req) then ret (Next c)
  else
    let! r := attempt (ModerationService.AccountBlocked svc (currentRootUserID c)) in
    match r with
    | Err err => ret (Abort (Responses.Fail (Bizerr.InternalWrap "查询账号状态失败" err) ""))
    | Ok true => ret (Abort (Responses.Fail ModerationService.ErrCapabilityDenied ""))
    | Ok false => ret (Next c)
    end.
End moderation.

(** ** The routes of the users *)
Section api.
Context {E : Env} {H : Sha1} {JA : Jwt AdminJwt.Claims} {JU : Jwt JwtUtil.Claims}.
Context {C : Collation} {D : SqlEngine} {AI : AutoIncrement D} {R : RedisServer}.
Context {J : JsonMap} {RE : RedisEngine jbytes}.

(** [internal/app/ecampus/routes.go]: in front of every protected route of [/api]. *)
Definition api_routes (helper : JwtUtil.Helper) (rds : bool) (svc : ModerationService.Service RE)
    : Middleware.HandlerFunc (Users.DB C D R * Moderation.DB RE) :=
  chain [fun req c => on_users (JWTAuth helper rds req c);
         fun req c => on_moderation (AccountGuard svc req c);
         fun req c => on_users (CertifiedUserCheck req c)].
End api.
End Middleware.
