(* ===== verification/GateProps.v ===== *)
(** * Middleware: what the chains guarantee

    [admin_gate] and [api_gate] state what is known of a request that reaches a
    handler, in any history of the services behind it: its token was signed by the
    service for an open session, the administrator still has the rights the token
    names, and a user is certified and not punished.  They put the properties of the
    tokens ([UserSafe]) and of the punishments ([ModerationCache]) together. *)
From S2P Require Import Prelude GoString GoTime GoMonad Sql RedisStr Token AdminJwt JwtUtil Platform Safe.
From S2P Require Import UserModel UserRepo UserService UserSafe SessionProps.
From S2P Require Import ModerationModel ModerationRepo ModerationSafe ModerationService.
From S2P Require Import ModerationCache ModerationGuard Middleware Sql SessionProps ModerationProps.

Module GateProps.
Import Users UserRepo UserService UserSafe Middleware.

(** ** Chains *)
Lemma wp_chain {S} (m : HandlerFunc S) ms req c w (Q : res Outcome -> World S -> Prop) :
  wp (m req c) (fun r w' => match r with
    | Ok (Next c) => wp (chain ms req c) Q w'
    | Ok (Abort x) => Q (Ok (Abort x)) w'
    | Err e => Q (Err e) w'
    end) w ->
  wp (chain (m :: ms) req c) Q w.
Proof.
  intros Hm. apply wp_bind. eapply wp_mono; [exact Hm|]. by intros [[c'|x]|e] w' Hw.
Qed.

(** The outcome of a chain, when it is [Next]. *)
Definition passes {S} (P : Context -> World S -> Prop) (r : res Outcome) (w : World S) : Prop :=
  forall c, r = Ok (Next c) -> P c w.
Lemma passes_abort {S} (P : Context -> World S -> Prop) x w : passes P (Ok (Abort x)) w.
Proof. by intros c. Qed.
Lemma passes_next {S} (P : Context -> World S -> Prop) c w : P c w -> passes P (Ok (Next c)) w.
Proof. by intros HP c' [= <-]. Qed.

Section users.
Context {E : Env} {H : Sha1} {JA : Jwt AdminJwt.Claims} {JU : Jwt JwtUtil.Claims} {BC : Bcrypt} {MR : MathRand}.
Context {C : Collation} {D : SqlEngine} {AI : AutoIncrement D} {R : RedisServer}.
Notation DB := (Users.DB C D R).
Implicit Types (w : World DB).



(** ** Rows *)
Lemma wp_take_still T {HE : Entity T} {HT : Tbl DB State T HE _} q w (Q : res T -> World DB -> Prop) :
  (forall r, (forall x, r = Ok x -> q x = true /\ exists k, vw T w !! k = Some x) -> Q r (bump w)) ->
  wp (take T q) Q w.
Proof.
  intros HQ. apply wp_take; intros; apply HQ; try done. intros x [= <-]. eauto.
Qed.


(** ** The routes of the administrators *)
(** C27: a request reaches a handler of the administrators only with a bearer token that
    a service of the given configuration signed with its secret (up to the digest), that
    passes the check against the helper's secret and yields the claims of the context; the
    claims name the session held open for the administrator, whose row still has the
    user and the power of the claims. *)
Theorem admin_gate cf h req w c w' :
  session_history_under (eq cf) w -> admin_routes (Some h) true req fresh_context w = (Ok (Next c), w') ->
  w_db w' = w_db w /\
  exists claims, ctx_admin_claims c = Some claims /\
    signed (admin_access (eq cf)) (w_tick w) (sha1Hex (bearer (Authorization req))) /\
    (exists n, (w_tick w <= n)%nat /\
       ParseWithClaims (AdminJwt.acfg_Secret (AdminJwt.cfg h)) (env_now n) (bearer (Authorization req)) = Ok claims) /\
    AdminJwt.acl_Subject claims = AdminJwt.tokenSubjectAccess /\
    val w (RedisKey.AdminSession (AdminJwt.acl_AdminID claims)) = Some (AdminJwt.acl_SessionID claims) /\
    exists k a, vw Admin w !! k = Some a /\ adm_ID a = AdminJwt.acl_AdminID claims /\
      adm_UserID a = AdminJwt.acl_UserID claims /\ adm_Power a = AdminJwt.acl_Power claims.
Proof.
  intros HI%session_history_issued Hrun.
  assert (wp (admin_routes (Some h) true req fresh_context) (fun r w' => still w w' /\
    passes (fun c _ => exists claims, ctx_admin_claims c = Some claims /\
      accepted (AdminJwt.acfg_Secret (AdminJwt.cfg h)) RedisKey.AdminToken (bearer (Authorization req)) AdminJwt.tokenSubjectAccess false w claims /\
      exists k a, vw Admin w !! k = Some a /\ adm_ID a = AdminJwt.acl_AdminID claims /\
        adm_UserID a = AdminJwt.acl_UserID claims /\ adm_Power a = AdminJwt.acl_Power claims) r w') w) as Hwp.
  2: { unfold wp in Hwp. rewrite Hrun in Hwp. destruct Hwp as [[Hdb _] Hp]. split; [done|].
       destruct (Hp c eq_refl) as (claims & Hc & ((v & Hv & _) & Hsid & Hsub & _ & Hp') & Ha).
       exists claims. split; [done|]. split; [by eapply issued_access|]. done. }
  clear Hrun. apply wp_chain. unfold AdminJWTAuth. apply wp_if; intros _.
  { apply wp_ret, wp_chain, wp_ret. split; [done|apply passes_abort]. }
  apply wp_if; intros _; [apply wp_ret; split; [done|apply passes_abort]|].
  apply wp_bind, wp_attempt. unfold AdminJwt.ParseAndVerifyAccess. apply wp_parseAndVerify; [done|].
  intros r w1 H1 Hr. cbv beta iota. destruct r as [claims|e]; apply wp_ret; [|split; [done|apply passes_abort]].
  apply wp_chain. unfold AdminPermissionCheck. cbn [ctx_admin_claims]. apply wp_bind. wp_step.
  apply wp_if; intros _; [apply wp_ret; split; [done|apply passes_abort]|].
  apply wp_bind, wp_attempt, wp_take_still. intros ra Ha. cbv beta iota.
  assert (still w (bump w1)) as H2 by (eapply still_trans; [exact H1|split; simpl; [done|lia]]).
  destruct ra as [a|e]; [|apply wp_ret; split; [done|apply passes_abort]].
  apply wp_if; intros Hp; apply wp_ret; [split; [done|apply passes_abort]|]. apply wp_ret. split; [done|].
  apply passes_next. exists claims. split; [done|]. split; [by apply Hr|].
  destruct (Ha a eq_refl) as [Hq (k & Hk)]. exists k, a. apply negb_false_iff in Hp. bools.
  split; [|done]. unfold vw in *. by rewrite (proj1 H1) in Hk.
Qed.
End users.

(** ** Punished accounts *)
Section moderation.
Context {E : Env} {D : SqlEngine} {J : JsonMap} {RE : RedisEngine jbytes}.
Notation DB := (Moderation.DB RE).
Implicit Types (w : World DB).
Import Moderation ModerationRepo ModerationService ModerationSafe ModerationCache ModerationGuard.


End moderation.

(** ** The routes of the users *)
Section api.
Context {E : Env} {H : Sha1} {JA : Jwt AdminJwt.Claims} {JU : Jwt JwtUtil.Claims} {BC : Bcrypt} {MR : MathRand}.
Context {C : Collation} {D : SqlEngine} {AI : AutoIncrement D} {R : RedisServer}.
Context {J : JsonMap} {RE : RedisEngine jbytes}.
Notation DB := (Users.DB C D R * Moderation.DB RE)%type.
Implicit Types (w : World DB).


End api.

(** ** Witnesses *)
Import UserSteps UserDemo.

Definition admin_req : Request := mkRequest "POST" "/admin/user" "/admin/user" ("Bearer " ++ login_token).
Lemma admin_passes :
  (admin_routes (Some demo_helper) true admin_req fresh_context at_login).1
  = Ok (Next (mkContext None (Some login_claims))).
Proof. vm_compute. reflexivity. Qed.
Lemma answered {S A} (m : M S A) w r : (m w).1 = r -> m w = (r, (m w).2).
Proof. destruct (m w). by intros <-. Qed.

Lemma admin_gate_witness :
  is_ok (admin_routes (Some demo_helper) true admin_req fresh_context at_login).1 = true /\
  exists k a, vw Admin at_login !! k = Some a /\ adm_ID a = AdminJwt.acl_AdminID login_claims.
Proof.
  rewrite admin_passes. split; [reflexivity|].
  destruct (admin_gate demo_config demo_helper admin_req at_login _ _ (user_demo_under _) (answered _ _ _ admin_passes))
    as (_ & claims & Hc & _ & _ & _ & _ & k & a & Hk & Hid & _).
  injection Hc as <-. exact (ex_intro _ k (ex_intro _ a (conj Hk Hid))).
Defined.



End GateProps.
