(* ===== verification/LoginGuard.v ===== *)
(** * User: the login lock of the administrators

    [AdminLogin] counts the wrong credentials it is given for a user name, and from
    the tenth on locks the name for a day.  [login_limit] bounds the guesses: whatever
    else the services do in between, and whatever commands fail, nobody is told more
    than ten times within 24 hours that the credentials are wrong, and after that even
    the right ones are turned away.  [framed] is the relation of [UserSteps] for it:
    no other request touches the two keys of the name. *)
From S2P Require Import Prelude GoTime GoMonad Sql Safe RedisStr Token AdminJwt JwtUtil GoString UserModel.
From S2P Require Import UserRepo UserService UserSafe SessionProps.

Module LoginGuard.
Import Safe Users UserRepo UserService UserSteps UserSafe SessionProps.

(** ** Answers *)
Definition says (e : error) (text : string) : bool := GoStr.HasPrefix (Bizerr.Error e) text.
(** The answer to wrong credentials. *)
Definition wrong_error (e : error) : bool := says e wrong_secondary || says e wrong_password.
Definition wrong {A} (r : res A) : bool := match r with Ok _ => false | Err e => wrong_error e end.
(** The credentials were right, and a token was signed or at least attempted. *)
Definition let_in {A} (r : res A) : bool :=
  match r with Ok _ => true | Err e => says e "生成管理员登录令牌失败" end.
Definition locked_out : error := Bizerr.Biz "账号已锁定，请明天后再试".
Definition lock_unknown : error := Bizerr.InternalWrap "检查管理员账号锁定状态失败" server_fault.

Section guard.
Context {H : Sha1} {JA : Jwt AdminJwt.Claims} {JU : Jwt JwtUtil.Claims} {BC : Bcrypt} {MR : MathRand}.
Context {C : Collation} {D : SqlEngine} {AI : AutoIncrement D} {R : RedisServer} {RK : RedisKeeps R} {E : Env}.
Notation DB := (DB C D R).
Implicit Types (w : World DB) (s : Service C D R).
Variables (u : string) (T0 : Z).

(** The store of the server, and the day that starts at [T0]. *)
Notation keys w := (kv (t_redis (w_db w))).
Definition in_day (t : Z) : Prop := (T0 <= t < T0 + 24 * GoTime.Hour)%Z.
Definition within w w' : Prop := forall n, (w_tick w <= n < w_tick w')%nat -> in_day (env_now n).
(** An entry that does not expire before the day is over. *)
Definition lasting (x : entry) : Prop :=
  match x.2 with None => True | Some e => (T0 + 24 * GoTime.Hour <= e)%Z end.

Lemma lasting_live t x : in_day t -> lasting x -> live t x = true.
Proof.
  unfold lasting, live. destruct x as [v [e|]]; [|done]. simpl. intros [_ Ht] He. apply Z.ltb_lt. lia.
Qed.
Lemma within_l w1 w2 w3 : (w_tick w2 <= w_tick w3)%nat -> within w1 w3 -> within w1 w2.
Proof. intros Ht Hw n Hn. apply Hw. lia. Qed.
Lemma within_r w1 w2 w3 : (w_tick w1 <= w_tick w2)%nat -> within w1 w3 -> within w2 w3.
Proof. intros Ht Hw n Hn. apply Hw. lia. Qed.

(** ** Frame *)
Definition mine (k : string) : Prop := k = RedisKey.AdminLoginFail u \/ k = RedisKey.AdminLoginLock u.
Definition same_keys (m m' : gmap string entry) : Prop :=
  forall k, mine k -> (forall x, m !! k = Some x -> lasting x -> m' !! k = Some x) /\
    (forall x, m' !! k = Some x -> m !! k = Some x).
Definition framed w w' : Prop := (w_tick w <= w_tick w')%nat /\ (within w w' -> same_keys (keys w) (keys w')).

Lemma framed_refl w : framed w w.
Proof. split; [done|]. intros _ k _. auto. Qed.
Lemma framed_trans w1 w2 w3 : framed w1 w2 -> framed w2 w3 -> framed w1 w3.
Proof.
  intros [T1 H1] [T2 H2]. split; [lia|]. intros Hd k Hk.
  destruct (H1 (within_l _ _ _ T2 Hd) k Hk), (H2 (within_r _ _ _ T1 Hd) k Hk). split; auto.
Qed.
Lemma framed_later w w' : later w w' -> framed w w'.
Proof. intros [T Hk]. split; [done|]. rewrite Hk. intros _ k _. auto. Qed.
Lemma framed_rel : WorldRel framed.
Proof. split; [apply framed_refl|apply framed_trans|apply framed_later]. Qed.
#[local] Hint Resolve framed_rel : steps.

(** One command: it fails without effect, or the server answers. *)
Lemma wp_command {A} (f : Z -> rsrv -> res (A * rsrv)) w (Q : res A -> World DB -> Prop) :
  (forall e w', later w w' -> w_tick w' = (2 + w_tick w)%nat -> Q (Err e) w') ->
  (forall a r w', f (env_now (w_tick w)) (t_redis (w_db w)) = Ok (a, r) -> w_tick w' = (2 + w_tick w)%nat ->
     t_redis (w_db w') = r -> Q (Ok a) w') ->
  wp (command f) Q w.
Proof.
  intros H1 H2. unfold command. repeat wp_step. destruct (env_fault _); repeat wp_step.
  - apply H1; [split; simpl; [lia|done]|done].
  - destruct (f _ _) as [[a r]|e] eqn:Hf; repeat wp_step; [by eapply H2|]. apply H1; [split; simpl; [lia|done]|done].
Qed.

Lemma framed_command {A} (f : Z -> rsrv -> res (A * rsrv)) :
  (forall t r a r', in_day t -> f t r = Ok (a, r') -> same_keys (kv r) (kv r')) -> does framed (command f : M DB A).
Proof.
  intros Hf w. change (wp (command f) (fun _ w' => framed w w') w). apply wp_command.
  - intros e w' Hw _. by apply framed_later.
  - intros a r w' Hr Ht <-. split; [lia|]. intros Hd. eapply Hf, Hr. apply Hd. lia.
Qed.
Lemma retains_same t j m m' : in_day t -> ~ mine j -> retains t j m m' ->
  (forall k x, k <> j -> m' !! k = Some x -> m !! k = Some x) -> same_keys m m'.
Proof.
  intros Ht Hj Hr Hb k Hk. assert (k <> j) as Hne by (by intros ->). split; [|eauto].
  intros x Hx Hl. apply Hr; [done..|]. by eapply lasting_live.
Qed.
Lemma framed_Set j v ttl : ~ mine j -> does framed (Set_ j v ttl : M DB unit).
Proof.
  intros Hj. apply framed_command. intros t r a r' Ht [= _ <-].
  eapply retains_same; [exact Ht|exact Hj|apply keep_set|]. intros k x Hk Hx. by apply srv_set_spec in Hx as [[]|[]].
Qed.
Lemma framed_Del j : ~ mine j -> does framed (Del j : M DB unit).
Proof.
  intros Hj. apply framed_command. intros t r a r' Ht [= _ <-].
  eapply retains_same; [exact Ht|exact Hj|apply keep_del|]. intros k x Hk Hx. by apply srv_del_spec in Hx as [].
Qed.
Lemma framed_Expire j ttl : ~ mine j -> does framed (Expire j ttl : M DB unit).
Proof.
  intros Hj. apply framed_command. intros t r a r' Ht [= _ <-].
  eapply retains_same; [exact Ht|exact Hj|apply keep_expire|]. intros k x Hk Hx. by apply srv_expire_spec in Hx as [[]|[]].
Qed.
Lemma framed_Incr j : ~ mine j -> does framed (Incr j : M DB Z).
Proof.
  intros Hj. apply framed_command. intros t r a r' Ht Hr. destruct (srv_incr t j r) as [[n r1]|] eqn:Hi; [|done].
  simplify_eq. eapply retains_same; [exact Ht|exact Hj|by apply (keep_incr _ _ _ _ _ Hi)|].
  intros k x Hk Hx. by eapply srv_incr_spec in Hx as [[]|[]].
Qed.
#[local] Hint Resolve framed_Set framed_Del : steps.

Ltac not_mine := intros [?|?]; discriminate.
Lemma framed_admin_pair h v : does framed (AdminJwt.GenerateTokenPair h v).
Proof.
  unfold AdminJwt.GenerateTokenPair. does_auto; apply framed_Set; not_mine.
Qed.
Lemma framed_user_pair h v : does framed (JwtUtil.GenerateTokenPair h v).
Proof. unfold JwtUtil.GenerateTokenPair. does_auto; apply framed_Set; not_mine. Qed.
#[local] Hint Resolve framed_admin_pair framed_user_pair : steps.
Lemma framed_tokens : TokenRel any_config framed.
Proof.
  split.
  - intros h a _. apply framed_user_pair.
  - intros h a _. apply framed_admin_pair.
  - intros d ttl. apply framed_Set. not_mine.
  - intros id. apply framed_Del. not_mine.
Qed.
Lemma framed_login u' : u' <> u -> LoginRel framed u'.
Proof.
  intros Hu. assert (~ mine (RedisKey.AdminLoginFail u') /\ ~ mine (RedisKey.AdminLoginLock u')) as [H1 H2].
  { split; intros [[= ?]|[= ?]]; done. }
  split; intros; by auto using framed_Incr, framed_Expire, framed_Set, framed_Del.
Qed.
Lemma framed_AdminRefreshToken s token : does framed (AdminRefreshToken s token).
Proof.
  unfold AdminRefreshToken, AdminJwt.ParseAndVerifyRefresh, FindAdminByID. does_auto.
  apply does_ConsumeRefreshToken; [apply framed_rel|]. intros d ttl. apply framed_Set. not_mine.
Qed.

(** A request other than a login under [u]. *)
Definition elsewhere (q : request) : Prop := match q with RAdminLogin req => alr_Username req <> u | _ => True end.
Lemma serve_framed s q : honest s -> elsewhere q -> does framed (serve s q).
Proof.
  intros Hs Hq. apply (serve_does _ framed_rel any_config framed_tokens s Hs (any_configured s)). destruct q; try done.
  - by apply framed_login.
  - apply framed_AdminRefreshToken.
Qed.

Lemma wp_framed w0 w {A} (m : M DB A) (Q : res A -> World DB -> Prop) :
  framed w0 w -> does framed m -> (forall r w', framed w0 w' -> Q r w') -> wp m Q w.
Proof. intros Hw Hm HQ. unfold wp. apply HQ. eapply framed_trans; [exact Hw|apply Hm]. Qed.

(** ** The counter and the lock *)
Definition at_least (n : nat) w : Prop :=
  n = 0%nat /\ keys w !! RedisKey.AdminLoginFail u = None \/
  exists c e, (1 <= c /\ Z.of_nat n <= c)%Z /\ lasting (GoStr.FormatInt c, e) /\
    keys w !! RedisKey.AdminLoginFail u = Some (GoStr.FormatInt c, e).
Definition barred w : Prop :=
  exists x, lasting x /\ keys w !! RedisKey.AdminLoginLock u = Some x.
Definition counted (n : nat) w : Prop := at_least n w /\ ((10 <= n)%nat -> barred w).

Lemma barred_same w w' : same_keys (keys w) (keys w') -> barred w -> barred w'.
Proof. intros Hs (x & Hl & Hx). exists x. split; [done|]. by apply Hs; [right| |]. Qed.
Lemma at_least_same n w w' : same_keys (keys w) (keys w') -> at_least n w -> at_least n w'.
Proof.
  intros Hs [[-> Hn]|(c & e & Hc & Hl & Hx)].
  - left. split; [done|]. destruct (keys w' !! _) as [x|] eqn:Hx; [|done]. apply Hs in Hx; [|by left]. congruence.
  - right. exists c, e. split; [done|]. split; [done|]. by apply Hs; [left| |].
Qed.
Lemma counted_same n w w' : same_keys (keys w) (keys w') -> counted n w -> counted n w'.
Proof. intros Hs [H1 H2]. split; [by eapply at_least_same|]. intros Hn. by eapply barred_same, H2. Qed.
Lemma at_least_mono n m w : (n <= m)%nat -> at_least m w -> at_least n w.
Proof.
  intros Hn [[-> Hk]|(c & e & Hc & Hr)]; [left; split; [lia|done]|]. right. exists c, e. split; [lia|done].
Qed.

Lemma day_ttl : Z.add T0 <$> server_ttl (24 * GoTime.Hour) = Some (T0 + 24 * GoTime.Hour)%Z.
Proof. done. Qed.

(** The counter stands at [c] for the rest of the day. *)
Definition stands (c : Z) w : Prop :=
  exists e, lasting (GoStr.FormatInt c, e) /\ keys w !! RedisKey.AdminLoginFail u = Some (GoStr.FormatInt c, e).
Lemma stands_at_least n c w : (1 <= c)%Z -> (Z.of_nat n <= c)%Z -> stands c w -> at_least n w.
Proof. intros H1 Hn (e & Hl & Hx). right. by exists c, e. Qed.
Lemma later_same w w' : later w w' -> same_keys (keys w) (keys w').
Proof. intros [_ Hk]. rewrite Hk. intros k _. auto. Qed.
Lemma stands_same c w w' : same_keys (keys w) (keys w') -> stands c w -> stands c w'.
Proof. intros Hs (e & Hl & Hx). exists e. split; [done|]. by apply Hs; [left| |]. Qed.

(** [INCR] on the counter, [EXPIRE] on it and [SET] on the lock. *)
Lemma incr_counts n w :
  wp (Incr (RedisKey.AdminLoginFail u)) (fun r w' => (w_tick w < w_tick w')%nat /\
    (in_day (env_now (w_tick w)) ->
       (barred w -> barred w') /\ (at_least n w -> match r with
         | Ok c => (Z.of_nat n < c)%Z /\ stands c w'
         | Err _ => at_least n w'
         end))) w.
Proof.
  apply wp_command.
  - intros e w' Hl Ht. split; [lia|]. apply later_same in Hl. split; [by apply barred_same|by apply at_least_same].
  - intros c r w' Hr Ht <-. destruct (srv_incr _ _ _) as [[c' r]|] eqn:Hi; [|done]. injection Hr as -> Hr. subst r.
    destruct (keep_incr _ _ _ _ _ Hi) as [Hret Hv]. split; [lia|]. intros Hd. split.
    { intros (x & Hl & Hx). exists x. split; [done|]. apply Hret; [done|done|]. by eapply lasting_live. }
    intros [[-> Hn]|(b & e & Hb & Hl & Hx)].
    + destruct (srv_get _ _ _) as [v|] eqn:Hg; [apply srv_get_spec in Hg as (e & Hg & _); congruence|].
      destruct Hv as [-> Hv]. split; [lia|]. by exists None.
    + rewrite (keep_get _ _ _ _ _ Hx (lasting_live _ _ Hd Hl)) in Hv.
      destruct Hv as (m & e' & Hm & -> & Hx' & Hk). rewrite Hx in Hx'. injection Hx' as <-.
      apply GoStr.ParseInt_FormatInt_some in Hm as ->; [|lia]. split; [lia|]. by exists e.
Qed.
Lemma expire_keeps c w :
  wp (Expire (RedisKey.AdminLoginFail u) (24 * GoTime.Hour)) (fun _ w' => (w_tick w < w_tick w')%nat /\
    (in_day (env_now (w_tick w)) -> (barred w -> barred w') /\ (stands c w -> stands c w'))) w.
Proof.
  apply wp_command.
  - intros e w' Hl Ht. split; [lia|]. apply later_same in Hl. split; [by apply barred_same|by apply stands_same].
  - intros a r w' [= _ Hr] Ht Hw. rewrite <- Hw in Hr. split; [lia|]. intros Hd.
    destruct (keep_expire (env_now (w_tick w)) (RedisKey.AdminLoginFail u)
      (Z.max 1 (24 * GoTime.Hour / GoTime.Second) * GoTime.Second) (t_redis (w_db w))) as [Hret Hx].
    rewrite Hr in Hret, Hx. split.
    + intros (x & Hl & Hk). exists x. split; [done|]. apply Hret; [done|done|]. by eapply lasting_live.
    + intros (e & Hl & Hk). eexists. split; [|by apply (Hx _ _ Hk), lasting_live]. destruct Hd. unfold lasting. cbn [snd].
      change (Z.max 1 _ * _)%Z with (24 * GoTime.Hour)%Z. lia.
Qed.
Lemma lock_bars c w :
  wp (Set_ (RedisKey.AdminLoginLock u) "locked" (24 * GoTime.Hour)) (fun r w' => (w_tick w < w_tick w')%nat /\
    (in_day (env_now (w_tick w)) ->
       (barred w -> barred w') /\ (stands c w -> stands c w') /\ (is_ok r = true -> barred w'))) w.
Proof.
  apply wp_command.
  - intros e w' Hl Ht. split; [lia|]. apply later_same in Hl.
    split; [by apply barred_same|]. by split; [apply stands_same|].
  - intros a r w' [= _ Hr] Ht Hw. rewrite <- Hw in Hr. split; [lia|]. intros Hd.
    destruct (keep_set (env_now (w_tick w)) (RedisKey.AdminLoginLock u) "locked" (server_ttl (24 * GoTime.Hour))
      (t_redis (w_db w))) as [Hx Hret]. rewrite Hr in Hret, Hx.
    assert (barred w') as Hb.
    { eexists. split; [|exact Hx]. unfold lasting. cbn [snd].
      change (server_ttl _) with (Some (24 * GoTime.Hour)%Z). cbn. destruct Hd. lia. }
    split; [done|]. split; [|done]. intros (e & Hl & Hk). exists e. split; [done|].
    apply Hret; [done|done|]. by eapply lasting_live.
Qed.

(** Since [w], where [n] were counted, the counter went up to [c]. *)
Definition risen n c w w' : Prop := (w_tick w < w_tick w')%nat /\
  (within w w' -> (barred w -> barred w') /\ (at_least n w -> (Z.of_nat n < c)%Z /\ stands c w')).
Lemma risen_counted n c w w' : risen n c w w' -> within w w' -> counted n w -> counted n w'.
Proof.
  intros [_ Hr] Hd [H1 H2]. destruct (Hr Hd) as [Hb Hs], (Hs H1). split; [|by auto]. eapply stands_at_least; [| |done]; lia.
Qed.
Lemma risen_wrong n c w w' :
  risen n c w w' -> ((10 <= c)%Z -> within w w' -> barred w') -> within w w' -> counted n w -> counted (S n) w'.
Proof.
  intros [_ Hr] Hl Hd [H1 H2]. destruct (Hr Hd) as [Hb Hs], (Hs H1). split.
  - eapply stands_at_least; [| |done]; lia.
  - intros Hn. apply Hl; [lia|done].
Qed.
Lemma risen_step n c w w1 w2 : risen n c w w1 -> (w_tick w1 < w_tick w2)%nat ->
  (in_day (env_now (w_tick w1)) -> (barred w1 -> barred w2) /\ (stands c w1 -> stands c w2)) -> risen n c w w2.
Proof.
  intros [T1 H1] T2 H2. split; [lia|]. intros Hd. destruct H1 as [Hb Hs]; [eapply within_l, Hd; lia|].
  destruct H2 as [Hb' Hs']; [apply Hd; lia|]. split; [by auto|]. intros Hn. destruct (Hs Hn). auto.
Qed.

(** [refused] counts when it says so. *)
Definition counts {A} (n : nat) w (r : res A) w' : Prop :=
  (w_tick w <= w_tick w')%nat /\ (wrong r = true -> (w_tick w < w_tick w')%nat) /\ (within w w' -> counted n w -> counted (if wrong r then S n else n) w').
Lemma risen_counts n c w w' {A} (r : res A) : risen n c w w' -> wrong r = false -> counts n w r w'.
Proof. intros Hr Hw. split; [destruct Hr; lia|]. rewrite Hw. split; [done|]. by eapply risen_counted. Qed.

Lemma refused_counts {A} s n text w :
  wp (refused s (RedisKey.AdminLoginFail u) (RedisKey.AdminLoginLock u) text : M DB A) (fun r w' =>
    match r with Ok _ => False | Err e => counts n w (Err e : res A) w' end) w.
Proof.
  unfold refused, handleLoginFail. apply wp_bind, wp_if; intros _; [by apply wp_throw|].
  apply wp_bind. unfold internal. apply wp_map_err. eapply wp_mono; [apply (incr_counts n)|].
  intros r w1 [T1 H1]. destruct r as [c|e]; cbv beta iota.
  2: { split; [lia|]. split; [done|]. intros Hd Hc. change (wrong _) with false.
       destruct H1 as [Hb Ha]; [apply Hd; lia|]. split; [apply Ha, Hc|]. intros Hn. apply Hb, Hc, Hn. }
  assert (risen n c w w1) as R1.
  { split; [done|]. intros Hd. apply H1, Hd. lia. }
  clear T1 H1. apply wp_bind. eapply (wp_mono _ (fun r w2 => risen n c w w2 /\ match r with Ok _ => True | Err e => wrong_error e = false end)).
  { apply wp_if; intros _; [|by apply wp_ret]. apply wp_map_err. eapply wp_mono; [apply (expire_keeps c)|].
    intros [[]|e] w2 [T2 H2]; (split; [by eapply risen_step|done]). }
  intros [[]|e] w2 [R2 He]; cbv beta iota; [|eapply risen_counts; [exact R2|exact He]].
  apply wp_bind. eapply (wp_mono _ (fun r w3 => risen n c w w3 /\
    match r with Ok _ => (10 <= c)%Z -> within w w3 -> barred w3 | Err e => wrong_error e = false end)).
  { apply wp_if; intros Hc; [|apply wp_ret; split; [done|]; intros ?; bools; lia]. apply wp_map_err. eapply wp_mono; [apply (lock_bars c)|].
    intros r w3 [T3 H3]. assert (risen n c w w3) as R3.
    { eapply risen_step; [exact R2|done|]. intros Hd. destruct (H3 Hd) as (? & ? & _). done. }
    destruct r as [[]|e]; (split; [done|]); [|done]. intros _ Hd. destruct R2, H3 as (_ & _ & Hb); [apply Hd; lia|]. by apply Hb. }
  intros [[]|e] w3 [R3 Hl]; cbv beta iota; [|eapply risen_counts; [exact R3|exact Hl]].
  apply wp_ret. cbv beta iota. apply wp_throw. split; [destruct R3; lia|]. split; [destruct R3; lia|].
  destruct (wrong _); [eapply risen_wrong; [exact R3|exact Hl]|eapply risen_counted; exact R3].
Qed.

(** ** A login *)
Lemma framed_counts n w w1 w' {A} (r : res A) : framed w w1 -> counts n w1 r w' -> counts n w r w'.
Proof.
  intros [T1 H1] (T2 & L2 & H2). split; [lia|]. split; [intros Hw%L2; lia|]. intros Hd Hc. apply H2; [by eapply within_r|].
  eapply counted_same; [|exact Hc]. apply H1. by eapply within_l.
Qed.
Lemma framed_quits n w w' {A} (r : res A) : framed w w' -> wrong r = false -> counts n w r w'.
Proof. intros [T Hw] Hr. split; [done|]. rewrite Hr. split; [done|]. intros Hd. by apply counted_same, Hw. Qed.

(** A computation whose errors do not look like a wrong credential. *)
Definition plain {A} (m : M DB A) : Prop :=
  forall w, match (m w).1 with Ok _ => True | Err e => wrong_error e = false end.
Lemma plain_bind {A B} (m : M DB A) (k : A -> M DB B) : plain m -> (forall a, plain (k a)) -> plain (bind m k).
Proof.
  intros Hm Hk w. unfold bind. specialize (Hm w). destruct (m w) as [[a|e] w1]; simpl in *; [apply Hk|done].
Qed.
Lemma plain_ret {A} (a : A) : plain (ret a).
Proof. by intros w. Qed.
Lemma plain_internal {A} text (m : M DB A) :
  (forall e, wrong_error (Bizerr.InternalWrap text e) = false) -> plain (internal text m).
Proof. intros Hf w. unfold internal, map_err. destruct (m w) as [[]]; [done|apply Hf]. Qed.
Lemma plain_map_err {A} f (m : M DB A) : (forall e, wrong_error (f e) = false) -> plain (map_err f m).
Proof. intros Hf w. unfold map_err. destruct (m w) as [[]]; [done|apply Hf]. Qed.
Lemma plain_gormDB : plain gormDB.
Proof. intros w. unfold gormDB, bind, get_db. by destruct (db_nil _). Qed.
Lemma plain_GetByID id : plain (GetByID id).
Proof.
  apply plain_bind; [|intros ?; apply plain_ret]. unfold FindUserByID, first_or_nil. destruct (_ <=? _)%Z; [apply plain_ret|].
  apply plain_bind; [apply plain_gormDB|]. intros _. by apply plain_map_err.
Qed.
Lemma plain_legacy s x p : plain (loadLegacyAdmin s x p).
Proof.
  unfold loadLegacyAdmin. destruct (cfg s); [|apply plain_ret].
  apply plain_bind; [by apply plain_internal|]. intros ?. by apply plain_internal.
Qed.
Lemma plain_migrate l x p : plain (migrateLegacyAdmin l x p).
Proof. apply plain_bind; [by apply plain_internal|]. intros ?. by apply plain_internal. Qed.
Lemma plain_upgrade a p : plain (tryUpgradeAdminPasswordHash a p).
Proof.
  unfold tryUpgradeAdminPasswordHash. destruct (_ <=? _)%Z; [apply plain_ret|]. intros w. unfold bind, attempt.
  destruct (hashAdminPassword p w) as [[h|e] w1]; [|done].
  by destruct (UpdateAdminPasswordHash _ h w1) as [[] w2].
Qed.
Lemma wp_plain w0 w {A} (m : M DB A) (Q : res A -> World DB -> Prop) :
  framed w0 w -> does framed m -> plain m ->
  (forall a w', framed w0 w' -> Q (Ok a) w') ->
  (forall e w', framed w0 w' -> wrong_error e = false -> Q (Err e) w') -> wp m Q w.
Proof.
  intros Hw Hm Hp H1 H2. specialize (Hp w). specialize (Hm w). unfold wp. destruct (m w) as [[a|e] w'].
  - apply H1. by eapply framed_trans.
  - apply H2; [by eapply framed_trans|done].
Qed.

(** Not let in, the caller leaves at most one guess behind. *)
Definition turned {A} (n : nat) w (r : res A) w' : Prop :=
  (w_tick w <= w_tick w')%nat /\ (let_in r = false -> wrong r = true -> (w_tick w < w_tick w')%nat) /\
  (let_in r = false -> within w w' -> counted n w -> counted (if wrong r then S n else n) w').
Lemma counts_turned n w {A} (r : res A) w' : counts n w r w' -> turned n w r w'.
Proof. intros (T & L & Hc). split; [done|]. by split; intros _. Qed.

Lemma AdminLogin_turned s req n w : alr_Username req = u -> wp (AdminLogin s req) (turned n w) w.
Proof.
  intros Hu. pose proof (framed_refl w) as F0. unfold AdminLogin. rewrite Hu. apply wp_bind.
  destruct (adminJWT s) as [h|]; [|apply wp_throw, counts_turned; by apply framed_quits].
  apply wp_ret, wp_if; intros _; [apply wp_throw, counts_turned; by apply framed_quits|].
  apply wp_bind, wp_map_err. eapply wp_framed; [exact F0|apply does_Exists, framed_rel|].
  intros [locked|e] w1 F1; cbv beta iota; [|apply counts_turned; by apply framed_quits].
  apply wp_if; intros _; [apply wp_throw, counts_turned; by apply framed_quits|].
  apply wp_if; intros _.
  { eapply wp_mono; [apply (refused_counts s n)|]. intros [r|e] w' Hc; [done|]. eapply counts_turned, framed_counts; [exact F1|exact Hc]. }
  apply wp_bind, wp_map_err. eapply wp_framed; [exact F1|unfold FindAdminByUsername; does_auto|].
  intros [admin|e] w2 F2; cbv beta iota; [|apply counts_turned; by apply framed_quits].
  apply wp_bind. eapply (wp_mono _ (fun r w' => match r with Ok _ => framed w w' | Err e => counts n w (Err e : res Admin) w' end)).
  { destruct admin as [a|]; [by apply wp_ret|]. apply wp_bind.
    eapply wp_plain; [exact F2|auto with steps|apply plain_legacy| |by intros; apply framed_quits].
    intros [l|] w3 F3; cbv beta iota.
    - eapply wp_plain; [exact F3|auto with steps|apply plain_migrate|done|by intros; apply framed_quits].
    - eapply wp_mono; [apply (refused_counts s n)|]. intros [r|e] w' Hc; [done|]. eapply framed_counts; [exact F3|exact Hc]. }
  intros [a|e] w3 F3; cbv beta iota; [|by apply counts_turned].
  destruct (verifyAdminPassword _ _) as [matched needsUpgrade]. apply wp_if; intros _.
  { eapply wp_mono; [apply (refused_counts s n)|]. intros [r|e] w' Hc; [done|].
    eapply counts_turned, framed_counts; [exact F3|exact Hc]. }
  apply wp_bind. eapply wp_plain; [exact F3| | | |by intros; apply counts_turned, framed_quits].
  { destruct needsUpgrade; [auto with steps|apply does_ret, framed_rel]. }
  { destruct needsUpgrade; [apply plain_upgrade|apply plain_ret]. }
  intros [] w4 F4; cbv beta iota. apply wp_bind.
  eapply wp_plain; [exact F4|auto with steps|apply plain_GetByID| |by intros; apply counts_turned, framed_quits].
  intros [user|] w5 F5; cbv beta iota; [|by apply wp_bind, wp_throw, counts_turned, framed_quits].
  apply wp_bind, wp_ret, wp_bind, wp_map_err, wp_command.
  { intros e w6 Hl _. apply counts_turned, framed_quits; [|done].
    eapply framed_trans; [exact F5|by apply framed_later]. }
  intros [] r w6 _ T6 _. cbv beta iota.
  assert (forall (r : res (string * string * option User)) w', (w_tick w6 <= w_tick w')%nat -> let_in r = true -> turned n w r w') as Hin.
  { intros x w' T Hx. split; [destruct F5; lia|]. by rewrite Hx. }
  apply wp_bind, wp_map_err. eapply wp_framed; [apply framed_refl|apply framed_admin_pair|].
  intros [p|e] w7 [T7 _]; cbv beta iota; [apply wp_ret|]; by apply Hin.
Qed.

(** A locked name stays out. *)
Lemma barred_login s req w : alr_Username req = u -> barred w -> in_day (env_now (w_tick w)) ->
  adminJWT s <> None -> redis s = true ->
  (AdminLogin s req w).1 = Err locked_out \/ (AdminLogin s req w).1 = Err lock_unknown.
Proof.
  intros Hu (x & Hl & Hx) Hd Hh Hr.
  change (wp (AdminLogin s req) (fun r _ => r = Err locked_out \/ r = Err lock_unknown) w).
  unfold AdminLogin. rewrite Hu, Hr. apply wp_bind. destruct (adminJWT s); [|done]. apply wp_ret. simpl negb. cbv iota.
  apply wp_bind, wp_map_err. unfold Exists, command. repeat wp_step. destruct (env_fault _); repeat wp_step; [right; reflexivity|].
  destruct x as [v e]. change (redis_of (w_db (bump (bump w)))) with (t_redis (w_db w)).
  rewrite (keep_get _ _ _ v e Hx) by (by apply lasting_live). repeat wp_step. left. reflexivity.
Qed.

(** ** A day of guesses *)

(** [n] answers told someone that the credentials for [u] were wrong, and nobody got
    in; every other request, of any service, may come in between. *)
Inductive guesses : nat -> World DB -> World DB -> Prop :=
| g_start w : guesses 0 w w
| g_other n w w1 s q : guesses n w w1 -> honest s -> elsewhere q -> guesses n w (serve s q w1).2
| g_login n w w1 s req r w2 : guesses n w w1 -> alr_Username req = u ->
    AdminLogin s req w1 = (r, w2) -> let_in r = false -> guesses (if wrong r then S n else n) w w2.

Lemma guesses_counted n w w' : guesses n w w' -> (w_tick w <= w_tick w')%nat /\
  (within w w' -> keys w !! RedisKey.AdminLoginFail u = None -> counted n w').
Proof.
  induction 1 as [w|n w w1 s q Hg [T1 IH] Hs Hq|n w w1 s req r w2 Hg [T1 IH] Hu Hrun Hout].
  - split; [done|]. intros _ Hk. split; [by left|lia].
  - destruct (serve_framed s q Hs Hq w1) as [T2 H2]. split; [lia|]. intros Hd Hk.
    eapply counted_same; [apply H2; by eapply within_r|]. apply IH; [by eapply within_l|done].
  - pose proof (AdminLogin_turned s req n w1 Hu) as Ht. unfold wp in Ht. rewrite Hrun in Ht. destruct Ht as (T2 & _ & H2).
    cbn [fst snd] in *. split; [lia|]. intros Hd Hk. apply H2; [done|by eapply within_r|]. apply IH; [by eapply within_l|done].
Qed.

Lemma barred_not_wrong s req w r w' : alr_Username req = u -> barred w -> within w w' ->
  AdminLogin s req w = (r, w') -> let_in r = false -> wrong r = false.
Proof.
  intros Hu Hb Hd Hrun Hout. destruct (wrong r) eqn:Hw; [|done].
  pose proof (AdminLogin_turned s req 0 w Hu) as Ht. unfold wp in Ht. rewrite Hrun in Ht.
  destruct Ht as (_ & L & _). pose proof (L Hout Hw) as T. simpl in T.
  destruct (adminJWT s) as [h|] eqn:Hh.
  2: { unfold AdminLogin in Hrun. rewrite Hh in Hrun. injection Hrun as <- _. done. }
  destruct (redis s) eqn:Hr.
  2: { unfold AdminLogin in Hrun. rewrite Hh, Hr in Hrun. injection Hrun as <- _. done. }
  assert (in_day (env_now (w_tick w))) as Hday by (apply Hd; lia).
  pose proof (barred_login s req w Hu Hb Hday) as Hl. rewrite Hrun, Hh, Hr in Hl.
  by destruct Hl as [Hl|Hl]; [..|simpl in Hl; subst r|simpl in Hl; subst r].
Qed.

(** C10: brute force is cut off: within 24 hours of a state without failures for a user
    name, at most ten answers tell that the credentials were wrong, whatever requests
    lie in between and whatever commands fail, as long as nobody gets in and the Redis
    server keeps its keys; and after the tenth even the right credentials are turned
    away. *)
Theorem login_limit n w w' :
  guesses n w w' -> keys w !! RedisKey.AdminLoginFail u = None -> within w w' ->
  (n <= 10)%nat /\
  (n = 10%nat -> forall s req, alr_Username req = u -> in_day (env_now (w_tick w')) ->
     adminJWT s <> None -> redis s = true ->
     (AdminLogin s req w').1 = Err locked_out \/ (AdminLogin s req w').1 = Err lock_unknown).
Proof.
  intros Hg Hk Hd. split.
  - induction Hg as [w|n w w1 s q Hg IH Hs Hq|n w w1 s req r w2 Hg IH Hu Hrun Hout]; [lia| |].
    + apply IH; [done|]. eapply within_l, Hd. by apply serve_framed.
    + pose proof (AdminLogin_turned s req n w1 Hu) as Ht. unfold wp in Ht. rewrite Hrun in Ht.
      cbn [fst snd] in *.
      destruct Ht as (T2 & _ & _), (guesses_counted _ _ _ Hg) as [T1 Hc].
      assert (within w w1) as Hd1 by by eapply within_l. specialize (IH Hk Hd1).
      destruct (wrong r) eqn:Hw; [|done]. destruct (decide (n = 10%nat)) as [->|]; [|lia].
      destruct (Hc Hd1 Hk) as [_ Hb]. rewrite (barred_not_wrong s req w1 r w2) in Hw; [done|done|by apply Hb| |done..].
      by eapply within_r.
  - intros -> s req Hu Hday Hh Hr. destruct (guesses_counted _ _ _ Hg) as [_ Hc].
    destruct (Hc Hd Hk) as [_ Hb]. by apply barred_login; [|apply Hb| | |].
Qed.
End guard.

(** ** Witness: ten guesses against the demo service *)
Import UserDemo.

Definition guess_req : AdminLoginReq := mkAdminLoginReq "root" "hunter3" "second".
Definition guess_run (k : nat) : World (DB bytewise gmap_sql gmap_server) :=
  Nat.iter k (fun w => (AdminLogin demo_service guess_req w).2) w0.
Definition guess_day : Z := (1700000000 * GoTime.Second)%Z.

Lemma guess_wrong : forallb (fun k =>
  let r := (AdminLogin demo_service guess_req (guess_run k)).1 in wrong r && negb (let_in r)) (seq 0 10) = true.
Proof. by vm_compute. Qed.
Lemma guess_run_guesses k : (k <= 10)%nat -> guesses "root" k w0 (guess_run k).
Proof.
  induction k as [|k IH]; intros Hk; [apply g_start|].
  assert (In k (seq 0 10)) as Hin by (apply in_seq; lia).
  pose proof (proj1 (forallb_forall _ _) guess_wrong k Hin) as Hw. cbv beta zeta in Hw. apply andb_true_iff in Hw as [Hw Hout%negb_true_iff].
  pose proof (g_login "root" k w0 (guess_run k) demo_service guess_req _ _ (IH ltac:(lia)) eq_refl
    (surjective_pairing _) Hout) as Hg.
  by rewrite Hw in Hg.
Qed.
Lemma guess_ticks : (Z.of_nat (w_tick (guess_run 10)) < 86400)%Z.
Proof. by vm_compute. Qed.
Lemma guess_in_day n : (Z.of_nat n < 86400)%Z -> in_day guess_day (env_now n).
Proof. unfold in_day, guess_day. cbn [env_now demo_env]. unfold GoTime.Hour, GoTime.Minute, GoTime.Second. lia. Qed.
Lemma guess_within : within guess_day w0 (guess_run 10).
Proof.
  intros n [_ Hn]. apply guess_in_day. pose proof guess_ticks. lia.
Qed.

Lemma login_limit_witness :
  is_ok (AdminLogin demo_service login_req w0).1 = true /\
  (AdminLogin demo_service login_req (guess_run 10)).1 = Err locked_out.
Proof.
  split; [by vm_compute|].
  destruct (login_limit "root" guess_day 10 w0 (guess_run 10) (guess_run_guesses 10 ltac:(lia)) eq_refl guess_within)
    as [_ Hl].
  destruct (Hl eq_refl demo_service login_req eq_refl) as [He|He]; [|done|done|exact He|].
  - apply guess_in_day, guess_ticks.
  - exfalso. revert He. by vm_compute.
Defined.
End LoginGuard.

(** ** User: replays of defects

    Concrete requests that show what the code does and should not. *)

Module UserFindings.
Import Users UserRepo UserService UserSteps UserSafe UserDemo LoginGuard.

(** A case-insensitive collation, as [utf8mb4_unicode_ci] of [deployments/mysql]. *)
#[local, refine] Instance caseless : Collation | 0 := {| same_text a b := bool_decide (GoStr.fold a = GoStr.fold b) |}.
Proof.
  - intros a. by apply bool_decide_eq_true.
  - intros a b. apply bool_decide_ext. split; congruence.
  - intros a b c. rewrite !bool_decide_eq_true. congruence.
Defined.

Definition caseless_service : Service caseless gmap_sql gmap_server := mkService true (Some demo_config) None None.
Definition caseless_start : World (DB caseless gmap_sql gmap_server) :=
  mkWorld {| db_nil := false; t_users := grows [admin_user]; t_admins := grows [admin_row]; t_redis := (∅ : rsrv) |} 0 [].
(** Ten wrong guesses under each of the given names. *)
Definition guess_as (names : list string) (w : World (DB caseless gmap_sql gmap_server)) :=
  fold_left (fun w name => Nat.iter 10 (fun w =>
    (AdminLogin caseless_service (mkAdminLoginReq name "hunter3" "second") w).2) w) names w.

(** The lock is kept per spelling of the name, and the database does not mind the case:
    after thirty wrong guesses the account still opens under a fourth spelling. *)
Lemma lock_per_spelling :
  (AdminLogin caseless_service login_req (guess_as ["root"; "Root"; "rOOt"] caseless_start)).1 = Err locked_out /\
  is_ok (AdminLogin caseless_service (mkAdminLoginReq "ROOT" "hunter2" "second")
    (guess_as ["root"; "Root"; "rOOt"] caseless_start)).1 = true.
Proof. split; vm_compute; reflexivity. Qed.

(** An anonymous identity, renamed an hour ago. *)
Definition anonymous_user : User :=
  {| zero_User with usr_ID := 8%Z; usr_OpenID := "openid-root:anon:7"; usr_RootUserID := 7%Z;
     usr_AccountType := "anonymous"; usr_Nickname := "old";
     usr_UpdatedAt := ((1700000000 - 3600) * GoTime.Second)%Z |}.
Definition renamed_start : World (DB bytewise gmap_sql gmap_server) :=
  mkWorld {| db_nil := false; t_users := grows [admin_user; anonymous_user]; t_admins := grows [];
             t_redis := (∅ : rsrv) |} 0 [].
Definition rename_req : UserEditReq := mkUserEditReq "new" "" "" "".

(** The 72 hours an anonymous nickname has to last do not bind the general edit. *)
Lemma edit_ignores_the_wait :
  is_ok (UserService.UpdateAnonymousNickname 7 "new" renamed_start).1 = false /\
  match (Edit demo_service 8 rename_req renamed_start).1 with
  | Ok (Some user) => usr_Nickname user = "new"%string
  | _ => False
  end.
Proof. split; vm_compute; reflexivity. Qed.

(** Without Redis a refresh token opens what an access token opens. *)
Definition storeless : Service bytewise gmap_sql gmap_server :=
  mkService false (Some demo_config) (Some (fun code => ret ("openid-" ++ code)%string)) None.
Definition storeless_refresh : string :=
  match (WechatLogin storeless "abc" w0).1 with Ok (_, r, _, _, _) => r | Err _ => "" end.
Lemma refresh_token_is_accepted :
  is_ok (serve storeless (RAccess storeless_refresh) (WechatLogin storeless "abc" w0).2).1 = true.
Proof. vm_compute. reflexivity. Qed.
(** When [EXPIRE] fails after the first wrong guess, the count never expires. *)
#[local] Instance faulty_env : Env | 0 := {
  env_now t := (1700000000 * GoTime.Second + Z.of_nat t * GoTime.Second)%Z;
  env_id t := (1000 + Z.of_nat t)%Z;
  env_fault t := (t =? 6)%nat;
}.
Lemma count_without_expiry :
  kv (t_redis (w_db (AdminLogin demo_service guess_req w0).2)) !! RedisKey.AdminLoginFail "root" = Some ("1", None).
Proof. vm_compute. reflexivity. Qed.
End UserFindings.
