(* ===== verification/FeedModel.v ===== *)
(** * Feed: data model

    What topics, comments and the message consumers share: the documents of the
    MongoDB collections ([internal/topic/model.go], [internal/comment/model.go],
    [internal/mq]), the messages of the queues ([internal/mq/model.go]) and the
    store, with the rows of [campus_user] and the Redis server of the user component.

    A document type lists the fields that any part of the program writes; a field
    that some writer leaves out is an option.  Times are stored in milliseconds. *)
From S2P Require Import Prelude GoString GoTime GoMonad Sql RedisStr Mongo UserModel.

Module Feed.
Import Users.

(** BSON dates hold milliseconds. *)
Definition bson_time (t : Z) : Z := (t / GoTime.Millisecond * GoTime.Millisecond)%Z.

(** ** Comments *)
Record UserPart := mkUserPart {
  up_UserID : string; up_Avatar : string; up_NickName : string;
  up_AccountType : string; up_Signature : string; up_Gender : option string;
}.
Record CommentDoc := mkCommentDoc {
  cd_ID : Z;
  cd_TopicID : string;
  cd_Comment : string;
  cd_CreatedTime : Z;
  cd_User : UserPart;
  cd_Parent : option UserPart;
  cd_ParentCmtID : string;
  cd_RootCmtID : string;
  cd_IsAuthor : bool;
  cd_LikeNum : option Z;
  cd_CommentNum : option Z;
  cd_HasCheck : option bool;
  cd_DeletedTime : option Z;
}.
Record LikeDoc := mkLikeDoc { cl_ID : Z; cl_CommentID : string; cl_UserIDs : list string }.

(** ** Topics *)
(** [ext interface{}]: a string, or whatever else the request held. *)
Inductive Ext := ExtString (s : string) | ExtOther (json : string).
Record TopicDoc := mkTopicDoc {
  td_ID : Z;
  td_ThemeID : string;
  td_UserID : string;
  td_Title : string;
  td_Content : string;
  td_Imgs : list string;
  td_HasCheck : bool;
  td_VisitedNum : Z;
  td_LikeNum : Z;
  td_CommentNum : Z;
  td_CollectionNum : Z;
  td_Ext : option Ext;
  td_AccountType : string;
  td_NickName : string;
  td_Avatar : string;
  td_gender : option string;
  td_signature : option string;
  td_account_type : option string;
}.
Record StateDoc := mkStateDoc {
  st_ID : Z; st_UserID : string; st_ThemeName : string; st_AccountType : string; st_TopicIDs : list string;
}.
Record ThemeIDDoc := mkThemeIDDoc { th_ID : Z; th_Name : string; th_ThemeID : string }.

#[export] Instance UserPart_eq : EqDecision UserPart. Proof. solve_decision. Defined.
#[export] Instance CommentDoc_eq : EqDecision CommentDoc. Proof. solve_decision. Defined.
#[export] Instance LikeDoc_eq : EqDecision LikeDoc. Proof. solve_decision. Defined.
#[export] Instance Ext_eq : EqDecision Ext. Proof. solve_decision. Defined.
#[export] Instance TopicDoc_eq : EqDecision TopicDoc. Proof. solve_decision. Defined.
#[export] Instance StateDoc_eq : EqDecision StateDoc. Proof. solve_decision. Defined.
#[export] Instance ThemeIDDoc_eq : EqDecision ThemeIDDoc. Proof. solve_decision. Defined.

#[export] Instance CommentDoc_entity : Entity CommentDoc := { ent_id := cd_ID; ent_clash _ _ := false }.
#[export] Instance LikeDoc_entity : Entity LikeDoc := { ent_id := cl_ID; ent_clash _ _ := false }.
#[export] Instance TopicDoc_entity : Entity TopicDoc := { ent_id := td_ID; ent_clash _ _ := false }.
#[export] Instance StateDoc_entity : Entity StateDoc := { ent_id := st_ID; ent_clash _ _ := false }.
#[export] Instance ThemeIDDoc_entity : Entity ThemeIDDoc := { ent_id := th_ID; ent_clash _ _ := false }.
#[export] Instance CommentDoc_free : NoIndex CommentDoc _. Proof. by split. Qed.
#[export] Instance LikeDoc_free : NoIndex LikeDoc _. Proof. by split. Qed.
#[export] Instance TopicDoc_free : NoIndex TopicDoc _. Proof. by split. Qed.
#[export] Instance StateDoc_free : NoIndex StateDoc _. Proof. by split. Qed.
#[export] Instance ThemeIDDoc_free : NoIndex ThemeIDDoc _. Proof. by split. Qed.

(** ** Messages *)
Record AddCommentUser := mkAddCommentUser {
  au_UserID : string; au_Avatar : string; au_NickName : string; au_AccountType : string; au_Signature : string;
}.
Record AddCommentPayload := mkAddCommentPayload {
  ap_ID : Z;
  ap_TopicID : string;
  ap_Comment : string;
  ap_CreatedTime : Z;
  ap_User : AddCommentUser;
  ap_Parent : option AddCommentUser;
  ap_ParentCmtID : string;
  ap_RootCmtID : string;
  ap_IsAuthor : bool;
  ap_LikeNum : Z;
  ap_CommentNum : Z;
  ap_HasCheck : bool;
}.
Record NotifyMsg := mkNotifyMsg {
  nm_EventID : Z; nm_TargetUserID : string; nm_SenderUserID : string; nm_Type : string;
  nm_Content : string; nm_TopicID : string; nm_CommentID : string; nm_CreatedTime : Z;
}.
Record UserUpdateMsg := mkUserUpdateMsg {
  um_UserID : string; um_NickName : string; um_Avatar : string; um_Gender : string;
  um_Signature : string; um_AccountType : Z;
}.
Inductive Payload :=
| TopicCheckMsg (TopicID : string)
| AddCommentMsg (Comment : AddCommentPayload)
| NotifyUserMsg (msg : NotifyMsg)
| TopicUserUpdateMsg (msg : UserUpdateMsg)
| CommentUserUpdateMsg (msg : UserUpdateMsg)
| TopicDeleteMsg (TopicID : string)
| CommentDeleteMsg (TopicID CommentID : string).

(** [MQMessage] in the queue behind a routing key. *)
Record MQMessage := mkMQMessage { mq_Key : string; mq_UniqueID : Z; mq_Data : Payload }.
#[export] Instance AddCommentUser_eq : EqDecision AddCommentUser. Proof. solve_decision. Defined.
#[export] Instance AddCommentPayload_eq : EqDecision AddCommentPayload. Proof. solve_decision. Defined.
#[export] Instance NotifyMsg_eq : EqDecision NotifyMsg. Proof. solve_decision. Defined.
#[export] Instance UserUpdateMsg_eq : EqDecision UserUpdateMsg. Proof. solve_decision. Defined.
#[export] Instance Payload_eq : EqDecision Payload. Proof. solve_decision. Defined.
#[export] Instance MQMessage_eq : EqDecision MQMessage. Proof. solve_decision. Defined.

(** ** The store *)
Section store.
Context {C : Collation} {D : SqlEngine} {R : RedisServer} {G : MongoServer}.

Record DB := mkDB {
  db_nil : bool;
  mongo_nil : bool;
  t_users : table User _;
  c_comments : @table mongo_engine CommentDoc _;
  c_comment_likes : @table mongo_engine LikeDoc _;
  c_topics : @table mongo_engine TopicDoc _;
  c_topic_likes : @table mongo_engine StateDoc _;
  c_topic_collections : @table mongo_engine StateDoc _;
  c_theme_ids : @table mongo_engine ThemeIDDoc _;
  t_redis : rsrv;
  broker : list MQMessage;
}.
End store.
Arguments DB D R G : clear implicits.

Record State {R : RedisServer} := mkState {
  users : gmap Z User;
  comments : gmap Z CommentDoc;
  comment_likes : gmap Z LikeDoc;
  topics : gmap Z TopicDoc;
  topic_likes : gmap Z StateDoc;
  topic_collections : gmap Z StateDoc;
  theme_ids : gmap Z ThemeIDDoc;
  redis : rsrv;
  sent : list MQMessage;
  nils : bool * bool;
}.
Arguments State R : clear implicits.

Section abstraction.
Context {D : SqlEngine} {R : RedisServer} {G : MongoServer}.
Notation DB := (DB D R G).
Notation State := (State R).

Definition db_state (s : DB) : State :=
  mkState R (view (t_users s)) (@view mongo_engine _ _ (c_comments s)) (@view mongo_engine _ _ (c_comment_likes s))
    (@view mongo_engine _ _ (c_topics s)) (@view mongo_engine _ _ (c_topic_likes s))
    (@view mongo_engine _ _ (c_topic_collections s)) (@view mongo_engine _ _ (c_theme_ids s))
    (t_redis s) (broker s) (db_nil s, mongo_nil s).
#[export] Instance DB_abs : Abstract DB State := db_state.

#[export] Instance tbl_users : Tbl DB State User _ _.
Proof.
  refine {| tget := t_users; tset t s := {| s with t_users := t |};
    aget := users; aset v s := {| s with users := v |} |}; by intros; try destruct a.
Defined.
#[export] Instance coll_comments : Coll DB State CommentDoc _ _.
Proof.
  refine {| tget := c_comments; tset t s := {| s with c_comments := t |};
    aget := comments; aset v s := {| s with comments := v |} |}; by intros; try destruct a.
Defined.
#[export] Instance coll_comment_likes : Coll DB State LikeDoc _ _.
Proof.
  refine {| tget := c_comment_likes; tset t s := {| s with c_comment_likes := t |};
    aget := comment_likes; aset v s := {| s with comment_likes := v |} |}; by intros; try destruct a.
Defined.
#[export] Instance coll_topics : Coll DB State TopicDoc _ _.
Proof.
  refine {| tget := c_topics; tset t s := {| s with c_topics := t |};
    aget := topics; aset v s := {| s with topics := v |} |}; by intros; try destruct a.
Defined.
Definition coll_topic_likes : Coll DB State StateDoc _ _.
Proof.
  refine {| tget := c_topic_likes; tset t s := {| s with c_topic_likes := t |};
    aget := topic_likes; aset v s := {| s with topic_likes := v |} |}; by intros; try destruct a.
Defined.
Definition coll_topic_collections : Coll DB State StateDoc _ _.
Proof.
  refine {| tget := c_topic_collections; tset t s := {| s with c_topic_collections := t |};
    aget := topic_collections; aset v s := {| s with topic_collections := v |} |}; by intros; try destruct a.
Defined.
#[export] Instance coll_theme_ids : Coll DB State ThemeIDDoc _ _.
Proof.
  refine {| tget := c_theme_ids; tset t s := {| s with c_theme_ids := t |};
    aget := theme_ids; aset v s := {| s with theme_ids := v |} |}; by intros; try destruct a.
Defined.
#[export] Instance DB_redis : HasRedis DB.
Proof. refine {| redis_of := t_redis; set_redis_of r s := {| s with t_redis := r |} |}. done. Defined.
End abstraction.
End Feed.
