(* ===== verification/CommentRepo.v ===== *)
(** * Comments: the repository

    [internal/comment/repository*.go], one definition per method, over the documents
    of [FeedModel] and the rows of [campus_user].  A filter is a predicate on the
    documents, a sort the order it asks for. *)
From S2P Require Import Prelude GoString GoTime GoMonad Sql RedisStr Mongo UserModel FeedModel.

Module CommentRepo.
Import Users Feed.
Open Scope Z_scope.

(** ** Data ([model.go]) *)
Definition DefaultRootCommentID : string := "0".

Record CommentUser := mkCommentUser {
  cu_UserID : string;
  cu_Avatar : string;
  cu_NickName : string;
  cu_AccountType : string;
  cu_Signature : string;
  cu_StuIsCheck : option bool;
  cu_ProvisionalExpiresAt : option Z;
}.
Record Comment := mkComment {
  cm_ID : Z;
  cm_TopicID : string;
  cm_Comment : string;
  cm_CreatedTime : Z;
  cm_User : CommentUser;
  cm_Parent : option CommentUser;
  cm_ParentCmtID : string;
  cm_RootCmtID : string;
  cm_IsAuthor : bool;
  cm_LikeNum : Z;
  cm_CommentNum : Z;
  cm_HasCheck : bool;
  cm_HasLike : bool;
}.
Record CommentTopic := mkCommentTopic {
  ct_ID : Z; ct_ThemeID : string; ct_UserID : string; ct_Avatar : string; ct_NickName : string;
  ct_AccountType : string; ct_Title : string; ct_Content : string; ct_Imgs : list string; ct_HasCheck : bool;
  ct_Ext : option Ext; ct_VisitedNum : Z; ct_LikeNum : Z; ct_CommentNum : Z; ct_CollectionNum : Z;
  ct_CreatedTime : option Z; ct_HasLike : bool; ct_HasCollection : bool;
}.
Record MyCommentItem := mkMyCommentItem { mc_Comment : Comment; mc_Topic : CommentTopic }.
Record userRecord := mkUserRecord {
  ur_ID : Z; ur_Nickname : string; ur_Avatar : string; ur_AccountType : string; ur_Power : Z; ur_Gender : string;
  ur_RootUserID : Z; ur_Signature : string; ur_StuIsCheck : bool; ur_ProvisionalExpiresAt : option Z;
}.

(** What the bson tags keep of a user and of a comment, and what comes back. *)
Definition user_part (u : CommentUser) : UserPart :=
  mkUserPart (cu_UserID u) (cu_Avatar u) (cu_NickName u) (cu_AccountType u) (cu_Signature u) None.
Definition comment_user (u : UserPart) : CommentUser :=
  mkCommentUser (up_UserID u) (up_Avatar u) (up_NickName u) (up_AccountType u) (up_Signature u) None None.

Definition encode_comment (id : Z) (c : Comment) : CommentDoc :=
  mkCommentDoc id (cm_TopicID c) (cm_Comment c) (bson_time (cm_CreatedTime c)) (user_part (cm_User c))
    (user_part <$> cm_Parent c) (cm_ParentCmtID c) (cm_RootCmtID c) (cm_IsAuthor c)
    (Some (cm_LikeNum c)) (Some (cm_CommentNum c)) (if cm_HasCheck c then Some true else None) None.
Definition decode_comment (d : CommentDoc) : Comment :=
  mkComment (cd_ID d) (cd_TopicID d) (cd_Comment d) (cd_CreatedTime d) (comment_user (cd_User d))
    (comment_user <$> cd_Parent d) (cd_ParentCmtID d) (cd_RootCmtID d) (cd_IsAuthor d)
    (default 0 (cd_LikeNum d)) (default 0 (cd_CommentNum d)) (default false (cd_HasCheck d)) false.
Definition decode_topic (d : TopicDoc) : CommentTopic :=
  mkCommentTopic (td_ID d) (td_ThemeID d) (td_UserID d) (td_Avatar d) (td_NickName d) (td_AccountType d)
    (td_Title d) (td_Content d) (td_Imgs d) (td_HasCheck d) (td_Ext d) (td_VisitedNum d) (td_LikeNum d)
    (td_CommentNum d) (td_CollectionNum d) None false false.
Definition user_record (u : User) : userRecord :=
  mkUserRecord (usr_ID u) (usr_Nickname u) (usr_Avatar u) (usr_AccountType u) (usr_Power u) (usr_Gender u)
    (usr_RootUserID u) (usr_Signature u) (usr_StuIsCheck u) (usr_ProvisionalExpiresAt u).

(** [formatCommentDate]: [Local] is the wall clock of the process' time zone. *)
Definition format_datetime (t : Z) : string :=
  let '(y, m, d) := GoTime.civil_from_days (t / GoTime.Day) in
  let s := (t mod GoTime.Day) / GoTime.Second in
  (GoTime.pad4 y ++ "-" ++ GoTime.pad2 m ++ "-" ++ GoTime.pad2 d ++ " " ++
   GoTime.pad2 (s / 3600) ++ ":" ++ GoTime.pad2 (s / 60 mod 60) ++ ":" ++ GoTime.pad2 (s mod 60))%string.
Definition formatCommentDate (Local : Z -> Z) (t : Z) : string :=
  if GoTime.IsZero t then "" else format_datetime (Local t).
Definition formatCommentDatePtr (Local : Z -> Z) (t : option Z) : string :=
  match t with Some t => formatCommentDate Local t | None => "" end.

Section repository.
Context {E : Env} {O : ObjectIDs} {D : SqlEngine} {R : RedisServer} {G : MongoServer}.
Notation DB := (DB D R G).
Notation M := (M DB).

Definition gormDB : M unit :=
  let! s := get_db in if db_nil s then throw (ENew "gorm db not initialized") else ret tt.
Definition mongoCollection : M unit :=
  let! s := get_db in if mongo_nil s then throw (ENew "mongo db not initialized") else ret tt.

(** ** [repository_comment.go] *)
Definition CreateComment (comment : Comment) : M Comment :=
  mongoCollection;;
  let! id := (if ObjectID.IsZero (cm_ID comment) then NewObjectID else ret (cm_ID comment)) in
  map_err (EWrapf "insert comment") (InsertOne CommentDoc (encode_comment id comment));;
  ret {| comment with cm_ID := id |}.

Definition set_hidden (now : Z) (d : CommentDoc) : CommentDoc :=
  {| d with cd_HasCheck := Some false; cd_DeletedTime := Some (bson_time now) |}.

Definition hideComment (id : Z) (filter : CommentDoc -> bool) : M (bool * bool) :=
  mongoCollection;;
  let! t := now in
  let! res := map_err (EWrapf ("hide comment " ++ ObjectID.Hex id))
    (UpdateOne CommentDoc (byid id filter) (fun d => Some (set_hidden t d))) in
  ret (0 <? MatchedCount res, 0 <? ModifiedCount res).

Definition HideCommentByUser (topicID : string) (commentID : Z) (userID : string) : M (bool * bool) :=
  hideComment commentID (fun d => String.eqb (cd_TopicID d) topicID && String.eqb (up_UserID (cd_User d)) userID).
Definition HideCommentAdmin (topicID : string) (commentID : Z) : M (bool * bool) :=
  hideComment commentID (fun d => String.eqb (cd_TopicID d) topicID).

Definition inc_topic_comments (delta : Z) (d : TopicDoc) : option TopicDoc :=
  (fun n => {| d with td_CommentNum := n |}) <$> inc_int delta (td_CommentNum d).
Definition IncrementTopicCommentNum (topicID delta : Z) : M bool :=
  mongoCollection;;
  let! res := map_err (EWrapf ("update topic " ++ ObjectID.Hex topicID ++ " commentNum"))
    (UpdateByID TopicDoc topicID (inc_topic_comments delta)) in
  ret (0 <? MatchedCount res).

Definition inc_comment_replies (delta : Z) (d : CommentDoc) : option CommentDoc :=
  (fun n => {| d with cd_CommentNum := n |}) <$> inc delta (cd_CommentNum d).
Definition IncrementRootCommentNum (rootCommentID delta : Z) : M bool :=
  mongoCollection;;
  let! res := map_err (EWrapf ("update root comment " ++ ObjectID.Hex rootCommentID ++ " commentNum"))
    (UpdateByID CommentDoc rootCommentID (inc_comment_replies delta)) in
  ret (0 <? MatchedCount res).

Definition FindCommentsPage (filter : CommentDoc -> bool) (sort : list CommentDoc -> list CommentDoc)
    (page size : Z) : M (list Comment * Z) :=
  mongoCollection;;
  let! total := map_err (EWrapf "count comments") (CountDocuments CommentDoc filter) in
  let! docs := map_err (EWrapf "find comments")
    (FindPage CommentDoc filter sort (mul64 (sub64 page 1) size) size) in
  ret (decode_comment <$> docs, total).

Definition FindUserByID (userID : Z) : M (option userRecord) :=
  if userID <=? 0 then ret None
  else
    gormDB;;
    let! r := attempt (take User (byid userID (fun _ => true))) in
    match r with
    | Ok u => ret (Some (user_record u))
    | Err e =>
      if errors_Is e record_not_found_text then ret None
      else throw (EWrapf ("find user " ++ GoStr.FormatInt userID) e)
    end.

(** [make(map[int64]userRecord)], filled row by row. *)
Definition users_map (l : list User) : gmap Z userRecord :=
  foldl (fun m u => <[usr_ID u := user_record u]> m) ∅ l.
Definition FindUsersByIDs (userIDs : list Z) : M (gmap Z userRecord) :=
  if bool_decide (userIDs = []) then ret ∅
  else
    gormDB;;
    let! l := map_err (EWrapf "find users by ids") (find User (fun u => bool_decide (usr_ID u ∈ userIDs))) in
    ret (users_map l).

Definition FindTopicByID (topicID : Z) (onlyChecked : bool) : M (option CommentTopic) :=
  mongoCollection;;
  let! d := doc_or_nil ("find topic " ++ ObjectID.Hex topicID)
    (FindOne TopicDoc (byid topicID (fun d => negb onlyChecked || td_HasCheck d))) in
  ret (decode_topic <$> d).

Definition FindCommentByID (commentID : Z) : M (option Comment) :=
  mongoCollection;;
  let! d := doc_or_nil ("find comment " ++ ObjectID.Hex commentID)
    (FindOne CommentDoc (byid commentID (fun _ => true))) in
  ret (decode_comment <$> d).

(** ** [repository_like.go] *)
Definition liked_by (userID : string) (d : LikeDoc) : bool := bool_decide (userID ∈ cl_UserIDs d).

Definition FindLikedCommentIDs (commentIDs : list string) (userID : string) : M (gset string) :=
  if String.eqb userID "" || bool_decide (commentIDs = []) then ret ∅
  else
    mongoCollection;;
    let! rows := map_err (EWrapf "find liked comments")
      (Find LikeDoc (fun d => bool_decide (cl_CommentID d ∈ commentIDs) && liked_by userID d)) in
    ret (list_to_set (base.filter (fun id => id <> ""%string) (cl_CommentID <$> rows))).

Definition CommentLikeExists (commentID userID : string) : M bool :=
  mongoCollection;;
  let! count := map_err (EWrapf "count comment like")
    (CountDocuments LikeDoc (fun d => String.eqb (cl_CommentID d) commentID && liked_by userID d)) in
  ret (0 <? count).

Definition add_like (userID : string) (d : LikeDoc) : LikeDoc := {| d with cl_UserIDs := addToSet userID (cl_UserIDs d) |}.
Definition AddCommentLike (commentID userID : string) : M bool :=
  mongoCollection;;
  let! res := map_err (EWrapf ("like comment " ++ commentID))
    (Upsert LikeDoc (fun d => String.eqb (cl_CommentID d) commentID)
      (fun d => Some (add_like userID d)) (fun id => mkLikeDoc id commentID [userID])) in
  ret ((0 <? ModifiedCount res) || (0 <? UpsertedCount res)).

Definition remove_like (userID : string) (d : LikeDoc) : LikeDoc := {| d with cl_UserIDs := pull userID (cl_UserIDs d) |}.
Definition RemoveCommentLike (commentID userID : string) : M bool :=
  mongoCollection;;
  let! res := map_err (EWrapf ("unlike comment " ++ commentID))
    (UpdateOne LikeDoc (fun d => String.eqb (cl_CommentID d) commentID) (fun d => Some (remove_like userID d))) in
  ret (0 <? ModifiedCount res).

Definition inc_comment_likes (delta : Z) (d : CommentDoc) : option CommentDoc :=
  (fun n => {| d with cd_LikeNum := n |}) <$> inc delta (cd_LikeNum d).
Definition IncrementCommentLikeNum (commentID delta : Z) : M bool :=
  mongoCollection;;
  let! res := map_err (EWrapf ("update comment " ++ ObjectID.Hex commentID ++ " likeNum"))
    (UpdateByID CommentDoc commentID (inc_comment_likes delta)) in
  ret (0 <? MatchedCount res).
End repository.
End CommentRepo.
