(* ===== verification/CommentService.v ===== *)
(** * Comments: the service

    [internal/comment/service*.go], [moderation.go], [page_result.go] and the page
    arguments of [handler_helpers.go].  The message producer, the sensitive-word
    filter and the capability checker are interfaces in the code and arguments here;
    nil is [None]. *)
From S2P Require Import Prelude GoString GoTime GoMonad Sql RedisStr Mongo Platform.
From S2P Require Import UserModel FeedModel CommentRepo.

Module CommentService.
Import Users Feed CommentRepo Pagination.
Open Scope Z_scope.

(** ** Errors *)
Definition errMsgInvalidParam : string := "参数错误".
Definition ErrTopicNotFound := Bizerr.NotFound "帖子不存在".
Definition ErrCommentNotFound := Bizerr.NotFound "评论不存在".
Definition ErrUserNotFound := Bizerr.NotFound "用户不存在".
Definition ErrInvalidRootID := Bizerr.Param "请传入有效的root_id".
Definition ErrTargetUserIDRequired := Bizerr.Param "目标用户id不能为空".
Definition ErrCommentDeleteFailed := Bizerr.Biz "删除评论失败".
Definition ErrCommentLikeFailed := Bizerr.Biz "点赞失败".
Definition ErrCommentUnlikeFailed := Bizerr.Biz "取消点赞失败".
Definition ErrCommentLikeNotFound := Bizerr.Biz "还没有对该评论进行点赞".
Definition ErrAnonymousCommentForbidden := Bizerr.Forbidden "匿名用户禁止评论非匿名帖".
Definition ErrCommentSelfRolePlayForbidden := Bizerr.Forbidden "不能自己评论自己的帖子".

(** ** Arguments *)
Definition maxPageSize : Z := 100.
Definition pageSize (page size defaultSize : Z) : Z * Z :=
  let defaultSize := if defaultSize <=? 0 then 15 else defaultSize in
  let page := if page <=? 0 then 1 else page in
  let size := if size <=? 0 then defaultSize else size in
  (page, if maxPageSize <? size then maxPageSize else size).
Definition NewPageResult {T} (data : list T) (total page size : Z) : PageResult T :=
  mkPageResult data (if page <=? 0 then 1 else page) total (if size <=? 0 then 15 else size).

Definition userIDString (userID : Z) : string := if userID <=? 0 then "" else GoStr.FormatInt userID.
Definition parseObjectID (raw : string) : res Z :=
  match ObjectID.ObjectIDFromHex (GoStr.TrimSpace raw) with
  | Some oid => Ok oid
  | None => Err (Bizerr.Param errMsgInvalidParam)
  end.

(** ** Users of a comment ([service_comment.go]) *)
Definition buildCommentUser (user : userRecord) : CommentUser :=
  mkCommentUser (GoStr.FormatInt (ur_ID user)) (ur_Avatar user) (ur_Nickname user) (ur_AccountType user)
    (ur_Signature user) (Some (ur_StuIsCheck user)) (ur_ProvisionalExpiresAt user).

Definition parseCommentUserID (raw : string) : option Z :=
  match GoStr.ParseInt (GoStr.TrimSpace raw) with
  | Some id => if id <=? 0 then None else Some id
  | None => None
  end.
(** [seen] holds the ids that are in the list already. *)
Definition appendCommentUserID (ids : list Z) (raw : string) : list Z :=
  match parseCommentUserID raw with
  | Some id => if bool_decide (id ∈ ids) then ids else (ids ++ [id])%list
  | None => ids
  end.
Definition collectCommentUserIDs (comments : list Comment) : list Z :=
  foldl (fun ids c =>
    let ids := appendCommentUserID ids (cu_UserID (cm_User c)) in
    match cm_Parent c with Some p => appendCommentUserID ids (cu_UserID p) | None => ids end) [] comments.

Definition applyCommentUserCertificationToUser (users : gmap Z userRecord) (u : CommentUser) : CommentUser :=
  match parseCommentUserID (cu_UserID u) with
  | Some id =>
    match users !! id with
    | Some user => {| u with cu_StuIsCheck := Some (ur_StuIsCheck user);
                             cu_ProvisionalExpiresAt := ur_ProvisionalExpiresAt user |}
    | None => u
    end
  | None => u
  end.
Definition applyCommentUserCertification (users : gmap Z userRecord) (comments : list Comment) : list Comment :=
  (fun c => {| c with cm_User := applyCommentUserCertificationToUser users (cm_User c);
                      cm_Parent := applyCommentUserCertificationToUser users <$> cm_Parent c |}) <$> comments.

Definition normalizeCommentAccountType (accountType : string) : string :=
  if String.eqb (GoStr.ToLower (GoStr.TrimSpace accountType)) "anonymous" then "anonymous" else "base".

(** Orders of the pages; later keys first, each sort is stable. *)
Definition by_id (l : list CommentDoc) : list CommentDoc := order_by cd_ID l.
Definition by_id_desc (l : list CommentDoc) : list CommentDoc := order_by (fun d => - cd_ID d) l.
(** A missing number sorts below the numbers. *)
Definition num_desc (n : option Z) : Z := match n with Some v => - v | None => 2 ^ 63 + 1 end.
Definition by_replies (l : list CommentDoc) : list CommentDoc := order_by (fun d => num_desc (cd_CommentNum d)) (by_id_desc l).
Definition by_replies_likes (l : list CommentDoc) : list CommentDoc :=
  order_by (fun d => num_desc (cd_CommentNum d)) (order_by (fun d => num_desc (cd_LikeNum d)) (by_id_desc l)).

(** [hasCheck: {$ne: false}] *)
Definition not_hidden (d : CommentDoc) : bool := negb (bool_decide (cd_HasCheck d = Some false)).

Section service.
Context {E : Env} {O : ObjectIDs} {D : SqlEngine} {R : RedisServer} {G : MongoServer}.
Notation DB := (DB D R G).
Notation M := (M DB).

Record CommentProducer := mkCommentProducer {
  SendAddComment : Comment -> M unit;
  SendDeleteComment : string -> string -> M unit;
}.
Record Service := mkService {
  cfg_PageSize : option Z;
  producer : option CommentProducer;
  sensitiveFilter : option (string -> M string);
  capabilityChecker : option (Z -> Z -> string -> M unit);
}.
Variable s : Service.

Definition warn {A} (m : M A) (message : string) : M unit :=
  let! r := attempt m in match r with Ok _ => ret tt | Err _ => emit (EvLog message) end.

(** ** Helpers *)
Definition filterText (content : string) : M string :=
  match sensitiveFilter s with
  | Some f => if String.eqb content "" then ret content else internal "过滤评论敏感词失败" (f content)
  | None => ret content
  end.
Definition defaultPageSize : Z :=
  match cfg_PageSize s with Some n => if 0 <? n then n else 15 | None => 15 end.

Definition loadUser (userID : Z) : M userRecord :=
  let! u := internal "query user failed" (FindUserByID userID) in
  match u with Some u => ret u | None => throw ErrUserNotFound end.
Definition loadUserByStringID (userID : string) : M userRecord :=
  match GoStr.ParseInt (GoStr.TrimSpace userID) with
  | Some id => loadUser id
  | None => throw (Bizerr.Internal "invalid topic author data")
  end.
Definition getTopic (Local : Z -> Z) (topicID : string) (onlyChecked : bool) : M (option CommentTopic) :=
  let! oid := of_res (parseObjectID topicID) in
  let! topic := internal "query topic failed" (FindTopicByID oid onlyChecked) in
  ret ((fun t => {| t with ct_CreatedTime := Some (Local (ObjectID.Timestamp (ct_ID t))) |}) <$> topic).
Definition getCommentByID (commentID : string) : M Comment :=
  let! oid := of_res (parseObjectID commentID) in
  let! cmt := internal "query comment failed" (FindCommentByID oid) in
  match cmt with Some c => ret c | None => throw ErrCommentNotFound end.
Definition ensureTopicExists (Local : Z -> Z) (topicID : string) : M unit :=
  let! topic := getTopic Local topicID false in
  match topic with Some _ => ret tt | None => throw ErrTopicNotFound end.

Definition getHasLikeBatch (userID : string) (comments : list Comment) : M (gset string) :=
  let ids := ObjectID.Hex <$> base.filter (fun id => ObjectID.IsZero id = false) (cm_ID <$> comments) in
  internal "query comment like status failed" (FindLikedCommentIDs ids userID).
Definition fillCommentLikeState (userID : string) (comments : list Comment) : M (list Comment) :=
  if String.eqb (GoStr.TrimSpace userID) "" || bool_decide (comments = []) then ret comments
  else
    let! liked := getHasLikeBatch userID comments in
    ret ((fun c => {| c with cm_HasLike := bool_decide (ObjectID.Hex (cm_ID c) ∈ liked) |}) <$> comments).
Definition fillCommentUserCertification (comments : list Comment) : M (list Comment) :=
  let userIDs := collectCommentUserIDs comments in
  if bool_decide (userIDs = []) then ret comments
  else
    let! users := internal "query comment user certification failed" (FindUsersByIDs userIDs) in
    ret (applyCommentUserCertification users comments).

Definition root_of (u : userRecord) : Z := if ur_RootUserID u =? 0 then ur_ID u else ur_RootUserID u.
Definition validateCommentPermission (actor : userRecord) (topic : CommentTopic) : M unit :=
  let actorType := normalizeCommentAccountType (ur_AccountType actor) in
  let topicType := normalizeCommentAccountType (ct_AccountType topic) in
  if String.eqb actorType "anonymous" && negb (String.eqb topicType "anonymous") then throw ErrAnonymousCommentForbidden
  else if negb (String.eqb actorType "base") || negb (String.eqb topicType "anonymous") then ret tt
  else
    let! topicAuthor := loadUserByStringID (ct_UserID topic) in
    if root_of actor =? root_of topicAuthor then throw ErrCommentSelfRolePlayForbidden else ret tt.

(** ** Adding and deleting ([service.go]) *)
Definition reply_to (parent : Comment) (c : Comment) : Comment :=
  {| c with
    cm_Parent := Some (cm_User parent);
    cm_RootCmtID :=
      (if negb (String.eqb (cm_RootCmtID parent) "") && negb (String.eqb (cm_RootCmtID parent) DefaultRootCommentID)
       then cm_RootCmtID parent else ObjectID.Hex (cm_ID parent)) |}.

Definition AddComment (Local : Z -> Z) (topicID : string) (currentUserID : Z) (content parentCmtID : string) : M string :=
  match capabilityChecker s with Some check => check currentUserID 0 "content" | None => ret tt end;;
  let! topic := getTopic Local topicID false in
  match topic with
  | None => throw ErrTopicNotFound
  | Some topic =>
    let! user := loadUser currentUserID in
    validateCommentPermission user topic;;
    let! filteredContent := filterText content in
    let! t := now in
    let comment := mkComment 0 topicID filteredContent t (buildCommentUser user) None parentCmtID DefaultRootCommentID
      (String.eqb (ct_UserID topic) (GoStr.FormatInt currentUserID)) 0 0 false false in
    let! comment :=
      (if negb (String.eqb parentCmtID DefaultRootCommentID) then
         let! parent := getCommentByID parentCmtID in ret (reply_to parent comment)
       else ret comment) in
    let! comment := internal "创建评论失败" (CreateComment comment) in
    match producer s with
    | Some p => warn (SendAddComment p comment) "send add comment mq failed"
    | None => ret tt
    end;;
    ret (ObjectID.Hex (cm_ID comment))
  end.

Definition decrementCommentCounters (topicID rootCommentID : string) : M unit :=
  let! topicOID := of_res (parseObjectID topicID) in
  let! ok := internal "删除评论失败" (IncrementTopicCommentNum topicOID (-1)) in
  if negb ok then throw ErrCommentDeleteFailed
  else if String.eqb rootCommentID "" || String.eqb rootCommentID DefaultRootCommentID then ret tt
  else
    let! rootOID := of_res (parseObjectID rootCommentID) in
    let! ok := internal "删除评论失败" (IncrementRootCommentNum rootOID (-1)) in
    if negb ok then throw ErrCommentDeleteFailed else ret tt.

(** Hand the deletion to the queue, and report [cause]. *)
Definition deleteCommentFallback (topicID commentID : string) (cause : error) : M unit :=
  match producer s with
  | Some p => warn (SendDeleteComment p topicID commentID) "send delete comment mq failed"
  | None => ret tt
  end;;
  throw cause.

(** What [DeleteComment] and [DeleteCommentAdmin] share; [text] is the error text
    of the first, garbled in the second. *)
Definition delete_with (text : string) (hide : Z -> M (bool * bool)) (topicID commentID : string) : M unit :=
  let! comment := getCommentByID commentID in
  let! commentOID := of_res (parseObjectID commentID) in
  let! r := attempt (hide commentOID) in
  match r with
  | Err e => deleteCommentFallback topicID commentID (Bizerr.InternalWrap text e)
  | Ok (matched, modified) =>
    if negb matched then throw ErrCommentNotFound
    else if negb modified then throw ErrCommentDeleteFailed
    else
      let! r := attempt (decrementCommentCounters topicID (cm_RootCmtID comment)) in
      match r with Err e => deleteCommentFallback topicID commentID e | Ok _ => ret tt end
  end.
Definition DeleteComment (topicID commentID : string) (userID : Z) : M unit :=
  if userID <=? 0 then throw (Bizerr.Param errMsgInvalidParam)
  else delete_with "删除评论失败" (fun oid => HideCommentByUser topicID oid (userIDString userID)) topicID commentID.
Definition DeleteCommentAdmin (topicID commentID : string) : M unit :=
  delete_with "鍒犻櫎璇勮澶辫触" (fun oid => HideCommentAdmin topicID oid) topicID commentID.

(** [moderation.go] *)
Definition ReportTarget (commentID : string) : M Comment := getCommentByID commentID.
Definition HideForModeration (commentID : string) : M unit :=
  let! comment := getCommentByID commentID in DeleteCommentAdmin (cm_TopicID comment) commentID.

(** ** Lists *)
Definition topic_filter (topicID rootID : string) (d : CommentDoc) : bool :=
  String.eqb (cd_TopicID d) topicID && String.eqb (cd_RootCmtID d) rootID && not_hidden d.
Definition ListByTopic (Local : Z -> Z) (topicID rootID : string) (viewerUserID page size : Z) : M (PageResult Comment) :=
  let '(page, size) := pageSize page size defaultPageSize in
  ensureTopicExists Local topicID;;
  let rootID := if String.eqb rootID "" then DefaultRootCommentID else rootID in
  match (if String.eqb rootID DefaultRootCommentID then Ok tt
         else match parseObjectID rootID with Ok _ => Ok tt | Err _ => Err ErrInvalidRootID end) with
  | Err e => throw e
  | Ok _ =>
    let! (comments, total) := internal "查询评论列表失败"
      (FindCommentsPage (topic_filter topicID rootID)
        (if String.eqb rootID DefaultRootCommentID then by_replies else by_id) page size) in
    let! comments := fillCommentUserCertification comments in
    let! comments := fillCommentLikeState (userIDString viewerUserID) comments in
    ret (NewPageResult comments total page size)
  end.

Definition author_filter (userID : string) (d : CommentDoc) : bool :=
  String.eqb (up_UserID (cd_User d)) userID && not_hidden d.

Fixpoint my_items (Local : Z -> Z) (comments : list Comment) : M (list MyCommentItem) :=
  match comments with
  | [] => ret []
  | c :: comments =>
    let! topic := getTopic Local (cm_TopicID c) true in
    match topic with
    | None => throw ErrTopicNotFound
    | Some t => let! items := my_items Local comments in ret (mkMyCommentItem c t :: items)
    end
  end.
Definition ListMine (Local : Z -> Z) (userID page size : Z) : M (PageResult MyCommentItem) :=
  let '(page, size) := pageSize page size defaultPageSize in
  let! (comments, total) := internal "查询我的评论失败"
    (FindCommentsPage (author_filter (userIDString userID)) by_replies_likes page size) in
  let! comments := fillCommentUserCertification comments in
  let! comments := fillCommentLikeState (userIDString userID) comments in
  let! items := my_items Local comments in
  ret (NewPageResult items total page size).

Definition ListTargetUserComments (targetUserID page size : Z) : M (PageResult Comment) :=
  let '(page, size) := pageSize page size defaultPageSize in
  if targetUserID <=? 0 then throw ErrTargetUserIDRequired
  else
    let! (comments, total) := internal "查询目标用户评论失败"
      (FindCommentsPage (author_filter (userIDString targetUserID)) by_id_desc page size) in
    let! comments := fillCommentUserCertification comments in
    ret (NewPageResult comments total page size).

Definition ListCommentAdmin (Local : Z -> Z) (topicID : string) (page size : Z) : M (PageResult Comment) :=
  let '(page, size) := pageSize page size defaultPageSize in
  ensureTopicExists Local topicID;;
  let! (comments, total) := internal "query admin comment list failed"
    (FindCommentsPage (fun d => String.eqb (cd_TopicID d) topicID) by_id_desc page size) in
  let! comments := fillCommentUserCertification comments in
  ret (NewPageResult comments total page size).

(** ** Likes ([service_like.go]) *)
Definition incCommentLikeStrict (commentID : string) (delta : Z) : M unit :=
  let! oid := of_res (parseObjectID commentID) in
  let! ok := internal "更新评论点赞数失败" (IncrementCommentLikeNum oid delta) in
  if negb ok then throw ErrCommentLikeFailed else ret tt.

Definition LikeComment (commentID : string) (userID : Z) : M unit :=
  let userIDStr := userIDString userID in
  let! exists_ := internal "查询评论点赞状态失败" (CommentLikeExists commentID userIDStr) in
  if exists_ then ret tt
  else
    incCommentLikeStrict commentID 1;;
    let! updated := internal "点赞评论失败" (AddCommentLike commentID userIDStr) in
    if negb updated then throw ErrCommentLikeFailed else ret tt.

Definition UnlikeComment (commentID : string) (userID : Z) : M unit :=
  let userIDStr := userIDString userID in
  let! exists_ := internal "查询评论点赞状态失败" (CommentLikeExists commentID userIDStr) in
  if negb exists_ then throw ErrCommentLikeNotFound
  else
    incCommentLikeStrict commentID (-1);;
    let! updated := internal "取消点赞失败" (RemoveCommentLike commentID userIDStr) in
    if negb updated then throw ErrCommentUnlikeFailed else ret tt.
End service.
End CommentService.
