(* ===== verification/TopicRepo.v ===== *)
(** * Topics: the repository

    [internal/topic/repository*.go] and its data.  The collection of a method that
    takes a collection name is [StateName].  A search pattern is a regular expression
    that the server compiles, a parameter ([MongoRegex]). *)
From S2P Require Import Prelude GoString GoTime GoMonad Sql RedisStr Mongo UserModel FeedModel.

(** A case-insensitive pattern, and the texts it matches; the server rejects
    a malformed one. *)
Class MongoRegex := regex_i : string -> option (string -> bool).

Module TopicRepo.
Import Users Feed.
Open Scope Z_scope.

(** ** Data *)
Record Topic := mkTopic {
  tp_ID : Z;
  tp_ThemeID : string;
  tp_UserID : string;
  tp_Title : string;
  tp_Content : string;
  tp_Imgs : list string;
  tp_HasCheck : bool;
  tp_VisitedNum : Z;
  tp_LikeNum : Z;
  tp_CommentNum : Z;
  tp_CollectionNum : Z;
  tp_Ext : option Ext;
  tp_AccountType : string;
  tp_NickName : string;
  tp_Avatar : string;
  tp_StuIsCheck : option bool;
  tp_ProvisionalExpiresAt : option Z;
  tp_CreatedTime : string;
  tp_HasLike : bool;
  tp_HasCollection : bool;
}.
Record topicAuthor := mkTopicAuthor {
  ta_ID : Z; ta_Nickname : string; ta_Avatar : string; ta_AccountType : string; ta_RootUserID : Z;
  ta_StuIsCheck : bool; ta_ProvisionalExpiresAt : option Z;
}.
Record CreateTopicReq := mkCreateTopicReq {
  ctr_ThemeID : string; ctr_Title : string; ctr_Content : string; ctr_Imgs : list string;
  ctr_Ext : option Ext; ctr_AccountType : string;
}.
Record UpdateTopicReq := mkUpdateTopicReq {
  utr_Title : string; utr_Content : string; utr_Imgs : list string; utr_Ext : option string; utr_HasCheck : option bool;
}.

Definition encode_topic (id : Z) (t : Topic) : TopicDoc :=
  mkTopicDoc id (tp_ThemeID t) (tp_UserID t) (tp_Title t) (tp_Content t) (tp_Imgs t) (tp_HasCheck t)
    (tp_VisitedNum t) (tp_LikeNum t) (tp_CommentNum t) (tp_CollectionNum t) (tp_Ext t) (tp_AccountType t)
    (tp_NickName t) (tp_Avatar t) None None None.
Definition decode_topic (d : TopicDoc) : Topic :=
  mkTopic (td_ID d) (td_ThemeID d) (td_UserID d) (td_Title d) (td_Content d) (td_Imgs d) (td_HasCheck d)
    (td_VisitedNum d) (td_LikeNum d) (td_CommentNum d) (td_CollectionNum d) (td_Ext d) (td_AccountType d)
    (td_NickName d) (td_Avatar d) None None "" false false.
Definition topic_author (u : User) : topicAuthor :=
  mkTopicAuthor (usr_ID u) (usr_Nickname u) (usr_Avatar u) (usr_AccountType u) (usr_RootUserID u)
    (usr_StuIsCheck u) (usr_ProvisionalExpiresAt u).

(** The keys of a [$set]. *)
Inductive TopicSet :=
| set_title (v : string) | set_content (v : string) | set_imgs (v : list string)
| set_ext (v : string) | set_hasCheck (v : bool).
Definition apply_set (c : TopicSet) (d : TopicDoc) : TopicDoc :=
  match c with
  | set_title v => {| d with td_Title := v |}
  | set_content v => {| d with td_Content := v |}
  | set_imgs v => {| d with td_Imgs := v |}
  | set_ext v => {| d with td_Ext := Some (ExtString v) |}
  | set_hasCheck v => {| d with td_HasCheck := v |}
  end.
Definition apply_sets (update : list TopicSet) (d : TopicDoc) : TopicDoc := foldr apply_set d update.

Inductive StateName := mongoCollTopicLike | mongoCollTopicCollection.
Definition coll_text (n : StateName) : string :=
  match n with mongoCollTopicLike => "campus_topic_like" | mongoCollTopicCollection => "campus_topic_collection" end.

(** The counters that [IncrementTopicField] is called with. *)
Inductive TopicField := visitedNum | likeNum | collectionNum.
Definition field_text (f : TopicField) : string :=
  match f with visitedNum => "visitedNum" | likeNum => "likeNum" | collectionNum => "collectionNum" end.
Definition inc_field (f : TopicField) (delta : Z) (d : TopicDoc) : option TopicDoc :=
  match f with
  | visitedNum => (fun n => {| d with td_VisitedNum := n |}) <$> inc_int delta (td_VisitedNum d)
  | likeNum => (fun n => {| d with td_LikeNum := n |}) <$> inc_int delta (td_LikeNum d)
  | collectionNum => (fun n => {| d with td_CollectionNum := n |}) <$> inc_int delta (td_CollectionNum d)
  end.

Section repository.
Context {E : Env} {O : ObjectIDs} {D : SqlEngine} {R : RedisServer} {G : MongoServer}.
Notation DB := (DB D R G).
Notation M := (M DB).

Definition gormDB : M unit :=
  let! s := get_db in if db_nil s then throw (ENew "gorm db not initialized") else ret tt.
Definition mongoCollection : M unit :=
  let! s := get_db in if mongo_nil s then throw (ENew "mongo db not initialized") else ret tt.

(** A filter the server rejects fails the operation. *)
Definition filtered {T A} (filter : option (T -> bool)) (op : (T -> bool) -> M A) : M A :=
  match filter with
  | Some p => op p
  | None => mongo_stmt;; throw (EDriver "Regular expression is invalid")
  end.

(** ** [repository_topic.go] *)
Definition CreateTopic (topic : Topic) : M Topic :=
  mongoCollection;;
  let! id := (if ObjectID.IsZero (tp_ID topic) then NewObjectID else ret (tp_ID topic)) in
  map_err (EWrapf "insert topic") (InsertOne TopicDoc (encode_topic id topic));;
  ret {| topic with tp_ID := id |}.

Definition hideTopic (id : Z) (filter : TopicDoc -> bool) : M bool :=
  mongoCollection;;
  let! res := map_err (EWrapf ("hide topic " ++ ObjectID.Hex id))
    (UpdateOne TopicDoc (byid id filter) (fun d => Some {| d with td_HasCheck := false |})) in
  ret (0 <? MatchedCount res).
Definition HideTopicByUser (topicID : Z) (userID : string) : M bool :=
  hideTopic topicID (fun d => String.eqb (td_UserID d) userID).
Definition HideTopicAdmin (topicID : Z) : M bool := hideTopic topicID (fun _ => true).

Definition FindTopicByID (topicID : Z) (onlyChecked : bool) : M (option Topic) :=
  mongoCollection;;
  let! d := doc_or_nil ("find topic by id " ++ ObjectID.Hex topicID)
    (FindOne TopicDoc (byid topicID (fun d => negb onlyChecked || td_HasCheck d))) in
  ret (decode_topic <$> d).

Definition IncrementTopicField (topicID : Z) (field : TopicField) (delta : Z) : M unit :=
  if delta =? 0 then ret tt
  else
    mongoCollection;;
    map_err (EWrapf ("increment topic " ++ ObjectID.Hex topicID ++ " field " ++ field_text field ++ " by " ++ GoStr.FormatInt delta))
      (UpdateByID TopicDoc topicID (inc_field field delta));;
    ret tt.

Definition UpdateTopic (topicID : Z) (userID : string) (update : list TopicSet) : M bool :=
  mongoCollection;;
  let! res := map_err (EWrapf ("update topic " ++ ObjectID.Hex topicID))
    (UpdateOne TopicDoc (byid topicID (fun d => String.eqb (td_UserID d) userID)) (fun d => Some (apply_sets update d))) in
  ret (0 <? MatchedCount res).

Definition FindTopicsPage (filter : option (TopicDoc -> bool)) (sort : list TopicDoc -> list TopicDoc)
    (page size : Z) : M (list Topic * Z) :=
  let page := if page <=? 0 then 1 else page in
  let size := if size <=? 0 then 15 else size in
  mongoCollection;;
  let! total := map_err (EWrapf "count topics") (filtered filter (CountDocuments TopicDoc)) in
  let! docs := map_err (EWrapf "find topics")
    (filtered filter (fun p => FindPage TopicDoc p sort (mul64 (sub64 page 1) size) size)) in
  ret (decode_topic <$> docs, total).

(** ** [repository_admin.go] *)
Definition UpdateTopicAdmin (topicID : Z) (update : list TopicSet) : M bool :=
  mongoCollection;;
  let! res := map_err (EWrapf ("admin update topic " ++ ObjectID.Hex topicID))
    (UpdateOne TopicDoc (byid topicID (fun _ => true)) (fun d => Some (apply_sets update d))) in
  ret (0 <? MatchedCount res).

Definition state_coll (n : StateName) : Coll DB (State R) StateDoc _ _ :=
  match n with mongoCollTopicLike => coll_topic_likes | mongoCollTopicCollection => coll_topic_collections end.

Definition pull_topic (topicID : string) (d : StateDoc) : StateDoc := {| d with st_TopicIDs := pull topicID (st_TopicIDs d) |}.
Definition removeTopicFromStateCollection (collName : StateName) (topicID : string) : M Z :=
  mongoCollection;;
  let! res := map_err (EWrapf ("remove topic " ++ topicID ++ " from " ++ coll_text collName))
    (UpdateMany (HC := state_coll collName) StateDoc (fun _ => true) (pull_topic topicID)) in
  ret (ModifiedCount res).

Definition hide_comment_doc (d : CommentDoc) : CommentDoc := {| d with cd_HasCheck := Some false |}.
Definition CleanupDeletedTopic (topicID : string) : M unit :=
  removeTopicFromStateCollection mongoCollTopicLike topicID;;
  removeTopicFromStateCollection mongoCollTopicCollection topicID;;
  mongoCollection;;
  map_err (EWrapf ("hide topic comments " ++ topicID))
    (UpdateMany CommentDoc (fun d => String.eqb (cd_TopicID d) topicID) hide_comment_doc);;
  ret tt.

(** ** [repository_social.go] *)
Definition of_user (userID accountType : string) (d : StateDoc) : bool :=
  String.eqb (st_UserID d) userID && String.eqb (st_AccountType d) accountType.

(** The ids of the document, [None] when there is none. *)
Definition FindTopicStateDocs (collName : StateName) (userID accountType : string) : M (option (list string)) :=
  mongoCollection;;
  let! d := doc_or_nil ("find " ++ coll_text collName ++ " docs")
    (FindOne (HC := state_coll collName) StateDoc (of_user userID accountType)) in
  ret (st_TopicIDs <$> d).

Definition AddTopicState (collName : StateName) (userID themeName accountType topicID : string) : M bool :=
  mongoCollection;;
  let! res := map_err (EWrapf ("update " ++ coll_text collName ++ " topic state"))
    (Upsert (HC := state_coll collName) StateDoc (of_user userID accountType)
      (fun d => Some {| d with st_TopicIDs := addToSet topicID (st_TopicIDs d) |})
      (fun id => mkStateDoc id userID themeName accountType [topicID])) in
  ret ((0 <? ModifiedCount res) || (0 <? UpsertedCount res)).

Definition RemoveTopicState (collName : StateName) (userID accountType topicID : string) : M bool :=
  mongoCollection;;
  let! res := map_err (EWrapf ("remove topic " ++ topicID ++ " from " ++ coll_text collName))
    (UpdateOne (HC := state_coll collName) StateDoc (of_user userID accountType)
      (fun d => Some (pull_topic topicID d))) in
  ret (0 <? ModifiedCount res).

Definition CountTopicStateItems (collName : StateName) (userID accountType : string) : M Z :=
  let! docs := FindTopicStateDocs collName userID accountType in
  ret (match docs with Some ids => Z.of_nat (length ids) | None => 0 end).

Definition FindTopicsByIDs (topicIDs : list Z) (onlyChecked : bool) : M (list Topic) :=
  if bool_decide (topicIDs = []) then ret []
  else
    mongoCollection;;
    let! docs := map_err (EWrapf "find topics by ids")
      (Find TopicDoc (fun d => bool_decide (td_ID d ∈ topicIDs) && (negb onlyChecked || td_HasCheck d))) in
    ret (decode_topic <$> docs).

(** ** [repository_theme.go] *)
Definition ThemeExists (themeID : string) : M bool :=
  mongoCollection;;
  let! d := doc_or_nil ("check theme " ++ themeID ++ " exists")
    (FindOne ThemeIDDoc (fun d => String.eqb (th_ThemeID d) themeID)) in
  ret (match d with Some _ => true | None => false end).
Definition FindThemeName (themeID : string) : M string :=
  mongoCollection;;
  let! d := doc_or_nil ("find theme " ++ themeID) (FindOne ThemeIDDoc (fun d => String.eqb (th_ThemeID d) themeID)) in
  ret (match d with Some d => th_Name d | None => "" end).

(** ** [repository_user.go] *)
(** [First]: the least key. *)
Definition first_user (text : string) (q : User -> bool) : M (option topicAuthor) :=
  gormDB;;
  let! r := attempt (find User q) in
  match r with
  | Ok rows => ret (topic_author <$> head (order_by usr_ID rows))
  | Err e => if errors_Is e record_not_found_text then ret None else throw (EWrapf text e)
  end.
Definition FindUserByID (id : Z) : M (option topicAuthor) :=
  if id <=? 0 then ret None
  else first_user ("find topic author by id " ++ GoStr.FormatInt id) (byid id (fun _ => true)).
Definition authors_map (l : list User) : gmap Z topicAuthor :=
  foldl (fun m u => <[usr_ID u := topic_author u]> m) ∅ l.
Definition FindUsersByIDs (ids : list Z) : M (gmap Z topicAuthor) :=
  if bool_decide (ids = []) then ret ∅
  else
    gormDB;;
    let! l := map_err (EWrapf "find topic authors by ids") (find User (fun u => bool_decide (usr_ID u ∈ ids))) in
    ret (authors_map l).
Definition FindUserByRootAndAccountType (rootUserID : Z) (accountType : string) : M (option topicAuthor) :=
  first_user "find topic author by root_user_id/account_type"
    (fun u => (usr_RootUserID u =? rootUserID) && String.eqb (usr_AccountType u) accountType).

(** ** [repository_search.go] *)
Definition hotScore (d : TopicDoc) : Z := td_CommentNum d * 9 + td_LikeNum d * 6 + td_VisitedNum d * 1.
Definition hot_order (sevenDaysAgo : Z) (l : list TopicDoc) : list TopicDoc :=
  order_by (fun d => if sevenDaysAgo <=? td_ID d then 0 else 1)
    (order_by (fun d => - hotScore d) (order_by (fun d => - td_ID d) l)).
Definition SearchHotTopics (filter : option (TopicDoc -> bool)) (page size : Z) : M (list Topic * Z) :=
  let page := if page <=? 0 then 1 else page in
  let size := if size <=? 0 then 15 else size in
  mongoCollection;;
  let! total := map_err (EWrapf "count hot topics") (filtered filter (CountDocuments TopicDoc)) in
  let! t := now in
  let sevenDaysAgo := ObjectID.NewObjectIDFromTimestamp (GoTime.AddDays t (-7)) in
  let! docs := map_err (EWrapf "aggregate hot topics")
    (filtered filter (fun p => FindPage TopicDoc p (hot_order sevenDaysAgo) (mul64 (sub64 page 1) size) size)) in
  ret (decode_topic <$> docs, total).
End repository.
End TopicRepo.
