(* ===== verification/TopicService.v ===== *)
(** * Topics: the service

    [internal/topic/service*.go], [moderation.go], [page_result.go] and the arguments of
    [handler_helpers.go].  The message producer, the sensitive-word filter and the
    capability checker are interfaces in the code and arguments here. *)
From Stdlib Require Import Ascii.
From S2P Require Import Prelude GoString GoTime GoMonad Sql RedisStr Mongo Platform AdminJwt JwtUtil.
From S2P Require Import UserModel FeedModel CommentRepo TopicRepo.

Module TopicService.
Import Users Feed TopicRepo Pagination.
Open Scope Z_scope.

(** ** Errors *)
Definition errMsgInvalidParam : string := "参数错误".
Definition ErrTopicNotFound := Bizerr.NotFound "帖子不存在".
Definition ErrTargetUserNotFound := Bizerr.NotFound "目标用户不存在".
Definition ErrUserNotFound := Bizerr.NotFound "用户不存在".
Definition ErrThemeNotFound := Bizerr.NotFound "主题不存在".
Definition ErrAnonymousAccountNotFound := Bizerr.Biz "匿名账号不存在".
Definition ErrTopicAlreadyLiked := Bizerr.Biz "已经点赞过该帖子".
Definition ErrTopicCollectionLimit := Bizerr.Biz "收藏数量已达上限".
Definition ErrInvalidAuthClaims := Bizerr.Unauthorized "登录状态无效".
Definition slice_bounds : error := ENew "runtime error: slice bounds out of range".

(** ** Arguments *)
Definition NewPageResult {T} (data : list T) (total page size : Z) : PageResult T :=
  mkPageResult data (if page <=? 0 then 1 else page) total (if size <=? 0 then 15 else size).
Definition splitThemeIDs (raw : string) : list string :=
  if String.eqb (GoStr.TrimSpace raw) "" then []
  else base.filter (fun p => p <> ""%string) (GoStr.TrimSpace <$> GoStr.Split ","%char raw).
Definition userIDString (userID : Z) : string := GoStr.FormatInt userID.
Definition parseTopicObjectID (topicID : string) : res Z :=
  match ObjectID.ObjectIDFromHex (GoStr.TrimSpace topicID) with
  | Some oid => Ok oid
  | None => Err (Bizerr.Param errMsgInvalidParam)
  end.
Definition normalizeTopicAccountType (accountType : string) : res string :=
  let a := GoStr.TrimSpace accountType in
  if String.eqb a "base" || String.eqb a "anonymous" then Ok a else Err (Bizerr.Param errMsgInvalidParam).
Definition validateTopicClaims (claims : JwtUtil.Claims) : res unit :=
  if (JwtUtil.ucl_UserID claims <=? 0) || (JwtUtil.ucl_RootUserID claims <=? 0) then Err ErrInvalidAuthClaims else Ok tt.

(** ** Messages ([producer.go]) *)
Record TopicNotify := mkTopicNotify {
  tn_TargetUserID : string; tn_SenderUserID : string; tn_Type : string; tn_Content : string;
  tn_TopicID : string; tn_CommentID : string; tn_CreatedTime : Z;
}.

(** ** Topics on their way out ([service_topic.go]) *)
Definition prepareTopic (Local : Z -> Z) (t : Topic) : Topic :=
  {| t with tp_CreatedTime := CommentRepo.format_datetime (Local (ObjectID.Timestamp (tp_ID t))) |}.

Definition parseTopicUserID (raw : string) : option Z :=
  match GoStr.ParseInt (GoStr.TrimSpace raw) with
  | Some id => if id <=? 0 then None else Some id
  | None => None
  end.
Definition collectTopicAuthorIDs (topics : list Topic) : list Z :=
  foldl (fun ids t =>
    match parseTopicUserID (tp_UserID t) with
    | Some id => if bool_decide (id ∈ ids) then ids else (ids ++ [id])%list
    | None => ids
    end) [] topics.
Definition applyTopicUserCertification (topics : list Topic) (authors : gmap Z topicAuthor) : list Topic :=
  (fun t =>
    match parseTopicUserID (tp_UserID t) with
    | Some id =>
      match authors !! id with
      | Some a => {| t with tp_StuIsCheck := Some (ta_StuIsCheck a);
                            tp_ProvisionalExpiresAt := ta_ProvisionalExpiresAt a |}
      | None => t
      end
    | None => t
    end) <$> topics.

(** The position of each id in the list, the last one when an id comes twice. *)
Definition topic_indexes (topics : list Topic) : gmap string nat :=
  list_to_map (reverse (imap (fun i t => (ObjectID.Hex (tp_ID t), i)) topics)).
Definition clear_flags (topics : list Topic) : list Topic :=
  (fun t => {| t with tp_HasLike := false; tp_HasCollection := false |}) <$> topics.
Definition resetTopicFlags (topics : list Topic) : gmap string nat * list Topic :=
  (topic_indexes topics, clear_flags topics).
Definition set_flag (isLike : bool) (t : Topic) : Topic :=
  if isLike then {| t with tp_HasLike := true |} else {| t with tp_HasCollection := true |}.
Definition applyTopicFlags (indexes : gmap string nat) (topics : list Topic) (docs : option (list string)) (isLike : bool) : list Topic :=
  match docs with
  | None => topics
  | Some ids =>
    foldl (fun ts id => match indexes !! id with Some idx => alter (set_flag isLike) idx ts | None => ts end) topics ids
  end.

Definition buildAdminTopic (author : topicAuthor) (req : CreateTopicReq) : Topic :=
  mkTopic 0 (ctr_ThemeID req) (userIDString (ta_ID author))
    (if String.eqb (ctr_Title req) "" then " " else ctr_Title req) (ctr_Content req) (ctr_Imgs req) true 0 0 0 0
    (ctr_Ext req) (ta_AccountType author) (ta_Nickname author) (ta_Avatar author)
    (Some (ta_StuIsCheck author)) (ta_ProvisionalExpiresAt author) "" false false.

Definition when {A} (b : bool) (x : A) : list A := if b then [x] else [].
Definition ext_set (e : option string) : list TopicSet :=
  match e with Some v => when (negb (String.eqb v "")) (set_ext v) | None => [] end.
Definition buildAdminTopicUpdate (req : UpdateTopicReq) : list TopicSet :=
  when (negb (String.eqb (utr_Title req) "")) (set_title (utr_Title req)) ++
  when (negb (String.eqb (utr_Content req) "")) (set_content (utr_Content req)) ++
  when (negb (bool_decide (utr_Imgs req = []))) (set_imgs (utr_Imgs req)) ++
  ext_set (utr_Ext req).

(** Orders: [_id] is unique, so the keys after it decide nothing. *)
Definition by_id_desc (l : list TopicDoc) : list TopicDoc := order_by (fun d => - td_ID d) l.

Section service.
Context {E : Env} {O : ObjectIDs} {D : SqlEngine} {R : RedisServer} {G : MongoServer} {X : MongoRegex}.
Notation DB := (DB D R G).
Notation M := (M DB).

Record EventProducer := mkEventProducer {
  SendTopicCheck : string -> M unit;
  SendDeleteTopic : string -> M unit;
  SendNotifyUser : TopicNotify -> M unit;
}.
Record Service := mkService {
  producer : option EventProducer;
  sensitiveFilter : option (string -> M string);
  capabilityChecker : option (Z -> Z -> string -> M unit);
  Local : Z -> Z;
}.
Variable s : Service.

(** [if err := m; err != nil { logger.Warn }] *)
Definition warn {A} (m : M A) (message : string) : M unit :=
  let! r := attempt m in match r with Ok _ => ret tt | Err _ => emit (EvLog message) end.
Definition check (userID rootUserID : Z) : M unit :=
  match capabilityChecker s with Some f => f userID rootUserID "content" | None => ret tt end.
Definition filterText (content : string) : M string :=
  match sensitiveFilter s with
  | Some f => if String.eqb content "" then ret content else internal "过滤帖子敏感词失败" (f content)
  | None => ret content
  end.

Definition ensureThemeExists (themeID : string) : M unit :=
  if String.eqb (GoStr.TrimSpace themeID) "" then throw (Bizerr.Param errMsgInvalidParam)
  else
    let! exists_ := internal "查询主题失败" (ThemeExists themeID) in
    if exists_ then ret tt else throw ErrThemeNotFound.
Definition resolveThemeName (themeID : string) : M string :=
  let! r := attempt (FindThemeName themeID) in
  ret (match r with Ok name => if String.eqb (GoStr.TrimSpace name) "" then themeID else name | Err _ => themeID end).
Definition or_missing {A} (e : error) (a : option A) : M A := match a with Some a => ret a | None => throw e end.

Definition resolveTopicAuthor (claims : JwtUtil.Claims) (accountType : string) : M topicAuthor :=
  of_res (validateTopicClaims claims);;
  let! accountType := of_res (normalizeTopicAccountType accountType) in
  if String.eqb accountType "anonymous" then
    let! author := internal "查询匿名身份失败" (FindUserByRootAndAccountType (JwtUtil.ucl_RootUserID claims) "anonymous") in
    or_missing ErrAnonymousAccountNotFound author
  else
    let! author := internal "查询用户失败" (FindUserByID (JwtUtil.ucl_RootUserID claims)) in
    or_missing ErrUserNotFound author.

Definition getTopicByID (topicID : string) (onlyChecked : bool) : M (option Topic) :=
  let! oid := of_res (parseTopicObjectID topicID) in
  let! topic := internal "查询帖子失败" (FindTopicByID oid onlyChecked) in
  ret (prepareTopic (Local s) <$> topic).

Definition fillTopicUserCertification (topics : list Topic) : M (list Topic) :=
  let ids := collectTopicAuthorIDs topics in
  if bool_decide (ids = []) then ret topics
  else
    let! authors := internal "查询用户认证信息失败" (FindUsersByIDs ids) in
    ret (applyTopicUserCertification topics authors).

Definition fillTopicFlags (userID accountType : string) (indexes : gmap string nat) (topics : list Topic)
    (collName : StateName) (isLike : bool) : M (list Topic) :=
  let! docs := FindTopicStateDocs collName userID accountType in
  ret (applyTopicFlags indexes topics docs isLike).

(** The topics, with the flags set so far when a query fails: the code logs the
    failure and answers with what it has. *)
Definition or_warn (m : M (list Topic)) (topics : list Topic) (message : string) (k : list Topic -> M (list Topic))
    : M (list Topic) :=
  let! r := attempt m in
  match r with Ok ts => k ts | Err _ => emit (EvLog message);; ret topics end.
Definition fillLikeAndCollection (userID accountType : string) (topics : list Topic) (message : string) : M (list Topic) :=
  if String.eqb userID "" || String.eqb accountType "" || bool_decide (topics = []) then ret topics
  else
    let '(indexes, topics) := resetTopicFlags topics in
    or_warn (fillTopicFlags userID accountType indexes topics mongoCollTopicLike true) topics message (fun topics =>
      or_warn (fillTopicFlags userID accountType indexes topics mongoCollTopicCollection false) topics message ret).

(** ** [service.go] *)
Definition Create (claims : option JwtUtil.Claims) (req : CreateTopicReq) : M Topic :=
  match claims with
  | None => throw ErrInvalidAuthClaims
  | Some claims =>
    check (JwtUtil.ucl_UserID claims) (JwtUtil.ucl_RootUserID claims);;
    ensureThemeExists (ctr_ThemeID req);;
    let! author := resolveTopicAuthor claims (ctr_AccountType req) in
    let! filteredTitle := filterText (if String.eqb (ctr_Title req) "" then " " else ctr_Title req) in
    let! filteredContent := filterText (ctr_Content req) in
    let topic := mkTopic 0 (ctr_ThemeID req) (userIDString (ta_ID author)) filteredTitle filteredContent
      (ctr_Imgs req) false 0 0 0 0 (ctr_Ext req) (ta_AccountType author) (ta_Nickname author) (ta_Avatar author)
      (Some (ta_StuIsCheck author)) (ta_ProvisionalExpiresAt author) "" false false in
    let! topic := internal "创建帖子失败" (CreateTopic topic) in
    let topic := prepareTopic (Local s) topic in
    match producer s with
    | Some p => warn (SendTopicCheck p (ObjectID.Hex (tp_ID topic))) "send topic check mq failed"
    | None => ret tt
    end;;
    ret topic
  end.

Definition Delete (topicID : string) (userID : Z) : M unit :=
  if userID <=? 0 then throw (Bizerr.Param errMsgInvalidParam)
  else
    let! oid := of_res (parseTopicObjectID topicID) in
    let! ok := internal "删除帖子失败" (HideTopicByUser oid (userIDString userID)) in
    if negb ok then throw ErrTopicNotFound
    else
      match producer s with
      | Some p => warn (SendDeleteTopic p topicID) "send delete topic mq failed"
      | None => ret tt
      end.

Definition GetByID (topicID queryUserID accountType : string) : M Topic :=
  let! topic := getTopicByID topicID false in
  match topic with
  | None => throw ErrTopicNotFound
  | Some topic =>
    warn (IncrementTopicField (tp_ID topic) visitedNum 1) "increase topic visited num failed";;
    let! topics := fillTopicUserCertification [topic] in
    let! topics := fillLikeAndCollection queryUserID accountType topics "fill like/collection failed" in
    ret (default topic (head topics))
  end.

(** The keys of [Update]; [hasCheck] is always among them. *)
Definition user_sets (req : UpdateTopicReq) : M (list TopicSet) :=
  let! title :=
    (if String.eqb (utr_Title req) "" then ret []
     else let! v := filterText (utr_Title req) in ret [set_title v]) in
  let! content :=
    (if String.eqb (utr_Content req) "" then ret []
     else let! v := filterText (utr_Content req) in ret [set_content v]) in
  ret (title ++ content ++ when (negb (bool_decide (utr_Imgs req = []))) (set_imgs (utr_Imgs req)) ++ ext_set (utr_Ext req))%list.

Definition Update (topicID : string) (userID : Z) (req : option UpdateTopicReq) : M unit :=
  match req with
  | None => throw (Bizerr.Param errMsgInvalidParam)
  | Some req =>
    if userID <=? 0 then throw (Bizerr.Param errMsgInvalidParam)
    else
      check userID 0;;
      let! update := user_sets req in
      if bool_decide (update = []) && bool_decide (utr_HasCheck req = None) then ret tt
      else
        let update := (update ++ [set_hasCheck (default false (utr_HasCheck req))])%list in
        let! oid := of_res (parseTopicObjectID topicID) in
        let! ok := internal "更新帖子失败" (UpdateTopic oid (userIDString userID) update) in
        if negb ok then throw ErrTopicNotFound else ret tt
  end.

Definition listByFilter (filter : option (TopicDoc -> bool)) (page size : Z) (queryUserID accountType : string)
    (sort : list TopicDoc -> list TopicDoc) : M (PageResult Topic) :=
  let! (topics, total) := internal "查询帖子列表失败" (FindTopicsPage filter sort page size) in
  let! topics := fillTopicUserCertification (prepareTopic (Local s) <$> topics) in
  let! topics := fillLikeAndCollection queryUserID accountType topics "fill topic like/collection failed" in
  ret (NewPageResult topics total page size).

Definition shown_of (userID : string) (d : TopicDoc) : bool := String.eqb (td_UserID d) userID && td_HasCheck d.
Definition ListMine (userID : Z) (accountType : string) (page size : Z) : M (PageResult Topic) :=
  if userID <=? 0 then throw (Bizerr.Param errMsgInvalidParam)
  else listByFilter (Some (shown_of (userIDString userID))) page size (userIDString userID) accountType by_id_desc.
Definition ListTargetUserTopics (currentUserID targetUserID : Z) (accountType : string) (page size : Z) : M (PageResult Topic) :=
  if targetUserID <=? 0 then throw (Bizerr.Param errMsgInvalidParam)
  else
    let! author := internal "查询目标用户失败" (FindUserByID targetUserID) in
    match author with
    | None => throw ErrTargetUserNotFound
    | Some _ => listByFilter (Some (shown_of (userIDString targetUserID))) page size (userIDString currentUserID) accountType by_id_desc
    end.

(** ** [service_search.go] *)
Definition search_filter (themeIDs : list string) (content : string) : option (TopicDoc -> bool) :=
  let themes d := bool_decide (themeIDs = []) || bool_decide (td_ThemeID d ∈ themeIDs) in
  if String.eqb (GoStr.TrimSpace content) "" then Some (fun d => td_HasCheck d && themes d)
  else (fun m d => td_HasCheck d && themes d && m (td_Content d)) <$> regex_i (".*" ++ content ++ ".*").
Definition searchHot (userID accountType : string) (themeIDs : list string) (content : string) (page size : Z) : M (PageResult Topic) :=
  let! (topics, total) := internal "查询热门帖子失败" (SearchHotTopics (search_filter themeIDs content) page size) in
  let! topics := fillTopicUserCertification (prepareTopic (Local s) <$> topics) in
  let! topics := fillLikeAndCollection userID accountType topics "fill topic like/collection failed" in
  ret (NewPageResult topics total page size).
Definition Search (userID accountType : string) (themeIDs : list string) (content : string) (page size ordCreated : Z) : M (PageResult Topic) :=
  if ordCreated =? 0 then searchHot userID accountType themeIDs content page size
  else listByFilter (search_filter themeIDs content) page size userID accountType by_id_desc.

(** ** [service_admin.go], [moderation.go] *)
Definition ListAdmin (page size : Z) : M (PageResult Topic) :=
  let! (topics, total) := internal "查询帖子列表失败" (FindTopicsPage (Some (fun _ => true)) by_id_desc page size) in
  let! topics := fillTopicUserCertification (prepareTopic (Local s) <$> topics) in
  ret (NewPageResult topics total page size).

Definition resolveAdminTopicAuthor (adminUserID : Z) (accountType : string) : M topicAuthor :=
  if adminUserID <=? 0 then throw ErrInvalidAuthClaims
  else
    let! accountType := of_res (normalizeTopicAccountType accountType) in
    let! adminUser := internal "查询管理员用户失败" (FindUserByID adminUserID) in
    let! adminUser := or_missing ErrUserNotFound adminUser in
    let rootUserID := if 0 <? ta_RootUserID adminUser then ta_RootUserID adminUser else ta_ID adminUser in
    if String.eqb accountType "anonymous" then
      let! author := internal "查询匿名身份失败" (FindUserByRootAndAccountType rootUserID "anonymous") in
      or_missing ErrAnonymousAccountNotFound author
    else
      let! author := internal "查询用户失败" (FindUserByID rootUserID) in
      or_missing ErrUserNotFound author.
Definition CreateAdmin (claims : option AdminJwt.Claims) (req : CreateTopicReq) : M Topic :=
  match claims with
  | None => throw ErrInvalidAuthClaims
  | Some claims =>
    ensureThemeExists (ctr_ThemeID req);;
    let! author := resolveAdminTopicAuthor (AdminJwt.acl_UserID claims) (ctr_AccountType req) in
    let! topic := internal "创建帖子失败" (CreateTopic (buildAdminTopic author req)) in
    ret (prepareTopic (Local s) topic)
  end.
Definition UpdateAdmin (topicID : string) (req : option UpdateTopicReq) : M unit :=
  match req with
  | None => throw (Bizerr.Param errMsgInvalidParam)
  | Some req =>
    let update := buildAdminTopicUpdate req in
    if bool_decide (update = []) then ret tt
    else
      let! oid := of_res (parseTopicObjectID topicID) in
      let! ok := internal "更新帖子失败" (UpdateTopicAdmin oid update) in
      if negb ok then throw ErrTopicNotFound else ret tt
  end.
Definition DeleteAdmin (topicID : string) : M unit :=
  let! oid := of_res (parseTopicObjectID topicID) in
  let! ok := internal "删除帖子失败" (HideTopicAdmin oid) in
  if negb ok then throw ErrTopicNotFound
  else internal "删除帖子失败" (CleanupDeletedTopic topicID).
Definition ReportTarget (topicID : string) : M (option Topic) := getTopicByID topicID false.
Definition HideForModeration (topicID : string) : M unit := DeleteAdmin topicID.

(** ** Likes and collections ([service_social.go]) *)
Definition sendTopicNotify (targetUserID senderUserID topicID content notifyType : string) : M unit :=
  match producer s with
  | None => ret tt
  | Some p =>
    if String.eqb targetUserID "" || String.eqb targetUserID senderUserID then ret tt
    else
      let! t := now in
      warn (SendNotifyUser p (mkTopicNotify targetUserID senderUserID notifyType content topicID "" t)) "send topic notify failed"
  end.

Definition LikeTopic (claims : option JwtUtil.Claims) (topicID : string) : M unit :=
  match claims with
  | None => throw ErrInvalidAuthClaims
  | Some claims =>
    let! topic := getTopicByID topicID true in
    match topic with
    | None => throw ErrTopicNotFound
    | Some topic =>
      let currentUserID := userIDString (JwtUtil.ucl_UserID claims) in
      let! themeName := resolveThemeName (tp_ThemeID topic) in
      let! added := internal "点赞帖子失败"
        (AddTopicState mongoCollTopicLike currentUserID themeName (JwtUtil.ucl_AccountType claims) topicID) in
      if negb added then throw ErrTopicAlreadyLiked
      else
        warn (IncrementTopicField (tp_ID topic) likeNum 1) "increase topic like num failed";;
        sendTopicNotify (tp_UserID topic) currentUserID topicID "点赞了你的帖子" "TOPIC_LIKE"
    end
  end.

Definition withdraw (text message : string) (n : StateName) (f : TopicField) (userID : Z) (accountType topicID : string) : M unit :=
  if userID <=? 0 then throw (Bizerr.Param errMsgInvalidParam)
  else
    let! oid := of_res (parseTopicObjectID topicID) in
    let! removed := internal text (RemoveTopicState n (userIDString userID) accountType topicID) in
    if removed then warn (IncrementTopicField oid f (-1)) message else ret tt.
Definition UnlikeTopic (userID : Z) (accountType topicID : string) : M unit :=
  withdraw "取消点赞失败" "decrease topic like num failed" mongoCollTopicLike likeNum userID accountType topicID.
Definition UncollectTopic (userID : Z) (accountType topicID : string) : M unit :=
  withdraw "取消收藏失败" "decrease topic collection num failed" mongoCollTopicCollection collectionNum userID accountType topicID.

Definition CollectTopic (claims : option JwtUtil.Claims) (topicID : string) : M unit :=
  match claims with
  | None => throw ErrInvalidAuthClaims
  | Some claims =>
    let! topic := getTopicByID topicID true in
    match topic with
    | None => throw ErrTopicNotFound
    | Some topic =>
      let currentUserID := userIDString (JwtUtil.ucl_UserID claims) in
      let! themeName := resolveThemeName (tp_ThemeID topic) in
      let! collCount := internal "查询收藏数量失败"
        (CountTopicStateItems mongoCollTopicCollection currentUserID (JwtUtil.ucl_AccountType claims)) in
      if 500 <=? collCount then throw ErrTopicCollectionLimit
      else
        let! added := internal "收藏帖子失败"
          (AddTopicState mongoCollTopicCollection currentUserID themeName (JwtUtil.ucl_AccountType claims) topicID) in
        if added then
          warn (IncrementTopicField (tp_ID topic) collectionNum 1) "increase topic collection num failed";;
          sendTopicNotify (tp_UserID topic) currentUserID topicID "收藏了你的帖子" "TOPIC_COLLECTION"
        else ret tt
    end
  end.

(** [map[string]Topic], and the topics in the order of the ids. *)
Definition topics_by_id (topics : list Topic) : gmap string Topic :=
  foldl (fun m t => <[ObjectID.Hex (tp_ID t) := t]> m) ∅ topics.
Definition findByIDs (topicIDs : list string) : M (list Topic) :=
  let oids := omap ObjectID.ObjectIDFromHex topicIDs in
  if bool_decide (oids = []) then ret []
  else
    let! topics := FindTopicsByIDs oids true in
    let! topics := fillTopicUserCertification (prepareTopic (Local s) <$> topics) in
    let byID := topics_by_id topics in
    ret (omap (fun id => byID !! id) topicIDs).

Definition other_flags (n : StateName) : StateName * bool * string :=
  match n with
  | mongoCollTopicLike => (mongoCollTopicCollection, false, "fill topic collection flags failed")
  | mongoCollTopicCollection => (mongoCollTopicLike, true, "fill topic like flags failed")
  end.
Definition own_flag (n : StateName) : bool := match n with mongoCollTopicLike => true | mongoCollTopicCollection => false end.

Definition listTopicsFromArrayDocs (collName : StateName) (userID : Z) (accountType : string) (page size : Z) : M (PageResult Topic) :=
  if userID <=? 0 then throw (Bizerr.Param errMsgInvalidParam)
  else
    let! docs := internal "查询帖子列表失败" (FindTopicStateDocs collName (userIDString userID) accountType) in
    let allIDs := default [] docs in
    if bool_decide (allIDs = []) then ret (NewPageResult [] 0 page size)
    else
      let total := Z.of_nat (length allIDs) in
      let start := mul64 (sub64 page 1) size in
      if total <=? start then ret (NewPageResult [] total page size)
      else
        let end_ := add64 start size in
        let end_ := if total <? end_ then total else end_ in
        if (start <? 0) || (end_ <? start) then throw slice_bounds
        else
          let! topics := internal "查询帖子列表失败"
            (findByIDs (firstn (Z.to_nat (end_ - start)) (skipn (Z.to_nat start) allIDs))) in
          let '(indexes, topics) := resetTopicFlags topics in
          let topics := set_flag (own_flag collName) <$> topics in
          let '(other, isLike, message) := other_flags collName in
          let! topics := or_warn (fillTopicFlags (userIDString userID) accountType indexes topics other isLike)
            topics message ret in
          ret (NewPageResult topics total page size).
Definition ListLikedTopics := listTopicsFromArrayDocs mongoCollTopicLike.
Definition ListCollectedTopics := listTopicsFromArrayDocs mongoCollTopicCollection.
End service.
End TopicService.
