(* ===== verification/Mq.v ===== *)
(** * Message queue: producers and delivery

    [internal/mq]: the producers ([producer.go], [config.go]), the binding of routing
    keys to queues ([topology.go]), and [HandleWithDedup] ([base.go]), which decides
    whether a delivery reaches its handler.  The broker is a list of the messages it
    has accepted; JSON envelopes are records, and a body that does not decode is
    [None].  A consumer acknowledges or rejects each delivery. *)
From S2P Require Import Prelude GoString GoTime GoMonad Sql RedisStr Mongo UserModel FeedModel.

Module Mq.
Import Feed.
Open Scope Z_scope.

(** ** Names ([config.go], [topology.go]) *)
Definition KeyUpdateCommentUser : string := "update_cmt_user".
Definition KeyUpdateTopicUser : string := "update_topic_user".
Definition KeyDeleteTopic : string := "delete_topic".
Definition KeyDeleteComment : string := "delete_comment".
Definition KeyAddComment : string := "add_comment".
Definition KeyTopicCheck : string := "topic_check".
Definition KeyNotifyUser : string := "notify_user".

Inductive Queue :=
| QueueCommentUpdate | QueueTopicUpdate | QueueTopicDelete | QueueCommentDelete
| QueueCommentAdd | QueueTopicCheck | QueueNotifyUser | QueueDie.
#[export] Instance Queue_eq : EqDecision Queue. Proof. solve_decision. Defined.

(** [declareTopology]: where a message with a routing key of the exchange goes. *)
Definition bindings : list (string * Queue) :=
  [(KeyUpdateCommentUser, QueueCommentUpdate); (KeyUpdateTopicUser, QueueTopicUpdate);
   (KeyDeleteTopic, QueueTopicDelete); (KeyDeleteComment, QueueCommentDelete);
   (KeyAddComment, QueueCommentAdd); (KeyTopicCheck, QueueTopicCheck); (KeyNotifyUser, QueueNotifyUser)].
Definition queue_of (key : string) : option Queue := snd <$> List.find (fun b => String.eqb b.1 key) bindings.

Definition MsgPrev : Z := 0.
Definition MsgIng : Z := 1.
Definition MsgPost : Z := 2.
Definition MQUUIDKey : string := "uuid".

(** [dedupPrefix] *)
Definition dedupPrefix (q : Queue) : string :=
  match q with
  | QueueTopicCheck => "campus:TCC:"
  | QueueCommentAdd => "campus:AMC:"
  | QueueTopicUpdate | QueueCommentUpdate => "campus:UMC:"
  | QueueTopicDelete | QueueCommentDelete => "campus:DMC:"
  | QueueNotifyUser => "campus:NOTIFY:"
  | QueueDie => "campus:DMC:"
  end.
Definition dedupKey (prefixKey : string) (uniqueID : Z) : string := prefixKey ++ GoStr.FormatInt uniqueID.
Definition three_days : Z := 3 * 24 * GoTime.Hour.

Inductive Outcome := Ack | Nack.

Section queue.
Context {E : Env} {OI : ObjectIDs} {D : SqlEngine} {R : RedisServer} {G : MongoServer}.
Notation DB := (DB D R G).
Notation M := (M DB).

Definition warn {A} (m : M A) (message : string) : M unit :=
  let! r := attempt m in match r with Ok _ => ret tt | Err _ => emit (EvLog message) end.

(** ** Producers *)
(** [PublishWithContext]: the broker takes the message, or the call fails. *)
Definition enqueue (m : MQMessage) (s : DB) : DB := {| s with broker := (broker s ++ [m])%list |}.
Definition publish (key : string) (uniqueID : Z) (data : Payload) : M unit :=
  let! down := fault in
  if down then throw (EWrapf "publish mq message" (EDriver "amqp: channel/connection is not open"))
  else let! s := get_db in put_db (enqueue (mkMQMessage key uniqueID data) s).

(** [BaseProducer.Send]; [rds] is false for a nil Redis client. *)
Definition Send (rds : bool) (key : string) (data : Payload) : M unit :=
  let! t := now in
  let! uniqueID := (if rds then map_err (EWrapf "increase mq uuid") (Incr MQUUIDKey) else ret t) in
  publish key uniqueID data.

Definition SendTopicCheck (rds : bool) (topicID : string) : M unit := Send rds KeyTopicCheck (TopicCheckMsg topicID).
Definition SendAddComment (rds : bool) (msg : AddCommentPayload) : M unit := Send rds KeyAddComment (AddCommentMsg msg).
Definition SendNotifyUser (rds : bool) (msg : NotifyMsg) : M unit :=
  let! id := (if nm_EventID msg <=? 0 then Generate else ret (nm_EventID msg)) in
  Send rds KeyNotifyUser (NotifyUserMsg {| msg with nm_EventID := id |}).
Definition SendUpdateTopicUser (rds : bool) (msg : UserUpdateMsg) : M unit := Send rds KeyUpdateTopicUser (TopicUserUpdateMsg msg).
Definition SendUpdateCommentUser (rds : bool) (msg : UserUpdateMsg) : M unit := Send rds KeyUpdateCommentUser (CommentUserUpdateMsg msg).
Definition SendDeleteTopic (rds : bool) (topicID : string) : M unit := Send rds KeyDeleteTopic (TopicDeleteMsg topicID).
Definition SendDeleteComment (rds : bool) (topicID commentID : string) : M unit :=
  Send rds KeyDeleteComment (CommentDeleteMsg topicID commentID).

(** ** Delivery *)
Definition setDedupDone (rds : bool) (prefixKey : string) (uniqueID : Z) : M unit :=
  if rds then warn (Set_ (dedupKey prefixKey uniqueID) (GoStr.FormatInt MsgPost) three_days) "set mq dedup done failed"
  else ret tt.

(** [rds.Get(..).Int()] is [MsgPost] or [MsgIng]. *)
Definition in_hand (status : res (option string)) : bool :=
  match status with
  | Ok (Some v) =>
    match GoStr.ParseInt v with Some n => (n =? MsgPost) || (n =? MsgIng) | None => false end
  | _ => false
  end.

(** [for i := 0; i < 3; i++ { .. }] *)
Fixpoint attempts (n : nat) (handler : Payload -> M unit) (data : Payload) (done : M unit) : M Outcome :=
  match n with
  | O => emit (EvLog "mq consumer failed");; ret Nack
  | S n =>
    let! r := attempt (handler data) in
    match r with
    | Ok _ => done;; ret Ack
    | Err _ => emit (EvLog "mq consumer retry");; attempts n handler data done
    end
  end.

Definition HandleWithDedup (rds : bool) (prefixKey : string) (body : option (Z * Payload))
    (handler : Payload -> M unit) : M Outcome :=
  match body with
  | None => emit (EvLog "decode mq message failed");; ret Nack
  | Some (uniqueID, data) =>
    let key := dedupKey prefixKey uniqueID in
    let! status := (if rds then attempt (Get key) else ret (Ok None)) in
    if in_hand status then ret Ack
    else
      (if rds then warn (Set_ key (GoStr.FormatInt MsgIng) three_days) "set mq dedup ing failed" else ret tt);;
      attempts 3 handler data (setDedupDone rds prefixKey uniqueID)
  end.
End queue.
End Mq.
