(* ===== verification/MqConsumers.v ===== *)
(** * Message queue: the consumers of topics and comments

    The handlers of [internal/mq]: [consumer_topic_comment.go],
    [consumer_user_cleanup.go], [consumer_notify_user.go], their helpers
    ([consumer_helpers.go], [consumer_sensitive.go], [qr_check.go]), the adapter
    [internal/app/commentproducer] between the comment service and the queue, and
    [consume], a delivery of a queue.  The WeChat client, the sensitive-word filter,
    the notification writer and the HTTP call of the QR-code service are arguments. *)
From S2P Require Import Prelude GoString GoTime GoMonad Sql RedisStr Mongo.
From S2P Require Import UserModel FeedModel CommentRepo CommentService TopicRepo TopicService Mq.

(** The order in which Go ranges over a map. *)
Class MapOrder := { range_keys : list string -> list string; range_perm : forall l, range_keys l ≡ₚ l }.

Module MqConsumers.
Import Users Feed Mq.
Open Scope Z_scope.

Definition rootCommentSentinel : string := "0".

(** [MsgSecCheckResp] of the WeChat client. *)
Record MsgSecCheckResp := mkMsgSecCheckResp { Suggest : string; Label : string; FilteredContent : string }.
(** [commentDoc]: what the consumer reads of a comment message. *)
Record commentDoc := mkcommentDoc {
  co_ID : Z; co_TopicID : string; co_Comment : string; co_CreatedTime : Z; co_UserID : string;
  co_Parent : option string; co_ParentCmtID : string; co_RootCmtID : string; co_HasCheck : bool;
}.

(** ** Pure helpers *)
Definition pickFiltered (origin filtered : string) : string :=
  if String.eqb (GoStr.TrimSpace filtered) "" then origin else filtered.
Definition isRisky (suggest : string) : bool :=
  let v := GoStr.ToLower (GoStr.TrimSpace suggest) in String.eqb v "risky" || String.eqb v "block".
Definition accountTypeName (accountType : Z) : string := if accountType =? 3 then "anonymous" else "base".

Definition resolveWXOpenIDOwnerID (user : User) : res Z :=
  if usr_ID user <=? 0 then Err (ENew "wx user record is invalid")
  else if (0 <? usr_RootUserID user) && negb (usr_RootUserID user =? usr_ID user) then Ok (usr_RootUserID user)
  else if GoStr.EqualFold (GoStr.TrimSpace (usr_AccountType user)) "anonymous"
  then Err (ENew ("anonymous wx user " ++ GoStr.FormatInt (usr_ID user) ++ " root_user_id is invalid"))
  else Ok (usr_ID user).
Definition validateWXOpenID (user : User) : res string :=
  if usr_ID user <=? 0 then Err (ENew "wx user record is invalid")
  else
    let openID := GoStr.TrimSpace (usr_OpenID user) in
    if String.eqb openID "" then Err (ENew ("wx user " ++ GoStr.FormatInt (usr_ID user) ++ " openid is empty"))
    else Ok openID.

(** The message through JSON into [commentDoc]. *)
Definition comment_doc (p : AddCommentPayload) : commentDoc :=
  mkcommentDoc (ap_ID p) (ap_TopicID p) (ap_Comment p) (ap_CreatedTime p) (au_UserID (ap_User p))
    (au_UserID <$> ap_Parent p) (ap_ParentCmtID p) (ap_RootCmtID p) (ap_HasCheck p).
Definition only_id (userID : string) : UserPart := mkUserPart userID "" "" "" "" None.
Definition encode_doc (c : commentDoc) : CommentDoc :=
  mkCommentDoc (co_ID c) (co_TopicID c) (co_Comment c) (bson_time (co_CreatedTime c)) (only_id (co_UserID c))
    (only_id <$> co_Parent c) (co_ParentCmtID c) (co_RootCmtID c) false None None (Some (co_HasCheck c)) None.
Definition set_checked (text : string) (now : Z) (d : CommentDoc) : CommentDoc :=
  {| d with cd_Comment := text; cd_HasCheck := Some true; cd_CreatedTime := bson_time now |}.

(** The keys of the profile updates. *)
Definition keep_or (new old : string) : string := if String.eqb new "" then old else new.
Definition keep_or_opt (new : string) (old : option string) : option string := if String.eqb new "" then old else Some new.
Definition set_topic_user (m : UserUpdateMsg) (d : TopicDoc) : TopicDoc :=
  {| d with td_NickName := keep_or (um_NickName m) (td_NickName d);
            td_Avatar := keep_or (um_Avatar m) (td_Avatar d);
            td_gender := keep_or_opt (um_Gender m) (td_gender d);
            td_signature := keep_or_opt (um_Signature m) (td_signature d);
            td_account_type := (if 0 <? um_AccountType m then Some (accountTypeName (um_AccountType m)) else td_account_type d) |}.
Definition no_profile (m : UserUpdateMsg) : bool :=
  String.eqb (um_NickName m) "" && String.eqb (um_Avatar m) "" && String.eqb (um_Gender m) "" && String.eqb (um_Signature m) "".
Definition set_profile (m : UserUpdateMsg) (u : UserPart) : UserPart :=
  mkUserPart (up_UserID u) (keep_or (um_Avatar m) (up_Avatar u)) (keep_or (um_NickName m) (up_NickName u))
    (up_AccountType u) (keep_or (um_Signature m) (up_Signature u)) (keep_or_opt (um_Gender m) (up_Gender u)).
Definition set_account (m : UserUpdateMsg) (u : UserPart) : UserPart :=
  if 0 <? um_AccountType m then
    mkUserPart (up_UserID u) (up_Avatar u) (up_NickName u) (accountTypeName (um_AccountType m)) (up_Signature u) (up_Gender u)
  else u.
Definition set_comment_user (m : UserUpdateMsg) (d : CommentDoc) : CommentDoc :=
  {| d with cd_User := set_account m (set_profile m (cd_User d)) |}.
Definition set_comment_parent (m : UserUpdateMsg) (d : CommentDoc) : CommentDoc :=
  {| d with cd_Parent := set_profile m <$> cd_Parent d |}.

(** [filterImagesWithQRCode] on the answer of the service. *)
Definition drop_hits (urls : list string) (results : list (string * bool)) : list string :=
  let hit := fst <$> List.filter snd results in base.filter (fun u => u ∉ hit) urls.

Section consumers.
Context {E : Env} {OI : ObjectIDs} {D : SqlEngine} {R : RedisServer} {G : MongoServer} {MO : MapOrder}.
Notation DB := (DB D R G).
Notation M := (M DB).

Record Consumers := mkConsumers {
  rds : bool;
  producer : bool; (* false is nil; it shares [rds] *)
  (* [cfg.JW], trimmed, and the HTTP call: status code, [raw.Code], [raw.Data] *)
  jw : option (string * string);
  post_qr : string -> string -> list string -> M (Z * (Z * list (string * bool)));
  wxClient : option (string -> string -> M MsgSecCheckResp);
  filter : option (string -> M string);
  notificationWriter : option (NotifyMsg -> M unit);
}.
Variable c : Consumers.

(** [_, _ = m] *)
Definition ignore {A} (m : M A) : M unit := attempt m;; ret tt.

Definition filterSensitiveText (content : string) : M string :=
  match filter c with
  | Some f =>
    if String.eqb content "" then ret content
    else
      let! r := attempt (f content) in
      match r with Ok t => ret t | Err e => emit (EvLog "filter sensitive text failed");; throw e end
  | None => ret content
  end.

(** ** Open ids *)
Definition findWXUserRecord (userID : Z) : M User :=
  if userID <=? 0 then throw (ENew ("invalid wx user id " ++ GoStr.FormatInt userID))
  else
    let! r := attempt (take User (byid userID (fun _ => true))) in
    match r with
    | Ok u => ret u
    | Err e =>
      if is_sentinel ErrRecordNotFound e then throw (ENew ("wx user " ++ GoStr.FormatInt userID ++ " not found"))
      else throw (EWrapf ("query wx user " ++ GoStr.FormatInt userID) e)
    end.
Definition resolveWXOpenID (userID : string) : M string :=
  let userID := GoStr.TrimSpace userID in
  if String.eqb userID "" then throw (ENew "wx user id is empty")
  else
    let! s := get_db in
    if db_nil s then throw (ENew "gorm db not initialized")
    else
      match GoStr.ParseInt userID with
      | None => throw (ENew "invalid wx user id")
      | Some id =>
        if id <=? 0 then throw (ENew "invalid wx user id")
        else
          let! user := findWXUserRecord id in
          let! owner := of_res (resolveWXOpenIDOwnerID user) in
          if owner =? usr_ID user then of_res (validateWXOpenID user)
          else
            let! root := map_err (EWrapf "query root wx user") (findWXUserRecord owner) in
            of_res (validateWXOpenID root)
      end.

(** ** QR codes *)
Definition checkQRCode (urls : list string) : M (list (string * bool)) :=
  match jw c with
  | None => throw (ENew "jw base url not configured")
  | Some (base, apiKey) =>
    if String.eqb (GoStr.TrimSpace base) "" then throw (ENew "jw base url not configured")
    else
      let! (status, (code, data)) := map_err (EWrapf "request qr check") (post_qr c base apiKey urls) in
      if 400 <=? status then throw (ENew "qr check status code")
      else if negb (code =? 200) then throw (ENew "qr check failed")
      else ret data
  end.
(** An error leaves the images as they are. *)
Definition filterImagesWithQRCode (urls : list string) : M (list string) :=
  if bool_decide (urls = []) then ret urls
  else let! results := checkQRCode urls in ret (drop_hits urls results).

(** ** Topics *)
Definition set_topic_checked (title content : string) (imgs : list string) (d : TopicDoc) : TopicDoc :=
  {| d with td_HasCheck := true; td_Title := title; td_Content := content; td_Imgs := imgs |}.

Definition oid_of (text hex : string) : res Z :=
  match ObjectID.ObjectIDFromHex hex with Some oid => Ok oid | None => Err (ENew text) end.

Definition check_topic (wx : string -> string -> M MsgSecCheckResp) (topicID : string) (oid : Z) (topic : TopicDoc) : M unit :=
  let! openID := map_err (EWrapf "resolve topic wx openid") (resolveWXOpenID (td_UserID topic)) in
  let! filteredTitle := map_err (EWrapf "filter topic title") (filterSensitiveText (td_Title topic)) in
  let! filteredContent := map_err (EWrapf "filter topic content") (filterSensitiveText (td_Content topic)) in
  let! titleResult := map_err (EWrapf "wx check topic title") (wx filteredTitle openID) in
  let! contentResult := map_err (EWrapf "wx check topic content") (wx filteredContent openID) in
  if isRisky (Suggest titleResult) || isRisky (Suggest contentResult) then ret tt
  else
    let checkedTitle := pickFiltered filteredTitle (FilteredContent titleResult) in
    let checkedContent := pickFiltered filteredContent (FilteredContent contentResult) in
    let! r := attempt (filterImagesWithQRCode (td_Imgs topic)) in
    let! filteredImgs :=
      (match r with
       | Ok imgs => ret imgs
       | Err _ => emit (EvLog "filter topic qrcode images failed");; ret (td_Imgs topic)
       end) in
    map_err (EWrapf "update checked topic")
      (UpdateByID TopicDoc oid (fun d => Some (set_topic_checked checkedTitle checkedContent filteredImgs d)));;
    ret tt.
Definition handleTopicCheck (topicID : string) : M unit :=
  let! topicOID := of_res (oid_of "invalid topic id" topicID) in
  let! topic := doc_or_nil "find topic for check" (FindOne TopicDoc (byid topicOID (fun _ => true))) in
  match topic with
  | None => ret tt
  | Some topic =>
    match wxClient c with
    | None => throw (ENew "wx client not initialized")
    | Some wx => check_topic wx topicID topicOID topic
    end
  end.

(** ** Comments *)
Definition sendNotify (msg : NotifyMsg) : M unit :=
  if producer c then warn (SendNotifyUser (rds c) msg) "send notify mq failed" else ret tt.

Definition notify (cmt : commentDoc) (text : string) (t : Z) (receiver typ : string) : M unit :=
  sendNotify (mkNotifyMsg 0 receiver (co_UserID cmt) typ text (co_TopicID cmt) (ObjectID.Hex (co_ID cmt)) t).
Definition receivers (topicAuthorID parentUserID sender : string) : list string :=
  base.filter (fun u => u <> sender)
    (TopicService.when (negb (String.eqb topicAuthorID "")) topicAuthorID ++
     TopicService.when (negb (String.eqb parentUserID "") && negb (String.eqb parentUserID topicAuthorID)) parentUserID).
Definition notifyCommentUsers (cmt : commentDoc) (filteredComment topicAuthorID : string) (createdTime : Z) : M unit :=
  if String.eqb (co_ParentCmtID cmt) rootCommentSentinel then
    if negb (String.eqb topicAuthorID "") && negb (String.eqb topicAuthorID (co_UserID cmt))
    then notify cmt filteredComment createdTime topicAuthorID "COMMENT_ADD" else ret tt
  else
    let parentUserID := default ""%string (co_Parent cmt) in
    let! parentUserID :=
      (if String.eqb parentUserID "" && negb (String.eqb (co_ParentCmtID cmt) "") then
         match ObjectID.ObjectIDFromHex (co_ParentCmtID cmt) with
         | Some oid =>
           let! r := attempt (FindOne CommentDoc (byid oid (fun _ => true))) in
           ret (match r with Ok d => up_UserID (cd_User d) | Err _ => parentUserID end)
         | None => ret parentUserID
         end
       else ret parentUserID) in
    if String.eqb parentUserID (co_UserID cmt) then ret tt
    else
      for_each (range_keys (receivers topicAuthorID parentUserID (co_UserID cmt))) (fun receiver =>
        notify cmt filteredComment createdTime receiver
          (if String.eqb receiver parentUserID then "COMMENT_REPLY" else "COMMENT_ADD")).

Definition deleteRejectedComment (commentID : Z) : M unit :=
  if ObjectID.IsZero commentID then ret tt
  else map_err (EWrapf "delete rejected comment") (DeleteOne CommentDoc (byid commentID (fun _ => true)));; ret tt.

(** Both counters of a comment that passed, or is removed; failures are ignored. *)
Definition count_topic (topicID : string) (delta : Z) : M unit :=
  match ObjectID.ObjectIDFromHex topicID with
  | Some oid => ignore (UpdateByID TopicDoc oid (CommentRepo.inc_topic_comments delta))
  | None => ret tt
  end.
Definition count_root (rootCmtID : string) (delta : Z) : M unit :=
  if String.eqb rootCmtID "" then ret tt
  else
    match ObjectID.ObjectIDFromHex rootCmtID with
    | Some oid => ignore (UpdateByID CommentDoc oid (CommentRepo.inc_comment_replies delta))
    | None => ret tt
    end.

(** What follows the check of a comment: store the text, count it, tell the users. *)
Definition accept_comment (cmt : commentDoc) (filteredComment : string) : M unit :=
  let! t := now in
  let! r := map_err (EWrapf "update comment checked status")
    (UpdateByID CommentDoc (co_ID cmt) (fun d => Some (set_checked filteredComment t d))) in
  (if MatchedCount r =? 0 then
     map_err (EWrapf "insert checked comment")
       (InsertOne CommentDoc (encode_doc {| cmt with co_Comment := filteredComment; co_HasCheck := true; co_CreatedTime := t |}))
   else ret tt);;
  count_topic (co_TopicID cmt) 1;;
  count_root (co_RootCmtID cmt) 1;;
  let topicOID := default ObjectID.NilObjectID (ObjectID.ObjectIDFromHex (co_TopicID cmt)) in
  let! topic := attempt (FindOne TopicDoc (byid topicOID (fun _ => true))) in
  match topic with
  | Ok d => notifyCommentUsers cmt filteredComment (td_UserID d) t
  | Err _ => ret tt
  end.

Definition handleCommentAdd (msg : AddCommentPayload) : M unit :=
  let cmt := comment_doc msg in
  if ObjectID.IsZero (co_ID cmt) then throw (ENew "comment id is empty")
  else
    match wxClient c with
    | None => throw (ENew "wx client not initialized")
    | Some wx =>
      let! openID := map_err (EWrapf "resolve comment wx openid") (resolveWXOpenID (co_UserID cmt)) in
      let! filteredComment := map_err (EWrapf "filter comment") (filterSensitiveText (co_Comment cmt)) in
      let! checkResult := map_err (EWrapf "wx check comment") (wx filteredComment openID) in
      if isRisky (Suggest checkResult) then deleteRejectedComment (co_ID cmt)
      else accept_comment cmt (pickFiltered filteredComment (FilteredContent checkResult))
    end.

(** ** Profiles and deletions ([consumer_user_cleanup.go]) *)
Definition handleTopicUpdate (m : UserUpdateMsg) : M unit :=
  if String.eqb (um_UserID m) "" then ret tt
  else if no_profile m && negb (0 <? um_AccountType m) then ret tt
  else
    map_err (EWrapf "update topic user profile")
      (UpdateMany TopicDoc (fun d => String.eqb (td_UserID d) (um_UserID m)) (set_topic_user m));; ret tt.

Definition parent_is (userID : string) (d : CommentDoc) : bool :=
  match cd_Parent d with Some p => String.eqb (up_UserID p) userID | None => false end.
Definition handleCommentUpdate (m : UserUpdateMsg) : M unit :=
  if String.eqb (um_UserID m) "" then ret tt
  else if no_profile m && negb (0 <? um_AccountType m) then ret tt
  else
    map_err (EWrapf "update comment user profile")
      (UpdateMany CommentDoc (fun d => String.eqb (up_UserID (cd_User d)) (um_UserID m)) (set_comment_user m));;
    if no_profile m then ret tt
    else
      map_err (EWrapf "update comment parent profile")
        (UpdateMany CommentDoc (parent_is (um_UserID m)) (set_comment_parent m));; ret tt.

Definition handleTopicDelete (topicID : string) : M unit :=
  if String.eqb topicID "" then ret tt
  else
    ignore (UpdateMany (HC := coll_topic_likes) StateDoc (fun _ => true) (TopicRepo.pull_topic topicID));;
    ignore (UpdateMany (HC := coll_topic_collections) StateDoc (fun _ => true) (TopicRepo.pull_topic topicID));;
    map_err (EWrapf "soft delete topic comments")
      (UpdateMany CommentDoc (fun d => String.eqb (cd_TopicID d) topicID) TopicRepo.hide_comment_doc);; ret tt.

Definition handleCommentDelete (commentID : string) : M unit :=
  if String.eqb commentID "" then ret tt
  else
    let! commentOID := of_res (oid_of "invalid comment id" commentID) in
    let! r := attempt (FindOne CommentDoc (byid commentOID (fun _ => true))) in
    (match r with
     | Ok d =>
       let hasCheck := default false (cd_HasCheck d) in
       (if hasCheck && negb (String.eqb (cd_TopicID d) "") then count_topic (cd_TopicID d) (-1) else ret tt);;
       (if hasCheck then count_root (cd_RootCmtID d) (-1) else ret tt)
     | Err _ => ret tt
     end);;
    ignore (DeleteMany LikeDoc (fun d => String.eqb (cl_CommentID d) commentID));;
    map_err (EWrapf "delete comment") (DeleteOne CommentDoc (byid commentOID (fun _ => true)));; ret tt.

Definition handleNotifyUser (msg : NotifyMsg) : M unit :=
  if String.eqb (nm_TargetUserID msg) "" then ret tt
  else
    match notificationWriter c with
    | None => throw (ENew "notification writer is not configured")
    | Some write => write msg
    end.

(** ** Queues *)
(** The handler of a queue; a message of another queue does not decode. *)
Definition handler (q : Queue) (data : Payload) : M unit :=
  match q, data with
  | QueueTopicCheck, TopicCheckMsg id => handleTopicCheck id
  | QueueCommentAdd, AddCommentMsg p => handleCommentAdd p
  | QueueTopicUpdate, TopicUserUpdateMsg m => handleTopicUpdate m
  | QueueTopicDelete, TopicDeleteMsg id => handleTopicDelete id
  | QueueCommentUpdate, CommentUserUpdateMsg m => handleCommentUpdate m
  | QueueCommentDelete, CommentDeleteMsg _ id => handleCommentDelete id
  | QueueNotifyUser, NotifyUserMsg m => handleNotifyUser m
  | _, _ => throw (ENew "unmarshal mq data")
  end.
Definition consume (q : Queue) (body : option (Z * Payload)) : M Outcome :=
  HandleWithDedup (rds c) (dedupPrefix q) body (handler q).
End consumers.

(** ** The producers as the services see them ([internal/app/commentproducer]) *)
Definition messageUser (u : CommentRepo.CommentUser) : AddCommentUser :=
  mkAddCommentUser (CommentRepo.cu_UserID u) (CommentRepo.cu_Avatar u) (CommentRepo.cu_NickName u)
    (CommentRepo.cu_AccountType u) (CommentRepo.cu_Signature u).
Definition comment_message (i : CommentRepo.Comment) : AddCommentPayload :=
  mkAddCommentPayload (CommentRepo.cm_ID i) (CommentRepo.cm_TopicID i) (CommentRepo.cm_Comment i)
    (CommentRepo.cm_CreatedTime i) (messageUser (CommentRepo.cm_User i)) (messageUser <$> CommentRepo.cm_Parent i)
    (CommentRepo.cm_ParentCmtID i) (CommentRepo.cm_RootCmtID i) (CommentRepo.cm_IsAuthor i)
    (CommentRepo.cm_LikeNum i) (CommentRepo.cm_CommentNum i) (CommentRepo.cm_HasCheck i).

Section adapters.
Context {E : Env} {D : SqlEngine} {R : RedisServer} {G : MongoServer}.

Definition comment_producer (rds : bool) : CommentService.CommentProducer :=
  CommentService.mkCommentProducer (fun i => SendAddComment rds (comment_message i)) (SendDeleteComment rds).
Definition notify_message (n : TopicService.TopicNotify) : NotifyMsg :=
  mkNotifyMsg 0 (TopicService.tn_TargetUserID n) (TopicService.tn_SenderUserID n) (TopicService.tn_Type n)
    (TopicService.tn_Content n) (TopicService.tn_TopicID n) (TopicService.tn_CommentID n) (TopicService.tn_CreatedTime n).
Definition topic_producer (rds : bool) : TopicService.EventProducer :=
  TopicService.mkEventProducer (SendTopicCheck rds) (SendDeleteTopic rds) (fun n => SendNotifyUser rds (notify_message n)).
End adapters.
End MqConsumers.
