(* ===== verification/FeedMoves.v ===== *)
(** * Feed: the requests follow a relation

    [FeedRel ρ] lists what a relation has to allow, operation by operation; then every
    request of the comment service and of the topic service, and every delivery,
    follows [ρ] ([feed_serve_does]).  What [ρ] says about adding a comment, collecting a
    topic and accepting a comment is left to the property ([allows]).  [FeedSteps] has
    the requests, the deliveries and the rules for single operations. *)
From S2P Require Import Prelude GoString GoTime GoMonad Sql Safe RedisStr Mongo AdminJwt JwtUtil UserModel.
From S2P Require Import FeedModel CommentRepo CommentService TopicRepo TopicService Mq MqConsumers.

(** ** Feed: what the operations of a store may do

    The rules of [Does] for the operations of the document database and of Redis: an
    operation on a part of the store follows [ρ] when [ρ] lets that part change
    ([Free], [FreeRedis], [FreeBroker]).  Then the idioms of the comment service, the
    topic service and the consumers.  The properties instantiate [ρ]. *)

Module FeedSteps.
Import Users Feed.

Section rules.
Context {D : SqlEngine} {R : RedisServer} {G : MongoServer}.
Notation DB := (DB D R G).
Implicit Types (w : World DB).

#[export, refine] Instance feed_idle : Idle DB :=
  {| idle := fun w w' : World DB => w_db w' = w_db w /\ (w_tick w <= w_tick w')%nat |}.
Proof. done. Defined.

Definition st w : State R := db_state (w_db w).

Context (ρ : World DB -> World DB -> Prop) (WR : WorldRel ρ).

(** [ρ] lets the documents of [T] change, the server, the queue. *)
Definition Free T {HE : Entity T} {HC : Coll DB (State R) T HE _} : Prop :=
  forall w t, ρ w (with_db (cset T t (w_db w)) w).
Definition FreeRedis : Prop := forall w r, ρ w (with_db (set_redis_of r (w_db w)) w).
Definition FreeBroker (data : Payload) : Prop :=
  forall w key id, ρ w (with_db (Mq.enqueue (mkMQMessage key id data) (w_db w)) w).

Context {E : Env} {OI : ObjectIDs}.

Lemma does_mongo_stmt : does ρ mongo_stmt.
Proof. by apply does_stmt. Qed.
Lemma does_NewObjectID : does ρ (NewObjectID : M DB Z).
Proof. apply does_quiet; [done|]. intros w. simpl. auto. Qed.
Lemma does_feed_command {A} (f : Z -> rsrv -> res (A * rsrv)) : FreeRedis -> does ρ (command f : M DB A).
Proof.
  intros Hr. unfold command. do 2 (apply does_bind; [done|eauto with steps|]; intros ?). case_match; [by apply does_throw|].
  intros w. unfold bind, get_db, put_db. case_match; [|apply (wr_refl _ WR)]. case_match. apply Hr.
Qed.
#[local] Hint Resolve does_mongo_stmt does_NewObjectID : steps.
Lemma does_mq_publish key id data : FreeBroker data -> does ρ (Mq.publish key id data).
Proof.
  intros Hb. unfold Mq.publish. apply does_bind; [done|by apply does_fault|]. intros []; [by apply does_throw|].
  intros w. apply Hb.
Qed.
Lemma does_doc_or_nil {A} text (m : M DB A) : does ρ m -> does ρ (doc_or_nil text m).
Proof. intros Hm. unfold doc_or_nil. does_auto. Qed.

Section one_collection.
Context (T : Type) {HE : Entity T} {HC : Coll DB (State R) T HE _}.

Lemma does_Find p : does ρ (Find T p).
Proof. by apply does_find. Qed.
Lemma does_CountDocuments p : does ρ (CountDocuments T p).
Proof. by apply does_count. Qed.
Lemma does_FindOne p : does ρ (FindOne T p).
Proof. unfold FindOne. apply does_bind; [done|apply does_Find|]. intros []; does_auto. Qed.
Lemma does_FindPage p sort skip limit : does ρ (FindPage T p sort skip limit).
Proof. unfold FindPage. does_auto. Qed.

Hypothesis Hf : Free T.
Lemma does_insert_doc r : does ρ (insert_doc T r).
Proof.
  intros w. unfold insert_doc, bind, get_db. destruct (@ins _ _ _ _ _) as [t|]; [apply Hf|apply (wr_refl _ WR)].
Qed.
Lemma does_InsertOne r : does ρ (InsertOne T r).
Proof. unfold InsertOne, insert. apply does_bind; [done|apply does_mongo_stmt|]. intros _. apply does_insert_doc. Qed.
Lemma does_DeleteMany p : does ρ (DeleteMany T p).
Proof.
  unfold DeleteMany, delete. apply does_bind; [done|apply does_mongo_stmt|]. intros _ w. unfold bind, get_db, put_db.
  destruct (@del _ _ _ _ _) as [t n]. apply Hf.
Qed.
Lemma does_DeleteOne p : does ρ (DeleteOne T p).
Proof.
  unfold DeleteOne. apply does_bind; [done|apply does_mongo_stmt|]. intros _ w. unfold bind, get_db, put_db.
  destruct (@sel _ _ _ _ _) as [|r l]; [apply (wr_refl _ WR)|]. destruct (@del _ _ _ _ _) as [t n]. apply Hf.
Qed.
Lemma does_replace r r' : does ρ (replace T r r').
Proof.
  intros w. unfold replace, bind, get_db. destruct (@upd _ _ _ _ _ _) as [[t n]|]; [apply Hf|apply (wr_refl _ WR)].
Qed.
Context `{EqDecision T}.
#[local] Hint Resolve does_replace does_insert_doc : steps.
Lemma does_UpdateOne p f : does ρ (UpdateOne T p f).
Proof. unfold UpdateOne. does_auto. Qed.
Lemma does_Upsert p f new : does ρ (Upsert T p f new).
Proof. unfold Upsert. does_auto. Qed.
Lemma does_UpdateMany p f : does ρ (UpdateMany T p f).
Proof.
  unfold UpdateMany. apply does_bind; [done|apply does_mongo_stmt|]. intros _ w. unfold bind, get_db, put_db.
  destruct (@upd _ _ _ _ _ _) as [[t n]|]; [apply Hf|apply (wr_refl _ WR)].
Qed.
End one_collection.
End rules.

#[export] Hint Resolve does_mongo_stmt does_NewObjectID does_Find does_CountDocuments does_FindOne does_FindPage
  does_InsertOne does_DeleteMany does_DeleteOne does_UpdateOne does_Upsert does_UpdateMany : steps.

(** ** Requests, and deliveries of the queues *)
Inductive request :=
| RAddComment (topicID : string) (userID : Z) (content parentCmtID : string)
| RDeleteComment (topicID commentID : string) (userID : Z)
| RDeleteCommentAdmin (topicID commentID : string)
| RHideComment (commentID : string)
| RLikeComment (commentID : string) (userID : Z)
| RUnlikeComment (commentID : string) (userID : Z)
| RListComments (topicID rootID : string) (viewer page size : Z)
| RMyComments (userID page size : Z)
| RUserComments (userID page size : Z)
| RAdminComments (topicID : string) (page size : Z)
| RCreateTopic (claims : option JwtUtil.Claims) (req : TopicRepo.CreateTopicReq)
| RCreateTopicAdmin (claims : option AdminJwt.Claims) (req : TopicRepo.CreateTopicReq)
| RDeleteTopic (topicID : string) (userID : Z)
| RDeleteTopicAdmin (topicID : string)
| RUpdateTopic (topicID : string) (userID : Z) (req : option TopicRepo.UpdateTopicReq)
| RUpdateTopicAdmin (topicID : string) (req : option TopicRepo.UpdateTopicReq)
| RGetTopic (topicID userID accountType : string)
| RLikeTopic (claims : option JwtUtil.Claims) (topicID : string)
| RUnlikeTopic (userID : Z) (accountType topicID : string)
| RCollectTopic (claims : option JwtUtil.Claims) (topicID : string)
| RUncollectTopic (userID : Z) (accountType topicID : string)
| RListState (collName : TopicRepo.StateName) (userID : Z) (accountType : string) (page size : Z)
| RMyTopics (userID : Z) (accountType : string) (page size : Z)
| RUserTopics (userID targetUserID : Z) (accountType : string) (page size : Z)
| RSearch (userID accountType : string) (themeIDs : list string) (content : string) (page size ordCreated : Z)
| RAdminTopics (page size : Z)
| RConsume (q : Mq.Queue) (body : option (Z * Payload)).

Section requests.
Context {D : SqlEngine} {R : RedisServer} {G : MongoServer} {X : MongoRegex} {MO : MapOrder} {OI : ObjectIDs} {E : Env}.
Notation DB := (DB D R G).

Record Feed := mkFeed {
  fd_comments : @CommentService.Service D R G;
  fd_topics : @TopicService.Service D R G;
  fd_mq : @MqConsumers.Consumers D R G;
}.
Variable f : Feed.
Let Local := TopicService.Local (fd_topics f).

Definition unit_of {A} (m : M DB A) : M DB unit := m;; ret tt.
Definition serve (q : request) : M DB unit :=
  let c := fd_comments f in
  let t := fd_topics f in
  match q with
  | RAddComment topic user content parent => unit_of (CommentService.AddComment c Local topic user content parent)
  | RDeleteComment topic id user => CommentService.DeleteComment c topic id user
  | RDeleteCommentAdmin topic id => CommentService.DeleteCommentAdmin c topic id
  | RHideComment id => CommentService.HideForModeration c id
  | RLikeComment id user => CommentService.LikeComment id user
  | RUnlikeComment id user => CommentService.UnlikeComment id user
  | RListComments topic root viewer page size => unit_of (CommentService.ListByTopic c Local topic root viewer page size)
  | RMyComments user page size => unit_of (CommentService.ListMine c Local user page size)
  | RUserComments user page size => unit_of (CommentService.ListTargetUserComments c user page size)
  | RAdminComments topic page size => unit_of (CommentService.ListCommentAdmin c Local topic page size)
  | RCreateTopic claims req => unit_of (TopicService.Create t claims req)
  | RCreateTopicAdmin claims req => unit_of (TopicService.CreateAdmin t claims req)
  | RDeleteTopic id user => TopicService.Delete t id user
  | RDeleteTopicAdmin id => TopicService.DeleteAdmin id
  | RUpdateTopic id user req => TopicService.Update t id user req
  | RUpdateTopicAdmin id req => TopicService.UpdateAdmin id req
  | RGetTopic id user account => unit_of (TopicService.GetByID t id user account)
  | RLikeTopic claims id => TopicService.LikeTopic t claims id
  | RUnlikeTopic user account id => TopicService.UnlikeTopic user account id
  | RCollectTopic claims id => TopicService.CollectTopic t claims id
  | RUncollectTopic user account id => TopicService.UncollectTopic user account id
  | RListState coll user account page size => unit_of (TopicService.listTopicsFromArrayDocs t coll user account page size)
  | RMyTopics user account page size => unit_of (TopicService.ListMine t user account page size)
  | RUserTopics user target account page size => unit_of (TopicService.ListTargetUserTopics t user target account page size)
  | RSearch user account themes content page size ord => unit_of (TopicService.Search t user account themes content page size ord)
  | RAdminTopics page size => unit_of (TopicService.ListAdmin t page size)
  | RConsume q body => unit_of (MqConsumers.consume (fd_mq f) q body)
  end.

(** ** Histories *)
(** The broker delivers a message that it took, to the queue of its routing key, as
    often as it likes; a body may also be garbage. *)
Definition delivered (q : request) (w : World DB) : Prop :=
  match q with
  | RConsume queue (Some (id, data)) => exists key, mkMQMessage key id data ∈ sent (st w) /\ Mq.queue_of key = Some queue
  | _ => True
  end.
Inductive reach (w0 : World DB) : World DB -> Prop :=
| reach_start : reach w0 w0
| reach_step w q : reach w0 w -> delivered q w -> reach w0 (serve q w).2.
End requests.
End FeedSteps.

Module FeedMoves.
Import Users Feed FeedSteps.

(** Where a comment hangs and its likes, which only a like changes. *)
Definition same_place (d d' : CommentDoc) : Prop :=
  cd_ID d' = cd_ID d /\ cd_TopicID d' = cd_TopicID d /\ cd_RootCmtID d' = cd_RootCmtID d /\
  cd_ParentCmtID d' = cd_ParentCmtID d /\ cd_LikeNum d' = cd_LikeNum d.
(** The counters of a topic that its readers move. *)
Definition same_counts (d d' : TopicDoc) : Prop :=
  td_ID d' = td_ID d /\ td_LikeNum d' = td_LikeNum d /\ td_CollectionNum d' = td_CollectionNum d.
Definition uncounted (t : TopicRepo.Topic) : Prop :=
  TopicRepo.tp_ID t = 0%Z /\ TopicRepo.tp_LikeNum t = 0%Z /\ TopicRepo.tp_CollectionNum t = 0%Z.
Definition is_comment (data : Payload) : bool := match data with AddCommentMsg _ => true | _ => false end.

Section moves.
Context {D : SqlEngine} {R : RedisServer} {G : MongoServer} {X : MongoRegex} {MO : MapOrder} {OI : ObjectIDs} {E : Env}.
Notation DB := (DB D R G).

(** The collaborators outside this component keep to themselves, and the producers
    are those of the queue. *)
Record honest (f : @Feed D R G) : Prop := {
  hc_producer : CommentService.producer (fd_comments f) = None \/
    exists rds, CommentService.producer (fd_comments f) = Some (MqConsumers.comment_producer rds);
  hc_filter : forall g, CommentService.sensitiveFilter (fd_comments f) = Some g -> forall t, untouched (g t);
  hc_check : forall g, CommentService.capabilityChecker (fd_comments f) = Some g -> forall u r c, untouched (g u r c);
  ht_producer : TopicService.producer (fd_topics f) = None \/
    exists rds, TopicService.producer (fd_topics f) = Some (MqConsumers.topic_producer rds);
  ht_filter : forall g, TopicService.sensitiveFilter (fd_topics f) = Some g -> forall t, untouched (g t);
  ht_check : forall g, TopicService.capabilityChecker (fd_topics f) = Some g -> forall u r c, untouched (g u r c);
  hm_qr : forall b k l, untouched (MqConsumers.post_qr (fd_mq f) b k l);
  hm_wx : forall g, MqConsumers.wxClient (fd_mq f) = Some g -> forall t o, untouched (g t o);
  hm_filter : forall g, MqConsumers.filter (fd_mq f) = Some g -> forall t, untouched (g t);
  hm_writer : forall g, MqConsumers.notificationWriter (fd_mq f) = Some g -> forall m, untouched (g m);
}.

Record FeedRel (ρ : World DB -> World DB -> Prop) : Prop := {
  fr_topic_new : forall t, uncounted t -> does ρ (TopicRepo.CreateTopic t);
  fr_topic_edit : forall p f, (forall d d', f d = Some d' -> same_counts d d') -> does ρ (UpdateOne TopicDoc p f);
  fr_topic_edits : forall p f, (forall d, same_counts d (f d)) -> does ρ (UpdateMany TopicDoc p f);
  fr_pull_likes : forall id,
    does ρ (UpdateMany (HC := coll_topic_likes) StateDoc (fun _ => true) (TopicRepo.pull_topic id));
  fr_pull : forall id,
    does ρ (UpdateMany (HC := coll_topic_collections) StateDoc (fun _ => true) (TopicRepo.pull_topic id));
  fr_edit : forall p f, (forall d d', f d = Some d' -> same_place d d') -> does ρ (UpdateOne CommentDoc p f);
  fr_edits : forall p f, (forall d, same_place d (f d)) -> does ρ (UpdateMany CommentDoc p f);
  fr_send : forall rds key data, is_comment data = false -> does ρ (Mq.Send rds key data);
}.

Lemma does_feed_Get (ρ : World DB -> World DB -> Prop) k : WorldRel ρ -> does ρ (Get k : M DB _).
Proof.
  intros WR. apply does_quiet; [done|]. intros w. unfold Get, command, bind, now, fault, get_db, put_db. simpl.
  destruct (env_fault _); simpl; (split; [|lia]); [done|]. by destruct (w_db w).
Qed.
#[local] Hint Resolve does_feed_Get : steps.

Context (ρ : World DB -> World DB -> Prop) (WR : WorldRel ρ).

(** [if b { p, err := m; .. x = g(p) }], before [k]. *)
Lemma does_bind_if {A B C} (b : bool) (m : M DB A) (g : A -> B) (x : B) (k : B -> M DB C) :
  does ρ m -> (forall p, does ρ (k (g p))) -> does ρ (k x) ->
  does ρ (bind (if b then bind m (fun p => ret (g p)) else ret x) k).
Proof.
  intros Hm Hg Hx. destruct b; [|apply Hx]. intros w. specialize (Hm w). unfold bind.
  destruct (m w) as [[p|e] w1]; simpl in *; [|done]. eapply (wr_trans _ WR); [exact Hm|apply Hg].
Qed.

(** ** Reading *)
Lemma does_comment_gormDB : does ρ CommentRepo.gormDB. Proof. unfold CommentRepo.gormDB. does_auto. Qed.
Lemma does_comment_coll : does ρ CommentRepo.mongoCollection. Proof. unfold CommentRepo.mongoCollection. does_auto. Qed.
Lemma does_topic_gormDB : does ρ TopicRepo.gormDB. Proof. unfold TopicRepo.gormDB. does_auto. Qed.
Lemma does_topic_coll : does ρ TopicRepo.mongoCollection. Proof. unfold TopicRepo.mongoCollection. does_auto. Qed.
#[local] Hint Resolve does_comment_gormDB does_comment_coll does_topic_gormDB does_topic_coll does_doc_or_nil : steps.

Section comment_reads.
Import CommentRepo CommentService.
Lemma does_getTopic L id b : does ρ (getTopic L id b).
Proof. unfold getTopic, FindTopicByID. does_auto. Qed.
Lemma does_getCommentByID id : does ρ (getCommentByID id).
Proof. unfold getCommentByID, FindCommentByID. does_auto. Qed.
Lemma does_loadUser id : does ρ (loadUser id).
Proof. unfold loadUser, FindUserByID. does_auto. Qed.
#[local] Hint Resolve does_getTopic does_getCommentByID does_loadUser : steps.
Lemma does_validate u t : does ρ (validateCommentPermission u t).
Proof. unfold validateCommentPermission, loadUserByStringID. does_auto. Qed.
Lemma does_ensureTopicExists L id : does ρ (ensureTopicExists L id).
Proof. unfold ensureTopicExists. does_auto. Qed.
Lemma does_page p sort page size : does ρ (FindCommentsPage p sort page size).
Proof. unfold FindCommentsPage. does_auto. Qed.
Lemma does_comment_certification l : does ρ (fillCommentUserCertification l).
Proof. unfold fillCommentUserCertification, FindUsersByIDs. does_auto. Qed.
Lemma does_like_state u l : does ρ (fillCommentLikeState u l).
Proof. unfold fillCommentLikeState, getHasLikeBatch, FindLikedCommentIDs. does_auto. Qed.
Lemma does_my_items L l : does ρ (my_items L l).
Proof. induction l as [|c l IH]; simpl; does_auto. Qed.
Lemma does_CommentLikeExists id u : does ρ (CommentLikeExists id u).
Proof. unfold CommentLikeExists. does_auto. Qed.
End comment_reads.
#[local] Hint Resolve does_getTopic does_getCommentByID does_loadUser does_validate does_ensureTopicExists does_page
  does_comment_certification does_like_state does_my_items does_CommentLikeExists : steps.

Section topic_reads.
Import TopicRepo TopicService.
Lemma does_filtered {T A} (p : option (T -> bool)) (op : (T -> bool) -> M DB A) :
  (forall q, does ρ (op q)) -> does ρ (filtered p op).
Proof. intros Hop. unfold filtered. destruct p; [apply Hop|]. does_auto. Qed.
Lemma does_FindTopicsPage p sort page size : does ρ (FindTopicsPage p sort page size).
Proof. unfold FindTopicsPage. does_auto; apply does_filtered; intros; does_auto. Qed.
Lemma does_SearchHotTopics p page size : does ρ (SearchHotTopics p page size).
Proof. unfold SearchHotTopics. does_auto; apply does_filtered; intros; does_auto. Qed.
Lemma does_first_user t q : does ρ (first_user t q).
Proof. unfold first_user. does_auto. Qed.
#[local] Hint Resolve does_first_user : steps.
Lemma does_topic_FindUserByID id : does ρ (FindUserByID id).
Proof. unfold FindUserByID. does_auto. Qed.
Lemma does_by_root id t : does ρ (FindUserByRootAndAccountType id t).
Proof. unfold FindUserByRootAndAccountType. does_auto. Qed.
Lemma does_getTopicByID s id b : does ρ (getTopicByID s id b).
Proof. unfold getTopicByID, FindTopicByID. does_auto. Qed.
Lemma does_topic_certification l : does ρ (fillTopicUserCertification l).
Proof. unfold fillTopicUserCertification, FindUsersByIDs. does_auto. Qed.
Lemma does_state_docs n u t : does ρ (FindTopicStateDocs n u t).
Proof. unfold FindTopicStateDocs. does_auto. Qed.
#[local] Hint Resolve does_state_docs does_topic_FindUserByID does_by_root does_topic_certification : steps.
Lemma does_fillLike u a l t : does ρ (fillLikeAndCollection u a l t).
Proof. unfold fillLikeAndCollection, resetTopicFlags, or_warn, fillTopicFlags. does_auto. Qed.
Lemma does_ensureThemeExists id : does ρ (ensureThemeExists id).
Proof. unfold ensureThemeExists, ThemeExists. does_auto. Qed.
Lemma does_resolveThemeName id : does ρ (resolveThemeName id).
Proof. unfold resolveThemeName, FindThemeName. does_auto. Qed.
Lemma does_resolveTopicAuthor c t : does ρ (resolveTopicAuthor c t).
Proof. unfold resolveTopicAuthor, or_missing. does_auto. Qed.
Lemma does_resolveAdminTopicAuthor c t : does ρ (resolveAdminTopicAuthor c t).
Proof. unfold resolveAdminTopicAuthor, or_missing. does_auto. Qed.
Lemma does_findByIDs s l : does ρ (findByIDs s l).
Proof. unfold findByIDs, FindTopicsByIDs. does_auto. Qed.
#[local] Hint Resolve does_fillLike does_findByIDs : steps.
Lemma does_listByFilter s p page size u a sort : does ρ (listByFilter s p page size u a sort).
Proof. unfold listByFilter. does_auto. apply does_FindTopicsPage. Qed.
Lemma does_Search s u a l t page size ord : does ρ (Search s u a l t page size ord).
Proof. unfold Search, searchHot. does_auto; first [apply does_SearchHotTopics|apply does_listByFilter]. Qed.
Lemma does_state_list s n u a page size : does ρ (listTopicsFromArrayDocs s n u a page size).
Proof. unfold listTopicsFromArrayDocs, resetTopicFlags, or_warn, fillTopicFlags. does_auto. Qed.
End topic_reads.
#[local] Hint Resolve does_FindTopicsPage does_topic_FindUserByID does_getTopicByID does_topic_certification
  does_ensureThemeExists does_resolveThemeName does_resolveTopicAuthor does_resolveAdminTopicAuthor does_fillLike
  does_listByFilter does_Search does_state_list does_state_docs : steps.

(** ** Writing *)
Context (FR : FeedRel ρ).

Lemma does_send rds key data : is_comment data = false -> does ρ (Mq.Send rds key data).
Proof. apply FR. Qed.
Lemma does_comment_warn {A} (m : M DB A) t : does ρ m -> does ρ (CommentService.warn m t).
Proof. intros Hm. unfold CommentService.warn. does_auto. Qed.
Lemma does_topic_warn {A} (m : M DB A) t : does ρ m -> does ρ (TopicService.warn m t).
Proof. intros Hm. unfold TopicService.warn. does_auto. Qed.
Lemma does_mq_warn {A} (m : M DB A) t : does ρ m -> does ρ (Mq.warn m t).
Proof. intros Hm. unfold Mq.warn. does_auto. Qed.
Lemma does_ignore {A} (m : M DB A) : does ρ m -> does ρ (MqConsumers.ignore m).
Proof. intros Hm. unfold MqConsumers.ignore. does_auto. Qed.
Lemma does_edit p g : (forall d d', g d = Some d' -> same_place d d') -> does ρ (UpdateOne CommentDoc p g).
Proof. apply FR. Qed.
Lemma does_topic_edit p g : (forall d d', g d = Some d' -> same_counts d d') -> does ρ (UpdateOne TopicDoc p g).
Proof. apply FR. Qed.
Lemma does_topic_set p g : (forall d, same_counts d (g d)) -> does ρ (UpdateOne TopicDoc p (fun d => Some (g d))).
Proof. intros Hg. apply does_topic_edit. by intros d d' [= <-]. Qed.
#[local] Hint Resolve does_send : steps.
#[local] Hint Extern 1 (is_comment _ = false) => reflexivity : steps.

Section comment_writes.
Import CommentRepo CommentService.
Lemma does_hideComment id p : does ρ (hideComment id p).
Proof. unfold hideComment. does_auto. apply does_edit. by intros d d' [= <-]. Qed.
Lemma does_inc_topic id n : does ρ (UpdateByID TopicDoc id (inc_topic_comments n)).
Proof. apply does_topic_edit. by intros d d' (m & _ & ->)%fmap_Some. Qed.
Lemma does_inc_root id n : does ρ (UpdateByID CommentDoc id (inc_comment_replies n)).
Proof. apply does_edit. intros d d' (m & _ & ->)%fmap_Some. done. Qed.
#[local] Hint Resolve does_hideComment does_inc_topic does_inc_root : steps.
Lemma does_decrement a b : does ρ (decrementCommentCounters a b).
Proof. unfold decrementCommentCounters, IncrementTopicCommentNum, IncrementRootCommentNum. does_auto. Qed.
Variable s : @CommentService.Service D R G.
Hypothesis Hp : producer s = None \/ exists rds, producer s = Some (MqConsumers.comment_producer rds).
Lemma does_fallback a b e : does ρ (deleteCommentFallback s a b e).
Proof. unfold deleteCommentFallback. destruct Hp as [->|[rds ->]]; does_auto. apply does_comment_warn, does_send. done. Qed.
#[local] Hint Resolve does_decrement does_fallback : steps.
Lemma does_delete_with t h a b : (forall oid, does ρ (h oid)) -> does ρ (delete_with s t h a b).
Proof. intros Hh. unfold delete_with. does_auto. Qed.
Lemma does_DeleteComment a b u : does ρ (DeleteComment s a b u).
Proof. unfold DeleteComment. does_auto. apply does_delete_with. intros oid. apply does_hideComment. Qed.
Lemma does_DeleteCommentAdmin a b : does ρ (DeleteCommentAdmin s a b).
Proof. apply does_delete_with. intros oid. apply does_hideComment. Qed.
#[local] Hint Resolve does_DeleteCommentAdmin : steps.
Lemma does_HideForModeration a : does ρ (HideForModeration s a).
Proof. unfold HideForModeration. does_auto. Qed.

(** Adding, where the writes are allowed. *)
Lemma does_AddComment L topic user content parent :
  (forall g, sensitiveFilter s = Some g -> forall t, untouched (g t)) ->
  (forall g, capabilityChecker s = Some g -> forall u r c, untouched (g u r c)) ->
  (forall d, cd_LikeNum d = Some 0%Z -> does ρ (InsertOne CommentDoc d)) -> (forall rds key data, does ρ (Mq.Send rds key data)) ->
  does ρ (AddComment s L topic user content parent).
Proof.
  intros Hfil Hchk Hi Hs. unfold AddComment, filterText.
  assert (Hnew : forall c, cm_LikeNum c = 0%Z -> does ρ (
    let! comment := internal "创建评论失败" (CreateComment c) in
    match producer s with Some p => warn (SendAddComment p comment) "send add comment mq failed" | None => ret tt end;;
    ret (ObjectID.Hex (cm_ID comment)))).
  { intros c Hc. unfold CreateComment. destruct Hp as [->|[rds ->]]; does_auto;
      first [by apply Hi; simpl; rewrite Hc|by apply does_comment_warn, Hs]. }
  apply does_bind; [done| |intros _].
  { destruct (capabilityChecker s) as [g|] eqn:Hg; does_auto. by eapply does_untouched, Hchk. }
  apply does_bind; [done|apply does_getTopic|]. intros [t|]; [|by apply does_throw].
  apply does_bind; [done|apply does_loadUser|]. intros u. apply does_bind; [done|apply does_validate|]. intros _.
  apply does_bind; [done| |intros text].
  { destruct (sensitiveFilter s) as [h|] eqn:Hh; does_auto. by eapply does_untouched, Hfil. }
  apply does_bind; [done|by apply does_now|]. intros n. cbv zeta.
  apply does_bind_if; [apply does_getCommentByID|intros p|]; by apply Hnew.
Qed.

(** A relation that lets the likes go. *)
Hypothesis Hl : Free ρ LikeDoc.
Hypothesis Hinc : forall id n, does ρ (UpdateByID CommentDoc id (inc_comment_likes n)).
Lemma does_LikeComment id u : does ρ (LikeComment id u).
Proof. unfold LikeComment, incCommentLikeStrict, IncrementCommentLikeNum, AddCommentLike. does_auto. Qed.
Lemma does_UnlikeComment id u : does ρ (UnlikeComment id u).
Proof. unfold UnlikeComment, incCommentLikeStrict, IncrementCommentLikeNum, RemoveCommentLike. does_auto. Qed.
End comment_writes.

Section topic_writes.
Import TopicRepo TopicService.
Lemma does_CreateTopic t : uncounted t -> does ρ (CreateTopic t).
Proof. apply FR. Qed.
Lemma does_hideTopic id p : does ρ (hideTopic id p).
Proof. unfold hideTopic. does_auto. by apply does_topic_set. Qed.
Lemma does_visit id n : does ρ (IncrementTopicField id visitedNum n).
Proof.
  unfold IncrementTopicField, UpdateByID. does_auto. apply does_topic_edit. by intros d d' (m & _ & ->)%fmap_Some.
Qed.
Lemma same_counts_sets l d : same_counts d (apply_sets l d).
Proof. induction l as [|c l IH]; [done|]. simpl. by destruct c. Qed.
Lemma does_UpdateTopic id u l : does ρ (UpdateTopic id u l).
Proof. unfold UpdateTopic. does_auto. apply does_topic_set. intros d. apply same_counts_sets. Qed.
Lemma does_UpdateTopicAdmin id l : does ρ (UpdateTopicAdmin id l).
Proof. unfold UpdateTopicAdmin. does_auto. apply does_topic_set. intros d. apply same_counts_sets. Qed.
Lemma does_pull_likes id :
  does ρ (UpdateMany (HC := coll_topic_likes) StateDoc (fun _ => true) (pull_topic id)).
Proof. apply FR. Qed.
Lemma does_pull_collections id :
  does ρ (UpdateMany (HC := coll_topic_collections) StateDoc (fun _ => true) (pull_topic id)).
Proof. apply FR. Qed.
Lemma does_hide_comments id :
  does ρ (UpdateMany CommentDoc (fun d => String.eqb (cd_TopicID d) id) hide_comment_doc).
Proof. by apply FR. Qed.
#[local] Hint Resolve does_CreateTopic does_hideTopic does_visit does_UpdateTopic does_UpdateTopicAdmin
  does_pull_likes does_pull_collections does_hide_comments : steps.
Lemma does_remove n id : does ρ (removeTopicFromStateCollection n id).
Proof. unfold removeTopicFromStateCollection. destruct n; simpl; does_auto. Qed.
#[local] Hint Resolve does_remove : steps.
Lemma does_Cleanup id : does ρ (CleanupDeletedTopic id).
Proof. unfold CleanupDeletedTopic. does_auto. Qed.
#[local] Hint Resolve does_Cleanup : steps.
Lemma does_DeleteAdmin id : does ρ (DeleteAdmin id).
Proof. unfold DeleteAdmin, HideTopicAdmin. does_auto. Qed.
Lemma does_UpdateAdmin id req : does ρ (UpdateAdmin id req).
Proof. unfold UpdateAdmin. does_auto. Qed.
Lemma does_CreateAdmin s c req : does ρ (CreateAdmin s c req).
Proof. unfold CreateAdmin. does_auto. by apply does_CreateTopic. Qed.

Variable s : @TopicService.Service D R G.
Hypothesis Hp : producer s = None \/ exists rds, producer s = Some (MqConsumers.topic_producer rds).
Hypothesis Hfilter : forall g, sensitiveFilter s = Some g -> forall t, untouched (g t).
Hypothesis Hcheck : forall g, capabilityChecker s = Some g -> forall u r c, untouched (g u r c).
Lemma does_SendNotifyUser rds m : does ρ (Mq.SendNotifyUser rds m).
Proof. unfold Mq.SendNotifyUser. does_auto. Qed.
#[local] Hint Resolve does_SendNotifyUser does_topic_warn : steps.
Lemma does_topic_notify a b c d e : does ρ (sendTopicNotify s a b c d e).
Proof.
  unfold sendTopicNotify. destruct Hp as [->|[rds ->]]; does_auto. apply does_topic_warn, does_SendNotifyUser.
Qed.
Lemma does_topic_filter t : does ρ (filterText s t).
Proof.
  unfold filterText. destruct (sensitiveFilter s) as [g|] eqn:Hg; does_auto. by eapply does_untouched, Hfilter.
Qed.
Lemma does_topic_check u r : does ρ (check s u r).
Proof. unfold check. destruct (capabilityChecker s) as [g|] eqn:Hg; does_auto. by eapply does_untouched, Hcheck. Qed.
#[local] Hint Resolve does_topic_notify does_topic_filter does_topic_check : steps.
Lemma does_Create c req : does ρ (Create s c req).
Proof.
  unfold Create. destruct Hp as [->|[rds ->]]; does_auto; first [by apply does_CreateTopic|by apply does_topic_warn, does_send].
Qed.
Lemma does_Delete id u : does ρ (Delete s id u).
Proof. unfold Delete, HideTopicByUser. destruct Hp as [->|[rds ->]]; does_auto; by apply does_topic_warn, does_send. Qed.
Lemma does_topic_GetByID id u a : does ρ (GetByID s id u a).
Proof. unfold GetByID. does_auto. Qed.
Lemma does_Update id u req : does ρ (Update s id u req).
Proof. unfold Update, user_sets. does_auto. Qed.

(** The marks of the readers. *)
Lemma does_AddTopicState n u t a id : Free (HC := state_coll n) ρ StateDoc -> does ρ (AddTopicState n u t a id).
Proof. intros Hn. unfold AddTopicState. does_auto. Qed.
Lemma does_RemoveTopicState n u a id : Free (HC := state_coll n) ρ StateDoc -> does ρ (RemoveTopicState n u a id).
Proof. intros Hn. unfold RemoveTopicState. does_auto. Qed.
Lemma does_withdraw n fld t m u a id :
  (forall u a id, does ρ (RemoveTopicState n u a id)) -> (forall id k, does ρ (IncrementTopicField id fld k)) ->
  does ρ (withdraw t m n fld u a id).
Proof. intros Hn Hfld. unfold withdraw. does_auto. Qed.
End topic_writes.
Lemma does_LikeTopic s c id :
  (TopicService.producer s = None \/ exists rds, TopicService.producer s = Some (MqConsumers.topic_producer rds)) ->
  (forall u t a id, does ρ (TopicRepo.AddTopicState TopicRepo.mongoCollTopicLike u t a id)) ->
  (forall id k, does ρ (TopicRepo.IncrementTopicField id TopicRepo.likeNum k)) -> does ρ (TopicService.LikeTopic s c id).
Proof.
  intros Hp Hn Hfld. unfold TopicService.LikeTopic. does_auto.
  all: first [by apply does_topic_warn|by apply does_topic_notify].
Qed.
Lemma does_CollectTopic s c id :
  (TopicService.producer s = None \/ exists rds, TopicService.producer s = Some (MqConsumers.topic_producer rds)) ->
  Free (HC := coll_topic_collections) ρ StateDoc ->
  (forall id k, does ρ (TopicRepo.IncrementTopicField id TopicRepo.collectionNum k)) ->
  does ρ (TopicService.CollectTopic s c id).
Proof.
  intros Hp Hn Hfld. unfold TopicService.CollectTopic, TopicRepo.CountTopicStateItems. does_auto.
  all: first [by apply does_AddTopicState|by apply does_topic_warn|by apply does_topic_notify].
Qed.

Section consumers.
Import Mq MqConsumers.
Variable c : @Consumers D R G.
Hypothesis Hqr : forall b k l, untouched (post_qr c b k l).
Hypothesis Hwx : forall g, wxClient c = Some g -> forall t o, untouched (g t o).
Hypothesis Hfilter : forall g, filter c = Some g -> forall t, untouched (g t).
Hypothesis Hwriter : forall g, notificationWriter c = Some g -> forall m, untouched (g m).

Lemma does_findWXUserRecord id : does ρ (findWXUserRecord id).
Proof. unfold findWXUserRecord. does_auto. Qed.
#[local] Hint Resolve does_findWXUserRecord : steps.
Lemma does_resolveWXOpenID u : does ρ (resolveWXOpenID u).
Proof. unfold resolveWXOpenID. does_auto. Qed.
Lemma does_mq_filter t : does ρ (filterSensitiveText c t).
Proof.
  unfold filterSensitiveText. destruct (filter c) as [g|] eqn:Hg; does_auto. by eapply does_untouched, Hfilter.
Qed.
Lemma does_qr l : does ρ (filterImagesWithQRCode c l).
Proof. unfold filterImagesWithQRCode, checkQRCode. does_auto. by apply does_untouched. Qed.
Lemma does_notify cmt t n a b : does ρ (notify c cmt t n a b).
Proof. unfold notify, sendNotify. does_auto. apply does_mq_warn, does_SendNotifyUser. Qed.
#[local] Hint Resolve does_resolveWXOpenID does_mq_filter does_qr does_notify : steps.
Lemma does_check_topic g id oid d : (forall t o, untouched (g t o)) -> does ρ (check_topic c g id oid d).
Proof.
  intros Hg. unfold check_topic, UpdateByID. does_auto; first [by apply does_untouched|by apply does_topic_set].
Qed.
Lemma does_handleTopicCheck id : does ρ (handleTopicCheck c id).
Proof.
  unfold handleTopicCheck. destruct (wxClient c) as [g|] eqn:Hg; does_auto. apply does_check_topic. by apply Hwx.
Qed.
Lemma does_notifyCommentUsers cmt t a n : does ρ (notifyCommentUsers c cmt t a n).
Proof. unfold notifyCommentUsers. does_auto. Qed.
Lemma does_count_topic id n : does ρ (count_topic id n).
Proof. unfold count_topic. does_auto. apply does_ignore, does_inc_topic. Qed.
Lemma does_count_root id n : does ρ (count_root id n).
Proof. unfold count_root. does_auto. apply does_ignore, does_inc_root. Qed.

(** What the deliveries remove, and the mark of an id. *)
Hypothesis Hdrop : forall k, does ρ (DeleteOne CommentDoc (byid k (fun _ => true))).
Hypothesis Hunlike : forall p, does ρ (DeleteMany LikeDoc p).
Hypothesis Hmark : forall p id n, n = Mq.MsgIng \/ n = Mq.MsgPost ->
  does ρ (Set_ (Mq.dedupKey p id) (GoStr.FormatInt n) Mq.three_days : M DB _).
#[local] Hint Resolve does_notifyCommentUsers does_count_topic does_count_root : steps.
(** The document a delivery puts back. *)
Definition put_back (cmt : commentDoc) (d : CommentDoc) : Prop :=
  cd_ID d = co_ID cmt /\ cd_RootCmtID d = co_RootCmtID cmt /\ cd_LikeNum d = None.
Lemma does_accept_comment cmt t :
  (forall d, put_back cmt d -> does ρ (InsertOne CommentDoc d)) -> does ρ (accept_comment c cmt t).
Proof.
  intros Hi. unfold accept_comment, UpdateByID. does_auto.
  - apply does_edit. by intros d d' [= <-].
  - by apply Hi.
Qed.
Lemma does_handleTopicUpdate m : does ρ (handleTopicUpdate m).
Proof. unfold handleTopicUpdate. does_auto. by apply FR. Qed.
Lemma does_handleCommentUpdate m : does ρ (handleCommentUpdate m).
Proof. unfold handleCommentUpdate. does_auto; by apply FR. Qed.
Lemma does_handleTopicDelete id : does ρ (handleTopicDelete id).
Proof.
  unfold handleTopicDelete. does_auto; try apply does_ignore; first [apply does_pull_likes|apply does_pull_collections|apply does_hide_comments].
Qed.
Lemma does_handleCommentDelete id : does ρ (handleCommentDelete id).
Proof. unfold handleCommentDelete. does_auto. by apply does_ignore. Qed.
Lemma does_handleNotifyUser m : does ρ (handleNotifyUser c m).
Proof. unfold handleNotifyUser. destruct (notificationWriter c) as [g|] eqn:Hg; does_auto. by eapply does_untouched, Hwriter. Qed.

(** Accepting a comment is left open, for the comments that [ok] selects. *)
Context (ok : commentDoc -> Prop).
Hypothesis Haccept : forall cmt t, ok cmt -> does ρ (accept_comment c cmt t).
Lemma does_handleCommentAdd p : ok (comment_doc p) -> does ρ (handleCommentAdd c p).
Proof.
  intros Hok. unfold handleCommentAdd, deleteRejectedComment. destruct (wxClient c) as [g|] eqn:Hg; does_auto.
  all: first [by apply Haccept|by eapply does_untouched, Hwx].
Qed.
Definition allows_payload (data : Payload) : Prop :=
  match data with AddCommentMsg p => ok (comment_doc p) | _ => True end.
Lemma does_handler q data : allows_payload data -> does ρ (handler c q data).
Proof.
  intros Hd. destruct q, data; try apply does_throw; try done.
  - apply does_handleCommentUpdate.
  - apply does_handleTopicUpdate.
  - apply does_handleTopicDelete.
  - apply does_handleCommentDelete.
  - by apply does_handleCommentAdd.
  - apply does_handleTopicCheck.
  - apply does_handleNotifyUser.
Qed.

Lemma does_attempts n h data done : does ρ done -> does ρ (h data) -> does ρ (attempts n h data done).
Proof. intros Hd Hh. induction n as [|n IH]; simpl; does_auto. Qed.
Lemma does_handling q id data : allows_payload data ->
  does ρ (Mq.attempts 3 (handler c q) data (Mq.setDedupDone (rds c) (Mq.dedupPrefix q) id)).
Proof.
  intros Hd. apply does_attempts; [|by apply does_handler]. unfold Mq.setDedupDone. does_auto.
  apply does_mq_warn, Hmark. by right.
Qed.
Lemma does_consume q body :
  (forall id data, body = Some (id, data) -> allows_payload data) -> does ρ (consume c q body).
Proof.
  intros Hb. unfold consume, HandleWithDedup. destruct body as [[id data]|]; [|does_auto].
  pose proof (does_handling q id data (Hb id data eq_refl)). does_auto. apply does_mq_warn, Hmark. by left.
Qed.
End consumers.

(** ** Everything *)
Variable f : @Feed D R G.
Hypothesis Hf : honest f.

(** What [ρ] has to allow beyond [FeedRel], for each request. *)
Definition allows (q : request) : Prop :=
  match q with
  | RAddComment _ _ _ _ | RLikeComment _ _ | RUnlikeComment _ _ | RLikeTopic _ _ | RUnlikeTopic _ _ _
  | RCollectTopic _ _ | RUncollectTopic _ _ _ | RConsume _ _ => does ρ (serve f q)
  | _ => True
  end.
Lemma does_feed_unit {A} (m : M DB A) : does ρ m -> does ρ (unit_of m).
Proof. intros Hm. unfold unit_of. does_auto. Qed.

Lemma feed_serve_does q : allows q -> does ρ (serve f q).
Proof.
  destruct Hf. intros Hq. destruct q; try exact Hq; clear Hq; cbn [serve]; try apply does_feed_unit.
  - by apply does_DeleteComment.
  - by apply does_DeleteCommentAdmin.
  - by apply does_HideForModeration.
  - unfold CommentService.ListByTopic. does_auto.
  - unfold CommentService.ListMine. does_auto.
  - unfold CommentService.ListTargetUserComments. does_auto.
  - unfold CommentService.ListCommentAdmin. does_auto.
  - by apply does_Create.
  - apply does_CreateAdmin.
  - by apply does_Delete.
  - apply does_DeleteAdmin.
  - by apply does_Update.
  - apply does_UpdateAdmin.
  - apply does_topic_GetByID.
  - apply does_state_list.
  - unfold TopicService.ListMine. does_auto.
  - unfold TopicService.ListTargetUserTopics. does_auto.
  - apply does_Search.
  - unfold TopicService.ListAdmin. does_auto.
Qed.
End moves.
End FeedMoves.

(** ** Feed: a concrete run

    Instances of the parameters, the engines in memory, one topic of user 8, and the
    histories the witnesses use: user 7 comments and replies, the queue delivers. *)

Module FeedDemo.
Import Users Feed FeedSteps FeedMoves.

(** The clock advances one second per step from 2023-11-14 22:13:20 UTC. *)
#[export] Instance feed_env : Env := {
  env_now t := (1700000000 * GoTime.Second + Z.of_nat t * GoTime.Second)%Z;
  env_id t := (1000 + Z.of_nat t)%Z;
  env_fault _ := false;
}.
#[export, refine] Instance feed_oids : ObjectIDs := {| new_oid n := ((1 + Z.of_nat n) mod 2 ^ 96)%Z |}.
Proof. intros n. unfold ObjectID.valid, ObjectID.bound. apply Z.mod_pos_bound. lia. Defined.
Lemma feed_oid n : (n < 1000)%nat -> new_oid n = (1 + Z.of_nat n)%Z.
Proof. intros Hn. simpl. apply Z.mod_small. lia. Qed.
#[export] Instance feed_mongo : MongoServer := gmap_sql.
#[export] Instance feed_regex : MongoRegex := fun pattern => Some (GoStr.Contains pattern).
#[export, refine] Instance feed_order : MapOrder := {| range_keys l := l |}.
Proof. done. Defined.

Notation FeedDB := (Feed.DB gmap_sql gmap_server feed_mongo).

(** The review passes every text. *)
Definition wx_pass (text openID : string) : M FeedDB MqConsumers.MsgSecCheckResp :=
  ret (MqConsumers.mkMsgSecCheckResp "pass" "" "").
Definition feed_service : @Feed gmap_sql gmap_server feed_mongo :=
  mkFeed (CommentService.mkService None (Some (MqConsumers.comment_producer true)) None None)
    (TopicService.mkService (Some (MqConsumers.topic_producer true)) None None (fun t => t))
    (MqConsumers.mkConsumers true true None (fun _ _ _ => throw (ENew "no service")) (Some wx_pass) None (Some (fun _ => ret tt))).
Lemma feed_honest : honest feed_service.
Proof. split; intros; simplify_eq/=; try (right; by exists true); by intros w. Qed.

Definition feed_user (id : Z) (openID : string) : User :=
  {| zero_User with usr_ID := id; usr_OpenID := openID; usr_RootUserID := id; usr_AccountType := "base" |}.
Definition topic_oid : Z := 2 ^ 70.
Definition topic_hex : string := Eval vm_compute in ObjectID.Hex topic_oid.
Definition topic_row : TopicDoc :=
  mkTopicDoc topic_oid "1" "8" "hello" "world" [] true 0 0 0 0 None "base" "eight" "" None None None.
Definition feed_db : FeedDB :=
  mkDB false false (grows [feed_user 7 "wx-7"; feed_user 8 "wx-8"])
    (@grows CommentDoc _ []) (@grows LikeDoc _ []) (@grows TopicDoc _ [topic_row]) (@grows StateDoc _ []) (@grows StateDoc _ [])
    (@grows ThemeIDDoc _ []) (∅ : rsrv) [].
Definition feed_start : World FeedDB := mkWorld feed_db 0 [].
Definition run (qs : list request) (w : World FeedDB) : World FeedDB :=
  foldl (fun w q => (serve feed_service q w).2) w qs.

#[local] Existing Instance Mq.Queue_eq.
(** Every delivery of the list is one the broker may make. *)
Definition may_deliver (q : request) (w : World FeedDB) : bool :=
  match q with
  | RConsume queue (Some (id, data)) =>
    existsb (fun m => bool_decide (m = mkMQMessage (mq_Key m) id data) && bool_decide (Mq.queue_of (mq_Key m) = Some queue))
      (sent (st w))
  | _ => true
  end.
Fixpoint may_run (qs : list request) (w : World FeedDB) : bool :=
  match qs with [] => true | q :: qs => may_deliver q w && may_run qs (serve feed_service q w).2 end.
Lemma may_deliver_ok q w : may_deliver q w = true -> delivered q w.
Proof.
  destruct q; try done. destruct body as [[id data]|]; [|done]. simpl.
  intros (m & Hm%list_elem_of_In & [Hk%bool_decide_eq_true_1 Hq%bool_decide_eq_true_1]%andb_prop)%existsb_exists.
  exists (mq_Key m). by rewrite <- Hk.
Qed.
Lemma reach_run w0 qs w : may_run qs w = true -> reach feed_service w0 w -> reach feed_service w0 (run qs w).
Proof.
  revert w. induction qs as [|q qs IH]; intros w; [done|]. simpl. intros [Hq Hr]%andb_prop Hw.
  apply IH; [done|]. apply reach_step; [done|by apply may_deliver_ok].
Qed.

Definition first_key {T} (m : gmap Z T) : Z := foldr Z.max 0%Z (map_to_list m).*1.
(** User 7 comments and replies to the reply, with the deliveries of the first comment. *)
Definition add_first : request := RAddComment topic_hex 7 "first" "0".
Definition at_first : World FeedDB := run [add_first] feed_start.
Definition first_hex : string := Eval vm_compute in ObjectID.Hex (first_key (comments (st at_first))).
Definition first_message : Z * Payload :=
  Eval vm_compute in match sent (st at_first) with m :: _ => (mq_UniqueID m, mq_Data m) | [] => (0%Z, TopicDeleteMsg "") end.
Definition deliver_first : request := RConsume Mq.QueueCommentAdd (Some first_message).
Definition add_second : request := RAddComment topic_hex 8 "second" first_hex.
Definition at_second : World FeedDB := run [add_first; deliver_first; add_second] feed_start.
Definition second_oid : Z := Eval vm_compute in first_key (comments (st at_second)).
Definition third_history : list request :=
  [add_first; deliver_first; add_second; RAddComment topic_hex 7 "third" (ObjectID.Hex second_oid); deliver_first].
Definition at_third : World FeedDB := run third_history feed_start.
Definition third_oid : Z := Eval vm_compute in first_key (comments (st at_third)).

(** User 7 collects and likes the topic. *)
Definition claims_7 : JwtUtil.Claims := JwtUtil.mkClaims 7 "wx-7" 0 "base" 7 "campus" 0 0 "id".
Definition collect : request := RCollectTopic (Some claims_7) topic_hex.
Definition at_collected : World FeedDB := run [collect; RUncollectTopic 7 "base" topic_hex; collect; collect] feed_start.
End FeedDemo.
