(* ===== verification/FeedTree.v ===== *)
(** * Feed: the tree of comments has two levels

    [tree_ok]: every comment ever added keeps the root it was given, for good, and
    that root is a comment of the first level.  The invariant also covers the messages
    of the queue, because a delivery may put a comment back; it survives every request,
    failing or not, as long as the driver has not drawn an identifier twice ([distinct]). *)
From S2P Require Import Prelude GoString GoMonad Sql Safe RedisStr AdminJwt JwtUtil Mongo UserModel FeedModel.
From S2P Require Import CommentRepo CommentService TopicRepo TopicService Mq MqConsumers FeedMoves.

Module FeedTree.
Import Users Feed FeedSteps FeedMoves FeedDemo.

Section tree.
Context {D : SqlEngine} {R : RedisServer} {G : MongoServer} {X : MongoRegex} {MO : MapOrder}.
Context {OI : ObjectIDs} {E : Env}.
Notation DB := (DB D R G).
Implicit Types (w : World DB).

Definition top_level (r : string) : Prop := r = CommentRepo.DefaultRootCommentID.
(** The identifiers drawn before [t] differ. *)
Definition distinct (t : nat) : Prop := forall n m, (n < m)%nat -> (m < t)%nat -> new_oid n <> new_oid m.
Definition drawn w (k : Z) : Prop := exists n, (n < w_tick w)%nat /\ new_oid n = k.

(** [roots] is the root of every comment so far. *)
Record tree (roots : gmap Z string) w : Prop := {
  tree_docs : forall k d, comments (st w) !! k = Some d -> roots !! k = Some (cd_RootCmtID d);
  tree_messages : forall m p, m ∈ sent (st w) -> mq_Data m = AddCommentMsg p -> roots !! ap_ID p = Some (ap_RootCmtID p);
  tree_roots : forall k r, roots !! k = Some r ->
    top_level r \/ exists j rj, r = ObjectID.Hex j /\ roots !! j = Some rj /\ top_level rj;
  tree_drawn : forall k, is_Some (roots !! k) -> drawn w k;
}.
Definition tree_ok w : Prop := exists roots, tree roots w.
Definition was_sent (data : Payload) w : Prop := exists m, m ∈ sent (st w) /\ mq_Data m = data.

(** What the invariant looks at. *)
Lemma tree_same roots w w' :
  comments (st w') = comments (st w) -> sent (st w') = sent (st w) -> (w_tick w <= w_tick w')%nat ->
  tree roots w -> tree roots w'.
Proof.
  intros Hc Hs Ht [H1 H2 H3 H4]. split; rewrite ?Hc, ?Hs; auto.
  intros k Hk. destruct (H4 k Hk) as (n & Hn & ?). exists n. split; [lia|done].
Qed.

(** The relation: the invariant is kept, and a message stays sent. *)
Definition fine (P : list Payload) w : Prop := tree_ok w /\ Forall (fun p => was_sent p w) P.
Definition keeps (P : list Payload) w w' : Prop :=
  (w_tick w <= w_tick w')%nat /\ (distinct (w_tick w') -> fine P w -> fine P w').
Lemma tree_keeps_same P w w' :
  comments (st w') = comments (st w) -> sent (st w') = sent (st w) -> (w_tick w <= w_tick w')%nat -> keeps P w w'.
Proof.
  intros Hc Hs Ht. split; [done|]. intros _ [[roots Hr] HP]. split; [exists roots; by eapply tree_same|].
  eapply Forall_impl; [exact HP|]. intros p (m & Hm & Hd). exists m. by rewrite Hs.
Qed.
Lemma tree_keeps_rel P : WorldRel (keeps P).
Proof.
  split.
  - intros w. by split.
  - intros w1 w2 w3 [H1 H12] [H2 H23]. split; [lia|]. intros Hd HI. apply H23; [done|]. apply H12; [|done].
    intros n m Hn Hm. apply Hd; lia.
  - intros w w' [Hdb Ht]. apply tree_keeps_same; [|..|done]; unfold st; by rewrite Hdb.
Qed.
#[local] Hint Resolve tree_keeps_rel : steps.

Lemma tree_does_keeps P {A} (m : M DB A) : (forall w, wp m (fun _ w' => keeps P w w') w) -> does (keeps P) m.
Proof. intros Hm w. exact (Hm w). Qed.

Section writes.
Context (P : list Payload).

(** ** Parts of the store that do not matter *)
Lemma tree_free_topics : Free (keeps P) TopicDoc.
Proof. intros w t. by apply tree_keeps_same. Qed.
Lemma tree_free_likes : Free (keeps P) LikeDoc.
Proof. intros w t. by apply tree_keeps_same. Qed.
Lemma tree_free_topic_likes : Free (HC := coll_topic_likes) (keeps P) StateDoc.
Proof. intros w t. by apply tree_keeps_same. Qed.
Lemma free_collections : Free (HC := coll_topic_collections) (keeps P) StateDoc.
Proof. intros w t. by apply tree_keeps_same. Qed.
Lemma tree_free_redis : FreeRedis (keeps P).
Proof. intros w r. by apply tree_keeps_same. Qed.

(** ** Comments *)
Definition set_comments m (s : State R) : State R := {| s with comments := m |}.
(** New documents over old ones with the same root. *)
Lemma keeps_comments w w' m :
  st w' = set_comments m (st w) -> (w_tick w <= w_tick w')%nat ->
  (forall k d', m !! k = Some d' -> exists d, comments (st w) !! k = Some d /\ cd_RootCmtID d' = cd_RootCmtID d) ->
  keeps P w w'.
Proof.
  intros Hw Ht Hm. split; [done|]. intros _ [[roots [H1 H2 H3 H4]] HP]. split.
  - exists roots. split; rewrite ?Hw; simpl; auto.
    + intros k d' Hd'. destruct (Hm k d' Hd') as (d & Hd & ->). eauto.
    + intros k Hk. destruct (H4 k Hk) as (n & Hn & ?). exists n. split; [lia|done].
  - eapply Forall_impl; [exact HP|]. intros p (x & Hx & Hd). exists x. by rewrite Hw.
Qed.
Lemma tree_keeps_UpdateOne p f :
  (forall d d', f d = Some d' -> cd_ID d' = cd_ID d /\ cd_RootCmtID d' = cd_RootCmtID d) ->
  does (keeps P) (UpdateOne CommentDoc p f).
Proof.
  intros Hf. apply tree_does_keeps. intros w.
  assert (Hid : keeps P w (bump w)) by (apply tree_keeps_same; simpl; auto).
  apply (wp_UpdateOne CommentDoc); [intros d d' Hd; by apply Hf in Hd as [? _]|done..|].
  intros d d' w' Hk Hp Hd (Hab & _ & Ht). apply Hf in Hd as [_ Hr].
  apply (keeps_comments _ _ _ Hab); [lia|]. intros k x. rewrite lookup_insert.
  case_decide as Hkd; [intros [= <-]; subst k; by exists d|]. intros Hx. by exists x.
Qed.
Lemma tree_keeps_UpdateMany p f :
  (forall d, same_place d (f d)) -> does (keeps P) (UpdateMany CommentDoc p f).
Proof.
  intros Hf. apply tree_does_keeps. intros w. apply (wp_UpdateMany CommentDoc); [intros d _; apply Hf| |].
  { intros _. apply tree_keeps_same; simpl; auto. }
  intros u w' (Hab & _ & Ht). apply (keeps_comments _ _ _ Hab); [lia|]. intros k x. unfold cv, vw. simpl.
  change (aget (db_state (w_db w))) with (comments (st w)). rewrite lookup_upd_view.
  intros (d & Hd & ->)%fmap_Some. exists d. split; [done|]. destruct (p d); [apply Hf|done].
Qed.
Lemma tree_keeps_DeleteOne k : does (keeps P) (DeleteOne CommentDoc (byid k (fun _ => true))).
Proof.
  apply tree_does_keeps. intros w. assert (Hid : keeps P w (bump w)) by (apply tree_keeps_same; simpl; auto).
  apply (wp_DeleteOne_byid CommentDoc); [done|done|]. intros d w' _ (Hab & _ & Ht).
  apply (keeps_comments _ _ _ Hab); [lia|]. intros j x [_ Hx]%lookup_delete_Some. by exists x.
Qed.

(** ** Messages *)
Lemma keeps_enqueue key id data w :
  (forall p, data = AddCommentMsg p -> forall roots, tree roots w -> roots !! ap_ID p = Some (ap_RootCmtID p)) ->
  keeps P w (with_db (Mq.enqueue (mkMQMessage key id data) (w_db w)) w).
Proof.
  intros Hd. split; [done|]. intros _ [[roots Hr] HP]. split.
  - exists roots. pose proof Hr as [H1 H2 H3 H4]. split; try done. simpl.
    intros m p [Hm|Hm%list_elem_of_singleton]%elem_of_app; [by apply H2|]. subst m. simpl. intros ->. by apply Hd.
  - eapply Forall_impl; [exact HP|]. intros p (x & Hx & Hp). exists x. split; [|done]. simpl. apply elem_of_app. by left.
Qed.
Lemma keeps_send rds key data : is_comment data = false -> does (keeps P) (Mq.Send rds key data).
Proof.
  intros Hd. unfold Mq.Send, Incr. does_auto.
  all: first [apply does_feed_command; [apply tree_keeps_rel|apply tree_free_redis]|apply does_mq_publish; [apply tree_keeps_rel|]].
  all: intros w key' id; apply keeps_enqueue; by intros p ->.
Qed.

Lemma keeps_feed : FeedRel (keeps P).
Proof.
  split; intros.
  - unfold TopicRepo.CreateTopic, TopicRepo.mongoCollection. pose proof tree_free_topics. does_auto.
  - apply does_UpdateOne; [apply tree_keeps_rel|apply tree_free_topics].
  - apply does_UpdateMany; [apply tree_keeps_rel|apply tree_free_topics].
  - apply does_UpdateMany; [apply tree_keeps_rel|apply tree_free_topic_likes].
  - apply does_UpdateMany; [apply tree_keeps_rel|apply free_collections].
  - apply tree_keeps_UpdateOne. intros d d' Hd. split; by eapply H.
  - by apply tree_keeps_UpdateMany.
  - by apply keeps_send.
Qed.

(** ** Steps that leave the comments and the queue alone *)
Definition same w w' : Prop :=
  comments (st w') = comments (st w) /\ sent (st w') = sent (st w) /\ (w_tick w <= w_tick w')%nat.
Lemma same_rel : WorldRel same.
Proof.
  split; [done| |intros w w' [Hdb Ht]; unfold same, st; by rewrite Hdb].
  intros w1 w2 w3 (H1 & S1 & T1) (H2 & S2 & T2). split_and!; [congruence..|lia].
Qed.
#[local] Hint Resolve same_rel : steps.
Lemma wp_same {A} (m : M DB A) (Q : res A -> World DB -> Prop) w :
  does same m -> (forall r w', same w w' -> Q r w') -> wp m Q w.
Proof. intros Hm HQ. apply HQ, Hm. Qed.
Lemma keeps_of_same w w' : same w w' -> keeps P w w'.
Proof. intros (Hc & Hs & Ht). by apply tree_keeps_same. Qed.

(** ** Adding a comment *)
Definition rooted (roots : gmap Z string) (r : string) : Prop :=
  top_level r \/ exists j rj, r = ObjectID.Hex j /\ roots !! j = Some rj /\ top_level rj.
(** A comment that may be added now. *)
Definition good w (c : CommentRepo.Comment) : Prop :=
  CommentRepo.cm_ID c = 0%Z /\ forall roots, tree roots w -> rooted roots (CommentRepo.cm_RootCmtID c).
Definition stored w (c : CommentRepo.Comment) : Prop :=
  exists d, comments (st w) !! CommentRepo.cm_ID c = Some d /\ cd_RootCmtID d = CommentRepo.cm_RootCmtID c.
Lemma stored_same w w' c : same w w' -> stored w c -> stored w' c.
Proof. intros (Hs & _) (d & Hd & Hr). exists d. by rewrite Hs. Qed.

(** The root of a reply is a comment of the first level. *)
Lemma good_reply w p c :
  CommentRepo.cm_ID c = 0%Z -> stored w p -> good w (CommentService.reply_to p c).
Proof.
  intros Hc (d & Hd & Hr). split; [done|]. intros roots HT. pose proof (tree_docs _ _ HT _ _ Hd) as Hroot.
  rewrite Hr in Hroot. unfold CommentService.reply_to. simpl.
  destruct (String.eqb (CommentRepo.cm_RootCmtID p) "") eqn:E1; simpl.
  { apply String.eqb_eq in E1. rewrite E1 in Hroot. destruct (tree_roots _ _ HT _ _ Hroot) as [|(j & _ & He & _)]; [done|].
    symmetry in He. by apply ObjectID.Hex_nonempty in He. }
  destruct (String.eqb (CommentRepo.cm_RootCmtID p) CommentRepo.DefaultRootCommentID) eqn:E2; simpl.
  { apply String.eqb_eq in E2. right. exists (CommentRepo.cm_ID p), CommentRepo.DefaultRootCommentID. by rewrite Hroot, E2. }
  exact (tree_roots _ _ HT _ _ Hroot).
Qed.

Lemma wp_getCommentByID id (Q : res CommentRepo.Comment -> World DB -> Prop) w :
  (forall r w', same w w' -> (forall p, r = Ok p -> stored w' p) -> Q r w') -> wp (CommentService.getCommentByID id) Q w.
Proof.
  intros HQ. unfold CommentService.getCommentByID. apply wp_bind, wp_of_res.
  destruct (CommentService.parseObjectID id) as [oid|e]; [|by apply HQ].
  apply wp_bind, wp_map_err. unfold CommentRepo.FindCommentByID. apply wp_bind.
  apply wp_same; [apply does_comment_coll, same_rel|]. intros [[]|e] w1 H1; cbv beta iota; [|by apply HQ].
  apply wp_bind. unfold doc_or_nil. apply wp_bind, wp_attempt.
  assert (H2 : same w (bump w1)) by (destruct H1 as (? & ? & ?); split_and!; [done..|simpl; lia]).
  apply (wp_FindOne_byid CommentDoc); cbv beta iota.
  - intros _. destruct (errors_Is _ _); repeat wp_step; by apply HQ.
  - intros _. destruct (errors_Is _ _); repeat wp_step; by apply HQ.
  - intros d Hd _. repeat wp_step. apply HQ; [done|]. intros p [= <-]. exists d. simpl. split; [|done].
    pose proof (cv_key CommentDoc _ _ _ Hd) as Hk. simpl in Hk. rewrite Hk. exact Hd.
Qed.

Lemma tree_new roots w w' n d :
  let k := new_oid n in
  tree roots w -> rooted roots (cd_RootCmtID d) -> (w_tick w <= n < w_tick w')%nat -> distinct (w_tick w') ->
  comments (st w') = <[k := d]> (comments (st w)) -> sent (st w') = sent (st w) ->
  tree (<[k := cd_RootCmtID d]> roots) w'.
Proof.
  intros k [H1 H2 H3 H4] Hr Hn Hd Hc Hs.
  assert (Hnew : ~ is_Some (roots !! k)). { intros (m & Hm & Hk)%H4. apply (Hd m n); [lia..|done]. }
  assert (Hold : forall j x, roots !! j = Some x -> <[k := cd_RootCmtID d]> roots !! j = Some x).
  { intros j x Hj. rewrite lookup_insert_ne; [done|]. intros ->. by apply Hnew. }
  assert (Hrt : forall r, rooted roots r -> rooted (<[k := cd_RootCmtID d]> roots) r).
  { intros r [|(j & rj & -> & Hj & Hl)]; [by left|]. right. exists j, rj. auto. }
  split.
  - intros j x. rewrite Hc. destruct (decide (j = k)) as [->|Hj].
    + rewrite !lookup_insert_eq. by intros [= ->].
    + rewrite !lookup_insert_ne by done. apply H1.
  - intros m p. rewrite Hs. intros Hm Hp. by apply Hold, H2 with m.
  - intros j r. destruct (decide (j = k)) as [->|Hj].
    + rewrite lookup_insert_eq. intros [= <-]. by apply Hrt.
    + rewrite lookup_insert_ne by done. intros Hj'. apply Hrt. by eapply H3.
  - intros j. destruct (decide (j = k)) as [->|Hj]; [exists n; split; [lia|done]|]. rewrite lookup_insert_ne by done.
    intros (m & Hm & ?)%H4. exists m. split; [lia|done].
Qed.

Lemma tree_docs_comments m w w' : docs_are CommentDoc m w w' -> st w' = set_comments m (st w) /\ (w_tick w <= w_tick w')%nat.
Proof. intros (Hab & _ & Ht). split; [exact Hab|lia]. Qed.
Lemma cv_comments w : cv CommentDoc w = comments (st w).
Proof. done. Qed.
Lemma keeps_sent w w' : sent (st w') = sent (st w) -> Forall (fun p => was_sent p w) P -> Forall (fun p => was_sent p w') P.
Proof. intros Hs HP. eapply Forall_impl; [exact HP|]. intros p (x & Hx & Hd). exists x. by rewrite Hs. Qed.

Lemma wp_CreateComment c (Q : res CommentRepo.Comment -> World DB -> Prop) w :
  good w c -> (forall r w', keeps P w w' -> (forall c', r = Ok c' -> stored w' c') -> Q r w') ->
  wp (CommentRepo.CreateComment c) Q w.
Proof.
  intros [Hz Hg] HQ. unfold CommentRepo.CreateComment. apply wp_bind.
  apply wp_same; [apply does_comment_coll, same_rel|]. intros [[]|e] w1 H1; cbv beta iota;
    [|by apply HQ; [apply keeps_of_same|]].
  rewrite Hz. apply wp_bind. set (k := new_oid (w_tick w1)). unfold wp at 1, NewObjectID. cbn [fst snd ObjectID.IsZero].
  cbv beta iota. simpl (ObjectID.IsZero 0). cbv beta iota. fold k. apply wp_bind, wp_map_err.
  destruct H1 as (C1 & S1 & T1).
  assert (H2 : same w (bump (bump w1))) by (split_and!; [done..|simpl; lia]).
  apply (wp_InsertOne CommentDoc); cbv beta iota; try (intros _; apply HQ; [by apply keeps_of_same|done]).
  intros w' Hd _. wp_step. apply tree_docs_comments in Hd as [Hst Ht]. rewrite cv_comments in Hst.
  change (st (Ok k, bump w1).2) with (st w1) in Hst. rewrite C1 in Hst. simpl in Ht.
  assert (Hsent : sent (st w') = sent (st w)) by (rewrite Hst; exact S1). apply HQ.
  - split; [lia|]. intros Hu [[roots HT] HP]. split; [|by eapply keeps_sent].
    exists (<[k := CommentRepo.cm_RootCmtID c]> roots).
    apply (tree_new roots w w' (w_tick w1) (CommentRepo.encode_comment k c)); try done.
    + by apply Hg.
    + by rewrite Hst.
  - intros c' [= <-]. exists (CommentRepo.encode_comment k c). split; [|done]. rewrite Hst. apply lookup_insert_eq.
Qed.

Lemma keeps_send_comment rds c w :
  stored w c -> keeps P w (Mq.SendAddComment rds (MqConsumers.comment_message c) w).2.
Proof.
  intros Hc.
  assert (Hm : forall t, does same (if rds then map_err (EWrapf "increase mq uuid") (Incr Mq.MQUUIDKey) else ret t : M DB Z)).
  { intros t. unfold Incr. does_auto. apply does_feed_command; [apply same_rel|]. by intros w1 r. }
  change (wp (Mq.SendAddComment rds (MqConsumers.comment_message c)) (fun _ w' => keeps P w w') w).
  unfold Mq.SendAddComment, Mq.Send. apply wp_bind.
  apply wp_same; [apply does_now, same_rel|]. intros [t|e] w1 H1; cbv beta iota; [|by apply keeps_of_same].
  apply wp_bind. apply wp_same; [apply Hm|]. intros [id|e] w2 H2; cbv beta iota;
    (assert (H3 : same w w2) by (eapply (wr_trans _ same_rel); eassumption)); [|by apply keeps_of_same].
  unfold Mq.publish. apply wp_bind. wp_step. cbv beta iota.
  assert (H4 : same w (bump w2)) by (eapply (wr_trans _ same_rel); [exact H3|]; split_and!; simpl; auto).
  destruct (env_fault _); repeat wp_step; [by apply keeps_of_same|].
  apply (wr_trans _ (tree_keeps_rel P) _ (bump w2)); [by apply keeps_of_same|]. apply keeps_enqueue.
  intros p [= <-] roots HT. destruct (stored_same _ _ _ H4 Hc) as (d & Hd & Hr).
  simpl. rewrite <- Hr. exact (tree_docs _ _ HT _ _ Hd).
Qed.

Section adding.
Variable f : @Feed D R G.
Hypothesis Hf : honest f.
Lemma keeps_AddComment topic user content parent :
  does (keeps P) (CommentService.AddComment (fd_comments f) (TopicService.Local (fd_topics f)) topic user content parent).
Proof.
  destruct Hf. set (s := fd_comments f) in *. unfold CommentService.AddComment.
  pose proof (tree_keeps_rel P) as WR.
  apply does_bind; [done| |intros _].
  { destruct (CommentService.capabilityChecker s) as [g|] eqn:Hg; does_auto. by eapply does_untouched, hc_check0. }
  apply does_bind; [done|by apply does_getTopic|]. intros [t|]; [|by apply does_throw].
  apply does_bind; [done|by apply does_loadUser|]. intros u.
  apply does_bind; [done|by apply does_validate|]. intros _.
  apply does_bind; [done| |intros text].
  { unfold CommentService.filterText. destruct (CommentService.sensitiveFilter s) as [g|] eqn:Hg; does_auto.
    by eapply does_untouched, hc_filter0. }
  apply does_bind; [done|by apply does_now|]. intros n. cbv beta zeta.
  match goal with |- context [CommentService.reply_to _ ?c] => set (cm := c) end.
  intros w. match goal with |- keeps P w (?m w).2 => change (wp m (fun _ w' => keeps P w w') w) end.
  assert (Htop : good w cm) by (split; [done|]; intros roots _; by left).
  assert (Hsend : forall c w1, keeps P w w1 -> stored w1 c ->
    wp (match CommentService.producer s with
        | Some p => CommentService.warn (CommentService.SendAddComment p c) "send add comment mq failed"
        | None => ret tt end;; ret (ObjectID.Hex (CommentRepo.cm_ID c))) (fun _ w' => keeps P w w') w1).
  { intros c w1 K1 S1. destruct hc_producer0 as [->|[rds ->]]; [exact K1|].
    unfold CommentService.warn. apply wp_bind, wp_bind, wp_attempt. unfold wp at 1.
    assert (K2 := wr_trans _ WR _ _ _ K1 (keeps_send_comment rds c w1 S1)). cbn [CommentService.SendAddComment MqConsumers.comment_producer].
    destruct (Mq.SendAddComment _ _ w1) as [[[]|e] w2]; cbn [fst snd] in *; repeat wp_step; [exact K2|].
    apply (wr_trans _ (tree_keeps_rel P) _ w2); [exact K2|]. by apply tree_keeps_same. }
  assert (Hcreate : forall c w1, keeps P w w1 -> good w1 c ->
    wp (let! c' := internal "创建评论失败" (CommentRepo.CreateComment c) in
        match CommentService.producer s with
        | Some p => CommentService.warn (CommentService.SendAddComment p c') "send add comment mq failed"
        | None => ret tt end;; ret (ObjectID.Hex (CommentRepo.cm_ID c'))) (fun _ w' => keeps P w w') w1).
  { intros c w1 K1 G1. apply wp_bind, wp_map_err. apply wp_CreateComment; [done|].
    intros [c'|e] w2 K2 S2; cbv beta iota; [|exact (wr_trans _ WR _ _ _ K1 K2)].
    apply Hsend; [exact (wr_trans _ WR _ _ _ K1 K2)|by apply S2]. }
  apply wp_bind. destruct (negb _); [|apply wp_ret; cbv beta iota; apply Hcreate; [apply (wr_refl _ WR)|done]].
  apply wp_bind. apply wp_getCommentByID. intros [p|e] w1 H1 S1; cbv beta iota; [|by apply keeps_of_same].
  apply wp_ret. cbv beta iota. apply Hcreate; [by apply keeps_of_same|]. apply good_reply; [done|by apply S1].
Qed.

(** ** Deliveries *)
(** A document put back under the root its comment always had. *)
Lemma keeps_InsertOne_known d :
  (forall w roots, tree roots w -> Forall (fun p => was_sent p w) P -> roots !! cd_ID d = Some (cd_RootCmtID d)) ->
  does (keeps P) (InsertOne CommentDoc d).
Proof.
  intros Hd. apply tree_does_keeps. intros w.
  assert (Hid : keeps P w (bump w)) by (apply tree_keeps_same; simpl; auto).
  apply (wp_InsertOne CommentDoc); [done|done|]. intros w' [Hst Ht]%tree_docs_comments _. split; [done|].
  intros _ [[roots HT] HP]. assert (Hsent : sent (st w') = sent (st w)) by (by rewrite Hst).
  split; [|by eapply keeps_sent]. exists roots. pose proof HT as [H1 H2 H3 H4]. split; rewrite ?Hsent; auto.
  - intros k x. rewrite Hst. simpl. rewrite cv_comments, lookup_insert. case_decide as Hk; [|apply H1].
    intros [= <-]. subst k. by eapply Hd.
  - intros k (n & Hn & ?)%H4. exists n. split; [lia|done].
Qed.

Definition among (c : MqConsumers.commentDoc) : Prop := exists p, AddCommentMsg p ∈ P /\ c = MqConsumers.comment_doc p.
Lemma keeps_put_back cmt d : among cmt -> put_back cmt d -> does (keeps P) (InsertOne CommentDoc d).
Proof.
  intros (p & Hp & ->) (Hid & Hr & _). apply keeps_InsertOne_known. intros w roots HT HP. rewrite Hid, Hr.
  eapply Forall_forall in HP as (m & Hm & Hd); [|exact Hp]. by apply (tree_messages _ _ HT m p).
Qed.
Lemma keeps_consume q body : (forall id data, body = Some (id, data) -> P = [data]) ->
  does (keeps P) (MqConsumers.consume (fd_mq f) q body).
Proof.
  destruct Hf. intros HP. apply does_consume with (ok := among); auto using tree_keeps_rel, keeps_feed, tree_keeps_DeleteOne.
  - intros p. apply does_DeleteMany; [apply tree_keeps_rel|apply tree_free_likes].
  - intros p id n _. unfold Set_. pose proof (tree_keeps_rel P). does_auto. apply does_feed_command; [done|apply tree_free_redis].
  - intros cmt t Hc. apply does_accept_comment; auto using tree_keeps_rel, keeps_feed. intros d. by apply keeps_put_back.
  - intros id data Hb. destruct data; try done. simpl. eexists. split; [|done]. rewrite (HP _ _ Hb). apply list_elem_of_singleton. done.
Qed.

(** ** Every request *)
Lemma keeps_topic_field id fld k : does (keeps P) (TopicRepo.IncrementTopicField id fld k).
Proof.
  unfold TopicRepo.IncrementTopicField, UpdateByID, TopicRepo.mongoCollection.
  pose proof (tree_keeps_rel P). pose proof tree_free_topics. does_auto.
Qed.
Lemma keeps_likes id k : does (keeps P) (UpdateByID CommentDoc id (CommentRepo.inc_comment_likes k)).
Proof. apply tree_keeps_UpdateOne. by intros d d' (m & _ & ->)%fmap_Some. Qed.
Definition consumed (q : request) : Prop :=
  match q with RConsume _ body => forall id data, body = Some (id, data) -> P = [data] | _ => True end.
Lemma tree_keeps_serve q : consumed q -> does (keeps P) (serve f q).
Proof.
  intros HP. apply feed_serve_does; auto using tree_keeps_rel, keeps_feed. pose proof (tree_keeps_rel P) as WR.
  pose proof tree_free_likes. pose proof keeps_likes. pose proof keeps_topic_field. pose proof tree_free_topic_likes.
  pose proof free_collections. pose proof (ht_producer _ Hf).
  destruct q; try done; cbn [allows serve]; try apply does_feed_unit; auto.
  - apply keeps_AddComment.
  - by apply does_LikeComment.
  - by apply does_UnlikeComment.
  - apply does_LikeTopic; auto using keeps_feed, does_AddTopicState.
  - apply does_withdraw; auto using does_RemoveTopicState.
  - apply does_CollectTopic; auto using keeps_feed.
  - apply does_withdraw; auto using does_RemoveTopicState.
  - by apply keeps_consume.
Qed.
End adding.
End writes.

(** ** The invariant *)
Section invariant.
Lemma fine_of P w : tree_ok w -> fine P w <-> Forall (fun p => was_sent p w) P.
Proof. intros HT. unfold fine. naive_solver. Qed.
Lemma tree_empty w : comments (st w) = ∅ -> sent (st w) = [] -> tree_ok w.
Proof.
  intros Hc Hs. exists ∅. split; rewrite ?Hc, ?Hs; try done; intros *; rewrite ?lookup_empty; try done.
  by intros ?%not_elem_of_nil.
Qed.
Variable f : @Feed D R G.
Hypothesis Hf : honest f.
Lemma tree_serve w q : delivered q w -> distinct (w_tick (serve f q w).2) -> tree_ok w -> tree_ok (serve f q w).2.
Proof.
  intros Hq Hd HT. set (P := match q with RConsume _ (Some (_, data)) => [data] | _ => [] end).
  assert (HP : consumed P q). { destruct q; try done. intros id data ->. done. }
  destruct (tree_keeps_serve P f Hf q HP w) as [_ HK]. apply HK; [done|]. apply fine_of; [done|]. unfold P.
  destruct q; try constructor. destruct body as [[id data]|]; constructor; [|constructor].
  destruct Hq as (key & Hm & _). by eexists.
Qed.
Lemma later_serve q w : (w_tick w <= w_tick (serve f q w).2)%nat.
Proof.
  set (P := match q with RConsume _ (Some (_, data)) => [data] | _ => [] end).
  apply (tree_keeps_serve P f Hf q). destruct q; try done. intros id data ->. done.
Qed.
Lemma tree_reach w0 w : reach f w0 w -> tree_ok w0 -> distinct (w_tick w) -> tree_ok w.
Proof.
  induction 1 as [|w q _ IH Hq]; [done|]. intros H0 Hd. apply tree_serve; [done..|]. apply IH; [done|].
  intros n m Hn Hm. pose proof (later_serve q w). apply Hd; lia.
Qed.
End invariant.

(** C13: The comments form a tree of two levels, whatever requests were served and
    whatever deliveries were repeated: every comment is of the first level, or its root
    is the hexadecimal id of a comment of the first level, unless that comment has been
    deleted for good. *)
Theorem comment_tree f w0 w k d :
  honest f -> comments (st w0) = ∅ -> sent (st w0) = [] -> reach f w0 w -> distinct (w_tick w) ->
  comments (st w) !! k = Some d ->
  cd_RootCmtID d = CommentRepo.DefaultRootCommentID \/
  exists j, cd_RootCmtID d = ObjectID.Hex j /\
    forall r, comments (st w) !! j = Some r -> cd_RootCmtID r = CommentRepo.DefaultRootCommentID.
Proof.
  intros Hf Hc Hs Hr Hd Hk. destruct (tree_reach f Hf _ _ Hr (tree_empty _ Hc Hs) Hd) as [roots HT].
  destruct (tree_roots _ _ HT _ _ (tree_docs _ _ HT _ _ Hk)) as [|(j & rj & -> & Hj & Htop)]; [by left|right].
  exists j. split; [done|]. intros r Hjr. apply (tree_docs _ _ HT) in Hjr. rewrite Hj in Hjr. injection Hjr as <-. done.
Qed.
End tree.

Lemma feed_distinct t : (t < 1000)%nat -> distinct t.
Proof. intros Ht n m Hn Hm. rewrite !feed_oid by lia. lia. Qed.
(** The reply to the reply hangs from the first comment. *)
Lemma comment_tree_witness : exists d,
  comments (st at_third) !! third_oid = Some d /\
  (cd_RootCmtID d = CommentRepo.DefaultRootCommentID \/
   exists j, cd_RootCmtID d = ObjectID.Hex j /\
     forall r, comments (st at_third) !! j = Some r -> cd_RootCmtID r = CommentRepo.DefaultRootCommentID).
Proof.
  assert (Hs : is_Some (comments (st at_third) !! third_oid)) by (vm_compute; eauto).
  destruct Hs as [d Hd]. exists d. split; [exact Hd|].
  apply (comment_tree feed_service feed_start at_third third_oid d feed_honest).
  - vm_compute. reflexivity.
  - vm_compute. reflexivity.
  - apply reach_run; [vm_compute; reflexivity|apply reach_start].
  - apply feed_distinct. vm_compute. repeat constructor.
  - exact Hd.
Defined.
End FeedTree.
