(* ===== verification/FeedLimits.v ===== *)
(** * Feed: collections of topics are bounded

    One document per user and account, at most 500 topics in it, none twice: an
    invariant of [campus_topic_collection] under every request and delivery.  The
    bound needs the uniqueness: the count and the update pick a document each. *)
From S2P Require Import Prelude GoMonad Sql Safe RedisStr Mongo AdminJwt JwtUtil GoString UserModel.
From S2P Require Import FeedModel CommentRepo CommentService TopicRepo TopicService Mq MqConsumers FeedMoves.
From S2P Require Import FeedMoves.

(** ** Feed: an invariant of one collection

    When a relation says that some property [J] of the documents of one collection is
    kept, an operation follows it as soon as the change it makes keeps [J].  Lemmas
    for the operations of the document database, to be combined with [FeedMoves]. *)

Module FeedInv.
Import Users Feed FeedSteps.

Section collection.
Context {D : SqlEngine} {R : RedisServer} {G : MongoServer} {OI : ObjectIDs} {E : Env}.
Notation DB := (DB D R G).
Implicit Types (w : World DB).
Context (T : Type) {HE : Entity T} {HC : Coll DB (State R) T HE _} {NI : NoIndex T HE} `{EqDecision T}.
Context (J : gmap Z T -> Prop).
Context (get_set : forall m (a : State R),
  @aget mongo_engine DB (State R) T HE _ coll_tbl (@aset mongo_engine DB (State R) T HE _ coll_tbl m a) = m).

Definition keeps w w' : Prop := J (cv T w) -> J (cv T w').
Lemma keeps_rel : WorldRel keeps.
Proof. split; unfold keeps; [auto..|]. intros w w' [Hdb _]. unfold cv, vw. by rewrite Hdb. Qed.
Lemma keeps_eq w w' : cv T w' = cv T w -> keeps w w'.
Proof. unfold keeps. by intros ->. Qed.
Lemma keeps_bump w : keeps w (bump w).
Proof. by apply keeps_eq. Qed.
Lemma cv_docs m w w' : docs_are T m w w' -> cv T w' = m.
Proof. intros (Hab & _). unfold cv, vw. by rewrite Hab, get_set. Qed.
Lemma keeps_docs m w w' : (J (cv T w) -> J m) -> docs_are T m w w' -> keeps w w'.
Proof. intros Hm Hd HJ. rewrite (cv_docs _ _ _ Hd). by apply Hm. Qed.
Lemma does_keeps {A} (m : M DB A) : (forall w, wp m (fun _ w' => keeps w w') w) -> does keeps m.
Proof. intros Hm w. exact (Hm w). Qed.
(** A step that keeps [J], and the rest. *)
Lemma wp_keeps {A} (m : M DB A) (Q : res A -> World DB -> Prop) w :
  keeps w (m w).2 -> (forall r w', keeps w w' -> Q r w') -> wp m Q w.
Proof. intros Hm HQ. by apply HQ. Qed.
Lemma wp_does {A} (m : M DB A) w0 w : keeps w0 w -> does keeps m -> wp m (fun _ w' => keeps w0 w') w.
Proof. intros H0 Hm HJ. by apply Hm, H0. Qed.

Lemma keeps_UpdateOne p f :
  (forall r r', f r = Some r' -> ent_id r' = ent_id r) ->
  (forall m r r', J m -> m !! ent_id r = Some r -> p r = true -> f r = Some r' -> J (<[ent_id r := r']> m)) ->
  does keeps (UpdateOne T p f).
Proof.
  intros Hid HJ. apply does_keeps. intros w.
  apply (wp_UpdateOne T); [done|intros; apply keeps_bump..|].
  intros r r' w' Hr Hp Hf Hd. eapply keeps_docs; [|exact Hd]. eauto.
Qed.
Lemma keeps_UpdateMany p f :
  (forall r, p r = true -> ent_id (f r) = ent_id r) -> (forall m, J m -> J (upd_view p f m)) -> does keeps (UpdateMany T p f).
Proof.
  intros Hid HJ. apply does_keeps. intros w. apply (wp_UpdateMany T); [done|intros; apply keeps_bump|].
  intros u w' Hd. eapply keeps_docs; [|exact Hd]. eauto.
Qed.
Lemma keeps_InsertOne r : (forall m, J m -> m !! ent_id r = None -> J (<[ent_id r := r]> m)) -> does keeps (InsertOne T r).
Proof.
  intros HJ. apply does_keeps. intros w. apply (wp_InsertOne T); [intros; apply keeps_bump..|].
  intros w' Hd Hn. eapply keeps_docs; [|exact Hd]. eauto.
Qed.
Lemma keeps_DeleteMany p : (forall m, J m -> J (matching (fun r => negb (p r)) m)) -> does keeps (DeleteMany T p).
Proof.
  intros HJ. apply does_keeps. intros w. apply (wp_DeleteMany T); [intros; apply keeps_bump|].
  intros w' Hd. eapply keeps_docs; [|exact Hd]. eauto.
Qed.
Lemma keeps_DeleteOne k : (forall m, J m -> J (base.delete k m)) -> does keeps (DeleteOne T (byid k (fun _ => true))).
Proof.
  intros HJ. apply does_keeps. intros w. apply (wp_DeleteOne_byid T); [intros; apply keeps_bump..|].
  intros r w' _ Hd. eapply keeps_docs; [|exact Hd]. eauto.
Qed.
(** An upsert from a given world, where more is known. *)
Lemma wp_keeps_Upsert p f new w :
  (forall r r', f r = Some r' -> ent_id r' = ent_id r) ->
  (forall r r', J (cv T w) -> cv T w !! ent_id r = Some r -> p r = true -> f r = Some r' -> J (<[ent_id r := r']> (cv T w))) ->
  (forall k, J (cv T w) -> (forall j r, cv T w !! j = Some r -> p r = false) -> cv T w !! ent_id (new k) = None ->
     J (<[ent_id (new k) := new k]> (cv T w))) ->
  wp (Upsert T p f new) (fun _ w' => keeps w w') w.
Proof.
  intros Hid Hupd Hnew. apply (wp_Upsert T); [done|intros; apply keeps_bump| |intros; apply keeps_bump|].
  - intros Hno. split.
    + intros k w' _ Hdb _. apply keeps_eq. unfold cv, vw. by rewrite Hdb.
    + intros k w' _ Hk Hab _ HJ. unfold cv, vw. rewrite Hab, get_set. by apply Hnew.
  - intros r r' w' Hr Hp Hf Hd. eapply keeps_docs; [|exact Hd]. eauto.
Qed.
End collection.
End FeedInv.

Module FeedLimits.
Import Users Feed FeedSteps FeedMoves FeedInv FeedDemo TopicRepo.

Definition owner (d : StateDoc) : string * string := (st_UserID d, st_AccountType d).
Record limits (m : gmap Z StateDoc) : Prop := {
  lim_size : forall k d, m !! k = Some d -> (length (st_TopicIDs d) <= 500)%nat;
  lim_once : forall k d, m !! k = Some d -> NoDup (st_TopicIDs d);
  lim_owner : forall k k' d d', m !! k = Some d -> m !! k' = Some d' -> owner d = owner d' -> k = k';
}.

Lemma of_user_owner u a d : of_user u a d = true <-> owner d = (u, a).
Proof. unfold of_user, owner. rewrite andb_true_iff, !String.eqb_eq. naive_solver. Qed.
Lemma addToSet_length x l : (length (addToSet x l) <= S (length l))%nat.
Proof. unfold addToSet. case_bool_decide; rewrite ?length_app; simpl; lia. Qed.
Lemma addToSet_NoDup x l : NoDup l -> NoDup (addToSet x l).
Proof.
  unfold addToSet. case_bool_decide as Hx; [done|]. intros Hl. apply NoDup_app. split; [done|].
  split; [|apply NoDup_singleton]. intros y Hy ->%list_elem_of_singleton. done.
Qed.
Lemma pull_length x l : (length (pull x l) <= length l)%nat.
Proof. apply length_filter. Qed.
Lemma pull_NoDup x l : NoDup l -> NoDup (pull x l).
Proof. apply NoDup_filter. Qed.

Lemma limits_put m k d d' : m !! k = Some d -> owner d' = owner d -> (length (st_TopicIDs d') <= 500)%nat ->
  NoDup (st_TopicIDs d') -> limits m -> limits (<[k := d']> m).
Proof.
  intros Hk Ho Hl Hn [H1 H2 H3]. split.
  - intros j x. rewrite lookup_insert. case_decide; [by intros [= <-]|apply H1].
  - intros j x. rewrite lookup_insert. case_decide; [by intros [= <-]|apply H2].
  - intros j j' x x'. rewrite !lookup_insert. repeat case_decide; simplify_eq; try done; intros; simplify_eq.
    + eapply H3; [exact Hk|eassumption|unfold owner; congruence].
    + eapply H3; [eassumption|exact Hk|unfold owner; congruence].
    + eapply H3; [eassumption..|unfold owner; congruence].
Qed.
Lemma limits_new m k d : (forall j x, m !! j = Some x -> owner x <> owner d) -> (length (st_TopicIDs d) <= 500)%nat ->
  NoDup (st_TopicIDs d) -> limits m -> limits (<[k := d]> m).
Proof.
  intros Ho Hl Hn [H1 H2 H3]. split.
  - intros j x. rewrite lookup_insert. case_decide; [by intros [= <-]|apply H1].
  - intros j x. rewrite lookup_insert. case_decide; [by intros [= <-]|apply H2].
  - intros j j' x x'. rewrite !lookup_insert. repeat case_decide; simplify_eq; try done; intros; simplify_eq.
    + edestruct Ho; [eassumption|unfold owner; congruence].
    + edestruct Ho; [eassumption|unfold owner; congruence].
    + eapply H3; [eassumption..|unfold owner; congruence].
Qed.
Lemma limits_pull x p m : limits m -> limits (upd_view p (pull_topic x) m).
Proof.
  intros [H1 H2 H3].
  assert (Hu : forall k d, upd_view p (pull_topic x) m !! k = Some d ->
    exists d0, m !! k = Some d0 /\ owner d = owner d0 /\ (d = d0 \/ d = pull_topic x d0)).
  { intros k d. rewrite lookup_upd_view. intros (d0 & Hk & ->)%fmap_Some. exists d0. destruct (p d0); auto. }
  split.
  - intros k d (d0 & Hk & _ & [-> | ->])%Hu; [by eapply H1|]. etrans; [apply pull_length|by eapply H1].
  - intros k d (d0 & Hk & _ & [-> | ->])%Hu; [by eapply H2|]. by eapply pull_NoDup, H2.
  - intros k k' d d' (d0 & Hk & Ho & _)%Hu (d1 & Hk' & Ho' & _)%Hu He. eapply H3; [done..|congruence].
Qed.

Section limits.
Context {D : SqlEngine} {R : RedisServer} {G : MongoServer} {X : MongoRegex} {MO : MapOrder} {OI : ObjectIDs} {E : Env}.
Notation DB := (DB D R G).
Implicit Types (w : World DB).

Definition colls w : gmap Z StateDoc := topic_collections (st w).
Notation ρ := (keeps (HC := coll_topic_collections) StateDoc limits : World DB -> World DB -> Prop).
Lemma WR : WorldRel ρ.
Proof. apply keeps_rel. Qed.
#[local] Hint Resolve WR : steps.

Lemma free_comments : Free ρ CommentDoc. Proof. intros w t. by apply keeps_eq. Qed.
Lemma limits_free_likes : Free ρ LikeDoc. Proof. intros w t. by apply keeps_eq. Qed.
Lemma limits_free_topics : Free ρ TopicDoc. Proof. intros w t. by apply keeps_eq. Qed.
Lemma limits_free_topic_likes : Free (HC := coll_topic_likes) ρ StateDoc. Proof. intros w t. by apply keeps_eq. Qed.
Lemma limits_free_redis : FreeRedis ρ. Proof. intros w r. by apply keeps_eq. Qed.
Lemma free_queue data : FreeBroker ρ data. Proof. intros w k id. by apply keeps_eq. Qed.
#[local] Hint Resolve free_comments limits_free_likes limits_free_topics limits_free_topic_likes : steps.

Lemma limits_send rds key data : does ρ (Mq.Send rds key data).
Proof.
  unfold Mq.Send, Incr. does_auto; first [apply does_feed_command, limits_free_redis|apply does_mq_publish, free_queue]; apply WR.
Qed.
Lemma limits_pull_topic id :
  does ρ (UpdateMany (HC := coll_topic_collections) StateDoc (fun _ => true) (pull_topic id)).
Proof. apply keeps_UpdateMany; try done. intros m. apply limits_pull. Qed.
Lemma limits_feed : FeedRel ρ.
Proof.
  split; intros; try apply limits_send; try apply limits_pull_topic;
    unfold CreateTopic, mongoCollection; does_auto.
Qed.

Lemma limits_remove u a id : does ρ (RemoveTopicState mongoCollTopicCollection u a id).
Proof.
  unfold RemoveTopicState, mongoCollection. simpl state_coll. does_auto. apply keeps_UpdateOne; try done; [by intros r r' [= <-]|].
  intros m r r' HJ Hr _ [= <-]. apply (limits_put m (ent_id r) r); try done.
  - etrans; [apply pull_length|by eapply lim_size].
  - by eapply pull_NoDup, lim_once.
Qed.

(** The count is the size of the only document of the user. *)
Lemma wp_CountTopicStateItems u a (Q : res Z -> World DB -> Prop) w :
  (forall e w', colls w' = colls w -> Q (Err e) w') ->
  (forall n w', colls w' = colls w ->
     (forall k d, limits (colls w) -> colls w !! k = Some d -> of_user u a d = true -> Z.of_nat (length (st_TopicIDs d)) = n) ->
     Q (Ok n) w') ->
  wp (CountTopicStateItems mongoCollTopicCollection u a) Q w.
Proof.
  intros He HQ. unfold CountTopicStateItems, FindTopicStateDocs, mongoCollection. apply wp_bind, wp_bind, wp_bind. wp_step.
  destruct (mongo_nil _); wp_step; [by apply He|]. cbv beta iota. apply wp_bind. unfold doc_or_nil.
  apply wp_bind, wp_attempt. apply (wp_FindOne (HC := state_coll mongoCollTopicCollection) StateDoc); cbv beta iota.
  - intros _. simpl. by apply He.
  - intros Hno. simpl. repeat wp_step. apply HQ; [done|]. intros k d _ Hk Hp. by rewrite (Hno k d Hk) in Hp.
  - intros d Hd Hp. repeat wp_step. apply HQ; [done|]. intros k d' HJ Hk Hp'.
    apply of_user_owner in Hp, Hp'. assert (Hkk : ent_id d = k) by (eapply (lim_owner _ HJ); [exact Hd|exact Hk|congruence]).
    subst k. simpl in *. change (colls w !! st_ID d = Some d) in Hd. congruence.
Qed.

(** Room for one more. *)
Lemma limits_add u t a id w :
  (forall k d, limits (colls w) -> colls w !! k = Some d -> of_user u a d = true -> (length (st_TopicIDs d) < 500)%nat) ->
  wp (AddTopicState mongoCollTopicCollection u t a id) (fun _ w' => ρ w w') w.
Proof.
  intros Hroom. unfold AddTopicState, mongoCollection. apply wp_bind, wp_bind. wp_step.
  destruct (mongo_nil _); wp_step; [by apply keeps_eq|]. cbv beta iota. apply wp_bind, wp_map_err.
  eapply (wp_keeps (HC := coll_topic_collections) StateDoc limits).
  - change (wp (Upsert (HC := coll_topic_collections) StateDoc (of_user u a)
      (fun d => Some {| d with st_TopicIDs := addToSet id (st_TopicIDs d) |})
      (fun i => mkStateDoc i u t a [id])) (fun _ w' => ρ w w') w).
    apply (wp_keeps_Upsert (HC := coll_topic_collections) StateDoc limits); try done; [by intros r r' [= <-]|..].
    + intros r r' HJ Hr Hp [= <-]. eapply limits_put; [exact Hr|done|..|done]; simpl.
      * pose proof (addToSet_length id (st_TopicIDs r)). pose proof (Hroom _ _ HJ Hr Hp). lia.
      * by eapply addToSet_NoDup, lim_once.
    + intros k HJ Hno _. apply limits_new; [|simpl; lia|apply NoDup_singleton|done].
      intros j x Hx Ho. apply (Hno j x) in Hx. apply not_true_iff_false in Hx. by apply Hx, of_user_owner.
  - intros [r|e] w' Hw'; cbv beta iota; [by wp_step|done].
Qed.

Lemma limits_CollectTopic s c id :
  (TopicService.producer s = None \/ exists rds, TopicService.producer s = Some (MqConsumers.topic_producer rds)) ->
  does ρ (TopicService.CollectTopic s c id).
Proof.
  intros Hp. pose proof limits_feed as FR. unfold TopicService.CollectTopic. destruct c as [c|]; [|apply does_throw, WR].
  apply does_bind; [apply WR|apply does_getTopicByID, WR|]. intros [t|]; [|apply does_throw, WR].
  apply does_bind; [apply WR|apply does_resolveThemeName, WR|]. intros th. cbv zeta.
  set (u := TopicService.userIDString (JwtUtil.ucl_UserID c)). apply does_keeps. intros w.
  apply wp_bind, wp_map_err, wp_CountTopicStateItems; cbv beta iota; [intros; by apply keeps_eq|].
  intros n w1 Hw1 Hn. destruct (500 <=? n)%Z eqn:Hlim; [by apply keeps_eq|]. apply Z.leb_gt in Hlim.
  assert (Hadd : ρ w1 (AddTopicState mongoCollTopicCollection u th (JwtUtil.ucl_AccountType c) id w1).2).
  { apply limits_add. rewrite Hw1. intros k d HJ Hk Ho. specialize (Hn k d HJ Hk Ho). lia. }
  apply wp_bind, wp_map_err. apply (wp_keeps (HC := coll_topic_collections) StateDoc limits); [exact Hadd|]. intros [added|e] w2 H2; cbv beta iota;
    assert (Hw2 : ρ w w2) by (intros HJ; apply H2; change (limits (colls w1)); by rewrite Hw1); [|done].
  apply (wp_does (HC := coll_topic_collections) StateDoc limits); [done|]. pose proof WR. does_auto.
  - apply does_topic_warn; [done|]. unfold IncrementTopicField, UpdateByID, mongoCollection. does_auto.
  - by apply does_topic_notify.
Qed.

(** ** Every request *)
Section requests.
Variable f : @Feed D R G.
Hypothesis Hf : honest f.
Lemma limits_field id fld k : does ρ (IncrementTopicField id fld k).
Proof. unfold IncrementTopicField, UpdateByID, mongoCollection. pose proof WR. does_auto. Qed.
Lemma limits_mark k v ttl : does ρ (Set_ k v ttl : M DB _).
Proof. unfold Set_. pose proof WR. does_auto. by apply does_feed_command, limits_free_redis. Qed.
Lemma limits_AddComment topic user content parent :
  does ρ (CommentService.AddComment (fd_comments f) (TopicService.Local (fd_topics f)) topic user content parent).
Proof.
  pose proof WR as WR. destruct Hf. apply does_AddComment; try done; [|apply limits_send].
  intros d _. by apply does_InsertOne, free_comments.
Qed.
Lemma limits_serve q : does ρ (serve f q).
Proof.
  pose proof WR as WR. pose proof limits_feed as FR. pose proof limits_field. apply feed_serve_does; [done..|].
  pose proof (ht_producer _ Hf). destruct q; try done; cbn [allows serve]; try apply does_feed_unit; auto.
  - apply limits_AddComment.
  - apply does_LikeComment; [done|apply limits_free_likes|]. intros i n. unfold UpdateByID. does_auto.
  - apply does_UnlikeComment; [done|apply limits_free_likes|]. intros i n. unfold UpdateByID. does_auto.
  - apply does_LikeTopic; auto using does_AddTopicState, limits_free_topic_likes.
  - apply does_withdraw; auto using does_RemoveTopicState, limits_free_topic_likes.
  - by apply limits_CollectTopic.
  - apply does_withdraw; auto using limits_remove.
  - destruct Hf. apply does_consume with (ok := fun _ => True); try done.
    + intros k. by apply does_DeleteOne, free_comments.
    + intros p. by apply does_DeleteMany, limits_free_likes.
    + intros p id n _. apply limits_mark.
    + intros cmt t _. apply does_accept_comment; try done. intros d _. by apply does_InsertOne, free_comments.
    + by intros id [].
Qed.
Lemma limits_reach w0 w : reach f w0 w -> limits (colls w0) -> limits (colls w).
Proof. induction 1 as [|w q _ IH _]; [done|]. intros H0. apply limits_serve. by apply IH. Qed.
End requests.

(** A user holds at most 500 collected topics per account, none of them twice and all
    of them in one document, whatever requests were served one after the other. *)
Theorem collection_limit f w0 w k d :
  honest f -> colls w0 = ∅ -> reach f w0 w -> colls w !! k = Some d ->
  (length (st_TopicIDs d) <= 500)%nat /\ NoDup (st_TopicIDs d) /\
  forall k' d', colls w !! k' = Some d' -> owner d' = owner d -> k' = k.
Proof.
  intros Hf H0 Hr Hk. assert (HL : limits (colls w)).
  { eapply limits_reach; [done..|]. rewrite H0. by split. }
  split_and!; [by eapply lim_size|by eapply lim_once|]. intros k' d' Hk' Ho. by eapply lim_owner.
Qed.
End limits.

Lemma collection_limit_witness : exists k d, colls at_collected !! k = Some d /\ st_TopicIDs d = [topic_hex] /\
  (length (st_TopicIDs d) <= 500)%nat /\ NoDup (st_TopicIDs d) /\
  forall k' d', colls at_collected !! k' = Some d' -> owner d' = owner d -> k' = k.
Proof.
  exists (first_key (colls at_collected)).
  destruct (colls at_collected !! first_key (colls at_collected)) as [d|] eqn:Hd; [|vm_compute in Hd; discriminate Hd].
  exists d. split; [reflexivity|]. split; [vm_compute in Hd; injection Hd as <-; reflexivity|].
  apply (collection_limit feed_service feed_start at_collected (first_key (colls at_collected)) d feed_honest).
  - vm_compute. reflexivity.
  - apply reach_run; [vm_compute; reflexivity|apply reach_start].
  - exact Hd.
Defined.
End FeedLimits.
