(* ===== verification/FeedLikes.v ===== *)
(** * Feed: the like counter of a comment

    [counted]: the counter of every comment is the number of stored likes that name
    it, over all spellings of its id, and no user likes twice under one spelling.  The
    requests keep it, whatever fails in them, except a like that ends in an internal
    error after the counter has moved ([like_counts_first] in [FeedFindings]); the
    deliveries are left out, a delivery may put a comment back without its counter. *)
From S2P Require Import Prelude GoTime GoMonad Sql Safe RedisStr Mongo AdminJwt JwtUtil GoString UserModel.
From S2P Require Import FeedModel CommentRepo CommentService TopicRepo TopicService Mq MqConsumers FeedMoves.
From S2P Require Import FeedMoves.

Module FeedLikes.
Import Users Feed FeedSteps FeedMoves FeedDemo CommentRepo CommentService.
Open Scope Z_scope.

(** ** The invariant *)
(** The comment that a like names, and the likes of a comment in one document. *)
Definition named (d : LikeDoc) : option Z := ObjectID.ObjectIDFromHex (GoStr.TrimSpace (cl_CommentID d)).
Definition likes_in (k : Z) (d : LikeDoc) : Z :=
  if bool_decide (named d = Some k) then Z.of_nat (length (cl_UserIDs d)) else 0.
Record counted (cs : gmap Z CommentDoc) (ls : gmap Z LikeDoc) : Prop := {
  cnt_likes : forall k c, cs !! k = Some c -> default 0 (cd_LikeNum c) = total (likes_in k) ls;
  cnt_once : forall j d, ls !! j = Some d -> NoDup (cl_UserIDs d);
  cnt_spelling : forall i j d d', ls !! i = Some d -> ls !! j = Some d' -> cl_CommentID d = cl_CommentID d' -> i = j;
  cnt_named : forall j d, ls !! j = Some d -> exists k, named d = Some k /\ is_Some (cs !! k);
}.
Lemma parse_named id oid d : parseObjectID id = Ok oid -> cl_CommentID d = id -> named d = Some oid.
Proof. unfold parseObjectID, named. intros Hp ->. destruct (ObjectID.ObjectIDFromHex _); [by injection Hp as ->|done]. Qed.

Lemma pull_absent u l : u ∉ l -> pull u l = l.
Proof.
  unfold pull. induction l as [|x l IH]; [done|]. intros [Hx Hl]%not_elem_of_cons. rewrite filter_cons_True by congruence.
  by rewrite IH.
Qed.
Lemma pull_one u l : NoDup l -> u ∈ l -> Z.of_nat (length (pull u l)) = Z.of_nat (length l) + -1.
Proof.
  induction 1 as [|x l Hx Hl IH]; [by intros ?%not_elem_of_nil|]. intros [-> |Hu]%elem_of_cons.
  - unfold pull. rewrite filter_cons_False by (by intros []). pose proof (pull_absent x l Hx) as He. unfold pull in He. rewrite He. simpl. lia.
  - unfold pull. rewrite filter_cons_True by (by intros ->). simpl. specialize (IH Hu). unfold pull in IH. lia.
Qed.

(** Comments whose counters stay, and new ones. *)
Lemma counted_comments cs cs' ls : counted cs ls -> (forall k, is_Some (cs !! k) -> is_Some (cs' !! k)) ->
  (forall k c', cs' !! k = Some c' ->
     (exists c, cs !! k = Some c /\ cd_LikeNum c' = cd_LikeNum c) \/ cs !! k = None /\ default 0 (cd_LikeNum c') = 0) ->
  counted cs' ls.
Proof.
  intros [H1 H2 H3 H4] Hk Hc. split; [|done|done|].
  - intros k c' [(c & Hkc & ->)|[Hkn ->]]%Hc; [by apply H1|]. symmetry. apply total_zero. intros j d Hj.
    unfold likes_in. case_bool_decide as Hn; [|done]. destruct (H4 j d Hj) as (k' & Hn' & [c Hs]). congruence.
  - intros j d Hj. destruct (H4 j d Hj) as (k & Hn & Hs). eauto.
Qed.

(** One like more, or one less. *)
Lemma counted_like cs ls k c n j d d' : counted cs ls -> cs !! k = Some c -> ls !! j = Some d ->
  named d = Some k -> cl_CommentID d' = cl_CommentID d -> NoDup (cl_UserIDs d') ->
  Z.of_nat (length (cl_UserIDs d')) = Z.of_nat (length (cl_UserIDs d)) + n ->
  counted (<[k := {| c with cd_LikeNum := Some (default 0 (cd_LikeNum c) + n) |}]> cs) (<[j := d']> ls).
Proof.
  intros [H1 H2 H3 H4] Hk Hj Hn Hid Hnd Hl. assert (Hn' : named d' = Some k) by (unfold named in *; by rewrite Hid).
  split.
  - intros i x. rewrite (total_put _ _ _ _ _ Hj). unfold likes_in at 2 3. rewrite lookup_insert. case_decide as Hi.
    + intros [= <-]. subst i. rewrite !bool_decide_true by done. simpl. rewrite (H1 _ _ Hk). lia.
    + intros Hx. rewrite !bool_decide_false by congruence. rewrite (H1 _ _ Hx). lia.
  - intros i x. rewrite lookup_insert. case_decide; [by intros [= <-]|apply H2].
  - intros i i' x x'. rewrite !lookup_insert. repeat case_decide; intros; simplify_eq; try done.
    + eapply H3; [exact Hj|eassumption|congruence].
    + eapply H3; [eassumption|exact Hj|congruence].
    + by eapply H3.
  - intros i x. rewrite lookup_insert. case_decide.
    + intros [= <-]. exists k. by rewrite lookup_insert_eq.
    + intros (k' & Hx & Hs)%H4. exists k'. split; [done|]. rewrite lookup_insert. case_decide; [done|exact Hs].
Qed.
Lemma counted_first cs ls k c j d : counted cs ls -> cs !! k = Some c -> ls !! j = None -> named d = Some k ->
  (forall i x, ls !! i = Some x -> cl_CommentID x <> cl_CommentID d) -> length (cl_UserIDs d) = 1%nat ->
  counted (<[k := {| c with cd_LikeNum := Some (default 0 (cd_LikeNum c) + 1) |}]> cs) (<[j := d]> ls).
Proof.
  intros [H1 H2 H3 H4] Hk Hj Hn Hid Hl. split.
  - intros i x. rewrite (total_new _ _ _ _ Hj). unfold likes_in at 1. rewrite lookup_insert. case_decide as Hi.
    + intros [= <-]. subst i. rewrite bool_decide_true by done. simpl. rewrite (H1 _ _ Hk). lia.
    + intros Hx. rewrite bool_decide_false by congruence. by rewrite (H1 _ _ Hx).
  - intros i x. rewrite lookup_insert. case_decide; [|apply H2]. intros [= <-].
    destruct (cl_UserIDs d) as [|u [|]]; try done. apply NoDup_singleton.
  - intros i i' x x'. rewrite !lookup_insert. repeat case_decide; intros; simplify_eq; try done.
    + edestruct Hid; [eassumption|congruence].
    + edestruct Hid; [eassumption|congruence].
    + by eapply H3.
  - intros i x. rewrite lookup_insert. case_decide.
    + intros [= <-]. exists k. by rewrite lookup_insert_eq.
    + intros (k' & Hx & Hs)%H4. exists k'. split; [done|]. rewrite lookup_insert. case_decide; [done|exact Hs].
Qed.

Section likes.
Context {D : SqlEngine} {R : RedisServer} {G : MongoServer} {X : MongoRegex} {MO : MapOrder} {OI : ObjectIDs} {E : Env}.
Notation DB := (DB D R G).
Implicit Types (w : World DB).

Definition like_counts w : Prop := counted (comments (st w)) (comment_likes (st w)).
Definition keeps w w' : Prop := like_counts w -> like_counts w'.
Lemma counts_keeps_same w w' : comments (st w') = comments (st w) -> comment_likes (st w') = comment_likes (st w) -> keeps w w'.
Proof. unfold keeps, like_counts. by intros -> ->. Qed.
Lemma counts_keeps_bump w : keeps w (bump w).
Proof. by apply counts_keeps_same. Qed.
Lemma counts_keeps_rel : WorldRel keeps.
Proof. split; unfold keeps; auto. intros w w' [Hdb _]. apply counts_keeps_same; unfold st; by rewrite Hdb. Qed.
#[local] Hint Resolve counts_keeps_rel : steps.
Lemma counts_does_keeps {A} (m : M DB A) : (forall w, wp m (fun _ w' => keeps w w') w) -> does keeps m.
Proof. intros Hm w. exact (Hm w). Qed.
Lemma counts_docs_comments m w w' : docs_are CommentDoc m w w' ->
  comments (st w') = m /\ comment_likes (st w') = comment_likes (st w).
Proof. intros (Hab & _). unfold st. unfold abs, DB_abs in Hab. by rewrite Hab. Qed.
Lemma docs_likes m w w' : docs_are LikeDoc m w w' ->
  comments (st w') = comments (st w) /\ comment_likes (st w') = m.
Proof. intros (Hab & _). unfold st. unfold abs, DB_abs in Hab. by rewrite Hab. Qed.

Lemma counts_free_topics : Free keeps TopicDoc. Proof. intros w t. by apply counts_keeps_same. Qed.
Lemma free_states n : Free (HC := TopicRepo.state_coll n) keeps StateDoc.
Proof. intros w t. destruct n; by apply counts_keeps_same. Qed.
Lemma likes_send rds key data : does keeps (Mq.Send rds key data).
Proof.
  unfold Mq.Send, Incr. does_auto; first [apply does_feed_command|apply does_mq_publish]; try apply counts_keeps_rel; intros w *; by apply counts_keeps_same.
Qed.

(** Edits leave the counter, new comments start at zero. *)
Lemma likes_InsertOne d : default 0 (cd_LikeNum d) = 0 -> does keeps (InsertOne CommentDoc d).
Proof.
  intros Hd. apply counts_does_keeps. intros w. apply (wp_InsertOne CommentDoc); [intros; apply counts_keeps_bump..|].
  intros w' [Hc Hl]%counts_docs_comments Hn HC. unfold like_counts. rewrite Hc, Hl.
  eapply counted_comments; [exact HC|..].
  - intros k Hk. rewrite lookup_insert. case_decide; [done|exact Hk].
  - intros k c'. rewrite lookup_insert. case_decide as Hk; [intros [= <-]; subst k; right; by split|].
    intros Hc'. left. by exists c'.
Qed.
Lemma likes_UpdateOne p g :
  (forall d d', g d = Some d' -> cd_ID d' = cd_ID d /\ cd_LikeNum d' = cd_LikeNum d) -> does keeps (UpdateOne CommentDoc p g).
Proof.
  intros Hg. apply counts_does_keeps. intros w.
  apply (wp_UpdateOne CommentDoc); [intros d d' Hd; by apply Hg in Hd as []|intros; apply counts_keeps_bump..|].
  intros d d' w' Hk _ Hd [Hc Hl]%counts_docs_comments HC. unfold like_counts. rewrite Hc, Hl. apply Hg in Hd as [_ Hn].
  eapply counted_comments; [exact HC|..].
  - intros k Hs. rewrite lookup_insert. case_decide; [done|exact Hs].
  - intros k c'. rewrite lookup_insert. case_decide as Hkd; [intros [= <-]; subst k; left; by exists d|].
    intros Hc'. left. by exists c'.
Qed.
Lemma likes_UpdateMany p g :
  (forall d, cd_ID (g d) = cd_ID d /\ cd_LikeNum (g d) = cd_LikeNum d) -> does keeps (UpdateMany CommentDoc p g).
Proof.
  intros Hg. apply counts_does_keeps. intros w.
  apply (wp_UpdateMany CommentDoc); [intros d _; apply Hg|intros; apply counts_keeps_bump|].
  intros u w' [Hc Hl]%counts_docs_comments HC. unfold like_counts. rewrite Hc, Hl. eapply counted_comments; [exact HC|..].
  - intros k [d Hs]. rewrite lookup_upd_view. change (cv CommentDoc w !! k) with (comments (st w) !! k). by rewrite Hs.
  - intros k c'. rewrite lookup_upd_view. intros (c & Hkc & ->)%fmap_Some. left. exists c. split; [exact Hkc|].
    destruct (p c); [apply Hg|done].
Qed.
Lemma likes_feed : FeedRel keeps.
Proof.
  pose proof counts_keeps_rel. pose proof counts_free_topics. split; intros.
  - unfold TopicRepo.CreateTopic, TopicRepo.mongoCollection. does_auto.
  - by apply does_UpdateOne.
  - by apply does_UpdateMany.
  - apply does_UpdateMany; [done|apply (free_states TopicRepo.mongoCollTopicLike)].
  - apply does_UpdateMany; [done|apply (free_states TopicRepo.mongoCollTopicCollection)].
  - apply likes_UpdateOne. intros d d' Hd. split; by eapply H1.
  - apply likes_UpdateMany. intros d. split; apply H1.
  - apply likes_send.
Qed.

(** ** Likes *)
Definition went_wrong {A} (r : res A) : Prop := exists t e, r = Err (Bizerr.InternalWrap t e).
Lemma wp_coll (Q : res unit -> World DB -> Prop) w : (forall e, Q (Err e) w) -> Q (Ok tt) w -> wp mongoCollection Q w.
Proof. intros He Hok. unfold mongoCollection. wp_step. wp_step. case_match; wp_step; [apply He|done]. Qed.
Lemma wp_CommentLikeExists id u (Q : res bool -> World DB -> Prop) w :
  (forall e w', st w' = st w -> Q (Err e) w') ->
  (forall w', st w' = st w -> (exists j d, comment_likes (st w) !! j = Some d /\ cl_CommentID d = id /\ u ∈ cl_UserIDs d) -> Q (Ok true) w') ->
  (forall w', st w' = st w -> (forall j d, comment_likes (st w) !! j = Some d -> cl_CommentID d = id -> u ∉ cl_UserIDs d) -> Q (Ok false) w') ->
  wp (CommentLikeExists id u) Q w.
Proof.
  intros He Ht Hf. unfold CommentLikeExists. apply wp_bind, wp_coll; cbv beta iota; [intros; by apply He|].
  apply wp_bind, wp_map_err. apply (wp_CountDocuments LikeDoc); cbv beta iota; [intros _; by apply He|]. wp_step.
  change (cv LikeDoc w) with (comment_likes (st w)).
  destruct (0 <? _) eqn:Hn; [apply Z.ltb_lt, amount_some in Hn as (j & d & Hj & Hp)|apply Z.ltb_ge in Hn].
  - apply andb_true_iff in Hp as [Hid%String.eqb_eq Hu%bool_decide_eq_true]. apply Ht; [done|]. by exists j, d.
  - apply Hf; [done|]. intros j d Hj Hid Hu.
    assert (Hp : String.eqb (cl_CommentID d) id && liked_by u d = true).
    { unfold liked_by. rewrite bool_decide_true by done. by apply andb_true_iff; split; [apply String.eqb_eq|]. }
    pose proof (amount_pos (fun d => String.eqb (cl_CommentID d) id && liked_by u d) _ j d Hj Hp). lia.
Qed.
Lemma wp_incCommentLike id n (Q : res unit -> World DB -> Prop) w :
  (forall e w', st w' = st w -> Q (Err e) w') ->
  (forall k c w', parseObjectID id = Ok k -> comments (st w) !! k = Some c ->
     comments (st w') = <[k := {| c with cd_LikeNum := Some (default 0 (cd_LikeNum c) + n) |}]> (comments (st w)) ->
     comment_likes (st w') = comment_likes (st w) -> Q (Ok tt) w') ->
  wp (incCommentLikeStrict id n) Q w.
Proof.
  intros He Hok. unfold incCommentLikeStrict, IncrementCommentLikeNum. apply wp_bind, wp_of_res.
  destruct (parseObjectID id) as [k|e] eqn:Hid; [|by apply He]. apply wp_bind, wp_map_err, wp_bind.
  apply wp_coll; cbv beta iota; [intros; by apply He|]. apply wp_bind, wp_map_err. unfold UpdateByID.
  apply (wp_UpdateOne_byid CommentDoc); cbv beta iota.
  - by intros c c' (m & _ & ->)%fmap_Some.
  - intros _. by apply He.
  - intros Hno. repeat wp_step. by apply He.
  - intros c _ _ _. by apply He.
  - intros c c' w' Hk _ (m & Hm & ->)%fmap_Some [Hc Hl]%counts_docs_comments. repeat wp_step. apply inc_some in Hm. subst m.
    by eapply Hok.
Qed.

(** A like or unlike that does not end in an internal error. *)
Lemma wp_LikeComment id user w : like_counts w ->
  wp (LikeComment id user) (fun r w' => ~ went_wrong r -> like_counts w') w.
Proof.
  intros HC. unfold LikeComment. set (u := userIDString user).
  assert (Hsame : forall w', st w' = st w -> like_counts w') by (unfold like_counts; by intros w' ->).
  apply wp_bind, wp_map_err, wp_CommentLikeExists; cbv beta iota; [intros; by apply Hsame| |].
  { intros w' Hw _. wp_step. intros _. by apply Hsame. }
  intros w1 Hw1 Hno. apply wp_bind, wp_incCommentLike; cbv beta iota.
  { intros e w' Hw _. apply Hsame. by rewrite Hw. }
  rewrite Hw1. intros k c w2 Hid Hk Hcs Hls. apply wp_bind, wp_map_err. unfold AddCommentLike. apply wp_bind.
  apply wp_coll; cbv beta iota; [intros e He; destruct He; do 2 eexists; reflexivity|].
  apply wp_bind, wp_map_err. change (cv LikeDoc w2) with (comment_likes (st w2)).
  apply (wp_Upsert LikeDoc); cbv beta iota.
  - by intros d d' [= <-].
  - intros _ He. destruct He. do 2 eexists; reflexivity.
  - intros Hnone. split; [intros i w' _ _ _ He; destruct He; do 2 eexists; reflexivity|].
    change (cv LikeDoc w2) with (comment_likes (st w2)) in *. rewrite Hls in Hnone |- *.
    intros i w' _ Hi Hab _. repeat wp_step. simpl. wp_step. intros _. unfold like_counts.
    assert (Hw' : comments (st w') = comments (st w2) /\ comment_likes (st w') = <[i := mkLikeDoc i id [u]]> (comment_likes (st w2))).
    { unfold st in *. unfold abs, DB_abs in Hab. rewrite Hab. by rewrite Hls. }
    destruct Hw' as [-> ->]. rewrite Hcs, Hls. apply counted_first; try done.
    + by eapply parse_named.
    + intros j d Hj Hd. apply (Hnone j) in Hj. simpl in Hd. rewrite Hd, String.eqb_refl in Hj. done.
  - intros d _ _ Hd. discriminate Hd.
  - intros d d' w' Hj Hp [= <-] [Hc Hl]%docs_likes. change (cv LikeDoc w2) with (comment_likes (st w2)) in *.
    rewrite Hls in Hj, Hl. apply String.eqb_eq in Hp. repeat wp_step. destruct (negb _); repeat wp_step; intros _; unfold like_counts;
      rewrite Hc, Hl, Hcs; (eapply counted_like; [exact HC|exact Hk|exact Hj|by eapply parse_named|done|..]); simpl;
      unfold addToSet; rewrite bool_decide_false by (by eapply Hno).
    all: try (rewrite length_app; simpl; lia).
    all: apply NoDup_app; split_and!; [by eapply cnt_once| |apply NoDup_singleton].
    all: intros x Hx ->%list_elem_of_singleton; by eapply (Hno _ d).
Qed.
Lemma wp_UnlikeComment id user w : like_counts w ->
  wp (UnlikeComment id user) (fun r w' => ~ went_wrong r -> like_counts w') w.
Proof.
  intros HC. unfold UnlikeComment. set (u := userIDString user).
  assert (Hsame : forall w', st w' = st w -> like_counts w') by (unfold like_counts; by intros w' ->).
  apply wp_bind, wp_map_err, wp_CommentLikeExists; cbv beta iota; [intros; by apply Hsame| |].
  2: { intros w' Hw _. simpl. wp_step. intros _. by apply Hsame. }
  intros w1 Hw1 (j0 & d0 & Hj0 & Hd0 & Hu). simpl negb. cbv iota. apply wp_bind, wp_incCommentLike; cbv beta iota.
  { intros e w' Hw _. apply Hsame. by rewrite Hw. }
  rewrite Hw1 in *. intros k c w2 Hid Hk Hcs Hls. apply wp_bind, wp_map_err. unfold RemoveCommentLike. apply wp_bind.
  apply wp_coll; cbv beta iota; [intros e He; destruct He; do 2 eexists; reflexivity|].
  apply wp_bind, wp_map_err. apply (wp_UpdateOne LikeDoc); cbv beta iota.
  - by intros d d' [= <-].
  - intros _ He. destruct He. do 2 eexists; reflexivity.
  - intros Hnone. change (cv LikeDoc w2) with (comment_likes (st w2)) in *. rewrite Hls in Hnone.
    apply Hnone in Hj0. by rewrite Hd0, String.eqb_refl in Hj0.
  - intros d _ _ Hd. discriminate Hd.
  - intros d d' w' Hj Hp [= <-] [Hc Hl]%docs_likes. change (cv LikeDoc w2) with (comment_likes (st w2)) in *.
    rewrite Hls in Hj, Hl. apply String.eqb_eq in Hp.
    assert (Hjj : j0 = ent_id d) by (eapply (cnt_spelling _ _ HC); [exact Hj0|exact Hj|congruence]).
    subst j0. rewrite Hj0 in Hj. injection Hj as ->.
    assert (Hcount : like_counts w').
    { unfold like_counts. rewrite Hc, Hl, Hcs. pose proof (cnt_once _ _ HC _ _ Hj0) as Hnd.
      eapply counted_like; [exact HC|exact Hk|exact Hj0|by eapply parse_named|done|..]; simpl; [by apply NoDup_filter|].
      by apply pull_one. }
    repeat wp_step. destruct (negb _); repeat wp_step; intros _; exact Hcount.
Qed.

(** ** Every request *)
Section requests.
Variable f : @Feed D R G.
Hypothesis Hf : honest f.

(** A request of the services that does not fail inside a like. *)
Definition clean (q : request) w : Prop :=
  match q with
  | RLikeComment _ _ | RUnlikeComment _ _ => ~ went_wrong (serve f q w).1
  | RConsume _ _ => False
  | _ => True
  end.
Inductive history (w0 : World DB) : World DB -> Prop :=
| history_start : history w0 w0
| history_step w q : history w0 w -> clean q w -> history w0 (serve f q w).2.

Lemma likes_field id fld k : does keeps (TopicRepo.IncrementTopicField id fld k).
Proof.
  unfold TopicRepo.IncrementTopicField, UpdateByID, TopicRepo.mongoCollection. pose proof counts_keeps_rel. pose proof counts_free_topics. does_auto.
Qed.
Lemma likes_serve q w : clean q w -> like_counts w -> like_counts (serve f q w).2.
Proof.
  intros Hq HC. pose proof counts_keeps_rel as WR. pose proof likes_feed as FR. pose proof likes_field.
  assert (Hother : allows keeps f q -> like_counts (serve f q w).2) by (intros Ha; revert HC; by apply feed_serve_does).
  destruct Hf. destruct q; try (by apply Hother); try (by destruct Hq).
  2: by apply (wp_LikeComment _ _ w HC).
  2: by apply (wp_UnlikeComment _ _ w HC).
  all: apply Hother; cbn [allows serve]; try apply does_feed_unit; try done.
  - apply does_AddComment; try done; [|apply likes_send]. intros d Hd. apply likes_InsertOne. by rewrite Hd.
  - apply does_LikeTopic; auto using does_AddTopicState, free_states.
  - apply does_withdraw; auto using does_RemoveTopicState, free_states.
  - apply does_CollectTopic; auto. apply (free_states TopicRepo.mongoCollTopicCollection).
  - apply does_withdraw; auto using does_RemoveTopicState, free_states.
Qed.
Lemma likes_history w0 w : history w0 w -> like_counts w0 -> like_counts w.
Proof. induction 1 as [|w q _ IH Hq]; [done|]. intros H0. apply likes_serve; auto. Qed.
End requests.

(** C15: The counter of a comment is the number of its stored likes, after any history of
    requests whose likes did not end in an internal error; and no user likes a comment
    twice under one spelling of its id. *)
Theorem comment_likes_counted f w0 w k c :
  honest f -> comments (st w0) = ∅ -> comment_likes (st w0) = ∅ -> history f w0 w -> comments (st w) !! k = Some c ->
  default 0 (cd_LikeNum c) = total (likes_in k) (comment_likes (st w)) /\ 0 <= default 0 (cd_LikeNum c) /\
  forall j d, comment_likes (st w) !! j = Some d -> NoDup (cl_UserIDs d).
Proof.
  intros Hf Hc0 Hl0 Hh Hk. assert (HC : like_counts w).
  { eapply likes_history; [done..|]. unfold like_counts. rewrite Hc0, Hl0. by split. }
  pose proof (cnt_likes _ _ HC _ _ Hk) as He. split_and!; [done| |intros j d; apply (cnt_once _ _ HC)].
  rewrite He. apply total_nonneg. intros d. unfold likes_in. case_bool_decide; lia.
Qed.
End likes.

(** No step of the run is a delivery or fails. *)
Fixpoint clean_run (qs : list request) (w : World FeedDB) : bool :=
  match qs with
  | [] => true
  | q :: qs => is_ok (serve feed_service q w).1 && (match q with RConsume _ _ => false | _ => true end) &&
      clean_run qs (serve feed_service q w).2
  end.
Lemma history_run w0 qs w : clean_run qs w = true -> history feed_service w0 w -> history feed_service w0 (run qs w).
Proof.
  revert w. induction qs as [|q qs IH]; intros w; [done|]. simpl. intros [[Hok Hq]%andb_prop Hr]%andb_prop Hw.
  apply IH; [done|]. apply history_step; [done|]. destruct q; try done; intros (t & e & He); by rewrite He in Hok.
Qed.
(** Users 7 and 8 like the first comment, 8 takes the like back. *)
Definition like_requests : list request :=
  [RLikeComment first_hex 7; RLikeComment first_hex 8; RLikeComment first_hex 7; RUnlikeComment first_hex 8].
Definition at_liked : World FeedDB := run (add_first :: like_requests) feed_start.
Lemma comment_likes_counted_witness : exists c, comments (st at_liked) !! 4 = Some c /\ cd_LikeNum c = Some 1 /\
  default 0 (cd_LikeNum c) = total (likes_in 4) (comment_likes (st at_liked)) /\ 0 <= default 0 (cd_LikeNum c) /\
  forall j d, comment_likes (st at_liked) !! j = Some d -> NoDup (cl_UserIDs d).
Proof.
  destruct (comments (st at_liked) !! 4) as [c|] eqn:Hc; [|vm_compute in Hc; discriminate Hc].
  exists c. split; [reflexivity|]. split; [vm_compute in Hc; injection Hc as <-; reflexivity|].
  apply (comment_likes_counted feed_service feed_start at_liked 4 c feed_honest).
  - vm_compute. reflexivity.
  - vm_compute. reflexivity.
  - apply history_run; [vm_compute; reflexivity|apply history_start].
  - exact Hc.
Defined.
End FeedLikes.

(** ** Feed: what modelling showed

    Runs of the model in which the code does something else than it means to. *)

Module FeedFindings.
Import Users Feed FeedSteps FeedMoves FeedDemo.
Open Scope Z_scope.

Definition reply_count (w : World FeedDB) : option Z := td_CommentNum <$> topics (st w) !! topic_oid.
Definition comment_of (k : Z) (w : World FeedDB) : option CommentDoc := comments (st w) !! k.
Definition answers (qs : list request) (w : World FeedDB) : list bool :=
  (foldl (fun '(l, w) q => let (r, w') := serve feed_service q w in (l ++ [is_ok r], w')%list) ([], w) qs).1.

(** A reviewed comment is deleted twice: both requests succeed and both count. *)
Definition delete_first : request := RDeleteComment topic_hex first_hex 7.
Lemma second_delete_counts_again :
  answers [delete_first; delete_first] (run [add_first; deliver_first] feed_start) = [true; true] /\
  reply_count (run [add_first; deliver_first] feed_start) = Some 1 /\
  reply_count (run [add_first; deliver_first; delete_first; delete_first] feed_start) = Some (-1).
Proof. repeat split; vm_compute; reflexivity. Qed.

(** The counter takes every spelling of the id, the likes tell them apart. *)
Lemma like_per_spelling :
  let w := run [add_first; RLikeComment first_hex 7; RLikeComment (" " ++ first_hex) 7] feed_start in
  cd_LikeNum <$> comment_of 4 w = Some (Some 2).
Proof. vm_compute. reflexivity. Qed.

(** The author of a topic sets the flag that the review is to set. *)
Definition new_topic : TopicDoc := {| topic_row with td_HasCheck := false |}.
Definition unreviewed_db : FeedDB := {| feed_db with c_topics := @grows TopicDoc _ [new_topic] |}.
Definition approve_own : request := RUpdateTopic topic_hex 8 (Some (TopicRepo.mkUpdateTopicReq "" "" [] None (Some true))).
Lemma author_approves_own_topic :
  td_HasCheck <$> topics (st (mkWorld unreviewed_db 0 [])) !! topic_oid = Some false /\
  td_HasCheck <$> topics (st (run [approve_own] (mkWorld unreviewed_db 0 []))) !! topic_oid = Some true.
Proof. split; vm_compute; reflexivity. Qed.

(** A comment that its author deleted before the review is shown by the review. *)
Lemma review_shows_deleted_comment :
  cd_HasCheck <$> comment_of 4 (run [add_first; delete_first] feed_start) = Some (Some false) /\
  cd_HasCheck <$> comment_of 4 (run [add_first; delete_first; deliver_first] feed_start) = Some (Some true).
Proof. split; vm_compute; reflexivity. Qed.

(** A reply under one topic to a comment of another. *)
Definition other_oid : Z := 2 ^ 71.
Definition other_hex : string := Eval vm_compute in ObjectID.Hex other_oid.
Definition two_topics_db : FeedDB := {| feed_db with c_topics := @grows TopicDoc _ [topic_row; {| topic_row with td_ID := other_oid |}] |}.
Definition two_topics : World FeedDB := mkWorld two_topics_db 0 [].
Definition reply_elsewhere : request := RAddComment other_hex 7 "lost" first_hex.
Lemma reply_across_topics :
  let w := run [add_first; reply_elsewhere] two_topics in
  (fun d => (cd_TopicID d, cd_RootCmtID d)) <$> comment_of (first_key (comments (st w))) w = Some (other_hex, first_hex).
Proof. vm_compute. reflexivity. Qed.

(** A page number that overflows: the slice expression panics. *)
Lemma huge_page_panics :
  (TopicService.listTopicsFromArrayDocs (fd_topics feed_service) TopicRepo.mongoCollTopicCollection 7 "base" (2 ^ 62) 3
     at_collected).1 = Err TopicService.slice_bounds.
Proof. vm_compute. reflexivity. Qed.

(** The worker stopped while it handled the message: the next delivery is acknowledged
    and the comment is never reviewed. *)
Definition interrupted : World FeedDB :=
  (Set_ (Mq.dedupKey (Mq.dedupPrefix Mq.QueueCommentAdd) first_message.1) (GoStr.FormatInt Mq.MsgIng) Mq.three_days at_first).2.
Lemma interrupted_message_is_lost :
  (MqConsumers.consume (fd_mq feed_service) Mq.QueueCommentAdd (Some first_message) interrupted).1 = Ok Mq.Ack /\
  cd_HasCheck <$> comment_of 4 (run [deliver_first] interrupted) = Some None.
Proof. split; vm_compute; reflexivity. Qed.

(** A user whose like cannot be stored has been counted: the steps of the request that
    stores the like fail. *)
Lemma like_counts_first : exists n,
  let E := {| env_now := @env_now feed_env; env_id := @env_id feed_env; env_fault := fun t => (n <? t)%nat |} : Env in
  let r := CommentService.LikeComment (E := E) first_hex 7 at_first in
  is_ok r.1 = false /\ cd_LikeNum <$> comment_of 4 r.2 = Some (Some 1) /\ comment_likes (st r.2) = ∅.
Proof. exists 10%nat. repeat split; vm_compute; reflexivity. Qed.
End FeedFindings.
