(* ===== verification/FeedQueue.v ===== *)
(** * Feed: a message is handled at most once

    [HandleWithDedup] marks the id of a message for three days before it runs the
    handler.  When that command succeeds and the Redis server keeps the mark, another delivery under the
    same prefix and id is acknowledged without effect, whatever was served in between
    ([redelivery_dropped]); the handler gets three attempts ([attempts_give_up]).
    [FeedPages] says what a page of comments holds. *)
From Stdlib Require Import Ascii.
From Stdlib Require Import Sorted.
From S2P Require Import Prelude GoString GoTime GoMonad Sql Safe RedisStr Mongo AdminJwt JwtUtil Platform.
From S2P Require Import UserModel FeedModel CommentRepo CommentService TopicRepo TopicService Mq MqConsumers.
From S2P Require Import FeedMoves.

Module FeedQueue.
Import Users Feed Mq FeedSteps FeedMoves FeedDemo.

Section queue.
Context {D : SqlEngine} {R : RedisServer} {RK : RedisKeeps R} {G : MongoServer}.
Context {X : MongoRegex} {MO : MapOrder} {OI : ObjectIDs} {E : Env}.
Notation DB := (DB D R G).
Implicit Types (w : World DB).

Section mark.
Variables (key : string) (T0 : Z).
Definition fresh_time (t : Z) : Prop := (T0 <= t < T0 + three_days)%Z.
Definition during w w' : Prop := forall n, (w_tick w <= n < w_tick w')%nat -> fresh_time (env_now n).

(** The id is marked, until the three days are over. *)
Definition mark (x : entry) : Prop :=
  (x.1 = GoStr.FormatInt MsgIng \/ x.1 = GoStr.FormatInt MsgPost) /\ forall e, x.2 = Some e -> (T0 + three_days <= e)%Z.
Definition marked (m : gmap string entry) : Prop := exists x, m !! key = Some x /\ mark x.
Notation keys w := (kv (t_redis (w_db w))).
Definition stays w w' : Prop := (w_tick w <= w_tick w')%nat /\ (during w w' -> marked (keys w) -> marked (keys w')).

Lemma stays_rel : WorldRel stays.
Proof.
  split.
  - intros w. by split.
  - intros w1 w2 w3 [T1 H1] [T2 H2]. split; [lia|]. intros Hd Hm.
    apply H2; [intros n Hn; apply Hd; lia|]. apply H1; [intros n Hn; apply Hd; lia|done].
  - intros w w' [Hdb Ht]. split; [done|]. by rewrite Hdb.
Qed.
Lemma mark_live t x : fresh_time t -> mark x -> live t x = true.
Proof.
  intros [_ Ht] [_ He]. unfold live. destruct (x.2) as [e|]; [|done]. apply Z.ltb_lt. specialize (He e eq_refl). lia.
Qed.
Lemma stays_command {A} (f : Z -> rsrv -> res (A * rsrv)) :
  (forall t r a r', fresh_time t -> f t r = Ok (a, r') -> marked (kv r) -> marked (kv r')) -> does stays (command f : M DB A).
Proof.
  intros Hf w. change (wp (command f) (fun _ w' => stays w w') w). unfold command. repeat wp_step.
  destruct (env_fault _); repeat wp_step; [split; simpl; [lia|done]|].
  destruct (f _ _) as [[a r]|e] eqn:Hr; repeat wp_step; (split; simpl; [lia|]); [|done].
  intros Hd. eapply Hf, Hr. apply Hd. simpl. lia.
Qed.
Lemma stays_other t j m m' : fresh_time t -> j <> key -> retains t j m m' -> marked m -> marked m'.
Proof.
  intros Ht Hj Hr (x & Hx & Hm). exists x. split; [|done]. apply Hr; [done..|]. by eapply mark_live.
Qed.
Lemma stays_Incr j : j <> key -> does stays (Incr j : M DB Z).
Proof.
  intros Hj. apply stays_command. intros t r a r' Ht Hr. destruct (srv_incr t j r) as [[n r1]|] eqn:Hi; [|done].
  simplify_eq. eapply stays_other; [done..|]. by apply (keep_incr _ _ _ _ _ Hi).
Qed.
Lemma set_marks t n s : fresh_time t -> n = MsgIng \/ n = MsgPost ->
  marked (kv (srv_set t key (GoStr.FormatInt n) (server_ttl three_days) s)).
Proof.
  intros [Ht _] Hn. destruct (keep_set t key (GoStr.FormatInt n) (server_ttl three_days) s) as [Hk _].
  eexists. split; [exact Hk|]. split; [destruct Hn as [-> | ->]; simpl; auto|].
  intros e. change (server_ttl three_days) with (Some three_days). simpl. intros [= <-]. lia.
Qed.
Lemma stays_Set p id n : n = MsgIng \/ n = MsgPost ->
  does stays (Set_ (dedupKey p id) (GoStr.FormatInt n) three_days : M DB unit).
Proof.
  intros Hn. apply stays_command. intros t r a r' Ht [= _ <-] Hm. destruct (decide (dedupKey p id = key)) as [-> |Hj].
  - by apply set_marks.
  - eapply stays_other; [done..|apply keep_set|done].
Qed.

Hypothesis Huuid : MQUUIDKey <> key.
Lemma free_any T {HE : Entity T} {HC : Coll DB (State R) T HE _} :
  (forall t s, t_redis (cset T t s) = t_redis s) -> Free stays T.
Proof. intros Ht w t. split; [done|]. simpl. by rewrite Ht. Qed.
Lemma stays_Send rds k data : does stays (Send rds k data).
Proof.
  pose proof stays_rel. unfold Send. does_auto; [by apply stays_Incr|].
  apply does_mq_publish; [done|]. intros w k' id. by split.
Qed.
Lemma stays_feed : FeedRel stays.
Proof.
  pose proof stays_rel. split; intros; try apply stays_Send.
  1: unfold TopicRepo.CreateTopic, TopicRepo.mongoCollection; does_auto; by apply does_InsertOne, free_any.
  all: first [by apply does_UpdateOne, free_any|by apply does_UpdateMany, free_any].
Qed.

(** ** Every request *)
Section requests.
Variable f : @Feed D R G.
Hypothesis Hf : honest f.
Lemma stays_field id fld k : does stays (TopicRepo.IncrementTopicField id fld k).
Proof.
  pose proof stays_rel. unfold TopicRepo.IncrementTopicField, UpdateByID, TopicRepo.mongoCollection. does_auto.
  by apply does_UpdateOne, free_any.
Qed.
Lemma stays_states n : Free (HC := TopicRepo.state_coll n) stays StateDoc.
Proof. destruct n; by apply free_any. Qed.
Lemma stays_accept c cmt t : does stays (MqConsumers.accept_comment c cmt t).
Proof.
  apply does_accept_comment; auto using stays_rel, stays_feed. intros d _.
  apply does_InsertOne; [apply stays_rel|by apply free_any].
Qed.
Lemma stays_consume q body : does stays (MqConsumers.consume (fd_mq f) q body).
Proof.
  pose proof stays_rel as WR. destruct Hf. apply does_consume with (ok := fun _ => True); try done.
  - apply stays_feed.
  - intros k. by apply does_DeleteOne, free_any.
  - intros p. by apply does_DeleteMany, free_any.
  - intros p id n. apply stays_Set.
  - intros cmt t _. apply stays_accept.
  - by intros id [].
Qed.
Lemma stays_serve q : does stays (serve f q).
Proof.
  pose proof stays_rel as WR. pose proof stays_feed as FR. apply feed_serve_does; [done..|].
  assert (Hc : Free stays CommentDoc) by (by apply free_any). assert (Hl : Free stays LikeDoc) by (by apply free_any).
  destruct Hf. destruct q; try done; cbn [allows serve]; try apply does_feed_unit; auto.
  - apply does_AddComment; try done; [|apply stays_Send]. intros d _. by apply does_InsertOne.
  - apply does_LikeComment; [done..|]. intros i n. unfold UpdateByID. by apply does_UpdateOne.
  - apply does_UnlikeComment; [done..|]. intros i n. unfold UpdateByID. by apply does_UpdateOne.
  - apply does_LikeTopic; auto using does_AddTopicState, stays_states, stays_field.
  - apply does_withdraw; auto using does_RemoveTopicState, stays_states, stays_field.
  - apply does_CollectTopic; auto using stays_field. apply (stays_states TopicRepo.mongoCollTopicCollection).
  - apply does_withdraw; auto using does_RemoveTopicState, stays_states, stays_field.
  - apply stays_consume.
Qed.
Lemma stays_reach w0 w : reach f w0 w -> stays w0 w.
Proof.
  induction 1 as [|w q _ IH _]; [apply (wr_refl _ stays_rel)|]. eapply (wr_trans _ stays_rel); [exact IH|apply stays_serve].
Qed.
End requests.
End mark.

(** ** A delivery marks its message *)
Hypothesis monotone : forall n m, (n <= m)%nat -> (env_now n <= env_now m)%Z.

(** A command reads the clock, then runs or fails; what it does when it runs. *)
Definition runs w : Prop := env_fault (S (w_tick w)) = false.
Lemma Get_answer k w : runs w ->
  Get k w = (Ok (srv_get (env_now (w_tick w)) k (t_redis (w_db w))), bump (bump w)).
Proof.
  intros Hw. unfold Get, command, bind, now, fault, get_db, put_db. simpl. rewrite Hw. simpl. by destruct w as [[]].
Qed.
Lemma Get_failed k w : ~ runs w -> exists e, Get k w = (Err e, bump (bump w)).
Proof.
  intros Hw%not_false_is_true. unfold Get, command, bind, now, fault, get_db, put_db. simpl. rewrite Hw. by eexists.
Qed.
Lemma Set_answer k v ttl w : runs w ->
  Set_ k v ttl w = (Ok tt, with_db (set_redis_of (srv_set (env_now (w_tick w)) k v (server_ttl ttl) (t_redis (w_db w))) (w_db w)) (bump (bump w))).
Proof. intros Hw. unfold Set_, command, bind, now, fault, get_db, put_db. simpl. by rewrite Hw. Qed.

(** The message is in hand: the server holds its mark. *)
Definition in_hand_at p id w : Prop :=
  in_hand (Ok (srv_get (env_now (w_tick w)) (dedupKey p id) (t_redis (w_db w)))) = true.
Lemma HandleWithDedup_again p id data h w : runs w -> in_hand_at p id w ->
  HandleWithDedup true p (Some (id, data)) h w = (Ok Ack, bump (bump w)).
Proof.
  intros Hw Hin. unfold HandleWithDedup, bind at 1, attempt at 1. rewrite (Get_answer _ _ Hw). cbv beta iota.
  unfold in_hand_at in Hin. by rewrite Hin.
Qed.
Lemma HandleWithDedup_first p id data h w : runs (bump (bump w)) -> ~ in_hand_at p id w ->
  HandleWithDedup true p (Some (id, data)) h w =
  attempts 3 h data (setDedupDone true p id) (Set_ (dedupKey p id) (GoStr.FormatInt MsgIng) three_days (bump (bump w))).2.
Proof.
  intros Hw Hin%not_true_is_false. unfold HandleWithDedup, bind at 1, attempt at 1.
  destruct (decide (runs w)) as [Hg|Hg].
  - rewrite (Get_answer _ _ Hg). cbv beta iota. rewrite Hin.
    unfold warn, bind at 1, bind at 1, attempt at 1. by rewrite (Set_answer _ _ _ _ Hw).
  - destruct (Get_failed (dedupKey p id) w Hg) as [e ->]. cbn [in_hand].
    unfold warn, bind at 1, bind at 1, attempt at 1. by rewrite (Set_answer _ _ _ _ Hw).
Qed.
Lemma prefix_is_no_uuid q id : MQUUIDKey <> dedupKey (dedupPrefix q) id.
Proof. by destruct q. Qed.

Lemma consume_marks f q id data w :
  let key := dedupKey (dedupPrefix q) id in let T0 := env_now (w_tick w) in
  let w1 := (MqConsumers.consume (fd_mq f) q (Some (id, data)) w).2 in
  honest f -> MqConsumers.rds (fd_mq f) = true -> ~ in_hand_at (dedupPrefix q) id w -> runs (bump (bump w)) ->
  during T0 w w1 -> marked key T0 (kv (t_redis (w_db w1))).
Proof.
  intros key T0 w1 Hf Hrds Hfresh Hrun. unfold w1, MqConsumers.consume in *. clear w1.
  rewrite Hrds, (HandleWithDedup_first _ _ _ _ _ Hrun Hfresh).
  intros Hd. rewrite (Set_answer _ _ _ _ Hrun) in *. cbn [snd] in *.
  match goal with |- context [attempts 3 ?h data ?d ?w2] => set (w' := w2) in *;
    assert (Hs : does (stays key T0) (attempts 3 h data d)) end.
  { rewrite <- Hrds. destruct Hf. pose proof (stays_rel key T0) as WR.
    assert (Hc : Free (stays key T0) CommentDoc) by (by apply free_any).
    apply does_handling with (ok := fun _ => True); try done.
    - apply stays_feed, prefix_is_no_uuid.
    - intros k. by apply does_DeleteOne.
    - intros p. by apply does_DeleteMany, free_any.
    - intros p i n. apply stays_Set.
    - intros cmt t _. apply stays_accept, prefix_is_no_uuid.
    - by destruct data. }
  assert (Hw' : w_tick w' = (4 + w_tick w)%nat) by done. destruct (Hs w') as [Ht Hm]. apply Hm.
  - intros n Hn. apply Hd. lia.
  - apply set_marks; [|by left]. apply (Hd (2 + w_tick w)%nat). lia.
Qed.

(** C14: a message whose handler has run is not handled again: within three days, another
    delivery with the same id, from a queue with the same prefix, is acknowledged and
    changes nothing, whatever was served and whatever failed in between, when the server
    keeps its keys, the clock does not run backwards, and two commands did not fail: the
    SET that marked the first delivery and the GET that looks the mark up. *)
Theorem redelivery_dropped f q q' id data data' w w' :
  let w1 := (MqConsumers.consume (fd_mq f) q (Some (id, data)) w).2 in
  let again := MqConsumers.consume (fd_mq f) q' (Some (id, data')) w' in
  honest f -> MqConsumers.rds (fd_mq f) = true -> ~ in_hand_at (dedupPrefix q) id w -> runs (bump (bump w)) ->
  reach f w1 w' -> (env_now (w_tick w') < env_now (w_tick w) + three_days)%Z ->
  dedupPrefix q' = dedupPrefix q -> runs w' ->
  again.1 = Ok Ack /\ w_db again.2 = w_db w' /\ w_out again.2 = w_out w'.
Proof.
  intros w1 again Hf Hrds Hfresh Hset Hr Hlate Hp Hget.
  set (T0 := env_now (w_tick w)) in *. set (key := dedupKey (dedupPrefix q) id).
  destruct (stays_reach key T0 (prefix_is_no_uuid q id) f Hf w1 w' Hr) as [Ht Hstay].
  assert (Hd : forall n, (w_tick w <= n <= w_tick w')%nat -> fresh_time T0 (env_now n)).
  { intros n Hn. split; [apply monotone; lia|]. eapply Z.le_lt_trans; [apply monotone|exact Hlate]. lia. }
  assert (Hw : (w_tick w <= w_tick w1)%nat).
  { apply (stays_consume key T0 (prefix_is_no_uuid q id) f Hf q (Some (id, data)) w). }
  assert (Hm : marked key T0 (kv (t_redis (w_db w')))).
  { apply Hstay; [intros n Hn; apply Hd; lia|]. apply consume_marks; try done. intros n Hn. apply Hd.
    fold w1 in Hn. lia. }
  destruct Hm as ([v e] & Hx & Hmark). pose proof (mark_live T0 _ _ (Hd (w_tick w') ltac:(lia)) Hmark) as Hlive.
  pose proof (keep_get _ _ _ _ _ Hx Hlive) as Hv. unfold again, MqConsumers.consume.
  rewrite Hrds, Hp, (HandleWithDedup_again _ _ _ _ _ Hget); [done|]. unfold in_hand_at. fold key. rewrite Hv.
  destruct Hmark as [[Hval|Hval] _]; simpl in Hval; rewrite Hval; done.
Qed.
End queue.

(** The review of the first comment, delivered again after the reply. *)
Definition after_review : World FeedDB :=
  (MqConsumers.consume (fd_mq feed_service) QueueCommentAdd (Some first_message) at_first).2.
Definition at_again : World FeedDB := run [add_second] after_review.
Lemma redelivery_dropped_witness :
  let again := MqConsumers.consume (fd_mq feed_service) QueueCommentAdd (Some first_message) at_again in
  again.1 = Ok Ack /\ w_db again.2 = w_db at_again /\ w_out again.2 = w_out at_again.
Proof.
  apply (redelivery_dropped (E := feed_env)) with
    (f := feed_service) (q := QueueCommentAdd) (data := first_message.2) (w := at_first).
  - intros n m Hnm. unfold env_now, feed_env, GoTime.Second. lia.
  - exact feed_honest.
  - reflexivity.
  - vm_compute. discriminate.
  - reflexivity.
  - apply reach_run; [vm_compute; reflexivity|apply reach_start].
  - vm_compute. reflexivity.
  - reflexivity.
  - reflexivity.
Defined.
End FeedQueue.

(** ** Feed: the page of comments a reader sees

    [ListByTopic] against a declarative reading: the visible comments of the topic
    under the root, in one order, of which the page is a slice; each with the counters
    of its document and a mark that says whether the reader likes it. *)

Module FeedPages.
Import Users Feed FeedSteps FeedMoves FeedDemo CommentRepo CommentService Pagination.
Open Scope Z_scope.

(** ** Sorting by two keys *)
Definition lex {T} (k1 k2 : T -> Z) (a b : T) : Prop := k1 a < k1 b \/ k1 a = k1 b /\ k2 a <= k2 b.
Section lex.
Context {T : Type} (k1 k2 : T -> Z).
Lemma lex_trans a b c : lex k1 k2 a b -> lex k1 k2 b c -> lex k1 k2 a c.
Proof. unfold lex. lia. Qed.
Lemma insert_by_lex x l : Forall (fun y => k2 x <= k2 y) l -> StronglySorted (lex k1 k2) l ->
  StronglySorted (lex k1 k2) (insert_by k1 x l).
Proof.
  induction 2 as [|y l Hs IH Hy]; simpl; [repeat constructor|]. apply Forall_cons in H as [Hxy Hl].
  destruct (k1 x <=? k1 y) eqn:E; [apply Z.leb_le in E|apply Z.leb_gt in E].
  - assert (Hlex : lex k1 k2 x y) by (unfold lex; lia). constructor; [by constructor|]. constructor; [done|].
    eapply Forall_impl; [exact Hy|]. intros z. by apply lex_trans.
  - constructor; [by apply IH|]. apply Forall_forall. intros z Hz. rewrite (insert_by_perm k1 x l) in Hz.
    apply elem_of_cons in Hz as [-> |Hz]; [by left|]. by eapply Forall_forall in Hy.
Qed.
Lemma order_by_lex l : StronglySorted (fun a b => k2 a <= k2 b) l -> StronglySorted (lex k1 k2) (order_by k1 l).
Proof.
  induction 1 as [|x l _ IH Hx]; simpl; [constructor|]. apply insert_by_lex; [|done].
  apply Forall_forall. intros y Hy. rewrite (order_by_perm k1 l) in Hy. by eapply Forall_forall in Hx.
Qed.
Lemma order_by_strong l : StronglySorted (fun a b => k2 a <= k2 b) (order_by k2 l).
Proof. apply Sorted_StronglySorted; [intros a b c; lia|]. apply order_by_sorted. Qed.
End lex.

(** ** The order of a page, and what it shows *)
Definition in_order (rootID : string) : CommentDoc -> CommentDoc -> Prop :=
  if String.eqb rootID DefaultRootCommentID then lex (fun d => num_desc (cd_CommentNum d)) (fun d => - cd_ID d)
  else fun a b => cd_ID a <= cd_ID b.
Definition shows (likes : gmap Z LikeDoc) (viewer : string) (c : Comment) (d : CommentDoc) : Prop :=
  cm_ID c = cd_ID d /\ cm_Comment c = cd_Comment d /\ cm_LikeNum c = default 0 (cd_LikeNum d) /\
  cm_CommentNum c = default 0 (cd_CommentNum d) /\
  (cm_HasLike c = true <-> viewer <> ""%string /\ cd_ID d <> 0 /\
     exists j l, likes !! j = Some l /\ cl_CommentID l = ObjectID.Hex (cd_ID d) /\ viewer ∈ cl_UserIDs l).

Section pages.
Context {D : SqlEngine} {R : RedisServer} {G : MongoServer} {X : MongoRegex} {MO : MapOrder} {OI : ObjectIDs} {E : Env}.
Notation DB := (DB D R G).
Implicit Types (w : World DB).

Lemma quiet_rel : WorldRel (idle : World DB -> World DB -> Prop).
Proof.
  split; [done| |done]. intros w1 w2 w3 [H1 T1] [H2 T2]. split; [congruence|lia].
Qed.
Lemma wp_feed_reads {A} (m : M DB A) (Q : res A -> World DB -> Prop) w :
  untouched m -> (forall r w', st w' = st w -> Q r w') -> wp m Q w.
Proof. intros Hm HQ. apply HQ. unfold st. destruct (Hm w) as [Hdb _]. by rewrite Hdb. Qed.

(** The marks. *)
Definition likes_it w (viewer id : string) : Prop :=
  exists j d, comment_likes (st w) !! j = Some d /\ cl_CommentID d = id /\ viewer ∈ cl_UserIDs d.
Lemma wp_FindLiked ids u (Q : res (gset string) -> World DB -> Prop) w :
  (forall e w', Q (Err e) w') ->
  (forall l w', (forall id, id ∈ l <-> u <> ""%string /\ id ∈ ids /\ id <> ""%string /\ likes_it w u id) -> Q (Ok l) w') ->
  wp (FindLikedCommentIDs ids u) Q w.
Proof.
  intros He HQ. unfold FindLikedCommentIDs. destruct (String.eqb u "" || bool_decide (ids = [])) eqn:E0.
  { wp_step. apply HQ. intros id. split; [by intros ?%elem_of_empty|]. intros (Hu & Hin & _).
    apply orb_true_iff in E0 as [E0|E0]; [by apply String.eqb_eq in E0|apply bool_decide_eq_true in E0].
    subst ids. by apply not_elem_of_nil in Hin. }
  apply orb_false_iff in E0 as [Hu _]. apply String.eqb_neq in Hu.
  apply wp_bind. apply wp_feed_reads; [apply does_comment_coll, quiet_rel|]. intros [[]|e] w1 Hw1; cbv beta iota; [|by apply He].
  apply wp_bind, wp_map_err. apply (wp_Find LikeDoc); cbv beta iota; [intros _; apply He|]. intros rows Hrows. wp_step.
  apply HQ. intros id. rewrite elem_of_list_to_set, list_elem_of_filter, list_elem_of_fmap.
  change (cv LikeDoc w1) with (comment_likes (st w1)) in Hrows. rewrite Hw1 in Hrows. unfold likes_it. split.
  - intros [Hne (d & -> & Hd)]. rewrite Hrows in Hd. apply list_elem_of_fmap in Hd as ([j d'] & -> & Hd). simpl in *.
    apply elem_of_map_to_list, lookup_matching in Hd as [Hj [Hin%bool_decide_eq_true Hv%bool_decide_eq_true]%andb_prop].
    split_and!; try done. by exists j, d'.
  - intros (_ & Hin & Hne & j & d & Hj & <- & Hv). split; [done|]. exists d. split; [done|]. rewrite Hrows.
    apply list_elem_of_fmap. exists (j, d). split; [done|]. apply elem_of_map_to_list, lookup_matching. split; [done|].
    apply andb_true_iff. split; by apply bool_decide_eq_true.
Qed.

Definition marked_by w (viewer : string) (c c' : Comment) : Prop :=
  c' = {| c with cm_HasLike := cm_HasLike c' |} /\
  (cm_HasLike c' = true <-> viewer <> ""%string /\ cm_ID c <> 0 /\ likes_it w viewer (ObjectID.Hex (cm_ID c))).
Lemma wp_like_state viewer l (Q : res (list Comment) -> World DB -> Prop) w :
  Forall (fun c => cm_HasLike c = false /\ ObjectID.valid (cm_ID c)) l -> GoStr.TrimSpace viewer = viewer ->
  (forall e w', Q (Err e) w') -> (forall l' w', Forall2 (marked_by w viewer) l l' -> Q (Ok l') w') ->
  wp (fillCommentLikeState viewer l) Q w.
Proof.
  intros Hno Htrim He HQ. unfold fillCommentLikeState. rewrite Htrim.
  destruct (String.eqb viewer "" || bool_decide (l = [])) eqn:E0.
  { wp_step. apply HQ. apply orb_true_iff in E0 as [->%String.eqb_eq| ->%bool_decide_eq_true]; [|constructor].
    apply Forall2_same_length_lookup_2; [done|]. intros i c c' Hc Hc'. simplify_eq. split; [by destruct c|].
    eapply Forall_lookup in Hno as [Hno _]; [|exact Hc]. rewrite Hno. naive_solver. }
  apply orb_false_iff in E0 as [Hv _]. apply String.eqb_neq in Hv. unfold getHasLikeBatch. apply wp_bind, wp_map_err.
  apply wp_FindLiked; cbv beta iota; [intros; apply He|]. intros liked w' Hl. wp_step. apply HQ.
  apply Forall2_fmap_r, Forall_Forall2_diag, Forall_forall. intros c Hc. split; [done|]. simpl.
  rewrite bool_decide_eq_true, Hl, list_elem_of_fmap. split.
  - intros (_ & (k & Hk & Hin) & _ & Hlike). apply list_elem_of_filter in Hin as [Hz%Z.eqb_neq Hin].
    apply list_elem_of_fmap in Hin as (c0 & -> & Hc0). split_and!; [done| |done].
    eapply Forall_forall in Hno as Hno0; [|exact Hc0]. eapply Forall_forall in Hno; [|exact Hc].
    apply ObjectID.Hex_inj in Hk; [|apply Hno|apply Hno0]. by rewrite Hk.
  - intros (_ & Hz & Hlike). split_and!; [done| |by apply ObjectID.Hex_nonempty|done]. exists (cm_ID c). split; [done|].
    apply list_elem_of_filter. split; [by apply Z.eqb_neq|]. apply list_elem_of_fmap. by exists c.
Qed.

(** The certificates of the authors change nothing else. *)
Definition certified (c c' : Comment) : Prop :=
  c' = {| c with cm_User := cm_User c'; cm_Parent := cm_Parent c' |}.
Lemma wp_certification l (Q : res (list Comment) -> World DB -> Prop) w :
  (forall e w', Q (Err e) w') -> (forall l' w', st w' = st w -> Forall2 certified l l' -> Q (Ok l') w') ->
  wp (fillCommentUserCertification l) Q w.
Proof.
  intros He HQ. unfold fillCommentUserCertification.
  assert (Hrefl : Forall2 certified l l) by (apply Forall_Forall2_diag, Forall_forall; by intros [] _).
  case_bool_decide; [wp_step; by apply HQ|]. apply wp_bind, wp_map_err. apply wp_feed_reads.
  { unfold untouched, FindUsersByIDs. pose proof quiet_rel. pose proof (does_comment_gormDB _ quiet_rel). does_auto. }
  intros [users|e] w1 Hw1; cbv beta iota; [|apply He]. wp_step. apply HQ; [done|].
  apply Forall2_fmap_r, Forall_Forall2_diag, Forall_forall. by intros [] _.
Qed.

(** ** The page *)
Definition page_of (all : list CommentDoc) (page size : Z) : list CommentDoc :=
  firstn (Z.to_nat size) (skipn (Z.to_nat ((page - 1) * size)) all).

Lemma wp_FindCommentsPage p sort page size (Q : res (list Comment * Z) -> World DB -> Prop) w :
  (forall e w', Q (Err e) w') -> 1 <= page <= 2 ^ 56 -> 1 <= size <= 100 ->
  (forall l w', st w' = st w -> l ≡ₚ (map_to_list (matching p (comments (st w)))).*2 ->
     Q (Ok (decode_comment <$> page_of (sort l) page size, Z.of_nat (length l))) w') ->
  wp (FindCommentsPage p sort page size) Q w.
Proof.
  intros He Hp Hs HQ. unfold FindCommentsPage. apply wp_bind. apply wp_feed_reads; [apply does_comment_coll, quiet_rel|].
  intros [[]|e] w1 Hw1; cbv beta iota; [|by apply He]. apply wp_bind, wp_map_err.
  apply (wp_CountDocuments CommentDoc); cbv beta iota; [intros _; apply He|]. apply wp_bind, wp_map_err.
  assert (Hskip : mul64 (sub64 page 1) size = (page - 1) * size).
  { unfold mul64, sub64. rewrite (wrap64_small (page - 1)) by (unfold in_int64; lia). apply wrap64_small. unfold in_int64. nia. }
  rewrite Hskip. unfold FindPage. rewrite (proj2 (Z.ltb_ge _ _)) by nia. apply wp_bind.
  apply (wp_Find CommentDoc); cbv beta iota; [intros _; apply He|]. intros l Hl. repeat wp_step.
  change (cv CommentDoc (bump w1)) with (comments (st w1)) in Hl. change (cv CommentDoc w1) with (comments (st w1)).
  rewrite Hw1 in *. rewrite (amount_found _ _ _ Hl). apply HQ; done.
Qed.
Lemma sorted_by_root root l :
  StronglySorted (in_order root) ((if String.eqb root DefaultRootCommentID then by_replies else by_id) l).
Proof.
  unfold in_order. destruct (String.eqb root _); [apply order_by_lex, order_by_strong|apply order_by_strong].
Qed.
Lemma perm_by_root root l : (if String.eqb root DefaultRootCommentID then by_replies else by_id) l ≡ₚ l.
Proof. destruct (String.eqb root _); unfold by_replies, by_id, by_id_desc; by rewrite !order_by_perm. Qed.

(** A document as the reader gets it. *)
Lemma shows_comment w viewer d c1 c2 :
  certified (decode_comment d) c1 -> marked_by w viewer c1 c2 -> shows (comment_likes (st w)) viewer c2 d.
Proof.
  intros -> [-> Hm]. unfold shows. simpl in *. do 4 (split; [done|]). exact Hm.
Qed.
Lemma page_bounds page size n : page <= 2 ^ 56 -> 1 <= (pageSize page size n).1 <= 2 ^ 56 /\
  (pageSize page size n).1 = Z.max 1 page /\ 1 <= (pageSize page size n).2 <= 100.
Proof. intros Hp. unfold pageSize, maxPageSize. simpl. repeat case_bool; bools; lia. Qed.
Lemma viewer_trim v : GoStr.TrimSpace (userIDString v) = userIDString v.
Proof. unfold userIDString. case_bool; [done|apply GoStr.TrimSpace_FormatInt]. Qed.
Lemma in_page all page size d : d ∈ page_of all page size -> d ∈ all.
Proof.
  unfold page_of. intros Hd. rewrite <- (take_drop (Z.to_nat ((page - 1) * size)) all). apply elem_of_app. right.
  rewrite <- (take_drop (Z.to_nat size) (drop _ all)). apply elem_of_app. by left.
Qed.

(** The comments of a topic under a root that a reader may see. *)
Definition visible (topicID root : string) (kd : Z * CommentDoc) : Prop :=
  cd_TopicID kd.2 = topicID /\ cd_RootCmtID kd.2 = root /\ cd_HasCheck kd.2 <> Some false.
#[local] Instance visible_dec topicID root kd : Decision (visible topicID root kd).
Proof. unfold visible. apply _. Defined.
Lemma matching_visible topicID root m : matching (topic_filter topicID root) m = filter (visible topicID root) m.
Proof.
  apply map_filter_ext. intros k d _. unfold topic_filter, visible, not_hidden. simpl.
  rewrite !andb_true_iff, negb_true_iff, !String.eqb_eq, bool_decide_eq_false. tauto.
Qed.

(** C26: A page of [ListByTopic] is the slice of one sorted list, which holds exactly the
    comments of the topic under the root that are not hidden, each once: at most 100,
    with the total of the list, the counters and the marks of the reader (for a page
    number up to 2^56, where the offset does not wrap). *)
Theorem ListByTopic_spec s L topicID rootID viewer page size w r :
  (forall k, is_Some (comments (st w) !! k) -> ObjectID.valid k) -> page <= 2 ^ 56 ->
  (ListByTopic s L topicID rootID viewer page size w).1 = Ok r ->
  let root := if String.eqb rootID "" then DefaultRootCommentID else rootID in
  exists all, all ≡ₚ (map_to_list (filter (visible topicID root) (comments (st w)))).*2 /\
    StronglySorted (in_order root) all /\
    Forall2 (shows (comment_likes (st w)) (userIDString viewer)) (pg_Data r) (page_of all (pg_Current r) (pg_Size r)) /\
    pg_Total r = Z.of_nat (length all) /\ pg_Current r = Z.max 1 page /\ 1 <= pg_Size r <= 100.
Proof.
  intros Hval Hpage Hr root. revert r Hr.
  match goal with |- forall r, _ -> @?P r => enough (Hwp : wp (ListByTopic s L topicID rootID viewer page size)
    (fun x _ => forall r, x = Ok r -> P r) w) by exact Hwp end. unfold ListByTopic.
  destruct (page_bounds page size (defaultPageSize s) Hpage) as (Hp & Hp1 & Hn).
  destruct (pageSize page size (defaultPageSize s)) as [p n]. simpl in Hp, Hp1, Hn.
  apply wp_bind. apply wp_feed_reads; [apply does_ensureTopicExists, quiet_rel|]. intros [[]|e] w1 Hw1; cbv beta iota zeta; [|done].
  fold root. match goal with |- wp (match ?b with _ => _ end) _ _ => destruct b as [[]|e]; [|done] end.
  apply wp_bind, wp_map_err, wp_FindCommentsPage; cbv beta iota; [done..|]. intros l w2 Hw2 Hl. rewrite Hw1 in *.
  apply wp_bind, wp_certification; cbv beta iota; [done|]. intros l1 w3 Hw3 H1.
  set (all := (if String.eqb root DefaultRootCommentID then by_replies else by_id) l) in *.
  assert (Hall : all ≡ₚ l) by apply perm_by_root.
  assert (Hdocs : Forall (fun d => ObjectID.valid (cd_ID d)) (page_of all p n)).
  { apply Forall_forall. intros d Hd%in_page. rewrite Hall, Hl in Hd. apply list_elem_of_fmap in Hd as ([k d'] & -> & Hd).
    apply elem_of_map_to_list, lookup_matching in Hd as [Hk _]. simpl. apply Hval. exists d'.
    change (cv CommentDoc w !! k = Some d') in Hk. apply cv_self in Hk. exact Hk. }
  apply wp_bind, wp_like_state; cbv beta iota; [|apply viewer_trim|done|].
  { clear -H1 Hdocs. revert H1. generalize l1. induction Hdocs as [|d ds Hd _ IH]; intros k1 H1; inversion H1; subst; constructor; auto.
    match goal with H : certified _ _ |- _ => rewrite H end. done. }
  intros l2 w4 H2. wp_step. intros r [= <-]. exists all. unfold NewPageResult. simpl.
  rewrite (proj2 (Z.leb_gt p 0)), (proj2 (Z.leb_gt n 0)) by lia. split_and!; try done; try lia.
  - rewrite Hall, <- matching_visible. exact Hl.
  - apply sorted_by_root.
  - rewrite <- Hw3 in Hw2. unfold marked_by, likes_it in H2.
    assert (Hst : st w3 = st w) by congruence. rewrite Hst in H2. change (Forall2 (marked_by w (userIDString viewer)) l1 l2) in H2.
    clear -H1 H2. revert l2 H2. remember (decode_comment <$> page_of all p n) as ds eqn:Hds. revert Hds.
    generalize (page_of all p n). induction H1 as [|c0 c1 cs0 cs1 Hc _ IH]; intros ds' Hds l2 H2; inversion H2; subst.
    + symmetry in Hds. apply fmap_nil_inv in Hds as ->. constructor.
    + symmetry in Hds. apply fmap_cons_inv in Hds as (d & ds & -> & -> & ->). constructor; [|by apply IH].
      by eapply shows_comment.
  - by rewrite Hall.
Qed.
End pages.

(** Two comments of the first level, one of them liked by the reader. *)
Definition two_comments : World FeedDB :=
  run [add_first; RAddComment topic_hex 8 "other" "0"; RLikeComment first_hex 7] feed_start.
Definition listed : PageResult Comment :=
  match (ListByTopic (fd_comments feed_service) (fun t => t) topic_hex "" 7 0 0 two_comments).1 with
  | Ok r => r
  | Err _ => mkPageResult [] 0 0 0
  end.
Definition valid_keys (m : gmap Z CommentDoc) : bool := forallb (fun k => (0 <=? k) && (k <? ObjectID.bound)) (map_to_list m).*1.
Lemma valid_keys_ok m : valid_keys m = true -> forall k, is_Some (m !! k) -> ObjectID.valid k.
Proof.
  unfold valid_keys. rewrite forallb_forall. intros H k [d Hk%elem_of_map_to_list]. unfold ObjectID.valid.
  apply (list_elem_of_fmap_2 fst), list_elem_of_In, H in Hk. simpl in Hk. by bools.
Qed.
Lemma ListByTopic_spec_witness : cm_HasLike <$> pg_Data listed = [false; true] /\ exists all,
  all ≡ₚ (map_to_list (filter (visible topic_hex "0") (comments (st two_comments)))).*2 /\
  StronglySorted (in_order "0") all /\
  Forall2 (shows (comment_likes (st two_comments)) "7") (pg_Data listed) (page_of all (pg_Current listed) (pg_Size listed)) /\
  pg_Total listed = Z.of_nat (length all) /\ pg_Current listed = 1 /\ 1 <= pg_Size listed <= 100.
Proof.
  split; [vm_compute; reflexivity|].
  apply (ListByTopic_spec (fd_comments feed_service) (fun t => t) topic_hex "" 7 0 0 two_comments listed).
  - apply valid_keys_ok. vm_compute. reflexivity.
  - lia.
  - vm_compute. reflexivity.
Defined.
End FeedPages.
