(* ===== verification/ChatModel.v ===== *)
(** * Chat: data model and repository

    [internal/chat/model.go] and [repository*.go]: conversations and their members are
    rows of MySQL, messages are documents of MongoDB.  A member has a key of two
    columns and a conversation a text key; [row_key] numbers them.  A transaction of
    the repository undoes the rows only: what it did to the documents stays.

    The body of a WebSocket message is a JSON object, its fields in the order of the
    text; a number is a [float64], as [encoding/json] decodes it. *)
From Stdlib Require Import Floats.SpecFloat.
From S2P Require Import Prelude GoString GoTime GoMonad Sql Mongo.

Module Chat.
Open Scope Z_scope.

(** The fields of a decoded object. *)
Notation body := (list (string * json)).

(** ** Rows and documents *)
Record Conversation := mkConversation {
  conv_ID : string;
  conv_Type : Z;
  conv_LastMessageContent : string;
  conv_LastMessageSenderID : string;
  conv_LastMessageSentAt : Z;
  conv_CreatedAt : Z;
  conv_UpdatedAt : Z;
}.
Record ConversationMember := mkMember {
  mb_ConversationID : string;
  mb_UserID : string;
  mb_LastReadMessageID : option Z;
  mb_UnreadCount : Z;
  mb_CreatedAt : Z;
}.
Record Message := mkMessage {
  msg_ID : Z;
  msg_MessageID : Z;
  msg_ConversationID : string;
  msg_ReceiverID : string;
  msg_SenderID : string;
  msg_Content : string;
  msg_MessageType : option Z;
  msg_SentAt : Z;
  msg_Metadata : option body;
  msg_HandleType : string;
}.
Record ConversationUnreadCount := mkUnreadCount { uc_UnreadCount : Z; uc_LastReadMessageID : option Z }.

(** The number of a primary key. *)
Definition conv_key (id : string) : Z := Zpos (encode id).
Definition member_key (conversationID userID : string) : Z := Zpos (encode (conversationID, userID)).
#[export] Instance Conversation_entity : Entity Conversation := { ent_id c := conv_key (conv_ID c); ent_clash _ _ := false }.
#[export] Instance Member_entity : Entity ConversationMember :=
  { ent_id m := member_key (mb_ConversationID m) (mb_UserID m); ent_clash _ _ := false }.
#[export] Instance Message_entity : Entity Message := { ent_id := msg_ID; ent_clash _ _ := false }.
#[export] Instance Message_free : NoIndex Message _. Proof. by split. Qed.

Lemma conv_key_inj a b : conv_key a = conv_key b -> a = b.
Proof. unfold conv_key. intros [= H]. by apply (inj encode). Qed.
Lemma member_key_inj a u b v : member_key a u = member_key b v -> a = b /\ u = v.
Proof. unfold member_key. intros [= H]. apply (inj encode) in H. by simplify_eq. Qed.

(** [formatChatDate]; [wall] is the wall clock of the [Location] the value carries (that of
    the process for a time just taken, the one the driver decodes into for a stored one). *)
Definition formatChatDate (wall : Z -> Z) (t : Z) : string :=
  if GoTime.IsZero t then ""
  else
    let '(y, m, d) := GoTime.civil_from_days (wall t / GoTime.Day) in
    (GoTime.pad4 y ++ "-" ++ GoTime.pad2 m ++ "-" ++ GoTime.pad2 d)%string.

(** What [MarshalJSON] writes, before the text. *)
Record conversationJSON := mkConversationJSON {
  cj_ID : string; cj_Type : Z; cj_LastMessageContent : string; cj_LastMessageSenderID : string;
  cj_LastMessageSentAt : string; cj_CreatedAt : string; cj_UpdatedAt : string;
}.
Record messageJSON := mkMessageJSON {
  mj_MessageID : Z; mj_ConversationID : string; mj_ReceiverID : string; mj_SenderID : string; mj_Content : string;
  mj_MessageType : option Z; mj_SentAt : string; mj_Metadata : option body; mj_HandleType : string;
}.
Definition conversation_json (wall : Z -> Z) (c : Conversation) : conversationJSON :=
  mkConversationJSON (conv_ID c) (conv_Type c) (conv_LastMessageContent c) (conv_LastMessageSenderID c)
    (formatChatDate wall (conv_LastMessageSentAt c)) (formatChatDate wall (conv_CreatedAt c))
    (formatChatDate wall (conv_UpdatedAt c)).
Definition message_json (wall : Z -> Z) (m : Message) : messageJSON :=
  mkMessageJSON (msg_MessageID m) (msg_ConversationID m) (msg_ReceiverID m) (msg_SenderID m) (msg_Content m)
    (msg_MessageType m) (formatChatDate wall (msg_SentAt m)) (msg_Metadata m) (msg_HandleType m).

(** ** The store *)
Section store.
Context {D : SqlEngine} {G : MongoServer}.
Record DB := mkDB {
  db_nil : bool;
  mongo_nil : bool;
  t_conversations : table Conversation _;
  t_members : table ConversationMember _;
  c_messages : @table mongo_engine Message _;
}.
End store.
Arguments DB D G : clear implicits.

Record State := mkState {
  conversations : gmap Z Conversation;
  members : gmap Z ConversationMember;
  messages : gmap Z Message;
  nils : bool * bool;
}.

Section abstraction.
Context {D : SqlEngine} {G : MongoServer}.
Notation DB := (DB D G).
Definition db_state (s : DB) : State :=
  mkState (view (t_conversations s)) (view (t_members s)) (@view mongo_engine _ _ (c_messages s)) (db_nil s, mongo_nil s).
#[export] Instance DB_abs : Abstract DB State := db_state.
#[export] Instance tbl_conversations : Tbl DB State Conversation _ _.
Proof.
  refine {| tget := t_conversations; tset t s := {| s with t_conversations := t |};
    aget := conversations; aset v s := {| s with conversations := v |} |}; by intros; try destruct a.
Defined.
#[export] Instance tbl_members : Tbl DB State ConversationMember _ _.
Proof.
  refine {| tget := t_members; tset t s := {| s with t_members := t |};
    aget := members; aset v s := {| s with members := v |} |}; by intros; try destruct a.
Defined.
#[export] Instance coll_messages : Coll DB State Message _ _.
Proof.
  refine {| tget := c_messages; tset t s := {| s with c_messages := t |};
    aget := messages; aset v s := {| s with messages := v |} |}; by intros; try destruct a.
Defined.
End abstraction.
End Chat.

(** ** The repository *)
Module ChatRepo.
Import Chat.
Open Scope Z_scope.

Definition errRepoConversationNotFound : error := ENew "conversation not found".
Definition errRepoConversationMemberMiss : error := ENew "conversation member not found".
Definition errRepoConversationUpdateFailed : error := ENew "conversation update failed".
Definition errRepoConversationDeleteFailed : error := ENew "conversation delete failed".

(** Conditions. *)
Definition of_conversation (conversationID : string) (m : ConversationMember) : bool :=
  String.eqb (mb_ConversationID m) conversationID.
Definition is_member (conversationID userID : string) (m : ConversationMember) : bool :=
  of_conversation conversationID m && String.eqb (mb_UserID m) userID.
Definition is_peer (conversationID userID : string) (m : ConversationMember) : bool :=
  of_conversation conversationID m && negb (String.eqb (mb_UserID m) userID).
Definition is_conversation (conversationID : string) (c : Conversation) : bool := String.eqb (conv_ID c) conversationID.
Definition message_in (conversationID : string) (m : Message) : bool := String.eqb (msg_ConversationID m) conversationID.

(** Updates. *)
Definition read_to (lastReadMessageID : Z) (m : ConversationMember) : ConversationMember :=
  {| m with mb_UnreadCount := 0; mb_LastReadMessageID := Some lastReadMessageID |}.
Definition sent_last (messageID : Z) (m : ConversationMember) : ConversationMember :=
  {| m with mb_LastReadMessageID := Some messageID |}.
Definition one_more (m : ConversationMember) : ConversationMember :=
  {| m with mb_UnreadCount := mb_UnreadCount m + 1 |}.
Definition last_message (content senderID : string) (sentAt now : Z) (c : Conversation) : Conversation :=
  {| c with conv_LastMessageContent := content; conv_LastMessageSenderID := senderID;
            conv_LastMessageSentAt := sentAt; conv_UpdatedAt := now |}.

(** BSON dates hold milliseconds, and empty metadata are left out. *)
Definition stored (id : Z) (m : Message) : Message :=
  {| m with msg_ID := id; msg_SentAt := msg_SentAt m / GoTime.Millisecond * GoTime.Millisecond;
            msg_Metadata := match msg_Metadata m with Some [] => None | x => x end; msg_HandleType := "" |}.

Section repository.
Context {E : Env} {O : ObjectIDs} {D : SqlEngine} {G : MongoServer}.
Notation DB := (DB D G).
Notation M := (M DB).

Definition gormDB : M unit :=
  let! s := get_db in if db_nil s then throw (ENew "gorm db not initialized") else ret tt.
Definition mongoCollection : M unit :=
  let! s := get_db in if mongo_nil s then throw (ENew "mongo db not initialized") else ret tt.

(** [db.Transaction]: MySQL undoes the rows, MongoDB keeps its documents. *)
Definition rollback (before after : DB) : DB := {| before with c_messages := c_messages after |}.
Definition Transaction {B} (body : M B) : M B := fun w =>
  match body w with
  | (Ok b, w') =>
    if env_fault (w_tick w') then (Err (EDriver infra_text), with_db (rollback (w_db w) (w_db w')) (bump w'))
    else (Ok b, bump w')
  | (Err e, w') => (Err e, with_db (rollback (w_db w) (w_db w')) w')
  end.

(** [Create(&rows)]: all rows in one [INSERT]. *)
Definition insert_rows (l : list ConversationMember) (t : table ConversationMember _) : option (table ConversationMember _) :=
  foldl (fun t r => t ≫= ins r) (Some t) l.
Definition insert_members (l : list ConversationMember) : M unit :=
  stmt;; let! s := get_db in
  match insert_rows l (t_members s) with
  | Some t => put_db {| s with t_members := t |}
  | None => throw (EDriver dup_text)
  end.

(** *** Conversations *)
Definition FindConversationIDsByUserID (userID : string) : M (list string) :=
  gormDB;;
  let! l := map_err (EWrapf ("load conversation ids by user " ++ userID))
    (find ConversationMember (fun m => String.eqb (mb_UserID m) userID)) in
  ret (mb_ConversationID <$> l).
Definition FindConversationsByIDs (conversationIDs : list string) : M (list Conversation) :=
  if bool_decide (conversationIDs = []) then ret []
  else
    gormDB;;
    let! l := map_err (EWrapf "load conversations") (find Conversation (fun c => bool_decide (conv_ID c ∈ conversationIDs))) in
    ret (order_by (fun c => - conv_UpdatedAt c) l).
Definition member_or_nil (what : string) (p : ConversationMember -> bool) : M (option ConversationMember) :=
  gormDB;;
  let! r := attempt (take ConversationMember p) in
  match r with
  | Ok m => ret (Some m)
  | Err e => if errors_Is e record_not_found_text then ret None else throw (EWrapf what e)
  end.
Definition FindConversationMember (conversationID userID : string) : M (option ConversationMember) :=
  member_or_nil ("load conversation member " ++ conversationID ++ "/" ++ userID) (is_member conversationID userID).
Definition FindPeerConversationMember (conversationID currentUserID : string) : M (option ConversationMember) :=
  member_or_nil ("load peer conversation member " ++ conversationID ++ "/" ++ currentUserID)
    (is_peer conversationID currentUserID).

Definition UpdateConversationMemberReadState (conversationID userID : string) (lastReadMessageID : Z) : M bool :=
  gormDB;;
  let! n := map_err (EWrapf ("update conversation member read state " ++ conversationID ++ "/" ++ userID))
    (update ConversationMember (is_member conversationID userID) (read_to lastReadMessageID)) in
  ret (0 <? n).
Definition FindConversationUnreadCounts (conversationID userID : string) : M (list ConversationUnreadCount) :=
  gormDB;;
  let! l := map_err (EWrapf ("load unread count " ++ conversationID ++ "/" ++ userID))
    (find ConversationMember (is_member conversationID userID)) in
  ret ((fun m => mkUnreadCount (mb_UnreadCount m) (mb_LastReadMessageID m)) <$> l).
Definition SumUnreadCount (userID : string) : M Z :=
  gormDB;;
  let! l := map_err (EWrapf ("sum unread count for user " ++ userID))
    (find ConversationMember (fun m => String.eqb (mb_UserID m) userID)) in
  ret (foldr Z.add 0 (mb_UnreadCount <$> l)).

Definition CreateConversationWithMembers (conversation : Conversation) (members : list ConversationMember) : M unit :=
  gormDB;;
  Transaction (
    map_err (EWrapf "create conversation") (insert Conversation conversation);;
    map_err (EWrapf "create conversation members") (insert_members members)).

Definition UpdateConversationAfterMessage (conversationID senderID receiverID content : string) (sentAt messageID : Z) : M unit :=
  gormDB;;
  Transaction (
    let! n := map_err (EWrapf "update sender last read message")
      (update ConversationMember (is_member conversationID senderID) (sent_last messageID)) in
    if n =? 0 then throw errRepoConversationMemberMiss
    else
      let! n := map_err (EWrapf "increase unread count")
        (update ConversationMember (is_member conversationID receiverID) one_more) in
      if n =? 0 then throw errRepoConversationMemberMiss
      else
        let! t := now in
        let! n := map_err (EWrapf "update conversation last message")
          (update Conversation (is_conversation conversationID) (last_message content senderID sentAt t)) in
        if n =? 0 then throw errRepoConversationNotFound else ret tt).

(** The end of [DeleteConversationForUser], after its last member. *)
Definition close_conversation (conversationID : string) : M unit :=
  mongoCollection;;
  let! _ := map_err (EWrapf ("delete conversation messages " ++ conversationID))
    (DeleteMany Message (message_in conversationID)) in
  let! n := map_err (EWrapf ("delete conversation " ++ conversationID))
    (delete Conversation (is_conversation conversationID)) in
  if n =? 0 then throw errRepoConversationDeleteFailed else ret tt.
(** The plain reads of the transaction come from its read view [rv], the store at its
    first [SELECT], where its own statements are visible. *)
Definition DeleteConversationForUser_at (rv : DB) (conversationID userID : string) : M unit :=
  gormDB;;
  Transaction (
    let! _ := map_err (fun e => if errors_Is e record_not_found_text then errRepoConversationNotFound
                                else EWrapf ("load conversation " ++ conversationID) e)
      (take_in Conversation rv (is_conversation conversationID)) in
    let! _ := map_err (fun e => if errors_Is e record_not_found_text then errRepoConversationMemberMiss
                                else EWrapf ("load conversation member " ++ conversationID ++ "/" ++ userID) e)
      (take_in ConversationMember rv (is_member conversationID userID)) in
    let! n := map_err (EWrapf ("delete conversation member " ++ conversationID ++ "/" ++ userID))
      (delete ConversationMember (is_member conversationID userID)) in
    if n =? 0 then throw errRepoConversationDeleteFailed
    else
      let! remaining := map_err (EWrapf ("count remaining conversation members " ++ conversationID))
        (count_in ConversationMember rv (is_peer conversationID userID)) in
      if 0 <? remaining then ret tt else close_conversation conversationID).
(** The transaction that runs alone. *)
Definition DeleteConversationForUser (conversationID userID : string) : M unit :=
  let! s := get_db in DeleteConversationForUser_at s conversationID userID.

Definition DeleteConversationCascade (conversationID : string) : M unit :=
  gormDB;;
  Transaction (
    let! _ := map_err (EWrapf ("delete conversation members " ++ conversationID))
      (delete ConversationMember (of_conversation conversationID)) in
    let! _ := map_err (EWrapf ("delete conversation " ++ conversationID))
      (delete Conversation (is_conversation conversationID)) in
    ret tt).

(** *** Messages *)
Definition FindMessageByID (messageID : Z) : M (option Message) :=
  mongoCollection;; doc_or_nil "find message" (FindOne Message (fun m => msg_MessageID m =? messageID)).
Definition FindMessagesAfter (conversationIDs : list string) (lastMessageID : Z) : M (list Message) :=
  if bool_decide (conversationIDs = []) then ret []
  else
    mongoCollection;;
    let! l := map_err (EWrapf "find offline messages") (Find Message (fun m =>
      bool_decide (msg_ConversationID m ∈ conversationIDs) &&
      (if 0 <? lastMessageID then lastMessageID <? msg_MessageID m else true))) in
    ret (order_by msg_MessageID l).
Definition FindConversationMessagesBefore (conversationID : string) (oldestMessageID : option Z) (limit : Z)
    : M (list Message * Z) :=
  let limit := if limit <=? 0 then 15 else limit in
  mongoCollection;;
  let filter m := message_in conversationID m &&
    match oldestMessageID with Some oldest => msg_MessageID m <? oldest | None => true end in
  let! total := map_err (EWrapf "count history messages") (CountDocuments Message filter) in
  let! l := map_err (EWrapf "find history messages")
    (FindPage Message filter (order_by (fun m => - msg_MessageID m)) 0 limit) in
  ret (rev l, total).
(** The driver draws the [_id]. *)
Definition InsertMessage (message : Message) : M Message :=
  mongoCollection;;
  let! id := NewObjectID in
  map_err (EWrapf "insert message") (InsertOne Message (stored id message));;
  ret {| message with msg_ID := id |}.
End repository.
End ChatRepo.
