(* ===== verification/ChatService.v ===== *)
(** * Chat: the service

    [internal/chat/service.go], [service_chat.go], [moderation.go], [page_result.go] and
    the arguments of [handler_helpers.go], one definition per function.  The payload of
    a WebSocket message is its decoded JSON object, [None] when [json.Unmarshal]
    refuses it.  The capability checker is an interface in the code and an argument
    here; [GoFmt] is the text [fmt.Sprint] gives to a value that is no text and no
    number. *)
From Stdlib Require Import Ascii Floats.SpecFloat.
From S2P Require Import Prelude GoString GoTime GoMonad Sql Mongo ChatModel.

Class GoFmt := { Sprint : json -> string }.

Module ChatService.
Import Chat ChatRepo.
Open Scope Z_scope.

(** ** Errors *)
Definition errMsgInvalidParam : string := "参数错误".
Definition ErrConversationNotFound := Bizerr.NotFound "会话不存在".
Definition ErrConversationPeerNotFound := Bizerr.NotFound "会话中未找到聊天对象".
Definition ErrConversationAccessDenied := Bizerr.Forbidden "无权访问该会话".
Definition ErrConversationDeleteDenied := Bizerr.Forbidden "无权删除该会话".
Definition ErrConversationUpdateFailed := Bizerr.Biz "更新会话失败".
Definition ErrConversationDeleteFailed := Bizerr.Biz "删除会话失败".
Definition ErrMessageParseFailed := Bizerr.Biz "消息解析失败".
Definition ErrConversationIDRequired := Bizerr.Param "会话ID不能为空".
Definition ErrTargetUserIDRequired := Bizerr.Param "目标用户ID不能为空".
Definition ErrReceiverIDRequired := Bizerr.Param "接收者ID不能为空".
Definition ErrLastMessageIDRequired := Bizerr.Param "最后一条消息ID不能为空".

Definition maxPageSize : Z := 100.
Definition historyMessageFetchLimit : Z := 50.

(** ** Pages *)
Record PageResult (T : Type) := mkPageResult { pg_Data : list T; pg_Current : Z; pg_Total : Z; pg_Size : Z }.
Arguments mkPageResult {T}.
Arguments pg_Data {T}.
Arguments pg_Current {T}.
Arguments pg_Total {T}.
Arguments pg_Size {T}.
Definition NewPageResult {T} (data : list T) (total page size : Z) : PageResult T :=
  mkPageResult data (if page <=? 0 then 1 else page) total (if size <=? 0 then 15 else size).
Definition normalizePage (page size defaultSize : Z) : Z * Z :=
  let page := if page <=? 0 then 1 else page in
  let size := if size <=? 0 then defaultSize else size in
  (page, if maxPageSize <? size then maxPageSize else size).
Definition requestPageSize (page size : string) : Z * Z :=
  let page := GoStr.Atoi page in
  let size := GoStr.Atoi size in
  (if page <=? 0 then 1 else page,
   if size <=? 0 then 15 else if maxPageSize <? size then maxPageSize else size).
Definition parsePositiveInt64 (raw : string) : res Z :=
  match GoStr.ParseInt (GoStr.TrimSpace raw) with
  | Some value => if value <=? 0 then Err (Bizerr.Param errMsgInvalidParam) else Ok value
  | None => Err (Bizerr.Param errMsgInvalidParam)
  end.
Definition parseOptionalPositiveInt64 (raw : string) : res (option Z) :=
  let raw := GoStr.TrimSpace raw in
  if String.eqb raw "" then Ok None
  else match parsePositiveInt64 raw with Ok value => Ok (Some value) | Err e => Err e end.
Definition userIDString (userID : Z) : string := GoStr.FormatInt userID.

(** ** The fields of a body *)
(** A field that occurs twice has its last value. *)
Definition field (b : body) (key : string) : option json :=
  match List.find (fun kv => String.eqb kv.1 key) (rev b) with
  | Some (_, JNull) | None => None
  | Some (_, v) => Some v
  end.

(** [int64(f)]: the part before the point; beyond the range, what amd64 answers. *)
Definition truncate (f : spec_float) : option Z :=
  match f with
  | S754_zero _ => Some 0
  | S754_finite s m e =>
    let n := match e with Z0 => Zpos m | Zpos p => Zpos m * 2 ^ Zpos p | Zneg p => Zpos m / 2 ^ Zpos p end in
    Some (if s then - n else n)
  | S754_infinity _ | S754_nan => None
  end.
Definition int64_of (f : spec_float) : Z :=
  match truncate f with
  | Some n => if (- 2 ^ 63 <=? n) && (n <? 2 ^ 63) then n else - 2 ^ 63
  | None => - 2 ^ 63
  end.

Section fields.
Context {F : GoFmt}.

Definition string_value (v : json) : string :=
  match v with
  | JStr s => GoStr.TrimSpace s
  | JNum f => GoStr.FormatInt (int64_of f)
  | v => GoStr.TrimSpace (Sprint v)
  end.
Fixpoint stringField (b : body) (keys : list string) : string :=
  match keys with
  | [] => ""
  | key :: keys => match field b key with Some v => string_value v | None => stringField b keys end
  end.

Definition UnixMilli (n : Z) : Z := n * GoTime.Millisecond.
Definition orelse {A} (o o' : option A) : option A := match o with Some a => Some a | None => o' end.
Definition normalizeTimeValue (v : json) : Z :=
  match v with
  | JStr s =>
    let raw := GoStr.TrimSpace s in
    match GoStr.ParseInt raw with
    | Some unixMillis => UnixMilli unixMillis
    | None =>
      default GoTime.zero_time (orelse (GoTime.ParseRFC3339 raw) (orelse (GoTime.ParseUTCDate raw)
        (orelse (GoTime.ParseUTC "T" raw) (GoTime.ParseUTC " " raw))))
    end
  | JNum f => UnixMilli (int64_of f)
  | _ => GoTime.zero_time
  end.
Fixpoint timeField (b : body) (keys : list string) : Z :=
  match keys with
  | [] => GoTime.zero_time
  | key :: keys =>
    match field b key with
    | Some v => let value := normalizeTimeValue v in
                if GoTime.IsZero value then timeField b keys else value
    | None => timeField b keys
    end
  end.
Fixpoint intField (b : body) (keys : list string) : option Z :=
  match keys with
  | [] => None
  | key :: keys =>
    match field b key with
    | Some (JNum f) => Some (int64_of f)
    | Some (JStr s) =>
      match GoStr.ParseInt (GoStr.TrimSpace s) with Some n => Some n | None => intField b keys end
    | _ => intField b keys
    end
  end.
Fixpoint mapField (b : body) (keys : list string) : option body :=
  match keys with
  | [] => None
  | key :: keys => match field b key with Some (JObj o) => Some o | _ => mapField b keys end
  end.
End fields.

Section service.
Context {E : Env} {O : ObjectIDs} {D : SqlEngine} {G : MongoServer} {F : GoFmt}.
Notation DB := (DB D G).
Notation M := (M DB).

Record Service := mkService {
  cfg_PageSize : option Z;
  capabilityChecker : option (Z -> Z -> string -> M unit);
}.

(** ** Conversations *)
Definition ListConversations (userID : Z) : M (list Conversation) :=
  if userID <=? 0 then throw (Bizerr.Param errMsgInvalidParam)
  else
    let! conversationIDs := internal "query conversations failed" (FindConversationIDsByUserID (userIDString userID)) in
    if bool_decide (conversationIDs = []) then ret []
    else internal "query conversations failed" (FindConversationsByIDs conversationIDs).

Definition EnterConversation (userID : Z) (conversationID lastMessageID : string) : M unit :=
  if (userID <=? 0) || String.eqb (GoStr.TrimSpace conversationID) "" then throw (Bizerr.Param errMsgInvalidParam)
  else
    let! member := internal "query conversation member failed"
      (FindConversationMember conversationID (userIDString userID)) in
    match member with
    | None => throw ErrConversationNotFound
    | Some member =>
      if mb_UnreadCount member =? 0 then ret tt
      else if String.eqb (GoStr.TrimSpace lastMessageID) "" then throw ErrLastMessageIDRequired
      else
        let! last := of_res (parsePositiveInt64 lastMessageID) in
        let! ok := internal "update conversation failed"
          (UpdateConversationMemberReadState conversationID (userIDString userID) last) in
        if ok then ret tt else throw ErrConversationUpdateFailed
    end.

Definition GetUnreadCount (userID : Z) (conversationID : string) : M (list ConversationUnreadCount) :=
  if userID <=? 0 then throw (Bizerr.Param errMsgInvalidParam)
  else if String.eqb (GoStr.TrimSpace conversationID) "" then throw ErrConversationIDRequired
  else internal "query unread count failed" (FindConversationUnreadCounts conversationID (userIDString userID)).

Definition QueryConversation (userID : Z) (targetUserID : string) : M (list string) :=
  if userID <=? 0 then throw (Bizerr.Param errMsgInvalidParam)
  else if String.eqb (GoStr.TrimSpace targetUserID) "" then throw ErrTargetUserIDRequired
  else
    let! target := internal "query conversation failed" (FindConversationIDsByUserID (GoStr.TrimSpace targetUserID)) in
    let! own := internal "query conversation failed" (FindConversationIDsByUserID (userIDString userID)) in
    ret (base.filter (fun id => id ∈ own) target).

Definition GetPeerUserID (conversationID : string) (currentUserID : Z) : M string :=
  if currentUserID <=? 0 then throw (Bizerr.Param errMsgInvalidParam)
  else if String.eqb (GoStr.TrimSpace conversationID) "" then throw ErrConversationIDRequired
  else
    let! member := internal "query peer user failed"
      (FindPeerConversationMember conversationID (userIDString currentUserID)) in
    match member with
    | None => throw ErrConversationPeerNotFound
    | Some member => ret (mb_UserID member)
    end.

Definition delete_error : error -> error := error_table
  [(errRepoConversationNotFound, ErrConversationNotFound); (errRepoConversationMemberMiss, ErrConversationDeleteDenied);
   (errRepoConversationDeleteFailed, ErrConversationDeleteFailed)] "delete conversation failed".
Definition DeleteConversation (userID : Z) (conversationID : string) : M unit :=
  if userID <=? 0 then throw (Bizerr.Param errMsgInvalidParam)
  else if String.eqb (GoStr.TrimSpace conversationID) "" then throw ErrConversationIDRequired
  else map_err delete_error (DeleteConversationForUser conversationID (userIDString userID)).

(** ** Reading messages *)
Definition GetOfflineMessages (userID lastMessageID : Z) : M (list Message) :=
  if userID <=? 0 then throw (Bizerr.Param errMsgInvalidParam)
  else
    let! conversationIDs := internal "query offline messages failed"
      (FindConversationIDsByUserID (userIDString userID)) in
    if bool_decide (conversationIDs = []) then ret []
    else internal "query offline messages failed" (FindMessagesAfter conversationIDs lastMessageID).

Definition defaultPageSize (s : Service) : Z :=
  match cfg_PageSize s with Some n => if 0 <? n then n else 15 | None => 15 end.
Definition GetHistoryMessages (s : Service) (userID : Z) (conversationID : string) (oldestMessageID : option Z)
    (page size : Z) : M (PageResult Message) :=
  if userID <=? 0 then throw (Bizerr.Param errMsgInvalidParam)
  else if String.eqb (GoStr.TrimSpace conversationID) "" then throw ErrConversationIDRequired
  else
    let '(page, size) := normalizePage page size (defaultPageSize s) in
    let size := if historyMessageFetchLimit <? size then historyMessageFetchLimit else size in
    let! member := internal "query history messages failed"
      (FindConversationMember conversationID (userIDString userID)) in
    match member with
    | None => throw ErrConversationAccessDenied
    | Some _ =>
      let! (messages, total) := internal "query history messages failed"
        (FindConversationMessagesBefore conversationID oldestMessageID size) in
      ret (NewPageResult messages total page size)
    end.

Definition HasUnreadMessages (userID : Z) : M bool :=
  if userID <=? 0 then throw (Bizerr.Param errMsgInvalidParam)
  else
    let! total := internal "query unread messages failed" (SumUnreadCount (userIDString userID)) in
    ret (negb (total =? 0)).

(** [moderation.go] *)
Definition ReportMessage (reporterUserID : Z) (messageID : string) : M (option Message) :=
  match GoStr.ParseInt messageID with
  | None => throw (Bizerr.Param "消息ID格式错误")
  | Some id =>
    if id <=? 0 then throw (Bizerr.Param "消息ID格式错误")
    else
      let! message := FindMessageByID id in
      match message with
      | None => ret None
      | Some message =>
        let! member := FindConversationMember (msg_ConversationID message) (GoStr.FormatInt reporterUserID) in
        match member with
        | None => throw ErrConversationAccessDenied
        | Some _ => ret (Some message)
        end
      end
  end.

(** ** Sending messages ([service_chat.go]) *)
Definition resolveInitConversationID (b : body) : M string :=
  let conversationID := stringField b ["id"; "conversationId"; "conversation_id"] in
  if negb (String.eqb conversationID "") then ret conversationID
  else let! id := Generate in ret (GoStr.FormatInt id).

Definition handleInitMessage (senderID : string) (b : body) : M Message :=
  let! conversationID := resolveInitConversationID b in
  let receiverID := stringField b ["receiverId"; "receiver_id"] in
  if String.eqb (GoStr.TrimSpace receiverID) "" then throw ErrReceiverIDRequired
  else
    let content := stringField b ["content"] in
    let sentAt := timeField b ["sentAt"; "sent_at"] in
    let! t := now in
    let sentAt := if GoTime.IsZero sentAt then t else sentAt in
    let! messageID := Generate in
    let conversation := mkConversation conversationID 1 content senderID sentAt t t in
    let members := [mkMember conversationID senderID (Some messageID) 0 t;
                    mkMember conversationID receiverID None 1 t] in
    internal "创建会话失败" (CreateConversationWithMembers conversation members);;
    let message := mkMessage 0 messageID conversationID receiverID senderID content
      (intField b ["messageType"; "message_type"]) sentAt (mapField b ["metadata"]) "INIT" in
    let! r := attempt (InsertMessage message) in
    match r with
    | Ok message => ret message
    | Err e =>
      let! _ := attempt (DeleteConversationCascade conversationID) in
      throw (Bizerr.InternalWrap "保存消息失败" e)
    end.

Definition update_error : error -> error := error_table
  [(errRepoConversationMemberMiss, ErrConversationUpdateFailed); (errRepoConversationNotFound, ErrConversationUpdateFailed);
   (errRepoConversationUpdateFailed, ErrConversationUpdateFailed)] "更新会话失败".
Definition handleChatMessage (senderID : string) (b : body) : M Message :=
  let conversationID := stringField b ["conversationId"; "conversation_id"] in
  if String.eqb (GoStr.TrimSpace conversationID) "" then throw ErrConversationIDRequired
  else
    let receiverID := stringField b ["receiverId"; "receiver_id"] in
    if String.eqb (GoStr.TrimSpace receiverID) "" then throw ErrReceiverIDRequired
    else
      let! senderMember := internal "查询会话成员失败" (FindConversationMember conversationID senderID) in
      match senderMember with
      | None => throw ErrConversationAccessDenied
      | Some _ =>
        let! receiverMember := internal "查询会话成员失败" (FindConversationMember conversationID receiverID) in
        match receiverMember with
        | None => throw ErrConversationPeerNotFound
        | Some _ =>
          let content := stringField b ["content"] in
          let sentAt := timeField b ["sentAt"; "sent_at"] in
          let! sentAt := (if GoTime.IsZero sentAt then now else ret sentAt) in
          let! messageID := Generate in
          let message := mkMessage 0 messageID conversationID receiverID senderID content
            (intField b ["messageType"; "message_type"]) sentAt (mapField b ["metadata"]) "" in
          let! message := internal "保存消息失败" (InsertMessage message) in
          map_err update_error
            (UpdateConversationAfterMessage conversationID senderID receiverID content sentAt (msg_MessageID message));;
          ret message
        end
      end.

Definition is_INIT (b : body) : bool :=
  String.eqb (GoStr.ToUpper (GoStr.TrimSpace (stringField b ["handleType"; "handle_type"]))) "INIT".
Definition HandleWSMessage (s : Service) (senderID : Z) (payload : option body) : M Message :=
  match capabilityChecker s with Some check => check senderID 0 "content" | None => ret tt end;;
  match payload with
  | None => throw ErrMessageParseFailed
  | Some b =>
    if is_INIT b then handleInitMessage (userIDString senderID) b else handleChatMessage (userIDString senderID) b
  end.
End service.
End ChatService.
