(* ===== verification/ChatSpec.v ===== *)
(** * Chat: specification, and its refinement by the repository

    The transitions of the rooms: a conversation opens between two users, members read
    and send, leave, and the last one closes it with its messages.  [rooms] is what
    holds of every state: a conversation belongs to two users, all its members and all
    its messages are theirs, it has a member, and nothing refers to a conversation that
    is gone.  The writing methods of [ChatRepo] perform transitions. *)
From S2P Require Import Prelude GoString GoTime GoMonad Sql Safe Mongo ChatModel.

Module ChatSpec.
Import Safe.
Import Chat ChatRepo.

Definition owner (m : ConversationMember) : string * string := (mb_ConversationID m, mb_UserID m).
Definition member_at (s : State) (id u : string) : Prop := is_Some (members s !! member_key id u).

(** ** Transitions *)
Inductive chat_step (s : State) : State -> Prop :=
| c_open id a b c ma mb : conversations s !! conv_key id = None -> a <> b ->
    conv_ID c = id -> owner ma = (id, a) -> owner mb = (id, b) ->
    chat_step s {| s with conversations := <[conv_key id := c]> (conversations s);
                          members := <[member_key id b := mb]> (<[member_key id a := ma]> (members s)) |}
| c_say d : member_at s (msg_ConversationID d) (msg_SenderID d) -> member_at s (msg_ConversationID d) (msg_ReceiverID d) ->
    messages s !! msg_ID d = None ->
    chat_step s {| s with messages := <[msg_ID d := d]> (messages s) |}
| c_sent id a b n content t t' :
    chat_step s {| s with members := upd_view (is_member id b) one_more (upd_view (is_member id a) (sent_last n) (members s));
                          conversations := upd_view (is_conversation id) (last_message content a t t') (conversations s) |}
| c_read id u n :
    chat_step s {| s with members := upd_view (is_member id u) (read_to n) (members s) |}
| c_leave id u : (exists k m, members s !! k = Some m /\ is_peer id u m = true) ->
    chat_step s {| s with members := matching (fun m => negb (is_member id u m)) (members s) |}
| c_forget id :
    chat_step s {| s with messages := matching (fun d => negb (message_in id d)) (messages s) |}
| c_close id :
    chat_step s {| s with members := matching (fun m => negb (of_conversation id m)) (members s);
                          messages := matching (fun d => negb (message_in id d)) (messages s);
                          conversations := matching (fun c => negb (is_conversation id c)) (conversations s) |}.

(** ** The invariant *)
Definition one_of (a b x : string) : Prop := x = a \/ x = b.
Definition between (s : State) (id a b : string) : Prop :=
  a <> b /\
  (forall k m, members s !! k = Some m -> mb_ConversationID m = id -> one_of a b (mb_UserID m)) /\
  (forall k d, messages s !! k = Some d -> msg_ConversationID d = id ->
     one_of a b (msg_SenderID d) /\ one_of a b (msg_ReceiverID d)).
Record rooms (s : State) : Prop := {
  room_pair : forall k c, conversations s !! k = Some c -> exists a b, between s (conv_ID c) a b;
  room_open : forall k c, conversations s !! k = Some c ->
    exists j m, members s !! j = Some m /\ mb_ConversationID m = conv_ID c;
  room_member : forall k m, members s !! k = Some m ->
    k = member_key (mb_ConversationID m) (mb_UserID m) /\ is_Some (conversations s !! conv_key (mb_ConversationID m));
  room_message : forall k d, messages s !! k = Some d -> is_Some (conversations s !! conv_key (msg_ConversationID d));
  room_key : forall k c, conversations s !! k = Some c -> k = conv_key (conv_ID c);
}.

Lemma of_conversation_iff id m : of_conversation id m = true <-> mb_ConversationID m = id.
Proof. apply String.eqb_eq. Qed.
Lemma is_member_iff id u m : is_member id u m = true <-> owner m = (id, u).
Proof. unfold is_member, owner. rewrite andb_true_iff, of_conversation_iff, String.eqb_eq. naive_solver. Qed.
Lemma is_peer_iff id u m : is_peer id u m = true <-> mb_ConversationID m = id /\ mb_UserID m <> u.
Proof. unfold is_peer. by rewrite andb_true_iff, negb_true_iff, of_conversation_iff, String.eqb_neq. Qed.
Lemma is_conversation_iff id c : is_conversation id c = true <-> conv_ID c = id.
Proof. apply String.eqb_eq. Qed.
Lemma message_in_iff id d : message_in id d = true <-> msg_ConversationID d = id.
Proof. apply String.eqb_eq. Qed.

(** A state that has no more, and each row with the same owner. *)
Record narrows (s s' : State) : Prop := {
  nw_members : forall k m, members s' !! k = Some m -> exists m0, members s !! k = Some m0 /\ owner m = owner m0;
  nw_messages : forall k d, messages s' !! k = Some d -> messages s !! k = Some d;
  nw_conversations : forall k c, conversations s' !! k = Some c ->
    exists c0, conversations s !! k = Some c0 /\ conv_ID c = conv_ID c0;
}.
Lemma between_narrows s s' id a b : narrows s s' -> between s id a b -> between s' id a b.
Proof.
  intros [Hm Hd _] (Hab & Bm & Bd). split_and!; [done| |].
  - intros k m Hk Hid. destruct (Hm _ _ Hk) as (m0 & H0 & Ho). unfold owner in Ho. simplify_eq.
    assert (mb_UserID m = mb_UserID m0) as -> by congruence. eapply Bm; [exact H0|congruence].
  - intros k d Hk. eapply Bd, Hd, Hk.
Qed.
(** Fewer rooms, as long as what is left keeps what it needs. *)
Lemma rooms_narrows s s' : narrows s s' ->
  (forall k c, conversations s' !! k = Some c -> exists j m, members s' !! j = Some m /\ mb_ConversationID m = conv_ID c) ->
  (forall k m, members s' !! k = Some m -> is_Some (conversations s' !! conv_key (mb_ConversationID m))) ->
  (forall k d, messages s' !! k = Some d -> is_Some (conversations s' !! conv_key (msg_ConversationID d))) ->
  rooms s -> rooms s'.
Proof.
  intros HN Ho Hm Hd [Rp Ro Rm Rd Rk]. destruct HN as [Nm Nd Nc]. pose proof (Build_narrows _ _ Nm Nd Nc) as HN. split; auto.
  - intros k c Hk. destruct (Nc _ _ Hk) as (c0 & H0 & ->). destruct (Rp _ _ H0) as (a & b & Hb).
    exists a, b. by eapply between_narrows.
  - intros k m Hk. split; [|by eapply Hm]. destruct (Nm _ _ Hk) as (m0 & H0 & He). destruct (Rm _ _ H0) as [-> _].
    unfold owner in He. congruence.
  - intros k c Hk. destruct (Nc _ _ Hk) as (c0 & H0 & He). rewrite He. by apply Rk.
Qed.

(** Rewriting rows without what [g] sees of them. *)
Lemma upd_view_back {R X} (g : R -> X) p f (m : gmap Z R) k r : (forall r, g (f r) = g r) ->
  upd_view p f m !! k = Some r -> exists r0, m !! k = Some r0 /\ g r = g r0.
Proof.
  intros Hg. rewrite lookup_upd_view. intros (r0 & H0 & ->)%fmap_Some. exists r0. split; [done|].
  destruct (p r0); [apply Hg|done].
Qed.
Lemma upd_view_there {R X} (g : R -> X) p f (m : gmap Z R) k r0 : (forall r, g (f r) = g r) ->
  m !! k = Some r0 -> exists r, upd_view p f m !! k = Some r /\ g r = g r0.
Proof. intros Hg H0. rewrite lookup_upd_view, H0. simpl. eexists. split; [done|]. destruct (p r0); [apply Hg|done]. Qed.

Lemma rooms_rewrite (s : State) (s' : State) :
  messages s' = messages s ->
  (forall k m, members s' !! k = Some m -> exists m0, members s !! k = Some m0 /\ owner m = owner m0) ->
  (forall k m, members s !! k = Some m -> exists m', members s' !! k = Some m' /\ owner m' = owner m) ->
  (forall k c, conversations s' !! k = Some c -> exists c0, conversations s !! k = Some c0 /\ conv_ID c = conv_ID c0) ->
  (forall k c, conversations s !! k = Some c -> is_Some (conversations s' !! k)) ->
  rooms s -> rooms s'.
Proof.
  intros He Bm Fm Bc Fc HI. apply (rooms_narrows s s'); [|..|done].
  - split; [exact Bm| |exact Bc]. intros k d. by rewrite He.
  - intros k c Hk. destruct (Bc _ _ Hk) as (c0 & H0 & ->). destruct (room_open _ HI _ _ H0) as (j & m & Hj & Hm).
    destruct (Fm _ _ Hj) as (m' & Hj' & Ho). exists j, m'. unfold owner in Ho. split; [done|congruence].
  - intros k m Hk. destruct (Bm _ _ Hk) as (m0 & H0 & Ho). destruct (room_member _ HI _ _ H0) as [_ [c Hc]].
    unfold owner in Ho. assert (mb_ConversationID m = mb_ConversationID m0) as -> by congruence. by eapply Fc.
  - intros k d. rewrite He. intros Hk. destruct (room_message _ HI _ _ Hk) as [c Hc]. by eapply Fc.
Qed.

Lemma rooms_leave s id u : (exists k m, members s !! k = Some m /\ is_peer id u m = true) -> rooms s ->
  rooms {| s with members := matching (fun m => negb (is_member id u m)) (members s) |}.
Proof.
  intros (j & mj & Hj & [Hid Hu]%is_peer_iff) HI. eapply rooms_narrows; [..|exact HI]; simpl.
  - split; simpl; [|done|eauto]. intros k m [Hk _]%lookup_matching. eauto.
  - intros k c Hk. destruct (decide (conv_ID c = id)) as [->|Hne].
    + exists j, mj. split; [|done]. apply lookup_matching. split; [done|]. rewrite negb_true_iff, <- not_true_iff_false, is_member_iff.
      unfold owner. intros [= _ ?]. done.
    + destruct (room_open _ HI _ _ Hk) as (i & m & Hi & Hm). exists i, m. split; [|done]. apply lookup_matching. split; [done|].
      rewrite negb_true_iff, <- not_true_iff_false, is_member_iff. unfold owner. intros [= ? _]. congruence.
  - intros k m [Hk _]%lookup_matching. apply (room_member _ HI _ _ Hk).
  - intros k d Hk. apply (room_message _ HI _ _ Hk).
Qed.

(** The conversation [id] with all that refers to it. *)
Lemma rooms_close s id : rooms s ->
  rooms {| s with members := matching (fun m => negb (of_conversation id m)) (members s);
                  messages := matching (fun d => negb (message_in id d)) (messages s);
                  conversations := matching (fun c => negb (is_conversation id c)) (conversations s) |}.
Proof.
  intros HI.
  assert (Hkeep : forall id', is_Some (conversations s !! conv_key id') -> id' <> id ->
    is_Some (matching (fun c => negb (is_conversation id c)) (conversations s) !! conv_key id')).
  { intros id' [c Hc] Hne. exists c. apply lookup_matching. split; [done|].
    rewrite negb_true_iff, <- not_true_iff_false, is_conversation_iff.
    apply (room_key _ HI), conv_key_inj in Hc. congruence. }
  eapply rooms_narrows; [..|exact HI]; simpl.
  - split; simpl; [intros k m [? _]%lookup_matching; eauto|by intros k d [? _]%lookup_matching|].
    intros k c [? _]%lookup_matching. eauto.
  - intros k c [Hk Hid]%lookup_matching. destruct (room_open _ HI _ _ Hk) as (i & m & Hi & Hm). exists i, m. split; [|done].
    apply lookup_matching. split; [done|]. revert Hid. unfold of_conversation, is_conversation. by rewrite Hm.
  - intros k m [Hk Hid]%lookup_matching. apply Hkeep; [apply (room_member _ HI _ _ Hk)|].
    by rewrite negb_true_iff, <- not_true_iff_false, of_conversation_iff in Hid.
  - intros k d [Hk Hid]%lookup_matching. apply Hkeep; [apply (room_message _ HI _ _ Hk)|].
    by rewrite negb_true_iff, <- not_true_iff_false, message_in_iff in Hid.
Qed.

Lemma rooms_forget s id : rooms s ->
  rooms {| s with messages := matching (fun d => negb (message_in id d)) (messages s) |}.
Proof.
  intros HI. eapply rooms_narrows; [..|exact HI]; simpl.
  - split; simpl; [eauto|by intros k d [? _]%lookup_matching|eauto].
  - apply (room_open _ HI).
  - intros k m Hk. apply (room_member _ HI _ _ Hk).
  - intros k d [Hk _]%lookup_matching. apply (room_message _ HI _ _ Hk).
Qed.

Lemma rooms_say s d : member_at s (msg_ConversationID d) (msg_SenderID d) ->
  member_at s (msg_ConversationID d) (msg_ReceiverID d) -> rooms s ->
  rooms {| s with messages := <[msg_ID d := d]> (messages s) |}.
Proof.
  intros [ms Hs] [mr Hr] HI.
  destruct (room_member _ HI _ _ Hs) as [[Is Us]%member_key_inj Hc].
  destruct (room_member _ HI _ _ Hr) as [[Ir Ur]%member_key_inj _].
  split; simpl; [|apply (room_open _ HI)|apply (room_member _ HI)| |apply (room_key _ HI)].
  - intros k c Hk. destruct (room_pair _ HI _ _ Hk) as (a & b & Hab & Bm & Bd). exists a, b. split_and!; simpl; [done|done|].
    intros j x [[_ <-]|[_ Hj]]%lookup_insert_Some Hid; [|by eapply Bd]. rewrite Us, Ur.
    split; [eapply (Bm _ _ Hs)|eapply (Bm _ _ Hr)]; congruence.
  - intros j x [[_ <-]|[_ Hj]]%lookup_insert_Some; [by rewrite Is|]. apply (room_message _ HI _ _ Hj).
Qed.

Lemma rooms_open s id a b c ma mb : conversations s !! conv_key id = None -> a <> b ->
  conv_ID c = id -> owner ma = (id, a) -> owner mb = (id, b) -> rooms s ->
  rooms {| s with conversations := <[conv_key id := c]> (conversations s);
                  members := <[member_key id b := mb]> (<[member_key id a := ma]> (members s)) |}.
Proof.
  unfold owner. intros Hnone Hab Hid [= Hia Hua] [= Hib Hub] HI.
  assert (Hold : forall i, is_Some (conversations s !! conv_key i) -> i <> id) by (intros i Hi ->; by rewrite Hnone in Hi; destruct Hi).
  assert (Hmem : forall k m, <[member_key id b := mb]> (<[member_key id a := ma]> (members s)) !! k = Some m ->
    m = mb /\ k = member_key id b \/ m = ma /\ k = member_key id a \/ members s !! k = Some m).
  { intros k m [[-> ->]|[_ [[-> ->]|[_ ?]]%lookup_insert_Some]]%lookup_insert_Some; auto. }
  split; simpl.
  - intros k x [[_ <-]|[Hne Hk]]%lookup_insert_Some.
    + exists a, b. rewrite Hid. split_and!; simpl; [done| |].
      * intros j m Hj Hm. destruct (Hmem _ _ Hj) as [[-> _]|[[-> _]|Hj']]; [right; congruence|left; congruence|].
        by destruct (Hold _ (proj2 (room_member _ HI _ _ Hj'))).
      * intros j d Hj Hd. by destruct (Hold _ (room_message _ HI _ _ Hj)).
    + destruct (room_pair _ HI _ _ Hk) as (a' & b' & Hab' & Bm & Bd). exists a', b'. split_and!; simpl; [done| |exact Bd].
      assert (Hx : conv_ID x <> id) by (intros He; rewrite (room_key _ HI _ _ Hk), He in Hne; done).
      intros j m Hj Hm. destruct (Hmem _ _ Hj) as [[-> _]|[[-> _]|Hj']]; [congruence..|by eapply Bm].
  - intros k x [[_ <-]|[Hne Hk]]%lookup_insert_Some; [exists (member_key id b), mb; rewrite lookup_insert_eq; split; [done|congruence]|].
    destruct (room_open _ HI _ _ Hk) as (j & m & Hj & Hm). exists j, m. split; [|done].
    destruct (room_member _ HI _ _ Hj) as [-> Hc]. pose proof (Hold _ Hc).
    rewrite !lookup_insert_ne; [done|intros [? _]%member_key_inj; congruence..].
  - intros k m Hk. destruct (Hmem _ _ Hk) as [[-> ->]|[[-> ->]|Hk']].
    + rewrite Hib, Hub, lookup_insert_eq. eauto.
    + rewrite Hia, Hua, lookup_insert_eq. eauto.
    + destruct (room_member _ HI _ _ Hk') as [He Hc]. split; [done|]. rewrite lookup_insert_ne; [done|].
      intros He'%conv_key_inj. by destruct (Hold _ Hc).
  - intros k d Hk. pose proof (room_message _ HI _ _ Hk) as Hc. rewrite lookup_insert_ne; [done|].
    intros He%conv_key_inj. by destruct (Hold _ Hc).
  - intros k x [[<- <-]|[_ Hk]]%lookup_insert_Some; [congruence|]. apply (room_key _ HI _ _ Hk).
Qed.

Lemma rooms_step s s' : rooms s -> chat_step s s' -> rooms s'.
Proof.
  intros HI [id a b c ma mb H1 H2 H3 H4 H5|d H1 H2 H3|id a b n content t t'|id u n|id u Hp|id|id].
  - by eapply rooms_open.
  - by apply rooms_say.
  - apply (rooms_rewrite s); [done|..|exact HI]; simpl.
    + intros k m Hk. apply (upd_view_back owner) in Hk as (m1 & H1 & ->); [|done].
      by apply (upd_view_back owner) in H1 as (m0 & ? & ->); [exists m0|].
    + intros k m Hk. apply (upd_view_there owner (is_member id a) (sent_last n)) in Hk as (m1 & H1 & <-); [|done].
      by apply (upd_view_there owner) with (r0 := m1).
    + intros k c. by apply upd_view_back.
    + intros k c Hk. rewrite lookup_upd_view, Hk. eauto.
  - apply (rooms_rewrite s); [done|..|exact HI]; simpl; [|intros k m; by apply upd_view_there|eauto..].
    intros k m. by apply upd_view_back.
  - by apply rooms_leave.
  - by apply rooms_forget.
  - by apply rooms_close.
Qed.

#[export] Instance chat_system : System State := {| sys_step := chat_step; sys_inv := rooms; sys_inv_step := rooms_step |}.
End ChatSpec.

(** ** The repository *)
Module ChatRefine.
Import Safe.
Import Chat ChatRepo ChatSpec.

(** The state [s] with other rows and documents. *)
Definition put (c : gmap Z Conversation) (m : gmap Z ConversationMember) (d : gmap Z Message) (s : State) : State :=
  mkState c m d (nils s).

Section refine.
Context {E : Env} {O : ObjectIDs} {D : SqlEngine} {G : MongoServer}.
Notation DB := (DB D G).
Implicit Types (w : World DB).

Lemma wp_Transaction {B} (body : M DB B) (Q : res B -> World DB -> Prop) w :
  wp body (fun r w' =>
    match r with
    | Ok b => Q (Err (EDriver infra_text)) (with_db (rollback (w_db w) (w_db w')) (bump w')) /\ Q (Ok b) (bump w')
    | Err e => Q (Err e) (with_db (rollback (w_db w) (w_db w')) w')
    end) w ->
  wp (Transaction body) Q w.
Proof.
  unfold wp, Transaction. destruct (body w) as [[b|e] w']; simpl; [|done]. intros []. by destruct (env_fault _).
Qed.
Lemma st_rollback w w' w2 : st (with_db (rollback (w_db w) (w_db w')) w2) = put (conversations (st w)) (members (st w)) (messages (st w')) (st w).
Proof. done. Qed.
Lemma rolled_back w w' w2 : messages (st w') = messages (st w) -> st (with_db (rollback (w_db w) (w_db w')) w2) = st w.
Proof. rewrite st_rollback. intros ->. by destruct (st w). Qed.

Lemma wp_chat_gormDB (Q : res unit -> World DB -> Prop) w :
  (forall r, Q r w) -> wp gormDB Q w.
Proof. intros HQ. unfold wp, gormDB, bind, get_db. simpl. destruct (db_nil (w_db w)); apply HQ. Qed.
Lemma wp_chat_coll (Q : res unit -> World DB -> Prop) w :
  (forall r, Q r w) -> wp mongoCollection Q w.
Proof. intros HQ. unfold wp, mongoCollection, bind, get_db. simpl. destruct (mongo_nil (w_db w)); apply HQ. Qed.

(** The two members of a new conversation, in one statement. *)
Lemma wp_insert_members ma mb (Q : res unit -> World DB -> Prop) w :
  (forall e w', st w' = st w -> Q (Err e) w') ->
  (forall w', members (st w) !! ent_id ma = None -> ent_id ma <> ent_id mb ->
     st w' = put (conversations (st w)) (<[ent_id mb := mb]> (<[ent_id ma := ma]> (members (st w)))) (messages (st w)) (st w) -> Q (Ok tt) w') ->
  wp (insert_members [ma; mb]) Q w.
Proof.
  intros Herr Hok. unfold insert_members. apply wp_bind, wp_stmt; [intros _; by apply Herr|]. cbv beta iota.
  apply wp_bind, wp_get_db. cbv beta iota. unfold insert_rows. simpl.
  pose proof (ins_spec _ _ ma (t_members (w_db w))) as Ha. destruct (ins ma _) as [t|]; simpl; [|by apply Herr].
  pose proof (ins_spec _ _ mb t) as Hb. destruct (ins mb t) as [t'|]; simpl; [|by apply Herr].
  destruct Ha as [Ha1 Ha2], Hb as [Hb1 Hb2]. rewrite Ha2 in Hb1, Hb2. apply wp_put_db, Hok.
  - exact Ha1.
  - intros He. by rewrite <- He, lookup_insert_eq in Hb1.
  - unfold st, abs, DB_abs, db_state. simpl. by rewrite Hb2.
Qed.

(** An error leaves the rooms alone, a return opens one. *)
Lemma wp_Create id a b c ma mb (Q : res unit -> World DB -> Prop) w :
  conv_ID c = id -> owner ma = (id, a) -> owner mb = (id, b) ->
  (forall e w', st w' = st w -> Q (Err e) w') ->
  (forall w', conversations (st w) !! conv_key id = None -> a <> b ->
     st w' = put (<[conv_key id := c]> (conversations (st w)))
                  (<[member_key id b := mb]> (<[member_key id a := ma]> (members (st w)))) (messages (st w)) (st w) ->
     Q (Ok tt) w') ->
  wp (CreateConversationWithMembers c [ma; mb]) Q w.
Proof.
  unfold owner. intros Hid [= Ha1 Ha2] [= Hb1 Hb2] Herr Hok. unfold CreateConversationWithMembers.
  apply wp_bind, wp_chat_gormDB. intros [[]|e]; cbv beta iota; [|by apply Herr].
  apply wp_Transaction, wp_bind, wp_map_err, wp_insert; cbv beta iota; [intros _; by apply Herr, rolled_back..|].
  intros w1 (Hs1 & _ & _) Hnone _. simpl in Hs1, Hnone. change (st w1 = put (<[conv_key (conv_ID c) := c]> (conversations (st w))) (members (st w)) (messages (st w)) (st w)) in Hs1.
  rewrite Hid in Hs1, Hnone. apply wp_map_err, wp_insert_members; cbv beta iota.
  { intros e w2 Hs2. apply Herr, rolled_back. by rewrite Hs2, Hs1. }
  intros w2 _ Hne Hs2. unfold ent_id, Member_entity in Hne, Hs2. rewrite Ha1, Ha2, Hb1, Hb2 in Hne, Hs2. rewrite Hs1 in Hs2. split.
  - apply Herr, rolled_back. by rewrite Hs2.
  - apply Hok; [exact Hnone|congruence|exact Hs2].
Qed.

(** The book-keeping after a message. *)
Lemma wp_update_members p f (Q : res Z -> World DB -> Prop) w :
  (forall m, owner (f m) = owner m) ->
  (forall e w', st w' = st w -> Q (Err e) w') ->
  (forall n w', st w' = put (conversations (st w)) (upd_view p f (members (st w))) (messages (st w)) (st w) -> Q (Ok n) w') ->
  wp (update ConversationMember p f) Q w.
Proof.
  unfold owner. intros Hf Herr Hok. apply wp_update.
  - intros m _. unfold ent_id, Member_entity. pose proof (Hf m) as Hm. injection Hm as Hm1 Hm2. by rewrite Hm1, Hm2.
  - intros _. by apply Herr.
  - by intros (? & ? & ? & ? & ? & ? & ? & [=]).
  - intros n changed w' (Hs & _) _ _. by apply Hok.
Qed.
Lemma wp_Update id a b content t n (Q : res unit -> World DB -> Prop) w :
  (forall e w', st w' = st w -> Q (Err e) w') ->
  (forall t' w', st w' = put (upd_view (is_conversation id) (last_message content a t t') (conversations (st w)))
       (upd_view (is_member id b) one_more (upd_view (is_member id a) (sent_last n) (members (st w)))) (messages (st w)) (st w) -> Q (Ok tt) w') ->
  wp (UpdateConversationAfterMessage id a b content t n) Q w.
Proof.
  intros Herr Hok. unfold UpdateConversationAfterMessage.
  apply wp_bind, wp_chat_gormDB. intros [[]|e]; cbv beta iota; [|by apply Herr].
  apply wp_Transaction, wp_bind, wp_map_err, wp_update_members; cbv beta iota; [done|intros e w1 Hs1; apply Herr, rolled_back; by rewrite Hs1|].
  intros n1 w1 Hs1. apply wp_if; intros _; [apply wp_throw, Herr, rolled_back; by rewrite Hs1|].
  apply wp_bind, wp_map_err, wp_update_members; cbv beta iota; [done|intros e w2 Hs2; apply Herr, rolled_back; by rewrite Hs2, Hs1|].
  intros n2 w2 Hs2. rewrite Hs1 in Hs2. apply wp_if; intros _; [apply wp_throw, Herr, rolled_back; by rewrite Hs2|].
  apply wp_bind, wp_now. cbv beta iota. change (st w2) with (st (bump w2)) in Hs2. apply wp_bind, wp_map_err, wp_update; cbv beta iota.
  - done.
  - intros _. apply Herr, rolled_back. change (messages (st (bump w2)) = messages (st w)). by rewrite Hs2.
  - by intros (? & ? & ? & ? & ? & ? & ? & [=]).
  - intros n3 changed w3 (Hs3 & _) _ _. unfold vw in Hs3. change (abs (w_db (bump w2))) with (st (bump w2)) in Hs3. rewrite Hs2 in Hs3.
    change (abs (w_db w3)) with (st w3) in Hs3. simpl in Hs3.
    apply wp_if; intros _; [apply wp_throw, Herr, rolled_back; by rewrite Hs3|]. apply wp_ret. split; [apply Herr, rolled_back; by rewrite Hs3|].
    eapply Hok. exact Hs3.
Qed.

(** Withdrawing a conversation without messages closes it. *)
Lemma wp_Cascade id (Q : res unit -> World DB -> Prop) w :
  (forall k d, messages (st w) !! k = Some d -> msg_ConversationID d <> id) ->
  (forall r w', st w' = st w -> Q r w') -> (forall r w', chat_step (st w) (st w') -> Q r w') ->
  wp (DeleteConversationCascade id) Q w.
Proof.
  intros Hno Hsame Hstep. unfold DeleteConversationCascade.
  apply wp_bind, wp_chat_gormDB. intros [[]|e]; cbv beta iota; [|by apply Hsame].
  apply wp_Transaction, wp_bind, wp_map_err, wp_delete; cbv beta iota; [intros _; by apply Hsame, rolled_back|].
  intros w1 (Hs1 & _). change (abs (w_db w1)) with (st w1) in Hs1. simpl in Hs1.
  apply wp_bind, wp_map_err, wp_delete; cbv beta iota; [intros _; apply Hsame, rolled_back|].
  { change (messages (st w1) = messages (st w)). by rewrite Hs1. }
  intros w2 (Hs2 & _). unfold vw in Hs2. change (abs (w_db w1)) with (st w1) in Hs2. rewrite Hs1 in Hs2.
  change (abs (w_db w2)) with (st w2) in Hs2. simpl in Hs2. apply wp_ret. split; [apply Hsame, rolled_back; by rewrite Hs2|].
  apply Hstep. change (chat_step (st w) (st w2)). rewrite Hs2.
  assert (He : matching (fun d => negb (message_in id d)) (messages (st w)) = messages (st w)).
  { apply map_eq. intros k. apply option_eq. intros d. rewrite lookup_matching, negb_true_iff, <- not_true_iff_false, message_in_iff.
    split; [by intros []|]. eauto. }
  pose proof (c_close (st w) id) as Hc. rewrite He in Hc. exact Hc.
Qed.

Lemma reads_take_in (R : Type) {HE : Entity R} {HT : Tbl DB State R HE _} rv p : reads (take_in R rv p : M DB R).
Proof.
  apply reads_bind; [apply reads_bind; [apply reads_stmt|done]|]. by intros [].
Qed.
(** Only members are left: the peers of [u]. *)
Lemma matching_peers id u (m : gmap Z ConversationMember) : amount (is_peer id u) m = 0%Z ->
  matching (fun m => negb (is_member id u m)) m = matching (fun m => negb (of_conversation id m)) m.
Proof.
  intros Hz. apply map_eq. intros k. apply option_eq. intros x. rewrite !lookup_matching.
  split; intros [Hk Hx]; (split; [done|]); rewrite negb_true_iff in *; rewrite <- not_true_iff_false in *;
    rewrite of_conversation_iff, is_member_iff in *; unfold owner in *.
  - intros <-. pose proof (proj1 (amount_zero _ _) Hz _ _ Hk) as Hp. rewrite <- not_true_iff_false, is_peer_iff in Hp.
    apply Hp. split; [done|]. intros <-. by apply Hx.
  - intros [= <- _]. by apply Hx.
Qed.

Lemma wp_close id (Q : res unit -> World DB -> Prop) w :
  (forall e w', st w' = st w -> Q (Err e) w') ->
  (forall e w', messages (st w') = matching (fun d => negb (message_in id d)) (messages (st w)) -> Q (Err e) w') ->
  (forall w', st w' = put (matching (fun c => negb (is_conversation id c)) (conversations (st w))) (members (st w))
     (matching (fun d => negb (message_in id d)) (messages (st w))) (st w) -> Q (Ok tt) w') ->
  wp (close_conversation id) Q w.
Proof.
  intros Hsame Hlost Hok. unfold close_conversation. apply wp_bind, wp_chat_coll.
  intros [[]|e]; cbv beta iota; [|by apply Hsame].
  apply wp_bind, wp_map_err, wp_DeleteMany; cbv beta iota; [intros _; by apply Hsame|].
  intros w1 (S1 & _). change (abs (w_db w1)) with (st w1) in S1. simpl in S1.
  apply wp_bind, wp_map_err, wp_delete; cbv beta iota; [intros _; apply Hlost|].
  { change (st (bump w1)) with (st w1). by rewrite S1. }
  intros w2 (S2 & _). unfold vw in S2. change (abs (w_db w1)) with (st w1) in S2. rewrite S1 in S2.
  change (abs (w_db w2)) with (st w2) in S2. simpl in S2.
  apply wp_if; intros _; [apply wp_throw, Hlost; by rewrite S2|]. by apply wp_ret, Hok.
Qed.

(** The transaction that runs alone: the member leaves, or the last one closes the
    conversation; a failure after the messages are deleted does not bring them back. *)
Lemma wp_Delete id u (Q : res unit -> World DB -> Prop) w :
  (forall r w', st w' = st w \/ chat_step (st w) (st w') -> Q r w') -> wp (DeleteConversationForUser id u) Q w.
Proof.
  intros HQ. assert (Hsame : forall r w1 w', messages (st w1) = messages (st w) -> Q r (with_db (rollback (w_db w) (w_db w1)) w')).
  { intros r w1 w' He. apply HQ. left. by apply rolled_back. }
  unfold DeleteConversationForUser, DeleteConversationForUser_at. apply wp_bind, wp_get_db. cbv beta iota.
  apply wp_bind, wp_chat_gormDB. intros [[]|e]; cbv beta iota; [|by apply HQ; left].
  apply wp_Transaction, wp_bind, wp_map_err. apply wp_reads; [apply reads_take_in|].
  intros r1 w1 H1 _. assert (S1 : st w1 = st w) by (unfold st; by rewrite H1).
  destruct r1 as [c|e]; cbv beta iota; [|apply Hsame; by rewrite S1].
  apply wp_bind, wp_map_err. apply wp_reads; [apply reads_take_in|]. intros r2 w2 H2 _.
  assert (S2 : st w2 = st w) by (unfold st; by rewrite H2, H1).
  destruct r2 as [m|e]; cbv beta iota; [|apply Hsame; by rewrite S2].
  apply wp_bind, wp_map_err, wp_delete; cbv beta iota; [intros _; apply Hsame; change (st (bump w2)) with (st w2); by rewrite S2|].
  intros w3 (S3 & _). unfold vw in S3. change (abs (w_db w2)) with (st w2) in S3. rewrite S2 in S3.
  change (st w3 = put (conversations (st w)) (matching (fun m => negb (is_member id u m)) (members (st w))) (messages (st w)) (st w)) in S3.
  assert (H3 : messages (st w3) = messages (st w)) by (by rewrite S3).
  apply wp_if; intros _; [by apply wp_throw, Hsame|].
  apply wp_bind, wp_map_err, wp_count_in; cbv beta iota; [intros _; by apply Hsame|].
  change (aget (abs (w_db w))) with (members (st w)). apply wp_if; intros Hn; bools.
  { apply wp_ret. split; [by apply Hsame|]. apply HQ. right. change (chat_step (st w) (st w3)). rewrite S3. apply c_leave. by apply amount_some. }
  assert (Hz : amount (is_peer id u) (members (st w)) = 0%Z) by (pose proof (amount_nonneg (is_peer id u) (members (st w))); lia).
  assert (Hlost : forall r w' w5, messages (st w5) = matching (fun d => negb (message_in id d)) (messages (st w)) ->
    Q r (with_db (rollback (w_db w) (w_db w5)) w')).
  { intros r w' w5 He. apply HQ. right. rewrite st_rollback, He. exact (c_forget (st w) id). }
  change (st w3) with (st (bump w3)) in S3, H3.
  apply wp_close; [intros e w4 S4; apply Hsame; by rewrite S4|intros e w4 S4; apply Hlost; by rewrite S4, H3|].
  intros w4 S4. rewrite S3 in S4. split; [apply Hlost; by rewrite S4|]. apply HQ. right. change (chat_step (st w) (st w4)).
  pose proof (c_close (st w) id) as Hc. rewrite <- (matching_peers _ _ _ Hz) in Hc. rewrite S4. exact Hc.
Qed.

Lemma wp_InsertMessage m (Q : res Message -> World DB -> Prop) w :
  (forall e w', st w' = st w -> Q (Err e) w') ->
  (forall k w', messages (st w) !! k = None ->
     st w' = put (conversations (st w)) (members (st w)) (<[k := stored k m]> (messages (st w))) (st w) ->
     Q (Ok {| m with msg_ID := k |}) w') ->
  wp (InsertMessage m) Q w.
Proof.
  intros Herr Hok. unfold InsertMessage. apply wp_bind, wp_chat_coll. intros [[]|e]; cbv beta iota; [|by apply Herr].
  apply wp_bind, wp_NewObjectID; [apply new_oid_valid|]. cbv beta iota. apply wp_bind, wp_map_err, wp_InsertOne; cbv beta iota.
  - apply _.
  - intros _. by apply Herr.
  - intros _. by apply Herr.
  - intros w' (S1 & _) Hnone. by apply wp_ret, Hok.
Qed.
End refine.
End ChatRefine.
