(* ===== verification/ChatProps.v ===== *)
(** * Chat: every request keeps the rooms, and what follows

    The requests of the service and the histories they make, whatever fails in
    between; who reads a message; what an accepted message changes.  [ChatDemo] is a
    run, and the last section replays behaviours worth knowing. *)
From S2P Require Import Prelude GoString GoTime GoMonad Sql Safe Mongo ChatModel ChatService ChatSpec.

Module ChatProps.
Import Safe.
Import Chat ChatRepo ChatService ChatSpec ChatRefine.

(** ** Requests *)
Inductive request :=
| RConversations (u : Z)
| REnter (u : Z) (conversationID lastMessageID : string)
| RUnreadCount (u : Z) (conversationID : string)
| RQuery (u : Z) (targetUserID : string)
| RPeer (conversationID : string) (u : Z)
| RDelete (u : Z) (conversationID : string)
| ROffline (u lastMessageID : Z)
| RHistory (u : Z) (conversationID : string) (oldest : option Z) (page size : Z)
| RHasUnread (u : Z)
| RReport (u : Z) (messageID : string)
| RSend (u : Z) (payload : option body).

Section requests.
Context {E : Env} {O : ObjectIDs} {D : SqlEngine} {G : MongoServer} {F : GoFmt}.
Notation DB := (DB D G).
Implicit Types (w : World DB).

Definition serve (s : Service) (q : request) w : World DB :=
  match q with
  | RConversations u => (ListConversations u w).2
  | REnter u c l => (EnterConversation u c l w).2
  | RUnreadCount u c => (GetUnreadCount u c w).2
  | RQuery u t => (QueryConversation u t w).2
  | RPeer c u => (GetPeerUserID c u w).2
  | RDelete u c => (DeleteConversation u c w).2
  | ROffline u l => (GetOfflineMessages u l w).2
  | RHistory u c o p n => (GetHistoryMessages s u c o p n w).2
  | RHasUnread u => (HasUnreadMessages u w).2
  | RReport u id => (ReportMessage u id w).2
  | RSend u p => (HandleWSMessage s u p w).2
  end.
Inductive history (s : Service) w0 : World DB -> Prop :=
| history_start : history s w0 w0
| history_step w q : history s w0 w -> history s w0 (serve s q w).

(** The collaborators do not write the store. *)
Definition honest (s : @Service D G) : Prop := forall f u r c, capabilityChecker s = Some f -> quiet (f u r c).

(** ** Reads *)
Lemma reads_chat_gormDB : reads (gormDB : M DB unit).
Proof. apply reads_bind; [done|]. intros s. by destruct (db_nil s). Qed.
Lemma reads_chat_coll : reads (mongoCollection : M DB unit).
Proof. apply reads_bind; [done|]. intros s. by destruct (mongo_nil s). Qed.
Lemma reads_of_res {A} (r : res A) : reads (of_res r : M DB A).
Proof. by destruct r. Qed.
Lemma reads_Find p : reads (Find Message p : M DB _).
Proof. apply (reads_find (D := mongo_engine)). Qed.
Lemma reads_CountDocuments p : reads (CountDocuments Message p : M DB _).
Proof. apply (reads_count (D := mongo_engine)). Qed.
#[local] Hint Resolve reads_chat_gormDB reads_chat_coll reads_of_res reads_Find reads_CountDocuments : store_reads.

Ltac readable :=
  cbv beta zeta;
  match goal with
  | |- reads (bind _ _) => apply reads_bind; [readable|intros ?; readable]
  | |- reads (attempt _) => apply reads_attempt; readable
  | |- reads (map_err _ _) => apply reads_map_err; readable
  | |- reads (internal _ _) => apply reads_map_err; readable
  | |- reads (if ?b then _ else _) => destruct b; readable
  | |- reads (match ?x with _ => _ end) => destruct x; readable
  | |- _ => try solve [eauto with store_reads]
  end.

Lemma reads_member_or_nil what p : reads (member_or_nil what p : M DB _).
Proof. unfold member_or_nil. readable. Qed.
Lemma reads_FindMember c u : reads (FindConversationMember c u : M DB _).
Proof. apply reads_member_or_nil. Qed.
Lemma reads_FindPeer c u : reads (FindPeerConversationMember c u : M DB _).
Proof. apply reads_member_or_nil. Qed.
Lemma reads_ConversationIDs u : reads (FindConversationIDsByUserID u : M DB _).
Proof. unfold FindConversationIDsByUserID. readable. Qed.
Lemma reads_MessageByID k : reads (FindMessageByID k : M DB _).
Proof. unfold FindMessageByID, doc_or_nil, FindOne. readable. Qed.
Lemma reads_MessagesAfter l k : reads (FindMessagesAfter l k : M DB _).
Proof. unfold FindMessagesAfter. readable. Qed.
Lemma reads_MessagesBefore c o n : reads (FindConversationMessagesBefore c o n : M DB _).
Proof. unfold FindConversationMessagesBefore, FindPage. readable. Qed.
#[local] Hint Resolve reads_FindMember reads_FindPeer reads_ConversationIDs reads_MessageByID reads_MessagesAfter
  reads_MessagesBefore : store_reads.

Lemma reads_ListConversations u : reads (ListConversations u : M DB _).
Proof. unfold ListConversations, FindConversationsByIDs. readable. Qed.
Lemma reads_GetUnreadCount u c : reads (GetUnreadCount u c : M DB _).
Proof. unfold GetUnreadCount, FindConversationUnreadCounts. readable. Qed.
Lemma reads_QueryConversation u c : reads (QueryConversation u c : M DB _).
Proof. unfold QueryConversation. readable. Qed.
Lemma reads_GetPeerUserID c u : reads (GetPeerUserID c u : M DB _).
Proof. unfold GetPeerUserID. readable. Qed.
Lemma reads_GetOffline u l : reads (GetOfflineMessages u l : M DB _).
Proof. unfold GetOfflineMessages. readable. Qed.
Lemma reads_GetHistory s u c o p n : reads (GetHistoryMessages s u c o p n : M DB _).
Proof. unfold GetHistoryMessages. destruct (normalizePage _ _ _). readable. Qed.
Lemma reads_HasUnread u : reads (HasUnreadMessages u : M DB _).
Proof. unfold HasUnreadMessages, SumUnreadCount. readable. Qed.
Lemma reads_ReportMessage u m : reads (ReportMessage u m : M DB _).
Proof. unfold ReportMessage. readable. Qed.

(** ** Writes *)
Lemma chat_goes_step s0 s s' : goes s0 s -> chat_step s s' -> goes s0 s'.
Proof. intros Hg Hs. eapply goes_rtc; [done|]. by apply rtc_once. Qed.

(** A member that is found is there. *)
Lemma wp_FindMember c u (Q : res (option ConversationMember) -> World DB -> Prop) w :
  (forall w' m, w_db w' = w_db w -> members (st w) !! member_key c u = Some m -> owner m = (c, u) -> Q (Ok (Some m)) w') ->
  (forall w', w_db w' = w_db w -> (forall m, members (st w) !! member_key c u = Some m -> owner m <> (c, u)) -> Q (Ok None) w') ->
  (forall e w', w_db w' = w_db w -> Q (Err e) w') ->
  wp (FindConversationMember c u) Q w.
Proof.
  intros Hsome Hnone Herr. unfold FindConversationMember, member_or_nil.
  apply wp_bind, wp_chat_gormDB. intros [[]|e]; cbv beta iota; [|by apply Herr].
  apply wp_bind, wp_attempt, wp_take; cbv beta iota.
  - intros _. apply wp_throw. by apply Herr.
  - intros Hno. apply wp_ret, Hnone; [done|]. intros m Hm Ho. specialize (Hno _ _ Hm). apply is_member_iff in Ho. congruence.
  - intros m Hm Ho%is_member_iff. apply wp_ret, Hsome; [done| |done]. change (vw ConversationMember w) with (members (st w)) in Hm.
    unfold owner in Ho. unfold ent_id, Member_entity in Hm. by simplify_eq.
Qed.

Lemma safe_EnterConversation u c l : safe (EnterConversation u c l : M DB unit).
Proof.
  intros s0 w Hg. unfold EnterConversation. apply wp_if; intros _; [done|].
  apply wp_bind, wp_map_err, wp_FindMember; cbv beta iota; [|intros; by eapply goes_db..].
  intros w1 m Hw1 _ _. apply (goes_db s0 w w1 Hw1) in Hg. clear Hw1. do 2 (apply wp_if; intros _; [done|]).
  apply wp_bind, wp_of_res. destruct (parsePositiveInt64 l) as [k|e]; [|done]. apply wp_bind, wp_map_err.
  unfold UpdateConversationMemberReadState. apply wp_bind, wp_chat_gormDB. intros [[]|e]; cbv beta iota; [|done].
  apply wp_bind, wp_map_err, wp_update_members; cbv beta iota; [done|by intros e w2 ->|].
  intros n w2 Hs. apply wp_ret. cbv beta iota.
  assert (goes s0 (st w2)) by (eapply chat_goes_step; [exact Hg|]; rewrite Hs; exact (c_read (st w1) c (userIDString u) k)).
  by destruct (0 <? n)%Z.
Qed.

Lemma safe_DeleteConversation u c : safe (DeleteConversation u c : M DB unit).
Proof.
  intros s0 w Hg. unfold DeleteConversation. do 2 (apply wp_if; intros _; [done|]).
  apply wp_map_err, wp_Delete. intros r w' [Hs|Hs]; destruct r; rewrite ?Hs; eauto using chat_goes_step.
Qed.

Lemma safe_handleChatMessage u b : safe (handleChatMessage u b : M DB Message).
Proof.
  intros s0 w Hg. unfold handleChatMessage. cbv zeta. do 2 (apply wp_if; intros _; [done|]).
  apply wp_bind, wp_map_err, wp_FindMember; cbv beta iota; [|intros; by eapply goes_db..].
  intros w1 ms Hw1 Hs _. pose proof (goes_db s0 w w1 Hw1 Hg) as G1.
  apply wp_bind, wp_map_err, wp_FindMember; cbv beta iota; [|intros; by eapply goes_db..].
  intros w2 mr Hw2 Hr _. pose proof (goes_db s0 w1 w2 Hw2 G1) as G2.
  apply wp_bind. eapply wp_quiet; [exact G2|by destruct (GoTime.IsZero _)|]. intros [t|e] w3 Hw3 G3; cbv beta iota; [|done].
  apply wp_bind, wp_Generate. cbv beta iota. apply wp_bind, wp_map_err, wp_InsertMessage; cbv beta iota; [by intros e w4 ->|].
  intros k w4 Hnone Hs4. assert (Hst : st (bump w3) = st w) by (unfold st; simpl; by rewrite Hw3, Hw2, Hw1).
  rewrite Hst in Hs4, Hnone. assert (G4 : goes s0 (st w4)).
  { eapply chat_goes_step; [exact Hg|]. rewrite Hs4. eapply (c_say (st w)); [simpl; by exists ms| |exact Hnone].
    simpl. exists mr. assert (He : st w1 = st w) by (unfold st; by rewrite Hw1). by rewrite <- He. }
  apply wp_bind, wp_map_err, wp_Update; cbv beta iota; [by intros e w5 ->|].
  intros t' w5 Hs5. apply wp_ret. eapply chat_goes_step; [exact G4|]. rewrite Hs5. apply (c_sent (st w4)).
Qed.

Lemma safe_handleInitMessage u b : safe (handleInitMessage u b : M DB Message).
Proof.
  intros s0 w Hg. unfold handleInitMessage. apply wp_bind. eapply wp_quiet; [exact Hg| |].
  { unfold resolveInitConversationID. cbv zeta. by destruct (negb _). }
  intros [id|e] w1 Hw1 G1; cbv beta iota zeta; [|done]. apply wp_if; intros _; [done|].
  apply wp_bind, wp_now. cbv beta iota. apply wp_bind, wp_Generate. cbv beta iota. set (w2 := bump (bump w1)).
  change (st w1) with (st w2) in G1. set (b' := stringField b ["receiverId"; "receiver_id"]).
  apply wp_bind, wp_map_err, (wp_Create id u b'); cbv beta iota; [done|done|done|by intros e w3 ->|].
  intros w3 Hnone Hab Hs3. assert (G3 : goes s0 (st w3)).
  { eapply chat_goes_step; [exact G1|]. rewrite Hs3. by eapply (c_open (st w2) id u b'). }
  assert (Hno : forall k d, messages (st w2) !! k = Some d -> msg_ConversationID d <> id).
  { intros k d Hk He. pose proof (room_message _ (proj2 G1) _ _ Hk) as Hc. rewrite He, Hnone in Hc. by destruct Hc. }
  apply wp_bind, wp_attempt, wp_InsertMessage; cbv beta iota.
  - intros e w4 Hs4. rewrite <- Hs4 in G3. apply wp_bind, wp_attempt, wp_Cascade.
    + intros k d. rewrite Hs4, Hs3. apply Hno.
    + intros r w5 Hs5. change (goes s0 (st w5)). by rewrite Hs5.
    + intros r w5 Hs5. change (goes s0 (st w5)). by eapply chat_goes_step.
  - intros k w4 Hk Hs4. apply wp_ret. eapply chat_goes_step; [exact G3|]. rewrite Hs4.
    assert (Hm : members (st w3) = <[member_key id b' := mkMember id b' None 1 (env_now (w_tick w1))]>
      (<[member_key id u := mkMember id u (Some (env_id (S (w_tick w1)))) 0 (env_now (w_tick w1))]> (members (st w2)))) by (by rewrite Hs3).
    apply (c_say (st w3)); [change (is_Some (members (st w3) !! member_key id u))|
      change (is_Some (members (st w3) !! member_key id b'))|exact Hk]; rewrite Hm.
    + apply lookup_insert_is_Some'. right. by rewrite lookup_insert_eq.
    + by rewrite lookup_insert_eq.
Qed.

Lemma safe_HandleWSMessage s u p : honest s -> safe (HandleWSMessage s u p).
Proof.
  intros Hh. unfold HandleWSMessage. apply safe_bind.
  { apply safe_quiet. destruct (capabilityChecker s) as [f|] eqn:Ef; [by eapply Hh|done]. }
  intros []. destruct p as [b|]; [|apply safe_quiet, quiet_throw]. destruct (is_INIT b); [apply safe_handleInitMessage|apply safe_handleChatMessage].
Qed.

Lemma goes_serve s q s0 w : honest s -> goes s0 (st w) -> goes s0 (st (serve s q w)).
Proof.
  intros Hh Hg. assert (Hr : forall A (m : M DB A), reads m -> goes s0 (st (m w).2)).
  { intros A m Hm. eapply goes_db; [apply Hm|done]. }
  destruct q; simpl; try (apply Hr; solve [eauto using reads_ListConversations, reads_GetUnreadCount, reads_QueryConversation,
    reads_GetPeerUserID, reads_GetOffline, reads_GetHistory, reads_HasUnread, reads_ReportMessage]).
  - exact (safe_EnterConversation u _ _ s0 w Hg).
  - exact (safe_DeleteConversation u _ s0 w Hg).
  - exact (safe_HandleWSMessage s u _ Hh s0 w Hg).
Qed.

Definition empty_rooms (s : State) : Prop := conversations s = ∅ /\ members s = ∅ /\ messages s = ∅.
Lemma rooms_empty s : empty_rooms s -> rooms s.
Proof.
  intros (Hc & Hm & Hd). split; intros k x; rewrite ?Hc, ?Hm, ?Hd, lookup_empty; done.
Qed.
Lemma goes_history s w0 w : honest s -> empty_rooms (st w0) -> history s w0 w -> goes (st w0) (st w).
Proof.
  intros Hh He. induction 1 as [|w q _ IH]; [apply goes_refl; by apply rooms_empty|by apply goes_serve].
Qed.

(** ** Who reads what *)
(** A message of a conversation whose member [u] is. *)
Definition may_see w (u : Z) (d : Message) : Prop :=
  member_at (st w) (msg_ConversationID d) (userIDString u) /\ exists k, messages (st w) !! k = Some d.

Lemma wp_ConversationIDs u (Q : res (list string) -> World DB -> Prop) w :
  (forall w' l, w_db w' = w_db w -> (forall id, id ∈ l -> member_at (st w) id u) -> Q (Ok l) w') ->
  (forall e w', w_db w' = w_db w -> Q (Err e) w') ->
  wp (FindConversationIDsByUserID u) Q w.
Proof.
  intros Hok Herr. unfold FindConversationIDsByUserID. apply wp_bind, wp_chat_gormDB.
  intros [[]|e]; cbv beta iota; [|by apply Herr].
  apply wp_bind, wp_map_err, wp_find; cbv beta iota; [intros _; by apply Herr|]. intros l Hl. apply wp_ret, Hok; [done|].
  intros id (m & -> & Hm)%list_elem_of_fmap. rewrite Hl in Hm. apply list_elem_of_fmap in Hm as ([k m'] & -> & Hm).
  apply elem_of_map_to_list, lookup_matching in Hm as [Hk Hu%String.eqb_eq]. simpl in *. subst u.
  pose proof (vw_key ConversationMember w _ _ Hk) as He. unfold ent_id, Member_entity in He. exists m'. by rewrite He.
Qed.
(** The documents a query returns. *)
Lemma wp_FindMessages p (Q : res (list Message) -> World DB -> Prop) w :
  (forall w' l, w_db w' = w_db w -> (forall d, d ∈ l -> p d = true /\ exists k, messages (st w) !! k = Some d) -> Q (Ok l) w') ->
  (forall e w', w_db w' = w_db w -> Q (Err e) w') ->
  wp (Find Message p) Q w.
Proof.
  intros Hok Herr. apply wp_Find; [intros _; by apply Herr|]. intros l Hl. apply Hok; [done|]. intros d Hd. rewrite Hl in Hd.
  apply list_elem_of_fmap in Hd as ([k d'] & -> & Hd). apply elem_of_map_to_list, lookup_matching in Hd as [Hk Hp]. eauto.
Qed.
Lemma elem_of_rev' {A} (x : A) l : x ∈ rev l -> x ∈ l.
Proof. rewrite !list_elem_of_In. apply in_rev. Qed.

Lemma offline_seen u last w l d : (GetOfflineMessages u last w).1 = Ok l -> d ∈ l -> may_see w u d.
Proof.
  intros Hr. enough (Hwp : wp (GetOfflineMessages u last) (fun r _ => forall l, r = Ok l -> forall d, d ∈ l -> may_see w u d) w)
    by (by apply Hwp). clear. unfold GetOfflineMessages. apply wp_if; intros _; [done|].
  apply wp_bind, wp_map_err, wp_ConversationIDs; cbv beta iota; [|done]. intros w1 ids Hw1 Hids.
  apply wp_if; intros _; [intros l [= <-] d Hd; by apply not_elem_of_nil in Hd|].
  apply wp_map_err. unfold FindMessagesAfter. apply wp_if; intros _; [intros l [= <-] d Hd; by apply not_elem_of_nil in Hd|].
  apply wp_bind, wp_chat_coll. intros [[]|e]; cbv beta iota; [|done].
  apply wp_bind, wp_map_err, wp_FindMessages; cbv beta iota; [|done]. intros w2 l Hw2 Hl. apply wp_ret.
  intros l' [= <-] d Hd. rewrite order_by_perm in Hd. apply Hl in Hd as [[Hc%bool_decide_eq_true _]%andb_prop Hk].
  split; [by apply Hids|]. unfold st in *. by rewrite <- Hw1.
Qed.
Lemma history_seen s u c o p n w r d : (GetHistoryMessages s u c o p n w).1 = Ok r -> d ∈ pg_Data r -> may_see w u d.
Proof.
  intros Hr. enough (Hwp : wp (GetHistoryMessages s u c o p n)
    (fun r _ => forall r', r = Ok r' -> forall d, d ∈ pg_Data r' -> may_see w u d) w) by (by apply Hwp).
  clear. unfold GetHistoryMessages. do 2 (apply wp_if; intros _; [done|]). destruct (normalizePage _ _ _) as [p' n'].
  cbv zeta. apply wp_bind, wp_map_err, wp_FindMember; cbv beta iota; [|done..]. intros w1 m Hw1 Hm _.
  apply wp_bind, wp_map_err. unfold FindConversationMessagesBefore. cbv zeta.
  apply wp_bind, wp_chat_coll. intros [[]|e]; cbv beta iota; [|done].
  apply wp_bind, wp_map_err, wp_CountDocuments; cbv beta iota; [done|].
  apply wp_bind, wp_map_err. unfold FindPage. simpl. apply wp_bind, wp_FindMessages; cbv beta iota; [|done].
  intros w2 l Hw2 Hl. apply wp_ret. cbv beta iota. do 2 apply wp_ret. intros r' [= <-] d Hd. simpl in Hd.
  apply elem_of_rev', elem_of_page in Hd. rewrite order_by_perm in Hd. apply Hl in Hd as [[Hc%message_in_iff _]%andb_prop [k Hk]]. split.
  - rewrite Hc. by exists m.
  - exists k. unfold st in *. simpl in Hk. by rewrite <- Hw1.
Qed.
Lemma report_seen u id w d : (ReportMessage u id w).1 = Ok (Some d) -> may_see w u d.
Proof.
  intros Hr. enough (Hwp : wp (ReportMessage u id) (fun r _ => forall d, r = Ok (Some d) -> may_see w u d) w) by (by apply Hwp).
  clear. unfold ReportMessage. destruct (GoStr.ParseInt id) as [k|]; [|done]. apply wp_if; intros _; [done|].
  apply wp_bind. unfold FindMessageByID, doc_or_nil. apply wp_bind, wp_chat_coll. intros [[]|e]; cbv beta iota; [|done].
  apply wp_bind, wp_attempt, wp_FindOne; cbv beta iota; [intros _; by destruct (errors_Is _ _)|done|].
  intros d Hd _. apply wp_ret. cbv beta iota. apply wp_bind, wp_FindMember; cbv beta iota; [|done..].
  intros w1 m Hw1 Hm _. apply wp_ret. intros d' [= <-]. split; [by exists m|by exists (msg_ID d)].
Qed.

Definition shown (s : Service) w (u : Z) (d : Message) : Prop :=
  (exists last l, (GetOfflineMessages u last w).1 = Ok l /\ d ∈ l) \/
  (exists c o p n r, (GetHistoryMessages s u c o p n w).1 = Ok r /\ d ∈ pg_Data r) \/
  (exists id, (ReportMessage u id w).1 = Ok (Some d)).
Lemma shown_seen s w u d : shown s w u d -> may_see w u d.
Proof. intros [(l & ? & H & ?)|[(c & o & p & n & r & H & ?)|[id H]]]; eauto using offline_seen, history_seen, report_seen. Qed.

Lemma between_sym s id a b : between s id a b -> between s id b a.
Proof.
  unfold between, one_of. intros (Hab & Hm & Hd). split_and!; [congruence| |]; intros k x Hk Hid.
  - destruct (Hm k x Hk Hid); auto.
  - destruct (Hd k x Hk Hid). tauto.
Qed.

(** C16: Whoever is shown a message, by the offline list, the history or a report, is a
    member of its conversation, and all members and all messages of that conversation
    are of the reader and one other user, after any requests and failures. *)
Theorem only_correspondents_read s w0 w u d :
  honest s -> empty_rooms (st w0) -> history s w0 w -> shown s w u d ->
  member_at (st w) (msg_ConversationID d) (userIDString u) /\
  exists v, between (st w) (msg_ConversationID d) (userIDString u) v.
Proof.
  intros Hh He Hw Hd. destruct (goes_history _ _ _ Hh He Hw) as [_ HI]. apply shown_seen in Hd as [[m Hm] (k & Hk)].
  split; [by exists m|]. destruct (room_message _ HI _ _ Hk) as [c Hc].
  pose proof (room_key _ HI _ _ Hc) as Hid%conv_key_inj. destruct (room_pair _ HI _ _ Hc) as (a & b & Hb). rewrite <- Hid in Hb.
  destruct (room_member _ HI _ _ Hm) as [[Hmc Hmu]%member_key_inj _]. pose proof Hb as (_ & Hmem & _).
  destruct (Hmem _ _ Hm (eq_sym Hmc)) as [Hu|Hu]; rewrite <- Hmu in Hu; rewrite Hu; [by exists b|exists a; by apply between_sym].
Qed.

(** C17: A message that is accepted in a conversation has two members at its ends; it is
    stored under its sender, receiver and content, the receiver has one more unread
    message, the sender has read up to it, the conversation shows it as its last, and
    nothing else changes. *)
Theorem message_delivered s u b w m w' :
  honest s -> is_INIT b = false -> HandleWSMessage s u (Some b) w = (Ok m, w') ->
  let from := userIDString u in
  let to := stringField b ["receiverId"; "receiver_id"] in
  let c := stringField b ["conversationId"; "conversation_id"] in
  member_at (st w) c from /\ member_at (st w) c to /\
  msg_SenderID m = from /\ msg_ReceiverID m = to /\ msg_ConversationID m = c /\ msg_Content m = stringField b ["content"] /\
  messages (st w) !! msg_ID m = None /\
  messages (st w') = <[msg_ID m := stored (msg_ID m) m]> (messages (st w)) /\
  members (st w') = upd_view (is_member c to) one_more (upd_view (is_member c from) (sent_last (msg_MessageID m)) (members (st w))) /\
  exists t, conversations (st w') = upd_view (is_conversation c) (last_message (msg_Content m) from (msg_SentAt m) t) (conversations (st w)).
Proof.
  intros Hh Hi. revert m w'.
  match goal with |- forall m w', _ -> @?G m w' =>
    enough (Hwp : wp (HandleWSMessage s u (Some b)) (fun r w' => forall m, r = Ok m -> G m w') w) end.
  { intros m w' Hrun. unfold wp in Hwp. rewrite Hrun in Hwp. by apply Hwp. }
  cbv zeta. set (from := userIDString u). set (to := stringField b ["receiverId"; "receiver_id"]).
  set (c := stringField b ["conversationId"; "conversation_id"]).
  unfold HandleWSMessage. apply wp_bind.
  apply wp_quiet_db. { destruct (capabilityChecker s) as [f|] eqn:Ef; [by eapply Hh|done]. }
  intros [[]|e] w1 Hw1; [|done]. rewrite Hi. unfold handleChatMessage. cbv zeta. do 2 (apply wp_if; intros _; [done|]).
  fold from to c. apply wp_bind, wp_map_err, wp_FindMember; cbv beta iota; [|done..]. intros w2 ms Hw2 Hs _.
  apply wp_bind, wp_map_err, wp_FindMember; cbv beta iota; [|done..]. intros w3 mr Hw3 Hr _.
  apply wp_bind, wp_quiet_db; [by destruct (GoTime.IsZero _)|]. intros [t|e] w4 Hw4; cbv beta iota; [|done].
  apply wp_bind, wp_Generate. cbv beta iota. apply wp_bind, wp_map_err, wp_InsertMessage; cbv beta iota; [done|].
  intros k w5 Hnone Hs5. apply wp_bind, wp_map_err, wp_Update; cbv beta iota; [done|]. intros t' w6 Hs6. apply wp_ret.
  assert (Hst : st (bump w4) = st w) by (unfold st; simpl; by rewrite Hw4, Hw3, Hw2, Hw1).
  assert (H1 : st w1 = st w) by (unfold st; by rewrite Hw1). assert (H2 : st w2 = st w) by (unfold st; by rewrite Hw2, Hw1).
  rewrite Hst in Hs5, Hnone. rewrite H1 in Hs. rewrite H2 in Hr. rewrite Hs5 in Hs6.
  intros m [= <-]. cbv beta zeta. rewrite Hs6. split_and!; [by exists ms|by exists mr|done..|by exists t'].
Qed.
End requests.
End ChatProps.

(** ** A concrete run *)
Module ChatDemo.
Import Safe Chat ChatRepo ChatService ChatSpec ChatProps.

(** The clock advances one second per step; no statement fails. *)
#[export] Instance chat_env : Env := {
  env_now t := (1700000000 * GoTime.Second + Z.of_nat t * GoTime.Second)%Z;
  env_id t := (1000 + Z.of_nat t)%Z;
  env_fault _ := false;
}.
#[export, refine] Instance chat_oids : ObjectIDs := {| new_oid n := ((1 + Z.of_nat n) mod 2 ^ 96)%Z |}.
Proof. intros n. unfold ObjectID.valid, ObjectID.bound. apply Z.mod_pos_bound. lia. Defined.
#[export] Instance chat_mongo : MongoServer := gmap_sql.
#[export] Instance chat_fmt : GoFmt := {| Sprint _ := ""%string |}.
Notation ChatDB := (Chat.DB gmap_sql chat_mongo).

Definition chat_service : @Service gmap_sql chat_mongo := mkService (Some 15%Z) None.
Lemma chat_honest : honest chat_service.
Proof. intros f u r c [=]. Qed.
Definition chat_start : World ChatDB := mkWorld (mkDB false false (gempty _) (gempty _) (gempty _)) 0 [].
Definition run (qs : list request) (w : World ChatDB) : World ChatDB := foldl (fun w q => serve chat_service q w) w qs.
Lemma chat_history_run w0 qs w : history chat_service w0 w -> history chat_service w0 (run qs w).
Proof. revert w. induction qs as [|q qs IH]; intros w Hw; [done|]. simpl. apply IH. by apply history_step. Qed.

(** User 7 opens a room with user 8, who answers; the receiver is given as a number. *)
Definition hello : body := [("handleType", JStr " init "); ("receiverId", JStr "8"); ("content", JStr "hello")]%string.
Definition room : string := "1000".
Definition answer : body :=
  [("conversationId", JStr room); ("receiverId", JNum (SpecFloat.S754_finite false 7 0)); ("content", JStr "hi");
   ("sentAt", JStr "2023-11-14 22:13:20.5")]%string.
Definition opened : World ChatDB := run [RSend 7 (Some hello)] chat_start.
Definition answered : World ChatDB := run [RSend 7 (Some hello); RSend 8 (Some answer)] chat_start.
Definition accepted : Message :=
  match (HandleWSMessage chat_service 8 (Some answer) opened).1 with Ok m => m | Err _ => mkMessage 0 0 "" "" "" "" None 0 None "" end.

Lemma message_delivered_witness :
  accepted = mkMessage 12 1010 room "7" "8" "hi" None (1700000000 * GoTime.Second + 500000000) None "" /\
  exists t, conversations (st answered) =
    upd_view (is_conversation room) (last_message "hi" "8" (1700000000 * GoTime.Second + 500000000) t) (conversations (st opened)).
Proof.
  assert (Hrun : HandleWSMessage chat_service 8 (Some answer) opened = (Ok accepted, answered)) by (vm_compute; reflexivity).
  pose proof (message_delivered chat_service 8 answer opened accepted answered chat_honest eq_refl Hrun) as H.
  assert (Ha : accepted = mkMessage 12 1010 room "7" "8" "hi" None (1700000000 * GoTime.Second + 500000000) None "") by (vm_compute; reflexivity).
  split; [exact Ha|]. cbv zeta in H. rewrite Ha in H. exact (proj2 (proj2 (proj2 (proj2 (proj2 (proj2 (proj2 (proj2 (proj2 H))))))))).
Defined.

Lemma only_correspondents_read_witness :
  exists d, shown chat_service answered 7 d /\ msg_Content d = "hi" /\
    member_at (st answered) (msg_ConversationID d) "7" /\
    exists v, between (st answered) (msg_ConversationID d) "7" v.
Proof.
  exists (stored 12 accepted). assert (Hd : shown chat_service answered 7 (stored 12 accepted)).
  { left. exists 1003%Z, [stored 12 accepted]. split; [vm_compute; reflexivity|left]. }
  split; [exact Hd|]. split; [vm_compute; reflexivity|].
  apply (only_correspondents_read chat_service chat_start answered 7 (stored 12 accepted) chat_honest).
  - vm_compute. auto.
  - apply (chat_history_run chat_start). apply history_start.
  - exact Hd.
Defined.
End ChatDemo.

(** ** Behaviours worth knowing *)
Module ChatFindings.
Import Safe Chat ChatRepo ChatService ChatSpec ChatProps ChatDemo.

(** The statement of step [n] fails. *)
Definition failing (n : nat) : Env := {| env_now := env_now; env_id := env_id; env_fault k := (k =? n)%nat |}.

(** A message is stored before the rows are updated: when the update fails, the sender
    is told so, but the receiver reads the message, without being told it is new. *)
Theorem refused_message_is_read :
  let '(r, w) := @HandleWSMessage (failing 13) _ _ chat_mongo _ chat_service 8 (Some answer) opened in
  is_ok r = false /\ (HasUnreadMessages 7 w).1 = Ok false /\
  match (GetOfflineMessages 7 1003 w).1 with Ok l => msg_Content <$> l = ["hi"%string] | Err _ => False end.
Proof. vm_compute. auto. Qed.

(** The last member leaves and the commit fails: the rows are back, the messages are
    not, since MongoDB takes no part in the transaction. *)
Definition alone : World ChatDB := run [RDelete 7 room] answered.
Theorem failed_leave_loses_messages :
  let '(r, w) := @DeleteConversation (failing 29) _ chat_mongo 8 room alone in
  is_ok r = false /\ member_at (st w) room "8" /\ (GetHistoryMessages chat_service 8 room None 1 15 w).1 = Ok (mkPageResult [] 1 0 15) /\
  amount (message_in room) (messages (st alone)) = 2%Z.
Proof. vm_compute. eauto. Qed.

(** Two members leave at the same time: each counts the other in its read view, so
    neither closes the conversation, and nobody can any more. *)
Theorem leaving_together_orphans :
  let '(r7, w7) := DeleteConversationForUser_at (w_db answered) room "7" answered in
  let '(r8, w8) := DeleteConversationForUser_at (w_db answered) room "8" w7 in
  r7 = Ok tt /\ r8 = Ok tt /\ amount (of_conversation room) (members (st w8)) = 0%Z /\
  amount (is_conversation room) (conversations (st w8)) = 1%Z /\ amount (message_in room) (messages (st w8)) = 2%Z.
Proof. vm_compute. auto 10. Qed.
End ChatFindings.
