(* ===== verification/FileModel.v ===== *)
(** * Files: documents, object storage and repository

    [internal/file/model.go], [repository*.go] and [internal/integration/cosutil]: a
    document of MongoDB records who uploaded a file, under the MD5 of its content, and
    how often it is referenced; the content is an object of a bucket with that key.

    The object storage is reached through an SDK that is not part of the repository:
    [ObjectStore] states what its operations do to a bucket.  A request that fails may
    or may not have been carried out. *)
From S2P Require Import Prelude GoString GoTime GoMonad GoCrypto Sql Mongo.

Record Object := mkObject { ob_Data : string; ob_ContentType : string }.

Class ObjectStore := {
  bucket : Type;
  objects : bucket -> gmap string Object;
  put_object : string -> Object -> bucket -> bucket;
  delete_object : string -> bucket -> bucket;
  put_failed : string -> Object -> bucket -> bucket;
  delete_failed : string -> bucket -> bucket;
  cos_text : string;
  put_object_spec : forall k o b, objects (put_object k o b) = <[k := o]> (objects b);
  delete_object_spec : forall k b, objects (delete_object k b) = base.delete k (objects b);
  put_failed_spec : forall k o b, objects (put_failed k o b) = objects b \/ objects (put_failed k o b) = <[k := o]> (objects b);
  delete_failed_spec : forall k b, objects (delete_failed k b) = objects b \/ objects (delete_failed k b) = base.delete k (objects b);
}.

Module Files.
Open Scope Z_scope.

(** ** Documents *)
Record File := mkFile {
  f_ID : Z;
  f_MD5 : string;
  f_IsPublic : bool;
  f_UserID : string;
  f_RefCount : Z;
  f_CreatedTime : Z;
}.
#[export] Instance File_eq : EqDecision File. Proof. solve_decision. Defined.
#[export] Instance File_entity : Entity File := { ent_id := f_ID; ent_clash _ _ := false }.
#[export] Instance File_free : NoIndex File _. Proof. by split. Qed.

(** ** The store *)
Section store.
Context {G : MongoServer} {B : ObjectStore}.
(** [internal/platform/config], [COSConfig]. *)
Record COSConfig := mkCOSConfig {
  cos_BucketName : string; cos_Region : string; cos_BaseURL : string; cos_BaseCDN : string;
  cos_Compress : string; cos_CompressBucket : string; cos_CompressBaseCDN : string;
}.
Record DB := mkDB {
  mongo_nil : bool;
  c_files : @table mongo_engine File _;
  base_bucket : bucket;
  compress_bucket : bucket;
}.
End store.
Arguments DB G B : clear implicits.

Record State := mkState {
  files : gmap Z File;
  contents : gmap string Object;
  compressed : gmap string Object;
  no_mongo : bool;
}.

Section abstraction.
Context {G : MongoServer} {B : ObjectStore}.
Notation DB := (DB G B).
Definition db_state (s : DB) : State :=
  mkState (@view mongo_engine _ _ (c_files s)) (objects (base_bucket s)) (objects (compress_bucket s)) (mongo_nil s).
#[export] Instance DB_abs : Abstract DB State := db_state.
#[export] Instance coll_files : Coll DB State File _ _.
Proof.
  refine {| tget := c_files; tset t s := {| s with c_files := t |};
    aget := files; aset v s := {| s with files := v |} |}; by intros; try destruct a.
Defined.
End abstraction.
End Files.

(** ** The client of the object storage *)
Module Cosutil.
Import Files.
Open Scope Z_scope.

(** The clients that could be built, by their endpoints; each has a bucket of its own. *)
Record Client := mkClient { cl_cfg : COSConfig; baseClient : option string; compressClient : option string }.

Definition newCOSClient (url_Parse : string -> bool) (baseURL bucket region : string) : option string :=
  let endpoint := GoStr.TrimSpace baseURL in
  let endpoint :=
    if String.eqb endpoint "" && negb (String.eqb (GoStr.TrimSpace bucket) "") && negb (String.eqb (GoStr.TrimSpace region) "")
    then ("https://" ++ bucket ++ ".cos." ++ region ++ ".myqcloud.com")%string else endpoint in
  if String.eqb endpoint "" then None else if url_Parse endpoint then Some endpoint else None.
Definition NewClient (url_Parse : string -> bool) (cfg : COSConfig) : Client :=
  mkClient cfg (newCOSClient url_Parse (cos_BaseURL cfg) (cos_BucketName cfg) (cos_Region cfg))
    (newCOSClient url_Parse "" (cos_CompressBucket cfg) (cos_Region cfg)).

Definition compressObjectKey (c : Client) (objectKey : string) : string :=
  let compress := GoStr.TrimSpace (cos_Compress (cl_cfg c)) in
  if String.eqb compress "" then objectKey else (objectKey ++ "." ++ compress)%string.
Definition buildURL (base objectKey : string) : string :=
  if String.eqb base "" then objectKey
  else if GoPath.HasSuffix base "/" then (base ++ objectKey)%string else (base ++ "/" ++ objectKey)%string.

Section client.
Context {E : Env} {G : MongoServer} {B : ObjectStore}.
Notation M := (M (DB G B)).

Definition set_base (b : bucket) : M unit := let! s := get_db in put_db {| s with base_bucket := b |}.
Definition set_compress (b : bucket) : M unit := let! s := get_db in put_db {| s with compress_bucket := b |}.
(** A request of the SDK on a bucket. *)
Definition cos_request (get : DB G B -> bucket) (set : bucket -> M unit) (done failed : bucket -> bucket) : M unit :=
  let! bad := fault in
  let! s := get_db in
  if bad then set (failed (get s));; throw (EDriver cos_text) else set (done (get s)).
Definition putObject (get : DB G B -> bucket) (set : bucket -> M unit) (objectKey data contentType : string) : M unit :=
  let o := mkObject data contentType in cos_request get set (put_object objectKey o) (put_failed objectKey o).
Definition deleteObject (get : DB G B -> bucket) (set : bucket -> M unit) (objectKey : string) : M unit :=
  cos_request get set (delete_object objectKey) (delete_failed objectKey).

(** [DetectContentType] is [http.DetectContentType], for an empty content type only. *)
Definition Put (DetectContentType : string -> string) (c : Client) (objectKey data contentType : string) : M string :=
  match baseClient c with
  | None => throw (ENew "base cos client not initialized")
  | Some _ =>
    let contentType := if String.eqb contentType "" then DetectContentType data else contentType in
    map_err (EWrapf "upload object to cos") (putObject base_bucket set_base objectKey data contentType);;
    ret (buildURL (cos_BaseCDN (cl_cfg c)) objectKey)
  end.
Definition PutWithImageProcess (DetectContentType : string -> string) (c : Client)
    (objectKey data contentType process : string) : M string :=
  let! originURL := Put DetectContentType c objectKey data contentType in
  if String.eqb (GoStr.TrimSpace process) "" || bool_decide (compressClient c = None) then ret originURL
  else
    let compressKey := compressObjectKey c objectKey in
    let! r := attempt (putObject compress_bucket set_compress compressKey data contentType) in
    ret (if is_ok r then buildURL (cos_CompressBaseCDN (cl_cfg c)) compressKey else originURL).
Definition Delete (c : Client) (objectKey : string) : M unit :=
  (match baseClient c with
   | Some _ => map_err (EWrapf "delete object from base cos") (deleteObject base_bucket set_base objectKey)
   | None => ret tt
   end);;
  match compressClient c with
  | Some _ => let! _ := attempt (deleteObject compress_bucket set_compress (compressObjectKey c objectKey)) in ret tt
  | None => ret tt
  end.
End client.
End Cosutil.

(** ** The repository *)
Module FileRepo.
Import Files.
Open Scope Z_scope.

Definition normalizePage (page size : Z) : Z * Z :=
  (if page <=? 0 then 1 else page, if size <=? 0 then 15 else size).

(** Filters and updates. *)
Definition has_md5 (md5Value : string) (f : File) : bool := String.eqb (f_MD5 f) md5Value.
Definition uploaded_by (userID md5Value : string) (f : File) : bool := String.eqb (f_UserID f) userID && has_md5 md5Value f.
Definition inc_refs (delta : Z) (f : File) : option File :=
  (fun n => {| f with f_RefCount := n |}) <$> inc_int delta (f_RefCount f).
Definition set_refs (refCount : Z) (f : File) : File := {| f with f_RefCount := refCount |}.
Definition set_public (isPublic : bool) (f : File) : File := {| f with f_IsPublic := isPublic |}.
(** The fields that are written, under the key the driver draws. *)
Definition stored (id : Z) (f : File) : File := {| f with f_ID := id; f_CreatedTime := 0 |}.

Section repository.
Context {E : Env} {O : ObjectIDs} {G : MongoServer} {B : ObjectStore}.
Notation M := (M (DB G B)).

Definition fileCollection : M unit :=
  let! s := get_db in if mongo_nil s then throw (ENew "mongo db not initialized") else ret tt.

Definition FindFileByMD5 (md5Value : string) : M (option File) :=
  if String.eqb md5Value "" then ret None
  else fileCollection;; doc_or_nil ("find file by md5 " ++ md5Value) (FindOne File (has_md5 md5Value)).
Definition FindFileByUserAndMD5 (userID md5Value : string) : M (option File) :=
  if String.eqb userID "" || String.eqb md5Value "" then ret None
  else
    fileCollection;;
    doc_or_nil ("find file by user " ++ userID ++ " and md5 " ++ md5Value) (FindOne File (uploaded_by userID md5Value)).
Definition FindFilesPage (filter : File -> bool) (page size : Z) : M (list File) :=
  let '(page, size) := normalizePage page size in
  fileCollection;;
  map_err (EWrapf "find files") (FindPage File filter (order_by (fun f => - f_ID f)) (mul64 (sub64 page 1) size) size).
Definition CreateFile (file : File) : M File :=
  fileCollection;;
  let! id := NewObjectID in
  map_err (EWrapf "insert file") (InsertOne File (stored id file));;
  ret {| file with f_ID := id |}.
Definition IncrementFileRefCount (fileID delta : Z) : M unit :=
  if ObjectID.IsZero fileID || (delta =? 0) then ret tt
  else
    fileCollection;;
    let! _ := map_err (EWrapf ("increment file " ++ ObjectID.Hex fileID ++ " refCount by " ++ GoStr.FormatInt delta))
      (UpdateByID File fileID (inc_refs delta)) in
    ret tt.
Definition UpdateFileRefCount (fileID refCount : Z) : M unit :=
  if ObjectID.IsZero fileID then ret tt
  else
    fileCollection;;
    let! _ := map_err (EWrapf ("update file " ++ ObjectID.Hex fileID ++ " refCount"))
      (UpdateByID File fileID (fun f => Some (set_refs refCount f))) in
    ret tt.
Definition DeleteFile (fileID : Z) : M unit :=
  if ObjectID.IsZero fileID then ret tt
  else
    fileCollection;;
    let! _ := map_err (EWrapf ("delete file " ++ ObjectID.Hex fileID)) (DeleteOne File (byid fileID (fun _ => true))) in
    ret tt.
Definition UpdateFilesPublic (fileIDs : list Z) (isPublic : bool) : M Z :=
  if bool_decide (fileIDs = []) then ret 0
  else
    fileCollection;;
    let! r := map_err (EWrapf "update file public flag")
      (UpdateMany File (fun f => bool_decide (f_ID f ∈ fileIDs)) (set_public isPublic)) in
    ret (ModifiedCount r).
End repository.
End FileRepo.
