(* ===== verification/FileService.v ===== *)
(** * Files: the service

    [internal/file/service*.go], [errors.go] and [model_req.go], one definition per
    function: uploads of pictures and of academic documents, references, deletion, the
    lists and the URLs.  An upload is what reading its stream gives.  [FileFormats] are
    the detectors of content types (a library, and [net/http] for an empty type, which
    the service never sends) and the entry names of a zip archive. *)
From S2P Require Import Prelude GoString GoTime GoMonad GoCrypto Sql Mongo FileModel.

Class FileFormats := {
  Detect : string -> string;
  DetectContentType : string -> string;
  zip_NewReader : string -> option (list string);
}.

(** [multipart.File]: its bytes, and the error of the stream after them. *)
Record MultipartFile := mkMultipart { mf_Data : string; mf_Err : option error }.
(** [multipart.FileHeader], with the Content-Type of its part. *)
Record FileHeader := mkHeader { fh_Filename : string; fh_Size : Z; fh_ContentType : string }.

Module FileService.
Import Files FileRepo.
Open Scope Z_scope.

(** ** Errors *)
Definition errMsgInvalidParam : string := "参数错误".
Definition ErrFileNotFound := Bizerr.NotFound "文件不存在".
Definition ErrFileLimited := Bizerr.Biz "文件大小超出限制".
Definition ErrUnsupportedFileFormat := Bizerr.Param "图片格式只能是[image/png image/jpeg image/x-icon application/octet-stream]".
Definition ErrUnsupportedDocumentFormat := Bizerr.Param "不支持的文档格式".
Definition ErrFileUpdateFailed := Bizerr.Biz "更新失败".

Definition defaultMaxUploadMB : Z := 10.
Definition AcademicMaxUploadBytes : Z := mul64 (mul64 50 1024) 1024.

Record OriginalUpload := mkOriginalUpload { ou_MD5 : string; ou_OriginalName : string; ou_MIME : string; ou_Size : Z }.
Record Config := mkConfig { COS : COSConfig; MaxFileSizeMB : Z }.
Record Service := mkService { cfg : option Config; cosClient : option Cosutil.Client }.
Definition NewService (url_Parse : string -> bool) (c : option Config) : Service :=
  mkService c ((fun c => Cosutil.NewClient url_Parse (COS c)) <$> c).

(** ** Reading *)
Definition len (s : string) : Z := Z.of_nat (String.length s).
Fixpoint take_bytes (n : Z) (s : string) : string :=
  match s with
  | EmptyString => ""
  | String c s' => if n <=? 0 then "" else String c (take_bytes (n - 1) s')
  end.
Definition ReadAll (f : MultipartFile) : res string :=
  match mf_Err f with Some e => Err e | None => Ok (mf_Data f) end.
(** [io.ReadAll(io.LimitReader(f, n))] does not see an error after the first [n] bytes. *)
Definition ReadLimited (n : Z) (f : MultipartFile) : res string :=
  if n <=? len (mf_Data f) then Ok (take_bytes n (mf_Data f)) else ReadAll f.

(** [md5.Sum], in hexadecimal. *)
Definition md5_hex (data : string) : string := GoHash.EncodeToString (GoHash.md5_Sum data).

(** ** Limits, formats and URLs *)
Definition maxUploadBytes (s : Service) : Z :=
  let maxMB :=
    match cfg s with
    | Some c => if 0 <? MaxFileSizeMB c then MaxFileSizeMB c else defaultMaxUploadMB
    | None => defaultMaxUploadMB
    end in
  mul64 (mul64 maxMB 1024) 1024.

Definition normalizeContentType (header : option FileHeader) : res string :=
  let contentType := match header with Some h => GoStr.LowerText (GoStr.TrimSpace (fh_ContentType h)) | None => "" end in
  if String.eqb contentType "" || String.eqb contentType "application/octet-stream" then Ok "image/png"%string
  else if bool_decide (contentType ∈ ["image/png"; "image/jpeg"; "image/x-icon"]%string) then Ok contentType
  else Err ErrUnsupportedFileFormat.

Definition ensureSuffixSlash (v : string) : string :=
  if String.eqb v "" || GoPath.HasSuffix v "/" then v else (v ++ "/")%string.
Definition fileURL (s : Service) (md5Value : string) : string :=
  match cfg s with
  | Some c => if String.eqb (cos_BaseCDN (COS c)) "" then md5Value else (ensureSuffixSlash (cos_BaseCDN (COS c)) ++ md5Value)%string
  | None => md5Value
  end.
Definition compressObjectKey (s : Service) (md5Value : string) : string :=
  let compress :=
    match cfg s with
    | Some c => if String.eqb (GoStr.TrimSpace (cos_Compress (COS c))) "" then "webp" else GoStr.TrimSpace (cos_Compress (COS c))
    | None => "webp"
    end%string in
  (md5Value ++ "." ++ compress)%string.
Definition compressFileURL (s : Service) (md5Value : string) : string :=
  match cfg s with
  | Some c =>
    if String.eqb (cos_CompressBaseCDN (COS c)) "" then md5Value
    else (ensureSuffixSlash (cos_CompressBaseCDN (COS c)) ++ compressObjectKey s md5Value)%string
  | None => md5Value
  end.
Definition OriginalURL (s : Service) (md5Value : string) : string := fileURL s md5Value.

Definition academicExtensions : list string :=
  [".pdf"; ".doc"; ".docx"; ".ppt"; ".pptx"; ".xls"; ".xlsx"; ".txt"; ".png"; ".jpg"; ".jpeg"; ".gif"; ".webp"].

Section formats.
Context {F : FileFormats}.
Definition validOOXML (data ext : string) : bool :=
  match zip_NewReader data with
  | None => false
  | Some names =>
    let wanted : string :=
      if String.eqb ext ".docx" then "word/" else if String.eqb ext ".xlsx" then "xl/"
      else if String.eqb ext ".pptx" then "ppt/" else "" in
    existsb (String.eqb "[Content_Types].xml") names && existsb (fun name => GoStr.HasPrefix name wanted) names
  end.
Definition validAcademicDocument (data ext mimeType : string) : bool :=
  if bool_decide (ext ∈ [".docx"; ".xlsx"; ".pptx"]%string) then
    (String.eqb mimeType "application/zip" || GoStr.Contains mimeType "officedocument") && validOOXML data ext
  else if String.eqb ext ".pdf" then String.eqb mimeType "application/pdf"
  else if String.eqb ext ".doc" then String.eqb mimeType "application/msword" || String.eqb mimeType "application/octet-stream"
  else if String.eqb ext ".xls" then
    GoStr.Contains mimeType "excel" || String.eqb mimeType "application/x-ole-storage" || String.eqb mimeType "application/octet-stream"
  else if String.eqb ext ".ppt" then
    GoStr.Contains mimeType "powerpoint" || String.eqb mimeType "application/x-ole-storage" || String.eqb mimeType "application/octet-stream"
  else if String.eqb ext ".txt" then GoStr.HasPrefix mimeType "text/plain"
  else if bool_decide (ext ∈ [".png"; ".jpg"; ".jpeg"; ".gif"; ".webp"]%string) then GoStr.HasPrefix mimeType "image/"
  else false.
End formats.

(** ** The service *)
Section service.
Context {E : Env} {O : ObjectIDs} {G : MongoServer} {B : ObjectStore} {F : FileFormats}.
Notation M := (M (DB G B)).
Context (s : Service).

(** What happens to the content: kept when there is a client. *)
Definition put_content (md5Str data contentType : string) : M unit :=
  match cosClient s with
  | Some c => let! _ := internal "上传文件失败" (Cosutil.Put DetectContentType c md5Str data contentType) in ret tt
  | None => ret tt
  end.
(** A failure is only logged. *)
Definition delete_content (md5Value : string) : M unit :=
  match cosClient s with
  | Some c => let! _ := attempt (Cosutil.Delete c md5Value) in ret tt
  | None => ret tt
  end.

Definition Upload (file : option MultipartFile) (header : option FileHeader) (userID : string) : M string :=
  match file with
  | None => throw (Bizerr.Param errMsgInvalidParam)
  | Some f =>
    if String.eqb (GoStr.TrimSpace userID) "" then throw (Bizerr.Param errMsgInvalidParam)
    else
      let maxBytes := maxUploadBytes s in
      if (0 <? maxBytes) && match header with Some h => maxBytes <? fh_Size h | None => false end then throw ErrFileLimited
      else
        let! data := internal "读取上传文件失败" (of_res (ReadAll f)) in
        if (0 <? maxBytes) && (maxBytes <? len data) then throw ErrFileLimited
        else
          let! contentType := of_res (normalizeContentType header) in
          let md5Str := md5_hex data in
          let! existing := internal "查询文件失败" (FindFileByUserAndMD5 userID md5Str) in
          match existing with
          | Some e => internal "更新文件引用数失败" (IncrementFileRefCount (f_ID e) 1);; ret md5Str
          | None =>
            (match cosClient s with
             | Some c =>
               let compress := match cfg s with Some cf => cos_Compress (COS cf) | None => "" end in
               let! _ := internal "上传文件失败" (Cosutil.PutWithImageProcess DetectContentType c md5Str data contentType compress) in
               ret tt
             | None => ret tt
             end);;
            internal "保存文件记录失败" (CreateFile (mkFile 0 md5Str false userID 1 0));;
            ret md5Str
          end
  end.

Definition GetByMD5 (md5Value : string) : M (option File) :=
  if String.eqb (GoStr.TrimSpace md5Value) "" then throw (Bizerr.Param errMsgInvalidParam)
  else internal "查询文件失败" (FindFileByMD5 md5Value).

Definition Delete (md5Value userID : string) (force : bool) : M unit :=
  if String.eqb (GoStr.TrimSpace md5Value) "" || (negb force && String.eqb (GoStr.TrimSpace userID) "")
  then throw (Bizerr.Param errMsgInvalidParam)
  else
    let! current := if force then GetByMD5 md5Value else internal "查询文件失败" (FindFileByUserAndMD5 userID md5Value) in
    match current with
    | None => throw ErrFileNotFound
    | Some f =>
      let nextRef := if force then 0 else sub64 (f_RefCount f) 1 in
      if nextRef <=? 0 then
        internal "删除文件记录失败" (DeleteFile (f_ID f));; delete_content md5Value
      else internal "更新文件引用数失败" (UpdateFileRefCount (f_ID f) nextRef)
    end.

Definition ListPublic (page size : Z) : M (list File) :=
  internal "查询公开文件失败" (FindFilesPage f_IsPublic page size).
Definition ListAll (page size : Z) : M (list File) :=
  let! l := internal "查询文件列表失败" (FindFilesPage (fun _ => true) page size) in
  ret ((fun f => {| f with f_CreatedTime := ObjectID.Timestamp (f_ID f) / GoTime.Millisecond |}) <$> l).

(** The ids that parse, each once. *)
Definition id_step (acc : list Z) (id : string) : list Z :=
  match ObjectID.ObjectIDFromHex id with
  | Some oid => if bool_decide (oid ∈ acc) then acc else (acc ++ [oid])%list
  | None => acc
  end.
Definition SetPublic (ids : list string) (isPublic : bool) : M Z :=
  if bool_decide (ids = []) then throw (Bizerr.Param errMsgInvalidParam)
  else
    let objectIDs := foldl id_step [] ids in
    if bool_decide (objectIDs = []) then throw (Bizerr.Param errMsgInvalidParam)
    else
      let! modified := internal "更新文件公开状态失败" (UpdateFilesPublic objectIDs isPublic) in
      if modified <=? 0 then throw ErrFileUpdateFailed else ret modified.

Definition UploadAcademicDocument (stream : option MultipartFile) (header : option FileHeader) (userID : string)
    : M OriginalUpload :=
  match stream, header with
  | Some f, Some h =>
    if String.eqb (GoStr.TrimSpace userID) "" then throw (Bizerr.Param errMsgInvalidParam)
    else if AcademicMaxUploadBytes <? fh_Size h then throw ErrFileLimited
    else
      let ext := GoStr.LowerText (GoPath.Ext (GoStr.TrimSpace (fh_Filename h))) in
      if negb (bool_decide (ext ∈ academicExtensions)) then throw ErrUnsupportedDocumentFormat
      else
        let! data := internal "读取上传文件失败" (of_res (ReadLimited (AcademicMaxUploadBytes + 1) f)) in
        if AcademicMaxUploadBytes <? len data then throw ErrFileLimited
        else
          let mimeType := Detect data in
          if negb (validAcademicDocument data ext mimeType) then throw ErrUnsupportedDocumentFormat
          else
            let md5Value := md5_hex data in
            let! existing := internal "查询文件失败" (FindFileByMD5 md5Value) in
            (match existing with
             | Some e => internal "更新文件引用数失败" (IncrementFileRefCount (f_ID e) 1)
             | None =>
               put_content md5Value data mimeType;;
               let! _ := internal "保存文件记录失败" (CreateFile (mkFile 0 md5Value false userID 1 0)) in ret tt
             end);;
            ret (mkOriginalUpload md5Value (fh_Filename h) mimeType (len data))
  | _, _ => throw (Bizerr.Param errMsgInvalidParam)
  end.

Definition ReleaseReference (md5Value : string) : M unit :=
  let! current := GetByMD5 md5Value in
  match current with
  | None => throw ErrFileNotFound
  | Some f =>
    if 1 <? f_RefCount f then UpdateFileRefCount (f_ID f) (sub64 (f_RefCount f) 1)
    else internal "删除文件记录失败" (DeleteFile (f_ID f));; delete_content md5Value
  end.

Definition GetDownloadURL (md5Value : string) (showOrigin : bool) : M string :=
  let! f := GetByMD5 md5Value in
  match f with
  | None => throw ErrFileNotFound
  | Some _ => ret (if showOrigin then fileURL s md5Value else compressFileURL s md5Value)
  end.
End service.
End FileService.
