(* ===== verification/FileProps.v ===== *)
(** * Files: references and contents

    [FileSpec] has the steps of the store: a reference more, a new document with its
    content, a reference less, the last one, and what no step shows ([idle]).  Every
    method performs the step its result names.  [FileProps]: the references of a
    content are counted over any requests, and a content that is still referenced is
    kept, as long as one module owns the files.  [FileDemo] is a run and [FileFindings]
    replays defects, among them what happens when two modules share a file. *)
From S2P Require Import Prelude GoString GoTime GoMonad GoCrypto Sql Safe Mongo FileModel FileService.

Module FileSpec.
Import Safe.
Import Files FileRepo FileService.
Open Scope Z_scope.

(** ** Steps *)
(** An object whose key is the MD5 of its bytes. *)
Definition good (k : string) (o : Object) : Prop := md5_hex (ob_Data o) = k.
Definition put (k : string) (m m' : gmap string Object) : Prop := exists o, good k o /\ m' = <[k := o]> m.

(** References as they were; an object may be left behind. *)
Definition idle (s s' : State) : Prop :=
  (files s' = files s \/ exists p b, files s' = upd_view p (set_public b) (files s)) /\
  (contents s' = contents s \/ exists k, put k (contents s) (contents s')).

(** [went kept alone k n]: [n] references more to the content with MD5 [k].  [kept]:
    there is an object storage; [alone]: a new document is the only one of its content. *)
Inductive went (kept alone : bool) (s s' : State) : string -> Z -> Prop :=
| w_take i f : files s !! i = Some f -> f_RefCount f + 1 < 2 ^ 63 ->
    files s' = <[i := set_refs (f_RefCount f + 1) f]> (files s) -> contents s' = contents s ->
    went kept alone s s' (f_MD5 f) 1
| w_new i f : files s !! i = None -> i <> 0 -> f_ID f = i -> f_RefCount f = 1 ->
    (alone = true -> forall j g, files s !! j = Some g -> f_MD5 g <> f_MD5 f) ->
    files s' = <[i := f]> (files s) ->
    (if kept then put (f_MD5 f) (contents s) (contents s') else contents s' = contents s) ->
    went kept alone s s' (f_MD5 f) 1
| w_give i f : files s !! i = Some f -> 1 < f_RefCount f ->
    files s' = <[i := set_refs (f_RefCount f - 1) f]> (files s) -> contents s' = contents s ->
    went kept alone s s' (f_MD5 f) (-1)
| w_last i f : files s !! i = Some f -> f_RefCount f <= 1 ->
    files s' = base.delete i (files s) ->
    (contents s' = contents s \/ contents s' = base.delete (f_MD5 f) (contents s)) ->
    went kept alone s s' (f_MD5 f) (-1).

(** ** Counting *)
Definition refs (k : string) (s : State) : Z := total (fun f => if has_md5 k f then f_RefCount f else 0) (files s).
Record wf (s : State) : Prop := {
  wf_file : forall i f, files s !! i = Some f -> f_ID f = i /\ i <> 0 /\ 1 <= f_RefCount f < 2 ^ 63;
  wf_content : forall k o, contents s !! k = Some o -> good k o;
}.
Definition one_at (k j : string) (n : Z) : Z := if String.eqb k j then n else 0.

Lemma put_good k m m' : put k m m' -> (forall j o, m !! j = Some o -> good j o) -> forall j o, m' !! j = Some o -> good j o.
Proof. intros (x & Hx & ->) Hm j o. rewrite lookup_insert. case_decide; [by intros [= <-]; subst|apply Hm]. Qed.

Lemma wf_idle s s' : idle s s' -> wf s -> wf s'.
Proof.
  intros [Hf Hc] [H1 H2]. split.
  - destruct Hf as [->|(p & b & ->)]; [done|]. intros i f. rewrite lookup_upd_view. intros (g & Hg & ->)%fmap_Some.
    destruct (H1 _ _ Hg) as (? & ? & ?). by destruct (p g).
  - destruct Hc as [->|[k Hk]]; [done|]. by eapply put_good.
Qed.
Lemma refs_idle s s' k : idle s s' -> refs k s' = refs k s.
Proof.
  intros [[Hf|(p & b & Hf)] _]; unfold refs; rewrite Hf; [done|]. unfold upd_view. apply total_fmap. intros f. by destruct (p f).
Qed.

Lemma wf_went kept alone s s' k n : went kept alone s s' k n -> wf s -> wf s'.
Proof.
  intros Hw [H1 H2]. destruct Hw as [i f Hi Hr Hf Hc|i f Hi H0 Hid Hr Ha Hf Hc|i f Hi Hr Hf Hc|i f Hi Hr Hf Hc]; split.
  - intros j g. rewrite Hf, lookup_insert. case_decide; [|apply H1]. intros [= <-]. subst j. simpl.
    destruct (H1 _ _ Hi) as (? & ? & ?). split_and!; [done..|lia|done].
  - by rewrite Hc.
  - intros j g. rewrite Hf, lookup_insert. case_decide; [|apply H1]. intros [= <-]. subst j. rewrite Hr. split_and!; [done..|lia|lia].
  - destruct kept; [by eapply put_good|by rewrite Hc].
  - intros j g. rewrite Hf, lookup_insert. case_decide; [|apply H1]. intros [= <-]. subst j. simpl.
    destruct (H1 _ _ Hi) as (? & ? & ?). split_and!; [done..|lia|lia].
  - by rewrite Hc.
  - intros j g. rewrite Hf, lookup_delete_Some. intros [_ Hg]. by apply H1.
  - intros j o. destruct Hc as [->| ->]; [apply H2|]. rewrite lookup_delete_Some. intros [_ Ho]. by apply H2.
Qed.
Lemma refs_went kept alone s s' k n j : went kept alone s s' k n -> wf s -> refs j s' = refs j s + one_at k j n.
Proof.
  intros Hw [H1 _]. unfold refs, one_at.
  destruct Hw as [i f Hi Hr Hf Hc|i f Hi H0 Hid Hr Ha Hf Hc|i f Hi Hr Hf Hc|i f Hi Hr Hf Hc]; rewrite Hf.
  - rewrite (total_put _ _ _ _ _ Hi). unfold has_md5. simpl. destruct (String.eqb _ _); lia.
  - rewrite (total_new _ _ _ _ Hi). unfold has_md5. destruct (String.eqb _ _); lia.
  - rewrite (total_put _ _ _ _ _ Hi). unfold has_md5. simpl. destruct (String.eqb _ _); lia.
  - rewrite (total_delete _ _ _ _ Hi). destruct (H1 _ _ Hi) as (_ & _ & ?). unfold has_md5. destruct (String.eqb _ _); lia.
Qed.

(** ** One owner *)
Record shelved (s : State) : Prop := {
  sh_one : forall i j f g, files s !! i = Some f -> files s !! j = Some g -> f_MD5 f = f_MD5 g -> i = j;
  sh_there : forall i f, files s !! i = Some f -> is_Some (contents s !! f_MD5 f);
}.
Lemma put_there k j (m m' : gmap string Object) : put k m m' -> is_Some (m !! j) -> is_Some (m' !! j).
Proof. intros (o & _ & ->) Hj. apply lookup_insert_is_Some'. by right. Qed.

Lemma shelved_idle s s' : idle s s' -> shelved s -> shelved s'.
Proof.
  intros [Hf Hc] [H1 H2]. assert (Hb : forall i f, files s' !! i = Some f -> exists g, files s !! i = Some g /\ f_MD5 f = f_MD5 g).
  { destruct Hf as [->|(p & b & ->)]; [eauto|]. intros i f. rewrite lookup_upd_view. intros (g & Hg & ->)%fmap_Some.
    exists g. split; [done|]. by destruct (p g). }
  split.
  - intros i j f g (f' & Hi & ->)%Hb (g' & Hj & ->)%Hb. by eapply H1.
  - intros i f (f' & Hi & ->)%Hb. destruct Hc as [->|[k Hk]]; [by eapply H2|]. eapply put_there; [exact Hk|by eapply H2].
Qed.
Lemma shelved_went s s' k n : went true true s s' k n -> shelved s -> shelved s'.
Proof.
  intros Hw [H1 H2]. destruct Hw as [i f Hi Hr Hf Hc|i f Hi H0 Hid Hr Ha Hf Hc|i f Hi Hr Hf Hc|i f Hi Hr Hf Hc]; split.
  2,6: intros j g; rewrite Hf, Hc, lookup_insert; case_decide; [intros [= <-]; by eapply (H2 i f)|by apply H2].
  1,4: intros j1 j2 g1 g2; rewrite Hf, !lookup_insert; repeat case_decide; intros; simplify_eq/=; try done;
       eapply H1; eauto.
  - intros j1 j2 g1 g2; rewrite Hf, !lookup_insert. repeat case_decide; intros ?? He; simplify_eq/=; try done.
    + exfalso. eapply (Ha eq_refl j2 g2); eauto.
    + exfalso. eapply (Ha eq_refl j1 g1); eauto.
    + eapply H1; eauto.
  - intros j g; rewrite Hf, lookup_insert. case_decide; [intros [= <-]|by intros; eapply put_there; [exact Hc|by eapply H2]].
    destruct Hc as (o & _ & ->). by rewrite lookup_insert_eq.
  - intros j1 j2 g1 g2. rewrite Hf, !lookup_delete_Some. intros [_ Hj1] [_ Hj2]. by eapply H1.
  - intros j g. rewrite Hf, lookup_delete_Some. intros [Hne Hj]. destruct Hc as [->| ->]; [by eapply H2|].
    rewrite lookup_delete_ne; [by eapply H2|]. intros He. apply Hne. by eapply H1.
Qed.
End FileSpec.

(** ** The methods perform steps *)
Module FileRefine.
Import Safe.
Import Files FileRepo FileService FileSpec.
Open Scope Z_scope.

Section refine.
Context {E : Env} {O : ObjectIDs} {G : MongoServer} {B : ObjectStore} {F : FileFormats}.
Notation DB := (DB G B).
Implicit Types (w : World DB).

(** The documents and the contents after a method. *)
Definition docs w : gmap Z File := files (st w).
Definition objs w : gmap string Object := contents (st w).

Lemma docs_view w : cv File w = docs w.
Proof. done. Qed.
Lemma docs_of m w w' : docs_are File m w w' -> docs w' = m /\ objs w' = objs w.
Proof. intros (Ha & _ & _). unfold docs, objs, st. by rewrite Ha. Qed.
Lemma docs_same w w' : w_db w' = w_db w -> docs w' = docs w /\ objs w' = objs w.
Proof. intros He. unfold docs, objs, st. by rewrite He. Qed.

Lemma idle_refl s : idle s s.
Proof. split; by left. Qed.
Lemma idle_same w w' : docs w' = docs w -> objs w' = objs w -> idle (st w) (st w').
Proof. intros H1 H2. split; by left. Qed.
Hint Resolve idle_same : core.

Lemma md5_nonempty data : md5_hex data <> ""%string.
Proof.
  unfold md5_hex, GoHash.md5_Sum. cbv zeta. destruct (fold_left _ _ _) as [[[a b] c] d]. unfold GoHash.EncodeToString, GoHash.octets.
  by cbn.
Qed.

Lemma wp_fileCollection (Q : res unit -> World DB -> Prop) w : Q (Ok tt) w -> (forall e, Q (Err e) w) -> wp fileCollection Q w.
Proof. intros Hok Herr. unfold fileCollection. do 2 wp_step. destruct (mongo_nil _); wp_step; [apply Herr|done]. Qed.

(** *** Documents *)
Lemma wp_file_first text p (Q : res (option File) -> World DB -> Prop) w :
  (forall w' f, docs w' = docs w -> objs w' = objs w -> docs w !! f_ID f = Some f -> p f = true -> Q (Ok (Some f)) w') ->
  (forall w', docs w' = docs w -> objs w' = objs w -> (forall i f, docs w !! i = Some f -> p f = false) -> Q (Ok None) w') ->
  (forall e w', docs w' = docs w -> objs w' = objs w -> Q (Err e) w') ->
  wp (fileCollection;; doc_or_nil text (FindOne File p)) Q w.
Proof.
  intros Hs Hn He. apply wp_bind, wp_fileCollection; cbv beta iota; [|intros e; by apply He].
  unfold doc_or_nil. apply wp_bind, wp_attempt, wp_FindOne; cbv beta iota.
  - intros _. destruct (errors_Is _ _) eqn:Hi; [|wp_step; by apply He]. exfalso. by cbn in Hi.
  - intros Hno. simpl. by apply Hn.
  - intros f Hf Hp. by apply Hs.
Qed.

Lemma wp_FindFileByMD5 k (Q : res (option File) -> World DB -> Prop) w :
  (forall w' f, docs w' = docs w -> objs w' = objs w -> docs w !! f_ID f = Some f -> f_MD5 f = k -> Q (Ok (Some f)) w') ->
  (forall w', docs w' = docs w -> objs w' = objs w ->
     k = ""%string \/ (forall i f, docs w !! i = Some f -> f_MD5 f <> k) -> Q (Ok None) w') ->
  (forall e w', docs w' = docs w -> objs w' = objs w -> Q (Err e) w') ->
  wp (FindFileByMD5 k) Q w.
Proof.
  intros Hs Hn He. unfold FindFileByMD5. destruct (String.eqb_spec k ""); [wp_step; auto|]. apply wp_file_first; [| |done].
  - intros w' f H1 H2 Hf Hp%String.eqb_eq. by apply Hs.
  - intros w' H1 H2 Hno. apply Hn; [done..|]. right. intros i f Hf%Hno. by apply String.eqb_neq.
Qed.
Lemma wp_FindFileByUserAndMD5 u k (Q : res (option File) -> World DB -> Prop) w :
  (forall w' f, docs w' = docs w -> objs w' = objs w -> docs w !! f_ID f = Some f -> f_MD5 f = k -> Q (Ok (Some f)) w') ->
  (forall w', docs w' = docs w -> objs w' = objs w -> Q (Ok None) w') ->
  (forall e w', docs w' = docs w -> objs w' = objs w -> Q (Err e) w') ->
  wp (FindFileByUserAndMD5 u k) Q w.
Proof.
  intros Hs Hn He. unfold FindFileByUserAndMD5. destruct (_ || _); [wp_step; auto|]. apply wp_file_first; [|by auto|done].
  intros w' f H1 H2 Hf Hp. apply andb_prop in Hp as [_ Hp%String.eqb_eq]. by apply Hs.
Qed.

Lemma wp_by_id f upd text (Q : res unit -> World DB -> Prop) w :
  (forall r r', upd r = Some r' -> ent_id r' = ent_id r) -> docs w !! f_ID f = Some f ->
  (forall g w', upd f = Some g -> docs w' = <[f_ID f := g]> (docs w) -> objs w' = objs w -> Q (Ok tt) w') ->
  (forall e w', docs w' = docs w -> objs w' = objs w -> Q (Err e) w') ->
  wp (fileCollection;; (let! _ := map_err (EWrapf text) (UpdateByID File (f_ID f) upd) in ret tt)) Q w.
Proof.
  intros Hid Hf Hok Herr. apply wp_bind, wp_fileCollection; cbv beta iota; [|intros e; by apply Herr].
  apply wp_bind, wp_map_err. unfold UpdateByID. apply (wp_UpdateOne_byid File); [exact Hid| | | |].
  - intros _. by apply Herr.
  - intros Hno. specialize (Hno f Hf). done.
  - intros r Hr _ _. by apply Herr.
  - intros r r' w' Hr _ Hu [Hd Ho]%docs_of. rewrite docs_view in *. simplify_eq. wp_step. by apply (Hok r').
Qed.

Lemma wp_IncrementFileRefCount f (Q : res unit -> World DB -> Prop) w :
  docs w !! f_ID f = Some f -> f_ID f <> 0 ->
  (forall w', f_RefCount f + 1 < 2 ^ 63 -> docs w' = <[f_ID f := set_refs (f_RefCount f + 1) f]> (docs w) ->
     objs w' = objs w -> Q (Ok tt) w') ->
  (forall e w', docs w' = docs w -> objs w' = objs w -> Q (Err e) w') ->
  wp (IncrementFileRefCount (f_ID f) 1) Q w.
Proof.
  intros Hf H0 Hok Herr. unfold IncrementFileRefCount, ObjectID.IsZero, ObjectID.NilObjectID.
  destruct (Z.eqb_spec (f_ID f) 0); [done|]. simpl orb. cbv iota. apply wp_by_id; [|done| |done].
  - unfold inc_refs. by intros r r' (n' & _ & ->)%fmap_Some.
  - unfold inc_refs. intros g w' (n' & Hn & ->)%fmap_Some Hd Ho. unfold inc_int in Hn. case_match eqn:Hb; [|done].
    simplify_eq. apply Hok; [bools; lia|done..].
Qed.
Lemma wp_UpdateFileRefCount f n (Q : res unit -> World DB -> Prop) w :
  docs w !! f_ID f = Some f -> f_ID f <> 0 ->
  (forall w', docs w' = <[f_ID f := set_refs n f]> (docs w) -> objs w' = objs w -> Q (Ok tt) w') ->
  (forall e w', docs w' = docs w -> objs w' = objs w -> Q (Err e) w') ->
  wp (UpdateFileRefCount (f_ID f) n) Q w.
Proof.
  intros Hf H0 Hok Herr. unfold UpdateFileRefCount, ObjectID.IsZero, ObjectID.NilObjectID.
  destruct (Z.eqb_spec (f_ID f) 0); [done|]. apply wp_by_id; [by intros r r' [= <-]|done| |done].
  intros g w' [= <-]. apply Hok.
Qed.
Lemma wp_DeleteFile f (Q : res unit -> World DB -> Prop) w :
  docs w !! f_ID f = Some f -> f_ID f <> 0 ->
  (forall w', docs w' = base.delete (f_ID f) (docs w) -> objs w' = objs w -> Q (Ok tt) w') ->
  (forall e w', docs w' = docs w -> objs w' = objs w -> Q (Err e) w') ->
  wp (DeleteFile (f_ID f)) Q w.
Proof.
  intros Hf H0 Hok Herr. unfold DeleteFile, ObjectID.IsZero, ObjectID.NilObjectID.
  destruct (Z.eqb_spec (f_ID f) 0); [done|]. apply wp_bind, wp_fileCollection; cbv beta iota; [|intros e; by apply Herr].
  apply wp_bind, wp_map_err, (wp_DeleteOne_byid File); cbv beta iota.
  - intros _. by apply Herr.
  - rewrite docs_view. congruence.
  - intros r w' _ [Hd Ho]%docs_of. wp_step. by apply Hok.
Qed.
Lemma wp_CreateFile f (Q : res File -> World DB -> Prop) w :
  (forall n, new_oid n <> 0) ->
  (forall i w', i <> 0 -> docs w !! i = None -> docs w' = <[i := stored i f]> (docs w) -> objs w' = objs w ->
     Q (Ok {| f with f_ID := i |}) w') ->
  (forall e w', docs w' = docs w -> objs w' = objs w -> Q (Err e) w') ->
  wp (CreateFile f) Q w.
Proof.
  intros Hoid Hok Herr. unfold CreateFile. apply wp_bind, wp_fileCollection; cbv beta iota; [|intros e; by apply Herr].
  apply wp_bind, wp_NewObjectID; [apply new_oid_valid|]. cbv beta iota. apply wp_bind, wp_map_err, (wp_InsertOne File); cbv beta iota.
  - intros _. by apply Herr.
  - intros _. by apply Herr.
  - intros w' [Hd Ho]%docs_of Hn. wp_step. apply Hok; [apply Hoid|exact Hn|exact Hd|exact Ho].
Qed.

(** *** Contents *)
Definition put_of (k : string) (o : Object) w w' : Prop := docs w' = docs w /\ objs w' = <[k := o]> (objs w).
Definition put_maybe (k : string) w w' : Prop :=
  docs w' = docs w /\ (objs w' = objs w \/ put k (objs w) (objs w')).

Lemma put_object_good data ct : good (md5_hex data) (mkObject data ct).
Proof. done. Qed.

Lemma wp_Put c data ct (Q : res string -> World DB -> Prop) w :
  (forall u w', docs w' = docs w -> put (md5_hex data) (objs w) (objs w') -> Q (Ok u) w') ->
  (forall e w', put_maybe (md5_hex data) w w' -> Q (Err e) w') ->
  wp (Cosutil.Put DetectContentType c (md5_hex data) data ct) Q w.
Proof.
  intros Hok Herr. unfold Cosutil.Put. destruct (Cosutil.baseClient c); [|wp_step; apply Herr; split; [done|by left]].
  apply wp_bind, wp_map_err. unfold Cosutil.putObject, Cosutil.cos_request, Cosutil.set_base. cbv zeta.
  set (o := mkObject data _). do 4 wp_step. destruct (env_fault _); repeat wp_step.
  - apply Herr. split; [done|].
    destruct (put_failed_spec (md5_hex data) o (base_bucket (w_db w))) as [H|H]; [left; exact H|right; exists o; split; [done|exact H]].
  - apply Hok; [done|]. exists o. split; [done|]. apply put_object_spec.
Qed.
Lemma wp_PutWithImageProcess c data ct process (Q : res string -> World DB -> Prop) w :
  (forall u w', docs w' = docs w -> put (md5_hex data) (objs w) (objs w') -> Q (Ok u) w') ->
  (forall e w', put_maybe (md5_hex data) w w' -> Q (Err e) w') ->
  wp (Cosutil.PutWithImageProcess DetectContentType c (md5_hex data) data ct process) Q w.
Proof.
  intros Hok Herr. unfold Cosutil.PutWithImageProcess. apply wp_bind, wp_Put; [|done]. intros u w1 Hd Ho.
  destruct (_ || _); [wp_step; by apply Hok|]. cbv zeta. apply wp_bind, wp_attempt.
  unfold Cosutil.putObject, Cosutil.cos_request, Cosutil.set_compress. cbv zeta. do 4 wp_step.
  destruct (env_fault _); repeat wp_step; by apply Hok.
Qed.
Lemma wp_cos_Delete c k (Q : res unit -> World DB -> Prop) w :
  (forall r w', docs w' = docs w -> objs w' = objs w \/ objs w' = base.delete k (objs w) -> Q r w') ->
  wp (Cosutil.Delete c k) Q w.
Proof.
  intros HQ. unfold Cosutil.Delete. apply wp_bind.
  assert (Hrest : forall w1, docs w1 = docs w -> objs w1 = objs w \/ objs w1 = base.delete k (objs w) ->
    wp (match Cosutil.compressClient c with
        | Some _ => let! _ := attempt (Cosutil.deleteObject compress_bucket Cosutil.set_compress (Cosutil.compressObjectKey c k)) in ret tt
        | None => ret tt end) Q w1).
  { intros w1 Hd Ho. destruct (Cosutil.compressClient c); [|wp_step; by apply HQ]. apply wp_bind, wp_attempt.
    unfold Cosutil.deleteObject, Cosutil.cos_request, Cosutil.set_compress. do 4 wp_step.
    destruct (env_fault _); repeat wp_step; by apply HQ. }
  destruct (Cosutil.baseClient c); [|wp_step; apply Hrest; [done|by left]]. apply wp_map_err.
  unfold Cosutil.deleteObject, Cosutil.cos_request, Cosutil.set_base. do 4 wp_step.
  destruct (env_fault _); repeat wp_step.
  - apply HQ; [done|]. apply delete_failed_spec.
  - apply Hrest; [done|]. right. apply delete_object_spec.
Qed.

(** *** The service *)
Context (s : Service) (Hoid : forall n, new_oid n <> 0).
Definition kept : bool := bool_decide (cosClient s <> None).
(** A result that names [n] references to [key a] went that way; an error left them. *)
Definition moved {A} (alone : bool) (key : A -> string) (n : Z) w (r : res A) w' : Prop :=
  match r with
  | Ok a => went kept alone (st w) (st w') (key a) n
  | Err _ => idle (st w) (st w')
  end.

Lemma put_maybe_idle k w w' : put_maybe k w w' -> idle (st w) (st w').
Proof. intros [Hd [Ho|Ho]]; split; eauto. Qed.

(** The last part of both uploads. *)
Lemma wp_new_document alone k u text w w0 :
  docs w0 = docs w -> (if kept then put k (objs w) (objs w0) else objs w0 = objs w) ->
  (alone = true -> forall i f, docs w !! i = Some f -> f_MD5 f <> k) ->
  wp (internal text (CreateFile (mkFile 0 k false u 1 0)))
    (fun r w' => match r with Ok _ => went kept alone (st w) (st w') k 1 | Err _ => idle (st w) (st w') end) w0.
Proof.
  intros Hd Ho Ha. apply wp_map_err, wp_CreateFile; [exact Hoid| |].
  - intros i w' Hi Hn Hd' Ho'. rewrite Hd in *. eapply (w_new _ _ _ _ i (stored i (mkFile 0 k false u 1 0))); try done.
    destruct kept; [by rewrite <- Ho' in Ho|]. change (objs w' = objs w). congruence.
  - intros e w' Hd' Ho'. split; [left; change (docs w' = docs w); congruence|].
    destruct kept; [right; exists k; by rewrite <- Ho' in Ho|left; change (objs w' = objs w); congruence].
Qed.

Lemma wp_take_more alone f text w w1 : wf (st w) -> docs w1 = docs w -> objs w1 = objs w -> docs w !! f_ID f = Some f ->
  wp (internal text (IncrementFileRefCount (f_ID f) 1))
    (fun r w' => match r with Ok _ => went kept alone (st w) (st w') (f_MD5 f) 1 | Err _ => idle (st w) (st w') end) w1.
Proof.
  intros HI Hd Ho Hf. destruct (wf_file _ HI _ _ Hf) as (_ & H0 & _). apply wp_map_err, wp_IncrementFileRefCount; [by rewrite Hd|done| |].
  - intros w' Hr Hd' Ho'. rewrite Hd, Ho in *. by eapply w_take.
  - intros e w' Hd' Ho'. apply idle_same; congruence.
Qed.

Lemma Upload_moves file header u w : wf (st w) ->
  wp (Upload s file header u) (moved false (fun k => k) 1 w) w.
Proof.
  intros HI. unfold Upload. destruct file as [f|]; [|wp_step; apply idle_refl]. apply wp_if; intros _; [wp_step; apply idle_refl|].
  cbv zeta. apply wp_if; intros _; [wp_step; apply idle_refl|].
  apply wp_bind, wp_map_err, wp_of_res. destruct (ReadAll f) as [data|e]; [|apply idle_refl].
  apply wp_if; intros _; [wp_step; apply idle_refl|]. apply wp_bind, wp_of_res.
  destruct (normalizeContentType header) as [ct|e]; [|apply idle_refl].
  apply wp_bind, wp_map_err, wp_FindFileByUserAndMD5; cbv beta iota; [| |by intros; apply idle_same].
  - intros w1 g Hd Ho Hg Hk. apply wp_bind. eapply wp_mono; [by apply (wp_take_more false g _ w)|].
    intros [[]|e] w2 H2; [|done]. wp_step. simpl. by rewrite <- Hk.
  - intros w1 Hd Ho. apply wp_bind. pose (post (r : res unit) w2 := match r with
      | Ok _ => docs w2 = docs w /\ (if kept then put (md5_hex data) (objs w) (objs w2) else objs w2 = objs w)
      | Err _ => idle (st w) (st w2) end).
    apply (wp_mono _ post).
    { unfold post, kept. destruct (cosClient s) as [c|] eqn:Ec; [|by wp_step]. rewrite bool_decide_true by done. cbv zeta.
      apply wp_bind, wp_map_err, wp_PutWithImageProcess.
      - intros x w2 Hd2 Ho2. wp_step. rewrite Hd, Ho in *. done.
      - intros e w2 H2. apply (put_maybe_idle (md5_hex data)). destruct H2 as [Hd2 Ho2]. unfold put_maybe. by rewrite Hd, Ho in *. }
    intros [[]|e] w2; [|done]. intros [Hd2 Ho2]. apply wp_bind.
    eapply wp_mono; [by apply (wp_new_document false _ u _ w)|]. by intros [x|e] w3 H3.
Qed.

Lemma Academic_moves file header u w : wf (st w) ->
  wp (UploadAcademicDocument s file header u) (moved true ou_MD5 1 w) w.
Proof.
  intros HI. unfold UploadAcademicDocument. destruct file as [f|]; [|wp_step; apply idle_refl].
  destruct header as [h|]; [|wp_step; apply idle_refl]. cbv zeta. do 3 (apply wp_if; intros _; [wp_step; apply idle_refl|]).
  apply wp_bind, wp_map_err, wp_of_res. destruct (ReadLimited _ f) as [data|e]; [|apply idle_refl].
  do 2 (apply wp_if; intros _; [wp_step; apply idle_refl|]).
  apply wp_bind, wp_map_err, wp_FindFileByMD5; cbv beta iota; [| |by intros; apply idle_same].
  - intros w1 g Hd Ho Hg Hk. apply wp_bind. eapply wp_mono; [by apply (wp_take_more true g _ w)|].
    intros [[]|e] w2 H2; [|done]. wp_step. simpl. by rewrite <- Hk.
  - intros w1 Hd Ho Hno. destruct Hno as [Hno|Hno]; [by destruct (md5_nonempty data)|].
    apply wp_bind, wp_bind. pose (post (r : res unit) w2 := match r with
      | Ok _ => docs w2 = docs w /\ (if kept then put (md5_hex data) (objs w) (objs w2) else objs w2 = objs w)
      | Err _ => idle (st w) (st w2) end).
    apply (wp_mono _ post).
    { unfold post, kept, put_content. destruct (cosClient s) as [c|] eqn:Ec; [|by wp_step]. rewrite bool_decide_true by done.
      apply wp_bind, wp_map_err, wp_Put.
      - intros x w2 Hd2 Ho2. wp_step. rewrite Hd, Ho in *. done.
      - intros e w2 H2. apply (put_maybe_idle (md5_hex data)). destruct H2 as [Hd2 Ho2]. unfold put_maybe. by rewrite Hd, Ho in *. }
    intros [[]|e] w2; [|done]. intros [Hd2 Ho2]. apply wp_bind.
    eapply wp_mono; [by apply (wp_new_document true _ u _ w)|]. by intros [x|e] w3 H3.
Qed.

(** Giving back the last reference. *)
Lemma wp_drop alone f text w w1 : wf (st w) -> docs w1 = docs w -> objs w1 = objs w -> docs w !! f_ID f = Some f ->
  f_RefCount f <= 1 ->
  wp (internal text (DeleteFile (f_ID f));; delete_content s (f_MD5 f)) (moved alone (fun _ => f_MD5 f) (-1) w) w1.
Proof.
  intros HI Hd Ho Hf H1. destruct (wf_file _ HI _ _ Hf) as (_ & H0 & _). apply wp_bind, wp_map_err, wp_DeleteFile; [by rewrite Hd|done| |].
  - intros w2 Hd2 Ho2. rewrite Hd, Ho in *. unfold delete_content. destruct (cosClient s) as [c|].
    + apply wp_bind, wp_attempt, wp_cos_Delete. intros r w3 Hd3 Ho3. wp_step. eapply w_last; [exact Hf|done| |].
      * change (docs w3 = base.delete (f_ID f) (docs w)). congruence.
      * rewrite Ho2 in Ho3. exact Ho3.
    + wp_step. eapply w_last; [exact Hf|done|exact Hd2|left; exact Ho2].
  - intros e w2 Hd2 Ho2. apply idle_same; congruence.
Qed.
Lemma sub_one f w : wf (st w) -> docs w !! f_ID f = Some f -> sub64 (f_RefCount f) 1 = f_RefCount f - 1.
Proof. intros HI Hf. destruct (wf_file _ HI _ _ Hf) as (_ & _ & ?). apply wrap64_small. unfold in_int64. lia. Qed.
Lemma wp_give alone f w w1 : wf (st w) -> docs w1 = docs w -> objs w1 = objs w -> docs w !! f_ID f = Some f -> 1 < f_RefCount f ->
  wp (UpdateFileRefCount (f_ID f) (f_RefCount f - 1)) (moved alone (fun _ => f_MD5 f) (-1) w) w1.
Proof.
  intros HI Hd Ho Hf H1. destruct (wf_file _ HI _ _ Hf) as (_ & H0 & _). apply wp_UpdateFileRefCount; [by rewrite Hd|done| |].
  - intros w' Hd' Ho'. rewrite Hd, Ho in *. by eapply w_give.
  - intros e w' Hd' Ho'. apply idle_same; congruence.
Qed.

Lemma ReleaseReference_moves k w : wf (st w) -> wp (ReleaseReference s k) (moved true (fun _ => k) (-1) w) w.
Proof.
  intros HI. unfold ReleaseReference, GetByMD5. apply wp_bind, wp_if; intros _; [wp_step; apply idle_refl|].
  apply wp_map_err, wp_FindFileByMD5; cbv beta iota; [| |by intros; apply idle_same].
  - intros w1 f Hd Ho Hf <-. rewrite (sub_one _ _ HI Hf). apply wp_if; intros Hb.
    + eapply wp_give; [done..|lia].
    + eapply wp_drop; [done..|lia].
  - intros w1 Hd Ho _. wp_step. by apply idle_same.
Qed.
Lemma Delete_moves k u w : wf (st w) -> wp (Delete s k u false) (moved false (fun _ => k) (-1) w) w.
Proof.
  intros HI. unfold Delete. apply wp_if; intros _; [wp_step; apply idle_refl|]. cbv iota.
  apply wp_bind, wp_map_err, wp_FindFileByUserAndMD5; cbv beta iota; [| |by intros; apply idle_same].
  - intros w1 f Hd Ho Hf <-. cbv zeta. rewrite (sub_one _ _ HI Hf). apply wp_if; intros Hb.
    + eapply wp_drop; [done..|lia].
    + apply wp_map_err. eapply wp_mono; [eapply (wp_give false f w); [done..|lia]|]. by intros [] w2.
  - intros w1 Hd Ho. wp_step. by apply idle_same.
Qed.

Lemma SetPublic_idle ids b w : wp (SetPublic ids b) (fun _ w' => idle (st w) (st w')) w.
Proof.
  unfold SetPublic. apply wp_if; intros _; [wp_step; apply idle_refl|]. cbv zeta. apply wp_if; intros _; [wp_step; apply idle_refl|].
  apply wp_bind, wp_map_err. unfold UpdateFilesPublic. apply wp_if; intros _; [wp_step; destruct (_ <=? _); apply idle_refl|].
  apply wp_bind, wp_fileCollection; cbv beta iota; [|intros; apply idle_refl].
  apply wp_bind, wp_map_err, (wp_UpdateMany File); cbv beta iota; [done|by intros _; apply idle_same|].
  intros n w' [Hd Ho]%docs_of. wp_step. destruct (_ <=? _); wp_step; (split; [right; eauto|by left]).
Qed.
End refine.
End FileRefine.

(** ** Requests and their references *)
Module FileProps.
Import Safe.
Import Files FileRepo FileService FileSpec FileRefine.
Open Scope Z_scope.

Inductive request :=
| QUpload (file : option MultipartFile) (header : option FileHeader) (userID : string)
| QAcademic (stream : option MultipartFile) (header : option FileHeader) (userID : string)
| QRelease (md5Value : string)
| QDelete (md5Value userID : string)
| QPublic (ids : list string) (isPublic : bool)
| QListPublic (page size : Z)
| QListAll (page size : Z)
| QURL (md5Value : string) (showOrigin : bool).

(** What the academic module asks for, with the administrators of files. *)
Definition of_academic (q : request) : bool := match q with QUpload _ _ _ | QDelete _ _ => false | _ => true end.

(** How often [k] occurs. *)
Definition times (k : string) (l : list string) : Z := foldr (fun x n => one_at x k 1 + n) 0 l.

Section requests.
Context {E : Env} {O : ObjectIDs} {G : MongoServer} {B : ObjectStore} {F : FileFormats}.
Notation DB := (DB G B).
Implicit Types (w : World DB).

(** The references a request hands out, and those it takes back. *)
Definition granted {A} (key : A -> string) (r : res A) : list string := match r with Ok a => [key a] | Err _ => [] end.
Definition serve (s : Service) (q : request) w : list string * list string * World DB :=
  match q with
  | QUpload f h u => let (r, w') := Upload s f h u w in (granted (fun k => k) r, [], w')
  | QAcademic f h u => let (r, w') := UploadAcademicDocument s f h u w in (granted ou_MD5 r, [], w')
  | QRelease k => let (r, w') := ReleaseReference s k w in ([], granted (fun _ => k) r, w')
  | QDelete k u => let (r, w') := Delete s k u false w in ([], granted (fun _ => k) r, w')
  | QPublic ids b => ([], [], (SetPublic ids b w).2)
  | QListPublic p n => ([], [], (ListPublic p n w).2)
  | QListAll p n => ([], [], (ListAll p n w).2)
  | QURL k b => ([], [], (GetDownloadURL s k b w).2)
  end.

Inductive history (s : Service) (allowed : request -> bool) w0 : list string -> list string -> World DB -> Prop :=
| history_start : history s allowed w0 [] [] w0
| history_step q gs rs w g r w' : history s allowed w0 gs rs w -> allowed q = true -> serve s q w = (g, r, w') ->
    history s allowed w0 (g ++ gs) (r ++ rs) w'.

Lemma reads_files_Find p : reads (Find File p : M DB _).
Proof. apply (reads_find (D := mongo_engine)). Qed.
Lemma reads_fileCollection : reads (fileCollection : M DB unit).
Proof. apply reads_bind; [done|]. intros x. by destruct (mongo_nil x). Qed.
Lemma reads_FindFilesPage p n m : reads (FindFilesPage p n m : M DB _).
Proof.
  unfold FindFilesPage. destruct (FileRepo.normalizePage n m). apply reads_bind; [apply reads_fileCollection|]. intros _.
  apply reads_map_err. unfold FindPage. destruct (_ <? _); [done|]. by apply reads_bind; [apply reads_files_Find|].
Qed.
Lemma reads_GetByMD5 k : reads (GetByMD5 k : M DB _).
Proof.
  unfold GetByMD5. destruct (String.eqb _ _); [done|]. apply reads_map_err. unfold FindFileByMD5. destruct (String.eqb _ _); [done|].
  apply reads_bind; [apply reads_fileCollection|]. intros _. unfold doc_or_nil.
  apply reads_bind; [apply reads_attempt, reads_bind; [apply reads_files_Find|by intros []]|]. intros [x|e]; [done|]. by destruct (errors_Is _ _).
Qed.
Lemma reads_idle {A} (m : M DB A) w : reads m -> idle (st w) (st (m w).2).
Proof. intros Hm. unfold st. destruct (Hm w) as [-> _]. apply idle_refl. Qed.

Section served.
Context (s : Service) (Hoid : forall n, new_oid n <> 0).

(** What a served request did to the store, [alone] for the requests of one module. *)
Definition shows (alone : bool) w (g r : list string) w' : Prop :=
  (g = [] /\ r = [] /\ idle (st w) (st w')) \/
  (exists k, g = [k] /\ r = [] /\ went (kept s) alone (st w) (st w') k 1) \/
  (exists k, g = [] /\ r = [k] /\ went (kept s) alone (st w) (st w') k (-1)).

Lemma shows_grant {A} alone (key : A -> string) w r w' : moved s alone key 1 w r w' -> shows alone w (granted key r) [] w'.
Proof. destruct r as [a|e]; simpl; intros H; [right; left; eauto|left; done]. Qed.
Lemma shows_return alone k w (r : res unit) w' : moved s alone (fun _ => k) (-1) w r w' -> shows alone w [] (granted (fun _ => k) r) w'.
Proof. destruct r as [a|e]; simpl; intros H; [right; right; eauto|left; done]. Qed.
Lemma went_any alone st1 st2 k n : went (kept s) alone st1 st2 k n -> went (kept s) false st1 st2 k n.
Proof. intros []; [eapply w_take|eapply w_new|eapply w_give|eapply w_last]; done. Qed.
Lemma shows_any alone w g r w' : shows alone w g r w' -> shows false w g r w'.
Proof. intros [H|[(k & ? & ? & H)|(k & ? & ? & H)]]; [by left|right; left|right; right]; exists k; eauto using went_any. Qed.

Lemma serve_shows alone q w : (alone = true -> of_academic q = true) -> wf (st w) ->
  let '(g, r, w') := serve s q w in shows alone w g r w'.
Proof.
  intros Ha HI. destruct q as [f h u|f h u|k|k u|ids b|p n|p n|k b]; simpl.
  - destruct alone; [by specialize (Ha eq_refl)|]. pose proof (Upload_moves s Hoid f h u w HI) as H. unfold wp in H.
    destruct (Upload s f h u w) as [r w']. by apply shows_grant.
  - pose proof (Academic_moves s Hoid f h u w HI) as H. unfold wp in H.
    destruct (UploadAcademicDocument s f h u w) as [r w']. apply shows_grant in H. destruct alone; [done|by eapply shows_any].
  - pose proof (ReleaseReference_moves s k w HI) as H. unfold wp in H. destruct (ReleaseReference s k w) as [r w'].
    apply shows_return in H. destruct alone; [done|by eapply shows_any].
  - destruct alone; [by specialize (Ha eq_refl)|]. pose proof (Delete_moves s k u w HI) as H. unfold wp in H.
    destruct (Delete s k u false w) as [r w']. by apply shows_return.
  - left. split_and!; [done..|apply SetPublic_idle].
  - left. split_and!; [done..|]. apply reads_idle, reads_map_err, reads_FindFilesPage.
  - left. split_and!; [done..|]. apply reads_idle, reads_bind; [apply reads_map_err, reads_FindFilesPage|done].
  - left. split_and!; [done..|]. apply reads_idle, reads_bind; [apply reads_GetByMD5|]. by intros [].
Qed.

Definition no_files (x : State) : Prop := files x = ∅ /\ contents x = ∅.
Lemma history_counts allowed w0 gs rs w : no_files (st w0) -> history s allowed w0 gs rs w ->
  wf (st w) /\ forall k, refs k (st w) = times k gs - times k rs.
Proof.
  intros [Hf Hc]. assert (H0 : wf (st w0) /\ forall k, refs k (st w0) = 0).
  { split; [split; intros ??; rewrite ?Hf, ?Hc, lookup_empty; done|]. intros k. unfold refs. by rewrite Hf. }
  induction 1 as [|q gs rs w g r w' Hw IH Hq Hq']; [done|]. destruct IH as [HI Hr].
  pose proof (serve_shows false q w (fun H => ltac:(discriminate H)) HI) as Hs. rewrite Hq' in Hs.
  destruct Hs as [(-> & -> & Hs)|[(k & -> & -> & Hs)|(k & -> & -> & Hs)]].
  - split; [by eapply wf_idle|]. intros j. by rewrite (refs_idle _ _ _ Hs), Hr.
  - split; [by eapply wf_went|]. intros j. rewrite (refs_went _ _ _ _ _ _ _ Hs HI), Hr. simpl. lia.
  - split; [by eapply wf_went|]. intros j. rewrite (refs_went _ _ _ _ _ _ _ Hs HI), Hr. unfold one_at in *. simpl. unfold one_at.
    destruct (String.eqb k j); lia.
Qed.

Lemma history_shelved w0 gs rs w : cosClient s <> None -> no_files (st w0) -> history s of_academic w0 gs rs w -> shelved (st w).
Proof.
  intros Hc He Hw. pose proof He as [Hf _]. induction Hw as [|q gs rs w g r w' Hw IH Hq Hq'].
  { split; [intros ????|intros ??]; rewrite Hf, lookup_empty; done. }
  pose proof (proj1 (history_counts _ _ _ _ _ He Hw)) as HI.
  pose proof (serve_shows true q w (fun _ => Hq) HI) as Hs. rewrite Hq' in Hs.
  assert (Hk : kept s = true) by (by apply bool_decide_true). unfold shows in Hs. rewrite Hk in Hs.
  destruct Hs as [(_ & _ & Hs)|[(k & _ & _ & Hs)|(k & _ & _ & Hs)]]; [by eapply shelved_idle|by eapply shelved_went..].
Qed.

(** One document has all the references of its content. *)
Lemma refs_shelved x i f : shelved x -> files x !! i = Some f -> refs (f_MD5 f) x = f_RefCount f.
Proof.
  intros [Hone _] Hf. unfold refs. rewrite <- (insert_delete_id _ _ _ Hf), total_new by apply lookup_delete_eq.
  rewrite total_zero.
  - unfold has_md5. rewrite String.eqb_refl. lia.
  - intros j g. rewrite lookup_delete_Some. intros [Hne Hg]. unfold has_md5. destruct (String.eqb_spec (f_MD5 g) (f_MD5 f)); [|done].
    destruct Hne. by eapply Hone.
Qed.
End served.

(** C22: The references of a content, summed over its documents, are the uploads that
    succeeded less the deletions and releases that succeeded, whatever failed in
    between; a document has a reference, and an object in the bucket has the MD5 it is
    stored under. *)
Theorem references_counted s allowed w0 gs rs w :
  (forall n, new_oid n <> 0) -> no_files (st w0) -> history s allowed w0 gs rs w ->
  (forall k, refs k (st w) = times k gs - times k rs) /\
  (forall i f, files (st w) !! i = Some f -> 1 <= f_RefCount f < 2 ^ 63) /\
  (forall k o, contents (st w) !! k = Some o -> md5_hex (ob_Data o) = k).
Proof.
  intros Ho He Hw. destruct (history_counts s Ho _ _ _ _ _ He Hw) as [[H1 H2] Hr]. split_and!; [done| |exact H2].
  intros i f Hf. by destruct (H1 _ _ Hf) as (_ & _ & ?).
Qed.

(** C23: While only the academic module uses the files, a content has a document exactly
    while a reference to it is out; the document counts the references, and the content
    is in the bucket unaltered. *)
Theorem referenced_content_kept s w0 gs rs w k :
  (forall n, new_oid n <> 0) -> cosClient s <> None -> no_files (st w0) -> history s of_academic w0 gs rs w ->
  if times k rs <? times k gs
  then exists i f o, files (st w) !! i = Some f /\ f_MD5 f = k /\ f_RefCount f = times k gs - times k rs /\
         contents (st w) !! k = Some o /\ md5_hex (ob_Data o) = k
  else forall i f, files (st w) !! i = Some f -> f_MD5 f <> k.
Proof.
  intros Ho Hc He Hw. destruct (history_counts s Ho _ _ _ _ _ He Hw) as [[H1 H2] Hr].
  pose proof (history_shelved s Ho _ _ _ _ Hc He Hw) as HS. destruct (Z.ltb_spec (times k rs) (times k gs)) as [Hlt|Hge].
  - assert (Hp : 0 < refs k (st w)) by (rewrite Hr; lia). apply total_pos in Hp as (i & f & Hf & Hk).
    unfold has_md5 in Hk. destruct (String.eqb_spec (f_MD5 f) k) as [<-|]; [|done].
    destruct (sh_there _ HS _ _ Hf) as [o Hoo]. exists i, f, o. split_and!; [done|done| |done|by eapply H2].
    by rewrite <- Hr, (refs_shelved _ _ _ HS Hf).
  - intros i f Hf <-. pose proof (refs_shelved _ _ _ HS Hf) as He'. rewrite Hr in He'. destruct (H1 _ _ Hf) as (_ & _ & ?). lia.
Qed.
End requests.
End FileProps.

(** ** A concrete run *)
Module FileDemo.
Import Safe Files FileRepo FileService FileSpec FileRefine FileProps.
Open Scope Z_scope.

(** No statement fails. *)
#[export] Instance file_env : Env := { env_now t := Z.of_nat t; env_id t := Z.of_nat t; env_fault _ := false }.
#[export, refine] Instance file_oids : ObjectIDs := {| new_oid n := Z.min (2 ^ 96 - 1) (Z.of_nat n + 1) |}.
Proof. intros n. unfold ObjectID.valid, ObjectID.bound. lia. Defined.
Lemma file_oid n : new_oid n <> 0.
Proof. simpl. lia. Qed.
#[export] Instance file_mongo : MongoServer := gmap_sql.
(** Buckets as maps; a request that fails is not carried out. *)
#[export, refine] Instance gmap_store : ObjectStore := {|
  bucket := gmap string Object;
  objects b := b;
  put_object k o b := <[k := o]> b;
  delete_object k b := base.delete k b;
  put_failed k o b := b;
  delete_failed k b := b;
  cos_text := "connection refused";
|}.
Proof. all: auto. Defined.
(** Everything looks like a text. *)
#[export] Instance file_formats : FileFormats :=
  {| Detect _ := "text/plain; charset=utf-8"%string; DetectContentType _ := "text/plain"%string; zip_NewReader _ := None |}.
Notation FileDB := (Files.DB file_mongo gmap_store).

Definition file_config : Config :=
  mkConfig (mkCOSConfig "campus" "ap-nanjing" "" "https://cdn.example.org" "" "campus-small" "https://small.example.org/") 10.
Definition file_service : Service := NewService (fun _ => true) (Some file_config).
Definition file_start : World FileDB := mkWorld (mkDB false (gempty _) ∅ ∅) 0 [].
Definition upload (text : string) : option MultipartFile := Some (mkMultipart text None).
Definition named (name : string) : option FileHeader := Some (mkHeader name 3 "image/png").
Definition abc : string := "900150983cd24fb0d6963f7d28e17f72".

Definition after {A} (m : World FileDB -> A * World FileDB) (w : World FileDB) : World FileDB := (m w).2.
Definition notes (u : string) := UploadAcademicDocument file_service (upload "abc") (named "Notes.TXT") u.
Definition picture (u : string) := Upload file_service (upload "abc") (named "a.png") u.

(** The world after some requests, with the references out and back. *)
Definition run (qs : list request) : list string * list string * World FileDB :=
  foldl (fun '(gs, rs, w) q => let '(g, r, w') := serve file_service q w in (g ++ gs, r ++ rs, w')%list) ([], [], file_start) qs.
Lemma run_history allowed qs : Forall (fun q => allowed q = true) qs ->
  history file_service allowed file_start (run qs).1.1 (run qs).1.2 (run qs).2.
Proof.
  unfold run. induction qs as [|q qs IH] using rev_ind; [intros _; apply history_start|]. intros [Hq Hl]%Forall_app.
  rewrite foldl_snoc. specialize (IH Hq). destruct (foldl _ _ qs) as [[gs rs] w]. simpl in IH.
  destruct (serve file_service q w) as [[g r] w'] eqn:Es. simpl. eapply history_step; [exact IH|by inversion Hl|exact Es].
Qed.
(** Two materials with one content; one is given back. *)
Definition notes_requests : list request :=
  [QAcademic (upload "abc") (named "Notes.TXT") "7"; QAcademic (upload "abc") (named "Notes.TXT") "8"; QRelease abc].
Definition shared_notes : World FileDB := (run notes_requests).2.
Lemma notes_history : history file_service of_academic file_start [abc; abc] [abc] shared_notes.
Proof.
  assert (H1 : (run notes_requests).1 = ([abc; abc], [abc])) by (vm_compute; reflexivity).
  pose proof (run_history of_academic notes_requests ltac:(repeat constructor)) as H. rewrite H1 in H. exact H.
Qed.
Lemma file_start_empty : no_files (st file_start).
Proof. done. Qed.

Lemma references_counted_witness :
  refs abc (st shared_notes) = 1 /\
  (forall i f, files (st shared_notes) !! i = Some f -> 1 <= f_RefCount f < 2 ^ 63) /\
  (forall k o, contents (st shared_notes) !! k = Some o -> md5_hex (ob_Data o) = k).
Proof.
  destruct (references_counted file_service of_academic file_start _ _ shared_notes file_oid file_start_empty notes_history) as (H1 & H2 & H3).
  split; [exact (H1 abc)|split; [exact H2|exact H3]].
Defined.
Lemma referenced_content_kept_witness :
  exists i f o, files (st shared_notes) !! i = Some f /\ f_MD5 f = abc /\ f_RefCount f = 1 /\
    contents (st shared_notes) !! abc = Some o /\ md5_hex (ob_Data o) = abc.
Proof.
  exact (referenced_content_kept file_service file_start _ _ shared_notes abc file_oid ltac:(discriminate) file_start_empty notes_history).
Defined.
End FileDemo.

(** ** Behaviours worth knowing *)
Module FileFindings.
Import Safe Files FileRepo FileService FileSpec FileRefine FileProps FileDemo.
Open Scope Z_scope.

Definition md5s_in (w : World FileDB) : list (string * string) := (fun p => (f_UserID p.2, f_MD5 p.2)) <$> map_to_list (files (st w)).

(** Every user has a document of a content, all have one object: when one of them
    deletes the picture the object goes, and the URL of the others leads nowhere. *)
Theorem shared_object_removed :
  let w := after (Delete file_service abc "7" false) (after (picture "8") (after (picture "7") file_start)) in
  md5s_in w = [("8", abc)]%string /\ contents (st w) !! abc = None /\
  (GetDownloadURL file_service abc true w).1 = Ok ("https://cdn.example.org/" ++ abc)%string.
Proof. vm_compute. auto. Qed.

(** A material takes its reference on the document of the user who uploaded the same
    bytes as a picture; that user may delete it twice. *)
Theorem user_deletes_reference_of_material :
  let w := after (Delete file_service abc "7" false) (after (Delete file_service abc "7" false) (after (notes "9") (after (picture "7") file_start))) in
  md5s_in w = [] /\ contents (st w) !! abc = None.
Proof. vm_compute. auto. Qed.

(** The default URL of a file is that of its compressed copy, which an academic
    document never has, and no file without the setting [Compress]. *)
Theorem compressed_copy_missing :
  let w := after (notes "7") file_start in
  (GetDownloadURL file_service abc false w).1 = Ok ("https://small.example.org/" ++ abc ++ ".webp")%string /\
  compressed (st w) = ∅ /\ compressed (st (after (picture "7") file_start)) = ∅.
Proof. vm_compute. auto. Qed.

(** The record is written after the object: when that fails the object stays, and
    nothing refers to it. *)
Theorem unrecorded_object_stays :
  let '(r, w) := @Upload {| env_now := env_now; env_id := env_id; env_fault n := (n =? 3)%nat |} _ _ _ _ file_service (upload "abc") (named "a.png") "7" file_start in
  is_ok r = false /\ md5s_in w = [] /\ is_Some (contents (st w) !! abc).
Proof. vm_compute. eauto. Qed.

(** [FilePublicReq] has a list of MD5s, but [SetPublic] takes object ids: it refuses
    every list of MD5s. *)
Section public.
Context {E : Env} {O : ObjectIDs} {G : MongoServer} {B : ObjectStore}.
Theorem md5s_are_no_ids l b (w : World (DB G B)) :
  Forall (fun id => String.length id = 32%nat) l -> SetPublic l b w = (Err (Bizerr.Param errMsgInvalidParam), w).
Proof.
  intros Hl. unfold SetPublic. destruct (bool_decide (l = [])); [done|].
  assert (Hs : forall acc, foldl id_step acc l = acc).
  { induction Hl as [|id l Hid _ IH]; [done|]. intros acc. simpl. rewrite IH. unfold id_step, ObjectID.ObjectIDFromHex. by rewrite Hid. }
  by rewrite Hs.
Qed.
End public.
End FileFindings.
