(* ===== verification/NotifyModel.v ===== *)
(** * Notifications: data model and repository

    [internal/notification/model.go] and [repository.go].  A notification is a document
    of MongoDB; a unique sparse index keeps the ids of events apart.  The
    key of a document has one of several types, the numbers among them compare by value:
    [id_key] numbers the keys.  What the service publishes is a list of the store. *)
From Stdlib Require Import Floats.SpecFloat.
From S2P Require Import Prelude GoString GoTime GoMonad Sql Mongo.

Module Notification.
Open Scope Z_scope.

(** ** Data *)
Definition CategorySocial : string := "social".
Definition CategoryAcademic : string := "academic".
Definition CategoryMarketplace : string := "marketplace".
Definition CategoryReservation : string := "reservation".
Definition CategoryModeration : string := "moderation".
Definition CategorySystem : string := "system".
Definition BroadcastChannel : string := "campus:notification:broadcast".
Definition categories : list string :=
  [CategorySocial; CategoryAcademic; CategoryMarketplace; CategoryReservation; CategoryModeration; CategorySystem].
Definition validCategory (category : string) : bool := bool_decide (category ∈ categories).

(** The key of a document; [IdInt] is an [int32] or an [int64]. *)
Inductive id_value := IdOID (oid : Z) | IdStr (s : string) | IdInt (wide : bool) (n : Z).
Definition id_key (id : id_value) : Z :=
  Zpos (encode (match id with IdOID oid => inl oid | IdStr s => inr (inl s) | IdInt _ n => inr (inr n) end : Z + (string + Z))).
Definition idString (id : id_value) : string :=
  match id with IdOID oid => ObjectID.Hex oid | IdStr s => s | IdInt _ n => GoStr.FormatInt n end.

(** Equal values, to tell a document that an update changes. *)
#[export] Instance float_eq : EqDecision spec_float. Proof. solve_decision. Defined.
#[export] Instance json_eq : EqDecision json.
Proof.
  refine (fix go (x y : json) {struct x} : Decision (x = y) :=
    match x, y with
    | JNull, JNull => left eq_refl
    | JBool b, JBool c => cast_if (decide (b = c))
    | JNum f, JNum g => cast_if (decide (f = g))
    | JStr s, JStr t => cast_if (decide (s = t))
    | JArr l, JArr k => cast_if (@list_eq_dec _ go l k)
    | JObj l, JObj k => cast_if (@list_eq_dec _ (@prod_eq_dec _ _ _ go) l k)
    | _, _ => right _
    end); congruence.
Defined.
#[export] Instance id_value_eq : EqDecision id_value. Proof. solve_decision. Defined.

Notation extra := (option (list (string * json))).
Record Document := mkDocument {
  nt_ID : id_value;
  nt_EventID : string;
  nt_ReceiverRootUserID : Z;
  nt_ReceiverID : string;
  nt_SenderID : string;
  nt_Category : string;
  nt_EventType : string;
  nt_Type : string;
  nt_Title : string;
  nt_Content : string;
  nt_ResourceType : string;
  nt_ResourceID : string;
  nt_TopicID : string;
  nt_CommentID : string;
  nt_Extra : extra;
  nt_CreatedTime : Z;
  nt_IsRead : bool;
}.
#[export] Instance Document_eq : EqDecision Document. Proof. solve_decision. Defined.
(** The unique sparse index of [EnsureIndexes]: an empty event id is not stored. *)
Definition same_event (d d' : Document) : bool := negb (String.eqb (nt_EventID d) "") && String.eqb (nt_EventID d) (nt_EventID d').
#[export] Instance Document_entity : Entity Document := { ent_id d := id_key (nt_ID d); ent_clash := same_event }.

Record Response := mkResponse {
  rs_ID : string; rs_Category : string; rs_EventType : string; rs_Title : string; rs_Content : string;
  rs_ResourceType : string; rs_ResourceID : string; rs_Extra : extra; rs_CreatedTime : string; rs_IsRead : bool;
}.
Record LegacyResponse := mkLegacyResponse {
  lg_ID : string; lg_ReceiverID : string; lg_SenderID : string; lg_Type : string; lg_Content : string;
  lg_TopicID : string; lg_CommentID : string; lg_CreatedTime : string; lg_IsRead : bool;
}.
Record Broadcast := mkBroadcast { bc_RootUserID : Z; bc_LegacyReceiverID : string; bc_Notification : Response; bc_Legacy : LegacyResponse }.
Record CreateInput := mkCreateInput {
  in_ReceiverRootUserID : Z; in_ReceiverID : string; in_SenderID : string; in_Category : string; in_EventType : string;
  in_Title : string; in_Content : string; in_ResourceType : string; in_ResourceID : string; in_Extra : extra;
  in_EventID : string; in_CreatedTime : Z;
}.
Record LegacyInput := mkLegacyInput {
  li_TargetUserID : string; li_SenderUserID : string; li_Type : string; li_Content : string; li_TopicID : string;
  li_CommentID : string; li_CreatedTime : Z; li_EventID : Z;
}.

Definition formatTime (value : Z) : string := if GoTime.IsZero value then "" else GoTime.FormatRFC3339 value.
(** In the location of the value, [offset] after UTC. *)
Definition formatLegacyDate (offset value : Z) : string :=
  if GoTime.IsZero value then ""
  else
    let '(y, m, d) := GoTime.civil_from_days ((value + offset) / GoTime.Day) in
    (GoTime.pad4 y ++ "-" ++ GoTime.pad2 m ++ "-" ++ GoTime.pad2 d)%string.

Definition response (d : Document) : Response :=
  let category := if String.eqb (nt_Category d) "" then CategorySocial else nt_Category d in
  let eventType := if String.eqb (nt_EventType d) "" then nt_Type d else nt_EventType d in
  let '(resourceType, resourceID) :=
    if String.eqb (nt_ResourceID d) "" && negb (String.eqb (nt_CommentID d) "") then ("comment"%string, nt_CommentID d)
    else if String.eqb (nt_ResourceID d) "" && negb (String.eqb (nt_TopicID d) "") then ("topic"%string, nt_TopicID d)
    else (nt_ResourceType d, nt_ResourceID d) in
  mkResponse (idString (nt_ID d)) category eventType (nt_Title d) (nt_Content d) resourceType resourceID (nt_Extra d)
    (formatTime (nt_CreatedTime d)) (nt_IsRead d).
Definition legacyResponse (offset : Z) (d : Document) : LegacyResponse :=
  let typ := if String.eqb (nt_Type d) "" then nt_EventType d else nt_Type d in
  mkLegacyResponse (idString (nt_ID d)) (nt_ReceiverID d) (nt_SenderID d) typ (nt_Content d) (nt_TopicID d) (nt_CommentID d)
    (formatLegacyDate offset (nt_CreatedTime d)) (nt_IsRead d).

(** ** The store *)
Section store.
Context {G : MongoServer}.
Record DB := mkDB {
  no_collection : bool;
  c_documents : @table mongo_engine Document _;
  broadcasts : list Broadcast;
}.
End store.
Arguments DB G : clear implicits.
Record State := mkState { documents : gmap Z Document; published : list Broadcast; nil_collection : bool }.

Section abstraction.
Context {G : MongoServer}.
Definition db_state (s : DB G) : State := mkState (@view mongo_engine _ _ (c_documents s)) (broadcasts s) (no_collection s).
#[export] Instance DB_abs : Abstract (DB G) State := db_state.
#[export] Instance coll_documents : Coll (DB G) State Document _ _.
Proof.
  refine {| tget := c_documents; tset t s := {| s with c_documents := t |};
    aget := documents; aset v s := {| s with documents := v |} |}; by intros; try destruct a.
Defined.
End abstraction.
End Notification.

(** ** The repository *)
Module NotifyRepo.
Import Notification.
Open Scope Z_scope.

(** *** Filters *)
Definition id_step (ids : list string) (id : Z) : list string :=
  if id <=? 0 then ids
  else
    let value := GoStr.FormatInt id in
    if bool_decide (value ∈ ids) then ids else (ids ++ [value])%list.
Definition receiverFilter (rootUserID : Z) (identityIDs : list Z) : Document -> bool :=
  let ids := foldl id_step [] (identityIDs ++ [rootUserID]) in
  fun d => (nt_ReceiverRootUserID d =? rootUserID) || bool_decide (nt_ReceiverID d ∈ ids).
Definition categoryFilter (category : string) : Document -> bool :=
  fun d => String.eqb (nt_Category d) category || (String.eqb category CategorySocial && String.eqb (nt_Category d) "").
Definition andFilter (f g : Document -> bool) : Document -> bool := fun d => f d && g d.
Definition typed (typ : string) (d : Document) : bool := String.eqb (nt_Type d) typ.
Definition unread (d : Document) : bool := negb (nt_IsRead d).
Definition id_variants (id : string) : list id_value :=
  [IdStr id] ++ (match ObjectID.ObjectIDFromHex id with Some oid => [IdOID oid] | None => [] end)
  ++ (match GoStr.ParseInt id with Some n => [IdInt true n] | None => [] end).
Definition set_read (d : Document) : Document := {| d with nt_IsRead := true |}.
Definition newest : list Document -> list Document := order_by (fun d => - nt_CreatedTime d).
(** BSON dates hold milliseconds, and empty fields are left out. *)
Definition stored (d : Document) : Document :=
  {| d with nt_CreatedTime := nt_CreatedTime d / GoTime.Millisecond * GoTime.Millisecond;
            nt_Extra := match nt_Extra d with Some [] => None | x => x end |}.

Section repository.
Context {E : Env} {G : MongoServer}.
Notation M := (M (DB G)).

Definition collection : M unit :=
  let! s := get_db in if no_collection s then throw (ENew "notification mongo collection not initialized") else ret tt.
(** The methods that do not check use a nil pointer. *)
Definition nil_pointer : error := EDriver "runtime error: invalid memory address or nil pointer dereference".
Definition unchecked : M unit := let! s := get_db in if no_collection s then throw nil_pointer else ret tt.

Definition IsDuplicateKeyError (e : error) : bool :=
  match e with EDriver text => String.eqb text (@dup_text mongo_engine) | _ => false end.
Definition Insert (doc : Document) : M bool :=
  collection;;
  let! r := attempt (InsertOne Document (stored doc)) in
  match r with
  | Ok _ => ret true
  | Err e => if IsDuplicateKeyError e then ret false else throw (EWrapf "insert notification" e)
  end.
Definition list_ (filter : Document -> bool) (page size : Z) : M (list Document * Z) :=
  collection;;
  let! total := map_err (EWrapf "count notifications") (CountDocuments Document filter) in
  let! docs := map_err (EWrapf "find notifications") (FindPage Document filter newest (mul64 (sub64 page 1) size) size) in
  ret (docs, total).
Definition List (rootUserID : Z) (identityIDs : list Z) (category : string) (page size : Z) : M (list Document * Z) :=
  let filter := receiverFilter rootUserID identityIDs in
  list_ (if String.eqb category "" then filter else andFilter filter (categoryFilter category)) page size.
Definition ListLegacy (rootUserID : Z) (identityIDs : list Z) (typ : string) (page size : Z) : M (list Document * Z) :=
  list_ (andFilter (receiverFilter rootUserID identityIDs) (typed typ)) page size.

Definition count_step (counts : gmap string Z) (d : Document) : gmap string Z :=
  let category := if String.eqb (nt_Category d) "" then CategorySocial else nt_Category d in
  <[category := default 0 (counts !! category) + 1]> counts.
Definition UnreadCategories (rootUserID : Z) (identityIDs : list Z) : M (gmap string Z) :=
  collection;;
  let! l := map_err (EWrapf "find unread notifications") (Find Document (andFilter (receiverFilter rootUserID identityIDs) unread)) in
  ret (foldl count_step ∅ l).

Definition MarkOneRead (rootUserID : Z) (identityIDs : list Z) (id : string) : M bool :=
  unchecked;;
  let! r := map_err (EWrapf "mark notification read")
    (UpdateOne Document
      (andFilter (receiverFilter rootUserID identityIDs) (fun d => bool_decide (id_key (nt_ID d) ∈ id_key <$> id_variants id)))
      (fun d => Some (set_read d))) in
  ret (0 <? MatchedCount r).
Definition MarkRead (rootUserID : Z) (identityIDs : list Z) (category : string) : M Z :=
  unchecked;;
  let filter := andFilter (receiverFilter rootUserID identityIDs) unread in
  let! r := map_err (EWrapf "mark notifications read")
    (UpdateMany Document (if String.eqb category "" then filter else andFilter filter (categoryFilter category)) set_read) in
  ret (ModifiedCount r).
Definition LatestLegacy (rootUserID : Z) (identityIDs : list Z) (typ : string) : M (option Document) :=
  unchecked;;
  doc_or_nil "find latest notification" (FindFirst Document (andFilter (receiverFilter rootUserID identityIDs) (typed typ)) newest).
Definition MarkLatestLegacyRead (rootUserID : Z) (identityIDs : list Z) (typ : string) : M unit :=
  unchecked;;
  let! r := attempt (FindOneAndUpdate Document (andFilter (receiverFilter rootUserID identityIDs) (typed typ)) newest set_read) in
  match r with
  | Ok _ => ret tt
  | Err e => if errors_Is e no_documents_text then ret tt else throw (EWrapf "mark latest notification read" e)
  end.
End repository.
End NotifyRepo.
