(* ===== verification/NotifyService.v ===== *)
(** * Notifications: the service

    [internal/notification/service.go], one definition per method.  Redis hands what is
    published to the subscribers there are; the subscriber itself is transport.  The
    accounts behind a user are an interface in the code and a field here; [Local] is
    the offset of the process' time zone. *)
From Stdlib Require Import Floats.SpecFloat.
From S2P Require Import Prelude GoString GoTime GoMonad Sql Mongo Platform NotifyModel.

Module NotifyService.
Import Notification NotifyRepo.
Open Scope Z_scope.

Definition ErrInvalidCategory := Bizerr.Param "通知分类不合法".
Definition ErrNotificationNotFound := Bizerr.NotFound "通知不存在".
Definition ErrNotificationType := Bizerr.Param "type不能为空".

Definition normalizePage (page size : Z) : Z * Z :=
  let page := if page <=? 0 then 1 else page in
  let size := if size <=? 0 then 15 else size in
  (page, if 100 <? size then 100 else size).

(** [json.Marshal] refuses a number that is none. *)
Fixpoint marshals (v : json) : bool :=
  match v with
  | JNum (S754_infinity _ | S754_nan) => false
  | JArr l => forallb marshals l
  | JObj fields => forallb (fun kv => marshals kv.2) fields
  | _ => true
  end.

Section service.
Context {E : Env} {G : MongoServer}.
Notation M := (M (DB G)).

Record IdentityResolver := mkResolver { ResolveRootUserID : Z -> M Z; ListIdentityIDs : Z -> M (list Z) }.
Record Service := mkService { redis : bool; identities : option IdentityResolver; Local : Z }.
Context (s : Service).

Definition identityIDs (rootUserID : Z) : M (list Z) :=
  if rootUserID <=? 0 then throw (Bizerr.Param "主账号参数错误")
  else
    match identities s with
    | None => ret [rootUserID]
    | Some r =>
      let! ids := internal "查询账号身份失败" (ListIdentityIDs r rootUserID) in
      ret (if bool_decide (ids = []) then [rootUserID] else ids)
    end.

(** A failure is only logged. *)
Definition publish (doc : Document) : M unit :=
  if negb (redis s) then ret tt
  else
    let event := mkBroadcast (nt_ReceiverRootUserID doc) (nt_ReceiverID doc) (response doc) (legacyResponse (Local s) doc) in
    if negb (match nt_Extra doc with Some fields => marshals (JObj fields) | None => true end) then ret tt
    else
      let! bad := fault in
      if bad then ret tt else let! x := get_db in put_db {| x with broadcasts := broadcasts x ++ [event] |}.

Definition created_at (t : Z) : M Z := if GoTime.IsZero t then now else ret t.
Definition Create (input : CreateInput) : M (Document * bool) :=
  if (in_ReceiverRootUserID input <=? 0) || negb (validCategory (GoStr.TrimSpace (in_Category input)))
     || String.eqb (GoStr.TrimSpace (in_EventType input)) ""
  then throw (Bizerr.Param "通知参数错误")
  else
    let! createdTime := created_at (in_CreatedTime input) in
    let! n := Generate in
    let doc := mkDocument (IdStr (GoStr.FormatInt n)) (GoStr.TrimSpace (in_EventID input)) (in_ReceiverRootUserID input)
      (in_ReceiverID input) (in_SenderID input) (in_Category input) (in_EventType input) (in_EventType input) (in_Title input)
      (in_Content input) (in_ResourceType input) (in_ResourceID input) "" "" (in_Extra input) createdTime false in
    let! inserted := Insert doc in
    if negb inserted then ret (doc, false) else publish doc;; ret (doc, true).

Definition CreateLegacy (input : LegacyInput) : M unit :=
  match GoStr.ParseInt (GoStr.TrimSpace (li_TargetUserID input)) with
  | None => throw (Bizerr.Param "通知接收者不合法")
  | Some targetUserID =>
    if targetUserID <=? 0 then throw (Bizerr.Param "通知接收者不合法")
    else
      let! rootUserID :=
        match identities s with
        | None => ret targetUserID
        | Some r =>
          let! resolved := internal "查询通知主账号失败" (ResolveRootUserID r targetUserID) in
          ret (if 0 <? resolved then resolved else targetUserID)
        end in
      let! createdTime := created_at (li_CreatedTime input) in
      let eventID := if 0 <? li_EventID input then ("mq:" ++ GoStr.FormatInt (li_EventID input))%string else "" in
      let! n := Generate in
      let doc := mkDocument (IdStr (GoStr.FormatInt n)) eventID rootUserID (li_TargetUserID input) (li_SenderUserID input)
        CategorySocial (li_Type input) (li_Type input) "" (li_Content input) "" "" (li_TopicID input) (li_CommentID input)
        None createdTime false in
      let! inserted := Insert doc in
      if negb inserted then ret tt else publish doc
  end.

Definition List (rootUserID : Z) (category : string) (page size : Z) : M (Pagination.PageResult Response) :=
  if rootUserID <=? 0 then throw (Bizerr.Param "用户参数错误")
  else
    let category := GoStr.TrimSpace category in
    if negb (String.eqb category "") && negb (validCategory category) then throw ErrInvalidCategory
    else
      let '(page, size) := normalizePage page size in
      let! ids := identityIDs rootUserID in
      let! r := internal "查询通知失败" (NotifyRepo.List rootUserID ids category page size) in
      ret (Pagination.NewPageResult (response <$> r.1) r.2 page size).

Definition zero_step (counts : gmap string Z) (category : string) : gmap string Z :=
  match counts !! category with Some _ => counts | None => <[category := 0]> counts end.
Definition UnreadCounts (rootUserID : Z) : M (gmap string Z) :=
  let! ids := identityIDs rootUserID in
  let! counts := internal "查询通知未读数失败" (UnreadCategories rootUserID ids) in
  ret (foldl zero_step counts categories).

Definition MarkOneRead (rootUserID : Z) (id : string) : M unit :=
  if String.eqb (GoStr.TrimSpace id) "" then throw (Bizerr.Param "通知ID不能为空")
  else
    let! ids := identityIDs rootUserID in
    let! ok := internal "更新通知已读状态失败" (NotifyRepo.MarkOneRead rootUserID ids id) in
    if negb ok then throw ErrNotificationNotFound else ret tt.

Definition MarkRead (rootUserID : Z) (category : string) : M Z :=
  let category := GoStr.TrimSpace category in
  if negb (String.eqb category "") && negb (validCategory category) then throw ErrInvalidCategory
  else
    let! ids := identityIDs rootUserID in
    internal "更新通知已读状态失败" (NotifyRepo.MarkRead rootUserID ids category).

(** An empty list comes without its page. *)
Definition ListLegacy (currentUserID rootUserID : Z) (typ : string) (page size : Z)
    : M (list LegacyResponse + Pagination.PageResult LegacyResponse) :=
  if String.eqb (GoStr.TrimSpace typ) "" then throw ErrNotificationType
  else
    let '(page, size) := normalizePage page size in
    let! ids := identityIDs rootUserID in
    let ids := (ids ++ [currentUserID])%list in
    let! r := internal "查询通知失败" (NotifyRepo.ListLegacy rootUserID ids typ page size) in
    let items := legacyResponse 0 <$> r.1 in
    if bool_decide (items = []) then ret (inl [])
    else
      internal "更新通知已读状态失败" (MarkLatestLegacyRead rootUserID ids typ);;
      ret (inr (Pagination.NewPageResult items r.2 page size)).

Definition LatestLegacy (currentUserID rootUserID : Z) (typ : string) : M (option LegacyResponse) :=
  if String.eqb (GoStr.TrimSpace typ) "" then throw ErrNotificationType
  else
    let! ids := identityIDs rootUserID in
    let! doc := internal "查询最新通知失败" (NotifyRepo.LatestLegacy rootUserID (ids ++ [currentUserID])%list typ) in
    ret (legacyResponse 0 <$> doc).
Definition HaveUnreadLegacy (currentUserID rootUserID : Z) (typ : string) : M bool :=
  let! latest := LatestLegacy currentUserID rootUserID typ in
  ret (match latest with Some d => negb (lg_IsRead d) | None => false end).
End service.
End NotifyService.
