(* ===== verification/NotifyProps.v ===== *)
(** * Notifications: once per event, and what reading does

    The documents grow and are marked as read, nothing else happens to them; the
    broadcasts follow the documents.  [NotifyProps] concludes that an event is stored
    and published once however often it is delivered, and says what marking a category
    as read does.  [NotifyDemo] is a run, [NotifyFindings] replays defects. *)
From S2P Require Import Prelude GoString GoTime GoMonad Sql Safe Mongo Platform NotifyModel NotifyService.

Module NotifyProps.
Import Safe.
Import Notification NotifyRepo NotifyService.
Open Scope Z_scope.

(** ** The state *)
Definition bc_key (b : Broadcast) : Z := id_key (IdStr (rs_ID (bc_Notification b))).
(** A broadcast is about a stored document, and about one of its own. *)
Record noted (s : State) : Prop := {
  nd_stored : forall b, b ∈ published s -> is_Some (documents s !! bc_key b);
  nd_once : NoDup (bc_key <$> published s);
  nd_event : forall i j d e, documents s !! i = Some d -> documents s !! j = Some e -> i <> j -> same_event d e = false;
}.
(** What may change in a document. *)
Definition only_read (d d' : Document) : Prop := d' = d \/ d' = set_read d.
(** The documents are those of before, up to the mark, and the broadcasts the same. *)
Definition marked (s s' : State) : Prop :=
  (forall k, option_Forall2 only_read (documents s !! k) (documents s' !! k)) /\ published s' = published s.
(** A new document, perhaps with its broadcast. *)
Definition notified (d : Document) (s s' : State) : Prop :=
  documents s !! ent_id d = None /\ (forall k e, documents s !! k = Some e -> same_event d e = false /\ same_event e d = false) /\
  documents s' = <[ent_id d := d]> (documents s) /\
  (published s' = published s \/ exists b, published s' = (published s ++ [b])%list /\ bc_key b = ent_id d).

Lemma marked_refl s : marked s s.
Proof. split; [|done]. intros k. destruct (documents s !! k); constructor. by left. Qed.
Lemma same_event_read d e d' e' : only_read d d' -> only_read e e' -> same_event d' e' = same_event d e.
Proof. intros [->| ->] [->| ->]; done. Qed.
Lemma marked_back s s' k d' : marked s s' -> documents s' !! k = Some d' -> exists d, documents s !! k = Some d /\ only_read d d'.
Proof. intros [Hm _] Hk. specialize (Hm k). rewrite Hk in Hm. inversion Hm. eauto. Qed.
Lemma noted_marked s s' : marked s s' -> noted s -> noted s'.
Proof.
  intros Hm [H1 H2 H3]. pose proof Hm as [Hd Hp]. split; rewrite ?Hp; [|done|].
  - intros b Hb. destruct (H1 b Hb) as [d Hk]. specialize (Hd (bc_key b)). rewrite Hk in Hd. inversion Hd. eauto.
  - intros i j d e Hi Hj Hne. destruct (marked_back _ _ _ _ Hm Hi) as (d0 & Hi0 & Ho), (marked_back _ _ _ _ Hm Hj) as (e0 & Hj0 & Ho').
    rewrite (same_event_read d0 e0) by done. by eapply H3.
Qed.
Lemma noted_notified d s s' : notified d s s' -> noted s -> noted s'.
Proof.
  intros (Hn & He & Hd & Hp) [H1 H2 H3].
  assert (Hthere : forall k, is_Some (documents s !! k) -> is_Some (documents s' !! k)).
  { intros k Hk. rewrite Hd. apply lookup_insert_is_Some'. by right. }
  split.
  - intros b Hb. destruct Hp as [Hp|(x & Hp & Hx)]; rewrite Hp in Hb; [by apply Hthere, H1|].
    apply elem_of_app in Hb as [Hb|Hb]; [by apply Hthere, H1|]. apply list_elem_of_singleton in Hb as ->.
    rewrite Hd, Hx, lookup_insert_eq. eauto.
  - destruct Hp as [->|(x & -> & Hx)]; [done|]. rewrite fmap_app. apply NoDup_app. split_and!; [done| |apply NoDup_singleton].
    intros k Hk Hk'. simpl in Hk'. apply list_elem_of_singleton in Hk'. apply list_elem_of_fmap in Hk as (b & -> & Hb).
    destruct (H1 b Hb) as [y Hy]. congruence.
  - intros i j a b. rewrite Hd, !lookup_insert. repeat case_decide; intros Hi Hj Hne; simplify_eq; try done.
    + by eapply He.
    + by eapply He.
    + by eapply H3.
Qed.

(** ** Requests *)
Inductive request :=
| NCreate (input : CreateInput)
| NLegacy (input : LegacyInput)
| NList (root : Z) (category : string) (page size : Z)
| NUnread (root : Z)
| NMarkOne (root : Z) (id : string)
| NMark (root : Z) (category : string)
| NListLegacy (current root : Z) (typ : string) (page size : Z)
| NLatest (current root : Z) (typ : string).

Section requests.
Context {E : Env} {G : MongoServer}.
Implicit Types (w : World (DB G)).
Context (s : @Service G).

Definition serve (q : request) w : World (DB G) :=
  match q with
  | NCreate i => (Create s i w).2
  | NLegacy i => (CreateLegacy s i w).2
  | NList u c p n => (List s u c p n w).2
  | NUnread u => (UnreadCounts s u w).2
  | NMarkOne u id => (MarkOneRead s u id w).2
  | NMark u c => (MarkRead s u c w).2
  | NListLegacy c u t p n => (ListLegacy s c u t p n w).2
  | NLatest c u t => (LatestLegacy s c u t w).2
  end.
Inductive history w0 : World (DB G) -> Prop :=
| history_start : history w0 w0
| history_step q w : history w0 w -> history w0 (serve q w).

(** The account module does not write the notifications. *)
Definition honest : Prop := forall r, identities s = Some r ->
  (forall u, quiet (ResolveRootUserID r u)) /\ (forall u, quiet (ListIdentityIDs r u)).
Context (Hh : honest).

Lemma st_same w w' : w_db w' = w_db w -> st w' = st w.
Proof. unfold st. by intros ->. Qed.
Lemma quiet_identityIDs u : quiet (identityIDs s u).
Proof.
  unfold identityIDs. destruct (_ <=? _); [apply quiet_throw|]. destruct (identities s) as [r|] eqn:Er; [|apply quiet_ret].
  apply quiet_bind; [|by intros]. apply quiet_map_err. by apply (Hh r Er).
Qed.
Lemma reads_collection : reads (collection : M (DB G) unit).
Proof. apply reads_bind; [done|]. intros x. by destruct (no_collection x). Qed.
Lemma reads_unchecked : reads (unchecked : M (DB G) unit).
Proof. apply reads_bind; [done|]. intros x. by destruct (no_collection x). Qed.
Lemma reads_docs p : reads (Find Document p : M (DB G) _).
Proof. apply (reads_find (D := mongo_engine)). Qed.
Lemma reads_list_ f p n : reads (list_ f p n : M (DB G) _).
Proof.
  apply reads_bind; [apply reads_collection|]. intros _. apply reads_bind; [apply reads_map_err, (reads_count (D := mongo_engine))|].
  intros t. apply reads_bind; [|done]. apply reads_map_err. unfold FindPage. destruct (_ <? _); [done|]. by apply reads_bind; [apply reads_docs|].
Qed.
Lemma reads_LatestLegacy u ids t : reads (NotifyRepo.LatestLegacy u ids t : M (DB G) _).
Proof.
  apply reads_bind; [apply reads_unchecked|]. intros _. unfold doc_or_nil. apply reads_bind.
  - apply reads_attempt, reads_bind; [apply reads_docs|]. intros l. by destruct (newest l).
  - intros [x|e]; [done|]. by destruct (errors_Is _ _).
Qed.

(** *** Marks *)
Lemma set_read_index d : same_index Document d (set_read d).
Proof. by split. Qed.
Lemma docs_marked w w' m : docs_are Document m w w' -> (forall k, option_Forall2 only_read (documents (st w) !! k) (m !! k)) ->
  marked (st w) (st w').
Proof. intros (Ha & _ & _) Hm. unfold st. rewrite Ha. by split. Qed.
Lemma mark_one w d k : documents (st w) !! ent_id d = Some d ->
  option_Forall2 only_read (documents (st w) !! k) (<[ent_id d := set_read d]> (documents (st w)) !! k).
Proof.
  intros Hd. rewrite lookup_insert. case_decide as Hk; [subst k; rewrite Hd; constructor; by right|].
  destruct (documents (st w) !! k); constructor. by left.
Qed.
Lemma mark_many w p k : option_Forall2 only_read (documents (st w) !! k) (upd_view p set_read (documents (st w)) !! k).
Proof. rewrite lookup_upd_view. destruct (documents (st w) !! k) as [d|]; constructor. destruct (p d); [by right|by left]. Qed.

Lemma newest_perm l : newest l ≡ₚ l.
Proof. apply order_by_perm. Qed.

Lemma wp_repo_MarkRead u ids c (Q : res Z -> World (DB G) -> Prop) w :
  let p := if String.eqb c "" then andFilter (receiverFilter u ids) unread
           else andFilter (andFilter (receiverFilter u ids) unread) (categoryFilter c) in
  (forall w', documents (st w') = upd_view p set_read (documents (st w)) -> published (st w') = published (st w) ->
     Q (Ok (amount p (documents (st w)))) w') ->
  (forall e w', st w' = st w -> Q (Err e) w') ->
  wp (NotifyRepo.MarkRead u ids c) Q w.
Proof.
  intros p Hok Herr. unfold NotifyRepo.MarkRead. cbv zeta. fold p.
  apply wp_bind, wp_bind, wp_get_db. cbv beta iota. destruct (no_collection _); [wp_step; by apply Herr|wp_step].
  apply wp_bind, wp_map_err, (wp_UpdateMany_indexed Document); [apply set_read_index|intros _; by apply Herr|].
  intros r w' Hn (Ha & _ & _). cbv beta iota. wp_step. rewrite Hn.
  assert (Hp : amount (fun r => p r && bool_decide (set_read r <> r)) (cv Document w) = amount p (documents (st w))).
  { apply amount_ext. intros k d _. destruct (p d) eqn:Hp; [|done]. simpl. apply bool_decide_true. intros He.
    assert (Hu : unread d = true). { unfold p, andFilter in Hp. destruct (String.eqb c ""); bools; done. }
    unfold unread in Hu. rewrite <- He in Hu. done. }
  rewrite Hp. apply Hok; unfold st; by rewrite Ha.
Qed.
Lemma MarkRead_marked u c w : wp (MarkRead s u c) (fun _ w' => marked (st w) (st w')) w.
Proof.
  unfold MarkRead. cbv zeta. apply wp_if; intros _; [wp_step; apply marked_refl|].
  apply wp_bind, wp_quiet_db; [apply quiet_identityIDs|]. intros [ids|e] w1 H1%st_same; [|rewrite H1; apply marked_refl].
  apply wp_map_err, wp_repo_MarkRead.
  - intros w' Hd Hp. rewrite H1 in *. split; [|done]. intros k. rewrite Hd. apply mark_many.
  - intros e w' ->. rewrite H1. apply marked_refl.
Qed.
Lemma MarkOneRead_marked u id w : wp (MarkOneRead s u id) (fun _ w' => marked (st w) (st w')) w.
Proof.
  unfold MarkOneRead. apply wp_if; intros _; [wp_step; apply marked_refl|].
  apply wp_bind, wp_quiet_db; [apply quiet_identityIDs|]. intros [ids|e] w1 H1%st_same; [|rewrite H1; apply marked_refl].
  apply wp_bind, wp_map_err. rewrite <- H1. unfold NotifyRepo.MarkOneRead.
  apply wp_bind, wp_bind, wp_get_db. cbv beta iota. destruct (no_collection _); [wp_step; apply marked_refl|wp_step].
  apply wp_bind, wp_map_err, (wp_UpdateOne_indexed Document); cbv beta iota; [apply set_read_index|intros _; apply marked_refl| |].
  - intros _. repeat wp_step. apply marked_refl.
  - intros d w' Hd _ Hw. wp_step. destruct (negb _); wp_step; (eapply docs_marked; [exact Hw|intros k; by apply mark_one]).
Qed.
Lemma ListLegacy_marked c u t p n w : wp (ListLegacy s c u t p n) (fun _ w' => marked (st w) (st w')) w.
Proof.
  unfold ListLegacy. apply wp_if; intros _; [wp_step; apply marked_refl|]. destruct (normalizePage p n) as [p' n'].
  apply wp_bind, wp_quiet_db; [apply quiet_identityIDs|]. intros [ids|e] w1 H1%st_same; [|rewrite H1; apply marked_refl].
  cbv zeta. apply wp_bind, wp_map_err, wp_reads; [apply reads_list_|]. intros [r|e] w2 H2%st_same _; [|rewrite H2, H1; apply marked_refl].
  rewrite <- H1, <- H2. apply wp_if; intros _; [wp_step; apply marked_refl|]. apply wp_bind, wp_map_err.
  unfold MarkLatestLegacyRead. apply wp_bind, wp_bind, wp_get_db. cbv beta iota.
  destruct (no_collection _); [wp_step; apply marked_refl|wp_step]. apply wp_bind, wp_attempt.
  apply (wp_FindOneAndUpdate Document); cbv beta iota; [apply newest_perm|apply set_read_index|intros _| |].
  - destruct (errors_Is _ _); repeat wp_step; apply marked_refl.
  - repeat wp_step. apply marked_refl.
  - intros d w' Hd _ Hw. repeat wp_step. eapply docs_marked; [exact Hw|intros k; by apply mark_one].
Qed.
Lemma reads_marked {A} (m : M (DB G) A) w : quiet m -> marked (st w) (st (m w).2).
Proof. intros Hm. rewrite (st_same _ _ (Hm w)). apply marked_refl. Qed.
(** *** New documents *)
Definition bears (d : Document) : Prop := exists x, nt_ID d = IdStr x.
Lemma wp_Insert d (Q : res bool -> World (DB G) -> Prop) w :
  (forall w', documents (st w) !! ent_id d = None ->
     (forall k e, documents (st w) !! k = Some e -> same_event d e = false /\ same_event e d = false) ->
     documents (st w') = <[ent_id d := stored d]> (documents (st w)) -> published (st w') = published (st w) -> Q (Ok true) w') ->
  (forall w', st w' = st w ->
     is_Some (documents (st w) !! ent_id d) \/ (exists k e, documents (st w) !! k = Some e /\ (same_event d e = true \/ same_event e d = true)) \/
       @infra_text mongo_engine = @dup_text mongo_engine -> Q (Ok false) w') ->
  (forall e w', st w' = st w -> Q (Err e) w') ->
  wp (Insert d) Q w.
Proof.
  intros Hok Hdup Herr. unfold Insert. apply wp_bind, wp_bind, wp_get_db. cbv beta iota.
  destruct (no_collection _); [wp_step; by apply Herr|wp_step].
  apply wp_bind, wp_attempt. unfold InsertOne. apply (@wp_insert E mongo_engine); cbv beta iota.
  - intros _. destruct (IsDuplicateKeyError _) eqn:Hi; wp_step; [apply Hdup; [done|]|by apply Herr].
    right. right. by apply String.eqb_eq.
  - intros Hc. destruct (IsDuplicateKeyError _); wp_step; [apply Hdup; [done|]|by apply Herr].
    destruct Hc as [Hc|(k & e & Hk & Hc)]; [by left|]. right. left. exists k, e. by split.
  - intros w' (Ha & _ & _) Hn Hc. wp_step. apply Hok; [exact Hn|exact Hc|unfold st; by rewrite Ha|unfold st; by rewrite Ha].
Qed.
Lemma wp_publish d (Q : res unit -> World (DB G) -> Prop) w :
  (forall w', documents (st w') = documents (st w) ->
     published (st w') = published (st w) \/
     (exists b, published (st w') = (published (st w) ++ [b])%list /\ rs_ID (bc_Notification b) = idString (nt_ID d)) -> Q (Ok tt) w') ->
  wp (publish s d) Q w.
Proof.
  intros HQ. unfold publish. apply wp_if; intros _; [wp_step; apply HQ; auto|]. cbv zeta. apply wp_if; intros _; [wp_step; apply HQ; auto|].
  do 2 wp_step. destruct (env_fault _); repeat wp_step; (apply HQ; [done|]); [by left|right].
  eexists. split; [reflexivity|]. simpl. unfold response. by repeat case_match.
Qed.

Definition notes (event : string) w w' : Prop :=
  (st w' = st w \/ exists d, nt_EventID d = event /\ notified d (st w) (st w')).
Lemma notified_stored d x w1 w2 : nt_ID d = IdStr x ->
  documents (st w1) !! ent_id d = None ->
  (forall k e, documents (st w1) !! k = Some e -> same_event d e = false /\ same_event e d = false) ->
  documents (st w2) = <[ent_id d := stored d]> (documents (st w1)) ->
  published (st w2) = published (st w1) \/
    (exists b, published (st w2) = (published (st w1) ++ [b])%list /\ rs_ID (bc_Notification b) = idString (nt_ID d)) ->
  notified (stored d) (st w1) (st w2).
Proof.
  intros Hid Hn He Hd Hp. split_and!; [exact Hn|exact He|exact Hd|]. destruct Hp as [Hp|(b & Hp & Hb)]; [by left|right].
  exists b. split; [done|]. unfold bc_key. rewrite Hb. unfold ent_id. simpl. by rewrite Hid.
Qed.

Lemma Create_notes i w : wp (Create s i) (fun r w' => notes (GoStr.TrimSpace (in_EventID i)) w w') w.
Proof.
  unfold Create. apply wp_if; intros _; [wp_step; by left|]. apply wp_bind.
  apply wp_quiet_db; [unfold created_at; by destruct (GoTime.IsZero _)|]. intros [t|e] w1 H1%st_same; [|by left].
  apply wp_bind, wp_Generate. cbv beta iota zeta. set (d := mkDocument _ _ _ _ _ _ _ _ _ _ _ _ _ _ _ _ _).
  unfold notes. rewrite <- H1. change (st w1) with (st (bump w1)). apply wp_bind, wp_Insert; cbv beta iota.
  - intros w' Hn He Hd Hp. apply wp_bind, wp_publish. intros w2 Hd2 Hp2. wp_step. right. exists (stored d). split; [done|].
    eapply notified_stored; [done|exact Hn|exact He|by rewrite Hd2|by rewrite <- Hp].
  - intros w' Hs _. apply wp_ret. by left.
  - intros e w' Hs. by left.
Qed.
(** The event id of a message of the queue. *)
Definition mq_event (i : LegacyInput) : string :=
  if 0 <? li_EventID i then ("mq:" ++ GoStr.FormatInt (li_EventID i))%string else "".
Definition stored_event (e : string) (x : State) : Prop := exists k d, documents x !! k = Some d /\ nt_EventID d = e.

Lemma CreateLegacy_notes i w :
  wp (CreateLegacy s i) (fun r w' => notes (mq_event i) w w' /\
    (r = Ok tt -> stored_event (mq_event i) (st w') \/
       mq_event i = ""%string \/ (exists n, is_Some (documents (st w) !! id_key (IdStr (GoStr.FormatInt (env_id n))))) \/
       @infra_text mongo_engine = @dup_text mongo_engine)) w.
Proof.
  unfold CreateLegacy. destruct (GoStr.ParseInt _) as [target|]; [|wp_step; split; [by left|done]].
  apply wp_if; intros _; [wp_step; split; [by left|done]|]. apply wp_bind.
  apply wp_quiet_db.
  { destruct (identities s) as [r|] eqn:Er; [|done]. apply quiet_bind; [|by intros]. apply quiet_map_err. by apply (Hh r Er). }
  intros [root|e] w0 H0%st_same; [|split; [by left|done]]. apply wp_bind.
  apply wp_quiet_db; [unfold created_at; by destruct (GoTime.IsZero _)|]. intros [t|e] w1 H1%st_same; [|split; [left; congruence|done]].
  cbv zeta. apply wp_bind, wp_Generate. cbv beta iota. change (if 0 <? li_EventID i then _ else _) with (mq_event i).
  set (d := mkDocument _ _ _ _ _ _ _ _ _ _ _ _ _ _ _ _ _). rewrite H0 in H1. unfold notes. rewrite <- H1. change (st w1) with (st (bump w1)).
  apply wp_bind, wp_Insert; cbv beta iota.
  - intros w' Hn He Hd Hp. apply wp_publish. intros w2 Hd2 Hp2. split.
    + right. exists (stored d). split; [done|]. eapply notified_stored; [done|exact Hn|exact He|by rewrite Hd2|by rewrite <- Hp].
    + intros _. left. exists (ent_id d), (stored d). by rewrite Hd2, Hd, lookup_insert_eq.
  - intros w' Hs Hc. apply wp_ret. split; [by left|]. intros _. destruct Hc as [Hc|[(k & x & Hk & Hc)|Hf]].
    + right. right. left. eexists. exact Hc.
    + destruct (String.eqb_spec (mq_event i) "") as [|Hne]; [auto|]. left. exists k, x. rewrite Hs. split; [exact Hk|].
      unfold same_event in Hc. destruct Hc as [Hc|Hc]; apply andb_prop in Hc as [_ Hc%String.eqb_eq]; [symmetry|]; exact Hc.
    + auto.
  - intros e w' Hs. split; [by left|done].
Qed.

(** ** The invariant over histories *)
Lemma served q w : marked (st w) (st (serve q w)) \/ exists d, notified d (st w) (st (serve q w)).
Proof.
  assert (Hm : forall x, x = st w -> marked (st w) x) by (intros x ->; apply marked_refl).
  destruct q as [i|i|u c p n|u|u id|u c|c u t p n|c u t]; simpl.
  - destruct (Create_notes i w) as [H|(d & _ & H)]; eauto.
  - destruct (CreateLegacy_notes i w) as [[H|(d & _ & H)] _]; eauto.
  - left. apply reads_marked. unfold List. destruct (_ <=? _); [done|]. destruct (_ && _); [done|]. destruct (normalizePage p n).
    apply quiet_bind; [apply quiet_identityIDs|]. intros ids. apply quiet_bind; [|done]. apply quiet_map_err, reads_quiet, reads_list_.
  - left. apply reads_marked. unfold UnreadCounts. apply quiet_bind; [apply quiet_identityIDs|]. intros ids.
    apply quiet_bind; [|done]. apply quiet_map_err, reads_quiet, reads_bind; [apply reads_collection|]. intros _.
    apply reads_bind; [apply reads_map_err, reads_docs|done].
  - left. apply MarkOneRead_marked.
  - left. apply MarkRead_marked.
  - left. apply ListLegacy_marked.
  - left. apply reads_marked. unfold LatestLegacy. destruct (String.eqb _ _); [done|].
    apply quiet_bind; [apply quiet_identityIDs|]. intros ids. apply quiet_bind; [|done]. apply quiet_map_err, reads_quiet, reads_LatestLegacy.
Qed.

Definition no_notifications (x : State) : Prop := documents x = ∅ /\ published x = [].
Lemma noted_history w0 w : no_notifications (st w0) -> history w0 w -> noted (st w).
Proof.
  intros [Hd Hp]. induction 1 as [|q w _ IH].
  - split; rewrite ?Hd, ?Hp; [|constructor|].
    + intros b Hb. by apply not_elem_of_nil in Hb.
    + intros i j d e. by rewrite lookup_empty.
  - destruct (served q w) as [Hm|[d Hn]]; [by eapply noted_marked|by eapply noted_notified].
Qed.
(** ** Once per event *)
(** The broadcast of a document with the event. *)
Definition of_event (x : State) (e : string) (b : Broadcast) : Prop :=
  exists d, documents x !! bc_key b = Some d /\ nt_EventID d = e.
#[local] Instance of_event_dec x e b : Decision (of_event x e b).
Proof.
  destruct (documents x !! bc_key b) as [d|] eqn:Hd; [|right; intros (d & Hd' & _); congruence].
  destruct (decide (nt_EventID d = e)); [left; by exists d|right; intros (d' & Hd' & He); congruence].
Defined.
Lemma amount_single {R} (p : R -> bool) (m : gmap Z R) :
  (forall i j r t, m !! i = Some r -> m !! j = Some t -> p r = true -> p t = true -> i = j) -> amount p m <= 1.
Proof.
  intros Hu. destruct (Z.le_gt_cases (amount p m) 0) as [|Hp]; [lia|]. apply amount_some in Hp as (k & r & Hk & Hr).
  rewrite <- (insert_delete_id m k r Hk), amount_insert_fresh by apply lookup_delete_eq.
  rewrite (proj2 (amount_zero p (base.delete k m))); [destruct (p r); simpl; lia|].
  intros j t [Hne Ht]%lookup_delete_Some. destruct (p t) eqn:Hpt; [|done]. destruct Hne. by eapply Hu.
Qed.
Lemma stored_once e x : noted x -> e <> ""%string -> amount (fun d => String.eqb (nt_EventID d) e) (documents x) <= 1.
Proof.
  intros [_ _ He] Hne. apply amount_single. intros i j d d' Hi Hj Hd%String.eqb_eq Hd'%String.eqb_eq.
  destruct (decide (i = j)) as [|Hij]; [done|]. specialize (He _ _ _ _ Hi Hj Hij). unfold same_event in He.
  rewrite Hd, Hd', String.eqb_refl, andb_true_r in He. apply negb_false_iff, String.eqb_eq in He. congruence.
Qed.
Lemma published_once e x : noted x -> e <> ""%string -> (length (base.filter (of_event x e) (published x)) <= 1)%nat.
Proof.
  intros [_ Ho He] Hne. assert (Hn : NoDup (bc_key <$> base.filter (of_event x e) (published x))).
  { eapply sublist_NoDup; [exact Ho|]. apply fmap_sublist, sublist_filter. }
  assert (Hall : Forall (of_event x e) (base.filter (of_event x e) (published x))).
  { apply Forall_forall. intros b [Hb _]%list_elem_of_filter. exact Hb. }
  destruct (base.filter _ _) as [|b [|b' l]]; [simpl; lia..|]. exfalso.
  inversion Hall as [|?? (d & Hd & E1) Hall']; subst. inversion Hall' as [|?? (d' & Hd' & E2) _]; subst.
  apply NoDup_cons in Hn as [Hk _]. destruct (decide (bc_key b = bc_key b')) as [Heq|Hij]; [apply Hk; rewrite Heq; left|].
  specialize (He _ _ _ _ Hd Hd' Hij). unfold same_event in He. rewrite <- E2, String.eqb_refl, andb_true_r in He.
  apply negb_false_iff, String.eqb_eq in He. congruence.
Qed.

(** C24: An event with an id is stored once and published at most once, whatever requests
    come and however often its message is delivered; delivering it again changes
    nothing, and once a delivery succeeds it is stored, given ids that are fresh and a
    server whose errors tell a duplicate from a failure. *)
Theorem event_notified_once w0 w i :
  no_notifications (st w0) -> history w0 w -> mq_event i <> ""%string ->
  amount (fun d => String.eqb (nt_EventID d) (mq_event i)) (documents (st w)) <= 1 /\
  (length (base.filter (of_event (st w) (mq_event i)) (published (st w))) <= 1)%nat /\
  let '(r, w') := CreateLegacy s i w in
  (stored_event (mq_event i) (st w) -> st w' = st w) /\
  (r = Ok tt -> @infra_text mongo_engine <> @dup_text mongo_engine ->
   (forall n, documents (st w) !! id_key (IdStr (GoStr.FormatInt (env_id n))) = None) -> stored_event (mq_event i) (st w')).
Proof.
  intros Hs Hw Hne. pose proof (noted_history _ _ Hs Hw) as HI. split; [by apply stored_once|]. split; [by apply published_once|].
  pose proof (CreateLegacy_notes i w) as Hc. unfold wp in Hc. destruct (CreateLegacy s i w) as [r w']. simpl in Hc.
  destruct Hc as [Hn Hr]. split.
  - intros (k & d & Hk & Hd). destruct Hn as [Hn|(d' & Hd' & _ & He & _)]; [done|]. exfalso. destruct (He _ _ Hk) as [_ Hx].
    unfold same_event in Hx. rewrite Hd, Hd', String.eqb_refl, andb_true_r in Hx. apply negb_false_iff, String.eqb_eq in Hx. congruence.
  - intros Hok Ht Hf. destruct (Hr Hok) as [H|[H|[[n H]|H]]]; [done|done| |done]. rewrite Hf in H. by destruct H.
Qed.

(** ** Reading *)
(** The account module answers [ids] for the user. *)
Definition answers (u : Z) (ids : list Z) : Prop := forall w, exists w', identityIDs s u w = (Ok ids, w') /\ w_db w' = w_db w.
Definition in_category (c : string) (d : Document) : bool :=
  String.eqb (if String.eqb (nt_Category d) "" then CategorySocial else nt_Category d) c.
Definition unread_in (u : Z) (ids : list Z) (c : string) (x : State) : Z :=
  amount (fun d => receiverFilter u ids d && unread d && in_category c d) (documents x).

Lemma wp_answers u ids (Q : res (list Z) -> World (DB G) -> Prop) w :
  answers u ids -> (forall w', st w' = st w -> Q (Ok ids) w') -> wp (identityIDs s u) Q w.
Proof. intros Ha HQ. unfold wp. destruct (Ha w) as (w' & -> & He). by apply HQ, st_same. Qed.

Lemma count_steps c l m : default 0 (foldl count_step m l !! c) =
  default 0 (m !! c) + Z.of_nat (length (base.filter (fun d => in_category c d = true) l)).
Proof.
  revert m. induction l as [|d l IH]; intros m; [simpl; lia|]. simpl. rewrite IH, filter_cons. unfold count_step, in_category.
  set (k := if String.eqb (nt_Category d) "" then CategorySocial else nt_Category d).
  destruct (String.eqb_spec k c) as [->|Hk].
  - rewrite lookup_insert_eq, decide_True by done. simpl. lia.
  - rewrite lookup_insert_ne, decide_False by done. lia.
Qed.
Lemma zero_steps l m c : foldl zero_step m l !! c = if bool_decide (c ∈ l) then Some (default 0 (m !! c)) else m !! c.
Proof.
  revert m. induction l as [|x l IH]; intros m; [done|]. simpl. rewrite IH. unfold zero_step.
  destruct (decide (x = c)) as [->|Hx].
  - rewrite (bool_decide_true (c ∈ c :: l)) by left. destruct (m !! c) as [n|] eqn:Hm; rewrite ?lookup_insert_eq, ?Hm; simpl;
      by destruct (bool_decide _).
  - assert (Hl : bool_decide (c ∈ x :: l) = bool_decide (c ∈ l)) by (apply bool_decide_ext; rewrite elem_of_cons; naive_solver).
    rewrite Hl. destruct (m !! x); [done|]. by rewrite lookup_insert_ne.
Qed.
Lemma wp_UnreadCounts u ids (Q : res (gmap string Z) -> World (DB G) -> Prop) w :
  answers u ids ->
  (forall m w', (forall c, c ∈ categories -> m !! c = Some (unread_in u ids c (st w))) -> Q (Ok m) w') ->
  (forall e w', Q (Err e) w') -> wp (UnreadCounts s u) Q w.
Proof.
  intros Ha Hok Herr. unfold UnreadCounts. apply wp_bind, (wp_answers u ids); [done|]. intros w1 Hw1. rewrite <- Hw1 in Hok.
  apply wp_bind, wp_map_err. unfold UnreadCategories. apply wp_bind, wp_bind, wp_get_db. cbv beta iota.
  destruct (no_collection _); [wp_step; by apply Herr|wp_step]. apply wp_bind, wp_map_err, wp_Find; [intros _; by apply Herr|].
  intros l Hl. do 2 wp_step. apply Hok. intros c Hc. rewrite zero_steps, bool_decide_true by done. rewrite count_steps, lookup_empty. simpl.
  f_equal. unfold unread_in. rewrite (amount_filter _ (fun d => in_category c d = true) _ _ Hl). apply amount_ext.
  intros k d _. unfold andFilter. f_equal. destruct (in_category c d) eqn:Hx; [by apply bool_decide_true|by apply bool_decide_false].
Qed.

(** C25: Marking a category as read returns how many notifications of it were unread, what
    the counters said; they say zero after it, those of the other categories are as
    before, and no notification of another user changes. *)
Theorem mark_read_clears u ids category w n w1 :
  answers u ids -> MarkRead s u category w = (Ok n, w1) ->
  let c := GoStr.TrimSpace category in
  let mine d := receiverFilter u ids d && unread d && (String.eqb c "" || in_category c d) in
  documents (st w1) = upd_view mine set_read (documents (st w)) /\ published (st w1) = published (st w) /\
  n = amount mine (documents (st w)) /\
  (c <> ""%string -> n = unread_in u ids c (st w)) /\
  forall m w2, UnreadCounts s u w1 = (Ok m, w2) ->
    forall k, k ∈ categories -> m !! k = Some (if String.eqb c "" || String.eqb c k then 0 else unread_in u ids k (st w)).
Proof.
  intros Ha Hrun c mine.
  enough (Hwp : wp (MarkRead s u category) (fun r w1 => forall n, r = Ok n ->
    documents (st w1) = upd_view mine set_read (documents (st w)) /\ published (st w1) = published (st w) /\
    n = amount mine (documents (st w)) /\ (c <> ""%string -> n = unread_in u ids c (st w))) w).
  { unfold wp in Hwp. rewrite Hrun in Hwp. cbn [fst snd] in Hwp. destruct (Hwp n eq_refl) as (Hd & Hp & Hn & Hc). split_and!; [done..|].
    intros m w2 Hu k Hk. assert (Hm : wp (UnreadCounts s u) (fun r _ => forall m, r = Ok m ->
      forall c, c ∈ categories -> m !! c = Some (unread_in u ids c (st w1))) w1).
    { apply (wp_UnreadCounts u ids); [done| |done]. by intros x w' Hx y [= <-]. }
    unfold wp in Hm. rewrite Hu in Hm. cbn [fst snd] in Hm. rewrite (Hm m eq_refl k Hk). f_equal. unfold unread_in. rewrite Hd.
    destruct (String.eqb c "" || String.eqb c k) eqn:Hck.
    - apply amount_zero. intros j d. rewrite lookup_upd_view. intros (d0 & _ & ->)%fmap_Some. destruct (mine d0) eqn:Hmine.
      + change (unread (set_read d0)) with false. by rewrite andb_false_r.
      + unfold mine in Hmine. destruct (receiverFilter u ids d0); [|done]. destruct (unread d0); [|done]. simpl in *.
        apply orb_false_iff in Hmine as [H1 H2]. rewrite H1 in Hck. simpl in Hck. by apply String.eqb_eq in Hck as <-.
    - apply amount_upd_view. intros j d _ Hmine. unfold mine in Hmine. change (in_category k (set_read d)) with (in_category k d).
      assert (Hx : in_category k d = false).
      { apply orb_false_iff in Hck as [H1 H2]. rewrite H1 in Hmine. apply andb_prop in Hmine as [_ Hmine]. simpl in Hmine.
        unfold in_category in *. apply String.eqb_eq in Hmine. by rewrite Hmine. }
      by rewrite Hx, !andb_false_r. }
  unfold MarkRead. fold c. cbv zeta. apply wp_if; intros Hv; [done|]. apply wp_bind, (wp_answers u ids); [done|]. intros w0 Hw0. rewrite <- Hw0.
  apply wp_map_err, wp_repo_MarkRead; [|done].
  assert (Hsame : forall d, (if String.eqb c "" then andFilter (receiverFilter u ids) unread
      else andFilter (andFilter (receiverFilter u ids) unread) (categoryFilter c)) d = mine d).
  { intros d. unfold mine, andFilter. destruct (String.eqb c "") eqn:Hc; [by rewrite andb_true_r|]. f_equal.
    unfold categoryFilter, in_category. destruct (String.eqb_spec (nt_Category d) "") as [->|]; [|by rewrite andb_false_r, orb_false_r].
    rewrite andb_true_r, (String.eqb_sym "" c), Hc. simpl. apply String.eqb_sym. }
  intros w1' Hd Hp x [= <-]. split_and!; [|done| |].
  - rewrite Hd. apply upd_view_ext. intros k d _. apply Hsame.
  - apply amount_ext. intros k d _. apply Hsame.
  - intros Hne. apply amount_ext. intros k d _. rewrite Hsame. unfold mine. by rewrite (proj2 (String.eqb_neq c "") Hne).
Qed.
End requests.
End NotifyProps.

(** ** A concrete run *)
Module NotifyDemo.
Import Safe Notification NotifyRepo NotifyService NotifyProps.
Open Scope Z_scope.

(** The clock advances one second per step; no statement fails. *)
#[export] Instance notify_env : Env := {
  env_now t := (1700000000 * GoTime.Second + Z.of_nat t * GoTime.Second)%Z;
  env_id t := (1000 + Z.of_nat t)%Z;
  env_fault _ := false;
}.
#[export] Instance notify_mongo : MongoServer := gmap_sql.
Notation NotifyDB := (Notification.DB notify_mongo).
(** No other identities, in Shanghai. *)
Definition notify_service : @Service notify_mongo := mkService true None GoTime.Shanghai.
Lemma notify_honest : honest notify_service.
Proof. intros r [=]. Qed.
Definition notify_start : World NotifyDB := mkWorld (mkDB false (gempty _) []) 0 [].
Definition run (qs : list request) : World NotifyDB := foldl (fun w q => serve notify_service q w) notify_start qs.
Lemma notify_history_run qs : history notify_service notify_start (run qs).
Proof.
  unfold run. induction qs as [|q qs IH] using rev_ind; [apply history_start|]. rewrite foldl_snoc. by apply history_step.
Qed.
Lemma notify_start_empty : no_notifications (st notify_start).
Proof. done. Qed.

(** A like is delivered twice, an order is paid. *)
Definition liked : LegacyInput := mkLegacyInput "7" "8" "like" "" "65a0" "" GoTime.zero_time 42.
Definition paid (category : string) : CreateInput :=
  mkCreateInput 7 "7" "" category "order_paid" "paid" "" "order" "3" None "order:3:paid" (1700000000 * GoTime.Second).
Definition delivered : World NotifyDB := run [NLegacy liked; NLegacy liked; NCreate (paid "marketplace")].

Lemma event_notified_once_witness :
  amount (fun d => String.eqb (nt_EventID d) "mq:42") (documents (st delivered)) = 1 /\
  length (published (st delivered)) = 2%nat /\
  let '(r, w') := CreateLegacy notify_service liked delivered in
  r = Ok tt /\ (stored_event "mq:42" (st delivered) -> st w' = st delivered).
Proof.
  pose proof (event_notified_once notify_service notify_honest notify_start delivered liked notify_start_empty
    (notify_history_run _) ltac:(vm_compute; discriminate)) as (_ & _ & H).
  split; [vm_compute; reflexivity|]. split; [vm_compute; reflexivity|].
  assert (Hr : (CreateLegacy notify_service liked delivered).1 = Ok tt) by (vm_compute; reflexivity).
  destruct (CreateLegacy notify_service liked delivered) as [r w']. split; [exact Hr|exact (proj1 H)].
Defined.

Definition cleared : res Z * World NotifyDB := MarkRead notify_service 7 " marketplace " delivered.
Lemma mark_read_clears_witness :
  cleared.1 = Ok 1 /\
  forall m w2, UnreadCounts notify_service 7 cleared.2 = (Ok m, w2) ->
    m !! CategoryMarketplace = Some 0 /\ m !! CategorySocial = Some (unread_in 7 [7] CategorySocial (st delivered)).
Proof.
  assert (Ha : answers notify_service 7 [7]) by (intros w; exists w; split; reflexivity).
  assert (Hc : cleared.1 = Ok 1) by (vm_compute; reflexivity). split; [exact Hc|].
  assert (Hrun : MarkRead notify_service 7 " marketplace " delivered = (Ok 1, cleared.2)).
  { rewrite <- Hc. unfold cleared. by destruct (MarkRead _ _ _ _). }
  destruct (mark_read_clears notify_service 7 [7] " marketplace " delivered 1 cleared.2 Ha Hrun) as (_ & _ & _ & _ & H).
  intros m w2 Hm. split.
  - exact (H m w2 Hm CategoryMarketplace ltac:(apply list_elem_of_In; simpl; auto 10)).
  - exact (H m w2 Hm CategorySocial ltac:(apply list_elem_of_In; simpl; auto 10)).
Defined.
End NotifyDemo.

(** ** Behaviours worth knowing *)
Module NotifyFindings.
Import Safe Notification NotifyRepo NotifyService NotifyProps NotifyDemo.
Open Scope Z_scope.

(** [Create] checks the category without its spaces and stores it with them: the
    notification is in no category, and the counters have one more. *)
Theorem untrimmed_category_is_lost :
  let w := run [NCreate (paid " marketplace")] in
  (Pagination.pg_Total <$> match (List notify_service 7 "marketplace" 1 15 w).1 with Ok r => Some r | Err _ => None end) = Some 0 /\
  match (UnreadCounts notify_service 7 w).1 with
  | Ok m => m !! CategoryMarketplace = Some 0 /\ m !! (" marketplace" : string) = Some 1
  | Err _ => False
  end.
Proof. vm_compute. auto. Qed.

(** The driver reads dates in UTC: in the morning the list shows the day before the
    one that was broadcast. *)
Theorem list_shows_another_day :
  let morning := (1699999200 * GoTime.Second)%Z in
  let d := mkDocument (IdStr "1") "" 7 "7" "8" CategorySocial "like" "like" "" "" "" "" "" "" None morning false in
  lg_CreatedTime (legacyResponse GoTime.Shanghai d) = "2023-11-15"%string /\
  lg_CreatedTime (legacyResponse 0 (stored d)) = "2023-11-14"%string.
Proof. vm_compute. auto. Qed.

(** Without MongoDB the lists fail properly, the marks through a nil pointer. *)
Theorem marks_need_a_collection :
  let w : World NotifyDB := mkWorld (mkDB true (gempty _) []) 0 [] in
  (List notify_service 7 "" 1 15 w).1 = Err (Bizerr.InternalWrap "查询通知失败" (ENew "notification mongo collection not initialized")) /\
  (MarkRead notify_service 7 "" w).1 = Err (Bizerr.InternalWrap "更新通知已读状态失败" nil_pointer).
Proof. vm_compute. auto. Qed.
End NotifyFindings.
