(* ===== verification/AgentModel.v ===== *)
(** * Agent chat: data model, commands and programs

    [internal/agentchat/model.go], [service_store.go] and [service_text.go], the messages
    of [agentv1] and the scripts of [service_limits.go].  The turns of a user run at the
    same time, so a method of the service is a [prog]: a tree of commands, each of which
    is one statement, one Redis command, one call of the agent or one event sent to the
    client, with the code that follows for every answer.  [exec] says what a command does
    to the world; [trace] interleaves the commands of any number of programs. *)
From Stdlib Require Import Floats.SpecFloat.
From S2P Require Import Prelude GoString GoTime GoMonad Sql RedisStr.

(** ** Programs *)
Module Prog.
Section prog.
Context {Cmd : Type} {resp : Cmd -> Type}.

Inductive prog (A : Type) : Type :=
| Ret (r : res A)
| Act (c : Cmd) (k : res (resp c) -> prog A).
Arguments Ret {A} r.
Arguments Act {A} c k.

Fixpoint pbind {A B} (p : prog A) (f : A -> prog B) : prog B :=
  match p with
  | Ret (Ok a) => f a
  | Ret (Err e) => Ret (Err e)
  | Act c k => Act c (fun r => pbind (k r) f)
  end.
Fixpoint pattempt {A} (p : prog A) : prog (res A) :=
  match p with
  | Ret r => Ret (Ok r)
  | Act c k => Act c (fun r => pattempt (k r))
  end.
Fixpoint pmap_err {A} (f : error -> error) (p : prog A) : prog A :=
  match p with
  | Ret (Ok a) => Ret (Ok a)
  | Ret (Err e) => Ret (Err (f e))
  | Act c k => Act c (fun r => pmap_err f (k r))
  end.
Definition act (c : Cmd) : prog (resp c) := Act c Ret.
Definition pret {A} (a : A) : prog A := Ret (Ok a).
Definition pthrow {A} (e : error) : prog A := Ret (Err e).
(** [defer release()] around the rest of a function. *)
Definition defer {A} (release : prog unit) (body : prog A) : prog A :=
  pbind (pattempt body) (fun r => pbind (pattempt release) (fun _ => Ret r)).

(** *** Interleavings *)
Context {S : Type} (exec : forall c, M S (resp c)).

(** Program [who] ran [cmd] at step [tick] of the world. *)
Record Label := mkLabel { who : nat; tick : nat; cmd : Cmd; answer : res (resp cmd) }.

Section programs.
Context {A : Type}.
Implicit Types (ps : list (prog A)) (w : World S).

Inductive step : list (prog A) -> World S -> Label -> list (prog A) -> World S -> Prop :=
| step_act i ps w c k r w' :
    ps !! i = Some (Act c k) -> exec c w = (r, w') ->
    step ps w (mkLabel i (w_tick w) c r) (<[i := k r]> ps) w'.
Inductive trace : list (prog A) -> World S -> list Label -> list (prog A) -> World S -> Prop :=
| trace_nil ps w : trace ps w [] ps w
| trace_snoc ps w tr ps' w' l ps'' w'' :
    trace ps w tr ps' w' -> step ps' w' l ps'' w'' -> trace ps w (tr ++ [l]) ps'' w''.

(** A schedule picks the next program to run a command. *)
Fixpoint play (schedule : list nat) (tr : list Label) ps w : list Label * list (prog A) * World S :=
  match schedule with
  | [] => (tr, ps, w)
  | i :: schedule =>
    match ps !! i with
    | Some (Act c k) =>
      let '(r, w') := exec c w in play schedule (tr ++ [mkLabel i (w_tick w) c r]) (<[i := k r]> ps) w'
    | _ => play schedule tr ps w
    end
  end.

Lemma play_trace schedule tr ps w ps0 w0 :
  trace ps0 w0 tr ps w -> let '(tr', ps', w') := play schedule tr ps w in trace ps0 w0 tr' ps' w'.
Proof.
  revert tr ps w. induction schedule as [|i schedule IH]; intros tr ps w Ht; simpl; [done|].
  destruct (ps !! i) as [[r|c k]|] eqn:Hi; [by apply IH| |by apply IH].
  destruct (exec c w) as [r w'] eqn:He. apply IH. eapply trace_snoc; [exact Ht|]. by apply step_act.
Qed.
Lemma play_runs schedule ps w : let '(tr, ps', w') := play schedule [] ps w in trace ps w tr ps' w'.
Proof. apply play_trace, trace_nil. Qed.
End programs.
End prog.
Arguments prog {Cmd} resp A.
Arguments Ret {Cmd resp A} r.
Arguments Act {Cmd resp A} c k.
Arguments Label {Cmd} resp.

Declare Scope prog_scope.
Delimit Scope prog_scope with prog.
Notation "'let!' x := m 'in' k" := (pbind m (fun x => k))
  (at level 10, x pattern, m at level 100, k at level 200) : prog_scope.
Notation "m ;; k" := (pbind m (fun _ => k))
  (at level 100, k at level 200, right associativity) : prog_scope.
End Prog.

(** ** The messages of the agent *)
Module Agentv1.
Open Scope Z_scope.

(** An enum is a number of 32 bits, known or not. *)
Definition Domain_name : list (Z * string) :=
  [(0, "DOMAIN_UNSPECIFIED"); (1, "DOMAIN_CHAT"); (2, "DOMAIN_MATCHMAKER"); (3, "DOMAIN_INTERVIEW")]%string.
Definition Intent_name : list (Z * string) :=
  [(0, "INTENT_UNSPECIFIED"); (1, "INTENT_CHAT_GENERAL"); (2, "INTENT_MATCHMAKER"); (5, "INTENT_INTERVIEW_MOCK")]%string.
Definition Mode_name : list (Z * string) :=
  [(0, "MODE_UNSPECIFIED"); (1, "MODE_FASTPATH"); (2, "MODE_GENERATE"); (3, "MODE_DEGRADED")]%string.
Definition ErrorCode_name : list (Z * string) :=
  [(0, "ERROR_CODE_UNSPECIFIED"); (1, "ERROR_CODE_INVALID_ARGUMENT"); (2, "ERROR_CODE_UNAUTHORIZED");
   (3, "ERROR_CODE_SESSION_NOT_FOUND"); (4, "ERROR_CODE_UNIMPLEMENTED_CAPABILITY");
   (5, "ERROR_CODE_MODEL_TEMPORARILY_UNAVAILABLE"); (6, "ERROR_CODE_INTERNAL_DEPENDENCY_FAILURE");
   (7, "ERROR_CODE_REQUEST_IN_PROGRESS"); (8, "ERROR_CODE_INTERNAL")]%string.
(** [String()] of an enum, which the protobuf runtime implements: a known number has its
    name. *)
Class ProtoEnum := {
  EnumStringOf : list (Z * string) -> Z -> string;
  EnumStringOf_known : forall names n x, (list_to_map names : gmap Z string) !! n = Some x -> EnumStringOf names n = x;
}.
Record Reference := mkReference { ref_Source : string; ref_Ref : string; ref_Score : spec_float }.
Record HandleTurnRequest := mkHandleTurnRequest {
  tq_RequestId : string; tq_UserId : string; tq_SessionId : string; tq_Utterance : string;
  tq_Metadata : gmap string string; tq_DeadlineMs : Z;
}.
Record HandleTurnResponse := mkHandleTurnResponse {
  ts_Domain : Z; ts_Intent : Z; ts_Mode : Z; ts_AnswerText : string; ts_TraceId : string; ts_Degraded : bool;
  ts_DegradeReason : string; ts_ErrorCode : Z; ts_References : list Reference;
}.
(** What a stream sends; [NoEvent] is a message none of whose alternatives is set. *)
Inductive StreamHandleTurnEvent :=
| Status (stage message : string)
| Delta (text : string)
| FinalResponse (resp : HandleTurnResponse)
| StreamError (message traceID : string)
| NoEvent.
Record ConversationTurn := mkConversationTurn {
  ct_SequenceNo : Z; ct_Role : string; ct_Content : string; ct_CreatedAt : string; ct_Domain : Z;
}.
Record GetSessionHistoryRequest := mkGetSessionHistoryRequest {
  hq_UserId : string; hq_SessionId : string; hq_BeforeSequenceNo : Z; hq_Limit : Z;
}.
Record GetSessionHistoryResponse := mkGetSessionHistoryResponse {
  hs_Turns : list ConversationTurn; hs_HasMore : bool; hs_NextBeforeSequenceNo : Z;
}.
Record DeleteSessionRequest := mkDeleteSessionRequest { dq_UserId : string; dq_SessionId : string }.

(** The codes of gRPC the service tells apart; an error without one has [Unknown]. *)
Definition Unknown : Z := 2.
Definition InvalidArgument : Z := 3.
Definition DeadlineExceeded : Z := 4.
Definition NotFound : Z := 5.
Definition PermissionDenied : Z := 7.
Definition Unavailable : Z := 14.
(** How a stream ends: [io.EOF], or an error with its code. *)
Inductive StreamEnd := EOF | Broken (code : Z).

(** The agent, a service of its own: what it answers at a step, or the code of an error.
    The answer of a stream is what [Recv] returns one after the other; the timeout of
    the call ends it. *)
Class AgentClient := {
  agent_HandleTurn : nat -> HandleTurnRequest -> option HandleTurnResponse + Z;
  agent_Stream : nat -> HandleTurnRequest -> list StreamHandleTurnEvent * StreamEnd + Z;
  agent_History : nat -> GetSessionHistoryRequest -> option GetSessionHistoryResponse + Z;
  agent_Delete : nat -> DeleteSessionRequest -> unit + Z;
}.
End Agentv1.

(** ** Conversations and events *)
Module Agent.
Import Agentv1.
Open Scope Z_scope.

Definition conversationStatusPending : string := "pending".
Definition conversationStatusReady : string := "ready".
Definition conversationStatusError : string := "error".
Definition unspecified : string := "unspecified".

Record Conversation := mkConversation {
  cv_SessionID : string;
  cv_RootUserID : Z;
  cv_CreatorUserID : Z;
  cv_LastActorUserID : Z;
  cv_Title : string;
  cv_LastUserPreview : string;
  cv_LastAssistantPreview : string;
  cv_LastRequestID : string;
  cv_LastTraceID : string;
  cv_Status : string;
  cv_CreatedAt : Z;
  cv_UpdatedAt : Z;
}.
Record HistoryTurn := mkHistoryTurn {
  ht_SequenceNo : Z; ht_Role : string; ht_Content : string; ht_CreatedAt : string; ht_Domain : string;
}.
Record HistoryResponse := mkHistoryResponse {
  hr_ConversationID : string; hr_Turns : list HistoryTurn; hr_HasMore : bool; hr_NextBeforeSequenceNo : Z;
}.
Record TurnReference := mkTurnReference { tr_Source : string; tr_Ref : string; tr_Score : spec_float }.
Record TurnResult := mkTurnResult {
  rs_Domain : string; rs_Intent : string; rs_Mode : string; rs_AnswerText : string; rs_TraceID : string;
  rs_Degraded : bool; rs_DegradeReason : string; rs_ErrorCode : string; rs_References : list TurnReference;
}.
Record TurnResponse := mkTurnResponse { rp_RequestID : string; rp_ConversationID : string; rp_Result : TurnResult }.
Record WSEvent := mkWSEvent {
  ev_Type : string; ev_RequestID : string; ev_ConversationID : string; ev_Stage : string; ev_Message : string;
  ev_Delta : string; ev_ErrorCode : string; ev_Result : option TurnResult;
}.
Record TurnInput := mkTurnInput {
  in_RequestID : string; in_ConversationID : string; in_Content : string; in_RootUserID : Z; in_CurrentUserID : Z;
  in_AccountType : string; in_ClientPlatform : string; in_SchoolID : string; in_SchoolName : string; in_Locale : string;
}.

(** The number of the text key. *)
Definition conv_key (sessionID : string) : Z := Zpos (encode sessionID).
#[export] Instance Conversation_entity : Entity Conversation :=
  { ent_id c := conv_key (cv_SessionID c); ent_clash _ _ := false }.
Lemma session_key_inj a b : conv_key a = conv_key b -> a = b.
Proof. unfold conv_key. intros [= H]. by apply (inj encode). Qed.

(** [autoCreateTime] and [autoUpdateTime], which [Save] also writes to the struct. *)
Definition touched (t : Z) (c : Conversation) : Conversation :=
  {| c with cv_CreatedAt := if GoTime.IsZero (cv_CreatedAt c) then t else cv_CreatedAt c; cv_UpdatedAt := t |}.

(** *** Texts *)
Definition previewText (content : string) (limit : Z) : string :=
  let content := GoStr.TrimSpace content in
  if String.eqb content "" || (limit <=? 0) then ""
  else
    let runes := GoStr.Runes content in
    if Z.of_nat (length runes) <=? limit then content
    else GoStr.TrimSpace (GoStr.of_runes (firstn (Z.to_nat limit) runes)) ++ "...".
Definition buildConversationTitle (content : string) : string :=
  let title := previewText content 32 in
  if String.eqb title "" then "新对话" else title.
(** [ToLower]: the names of enums are ASCII. *)
Definition enumValue (value pre : string) : string :=
  let value := GoStr.TrimSpace value in
  if String.eqb value "" then unspecified
  else
    let value := GoPath.TrimPrefix (GoStr.ToLower value) (GoStr.ToLower pre) in
    if String.eqb value "" then unspecified else value.
Definition firstNonEmpty (values : list string) : string :=
  match filter (fun v => v <> "") (GoStr.TrimSpace <$> values) with v :: _ => v | [] => "" end.

(** *** The store *)
Section store.
Context {D : SqlEngine} {R : RedisServer}.
Record DB := mkDB { t_conversations : table Conversation _; redis : rsrv }.
End store.
Arguments DB D R : clear implicits.
Record State := mkState { conversations : gmap Z Conversation }.

Section abstraction.
Context {D : SqlEngine} {R : RedisServer}.
Definition db_state (s : DB D R) : State := mkState (view (t_conversations s)).
#[export] Instance DB_abs : Abstract (DB D R) State := db_state.
#[export] Instance tbl_conversations : Tbl (DB D R) State Conversation _ _.
Proof.
  refine {| tget := t_conversations; tset t s := {| s with t_conversations := t |};
    aget := conversations; aset v _ := mkState v |}; by intros; try destruct a.
Defined.
#[export] Instance DB_redis : HasRedis (DB D R).
Proof. refine {| redis_of := redis; set_redis_of r s := {| s with redis := r |} |}; by intros. Defined.
End abstraction.

(** ** Commands *)
Inductive Cmd :=
| CNow
| CGenerate
| CIncr (key : string)
| CExpire (key : string) (ttl : Z)
| CDecr (key : string)
| CGuard (key : string) (ttl : Z)
| CTake (sessionID : string)
| CCount (rootUserID : Z)
| CFind (rootUserID page size : Z)
| CSave (c : Conversation)
| CDelete (sessionID : string) (rootUserID : Z)
| CHandleTurn (q : HandleTurnRequest)
| CStream (q : HandleTurnRequest)
| CRecv (q : HandleTurnRequest) (x : StreamHandleTurnEvent + StreamEnd)
| CHistory (q : GetSessionHistoryRequest)
| CDeleteSession (q : DeleteSessionRequest)
| CEmit (ev : WSEvent)
| CWarn (message : string).
Definition resp (c : Cmd) : Type :=
  match c with
  | CNow | CGenerate | CIncr _ | CDecr _ | CGuard _ _ | CCount _ | CSave _ | CDelete _ _ => Z
  | CExpire _ _ | CEmit _ | CWarn _ => unit
  | CTake _ => option Conversation
  | CFind _ _ _ => list Conversation
  | CHandleTurn _ => (option HandleTurnResponse + Z)%type
  | CStream _ => (list StreamHandleTurnEvent * StreamEnd + Z)%type
  | CRecv _ _ => (StreamHandleTurnEvent + StreamEnd)%type
  | CHistory _ => (option GetSessionHistoryResponse + Z)%type
  | CDeleteSession _ => (unit + Z)%type
  end.

Definition has_session (sessionID : string) (c : Conversation) : bool := String.eqb (cv_SessionID c) sessionID.
Definition of_root (rootUserID : Z) (c : Conversation) : bool := cv_RootUserID c =? rootUserID.

Section exec.
Context {E : Env} {D : SqlEngine} {R : RedisServer} {AG : AgentClient}.
Notation DB := (DB D R).
Notation M := (M DB).

(** [counterGuardAcquireScript]: Redis runs a script as one command. *)
Definition guard_script (key : string) (ms t : Z) (r : rsrv) : res (Z * rsrv) :=
  match srv_incr t key r with
  | Some (count, r) => Ok (count, if count =? 1 then srv_expire t key (ms * GoTime.Millisecond) r else r)
  | None => Err (EDriver "ERR value is not an integer or out of range")
  end.
Definition counterGuardAcquireScript (key : string) (ms : Z) : M Z := command (guard_script key ms).

(** Sending to the client fails when the connection does. *)
Definition send : M unit := (let! down := fault in if down then throw (EDriver "websocket: close sent") else ret tt)%go.
(** A call of the agent takes a step. *)
Definition call {A} (f : nat -> A) : M A := fun w => (Ok (f (w_tick w)), bump w).

(** What the overwriting insert of [Save] leaves of a row: the key and the creation time. *)
Definition conversation_over (c old : Conversation) : Conversation :=
  {| c with cv_SessionID := cv_SessionID old; cv_CreatedAt := cv_CreatedAt old |}.
(** [Save]: the row, and the time it is written with. *)
Definition save_touched (c : Conversation) : M Z :=
  (let! t := now in save Conversation conversation_over (touched t c);; ret t)%go.

Definition exec (c : Cmd) : M (resp c) :=
  match c return M (resp c) with
  | CNow => now
  | CGenerate => Generate
  | CIncr key => Incr key
  | CExpire key ttl => Expire key ttl
  | CDecr key => Decr key
  | CGuard key ttl => counterGuardAcquireScript key ttl
  | CTake sessionID => or_nil (take Conversation (has_session sessionID))
  | CCount rootUserID => count Conversation (of_root rootUserID)
  | CFind rootUserID pageNo size =>
    (let! rows := find Conversation (of_root rootUserID) in
     ret (page (mul64 (sub64 pageNo 1) size) size (order_by (fun c => - cv_UpdatedAt c) rows)))%go
  | CSave c => save_touched c
  | CDelete sessionID rootUserID =>
    delete Conversation (fun c => has_session sessionID c && of_root rootUserID c)
  | CHandleTurn q => call (fun n => agent_HandleTurn n q)
  | CStream q => call (fun n => agent_Stream n q)
  | CRecv _ x => call (fun _ => x)
  | CHistory q => call (fun n => agent_History n q)
  | CDeleteSession q => call (fun n => agent_Delete n q)
  | CEmit _ => send
  | CWarn message => emit (EvLog message)
  end.
End exec.
End Agent.

