(* ===== verification/AgentService.v ===== *)
(** * Agent chat: the service

    [internal/agentchat/service.go], [service_store.go], [service_conversation.go],
    [service_turn.go], [service_limits.go] and [service_grpc.go]: one definition per
    function, as programs over the commands of [AgentModel].  The release function of a
    guard is a program; [defer] runs it at the end of a turn. *)
From S2P Require Import Prelude GoString GoTime GoMonad Sql RedisStr Platform AgentModel.

Module AgentService.
Import Prog Agentv1 Agent Pagination.
Open Scope Z_scope.
Open Scope prog_scope.

Definition errMsgInvalidParam : string := "参数错误".
Definition ErrConversationNotFound : error := Bizerr.NotFound "agent 会话不存在".
Definition ErrConversationAccessDenied : error := Bizerr.Forbidden "无权访问该 agent 会话".
Definition ErrConversationDeleteDenied : error := Bizerr.Forbidden "无权删除该 agent 会话".
Definition ErrTurnContentRequired : error := Bizerr.Param "content 不能为空".
Definition ErrAgentRateLimited : error := Bizerr.Biz "请求过于频繁，请稍后再试".
Definition ErrAgentConversationBusy : error := Bizerr.Biz "当前会话正在处理中，请稍后再试".
Definition ErrAgentUserBusy : error := Bizerr.Biz "当前账号有未完成请求，请稍后再试".
Definition ErrAgentUnavailable : error := Bizerr.Internal "agent 服务暂时不可用".
Definition ErrAgentStreamProtocol : error := Bizerr.Internal "agent 流式响应异常".

Definition defaultConversationPageSize : Z := 15.
Definition maxConversationPageSize : Z := 100.
Definition defaultTimeout : Z := 30 * GoTime.Second.
Definition defaultRateLimitPerMinute : Z := 10.
Definition defaultMaxConcurrentPerUser : Z := 2.
Definition defaultMaxConcurrentPerSession : Z := 1.
Definition defaultHistoryPageSize : Z := 20.
Definition maxHistoryPageSize : Z := 100.

Record AgentConfig := mkAgentConfig {
  cfg_TimeoutMS : Z; cfg_RateLimitPerMinute : Z; cfg_MaxConcurrentPerUser : Z; cfg_MaxConcurrentPerConversation : Z;
}.
(** The pointers that may be nil, and the [agent] section of the configuration. *)
Record Service := mkService { db_set : bool; redis_set : bool; cfg : option AgentConfig }.

Notation prog := (prog resp).
Notation do A c := (act (resp := resp) c : prog A).

(** The text a client sees of a business error. *)
Definition Message (e : error) : string := match e with EBiz _ m _ => m | _ => Bizerr.Error e end.

(** A setting of the configuration, when it is positive. *)
Definition setting (f : AgentConfig -> Z) (s : Service) : option Z :=
  match cfg s with Some c => if f c <=? 0 then None else Some (f c) | None => None end.

Section service.
Context {PE : ProtoEnum}.
Variable s : Service.

Definition timeout : Z :=
  match setting cfg_TimeoutMS s with Some ms => mul64 ms GoTime.Millisecond | None => defaultTimeout end.
Definition rateLimitPerMinute : Z :=
  match setting cfg_RateLimitPerMinute s with Some n => n | None => defaultRateLimitPerMinute end.
Definition maxConcurrentPerUser : Z :=
  match setting cfg_MaxConcurrentPerUser s with Some n => n | None => defaultMaxConcurrentPerUser end.
Definition maxConcurrentPerConversation : Z :=
  match setting cfg_MaxConcurrentPerConversation s with Some n => n | None => defaultMaxConcurrentPerSession end.
Definition guardTTL : Z :=
  let ttl := mul64 timeout 2 in if ttl <? 2 * GoTime.Minute then 2 * GoTime.Minute else ttl.
(** [d.Milliseconds()] rounds towards zero. *)
Definition Milliseconds (d : Z) : Z := Z.quot d GoTime.Millisecond.

(** ** The table *)
Definition requireDB : prog unit := if db_set s then pret tt else pthrow (ENew "agentchat db is not configured").
Definition normalizeConversationPage (page size : Z) : Z * Z :=
  let page := if page <=? 0 then 1 else page in
  let size := if size <=? 0 then defaultConversationPageSize else size in
  (page, if size >? maxConversationPageSize then maxConversationPageSize else size).
Definition listConversations (rootUserID page size : Z) : prog (list Conversation * Z) :=
  requireDB;;
  let (page, size) := normalizeConversationPage page size in
  let! total := pmap_err (EWrapf "count agent conversations") (do Z (CCount rootUserID)) in
  let! conversations := pmap_err (EWrapf "list agent conversations") (do (list Conversation) (CFind rootUserID page size)) in
  pret (conversations, total).
Definition getConversation (sessionID : string) : prog (option Conversation) :=
  requireDB;;
  pmap_err (EWrapf ("find agent conversation " ++ sessionID)) (do (option Conversation) (CTake sessionID)).
Definition saveConversation (c : Conversation) : prog Conversation :=
  requireDB;;
  let! t := pmap_err (EWrapf ("save agent conversation " ++ cv_SessionID c)) (do Z (CSave c)) in
  pret (touched t c).
Definition deleteConversationRecord (sessionID : string) (rootUserID : Z) : prog bool :=
  requireDB;;
  let! n := pmap_err (EWrapf ("delete agent conversation " ++ sessionID)) (do Z (CDelete sessionID rootUserID)) in
  pret (n >? 0).

(** ** Calls of the agent *)
Definition mapCallError (code : Z) : error :=
  if code =? PermissionDenied then ErrConversationAccessDenied
  else if code =? NotFound then ErrConversationNotFound
  else if code =? InvalidArgument then Bizerr.Param errMsgInvalidParam
  else ErrAgentUnavailable.
Definition wsErrorFromCallErr (code : Z) : string * string :=
  if code =? PermissionDenied then ("conversation_forbidden"%string, Message ErrConversationAccessDenied)
  else if code =? NotFound then ("conversation_not_found"%string, Message ErrConversationNotFound)
  else if code =? InvalidArgument then ("invalid_argument"%string, errMsgInvalidParam)
  else if code =? DeadlineExceeded then ("deadline_exceeded"%string, Message ErrAgentUnavailable)
  else ("service_unavailable"%string, Message ErrAgentUnavailable).
(** [buildMetadata]: an empty value is left out. *)
Definition buildMetadata (input : TurnInput) (requestID : string) : gmap string string :=
  filter (fun kv => GoStr.TrimSpace kv.2 <> ""%string)
    (list_to_map
      [("source_app", "ecampus-go"); ("root_user_id", GoStr.FormatInt (in_RootUserID input));
       ("current_user_id", GoStr.FormatInt (in_CurrentUserID input));
       ("account_type", GoStr.TrimSpace (in_AccountType input));
       ("client_platform", GoStr.TrimSpace (in_ClientPlatform input));
       ("school_id", GoStr.TrimSpace (in_SchoolID input)); ("school_name", GoStr.TrimSpace (in_SchoolName input));
       ("locale", GoStr.TrimSpace (in_Locale input)); ("ecampus_request_id", requestID)])%string.
Definition toTurnReference (r : Reference) : TurnReference := mkTurnReference (ref_Source r) (ref_Ref r) (ref_Score r).
Definition toTurnResult (resp : option HandleTurnResponse) : TurnResult :=
  match resp with
  | None => mkTurnResult "" "" "" "" "" false "" unspecified []
  | Some r =>
    mkTurnResult (enumValue (EnumStringOf Domain_name (ts_Domain r)) "DOMAIN_")
      (enumValue (EnumStringOf Intent_name (ts_Intent r)) "INTENT_") (enumValue (EnumStringOf Mode_name (ts_Mode r)) "MODE_")
      (ts_AnswerText r) (ts_TraceId r) (ts_Degraded r) (ts_DegradeReason r)
      (enumValue (EnumStringOf ErrorCode_name (ts_ErrorCode r)) "ERROR_CODE_") (toTurnReference <$> ts_References r)
  end.

(** ** Limits *)
Definition activeUserKey (rootUserID : Z) : string := "campus:agent:active:user:" ++ GoStr.FormatInt rootUserID.
Definition activeConversationKey (sessionID : string) : string := "campus:agent:active:conversation:" ++ sessionID.
Definition rateLimitKey (rootUserID now : Z) : string :=
  "campus:agent:rate:" ++ GoStr.FormatInt rootUserID ++ ":" ++ GoTime.FormatMinute now.

(** An error is dropped. *)
Definition ignore {A} (p : prog A) : prog unit := pattempt p;; pret tt.

Definition enforcePerMinute (rootUserID : Z) : prog unit :=
  if redis_set s then
    let! now := do Z CNow in
    let key := rateLimitKey rootUserID now in
    let! r := pattempt (do Z (CIncr key)) in
    match r with
    | Err _ => pret tt
    | Ok count =>
      (if count =? 1 then ignore (do unit (CExpire key GoTime.Minute)) else pret tt);;
      if count <=? rateLimitPerMinute then pret tt
      else ignore (do Z (CDecr key));; pthrow ErrAgentRateLimited
    end
  else pret tt.
Definition acquireCounterGuard (key : string) (limit ttl : Z) (limitErr : error) : prog (prog unit) :=
  if redis_set s then
    let! r := pattempt (do Z (CGuard key (Milliseconds ttl))) in
    match r with
    | Err _ => pret (pret tt)
    | Ok count =>
      if count <=? limit then pret (ignore (do Z (CDecr key)))
      else ignore (do Z (CDecr key));; pthrow limitErr
    end
  else pret (pret tt).
Definition acquireTurnGuards (rootUserID : Z) (sessionID : string) : prog (prog unit) :=
  enforcePerMinute rootUserID;;
  let! userRelease :=
    acquireCounterGuard (activeUserKey rootUserID) maxConcurrentPerUser guardTTL ErrAgentUserBusy in
  let! r :=
    pattempt (acquireCounterGuard (activeConversationKey sessionID) maxConcurrentPerConversation guardTTL
                ErrAgentConversationBusy) in
  match r with
  | Err e => userRelease;; pthrow e
  | Ok sessionRelease => pret (sessionRelease;; userRelease)
  end.

(** ** Conversations *)
Definition newConversation (input : TurnInput) : prog Conversation :=
  let! id := do Z CGenerate in
  pret (mkConversation ("agent-session-" ++ GoStr.FormatInt id) (in_RootUserID input) (in_CurrentUserID input)
          (in_CurrentUserID input) (buildConversationTitle (in_Content input)) "" "" "" "" conversationStatusPending
          GoTime.zero_time GoTime.zero_time).
Definition requireOwnedConversation (conversationID : string) (rootUserID : Z) : prog Conversation :=
  let! c := pmap_err (Bizerr.InternalWrap "查询 agent 会话失败") (getConversation (GoStr.TrimSpace conversationID)) in
  match c with
  | None => pthrow ErrConversationNotFound
  | Some c => if cv_RootUserID c =? rootUserID then pret c else pthrow ErrConversationAccessDenied
  end.
Definition resolveConversation (input : TurnInput) : prog Conversation :=
  let conversationID := GoStr.TrimSpace (in_ConversationID input) in
  if String.eqb conversationID "" then newConversation input
  else requireOwnedConversation conversationID (in_RootUserID input).
Definition ListConversations (rootUserID page size : Z) : prog (PageResult Conversation) :=
  let (page, size) := normalizeConversationPage page size in
  let! r := pmap_err (Bizerr.InternalWrap "查询 agent 会话失败") (listConversations rootUserID page size) in
  pret (NewPageResult r.1 r.2 page size).
Definition normalizeHistoryLimit (size : Z) : Z :=
  if size <=? 0 then defaultHistoryPageSize else if size >? maxHistoryPageSize then maxHistoryPageSize else size.
Definition buildHistoryRequest (rootUserID : Z) (sessionID : string) (beforeSequenceNo : option Z) (size : Z) :
    GetSessionHistoryRequest :=
  mkGetSessionHistoryRequest (GoStr.FormatInt rootUserID) sessionID (default 0 beforeSequenceNo) (normalizeHistoryLimit size).
Definition toHistoryTurn (t : ConversationTurn) : HistoryTurn :=
  mkHistoryTurn (ct_SequenceNo t) (ct_Role t) (ct_Content t) (ct_CreatedAt t)
    (enumValue (EnumStringOf Domain_name (ct_Domain t)) "DOMAIN_").
Definition toHistoryResponse (conversationID : string) (resp : option GetSessionHistoryResponse) : HistoryResponse :=
  match resp with
  | None => mkHistoryResponse conversationID [] false 0
  | Some r => mkHistoryResponse conversationID (toHistoryTurn <$> hs_Turns r) (hs_HasMore r) (hs_NextBeforeSequenceNo r)
  end.
Definition GetHistory (rootUserID : Z) (conversationID : string) (beforeSequenceNo : option Z) (size : Z) :
    prog HistoryResponse :=
  let! c := requireOwnedConversation conversationID rootUserID in
  let! r := do (option GetSessionHistoryResponse + Z) (CHistory (buildHistoryRequest rootUserID (cv_SessionID c) beforeSequenceNo size)) in
  match r with
  | inr code => pthrow (mapCallError code)
  | inl resp => pret (toHistoryResponse (cv_SessionID c) resp)
  end.
Definition deleteRemoteConversation (rootUserID : Z) (sessionID : string) : prog unit :=
  let! r := do (unit + Z) (CDeleteSession (mkDeleteSessionRequest (GoStr.FormatInt rootUserID) sessionID)) in
  match r with
  | inl _ => pret tt
  | inr code =>
    if code =? NotFound then pret tt
    else if code =? PermissionDenied then pthrow ErrConversationDeleteDenied
    else pthrow (mapCallError code)
  end.
Definition DeleteConversation (rootUserID : Z) (conversationID : string) : prog unit :=
  let! c := requireOwnedConversation conversationID rootUserID in
  deleteRemoteConversation rootUserID (cv_SessionID c);;
  let! deleted :=
    pmap_err (Bizerr.InternalWrap "删除 agent 会话失败") (deleteConversationRecord (cv_SessionID c) rootUserID) in
  if deleted : bool then pret tt else pthrow ErrConversationNotFound.

(** ** Turns *)
Record preparedTurn := mkPreparedTurn { pr_conversation : Conversation; pr_requestID : string; pr_request : HandleTurnRequest }.

Definition normalizeTurnRequestID (requestID : string) : prog string :=
  let requestID := GoStr.TrimSpace requestID in
  if negb (String.eqb requestID "") then pret requestID
  else let! id := do Z CGenerate in pret ("agent-turn-" ++ GoStr.FormatInt id)%string.
Definition newHandleTurnRequest (input : TurnInput) (sessionID requestID : string) : HandleTurnRequest :=
  mkHandleTurnRequest requestID (GoStr.FormatInt (in_RootUserID input)) sessionID (GoStr.TrimSpace (in_Content input))
    (buildMetadata input requestID) (Milliseconds timeout).

Definition titled (input : TurnInput) (c : Conversation) : Conversation :=
  if String.eqb (cv_Title c) "" then {| c with cv_Title := buildConversationTitle (in_Content input) |} else c.
Definition pending (input : TurnInput) (requestID : string) (c : Conversation) : Conversation :=
  titled input {| c with cv_LastActorUserID := in_CurrentUserID input; cv_LastRequestID := requestID;
                         cv_Status := conversationStatusPending |}.
Definition finished (input : TurnInput) (requestID : string) (result : TurnResult) (c : Conversation) : Conversation :=
  titled input
    {| c with cv_LastActorUserID := in_CurrentUserID input; cv_LastRequestID := requestID;
              cv_LastTraceID := rs_TraceID result; cv_LastUserPreview := previewText (in_Content input) 120;
              cv_LastAssistantPreview := previewText (rs_AnswerText result) 120;
              cv_Status := if String.eqb (rs_ErrorCode result) unspecified then conversationStatusReady
                           else conversationStatusError |}.
Definition failed (input : TurnInput) (requestID message : string) (c : Conversation) : Conversation :=
  titled input
    {| c with cv_LastActorUserID := in_CurrentUserID input; cv_LastRequestID := requestID;
              cv_LastUserPreview := previewText (in_Content input) 120;
              cv_LastAssistantPreview := previewText message 120; cv_Status := conversationStatusError |}.

Definition prepareTurn (input : TurnInput) : prog (preparedTurn * prog unit) :=
  if String.eqb (GoStr.TrimSpace (in_Content input)) "" then pthrow ErrTurnContentRequired
  else
    let! c := resolveConversation input in
    let! requestID := normalizeTurnRequestID (in_RequestID input) in
    let! release := acquireTurnGuards (in_RootUserID input) (cv_SessionID c) in
    let! r := pattempt (saveConversation (pending input requestID c)) in
    match r with
    | Err e => release;; pthrow (Bizerr.InternalWrap "保存 agent 会话失败" e)
    | Ok c => pret (mkPreparedTurn c requestID (newHandleTurnRequest input (cv_SessionID c) requestID), release)
    end.

Definition persist (warning : string) (c : Conversation) : prog unit :=
  let! r := pattempt (saveConversation c) in
  match r with Ok _ => pret tt | Err _ => ignore (do unit (CWarn warning)) end.
Definition persistConversationResult (input : TurnInput) (p : preparedTurn) (result : TurnResult) : prog unit :=
  persist "save agent conversation result failed" (finished input (pr_requestID p) result (pr_conversation p)).
Definition persistConversationFailure (input : TurnInput) (p : preparedTurn) (message : string) : prog unit :=
  persist "save agent conversation failure failed" (failed input (pr_requestID p) message (pr_conversation p)).

Definition HandleTurn (input : TurnInput) : prog TurnResponse :=
  let! (p, release) := prepareTurn input in
  defer release (
    let! r := do (option HandleTurnResponse + Z) (CHandleTurn (pr_request p)) in
    match r with
    | inr code => pthrow (mapCallError code)
    | inl resp =>
      let result := toTurnResult resp in
      persistConversationResult input p result;;
      pret (mkTurnResponse (pr_requestID p) (cv_SessionID (pr_conversation p)) result)
    end).

(** *** Streams *)
Definition turnEvent (typ : string) (p : preparedTurn) : WSEvent :=
  mkWSEvent typ (pr_requestID p) (cv_SessionID (pr_conversation p)) "" "" "" "" None.
Definition acceptedTurnEvent (p : preparedTurn) : WSEvent := turnEvent "agent_turn.accepted" p.
Definition statusTurnEvent (p : preparedTurn) (stage message : string) : WSEvent :=
  let ev := turnEvent "agent_turn.status" p in {| ev with ev_Stage := stage; ev_Message := message |}.
Definition deltaTurnEvent (p : preparedTurn) (delta : string) : WSEvent :=
  let ev := turnEvent "agent_turn.delta" p in {| ev with ev_Delta := delta |}.
Definition finalTurnEvent (p : preparedTurn) (result : TurnResult) : WSEvent :=
  let ev := turnEvent "agent_turn.final" p in {| ev with ev_Result := Some result |}.
Definition errorEvent (p : preparedTurn) (code message : string) : WSEvent :=
  let ev := turnEvent "agent_turn.error" p in {| ev with ev_ErrorCode := code; ev_Message := message |}.
Definition closedStreamEvent (p : preparedTurn) : WSEvent :=
  errorEvent p "stream_closed" (Message ErrAgentStreamProtocol).
Definition agentStreamErrorEvent (p : preparedTurn) (message : string) : WSEvent :=
  errorEvent p "agent_error" (firstNonEmpty [message; Message ErrAgentUnavailable]).
Definition protocolStreamErrorEvent (p : preparedTurn) : WSEvent :=
  errorEvent p "stream_protocol_error" (Message ErrAgentStreamProtocol).
Definition streamErrorEvent (p : preparedTurn) (code : Z) : WSEvent :=
  let '(c, m) := wsErrorFromCallErr code in errorEvent p c m.

Definition emitStreamFailure (input : TurnInput) (p : preparedTurn) (ev : WSEvent) : prog unit :=
  persistConversationFailure input p (ev_Message ev);; do unit (CEmit ev).
Definition handleStreamReceiveError (input : TurnInput) (p : preparedTurn) (e : StreamEnd) : prog unit :=
  match e with
  | EOF => emitStreamFailure input p (closedStreamEvent p)
  | Broken code => emitStreamFailure input p (streamErrorEvent p code)
  end.
Definition handleStreamEvent (input : TurnInput) (p : preparedTurn) (event : StreamHandleTurnEvent) : prog bool :=
  match event with
  | Status stage message => do unit (CEmit (statusTurnEvent p stage message));; pret false
  | Delta text => do unit (CEmit (deltaTurnEvent p text));; pret false
  | FinalResponse resp =>
    let result := toTurnResult (Some resp) in
    persistConversationResult input p result;; do unit (CEmit (finalTurnEvent p result));; pret true
  | StreamError message _ => emitStreamFailure input p (agentStreamErrorEvent p message);; pret true
  | NoEvent => emitStreamFailure input p (protocolStreamErrorEvent p);; pret true
  end.
(** The loop of [Recv], over what the stream sends. *)
Fixpoint consumeTurnStream (input : TurnInput) (p : preparedTurn) (events : list StreamHandleTurnEvent) (e : StreamEnd) :
    prog unit :=
  match events with
  | [] =>
    do (StreamHandleTurnEvent + StreamEnd) (CRecv (pr_request p) (inr e));; handleStreamReceiveError input p e
  | event :: events =>
    do (StreamHandleTurnEvent + StreamEnd) (CRecv (pr_request p) (inl event));;
    let! done := handleStreamEvent input p event in
    if done : bool then pret tt else consumeTurnStream input p events e
  end.
Definition StreamTurn (input : TurnInput) : prog unit :=
  let! (p, release) := prepareTurn input in
  defer release (
    do unit (CEmit (acceptedTurnEvent p));;
    let! r := do (list StreamHandleTurnEvent * StreamEnd + Z) (CStream (pr_request p)) in
    match r with
    | inr code => emitStreamFailure input p (streamErrorEvent p code)
    | inl (events, e) => consumeTurnStream input p events e
    end).

(** ** Requests *)
Inductive Request :=
| RTurn (input : TurnInput)
| RStream (input : TurnInput)
| RList (rootUserID page size : Z)
| RHistory (rootUserID : Z) (conversationID : string) (beforeSequenceNo : option Z) (size : Z)
| RDelete (rootUserID : Z) (conversationID : string).
Inductive Reply :=
| Answered (r : TurnResponse)
| Streamed
| Listed (l : PageResult Conversation)
| History (h : HistoryResponse)
| Deleted.
Definition serve (q : Request) : prog Reply :=
  match q with
  | RTurn input => let! r := HandleTurn input in pret (Answered r)
  | RStream input => StreamTurn input;; pret Streamed
  | RList u page size => let! l := ListConversations u page size in pret (Listed l)
  | RHistory u id before size => let! h := GetHistory u id before size in pret (History h)
  | RDelete u id => DeleteConversation u id;; pret Deleted
  end.
(** The root user a request acts for. *)
Definition user_of (q : Request) : Z :=
  match q with
  | RTurn input | RStream input => in_RootUserID input
  | RList u _ _ | RHistory u _ _ _ | RDelete u _ => u
  end.
End service.
End AgentService.
