(* ===== verification/AgentProps.v ===== *)
(** * Agent chat: properties

    [AgentLogic]: a protocol says which commands a program may run next, and how that
    depends on the answers it got; [wlp] checks a program against it once, whatever the
    other programs do, and [trace_invariant] carries an invariant of the protocol states
    through every interleaving.  [AgentGuards] uses it for the counters in Redis,
    [AgentOwners] for the conversations of a user, [AgentStreams] for the events of a
    stream.  [AgentDemo] is a run, [AgentFindings] replays defects. *)
From S2P Require Import Prelude GoString GoTime GoMonad Sql RedisStr Safe Platform AgentModel AgentService.

Module AgentLogic.
Import Prog.

Section protocol.
Context {Cmd : Type} {resp : Cmd -> Type} {St : Type}.
Variable may : St -> Cmd -> Prop.
Variable after : St -> forall c, res (resp c) -> St -> Prop.
Notation prog := (prog resp).

(** From state [s], [p] only runs commands it may run, and ends in [Q]. *)
Fixpoint wlp {A} (p : prog A) (Q : res A -> St -> Prop) (s : St) : Prop :=
  match p with
  | Ret r => Q r s
  | Act c k => may s c /\ forall r s', after s c r s' -> wlp (k r) Q s'
  end.

Lemma wlp_mono {A} (p : prog A) (Q1 Q2 : res A -> St -> Prop) s :
  wlp p Q1 s -> (forall r s', Q1 r s' -> Q2 r s') -> wlp p Q2 s.
Proof.
  intros Hp HQ. revert s Hp. induction p as [r|c k IH]; simpl; [by auto|].
  intros s [Hm Hk]. split; [done|]. eauto.
Qed.
Lemma wlp_bind {A B} (p : prog A) (f : A -> prog B) Q s :
  wlp p (fun r s' => match r with Ok a => wlp (f a) Q s' | Err e => Q (Err e) s' end) s ->
  wlp (pbind p f) Q s.
Proof.
  revert s. induction p as [[a|e]|c k IH]; simpl; [done..|].
  intros s [Hm Hk]. split; [done|]. eauto.
Qed.
Lemma wlp_attempt {A} (p : prog A) Q s :
  wlp p (fun r s' => Q (Ok r) s') s -> wlp (pattempt p) Q s.
Proof.
  revert s. induction p as [r|c k IH]; simpl; [done|].
  intros s [Hm Hk]. split; [done|]. eauto.
Qed.
Lemma wlp_map_err {A} f (p : prog A) Q s :
  wlp p (fun r s' => match r with Ok a => Q (Ok a) s' | Err e => Q (Err (f e)) s' end) s ->
  wlp (pmap_err f p) Q s.
Proof.
  revert s. induction p as [[a|e]|c k IH]; simpl; [done..|].
  intros s [Hm Hk]. split; [done|]. eauto.
Qed.
Lemma wlp_act c Q s : may s c -> (forall r s', after s c r s' -> Q r s') -> wlp (act c) Q s.
Proof. done. Qed.
Lemma wlp_ret {A} (a : A) (Q : res A -> St -> Prop) s : Q (Ok a) s -> wlp (pret a) Q s.
Proof. done. Qed.
Lemma wlp_throw {A} e (Q : res A -> St -> Prop) s : Q (Err e) s -> wlp (pthrow e) Q s.
Proof. done. Qed.
Lemma wlp_defer {A} release (body : prog A) Q s :
  wlp body (fun r => wlp release (fun _ s' => Q r s')) s -> wlp (defer release body) Q s.
Proof.
  intros H. apply wlp_bind, wlp_attempt. eapply wlp_mono; [exact H|]. intros r s' H'. cbv beta iota.
  apply wlp_bind, wlp_attempt. eapply wlp_mono; [exact H'|]. done.
Qed.

(** ** Interleavings *)
Context {S A : Type} (exec : forall c, M S (resp c)).
Variable ok : @Label Cmd resp -> Prop.
Variable J : list St -> list (Label resp) -> World S -> Prop.
Hypothesis keeps : forall ss tr w i s c r w',
  ss !! i = Some s -> may s c -> J ss tr w -> exec c w = (r, w') ->
  let l := mkLabel i (w_tick w) c r in
  ok l -> exists s', after s c r s' /\ J (<[i := s']> ss) (tr ++ [l]) w'.

Lemma trace_invariant (Q : nat -> res A -> St -> Prop) ps w tr ps' w' ss :
  trace exec ps w tr ps' w' -> Forall ok tr ->
  length ss = length ps -> (forall i s p, ss !! i = Some s -> ps !! i = Some p -> wlp p (Q i) s) -> J ss [] w ->
  exists ss', length ss' = length ps' /\ J ss' tr w' /\
    forall i s p, ss' !! i = Some s -> ps' !! i = Some p -> wlp p (Q i) s.
Proof.
  intros Ht Hok Hlen Hps HJ. induction Ht as [ps w|ps w tr ps1 w1 l ps2 w2 Ht IH Hs]; [by eauto|].
  apply Forall_app in Hok as [Hok Hl]. rewrite Forall_singleton in Hl.
  destruct (IH Hok Hlen Hps HJ) as (ss1 & Hlen1 & HJ1 & Hps1).
  destruct Hs as [i ps1 w1 c k r w2 Hi He].
  destruct (lookup_lt_is_Some_2 ss1 i) as [s Hs]; [rewrite Hlen1; by eapply lookup_lt_Some|].
  destruct (Hps1 _ _ _ Hs Hi) as [Hm Hk].
  destruct (keeps _ _ _ _ _ _ _ _ Hs Hm HJ1 He Hl) as (s' & Ha & HJ'). exists (<[i := s']> ss1).
  split; [by rewrite !length_insert|]. split; [done|]. intros j s1 p1.
  destruct (decide (j = i)) as [->|Hne].
  - rewrite !list_lookup_insert_eq by (by eapply lookup_lt_Some). intros [= <-] [= <-]. exact (Hk _ _ Ha).
  - rewrite !list_lookup_insert_ne by done. eauto.
Qed.
End protocol.

(** One rule per constructor of programs. *)
Ltac prog_step :=
  match goal with
  | |- wlp _ _ (pbind _ _) _ _ => apply wlp_bind
  | |- wlp _ _ (pattempt _) _ _ => apply wlp_attempt
  | |- wlp _ _ (pmap_err _ _) _ _ => apply wlp_map_err
  | |- wlp _ _ (defer _ _) _ _ => apply wlp_defer
  | |- wlp _ _ (pret _) _ _ => apply wlp_ret
  | |- wlp _ _ (pthrow _) _ _ => apply wlp_throw
  | |- wlp _ _ (if ?b then _ else _) _ _ => destruct b eqn:?
  end.
End AgentLogic.

(** ** Protocols that Redis is no part of *)
Module AgentQuiet.
Import Prog Agentv1 Agent AgentService AgentLogic.

Definition redis_command (c : Cmd) : bool :=
  match c with CIncr _ | CExpire _ _ | CDecr _ | CGuard _ _ => true | _ => false end.

Section inert.
Context {PE : ProtoEnum}.
Context {St : Type}.
Variable s : Service.
Variable may : St -> Cmd -> Prop.
Variable after : St -> forall c, res (resp c) -> St -> Prop.
Notation wlp := (wlp may after).
(** Redis and the clock may be used and change nothing. *)
Hypothesis quiet : forall c x, redis_command c || (if c is CNow then true else false) = true ->
  may x c /\ forall r x', after x c r x' -> x' = x.

Definition inert {A} (p : prog A) : Prop := forall x, wlp p (fun _ x' => x' = x) x.
Lemma wlp_inert {A} (p : prog A) (Q : res A -> St -> Prop) x : inert p -> (forall r, Q r x) -> wlp p Q x.
Proof. intros Hp HQ. eapply wlp_mono; [apply Hp|]. by intros r x' ->. Qed.
Lemma inert_ret {A} (a : A) : inert (pret a).
Proof. done. Qed.
Lemma inert_throw {A} e : inert (pthrow e : prog A).
Proof. done. Qed.
Lemma inert_bind {A B} (p : prog A) (f : A -> prog B) : inert p -> (forall a, inert (f a)) -> inert (pbind p f).
Proof. intros Hp Hf x. apply wlp_bind, wlp_inert; [apply Hp|]. intros [a|e]; [apply Hf|done]. Qed.
Lemma inert_attempt {A} (p : prog A) : inert p -> inert (pattempt p).
Proof. intros Hp x. apply wlp_attempt, Hp. Qed.
Lemma inert_map_err {A} f (p : prog A) : inert p -> inert (pmap_err f p).
Proof. intros Hp x. apply wlp_map_err, wlp_inert; [done|]. by intros []. Qed.
Lemma inert_act c : redis_command c || (if c is CNow then true else false) = true -> inert (act c).
Proof. intros Hc x. destruct (quiet c x Hc) as [Hm Ha]. by apply wlp_act. Qed.
Ltac inert_auto :=
  repeat match goal with
  | |- inert (pret _) => apply inert_ret
  | |- inert (pthrow _) => apply inert_throw
  | |- inert (pbind _ _) => apply inert_bind; [|intros ?]
  | |- inert (pattempt _) => apply inert_attempt
  | |- inert (act _) => by apply inert_act
  | |- inert (if ?b then _ else _) => destruct b
  | |- inert (match ?x with _ => _ end) => destruct x
  end.
Lemma inert_per_minute u : inert (enforcePerMinute s u).
Proof. unfold enforcePerMinute, ignore. cbv zeta. inert_auto. Qed.
Lemma inert_guard k lim ttl e x :
  wlp (acquireCounterGuard s k lim ttl e)
    (fun r x' => x' = x /\ match r with Ok release => inert release | Err _ => True end) x.
Proof.
  unfold acquireCounterGuard, ignore. destruct (redis_set s); [|by apply wlp_ret].
  apply wlp_bind. apply wlp_inert; [by apply inert_attempt, inert_act|]. intros [[count|e']|e']; [|by apply wlp_ret|done].
  destruct (Z.leb _ _); [apply wlp_ret; split; [done|]; inert_auto|].
  apply wlp_bind, wlp_inert; [by inert_auto|]. by intros [].
Qed.
Lemma inert_guards u sid x :
  wlp (acquireTurnGuards s u sid) (fun r x' => x' = x /\ match r with Ok release => inert release | Err _ => True end) x.
Proof.
  unfold acquireTurnGuards. apply wlp_bind. apply wlp_inert; [apply inert_per_minute|]. intros [_|e]; [|done].
  apply wlp_bind. eapply wlp_mono; [apply inert_guard|]. intros [user|e] x' [-> Hu]; [|done].
  apply wlp_bind, wlp_attempt. eapply wlp_mono; [apply inert_guard|]. intros [session|e] x' [-> Hs]; cbv beta iota.
  - apply wlp_ret. split; [done|]. by inert_auto.
  - apply wlp_bind, wlp_inert; [apply Hu|]. by intros [].
Qed.
End inert.
End AgentQuiet.

(** ** The counters of running turns *)
Module AgentGuards.
Import Prog Agentv1 Agent AgentService AgentLogic AgentQuiet.
Open Scope Z_scope.

(** The turn a command asks the agent to work on. *)
Definition turn_call (c : Cmd) : option HandleTurnRequest :=
  match c with CHandleTurn q | CStream q | CRecv q _ => Some q | _ => None end.
Definition user_key (userID : string) : string := "campus:agent:active:user:" ++ userID.
(** The program waits for the agent to work on a turn of a user, or of a conversation. *)
Definition calls {A} (which : HandleTurnRequest -> bool) (p : prog A) : bool :=
  match p with Act c _ => match turn_call c with Some q => which q | None => false end | Ret _ => false end.
Definition calls_of_user {A} (u : Z) : prog A -> bool :=
  calls (fun q => String.eqb (tq_UserId q) (GoStr.FormatInt u)).
Definition calls_in_session {A} (sessionID : string) : prog A -> bool :=
  calls (fun q => String.eqb (tq_SessionId q) sessionID).
Definition is_finished {A} (p : prog A) : bool := match p with Ret _ => true | Act _ _ => false end.
Definition many {X} (f : X -> bool) (l : list X) : Z := Z.of_nat (length (filter (fun x => f x = true) l)).

(** Redis answers every command, between [t0] and the lifetime of a counter after it. *)
Definition steady {E : Env} (ttl t0 : Z) (l : Label resp) : Prop :=
  redis_command (cmd l) = true -> is_ok (answer l) = true /\ t0 <= env_now (tick l) < t0 + ttl.
(** No turn holds the counter [K] at [t0]. *)
Definition idle {R : RedisServer} (t0 : Z) (K : string) (r : rsrv) : Prop :=
  forall v e, kv r !! K = Some (v, e) -> live t0 (v, e) = true -> v = GoStr.FormatInt 0.

Lemma user_key_conversation u sid : activeUserKey u <> activeConversationKey sid.
Proof. done. Qed.
Lemma rate_key_user u now x : rateLimitKey u now <> user_key x.
Proof. done. Qed.
Lemma rate_key_conversation u now sid : rateLimitKey u now <> activeConversationKey sid.
Proof. done. Qed.
Lemma user_key_inj x y : user_key x = user_key y -> x = y.
Proof. unfold user_key. by intros [=]. Qed.
Lemma conversation_key_inj x y : activeConversationKey x = activeConversationKey y -> x = y.
Proof. unfold activeConversationKey. by intros [=]. Qed.

(** *** One turn and one counter *)
Inductive hold := Free | Refused | Granted.
#[export] Instance hold_eq : EqDecision hold. Proof. solve_decision. Defined.
Definition holds (h : hold) : bool := negb (bool_decide (h = Free)).
Definition granted (h : hold) : bool := bool_decide (h = Granted).

Section one_counter.
Context {PE : ProtoEnum}.
Variable s : Service.
Variable K : string.
Variable L : Z.
Hypothesis limit_user : forall u, K = activeUserKey u -> L = maxConcurrentPerUser s.
Hypothesis limit_conversation : forall sid, K = activeConversationKey sid -> L = maxConcurrentPerConversation s.
Hypothesis is_guard : (exists x, K = user_key x) \/ (exists sid, K = activeConversationKey sid).
Hypothesis with_redis : redis_set s = true.

Definition needs (q : HandleTurnRequest) : bool :=
  String.eqb K (user_key (tq_UserId q)) || String.eqb K (activeConversationKey (tq_SessionId q)).
(** A turn takes the counter when it has it not, gives it back when it has it, and calls
    the agent when it was let through. *)
Definition may (h : hold) (c : Cmd) : Prop :=
  match c with
  | CIncr k | CExpire k _ => k <> K
  | CDecr k => k = K -> h <> Free
  | CGuard k ttl => k = K -> h = Free /\ ttl = Milliseconds (guardTTL s)
  | _ => match turn_call c with Some q => needs q = true -> h = Granted | None => True end
  end.
Definition after (h : hold) (c : Cmd) : res (resp c) -> hold -> Prop :=
  match c return res (resp c) -> hold -> Prop with
  | CDecr k => fun _ h' => if String.eqb k K then h' = Free else h' = h
  | CGuard k _ => fun r h' =>
    if String.eqb k K then match r with Ok n => h' = if n <=? L then Granted else Refused | Err _ => False end
    else h' = h
  | _ => fun _ h' => h' = h
  end.
Notation wlp := (wlp may after).

(** The counter is left alone. *)
Definition neutral {A} (p : prog A) : Prop := forall h, wlp p (fun _ h' => h' = h) h.
Lemma wlp_neutral {A} (p : prog A) (Q : res A -> hold -> Prop) h :
  neutral p -> (forall r, Q r h) -> wlp p Q h.
Proof. intros Hp HQ. eapply wlp_mono; [apply Hp|]. by intros r h' ->. Qed.

Lemma neutral_ret {A} (a : A) : neutral (pret a).
Proof. done. Qed.
Lemma neutral_throw {A} e : neutral (pthrow e : prog A).
Proof. done. Qed.
Lemma neutral_bind {A B} (p : prog A) (f : A -> prog B) :
  neutral p -> (forall a, neutral (f a)) -> neutral (pbind p f).
Proof. intros Hp Hf h. apply wlp_bind, wlp_neutral; [done|]. intros [a|e]; [apply Hf|done]. Qed.
Lemma neutral_attempt {A} (p : prog A) : neutral p -> neutral (pattempt p).
Proof. intros Hp h. by apply wlp_attempt, wlp_neutral. Qed.
Lemma neutral_map_err {A} f (p : prog A) : neutral p -> neutral (pmap_err f p).
Proof. intros Hp h. apply wlp_map_err, wlp_neutral; [done|]. by intros []. Qed.
Lemma neutral_act c :
  match c with CDecr k | CGuard k _ | CIncr k | CExpire k _ => k <> K | _ => turn_call c = None end -> neutral (act c).
Proof.
  intros Hc h. apply wlp_act; [destruct c; simpl in *; (done || congruence)|]. intros r h' Ha. destruct c; try exact Ha; simpl in Ha;
    by rewrite (proj2 (String.eqb_neq _ _) Hc) in Ha.
Qed.
Lemma neutral_if {A} (b : bool) (p q : prog A) : neutral p -> neutral q -> neutral (if b then p else q).
Proof. by destruct b. Qed.
Lemma neutral_ignore {A} (p : prog A) : neutral p -> neutral (ignore p).
Proof. intros Hp. apply neutral_bind; [by apply neutral_attempt|]. intros r. apply neutral_ret. Qed.

Ltac neutral_step :=
  match goal with
  | |- neutral (pret _) => apply neutral_ret
  | |- neutral (pthrow _) => apply neutral_throw
  | |- neutral (pbind _ _) => apply neutral_bind; [|intros ?]
  | |- neutral (pattempt _) => apply neutral_attempt
  | |- neutral (pmap_err _ _) => apply neutral_map_err
  | |- neutral (ignore _) => apply neutral_ignore
  | |- neutral (act _) => apply neutral_act; simpl; try done
  | |- neutral (if _ then _ else _) => apply neutral_if
  | |- neutral (match ?x with _ => _ end) => destruct x
  end.
Ltac neutral_auto := repeat neutral_step.

Lemma rate_key_free u now : rateLimitKey u now <> K.
Proof.
  destruct is_guard as [[x ->]|[sid ->]]; [apply rate_key_user|apply rate_key_conversation].
Qed.
Lemma neutral_save c : neutral (saveConversation s c).
Proof. unfold saveConversation, requireDB. neutral_auto. Qed.
Lemma neutral_owned id u : neutral (requireOwnedConversation s id u).
Proof. unfold requireOwnedConversation, getConversation, requireDB. neutral_auto. Qed.
Lemma neutral_resolve input : neutral (resolveConversation s input).
Proof. unfold resolveConversation, newConversation. neutral_auto. apply neutral_owned. Qed.
Lemma neutral_request_id id : neutral (normalizeTurnRequestID id).
Proof. unfold normalizeTurnRequestID. cbv zeta. neutral_auto. Qed.
Lemma neutral_per_minute u : neutral (enforcePerMinute s u).
Proof. unfold enforcePerMinute. cbv zeta. neutral_auto; apply rate_key_free. Qed.
Lemma neutral_persist m c : neutral (persist s m c).
Proof. unfold persist. neutral_auto. apply neutral_save. Qed.
Lemma neutral_emit ev : neutral (act (CEmit ev)).
Proof. neutral_auto. Qed.

(** *** The guards of a turn *)
(** [release] gives back what [h] holds, and never fails. *)
Definition releases (h : hold) (release : prog unit) : Prop := wlp release (fun r h' => r = Ok tt /\ h' = Free) h.
Definition silent (release : prog unit) : Prop := forall h, wlp release (fun r h' => r = Ok tt /\ h' = h) h.
Lemma silent_ret : silent (pret tt).
Proof. done. Qed.
Lemma silent_decr k : k <> K -> silent (ignore (act (CDecr k))).
Proof.
  intros Hk h. unfold ignore. prog_step. prog_step. apply wlp_neutral; [by apply neutral_act|]. done.
Qed.
Lemma release_own h : h <> Free -> releases h (ignore (act (CDecr K))).
Proof.
  intros Hh. unfold releases, ignore. prog_step. prog_step. apply wlp_act; [exact (fun _ => Hh)|].
  intros r h' Ha. simpl in Ha. rewrite String.eqb_refl in Ha. subst. by prog_step.
Qed.

Lemma acquire_other k lim ttl e h :
  k <> K ->
  wlp (acquireCounterGuard s k lim ttl e)
    (fun r h' => h' = h /\ match r with Ok release => silent release | Err _ => True end) h.
Proof.
  intros Hk. unfold acquireCounterGuard. rewrite with_redis. prog_step. prog_step.
  apply wlp_neutral; [by apply neutral_act|]. intros [count|e']; cbv beta iota.
  - prog_step.
    + prog_step. split; [done|]. by apply silent_decr.
    + prog_step. apply wlp_neutral; [by neutral_auto|]. by intros [].
  - prog_step. split; [done|]. apply silent_ret.
Qed.
Lemma acquire_own e :
  wlp (acquireCounterGuard s K L (guardTTL s) e)
    (fun r h => match r with Ok release => h = Granted /\ releases h release | Err _ => h = Free end) Free.
Proof.
  unfold acquireCounterGuard. rewrite with_redis. prog_step. prog_step. apply wlp_act; [done|].
  intros r h Ha. simpl in Ha. rewrite String.eqb_refl in Ha. destruct r as [count|]; [|done]. cbv beta iota.
  subst h. destruct (count <=? L).
  - prog_step. split; [done|]. by apply release_own.
  - prog_step. eapply wlp_mono; [by apply release_own|]. by intros [] ? [? ->].
Qed.

(** After the guards, a turn may call the agent, and its release frees the counter. *)
Definition guarded (u : Z) (sid : string) (h : hold) (release : prog unit) : Prop :=
  (K = activeUserKey u \/ K = activeConversationKey sid -> h = Granted) /\ releases h release.
Lemma release_both h (a b : prog unit) : silent a -> releases h b -> releases h (a;; b)%prog.
Proof.
  intros Ha Hb. unfold releases. prog_step. eapply wlp_mono; [apply Ha|]. by intros ? ? [-> ->].
Qed.
Lemma release_first h (a b : prog unit) : releases h a -> silent b -> releases h (a;; b)%prog.
Proof.
  intros Ha Hb. unfold releases. prog_step. eapply wlp_mono; [apply Ha|]. intros ? ? [-> ->]. apply Hb.
Qed.
Lemma guards_taken u sid :
  wlp (acquireTurnGuards s u sid)
    (fun r h => match r with Ok release => guarded u sid h release | Err _ => h = Free end) Free.
Proof.
  unfold acquireTurnGuards. prog_step. apply wlp_neutral; [apply neutral_per_minute|]. intros [[]|e]; [|done].
  prog_step. destruct (decide (K = activeUserKey u)) as [Ku|Ku].
  - rewrite <- Ku, <- (limit_user _ Ku). eapply wlp_mono; [apply acquire_own|]. intros [user|e] h; [|done].
    intros [-> Hrel]. prog_step. prog_step.
    eapply wlp_mono; [apply acquire_other; rewrite Ku; apply not_eq_sym, user_key_conversation|].
    intros [session|e] h' [-> Hs]; cbv beta iota.
    + prog_step. split; [done|]. by apply release_both.
    + prog_step. eapply wlp_mono; [exact Hrel|]. by intros ? ? [-> ->].
  - eapply wlp_mono; [by apply acquire_other|]. intros [user|e] h [-> Hs]; [|done].
    prog_step. prog_step. destruct (decide (K = activeConversationKey sid)) as [Kc|Kc].
    + rewrite <- Kc, <- (limit_conversation _ Kc). eapply wlp_mono; [apply acquire_own|].
      intros [session|e] h; cbv beta iota.
      * intros [-> Hrel]. prog_step. split; [done|]. by apply release_first.
      * intros ->. prog_step. eapply wlp_mono; [apply Hs|]. by intros ? ? [-> ->].
    + eapply wlp_mono; [by apply acquire_other|]. intros [session|e] h [-> Hs']; cbv beta iota.
      * prog_step. split; [naive_solver|]. unfold releases. prog_step.
        eapply wlp_mono; [apply Hs'|]. intros ? ? [-> ->]. apply Hs.
      * prog_step. eapply wlp_mono; [apply Hs|]. by intros ? ? [-> ->].
Qed.

(** *** The turns *)
Definition ready (p : preparedTurn) (h : hold) : Prop := needs (pr_request p) = true -> h = Granted.
Lemma session_titled input c : cv_SessionID (titled input c) = cv_SessionID c.
Proof. unfold titled. by destruct (String.eqb _ _). Qed.
Lemma session_pending input id c : cv_SessionID (pending input id c) = cv_SessionID c.
Proof. unfold pending. by rewrite session_titled. Qed.
Lemma wlp_save c (Q : res Conversation -> hold -> Prop) h :
  (forall t, Q (Ok (touched t c)) h) -> (forall e, Q (Err e) h) -> wlp (saveConversation s c) Q h.
Proof.
  intros H1 H2. unfold saveConversation, requireDB. prog_step.
  destruct (db_set s); prog_step; [|done]. prog_step. prog_step. apply wlp_act; [done|].
  intros [t|e] h' ->; [by prog_step|done].
Qed.

Lemma turn_prepared input :
  wlp (prepareTurn s input)
    (fun r h => match r with Ok (p, release) => ready p h /\ releases h release | Err _ => h = Free end) Free.
Proof.
  unfold prepareTurn. prog_step; [by prog_step|]. prog_step.
  apply wlp_neutral; [apply neutral_resolve|]. intros [c|e]; [|done]. prog_step.
  apply wlp_neutral; [apply neutral_request_id|]. intros [requestID|e]; [|done]. prog_step.
  eapply wlp_mono; [apply guards_taken|]. intros [release|e] h; [|done]. intros [Hg Hrel].
  prog_step. prog_step. apply wlp_save.
  - intros t. cbv beta iota. prog_step. split; [|done]. unfold ready, needs. simpl. rewrite session_pending.
    intros Hn. apply Hg. apply orb_true_iff in Hn as [H|H]; apply String.eqb_eq in H; auto.
  - intros e. cbv beta iota. prog_step. eapply wlp_mono; [exact Hrel|]. by intros ? ? [-> ->].
Qed.
Lemma wlp_turn_call c p (Q : res (resp c) -> hold -> Prop) h :
  turn_call c = Some (pr_request p) -> ready p h -> (forall r, Q r h) -> wlp (act c) Q h.
Proof.
  intros Hc Hr HQ. apply wlp_act; [by destruct c; simplify_eq/=|]. intros r h' Ha.
  destruct c; simplify_eq/=; apply HQ.
Qed.

(** The rest of a turn keeps what the guards took, up to its release. *)
Lemma defer_released {A} (body : prog A) release h :
  releases h release -> wlp body (fun _ h' => h' = h) h -> wlp (defer release body) (fun _ h' => h' = Free) h.
Proof.
  intros Hr Hb. prog_step. eapply wlp_mono; [exact Hb|]. intros r h' ->.
  eapply wlp_mono; [exact Hr|]. by intros ? ? [_ ->].
Qed.
Lemma neutral_failure input p ev : neutral (emitStreamFailure s input p ev).
Proof. unfold emitStreamFailure, persistConversationFailure. neutral_auto. apply neutral_persist. Qed.
Lemma neutral_event input p ev : neutral (handleStreamEvent s input p ev).
Proof.
  unfold handleStreamEvent, persistConversationResult. destruct ev; cbv zeta; neutral_auto;
    first [apply neutral_persist|apply neutral_failure].
Qed.
Lemma stream_guarded input p events e h :
  ready p h -> wlp (consumeTurnStream s input p events e) (fun _ h' => h' = h) h.
Proof.
  intros Hr. induction events as [|event events IH]; cbn [consumeTurnStream]; prog_step;
    (eapply wlp_turn_call; [done|done|]); (intros [x|e0]; [|done]).
  - unfold handleStreamReceiveError. destruct e; apply neutral_failure.
  - prog_step. apply wlp_neutral; [apply neutral_event|]. intros [[]|e1]; [by prog_step|exact IH|done].
Qed.
Lemma HandleTurn_guarded input : wlp (HandleTurn s input) (fun _ h => h = Free) Free.
Proof.
  unfold HandleTurn. prog_step. eapply wlp_mono; [apply turn_prepared|]. intros [[p release]|e] h; [|done].
  intros [Hr Hrel]. apply defer_released; [done|]. prog_step. eapply wlp_turn_call; [done|done|].
  intros [[resp|code]|e]; [|by prog_step|done]. cbv zeta. prog_step.
  apply wlp_neutral; [apply neutral_persist|]. intros [[]|e]; [by prog_step|done].
Qed.
Lemma StreamTurn_guarded input : wlp (StreamTurn s input) (fun _ h => h = Free) Free.
Proof.
  unfold StreamTurn. prog_step. eapply wlp_mono; [apply turn_prepared|]. intros [[p release]|e] h; [|done].
  intros [Hr Hrel]. apply defer_released; [done|]. prog_step. apply wlp_neutral; [apply neutral_emit|].
  intros [[]|e]; [|done]. prog_step. eapply wlp_turn_call; [done|done|].
  intros [[[events e]|code]|e]; [by apply stream_guarded|apply neutral_failure|done].
Qed.
Lemma serve_guarded q : wlp (serve s q) (fun _ h => h = Free) Free.
Proof.
  destruct q; simpl; prog_step.
  - eapply wlp_mono; [apply HandleTurn_guarded|]. by intros [] ? ->.
  - eapply wlp_mono; [apply StreamTurn_guarded|]. by intros [[]|] ? ->.
  - apply wlp_neutral; [|by intros []]. unfold ListConversations, listConversations, requireDB. cbv zeta. neutral_auto.
  - apply wlp_neutral; [|by intros []]. unfold GetHistory. neutral_auto. apply neutral_owned.
  - apply wlp_neutral; [|by intros [[]|]].
    unfold DeleteConversation, deleteRemoteConversation, deleteConversationRecord, requireDB. neutral_auto. apply neutral_owned.
Qed.
End one_counter.

(** *** The counter in Redis *)
(** How many elements satisfy [f], as a list changes at a position. *)
Lemma many_insert {X} (f : X -> bool) l i x y :
  l !! i = Some x -> many f (<[i := y]> l) = many f l - one_if (f x) + one_if (f y).
Proof.
  revert i. induction l as [|z l IH]; intros [|i] Hi; simplify_eq/=; unfold many in *.
  - rewrite !filter_cons. destruct (decide (f x = true)) as [Hx|Hx], (decide (f y = true)) as [Hy|Hy];
      unfold one_if; destruct (f x), (f y); simpl; try done; lia.
  - rewrite !filter_cons. specialize (IH i Hi). destruct (decide (f z = true)); simpl; lia.
Qed.
Lemma many_mono {X} (f g : X -> bool) l : (forall x, f x = true -> g x = true) -> many f l <= many g l.
Proof.
  intros H. unfold many. induction l as [|x l IH]; [done|]. rewrite !filter_cons.
  destruct (decide (f x = true)) as [Hf|Hf].
  - rewrite decide_True by auto. simpl. lia.
  - destruct (decide _); simpl; lia.
Qed.
Lemma many_zip {X Y} (f : X -> bool) (g : Y -> bool) l k :
  length l = length k -> (forall i x y, l !! i = Some x -> k !! i = Some y -> f x = true -> g y = true) -> many f l <= many g k.
Proof.
  revert k. induction l as [|x l IH]; intros [|y k] Hlen H; simplify_eq/=; [done|].
  assert (Hl : many f l <= many g k) by (apply IH; [done|]; intros i; apply (H (Datatypes.S i))).
  specialize (H 0%nat x y eq_refl eq_refl). unfold many in *. rewrite !filter_cons.
  destruct (decide (f x = true)) as [Hf|Hf]; [rewrite decide_True by auto; simpl; lia|].
  destruct (decide (g y = true)); simpl; lia.
Qed.
Lemma many_none {X} (f : X -> bool) l : (forall x, x ∈ l -> f x = false) -> many f l = 0.
Proof.
  intros H. unfold many. induction l as [|x l IH]; [done|]. rewrite filter_cons, decide_False.
  - apply IH. intros y Hy. apply H. by right.
  - rewrite H; [done|]. by left.
Qed.
Lemma many_nonneg {X} (f : X -> bool) l : 0 <= many f l.
Proof. unfold many. lia. Qed.

Section redis.
Context {R : RedisServer} {RK : RedisKeeps R}.
Variable K : string.
Variable ttl t0 : Z.

(** The counter says [n] at all times of the period that starts at [t0]. *)
Definition counted (n : Z) (r : rsrv) : Prop :=
  match kv r !! K with
  | None => n = 0
  | Some (v, e) =>
    n = 0 /\ live t0 (v, e) = false \/
    v = GoStr.FormatInt n /\ (n = 0 \/ exists x, e = Some x /\ t0 + ttl <= x)
  end.
Lemma idle_counted r : idle t0 K r -> counted 0 r.
Proof.
  unfold idle, counted. intros H. destruct (kv r !! K) as [[v e]|]; [|done].
  destruct (live t0 (v, e)) eqn:Hl; [|by left]. right. split; [by eapply H|by left].
Qed.
Lemma counted_idle t r : counted 0 r -> t0 <= t -> idle t K r.
Proof.
  unfold idle, counted. intros H Ht v e Hk Hl. rewrite Hk in H. destruct H as [[_ H]|[-> _]]; [exfalso|done].
  revert Hl H. unfold live. destruct e; simpl; [lia|done].
Qed.

(** A command on another key. *)
Definition undisturbed (t : Z) (r r' : rsrv) : Prop :=
  forall x, (kv r' !! K = Some x -> kv r !! K = Some x) /\ (kv r !! K = Some x -> live t x = true -> kv r' !! K = Some x).
Lemma counted_undisturbed n t r r' : t0 <= t < t0 + ttl -> undisturbed t r r' -> counted n r -> counted n r'.
Proof.
  unfold counted. intros Ht Hr. destruct (kv r' !! K) as [x|] eqn:Hk'.
  - by rewrite (proj1 (Hr x) Hk').
  - destruct (kv r !! K) as [[v e]|] eqn:Hk; [|done]. intros [[]|[-> [?|(x & -> & Hx)]]]; [done..|].
    assert (Hl : live t (GoStr.FormatInt n, Some x) = true) by (unfold live; simpl; lia).
    pose proof (proj2 (Hr _) Hk Hl). congruence.
Qed.
Lemma undisturbed_incr k t r n r' : k <> K -> srv_incr t k r = Some (n, r') -> undisturbed t r r'.
Proof.
  intros Hk Hi x. split.
  - intros Hx. by destruct (srv_incr_spec _ _ _ _ _ _ _ Hi Hx) as [[]|[]].
  - apply (keep_incr _ _ _ _ _ Hi). congruence.
Qed.
Lemma undisturbed_decr k t r n r' : k <> K -> srv_decr t k r = Some (n, r') -> undisturbed t r r'.
Proof.
  intros Hk Hi x. split.
  - intros Hx. by destruct (srv_decr_spec _ _ _ _ _ _ _ Hi Hx) as [[]|[]].
  - apply (keep_decr _ _ _ _ _ Hi). congruence.
Qed.
Lemma undisturbed_expire k t d r : k <> K -> undisturbed t r (srv_expire t k d r).
Proof.
  intros Hk x. split.
  - intros Hx. by destruct (srv_expire_spec _ _ _ _ _ _ Hx) as [[]|[]].
  - apply (keep_expire t k d r). congruence.
Qed.
Lemma undisturbed_trans t r1 r2 r3 : undisturbed t r1 r2 -> undisturbed t r2 r3 -> undisturbed t r1 r3.
Proof. intros H1 H2 x. destruct (H1 x), (H2 x). split; auto. Qed.

Lemma counted_live n t r : t0 <= t < t0 + ttl -> 0 < n -> counted n r ->
  exists x, kv r !! K = Some (GoStr.FormatInt n, Some x) /\ t0 + ttl <= x /\ srv_get t K r = Some (GoStr.FormatInt n).
Proof.
  unfold counted. intros Ht Hn. destruct (kv r !! K) as [[v e]|] eqn:Hk; [|lia].
  intros [[]|[-> [?|(x & -> & Hx)]]]; [lia..|]. exists x. split; [done|]. split; [done|].
  eapply keep_get; [exact Hk|]. unfold live. simpl. lia.
Qed.
Lemma counted_incr n t r c r' d :
  t0 <= t < t0 + ttl -> 0 <= n -> counted n r -> srv_incr t K r = Some (c, r') -> ttl <= d ->
  c = n + 1 /\ counted (n + 1) (if c =? 1 then srv_expire t K d r' else r').
Proof.
  intros Ht Hn Hc Hi Hd. destruct (keep_incr _ _ _ _ _ Hi) as [_ Hget]. destruct (decide (n = 0)) as [->|Hne].
  - assert (Hone : c = 1 /\ exists e, kv r' !! K = Some (GoStr.FormatInt 1, e) /\ live t (GoStr.FormatInt 1, e) = true).
    { destruct (srv_get t K r) as [v|] eqn:Hg.
      - destruct Hget as (m & e & Hm & -> & Hk & Hk'). unfold counted in Hc. rewrite Hk in Hc.
        destruct (srv_get_spec _ _ _ _ Hg) as (e' & Hk2 & Hl). rewrite Hk in Hk2. simplify_eq.
        destruct Hc as [[_ Hd0]|[-> _]].
        + exfalso. revert Hl Hd0. unfold live. destruct e'; simpl; [lia|done].
        + apply GoStr.ParseInt_FormatInt_some in Hm as ->; [|lia]. split; [done|]. by exists e'.
      - destruct Hget as [-> Hk]. split; [done|]. by exists None. }
    destruct Hone as [-> (e & Hk & Hl)]. split; [done|]. simpl.
    destruct (keep_expire t K d r') as [_ He]. unfold counted. rewrite (He _ _ Hk Hl). right. split; [done|].
    right. exists (t + d). split; [done|lia].
  - destruct (counted_live n t r Ht ltac:(lia) Hc) as (x & Hk & Hx & Hg). rewrite Hg in Hget.
    destruct Hget as (m & e & Hm & -> & Hk2 & Hk'). rewrite Hk in Hk2. simplify_eq.
    apply GoStr.ParseInt_FormatInt_some in Hm as ->; [|lia]. split; [done|].
    rewrite (proj2 (Z.eqb_neq _ _)) by lia. unfold counted. rewrite Hk'. right. split; [done|]. right. eauto.
Qed.
Lemma counted_decr n t r c r' :
  t0 <= t < t0 + ttl -> 0 < n -> counted n r -> srv_decr t K r = Some (c, r') -> counted (n - 1) r'.
Proof.
  intros Ht Hn Hc Hi. destruct (keep_decr _ _ _ _ _ Hi) as [_ Hget].
  destruct (counted_live n t r Ht Hn Hc) as (x & Hk & Hx & Hg). rewrite Hg in Hget.
  destruct Hget as (m & e & Hm & -> & Hk2 & Hk'). rewrite Hk in Hk2. simplify_eq.
  apply GoStr.ParseInt_FormatInt_some in Hm as ->; [|lia]. unfold counted. rewrite Hk'. right. split; [done|]. right. eauto.
Qed.
End redis.

(** *** The commands *)
Section commands.
Context {E : Env} {D : SqlEngine} {R : RedisServer} {AG : AgentClient}.
Notation DB := (DB D R).
Definition server (w : World DB) : rsrv := redis (w_db w).

Lemma server_reads {A} (m : M DB A) : Safe.reads m -> preserves server m.
Proof. intros Hm w. unfold server. by destruct (Hm w) as [-> _]. Qed.
Lemma server_save over c : preserves server (save Conversation over c).
Proof.
  unfold save. apply preserves_bind.
  - apply preserves_bind; [apply server_reads, Safe.reads_stmt|]. intros _ w. unfold bind, get_db, server.
    by destruct (upd _ _ _) as [[t n]|].
  - intros n. destruct (n =? 0); [|done]. apply preserves_bind; [apply server_reads, Safe.reads_stmt|]. intros _ w.
    unfold bind, get_db, server. destruct (ins _ _); [done|]. by destruct (upd _ _ _) as [[t m]|].
Qed.
Lemma server_delete p : preserves server (delete Conversation p).
Proof.
  apply preserves_bind; [apply server_reads, Safe.reads_stmt|]. intros _ w. unfold bind, get_db, server.
  by destruct (del _ _) as [t n].
Qed.
Lemma server_exec c : redis_command c = false -> preserves server (exec c).
Proof.
  intros Hc. destruct c; try done; simpl.
  - apply server_reads, Safe.reads_or_nil, Safe.reads_take.
  - apply server_reads, Safe.reads_count.
  - apply server_reads, Safe.reads_bind; [apply Safe.reads_find|done].
  - apply preserves_bind; [done|]. intros t. apply preserves_bind; [apply server_save|done].
  - apply server_delete.
  - intros w. unfold send, bind, fault, throw, ret. by destruct (env_fault _).
Qed.
(** A command that succeeds. *)
Lemma command_ok {A} (f : Z -> rsrv -> res (A * rsrv)) (w w' : World DB) r :
  command f w = (r, w') -> is_ok r = true ->
  exists a, r = Ok a /\ f (env_now (w_tick w)) (server w) = Ok (a, server w').
Proof.
  unfold command, bind, now, fault, get_db, put_db, ret, throw. simpl.
  destruct (env_fault _); simpl; [by intros [= <- <-]|]. unfold server.
  destruct (f _ _) as [[a r']|]; simpl; [|by intros [= <- <-]]. intros [= <- <-] _. by exists a.
Qed.
Lemma incr_ok k (w w' : World DB) r :
  Incr k w = (r, w') -> is_ok r = true ->
  exists n, r = Ok n /\ srv_incr (env_now (w_tick w)) k (server w) = Some (n, server w').
Proof.
  intros He Hok. unfold Incr in He. destruct (command_ok _ _ _ _ He Hok) as (n & -> & Hf). exists n.
  destruct (srv_incr _ _ _); by simplify_eq.
Qed.
Lemma decr_ok k (w w' : World DB) r :
  Decr k w = (r, w') -> is_ok r = true ->
  exists n, r = Ok n /\ srv_decr (env_now (w_tick w)) k (server w) = Some (n, server w').
Proof.
  intros He Hok. unfold Decr in He. destruct (command_ok _ _ _ _ He Hok) as (n & -> & Hf). exists n.
  destruct (srv_decr _ _ _); by simplify_eq.
Qed.
Lemma expire_ok k d (w w' : World DB) r :
  Expire k d w = (r, w') -> is_ok r = true ->
  exists d', server w' = srv_expire (env_now (w_tick w)) k d' (server w).
Proof.
  intros He Hok. unfold Expire in He. destruct (command_ok _ _ _ _ He Hok) as ([] & -> & Hf). simplify_eq. eauto.
Qed.
Lemma guard_ok k ms (w w' : World DB) r :
  counterGuardAcquireScript k ms w = (r, w') -> is_ok r = true ->
  exists n r1, r = Ok n /\ srv_incr (env_now (w_tick w)) k (server w) = Some (n, r1) /\
    server w' = if n =? 1 then srv_expire (env_now (w_tick w)) k (ms * GoTime.Millisecond) r1 else r1.
Proof.
  intros He Hok. unfold counterGuardAcquireScript in He. destruct (command_ok _ _ _ _ He Hok) as (n & -> & Hf).
  unfold guard_script in Hf. destruct (srv_incr _ _ _) as [[c r1]|] eqn:Hi; [|done]. simplify_eq. by exists n, r1.
Qed.

(** *** Any number of turns *)
Context {RK : RedisKeeps R}.
Variable s : Service.
Variable K : string.
Variable L : Z.
Definition lifetime : Z := Milliseconds (guardTTL s) * GoTime.Millisecond.
Variable t0 : Z.

Definition counting (hs : list hold) (tr : list (Label resp)) (w : World DB) : Prop :=
  counted K lifetime t0 (many holds hs) (server w) /\ many granted hs <= L.

Lemma many_same (hs : list hold) i h : hs !! i = Some h -> <[i := h]> hs = hs.
Proof. apply list_insert_id. Qed.
Lemma granted_holds h : granted h = true -> holds h = true.
Proof. by destruct h. Qed.
Lemma many_holds_pos (hs : list hold) i h : hs !! i = Some h -> h <> Free -> 0 < many holds hs.
Proof.
  intros Hi Hh. pose proof (many_insert holds hs i h Free Hi) as Hm.
  pose proof (many_nonneg holds (<[i := Free]> hs)).
  assert (holds h = true) as Hg by (by destruct h). rewrite Hg in Hm. unfold one_if in Hm. simpl in Hm. lia.
Qed.

Lemma counting_other hs tr w i h c r w' :
  hs !! i = Some h -> counting hs tr w -> exec c w = (r, w') ->
  (forall t, t0 <= t < t0 + lifetime -> redis_command c = true -> t = env_now (w_tick w) -> is_ok r = true ->
     undisturbed K t (server w) (server w')) ->
  steady lifetime t0 (mkLabel i (w_tick w) c r) ->
  counting (<[i := h]> hs) (tr ++ [mkLabel i (w_tick w) c r]) w'.
Proof.
  intros Hi [Hc Hg] He Hu Hst. rewrite (many_same _ _ _ Hi). split; [|done].
  destruct (redis_command c) eqn:Hr.
  - destruct (Hst Hr) as [Hok Ht]. eapply counted_undisturbed; [exact Ht| |exact Hc]. by apply Hu.
  - pose proof (server_exec c Hr w) as Hs. rewrite He in Hs. simpl in Hs. by rewrite Hs.
Qed.
Lemma counting_guard hs tr w i r w' :
  hs !! i = Some Free -> counting hs tr w -> counterGuardAcquireScript K (Milliseconds (guardTTL s)) w = (r, w') ->
  is_ok r = true -> t0 <= env_now (w_tick w) < t0 + lifetime ->
  exists n, r = Ok n /\ forall tr', counting (<[i := if n <=? L then Granted else Refused]> hs) tr' w'.
Proof.
  intros Hi [Hc Hg] He Hok Ht. destruct (guard_ok _ _ _ _ _ He Hok) as (c & r1 & -> & Hincr & Hsrv).
  exists c. split; [done|].
  destruct (counted_incr K lifetime t0 _ _ _ _ _ lifetime Ht (many_nonneg holds hs) Hc Hincr ltac:(done)) as [Hn Hc'].
  intros tr'. pose proof (many_insert holds hs i Free) as Hh. pose proof (many_insert granted hs i Free) as Hgr.
  pose proof (many_mono granted holds hs granted_holds) as Hm. split.
  - replace (many holds _) with (many holds hs + 1); [rewrite Hsrv; exact Hc'|].
    rewrite Hh by done. destruct (c <=? L); unfold one_if; simpl; lia.
  - rewrite Hgr by done. destruct (c <=? L) eqn:Hle; unfold one_if; simpl; bools; lia.
Qed.
Lemma counting_release hs tr w i h r w' :
  hs !! i = Some h -> h <> Free -> counting hs tr w -> Decr K w = (r, w') ->
  is_ok r = true -> t0 <= env_now (w_tick w) < t0 + lifetime ->
  forall tr', counting (<[i := Free]> hs) tr' w'.
Proof.
  intros Hi Hh [Hc Hg] He Hok Ht tr'. destruct (decr_ok _ _ _ _ He Hok) as (n & -> & Hdecr).
  pose proof (many_holds_pos _ _ _ Hi Hh) as Hpos.
  pose proof (counted_decr K lifetime t0 _ _ _ _ _ Ht Hpos Hc Hdecr) as Hc'.
  pose proof (many_insert holds hs i h Free Hi) as H1. pose proof (many_insert granted hs i h Free Hi) as H2.
  assert (holds h = true) as Hho by (by destruct h). rewrite Hho in H1. unfold one_if in *. simpl in *. split.
  - replace (many holds _) with (many holds hs - 1) by lia. exact Hc'.
  - destruct (granted h); lia.
Qed.

Lemma counting_keeps hs tr w i h c r w' :
  hs !! i = Some h -> may s K h c -> counting hs tr w -> exec c w = (r, w') ->
  let l := mkLabel i (w_tick w) c r in
  steady lifetime t0 l -> exists h', after K L h c r h' /\ counting (<[i := h']> hs) (tr ++ [l]) w'.
Proof.
  intros Hi Hm HJ He l Hst. pose proof (counting_other hs tr w i h c r w' Hi HJ He) as Hother.
  destruct c; try (exists h; split; [done|]; apply Hother; [|done]; done).
  - exists h. split; [done|]. apply Hother; [|done]. intros t _ _ -> Hok.
    destruct (incr_ok _ _ _ _ He Hok) as (n & -> & Hi1). by eapply undisturbed_incr.
  - exists h. split; [done|]. apply Hother; [|done]. intros t _ _ -> Hok.
    destruct (expire_ok _ _ _ _ _ He Hok) as (d & ->). by apply undisturbed_expire.
  - destruct (decide (key = K)) as [->|Hk].
    + exists Free. split; [simpl; by rewrite String.eqb_refl|]. destruct (Hst eq_refl) as [Hok Ht].
      eapply counting_release; [exact Hi|by apply Hm|done..].
    + exists h. split; [simpl; by rewrite (proj2 (String.eqb_neq _ _) Hk)|]. apply Hother; [|done]. intros t _ _ -> Hok.
      destruct (decr_ok _ _ _ _ He Hok) as (n & -> & Hi1). by eapply undisturbed_decr.
  - destruct (decide (key = K)) as [->|Hk].
    + destruct (Hst eq_refl) as [Hok Ht]. destruct (Hm eq_refl) as [-> ->].
      destruct (counting_guard _ _ _ _ _ _ Hi HJ He Hok Ht) as (n & -> & Hn). eexists.
      split; [simpl; by rewrite String.eqb_refl|]. apply Hn.
    + exists h. split; [simpl; by rewrite (proj2 (String.eqb_neq _ _) Hk)|]. apply Hother; [|done]. intros t _ _ -> Hok.
      destruct (guard_ok _ _ _ _ _ He Hok) as (n & r1 & -> & Hi1 & ->).
      eapply undisturbed_trans; [by eapply undisturbed_incr|]. destruct (n =? 1); [by apply undisturbed_expire|done].
Qed.
End commands.

(** *** What holds in every interleaving *)
Section runs.
Context {PE : ProtoEnum} {E : Env} {D : SqlEngine} {R : RedisServer} {AG : AgentClient} {RK : RedisKeeps R}.
Notation DB := (DB D R).
Variable s : Service.
Hypothesis with_redis : redis_set s = true.

Definition guard_key (K : string) : Prop := (exists x, K = user_key x) \/ (exists sid, K = activeConversationKey sid).
Lemma setting_positive f n : setting f s = Some n -> 0 < n.
Proof. unfold setting. destruct (cfg s); [|done]. case_bool; [done|]. intros [= <-]. bools. lia. Qed.
Lemma user_limit_positive : 0 < maxConcurrentPerUser s.
Proof. unfold maxConcurrentPerUser. destruct (setting _ s) eqn:Hs; [by eapply setting_positive|done]. Qed.
Lemma conversation_limit_positive : 0 < maxConcurrentPerConversation s.
Proof. unfold maxConcurrentPerConversation. destruct (setting _ s) eqn:Hs; [by eapply setting_positive|done]. Qed.

Lemma guard_limit K : guard_key K ->
  exists L, (forall u, K = activeUserKey u -> L = maxConcurrentPerUser s) /\
    (forall sid, K = activeConversationKey sid -> L = maxConcurrentPerConversation s) /\ 0 <= L.
Proof.
  pose proof user_limit_positive. pose proof conversation_limit_positive. intros [[x ->]|[sid ->]].
  - exists (maxConcurrentPerUser s). split; [done|]. split; [done|lia].
  - exists (maxConcurrentPerConversation s). split; [|split; [done|lia]].
    intros u Hk. symmetry in Hk. by apply user_key_conversation in Hk.
Qed.

(** The state of every turn in some order, for one counter. *)
Lemma counter_run K L reqs (w0 : World DB) tr ps w t0 :
  (forall u, K = activeUserKey u -> L = maxConcurrentPerUser s) ->
  (forall sid, K = activeConversationKey sid -> L = maxConcurrentPerConversation s) ->
  guard_key K -> 0 <= L ->
  trace exec (serve s <$> reqs) w0 tr ps w -> Forall (steady (lifetime s) t0) tr -> idle t0 K (server w0) ->
  exists hs, length hs = length ps /\ counting s K L t0 hs tr w /\
    forall i h p, hs !! i = Some h -> ps !! i = Some p -> wlp (may s K) (after K L) p (fun _ h' => h' = Free) h.
Proof.
  intros HU HC HK HL Ht Hst Hi.
  eapply (trace_invariant _ _ _ _ _ (counting_keeps s K L t0) (fun _ _ h' => h' = Free) _ _ _ _ _ (replicate (length reqs) Free) Ht);
    [exact Hst|by rewrite length_replicate, length_fmap| |].
  - intros i h p Hh Hp. apply list_lookup_fmap_Some in Hp as (q & -> & Hq).
    apply lookup_replicate in Hh as [-> _]. by apply serve_guarded.
  - assert (Hno : forall f : hold -> bool, f Free = false -> many f (replicate (length reqs) Free) = 0).
    { intros f Hf. apply many_none. intros h Hh. by apply elem_of_replicate in Hh as [-> _]. }
    split; rewrite Hno by done; [by apply idle_counted|done].
Qed.
Lemma calling_granted {A} K L which (p : prog A) h (Q : res A -> hold -> Prop) :
  wlp (may s K) (after K L) p Q h -> (forall q, which q = true -> needs K q = true) -> calls which p = true -> granted h = true.
Proof.
  intros Hp Hw Hc. destruct p as [|c k]; [done|]. destruct Hp as [Hm _]. unfold calls in Hc.
  destruct (turn_call c) as [q|] eqn:Hq; [|done]. apply bool_decide_eq_true_2.
  destruct c; simplify_eq/=; apply Hm, Hw, Hc.
Qed.
Lemma calls_bounded K L reqs (w0 : World DB) tr ps w t0 which :
  (forall u, K = activeUserKey u -> L = maxConcurrentPerUser s) ->
  (forall sid, K = activeConversationKey sid -> L = maxConcurrentPerConversation s) ->
  guard_key K -> 0 <= L -> (forall q, which q = true -> needs K q = true) ->
  trace exec (serve s <$> reqs) w0 tr ps w -> Forall (steady (lifetime s) t0) tr -> idle t0 K (server w0) ->
  many (calls which) ps <= L.
Proof.
  intros HU HC HK HL Hw Ht Hst Hi. destruct (counter_run K L reqs w0 tr ps w t0) as (hs & Hlen & [_ Hg] & Hps); [done..|].
  etrans; [|exact Hg]. apply many_zip; [done|]. intros i p h Hp Hh. by eapply calling_granted; [by eapply Hps|].
Qed.

(** C18: As long as Redis answers and no counter outlives its lifetime, at most
    [maxConcurrentPerUser] turns of a user, and [maxConcurrentPerConversation] turns of a
    conversation, occupy the agent at the same time, however the requests of any number
    of users interleave. *)
Theorem agent_turns_bounded reqs (w0 : World DB) tr ps w t0 u sid :
  trace exec (serve s <$> reqs) w0 tr ps w ->
  Forall (steady (lifetime s) t0) tr ->
  (forall K, guard_key K -> idle t0 K (server w0)) ->
  many (calls_of_user u) ps <= maxConcurrentPerUser s /\
  many (calls_in_session sid) ps <= maxConcurrentPerConversation s.
Proof.
  intros Ht Hst Hi. pose proof user_limit_positive. pose proof conversation_limit_positive. split.
  - eapply (calls_bounded (activeUserKey u)); [done| | |lia| |exact Ht|exact Hst|].
    + intros sid' Hk. by apply user_key_conversation in Hk.
    + left. by eexists.
    + intros q Hq%String.eqb_eq. unfold needs. rewrite Hq. apply orb_true_intro. left. apply String.eqb_refl.
    + apply Hi. left. by eexists.
  - eapply (calls_bounded (activeConversationKey sid)); [|done| |lia| |exact Ht|exact Hst|].
    + intros u' Hk. symmetry in Hk. by apply user_key_conversation in Hk.
    + right. by eexists.
    + intros q Hq%String.eqb_eq. unfold needs. rewrite Hq. apply orb_true_intro. right. apply String.eqb_refl.
    + apply Hi. right. by eexists.
Qed.

(** C19: Every way through a request gives back the counters it took: when every Redis
    command of the run succeeds and all fall within one lifetime of a counter ([steady]),
    then once all requests are answered no counter is held, and a new period can begin.
    (The service ignores the error of a [DECR]: one that fails leaves its counter held
    until the counter expires.) *)
Theorem agent_guards_returned reqs (w0 : World DB) tr ps w t0 t1 K :
  trace exec (serve s <$> reqs) w0 tr ps w ->
  Forall (steady (lifetime s) t0) tr ->
  guard_key K -> idle t0 K (server w0) ->
  Forall (fun p => is_finished p = true) ps -> t0 <= t1 ->
  idle t1 K (server w).
Proof.
  intros Ht Hst HK Hi Hf Ht1. destruct (guard_limit K HK) as (L & HU & HC & HL).
  destruct (counter_run K L reqs w0 tr ps w t0) as (hs & Hlen & [Hc _] & Hps); [done..|].
  rewrite many_none in Hc; [by eapply counted_idle|]. intros h [i Hh]%list_elem_of_lookup.
  destruct (lookup_lt_is_Some_2 ps i) as [p Hp]; [rewrite <- Hlen; by eapply lookup_lt_Some|].
  specialize (Hps _ _ _ Hh Hp). rewrite Forall_lookup in Hf. specialize (Hf _ _ Hp). destruct p; [|done].
  simpl in Hps. by subst.
Qed.
End runs.
End AgentGuards.

(** ** The conversations of a user *)
Module AgentOwners.
Import Prog Agentv1 Agent AgentService AgentLogic AgentQuiet.
Open Scope Z_scope.

Definition session_of (id : Z) : string := "agent-session-" ++ GoStr.FormatInt id.
(** What a command asks the agent for: the user it names and the conversation. *)
Definition asked (c : Cmd) : option (string * string) :=
  match c with
  | CHandleTurn q | CStream q | CRecv q _ => Some (tq_UserId q, tq_SessionId q)
  | CHistory q => Some (hq_UserId q, hq_SessionId q)
  | CDeleteSession q => Some (dq_UserId q, dq_SessionId q)
  | _ => None
  end.

(** *** One request: its user, and the conversations it knows to be the user's *)
Notation knows := (Z * gset string)%type.
Definition may (x : knows) (c : Cmd) : Prop :=
  match c with
  | CCount v | CFind v _ _ => v = x.1
  | CSave c => cv_RootUserID c = x.1 /\ cv_SessionID c ∈ x.2
  | CDelete sid v => v = x.1
  | _ => match asked c with Some (user, sid) => user = GoStr.FormatInt x.1 /\ sid ∈ x.2 | None => True end
  end.
Definition learns (x : knows) (c : Cmd) : res (resp c) -> knows :=
  match c return res (resp c) -> knows with
  | CTake _ => fun r =>
    match r with
    | Ok (Some c) => if cv_RootUserID c =? x.1 then (x.1, {[cv_SessionID c]} ∪ x.2) else x
    | _ => x
    end
  | CGenerate => fun r => match r with Ok id => (x.1, {[session_of id]} ∪ x.2) | Err _ => x end
  | _ => fun _ => x
  end.
Definition after (x : knows) (c : Cmd) (r : res (resp c)) (x' : knows) : Prop := x' = learns x c r.
Notation wlp := (wlp may after).

Section one_request.
Context {PE : ProtoEnum}.
Variable s : Service.
Variable u : Z.

(** The request acts for [u] and knows at least [ks]. *)
Definition knowing (ks : gset string) (x : knows) : Prop := x.1 = u /\ ks ⊆ x.2.
(** [p] keeps to the protocol when it knows [ks]; its answer and what is known then
    satisfy [P]. *)
Definition obeys {A} (ks : gset string) (p : prog A) (P : A -> gset string -> Prop) : Prop :=
  forall x, knowing ks x -> wlp p (fun r x' => knowing ks x' /\ match r with Ok a => P a x'.2 | Err _ => True end) x.
Notation plain ks p := (obeys ks p (fun _ _ => True)).

Lemma obeys_mono {A} ks (p : prog A) (P Q : A -> gset string -> Prop) :
  obeys ks p P -> (forall a ks', ks ⊆ ks' -> P a ks' -> Q a ks') -> obeys ks p Q.
Proof.
  intros Hp HQ x Hx. eapply wlp_mono; [by apply Hp|]. intros r x' [[Hu Hk] Hr]. split; [done|]. destruct r; auto.
Qed.
Lemma obeys_plain {A} ks (p : prog A) P : obeys ks p P -> plain ks p.
Proof. intros Hp. by eapply obeys_mono. Qed.
Lemma obeys_ret {A} ks (a : A) (P : A -> gset string -> Prop) : (forall ks', ks ⊆ ks' -> P a ks') -> obeys ks (pret a) P.
Proof. intros Ha x [Hu Hk]. apply wlp_ret. split; [done|]. auto. Qed.
Lemma obeys_throw {A} ks e (P : A -> gset string -> Prop) : obeys ks (pthrow e) P.
Proof. intros x Hx. by apply wlp_throw. Qed.
Lemma obeys_bind {A B} ks (p : prog A) (f : A -> prog B) P Q :
  obeys ks p P -> (forall a ks', ks ⊆ ks' -> P a ks' -> obeys ks' (f a) Q) -> obeys ks (pbind p f) Q.
Proof.
  intros Hp Hf x Hx. apply wlp_bind. eapply wlp_mono; [by apply Hp|]. intros [a|e] x' [[Hu Hk] Hr]; [|done].
  eapply wlp_mono; [by apply (Hf a x'.2)|]. intros r x'' [[Hu' Hk'] Hr']. split; [|done]. split; [done|]. by etrans.
Qed.
Lemma obeys_attempt {A} ks (p : prog A) P :
  obeys ks p P -> obeys ks (pattempt p) (fun r ks' => match r with Ok a => P a ks' | Err _ => True end).
Proof. intros Hp x Hx. apply wlp_attempt. eapply wlp_mono; [by apply Hp|]. done. Qed.
Lemma obeys_map_err {A} ks f (p : prog A) P : obeys ks p P -> obeys ks (pmap_err f p) P.
Proof. intros Hp x Hx. apply wlp_map_err. eapply wlp_mono; [by apply Hp|]. by intros []. Qed.
Lemma obeys_defer {A} ks release (body : prog A) :
  (forall ks, plain ks release) -> plain ks body -> plain ks (defer release body).
Proof.
  intros Hr Hb. apply (obeys_bind _ _ _ (fun _ _ => True)); [by eapply obeys_plain, obeys_attempt|]. intros r ks' _ _.
  apply (obeys_bind _ _ _ (fun _ _ => True)); [by eapply obeys_plain, obeys_attempt|]. intros _ ks'' _ _ x Hx.
  split; [done|]. by destruct r.
Qed.
(** Commands. *)
Lemma obeys_act ks c :
  match c with
  | CTake _ | CGenerate => True
  | CSave c => cv_RootUserID c = u /\ cv_SessionID c ∈ ks
  | CCount v | CFind v _ _ | CDelete _ v => v = u
  | _ => match asked c with Some (user, sid) => user = GoStr.FormatInt u /\ sid ∈ ks | None => True end
  end -> plain ks (act c).
Proof.
  intros Hc x [<- Hk]. apply wlp_act.
  - destruct c; simpl in *; try done; destruct Hc; auto.
  - intros r x' ->. split; [|by destruct r]. destruct c; try done; simpl.
    + destruct r; [|done]. split; [done|]. set_solver.
    + destruct r as [[c|]|]; [|done..]. destruct (_ =? _); [|done]. split; [done|]. set_solver.
Qed.
Lemma obeys_Generate ks : obeys ks (act CGenerate) (fun id ks' => session_of id ∈ ks').
Proof.
  intros x [<- Hk]. apply wlp_act; [done|]. intros [id|e] x' ->; [|done]. simpl. split; [split; [done|]|]; set_solver.
Qed.
Lemma obeys_Take ks sid :
  obeys ks (act (CTake sid) : prog (option Conversation))
    (fun o ks' => match o with Some c => cv_RootUserID c = u -> cv_SessionID c ∈ ks' | None => True end).
Proof.
  intros x [<- Hk]. apply wlp_act; [done|]. intros [[c|]|e] x' ->; [|done..]. simpl.
  destruct (_ =? _) eqn:Hc; bools; [|done]. split; [split; [done|]|]; set_solver.
Qed.

Ltac plain_step :=
  match goal with
  | |- obeys _ (pret _) _ => by apply obeys_ret
  | |- obeys _ (pthrow _) _ => apply obeys_throw
  | |- obeys _ (pbind _ _) _ => apply (obeys_bind _ _ _ (fun _ _ => True)); [|intros ? ? ? _]
  | |- obeys _ (pattempt _) _ => eapply obeys_plain, obeys_attempt
  | |- obeys _ (pmap_err _ _) _ => apply obeys_map_err
  | |- obeys _ (act _) _ => apply obeys_act; simpl; try done
  | |- obeys _ (if ?b then _ else _) _ => destruct b eqn:?
  | |- obeys _ (match ?x with _ => _ end) _ => destruct x
  end.
Ltac plain_auto := repeat plain_step.

(** *** Functions that need no knowledge *)
Lemma plain_ignore {A} ks (p : prog A) : plain ks p -> plain ks (ignore p).
Proof. intros Hp. unfold ignore. plain_step; [|plain_auto]. by eapply obeys_plain, obeys_attempt. Qed.
Definition harmless (release : prog unit) : Prop := forall ks, plain ks release.
Lemma obeys_guards ks v sid : obeys ks (acquireTurnGuards s v sid) (fun release _ => harmless release).
Proof.
  intros x Hx. eapply wlp_mono; [apply inert_guards|].
  - intros c y Hc. split; [by destruct c|]. intros r y' ->. by destruct c.
  - intros r x' [-> Hr]. split; [done|]. destruct r as [release|]; [|done]. intros ks' y Hy.
    eapply wlp_mono; [apply Hr|]. intros r y' ->. split; [done|]. by destruct r.
Qed.

(** *** Conversations *)
Definition mine (c : Conversation) (ks : gset string) : Prop := cv_RootUserID c = u /\ cv_SessionID c ∈ ks.
Lemma mine_more c ks ks' : mine c ks -> ks ⊆ ks' -> mine c ks'.
Proof. intros [H1 H2] H. split; [done|set_solver]. Qed.
Lemma mine_titled input c ks : mine (titled input c) ks <-> mine c ks.
Proof. unfold titled, mine. by destruct (String.eqb _ _). Qed.
Lemma obeys_save ks c : mine c ks -> obeys ks (saveConversation s c) mine.
Proof.
  intros Hc. unfold saveConversation, requireDB. destruct (db_set s).
  - apply (obeys_bind _ _ _ (fun _ _ => True)); [plain_auto|]. intros _ ks1 H1 _.
    apply (obeys_bind _ _ _ (fun _ _ => True)); [plain_auto; by apply (mine_more _ _ _ Hc)|]. intros t ks2 H2 _.
    apply obeys_ret. intros ks3 H3. apply (mine_more _ _ _ Hc). set_solver.
  - eapply obeys_bind; [apply (obeys_throw _ _ (fun _ _ => False))|]. done.
Qed.
Lemma obeys_owned ks id : obeys ks (requireOwnedConversation s id u) mine.
Proof.
  unfold requireOwnedConversation, getConversation, requireDB.
  eapply obeys_bind; [apply obeys_map_err, (obeys_bind _ _ _ (fun _ _ => True));
    [by plain_auto|intros _ ks1 _ _; apply obeys_map_err, obeys_Take]|].
  intros [c|] ks1 _ Hc; [|apply obeys_throw]. destruct (_ =? _) eqn:Hu; bools; [|apply obeys_throw].
  apply obeys_ret. intros ks2 H2. split; [done|]. set_solver.
Qed.
Lemma obeys_resolve ks input : in_RootUserID input = u -> obeys ks (resolveConversation s input) mine.
Proof.
  intros Hu. unfold resolveConversation. destruct (String.eqb _ _); [|rewrite Hu; apply obeys_owned].
  unfold newConversation. eapply obeys_bind; [apply obeys_Generate|]. intros id ks1 _ Hid. apply obeys_ret.
  intros ks2 H2. split; [done|]. simpl. by apply H2.
Qed.
Lemma plain_persist ks m c : mine c ks -> plain ks (persist s m c).
Proof.
  intros Hc. unfold persist. apply (obeys_bind _ _ _ (fun _ _ => True)).
  - by eapply obeys_plain, obeys_attempt, obeys_save.
  - intros [c'|e] ks' _ _; [plain_auto|]. apply plain_ignore. plain_auto.
Qed.

(** *** Turns *)
Definition prepared (p : preparedTurn) (ks : gset string) : Prop :=
  mine (pr_conversation p) ks /\ tq_UserId (pr_request p) = GoStr.FormatInt u /\
  tq_SessionId (pr_request p) = cv_SessionID (pr_conversation p).
Lemma prepared_more p ks ks' : prepared p ks -> ks ⊆ ks' -> prepared p ks'.
Proof. intros [H1 H2] H. split; [|done]. by eapply mine_more. Qed.
Lemma prepared_call p ks c : prepared p ks -> asked c = Some (tq_UserId (pr_request p), tq_SessionId (pr_request p)) ->
  plain ks (act c).
Proof. intros ([_ H1] & H2 & H3) Hc. apply obeys_act. destruct c; try done; simpl in *; injection Hc as -> ->; by rewrite H2, H3. Qed.
Lemma obeys_prepare ks input : in_RootUserID input = u ->
  obeys ks (prepareTurn s input) (fun x ks' => prepared x.1 ks' /\ harmless x.2).
Proof.
  intros Hu. unfold prepareTurn. destruct (String.eqb _ _); [apply obeys_throw|].
  eapply obeys_bind; [by apply obeys_resolve|]. intros c ks1 _ Hc.
  apply (obeys_bind _ _ _ (fun _ _ => True)); [unfold normalizeTurnRequestID; cbv zeta; plain_auto|]. intros id ks2 H2 _.
  eapply obeys_bind; [apply obeys_guards|]. intros release ks3 H3 Hrel.
  assert (Hp : mine (pending input id c) ks3).
  { unfold pending. apply mine_titled. apply (mine_more c ks1); [done|set_solver]. }
  eapply obeys_bind; [by eapply obeys_attempt, obeys_save|]. intros [c'|e] ks4 H4 Hs.
  - apply obeys_ret. intros ks5 H5. split; [|done]. split; [by eapply mine_more|]. simpl. by rewrite Hu.
  - plain_step; [apply Hrel|apply obeys_throw].
Qed.
Lemma plain_result ks input p result : prepared p ks -> plain ks (persistConversationResult s input p result).
Proof. intros [Hp _]. apply plain_persist. unfold finished. by apply mine_titled. Qed.
Lemma plain_failure ks input p ev : prepared p ks -> plain ks (emitStreamFailure s input p ev).
Proof.
  intros [Hp _]. unfold emitStreamFailure, persistConversationFailure. plain_step; [|plain_auto].
  apply plain_persist. unfold failed. by apply mine_titled.
Qed.
Lemma plain_event ks input p ev : prepared p ks -> plain ks (handleStreamEvent s input p ev).
Proof.
  intros Hp. unfold handleStreamEvent. destruct ev; cbv zeta; repeat first
    [by apply plain_result|by apply plain_failure|plain_step].
Qed.
Lemma plain_stream ks input p events e : prepared p ks -> plain ks (consumeTurnStream s input p events e).
Proof.
  revert ks. induction events as [|event events IH]; intros ks Hp; cbn [consumeTurnStream];
    (plain_step; [by eapply prepared_call|]).
  - unfold handleStreamReceiveError. destruct e; apply plain_failure; by eapply prepared_more.
  - plain_step; [by apply plain_event, (prepared_more _ ks)|]. destruct (_ : bool); [plain_auto|].
    apply IH, (prepared_more _ ks); [done|]. by etrans.
Qed.
Lemma plain_HandleTurn ks input : in_RootUserID input = u -> plain ks (HandleTurn s input).
Proof.
  intros Hu. unfold HandleTurn. eapply obeys_bind; [by apply obeys_prepare|]. intros [p release] ks1 _ [Hp Hrel].
  apply obeys_defer; [exact Hrel|]. plain_step; [by eapply prepared_call|]. plain_step; [|plain_auto].
  plain_step; [|plain_auto]. apply plain_result. by eapply prepared_more.
Qed.
Lemma plain_StreamTurn ks input : in_RootUserID input = u -> plain ks (StreamTurn s input).
Proof.
  intros Hu. unfold StreamTurn. eapply obeys_bind; [by apply obeys_prepare|]. intros [p release] ks1 _ [Hp Hrel].
  apply obeys_defer; [exact Hrel|]. plain_step; [plain_auto|]. plain_step; [eapply (prepared_call p); [by apply (prepared_more _ ks1)|done]|].
  match goal with |- obeys _ (match ?r with _ => _ end) _ => destruct r as [[events e]|code] end;
    [apply plain_stream|apply plain_failure]; apply (prepared_more _ ks1); first [done|set_solver].
Qed.
Lemma serve_owned ks q : user_of q = u -> plain ks (serve s q).
Proof.
  intros Hu. destruct q; cbn [serve user_of] in *; (plain_step; [|plain_auto]).
  - by apply plain_HandleTurn.
  - by apply plain_StreamTurn.
  - unfold ListConversations, listConversations, requireDB. cbv zeta. plain_auto.
  - rewrite Hu. unfold GetHistory. eapply obeys_bind; [apply obeys_owned|]. intros c ks1 _ [_ Hc]. plain_auto.
  - unfold DeleteConversation, deleteRemoteConversation, deleteConversationRecord, requireDB.
    rewrite Hu. eapply obeys_bind; [apply obeys_owned|]. intros c ks1 _ [_ Hc]. plain_auto.
Qed.
End one_request.

(** *** What the commands do to the rows *)
Section worlds.
Context {E : Env} {D : SqlEngine} {R : RedisServer} {AG : AgentClient}.
Notation DB := (DB D R).
Implicit Types (w : World DB).
Definition rows w : gmap Z Conversation := vw Conversation w.
#[export, refine] Instance agent_idle : Idle DB := {| idle := fun w w' => rows w' = rows w /\ (w_tick w <= w_tick w')%nat |}.
Proof. intros w w' Hw Ht. split; [|done]. unfold rows, vw. by rewrite Hw. Defined.
Lemma idle_rel : WorldRel idle.
Proof. split; [done| |done]. intros w1 w2 w3 [H1 H2] [H3 H4]. split; [congruence|lia]. Qed.
#[local] Hint Resolve idle_rel : steps.

Lemma idle_command {A} (f : Z -> rsrv -> res (A * rsrv)) : does idle (command f : M DB A).
Proof.
  pose proof idle_rel. unfold command. apply does_bind; [done|by apply does_now|]. intros t.
  apply does_bind; [done|by apply does_fault|]. intros []; [by apply does_throw|]. intros w.
  unfold bind, get_db, put_db. by destruct (f t _) as [[]|].
Qed.
Lemma idle_call {A} (f : nat -> A) : does idle (call f : M DB A).
Proof. intros w. split; [done|]. simpl. lia. Qed.
Definition writes_rows (c : Cmd) : bool := match c with CSave _ | CDelete _ _ => true | _ => false end.
Lemma idle_exec c : writes_rows c = false -> does idle (exec c).
Proof.
  pose proof idle_rel. intros Hc. destruct c; try done; simpl;
    first [apply idle_command|apply idle_call|unfold send; does_auto].
Qed.

Lemma rows_key w k c : rows w !! k = Some c -> conv_key (cv_SessionID c) = k.
Proof. intros H. apply (vw_key Conversation w _ _ H). Qed.
Lemma rows_now w w' m : now_db (aset m (abs (w_db w))) w w' -> rows w' = m /\ w_tick w' = Datatypes.S (w_tick w).
Proof. intros (Ha & _ & Ht). split; [|done]. unfold rows, vw. by rewrite Ha. Qed.
Lemma save_rows c w r w' :
  exec (CSave c) w = (r, w') ->
  (w_tick w <= w_tick w')%nat /\
  (rows w' = rows w \/ exists t, rows w' = <[conv_key (cv_SessionID c) := touched t c]> (rows w)).
Proof.
  revert r w'. apply wp_run. simpl. unfold save_touched, save. repeat wp_step. set (t := env_now _).
  apply (wp_update_byid Conversation).
  - intros r Hr. simpl in *. by rewrite Hr.
  - intros _. split; [simpl; lia|by left].
  - intros (r & k' & r' & _ & _ & _ & _ & [[=]|[=]]).
  - intros n w1 Hw Hn Hsame. apply rows_now in Hw as [Hw Ht]. simpl in Ht.
    change (vw Conversation (bump w)) with (rows w) in *.
    pose proof (update_at_cases (conv_key (cv_SessionID c)) (fun _ => true) (fun _ => touched t c) (rows w)) as Hcases.
    change (ent_id (touched t c)) with (conv_key (cv_SessionID c)) in *. rewrite <- Hw in Hcases.
    assert (Hdone : (w_tick w <= w_tick w1)%nat /\
      (rows w1 = rows w \/ exists t, rows w1 = <[conv_key (cv_SessionID c) := touched t c]> (rows w))).
    { split; [lia|]. destruct Hcases as [(r0 & _ & _ & H)|H]; [right; by exists t|by left]. }
    destruct (n =? 0) eqn:Hz; [|by repeat wp_step]. apply Z.eqb_eq in Hz.
    assert (Hkept : rows w1 = rows w).
    { destruct Hcases as [(r0 & Hr0 & _ & ->)|H]; [|exact H]. destruct (Hsame r0 Hr0 eq_refl) as [| ->]; [lia|].
      by apply insert_id. }
    apply (wp_insert_over Conversation); [done|by intros _; simpl; split; [lia|apply Hdone]|by simpl; split; [lia|apply Hdone]|..].
    + intros w2 Hw2 Hnone. apply rows_now in Hw2 as [Hw2 Ht2]. repeat wp_step. simpl in *. split; [lia|]. right. exists t.
      rewrite Hw2. destruct Hcases as [(r0 & _ & _ & H)|H]; [|by rewrite <- H]. exfalso. change (rows w1 !! conv_key (cv_SessionID c) = None) in Hnone.
      rewrite H in Hnone. by rewrite lookup_insert_eq in Hnone.
    + intros p w2 Hw2 Hp. apply rows_now in Hw2 as [Hw2 Ht2]. repeat wp_step. simpl in *. split; [lia|].
      left. rewrite Hw2. etrans; [|exact Hkept]. apply map_eq. intros j. rewrite lookup_upd_view.
      change (view (t_conversations (w_db w1))) with (rows w1). destruct (rows w1 !! j) as [x|] eqn:Hj; [|done]. simpl.
      destruct (p x) eqn:Hx; [|done]. f_equal.
      assert (j = conv_key (cv_SessionID c)) as -> by
        (rewrite <- (rows_key _ _ _ Hj); destruct Hp as [Hp|[_ Hp]]; [by apply Hp|by destruct (Hp _ Hx)]).
      rewrite Hkept in Hj. destruct (Hsame x Hj eq_refl) as [| <-]; [lia|by destruct c].
Qed.
Lemma delete_rows sid u w r w' :
  exec (CDelete sid u) w = (r, w') ->
  (w_tick w <= w_tick w')%nat /\
  (rows w' = rows w \/ rows w' = matching (fun c => negb (has_session sid c && of_root u c)) (rows w)).
Proof.
  revert r w'. apply wp_run. simpl. apply (wp_delete Conversation); [intros _; simpl; split; [lia|by left]|].
  intros w' [-> ->]%rows_now. split; [lia|by right].
Qed.
Lemma take_rows sid w c w' : exec (CTake sid) w = (Ok (Some c), w') -> rows w !! conv_key (cv_SessionID c) = Some c.
Proof.
  intros He.
  assert (H : wp (or_nil (take Conversation (has_session sid)))
    (fun r _ => forall c, r = Ok (Some c) -> rows w !! conv_key (cv_SessionID c) = Some c) w).
  { apply wp_or_nil, (wp_take Conversation).
    - intros _ r' Hn c' Hr. by destruct (Hn _ Hr).
    - intros _ r' Hn c' Hr. by destruct (Hn _ Hr).
    - intros c' Hc _ c'' [= ->]. exact Hc. }
  exact (proj1 (wp_run _ _ _) H _ _ He c eq_refl).
Qed.

(** *** Any number of requests *)
Variable s : Service.
Variable w0 : World DB.
Variable users : list Z.
Hypothesis unique_ids : forall n m, env_id n = env_id m -> n = m.

(** [owner] says whose every conversation is that was ever stored or begun. *)
Record owned_by (owner : gmap string Z) (xs : list knows) (tr : list (Label resp)) (w : World DB) : Prop := {
  ob_known : forall i u ks sid, xs !! i = Some (u, ks) -> sid ∈ ks -> owner !! sid = Some u;
  ob_rows : forall k c, rows w !! k = Some c -> owner !! cv_SessionID c = Some (cv_RootUserID c);
  ob_start : forall k c, rows w0 !! k = Some c -> owner !! cv_SessionID c = Some (cv_RootUserID c);
  ob_fresh : forall n, (w_tick w <= n)%nat -> owner !! session_of (env_id n) = None;
  ob_asked : forall l user sid, l ∈ tr -> asked (cmd l) = Some (user, sid) ->
    exists u, users !! who l = Some u /\ user = GoStr.FormatInt u /\ owner !! sid = Some u;
  ob_others : forall k c, cv_RootUserID c ∉ users -> (rows w !! k = Some c <-> rows w0 !! k = Some c);
}.
Definition private (xs : list knows) (tr : list (Label resp)) (w : World DB) : Prop :=
  xs.*1 = users /\ exists owner, owned_by owner xs tr w.

Lemma asked_may x c user sid : may x c -> asked c = Some (user, sid) -> user = GoStr.FormatInt x.1 /\ sid ∈ x.2.
Proof. destruct c; simpl; intros Hm Ha; by simplify_eq/=. Qed.
Lemma learns_user x c r : (learns x c r).1 = x.1.
Proof. destruct c; try done; simpl; destruct r as [r|]; try done. destruct r as [c|]; [by destruct (_ =? _)|done]. Qed.

(** The owners of the conversations a command may change. *)
Lemma rows_kept owner xs tr w i x c r w' :
  owned_by owner xs tr w -> xs !! i = Some x -> may x c -> x.1 ∈ users -> exec c w = (r, w') ->
  (w_tick w <= w_tick w')%nat /\
  (forall k c1, rows w' !! k = Some c1 -> owner !! cv_SessionID c1 = Some (cv_RootUserID c1)) /\
  (forall k c1, cv_RootUserID c1 ∉ users -> (rows w' !! k = Some c1 <-> rows w !! k = Some c1)).
Proof.
  intros Ho Hi Hm Hu He. destruct x as [u ks]. simpl in *. pose proof (ob_rows _ _ _ _ Ho) as Hrows.
  assert (Hidle : rows w' = rows w -> (forall k c1, rows w' !! k = Some c1 -> owner !! cv_SessionID c1 = Some (cv_RootUserID c1)) /\
    (forall k c1, cv_RootUserID c1 ∉ users -> (rows w' !! k = Some c1 <-> rows w !! k = Some c1))) by (by intros ->).
  destruct (writes_rows c) eqn:Hc.
  2: { destruct (idle_exec c Hc w) as [Hr Ht]. rewrite He in Hr, Ht. split; [done|]. by apply Hidle. }
  destruct c as [| | | | | | | | |c|sid v| | | | | | |]; try done.
  - destruct Hm as [Hroot Hk]. destruct (save_rows _ _ _ _ He) as [Ht [Hr|[t Hr]]]; [split; [done|by apply Hidle]|].
    split; [done|]. pose proof (ob_known _ _ _ _ Ho _ _ _ _ Hi Hk) as Hown. simpl in Hown. rewrite Hr. split.
    + intros k c1. destruct (decide (k = conv_key (cv_SessionID c))) as [->|Hne].
      * rewrite lookup_insert_eq. intros [= <-]. simpl. by rewrite Hroot.
      * rewrite lookup_insert_ne by done. apply Hrows.
    + intros k c1 Hc1. destruct (decide (k = conv_key (cv_SessionID c))) as [->|Hne]; [|by rewrite lookup_insert_ne].
      rewrite lookup_insert_eq. split.
      * intros [= <-]. simpl in Hc1. by rewrite Hroot in Hc1.
      * intros Hk1. pose proof (session_key_inj _ _ (rows_key _ _ _ Hk1)) as Hs. pose proof (Hrows _ _ Hk1) as Ho1.
        rewrite Hs, Hown in Ho1. injection Ho1 as ->. done.
  - simpl in Hm. subst v. destruct (delete_rows _ _ _ _ _ He) as [Ht [Hr|Hr]]; [split; [done|by apply Hidle]|].
    split; [done|]. rewrite Hr. split; intros k c1; [by intros [? _]%lookup_matching; eauto|].
    intros Hc1. rewrite lookup_matching. split; [by intros []|]. intros Hk1. split; [done|]. apply negb_true_iff, andb_false_iff.
    right. unfold of_root. apply Z.eqb_neq. congruence.
Qed.

(** The owners after a command. *)
Lemma owner_learned owner xs tr w i x c r w' :
  owned_by owner xs tr w -> xs !! i = Some x -> exec c w = (r, w') ->
  exists owner', owner ⊆ owner' /\ (forall sid, sid ∈ (learns x c r).2 -> sid ∈ x.2 \/ owner' !! sid = Some x.1) /\
    forall n, (w_tick w' <= n)%nat -> (w_tick w <= w_tick w')%nat -> owner' !! session_of (env_id n) = None.
Proof.
  intros Ho Hi He. assert (Hsame : (forall sid, sid ∈ (learns x c r).2 -> sid ∈ x.2 \/ owner !! sid = Some x.1) ->
    exists owner', owner ⊆ owner' /\ (forall sid, sid ∈ (learns x c r).2 -> sid ∈ x.2 \/ owner' !! sid = Some x.1) /\
    forall n, (w_tick w' <= n)%nat -> (w_tick w <= w_tick w')%nat -> owner' !! session_of (env_id n) = None).
  { intros H. exists owner. split; [done|]. split; [done|]. intros n Hn Ht. apply (ob_fresh _ _ _ _ Ho). lia. }
  destruct c; try (apply Hsame; by auto).
  - injection He as <- <-. exists (<[session_of (env_id (w_tick w)) := x.1]> owner).
    pose proof (ob_fresh _ _ _ _ Ho) as Hf. split; [apply insert_subseteq, Hf; lia|]. split.
    + simpl. intros sid [->%elem_of_singleton|]%elem_of_union; [right; by rewrite lookup_insert_eq|by left].
    + simpl. intros n Hn _. rewrite lookup_insert_ne; [apply Hf; lia|]. unfold session_of. intros [= Heq%GoStr.FormatInt_injective].
      apply unique_ids in Heq. lia.
  - apply Hsame. destruct r as [[c|]|]; auto. simpl. destruct (_ =? _) eqn:Hc; bools; auto.
    simpl. intros sid' [->%elem_of_singleton|]%elem_of_union; [right|by left]. rewrite <- Hc.
    apply (ob_rows _ _ _ _ Ho _ _ (take_rows _ _ _ _ He)).
Qed.

(** A command leaves the conversations of everybody else alone. *)
Lemma private_keeps xs tr w i x c r w' :
  xs !! i = Some x -> may x c -> private xs tr w -> exec c w = (r, w') ->
  let l := mkLabel i (w_tick w) c r in
  True -> exists x', after x c r x' /\ private (<[i := x']> xs) (tr ++ [l]) w'.
Proof.
  intros Hi Hm [Hu (owner & Ho)] He l _. exists (learns x c r). split; [done|]. split.
  { rewrite <- Hu. rewrite list_fmap_insert, learns_user. apply list_insert_id. by rewrite list_lookup_fmap, Hi. }
  assert (Hx : users !! i = Some x.1) by (rewrite <- Hu, list_lookup_fmap; by rewrite Hi).
  destruct (rows_kept _ _ _ _ _ _ _ _ _ Ho Hi Hm ltac:(by eapply list_elem_of_lookup_2) He) as (Ht & Hr & Hothers).
  destruct (owner_learned _ _ _ _ _ _ _ _ _ Ho Hi He) as (owner' & Hsub & Hk & Hf). exists owner'.
  assert (Hmore : forall sid v, owner !! sid = Some v -> owner' !! sid = Some v) by (intros sid v Hs; exact (lookup_weaken _ _ _ _ Hs Hsub)).
  split.
  - intros j v ks sid. destruct (decide (j = i)) as [->|Hne].
    + rewrite list_lookup_insert_eq by (by eapply lookup_lt_Some). intros [= Hl] Hsid.
      assert (Hs : sid ∈ (learns x c r).2) by (by rewrite Hl). destruct (Hk _ Hs) as [Hs'|Hs'].
      * apply Hmore. pose proof (learns_user x c r) as Hlu. rewrite Hl in Hlu. simpl in Hlu. subst.
        destruct x as [v ks0]. by eapply (ob_known _ _ _ _ Ho).
      * pose proof (learns_user x c r) as Hlu. rewrite Hl in Hlu. simpl in Hlu. by subst.
    + rewrite list_lookup_insert_ne by done. intros Hj Hsid. apply Hmore. by eapply (ob_known _ _ _ _ Ho).
  - eauto.
  - intros k c1 Hk1. apply Hmore. by eapply (ob_start _ _ _ _ Ho).
  - auto.
  - intros l' user sid [Hl'|Hl']%elem_of_app Ha.
    + destruct (ob_asked _ _ _ _ Ho _ _ _ Hl' Ha) as (v & H1 & H2 & H3). exists v. auto.
    + apply list_elem_of_singleton in Hl' as ->. simpl in Ha. destruct (asked_may _ _ _ _ Hm Ha) as [-> Hsid].
      exists x.1. split; [done|]. split; [done|]. apply Hmore. destruct x as [v ks0]. by eapply (ob_known _ _ _ _ Ho).
  - intros k c1 Hc1. rewrite Hothers by done. by apply (ob_others _ _ _ _ Ho).
Qed.
End worlds.

Section runs.
Context {PE : ProtoEnum} {E : Env} {D : SqlEngine} {R : RedisServer} {AG : AgentClient}.
Notation DB := (DB D R).
Variable s : Service.

Definition ignorant (v : Z) : knows := (v, ∅).
Lemma ignorant_users us : (ignorant <$> us).*1 = us.
Proof. induction us as [|v us IH]; [done|]. cbn. by f_equal. Qed.
(** The owners of the rows at the start. *)
Definition owners (w : World DB) : list (string * Z) :=
  (fun kc : Z * Conversation => (cv_SessionID kc.2, cv_RootUserID kc.2)) <$> map_to_list (rows w).
Lemma owners_nodup w : NoDup (owners w).*1.
Proof.
  unfold owners. rewrite <- list_fmap_compose. apply NoDup_fmap_2_strong; [|apply NoDup_map_to_list].
  intros [k1 c1] [k2 c2] H1%elem_of_map_to_list H2%elem_of_map_to_list Heq. simpl in Heq.
  pose proof (rows_key _ _ _ H1) as K1. pose proof (rows_key _ _ _ H2) as K2. rewrite Heq in K1. simplify_eq. congruence.
Qed.
Lemma owners_row w k c : rows w !! k = Some c -> (list_to_map (owners w) : gmap string Z) !! cv_SessionID c = Some (cv_RootUserID c).
Proof.
  intros Hc. apply elem_of_list_to_map_1; [apply owners_nodup|]. apply list_elem_of_fmap. exists (k, c).
  split; [done|]. by apply elem_of_map_to_list.
Qed.
Lemma owners_none w sid : (forall k c, rows w !! k = Some c -> cv_SessionID c <> sid) ->
  (list_to_map (owners w) : gmap string Z) !! sid = None.
Proof.
  intros H. apply not_elem_of_list_to_map_1. unfold owners. rewrite <- list_fmap_compose.
  intros ([k c] & -> & Hc%elem_of_map_to_list)%list_elem_of_fmap. by apply (H k c Hc).
Qed.

(** C20: Requests of one user leave the conversations of every other user alone, and what
    the agent is asked names the user of the request and never a conversation stored for
    another, in every interleaving and whatever fails, if ids are unique. *)
Theorem conversations_private reqs (w0 : World DB) tr ps w :
  (forall n m, env_id n = env_id m -> n = m) ->
  (forall n k c, (w_tick w0 <= n)%nat -> rows w0 !! k = Some c -> cv_SessionID c <> session_of (env_id n)) ->
  trace exec (serve s <$> reqs) w0 tr ps w ->
  (forall k c, cv_RootUserID c ∉ user_of <$> reqs -> (rows w !! k = Some c <-> rows w0 !! k = Some c)) /\
  (forall l user sid, l ∈ tr -> asked (cmd l) = Some (user, sid) ->
     exists q, reqs !! who l = Some q /\ user = GoStr.FormatInt (user_of q) /\
       forall k c, (rows w0 !! k = Some c \/ rows w !! k = Some c) -> cv_SessionID c = sid -> cv_RootUserID c = user_of q).
Proof.
  intros Hid Hfresh Ht. set (users := user_of <$> reqs).
  assert (Hstart : private w0 users (ignorant <$> users) [] w0).
  { split; [apply ignorant_users|].
    exists (list_to_map (owners w0)). split; [|exact (owners_row w0)|exact (owners_row w0)| |by intros l ? ? ?%elem_of_nil|done].
    - intros i u ks sid (v & [= -> ->] & _)%list_lookup_fmap_Some Hsid. by apply elem_of_empty in Hsid.
    - intros n Hn. apply owners_none. intros k c. by apply Hfresh. }
  destruct (trace_invariant may after exec (fun _ => True) (private w0 users) (private_keeps w0 users Hid) (fun _ _ _ => True)
    _ _ _ _ _ (ignorant <$> users) Ht) as (xs & _ & [Hu (owner & Ho)] & _);
    [by apply Forall_true|unfold users; by rewrite !length_fmap| |done|].
  - intros i x p Hx Hp. apply list_lookup_fmap_Some in Hp as (q & -> & Hq).
    apply list_lookup_fmap_Some in Hx as (v & -> & Hv). unfold users in Hv. rewrite list_lookup_fmap, Hq in Hv. injection Hv as <-.
    eapply wlp_mono; [by apply (serve_owned s (user_of q) ∅)|]. done.
  - split; [exact (ob_others _ _ _ _ _ _ Ho)|]. intros l user sid Hl Ha.
    destruct (ob_asked _ _ _ _ _ _ Ho _ _ _ Hl Ha) as (v & Hv & -> & Hown).
    apply list_lookup_fmap_Some in Hv as (q & -> & Hq). exists q. split; [done|]. split; [done|].
    intros k c [Hc|Hc] <-; [apply (ob_start _ _ _ _ _ _ Ho) in Hc|apply (ob_rows _ _ _ _ _ _ Ho) in Hc]; congruence.
Qed.
End runs.
End AgentOwners.

(** ** What a client sees of a stream *)
Module AgentStreams.
Import Prog Agentv1 Agent AgentService AgentLogic AgentQuiet.
Open Scope Z_scope.

(** The events a request sent, and the conversation it saved last. *)
Notation view := (list WSEvent * option Conversation)%type.
Definition notes (x : view) (c : Cmd) : res (resp c) -> view :=
  match c return res (resp c) -> view with
  | CEmit ev => fun r => if is_ok r then (x.1 ++ [ev], x.2) else x
  | CSave c => fun _ => (x.1, Some c)
  | _ => fun _ => x
  end.
Definition observed (i : nat) (tr : list (Label resp)) : view :=
  foldl (fun x l => if Nat.eqb (who l) i then notes x (cmd l) (answer l) else x) ([], None) tr.

Definition event_of (sid : string) (ev : WSEvent) : Prop := ev_ConversationID ev = sid.
Definition is_accepted (ev : WSEvent) : bool := String.eqb (ev_Type ev) "agent_turn.accepted".
Definition is_progress (ev : WSEvent) : bool :=
  String.eqb (ev_Type ev) "agent_turn.status" || String.eqb (ev_Type ev) "agent_turn.delta".
(** The last event of a stream tells what was saved. *)
Definition tells (ev : WSEvent) (c : Conversation) : Prop :=
  match ev_Result ev with
  | Some result =>
    ev_Type ev = "agent_turn.final"%string /\ cv_LastTraceID c = rs_TraceID result /\
    cv_Status c = if String.eqb (rs_ErrorCode result) unspecified then conversationStatusReady else conversationStatusError
  | None =>
    ev_Type ev = "agent_turn.error"%string /\ cv_Status c = conversationStatusError /\
    cv_LastAssistantPreview c = previewText (ev_Message ev) 120
  end.
(** The events of a stream that is over: complete when it succeeded, without a last
    event when it did not. *)
Definition well_formed {A} (r : res A) (x : view) : Prop :=
  match r with
  | Ok _ => exists first progress last c,
      x = (first :: progress ++ [last], Some c) /\ is_accepted first = true /\ Forall (fun ev => is_progress ev = true) progress /\
      tells last c /\ Forall (event_of (cv_SessionID c)) (fst x)
  | Err _ => x.1 = [] \/ exists first progress,
      x.1 = first :: progress /\ is_accepted first = true /\ Forall (fun ev => is_progress ev = true) progress
  end.

Definition may (x : view) (c : Cmd) : Prop := True.
Definition after (x : view) (c : Cmd) (r : res (resp c)) (x' : view) : Prop := x' = notes x c r.
Notation wlp := (wlp may after).

Section one_stream.
Context {PE : ProtoEnum}.
Variable s : Service.

Lemma quiet_redis c x : redis_command c || (if c is CNow then true else false) = true ->
  may x c /\ forall r x', after x c r x' -> x' = x.
Proof. intros Hc. split; [done|]. intros r x' ->. by destruct c. Qed.
Notation inert p := (inert may after p).

(** A command that is neither sent nor saved. *)
Lemma inert_other c : match c with CEmit _ | CSave _ => False | _ => True end -> inert (act c).
Proof. intros Hc x. apply wlp_act; [done|]. intros r x' ->. by destruct c. Qed.
Ltac inert_auto :=
  repeat match goal with
  | |- inert (pret _) => apply inert_ret
  | |- inert (pthrow _) => apply inert_throw
  | |- inert (pbind _ _) => apply inert_bind; [|intros ?]
  | |- inert (pattempt _) => apply inert_attempt
  | |- inert (pmap_err _ _) => apply inert_map_err
  | |- inert (act _) => by apply inert_other
  | |- inert (if ?b then _ else _) => destruct b
  | |- inert (match ?x with _ => _ end) => destruct x
  end.

(** *** Saving and sending *)
Lemma notes_save c x :
  wlp (saveConversation s c)
    (fun r x' => x'.1 = x.1 /\ match r with Ok c' => db_set s = true /\ exists t, c' = touched t c | Err _ => True end /\
       (db_set s = true -> x'.2 = Some c)) x.
Proof.
  unfold saveConversation, requireDB. destruct (db_set s).
  - prog_step. prog_step. prog_step. prog_step. apply wlp_act; [done|]. intros [t|e] x' ->; [prog_step|]; simpl; eauto.
  - prog_step. by prog_step.
Qed.
Lemma notes_persist m c x : db_set s = true -> wlp (persist s m c) (fun r x' => r = Ok tt /\ x' = (x.1, Some c)) x.
Proof.
  intros Hdb. unfold persist, ignore. prog_step. prog_step. eapply wlp_mono; [apply notes_save|].
  intros r x' (Hx & _ & Hc). assert (x' = (x.1, Some c)) as -> by (destruct x'; simpl in *; rewrite Hc by done; by subst).
  destruct r as [c'|e]; cbv beta iota; [by prog_step|]. prog_step. prog_step. apply wlp_act; [done|]. intros r x' ->. by prog_step.
Qed.
Lemma notes_emit ev x :
  wlp (act (CEmit ev)) (fun r x' => x' = if is_ok r then (x.1 ++ [ev], x.2) else x) x.
Proof. apply wlp_act; [done|]. intros r x' ->. done. Qed.

(** *** The progress of a stream *)
Definition running (sid : string) (l : list WSEvent) : Prop :=
  exists first progress, l = first :: progress /\ is_accepted first = true /\
    Forall (fun ev => is_progress ev = true) progress /\ Forall (event_of sid) l.
Lemma running_more sid l ev : running sid l -> is_progress ev = true -> event_of sid ev -> running sid (l ++ [ev]).
Proof.
  intros (first & progress & -> & Hf & Hp & Hl) He Hs. exists first, (progress ++ [ev]).
  do 2 (split; [done|]). split; apply Forall_app; by rewrite Forall_singleton.
Qed.
Lemma running_done {A} sid l ev c (a : A) :
  running sid l -> tells ev c -> event_of sid ev -> cv_SessionID c = sid -> well_formed (Ok a) (l ++ [ev], Some c).
Proof.
  intros (first & progress & -> & Hf & Hp & Hl) He Hs <-. exists first, progress, ev, c. do 4 (split; [done|]).
  apply (Forall_app _ (first :: progress) [ev]). by rewrite Forall_singleton.
Qed.
Lemma running_broken {A} sid l c (e : error) : running sid l -> well_formed (Err e : res A) (l, c).
Proof. intros (first & progress & -> & Hf & Hp & _). right. eauto. Qed.

Section events.
Variable input : TurnInput.
Variable p : preparedTurn.
Hypothesis with_db : db_set s = true.
Let sid : string := cv_SessionID (pr_conversation p).
Notation ends := (fun r x => well_formed r x).

Lemma session_failed m : cv_SessionID (failed input (pr_requestID p) m (pr_conversation p)) = sid.
Proof. unfold failed, titled. by destruct (String.eqb _ _). Qed.
Lemma session_finished result : cv_SessionID (finished input (pr_requestID p) result (pr_conversation p)) = sid.
Proof. unfold finished, titled. by destruct (String.eqb _ _). Qed.
Lemma error_told code m :
  tells (errorEvent p code m) (failed input (pr_requestID p) m (pr_conversation p)).
Proof. unfold failed, titled, tells. simpl. by destruct (String.eqb _ _). Qed.
Lemma final_told result :
  tells (finalTurnEvent p result) (finished input (pr_requestID p) result (pr_conversation p)).
Proof. unfold finished, titled, tells. cbn [finalTurnEvent ev_Result ev_Type]. by destruct (String.eqb (cv_Title _) _). Qed.

Lemma failure_ends code m x :
  running sid x.1 -> wlp (emitStreamFailure s input p (errorEvent p code m)) ends x.
Proof.
  intros Hr. unfold emitStreamFailure, persistConversationFailure. prog_step. eapply wlp_mono; [by apply notes_persist|].
  intros r x' [-> ->]. eapply wlp_mono; [apply notes_emit|]. intros [[]|e] x' ->; cbn [is_ok fst snd].
  - eapply running_done; [exact Hr|apply error_told|done|apply session_failed].
  - by eapply running_broken.
Qed.
Lemma received_ends e x : running sid x.1 -> wlp (handleStreamReceiveError s input p e) ends x.
Proof.
  intros Hr. destruct e as [|code]; simpl; [by apply failure_ends|]. unfold streamErrorEvent.
  destruct (wsErrorFromCallErr code). by apply failure_ends.
Qed.
Lemma event_ends ev x :
  running sid x.1 ->
  wlp (handleStreamEvent s input p ev)
    (fun r x' => match r with Ok false => running sid x'.1 | Ok true => well_formed (Ok tt) x' | Err e => well_formed (Err e : res unit) x' end) x.
Proof.
  intros Hr.
  assert (Hfail : forall code m, wlp (pbind (emitStreamFailure s input p (errorEvent p code m)) (fun _ => pret true))
    (fun r x' => match r with Ok false => running sid x'.1 | Ok true => well_formed (Ok tt) x' | Err e => well_formed (Err e : res unit) x' end) x).
  { intros code m. prog_step. eapply wlp_mono; [by apply failure_ends|]. intros [[]|e] x' Hx; [|done]. by prog_step. }
  destruct ev; cbn [handleStreamEvent]; try apply Hfail.
  1, 2: prog_step; eapply wlp_mono; [apply notes_emit|]; intros [[]|e] x' ->; [prog_step; by apply running_more|destruct x; by eapply running_broken].
  cbv zeta. unfold persistConversationResult. prog_step. eapply wlp_mono; [by apply notes_persist|]. intros r x' [-> ->]. prog_step.
  eapply wlp_mono; [apply notes_emit|]. intros [[]|e] x' ->; [prog_step|by eapply running_broken].
  eapply running_done; [exact Hr|apply final_told|done|apply session_finished].
Qed.
Lemma stream_ends events e x : running sid x.1 -> wlp (consumeTurnStream s input p events e) ends x.
Proof.
  revert x. induction events as [|ev events IH]; intros x Hr; cbn [consumeTurnStream]; prog_step;
    (apply wlp_inert; [by apply inert_other|]); (intros [y|e']; [|destruct x; by eapply running_broken]).
  - by apply received_ends.
  - prog_step. eapply wlp_mono; [by apply event_ends|]. intros [[]|e'] x' Hx; [by prog_step|by apply IH|done].
Qed.
End events.

Lemma prepare_quiet input :
  wlp (prepareTurn s input)
    (fun r x => x.1 = [] /\ match r with Ok (p, release) => db_set s = true /\ inert release | Err _ => True end) ([], None).
Proof.
  unfold prepareTurn. prog_step; [by prog_step|]. prog_step.
  apply wlp_inert.
  { unfold resolveConversation, newConversation, requireOwnedConversation, getConversation, requireDB. inert_auto. }
  intros [c|e]; [|done]. prog_step. apply wlp_inert; [unfold normalizeTurnRequestID; cbv zeta; inert_auto|].
  intros [id|e]; [|done]. prog_step. eapply wlp_mono; [apply inert_guards, quiet_redis|]. intros [release|e] x [-> Hrel]; [|done].
  prog_step. prog_step. eapply wlp_mono; [apply notes_save|]. intros [c'|e] x (Hx & Hs & _); cbv beta iota.
  - prog_step. split; [done|]. by destruct Hs.
  - prog_step. apply wlp_inert; [apply Hrel|]. by intros [].
Qed.
Lemma StreamTurn_ends input : wlp (StreamTurn s input) well_formed ([], None).
Proof.
  unfold StreamTurn. prog_step. eapply wlp_mono; [apply prepare_quiet|]. intros [[p release]|e] x [Hx Hs]; [|by left].
  destruct Hs as [Hdb Hrel]. prog_step. eapply (wlp_mono _ _ _ well_formed); [|by intros r x' Hw; apply wlp_inert].
  prog_step. eapply wlp_mono; [apply notes_emit|]. intros [[]|e] x' ->; [|by left].
  assert (Hr : running (cv_SessionID (pr_conversation p)) (x.1 ++ [acceptedTurnEvent p])).
  { rewrite Hx. exists (acceptedTurnEvent p), []. repeat split; [constructor|]. by apply Forall_singleton. }
  prog_step. apply wlp_inert; [by apply inert_other|].
  intros [[[events e]|code]|e]; [by apply stream_ends| |by eapply running_broken].
  unfold streamErrorEvent. destruct (wsErrorFromCallErr code). by apply failure_ends.
Qed.
End one_stream.

(** *** In every interleaving *)
Section runs.
Context {PE : ProtoEnum} {E : Env} {D : SqlEngine} {R : RedisServer} {AG : AgentClient}.
Notation DB := (DB D R).
Variable s : Service.

Lemma observed_snoc i tr l :
  observed i (tr ++ [l]) = if Nat.eqb (who l) i then notes (observed i tr) (cmd l) (answer l) else observed i tr.
Proof. unfold observed. by rewrite foldl_app. Qed.
Definition views (xs : list view) (tr : list (Label resp)) (w : World DB) : Prop :=
  forall i x, xs !! i = Some x -> x = observed i tr.
Lemma views_keep xs tr w i x c r w' :
  xs !! i = Some x -> may x c -> views xs tr w -> exec c w = (r, w') ->
  let l := mkLabel i (w_tick w) c r in
  True -> exists x', after x c r x' /\ views (<[i := x']> xs) (tr ++ [l]) w'.
Proof.
  intros Hi _ HJ _ l _. exists (notes x c r). split; [done|]. intros j y. rewrite observed_snoc. simpl.
  destruct (Nat.eqb_spec i j) as [<-|Hne].
  - rewrite list_lookup_insert_eq by (by eapply lookup_lt_Some). intros [= <-]. by rewrite <- (HJ _ _ Hi).
  - rewrite list_lookup_insert_ne by done. apply HJ.
Qed.
Lemma wlp_any {A} (p : prog A) x : wlp p (fun _ _ => True) x.
Proof. revert x. induction p as [r|c k IH]; simpl; [done|]. split; [done|]. intros r x' _. apply IH. Qed.

(** C21: A stream that succeeds sends its client an accepted event, then progress, then one
    last event, all of the same conversation, and the last one tells the status the
    conversation was saved with; a stream that fails never sends a last event.  This
    holds in every interleaving and whatever the agent sends. *)
Theorem stream_told reqs (w0 : World DB) tr ps w i input r :
  trace exec (serve s <$> reqs) w0 tr ps w ->
  reqs !! i = Some (RStream input) -> ps !! i = Some (Ret r) ->
  well_formed r (observed i tr).
Proof.
  intros Ht Hi Hp.
  destruct (trace_invariant may after exec (fun _ => True) views views_keep (fun j (r : res Reply) x => j = i -> well_formed r x)
    _ _ _ _ _ (replicate (length reqs) ([], None)) Ht) as (xs & Hlen & HJ & Hps);
    [by apply Forall_true|by rewrite length_replicate, length_fmap| | |].
  - intros j x p Hx Hpj. apply lookup_replicate in Hx as [-> _]. apply list_lookup_fmap_Some in Hpj as (q & -> & Hq).
    destruct (decide (j = i)) as [->|Hne]; [|by eapply wlp_mono; [apply wlp_any|]].
    rewrite Hi in Hq. injection Hq as <-. cbn [serve]. prog_step. eapply wlp_mono; [apply StreamTurn_ends|].
    intros [[]|e] x Hx; [by prog_step|done].
  - intros j x Hx. by apply lookup_replicate in Hx as [-> _].
  - destruct (lookup_lt_is_Some_2 xs i) as [x Hx]; [rewrite Hlen; by eapply lookup_lt_Some|].
    rewrite <- (HJ _ _ Hx). by apply (Hps _ _ _ Hx Hp).
Qed.
End runs.
End AgentStreams.

(** ** A run *)
Module AgentDemo.
Import Prog Agentv1 Agent AgentService AgentLogic AgentQuiet AgentGuards AgentOwners AgentStreams.
Open Scope Z_scope.

(** A runtime that writes the other numbers in decimal. *)
#[export, refine] Instance decimal_enum : ProtoEnum := {|
  EnumStringOf names n := default (GoStr.FormatInt n) ((list_to_map names : gmap Z string) !! n)
|}.
Proof. by intros names n x ->. Defined.

(** A step takes a second. *)
#[export] Instance demo_env : Env := {|
  env_now n := (1700000000 + Z.of_nat n) * GoTime.Second; env_id n := Z.of_nat n; env_fault _ := false
|}.
Definition demo_response : HandleTurnResponse := mkHandleTurnResponse 1 1 2 "hello" "trace" false "" 0 [].
#[export] Instance demo_agent : AgentClient := {|
  agent_HandleTurn _ q := if String.eqb (tq_Utterance q) "break" then inr Unavailable else inl (Some demo_response);
  agent_Stream _ _ := inl ([Status "plan" "thinking"; Delta "hel"; Delta "lo"; FinalResponse demo_response], EOF);
  agent_History _ _ := inl None;
  agent_Delete _ _ := inl tt;
|}.
(** The default limits. *)
Definition service : Service := mkService true true None.
Definition turn (u : Z) (id text : string) : TurnInput := mkTurnInput "" id text u u "real" "" "" "" "".
Definition other : Conversation := mkConversation "s9" 9 9 9 "title" "" "" "" "" conversationStatusReady 5 5.
Definition start : World (DB gmap_sql gmap_server) := mkWorld (mkDB (grows [other]) (∅ : rsrv)) 0 [].
Definition run (reqs : list Request) (schedule : list nat) := play exec schedule [] (serve service <$> reqs) start.
Definition labels {A} (x : list (Label resp) * list (prog A) * World (DB gmap_sql gmap_server)) := x.1.1.
Definition programs {A} (x : list (Label resp) * list (prog A) * World (DB gmap_sql gmap_server)) := x.1.2.
Lemma run_trace reqs schedule :
  let x := run reqs schedule in trace exec (serve service <$> reqs) start (labels x) (programs x) x.2.
Proof.
  intros x. pose proof (play_runs exec schedule (serve service <$> reqs) start) as H. fold (run reqs schedule) in H.
  subst x. by destruct (run reqs schedule) as [[tr ps] w].
Qed.
Lemma start_idle t K : idle t K (server start).
Proof. by intros v e Hk. Qed.
(** The steadiness of a trace is decided. *)
Definition steadyb (ttl t0 : Z) (l : Label resp) : bool :=
  if redis_command (cmd l) then is_ok (answer l) && (t0 <=? env_now (tick l)) && (env_now (tick l) <? t0 + ttl) else true.
Lemma steadyb_steady ttl t0 tr : forallb (steadyb ttl t0) tr = true -> Forall (steady ttl t0) tr.
Proof.
  intros H. rewrite forallb_forall in H. apply Forall_forall. intros l Hl%list_elem_of_In%H Hr. unfold steadyb in Hl.
  rewrite Hr in Hl. by bools.
Qed.

Definition requests : list Request :=
  [RStream (turn 7 "" "hello"); RTurn (turn 7 "" "hello"); RStream (turn 7 "" "hello"); RHistory 7 "s9" None 10; RList 9 1 10].
Definition all_at_once (n : nat) : list nat := concat (replicate n [0; 1; 2; 3; 4]%nat).

(** In the middle of the run both turns user 7 is allowed call the agent; the third was
    refused. *)
Definition middle := run requests (all_at_once 7 ++ [2]%nat).
Lemma agent_turns_bounded_witness :
  many (calls_of_user 7) (programs middle) = 2 /\
  many (calls_of_user 7) (programs middle) <= maxConcurrentPerUser service /\
  many (calls_in_session "agent-session-1") (programs middle) <= maxConcurrentPerConversation service.
Proof.
  split; [vm_compute; reflexivity|].
  apply (agent_turns_bounded service eq_refl requests start (labels middle) (programs middle) middle.2 (env_now 0)).
  - apply run_trace.
  - apply steadyb_steady. vm_compute. reflexivity.
  - intros K _. apply start_idle.
Defined.

Definition whole := run requests (all_at_once 20).
Lemma agent_guards_returned_witness : idle (env_now 100) (activeUserKey 7) (server whole.2).
Proof.
  apply (agent_guards_returned service eq_refl requests start (labels whole) (programs whole) whole.2 (env_now 0)).
  - apply run_trace.
  - apply steadyb_steady. vm_compute. reflexivity.
  - left. by eexists.
  - apply start_idle.
  - apply Forall_forall. intros p. vm_compute. set_solver.
  - vm_compute. congruence.
Defined.

Lemma start_rows k c : rows start !! k = Some c -> c = other.
Proof.
  unfold rows. change (vw Conversation start) with (proj1_sig (grows [other])). 
  replace (proj1_sig (grows [other])) with ({[conv_key "s9" := other]} : gmap Z Conversation) by (vm_compute; reflexivity).
  by intros [_ <-]%lookup_singleton_Some.
Qed.
Lemma conversations_private_witness :
  rows whole.2 !! conv_key "s9" = Some other /\
  (forall k c, cv_RootUserID c ∉ user_of <$> requests -> (rows whole.2 !! k = Some c <-> rows start !! k = Some c)).
Proof.
  split; [vm_compute; reflexivity|].
  apply (conversations_private service requests start (labels whole) (programs whole) whole.2).
  - intros n m H. apply Nat2Z.inj, H.
  - intros n k c _ ->%start_rows. discriminate.
  - apply run_trace.
Defined.

Lemma stream_told_witness :
  (ev_Type <$> (observed 2 (labels whole)).1) =
    ["agent_turn.accepted"; "agent_turn.status"; "agent_turn.delta"; "agent_turn.delta"; "agent_turn.final"]%string /\
  well_formed (Ok Streamed) (observed 2 (labels whole)).
Proof.
  split; [vm_compute; reflexivity|].
  apply (stream_told service requests start (labels whole) (programs whole) whole.2 2 (turn 7 "" "hello")).
  - apply run_trace.
  - reflexivity.
  - vm_compute. reflexivity.
Defined.
End AgentDemo.

(** ** Defects *)
Module AgentFindings.
Import Prog Agentv1 Agent AgentService AgentLogic AgentQuiet AgentGuards AgentOwners AgentStreams AgentDemo.
Open Scope Z_scope.

(** Turns that overlap keep the counter above zero, so its lifetime is never renewed: it
    expires under the last of them, whose release then counts below zero, for good. *)
Definition begin (i : nat) : list nat := replicate 8 i.
Definition finish (i : nat) : list nat := replicate 6 i.
Definition overlapping : list nat :=
  (begin 0 ++ begin 1 ++ finish 0 ++ begin 2 ++ finish 1 ++ begin 3 ++ finish 2 ++ begin 4 ++ finish 3 ++ begin 5 ++
   finish 4 ++ begin 6 ++ finish 5 ++ begin 7 ++ finish 6 ++ finish 7 ++
   begin 8 ++ replicate 7 9 ++ replicate 7 10 ++ replicate 7 11)%nat.
Definition many_turns := run (replicate 12 (RTurn (turn 7 "" "hello"))) overlapping.
(** Every turn is shorter than half the lifetime of a counter. *)
Definition short (tr : list (Label resp)) : bool :=
  forallb (fun l1 => forallb (fun l2 =>
    negb (Nat.eqb (who l1) (who l2)) || (env_now (tick l2) - env_now (tick l1) <? GoTime.Minute)) tr) tr.
Theorem expired_counter_loosens_limit :
  forallb (fun l => negb (redis_command (cmd l)) || is_ok (answer l)) (labels many_turns) = true /\
  short (labels many_turns) = true /\ guardTTL service = 2 * GoTime.Minute /\
  maxConcurrentPerUser service = 2 /\ many (calls_of_user 7) (programs many_turns) = 4.
Proof. vm_compute. repeat split. Qed.

(** A turn whose call of the agent fails leaves its conversation pending. *)
Definition broken := run [RTurn (turn 9 "s9" "break")] (replicate 20 0%nat).
Theorem failed_turn_stays_pending :
  programs broken = [Ret (Err ErrAgentUnavailable)] /\
  cv_Status <$> rows broken.2 !! conv_key "s9" = Some conversationStatusPending.
Proof. vm_compute. by split. Qed.

(** A conversation deleted during one of its turns is stored again when the turn ends. *)
Definition resurrected := run [RTurn (turn 9 "s9" "hello"); RDelete 9 "s9"] (begin 0 ++ replicate 9 1%nat ++ replicate 9 0%nat).
Theorem deleted_conversation_returns :
  programs resurrected !! 1%nat = Some (Ret (Ok Deleted)) /\
  is_Some (rows resurrected.2 !! conv_key "s9").
Proof. vm_compute. by eauto. Qed.
End AgentFindings.
